(* ===== verification/_CoqProject ===== *)
-Q . S2P
Prelude.v
CMonad.v
BitConfig.v
CiCommands.v
Rank.v
Ci.v
Ufi.v
Select.v
CiEncoding.v
WaveGen.v
Frame.v
Mux.v
UfiMemory.v
Runner.v
VpdDb.v
Vpd.v
Repair.v
Config.v
ThreadJob.v
ThreadJobInv.v
ThreadJobWorkers.v
ThreadJobClients.v
ThreadJobReach.v
ThreadJobSync.v
ThreadJobProps.v
ThreadJobLocks.v
XeonInterleave.v
XeonSg.v
XeonBank.v
XeonRead.v
XeonPool.v
XeonProps.v
DpuSet.v
DpuAlloc.v
DpuAllocProps.v
DpuGroups.v
SymbolAccess.v
SgTransfer.v
Interleave.v
PidComm.v
PidMachine.v
PidAccess.v
PidThreads.v
PidKernel.v
PidAllToAll.v
PidGather.v
PidAllGather.v
PidSum.v
PidWrites.v
PidReduce.v
PidReduceScatter.v
PidAllReduce.v
PidAllReduceCall.v
