(* ===== verification/Prelude.v ===== *)
(** * Verification of the DPU host backend

    The repository is the host side of a machine whose memory modules hold
    processors (DPUs): a host program allocates ranks of DPUs, resets and
    configures them, loads programs, moves data between its memory and that of
    the DPUs, launches the DPUs and waits for them. A rank has up to eight
    control interfaces (CI, or slices), each with up to eight DPUs; all a host
    can do to a rank is to send every interface a 64-bit command and to read back
    a 64-bit answer, plus the accesses to the MRAM banks.

    This development is a library of shallow embeddings of the C code (pure
    functions, computations in a state-and-status monad, and one transition
    system for the threads), with the theorems that make each part correct.

    ** The parts and their files

    - Prelude.v: machine integers as [Z] with their wrap-around written out,
      arrays as lists, loops, bits, bytes and words; tactics and hint databases.
    - CMonad.v: C functions that return a [dpu_error_t]: [C S A] threads the
      state and gives the status; [wp] is its program logic. [X] adds the two
      ends of a program that are not a status: [abort] and undefined behaviour.
    - Rank.v: [struct dpu_rank_t] and what it contains
      ([src/commons/include/dpu_rank.h] and the headers it includes).
    - BitConfig.v: [src/ufi/src/ufi_bit_config.c], the pin shuffling.
    - CiCommands.v, CiEncoding.v: every command word of
      [src/ufi/include/ufi/ufi_ci_commands.h], and reading them back.
    - Ci.v: [src/ufi/src/ufi_ci.c], the command protocol: a packet of commands
      is committed and the answers are polled.
    - Ufi.v, Select.v: [src/ufi/src/ufi.c], the operations made of commands,
      and the agreement of the cached selection with the hardware.
    - WaveGen.v: [src/ufi/src/ufi_dma_wavegen_config.c], DMA engine and refresh.
    - Frame.v: what the exchanges leave unchanged in a rank.
    - Mux.v: the MRAM muxes ([ufi_config.c], [src/api/src/dpu_config.c]).
    - Repair.v, Config.v: memory repair and [ci_reset_rank] ([ufi_config.c]).
    - UfiMemory.v: [src/ufi/src/ufi_memory.c] and the entry points of
      [src/api/src/dpu_memory.c].
    - Runner.v: [src/api/src/dpu_runner.c], [dpu_custom.c] and the polling of
      [src/api/src/api/dpu_polling.c].
    - VpdDb.v, Vpd.v: [src/vpd/src/], the vital product data of a module.
    - ThreadJob.v: [src/api/src/api/dpu_thread_job.c] and [dpu_callback], the
      queues of jobs; ThreadJobInv.v (the invariant), ThreadJobWorkers.v,
      ThreadJobClients.v, ThreadJobReach.v (every action keeps it),
      ThreadJobSync.v (no synchronisation is lost), ThreadJobProps.v (properties);
      ThreadJobLocks.v: the mutexes that the threads take around their critical
      sections, and the end of the requests.
    - XeonInterleave.v, XeonSg.v, XeonBank.v, XeonRead.v, XeonPool.v,
      XeonProps.v: [src/hw/src/mappings/xeon_sp/xeon_sp_translation.c], from the
      transposition of the bytes to the threads that copy buffers to the banks.
    - DpuSet.v: the sets of [src/api/src/api/dpu_set.c] and their iterators;
      DpuAlloc.v, DpuAllocProps.v: their allocation and release.
    - SymbolAccess.v: [src/api/src/api/dpu_memory.c], the accesses to the symbols
      of a set of DPUs; SgTransfer.v: its scatter/gather transfers.
    - DpuGroups.v: the loop over a set in the order of the groups of eight DPUs,
      one of each interface ([DPU_FOREACH_ENTANGLED_GROUP] of [dpu_set.c]).
    - PidComm.v, PidSum.v: the vectorised copies, sums and maxima of
      [src/hw/src/mappings/xeon_sp/pid_comm.c]; PidMachine.v: threads that load
      lines, compute on registers and store lines, and their interleavings
      (Interleave.v), of which the accesses of the copies (PidAccess.v) and the
      instructions of the sums are instances; PidThreads.v, PidGather.v,
      PidReduce.v, PidAllReduce.v: the threads of [src/hw/src/rank/hw_dpu_rank.c]
      that make them, for the all-to-all, all-gather, reduce-scatter and all-reduce
      exchanges; PidWrites.v: the lines that the last two store; PidKernel.v:
      the programs of [src/pidcomm_lib/] that the DPUs run before and after;
      PidAllToAll.v, PidAllGather.v, PidReduceScatter.v, PidAllReduceCall.v: the
      four calls of [src/api/src/api/dpu_memory.c].

    ** How they interact

    Ufi.v builds commands with CiCommands.v and sends them through Ci.v, which
    calls the two callbacks of the backend ([RankHandler] of Rank.v: any
    functions). WaveGen.v, Mux.v, Repair.v and Config.v call Ufi.v; UfiMemory.v
    asks Mux.v for the banks; Runner.v boots and polls with Ufi.v and Mux.v.
    The jobs of ThreadJob.v are calls of Runner.v, UfiMemory.v and of the loader:
    there a job is only the status that it returns; SymbolAccess.v says which jobs
    an access posts, and UfiMemory.v what a posted transfer of a rank does.
    SgTransfer.v fills the buffers that XeonSg.v and XeonBank.v read.
    PidAllToAll.v composes DpuGroups.v, which numbers the DPUs, an execution of a
    program of PidKernel.v on every DPU, an interleaving of the threads of
    PidThreads.v, which make the copies of PidComm.v, and a last execution on
    every DPU; PidAllGather.v does the same with the threads of PidGather.v and
    shares this last part; PidReduceScatter.v runs a program before the threads of
    PidReduce.v only, and PidAllReduceCall.v one before and one after those of
    PidAllReduce.v; the memories are those of XeonBank.v and XeonSg.v. [ControlInterface]
    (Select.v) is the class of what a control interface promises of its
    structure and target registers; the theorems on the selection are proved
    against it, and a simulated interface is an instance. [keeps] (Frame.v) is
    the contract that every operation made of commands offers to the components
    that own the rest of the rank.

    ** Conventions

    A C structure is a record with one setter per member; [r->f = v] is
    [set_f v r]. An output parameter is a result. An error leaves the effects
    made before it. A pointer that may be null is an option or an integer. What
    C leaves undefined and the models can reach is an outcome of its own
    ([Undefined] in VpdDb.v, [Abort] and [Crash] in the computations of [X],
    [None] in ThreadJob.v and DpuAlloc.v); elsewhere the indices are in range by the
    well-formedness of the state.

    ** What the theorems show

    - Protocol: the number of commits and reads of a command (termination), that
      a success was answered by every interface, the colour that is kept.
    - Selection: the cache and the hardware agree; a selection is in force.
    - Configuration: what a reset that succeeds has enabled and repaired; the
      repair of a memory succeeds exactly when its faults fit the spares and then
      covers them; the refresh fits the pause of the DMA engine.
    - MRAM: the mux of a running DPU never moves; a transfer is handed to the
      backend with the banks on the side of the host, word by word exactly once.
    - Launch: the record of the running DPUs stays consistent whatever calls are
      made; what the waits guarantee.
    - Vital product data: round trips of the two file formats, the database as a
      map, the coherence of the list of repairs.
    - Jobs: one worker per rank, first in first out; no slot and no
      synchronisation is lost; with the mutexes as the code takes them, the threads
      come to rest and every waiting client has returned, as long as one client at
      a time is in the middle of a request; where two clients, or a callback, break
      this.
    - Xeon boards: a transfer writes every buffer to its banks and reads them
      back, in any interleaving of the threads; the vectorised transpositions
      compute the same as the loop in C; every byte has an address of its own;
      the thread pools follow the ranks.
    - Sets: an allocation gives exactly the DPUs asked for, ends, and frees what
      it took when it fails; the loops over a set visit every DPU once; freeing
      gives back the state before.
    - Accesses: an accepted access stays in its symbol; a prepared transfer posts
      the buffers of the enabled DPUs; the blocks of a scatter/gather transfer are
      those of the user and fit the buffers that the backend reads.
    - Collective communication: an all-to-all exchange of a hypercube of DPUs ends
      and gives every DPU the block that each DPU of its axes had for it, an
      all-gather exchange the blocks of all of them, a reduce-scatter exchange their
      sum modulo the width of the numbers, an all-reduce exchange the sum or the
      maximum (from zero) of their whole areas; the exchanges of the host and
      the programs of the DPUs each do their part in any interleaving of the
      accesses of the threads and of the tasklets.

    The theorems named [..._reported_as_done], [..._accepted],
    [..._inserts_null], [..._blocks_call] and the like are executions where the
    code does not do what it means to; each is a finding.

    ** Bounds and fuel

    [next_ci] looks at most at the 256 values of an 8-bit index. The loop of the
    refresh timings has as fuel the number of pulses it can shorten. The wait for
    the DPUs to stop takes as fuel the number of polls after which the source
    gives up ([NB_RETRY]). [decode_loop] consumes at least one byte a turn: its
    fuel is one more than the length of the buffer. [sync_loop] consumes the
    list of the wake-ups of the waiting thread. The executions of ThreadJob.v are
    finite lists of actions, of any length. The loop of an allocation needs one
    turn more than the ranks the machine has; [DPU_FOREACH] and
    [DPU_FOREACH_ENTANGLED_GROUP] one more than the DPUs of the set; the loop over the blocks one more than the buffer holds.

    ** Not modelled

    The backends and drivers (device files, [mmap], sysfs): the operations they
    offer are parameters. The vector instructions of the Xeon transposition are
    parameters with their documented behaviour ([IntrinsicsSpec]). The answers of
    the backend, of the profile and of the thread jobs are arguments of the
    allocation. The vector additions and maxima of the collective
    operations are parameters too ([CombinationsSpec]), as are the run-time library
    of the DPUs and the address of their heap; the versions of the
    exchanges for a first axis below 8 are left out (an all-to-all exchange has
    none: its calls are commented out). Loading shared libraries, ELF
    files, generated encoders, messages and what the profiler records. The
    creation of threads and their placement on NUMA nodes. Allocation failures,
    except where a component says so. *)

From Stdlib Require Export ZArith Lia Bool.
From stdpp Require Export base decidable list list_numbers numbers.

#[global] Open Scope Z_scope.

Declare Scope dpu_scope.
Delimit Scope dpu_scope with dpu.

(** ** Machine integers

    A C unsigned integer of width w is a [Z]; a conversion to that type is the
    reduction modulo 2^w, written where the source converts. *)

Definition u8 (x : Z) : Z := x mod 2 ^ 8.
Definition u16 (x : Z) : Z := x mod 2 ^ 16.
Definition u32 (x : Z) : Z := x mod 2 ^ 32.
Definition u64 (x : Z) : Z := x mod 2 ^ 64.

(** A value that fits w bits. *)
Definition fits (w x : Z) : Prop := 0 <= x < 2 ^ w.

#[global] Instance fits_dec w x : Decision (fits w x).
Proof. unfold fits. apply _. Defined.

(** [(T)x << n] for an unsigned 64-bit operand: bits shifted out are lost. *)
Definition shl64 (x n : Z) : Z := u64 (Z.shiftl x n).
Definition shl32 (x n : Z) : Z := u32 (Z.shiftl x n).

(** [~x] on an unsigned operand of width w. *)
Definition not8 (x : Z) : Z := 2 ^ 8 - 1 - u8 x.
Definition not32 (x : Z) : Z := 2 ^ 32 - 1 - u32 x.
Definition not64 (x : Z) : Z := 2 ^ 64 - 1 - u64 x.

(** [__builtin_popcount]: number of one bits of a non-negative value. *)
Fixpoint pos_popcount (p : positive) : Z :=
  match p with
  | xH => 1
  | xO p => pos_popcount p
  | xI p => 1 + pos_popcount p
  end.
Definition popcount (x : Z) : Z :=
  match x with Zpos p => pos_popcount p | _ => 0 end.

(** ** Arrays

    A C array is a list; an index computed as a machine integer is a [Z].
    Reads and writes outside the array are undefined in C: the models keep
    their indices in range (each component's well-formedness says so). *)

Definition getz {A} `{Inhabited A} (l : list A) (i : Z) : A := l !!! Z.to_nat i.
Definition setz {A} (l : list A) (i : Z) (x : A) : list A := <[Z.to_nat i := x]> l.
Definition lenz {A} (l : list A) : Z := Z.of_nat (length l).

Notation "l .[ i ]" := (getz l i) (at level 1, left associativity, format "l .[ i ]") : dpu_scope.
Notation "l .[ i := x ]" := (setz l i x) (at level 1, left associativity, format "l .[ i := x ]") : dpu_scope.
Notation "x ||| y" := (Z.lor x y) (at level 50, left associativity) : dpu_scope.
Notation "x &&& y" := (Z.land x y) (at level 40, left associativity) : dpu_scope.
Notation "x ^^^ y" := (Z.lxor x y) (at level 45, left associativity) : dpu_scope.
#[global] Open Scope dpu_scope.

(** [for (i = 0; i < n; ++i) body] without an early exit. *)
Definition for_up {S} (n : Z) (body : Z -> S -> S) (s : S) : S :=
  foldl (fun s i => body i s) s (seqZ 0 n).

(** A loop over [l] whose body may end the enclosing function with [false]. *)
Fixpoint while_true {A S} (body : A -> S -> bool * S) (l : list A) (s : S) : bool * S :=
  match l with
  | [] => (true, s)
  | a :: l => let '(b, s') := body a s in if b then while_true body l s' else (false, s')
  end.

(** ** Hints and tactics *)

Create HintDb dpu discriminated.
Create HintDb dpu_rw discriminated.

(** Case analysis on the boolean tests of the model. *)
Ltac case_bool :=
  match goal with
  | |- context [if ?b then _ else _] => destruct b eqn:?
  | H : context [if ?b then _ else _] |- _ => destruct b eqn:?
  end.

(** Boolean comparisons on [Z] to propositions, everywhere. *)
Ltac zb2p :=
  repeat match goal with
  | H : (_ =? _) = true |- _ => apply Z.eqb_eq in H
  | H : (_ =? _) = false |- _ => apply Z.eqb_neq in H
  | H : (_ <? _) = true |- _ => apply Z.ltb_lt in H
  | H : (_ <? _) = false |- _ => apply Z.ltb_ge in H
  | H : (_ <=? _) = true |- _ => apply Z.leb_le in H
  | H : (_ <=? _) = false |- _ => apply Z.leb_gt in H
  | H : (_ && _) = true |- _ => apply andb_true_iff in H; destruct H
  | H : (_ || _) = false |- _ => apply orb_false_iff in H; destruct H
  | H : negb _ = true |- _ => apply negb_true_iff in H
  | H : negb _ = false |- _ => apply negb_false_iff in H
  end.

(** ** Lemmas on machine integers *)

Lemma u8_fits x : fits 8 (u8 x).
Proof. apply Z.mod_pos_bound. done. Qed.
Lemma u16_fits x : fits 16 (u16 x).
Proof. apply Z.mod_pos_bound. done. Qed.
Lemma u32_fits x : fits 32 (u32 x).
Proof. apply Z.mod_pos_bound. done. Qed.
Lemma u64_fits x : fits 64 (u64 x).
Proof. apply Z.mod_pos_bound. done. Qed.
#[export] Hint Resolve u8_fits u16_fits u32_fits u64_fits : dpu.

Lemma u8_id x : fits 8 x -> u8 x = x.
Proof. apply Z.mod_small. Qed.
Lemma u16_id x : fits 16 x -> u16 x = x.
Proof. apply Z.mod_small. Qed.
Lemma u32_id x : fits 32 x -> u32 x = x.
Proof. apply Z.mod_small. Qed.
Lemma u64_id x : fits 64 x -> u64 x = x.
Proof. apply Z.mod_small. Qed.

Lemma fits_mono w w' x : 0 <= w <= w' -> fits w x -> fits w' x.
Proof.
  intros Hw [H0 H1]. split; [done|].
  eapply Z.lt_le_trans; [done|]. apply Z.pow_le_mono_r; lia.
Qed.

Lemma fits_testbit w x : 0 <= w -> 0 <= x ->
  fits w x <-> (forall i, w <= i -> Z.testbit x i = false).
Proof.
  intros Hw Hx. split.
  - intros [_ Hlt] i Hi. destruct (decide (x = 0)) as [->|]; [apply Z.testbit_0_l|].
    apply Z.bits_above_log2; [done|].
    assert (Z.log2 x < w) by (apply Z.log2_lt_pow2; lia). lia.
  - intros Hbits. split; [done|].
    destruct (decide (x = 0)) as [->|]; [lia|].
    apply Z.log2_lt_pow2; [lia|].
    destruct (decide (Z.log2 x < w)); [done|].
    pose proof (Hbits (Z.log2 x) ltac:(lia)) as H.
    rewrite Z.bit_log2 in H by lia. done.
Qed.

Lemma fits_nonneg w x : fits w x -> 0 <= x.
Proof. intros [? ?]. done. Qed.

Lemma fits_lor w a b : 0 <= w -> fits w a -> fits w b -> fits w (Z.lor a b).
Proof.
  intros Hw Ha Hb.
  pose proof (fits_nonneg _ _ Ha). pose proof (fits_nonneg _ _ Hb).
  apply fits_testbit; [done|by apply Z.lor_nonneg|].
  intros i Hi. rewrite Z.lor_spec.
  by rewrite (proj1 (fits_testbit w a Hw ltac:(done)) Ha),
    (proj1 (fits_testbit w b Hw ltac:(done)) Hb).
Qed.

Lemma fits_land w a b : 0 <= w -> 0 <= b -> fits w a -> fits w (Z.land a b).
Proof.
  intros Hw Hb Ha. pose proof (fits_nonneg _ _ Ha).
  apply fits_testbit; [done|apply Z.land_nonneg; auto|].
  intros i Hi. rewrite Z.land_spec.
  by rewrite (proj1 (fits_testbit w a Hw ltac:(done)) Ha).
Qed.

Lemma fits_lxor w a b : 0 <= w -> fits w a -> fits w b -> fits w (Z.lxor a b).
Proof.
  intros Hw Ha Hb.
  pose proof (fits_nonneg _ _ Ha). pose proof (fits_nonneg _ _ Hb).
  apply fits_testbit; [done|apply Z.lxor_nonneg; tauto|].
  intros i Hi. rewrite Z.lxor_spec.
  by rewrite (proj1 (fits_testbit w a Hw ltac:(done)) Ha),
    (proj1 (fits_testbit w b Hw ltac:(done)) Hb).
Qed.
#[export] Hint Resolve fits_lor fits_land fits_lxor : dpu.

(** A decidable property of the integers below [n] is checked by running it. *)
Lemma forall_range (P : Z -> bool) (n : Z) :
  forallb P (seqZ 0 n) = true -> forall x, 0 <= x < n -> P x = true.
Proof.
  intros Hall x Hx. rewrite forallb_forall in Hall. apply Hall.
  apply list_elem_of_In, elem_of_seqZ. lia.
Qed.

Lemma forall_range_spec (P : Z -> Prop) `{!forall x, Decision (P x)} (n : Z) :
  forallb (fun x => bool_decide (P x)) (seqZ 0 n) = true -> forall x, 0 <= x < n -> P x.
Proof.
  intros Hall x Hx. apply (forall_range _ n Hall) in Hx.
  by apply bool_decide_eq_true in Hx.
Qed.

(** Bounded quantification is decidable, by running through the range. *)
#[export] Instance forall_range_dec (P : Z -> Prop) `{!forall x, Decision (P x)} (n : Z) :
  Decision (forall x, 0 <= x < n -> P x).
Proof.
  refine (cast_if (decide (forallb (fun x => bool_decide (P x)) (seqZ 0 n) = true))).
  - by apply (forall_range_spec P).
  - intros Hall. apply n0. apply forallb_forall. intros x Hx.
    apply bool_decide_eq_true. apply Hall.
    apply list_elem_of_In, elem_of_seqZ in Hx. lia.
Defined.

(** Prove a decidable closed statement by evaluating it. *)
Ltac by_eval :=
  lazymatch goal with |- ?P => refine (bool_decide_unpack P _); vm_compute; exact I end.

(** Splitting the bits of a test on a power of two. *)
Lemma testbit_pow2 n i : 0 <= n -> 0 <= i ->
  Z.testbit (Z.shiftl 1 n) i = bool_decide (n = i).
Proof.
  intros Hn Hi. rewrite Z.shiftl_1_l.
  case_bool_decide; subst; [by apply Z.pow2_bits_true|by apply Z.pow2_bits_false].
Qed.

Lemma not8_testbit x i : 0 <= i < 8 -> Z.testbit (not8 x) i = negb (Z.testbit x i).
Proof.
  intros Hi. unfold not8.
  replace (2 ^ 8 - 1 - u8 x) with (Z.lxor (u8 x) (Z.ones 8)).
  - rewrite Z.lxor_spec, Z.ones_spec_low by lia. unfold u8.
    rewrite Z.mod_pow2_bits_low by lia. by destruct (Z.testbit x i).
  - assert (fits 8 (u8 x)) as Hf by auto with dpu.
    revert Hf. generalize (u8 x) as y. unfold fits. change (2 ^ 8) with 256. by_eval.
Qed.

Lemma land_pow2_testbit x n : 0 <= n ->
  Z.land x (Z.shiftl 1 n) = if Z.testbit x n then Z.shiftl 1 n else 0.
Proof.
  intros Hn. apply Z.bits_inj'. intros i Hi.
  rewrite Z.land_spec, testbit_pow2 by done.
  case_bool_decide; subst.
  - rewrite andb_true_r. destruct (Z.testbit x i).
    + rewrite testbit_pow2 by done. by rewrite bool_decide_true.
    + by rewrite Z.testbit_0_l.
  - rewrite andb_false_r. destruct (Z.testbit x n).
    + rewrite testbit_pow2 by done. by rewrite bool_decide_false.
    + by rewrite Z.testbit_0_l.
Qed.

(** ** Lemmas on arrays *)

Section Arrays.
Context {A : Type} `{Inhabited A}.
Implicit Types l : list A.

Lemma length_setz l i x : length (setz l i x) = length l.
Proof. apply length_insert. Qed.

Lemma lenz_setz l i x : lenz (setz l i x) = lenz l.
Proof. unfold lenz. by rewrite length_setz. Qed.

Lemma getz_setz_eq l i x : 0 <= i < lenz l -> getz (setz l i x) i = x.
Proof.
  unfold getz, setz, lenz. intros Hi.
  apply list_lookup_total_insert_eq. lia.
Qed.

Lemma getz_setz_ne l i j x : 0 <= i -> 0 <= j -> i <> j -> getz (setz l i x) j = getz l j.
Proof.
  unfold getz, setz. intros Hi Hj Hij.
  apply list_lookup_total_insert_ne. lia.
Qed.

Lemma getz_setz l i j x : 0 <= i < lenz l -> 0 <= j ->
  getz (setz l i x) j = if decide (i = j) then x else getz l j.
Proof.
  intros Hi Hj. case_decide; subst; [by apply getz_setz_eq|].
  apply getz_setz_ne; lia.
Qed.

Lemma setz_getz l i : 0 <= i < lenz l -> setz l i (getz l i) = l.
Proof.
  unfold setz, getz, lenz. intros Hi. apply list_insert_id.
  apply list_lookup_lookup_total_lt. lia.
Qed.

Lemma list_eq_getz l l' : length l = length l' ->
  (forall i, 0 <= i < lenz l -> getz l i = getz l' i) -> l = l'.
Proof.
  intros Hlen Heq. apply list_eq_same_length with (n := length l); [done..|].
  intros i x y Hi Hx Hy. specialize (Heq (Z.of_nat i)).
  unfold getz, lenz in Heq. rewrite Nat2Z.id in Heq.
  apply list_lookup_total_correct in Hx, Hy. rewrite Hx, Hy in Heq. apply Heq. lia.
Qed.
End Arrays.
#[export] Hint Rewrite @length_setz @lenz_setz : dpu_rw.

Lemma lookup_map_seqZ {A} `{Inhabited A} (f : Z -> A) n i : 0 <= i < n ->
  (map f (seqZ 0 n)).[i] = f i.
Proof.
  intros Hi. unfold getz. apply list_lookup_total_correct.
  change (map f (seqZ 0 n)) with (f <$> seqZ 0 n). rewrite list_lookup_fmap.
  replace (seqZ 0 n !! Z.to_nat i) with (Some i); [done|].
  symmetry. apply lookup_seqZ. split; lia.
Qed.

Lemma lenz_map_seqZ {A} (f : Z -> A) n : 0 <= n -> lenz (map f (seqZ 0 n)) = n.
Proof. intros Hn. unfold lenz. rewrite length_map, length_seqZ. lia. Qed.

Lemma getz_app_l {A} `{Inhabited A} (l1 l2 : list A) i : 0 <= i < lenz l1 -> (l1 ++ l2).[i] = l1.[i].
Proof. intros Hi. unfold getz, lenz in *. apply lookup_total_app_l. lia. Qed.

Lemma getz_app_r {A} `{Inhabited A} (l1 l2 : list A) i : lenz l1 <= i -> (l1 ++ l2).[i] = l2.[i - lenz l1].
Proof.
  intros Hi. unfold getz, lenz in *. rewrite lookup_total_app_r by lia. f_equal. lia.
Qed.

Lemma getz_tail {A} `{Inhabited A} (l : list A) i : 0 <= i -> (tail l).[i] = l.[i + 1].
Proof.
  intros Hi. unfold getz. replace (Z.to_nat (i + 1)) with (S (Z.to_nat i)) by lia.
  destruct l; [|done]. by rewrite !list_lookup_total_alt, lookup_nil.
Qed.

Lemma lenz_tail {A} (l : list A) : 0 < lenz l -> lenz (tail l) = lenz l - 1.
Proof. unfold lenz. destruct l; simpl; lia. Qed.

Lemma lenz_app {A} (l1 l2 : list A) : lenz (l1 ++ l2) = lenz l1 + lenz l2.
Proof. unfold lenz. rewrite length_app. lia. Qed.

Lemma list_eq_lenz {A} `{Inhabited A} (l l' : list A) : lenz l = lenz l' ->
  (forall i, 0 <= i < lenz l -> l.[i] = l'.[i]) -> l = l'.
Proof. intros Hl. apply list_eq_getz. unfold lenz in Hl. lia. Qed.

(** Appending one element, index by index. *)
Lemma snoc_eq {A} `{Inhabited A} (l l' : list A) x :
  lenz l = lenz l' + 1 -> (forall i, 0 <= i < lenz l' -> l.[i] = l'.[i]) ->
  l.[lenz l'] = x -> l = l' ++ [x].
Proof.
  intros Hl Heq Hx. apply list_eq_lenz; [by rewrite lenz_app|].
  intros i Hi. destruct (decide (i < lenz l')).
  - rewrite getz_app_l by lia. apply Heq. lia.
  - replace i with (lenz l') by lia. rewrite getz_app_r, Z.sub_diag by lia. done.
Qed.

(** Loops that count up, by induction on the bound. *)
Lemma for_up_0 {S} (n : Z) (body : Z -> S -> S) s : n <= 0 -> for_up n body s = s.
Proof. intros Hn. unfold for_up. by rewrite seqZ_nil. Qed.

Lemma for_up_succ {S} (n : Z) (body : Z -> S -> S) s : 0 <= n ->
  for_up (n + 1) body s = body n (for_up n body s).
Proof.
  intros Hn. unfold for_up. rewrite seqZ_app by lia.
  rewrite foldl_app. rewrite (seqZ_cons (0 + n) 1) by lia.
  by rewrite (seqZ_nil _ (Z.pred 1)) by lia.
Qed.

(** An invariant of the loop body holds after the loop. *)
Lemma for_up_ind {S} (P : Z -> S -> Prop) (n : Z) (body : Z -> S -> S) s :
  0 <= n -> P 0 s ->
  (forall i s, 0 <= i < n -> P i s -> P (i + 1) (body i s)) ->
  P n (for_up n body s).
Proof.
  intros Hn H0 Hstep. revert Hstep.
  apply (natlike_ind (fun n =>
    (forall i s, 0 <= i < n -> P i s -> P (i + 1) (body i s)) -> P n (for_up n body s)));
    [|clear n Hn; intros n Hn IH Hstep|done].
  - intros _. by rewrite for_up_0.
  - rewrite <-Z.add_1_r in *. rewrite for_up_succ by done.
    apply Hstep; [lia|]. apply IH. intros i s' Hi. apply Hstep. lia.
Qed.

(** A loop that keeps a property, whatever its bounds. *)
Lemma for_up_inv {S} (P : S -> Prop) n (body : Z -> S -> S) s :
  P s -> (forall i s, P s -> P (body i s)) -> P (for_up n body s).
Proof.
  intros Hs Hb. unfold for_up. revert s Hs. generalize (seqZ 0 n) as l.
  induction l as [|i l IH]; intros s Hs; cbn; [done|]. by apply IH, Hb.
Qed.

(** ** Bits *)

Lemma testbit_shiftl a n i : 0 <= i -> Z.testbit (Z.shiftl a n) i = Z.testbit a (i - n).
Proof. intros Hi. by apply Z.shiftl_spec. Qed.

Lemma testbit_shiftr a n i : 0 <= i -> Z.testbit (Z.shiftr a n) i = Z.testbit a (i + n).
Proof. intros Hi. by apply Z.shiftr_spec. Qed.

Lemma testbit_mod_pow2 a n i : 0 <= n ->
  Z.testbit (a mod 2 ^ n) i = (i <? n) && Z.testbit a i.
Proof.
  intros Hn. destruct (Z.ltb_spec i n); simpl.
  - by rewrite Z.mod_pow2_bits_low.
  - rewrite Z.mod_pow2_bits_high; [done|lia].
Qed.

(** Two bit fields side by side: an or is a sum. *)
Lemma lor_shiftl_add n a b : 0 <= n -> fits n a -> Z.lor a (Z.shiftl b n) = a + b * 2 ^ n.
Proof.
  intros Hn Ha. rewrite <-Z.shiftl_mul_pow2 by done.
  assert (Z.land a (Z.shiftl b n) = 0) as Hd.
  { apply Z.bits_inj'. intros i Hi.
    rewrite Z.land_spec, testbit_shiftl, Z.testbit_0_l by done.
    destruct (decide (i < n)).
    - by rewrite (Z.testbit_neg_r b), andb_false_r by lia.
    - pose proof (fits_nonneg _ _ Ha).
      by rewrite (proj1 (fits_testbit n a Hn ltac:(done)) Ha) by lia. }
  rewrite <-Z.lxor_lor by done. symmetry. by apply Z.add_nocarry_lxor.
Qed.

Lemma land_ones_mod a n : 0 <= n -> Z.land a (2 ^ n - 1) = a mod 2 ^ n.
Proof. intros Hn. rewrite <-Z.land_ones by done. by rewrite Z.ones_equiv, Z.sub_1_r. Qed.

(** ** Little-endian words

    The bytes of a machine word in memory order. *)

Fixpoint le_bytes (n : nat) (x : Z) : list Z :=
  match n with
  | O => []
  | S n => x mod 2 ^ 8 :: le_bytes n (x / 2 ^ 8)
  end.

Fixpoint le_word (bs : list Z) : Z :=
  match bs with
  | [] => 0
  | b :: bs => b + 2 ^ 8 * le_word bs
  end.

Lemma length_le_bytes n x : length (le_bytes n x) = n.
Proof. revert x. induction n; intros; simpl; [done|]. by rewrite IHn. Qed.

Lemma lenz_le_bytes n x : lenz (le_bytes n x) = Z.of_nat n.
Proof. unfold lenz. by rewrite length_le_bytes. Qed.
Lemma le_word_bytes n x : le_word (le_bytes n x) = x mod 2 ^ (8 * Z.of_nat n).
Proof.
  revert x. induction n as [|n IH]; intros x.
  { simpl. by rewrite Z.mod_1_r. }
  cbn [le_bytes le_word]. rewrite IH.
  replace (8 * Z.of_nat (S n)) with (8 + 8 * Z.of_nat n) by lia.
  rewrite Z.pow_add_r by lia. rewrite Z.rem_mul_r; [lia|lia|].
  apply Z.pow_pos_nonneg; lia.
Qed.

Lemma le_bytes_word bs : Forall (fits 8) bs -> le_bytes (length bs) (le_word bs) = bs.
Proof.
  induction 1 as [|b bs Hb Hbs IH]; [done|].
  cbn [le_bytes le_word length].
  replace (b + 2 ^ 8 * le_word bs) with (b + le_word bs * 2 ^ 8) by lia.
  rewrite Z.mod_add, Z.div_add, (Z.mod_small b), (Z.div_small b) by (done || lia).
  by rewrite Z.add_0_l, IH.
Qed.

Lemma le_bytes_fits n x : Forall (fits 8) (le_bytes n x).
Proof.
  revert x. induction n; intros x; constructor; [apply u8_fits|done].
Qed.

Lemma le_word_fits bs : Forall (fits 8) bs -> fits (8 * lenz bs) (le_word bs).
Proof.
  induction 1 as [|b bs Hb Hbs IH]; [done|].
  unfold lenz, fits in *. cbn [le_word length].
  replace (8 * Z.of_nat (S (length bs))) with (8 + 8 * Z.of_nat (length bs)) by lia.
  rewrite Z.pow_add_r by lia. nia.
Qed.

#[export] Hint Resolve le_bytes_fits le_word_fits : dpu.

(** ** Counting and finding bits *)

(** [__builtin_ctz] of a value that is not 0. *)
Fixpoint pos_ctz (p : positive) : Z :=
  match p with xO p => 1 + pos_ctz p | _ => 0 end.
Definition ctz (x : Z) : Z := match x with Zpos p => pos_ctz p | _ => 0 end.

Lemma pos_popcount_pos p : 0 < pos_popcount p.
Proof. induction p; simpl; lia. Qed.
Lemma popcount_nonneg x : 0 <= popcount x.
Proof. destruct x; simpl; [done| |done]. pose proof (pos_popcount_pos p). lia. Qed.
Lemma popcount_zero x : 0 <= x -> popcount x = 0 -> x = 0.
Proof. destruct x; simpl; [done| |lia]. pose proof (pos_popcount_pos p). lia. Qed.

Lemma popcount_double x : 0 <= x -> popcount (2 * x) = popcount x.
Proof. by destruct x. Qed.
Lemma popcount_succ_double x : 0 <= x -> popcount (2 * x + 1) = popcount x + 1.
Proof. destruct x; [done| |lia]. intros _. change (popcount (2 * Zpos p + 1)) with (1 + pos_popcount p). simpl. lia. Qed.

(** The highest bit counts for one. *)
Lemma popcount_top x : 0 < x -> popcount x = 1 + popcount (x - 2 ^ Z.log2 x).
Proof.
  destruct x as [|p|]; [done| |done]. intros _. induction p as [p IH|p IH|]; [| |done].
  - replace (Zpos p~1) with (2 * Zpos p + 1) by lia.
    rewrite popcount_succ_double, Z.log2_succ_double, Z.pow_succ_r by lia || apply Z.log2_nonneg.
    pose proof (Z.log2_spec (Zpos p) ltac:(lia)).
    replace (2 * Zpos p + 1 - 2 * 2 ^ Z.log2 (Zpos p)) with (2 * (Zpos p - 2 ^ Z.log2 (Zpos p)) + 1) by lia.
    rewrite popcount_succ_double by lia. lia.
  - replace (Zpos p~0) with (2 * Zpos p) by lia.
    rewrite popcount_double, Z.log2_double, Z.pow_succ_r by lia || apply Z.log2_nonneg.
    pose proof (Z.log2_spec (Zpos p) ltac:(lia)).
    replace (2 * Zpos p - 2 * 2 ^ Z.log2 (Zpos p)) with (2 * (Zpos p - 2 ^ Z.log2 (Zpos p))) by lia.
    rewrite popcount_double by lia. lia.
Qed.

Lemma clear_top_bits x i : 0 < x -> 0 <= i ->
  Z.testbit (x - 2 ^ Z.log2 x) i = Z.testbit x i && negb (i =? Z.log2 x).
Proof.
  intros Hx Hi. pose proof (Z.log2_spec x Hx) as [Hlo Hhi]. pose proof (Z.log2_nonneg x).
  rewrite Z.pow_succ_r in Hhi by lia.
  replace (x - 2 ^ Z.log2 x) with (x mod 2 ^ Z.log2 x).
  2: { symmetry. apply Z.mod_unique with 1; [left; lia|lia]. }
  destruct (Z.eqb_spec i (Z.log2 x)) as [->|Hne]; cbn [negb].
  - by rewrite Z.mod_pow2_bits_high, andb_false_r by lia.
  - rewrite andb_true_r. destruct (decide (i < Z.log2 x)).
    + by rewrite Z.mod_pow2_bits_low by lia.
    + rewrite Z.mod_pow2_bits_high by lia. by rewrite Z.bits_above_log2 by lia.
Qed.

Lemma testbit_true_range x i : 0 <= x -> Z.testbit x i = true -> 0 <= i <= Z.log2 x.
Proof.
  intros Hx Hb. split.
  - destruct (decide (0 <= i)); [done|]. by rewrite Z.testbit_neg_r in Hb by lia.
  - destruct (decide (i <= Z.log2 x)); [done|]. by rewrite Z.bits_above_log2 in Hb by lia.
Qed.

(** The ones are counted: if they all are in [l], there are at most [length l]. *)
Lemma popcount_le_length l x : 0 <= x -> (forall i, Z.testbit x i = true -> i ∈ l) ->
  popcount x <= Z.of_nat (length l).
Proof.
  remember (length l) as n eqn:Hn. revert l x Hn. induction n as [n IH] using lt_wf_ind.
  intros l x Hn Hx Hl. destruct (decide (x = 0)) as [->|]; [simpl; lia|].
  rewrite popcount_top by lia. pose proof (Z.log2_spec x ltac:(lia)) as [Hlo Hhi].
  set (l' := filter (fun i => i <> Z.log2 x) l).
  assert (length l' < n)%nat as Hlt.
  { subst n. apply (length_filter_lt _ l (Z.log2 x)); [apply Hl, Z.bit_log2; lia|]. by intros []. }
  specialize (IH _ Hlt l' (x - 2 ^ Z.log2 x) eq_refl ltac:(lia)).
  enough (popcount (x - 2 ^ Z.log2 x) <= Z.of_nat (length l')) by lia. apply IH.
  intros i Hi. pose proof (testbit_true_range (x - 2 ^ Z.log2 x) i ltac:(lia) Hi).
  rewrite clear_top_bits in Hi by lia. apply andb_true_iff in Hi as [Hi Hne].
  apply list_elem_of_filter. split; [by zb2p|by apply Hl].
Qed.

Lemma ctz_testbit x : 0 < x -> Z.testbit x (ctz x) = true.
Proof.
  destruct x as [|p|]; [done| |done]. intros _. unfold ctz. induction p as [p IH|p IH|]; [done| |done].
  cbn [pos_ctz]. replace (Zpos p~0) with (2 * Zpos p) by lia.
  assert (0 <= pos_ctz p) by (clear; induction p; simpl; lia).
  replace (1 + pos_ctz p) with (Z.succ (pos_ctz p)) by lia. by rewrite Z.testbit_even_succ by lia.
Qed.

Lemma ctz_lowest x i : 0 < x -> Z.testbit x i = true -> ctz x <= i.
Proof.
  destruct x as [|p|]; [done| |done]. intros _. unfold ctz. revert i.
  induction p as [p IH|p IH|]; intros i Hi; match type of Hi with Z.testbit ?x _ = _ => pose proof (testbit_true_range x i ltac:(lia) Hi) end;
    cbn [pos_ctz]; [lia| |lia].
  replace (Zpos p~0) with (2 * Zpos p) in Hi by lia.
  destruct (decide (i = 0)) as [->|]; [by rewrite Z.testbit_even_0 in Hi|].
  replace i with (Z.succ (i - 1)) in Hi by lia. rewrite Z.testbit_even_succ in Hi by lia.
  specialize (IH _ Hi). lia.
Qed.

(** One or two bits: the lowest and the highest. *)
Lemma popcount_le_two x i : 0 < x -> popcount x <= 2 -> Z.testbit x i = true ->
  i = ctz x \/ i = Z.log2 x.
Proof.
  intros Hx Hp Hi. destruct (decide (i = Z.log2 x)) as [->|Hne]; [by right|left].
  pose proof (testbit_true_range x i ltac:(lia) Hi) as Hr.
  rewrite popcount_top in Hp by lia. pose proof (Z.log2_spec x Hx) as [Hlo _].
  pose proof (clear_top_bits x i Hx ltac:(lia)) as Hy.
  rewrite Hi, (proj2 (Z.eqb_neq _ _) Hne) in Hy. cbn in Hy.
  set (y := x - 2 ^ Z.log2 x) in *.
  assert (0 < y) as Hy0 by (destruct (decide (y = 0)) as [E|]; [by rewrite E, Z.testbit_0_l in Hy|lia]).
  rewrite popcount_top in Hp by lia. pose proof (Z.log2_spec y Hy0) as [Hlo' _].
  pose proof (popcount_nonneg (y - 2 ^ Z.log2 y)).
  assert (y - 2 ^ Z.log2 y = 0) as Hz by (apply popcount_zero; lia).
  assert (forall j, 0 <= j -> Z.testbit y j = true -> j = Z.log2 y) as Honly.
  { intros j Hj Hbj. pose proof (clear_top_bits y j Hy0 Hj) as Hc.
    rewrite Hz, Hbj, Z.testbit_0_l in Hc. symmetry in Hc. cbn in Hc. by zb2p. }
  assert (i = Z.log2 y) as Hiy by (apply Honly; [lia|done]).
  pose proof (ctz_testbit x Hx) as Hcb. pose proof (ctz_lowest x i Hx Hi) as Hcl.
  pose proof (testbit_true_range x (ctz x) ltac:(lia) Hcb).
  pose proof (clear_top_bits x (ctz x) Hx ltac:(lia)) as Hyc. fold y in Hyc.
  rewrite Hcb, (proj2 (Z.eqb_neq (ctz x) (Z.log2 x))) in Hyc by lia.
  rewrite (Honly (ctz x)); [done|lia|exact Hyc].
Qed.

Lemma popcount_le_one x : 0 < x -> popcount x <= 1 -> ctz x = Z.log2 x.
Proof.
  intros Hx Hp. destruct (decide (ctz x = Z.log2 x)) as [|Hne]; [done|exfalso].
  pose proof (ctz_testbit x Hx) as Hc. pose proof (testbit_true_range x (ctz x) ltac:(lia) Hc).
  pose proof (clear_top_bits x (ctz x) Hx ltac:(lia)) as Hy.
  rewrite Hc, (proj2 (Z.eqb_neq _ _) Hne) in Hy. rewrite popcount_top in Hp by lia.
  pose proof (Z.log2_spec x Hx). pose proof (popcount_nonneg (x - 2 ^ Z.log2 x)).
  rewrite (popcount_zero (x - 2 ^ Z.log2 x)) in Hy by lia. by rewrite Z.testbit_0_l in Hy.
Qed.

Lemma popcount_two_distinct x : 0 < x -> 1 < popcount x -> ctz x <> Z.log2 x.
Proof.
  intros Hx Hp Heq. rewrite popcount_top in Hp by lia. pose proof (Z.log2_spec x Hx) as [Hlo _].
  set (y := x - 2 ^ Z.log2 x) in *.
  assert (0 < y) as Hy0 by (destruct (decide (y = 0)) as [E|]; [rewrite E in Hp; simpl in Hp; lia|lia]).
  pose proof (Z.bit_log2 y Hy0) as Hb. pose proof (Z.log2_nonneg y).
  unfold y at 1 in Hb. rewrite clear_top_bits in Hb by lia.
  apply andb_true_iff in Hb as [Hb Hne]. pose proof (ctz_lowest x _ Hx Hb).
  pose proof (testbit_true_range x (Z.log2 y) ltac:(lia) Hb). zb2p. lia.
Qed.

(** Consecutive numbers, one and in blocks. *)
Lemma seqZ_1 m : seqZ m 1 = [m].
Proof. by rewrite seqZ_cons, seqZ_nil by lia. Qed.
Lemma seqZ_blocks {A} (f : Z -> Z -> A) n w : 0 < w -> 0 <= n ->
  concat (map (fun k => map (f k) (seqZ (k * w) w)) (seqZ 0 n)) = map (fun u => f (u / w) u) (seqZ 0 (n * w)).
Proof.
  intros Hw. revert n. apply natlike_ind; [done|]. intros n Hn IH. unfold Z.succ.
  replace ((n + 1) * w) with (n * w + w) by ring. rewrite !seqZ_app by nia.
  rewrite !map_app, concat_app, IH. f_equal. rewrite seqZ_1. cbn [map concat]. rewrite app_nil_r, !Z.add_0_l.
  apply map_ext_in. intros u Hu%list_elem_of_In%elem_of_seqZ. f_equal. apply (Z.div_unique u w n (u - n * w)); [left|]; lia.
Qed.
Lemma zip_map_self {A B} (f : A -> B) l : zip l (map f l) = map (fun x => (x, f x)) l.
Proof. induction l as [|x l IH]; [done|]. cbn. by rewrite IH. Qed.
