(* ===== verification/CMonad.v ===== *)
(** * State, status codes and early exits

    The C functions of the backend thread a mutable rank through calls that
    return a [dpu_error_t]; [FF(call)] jumps to the function's end when the
    status is not [DPU_OK] ([src/api/src/include/dpu_internals.h]). A
    computation of the model takes the state and returns the state together
    with the values the function produced or the status it failed with: the
    effects made before a failure stay, as in the source.

    [wp] and its rules are the program logic the components' proofs use. *)

From S2P Require Import Prelude.

#[local] Open Scope Z_scope.

(** [dpu_error_t], [src/api/include/api/dpu_error.h]. *)
Inductive dpu_error_t :=
  | DPU_ERR_INTERNAL | DPU_ERR_SYSTEM | DPU_ERR_DRIVER | DPU_ERR_ALLOCATION
  | DPU_ERR_INVALID_DPU_SET | DPU_ERR_INVALID_THREAD_ID | DPU_ERR_INVALID_NOTIFY_ID
  | DPU_ERR_INVALID_WRAM_ACCESS | DPU_ERR_INVALID_IRAM_ACCESS | DPU_ERR_INVALID_MRAM_ACCESS
  | DPU_ERR_INVALID_SYMBOL_ACCESS | DPU_ERR_MRAM_BUSY | DPU_ERR_TRANSFER_ALREADY_SET
  | DPU_ERR_NO_PROGRAM_LOADED | DPU_ERR_DIFFERENT_DPU_PROGRAMS | DPU_ERR_CORRUPTED_MEMORY
  | DPU_ERR_DPU_DISABLED | DPU_ERR_DPU_ALREADY_RUNNING | DPU_ERR_INVALID_MEMORY_TRANSFER
  | DPU_ERR_INVALID_LAUNCH_POLICY | DPU_ERR_DPU_FAULT | DPU_ERR_ELF_INVALID_FILE
  | DPU_ERR_ELF_NO_SUCH_FILE | DPU_ERR_ELF_NO_SUCH_SECTION | DPU_ERR_TIMEOUT
  | DPU_ERR_INVALID_PROFILE | DPU_ERR_UNKNOWN_SYMBOL | DPU_ERR_LOG_FORMAT
  | DPU_ERR_LOG_CONTEXT_MISSING | DPU_ERR_LOG_BUFFER_TOO_SMALL | DPU_ERR_VPD_INVALID_FILE
  | DPU_ERR_VPD_NO_REPAIR | DPU_ERR_NO_THREAD_PER_RANK | DPU_ERR_INVALID_BUFFER_SIZE
  | DPU_ERR_NONBLOCKING_SYNC_CALLBACK | DPU_ERR_TOO_MANY_TASKLETS
  | DPU_ERR_SG_TOO_MANY_BLOCKS | DPU_ERR_SG_LENGTH_MISMATCH | DPU_ERR_SG_NOT_ACTIVATED
  | DPU_ERR_SG_NOT_MRAM_SYMBOL.

#[export] Instance dpu_error_eq_dec : EqDecision dpu_error_t.
Proof. solve_decision. Defined.

(** [Ok a]: the function returned [DPU_OK] with outputs [a]. *)
Inductive result (A : Type) :=
  | Ok (a : A)
  | Err (e : dpu_error_t).
Arguments Ok {_} _.
Arguments Err {_} _.

Definition is_ok {A} (r : result A) : bool := if r then true else false.

Section Monad.
Context {S : Type}.

Definition C (A : Type) : Type := S -> S * result A.

#[global] Instance C_ret : MRet C := fun A a s => (s, Ok a).
#[global] Instance C_bind : MBind C := fun A B k m s =>
  let '(s', r) := m s in
  match r with
  | Ok a => k a s'
  | Err e => (s', Err e)
  end.

Definition fail {A} (e : dpu_error_t) : C A := fun s => (s, Err e).
Definition get : C S := fun s => (s, Ok s).
Definition gets {A} (f : S -> A) : C A := fun s => (s, Ok (f s)).
Definition modify (f : S -> S) : C unit := fun s => (f s, Ok tt).

(** A call whose status the caller does not look at. *)
Definition unchecked {A} (m : C A) : C unit := fun s => let '(s', _) := m s in (s', Ok tt).

(** [for (i = from; i < from + n; ++i)] with a body that may exit. *)
Fixpoint mfor_from {A} (n : nat) (from : Z) (body : Z -> A -> C A) (a : A) : C A :=
  match n with
  | O => mret a
  | Datatypes.S n => a' ← body from a; mfor_from n (from + 1) body a'
  end.
Definition mfor {A} (n : Z) (body : Z -> A -> C A) (a : A) : C A :=
  mfor_from (Z.to_nat n) 0 body a.

(** A loop over the elements of a list. *)
Fixpoint mfold {A B} (body : B -> A -> C A) (l : list B) (a : A) : C A :=
  match l with
  | [] => mret a
  | b :: l => a' ← body b a; mfold body l a'
  end.

(** ** Program logic *)

(** After [m] from state [s], the postcondition holds of the outcome. *)
Definition wp {A} (m : C A) (Q : result A -> S -> Prop) (s : S) : Prop :=
  Q (snd (m s)) (fst (m s)).

(** The postcondition that only speaks of a normal return. *)
Definition on_ok {A} (Q : A -> S -> Prop) (r : result A) (s : S) : Prop :=
  match r with Ok a => Q a s | Err _ => True end.

Lemma wp_ret {A} (a : A) Q s : Q (Ok a) s -> wp (mret a) Q s.
Proof. done. Qed.

Lemma wp_fail {A} e (Q : result A -> S -> Prop) s : Q (Err e) s -> wp (fail e) Q s.
Proof. done. Qed.

Lemma wp_modify f Q s : Q (Ok tt) (f s) -> wp (modify f) Q s.
Proof. done. Qed.

Lemma wp_gets {A} (f : S -> A) Q s : Q (Ok (f s)) s -> wp (gets f) Q s.
Proof. done. Qed.

Lemma wp_bind {A B} (m : C A) (k : A -> C B) Q s :
  wp m (fun r s' => match r with Ok a => wp (k a) Q s' | Err e => Q (Err e) s' end) s ->
  wp (a ← m; k a) Q s.
Proof.
  unfold wp, mbind, C_bind. destruct (m s) as [s' [a|e]]; simpl; done.
Qed.

Lemma wp_mono {A} (m : C A) (Q Q' : result A -> S -> Prop) s :
  wp m Q s -> (forall r s', Q r s' -> Q' r s') -> wp m Q' s.
Proof. unfold wp. auto. Qed.

Lemma wp_unchecked {A} (m : C A) Q s :
  wp m (fun _ s' => Q (Ok tt) s') s -> wp (unchecked m) Q s.
Proof. unfold wp, unchecked. by destruct (m s). Qed.

(** A loop preserves its invariant; a failing body ends it. *)
Lemma wp_mfold {A B} (I : A -> S -> Prop) (E : dpu_error_t -> S -> Prop)
    (body : B -> A -> C A) l a s :
  I a s ->
  (forall b a s, b ∈ l -> I a s ->
    wp (body b a) (fun r s' => match r with Ok a' => I a' s' | Err e => E e s' end) s) ->
  wp (mfold body l a) (fun r s' => match r with Ok a' => I a' s' | Err e => E e s' end) s.
Proof.
  intros HI Hbody. revert a s HI Hbody. induction l as [|b l IH]; intros a s HI Hbody.
  { by apply wp_ret. }
  simpl. apply wp_bind. eapply wp_mono; [apply Hbody; [constructor|done]|].
  intros [a'|e] s'; [|done]. intros HI'. apply IH; [done|].
  intros b' a'' s'' Hb'. apply Hbody. by constructor.
Qed.

(** The same for counting loops, with the index in the invariant. *)
Lemma wp_mfor {A} (I : Z -> A -> S -> Prop) (E : dpu_error_t -> S -> Prop)
    (body : Z -> A -> C A) n a s :
  0 <= n -> I 0 a s ->
  (forall i a s, 0 <= i < n -> I i a s ->
    wp (body i a) (fun r s' => match r with Ok a' => I (i + 1) a' s' | Err e => E e s' end) s) ->
  wp (mfor n body a) (fun r s' => match r with Ok a' => I n a' s' | Err e => E e s' end) s.
Proof.
  intros Hn HI Hbody. unfold mfor.
  assert (forall k from a s, from + Z.of_nat k = n -> 0 <= from -> I from a s ->
    wp (mfor_from k from body a)
      (fun r s' => match r with Ok a' => I n a' s' | Err e => E e s' end) s) as Hgen.
  { clear a s HI. induction k as [|k IH]; intros from a s Hk Hfrom HI.
    - apply wp_ret. by replace n with from by lia.
    - simpl. apply wp_bind. eapply wp_mono; [apply Hbody; [lia|done]|].
      intros [a'|e] s'; [|done]. intros HI'. apply IH; [lia|lia|done]. }
  apply Hgen; [lia|done|done].
Qed.

Lemma mfold_app {A B} (body : B -> A -> C A) l1 l2 a s :
  mfold body (l1 ++ l2) a s = (a' ← mfold body l1 a; mfold body l2 a') s.
Proof.
  revert a s. induction l1 as [|b l1 IH]; intros a s; [done|].
  simpl. unfold mbind, C_bind. destruct (body b a s) as [s' [a'|e]]; [|done].
  apply IH.
Qed.

(** A counting loop is the loop over its indices. *)
Lemma mfor_mfold {A} n (body : Z -> A -> C A) a s :
  mfor n body a s = mfold body (seqZ 0 n) a s.
Proof.
  unfold mfor, seqZ.
  assert (forall k m from a s, from = Z.of_nat m ->
    mfor_from k from body a s = mfold body ((fun i : nat => Z.of_nat i + 0) <$> seq m k) a s) as Hgen.
  { clear. induction k as [|k IH]; intros m from a s ->; [done|].
    simpl. unfold mbind, C_bind. rewrite Z.add_0_r.
    destruct (body (Z.of_nat m) a s) as [s' [a'|e]]; [|done].
    apply IH. lia. }
  by rewrite (Hgen _ 0%nat).
Qed.
End Monad.

Arguments C : clear implicits.
#[export] Hint Resolve wp_ret wp_fail wp_modify wp_gets : dpu.

(** Walk through a straight-line computation. *)
Ltac wp_step :=
  lazymatch goal with
  | |- wp (mret _) _ _ => apply wp_ret
  | |- wp (fail _) _ _ => apply wp_fail
  | |- wp (modify _) _ _ => apply wp_modify
  | |- wp (gets _) _ _ => apply wp_gets
  | |- wp (mbind _ _) _ _ => apply wp_bind
  | |- wp (unchecked _) _ _ => apply wp_unchecked
  end.
Ltac wp_steps := repeat (wp_step; cbv beta iota).

(** ** Abnormal ends

    Where the source can end abnormally - a failed [assert], the dereference
    of a null pointer - the computation says so with [None]; the effects made
    before stay. *)

Section Abort.
Context {S : Type}.

Definition X (A : Type) : Type := S -> S * option (result A).

#[global] Instance X_ret : MRet X := fun A a s => (s, Some (Ok a)).
#[global] Instance X_bind : MBind X := fun A B k m s =>
  let '(s', r) := m s in
  match r with
  | Some (Ok a) => k a s'
  | Some (Err e) => (s', Some (Err e))
  | None => (s', None)
  end.

Definition lift {A} (m : C S A) : X A := fun s => let '(s', r) := m s in (s', Some r).
Definition xfail {A} (e : dpu_error_t) : X A := lift (fail e).
Definition abort {A} : X A := fun s => (s, None).
Definition assert_ (b : bool) : X unit := if b then mret tt else abort.
Definition deref {A} (o : option A) : X A :=
  match o with Some a => mret a | None => abort end.

Fixpoint xfold {A B} (body : B -> A -> X A) (l : list B) (a : A) : X A :=
  match l with
  | [] => mret a
  | b :: l => a' ← body b a; xfold body l a'
  end.

(** After [m] from [s], the postcondition holds of the outcome, abnormal ends
    included. *)
Definition xwp {A} (m : X A) (Q : option (result A) -> S -> Prop) (s : S) : Prop :=
  Q (snd (m s)) (fst (m s)).

Lemma xwp_ret {A} (a : A) Q s : Q (Some (Ok a)) s -> xwp (mret a) Q s.
Proof. done. Qed.

Lemma xwp_lift {A} (m : C S A) Q s : wp m (fun r s' => Q (Some r) s') s -> xwp (lift m) Q s.
Proof. unfold xwp, wp, lift. by destruct (m s). Qed.

Lemma xwp_mono {A} (m : X A) (Q Q' : option (result A) -> S -> Prop) s :
  xwp m Q s -> (forall r s', Q r s' -> Q' r s') -> xwp m Q' s.
Proof. unfold xwp. auto. Qed.

Lemma xwp_bind {A B} (m : X A) (k : A -> X B) Q s :
  xwp m (fun r s' => match r with
                     | Some (Ok a) => xwp (k a) Q s'
                     | Some (Err e) => Q (Some (Err e)) s'
                     | None => Q None s'
                     end) s ->
  xwp (a ← m; k a) Q s.
Proof. unfold xwp, mbind, X_bind. by destruct (m s) as [s' [[a|e]|]]. Qed.

Lemma xwp_assert b Q s : (b = true -> Q (Some (Ok tt)) s) -> (b = false -> Q None s) ->
  xwp (assert_ b) Q s.
Proof. unfold xwp. destruct b; intros Ht Hf; [by apply Ht|by apply Hf]. Qed.

Lemma xwp_deref {A} (o : option A) Q s :
  match o with Some a => Q (Some (Ok a)) s | None => Q None s end -> xwp (deref o) Q s.
Proof. by destruct o. Qed.

(** A loop whose invariant is indexed by what is left of the list. *)
Lemma xwp_xfold {A B} (I : list B -> A -> S -> Prop) (E : option dpu_error_t -> S -> Prop)
    (body : B -> A -> X A) l a s :
  I l a s ->
  (forall b l a s, I (b :: l) a s ->
    xwp (body b a) (fun r s' => match r with
                                | Some (Ok a') => I l a' s'
                                | Some (Err e) => E (Some e) s'
                                | None => E None s'
                                end) s) ->
  xwp (xfold body l a) (fun r s' => match r with
                                    | Some (Ok a') => I [] a' s'
                                    | Some (Err e) => E (Some e) s'
                                    | None => E None s'
                                    end) s.
Proof.
  intros HI Hbody. revert a s HI. induction l as [|b l IH]; intros a s HI; [done|].
  simpl. apply xwp_bind. eapply xwp_mono; [by apply Hbody|].
  intros [[a'|e]|] s'; [|done|done]. apply IH.
Qed.
End Abort.

Arguments X : clear implicits.

(** A fold whose body may be undefined. *)
Fixpoint ofold {A S} (body : A -> S -> option S) (l : list A) (s : S) : option S :=
  match l with
  | [] => Some s
  | a :: l => s' ← body a s; ofold body l s'
  end.

Lemma ofold_app {A S} (body : A -> S -> option S) l1 l2 s :
  ofold body (l1 ++ l2) s = (s' ← ofold body l1 s; ofold body l2 s').
Proof.
  revert s. induction l1 as [|a l1 IH]; intros s; [done|].
  cbn. destruct (body a s); [apply IH|done].
Qed.

(** The loop from 0 to n, its invariant indexed by the counter. *)
Lemma ofold_seqZ_ind {S} (P : Z -> S -> Prop) n (body : Z -> S -> option S) s s' :
  0 <= n -> P 0 s ->
  (forall i s s', 0 <= i < n -> P i s -> body i s = Some s' -> P (i + 1) s') ->
  ofold body (seqZ 0 n) s = Some s' -> P n s'.
Proof.
  intros Hn. revert s'. apply (natlike_ind (fun n => forall s', P 0 s ->
    (forall i s s', 0 <= i < n -> P i s -> body i s = Some s' -> P (i + 1) s') ->
    ofold body (seqZ 0 n) s = Some s' -> P n s')); [|clear n Hn; intros n Hn IH|done].
  - intros s' H0 _ [= <-]. done.
  - unfold Z.succ. intros s' H0 Hb. rewrite seqZ_app, ofold_app by lia. rewrite (seqZ_cons (0 + n) 1), (seqZ_nil _ (Z.pred 1)) by lia. cbn.
    destruct (ofold body (seqZ 0 n) s) as [s1|] eqn:H1; cbn; [|congruence].
    destruct (body (0 + n) s1) as [s2|] eqn:H2; cbn; [|congruence]. intros [= <-].
    apply (Hb n s1); [lia| |done]. apply IH; [done| |done]. intros i ? ? Hi. apply Hb. lia.
Qed.

(** The body never fails on the range: the loop returns. *)
Lemma ofold_total {A S} (body : A -> S -> option S) l s :
  (forall a s, a ∈ l -> is_Some (body a s)) -> is_Some (ofold body l s).
Proof.
  revert s. induction l as [|a l IH]; intros s Hb; [by exists s|].
  cbn. destruct (Hb a s ltac:(constructor)) as [s' ->]. cbn. apply IH. intros. apply Hb. by constructor.
Qed.
