(* ===== verification/BitConfig.v ===== *)
(** * Pin shuffling between the host and the DPUs

    Model of [src/ufi/src/ufi_bit_config.c]: the reaction of a control
    interface to BIT_ORDER is decoded into the permutations that the board
    applies to the bits of every nibble ([dpu_bit_config_compute]), and a
    32-bit word is shuffled in either direction
    ([dpu_bit_config_dpu2cpu], [dpu_bit_config_cpu2dpu]). *)

From S2P Require Import Prelude.

#[local] Open Scope Z_scope.
#[local] Open Scope dpu_scope.

Record dpu_bit_config := mk_bit_config {
  cpu2dpu : Z;      (* uint16_t *)
  dpu2cpu : Z;      (* uint16_t *)
  nibble_swap : Z;  (* uint8_t *)
  stutter : Z;      (* uint8_t *)
}.

Definition NR_NIBBLES_PER_BYTE := 2.
Definition NR_BITS_PER_NIBBLE := 4.

Definition index_in_nibble : list Z :=
  [0; 0; 1; 0; 2; 0; 0; 0; 3; 0; 0; 0; 0; 0; 0; 0].

(** [for (i = 0; i < 4; i++)], with the two variables the loop updates. *)
Definition get_reciprocal (code : Z) : Z :=
  let '(_, reciproc) :=
    for_up 4 (fun i '(code, reciproc) =>
      let index := code &&& 0x3 in
      (u8 (Z.shiftr code 2), u8 (reciproc ||| Z.shiftl i (Z.shiftl index 1))))
    (code, 0) in
  reciproc.

(** The position of the set bit of the nibble of [r] at bit [pos]. *)
Definition nibble_index (r pos : Z) : Z := index_in_nibble.[Z.shiftr r pos &&& 0xF].

Definition syndrome (r pos1 pos2 pos3 : Z) : Z :=
  u8 (Z.shiftl 1 (Z.shiftl (nibble_index r pos1) 1)
      ||| Z.shiftl 2 (Z.shiftl (nibble_index r pos2) 1)
      ||| Z.shiftl 3 (Z.shiftl (nibble_index r pos3) 1)).

Definition dpu_bit_config_compute (bit_order_result : Z) (config : dpu_bit_config)
    : dpu_bit_config :=
  let swap := if negb (Z.shiftr bit_order_result 28 &&& 0xF =? 0) then 0xFF else 0x00 in
  let m_syndrome := syndrome bit_order_result 4 12 20 in
  let l_syndrome := syndrome bit_order_result 0 8 16 in
  let mm_syndrome :=
    if negb (swap =? 0) then get_reciprocal l_syndrome else get_reciprocal m_syndrome in
  let ll_syndrome :=
    if negb (swap =? 0) then get_reciprocal m_syndrome else get_reciprocal l_syndrome in
  let config_3124 :=
    if negb (swap =? 0) then get_reciprocal ll_syndrome else get_reciprocal mm_syndrome in
  let config_2316 :=
    if negb (swap =? 0) then get_reciprocal mm_syndrome else get_reciprocal ll_syndrome in
  let config_4740 :=
    if negb (swap =? 0) then get_reciprocal l_syndrome else get_reciprocal m_syndrome in
  let config_3932 :=
    if negb (swap =? 0) then get_reciprocal m_syndrome else get_reciprocal l_syndrome in
  mk_bit_config
    (u16 (config_2316 ||| Z.shiftl config_3124 8))
    (u16 (config_3932 ||| Z.shiftl config_4740 8))
    swap (stutter config).

(** The innermost loop: bit [transformation_id] of the nibble goes to the bit
    that the transformation gives for it. *)
Definition transform_nibble (nibble_transformation nibble_value : Z) : Z :=
  for_up NR_BITS_PER_NIBBLE (fun transformation_id nibble_transformed =>
    let id_bit := Z.shiftr nibble_transformation (Z.shiftl transformation_id 1) &&& 0x3 in
    let bit_value := Z.shiftr nibble_value transformation_id &&& 0x1 in
    u8 (nibble_transformed ||| Z.shiftl bit_value id_bit)) 0.

(** The loop over the two nibbles of a byte. *)
Definition transform_byte (code swap byte_value : Z) : Z :=
  for_up NR_NIBBLES_PER_BYTE (fun nibble_id byte_transformed =>
    let nibble_value := Z.shiftr byte_value (Z.shiftl nibble_id 2) &&& 0xF in
    let nibble_transformation := Z.shiftr code (Z.shiftl nibble_id 3) &&& 0xFF in
    let nibble_transformed := transform_nibble nibble_transformation nibble_value in
    let dst := if negb (swap =? 0) then (nibble_id + 1) mod 2 else nibble_id in
    u8 (byte_transformed ||| Z.shiftl nibble_transformed (Z.shiftl dst 2))) 0.

(** The loop over the four bytes of the word. *)
Definition transform_word (code swap value : Z) : Z :=
  for_up 4 (fun byte_id acc =>
    let byte_value := Z.shiftr value (Z.shiftl byte_id 3) &&& 0xFF in
    u32 (acc ||| Z.shiftl (transform_byte code swap byte_value) (Z.shiftl byte_id 3))) 0.

Definition dpu_bit_config_dpu2cpu (config : dpu_bit_config) (value : Z) : Z :=
  transform_word (dpu2cpu config) (nibble_swap config) value.

Definition dpu_bit_config_cpu2dpu (config : dpu_bit_config) (value : Z) : Z :=
  transform_word (cpu2dpu config) (nibble_swap config) value.

(** ** Specification *)

(** A code is a permutation of the four bits of a nibble: its four 2-bit
    fields are distinct. *)
Definition code_field (code i : Z) : Z := Z.shiftr code (2 * i) &&& 3.
Definition is_permutation_code (code : Z) : bool :=
  (0 <=? code) && (code <? 256) &&
  bool_decide (NoDup (map (code_field code) [0; 1; 2; 3])).

(** The answer of a well-wired control interface: for each half byte the three
    probed bits arrive on three distinct wires. *)
Definition valid_bit_order (r : Z) : bool :=
  bool_decide (NoDup (map (nibble_index r) [4; 12; 20])) &&
  bool_decide (NoDup (map (nibble_index r) [0; 8; 16])).

(** A configuration whose two directions undo each other. *)
Definition inverse_codes (swap c2d d2c : Z) : Prop :=
  let c2d_l := c2d &&& 0xFF in let c2d_h := Z.shiftr c2d 8 &&& 0xFF in
  let d2c_l := d2c &&& 0xFF in let d2c_h := Z.shiftr d2c 8 &&& 0xFF in
  is_permutation_code c2d_l = true /\ is_permutation_code c2d_h = true /\
  if negb (swap =? 0)
  then d2c_h = get_reciprocal c2d_l /\ d2c_l = get_reciprocal c2d_h
  else d2c_l = get_reciprocal c2d_l /\ d2c_h = get_reciprocal c2d_h.

(** ** Lemmas *)

Lemma permutation_code_fits c : is_permutation_code c = true -> 0 <= c < 256.
Proof. unfold is_permutation_code. intros H. zb2p. lia. Qed.

Lemma reciprocal_permutation c :
  is_permutation_code c = true -> is_permutation_code (get_reciprocal c) = true.
Proof. intros Hc. pose proof (permutation_code_fits c Hc) as Hb. revert c Hb Hc. by_eval. Qed.

Lemma reciprocal_involutive c :
  is_permutation_code c = true -> get_reciprocal (get_reciprocal c) = c.
Proof. intros Hc. pose proof (permutation_code_fits c Hc) as Hb. revert c Hb Hc. by_eval. Qed.

Lemma transform_nibble_fits c x : 0 <= c < 256 -> 0 <= x < 16 -> 0 <= transform_nibble c x < 16.
Proof.
  intros Hc Hx. revert c Hc x Hx. by_eval.
Qed.

Lemma transform_nibble_reciprocal c x : is_permutation_code c = true -> 0 <= x < 16 ->
  transform_nibble (get_reciprocal c) (transform_nibble c x) = x.
Proof.
  intros Hc Hx. pose proof (permutation_code_fits c Hc) as Hb. revert c Hb Hc x Hx. by_eval.
Qed.

(** The two nibbles of a byte built from [a] (low) and [b] (high). *)
Lemma nibbles_of_pair a b : 0 <= a < 16 -> 0 <= b < 16 ->
  let x := u8 (u8 (0 ||| Z.shiftl a 0) ||| Z.shiftl b 4) in
  0 <= x < 256 /\ (Z.shiftr x 0 &&& 0xF) = a /\ (Z.shiftr x 4 &&& 0xF) = b.
Proof.
  intros Ha Hb x. subst x. revert a Ha b Hb. by_eval.
Qed.

Lemma nibbles_of_byte x : 0 <= x < 256 ->
  0 <= (Z.shiftr x 0 &&& 0xF) < 16 /\ 0 <= (Z.shiftr x 4 &&& 0xF) < 16 /\
  u8 (u8 (0 ||| Z.shiftl (Z.shiftr x 0 &&& 0xF) 0) ||| Z.shiftl (Z.shiftr x 4 &&& 0xF) 4) = x.
Proof.
  revert x. by_eval.
Qed.

Lemma nibbles_comm a b : 0 <= a < 16 -> 0 <= b < 16 ->
  u8 (u8 (0 ||| Z.shiftl b 4) ||| Z.shiftl a 0) = u8 (u8 (0 ||| Z.shiftl a 0) ||| Z.shiftl b 4).
Proof.
  intros Ha Hb. revert a Ha b Hb. by_eval.
Qed.

Lemma transform_byte_eq code swap x :
  transform_byte code swap x =
  let lo := transform_nibble (Z.shiftr code 0 &&& 0xFF) (Z.shiftr x 0 &&& 0xF) in
  let hi := transform_nibble (Z.shiftr code 8 &&& 0xFF) (Z.shiftr x 4 &&& 0xF) in
  if negb (swap =? 0) then u8 (u8 (0 ||| Z.shiftl lo 4) ||| Z.shiftl hi 0)
  else u8 (u8 (0 ||| Z.shiftl lo 0) ||| Z.shiftl hi 4).
Proof.
  unfold transform_byte, NR_NIBBLES_PER_BYTE.
  change 2 with (0 + 1 + 1) at 1. rewrite !for_up_succ, for_up_0 by lia.
  change (Z.shiftl 0 2) with 0. change (Z.shiftl 0 3) with 0.
  change (Z.shiftl (0 + 1) 2) with 4. change (Z.shiftl (0 + 1) 3) with 8.
  change ((0 + 1) mod 2) with 1. change ((0 + 1 + 1) mod 2) with 0.
  change (Z.shiftl 1 2) with 4. cbv zeta.
  destruct (negb (swap =? 0)); change (Z.shiftl (0 + 1) 2) with 4;
    change (Z.shiftl 0 2) with 0; reflexivity.
Qed.

Lemma byte_fits_codes code : 0 <= (code &&& 0xFF) < 256.
Proof.
  change 0xFF with (2 ^ 8 - 1). rewrite land_ones_mod by lia.
  by apply Z.mod_pos_bound.
Qed.
#[local] Hint Resolve byte_fits_codes : dpu.

(** A byte that goes to the DPU and comes back is unchanged. *)
Lemma transform_byte_inverse swap c2d d2c x :
  inverse_codes swap c2d d2c -> 0 <= x < 256 ->
  0 <= transform_byte c2d swap x < 256 /\
  transform_byte d2c swap (transform_byte c2d swap x) = x.
Proof.
  intros (Hl & Hh & Hinv) Hx.
  destruct (nibbles_of_byte x Hx) as (Hlo & Hhi & Hsum).
  rewrite !transform_byte_eq. cbv zeta. rewrite !Z.shiftr_0_r in *.
  set (lo := x &&& 0xF) in *. set (hi := Z.shiftr x 4 &&& 0xF) in *.
  pose proof (transform_nibble_fits (c2d &&& 0xFF) lo ltac:(auto with dpu) Hlo) as Htl.
  pose proof (transform_nibble_fits (Z.shiftr c2d 8 &&& 0xFF) hi ltac:(auto with dpu) Hhi) as Hth.
  destruct (negb (swap =? 0)); destruct Hinv as [Hr1 Hr2]; rewrite Hr1, Hr2.
  - rewrite (nibbles_comm _ _ Hth Htl).
    destruct (nibbles_of_pair _ _ Hth Htl) as (Hb & H1 & H2). cbv zeta in *.
    rewrite Z.shiftr_0_r in *. rewrite H1, H2, !transform_nibble_reciprocal by done.
    split; [done|]. by rewrite nibbles_comm.
  - destruct (nibbles_of_pair _ _ Htl Hth) as (Hb & H1 & H2). cbv zeta in *.
    rewrite Z.shiftr_0_r in *. by rewrite H1, H2, !transform_nibble_reciprocal by done.
Qed.

Lemma transform_byte_fits code swap x : fits 8 (transform_byte code swap x).
Proof. rewrite transform_byte_eq. cbv zeta. case_bool; apply u8_fits. Qed.

(** The word loop handles the bytes independently. *)
Lemma transform_word_bytes code swap v :
  transform_word code swap v = le_word (map (transform_byte code swap) (le_bytes 4 v)).
Proof.
  unfold transform_word. change 4 with (0 + 1 + 1 + 1 + 1).
  rewrite !for_up_succ, for_up_0 by lia. cbn [le_bytes map le_word].
  set (B := fun k => transform_byte code swap (Z.shiftr v k &&& 0xFF)).
  assert (forall k, fits 8 (B k)) as HB.
  { intros k. exact (transform_byte_fits _ _ _). }
  assert (forall k, 0 <= k -> transform_byte code swap (v / 2 ^ k mod 2 ^ 8) = B k) as HBk.
  { intros k Hk. unfold B. change 0xFF with (2 ^ 8 - 1).
    by rewrite land_ones_mod, Z.shiftr_div_pow2 by lia. }
  rewrite !Z.div_div by lia. change (2 ^ 8 * 2 ^ 8 * 2 ^ 8) with (2 ^ 24).
  change (2 ^ 8 * 2 ^ 8) with (2 ^ 16).
  rewrite !HBk by lia.
  replace (transform_byte code swap (v mod 2 ^ 8)) with (B 0)
    by (rewrite <-(HBk 0) by lia; by rewrite Z.pow_0_r, Z.div_1_r).
  change (Z.shiftl 0 3) with 0. change (Z.shiftl (0 + 1) 3) with 8.
  change (Z.shiftl (0 + 1 + 1) 3) with 16. change (Z.shiftl (0 + 1 + 1 + 1) 3) with 24.
  fold (B 0) (B 8) (B 16) (B 24).
  pose proof (HB 0) as [? ?]. pose proof (HB 8) as [? ?].
  pose proof (HB 16) as [? ?]. pose proof (HB 24) as [? ?].
  rewrite Z.lor_0_l, Z.shiftl_0_r.
  rewrite (u32_id (B 0)) by (unfold fits; lia).
  rewrite (lor_shiftl_add 8) by (unfold fits; lia).
  rewrite (u32_id (B 0 + _)) by (unfold fits; lia).
  rewrite (lor_shiftl_add 16) by (unfold fits; lia).
  rewrite (u32_id (B 0 + _ + _)) by (unfold fits; lia).
  rewrite (lor_shiftl_add 24) by (unfold fits; lia).
  rewrite u32_id by (unfold fits; lia). lia.
Qed.

Lemma transform_word_inverse swap c2d d2c v :
  inverse_codes swap c2d d2c -> fits 32 v ->
  transform_word d2c swap (transform_word c2d swap v) = v.
Proof.
  intros Hinv Hv. rewrite !transform_word_bytes.
  set (bs := map (transform_byte c2d swap) (le_bytes 4 v)).
  assert (Forall (fits 8) bs) as Hbs.
  { apply Forall_fmap, Forall_true. intros x. exact (transform_byte_fits _ _ _). }
  change 4%nat with (length bs) at 1. rewrite (le_bytes_word bs) by done.
  unfold bs. rewrite map_map.
  rewrite (map_ext_Forall _ id).
  - rewrite map_id, le_word_bytes. exact (Z.mod_small _ _ Hv).
  - eapply Forall_impl; [|apply le_bytes_fits].
    intros x Hx. by apply (transform_byte_inverse swap c2d d2c).
Qed.

Lemma inverse_codes_sym swap c2d d2c :
  inverse_codes swap c2d d2c -> inverse_codes swap d2c c2d.
Proof.
  unfold inverse_codes. intros (Hl & Hh & Hinv).
  destruct (negb (swap =? 0)); destruct Hinv as [H1 H2]; rewrite H1, H2;
    rewrite !reciprocal_involutive by done; auto using reciprocal_permutation.
Qed.

(** The answer of a well-wired interface decodes to permutation codes. *)
Lemma syndrome_permutation r p1 p2 p3 :
  NoDup (map (nibble_index r) [p1; p2; p3]) ->
  is_permutation_code (syndrome r p1 p2 p3) = true.
Proof.
  intros Hnd.
  assert (forall p, 0 <= nibble_index r p < 4) as Hrange.
  { intros p. unfold nibble_index.
    assert (0 <= (Z.shiftr r p &&& 0xF) < 16) as Hx.
    { change 0xF with (2 ^ 4 - 1). rewrite land_ones_mod by lia. by apply Z.mod_pos_bound. }
    revert Hx. generalize (Z.shiftr r p &&& 0xF). by_eval. }
  unfold syndrome. simpl in Hnd.
  pose proof (Hrange p1) as H1. pose proof (Hrange p2) as H2. pose proof (Hrange p3) as H3.
  revert H1 H2 H3 Hnd.
  generalize (nibble_index r p1) as a, (nibble_index r p2) as b, (nibble_index r p3) as c.
  clear. intros a b c Ha Hb Hc. revert a Ha b Hb c Hc. by_eval.
Qed.

Lemma join_bytes lo hi : 0 <= lo < 256 -> 0 <= hi < 256 ->
  let c := u16 (lo ||| Z.shiftl hi 8) in
  (c &&& 0xFF) = lo /\ (Z.shiftr c 8 &&& 0xFF) = hi.
Proof.
  intros Hlo Hhi c. subst c.
  rewrite (lor_shiftl_add 8), u16_id by (unfold fits; lia).
  change 0xFF with (2 ^ 8 - 1). rewrite !land_ones_mod, Z.shiftr_div_pow2 by lia.
  rewrite Z.mod_add, Z.div_add, (Z.div_small lo), !Z.mod_small by lia. lia.
Qed.

(** What [dpu_bit_config_compute] builds from a well-formed answer. *)
Lemma bit_config_compute_inverse r config :
  valid_bit_order r = true ->
  let c := dpu_bit_config_compute r config in
  inverse_codes (nibble_swap c) (cpu2dpu c) (dpu2cpu c).
Proof.
  unfold valid_bit_order. intros Hv. zb2p.
  repeat match goal with H : bool_decide _ = true |- _ => apply bool_decide_eq_true in H end.
  assert (is_permutation_code (syndrome r 4 12 20) = true) as Hm by (by apply syndrome_permutation).
  assert (is_permutation_code (syndrome r 0 8 16) = true) as Hl by (by apply syndrome_permutation).
  unfold dpu_bit_config_compute, inverse_codes. cbn [nibble_swap cpu2dpu dpu2cpu].
  set (m := syndrome r 4 12 20) in *. set (l := syndrome r 0 8 16) in *.
  pose proof (reciprocal_permutation _ Hm) as Hm'. pose proof (reciprocal_permutation _ Hl) as Hl'.
  pose proof (permutation_code_fits _ Hm) as Hmf. pose proof (permutation_code_fits _ Hl) as Hlf.
  pose proof (permutation_code_fits _ Hm') as Hmf'. pose proof (permutation_code_fits _ Hl') as Hlf'.
  destruct (join_bytes l m Hlf Hmf) as [Ha Hb].
  destruct (join_bytes _ _ Hmf' Hlf') as [Hc Hd]. destruct (join_bytes _ _ Hlf' Hmf') as [He Hf].
  cbv zeta in *.
  destruct (negb (Z.shiftr r 28 &&& 0xF =? 0)); cbn [negb Z.eqb];
    rewrite !reciprocal_involutive by done; by rewrite Ha, Hb, ?Hc, ?Hd, ?He, ?Hf.
Qed.

(** ** Properties *)

(** a configuration computed from a well-formed BIT_ORDER answer makes the
    two shuffles inverse of each other on every 32-bit word. *)
Theorem bit_config_roundtrip (r : Z) (config : dpu_bit_config) (v : Z) :
  valid_bit_order r = true -> fits 32 v ->
  let c := dpu_bit_config_compute r config in
  dpu_bit_config_dpu2cpu c (dpu_bit_config_cpu2dpu c v) = v /\
  dpu_bit_config_cpu2dpu c (dpu_bit_config_dpu2cpu c v) = v.
Proof.
  intros Hr Hv c. pose proof (bit_config_compute_inverse r config Hr) as Hinv.
  fold c in Hinv. cbv zeta in Hinv. fold c in Hinv. clearbody c.
  unfold dpu_bit_config_dpu2cpu, dpu_bit_config_cpu2dpu.
  split; apply transform_word_inverse; [done..|by apply inverse_codes_sym|done].
Qed.

Lemma bit_config_roundtrip_witness :
  let c := dpu_bit_config_compute 0xF0884422 (mk_bit_config 0 0 0 0) in
  dpu_bit_config_dpu2cpu c (dpu_bit_config_cpu2dpu c 0x12345678) = 0x12345678.
Proof. exact (proj1 (bit_config_roundtrip 0xF0884422 _ 0x12345678 eq_refl ltac:(by_eval))). Defined.
