(* ===== verification/CiCommands.v ===== *)
(** * The command words of the control interface

    Model of [src/ufi/include/ufi/ufi_ci_commands.h], macro by macro: the
    64-bit words sent to a control interface. A word whose top byte is [0x11]
    writes the structure register, one whose top byte is [0x33] executes a
    frame under that structure; every macro argument is cast to [u64] before
    it is shifted into place. *)

From S2P Require Import Prelude.

#[local] Open Scope Z_scope.
#[local] Open Scope dpu_scope.

Definition CI_EMPTY : Z :=
  0x0000000000000000.

Definition CI_BIT_ORDER (ne stutter c2d d2c : Z) : Z :=
  0x0100000000000000 ||| shl64 (u64 ne) 0 ||| shl64 (u64 stutter) 8 ||| shl64 (u64 c2d) 16 |||
  shl64 (u64 d2c) 32.

Definition CI_IDENTITY : Z :=
  0x01FF000000000000.

Definition CI_SOFTWARE_RESET (factor cycle_accurate : Z) : Z :=
  0x01FF00000000FF00 ||| shl64 (u64 factor) 0 ||| shl64 (u64 cycle_accurate) 4.

Definition CI_THERMAL_CONFIG (threshold : Z) : Z :=
  0x01FF000000FF0000 ||| shl64 (u64 threshold) 0.

Definition CI_CMD_DURATION_FUTUR (duration : Z) : Z :=
  0x01FF000000FFFF00 ||| shl64 (u64 duration) 0.

Definition CI_RES_DURATION_FUTUR (duration : Z) : Z :=
  0x01FF0000FF000000 ||| shl64 (u64 duration) 0.

Definition CI_RES_SAMPLING_FUTUR (sampling : Z) : Z :=
  0x01FF0000FF00FF00 ||| shl64 (u64 sampling) 0.

Definition CI_BYTE_ORDER : Z :=
  0x7777777777777777.

Definition CI_NOP : Z :=
  0xFF00000000000000.

Definition CI_SELECT_DPU_STRUCT : Z :=
  0x1100000000000000 ||| shl64 (u64 0x2) 0 ||| shl64 (u64 0) 8 ||| shl64 (u64 0x0) 16 ||| shl64
  (u64 0x0) 24 ||| shl64 (u64 0x0) 32 ||| shl64 (u64 0x0) 40.

Definition CI_SELECT_DPU_FRAME (dpu_id : Z) : Z :=
  0x3300000000000000 ||| shl64 (u64 0xa) 0 ||| shl64 (u64 dpu_id) 8 ||| shl64 (u64 0xff) 16 |||
  shl64 (u64 0x2) 24 ||| shl64 (u64 0x0) 32 ||| shl64 (u64 0x0) 40 ||| shl64 (u64 0x0) 48.

Definition CI_SELECT_GROUP_STRUCT : Z :=
  0x1100000000000000 ||| shl64 (u64 0x2) 0 ||| shl64 (u64 0) 8 ||| shl64 (u64 0x0) 16 ||| shl64
  (u64 0x0) 24 ||| shl64 (u64 0x0) 32 ||| shl64 (u64 0x0) 40.

Definition CI_SELECT_GROUP_FRAME (group_id : Z) : Z :=
  0x3300000000000000 ||| shl64 (u64 0x9) 0 ||| shl64 (u64 group_id) 8 ||| shl64 (u64 0xff) 16
  ||| shl64 (u64 0x2) 24 ||| shl64 (u64 0x0) 32 ||| shl64 (u64 0x0) 40 ||| shl64 (u64 0x0) 48.

Definition CI_SELECT_ALL_STRUCT : Z :=
  0x1100000000000000 ||| shl64 (u64 0) 0 ||| shl64 (u64 0) 8 ||| shl64 (u64 0x0) 16 ||| shl64
  (u64 0x0) 24 ||| shl64 (u64 0x0) 32 ||| shl64 (u64 0x0) 40.

Definition CI_SELECT_ALL_FRAME : Z :=
  0x3300000000000000 ||| shl64 (u64 0x8) 0 ||| shl64 (u64 0xff) 8 ||| shl64 (u64 0x2) 16 |||
  shl64 (u64 0x0) 24 ||| shl64 (u64 0x0) 32 ||| shl64 (u64 0x0) 40 ||| shl64 (u64 0x0) 48.

Definition CI_WRITE_GROUP_STRUCT : Z :=
  0x1100000000000000 ||| shl64 (u64 0x2) 0 ||| shl64 (u64 0) 8 ||| shl64 (u64 0x0) 16 ||| shl64
  (u64 0x0) 24 ||| shl64 (u64 0x0) 32 ||| shl64 (u64 0x0) 40.

Definition CI_WRITE_GROUP_FRAME (group_id : Z) : Z :=
  0x3300000000000000 ||| shl64 (u64 0xc) 0 ||| shl64 (u64 group_id) 8 ||| shl64 (u64 0xff) 16
  ||| shl64 (u64 0x2) 24 ||| shl64 (u64 0x0) 32 ||| shl64 (u64 0x0) 40 ||| shl64 (u64 0x0) 48.

Definition CI_DMA_CTRL_READ_STRUCT : Z :=
  0x1100000000000000 ||| shl64 (u64 0) 0 ||| shl64 (u64 0) 8 ||| shl64 (u64 0x0) 16 ||| shl64
  (u64 0x0) 24 ||| shl64 (u64 0x0) 32 ||| shl64 (u64 0x0) 40.

Definition CI_DMA_CTRL_READ_FRAME : Z :=
  0x3300000000000000 ||| shl64 (u64 0x10) 0 ||| shl64 (u64 0x2) 8 ||| shl64 (u64 0x0) 16 |||
  shl64 (u64 0x0) 24 ||| shl64 (u64 0x0) 32 ||| shl64 (u64 0x0) 40 ||| shl64 (u64 0x0) 48.

Definition CI_DMA_CTRL_WRITE_STRUCT : Z :=
  0x1100000000000000 ||| shl64 (u64 0x3f) 0 ||| shl64 (u64 0) 8 ||| shl64 (u64 0xff) 16 |||
  shl64 (u64 0x2) 24 ||| shl64 (u64 0x0) 32 ||| shl64 (u64 0x0) 40.

Definition CI_DMA_CTRL_WRITE_FRAME (byte0 byte1 byte2 byte3 byte4 byte5 : Z) : Z :=
  0x3300000000000000 ||| shl64 (u64 byte0) 0 ||| shl64 (u64 byte1) 8 ||| shl64 (u64 byte2) 16
  ||| shl64 (u64 byte3) 24 ||| shl64 (u64 byte4) 32 ||| shl64 (u64 byte5) 40 ||| shl64 (u64
  0xa7) 48.

Definition CI_DMA_CTRL_CLEAR_STRUCT : Z :=
  0x1100000000000000 ||| shl64 (u64 0x3f) 0 ||| shl64 (u64 0) 8 ||| shl64 (u64 0xff) 16 |||
  shl64 (u64 0x2) 24 ||| shl64 (u64 0x0) 32 ||| shl64 (u64 0x0) 40.

Definition CI_DMA_CTRL_CLEAR_FRAME : Z :=
  0x3300000000000000 ||| shl64 (u64 0) 0 ||| shl64 (u64 0) 8 ||| shl64 (u64 0) 16 ||| shl64 (u64
  0) 24 ||| shl64 (u64 0) 32 ||| shl64 (u64 0) 40 ||| shl64 (u64 0xa6) 48.

Definition CI_DMA_FAULT_THREAD_INDEX_READ_STRUCT : Z :=
  0x1100000000000000 ||| shl64 (u64 0) 0 ||| shl64 (u64 0) 8 ||| shl64 (u64 0x0) 16 ||| shl64
  (u64 0x0) 24 ||| shl64 (u64 0x0) 32 ||| shl64 (u64 0x0) 40.

Definition CI_DMA_FAULT_THREAD_INDEX_READ_FRAME : Z :=
  0x3300000000000000 ||| shl64 (u64 0x11) 0 ||| shl64 (u64 0x2) 8 ||| shl64 (u64 0x0) 16 |||
  shl64 (u64 0x0) 24 ||| shl64 (u64 0x0) 32 ||| shl64 (u64 0x0) 40 ||| shl64 (u64 0x0) 48.

Definition CI_BKP_FAULT_THREAD_INDEX_READ_STRUCT : Z :=
  0x1100000000000000 ||| shl64 (u64 0) 0 ||| shl64 (u64 0) 8 ||| shl64 (u64 0x0) 16 ||| shl64
  (u64 0x0) 24 ||| shl64 (u64 0x0) 32 ||| shl64 (u64 0x0) 40.

Definition CI_BKP_FAULT_THREAD_INDEX_READ_FRAME : Z :=
  0x3300000000000000 ||| shl64 (u64 0x12) 0 ||| shl64 (u64 0x2) 8 ||| shl64 (u64 0x0) 16 |||
  shl64 (u64 0x0) 24 ||| shl64 (u64 0x0) 32 ||| shl64 (u64 0x0) 40 ||| shl64 (u64 0x0) 48.

Definition CI_MEM_FAULT_THREAD_INDEX_READ_STRUCT : Z :=
  0x1100000000000000 ||| shl64 (u64 0) 0 ||| shl64 (u64 0) 8 ||| shl64 (u64 0x0) 16 ||| shl64
  (u64 0x0) 24 ||| shl64 (u64 0x0) 32 ||| shl64 (u64 0x0) 40.

Definition CI_MEM_FAULT_THREAD_INDEX_READ_FRAME : Z :=
  0x3300000000000000 ||| shl64 (u64 0x13) 0 ||| shl64 (u64 0x2) 8 ||| shl64 (u64 0x0) 16 |||
  shl64 (u64 0x0) 24 ||| shl64 (u64 0x0) 32 ||| shl64 (u64 0x0) 40 ||| shl64 (u64 0x0) 48.

Definition CI_PC_LSB_READ_STRUCT : Z :=
  0x1100000000000000 ||| shl64 (u64 0) 0 ||| shl64 (u64 0) 8 ||| shl64 (u64 0x0) 16 ||| shl64
  (u64 0x0) 24 ||| shl64 (u64 0x0) 32 ||| shl64 (u64 0x0) 40.

Definition CI_PC_LSB_READ_FRAME : Z :=
  0x3300000000000000 ||| shl64 (u64 0x14) 0 ||| shl64 (u64 0x2) 8 ||| shl64 (u64 0x0) 16 |||
  shl64 (u64 0x0) 24 ||| shl64 (u64 0x0) 32 ||| shl64 (u64 0x0) 40 ||| shl64 (u64 0x0) 48.

Definition CI_PC_MSB_READ_STRUCT : Z :=
  0x1100000000000000 ||| shl64 (u64 0) 0 ||| shl64 (u64 0) 8 ||| shl64 (u64 0x0) 16 ||| shl64
  (u64 0x0) 24 ||| shl64 (u64 0x0) 32 ||| shl64 (u64 0x0) 40.

Definition CI_PC_MSB_READ_FRAME : Z :=
  0x3300000000000000 ||| shl64 (u64 0x15) 0 ||| shl64 (u64 0x2) 8 ||| shl64 (u64 0x0) 16 |||
  shl64 (u64 0x0) 24 ||| shl64 (u64 0x0) 32 ||| shl64 (u64 0x0) 40 ||| shl64 (u64 0x0) 48.

Definition CI_PC_MODE_READ_STRUCT : Z :=
  0x1100000000000000 ||| shl64 (u64 0) 0 ||| shl64 (u64 0) 8 ||| shl64 (u64 0x0) 16 ||| shl64
  (u64 0x0) 24 ||| shl64 (u64 0x0) 32 ||| shl64 (u64 0x0) 40.

Definition CI_PC_MODE_READ_FRAME : Z :=
  0x3300000000000000 ||| shl64 (u64 0x16) 0 ||| shl64 (u64 0x2) 8 ||| shl64 (u64 0x0) 16 |||
  shl64 (u64 0x0) 24 ||| shl64 (u64 0x0) 32 ||| shl64 (u64 0x0) 40 ||| shl64 (u64 0x0) 48.

Definition CI_PC_MODE_WRITE_STRUCT : Z :=
  0x1100000000000000 ||| shl64 (u64 0xbf) 0 ||| shl64 (u64 0) 8 ||| shl64 (u64 0) 16 ||| shl64
  (u64 0xff) 24 ||| shl64 (u64 0x2) 32 ||| shl64 (u64 0x0) 40.

Definition CI_PC_MODE_WRITE_FRAME (pc_mode : Z) : Z :=
  0x3300000000000000 ||| shl64 (u64 pc_mode) 0 ||| shl64 (u64 0) 8 ||| shl64 (u64 0) 16 |||
  shl64 (u64 0) 24 ||| shl64 (u64 0) 32 ||| shl64 (u64 0) 40 ||| shl64 (u64 0xa4) 48.

Definition CI_DPU_FAULT_STATE_READ_STRUCT : Z :=
  0x1100000000000000 ||| shl64 (u64 0) 0 ||| shl64 (u64 0) 8 ||| shl64 (u64 0x0) 16 ||| shl64
  (u64 0x0) 24 ||| shl64 (u64 0x0) 32 ||| shl64 (u64 0x0) 40.

Definition CI_DPU_FAULT_STATE_READ_FRAME : Z :=
  0x3300000000000000 ||| shl64 (u64 0x80) 0 ||| shl64 (u64 0x2) 8 ||| shl64 (u64 0x0) 16 |||
  shl64 (u64 0x0) 24 ||| shl64 (u64 0x0) 32 ||| shl64 (u64 0x0) 40 ||| shl64 (u64 0x0) 48.

Definition CI_DPU_FAULT_STATE_CLR_STRUCT : Z :=
  0x1100000000000000 ||| shl64 (u64 0) 0 ||| shl64 (u64 0) 8 ||| shl64 (u64 0x0) 16 ||| shl64
  (u64 0x0) 24 ||| shl64 (u64 0x0) 32 ||| shl64 (u64 0x0) 40.

Definition CI_DPU_FAULT_STATE_CLR_FRAME : Z :=
  0x3300000000000000 ||| shl64 (u64 0x86) 0 ||| shl64 (u64 0xff) 8 ||| shl64 (u64 0x2) 16 |||
  shl64 (u64 0x0) 24 ||| shl64 (u64 0x0) 32 ||| shl64 (u64 0x0) 40 ||| shl64 (u64 0x0) 48.

Definition CI_DPU_FAULT_STATE_SET_AND_STEP_STRUCT : Z :=
  0x1100000000000000 ||| shl64 (u64 0) 0 ||| shl64 (u64 0) 8 ||| shl64 (u64 0x0) 16 ||| shl64
  (u64 0x0) 24 ||| shl64 (u64 0x0) 32 ||| shl64 (u64 0x0) 40.

Definition CI_DPU_FAULT_STATE_SET_AND_STEP_FRAME : Z :=
  0x3300000000000000 ||| shl64 (u64 0x87) 0 ||| shl64 (u64 0xff) 8 ||| shl64 (u64 0x2) 16 |||
  shl64 (u64 0x0) 24 ||| shl64 (u64 0x0) 32 ||| shl64 (u64 0x0) 40 ||| shl64 (u64 0x0) 48.

Definition CI_DPU_RUN_STATE_READ_STRUCT : Z :=
  0x1100000000000000 ||| shl64 (u64 0) 0 ||| shl64 (u64 0) 8 ||| shl64 (u64 0x0) 16 ||| shl64
  (u64 0x0) 24 ||| shl64 (u64 0x0) 32 ||| shl64 (u64 0x0) 40.

Definition CI_DPU_RUN_STATE_READ_FRAME : Z :=
  0x3300000000000000 ||| shl64 (u64 0x84) 0 ||| shl64 (u64 0x2) 8 ||| shl64 (u64 0x0) 16 |||
  shl64 (u64 0x0) 24 ||| shl64 (u64 0x0) 32 ||| shl64 (u64 0x0) 40 ||| shl64 (u64 0x0) 48.

Definition CI_BKP_FAULT_READ_STRUCT : Z :=
  0x1100000000000000 ||| shl64 (u64 0) 0 ||| shl64 (u64 0) 8 ||| shl64 (u64 0x0) 16 ||| shl64
  (u64 0x0) 24 ||| shl64 (u64 0x0) 32 ||| shl64 (u64 0x0) 40.

Definition CI_BKP_FAULT_READ_FRAME : Z :=
  0x3300000000000000 ||| shl64 (u64 0xb0) 0 ||| shl64 (u64 0x2) 8 ||| shl64 (u64 0x0) 16 |||
  shl64 (u64 0x0) 24 ||| shl64 (u64 0x0) 32 ||| shl64 (u64 0x0) 40 ||| shl64 (u64 0x0) 48.

Definition CI_BKP_FAULT_CLEAR_STRUCT : Z :=
  0x1100000000000000 ||| shl64 (u64 0) 0 ||| shl64 (u64 0) 8 ||| shl64 (u64 0x0) 16 ||| shl64
  (u64 0x0) 24 ||| shl64 (u64 0x0) 32 ||| shl64 (u64 0x0) 40.

Definition CI_BKP_FAULT_CLEAR_FRAME : Z :=
  0x3300000000000000 ||| shl64 (u64 0xb2) 0 ||| shl64 (u64 0xff) 8 ||| shl64 (u64 0x2) 16 |||
  shl64 (u64 0x0) 24 ||| shl64 (u64 0x0) 32 ||| shl64 (u64 0x0) 40 ||| shl64 (u64 0x0) 48.

Definition CI_BKP_FAULT_SET_STRUCT : Z :=
  0x1100000000000000 ||| shl64 (u64 0) 0 ||| shl64 (u64 0) 8 ||| shl64 (u64 0x0) 16 ||| shl64
  (u64 0x0) 24 ||| shl64 (u64 0x0) 32 ||| shl64 (u64 0x0) 40.

Definition CI_BKP_FAULT_SET_FRAME : Z :=
  0x3300000000000000 ||| shl64 (u64 0xb3) 0 ||| shl64 (u64 0xff) 8 ||| shl64 (u64 0x2) 16 |||
  shl64 (u64 0x0) 24 ||| shl64 (u64 0x0) 32 ||| shl64 (u64 0x0) 40 ||| shl64 (u64 0x0) 48.

Definition CI_POISON_FAULT_READ_STRUCT : Z :=
  0x1100000000000000 ||| shl64 (u64 0) 0 ||| shl64 (u64 0) 8 ||| shl64 (u64 0x0) 16 ||| shl64
  (u64 0x0) 24 ||| shl64 (u64 0x0) 32 ||| shl64 (u64 0x0) 40.

Definition CI_POISON_FAULT_READ_FRAME : Z :=
  0x3300000000000000 ||| shl64 (u64 0xb4) 0 ||| shl64 (u64 0x2) 8 ||| shl64 (u64 0x0) 16 |||
  shl64 (u64 0x0) 24 ||| shl64 (u64 0x0) 32 ||| shl64 (u64 0x0) 40 ||| shl64 (u64 0x0) 48.

Definition CI_POISON_FAULT_CLEAR_STRUCT : Z :=
  0x1100000000000000 ||| shl64 (u64 0) 0 ||| shl64 (u64 0) 8 ||| shl64 (u64 0x0) 16 ||| shl64
  (u64 0x0) 24 ||| shl64 (u64 0x0) 32 ||| shl64 (u64 0x0) 40.

Definition CI_POISON_FAULT_CLEAR_FRAME : Z :=
  0x3300000000000000 ||| shl64 (u64 0xb6) 0 ||| shl64 (u64 0xff) 8 ||| shl64 (u64 0x2) 16 |||
  shl64 (u64 0x0) 24 ||| shl64 (u64 0x0) 32 ||| shl64 (u64 0x0) 40 ||| shl64 (u64 0x0) 48.

Definition CI_POISON_FAULT_SET_STRUCT : Z :=
  0x1100000000000000 ||| shl64 (u64 0) 0 ||| shl64 (u64 0) 8 ||| shl64 (u64 0x0) 16 ||| shl64
  (u64 0x0) 24 ||| shl64 (u64 0x0) 32 ||| shl64 (u64 0x0) 40.

Definition CI_POISON_FAULT_SET_FRAME : Z :=
  0x3300000000000000 ||| shl64 (u64 0xb7) 0 ||| shl64 (u64 0xff) 8 ||| shl64 (u64 0x2) 16 |||
  shl64 (u64 0x0) 24 ||| shl64 (u64 0x0) 32 ||| shl64 (u64 0x0) 40 ||| shl64 (u64 0x0) 48.

Definition CI_DMA_FAULT_READ_AND_CLR_STRUCT : Z :=
  0x1100000000000000 ||| shl64 (u64 0) 0 ||| shl64 (u64 0) 8 ||| shl64 (u64 0x0) 16 ||| shl64
  (u64 0x0) 24 ||| shl64 (u64 0x0) 32 ||| shl64 (u64 0x0) 40.

Definition CI_DMA_FAULT_READ_AND_CLR_FRAME : Z :=
  0x3300000000000000 ||| shl64 (u64 0x82) 0 ||| shl64 (u64 0x2) 8 ||| shl64 (u64 0x0) 16 |||
  shl64 (u64 0x0) 24 ||| shl64 (u64 0x0) 32 ||| shl64 (u64 0x0) 40 ||| shl64 (u64 0x0) 48.

Definition CI_MEM_FAULT_READ_AND_CLR_STRUCT : Z :=
  0x1100000000000000 ||| shl64 (u64 0) 0 ||| shl64 (u64 0) 8 ||| shl64 (u64 0x0) 16 ||| shl64
  (u64 0x0) 24 ||| shl64 (u64 0x0) 32 ||| shl64 (u64 0x0) 40.

Definition CI_MEM_FAULT_READ_AND_CLR_FRAME : Z :=
  0x3300000000000000 ||| shl64 (u64 0xf4) 0 ||| shl64 (u64 0x2) 8 ||| shl64 (u64 0x0) 16 |||
  shl64 (u64 0x0) 24 ||| shl64 (u64 0x0) 32 ||| shl64 (u64 0x0) 40 ||| shl64 (u64 0x0) 48.

Definition CI_STACK_UP_READ_AND_CLR_STRUCT : Z :=
  0x1100000000000000 ||| shl64 (u64 0) 0 ||| shl64 (u64 0) 8 ||| shl64 (u64 0x0) 16 ||| shl64
  (u64 0x0) 24 ||| shl64 (u64 0x0) 32 ||| shl64 (u64 0x0) 40.

Definition CI_STACK_UP_READ_AND_CLR_FRAME : Z :=
  0x3300000000000000 ||| shl64 (u64 0xf0) 0 ||| shl64 (u64 0x2) 8 ||| shl64 (u64 0x0) 16 |||
  shl64 (u64 0x0) 24 ||| shl64 (u64 0x0) 32 ||| shl64 (u64 0x0) 40 ||| shl64 (u64 0x0) 48.

Definition CI_STACK_UP_READ_AND_SET_STRUCT : Z :=
  0x1100000000000000 ||| shl64 (u64 0) 0 ||| shl64 (u64 0) 8 ||| shl64 (u64 0x0) 16 ||| shl64
  (u64 0x0) 24 ||| shl64 (u64 0x0) 32 ||| shl64 (u64 0x0) 40.

Definition CI_STACK_UP_READ_AND_SET_FRAME : Z :=
  0x3300000000000000 ||| shl64 (u64 0xf2) 0 ||| shl64 (u64 0x2) 8 ||| shl64 (u64 0x0) 16 |||
  shl64 (u64 0x0) 24 ||| shl64 (u64 0x0) 32 ||| shl64 (u64 0x0) 40 ||| shl64 (u64 0x0) 48.

Definition CI_THREAD_BOOT_STRUCT : Z :=
  0x1100000000000000 ||| shl64 (u64 0x3f) 0 ||| shl64 (u64 0) 8 ||| shl64 (u64 0x2) 16 ||| shl64
  (u64 0x0) 24 ||| shl64 (u64 0x0) 32 ||| shl64 (u64 0x0) 40.

Definition CI_THREAD_BOOT_FRAME (thread_id : Z) : Z :=
  0x3300000000000000 ||| shl64 (u64 (Z.shiftr (0x7d8320000000 ||| shl64 (Z.shiftr (u64 24) 0 &&&
  31) 34 ||| shl64 (Z.shiftr (u64 0) 0 &&& 15) 24 ||| shl64 (Z.shiftr (u64 thread_id) 0 &&& 15)
  20 ||| shl64 (Z.shiftr (u64 thread_id) 4 &&& 15) 16 ||| shl64 (Z.shiftr (u64 0) 0 &&& 65535)
  0) (Z.shiftl 2 3) &&& 0xFF)) 0 ||| shl64 (u64 (Z.shiftr (0x7d8320000000 ||| shl64 (Z.shiftr
  (u64 24) 0 &&& 31) 34 ||| shl64 (Z.shiftr (u64 0) 0 &&& 15) 24 ||| shl64 (Z.shiftr (u64
  thread_id) 0 &&& 15) 20 ||| shl64 (Z.shiftr (u64 thread_id) 4 &&& 15) 16 ||| shl64 (Z.shiftr
  (u64 0) 0 &&& 65535) 0) (Z.shiftl 5 3) &&& 0xFF)) 8 ||| shl64 (u64 (Z.shiftr (0x7d8320000000
  ||| shl64 (Z.shiftr (u64 24) 0 &&& 31) 34 ||| shl64 (Z.shiftr (u64 0) 0 &&& 15) 24 ||| shl64
  (Z.shiftr (u64 thread_id) 0 &&& 15) 20 ||| shl64 (Z.shiftr (u64 thread_id) 4 &&& 15) 16 |||
  shl64 (Z.shiftr (u64 0) 0 &&& 65535) 0) (Z.shiftl 4 3) &&& 0xFF)) 16 ||| shl64 (u64 (Z.shiftr
  (0x7d8320000000 ||| shl64 (Z.shiftr (u64 24) 0 &&& 31) 34 ||| shl64 (Z.shiftr (u64 0) 0 &&&
  15) 24 ||| shl64 (Z.shiftr (u64 thread_id) 0 &&& 15) 20 ||| shl64 (Z.shiftr (u64 thread_id) 4
  &&& 15) 16 ||| shl64 (Z.shiftr (u64 0) 0 &&& 65535) 0) (Z.shiftl 0 3) &&& 0xFF)) 24 ||| shl64
  (u64 (Z.shiftr (0x7d8320000000 ||| shl64 (Z.shiftr (u64 24) 0 &&& 31) 34 ||| shl64 (Z.shiftr
  (u64 0) 0 &&& 15) 24 ||| shl64 (Z.shiftr (u64 thread_id) 0 &&& 15) 20 ||| shl64 (Z.shiftr (u64
  thread_id) 4 &&& 15) 16 ||| shl64 (Z.shiftr (u64 0) 0 &&& 65535) 0) (Z.shiftl 1 3) &&& 0xFF))
  32 ||| shl64 (u64 (Z.shiftr (0x7d8320000000 ||| shl64 (Z.shiftr (u64 24) 0 &&& 31) 34 |||
  shl64 (Z.shiftr (u64 0) 0 &&& 15) 24 ||| shl64 (Z.shiftr (u64 thread_id) 0 &&& 15) 20 |||
  shl64 (Z.shiftr (u64 thread_id) 4 &&& 15) 16 ||| shl64 (Z.shiftr (u64 0) 0 &&& 65535) 0)
  (Z.shiftl 3 3) &&& 0xFF)) 40 ||| shl64 (u64 0x98) 48.

Definition CI_THREAD_RESUME_STRUCT : Z :=
  0x1100000000000000 ||| shl64 (u64 0x3f) 0 ||| shl64 (u64 0) 8 ||| shl64 (u64 0x2) 16 ||| shl64
  (u64 0x0) 24 ||| shl64 (u64 0x0) 32 ||| shl64 (u64 0x0) 40.

Definition CI_THREAD_RESUME_FRAME (thread_id : Z) : Z :=
  0x3300000000000000 ||| shl64 (u64 (Z.shiftr (0x7d0320000000 ||| shl64 (Z.shiftr (u64 24) 0 &&&
  31) 34 ||| shl64 (Z.shiftr (u64 0) 0 &&& 15) 24 ||| shl64 (Z.shiftr (u64 thread_id) 0 &&& 15)
  20 ||| shl64 (Z.shiftr (u64 thread_id) 4 &&& 15) 16 ||| shl64 (Z.shiftr (u64 0) 0 &&& 65535)
  0) (Z.shiftl 2 3) &&& 0xFF)) 0 ||| shl64 (u64 (Z.shiftr (0x7d0320000000 ||| shl64 (Z.shiftr
  (u64 24) 0 &&& 31) 34 ||| shl64 (Z.shiftr (u64 0) 0 &&& 15) 24 ||| shl64 (Z.shiftr (u64
  thread_id) 0 &&& 15) 20 ||| shl64 (Z.shiftr (u64 thread_id) 4 &&& 15) 16 ||| shl64 (Z.shiftr
  (u64 0) 0 &&& 65535) 0) (Z.shiftl 5 3) &&& 0xFF)) 8 ||| shl64 (u64 (Z.shiftr (0x7d0320000000
  ||| shl64 (Z.shiftr (u64 24) 0 &&& 31) 34 ||| shl64 (Z.shiftr (u64 0) 0 &&& 15) 24 ||| shl64
  (Z.shiftr (u64 thread_id) 0 &&& 15) 20 ||| shl64 (Z.shiftr (u64 thread_id) 4 &&& 15) 16 |||
  shl64 (Z.shiftr (u64 0) 0 &&& 65535) 0) (Z.shiftl 4 3) &&& 0xFF)) 16 ||| shl64 (u64 (Z.shiftr
  (0x7d0320000000 ||| shl64 (Z.shiftr (u64 24) 0 &&& 31) 34 ||| shl64 (Z.shiftr (u64 0) 0 &&&
  15) 24 ||| shl64 (Z.shiftr (u64 thread_id) 0 &&& 15) 20 ||| shl64 (Z.shiftr (u64 thread_id) 4
  &&& 15) 16 ||| shl64 (Z.shiftr (u64 0) 0 &&& 65535) 0) (Z.shiftl 0 3) &&& 0xFF)) 24 ||| shl64
  (u64 (Z.shiftr (0x7d0320000000 ||| shl64 (Z.shiftr (u64 24) 0 &&& 31) 34 ||| shl64 (Z.shiftr
  (u64 0) 0 &&& 15) 24 ||| shl64 (Z.shiftr (u64 thread_id) 0 &&& 15) 20 ||| shl64 (Z.shiftr (u64
  thread_id) 4 &&& 15) 16 ||| shl64 (Z.shiftr (u64 0) 0 &&& 65535) 0) (Z.shiftl 1 3) &&& 0xFF))
  32 ||| shl64 (u64 (Z.shiftr (0x7d0320000000 ||| shl64 (Z.shiftr (u64 24) 0 &&& 31) 34 |||
  shl64 (Z.shiftr (u64 0) 0 &&& 15) 24 ||| shl64 (Z.shiftr (u64 thread_id) 0 &&& 15) 20 |||
  shl64 (Z.shiftr (u64 thread_id) 4 &&& 15) 16 ||| shl64 (Z.shiftr (u64 0) 0 &&& 65535) 0)
  (Z.shiftl 3 3) &&& 0xFF)) 40 ||| shl64 (u64 0x98) 48.

Definition CI_THREAD_CLR_RUN_STRUCT : Z :=
  0x1100000000000000 ||| shl64 (u64 0x3f) 0 ||| shl64 (u64 0) 8 ||| shl64 (u64 0x2) 16 ||| shl64
  (u64 0x0) 24 ||| shl64 (u64 0x0) 32 ||| shl64 (u64 0x0) 40.

Definition CI_THREAD_CLR_RUN_FRAME (thread_id : Z) : Z :=
  0x3300000000000000 ||| shl64 (u64 (Z.shiftr (0x7c8320000000 ||| shl64 (Z.shiftr (u64 24) 0 &&&
  31) 34 ||| shl64 (Z.shiftr (u64 0) 0 &&& 15) 24 ||| shl64 (Z.shiftr (u64 thread_id) 0 &&& 15)
  20 ||| shl64 (Z.shiftr (u64 thread_id) 4 &&& 15) 16 ||| shl64 (Z.shiftr (u64 0) 0 &&& 65535)
  0) (Z.shiftl 2 3) &&& 0xFF)) 0 ||| shl64 (u64 (Z.shiftr (0x7c8320000000 ||| shl64 (Z.shiftr
  (u64 24) 0 &&& 31) 34 ||| shl64 (Z.shiftr (u64 0) 0 &&& 15) 24 ||| shl64 (Z.shiftr (u64
  thread_id) 0 &&& 15) 20 ||| shl64 (Z.shiftr (u64 thread_id) 4 &&& 15) 16 ||| shl64 (Z.shiftr
  (u64 0) 0 &&& 65535) 0) (Z.shiftl 5 3) &&& 0xFF)) 8 ||| shl64 (u64 (Z.shiftr (0x7c8320000000
  ||| shl64 (Z.shiftr (u64 24) 0 &&& 31) 34 ||| shl64 (Z.shiftr (u64 0) 0 &&& 15) 24 ||| shl64
  (Z.shiftr (u64 thread_id) 0 &&& 15) 20 ||| shl64 (Z.shiftr (u64 thread_id) 4 &&& 15) 16 |||
  shl64 (Z.shiftr (u64 0) 0 &&& 65535) 0) (Z.shiftl 4 3) &&& 0xFF)) 16 ||| shl64 (u64 (Z.shiftr
  (0x7c8320000000 ||| shl64 (Z.shiftr (u64 24) 0 &&& 31) 34 ||| shl64 (Z.shiftr (u64 0) 0 &&&
  15) 24 ||| shl64 (Z.shiftr (u64 thread_id) 0 &&& 15) 20 ||| shl64 (Z.shiftr (u64 thread_id) 4
  &&& 15) 16 ||| shl64 (Z.shiftr (u64 0) 0 &&& 65535) 0) (Z.shiftl 0 3) &&& 0xFF)) 24 ||| shl64
  (u64 (Z.shiftr (0x7c8320000000 ||| shl64 (Z.shiftr (u64 24) 0 &&& 31) 34 ||| shl64 (Z.shiftr
  (u64 0) 0 &&& 15) 24 ||| shl64 (Z.shiftr (u64 thread_id) 0 &&& 15) 20 ||| shl64 (Z.shiftr (u64
  thread_id) 4 &&& 15) 16 ||| shl64 (Z.shiftr (u64 0) 0 &&& 65535) 0) (Z.shiftl 1 3) &&& 0xFF))
  32 ||| shl64 (u64 (Z.shiftr (0x7c8320000000 ||| shl64 (Z.shiftr (u64 24) 0 &&& 31) 34 |||
  shl64 (Z.shiftr (u64 0) 0 &&& 15) 24 ||| shl64 (Z.shiftr (u64 thread_id) 0 &&& 15) 20 |||
  shl64 (Z.shiftr (u64 thread_id) 4 &&& 15) 16 ||| shl64 (Z.shiftr (u64 0) 0 &&& 65535) 0)
  (Z.shiftl 3 3) &&& 0xFF)) 40 ||| shl64 (u64 0x98) 48.

Definition CI_THREAD_READ_RUN_STRUCT : Z :=
  0x1100000000000000 ||| shl64 (u64 0x3f) 0 ||| shl64 (u64 0) 8 ||| shl64 (u64 0x2) 16 ||| shl64
  (u64 0x0) 24 ||| shl64 (u64 0x0) 32 ||| shl64 (u64 0x0) 40.

Definition CI_THREAD_READ_RUN_FRAME (thread_id : Z) : Z :=
  0x3300000000000000 ||| shl64 (u64 (Z.shiftr (0x7c0330000000 ||| shl64 (Z.shiftr (u64 24) 0 &&&
  31) 34 ||| shl64 (Z.shiftr (u64 0) 0 &&& 15) 24 ||| shl64 (Z.shiftr (u64 thread_id) 0 &&& 15)
  20 ||| shl64 (Z.shiftr (u64 thread_id) 4 &&& 15) 16 ||| shl64 (Z.shiftr (u64 0) 0 &&& 65535)
  0) (Z.shiftl 2 3) &&& 0xFF)) 0 ||| shl64 (u64 (Z.shiftr (0x7c0330000000 ||| shl64 (Z.shiftr
  (u64 24) 0 &&& 31) 34 ||| shl64 (Z.shiftr (u64 0) 0 &&& 15) 24 ||| shl64 (Z.shiftr (u64
  thread_id) 0 &&& 15) 20 ||| shl64 (Z.shiftr (u64 thread_id) 4 &&& 15) 16 ||| shl64 (Z.shiftr
  (u64 0) 0 &&& 65535) 0) (Z.shiftl 5 3) &&& 0xFF)) 8 ||| shl64 (u64 (Z.shiftr (0x7c0330000000
  ||| shl64 (Z.shiftr (u64 24) 0 &&& 31) 34 ||| shl64 (Z.shiftr (u64 0) 0 &&& 15) 24 ||| shl64
  (Z.shiftr (u64 thread_id) 0 &&& 15) 20 ||| shl64 (Z.shiftr (u64 thread_id) 4 &&& 15) 16 |||
  shl64 (Z.shiftr (u64 0) 0 &&& 65535) 0) (Z.shiftl 4 3) &&& 0xFF)) 16 ||| shl64 (u64 (Z.shiftr
  (0x7c0330000000 ||| shl64 (Z.shiftr (u64 24) 0 &&& 31) 34 ||| shl64 (Z.shiftr (u64 0) 0 &&&
  15) 24 ||| shl64 (Z.shiftr (u64 thread_id) 0 &&& 15) 20 ||| shl64 (Z.shiftr (u64 thread_id) 4
  &&& 15) 16 ||| shl64 (Z.shiftr (u64 0) 0 &&& 65535) 0) (Z.shiftl 0 3) &&& 0xFF)) 24 ||| shl64
  (u64 (Z.shiftr (0x7c0330000000 ||| shl64 (Z.shiftr (u64 24) 0 &&& 31) 34 ||| shl64 (Z.shiftr
  (u64 0) 0 &&& 15) 24 ||| shl64 (Z.shiftr (u64 thread_id) 0 &&& 15) 20 ||| shl64 (Z.shiftr (u64
  thread_id) 4 &&& 15) 16 ||| shl64 (Z.shiftr (u64 0) 0 &&& 65535) 0) (Z.shiftl 1 3) &&& 0xFF))
  32 ||| shl64 (u64 (Z.shiftr (0x7c0330000000 ||| shl64 (Z.shiftr (u64 24) 0 &&& 31) 34 |||
  shl64 (Z.shiftr (u64 0) 0 &&& 15) 24 ||| shl64 (Z.shiftr (u64 thread_id) 0 &&& 15) 20 |||
  shl64 (Z.shiftr (u64 thread_id) 4 &&& 15) 16 ||| shl64 (Z.shiftr (u64 0) 0 &&& 65535) 0)
  (Z.shiftl 3 3) &&& 0xFF)) 40 ||| shl64 (u64 0x98) 48.

Definition CI_IRAM_WRITE_INSTRUCTION_STRUCT (address : Z) : Z :=
  0x1100000000000000 ||| shl64 (u64 0xff) 0 ||| shl64 (u64 0) 8 ||| shl64 (u64 (Z.shiftr address
  (Z.shiftl 1 3) &&& 0xFF)) 16 ||| shl64 (u64 0x47) 24 ||| shl64 (u64 0x2) 32 ||| shl64 (u64
  0x0) 40.

Definition CI_IRAM_WRITE_INSTRUCTION_FRAME (data address : Z) : Z :=
  0x3300000000000000 ||| shl64 (u64 (Z.shiftr data (Z.shiftl 0 3) &&& 0xFF)) 0 ||| shl64 (u64
  (Z.shiftr data (Z.shiftl 1 3) &&& 0xFF)) 8 ||| shl64 (u64 (Z.shiftr data (Z.shiftl 2 3) &&&
  0xFF)) 16 ||| shl64 (u64 (Z.shiftr data (Z.shiftl 3 3) &&& 0xFF)) 24 ||| shl64 (u64 (Z.shiftr
  data (Z.shiftl 4 3) &&& 0xFF)) 32 ||| shl64 (u64 (Z.shiftr data (Z.shiftl 5 3) &&& 0xFF)) 40
  ||| shl64 (u64 (Z.shiftr address (Z.shiftl 0 3) &&& 0xFF)) 48.

Definition CI_IRAM_READ_BYTE0_STRUCT : Z :=
  0x1100000000000000 ||| shl64 (u64 0x3) 0 ||| shl64 (u64 0) 8 ||| shl64 (u64 0x0) 16 ||| shl64
  (u64 0x0) 24 ||| shl64 (u64 0x0) 32 ||| shl64 (u64 0x0) 40.

Definition CI_IRAM_READ_BYTE0_FRAME (address : Z) : Z :=
  0x3300000000000000 ||| shl64 (u64 (Z.shiftr address (Z.shiftl 0 3) &&& 0xFF)) 0 ||| shl64 (u64
  (Z.shiftr address (Z.shiftl 1 3) &&& 0xFF)) 8 ||| shl64 (u64 0x40) 16 ||| shl64 (u64 0x2) 24
  ||| shl64 (u64 0x0) 32 ||| shl64 (u64 0x0) 40 ||| shl64 (u64 0x0) 48.

Definition CI_IRAM_READ_BYTE1_STRUCT : Z :=
  0x1100000000000000 ||| shl64 (u64 0x3) 0 ||| shl64 (u64 0) 8 ||| shl64 (u64 0x0) 16 ||| shl64
  (u64 0x0) 24 ||| shl64 (u64 0x0) 32 ||| shl64 (u64 0x0) 40.

Definition CI_IRAM_READ_BYTE1_FRAME (address : Z) : Z :=
  0x3300000000000000 ||| shl64 (u64 (Z.shiftr address (Z.shiftl 0 3) &&& 0xFF)) 0 ||| shl64 (u64
  (Z.shiftr address (Z.shiftl 1 3) &&& 0xFF)) 8 ||| shl64 (u64 0x41) 16 ||| shl64 (u64 0x2) 24
  ||| shl64 (u64 0x0) 32 ||| shl64 (u64 0x0) 40 ||| shl64 (u64 0x0) 48.

Definition CI_IRAM_READ_BYTE2_STRUCT : Z :=
  0x1100000000000000 ||| shl64 (u64 0x3) 0 ||| shl64 (u64 0) 8 ||| shl64 (u64 0x0) 16 ||| shl64
  (u64 0x0) 24 ||| shl64 (u64 0x0) 32 ||| shl64 (u64 0x0) 40.

Definition CI_IRAM_READ_BYTE2_FRAME (address : Z) : Z :=
  0x3300000000000000 ||| shl64 (u64 (Z.shiftr address (Z.shiftl 0 3) &&& 0xFF)) 0 ||| shl64 (u64
  (Z.shiftr address (Z.shiftl 1 3) &&& 0xFF)) 8 ||| shl64 (u64 0x42) 16 ||| shl64 (u64 0x2) 24
  ||| shl64 (u64 0x0) 32 ||| shl64 (u64 0x0) 40 ||| shl64 (u64 0x0) 48.

Definition CI_IRAM_READ_BYTE3_STRUCT : Z :=
  0x1100000000000000 ||| shl64 (u64 0x3) 0 ||| shl64 (u64 0) 8 ||| shl64 (u64 0x0) 16 ||| shl64
  (u64 0x0) 24 ||| shl64 (u64 0x0) 32 ||| shl64 (u64 0x0) 40.

Definition CI_IRAM_READ_BYTE3_FRAME (address : Z) : Z :=
  0x3300000000000000 ||| shl64 (u64 (Z.shiftr address (Z.shiftl 0 3) &&& 0xFF)) 0 ||| shl64 (u64
  (Z.shiftr address (Z.shiftl 1 3) &&& 0xFF)) 8 ||| shl64 (u64 0x43) 16 ||| shl64 (u64 0x2) 24
  ||| shl64 (u64 0x0) 32 ||| shl64 (u64 0x0) 40 ||| shl64 (u64 0x0) 48.

Definition CI_IRAM_READ_BYTE4_STRUCT : Z :=
  0x1100000000000000 ||| shl64 (u64 0x3) 0 ||| shl64 (u64 0) 8 ||| shl64 (u64 0x0) 16 ||| shl64
  (u64 0x0) 24 ||| shl64 (u64 0x0) 32 ||| shl64 (u64 0x0) 40.

Definition CI_IRAM_READ_BYTE4_FRAME (address : Z) : Z :=
  0x3300000000000000 ||| shl64 (u64 (Z.shiftr address (Z.shiftl 0 3) &&& 0xFF)) 0 ||| shl64 (u64
  (Z.shiftr address (Z.shiftl 1 3) &&& 0xFF)) 8 ||| shl64 (u64 0x44) 16 ||| shl64 (u64 0x2) 24
  ||| shl64 (u64 0x0) 32 ||| shl64 (u64 0x0) 40 ||| shl64 (u64 0x0) 48.

Definition CI_IRAM_READ_BYTE5_STRUCT : Z :=
  0x1100000000000000 ||| shl64 (u64 0x3) 0 ||| shl64 (u64 0) 8 ||| shl64 (u64 0x0) 16 ||| shl64
  (u64 0x0) 24 ||| shl64 (u64 0x0) 32 ||| shl64 (u64 0x0) 40.

Definition CI_IRAM_READ_BYTE5_FRAME (address : Z) : Z :=
  0x3300000000000000 ||| shl64 (u64 (Z.shiftr address (Z.shiftl 0 3) &&& 0xFF)) 0 ||| shl64 (u64
  (Z.shiftr address (Z.shiftl 1 3) &&& 0xFF)) 8 ||| shl64 (u64 0x45) 16 ||| shl64 (u64 0x2) 24
  ||| shl64 (u64 0x0) 32 ||| shl64 (u64 0x0) 40 ||| shl64 (u64 0x0) 48.

Definition CI_WRAM_WRITE_WORD_STRUCT (address : Z) : Z :=
  0x1100000000000000 ||| shl64 (u64 0xff) 0 ||| shl64 (u64 0x3) 8 ||| shl64 (u64 (Z.shiftr
  (0x7c0044000000 ||| shl64 (Z.shiftr (u64 0) 0 &&& 7) 17 ||| shl64 (Z.shiftr (u64 0) 3 &&& 3)
  32 ||| shl64 (Z.shiftr (u64 24) 0 &&& 31) 34 ||| shl64 (Z.shiftr (u64 0) 0 &&& 1) 27 ||| shl64
  (Z.shiftr (u64 (Z.shiftl address 2)) 0 &&& 15) 20 ||| shl64 (Z.shiftr (u64 (Z.shiftl address
  2)) 4 &&& 7) 39 ||| shl64 (Z.shiftr (u64 (Z.shiftl address 2)) 7 &&& 1) 24 ||| shl64 (Z.shiftr
  (u64 (Z.shiftl address 2)) 8 &&& 1) 15 ||| shl64 (Z.shiftr (u64 (Z.shiftl address 2)) 9 &&& 1)
  14 ||| shl64 (Z.shiftr (u64 (Z.shiftl address 2)) 10 &&& 1) 13 ||| shl64 (Z.shiftr (u64
  (Z.shiftl address 2)) 11 &&& 1) 12 ||| shl64 (Z.shiftr (u64 (Z.shiftl address 2)) 12 &&& 4095)
  0) (Z.shiftl 0 3) &&& 0xFF)) 16 ||| shl64 (u64 (Z.shiftr (0x7c0044000000 ||| shl64 (Z.shiftr
  (u64 0) 0 &&& 7) 17 ||| shl64 (Z.shiftr (u64 0) 3 &&& 3) 32 ||| shl64 (Z.shiftr (u64 24) 0 &&&
  31) 34 ||| shl64 (Z.shiftr (u64 0) 0 &&& 1) 27 ||| shl64 (Z.shiftr (u64 (Z.shiftl address 2))
  0 &&& 15) 20 ||| shl64 (Z.shiftr (u64 (Z.shiftl address 2)) 4 &&& 7) 39 ||| shl64 (Z.shiftr
  (u64 (Z.shiftl address 2)) 7 &&& 1) 24 ||| shl64 (Z.shiftr (u64 (Z.shiftl address 2)) 8 &&& 1)
  15 ||| shl64 (Z.shiftr (u64 (Z.shiftl address 2)) 9 &&& 1) 14 ||| shl64 (Z.shiftr (u64
  (Z.shiftl address 2)) 10 &&& 1) 13 ||| shl64 (Z.shiftr (u64 (Z.shiftl address 2)) 11 &&& 1) 12
  ||| shl64 (Z.shiftr (u64 (Z.shiftl address 2)) 12 &&& 4095) 0) (Z.shiftl 1 3) &&& 0xFF)) 24
  ||| shl64 (u64 (Z.shiftr (0x7c0044000000 ||| shl64 (Z.shiftr (u64 0) 0 &&& 7) 17 ||| shl64
  (Z.shiftr (u64 0) 3 &&& 3) 32 ||| shl64 (Z.shiftr (u64 24) 0 &&& 31) 34 ||| shl64 (Z.shiftr
  (u64 0) 0 &&& 1) 27 ||| shl64 (Z.shiftr (u64 (Z.shiftl address 2)) 0 &&& 15) 20 ||| shl64
  (Z.shiftr (u64 (Z.shiftl address 2)) 4 &&& 7) 39 ||| shl64 (Z.shiftr (u64 (Z.shiftl address
  2)) 7 &&& 1) 24 ||| shl64 (Z.shiftr (u64 (Z.shiftl address 2)) 8 &&& 1) 15 ||| shl64 (Z.shiftr
  (u64 (Z.shiftl address 2)) 9 &&& 1) 14 ||| shl64 (Z.shiftr (u64 (Z.shiftl address 2)) 10 &&&
  1) 13 ||| shl64 (Z.shiftr (u64 (Z.shiftl address 2)) 11 &&& 1) 12 ||| shl64 (Z.shiftr (u64
  (Z.shiftl address 2)) 12 &&& 4095) 0) (Z.shiftl 3 3) &&& 0xFF)) 32 ||| shl64 (u64 0x99) 40.

Definition CI_WRAM_WRITE_WORD_FRAME (data address : Z) : Z :=
  0x3300000000000000 ||| shl64 (u64 (Z.shiftr data (Z.shiftl 0 3) &&& 0xFF)) 0 ||| shl64 (u64
  (Z.shiftr data (Z.shiftl 1 3) &&& 0xFF)) 8 ||| shl64 (u64 (Z.shiftr data (Z.shiftl 2 3) &&&
  0xFF)) 16 ||| shl64 (u64 (Z.shiftr data (Z.shiftl 3 3) &&& 0xFF)) 24 ||| shl64 (u64 (Z.shiftr
  (0x7c0044000000 ||| shl64 (Z.shiftr (u64 0) 0 &&& 7) 17 ||| shl64 (Z.shiftr (u64 0) 3 &&& 3)
  32 ||| shl64 (Z.shiftr (u64 24) 0 &&& 31) 34 ||| shl64 (Z.shiftr (u64 0) 0 &&& 1) 27 ||| shl64
  (Z.shiftr (u64 (Z.shiftl address 2)) 0 &&& 15) 20 ||| shl64 (Z.shiftr (u64 (Z.shiftl address
  2)) 4 &&& 7) 39 ||| shl64 (Z.shiftr (u64 (Z.shiftl address 2)) 7 &&& 1) 24 ||| shl64 (Z.shiftr
  (u64 (Z.shiftl address 2)) 8 &&& 1) 15 ||| shl64 (Z.shiftr (u64 (Z.shiftl address 2)) 9 &&& 1)
  14 ||| shl64 (Z.shiftr (u64 (Z.shiftl address 2)) 10 &&& 1) 13 ||| shl64 (Z.shiftr (u64
  (Z.shiftl address 2)) 11 &&& 1) 12 ||| shl64 (Z.shiftr (u64 (Z.shiftl address 2)) 12 &&& 4095)
  0) (Z.shiftl 2 3) &&& 0xFF)) 32 ||| shl64 (u64 (Z.shiftr (0x7c0044000000 ||| shl64 (Z.shiftr
  (u64 0) 0 &&& 7) 17 ||| shl64 (Z.shiftr (u64 0) 3 &&& 3) 32 ||| shl64 (Z.shiftr (u64 24) 0 &&&
  31) 34 ||| shl64 (Z.shiftr (u64 0) 0 &&& 1) 27 ||| shl64 (Z.shiftr (u64 (Z.shiftl address 2))
  0 &&& 15) 20 ||| shl64 (Z.shiftr (u64 (Z.shiftl address 2)) 4 &&& 7) 39 ||| shl64 (Z.shiftr
  (u64 (Z.shiftl address 2)) 7 &&& 1) 24 ||| shl64 (Z.shiftr (u64 (Z.shiftl address 2)) 8 &&& 1)
  15 ||| shl64 (Z.shiftr (u64 (Z.shiftl address 2)) 9 &&& 1) 14 ||| shl64 (Z.shiftr (u64
  (Z.shiftl address 2)) 10 &&& 1) 13 ||| shl64 (Z.shiftr (u64 (Z.shiftl address 2)) 11 &&& 1) 12
  ||| shl64 (Z.shiftr (u64 (Z.shiftl address 2)) 12 &&& 4095) 0) (Z.shiftl 5 3) &&& 0xFF)) 40
  ||| shl64 (u64 (Z.shiftr (0x7c0044000000 ||| shl64 (Z.shiftr (u64 0) 0 &&& 7) 17 ||| shl64
  (Z.shiftr (u64 0) 3 &&& 3) 32 ||| shl64 (Z.shiftr (u64 24) 0 &&& 31) 34 ||| shl64 (Z.shiftr
  (u64 0) 0 &&& 1) 27 ||| shl64 (Z.shiftr (u64 (Z.shiftl address 2)) 0 &&& 15) 20 ||| shl64
  (Z.shiftr (u64 (Z.shiftl address 2)) 4 &&& 7) 39 ||| shl64 (Z.shiftr (u64 (Z.shiftl address
  2)) 7 &&& 1) 24 ||| shl64 (Z.shiftr (u64 (Z.shiftl address 2)) 8 &&& 1) 15 ||| shl64 (Z.shiftr
  (u64 (Z.shiftl address 2)) 9 &&& 1) 14 ||| shl64 (Z.shiftr (u64 (Z.shiftl address 2)) 10 &&&
  1) 13 ||| shl64 (Z.shiftr (u64 (Z.shiftl address 2)) 11 &&& 1) 12 ||| shl64 (Z.shiftr (u64
  (Z.shiftl address 2)) 12 &&& 4095) 0) (Z.shiftl 4 3) &&& 0xFF)) 48.

Definition CI_WRAM_READ_WORD_STRUCT : Z :=
  0x1100000000000000 ||| shl64 (u64 0x3f) 0 ||| shl64 (u64 0) 8 ||| shl64 (u64 0x2) 16 ||| shl64
  (u64 0x0) 24 ||| shl64 (u64 0x0) 32 ||| shl64 (u64 0x0) 40.

Definition CI_WRAM_READ_WORD_FRAME (address : Z) : Z :=
  0x3300000000000000 ||| shl64 (u64 (Z.shiftr (0x700344000000 ||| shl64 (Z.shiftr (u64 24) 0 &&&
  31) 34 ||| shl64 (Z.shiftr (u64 0) 0 &&& 1) 27 ||| shl64 (Z.shiftr (u64 (Z.shiftl address 2))
  0 &&& 15) 20 ||| shl64 (Z.shiftr (u64 (Z.shiftl address 2)) 4 &&& 15) 16 ||| shl64 (Z.shiftr
  (u64 (Z.shiftl address 2)) 8 &&& 1) 15 ||| shl64 (Z.shiftr (u64 (Z.shiftl address 2)) 9 &&& 1)
  14 ||| shl64 (Z.shiftr (u64 (Z.shiftl address 2)) 10 &&& 1) 13 ||| shl64 (Z.shiftr (u64
  (Z.shiftl address 2)) 11 &&& 1) 12 ||| shl64 (Z.shiftr (u64 (Z.shiftl address 2)) 12 &&& 4095)
  0 ||| shl64 (Z.shiftr (u64 0) 0 &&& 31) 39) (Z.shiftl 2 3) &&& 0xFF)) 0 ||| shl64 (u64
  (Z.shiftr (0x700344000000 ||| shl64 (Z.shiftr (u64 24) 0 &&& 31) 34 ||| shl64 (Z.shiftr (u64
  0) 0 &&& 1) 27 ||| shl64 (Z.shiftr (u64 (Z.shiftl address 2)) 0 &&& 15) 20 ||| shl64 (Z.shiftr
  (u64 (Z.shiftl address 2)) 4 &&& 15) 16 ||| shl64 (Z.shiftr (u64 (Z.shiftl address 2)) 8 &&&
  1) 15 ||| shl64 (Z.shiftr (u64 (Z.shiftl address 2)) 9 &&& 1) 14 ||| shl64 (Z.shiftr (u64
  (Z.shiftl address 2)) 10 &&& 1) 13 ||| shl64 (Z.shiftr (u64 (Z.shiftl address 2)) 11 &&& 1) 12
  ||| shl64 (Z.shiftr (u64 (Z.shiftl address 2)) 12 &&& 4095) 0 ||| shl64 (Z.shiftr (u64 0) 0
  &&& 31) 39) (Z.shiftl 5 3) &&& 0xFF)) 8 ||| shl64 (u64 (Z.shiftr (0x700344000000 ||| shl64
  (Z.shiftr (u64 24) 0 &&& 31) 34 ||| shl64 (Z.shiftr (u64 0) 0 &&& 1) 27 ||| shl64 (Z.shiftr
  (u64 (Z.shiftl address 2)) 0 &&& 15) 20 ||| shl64 (Z.shiftr (u64 (Z.shiftl address 2)) 4 &&&
  15) 16 ||| shl64 (Z.shiftr (u64 (Z.shiftl address 2)) 8 &&& 1) 15 ||| shl64 (Z.shiftr (u64
  (Z.shiftl address 2)) 9 &&& 1) 14 ||| shl64 (Z.shiftr (u64 (Z.shiftl address 2)) 10 &&& 1) 13
  ||| shl64 (Z.shiftr (u64 (Z.shiftl address 2)) 11 &&& 1) 12 ||| shl64 (Z.shiftr (u64 (Z.shiftl
  address 2)) 12 &&& 4095) 0 ||| shl64 (Z.shiftr (u64 0) 0 &&& 31) 39) (Z.shiftl 4 3) &&& 0xFF))
  16 ||| shl64 (u64 (Z.shiftr (0x700344000000 ||| shl64 (Z.shiftr (u64 24) 0 &&& 31) 34 |||
  shl64 (Z.shiftr (u64 0) 0 &&& 1) 27 ||| shl64 (Z.shiftr (u64 (Z.shiftl address 2)) 0 &&& 15)
  20 ||| shl64 (Z.shiftr (u64 (Z.shiftl address 2)) 4 &&& 15) 16 ||| shl64 (Z.shiftr (u64
  (Z.shiftl address 2)) 8 &&& 1) 15 ||| shl64 (Z.shiftr (u64 (Z.shiftl address 2)) 9 &&& 1) 14
  ||| shl64 (Z.shiftr (u64 (Z.shiftl address 2)) 10 &&& 1) 13 ||| shl64 (Z.shiftr (u64 (Z.shiftl
  address 2)) 11 &&& 1) 12 ||| shl64 (Z.shiftr (u64 (Z.shiftl address 2)) 12 &&& 4095) 0 |||
  shl64 (Z.shiftr (u64 0) 0 &&& 31) 39) (Z.shiftl 0 3) &&& 0xFF)) 24 ||| shl64 (u64 (Z.shiftr
  (0x700344000000 ||| shl64 (Z.shiftr (u64 24) 0 &&& 31) 34 ||| shl64 (Z.shiftr (u64 0) 0 &&& 1)
  27 ||| shl64 (Z.shiftr (u64 (Z.shiftl address 2)) 0 &&& 15) 20 ||| shl64 (Z.shiftr (u64
  (Z.shiftl address 2)) 4 &&& 15) 16 ||| shl64 (Z.shiftr (u64 (Z.shiftl address 2)) 8 &&& 1) 15
  ||| shl64 (Z.shiftr (u64 (Z.shiftl address 2)) 9 &&& 1) 14 ||| shl64 (Z.shiftr (u64 (Z.shiftl
  address 2)) 10 &&& 1) 13 ||| shl64 (Z.shiftr (u64 (Z.shiftl address 2)) 11 &&& 1) 12 ||| shl64
  (Z.shiftr (u64 (Z.shiftl address 2)) 12 &&& 4095) 0 ||| shl64 (Z.shiftr (u64 0) 0 &&& 31) 39)
  (Z.shiftl 1 3) &&& 0xFF)) 32 ||| shl64 (u64 (Z.shiftr (0x700344000000 ||| shl64 (Z.shiftr (u64
  24) 0 &&& 31) 34 ||| shl64 (Z.shiftr (u64 0) 0 &&& 1) 27 ||| shl64 (Z.shiftr (u64 (Z.shiftl
  address 2)) 0 &&& 15) 20 ||| shl64 (Z.shiftr (u64 (Z.shiftl address 2)) 4 &&& 15) 16 ||| shl64
  (Z.shiftr (u64 (Z.shiftl address 2)) 8 &&& 1) 15 ||| shl64 (Z.shiftr (u64 (Z.shiftl address
  2)) 9 &&& 1) 14 ||| shl64 (Z.shiftr (u64 (Z.shiftl address 2)) 10 &&& 1) 13 ||| shl64
  (Z.shiftr (u64 (Z.shiftl address 2)) 11 &&& 1) 12 ||| shl64 (Z.shiftr (u64 (Z.shiftl address
  2)) 12 &&& 4095) 0 ||| shl64 (Z.shiftr (u64 0) 0 &&& 31) 39) (Z.shiftl 3 3) &&& 0xFF)) 40 |||
  shl64 (u64 0x99) 48.

Definition CI_IREPAIR_CONFIG_AB_STRUCT : Z :=
  0x1100000000000000 ||| shl64 (u64 0xa) 0 ||| shl64 (u64 0) 8 ||| shl64 (u64 0x0) 16 ||| shl64
  (u64 0x0) 24 ||| shl64 (u64 0x0) 32 ||| shl64 (u64 0x0) 40.

Definition CI_IREPAIR_CONFIG_AB_FRAME (msb lsb_A lsb_B : Z) : Z :=
  0x3300000000000000 ||| shl64 (u64 0x90) 0 ||| shl64 (u64 msb) 8 ||| shl64 (u64 0x91) 16 |||
  shl64 (u64 (lsb_B ||| Z.shiftl lsb_A 4)) 24 ||| shl64 (u64 0xff) 32 ||| shl64 (u64 0x2) 40 |||
  shl64 (u64 0x0) 48.

Definition CI_IREPAIR_CONFIG_CD_STRUCT : Z :=
  0x1100000000000000 ||| shl64 (u64 0xa) 0 ||| shl64 (u64 0) 8 ||| shl64 (u64 0x0) 16 ||| shl64
  (u64 0x0) 24 ||| shl64 (u64 0x0) 32 ||| shl64 (u64 0x0) 40.

Definition CI_IREPAIR_CONFIG_CD_FRAME (msb lsb_C lsb_D : Z) : Z :=
  0x3300000000000000 ||| shl64 (u64 0x92) 0 ||| shl64 (u64 msb) 8 ||| shl64 (u64 0x93) 16 |||
  shl64 (u64 (lsb_D ||| Z.shiftl lsb_C 4)) 24 ||| shl64 (u64 0xff) 32 ||| shl64 (u64 0x2) 40 |||
  shl64 (u64 0x0) 48.

Definition CI_IREPAIR_CONFIG_OE_STRUCT : Z :=
  0x1100000000000000 ||| shl64 (u64 0xa) 0 ||| shl64 (u64 0) 8 ||| shl64 (u64 0x0) 16 ||| shl64
  (u64 0x0) 24 ||| shl64 (u64 0x0) 32 ||| shl64 (u64 0x0) 40.

Definition CI_IREPAIR_CONFIG_OE_FRAME (odd_index even_index timing : Z) : Z :=
  0x3300000000000000 ||| shl64 (u64 0x97) 0 ||| shl64 (u64 (Z.shiftr odd_index 1)) 8 ||| shl64
  (u64 0x96) 16 ||| shl64 (u64 (Z.shiftl timing 5 ||| Z.shiftr even_index 1)) 24 ||| shl64 (u64
  0xff) 32 ||| shl64 (u64 0x2) 40 ||| shl64 (u64 0x0) 48.

Definition CI_REGISTER_FILE_TIMING_CONFIG_STRUCT : Z :=
  0x1100000000000000 ||| shl64 (u64 0x7f) 0 ||| shl64 (u64 1) 8 ||| shl64 (u64 0xa5) 16 |||
  shl64 (u64 0) 24 ||| shl64 (u64 0xff) 32 ||| shl64 (u64 0x2) 40.

Definition CI_REGISTER_FILE_TIMING_CONFIG_FRAME (rf_timing : Z) : Z :=
  0x3300000000000000 ||| shl64 (u64 0) 0 ||| shl64 (u64 rf_timing) 8 ||| shl64 (u64 0) 16 |||
  shl64 (u64 0) 24 ||| shl64 (u64 0) 32 ||| shl64 (u64 0) 40 ||| shl64 (u64 0) 48.

Definition CI_CMD_BUS_CONFIG_DURATION_STRUCT : Z :=
  0x1100000000000000 ||| shl64 (u64 0x2) 0 ||| shl64 (u64 0) 8 ||| shl64 (u64 0x0) 16 ||| shl64
  (u64 0x0) 24 ||| shl64 (u64 0x0) 32 ||| shl64 (u64 0x0) 40.

Definition CI_CMD_BUS_CONFIG_DURATION_FRAME (duration : Z) : Z :=
  0x3300000000000000 ||| shl64 (u64 0x4) 0 ||| shl64 (u64 duration) 8 ||| shl64 (u64 0xff) 16
  ||| shl64 (u64 0x2) 24 ||| shl64 (u64 0x0) 32 ||| shl64 (u64 0x0) 40 ||| shl64 (u64 0x0) 48.

Definition CI_CMD_BUS_CONFIG_SAMPLING_STRUCT : Z :=
  0x1100000000000000 ||| shl64 (u64 0x2) 0 ||| shl64 (u64 0) 8 ||| shl64 (u64 0x0) 16 ||| shl64
  (u64 0x0) 24 ||| shl64 (u64 0x0) 32 ||| shl64 (u64 0x0) 40.

Definition CI_CMD_BUS_CONFIG_SAMPLING_FRAME (sampling : Z) : Z :=
  0x3300000000000000 ||| shl64 (u64 0x5) 0 ||| shl64 (u64 sampling) 8 ||| shl64 (u64 0xff) 16
  ||| shl64 (u64 0x2) 24 ||| shl64 (u64 0x0) 32 ||| shl64 (u64 0x0) 40 ||| shl64 (u64 0x0) 48.

Definition CI_CMD_BUS_SYNC_STRUCT : Z :=
  0x1100000000000000 ||| shl64 (u64 0) 0 ||| shl64 (u64 0) 8 ||| shl64 (u64 0x0) 16 ||| shl64
  (u64 0x0) 24 ||| shl64 (u64 0x0) 32 ||| shl64 (u64 0x0) 40.

Definition CI_CMD_BUS_SYNC_FRAME : Z :=
  0x3300000000000000 ||| shl64 (u64 0x7) 0 ||| shl64 (u64 0xff) 8 ||| shl64 (u64 0x2) 16 |||
  shl64 (u64 0x0) 24 ||| shl64 (u64 0x0) 32 ||| shl64 (u64 0x0) 40 ||| shl64 (u64 0x0) 48.

Definition CI_RES_BUS_CONFIG_DURATION_STRUCT : Z :=
  0x1100000000000000 ||| shl64 (u64 0xbf) 0 ||| shl64 (u64 0) 8 ||| shl64 (u64 0) 16 ||| shl64
  (u64 0x2) 24 ||| shl64 (u64 0x0) 32 ||| shl64 (u64 0x0) 40.

Definition CI_RES_BUS_CONFIG_DURATION_FRAME (duration : Z) : Z :=
  0x3300000000000000 ||| shl64 (u64 duration) 0 ||| shl64 (u64 0) 8 ||| shl64 (u64 0) 16 |||
  shl64 (u64 0) 24 ||| shl64 (u64 0) 32 ||| shl64 (u64 0) 40 ||| shl64 (u64 0xf6) 48.

Definition CI_RES_BUS_SYNC_STRUCT : Z :=
  0x1100000000000000 ||| shl64 (u64 0) 0 ||| shl64 (u64 0) 8 ||| shl64 (u64 0x0) 16 ||| shl64
  (u64 0x0) 24 ||| shl64 (u64 0x0) 32 ||| shl64 (u64 0x0) 40.

Definition CI_RES_BUS_SYNC_FRAME : Z :=
  0x3300000000000000 ||| shl64 (u64 0xf7) 0 ||| shl64 (u64 0xff) 8 ||| shl64 (u64 0x2) 16 |||
  shl64 (u64 0x0) 24 ||| shl64 (u64 0x0) 32 ||| shl64 (u64 0x0) 40 ||| shl64 (u64 0x0) 48.

Definition CI_NOTIFY_READ_STRUCT : Z :=
  0x1100000000000000 ||| shl64 (u64 0x3f) 0 ||| shl64 (u64 0) 8 ||| shl64 (u64 0x2) 16 ||| shl64
  (u64 0x0) 24 ||| shl64 (u64 0x0) 32 ||| shl64 (u64 0x0) 40.

Definition CI_NOTIFY_READ_FRAME (thread_id : Z) : Z :=
  0x3300000000000000 ||| shl64 (u64 (Z.shiftr (0x7c0330000000 ||| shl64 (Z.shiftr (u64 24) 0 &&&
  31) 34 ||| shl64 (Z.shiftr (u64 0) 0 &&& 15) 24 ||| shl64 (Z.shiftr (u64 thread_id) 0 &&& 15)
  20 ||| shl64 (Z.shiftr (u64 thread_id) 4 &&& 15) 16 ||| shl64 (Z.shiftr (u64 0) 0 &&& 65535)
  0) (Z.shiftl 2 3) &&& 0xFF)) 0 ||| shl64 (u64 (Z.shiftr (0x7c0330000000 ||| shl64 (Z.shiftr
  (u64 24) 0 &&& 31) 34 ||| shl64 (Z.shiftr (u64 0) 0 &&& 15) 24 ||| shl64 (Z.shiftr (u64
  thread_id) 0 &&& 15) 20 ||| shl64 (Z.shiftr (u64 thread_id) 4 &&& 15) 16 ||| shl64 (Z.shiftr
  (u64 0) 0 &&& 65535) 0) (Z.shiftl 5 3) &&& 0xFF)) 8 ||| shl64 (u64 (Z.shiftr (0x7c0330000000
  ||| shl64 (Z.shiftr (u64 24) 0 &&& 31) 34 ||| shl64 (Z.shiftr (u64 0) 0 &&& 15) 24 ||| shl64
  (Z.shiftr (u64 thread_id) 0 &&& 15) 20 ||| shl64 (Z.shiftr (u64 thread_id) 4 &&& 15) 16 |||
  shl64 (Z.shiftr (u64 0) 0 &&& 65535) 0) (Z.shiftl 4 3) &&& 0xFF)) 16 ||| shl64 (u64 (Z.shiftr
  (0x7c0330000000 ||| shl64 (Z.shiftr (u64 24) 0 &&& 31) 34 ||| shl64 (Z.shiftr (u64 0) 0 &&&
  15) 24 ||| shl64 (Z.shiftr (u64 thread_id) 0 &&& 15) 20 ||| shl64 (Z.shiftr (u64 thread_id) 4
  &&& 15) 16 ||| shl64 (Z.shiftr (u64 0) 0 &&& 65535) 0) (Z.shiftl 0 3) &&& 0xFF)) 24 ||| shl64
  (u64 (Z.shiftr (0x7c0330000000 ||| shl64 (Z.shiftr (u64 24) 0 &&& 31) 34 ||| shl64 (Z.shiftr
  (u64 0) 0 &&& 15) 24 ||| shl64 (Z.shiftr (u64 thread_id) 0 &&& 15) 20 ||| shl64 (Z.shiftr (u64
  thread_id) 4 &&& 15) 16 ||| shl64 (Z.shiftr (u64 0) 0 &&& 65535) 0) (Z.shiftl 1 3) &&& 0xFF))
  32 ||| shl64 (u64 (Z.shiftr (0x7c0330000000 ||| shl64 (Z.shiftr (u64 24) 0 &&& 31) 34 |||
  shl64 (Z.shiftr (u64 0) 0 &&& 15) 24 ||| shl64 (Z.shiftr (u64 thread_id) 0 &&& 15) 20 |||
  shl64 (Z.shiftr (u64 thread_id) 4 &&& 15) 16 ||| shl64 (Z.shiftr (u64 0) 0 &&& 65535) 0)
  (Z.shiftl 3 3) &&& 0xFF)) 40 ||| shl64 (u64 0x98) 48.

Definition CI_NOTIFY_CLR_STRUCT : Z :=
  0x1100000000000000 ||| shl64 (u64 0x3f) 0 ||| shl64 (u64 0) 8 ||| shl64 (u64 0x2) 16 ||| shl64
  (u64 0x0) 24 ||| shl64 (u64 0x0) 32 ||| shl64 (u64 0x0) 40.

Definition CI_NOTIFY_CLR_FRAME (thread_id : Z) : Z :=
  0x3300000000000000 ||| shl64 (u64 (Z.shiftr (0x7c8320000000 ||| shl64 (Z.shiftr (u64 24) 0 &&&
  31) 34 ||| shl64 (Z.shiftr (u64 0) 0 &&& 15) 24 ||| shl64 (Z.shiftr (u64 thread_id) 0 &&& 15)
  20 ||| shl64 (Z.shiftr (u64 thread_id) 4 &&& 15) 16 ||| shl64 (Z.shiftr (u64 0) 0 &&& 65535)
  0) (Z.shiftl 2 3) &&& 0xFF)) 0 ||| shl64 (u64 (Z.shiftr (0x7c8320000000 ||| shl64 (Z.shiftr
  (u64 24) 0 &&& 31) 34 ||| shl64 (Z.shiftr (u64 0) 0 &&& 15) 24 ||| shl64 (Z.shiftr (u64
  thread_id) 0 &&& 15) 20 ||| shl64 (Z.shiftr (u64 thread_id) 4 &&& 15) 16 ||| shl64 (Z.shiftr
  (u64 0) 0 &&& 65535) 0) (Z.shiftl 5 3) &&& 0xFF)) 8 ||| shl64 (u64 (Z.shiftr (0x7c8320000000
  ||| shl64 (Z.shiftr (u64 24) 0 &&& 31) 34 ||| shl64 (Z.shiftr (u64 0) 0 &&& 15) 24 ||| shl64
  (Z.shiftr (u64 thread_id) 0 &&& 15) 20 ||| shl64 (Z.shiftr (u64 thread_id) 4 &&& 15) 16 |||
  shl64 (Z.shiftr (u64 0) 0 &&& 65535) 0) (Z.shiftl 4 3) &&& 0xFF)) 16 ||| shl64 (u64 (Z.shiftr
  (0x7c8320000000 ||| shl64 (Z.shiftr (u64 24) 0 &&& 31) 34 ||| shl64 (Z.shiftr (u64 0) 0 &&&
  15) 24 ||| shl64 (Z.shiftr (u64 thread_id) 0 &&& 15) 20 ||| shl64 (Z.shiftr (u64 thread_id) 4
  &&& 15) 16 ||| shl64 (Z.shiftr (u64 0) 0 &&& 65535) 0) (Z.shiftl 0 3) &&& 0xFF)) 24 ||| shl64
  (u64 (Z.shiftr (0x7c8320000000 ||| shl64 (Z.shiftr (u64 24) 0 &&& 31) 34 ||| shl64 (Z.shiftr
  (u64 0) 0 &&& 15) 24 ||| shl64 (Z.shiftr (u64 thread_id) 0 &&& 15) 20 ||| shl64 (Z.shiftr (u64
  thread_id) 4 &&& 15) 16 ||| shl64 (Z.shiftr (u64 0) 0 &&& 65535) 0) (Z.shiftl 1 3) &&& 0xFF))
  32 ||| shl64 (u64 (Z.shiftr (0x7c8320000000 ||| shl64 (Z.shiftr (u64 24) 0 &&& 31) 34 |||
  shl64 (Z.shiftr (u64 0) 0 &&& 15) 24 ||| shl64 (Z.shiftr (u64 thread_id) 0 &&& 15) 20 |||
  shl64 (Z.shiftr (u64 thread_id) 4 &&& 15) 16 ||| shl64 (Z.shiftr (u64 0) 0 &&& 65535) 0)
  (Z.shiftl 3 3) &&& 0xFF)) 40 ||| shl64 (u64 0x98) 48.

Definition CI_NOTIFY_SET_STRUCT : Z :=
  0x1100000000000000 ||| shl64 (u64 0x3f) 0 ||| shl64 (u64 0) 8 ||| shl64 (u64 0x2) 16 ||| shl64
  (u64 0x0) 24 ||| shl64 (u64 0x0) 32 ||| shl64 (u64 0x0) 40.

Definition CI_NOTIFY_SET_FRAME (thread_id : Z) : Z :=
  0x3300000000000000 ||| shl64 (u64 (Z.shiftr (0x7d8320000000 ||| shl64 (Z.shiftr (u64 24) 0 &&&
  31) 34 ||| shl64 (Z.shiftr (u64 0) 0 &&& 15) 24 ||| shl64 (Z.shiftr (u64 thread_id) 0 &&& 15)
  20 ||| shl64 (Z.shiftr (u64 thread_id) 4 &&& 15) 16 ||| shl64 (Z.shiftr (u64 0) 0 &&& 65535)
  0) (Z.shiftl 2 3) &&& 0xFF)) 0 ||| shl64 (u64 (Z.shiftr (0x7d8320000000 ||| shl64 (Z.shiftr
  (u64 24) 0 &&& 31) 34 ||| shl64 (Z.shiftr (u64 0) 0 &&& 15) 24 ||| shl64 (Z.shiftr (u64
  thread_id) 0 &&& 15) 20 ||| shl64 (Z.shiftr (u64 thread_id) 4 &&& 15) 16 ||| shl64 (Z.shiftr
  (u64 0) 0 &&& 65535) 0) (Z.shiftl 5 3) &&& 0xFF)) 8 ||| shl64 (u64 (Z.shiftr (0x7d8320000000
  ||| shl64 (Z.shiftr (u64 24) 0 &&& 31) 34 ||| shl64 (Z.shiftr (u64 0) 0 &&& 15) 24 ||| shl64
  (Z.shiftr (u64 thread_id) 0 &&& 15) 20 ||| shl64 (Z.shiftr (u64 thread_id) 4 &&& 15) 16 |||
  shl64 (Z.shiftr (u64 0) 0 &&& 65535) 0) (Z.shiftl 4 3) &&& 0xFF)) 16 ||| shl64 (u64 (Z.shiftr
  (0x7d8320000000 ||| shl64 (Z.shiftr (u64 24) 0 &&& 31) 34 ||| shl64 (Z.shiftr (u64 0) 0 &&&
  15) 24 ||| shl64 (Z.shiftr (u64 thread_id) 0 &&& 15) 20 ||| shl64 (Z.shiftr (u64 thread_id) 4
  &&& 15) 16 ||| shl64 (Z.shiftr (u64 0) 0 &&& 65535) 0) (Z.shiftl 0 3) &&& 0xFF)) 24 ||| shl64
  (u64 (Z.shiftr (0x7d8320000000 ||| shl64 (Z.shiftr (u64 24) 0 &&& 31) 34 ||| shl64 (Z.shiftr
  (u64 0) 0 &&& 15) 24 ||| shl64 (Z.shiftr (u64 thread_id) 0 &&& 15) 20 ||| shl64 (Z.shiftr (u64
  thread_id) 4 &&& 15) 16 ||| shl64 (Z.shiftr (u64 0) 0 &&& 65535) 0) (Z.shiftl 1 3) &&& 0xFF))
  32 ||| shl64 (u64 (Z.shiftr (0x7d8320000000 ||| shl64 (Z.shiftr (u64 24) 0 &&& 31) 34 |||
  shl64 (Z.shiftr (u64 0) 0 &&& 15) 24 ||| shl64 (Z.shiftr (u64 thread_id) 0 &&& 15) 20 |||
  shl64 (Z.shiftr (u64 thread_id) 4 &&& 15) 16 ||| shl64 (Z.shiftr (u64 0) 0 &&& 65535) 0)
  (Z.shiftl 3 3) &&& 0xFF)) 40 ||| shl64 (u64 0x98) 48.

Definition CI_DEBUG_STD_REPLACE_STOP_ENABLED_STRUCT : Z :=
  0x1100000000000000 ||| shl64 (u64 0x3f) 0 ||| shl64 (u64 0) 8 ||| shl64 (u64 0x2) 16 ||| shl64
  (u64 0x0) 24 ||| shl64 (u64 0x0) 32 ||| shl64 (u64 0x0) 40.

Definition CI_DEBUG_STD_REPLACE_STOP_ENABLED_FRAME : Z :=
  0x3300000000000000 ||| shl64 (u64 (Z.shiftr (0x7ef320000000 ||| shl64 (Z.shiftr (u64 0) 0 &&&
  15) 24 ||| shl64 (Z.shiftr (u64 0) 0 &&& 65535) 0) (Z.shiftl 2 3) &&& 0xFF)) 0 ||| shl64 (u64
  (Z.shiftr (0x7ef320000000 ||| shl64 (Z.shiftr (u64 0) 0 &&& 15) 24 ||| shl64 (Z.shiftr (u64 0)
  0 &&& 65535) 0) (Z.shiftl 5 3) &&& 0xFF)) 8 ||| shl64 (u64 (Z.shiftr (0x7ef320000000 ||| shl64
  (Z.shiftr (u64 0) 0 &&& 15) 24 ||| shl64 (Z.shiftr (u64 0) 0 &&& 65535) 0) (Z.shiftl 4 3) &&&
  0xFF)) 16 ||| shl64 (u64 (Z.shiftr (0x7ef320000000 ||| shl64 (Z.shiftr (u64 0) 0 &&& 15) 24
  ||| shl64 (Z.shiftr (u64 0) 0 &&& 65535) 0) (Z.shiftl 0 3) &&& 0xFF)) 24 ||| shl64 (u64
  (Z.shiftr (0x7ef320000000 ||| shl64 (Z.shiftr (u64 0) 0 &&& 15) 24 ||| shl64 (Z.shiftr (u64 0)
  0 &&& 65535) 0) (Z.shiftl 1 3) &&& 0xFF)) 32 ||| shl64 (u64 (Z.shiftr (0x7ef320000000 |||
  shl64 (Z.shiftr (u64 0) 0 &&& 15) 24 ||| shl64 (Z.shiftr (u64 0) 0 &&& 65535) 0) (Z.shiftl 3
  3) &&& 0xFF)) 40 ||| shl64 (u64 0x9e) 48.

Definition CI_DEBUG_STD_REPLACE_CLEAR_STRUCT : Z :=
  0x1100000000000000 ||| shl64 (u64 0) 0 ||| shl64 (u64 0) 8 ||| shl64 (u64 0x0) 16 ||| shl64
  (u64 0x0) 24 ||| shl64 (u64 0x0) 32 ||| shl64 (u64 0x0) 40.

Definition CI_DEBUG_STD_REPLACE_CLEAR_FRAME : Z :=
  0x3300000000000000 ||| shl64 (u64 0x9c) 0 ||| shl64 (u64 0x2) 8 ||| shl64 (u64 0x0) 16 |||
  shl64 (u64 0x0) 24 ||| shl64 (u64 0x0) 32 ||| shl64 (u64 0x0) 40 ||| shl64 (u64 0x0) 48.

Definition CI_DEBUG_STD_SAMPLE_PC_STRUCT : Z :=
  0x1100000000000000 ||| shl64 (u64 0x3f) 0 ||| shl64 (u64 0) 8 ||| shl64 (u64 0x9c) 16 |||
  shl64 (u64 0x2) 24 ||| shl64 (u64 0x0) 32 ||| shl64 (u64 0x0) 40.

Definition CI_DEBUG_STD_SAMPLE_PC_FRAME : Z :=
  0x3300000000000000 ||| shl64 (u64 (Z.shiftr 0x7c6300000000 (Z.shiftl 2 3) &&& 0xFF)) 0 |||
  shl64 (u64 (Z.shiftr 0x7c6300000000 (Z.shiftl 5 3) &&& 0xFF)) 8 ||| shl64 (u64 (Z.shiftr
  0x7c6300000000 (Z.shiftl 4 3) &&& 0xFF)) 16 ||| shl64 (u64 (Z.shiftr 0x7c6300000000 (Z.shiftl
  0 3) &&& 0xFF)) 24 ||| shl64 (u64 (Z.shiftr 0x7c6300000000 (Z.shiftl 1 3) &&& 0xFF)) 32 |||
  shl64 (u64 (Z.shiftr 0x7c6300000000 (Z.shiftl 3 3) &&& 0xFF)) 40 ||| shl64 (u64 0x9e) 48.


(** The words that write the structure register, and the frames. *)
Definition opcode (cmd : Z) : Z := Z.shiftr cmd 56.
Definition is_structure (cmd : Z) : bool := opcode cmd =? 0x11.
Definition is_frame (cmd : Z) : bool := opcode cmd =? 0x33.
