(* ===== verification/Rank.v ===== *)
(** * The state of a rank

    The records of the host library's rank: [struct dpu_rank_t]
    ([src/commons/include/dpu_rank.h]), its control-interface context, its run
    context, its DPUs, the description of the hardware, and the two callbacks
    of [dpu_rank_handler_t] that exchange commands with the control interfaces
    ([RankHandler]). A C structure is a record; the assignment [r->f = v] is
    [set_f v r]. *)

From S2P Require Import Prelude CMonad BitConfig.

#[local] Open Scope Z_scope.
#[local] Open Scope dpu_scope.

Definition DPU_MAX_NR_CIS := 8.
Definition DPU_MAX_NR_GROUPS := 8.
Definition DPU_ENABLED_GROUP := 0.
Definition DPU_DISABLED_GROUP := 1.
Definition NB_MAX_REPAIR_ADDR := 4.
Definition NR_OF_WRAM_BANKS := 4.
Definition ALL_CIS := 0xFF.

Definition CI_MASK_ONE (ci : Z) : Z := Z.shiftl 1 ci.
Definition CI_MASK_ON (mask ci : Z) : bool := negb (mask &&& Z.shiftl 1 ci =? 0).

Inductive dpu_rank_status_e :=
  | DPU_RANK_SUCCESS | DPU_RANK_COMMUNICATION_ERROR | DPU_RANK_BACKEND_ERROR
  | DPU_RANK_SYSTEM_ERROR | DPU_RANK_INVALID_PROPERTY_ERROR | DPU_RANK_ENODEV.

Inductive dpu_slice_target_type :=
  | DPU_SLICE_TARGET_NONE | DPU_SLICE_TARGET_DPU | DPU_SLICE_TARGET_ALL
  | DPU_SLICE_TARGET_GROUP.

(** [dpu_type_t]. *)
Inductive dpu_type_t :=
  | FUNCTIONAL_SIMULATOR | CYCLE_ACCURATE_SIMULATOR | RTL_SIMULATOR | HW | BACKUP_SPI | SCENARIO.

(** [WRITE_DIR] and [READ_DIR]. *)
Inductive direction := WRITE_DIR | READ_DIR.

#[export] Instance dpu_slice_target_type_eq_dec : EqDecision dpu_slice_target_type.
Proof. solve_decision. Defined.
#[export] Instance dpu_type_eq_dec : EqDecision dpu_type_t.
Proof. solve_decision. Defined.
#[export] Instance dpu_rank_status_eq_dec : EqDecision dpu_rank_status_e.
Proof. solve_decision. Defined.

(** [struct dpu_slice_target]: [dpu_id] and [group_id] share the union [st_id]. *)
Record slice_target := mk_slice_target {
  st_type : dpu_slice_target_type;
  st_id : Z;
}.

(** [struct dpu_configuration_slice_info_t]. *)
Record slice_info := mk_slice_info {
  byte_order : Z;
  structure_value : Z;
  slice_target_ : slice_target;
  host_mux_mram_state : Z;
  dpus_per_group : list Z;
  enabled_dpus : Z;
  all_dpus_are_enabled : bool;
}.

(** [struct dpu_control_interface_context]. *)
Record ci_context := mk_ci_context {
  fault_decode : Z;
  fault_collide : Z;
  color : Z;
  slice_infos : list slice_info;
}.

(** [struct _dpu_run_context_t]; [poll_status] is [None] for [DPU_OK]. *)
Record run_context := mk_run_context {
  dpu_running : list Z;
  dpu_in_fault : list Z;
  poll_status : option dpu_error_t;
  nb_dpu_running : Z;
}.

(** [struct dpu_memory_repair_address_t]. *)
Record repair_address := mk_repair_address {
  ra_address : Z;
  ra_faulty_bits : Z;
}.

(** [struct dpu_memory_repair_t]. *)
Record memory_repair := mk_memory_repair {
  corrupted_addresses : list repair_address;
  nr_of_corrupted_addresses : Z;
  fail_to_repair : bool;
}.

(** [struct dpu_t]; the pointer to the rank is the rank that holds it. *)
Record dpu_t := mk_dpu {
  slice_id : Z;
  dpu_id : Z;
  enabled : bool;
  iram_repair : memory_repair;
  wram_repair : list memory_repair;
}.

(** [struct dpu_carousel_config]. *)
Record carousel_config := mk_carousel_config {
  cmd_duration : Z;
  cmd_sampling : Z;
  res_duration : Z;
  res_sampling : Z;
}.

(** [struct dpu_hw_description_t] and the configuration flags of [struct _dpu_description_t] that the modelled code reads. *)
Record description := mk_description {
  chip_id : Z;
  carousel : carousel_config;
  fck_frequency_in_mhz : Z;
  reset_wait_duration : Z;
  std_temperature : Z;
  clock_division : Z;
  nr_of_control_interfaces : Z;
  nr_of_dpus_per_control_interface : Z;
  mram_size : Z;
  wram_size : Z;
  iram_size : Z;
  pcb_transformation : dpu_bit_config;
  nr_of_threads : Z;
  nr_of_notify_bits : Z;
  api_must_switch_mram_mux : bool;
  init_mram_mux : bool;
  do_iram_repair : bool;
  do_wram_repair : bool;
  enable_cycle_accurate_behavior : bool;
  disable_api_safe_checks : bool;
  ila_control_refresh : bool;
}.

(** [struct dpu_command_t]. *)
Record command_record := mk_command_record {
  cr_data : list Z;
  cr_direction : direction;
}.

(** [struct dpu_circular_buffer_commands_t]. *)
Record cmds_buffer := mk_cmds_buffer {
  cb_cmds : list command_record;
  cb_size : Z;
  cb_nb : Z;
  cb_idx_last : Z;
  cb_has_wrapped : bool;
}.

(** [struct dpu_rank_t], less what only the thread layer uses; [logd_enabled] is the verbosity test of the command recorder. *)
Record rank := mk_rank {
  rank_type : dpu_type_t;
  desc : description;
  ci : ci_context;
  run : run_context;
  logd_enabled : bool;
  cmd_log : cmds_buffer;
  dpus : list dpu_t;
  nr_dpus_enabled : Z;
  cmds : list Z;
  data : list Z;
}.

Definition set_byte_order (v : Z) (r : slice_info) : slice_info :=
    mk_slice_info v (structure_value r) (slice_target_ r) (host_mux_mram_state r)
    (dpus_per_group r) (enabled_dpus r) (all_dpus_are_enabled r).
Definition set_structure_value (v : Z) (r : slice_info) : slice_info :=
    mk_slice_info (byte_order r) v (slice_target_ r) (host_mux_mram_state r) (dpus_per_group r)
    (enabled_dpus r) (all_dpus_are_enabled r).
Definition set_slice_target (v : slice_target) (r : slice_info) : slice_info :=
    mk_slice_info (byte_order r) (structure_value r) v (host_mux_mram_state r) (dpus_per_group
    r) (enabled_dpus r) (all_dpus_are_enabled r).
Definition set_host_mux_mram_state (v : Z) (r : slice_info) : slice_info :=
    mk_slice_info (byte_order r) (structure_value r) (slice_target_ r) v (dpus_per_group r)
    (enabled_dpus r) (all_dpus_are_enabled r).
Definition set_dpus_per_group (v : list Z) (r : slice_info) : slice_info :=
    mk_slice_info (byte_order r) (structure_value r) (slice_target_ r) (host_mux_mram_state r) v
    (enabled_dpus r) (all_dpus_are_enabled r).
Definition set_enabled_dpus (v : Z) (r : slice_info) : slice_info :=
    mk_slice_info (byte_order r) (structure_value r) (slice_target_ r) (host_mux_mram_state r)
    (dpus_per_group r) v (all_dpus_are_enabled r).
Definition set_all_dpus_are_enabled (v : bool) (r : slice_info) : slice_info :=
    mk_slice_info (byte_order r) (structure_value r) (slice_target_ r) (host_mux_mram_state r)
    (dpus_per_group r) (enabled_dpus r) v.
Definition set_fault_decode (v : Z) (r : ci_context) : ci_context :=
    mk_ci_context v (fault_collide r) (color r) (slice_infos r).
Definition set_fault_collide (v : Z) (r : ci_context) : ci_context :=
    mk_ci_context (fault_decode r) v (color r) (slice_infos r).
Definition set_color (v : Z) (r : ci_context) : ci_context :=
    mk_ci_context (fault_decode r) (fault_collide r) v (slice_infos r).
Definition set_slice_infos (v : list slice_info) (r : ci_context) : ci_context :=
    mk_ci_context (fault_decode r) (fault_collide r) (color r) v.
Definition set_dpu_running (v : list Z) (r : run_context) : run_context :=
    mk_run_context v (dpu_in_fault r) (poll_status r) (nb_dpu_running r).
Definition set_dpu_in_fault (v : list Z) (r : run_context) : run_context :=
    mk_run_context (dpu_running r) v (poll_status r) (nb_dpu_running r).
Definition set_poll_status (v : option dpu_error_t) (r : run_context) : run_context :=
    mk_run_context (dpu_running r) (dpu_in_fault r) v (nb_dpu_running r).
Definition set_nb_dpu_running (v : Z) (r : run_context) : run_context :=
    mk_run_context (dpu_running r) (dpu_in_fault r) (poll_status r) v.
Definition set_fail_to_repair (v : bool) (r : memory_repair) : memory_repair :=
    mk_memory_repair (corrupted_addresses r) (nr_of_corrupted_addresses r) v.
Definition set_enabled (v : bool) (r : dpu_t) : dpu_t :=
    mk_dpu (slice_id r) (dpu_id r) v (iram_repair r) (wram_repair r).
Definition set_iram_repair (v : memory_repair) (r : dpu_t) : dpu_t :=
    mk_dpu (slice_id r) (dpu_id r) (enabled r) v (wram_repair r).
Definition set_wram_repair (v : list memory_repair) (r : dpu_t) : dpu_t :=
    mk_dpu (slice_id r) (dpu_id r) (enabled r) (iram_repair r) v.
Definition set_pcb_transformation (v : dpu_bit_config) (r : description) : description :=
    mk_description (chip_id r) (carousel r) (fck_frequency_in_mhz r) (reset_wait_duration r)
    (std_temperature r) (clock_division r) (nr_of_control_interfaces r)
    (nr_of_dpus_per_control_interface r) (mram_size r) (wram_size r) (iram_size r) v
    (nr_of_threads r) (nr_of_notify_bits r) (api_must_switch_mram_mux r) (init_mram_mux r)
    (do_iram_repair r) (do_wram_repair r) (enable_cycle_accurate_behavior r)
    (disable_api_safe_checks r) (ila_control_refresh r).
Definition set_desc (v : description) (r : rank) : rank :=
    mk_rank (rank_type r) v (ci r) (run r) (logd_enabled r) (cmd_log r) (dpus r)
    (nr_dpus_enabled r) (cmds r) (data r).
Definition set_ci (v : ci_context) (r : rank) : rank :=
    mk_rank (rank_type r) (desc r) v (run r) (logd_enabled r) (cmd_log r) (dpus r)
    (nr_dpus_enabled r) (cmds r) (data r).
Definition set_run (v : run_context) (r : rank) : rank :=
    mk_rank (rank_type r) (desc r) (ci r) v (logd_enabled r) (cmd_log r) (dpus r)
    (nr_dpus_enabled r) (cmds r) (data r).
Definition set_cmd_log (v : cmds_buffer) (r : rank) : rank :=
    mk_rank (rank_type r) (desc r) (ci r) (run r) (logd_enabled r) v (dpus r) (nr_dpus_enabled
    r) (cmds r) (data r).
Definition set_dpus (v : list dpu_t) (r : rank) : rank :=
    mk_rank (rank_type r) (desc r) (ci r) (run r) (logd_enabled r) (cmd_log r) v
    (nr_dpus_enabled r) (cmds r) (data r).
Definition set_nr_dpus_enabled (v : Z) (r : rank) : rank :=
    mk_rank (rank_type r) (desc r) (ci r) (run r) (logd_enabled r) (cmd_log r) (dpus r) v (cmds
    r) (data r).
Definition set_cmds (v : list Z) (r : rank) : rank :=
    mk_rank (rank_type r) (desc r) (ci r) (run r) (logd_enabled r) (cmd_log r) (dpus r)
    (nr_dpus_enabled r) v (data r).
Definition set_data (v : list Z) (r : rank) : rank :=
    mk_rank (rank_type r) (desc r) (ci r) (run r) (logd_enabled r) (cmd_log r) (dpus r)
    (nr_dpus_enabled r) (cmds r) v.

(** ** Access paths *)

#[export] Instance slice_target_inhabited : Inhabited slice_target :=
  populate (mk_slice_target DPU_SLICE_TARGET_NONE 0).
#[export] Instance slice_info_inhabited : Inhabited slice_info :=
  populate (mk_slice_info 0 0 inhabitant 0 [] 0 false).
#[export] Instance repair_address_inhabited : Inhabited repair_address :=
  populate (mk_repair_address 0 0).
#[export] Instance memory_repair_inhabited : Inhabited memory_repair :=
  populate (mk_memory_repair [] 0 false).
#[export] Instance dpu_inhabited : Inhabited dpu_t :=
  populate (mk_dpu 0 0 false inhabitant []).
#[export] Instance command_record_inhabited : Inhabited command_record :=
  populate (mk_command_record [] WRITE_DIR).

(** [GET_CI_CONTEXT(rank)->slice_info[each_ci]]. *)
Definition slice_of (r : rank) (each_ci : Z) : slice_info := (slice_infos (ci r)).[each_ci].
Definition upd_slice (each_ci : Z) (f : slice_info -> slice_info) (r : rank) : rank :=
  set_ci (set_slice_infos ((slice_infos (ci r)).[each_ci := f (slice_of r each_ci)]) (ci r)) r.

(** [GET_DESC_HW(rank)->topology]. *)
Definition nr_cis_of (r : rank) : Z := nr_of_control_interfaces (desc r).
Definition nr_dpus_of (r : rank) : Z := nr_of_dpus_per_control_interface (desc r).

(** [DPU_INDEX], [DPU_GET_UNSAFE]. *)
Definition DPU_INDEX (r : rank) (each_ci each_dpu : Z) : Z := nr_dpus_of r * each_ci + each_dpu.
Definition dpu_of (r : rank) (each_ci each_dpu : Z) : dpu_t :=
  (dpus r).[DPU_INDEX r each_ci each_dpu].
Definition upd_dpu (each_ci each_dpu : Z) (f : dpu_t -> dpu_t) (r : rank) : rank :=
  set_dpus ((dpus r).[DPU_INDEX r each_ci each_dpu := f (dpu_of r each_ci each_dpu)]) r.

Definition is_chip_v1_4 (r : rank) : bool := chip_id (desc r) &&& 0xF0 =? 0x40.

Definition is_target (info : slice_info) (t : dpu_slice_target_type) : bool :=
  bool_decide (st_type (slice_target_ info) = t).
Definition target_id (info : slice_info) : Z := st_id (slice_target_ info).

(** [slice_target.type = t] and [slice_target.<id> = i]. *)
Definition set_target_type (t : dpu_slice_target_type) (info : slice_info) : slice_info :=
  set_slice_target (mk_slice_target t (target_id info)) info.
Definition set_target (t : dpu_slice_target_type) (i : Z) (info : slice_info) : slice_info :=
  set_slice_target (mk_slice_target t i) info.

(** ** The backend

    [commit_commands] and [update_commands] of the backend's handler: the
    first sends one 64-bit word to each control interface, the second reads
    the answers. [D] is the state of the backend and of the hardware behind
    it; both are parameters of the model. *)
Class RankHandler (D : Type) := {
  commit_commands : D -> list Z -> D * dpu_rank_status_e;
  update_commands : D -> D * (list Z * dpu_rank_status_e);
}.

(** The state a function of the library runs on. *)
Record world (D : Type) := mk_world { rk : rank; dev : D }.
Arguments mk_world {_} _ _.
Arguments rk {_} _.
Arguments dev {_} _.

Definition W (D A : Type) : Type := C (world D) A.

Section World.
Context {D : Type}.
(** Reading and writing the rank. *)
Definition get_rank : W D rank := gets rk.
Definition on_rank (f : rank -> rank) : W D unit :=
  modify (fun w => mk_world (f (rk w)) (dev w)).
Definition set_dev (d : D) : W D unit := modify (fun w => mk_world (rk w) d).
End World.

(** ** A backend that replays a script

    Every packet is accepted; the answers are read from a list, the last one
    being repeated. It is the concrete backend the examples run on. *)

Definition script := list (list Z).
#[export] Instance scripted_handler : RankHandler script := {
  commit_commands d _ := (d, DPU_RANK_SUCCESS);
  update_commands d :=
    match d with
    | [] => ([], ([], DPU_RANK_BACKEND_ERROR))
    | [a] => ([a], (a, DPU_RANK_SUCCESS))
    | a :: d => (d, (a, DPU_RANK_SUCCESS))
    end;
}.

(** A rank with all its DPUs enabled. *)
Definition sample_description (nr_cis nr_dpus : Z) : description :=
  mk_description 0x42 (mk_carousel_config 2 1 2 0) 800 20 0 2 nr_cis nr_dpus
    0x4000000 0x4000 0x1000 (mk_bit_config 0 0 0 0) 24 40
    true true false false false false false.
Definition sample_slice (nr_dpus : Z) : slice_info :=
  mk_slice_info 0 0 (mk_slice_target DPU_SLICE_TARGET_NONE 0) 0 (replicate 8 0)
    (Z.shiftl 1 nr_dpus - 1) true.
Definition sample_dpu (nr_dpus k : Z) : dpu_t :=
  mk_dpu (Z.div k nr_dpus) (Z.modulo k nr_dpus) true (mk_memory_repair [] 0 false)
    (replicate 4 (mk_memory_repair [] 0 false)).
Definition sample_rank (nr_cis nr_dpus : Z) : rank :=
  mk_rank HW (sample_description nr_cis nr_dpus)
    (mk_ci_context 0 0 0 (replicate 8 (sample_slice nr_dpus)))
    (mk_run_context (replicate 8 0) (replicate 8 0) None 0) false
    (mk_cmds_buffer [] 1 0 0 false)
    (map (sample_dpu nr_dpus) (seqZ 0 (nr_cis * nr_dpus))) (nr_cis * nr_dpus)
    (replicate 8 0) (replicate 8 0).

(** ** Well-formedness *)

(** The dimensions the topology gives; machine words are in range. *)
Record wf_rank (r : rank) : Prop := {
  wf_nr_cis : 0 < nr_cis_of r <= DPU_MAX_NR_CIS;
  wf_nr_dpus : 0 < nr_dpus_of r <= 8;
  wf_slices : lenz (slice_infos (ci r)) = DPU_MAX_NR_CIS;
  wf_groups : Forall (fun i => lenz (dpus_per_group i) = DPU_MAX_NR_GROUPS) (slice_infos (ci r));
  wf_cmds : lenz (cmds r) = DPU_MAX_NR_CIS;
  wf_color : fits 8 (color (ci r));
}.

Lemma CI_MASK_ON_testbit mask i : 0 <= i -> CI_MASK_ON mask i = Z.testbit mask i.
Proof.
  intros Hi. unfold CI_MASK_ON. rewrite land_pow2_testbit by done.
  destruct (Z.testbit mask i); [|done].
  rewrite Z.shiftl_1_l. apply negb_true_iff, Z.eqb_neq.
  pose proof (Z.pow_pos_nonneg 2 i). lia.
Qed.

#[export] Instance wf_rank_dec r : Decision (wf_rank r).
Proof.
  refine (cast_if (decide (0 < nr_cis_of r <= DPU_MAX_NR_CIS /\ 0 < nr_dpus_of r <= 8 /\
    lenz (slice_infos (ci r)) = DPU_MAX_NR_CIS /\
    Forall (fun i => lenz (dpus_per_group i) = DPU_MAX_NR_GROUPS) (slice_infos (ci r)) /\
    lenz (cmds r) = DPU_MAX_NR_CIS /\ fits 8 (color (ci r))))).
  - abstract (by split; destruct_and!).
  - abstract (intros [? ? ? ? ? ?]; apply n; split_and!; tauto).
Defined.
