(* ===== verification/Ci.v ===== *)
(** * The control-interface protocol

    Model of [src/ufi/src/ufi_ci.c] and of the command recorder
    [debug_record_last_cmd] ([src/ufi/src/ufi_rank_utils.h]): a packet of
    eight words is committed to the control interfaces, and the answers are
    polled until every interface that was sent a command has answered with a
    valid result and the expected colour, at most 101 times. *)

From S2P Require Import Prelude CMonad BitConfig CiCommands Rank.

#[local] Open Scope Z_scope.
#[local] Open Scope dpu_scope.

Definition NB_RETRY_FOR_VALID_RESULT := 100%nat.
Definition TIMEOUT_COLOR := 100000.

(** ** The command recorder *)

(** [memcpy(dst, src, n * sizeof( *dst))] on arrays of words. *)
Definition copy_words (dst src : list Z) (n : Z) : list Z :=
  take (Z.to_nat n) src ++ drop (Z.to_nat n) dst.

(** The buffer after recording one packet. *)
Definition record_cmd (nr_cis : Z) (dir : direction) (commands : list Z) (b : cmds_buffer)
    : cmds_buffer :=
  let slot := (cb_cmds b).[cb_idx_last b] in
  let recorded :=
    (cb_cmds b).[cb_idx_last b :=
      mk_command_record (copy_words (cr_data slot) commands nr_cis) dir] in
  let idx_last := u32 (cb_idx_last b + 1) in
  let '(has_wrapped, nb) :=
    if negb (cb_has_wrapped b) then
      if cb_size b <=? idx_last then (true, cb_size b) else (false, u32 (cb_nb b + 1))
    else (cb_has_wrapped b, cb_nb b) in
  mk_cmds_buffer recorded (cb_size b) nb (idx_last mod cb_size b) has_wrapped.

Definition debug_record_last_cmd (dir : direction) (commands : list Z) (r : rank) : rank :=
  if negb (logd_enabled r) then r
  else set_cmd_log (record_cmd (nr_cis_of r) dir commands (cmd_log r)) r.

(** The packets [LOGD_LAST_COMMANDS] prints, in its order. *)
Definition logged_commands (b : cmds_buffer) : list command_record :=
  let start := if cb_has_wrapped b then cb_idx_last b else 0 in
  map (fun k => (cb_cmds b).[(start + k) mod cb_size b]) (seqZ 0 (cb_nb b)).

(** ** Packets and masks *)

Definition ci_prepare_mask (buffer : list Z) (mask data : Z) : list Z :=
  for_up DPU_MAX_NR_CIS (fun each_ci buffer =>
    if CI_MASK_ON mask each_ci then buffer.[each_ci := data]
    else buffer.[each_ci := CI_EMPTY]) buffer.

Definition ci_fill_selected_dpu_mask (r : rank) (each_ci : Z) : result Z :=
  let info := slice_of r each_ci in
  match st_type (slice_target_ info) with
  | DPU_SLICE_TARGET_ALL => Ok (u8 (Z.shiftl 1 (nr_dpus_of r) - 1))
  | DPU_SLICE_TARGET_DPU => Ok (u8 (Z.shiftl 1 (target_id info)))
  | DPU_SLICE_TARGET_GROUP => Ok ((dpus_per_group info).[target_id info])
  | _ => Err DPU_ERR_INTERNAL
  end.

Definition invert_color (ci_mask : Z) (r : rank) : rank :=
  set_ci (set_color (color (ci r) ^^^ ci_mask) (ci r)) r.

Definition compute_ci_mask (r : rank) (commands : list Z) : Z :=
  for_up (nr_cis_of r) (fun each_ci ci_mask =>
    if negb (commands.[each_ci] =? CI_EMPTY)
    then u8 (ci_mask ||| Z.shiftl 1 each_ci) else ci_mask) 0.

(** What [compute_masks] produces. *)
Record cmd_masks := mk_cmd_masks {
  result_masks : list Z; expected : list Z; cm_ci_mask : Z; cm_is_done : list bool }.

Definition compute_masks_step (r : rank) (commands : list Z) (add_select_mask : bool)
    (each_ci : Z) (m : cmd_masks) : result cmd_masks :=
  if negb (commands.[each_ci] =? CI_EMPTY) then
    let ci_mask := u8 (cm_ci_mask m ||| Z.shiftl 1 each_ci) in
    let mask := (result_masks m).[each_ci] ||| 0xFF0000FF00000000 in
    let exp := (expected m).[each_ci] ||| 0x000000FF00000000 in
    if add_select_mask then
      match ci_fill_selected_dpu_mask r each_ci with
      | Ok dpu_mask =>
          Ok (mk_cmd_masks
                ((result_masks m).[each_ci := mask ||| (Z.shiftl 1 (nr_dpus_of r) - 1)])
                ((expected m).[each_ci := exp ||| dpu_mask]) ci_mask (cm_is_done m))
      | Err e => Err e
      end
    else Ok (mk_cmd_masks ((result_masks m).[each_ci := mask]) ((expected m).[each_ci := exp])
               ci_mask (cm_is_done m))
  else Ok (mk_cmd_masks (result_masks m) (expected m) (cm_ci_mask m)
             ((cm_is_done m).[each_ci := true])).

Fixpoint fold_result {A B} (f : B -> A -> result A) (l : list B) (a : A) : result A :=
  match l with
  | [] => Ok a
  | b :: l => match f b a with Ok a' => fold_result f l a' | Err e => Err e end
  end.

Definition zeros8 : list Z := replicate 8 0.
Definition falses8 : list bool := replicate 8 false.

Definition compute_masks (r : rank) (commands : list Z) (add_select_mask : bool)
    : result cmd_masks :=
  fold_result (compute_masks_step r commands add_select_mask) (seqZ 0 (nr_cis_of r))
    (mk_cmd_masks zeros8 zeros8 0 falses8).

(** ** Is the answer there? *)

(** One of the eight bytes of the word is zero. *)
Definition has_zero_byte (word : Z) : bool :=
  existsb (fun each_byte => Z.shiftr word (Z.shiftl each_byte 3) &&& 0xFF =? 0) (seqZ 0 8).

Definition determine_if_byte_discoveries_are_finished (r : rank) (data : list Z) (ci_mask : Z)
    : bool :=
  forallb (fun each_ci => negb (CI_MASK_ON ci_mask each_ci) || has_zero_byte (data.[each_ci]))
    (seqZ 0 (nr_cis_of r)).

Definition color_bits (word : Z) : Z := Z.shiftr (word &&& 0x00FF000000000000) 48 &&& 0xFF.

(** The masked word is the expected one, or the word is a [CI_NOP]. *)
Definition result_ready (m : cmd_masks) (each_ci result : Z) : bool :=
  (result &&& (result_masks m).[each_ci] =? (expected m).[each_ci])
  || (result &&& CI_NOP =? CI_NOP).

(** The body of the loop of [determine_if_commands_are_finished]: [false]
    returns from the function. *)
Definition command_is_finished (data : list Z) (m : cmd_masks) (expected_color each_ci : Z)
    (s : list bool * ci_context) : bool * (list bool * ci_context) :=
  let '(is_done, context) := s in
  if is_done.[each_ci] then (true, s)
  else
    let result := data.[each_ci] in
    if negb (result_ready m each_ci result) then (false, s)
    else
      let nb_bits_set := popcount (color_bits result) in
      let ci_mask := u8 (Z.shiftl 1 each_ci) in
      let ci_color := expected_color &&& ci_mask in
      if (if negb (ci_color =? 0) then nb_bits_set <=? 3 else 5 <=? nb_bits_set)
      then (false, s)
      else
        let is_done := is_done.[each_ci := true] in
        let nb_bits_set := if negb (ci_color =? 0) then 8 - nb_bits_set else nb_bits_set in
        let decode := set_fault_decode (fault_decode context ||| ci_mask) in
        let collide := set_fault_collide (fault_collide context ||| ci_mask) in
        if nb_bits_set =? 0 then (true, (is_done, context))
        else if nb_bits_set =? 1 then (true, (is_done, decode context))
        else if nb_bits_set =? 2 then (true, (is_done, collide context))
        else if nb_bits_set =? 3 then (true, (is_done, decode (collide context)))
        else (false, (is_done, context)).

Definition determine_if_commands_are_finished (r : rank) (data : list Z) (m : cmd_masks)
    (expected_color : Z) (is_done : list bool) : bool * (list bool * ci_context) :=
  while_true (command_is_finished data m expected_color) (seqZ 0 (nr_cis_of r))
    (is_done, ci r).

(** ** Exchanges with the hardware *)

Section Protocol.
Context {D : Type} `{!RankHandler D}.

Definition ci_commit_commands (commands : list Z) : W D unit :=
  _ ← on_rank (debug_record_last_cmd WRITE_DIR commands);
  w ← get;
  let '(d, status) := commit_commands (dev w) commands in
  _ ← set_dev d;
  if decide (status = DPU_RANK_SUCCESS) then mret tt else fail DPU_ERR_DRIVER.

(** [store] puts the answers where the caller's buffer is. *)
Definition ci_update_commands (store : list Z -> rank -> rank) : W D (list Z) :=
  w ← get;
  let '(d, (answers, status)) := update_commands (dev w) in
  _ ← set_dev d;
  _ ← on_rank (store answers);
  if decide (status = DPU_RANK_SUCCESS) then
    _ ← on_rank (debug_record_last_cmd READ_DIR answers);
    mret answers
  else fail DPU_ERR_DRIVER.

(** The buffer is [rank->data]; the buffer is a local array. *)
Definition into_data : list Z -> rank -> rank := set_data.
Definition into_local : list Z -> rank -> rank := fun _ r => r.

(** The do-while loop of [exec_cmd]; [nr_retries] decreases to 0. *)
Fixpoint poll_commands (nr_retries : nat) (m : cmd_masks) (expected_color : Z)
    (is_done : list bool) : W D unit :=
  data ← ci_update_commands into_data;
  r ← get_rank;
  let '(finished, (is_done, context)) :=
    determine_if_commands_are_finished r data m expected_color is_done in
  _ ← on_rank (set_ci context);
  if finished then mret tt
  else match nr_retries with
       | O => fail DPU_ERR_TIMEOUT
       | S nr_retries => poll_commands nr_retries m expected_color is_done
       end.

Definition exec_cmd (commands : list Z) (add_select_mask : bool) : W D unit :=
  r ← get_rank;
  match compute_masks r commands add_select_mask with
  | Err e => fail e
  | Ok m =>
      let expected_color := color (ci r) &&& cm_ci_mask m in
      _ ← on_rank (invert_color (cm_ci_mask m));
      _ ← ci_commit_commands commands;
      _ ← poll_commands NB_RETRY_FOR_VALID_RESULT m expected_color (cm_is_done m);
      if negb (is_chip_v1_4 r) then _ ← ci_update_commands into_data; mret tt
      else mret tt
  end.

Definition ci_exec_void_cmd (commands : list Z) : W D unit := exec_cmd commands false.
Definition ci_exec_wait_mask_cmd (commands : list Z) : W D unit := exec_cmd commands true.

(** [results[each_ci] = rank->data[each_ci]] for the commanded interfaces;
    [conv] is the conversion to the type of the results. *)
Definition collect_results (conv : Z -> Z) (commands results : list Z) (r : rank) : list Z :=
  for_up (nr_cis_of r) (fun each_ci results =>
    if negb (commands.[each_ci] =? CI_EMPTY)
    then results.[each_ci := conv (data r).[each_ci]] else results) results.

Definition ci_exec_8bit_cmd (commands results : list Z) : W D (list Z) :=
  _ ← exec_cmd commands false;
  gets (fun w => collect_results u8 commands results (rk w)).

Definition ci_exec_32bit_cmd (commands results : list Z) : W D (list Z) :=
  _ ← exec_cmd commands false;
  gets (fun w => collect_results u32 commands results (rk w)).

Fixpoint wait_for_byte_discovery_loop (nr_retries : nat) (store : list Z -> rank -> rank)
    (ci_mask : Z) : W D (list Z) :=
  results ← ci_update_commands store;
  r ← get_rank;
  if determine_if_byte_discoveries_are_finished r results ci_mask then mret results
  else match nr_retries with
       | O => fail DPU_ERR_TIMEOUT
       | S nr_retries => wait_for_byte_discovery_loop nr_retries store ci_mask
       end.

Definition wait_for_byte_discovery (store : list Z -> rank -> rank) (ci_mask : Z)
    : W D (list Z) :=
  wait_for_byte_discovery_loop NB_RETRY_FOR_VALID_RESULT store ci_mask.

Definition ci_exec_byte_discovery (commands : list Z) (store : list Z -> rank -> rank)
    : W D (list Z) :=
  r ← get_rank;
  let ci_mask := compute_ci_mask r commands in
  _ ← on_rank (invert_color ci_mask);
  _ ← ci_commit_commands commands;
  _ ← wait_for_byte_discovery store ci_mask;
  wait_for_byte_discovery store ci_mask.

(** The group and selection bookkeeping of one interface after a reset. *)
Definition reset_slice (nr_dpus : Z) (info : slice_info) : slice_info :=
  let info := set_target_type DPU_SLICE_TARGET_NONE info in
  let info := set_dpus_per_group
    ((dpus_per_group info).[0 := u8 (Z.shiftl 1 nr_dpus - 1)]) info in
  for_up (DPU_MAX_NR_GROUPS - 1) (fun k info =>
    set_dpus_per_group ((dpus_per_group info).[k + 1 := 0]) info) info.

Definition ci_exec_reset_cmd (commands : list Z) : W D unit :=
  r ← get_rank;
  let reset_duration :=
    u32 (Z.quot (reset_wait_duration (desc r) * clock_division (desc r)) 2) in
  let reset_mask := compute_ci_mask r commands in
  _ ← on_rank (invert_color reset_mask);
  _ ← ci_commit_commands commands;
  _ ← mfor reset_duration (fun _ _ => _ ← ci_update_commands into_local; mret tt) tt;
  _ ← on_rank (fun r =>
        let c := ci r in
        set_ci (set_fault_decode (fault_decode c &&& not8 reset_mask)
               (set_fault_collide (fault_collide c &&& not8 reset_mask)
               (set_color (color c &&& not8 reset_mask) c))) r);
  on_rank (fun r =>
    for_up DPU_MAX_NR_CIS (fun each_ci => upd_slice each_ci (reset_slice (nr_dpus_of r))) r).

(** ** Recovering the colour *)

Definition cmd_type_of (word : Z) : Z := Z.shiftr word 56 &&& 0xFF.
Definition valid_of (word : Z) : Z := Z.shiftr (word &&& 0xFF00000000) 32 &&& 0xFF.

(** One pass of the first loop over the answers: [dummy_command_is_needed]
    and [result_is_stable]. *)
Definition scan_results (nr_cis : Z) (data : list Z) (dummy_command_is_needed : bool)
    : bool * bool :=
  for_up nr_cis (fun each_slice '(dummy, stable) =>
    if cmd_type_of data.[each_slice] =? 0xFF then (true, stable)
    else (dummy, stable && (cmd_type_of data.[each_slice] =? 0)
                        && (valid_of data.[each_slice] =? 0xFF)))
    (dummy_command_is_needed, true).

(** [do { update; timeout--; ... } while (timeout && !result_is_stable);
    if (!timeout) return DPU_ERR_TIMEOUT;] [n] is [timeout] after this pass. *)
Fixpoint wait_stable (n : nat) (dummy : bool) : W D bool :=
  data ← ci_update_commands into_local;
  r ← get_rank;
  let '(dummy, stable) := scan_results (nr_cis_of r) data dummy in
  match n with
  | O => fail DPU_ERR_TIMEOUT
  | S n' => if stable then mret dummy else wait_stable n' dummy
  end.

Fixpoint wait_identity (n : nat) : W D (list Z) :=
  data ← ci_update_commands into_local;
  r ← get_rank;
  let stable := forallb (fun each_slice => Z.shiftr data.[each_slice] 56 =? 0)
                  (seqZ 0 (nr_cis_of r)) in
  match n with
  | O => fail DPU_ERR_TIMEOUT
  | S n' => if stable then mret data else wait_identity n'
  end.

(** The identity command sent to the interfaces that still show a NOP. *)
Definition identity_packet (nr_cis : Z) (data : list Z) : list Z :=
  for_up nr_cis (fun each_slice data =>
    if Z.shiftr data.[each_slice] 56 &&& 0xFF =? 0xFF then data.[each_slice := CI_IDENTITY]
    else data.[each_slice := CI_EMPTY]) data.

Definition color_from_answers (nr_cis : Z) (data : list Z) (c : Z) : Z :=
  for_up nr_cis (fun each_slice c =>
    let expected_color := popcount (color_bits data.[each_slice]) <=? 3 in
    if negb expected_color then u8 (c &&& not64 (Z.shiftl 1 each_slice))
    else u8 (c ||| Z.shiftl 1 each_slice)) c.

Definition ci_get_color (ret_data : option (list Z)) : W D (option (list Z)) :=
  dummy ← wait_stable (Z.to_nat (TIMEOUT_COLOR - 1)) false;
  data ← ci_update_commands into_local;
  r ← get_rank;
  let ret := option_map (fun ret_data =>
    for_up (nr_cis_of r) (fun i ret => ret.[i := u32 data.[i]]) ret_data) ret_data in
  data ← (if dummy : bool then
      _ ← ci_commit_commands (identity_packet (nr_cis_of r) data);
      wait_identity (Z.to_nat (TIMEOUT_COLOR - 1))
    else mret data);
  _ ← on_rank (fun r =>
    set_ci (set_color (color_from_answers (nr_cis_of r) data (color (ci r))) (ci r)) r);
  mret ret.
End Protocol.

(** ** What a packet exchange leaves alone *)

(** The two ranks differ at most in the colour, the fault bits, the answers
    and the command log. *)
Record same_config (r r' : rank) : Prop := {
  sc_type : rank_type r' = rank_type r;
  sc_desc : desc r' = desc r;
  sc_slices : slice_infos (ci r') = slice_infos (ci r);
  sc_run : run r' = run r;
  sc_logd : logd_enabled r' = logd_enabled r;
  sc_dpus : dpus r' = dpus r;
  sc_nr : nr_dpus_enabled r' = nr_dpus_enabled r;
  sc_cmds : cmds r' = cmds r;
}.

#[export] Instance same_config_preorder : PreOrder same_config.
Proof.
  split; [by intros r; split|].
  intros r1 r2 r3 [] []. split; by etrans.
Qed.

(** A backend that also records the packets it was given and the answers it
    gave. *)
Inductive event :=
  | Commit (commands : list Z)
  | Update (answers : list Z).

#[export] Instance traced_handler {D} `{!RankHandler D} : RankHandler (D * list event) := {
  commit_commands d commands :=
    let '(d', status) := commit_commands (fst d) commands in
    ((d', snd d ++ [Commit commands]), status);
  update_commands d :=
    let '(d', (answers, status)) := update_commands (fst d) in
    ((d', snd d ++ [Update answers]), (answers, status));
}.

(** The events added between two states. *)
Definition trace_of {D} (w : world (D * list event)) : list event := snd (dev w).
Definition updates (t : list event) : list (list Z) :=
  omap (fun e => match e with Update a => Some a | _ => None end) t.
Definition commits (t : list event) : list (list Z) :=
  omap (fun e => match e with Commit c => Some c | _ => None end) t.

(** ** Lemmas on packets *)

Lemma getz_ci_prepare_mask buffer mask data i :
  lenz buffer = DPU_MAX_NR_CIS -> 0 <= i < DPU_MAX_NR_CIS ->
  (ci_prepare_mask buffer mask data).[i] = if CI_MASK_ON mask i then data else CI_EMPTY.
Proof.
  intros Hlen Hi. unfold ci_prepare_mask.
  set (body := fun _ _ => _).
  pose (P := fun (k : Z) (b : list Z) => lenz b = DPU_MAX_NR_CIS /\
    forall j, 0 <= j < k -> b.[j] = if CI_MASK_ON mask j then data else CI_EMPTY).
  cut (P DPU_MAX_NR_CIS (for_up DPU_MAX_NR_CIS body buffer)).
  { intros [_ HP]. by apply HP. }
  unfold DPU_MAX_NR_CIS in *.
  apply for_up_ind; [lia|split; [done|lia]|].
  intros k b Hk [Hb HP]. unfold body. split.
  - destruct (CI_MASK_ON mask k); by rewrite lenz_setz.
  - intros j Hj. destruct (CI_MASK_ON mask k) eqn:Hon;
      rewrite getz_setz by lia; case_decide; subst; rewrite ?Hon; try done;
      apply HP; lia.
Qed.

Lemma lenz_ci_prepare_mask buffer mask data :
  lenz (ci_prepare_mask buffer mask data) = lenz buffer.
Proof.
  unfold ci_prepare_mask. apply (for_up_ind (fun _ b => lenz b = lenz buffer)).
  - by unfold DPU_MAX_NR_CIS.
  - done.
  - intros i b _ Hb. case_bool; by rewrite lenz_setz.
Qed.

Lemma compute_masks_step_ci_mask r commands add i m m' :
  compute_masks_step r commands add i m = Ok m' ->
  cm_ci_mask m' =
    if negb (commands.[i] =? CI_EMPTY) then u8 (cm_ci_mask m ||| Z.shiftl 1 i)
    else cm_ci_mask m.
Proof.
  unfold compute_masks_step. case_bool; [|by intros [= <-]].
  destruct add; [|by intros [= <-]].
  destruct (ci_fill_selected_dpu_mask r i); [by intros [= <-]|done].
Qed.

Lemma compute_masks_ci_mask r commands add m :
  compute_masks r commands add = Ok m -> cm_ci_mask m = compute_ci_mask r commands.
Proof.
  unfold compute_masks, compute_ci_mask, for_up.
  enough (forall l m0, fold_result (compute_masks_step r commands add) l m0 = Ok m ->
    cm_ci_mask m = foldl (fun c i => if negb (commands.[i] =? CI_EMPTY)
      then u8 (c ||| Z.shiftl 1 i) else c) (cm_ci_mask m0) l) as Hgen by apply Hgen.
  induction l as [|i l IH]; simpl; intros m0 Hm.
  { by injection Hm as ->. }
  destruct (compute_masks_step r commands add i m0) as [m1|e] eqn:H1; [|done].
  rewrite (IH m1 Hm). f_equal. by apply compute_masks_step_ci_mask in H1.
Qed.

(** ** Lemmas on the exchanges *)

Lemma while_true_ind {A S} (P : S -> Prop) (body : A -> S -> bool * S) l s :
  P s -> (forall a s, a ∈ l -> P s -> P (snd (body a s))) -> P (snd (while_true body l s)).
Proof.
  revert s. induction l as [|a l IH]; intros s Hs Hbody; simpl; [done|].
  pose proof (Hbody a s ltac:(constructor) Hs) as Ha.
  destruct (body a s) as [[] s']; [|done].
  apply IH; [done|]. intros b s'' Hb. apply Hbody. by constructor.
Qed.

Lemma command_is_finished_frame data m ec i s :
  color (snd (snd (command_is_finished data m ec i s))) = color (snd s) /\
  slice_infos (snd (snd (command_is_finished data m ec i s))) = slice_infos (snd s).
Proof.
  destruct s as [is_done context]. unfold command_is_finished.
  repeat (case_bool; try done).
Qed.

Lemma determine_frame r data m ec is_done :
  let '(_, (_, context)) := determine_if_commands_are_finished r data m ec is_done in
  color context = color (ci r) /\ slice_infos context = slice_infos (ci r).
Proof.
  pose proof (while_true_ind
    (fun s => color (snd s) = color (ci r) /\ slice_infos (snd s) = slice_infos (ci r))
    (command_is_finished data m ec) (seqZ 0 (nr_cis_of r)) (is_done, ci r)) as H.
  unfold determine_if_commands_are_finished.
  destruct (while_true _ _ _) as [b [done' context]]. apply H; [done|].
  intros i s _ [Hc Hs]. pose proof (command_is_finished_frame data m ec i s) as [-> ->]. done.
Qed.

Lemma same_config_record dir commands r : same_config r (debug_record_last_cmd dir commands r).
Proof. unfold debug_record_last_cmd. case_bool; by split. Qed.

Lemma same_config_ctx r c : slice_infos c = slice_infos (ci r) -> same_config r (set_ci c r).
Proof. intros Hs. by split. Qed.

Lemma color_record dir commands r : ci (debug_record_last_cmd dir commands r) = ci r.
Proof. unfold debug_record_last_cmd. by case_bool. Qed.
#[export] Hint Resolve same_config_record same_config_ctx : dpu.
#[export] Hint Rewrite color_record : dpu_rw.

Section Exchange.
Context {D : Type} `{!RankHandler D}.
Implicit Types w : world D.

Lemma ci_commit_commands_eq commands w :
  ci_commit_commands commands w =
    (mk_world (debug_record_last_cmd WRITE_DIR commands (rk w))
       (fst (commit_commands (dev w) commands)),
     if decide (snd (commit_commands (dev w) commands) = DPU_RANK_SUCCESS)
     then Ok tt else Err DPU_ERR_DRIVER).
Proof.
  unfold ci_commit_commands, mbind, C_bind, on_rank, modify, get, set_dev. simpl.
  destruct (commit_commands (dev w) commands) as [d status]; simpl.
  by case_decide.
Qed.

Lemma ci_update_commands_eq store w :
  ci_update_commands store w =
    let '(d, (answers, status)) := update_commands (dev w) in
    if decide (status = DPU_RANK_SUCCESS)
    then (mk_world (debug_record_last_cmd READ_DIR answers (store answers (rk w))) d, Ok answers)
    else (mk_world (store answers (rk w)) d, Err DPU_ERR_DRIVER).
Proof.
  unfold ci_update_commands, mbind, C_bind, on_rank, modify, get, set_dev. simpl.
  destruct (update_commands (dev w)) as [d [answers status]]; simpl.
  by case_decide.
Qed.

(** The state after one poll whose answers are [answers]. *)
Definition polled (m : cmd_masks) (ec : Z) (is_done : list bool) (answers : list Z) (d : D) w
    : bool * (list bool * world D) :=
  let r := debug_record_last_cmd READ_DIR answers (set_data answers (rk w)) in
  let '(finished, (is_done, context)) :=
    determine_if_commands_are_finished r answers m ec is_done in
  (finished, (is_done, mk_world (set_ci context r) d)).

(** The rule of the polling loop: [n] further polls are allowed. *)
Lemma wp_poll_commands (I : nat -> list bool -> world D -> Prop)
    (Q : result unit -> world D -> Prop) m ec n is_done w :
  I n is_done w ->
  (forall n is_done w, I n is_done w ->
    let '(d, (answers, status)) := update_commands (dev w) in
    if decide (status = DPU_RANK_SUCCESS) then
      let '(finished, (is_done', w')) := polled m ec is_done answers d w in
      if finished then Q (Ok tt) w'
      else match n with O => Q (Err DPU_ERR_TIMEOUT) w' | S n' => I n' is_done' w' end
    else Q (Err DPU_ERR_DRIVER) (mk_world (set_data answers (rk w)) d)) ->
  wp (poll_commands n m ec is_done) Q w.
Proof.
  intros HI Hstep. revert is_done w HI.
  induction n as [|n IH]; intros is_done w HI;
    specialize (Hstep _ _ _ HI) as Hs; revert Hs; unfold wp;
    cbn [poll_commands]; unfold mbind, C_bind; rewrite ci_update_commands_eq; unfold polled;
    destruct (update_commands (dev w)) as [d [answers status]];
    (case_decide; [|by intros HQ]); cbn [get_rank gets rk dev into_data];
    unfold gets, into_data; cbn [rk dev];
    destruct (determine_if_commands_are_finished _ _ _ _ _) as [[] [is_done' context]];
    intros HQ; try exact HQ.
  apply (IH _ _ HQ).
Qed.

(** What holds of the device after the commit and is kept by polling holds
    when the loop ends well; the loop keeps the configuration and the colour. *)
Lemma wp_poll_frame (P : D -> Prop) m ec n is_done w :
  (forall d, P d -> P (fst (update_commands d))) -> P (dev w) ->
  wp (poll_commands n m ec is_done)
    (fun res w' => same_config (rk w) (rk w') /\ color (ci (rk w')) = color (ci (rk w)) /\
                   P (dev w')) w.
Proof.
  intros Hupd HP.
  apply (wp_poll_commands (fun _ _ w' => same_config (rk w) (rk w') /\
    color (ci (rk w')) = color (ci (rk w)) /\ P (dev w'))); [done|].
  clear n is_done. intros n is_done w1 (Hsc & Hcol & HP1).
  apply Hupd in HP1.
  destruct (update_commands (dev w1)) as [d [answers status]].
  case_decide; [|by split; [etrans; [done|by split]|]].
  unfold polled. set (r := debug_record_last_cmd _ _ _).
  pose proof (determine_frame r answers m ec is_done) as Hd.
  destruct (determine_if_commands_are_finished _ _ _ _ _) as [b [is_done' context]].
  destruct Hd as [Hc Hs].
  enough (same_config (rk w) (set_ci context r) /\ color context = color (ci (rk w)) /\ P d)
    by (destruct b; [done|by destruct n]).
  split; [|split; [|done]].
  - etrans; [exact Hsc|]. etrans; [|by apply same_config_ctx].
    unfold r. etrans; [|apply same_config_record]. by split.
  - rewrite Hc. unfold r. by rewrite color_record.
Qed.

Lemma wp_update_frame (P : D -> Prop) w :
  (forall d, P d -> P (fst (update_commands d))) -> P (dev w) ->
  wp (ci_update_commands into_data)
    (fun res w' => same_config (rk w) (rk w') /\ color (ci (rk w')) = color (ci (rk w)) /\
                   P (dev w')) w.
Proof.
  intros Hupd HP. apply Hupd in HP. unfold wp. rewrite ci_update_commands_eq.
  destruct (update_commands (dev w)) as [d [answers status]].
  case_decide; simpl; [|by split; [by split|]].
  split; [|by rewrite color_record].
  etrans; [|apply same_config_record]. by split.
Qed.

Definition exec_cmd_post (P : D -> Prop) (commands : list Z) (add : bool) w
    (res : result unit) (w' : world D) : Prop :=
  same_config (rk w) (rk w') /\
  (is_ok (compute_masks (rk w) commands add) = false /\ w' = w \/
   color (ci (rk w')) = color (ci (rk w)) ^^^ compute_ci_mask (rk w) commands) /\
  (res = Ok tt -> P (dev w')).

Lemma wp_exec_cmd (P : D -> Prop) commands add w :
  (forall d, P d -> P (fst (update_commands d))) ->
  (snd (commit_commands (dev w) commands) = DPU_RANK_SUCCESS ->
     P (fst (commit_commands (dev w) commands))) ->
  wp (exec_cmd commands add) (exec_cmd_post P commands add w) w.
Proof.
  intros Hupd Hcommit. unfold exec_cmd, exec_cmd_post, get_rank.
  wp_step. apply wp_gets. cbv beta iota.
  destruct (compute_masks _ _ _) as [m|e] eqn:Hm; [|apply wp_fail; split; [done|split; [by left|done]]].
  rewrite <-(compute_masks_ci_mask _ _ _ _ Hm).
  wp_step. apply wp_modify. cbv beta iota. cbn [rk dev].
  wp_step. unfold wp at 1. rewrite ci_commit_commands_eq. cbn [rk dev fst snd].
  set (r1 := debug_record_last_cmd _ _ _).
  assert (same_config (rk w) r1) as H1 by (etrans; [|apply same_config_record]; by split).
  assert (color (ci r1) = color (ci (rk w)) ^^^ cm_ci_mask m) as Hc1
    by (unfold r1; by rewrite color_record).
  case_decide as Hst; [|split; [done|split; [by right|done]]].
  specialize (Hcommit Hst).
  wp_step. eapply wp_mono; [by apply (wp_poll_frame P)|]. cbn [rk dev].
  intros [[]|e] w2 (H2 & Hc2 & HP2); [|split; [by etrans|split; [right; congruence|done]]].
  case_bool.
  - wp_step. eapply wp_mono; [by apply (wp_update_frame P)|].
    intros [a|e] w3 (H3 & Hc3 & HP3); [apply wp_ret|];
      (split; [etrans; [exact H1|etrans; [exact H2|exact H3]]|split; [right; congruence|done]]).
  - apply wp_ret. split; [by etrans|split; [right; congruence|done]].
Qed.
End Exchange.

(** ** Answers *)

(** The answer of one interface is accepted: the result is ready and its
    colour is not that of the previous command. *)
Definition answered (m : cmd_masks) (expected_color each_ci word : Z) : Prop :=
  result_ready m each_ci word = true /\
  if negb (expected_color &&& u8 (Z.shiftl 1 each_ci) =? 0)
  then 4 <= popcount (color_bits word) else popcount (color_bits word) <= 4.

Lemma command_is_finished_done data m ec i s :
  lenz (fst s) = 8 -> 0 <= i < 8 ->
  let '(b, (is_done', _)) := command_is_finished data m ec i s in
  lenz is_done' = 8 /\ (b = true -> is_done'.[i] = true) /\
  (forall j, 0 <= j < 8 -> is_done'.[j] = true ->
     (fst s).[j] = true \/ answered m ec j data.[j]) /\
  (forall j, 0 <= j < 8 -> (fst s).[j] = true -> is_done'.[j] = true).
Proof.
  destruct s as [is_done context]. cbn [fst snd]. intros Hlen Hi. unfold command_is_finished.
  destruct (is_done.[i]) eqn:Hdone; [by split_and!; auto|].
  destruct (result_ready m i data.[i]) eqn:Hready; cbn [negb]; [|by split_and!; auto].
  set (far := if negb (ec &&& u8 (Z.shiftl 1 i) =? 0) then _ else _).
  destruct far eqn:Hfar; [by split_and!; auto|].
  assert (forall j, 0 <= j < 8 -> is_done.[i := true].[j] = true ->
    is_done.[j] = true \/ answered m ec j data.[j]) as Hans.
  { intros j Hj. rewrite getz_setz by lia. case_decide; [|by left]. subst j. intros _. right.
    split; [done|]. revert Hfar. unfold far. generalize (popcount (color_bits data.[i])).
    clear. intros p. case_bool; intros Hfar; zb2p; lia. }
  assert (forall j, 0 <= j < 8 -> is_done.[j] = true -> is_done.[i := true].[j] = true) as Hmono.
  { intros j Hj Hd. rewrite getz_setz by lia. by case_decide. }
  assert (is_done.[i := true].[i] = true) as Hset by (rewrite getz_setz_eq; [done|lia]).
  clearbody far. repeat (case_bool; [by rewrite lenz_setz; auto|]).
  rewrite lenz_setz; auto.
Qed.

Lemma while_true_done data m ec l s :
  lenz (fst s) = 8 -> (forall i, i ∈ l -> 0 <= i < 8) ->
  let '(b, (is_done', _)) := while_true (command_is_finished data m ec) l s in
  lenz is_done' = 8 /\ (b = true -> forall i, i ∈ l -> is_done'.[i] = true) /\
  (forall j, 0 <= j < 8 -> is_done'.[j] = true ->
     (fst s).[j] = true \/ answered m ec j data.[j]) /\
  (forall j, 0 <= j < 8 -> (fst s).[j] = true -> is_done'.[j] = true).
Proof.
  revert s. induction l as [|i l IH]; intros s Hlen Hl.
  { destruct s as [d c]. simpl. split_and!; [done|by intros _ i ?%elem_of_nil|auto|auto]. }
  pose proof (command_is_finished_done data m ec i s Hlen ltac:(apply Hl; constructor)) as H1.
  simpl. destruct (command_is_finished data m ec i s) as [[] [d1 c1]];
    destruct H1 as (Hl1 & Hb & Ha & Hm); [|by split_and!].
  pose proof (IH (d1, c1) Hl1 ltac:(intros k Hk; apply Hl; by constructor)) as H2.
  destruct (while_true _ _ _) as [b [d2 c2]]. simpl in *.
  destruct H2 as (Hl2 & Hb2 & Ha2 & Hm2). split_and!; [done| | |auto].
  2: { intros j Hj Hd. destruct (Ha2 j Hj Hd) as [Hd1|]; [by apply Ha|by right]. }
  intros Ht k [->|Hk]%elem_of_cons; [|by apply Hb2].
  apply Hm2; [apply Hl; constructor|by apply Hb].
Qed.

Lemma determine_done r data m ec is_done :
  0 <= nr_cis_of r <= 8 -> lenz is_done = 8 ->
  let '(b, (is_done', _)) := determine_if_commands_are_finished r data m ec is_done in
  lenz is_done' = 8 /\ (b = true -> forall i, 0 <= i < nr_cis_of r -> is_done'.[i] = true) /\
  (forall j, 0 <= j < 8 -> is_done'.[j] = true ->
     is_done.[j] = true \/ answered m ec j data.[j]).
Proof.
  intros Hn Hlen. unfold determine_if_commands_are_finished.
  pose proof (while_true_done data m ec (seqZ 0 (nr_cis_of r)) (is_done, ci r) Hlen) as H.
  destruct (while_true _ _ _) as [b [d c]]. simpl in H.
  destruct H as (Hl & Hb & Ha & _); [intros i ?%elem_of_seqZ; lia|].
  split_and!; [done| |done]. intros Ht i Hi. apply Hb; [done|]. apply elem_of_seqZ. lia.
Qed.

Lemma compute_masks_done r commands add m :
  0 <= nr_cis_of r <= 8 -> compute_masks r commands add = Ok m ->
  lenz (cm_is_done m) = 8 /\
  forall i, 0 <= i < 8 -> (cm_is_done m).[i] = true -> commands.[i] = CI_EMPTY.
Proof.
  intros Hn. unfold compute_masks.
  enough (forall l m0, (forall i, i ∈ l -> 0 <= i < 8) ->
    fold_result (compute_masks_step r commands add) l m0 = Ok m ->
    lenz (cm_is_done m0) = 8 /\
      (forall i, 0 <= i < 8 -> (cm_is_done m0).[i] = true -> commands.[i] = CI_EMPTY) ->
    lenz (cm_is_done m) = 8 /\
      forall i, 0 <= i < 8 -> (cm_is_done m).[i] = true -> commands.[i] = CI_EMPTY) as Hgen.
  { intros Hm. refine (Hgen _ _ _ Hm _); [intros i ?%elem_of_seqZ; lia|]. split; [done|]. by_eval. }
  induction l as [|i l IH]; simpl; intros m0 Hl Hm H0; [by injection Hm as <-|].
  destruct (compute_masks_step r commands add i m0) as [m1|e] eqn:H1; [|done].
  apply (IH m1); [intros k Hk; apply Hl; by constructor|done|]. clear IH Hm.
  revert H1. unfold compute_masks_step. case_bool.
  { destruct add; [|by intros [= <-]].
    destruct (ci_fill_selected_dpu_mask r i); [by intros [= <-]|done]. }
  intros [= <-]. simpl. rewrite lenz_setz. destruct H0 as [Hlen H0]. split; [done|].
  assert (0 <= i < 8) by (apply Hl; constructor).
  intros j Hj. rewrite getz_setz by lia. case_decide; [|by apply H0]. subst j. intros _. by zb2p.
Qed.

(** ** The trace of a command *)

Section Trace.
Context {D : Type} `{!RankHandler D}.
Implicit Types w : world (D * list event).

(** The loop after [us] polls: [n] more polls are allowed after the next. *)
Record polling (w0 : world (D * list event)) (m : cmd_masks) (ec : Z)
    (n : nat) (is_done : list bool) (us : list (list Z)) w : Prop := {
  po_same : same_config (rk w0) (rk w);
  po_trace : trace_of w = trace_of w0 ++ map Update us;
  po_len : (length us + n = NB_RETRY_FOR_VALID_RESULT)%nat;
  po_done_len : lenz is_done = 8;
  po_done : forall i, 0 <= i < 8 -> is_done.[i] = true ->
    (cm_is_done m).[i] = true \/ exists answers, answers ∈ us /\ answered m ec i answers.[i];
}.

(** What the loop leaves behind. *)
Definition polled_post (w0 : world (D * list event)) (m : cmd_masks) (ec : Z)
    (res : result unit) (w : world (D * list event)) : Prop :=
  same_config (rk w0) (rk w) /\
  exists us, trace_of w = trace_of w0 ++ map Update us /\
    (1 <= length us <= S NB_RETRY_FOR_VALID_RESULT)%nat /\
    (res = Err DPU_ERR_TIMEOUT -> length us = S NB_RETRY_FOR_VALID_RESULT) /\
    (res = Ok tt -> forall i, 0 <= i < nr_cis_of (rk w0) -> (cm_is_done m).[i] = false ->
       exists answers, answers ∈ us /\ answered m ec i answers.[i]).

Lemma trace_snoc (t : list event) us u : (t ++ map Update us) ++ [Update u] = t ++ map Update (us ++ [u]).
Proof. by rewrite map_app, app_assoc. Qed.

Lemma wp_poll_trace m ec w :
  0 <= nr_cis_of (rk w) <= 8 -> lenz (cm_is_done m) = 8 ->
  wp (poll_commands NB_RETRY_FOR_VALID_RESULT m ec (cm_is_done m)) (polled_post w m ec) w.
Proof.
  intros Hn Hlen.
  apply (wp_poll_commands (fun n is_done w' => exists us, polling w m ec n is_done us w')).
  { exists []. split; [done|by rewrite app_nil_r|done|done|by left]. }
  intros n is_done w1 [us [Hsc Htr Hus Hdl Hdone]].
  unfold trace_of in *. cbn [update_commands traced_handler].
  destruct (update_commands (fst (dev w1))) as [d [answers status]].
  assert (length (us ++ [answers]) = S (length us)) as Hlu by (rewrite length_app; simpl; lia).
  case_decide.
  2: { split; [etrans; [exact Hsc|by split]|]. exists (us ++ [answers]). simpl.
       rewrite Htr, trace_snoc, Hlu. split_and!; [done|lia|lia|done|done]. }
  unfold polled. set (r := debug_record_last_cmd _ _ _).
  assert (same_config (rk w) r) as Hr.
  { unfold r. etrans; [exact Hsc|]. etrans; [|apply same_config_record]. by split. }
  assert (nr_cis_of r = nr_cis_of (rk w)) as Hnr by (unfold nr_cis_of; by rewrite (sc_desc _ _ Hr)).
  pose proof (determine_frame r answers m ec is_done) as Hf.
  pose proof (determine_done r answers m ec is_done ltac:(by rewrite Hnr) Hdl) as Hd.
  destruct (determine_if_commands_are_finished _ _ _ _ _) as [b [is_done' context]].
  destruct Hf as [_ Hs]. destruct Hd as (Hdl' & Hb & Hans). rewrite Hnr in Hb.
  assert (same_config (rk w) (set_ci context r)) as Hr' by (etrans; [done|by apply same_config_ctx]).
  assert (forall i, 0 <= i < 8 -> is_done'.[i] = true -> (cm_is_done m).[i] = true \/
    exists a, a ∈ us ++ [answers] /\ answered m ec i a.[i]) as Hdone'.
  { intros i Hi Hdi. destruct (Hans i Hi Hdi) as [Hold|Hnew].
    - destruct (Hdone i Hi Hold) as [|(a & Ha & ?)]; [by left|right].
      exists a. split; [apply elem_of_app; by left|done].
    - right. exists answers. split; [apply elem_of_app; right; constructor|done]. }
  destruct b; [|destruct n as [|n]].
  - split; [done|]. exists (us ++ [answers]). simpl. rewrite Htr, trace_snoc, Hlu.
    split_and!; [done|lia|lia|done|]. intros _ i Hi Hnd.
    destruct (Hdone' i ltac:(lia) (Hb eq_refl i Hi)) as [He|]; [congruence|done].
  - split; [done|]. exists (us ++ [answers]). simpl. rewrite Htr, trace_snoc, Hlu.
    split_and!; [done|lia|lia|lia|done].
  - exists (us ++ [answers]). split; [done| |lia|done|done]. simpl. by rewrite Htr, trace_snoc.
Qed.

(** The outcome of a command whose masks are [m]. *)
Definition command_post (commands : list Z) (w0 : world (D * list event)) (m : cmd_masks)
    (res : result unit) (w : world (D * list event)) : Prop :=
  exists us, trace_of w = trace_of w0 ++ Commit commands :: map Update us /\
    (length us <= S (S NB_RETRY_FOR_VALID_RESULT))%nat /\
    (res = Err DPU_ERR_TIMEOUT -> length us = S NB_RETRY_FOR_VALID_RESULT) /\
    (res = Ok tt ->
     forall i, 0 <= i < nr_cis_of (rk w0) -> commands.[i] <> CI_EMPTY ->
       exists answers, answers ∈ us /\
         answered m (color (ci (rk w0)) &&& cm_ci_mask m) i answers.[i]).

Lemma wp_exec_cmd_trace commands add m w :
  0 <= nr_cis_of (rk w) <= 8 -> compute_masks (rk w) commands add = Ok m ->
  wp (exec_cmd commands add) (command_post commands w m) w.
Proof.
  intros Hn Hm. destruct (compute_masks_done _ _ _ _ Hn Hm) as [Hdl Hempty].
  unfold exec_cmd, get_rank. wp_step. apply wp_gets. rewrite Hm. cbv beta iota zeta.
  set (ec := color (ci (rk w)) &&& cm_ci_mask m).
  wp_step. apply wp_modify. cbn [rk dev].
  wp_step. unfold wp at 1. rewrite ci_commit_commands_eq. cbn [rk dev fst snd].
  set (w1 := mk_world (debug_record_last_cmd _ _ _) _).
  assert (same_config (rk w) (rk w1)) as H1 by (etrans; [|apply same_config_record]; by split).
  assert (trace_of w1 = trace_of w ++ [Commit commands]) as Ht1.
  { unfold w1, trace_of. cbn [dev commit_commands traced_handler].
    by destruct (commit_commands (fst (dev w)) commands). }
  assert (nr_cis_of (rk w1) = nr_cis_of (rk w)) as Hn1
    by (unfold nr_cis_of; by rewrite (sc_desc _ _ H1)).
  case_decide.
  2: { exists []. rewrite Ht1. simpl. split_and!; [done|lia|done|done]. }
  wp_step. eapply wp_mono; [apply wp_poll_trace; [by rewrite Hn1|done]|].
  intros res w2 (H2 & us & Ht2 & Hl & Hto & Hok). rewrite Hn1 in Hok.
  assert (trace_of w2 = trace_of w ++ Commit commands :: map Update us) as Ht
    by (rewrite Ht2, Ht1, <-app_assoc; done).
  assert (res = Ok tt -> forall i, 0 <= i < nr_cis_of (rk w) -> commands.[i] <> CI_EMPTY ->
    exists answers, answers ∈ us /\ answered m ec i answers.[i]) as Hok'.
  { intros Hr i Hi Hc. apply Hok; [done|done|]. apply not_true_is_false. intros Hd. apply Hc.
    apply Hempty; [lia|done]. }
  destruct res as [[]|e]; [|exists us; split_and!; [done|lia|auto|done]].
  case_bool; [|apply wp_ret; exists us; split_and!; [done|lia|done|auto]].
  wp_step. unfold wp. rewrite ci_update_commands_eq. unfold trace_of in *.
  cbn [update_commands traced_handler].
  destruct (update_commands (fst (dev w2))) as [d [answers status]].
  assert (snd (dev w2) ++ [Update answers] =
    snd (dev w) ++ Commit commands :: map Update (us ++ [answers])) as Ht3
    by (rewrite Ht, map_app, <-app_assoc; done).
  assert (length (us ++ [answers]) = S (length us)) as Hlu by (rewrite length_app; simpl; lia).
  case_decide; [apply wp_ret|]; exists (us ++ [answers]); rewrite Hlu;
    (split_and!; [done|lia|done|try done]).
  intros _ i Hi Hc. destruct (Hok' eq_refl i Hi Hc) as (a & Ha & Hans).
  exists a. split; [apply elem_of_app; by left|done].
Qed.
End Trace.

(** ** Properties *)

(** C19: a command is committed exactly once, then the answers are read at most
    102 times; a timeout is reported after exactly 101 reads. When the masks
    cannot be computed nothing is sent. *)
Theorem exec_cmd_trace {D} `{!RankHandler D} commands add (w : world (D * list event)) :
  0 <= nr_cis_of (rk w) <= 8 ->
  let '(w', res) := exec_cmd commands add w in
  match compute_masks (rk w) commands add with
  | Err e => res = Err e /\ w' = w
  | Ok _ => exists us, trace_of w' = trace_of w ++ Commit commands :: map Update us /\
      (length us <= 102)%nat /\ (res = Err DPU_ERR_TIMEOUT -> length us = 101%nat)
  end.
Proof.
  intros Hn. destruct (compute_masks (rk w) commands add) as [m|e] eqn:Hm.
  - pose proof (wp_exec_cmd_trace commands add m w Hn Hm) as H. unfold wp in H.
    destruct (exec_cmd commands add w) as [w' res].
    destruct H as (us & Ht & Hl & Hto & _). by exists us.
  - unfold exec_cmd, mbind, C_bind, get_rank, gets. rewrite Hm. done.
Qed.

(** C23: when a command succeeds, every interface that was sent a word answered
    it in one of the packets read: the result bits under the mask were the
    expected ones (or the answer was a NOP), and the colour was not that of
    the previous command. *)
Theorem exec_cmd_ok_answered {D} `{!RankHandler D} commands add m (w w' : world (D * list event)) :
  0 <= nr_cis_of (rk w) <= 8 ->
  compute_masks (rk w) commands add = Ok m ->
  exec_cmd commands add w = (w', Ok tt) ->
  exists us, trace_of w' = trace_of w ++ Commit commands :: map Update us /\
    forall i, 0 <= i < nr_cis_of (rk w) -> commands.[i] <> CI_EMPTY ->
      exists answers, answers ∈ us /\
        answered m (color (ci (rk w)) &&& cm_ci_mask m) i answers.[i].
Proof.
  intros Hn Hm Hexec. pose proof (wp_exec_cmd_trace commands add m w Hn Hm) as H.
  unfold wp in H. rewrite Hexec in H. destruct H as (us & Ht & _ & _ & Hok).
  exists us. split; [done|]. by apply Hok.
Qed.

(** whatever its outcome, a command whose masks can be computed inverts the
    expected colour of exactly the interfaces it was sent to, and leaves the
    selections, the cached structures, the DPUs, the command buffer and the
    run context alone. *)
Theorem exec_cmd_color {D} `{!RankHandler D} commands add (w : world D) :
  is_ok (compute_masks (rk w) commands add) = true ->
  let w' := fst (exec_cmd commands add w) in
  color (ci (rk w')) = color (ci (rk w)) ^^^ compute_ci_mask (rk w) commands /\
  same_config (rk w) (rk w').
Proof.
  intros Hok.
  destruct (wp_exec_cmd (fun _ => True) commands add w) as (Hsc & [[Hm _]|Hc] & _);
    [done..|congruence|done].
Qed.

(** *** The command log *)

(** The ring buffer: [nb] is the number of packets held. *)
Record wf_log (b : cmds_buffer) : Prop := {
  wl_size : 0 < cb_size b < 2 ^ 32;
  wl_len : lenz (cb_cmds b) = cb_size b;
  wl_idx : 0 <= cb_idx_last b < cb_size b;
  wl_nb : cb_nb b = if cb_has_wrapped b then cb_size b else cb_idx_last b;
}.

(** The packet that a recording stores. *)
Definition stored (nr_cis : Z) (dir : direction) (commands : list Z) (b : cmds_buffer)
    : command_record :=
  mk_command_record (copy_words (cr_data (cb_cmds b).[cb_idx_last b]) commands nr_cis) dir.

Lemma record_cmd_wf nr_cis dir commands b : wf_log b -> wf_log (record_cmd nr_cis dir commands b).
Proof.
  intros [Hs Hl Hi Hn]. unfold record_cmd. rewrite u32_id by (unfold fits; lia).
  assert (forall x, 0 <= x mod cb_size b < cb_size b) as Hmod
    by (intros x; apply Z.mod_pos_bound; lia).
  destruct (cb_has_wrapped b); simpl negb; cbv iota.
  { split; simpl; [done|by rewrite lenz_setz|apply Hmod|done]. }
  case_bool; zb2p; (split; simpl; [done|by rewrite lenz_setz|apply Hmod|]); [done|].
  rewrite u32_id by (unfold fits; lia). rewrite Z.mod_small; lia.
Qed.

(** the log always shows the packets exchanged last, oldest first: recording
    appends the packet, and drops the oldest one exactly when the ring is full. *)
Theorem record_cmd_log nr_cis dir commands b : wf_log b ->
  wf_log (record_cmd nr_cis dir commands b) /\
  logged_commands (record_cmd nr_cis dir commands b) =
    (if cb_nb b =? cb_size b then tail (logged_commands b) else logged_commands b)
      ++ [stored nr_cis dir commands b].
Proof.
  intros Hwf. split; [by apply record_cmd_wf|].
  pose proof (record_cmd_wf nr_cis dir commands b Hwf) as Hwf'.
  destruct Hwf as [Hs Hl Hi Hn].
  set (x := stored nr_cis dir commands b).
  assert (forall k, 0 <= k < cb_size b ->
    (cb_cmds b).[cb_idx_last b := x].[k] = if decide (cb_idx_last b = k) then x else (cb_cmds b).[k])
    as Hget by (intros k Hk; apply getz_setz; lia).
  revert Hwf'. unfold record_cmd, logged_commands. fold x.
  rewrite u32_id by (unfold fits; lia).
  destruct (cb_has_wrapped b); simpl negb; cbv iota.
  - (* the ring is full: the oldest packet is overwritten *)
    intros _. cbn. rewrite Hn, Z.eqb_refl.
    assert (lenz (tail (map (fun k => (cb_cmds b).[(cb_idx_last b + k) mod cb_size b])
      (seqZ 0 (cb_size b)))) = cb_size b - 1) as Hlt
      by (rewrite lenz_tail; rewrite lenz_map_seqZ; lia).
    apply snoc_eq; rewrite Hlt; [rewrite lenz_map_seqZ by lia; lia|..].
    + intros k Hk. rewrite getz_tail, !lookup_map_seqZ by lia.
      rewrite Zplus_mod_idemp_l, Hget by (apply Z.mod_pos_bound; lia).
      replace (cb_idx_last b + 1 + k) with (cb_idx_last b + (k + 1)) by lia.
      case_decide as He; [|done]. exfalso. revert He.
      destruct (decide (cb_idx_last b + (k + 1) < cb_size b));
        [rewrite Z.mod_small by lia; lia|].
      rewrite <-(Z.mod_add _ (-1)), Z.mod_small by lia. lia.
    + rewrite lookup_map_seqZ, Zplus_mod_idemp_l by lia.
      rewrite Hget by (apply Z.mod_pos_bound; lia).
      replace (cb_idx_last b + 1 + (cb_size b - 1)) with (cb_idx_last b + 1 * cb_size b) by lia.
      rewrite Z.mod_add, Z.mod_small by lia. by rewrite decide_True.
  - (* the ring is being filled *)
    rewrite Hn. replace (cb_idx_last b =? cb_size b) with false by (symmetry; apply Z.eqb_neq; lia).
    destruct (Z.leb_spec (cb_size b) (cb_idx_last b + 1)); intros _; cbn;
      [replace (cb_idx_last b + 1) with (cb_size b) by lia; rewrite Z.mod_same by lia
      |rewrite u32_id by (unfold fits; lia)].
    all: apply snoc_eq; rewrite !lenz_map_seqZ by lia; [lia| |];
      [intros k Hk; rewrite !lookup_map_seqZ, !Z.mod_small by lia; rewrite Hget by lia;
        by rewrite decide_False by lia
      |rewrite lookup_map_seqZ, Z.mod_small by lia; rewrite Hget by lia; by rewrite decide_True].
Qed.

(** *** Reset *)

Lemma slice_of_upd i j f r : 0 <= i < lenz (slice_infos (ci r)) -> 0 <= j ->
  slice_of (upd_slice i f r) j = if decide (i = j) then f (slice_of r i) else slice_of r j.
Proof. intros Hi Hj. unfold slice_of, upd_slice. cbn. by rewrite getz_setz. Qed.

Lemma lenz_upd_slice i f r : lenz (slice_infos (ci (upd_slice i f r))) = lenz (slice_infos (ci r)).
Proof. unfold upd_slice. cbn. apply lenz_setz. Qed.

(** Applying [f] to every slice, one after the other. *)
Lemma for_up_upd_slice n f r i :
  0 <= n <= lenz (slice_infos (ci r)) -> 0 <= i ->
  slice_of (for_up n (fun k => upd_slice k f) r) i =
    if decide (i < n) then f (slice_of r i) else slice_of r i.
Proof.
  intros Hn Hi.
  pose (P := fun k r' => lenz (slice_infos (ci r')) = lenz (slice_infos (ci r)) /\
    slice_of r' i = if decide (i < k) then f (slice_of r i) else slice_of r i).
  enough (P n (for_up n (fun k => upd_slice k f) r)) as [_ H] by done.
  apply for_up_ind; [lia| |].
  { split; [done|]. by rewrite decide_False by lia. }
  intros k r' Hk [Hl Hs]. split; [by rewrite lenz_upd_slice|].
  rewrite slice_of_upd by lia.
  destruct (decide (k = i)) as [->|].
  - rewrite Hs, decide_False by lia. by rewrite decide_True by lia.
  - rewrite Hs. repeat case_decide; try lia; done.
Qed.

Lemma for_up_upd_slice_frame n f r : 0 <= n ->
  let r' := for_up n (fun k => upd_slice k f) r in
  color (ci r') = color (ci r) /\ fault_decode (ci r') = fault_decode (ci r) /\
  fault_collide (ci r') = fault_collide (ci r).
Proof.
  intros Hn r'. subst r'. apply (for_up_ind (fun _ r' => color (ci r') = color (ci r) /\
    fault_decode (ci r') = fault_decode (ci r) /\ fault_collide (ci r') = fault_collide (ci r)));
    [done..|]. intros i r' _ H. exact H.
Qed.

(** The groups right after a reset: group 0 holds every DPU. *)
Definition reset_groups (nr_dpus : Z) : list Z := u8 (Z.shiftl 1 nr_dpus - 1) :: replicate 7 0.

Lemma reset_slice_groups nr_dpus info : lenz (dpus_per_group info) = DPU_MAX_NR_GROUPS ->
  st_type (slice_target_ (reset_slice nr_dpus info)) = DPU_SLICE_TARGET_NONE /\
  dpus_per_group (reset_slice nr_dpus info) = reset_groups nr_dpus /\
  enabled_dpus (reset_slice nr_dpus info) = enabled_dpus info /\
  structure_value (reset_slice nr_dpus info) = structure_value info.
Proof.
  destruct info as [bo sv t hm g en al]. unfold lenz, DPU_MAX_NR_GROUPS. simpl. intros Hl.
  assert (length g = 8%nat) as Hg by lia. clear Hl.
  do 9 (destruct g as [|? g]; try discriminate Hg). done.
Qed.

Lemma not8_land_testbit x y i : 0 <= i < 8 ->
  Z.testbit (x &&& not8 y) i = Z.testbit x i && negb (Z.testbit y i).
Proof. intros Hi. by rewrite Z.land_spec, not8_testbit. Qed.

(** Reading the answers over and over changes neither the configuration nor
    the control-interface context. *)
Lemma wp_update_local {D} `{!RankHandler D} (w : world D) :
  wp (ci_update_commands into_local) (fun _ w' => same_config (rk w) (rk w') /\ ci (rk w') = ci (rk w)) w.
Proof.
  unfold wp. rewrite ci_update_commands_eq.
  destruct (update_commands (dev w)) as [d [answers status]]. unfold into_local.
  case_decide; simpl; [|done]. by rewrite color_record; auto with dpu.
Qed.

(** after a successful reset the interfaces that were reset have colour 0
    and no fault, the others keep theirs; no interface has a selection any
    more, and every DPU is back in group 0. *)
Theorem ci_exec_reset_cmd_ok {D} `{!RankHandler D} commands (w w' : world D) :
  wf_rank (rk w) -> ci_exec_reset_cmd commands w = (w', Ok tt) ->
  let reset_mask := compute_ci_mask (rk w) commands in
  (forall i, 0 <= i < 8 ->
     Z.testbit (color (ci (rk w'))) i =
       negb (Z.testbit reset_mask i) && Z.testbit (color (ci (rk w))) i /\
     Z.testbit (fault_decode (ci (rk w'))) i =
       negb (Z.testbit reset_mask i) && Z.testbit (fault_decode (ci (rk w))) i /\
     Z.testbit (fault_collide (ci (rk w'))) i =
       negb (Z.testbit reset_mask i) && Z.testbit (fault_collide (ci (rk w))) i) /\
  (forall i, 0 <= i < DPU_MAX_NR_CIS ->
     st_type (slice_target_ (slice_of (rk w') i)) = DPU_SLICE_TARGET_NONE /\
     dpus_per_group (slice_of (rk w') i) = reset_groups (nr_dpus_of (rk w)) /\
     enabled_dpus (slice_of (rk w') i) = enabled_dpus (slice_of (rk w) i)).
Proof.
  intros Hwf Hexec reset_mask.
  pose (Q := fun (res : result unit) (w' : world D) => res = Ok tt -> exists c r,
    ci r = set_color (color (ci (rk w)) ^^^ reset_mask) (ci (rk w)) /\
    same_config (rk w) r /\
    c = set_fault_decode (fault_decode (ci r) &&& not8 reset_mask)
          (set_fault_collide (fault_collide (ci r) &&& not8 reset_mask)
          (set_color (color (ci r) &&& not8 reset_mask) (ci r))) /\
    rk w' = for_up DPU_MAX_NR_CIS
      (fun each_ci => upd_slice each_ci (reset_slice (nr_dpus_of (rk w)))) (set_ci c r)).
  assert (wp (ci_exec_reset_cmd commands) Q w) as HQ.
  { unfold ci_exec_reset_cmd, get_rank. wp_step. apply wp_gets. cbv zeta. fold reset_mask.
    wp_step. apply wp_modify. wp_step. unfold wp at 1. rewrite ci_commit_commands_eq. cbn [rk dev fst snd].
    set (w1 := mk_world _ _).
    assert (ci (rk w1) = set_color (color (ci (rk w)) ^^^ reset_mask) (ci (rk w))) as Hc1
      by (unfold w1; cbn; by rewrite color_record).
    assert (same_config (rk w) (rk w1)) as H1 by (etrans; [|apply same_config_record]; by split).
    case_decide; [|done]. wp_step.
    eapply wp_mono; [apply (wp_mfor (fun _ _ w2 => same_config (rk w1) (rk w2) /\ ci (rk w2) = ci (rk w1))
      (fun _ _ => True))|].
    - apply u32_fits.
    - done.
    - intros i a w2 Hi [H2 Hc2]. wp_step. eapply wp_mono; [apply wp_update_local|].
      intros [b|e] w3 [H3 Hc3]; [|done]. apply wp_ret. split; [by etrans|congruence].
    - intros [[]|e] w2; [|done]. intros [H2 Hc2]. wp_step. apply wp_modify. apply wp_modify.
      intros _. eexists _, (rk w2). split_and!; [congruence|by etrans|reflexivity|].
      cbn [rk]. unfold nr_dpus_of. cbn. by rewrite (sc_desc _ _ H2), (sc_desc _ _ H1). }
  unfold wp in HQ. rewrite Hexec in HQ. cbn [fst snd] in HQ. destruct (HQ eq_refl) as (c & r & Hc & Hsc & Hcc & Hr).
  assert (slice_infos c = slice_infos (ci (rk w))) as Hsl by (rewrite Hcc; cbn; apply (sc_slices _ _ Hsc)).
  assert (lenz (slice_infos c) = DPU_MAX_NR_CIS) as Hlen by (rewrite Hsl; apply Hwf).
  rewrite Hr. split; intros i Hi.
  - destruct (for_up_upd_slice_frame DPU_MAX_NR_CIS (reset_slice (nr_dpus_of (rk w))) (set_ci c r))
      as (Hcol & Hfd & Hfc); [done|].
    rewrite Hcol, Hfd, Hfc. cbn. rewrite Hcc. cbn.
    rewrite !not8_land_testbit by done. rewrite Hc. cbn. rewrite Z.lxor_spec.
    by destruct (Z.testbit reset_mask i), (Z.testbit (color _) i), (Z.testbit (fault_decode _) i),
      (Z.testbit (fault_collide _) i).
  - rewrite for_up_upd_slice by (cbn; unfold DPU_MAX_NR_CIS in *; lia).
    rewrite decide_True by lia.
    assert (slice_of (set_ci c r) i = slice_of (rk w) i) as ->
      by (unfold slice_of; cbn; by rewrite Hsl).
    destruct (reset_slice_groups (nr_dpus_of (rk w)) (slice_of (rk w) i)) as (Ht & Hg & He & _); [|done].
    pose proof (wf_groups _ Hwf) as Hgr. rewrite Forall_lookup in Hgr.
    apply (Hgr (Z.to_nat i)). unfold slice_of, getz. apply list_lookup_lookup_total_lt.
    rewrite Hsl in Hlen. unfold lenz, DPU_MAX_NR_CIS in *. lia.
Qed.

(** *** Examples *)

(** An answer of a DPU interface: result valid, low bits [low], colour bits
    [colour]. *)
Definition sample_answer (colour low : Z) : Z :=
  Z.shiftl colour 48 ||| 0x000000FF00000000 ||| low.

Definition traced_script (answers : list (list Z)) (r : rank) : world (script * list event) :=
  mk_world r (answers, []).
Definition one_identity : list Z := CI_IDENTITY :: replicate 7 CI_EMPTY.

(** The interface answers after one unfinished read. *)
Definition sample_world : world (script * list event) :=
  traced_script [replicate 8 0x0100000000000000; replicate 8 (sample_answer 0 7)] (sample_rank 1 8).

Lemma exec_cmd_trace_witness :
  let '(w', res) := exec_cmd one_identity false sample_world in
  match compute_masks (rk sample_world) one_identity false with
  | Err e => res = Err e /\ w' = sample_world
  | Ok _ => exists us, trace_of w' = trace_of sample_world ++ Commit one_identity :: map Update us /\
      (length us <= 102)%nat /\ (res = Err DPU_ERR_TIMEOUT -> length us = 101%nat)
  end.
Proof. apply exec_cmd_trace. by_eval. Defined.

Lemma exec_cmd_ok_answered_witness :
  exists w' m us, exec_cmd one_identity false sample_world = (w', Ok tt) /\
    trace_of w' = trace_of sample_world ++ Commit one_identity :: map Update us /\
    exists answers, answers ∈ us /\ answered m 0 0 answers.[0].
Proof.
  destruct (compute_masks (rk sample_world) one_identity false) as [m|e] eqn:Hm;
    [|vm_compute in Hm; discriminate].
  destruct (exec_cmd one_identity false sample_world) as [w' res] eqn:Hrun.
  assert (res = Ok tt) as -> by (vm_compute in Hrun; congruence).
  destruct (exec_cmd_ok_answered one_identity false m sample_world w') as (us & Ht & Ha).
  - by_eval.
  - exact Hm.
  - exact Hrun.
  - exists w', m, us. split; [done|]. split; [exact Ht|]. apply (Ha 0); by_eval.
Defined.

Lemma exec_cmd_color_witness :
  let w' := fst (exec_cmd one_identity false sample_world) in
  color (ci (rk w')) = 0 ^^^ 1 /\ same_config (sample_rank 1 8) (rk w').
Proof. apply (exec_cmd_color one_identity false sample_world). vm_compute. reflexivity. Defined.

Definition sample_log : cmds_buffer :=
  mk_cmds_buffer (replicate 2 (mk_command_record (replicate 8 0) WRITE_DIR)) 2 2 1 true.

Lemma record_cmd_log_witness :
  logged_commands (record_cmd 8 READ_DIR one_identity sample_log) =
    tail (logged_commands sample_log) ++ [mk_command_record one_identity READ_DIR].
Proof. apply (record_cmd_log 8 READ_DIR one_identity sample_log). split; by_eval. Defined.

Definition reset_packet : list Z := CI_SOFTWARE_RESET 0 0 :: replicate 7 CI_EMPTY.
Definition world_to_reset : world script :=
  mk_world (set_ci (set_color 3 (ci (sample_rank 2 8))) (sample_rank 2 8)) [replicate 8 0].

Lemma ci_exec_reset_cmd_ok_witness : exists w',
  ci_exec_reset_cmd reset_packet world_to_reset = (w', Ok tt) /\
  dpus_per_group (slice_of (rk w') 0) = reset_groups 8.
Proof.
  destruct (ci_exec_reset_cmd reset_packet world_to_reset) as [w' res] eqn:Hrun.
  assert (res = Ok tt) as -> by (vm_compute in Hrun; congruence).
  exists w'. split; [done|].
  apply (ci_exec_reset_cmd_ok reset_packet world_to_reset w'); by_eval || exact Hrun.
Defined.

(** *** A colour with four bits set *)

(** an answer whose colour has exactly four bits set is inconsistent, and
    the code means to leave it not ready; but the interface is marked as done
    before the inconsistency is noticed, so the same answer read once more is
    accepted, and the command succeeds with no fault recorded. *)
Theorem inconsistent_color_accepted_on_second_read :
  let word := sample_answer 0x0F 7 in
  let w := mk_world (sample_rank 1 8) [replicate 8 word] in
  let m := mk_cmd_masks (0xFF0000FF00000000 :: replicate 7 0) (0x000000FF00000000 :: replicate 7 0)
             1 falses8 in
  let first_read :=
    determine_if_commands_are_finished (rk w) (replicate 8 word) m 0 (cm_is_done m) in
  let second_read :=
    determine_if_commands_are_finished (rk w) (replicate 8 word) m 0 (fst (snd first_read)) in
  let '(w', res) := exec_cmd one_identity false w in
  compute_masks (rk w) one_identity false = Ok m /\
  fst first_read = false /\ fst second_read = true /\
  res = Ok tt /\ fault_decode (ci (rk w')) = 0 /\ fault_collide (ci (rk w')) = 0.
Proof. vm_compute. repeat split. Qed.
