(* ===== verification/Ufi.v ===== *)
(** * The operations on the control interfaces

    Model of [src/ufi/src/ufi.c]: selecting interfaces, DPUs and groups with
    the selection of each interface cached in the rank, writing a structure
    only when the cached structure differs, and the commands that read and
    write IRAM, WRAM, the DMA control registers, threads and faults. An
    operation on the rank is a computation of [W]; an output parameter is its
    result, and a pointer that may be null is an option. *)

From S2P Require Import Prelude CMonad BitConfig CiCommands Rank Ci.

#[local] Open Scope Z_scope.
#[local] Open Scope dpu_scope.

Definition IRAM_TIMING_SAFE_VALUE := 0x02.
Definition RFRAM_TIMING_SAFE_VALUE := 0x01.
Definition WRAM_TIMING_SAFE_VALUE := 0x02.

(** [struct dpu_repair_config]. *)
Record repair_config := mk_repair_config {
  AB_msbs : Z; CD_msbs : Z; A_lsbs : Z; B_lsbs : Z; C_lsbs : Z; D_lsbs : Z;
  even_index : Z; odd_index : Z }.
#[export] Instance repair_config_inhabited : Inhabited repair_config :=
  populate (mk_repair_config 0 0 0 0 0 0 0 0).

(** ** Visiting the interfaces of a mask *)

(** The do-while of [next_ci]; a [u8] wraps within 256 steps. *)
Fixpoint next_ci_loop (fuel : nat) (ci_mask current_ci nr_cis : Z) : Z :=
  let current_ci := u8 (current_ci + 1) in
  match fuel with
  | O => current_ci
  | S fuel =>
      if (current_ci <? nr_cis) && negb (CI_MASK_ON ci_mask current_ci)
      then next_ci_loop fuel ci_mask current_ci nr_cis else current_ci
  end.
Definition next_ci (ci_mask current_ci nr_cis : Z) : Z :=
  next_ci_loop 256 ci_mask current_ci nr_cis.

(** [for_each_ci (i, nr_cis, mask)]: the mask is read again from the state
    [s] after each iteration. *)
Fixpoint for_each_ci_loop {S} (fuel : nat) (nr_cis : Z) (mask_of : S -> Z) (body : Z -> S -> S)
    (i : Z) (s : S) : S :=
  match fuel with
  | O => s
  | Datatypes.S fuel =>
      if i <? nr_cis then
        let s := body i s in
        for_each_ci_loop fuel nr_cis mask_of body (next_ci (mask_of s) i nr_cis) s
      else s
  end.
Definition for_each_ci {S} (nr_cis : Z) (mask_of : S -> Z) (body : Z -> S -> S) (s : S) : S :=
  for_each_ci_loop 256 nr_cis mask_of body (next_ci (mask_of s) (u8 (-1)) nr_cis) s.

(** The loop when its mask is not modified by the body. *)
Definition for_cis {S} (nr_cis mask : Z) (body : Z -> S -> S) (s : S) : S :=
  for_each_ci nr_cis (fun _ => mask) body s.

(** [mask &= ~CI_MASK_ONE(each_ci)] on a [u8]. *)
Definition clear_ci (mask each_ci : Z) : Z := mask &&& not8 (CI_MASK_ONE each_ci).

Section Ufi.
Context {D : Type} `{!RankHandler D}.
Implicit Types (ci_mask : Z) (results : list Z).

(** ** Frames and structures *)

Definition prepare_cmds (ci_mask data : Z) : W D unit :=
  on_rank (fun r => set_cmds (ci_prepare_mask (cmds r) ci_mask data) r).
Definition with_cmds {A} (f : list Z -> W D A) : W D A := r ← get_rank; f (cmds r).

(** The first loop of [UFI_exec_write_structure]: the cache takes the new
    structure; [true] when an interface had another one. *)
Definition cache_structure (ci_mask structure : Z) (r : rank) : bool * rank :=
  for_cis (nr_cis_of r) ci_mask (fun each_ci '(do_write_structure, r) =>
    if negb (structure_value (slice_of r each_ci) =? structure)
    then (true, upd_slice each_ci (set_structure_value structure) r)
    else (do_write_structure, r)) (false, r).

Definition UFI_exec_write_structure (ci_mask structure : Z) : W D unit :=
  r ← get_rank;
  let '(do_write_structure, r) := cache_structure ci_mask structure r in
  _ ← on_rank (fun _ => r);
  if do_write_structure : bool then
    _ ← prepare_cmds ci_mask structure;
    with_cmds ci_exec_void_cmd
  else mret tt.

Definition cache_structures (ci_mask : Z) (structures : list Z) (r : rank) : bool * rank :=
  for_cis (nr_cis_of r) ci_mask (fun each_ci '(do_write_structure, r) =>
    if negb (structures.[each_ci] =? CI_EMPTY) &&
       negb (structure_value (slice_of r each_ci) =? structures.[each_ci])
    then (true, upd_slice each_ci (set_structure_value structures.[each_ci]) r)
    else (do_write_structure, r)) (false, r).

Definition UFI_exec_write_structures (ci_mask : Z) (structures : list Z) : W D unit :=
  r ← get_rank;
  let '(do_write_structure, r) := cache_structures ci_mask structures r in
  _ ← on_rank (fun _ => r);
  if do_write_structure : bool then ci_exec_void_cmd structures else mret tt.

Definition UFI_exec_void_frame (ci_mask structure frame : Z) : W D unit :=
  _ ← UFI_exec_write_structure ci_mask structure;
  _ ← prepare_cmds ci_mask frame;
  with_cmds ci_exec_void_cmd.

(** The frames are [rank->cmds]. *)
Definition UFI_exec_void_frames (ci_mask : Z) (structures : list Z) : W D unit :=
  _ ← UFI_exec_write_structures ci_mask structures;
  with_cmds ci_exec_void_cmd.

Definition UFI_exec_8bit_frame (ci_mask structure frame : Z) (results : list Z) : W D (list Z) :=
  _ ← UFI_exec_write_structure ci_mask structure;
  _ ← prepare_cmds ci_mask frame;
  with_cmds (fun cmds => ci_exec_8bit_cmd cmds results).

Definition UFI_exec_32bit_frame (ci_mask structure frame : Z) (results : list Z) : W D (list Z) :=
  _ ← UFI_exec_write_structure ci_mask structure;
  _ ← prepare_cmds ci_mask frame;
  with_cmds (fun cmds => ci_exec_32bit_cmd cmds results).

(** [previous == NULL ? void frame : 8-bit frame]. *)
Definition UFI_exec_frame_opt (ci_mask structure frame : Z) (results : option (list Z))
    : W D (option (list Z)) :=
  match results with
  | None => _ ← UFI_exec_void_frame ci_mask structure frame; mret None
  | Some results => results ← UFI_exec_8bit_frame ci_mask structure frame results; mret (Some results)
  end.

(** ** Commands without a structure *)

Definition ufi_byte_order ci_mask (store : list Z -> rank -> rank) : W D (list Z) :=
  _ ← prepare_cmds ci_mask CI_BYTE_ORDER;
  with_cmds (fun cmds => ci_exec_byte_discovery cmds store).

Definition ufi_soft_reset ci_mask (clock_division cycle_accurate : Z) : W D unit :=
  _ ← prepare_cmds ci_mask (CI_SOFTWARE_RESET clock_division cycle_accurate);
  with_cmds ci_exec_reset_cmd.

Definition bit_config_cmd (bit_config : dpu_bit_config) (config : option dpu_bit_config) : Z :=
  match config with
  | None => CI_BIT_ORDER 0 0 0 0
  | Some config =>
      CI_BIT_ORDER (nibble_swap config) (stutter config)
        (dpu_bit_config_dpu2cpu bit_config (cpu2dpu config))
        (dpu_bit_config_dpu2cpu bit_config (dpu2cpu config))
  end.

Definition ufi_bit_config ci_mask (config : option dpu_bit_config) (results : option (list Z))
    : W D (option (list Z)) :=
  r ← get_rank;
  let cmd := bit_config_cmd (pcb_transformation (desc r)) config in
  _ ← prepare_cmds ci_mask cmd;
  match results with
  | None => _ ← with_cmds ci_exec_void_cmd; mret None
  | Some results => results ← with_cmds (fun cmds => ci_exec_32bit_cmd cmds results); mret (Some results)
  end.

Definition ufi_identity ci_mask results : W D (list Z) :=
  r ← get_rank;
  _ ← prepare_cmds ci_mask CI_IDENTITY;
  results ← with_cmds (fun cmds => ci_exec_32bit_cmd cmds results);
  mret (for_cis (nr_cis_of r) ci_mask (fun each_ci results =>
    results.[each_ci := dpu_bit_config_cpu2dpu (pcb_transformation (desc r)) results.[each_ci]])
    results).

Definition ufi_thermal_config ci_mask (threshold : Z) : W D unit :=
  _ ← prepare_cmds ci_mask (CI_THERMAL_CONFIG threshold);
  with_cmds ci_exec_void_cmd.

(** ** Selection *)

(** What the selection loops update: the mask, whether a command must be
    sent, the structures to write, the rank (cached selection, commands). *)
Record selection := mk_selection {
  sel_mask : Z; sel_do : bool; sel_structs : list Z; sel_rank : rank }.

Definition sel_loop (nr_cis : Z) (body : Z -> selection -> selection) (mask : Z) (r : rank)
    : selection :=
  for_each_ci nr_cis sel_mask body
    (mk_selection mask false (ci_prepare_mask zeros8 0 0) r).

Definition sel_drop (each_ci : Z) (s : selection) : selection :=
  mk_selection (clear_ci (sel_mask s) each_ci) (sel_do s) (sel_structs s) (sel_rank s).

(** The interface gets a new target. *)
Definition sel_target (each_ci : Z) (target : slice_info -> slice_info) (s : selection) : selection :=
  mk_selection (sel_mask s) true (sel_structs s) (upd_slice each_ci target (sel_rank s)).

(** [structs[each_ci] = structure; cmds[each_ci] = frame]. *)
Definition sel_words (each_ci structure frame : Z) (s : selection) : selection :=
  mk_selection (sel_mask s) (sel_do s) ((sel_structs s).[each_ci := structure])
    (set_cmds ((cmds (sel_rank s)).[each_ci := frame]) (sel_rank s)).

Definition sel_info (each_ci : Z) (s : selection) : slice_info := slice_of (sel_rank s) each_ci.

Definition select_cis_step (each_ci : Z) (s : selection) : selection :=
  if enabled_dpus (sel_info each_ci s) =? 0 then sel_drop each_ci s else s.

Definition ufi_select_cis ci_mask : W D Z :=
  r ← get_rank;
  mret (sel_mask (sel_loop (nr_cis_of r) select_cis_step ci_mask r)).

Definition is_group (info : slice_info) (group : Z) : bool :=
  is_target info DPU_SLICE_TARGET_GROUP && (target_id info =? group).
Definition is_dpu (info : slice_info) (dpu : Z) : bool :=
  is_target info DPU_SLICE_TARGET_DPU && (target_id info =? dpu).

Definition select_all_step (each_ci : Z) (s : selection) : selection :=
  let info := sel_info each_ci s in
  if all_dpus_are_enabled info then
    if negb (is_target info DPU_SLICE_TARGET_ALL) then
      sel_target each_ci (set_target_type DPU_SLICE_TARGET_ALL)
        (sel_words each_ci CI_SELECT_ALL_STRUCT CI_SELECT_ALL_FRAME s)
    else s
  else
    if negb (is_group info DPU_ENABLED_GROUP) then
      if negb (enabled_dpus info =? 0) then
        sel_target each_ci (set_target DPU_SLICE_TARGET_GROUP DPU_ENABLED_GROUP)
          (sel_words each_ci CI_SELECT_GROUP_STRUCT (CI_SELECT_GROUP_FRAME DPU_ENABLED_GROUP) s)
      else sel_drop each_ci s
    else s.

(** [if (do_select) FF(UFI_exec_void_frames(...)); *ci_mask = mask;] *)
Definition commit_selection_frames (s : selection) : W D Z :=
  _ ← on_rank (fun _ => sel_rank s);
  _ ← (if sel_do s then UFI_exec_void_frames (sel_mask s) (sel_structs s) else mret tt);
  mret (sel_mask s).

(** [if (do_select) FF(UFI_exec_void_frame(...)); *ci_mask = mask;] *)
Definition commit_selection (structure frame : Z) (s : selection) : W D Z :=
  _ ← on_rank (fun _ => sel_rank s);
  _ ← (if sel_do s then UFI_exec_void_frame (sel_mask s) structure frame else mret tt);
  mret (sel_mask s).

Definition ufi_select_all ci_mask : W D Z :=
  r ← get_rank;
  commit_selection_frames (sel_loop (nr_cis_of r) select_all_step ci_mask r).

(** The selection is sent to every interface of the mask. *)
Definition select_uncached ci_mask (target : slice_info -> slice_info) (structure frame : Z)
    : W D unit :=
  _ ← on_rank (fun r =>
        for_cis (nr_cis_of r) ci_mask (fun each_ci => upd_slice each_ci target) r);
  UFI_exec_void_frame ci_mask structure frame.

Definition ufi_select_all_uncached ci_mask : W D unit :=
  select_uncached ci_mask (set_target_type DPU_SLICE_TARGET_ALL)
    CI_SELECT_ALL_STRUCT CI_SELECT_ALL_FRAME.

Definition select_all_even_disabled_step (each_ci : Z) (s : selection) : selection :=
  let info := sel_info each_ci s in
  if negb (enabled_dpus info =? 0) then
    if negb (is_target info DPU_SLICE_TARGET_ALL) then
      sel_target each_ci (set_target_type DPU_SLICE_TARGET_ALL)
        (sel_words each_ci CI_SELECT_ALL_STRUCT CI_SELECT_ALL_FRAME s)
    else s
  else sel_drop each_ci s.

Definition ufi_select_all_even_disabled ci_mask : W D Z :=
  r ← get_rank;
  commit_selection_frames (sel_loop (nr_cis_of r) select_all_even_disabled_step ci_mask r).

Definition select_group_step (group each_ci : Z) (s : selection) : selection :=
  let info := sel_info each_ci s in
  if negb ((dpus_per_group info).[group] =? 0) then
    if negb (is_group info group)
    then sel_target each_ci (set_target DPU_SLICE_TARGET_GROUP group) s else s
  else sel_drop each_ci s.

Definition ufi_select_group ci_mask (group : Z) : W D Z :=
  r ← get_rank;
  commit_selection CI_SELECT_GROUP_STRUCT (CI_SELECT_GROUP_FRAME group)
    (sel_loop (nr_cis_of r) (select_group_step group) ci_mask r).

Definition ufi_select_group_uncached ci_mask (group : Z) : W D unit :=
  select_uncached ci_mask (set_target DPU_SLICE_TARGET_GROUP group)
    CI_SELECT_GROUP_STRUCT (CI_SELECT_GROUP_FRAME group).

Definition select_dpu_step (dpu each_ci : Z) (s : selection) : selection :=
  let info := sel_info each_ci s in
  if negb (enabled_dpus info &&& Z.shiftl 1 dpu =? 0) then
    if negb (is_dpu info dpu)
    then sel_target each_ci (set_target DPU_SLICE_TARGET_DPU dpu) s else s
  else sel_drop each_ci s.

Definition ufi_select_dpu ci_mask (dpu : Z) : W D Z :=
  r ← get_rank;
  commit_selection CI_SELECT_DPU_STRUCT (CI_SELECT_DPU_FRAME dpu)
    (sel_loop (nr_cis_of r) (select_dpu_step dpu) ci_mask r).

Definition ufi_select_dpu_uncached ci_mask (dpu : Z) : W D unit :=
  select_uncached ci_mask (set_target DPU_SLICE_TARGET_DPU dpu)
    CI_SELECT_DPU_STRUCT (CI_SELECT_DPU_FRAME dpu).

Definition select_dpu_even_disabled_step (dpu each_ci : Z) (s : selection) : selection :=
  let info := sel_info each_ci s in
  if negb (enabled_dpus info =? 0) then
    if negb (is_dpu info dpu)
    then sel_target each_ci (set_target DPU_SLICE_TARGET_DPU dpu) s else s
  else sel_drop each_ci s.

Definition ufi_select_dpu_even_disabled ci_mask (dpu : Z) : W D Z :=
  r ← get_rank;
  commit_selection CI_SELECT_DPU_STRUCT (CI_SELECT_DPU_FRAME dpu)
    (sel_loop (nr_cis_of r) (select_dpu_even_disabled_step dpu) ci_mask r).

(** ** Groups *)

(** The interfaces that [for_each_ci] visits, in order. *)
Definition visited (nr_cis mask : Z) : list Z :=
  for_cis nr_cis mask (fun each_ci l => l ++ [each_ci]) [].

(** [for (each_group...) dpus_per_group[each_group] &= ~dpu_mask;
    dpus_per_group[group] |= dpu_mask;] *)
Definition move_to_group (dpu_mask group : Z) (info : slice_info) : slice_info :=
  let info := for_up DPU_MAX_NR_GROUPS (fun each_group info =>
    set_dpus_per_group ((dpus_per_group info).[each_group :=
      (dpus_per_group info).[each_group] &&& not8 dpu_mask]) info) info in
  set_dpus_per_group ((dpus_per_group info).[group :=
    u8 ((dpus_per_group info).[group] ||| dpu_mask)]) info.

Definition ufi_write_group ci_mask (group : Z) : W D unit :=
  r ← get_rank;
  _ ← mfold (fun each_ci _ =>
        r ← get_rank;
        match ci_fill_selected_dpu_mask r each_ci with
        | Err e => fail e
        | Ok dpu_mask => on_rank (upd_slice each_ci (move_to_group dpu_mask group))
        end) (visited (nr_cis_of r) ci_mask) tt;
  UFI_exec_void_frame ci_mask CI_WRITE_GROUP_STRUCT (CI_WRITE_GROUP_FRAME group).

(** ** Configuration *)

Definition ufi_carousel_config ci_mask (config : carousel_config) : W D unit :=
  _ ← prepare_cmds ci_mask (CI_CMD_DURATION_FUTUR (cmd_duration config));
  _ ← with_cmds ci_exec_void_cmd;
  _ ← UFI_exec_void_frame ci_mask CI_CMD_BUS_CONFIG_DURATION_STRUCT
        (CI_CMD_BUS_CONFIG_DURATION_FRAME (cmd_duration config));
  _ ← UFI_exec_void_frame ci_mask CI_CMD_BUS_CONFIG_SAMPLING_STRUCT
        (CI_CMD_BUS_CONFIG_SAMPLING_FRAME (cmd_sampling config));
  _ ← UFI_exec_void_frame ci_mask CI_CMD_BUS_SYNC_STRUCT CI_CMD_BUS_SYNC_FRAME;
  _ ← prepare_cmds ci_mask (CI_RES_DURATION_FUTUR (res_duration config));
  _ ← with_cmds ci_exec_void_cmd;
  _ ← prepare_cmds ci_mask (CI_RES_SAMPLING_FUTUR (res_sampling config));
  _ ← with_cmds ci_exec_void_cmd;
  _ ← UFI_exec_void_frame ci_mask CI_RES_BUS_CONFIG_DURATION_STRUCT
        (CI_RES_BUS_CONFIG_DURATION_FRAME (res_duration config));
  UFI_exec_void_frame ci_mask CI_RES_BUS_SYNC_STRUCT CI_RES_BUS_SYNC_FRAME.

(** ** Faults *)

Definition ufi_clear_debug_replace ci_mask : W D unit :=
  UFI_exec_void_frame ci_mask CI_DEBUG_STD_REPLACE_CLEAR_STRUCT CI_DEBUG_STD_REPLACE_CLEAR_FRAME.
Definition ufi_clear_fault_poison ci_mask : W D unit :=
  UFI_exec_void_frame ci_mask CI_POISON_FAULT_CLEAR_STRUCT CI_POISON_FAULT_CLEAR_FRAME.
Definition ufi_clear_fault_bkp ci_mask : W D unit :=
  UFI_exec_void_frame ci_mask CI_BKP_FAULT_CLEAR_STRUCT CI_BKP_FAULT_CLEAR_FRAME.
Definition ufi_clear_fault_dma ci_mask : W D unit :=
  UFI_exec_void_frame ci_mask CI_DMA_FAULT_READ_AND_CLR_STRUCT CI_DMA_FAULT_READ_AND_CLR_FRAME.
Definition ufi_clear_fault_mem ci_mask : W D unit :=
  UFI_exec_void_frame ci_mask CI_MEM_FAULT_READ_AND_CLR_STRUCT CI_MEM_FAULT_READ_AND_CLR_FRAME.
Definition ufi_clear_fault_dpu ci_mask : W D unit :=
  UFI_exec_void_frame ci_mask CI_DPU_FAULT_STATE_CLR_STRUCT CI_DPU_FAULT_STATE_CLR_FRAME.
Definition ufi_clear_fault_intercept ci_mask : W D unit :=
  UFI_exec_void_frame ci_mask CI_BKP_FAULT_READ_STRUCT CI_BKP_FAULT_READ_FRAME.

Definition ufi_clear_run_bit ci_mask (run_bit : Z) (previous : option (list Z)) :=
  UFI_exec_frame_opt ci_mask CI_THREAD_CLR_RUN_STRUCT (CI_THREAD_CLR_RUN_FRAME run_bit) previous.

(** ** Repair *)

(** A loop that fills one command per interface of the mask. *)
Definition fill_cmds ci_mask (frame : Z -> Z) : W D unit :=
  on_rank (fun r => set_cmds (for_cis (nr_cis_of r) ci_mask
    (fun each_ci cmds => cmds.[each_ci := frame each_ci]) (cmds r)) r).

Definition ufi_iram_repair_config ci_mask (config : list repair_config) : W D unit :=
  _ ← UFI_exec_write_structure ci_mask CI_IREPAIR_CONFIG_AB_STRUCT;
  _ ← fill_cmds ci_mask (fun i => let c := config.[i] in
        CI_IREPAIR_CONFIG_AB_FRAME (AB_msbs c) (A_lsbs c) (B_lsbs c));
  _ ← with_cmds ci_exec_void_cmd;
  _ ← UFI_exec_write_structure ci_mask CI_IREPAIR_CONFIG_CD_STRUCT;
  _ ← fill_cmds ci_mask (fun i => let c := config.[i] in
        CI_IREPAIR_CONFIG_CD_FRAME (CD_msbs c) (C_lsbs c) (D_lsbs c));
  _ ← with_cmds ci_exec_void_cmd;
  _ ← UFI_exec_write_structure ci_mask CI_IREPAIR_CONFIG_OE_STRUCT;
  _ ← fill_cmds ci_mask (fun i => let c := config.[i] in
        CI_IREPAIR_CONFIG_OE_FRAME (odd_index c) (even_index c) IRAM_TIMING_SAFE_VALUE);
  _ ← with_cmds ci_exec_void_cmd;
  UFI_exec_void_frame ci_mask CI_REGISTER_FILE_TIMING_CONFIG_STRUCT
    (CI_REGISTER_FILE_TIMING_CONFIG_FRAME RFRAM_TIMING_SAFE_VALUE).

Definition ufi_clear_dma_ctrl ci_mask : W D unit :=
  UFI_exec_void_frame ci_mask CI_DMA_CTRL_CLEAR_STRUCT CI_DMA_CTRL_CLEAR_FRAME.

Definition ufi_wram_repair_config ci_mask (bank : Z) (config : list repair_config) : W D unit :=
  let b0 := u8 (0x60 ||| Z.shiftl bank 2) in
  let b4 := 0x60 in
  let b5 := 0x40 in
  _ ← UFI_exec_write_structure ci_mask CI_DMA_CTRL_WRITE_STRUCT;
  _ ← fill_cmds ci_mask (fun i => let c := config.[i] in
        CI_DMA_CTRL_WRITE_FRAME b0 0x60 (0x60 ||| Z.shiftr (even_index c) 1)
          (0x60 ||| Z.shiftr (odd_index c) 1) b4 b5);
  _ ← with_cmds ci_exec_void_cmd;
  _ ← fill_cmds ci_mask (fun i => let c := config.[i] in
        CI_DMA_CTRL_WRITE_FRAME b0 0x61 (0x60 ||| Z.shiftr (AB_msbs c) 4)
          (0x60 ||| (AB_msbs c &&& 0xf)) b4 b5);
  _ ← with_cmds ci_exec_void_cmd;
  _ ← fill_cmds ci_mask (fun i => let c := config.[i] in
        CI_DMA_CTRL_WRITE_FRAME b0 0x62 (0x60 ||| A_lsbs c) (0x60 ||| B_lsbs c) b4 b5);
  _ ← with_cmds ci_exec_void_cmd;
  _ ← fill_cmds ci_mask (fun i => let c := config.[i] in
        CI_DMA_CTRL_WRITE_FRAME b0 0x63 (0x60 ||| Z.shiftr (CD_msbs c) 4)
          (0x60 ||| (CD_msbs c &&& 0xf)) b4 b5);
  _ ← with_cmds ci_exec_void_cmd;
  _ ← fill_cmds ci_mask (fun i => let c := config.[i] in
        CI_DMA_CTRL_WRITE_FRAME b0 0x64 (0x60 ||| C_lsbs c) (0x60 ||| D_lsbs c) b4 b5);
  _ ← with_cmds ci_exec_void_cmd;
  _ ← UFI_exec_void_frame ci_mask CI_DMA_CTRL_WRITE_STRUCT
        (CI_DMA_CTRL_WRITE_FRAME b0 0x65 0x60 (0x60 ||| WRAM_TIMING_SAFE_VALUE) b4 b5);
  ufi_clear_dma_ctrl ci_mask.

(** ** Modes *)

Definition ufi_get_pc_mode ci_mask (pc_mode : list Z) : W D (list Z) :=
  r ← get_rank;
  modes ← UFI_exec_8bit_frame ci_mask CI_PC_MODE_READ_STRUCT CI_PC_MODE_READ_FRAME zeros8;
  mret (for_cis (nr_cis_of r) ci_mask (fun each_ci pc_mode =>
    pc_mode.[each_ci := modes.[each_ci]]) pc_mode).

Definition ufi_set_pc_mode ci_mask (pc_mode : list Z) : W D unit :=
  _ ← UFI_exec_write_structure ci_mask CI_PC_MODE_WRITE_STRUCT;
  _ ← fill_cmds ci_mask (fun i => CI_PC_MODE_WRITE_FRAME pc_mode.[i]);
  with_cmds ci_exec_void_cmd.

Definition ufi_set_stack_direction ci_mask (direction : list bool) (previous : option (list Z))
    : W D (option (list Z)) :=
  _ ← UFI_exec_write_structure ci_mask CI_STACK_UP_READ_AND_SET_STRUCT;
  _ ← fill_cmds ci_mask (fun i => if direction.[i] : bool then CI_STACK_UP_READ_AND_SET_FRAME
                                  else CI_STACK_UP_READ_AND_CLR_FRAME);
  match previous with
  | None => _ ← with_cmds ci_exec_void_cmd; mret None
  | Some previous => p ← with_cmds (fun cmds => ci_exec_8bit_cmd cmds previous); mret (Some p)
  end.

(** ** DMA control registers *)

Definition ci_dma_ctrl_write_frame (address data : Z) : Z :=
  let b0 := u8 (0x60 ||| (Z.shiftr address 4 &&& 0x0F)) in
  let b1 := u8 (0x60 ||| (Z.shiftr address 0 &&& 0x0F)) in
  let b2 := u8 (0x60 ||| (Z.shiftr data 4 &&& 0x0F)) in
  let b3 := u8 (0x60 ||| (Z.shiftr data 0 &&& 0x0F)) in
  let b4 := 0x60 in
  let b5 := 0x20 in
  CI_DMA_CTRL_WRITE_FRAME b0 b1 b2 b3 b4 b5.

(** [address] and [data] are [u8] parameters. *)
Definition ufi_write_dma_ctrl ci_mask (address data : Z) : W D unit :=
  UFI_exec_void_frame ci_mask CI_DMA_CTRL_WRITE_STRUCT
    (ci_dma_ctrl_write_frame (u8 address) (u8 data)).

Definition ufi_write_dma_ctrl_datas ci_mask (address : Z) (datas : list Z) : W D unit :=
  _ ← UFI_exec_write_structure ci_mask CI_DMA_CTRL_WRITE_STRUCT;
  _ ← fill_cmds ci_mask (fun i => ci_dma_ctrl_write_frame (u8 address) datas.[i]);
  with_cmds ci_exec_void_cmd.

Definition ufi_read_dma_ctrl ci_mask (data : list Z) : W D (list Z) :=
  UFI_exec_8bit_frame ci_mask CI_DMA_CTRL_READ_STRUCT CI_DMA_CTRL_READ_FRAME data.

(** ** Memories *)

(** [src[i]] is the buffer of interface [i]; [offset], [len] are [u16]. *)
Definition ufi_iram_write ci_mask (src : list (list Z)) (offset len : Z) : W D unit :=
  mfor len (fun each_address _ =>
    let addr := u16 (offset + each_address) in
    _ ← UFI_exec_write_structure ci_mask (CI_IRAM_WRITE_INSTRUCTION_STRUCT addr);
    _ ← fill_cmds ci_mask (fun i => CI_IRAM_WRITE_INSTRUCTION_FRAME src.[i].[each_address] addr);
    with_cmds ci_exec_wait_mask_cmd) tt.

(** [((u8 * )&word)[k] = byte]. *)
Definition set_byte (word k byte : Z) : Z :=
  Z.ldiff word (Z.shiftl 0xFF (8 * k)) ||| Z.shiftl byte (8 * k).

(** Byte [k] of [dst[each_ci][each_address]] for the interfaces of the mask. *)
Definition store_bytes (nr_cis : Z) ci_mask (each_address k : Z) (byte_of : Z -> Z)
    (dst : list (list Z)) : list (list Z) :=
  for_cis nr_cis ci_mask (fun each_ci dst =>
    dst.[each_ci := dst.[each_ci].[each_address :=
      set_byte dst.[each_ci].[each_address] k (byte_of each_ci)]]) dst.

Definition iram_read_byte ci_mask (each_address k structure frame : Z) (st : list (list Z) * list Z)
    : W D (list (list Z) * list Z) :=
  let '(dst, bytes) := st in
  r ← get_rank;
  bytes ← UFI_exec_8bit_frame ci_mask structure frame bytes;
  mret (store_bytes (nr_cis_of r) ci_mask each_address k (fun i => bytes.[i]) dst, bytes).

Definition ufi_iram_read ci_mask (dst : list (list Z)) (offset len : Z) : W D (list (list Z)) :=
  r ← get_rank;
  st ← mfor len (fun each_address st =>
    let a := offset + each_address in
    st ← iram_read_byte ci_mask each_address 0 CI_IRAM_READ_BYTE0_STRUCT (CI_IRAM_READ_BYTE0_FRAME a) st;
    st ← iram_read_byte ci_mask each_address 1 CI_IRAM_READ_BYTE1_STRUCT (CI_IRAM_READ_BYTE1_FRAME a) st;
    st ← iram_read_byte ci_mask each_address 2 CI_IRAM_READ_BYTE2_STRUCT (CI_IRAM_READ_BYTE2_FRAME a) st;
    st ← iram_read_byte ci_mask each_address 3 CI_IRAM_READ_BYTE3_STRUCT (CI_IRAM_READ_BYTE3_FRAME a) st;
    st ← iram_read_byte ci_mask each_address 4 CI_IRAM_READ_BYTE4_STRUCT (CI_IRAM_READ_BYTE4_FRAME a) st;
    st ← iram_read_byte ci_mask each_address 5 CI_IRAM_READ_BYTE5_STRUCT (CI_IRAM_READ_BYTE5_FRAME a) st;
    let '(dst, bytes) := st in
    let dst := store_bytes (nr_cis_of r) ci_mask each_address 6 (fun _ => 0) dst in
    mret (store_bytes (nr_cis_of r) ci_mask each_address 7 (fun _ => 0) dst, bytes)) (dst, zeros8);
  mret (fst st).

Definition ufi_wram_write ci_mask (src : list (list Z)) (offset len : Z) : W D unit :=
  mfor len (fun each_address _ =>
    let addr := u16 (offset + each_address) in
    _ ← UFI_exec_write_structure ci_mask (CI_WRAM_WRITE_WORD_STRUCT addr);
    _ ← fill_cmds ci_mask (fun i => CI_WRAM_WRITE_WORD_FRAME src.[i].[each_address] addr);
    with_cmds ci_exec_wait_mask_cmd) tt.

Definition ufi_wram_read ci_mask (dst : list (list Z)) (offset len : Z) : W D (list (list Z)) :=
  r ← get_rank;
  st ← mfor len (fun each_address '(dst, words) =>
    words ← UFI_exec_32bit_frame ci_mask CI_WRAM_READ_WORD_STRUCT
              (CI_WRAM_READ_WORD_FRAME (offset + each_address)) words;
    mret (for_cis (nr_cis_of r) ci_mask (fun each_ci dst =>
      dst.[each_ci := dst.[each_ci].[each_address := words.[each_ci]]]) dst, words)) (dst, zeros8);
  mret (fst st).

(** ** Threads and run bits *)

Definition ufi_thread_boot ci_mask (thread : Z) (previous : option (list Z)) :=
  UFI_exec_frame_opt ci_mask CI_THREAD_BOOT_STRUCT (CI_THREAD_BOOT_FRAME thread) previous.
Definition ufi_thread_resume ci_mask (thread : Z) (previous : option (list Z)) :=
  UFI_exec_frame_opt ci_mask CI_THREAD_RESUME_STRUCT (CI_THREAD_RESUME_FRAME thread) previous.
Definition ufi_read_run_bit ci_mask (run_bit : Z) (running : list Z) : W D (list Z) :=
  UFI_exec_8bit_frame ci_mask CI_THREAD_READ_RUN_STRUCT (CI_THREAD_READ_RUN_FRAME run_bit) running.
Definition ufi_read_dpu_run ci_mask (run : list Z) : W D (list Z) :=
  UFI_exec_8bit_frame ci_mask CI_DPU_RUN_STATE_READ_STRUCT CI_DPU_RUN_STATE_READ_FRAME run.
Definition ufi_read_dpu_fault ci_mask (fault : list Z) : W D (list Z) :=
  UFI_exec_8bit_frame ci_mask CI_DPU_FAULT_STATE_READ_STRUCT CI_DPU_FAULT_STATE_READ_FRAME fault.
Definition ufi_set_dpu_fault_and_step ci_mask : W D unit :=
  UFI_exec_void_frame ci_mask CI_DPU_FAULT_STATE_SET_AND_STEP_STRUCT
    CI_DPU_FAULT_STATE_SET_AND_STEP_FRAME.
Definition ufi_set_bkp_fault ci_mask : W D unit :=
  UFI_exec_void_frame ci_mask CI_BKP_FAULT_SET_STRUCT CI_BKP_FAULT_SET_FRAME.
Definition ufi_set_poison_fault ci_mask : W D unit :=
  UFI_exec_void_frame ci_mask CI_POISON_FAULT_SET_STRUCT CI_POISON_FAULT_SET_FRAME.
Definition ufi_read_bkp_fault ci_mask (fault : option (list Z)) :=
  UFI_exec_frame_opt ci_mask CI_BKP_FAULT_READ_STRUCT CI_BKP_FAULT_READ_FRAME fault.
Definition ufi_read_poison_fault ci_mask (fault : list Z) : W D (list Z) :=
  UFI_exec_8bit_frame ci_mask CI_POISON_FAULT_READ_STRUCT CI_POISON_FAULT_READ_FRAME fault.
Definition ufi_read_and_clear_dma_fault ci_mask (fault : option (list Z)) :=
  UFI_exec_frame_opt ci_mask CI_DMA_FAULT_READ_AND_CLR_STRUCT CI_DMA_FAULT_READ_AND_CLR_FRAME fault.
Definition ufi_read_and_clear_mem_fault ci_mask (fault : option (list Z)) :=
  UFI_exec_frame_opt ci_mask CI_MEM_FAULT_READ_AND_CLR_STRUCT CI_MEM_FAULT_READ_AND_CLR_FRAME fault.
Definition ufi_read_bkp_fault_thread_index ci_mask (thread : list Z) : W D (list Z) :=
  UFI_exec_8bit_frame ci_mask CI_BKP_FAULT_THREAD_INDEX_READ_STRUCT
    CI_BKP_FAULT_THREAD_INDEX_READ_FRAME thread.
Definition ufi_read_dma_fault_thread_index ci_mask (thread : list Z) : W D (list Z) :=
  UFI_exec_8bit_frame ci_mask CI_DMA_FAULT_THREAD_INDEX_READ_STRUCT
    CI_DMA_FAULT_THREAD_INDEX_READ_FRAME thread.
Definition ufi_read_mem_fault_thread_index ci_mask (thread : list Z) : W D (list Z) :=
  UFI_exec_8bit_frame ci_mask CI_MEM_FAULT_THREAD_INDEX_READ_STRUCT
    CI_MEM_FAULT_THREAD_INDEX_READ_FRAME thread.

Definition ufi_set_mram_mux ci_mask (ci_mux_pos : Z) : W D unit :=
  r ← get_rank;
  let mux_value := for_cis (nr_cis_of r) ci_mask (fun each_ci v =>
    v.[each_ci := if negb (ci_mux_pos &&& Z.shiftl 1 each_ci =? 0) then 0 else 1]) zeros8 in
  _ ← ufi_write_dma_ctrl_datas ci_mask 0x80 mux_value;
  _ ← ufi_write_dma_ctrl ci_mask 0x81 0;
  _ ← ufi_write_dma_ctrl_datas ci_mask 0x82 mux_value;
  _ ← ufi_write_dma_ctrl_datas ci_mask 0x84 mux_value;
  ufi_clear_dma_ctrl ci_mask.

(** ** Debug *)

Definition ufi_debug_replace_stop ci_mask : W D unit :=
  UFI_exec_void_frame ci_mask CI_DEBUG_STD_REPLACE_STOP_ENABLED_STRUCT
    CI_DEBUG_STD_REPLACE_STOP_ENABLED_FRAME.

Definition nr_bits_in_lsb (iram_size : Z) : Z :=
  if iram_size =? Z.shiftl 1 12 then 6
  else if iram_size =? Z.shiftl 1 13 then 7
  else if iram_size =? Z.shiftl 1 14 then 7
  else if iram_size =? Z.shiftl 1 15 then 8
  else if iram_size =? Z.shiftl 1 16 then 8
  else 8.

Definition ufi_debug_pc_read ci_mask (pcs : list Z) : W D (list Z) :=
  r ← get_rank;
  lsb ← UFI_exec_8bit_frame ci_mask CI_PC_LSB_READ_STRUCT CI_PC_LSB_READ_FRAME zeros8;
  msb ← UFI_exec_8bit_frame ci_mask CI_PC_MSB_READ_STRUCT CI_PC_MSB_READ_FRAME zeros8;
  let n := nr_bits_in_lsb (iram_size (desc r)) in
  mret (for_cis (nr_cis_of r) ci_mask (fun each_ci pcs =>
    pcs.[each_ci := u16 ((lsb.[each_ci] &&& (Z.shiftl 1 n - 1))
                         ||| Z.shiftl msb.[each_ci] n)]) pcs).

Definition ufi_debug_pc_sample ci_mask : W D unit :=
  UFI_exec_void_frame ci_mask CI_DEBUG_STD_SAMPLE_PC_STRUCT CI_DEBUG_STD_SAMPLE_PC_FRAME.
End Ufi.

(** ** Lemmas on the visits *)

(** [next_ci] finds the next interface of the mask: none is skipped. *)
Lemma next_ci_loop_spec fuel mask c nr :
  -1 <= c < nr -> nr <= 8 -> nr - c <= Z.of_nat fuel + 1 ->
  let j := next_ci_loop fuel mask (u8 c) nr in
  c < j <= nr /\ (j < nr -> CI_MASK_ON mask j = true) /\
  (forall k, c < k < j -> CI_MASK_ON mask k = false).
Proof.
  revert c. induction fuel as [|fuel IH]; intros c Hc Hnr Hfuel; cbn [next_ci_loop]; cbv zeta;
    assert (u8 (u8 c + 1) = c + 1) as -> by
      (unfold u8; rewrite Zplus_mod_idemp_l; apply Z.mod_small; lia).
  { split; [lia|]. split; [lia|]. intros k; lia. }
  destruct (Z.ltb_spec (c + 1) nr); simpl; [|split; [lia|]; split; [lia|]; intros k; lia].
  destruct (CI_MASK_ON mask (c + 1)) eqn:Hon; simpl.
  - split; [lia|]. split; [done|]. intros k; lia.
  - assert (c + 1 = u8 (c + 1)) as Hu by (symmetry; apply Z.mod_small; lia).
    destruct (IH (c + 1)) as (Hj & Hjon & Hk); [lia..|]. rewrite <-Hu in *.
    split; [lia|]. split; [done|]. intros k Hk'.
    destruct (decide (k = c + 1)) as [->|]; [done|]. apply Hk. lia.
Qed.

Lemma next_ci_nonneg fuel mask c nr : 0 <= next_ci_loop fuel mask c nr.
Proof.
  revert c. induction fuel as [|fuel IH]; intros c; cbn [next_ci_loop]; cbv zeta;
    [|case_bool; [apply IH|]]; apply u8_fits.
Qed.

Section Visits.
Context {S : Type} (nr_cis : Z) (mask_of : S -> Z) (body : Z -> S -> S).
Hypothesis Hnr : 0 <= nr_cis <= 8.

Let step s i := if CI_MASK_ON (mask_of s) i then body i s else s.

Lemma foldl_skip s l : (forall k, k ∈ l -> CI_MASK_ON (mask_of s) k = false) -> foldl step s l = s.
Proof.
  induction l as [|k l IH]; intros Hoff; [done|]. cbn [foldl].
  assert (step s k = s) as -> by (unfold step; by rewrite Hoff by constructor).
  apply IH. intros j Hj. apply Hoff. by constructor.
Qed.

Lemma for_each_ci_loop_stop fuel nr i s : nr <= i -> for_each_ci_loop fuel nr mask_of body i s = s.
Proof. destruct fuel; [done|]. cbn [for_each_ci_loop]. destruct (Z.ltb_spec i nr); [lia|done]. Qed.

Lemma for_each_ci_loop_fold fuel i s :
  0 <= i <= nr_cis -> (i < nr_cis -> CI_MASK_ON (mask_of s) i = true) ->
  nr_cis - i < Z.of_nat fuel ->
  for_each_ci_loop fuel nr_cis mask_of body i s = foldl step s (seqZ i (nr_cis - i)).
Proof.
  revert i s. induction fuel as [|fuel IH]; intros i s Hi Hon Hf; [lia|].
  cbn [for_each_ci_loop]. destruct (Z.ltb_spec i nr_cis).
  2: { by rewrite seqZ_nil by lia. }
  set (s' := body i s).
  destruct (next_ci_loop_spec 256 (mask_of s') i nr_cis) as (Hj & Hjon & Hskip); [lia..|].
  rewrite u8_id in * by (unfold fits; lia). fold (next_ci (mask_of s') i nr_cis) in *.
  set (j := next_ci (mask_of s') i nr_cis) in *.
  rewrite IH by (done || lia).
  rewrite (seqZ_cons i) by lia. cbn [foldl].
  assert (step s i = s') as -> by (unfold step; by rewrite Hon).
  replace (Z.pred (nr_cis - i)) with ((j - Z.succ i) + (nr_cis - j)) by lia.
  rewrite seqZ_app by lia. rewrite foldl_app, (foldl_skip s' (seqZ (Z.succ i) _)).
  - by replace (Z.succ i + (j - Z.succ i)) with j by lia.
  - intros k [? ?]%elem_of_seqZ. apply Hskip. lia.
Qed.

(** The macro visits exactly the interfaces whose bit is set when their turn
    comes, in increasing order. *)
Lemma for_each_ci_fold s :
  for_each_ci nr_cis mask_of body s = foldl step s (seqZ 0 nr_cis).
Proof.
  unfold for_each_ci. change (u8 (-1)) with 255.
  destruct (decide (nr_cis = 0)) as [->|].
  { pose proof (next_ci_nonneg 256 (mask_of s) 255 0) as Hj. fold (next_ci (mask_of s) 255 0) in Hj.
    by apply for_each_ci_loop_stop. }
  destruct (next_ci_loop_spec 256 (mask_of s) (-1) nr_cis) as (Hj & Hjon & Hskip); [lia..|].
  change (u8 (-1)) with 255 in *. fold (next_ci (mask_of s) 255 nr_cis) in *.
  set (j := next_ci (mask_of s) 255 nr_cis) in *.
  rewrite for_each_ci_loop_fold by (done || lia).
  replace (seqZ 0 nr_cis) with (seqZ 0 j ++ seqZ j (nr_cis - j)).
  - rewrite foldl_app, (foldl_skip s (seqZ 0 j)); [done|]. intros k [? ?]%elem_of_seqZ. apply Hskip. lia.
  - pose proof (seqZ_app 0 j (nr_cis - j)) as Ha. rewrite Z.add_0_l in Ha.
    rewrite <-Ha by lia. f_equal. lia.
Qed.
End Visits.

Lemma for_cis_fold {S} nr_cis mask (body : Z -> S -> S) s : 0 <= nr_cis <= 8 ->
  for_cis nr_cis mask body s =
    for_up nr_cis (fun i s => if CI_MASK_ON mask i then body i s else s) s.
Proof. intros Hn. unfold for_cis. by rewrite for_each_ci_fold. Qed.

Lemma visited_filter nr_cis mask : 0 <= nr_cis <= 8 ->
  visited nr_cis mask = List.filter (CI_MASK_ON mask) (seqZ 0 nr_cis).
Proof.
  intros Hn. unfold visited. rewrite for_cis_fold by done. unfold for_up.
  enough (forall l acc, foldl (fun s i => if CI_MASK_ON mask i then s ++ [i] else s) acc l =
    acc ++ List.filter (CI_MASK_ON mask) l) as H by apply H.
  induction l as [|i l IH]; intros acc; simpl; [by rewrite app_nil_r|].
  rewrite IH. case_bool; [by rewrite <-app_assoc|done].
Qed.
