(* ===== verification/Select.v ===== *)
(** * The cached selection and the hardware

    [src/ufi/src/ufi.c] sends a select command or a structure to an interface
    only when the rank's cache says that the interface has another one. This
    file states what the hardware promises ([ControlInterface]) and proves
    that the cache and the hardware agree whenever the functions return
    [DPU_OK], and that a selection is then really in force. *)

From S2P Require Import Prelude CMonad BitConfig CiCommands Rank Ci Ufi.

#[local] Open Scope Z_scope.
#[local] Open Scope dpu_scope.

(** ** What the control interfaces promise

    The registers of an interface that the cache stands for: the structure
    register, written by the words of opcode 0x11, and the selection, set by
    the select frames executed under their structure. *)

(** The selection after one word. *)
Definition target_after (structure cmd : Z) (old : slice_target) : slice_target :=
  let id := Z.shiftr cmd 8 &&& 0xFF in
  if (structure =? CI_SELECT_ALL_STRUCT) && (cmd =? CI_SELECT_ALL_FRAME)
  then mk_slice_target DPU_SLICE_TARGET_ALL 0
  else if (structure =? CI_SELECT_DPU_STRUCT) && (cmd =? CI_SELECT_DPU_FRAME id)
  then mk_slice_target DPU_SLICE_TARGET_DPU id
  else if (structure =? CI_SELECT_GROUP_STRUCT) && (cmd =? CI_SELECT_GROUP_FRAME id)
  then mk_slice_target DPU_SLICE_TARGET_GROUP id
  else old.

Definition structure_after (cmd old : Z) : Z := if is_structure cmd then cmd else old.

(** The words whose effect is specified. *)
Definition plain_word (cmd : Z) : bool := (cmd =? CI_EMPTY) || is_structure cmd || is_frame cmd.

(** The words of the library: frames are frames, whatever the argument. *)
Lemma byte1_range cmd : 0 <= (Z.shiftr cmd 8 &&& 0xFF) < 256.
Proof. rewrite (land_ones_mod _ 8) by lia. apply Z.mod_pos_bound. lia. Qed.

Lemma select_frames_are_frames id : 0 <= id < 256 ->
  is_frame (CI_SELECT_DPU_FRAME id) = true /\ is_frame (CI_SELECT_GROUP_FRAME id) = true.
Proof. intros Hid. revert id Hid. by_eval. Qed.

Lemma target_after_not_frame structure cmd old : is_frame cmd = false ->
  target_after structure cmd old = old.
Proof.
  intros Hf. pose proof (byte1_range cmd) as Hid. unfold target_after.
  set (id := Z.shiftr cmd 8 &&& 0xFF) in *.
  destruct (select_frames_are_frames id Hid) as [Hd Hg].
  destruct (Z.eqb_spec cmd CI_SELECT_ALL_FRAME) as [->|]; [done|].
  destruct (Z.eqb_spec cmd (CI_SELECT_DPU_FRAME id)); [congruence|].
  destruct (Z.eqb_spec cmd (CI_SELECT_GROUP_FRAME id)); [congruence|].
  by rewrite !andb_false_r.
Qed.

Lemma structure_not_frame cmd : is_structure cmd = true -> is_frame cmd = false.
Proof. unfold is_structure, is_frame. intros H. zb2p. by rewrite H. Qed.

Lemma frame_not_structure cmd : is_frame cmd = true -> is_structure cmd = false.
Proof. unfold is_structure, is_frame. intros H. zb2p. by rewrite H. Qed.

Class ControlInterface (D : Type) `{!RankHandler D} := {
  hw_structure : D -> Z -> Z;
  hw_target : D -> Z -> slice_target;
  commit_structure d commands i :
    snd (commit_commands d commands) = DPU_RANK_SUCCESS ->
    0 <= i < DPU_MAX_NR_CIS -> plain_word commands.[i] = true ->
    hw_structure (fst (commit_commands d commands)) i =
      structure_after commands.[i] (hw_structure d i);
  commit_target d commands i :
    snd (commit_commands d commands) = DPU_RANK_SUCCESS ->
    0 <= i < DPU_MAX_NR_CIS -> plain_word commands.[i] = true ->
    hw_target (fst (commit_commands d commands)) i =
      target_after (hw_structure d i) commands.[i] (hw_target d i);
  update_structure d i : hw_structure (fst (update_commands d)) i = hw_structure d i;
  update_target d i : hw_target (fst (update_commands d)) i = hw_target d i;
}.

(** The cached target describes the hardware's one; NONE promises nothing. *)
Definition target_agrees (cached hw : slice_target) : Prop :=
  match st_type cached with
  | DPU_SLICE_TARGET_NONE => True
  | DPU_SLICE_TARGET_ALL => st_type hw = DPU_SLICE_TARGET_ALL
  | t => hw = mk_slice_target t (st_id cached)
  end.

Section Coherence.
Context {D : Type} `{!RankHandler D} `{!ControlInterface D}.
Implicit Types w : world D.

(** The cache describes the hardware. *)
Definition coherent w : Prop := forall i, 0 <= i < nr_cis_of (rk w) ->
  structure_value (slice_of (rk w) i) = hw_structure (dev w) i /\
  target_agrees (slice_target_ (slice_of (rk w) i)) (hw_target (dev w) i).

(** Its half that [UFI_exec_write_structure] relies on. *)
Definition structures_cached w : Prop := forall i, 0 <= i < nr_cis_of (rk w) ->
  structure_value (slice_of (rk w) i) = hw_structure (dev w) i.

Lemma coherent_structures w : coherent w -> structures_cached w.
Proof. intros Hw i Hi. by apply Hw. Qed.

(** The dimensions the functions rely on. *)
Record sized (r : rank) : Prop := {
  sz_cis : 0 < nr_cis_of r <= DPU_MAX_NR_CIS;
  sz_slices : lenz (slice_infos (ci r)) = DPU_MAX_NR_CIS;
  sz_cmds : lenz (cmds r) = DPU_MAX_NR_CIS;
}.

(** ** One packet *)

Definition packet_effect (commands : list Z) (d d' : D) : Prop :=
  forall i, 0 <= i < DPU_MAX_NR_CIS ->
    hw_structure d' i = structure_after commands.[i] (hw_structure d i) /\
    hw_target d' i = target_after (hw_structure d i) commands.[i] (hw_target d i).

Lemma wp_exec_packet commands add w :
  (forall i, 0 <= i < DPU_MAX_NR_CIS -> plain_word commands.[i] = true) ->
  wp (exec_cmd commands add)
    (fun res w' => same_config (rk w) (rk w') /\
       (res = Ok tt -> packet_effect commands (dev w) (dev w'))) w.
Proof.
  intros Hplain. eapply wp_mono; [apply (wp_exec_cmd (packet_effect commands (dev w)))|].
  - intros d Hd i Hi. destruct (Hd i Hi) as [Hs Ht].
    by rewrite update_structure, update_target.
  - intros Hok i Hi. split; [by apply commit_structure; auto|by apply commit_target; auto].
  - intros res w' (Hsc & _ & HP). done.
Qed.

Lemma plain_prepare buffer mask word : lenz buffer = DPU_MAX_NR_CIS -> plain_word word = true ->
  forall i, 0 <= i < DPU_MAX_NR_CIS -> plain_word (ci_prepare_mask buffer mask word).[i] = true.
Proof. intros Hl Hw i Hi. rewrite getz_ci_prepare_mask by done. by case_bool. Qed.

(** ** Structures and frames *)

(** The effect of a structure and a frame on the interfaces of [mask]. *)
Record frame_post (mask structure : Z) (tgt : slice_target -> slice_target) w w' : Prop := {
  fp_desc : desc (rk w') = desc (rk w);
  fp_sized : sized (rk w');
  fp_slices : forall i, 0 <= i < nr_cis_of (rk w) -> slice_of (rk w') i =
    if CI_MASK_ON mask i then set_structure_value structure (slice_of (rk w) i)
    else slice_of (rk w) i;
  fp_structure : forall i, 0 <= i < nr_cis_of (rk w) -> hw_structure (dev w') i =
    if CI_MASK_ON mask i then structure else hw_structure (dev w) i;
  fp_target : forall i, 0 <= i < nr_cis_of (rk w) -> hw_target (dev w') i =
    if CI_MASK_ON mask i then tgt (hw_target (dev w) i) else hw_target (dev w) i;
}.

Lemma same_config_sized r r' : same_config r r' -> sized r -> sized r'.
Proof.
  intros Hsc [Hn Hs Hc]. split.
  - unfold nr_cis_of. by rewrite (sc_desc _ _ Hsc).
  - by rewrite (sc_slices _ _ Hsc).
  - by rewrite (sc_cmds _ _ Hsc).
Qed.

Lemma same_config_slice r r' i : same_config r r' -> slice_of r' i = slice_of r i.
Proof. intros Hsc. unfold slice_of. by rewrite (sc_slices _ _ Hsc). Qed.

Lemma cache_structure_spec mask structure r : sized r ->
  let '(do_write, r') := cache_structure mask structure r in
  desc r' = desc r /\ sized r' /\ cmds r' = cmds r /\
  (forall i, 0 <= i < nr_cis_of r -> slice_of r' i =
     if CI_MASK_ON mask i then set_structure_value structure (slice_of r i) else slice_of r i) /\
  (do_write = false -> forall i, 0 <= i < nr_cis_of r -> CI_MASK_ON mask i = true ->
     structure_value (slice_of r i) = structure).
Proof.
  intros [Hn Hs Hc]. unfold DPU_MAX_NR_CIS in *. unfold cache_structure.
  rewrite for_cis_fold by lia.
  set (body := fun _ _ => _).
  pose (P := fun (k : Z) '((do_write, r') : bool * rank) =>
    desc r' = desc r /\ lenz (slice_infos (ci r')) = 8 /\ cmds r' = cmds r /\
    (forall i, 0 <= i < nr_cis_of r -> slice_of r' i =
       if decide (i < k) then
         if CI_MASK_ON mask i then set_structure_value structure (slice_of r i) else slice_of r i
       else slice_of r i) /\
    (do_write = false -> forall i, 0 <= i < k -> CI_MASK_ON mask i = true ->
       structure_value (slice_of r i) = structure)).
  enough (P (nr_cis_of r) (for_up (nr_cis_of r) body (false, r))) as HP.
  { unfold P in HP. destruct (for_up _ _ _) as [do_write r'].
    destruct HP as (Hd & Hl & Hcm & Hsl & Hdo). split_and!; [done| |done| |done].
    - split; [unfold nr_cis_of; by rewrite Hd|done|by rewrite Hcm].
    - intros i Hi. rewrite Hsl by done. by rewrite decide_True by lia. }
  apply for_up_ind; [lia| |].
  { split_and!; try done; intros; [by rewrite decide_False by lia|lia]. }
  intros k [do_write r'] Hk (Hd & Hl & Hcm & Hsl & Hdo). unfold body.
  assert (slice_of r' k = slice_of r k) as Hk' by (rewrite Hsl by lia; by rewrite decide_False by lia).
  destruct (CI_MASK_ON mask k) eqn:Hon; [destruct (Z.eqb_spec (structure_value (slice_of r' k)) structure) as [He|He]|];
    cbn [negb].
  - split_and!; try done.
    + intros i Hi. rewrite Hsl by done. destruct (decide (i = k)) as [->|].
      * rewrite decide_False, decide_True, Hon by lia. rewrite <-Hk', <-He.
        by destruct (slice_of r' k).
      * repeat case_decide; try lia; done.
    + intros Hf i Hi Hoi. destruct (decide (i = k)) as [->|]; [congruence|apply Hdo; [done|lia|done]].
  - split_and!; try done.
    + cbn. by rewrite lenz_setz.
    + intros i Hi. rewrite slice_of_upd by lia. case_decide as Hki.
      * subst i. rewrite decide_True, Hon by lia. by rewrite Hk'.
      * rewrite Hsl by done. repeat case_decide; try lia; done.
  - split_and!; try done.
    + intros i Hi. rewrite Hsl by done. destruct (decide (i = k)) as [->|].
      * by rewrite decide_False, decide_True, Hon by lia.
      * repeat case_decide; try lia; done.
    + intros Hf i Hi Hoi. apply Hdo; [done| |done].
      destruct (decide (i = k)) as [->|]; [congruence|lia].
Qed.

(** [UFI_exec_write_structure] leaves the structure in the register of every
    interface of the mask, whether or not it sends it. *)
Lemma wp_write_structure mask structure w :
  sized (rk w) -> structures_cached w -> is_structure structure = true ->
  wp (UFI_exec_write_structure mask structure)
    (fun res w' => res = Ok tt -> frame_post mask structure id w w') w.
Proof.
  intros Hsz Hcoh Hst. unfold UFI_exec_write_structure, get_rank. wp_step. apply wp_gets.
  pose proof (cache_structure_spec mask structure (rk w) Hsz) as Hc.
  destruct (cache_structure mask structure (rk w)) as [do_write r1].
  destruct Hc as (Hd & Hsz1 & Hcm & Hsl & Hdo). cbv beta iota.
  assert (nr_cis_of r1 = nr_cis_of (rk w)) as Hn1 by (unfold nr_cis_of; by rewrite Hd).
  wp_step. apply wp_modify. cbv beta iota. destruct do_write.
  2: { apply wp_ret. intros _. split; try done; cbn [rk dev]; intros i Hi.
       - destruct (CI_MASK_ON mask i) eqn:Hon; [|done].
         rewrite <-(Hdo eq_refl i Hi Hon). symmetry. by apply Hcoh.
       - by case_bool. }
  unfold prepare_cmds, with_cmds, get_rank, ci_exec_void_cmd.
  wp_step. apply wp_modify. cbv beta iota. wp_step. apply wp_gets. cbv beta iota. cbn [rk dev].
  set (r2 := set_cmds _ r1). set (w2 := mk_world r2 (dev w)).
  pose proof (sz_cmds _ Hsz1) as Hlc.
  eapply wp_mono.
  { apply wp_exec_packet. apply plain_prepare; [done|]. unfold plain_word. by rewrite Hst, orb_true_r. }
  intros res w3 [Hsc Heff] Hok. specialize (Heff Hok).
  assert (forall i, 0 <= i < nr_cis_of (rk w) -> 0 <= i < DPU_MAX_NR_CIS) as Hrange
    by (intros i Hi; pose proof (sz_cis _ Hsz); lia).
  split.
  - by rewrite (sc_desc _ _ Hsc).
  - apply (same_config_sized _ _ Hsc). destruct Hsz1 as [? ? ?]. split; [done|done|].
    cbn. by rewrite lenz_ci_prepare_mask.
  - intros i Hi. rewrite (same_config_slice _ _ i Hsc). by apply Hsl.
  - intros i Hi. destruct (Heff i (Hrange i Hi)) as [-> _]. cbn [rk dev w2].
    unfold r2. cbn [cmds set_cmds]. rewrite getz_ci_prepare_mask by auto.
    unfold structure_after. destruct (CI_MASK_ON mask i); [by rewrite Hst|done].
  - intros i Hi. destruct (Heff i (Hrange i Hi)) as [_ ->]. cbn [rk dev w2].
    unfold r2. cbn [cmds set_cmds]. rewrite getz_ci_prepare_mask by auto.
    destruct (CI_MASK_ON mask i); apply target_after_not_frame; [by apply structure_not_frame|done].
Qed.

(** The effect of a select frame under its structure. *)
Lemma wp_void_frame mask structure frame tgt w :
  sized (rk w) -> structures_cached w -> is_structure structure = true -> is_frame frame = true ->
  (forall old, target_after structure frame old = tgt old) ->
  wp (UFI_exec_void_frame mask structure frame)
    (fun res w' => res = Ok tt -> frame_post mask structure tgt w w') w.
Proof.
  intros Hsz Hcoh Hst Hfr Htgt. unfold UFI_exec_void_frame. wp_step.
  eapply wp_mono; [by apply wp_write_structure|].
  intros [[]|e] w1 H1; [|done]. destruct (H1 eq_refl) as [Hd1 Hsz1 Hsl1 Hs1 Ht1]. clear H1.
  assert (nr_cis_of (rk w1) = nr_cis_of (rk w)) as Hn1 by (unfold nr_cis_of; by rewrite Hd1).
  unfold prepare_cmds, with_cmds, get_rank, ci_exec_void_cmd.
  wp_step. apply wp_modify. cbv beta iota. wp_step. apply wp_gets. cbv beta iota. cbn [rk dev].
  pose proof (sz_cmds _ Hsz1) as Hlc.
  eapply wp_mono.
  { apply wp_exec_packet. apply plain_prepare; [done|]. unfold plain_word. by rewrite Hfr, !orb_true_r. }
  intros res w3 [Hsc Heff] Hok. specialize (Heff Hok). cbn [rk dev] in *.
  assert (forall i, 0 <= i < nr_cis_of (rk w) -> 0 <= i < DPU_MAX_NR_CIS) as Hrange
    by (intros i Hi; pose proof (sz_cis _ Hsz); lia).
  split.
  - by rewrite (sc_desc _ _ Hsc).
  - apply (same_config_sized _ _ Hsc). destruct Hsz1 as [? ? ?]. split; [done|done|].
    cbn. by rewrite lenz_ci_prepare_mask.
  - intros i Hi. rewrite (same_config_slice _ _ i Hsc). by apply Hsl1.
  - intros i Hi. destruct (Heff i (Hrange i Hi)) as [-> _].
    cbn [cmds set_cmds]. rewrite getz_ci_prepare_mask by auto. rewrite Hs1 by done.
    unfold structure_after.
    destruct (CI_MASK_ON mask i); [by rewrite (frame_not_structure _ Hfr)|done].
  - intros i Hi. destruct (Heff i (Hrange i Hi)) as [_ ->].
    cbn [cmds set_cmds]. rewrite getz_ci_prepare_mask by auto. rewrite Hs1, Ht1 by done.
    destruct (CI_MASK_ON mask i); [by rewrite Htgt|by apply target_after_not_frame].
Qed.

(** After a successful exchange the cache still describes the hardware if
    it describes the target that the frame has just set. *)
Lemma frame_post_coherent mask structure tgt w w' :
  frame_post mask structure tgt w w' -> structures_cached w ->
  (forall i, 0 <= i < nr_cis_of (rk w) ->
     target_agrees (slice_target_ (slice_of (rk w) i))
       (if CI_MASK_ON mask i then tgt (hw_target (dev w) i) else hw_target (dev w) i)) ->
  coherent w'.
Proof.
  intros [Hd Hsz Hsl Hs Ht] Hst Htg i Hi.
  assert (nr_cis_of (rk w') = nr_cis_of (rk w)) as Hn' by (unfold nr_cis_of; by rewrite Hd).
  rewrite Hn' in Hi. rewrite Hsl, Hs, Ht by done.
  pose proof (Htg i Hi). pose proof (Hst i Hi). by destruct (CI_MASK_ON mask i).
Qed.

(** ** The selection loop *)

(** The common shape of the selection loops: keep the interface or drop it
    from the mask; when it is kept, give it the target unless it has it. *)
Definition gen_step (keep cur : slice_info -> bool) (target : slice_info -> slice_info)
    (each_ci : Z) (s : selection) : selection :=
  let info := sel_info each_ci s in
  if keep info then if negb (cur info) then sel_target each_ci target s else s
  else sel_drop each_ci s.

Lemma CI_MASK_ON_clear mask i j : 0 <= i < 8 -> 0 <= j < 8 ->
  CI_MASK_ON (clear_ci mask i) j = if decide (j = i) then false else CI_MASK_ON mask j.
Proof.
  intros Hi Hj. unfold clear_ci, CI_MASK_ONE.
  rewrite !CI_MASK_ON_testbit, not8_land_testbit, testbit_pow2 by lia.
  case_decide; subst; [by rewrite bool_decide_true, andb_false_r|].
  by rewrite bool_decide_false, andb_true_r.
Qed.

(** The selected interfaces and their new cached targets. *)
Definition picked (keep : slice_info -> bool) (mask : Z) (r : rank) (i : Z) : bool :=
  CI_MASK_ON mask i && keep (slice_of r i).

Record sel_post (keep cur : slice_info -> bool) (target : slice_info -> slice_info)
    (mask : Z) (r : rank) (k : Z) (s : selection) : Prop := {
  sp_desc : desc (sel_rank s) = desc r;
  sp_sized : sized (sel_rank s);
  sp_mask : forall i, 0 <= i < nr_cis_of r -> CI_MASK_ON (sel_mask s) i =
    if i <? k then picked keep mask r i else CI_MASK_ON mask i;
  sp_slices : forall i, 0 <= i < nr_cis_of r -> slice_of (sel_rank s) i =
    if (i <? k) && picked keep mask r i && negb (cur (slice_of r i))
    then target (slice_of r i) else slice_of r i;
  sp_do : sel_do s = false -> sel_rank s = r /\
    forall i, 0 <= i < k -> picked keep mask r i = true -> cur (slice_of r i) = true;
}.

Lemma sel_loop_spec keep cur target mask r : sized r ->
  sel_post keep cur target mask r (nr_cis_of r)
    (sel_loop (nr_cis_of r) (gen_step keep cur target) mask r).
Proof.
  intros Hsz. pose proof (sz_cis _ Hsz) as Hn. unfold DPU_MAX_NR_CIS in Hn.
  unfold sel_loop. rewrite for_each_ci_fold by lia.
  match goal with |- context [foldl _ ?s0 _] =>
    change (foldl _ s0 _) with (for_up (nr_cis_of r) (fun i s =>
      if CI_MASK_ON (sel_mask s) i then gen_step keep cur target i s else s) s0) end.
  apply (for_up_ind (sel_post keep cur target mask r)); [lia| |].
  { split; try done; cbn.
    - intros i Hi. destruct (Z.ltb_spec i 0); [lia|done].
    - intros i Hi. destruct (Z.ltb_spec i 0); [lia|done].
    - intros _. split; [done|]. intros i Hi. lia. }
  intros k s Hk [Hd Hs Hm Hsl Hdo].
  assert (slice_of (sel_rank s) k = slice_of r k) as Hsk
    by (rewrite Hsl by lia; by rewrite Z.ltb_irrefl).
  assert (CI_MASK_ON (sel_mask s) k = CI_MASK_ON mask k) as Hmk
    by (rewrite Hm by lia; by rewrite Z.ltb_irrefl).
  assert (forall i, i <> k -> (i <? k + 1) = (i <? k)) as Hlt
    by (intros i Hi; destruct (Z.ltb_spec i k), (Z.ltb_spec i (k + 1)); lia || done).
  assert ((k <? k + 1) = true) as Hkk by (apply Z.ltb_lt; lia).
  rewrite Hmk. unfold gen_step, sel_info. rewrite Hsk.
  assert (picked keep mask r k = CI_MASK_ON mask k && keep (slice_of r k)) as Hp by done.
  destruct (CI_MASK_ON mask k) eqn:Hon; [destruct (keep (slice_of r k)) eqn:Hkeep;
    [destruct (cur (slice_of r k)) eqn:Hcur|]|]; cbn [negb andb] in *; (split; cbn).
  (* each case: the invariant of the other interfaces, then interface k *)
  all: try done.
  all: try (intros i Hi; destruct (decide (i = k)) as [->|Hik];
    [rewrite Hkk, Hp; cbn; congruence || (by rewrite ?Hsk, ?Hcur, ?Hmk, ?Hon)
    |rewrite (Hlt i Hik); by auto]).
  all: try (intros Hf; destruct (Hdo Hf) as [Hsr Hdo']; split; [done|]; intros i Hi Hpi; destruct (decide (i = k)) as [->|]; [congruence|apply Hdo'; [lia|done]]).
  - destruct Hs as [? Hls ?]. split; [done|cbn; by rewrite lenz_setz|done].
  - intros i Hi. rewrite slice_of_upd by (destruct Hs; unfold DPU_MAX_NR_CIS in *; lia).
    destruct (decide (k = i)) as [<-|Hki]; [by rewrite Hkk, Hp, Hcur, Hsk|].
    rewrite (Hlt i) by done. by apply Hsl.
  - intros i Hi. rewrite CI_MASK_ON_clear by lia.
    destruct (decide (i = k)) as [->|Hki]; [by rewrite Hkk, Hp|].
    rewrite (Hlt i) by done. by apply Hm.
Qed.

(** ** Selecting by frame *)

(** What a successful selection of [t id] guarantees. *)
Record selected (keep : slice_info -> bool) (t : dpu_slice_target_type) (id mask mask' : Z)
    w w' : Prop := {
  se_coherent : coherent w';
  se_sized : sized (rk w');
  se_nr : nr_cis_of (rk w') = nr_cis_of (rk w);
  se_mask : forall i, 0 <= i < nr_cis_of (rk w) -> CI_MASK_ON mask' i = picked keep mask (rk w) i;
  se_hw : forall i, 0 <= i < nr_cis_of (rk w) -> hw_target (dev w') i =
    if CI_MASK_ON mask' i then mk_slice_target t id else hw_target (dev w) i;
  se_cached : forall i, 0 <= i < nr_cis_of (rk w) -> CI_MASK_ON mask' i = true ->
    slice_target_ (slice_of (rk w') i) = mk_slice_target t id;
  se_enabled : forall i, 0 <= i < nr_cis_of (rk w) ->
    enabled_dpus (slice_of (rk w') i) = enabled_dpus (slice_of (rk w) i) /\
    dpus_per_group (slice_of (rk w') i) = dpus_per_group (slice_of (rk w) i);
}.

(** [commit_selection] after the loop: the cache agrees with the hardware, and
    the interfaces left in the mask have the target. *)
Lemma wp_commit_selection keep cur t id structure frame mask s w :
  sel_post keep cur (set_target t id) mask (rk w) (nr_cis_of (rk w)) s ->
  sized (rk w) -> coherent w ->
  is_structure structure = true -> is_frame frame = true ->
  (t = DPU_SLICE_TARGET_DPU \/ t = DPU_SLICE_TARGET_GROUP) ->
  (forall old, target_after structure frame old = mk_slice_target t id) ->
  (forall info, cur info = true -> slice_target_ info = mk_slice_target t id) ->
  wp (commit_selection structure frame s)
    (fun res w' => forall mask', res = Ok mask' -> selected keep t id mask mask' w w') w.
Proof.
  intros [Hd Hsz1 Hm Hsl Hdo] Hsz Hcoh Hst Hfr Ht Htgt Hcur.
  assert (nr_cis_of (sel_rank s) = nr_cis_of (rk w)) as Hn1 by (unfold nr_cis_of; by rewrite Hd).
  assert (forall i, 0 <= i < nr_cis_of (rk w) -> (i <? nr_cis_of (rk w)) = true) as Hlt
    by (intros i [_ Hi]; by apply Z.ltb_lt).
  assert (forall i, 0 <= i < nr_cis_of (rk w) ->
    CI_MASK_ON (sel_mask s) i = picked keep mask (rk w) i) as Hm'
    by (intros i Hi; by rewrite Hm, Hlt).
  assert (forall i, 0 <= i < nr_cis_of (rk w) -> picked keep mask (rk w) i = true ->
    slice_target_ (slice_of (sel_rank s) i) = mk_slice_target t id) as Hcached.
  { intros i Hi Hp. rewrite Hsl, Hlt, Hp by done. cbn [andb].
    destruct (cur (slice_of (rk w) i)) eqn:Hc; [by apply Hcur|done]. }
  assert (forall i, 0 <= i < nr_cis_of (rk w) ->
    enabled_dpus (slice_of (sel_rank s) i) = enabled_dpus (slice_of (rk w) i) /\
    dpus_per_group (slice_of (sel_rank s) i) = dpus_per_group (slice_of (rk w) i)) as Hen
    by (intros i Hi; rewrite Hsl by done; by case_bool).
  unfold commit_selection. wp_step. apply wp_modify. cbv beta iota. wp_step.
  set (w1 := mk_world (sel_rank s) (dev w)).
  assert (structures_cached w1) as Hsc1.
  { intros i Hi. cbn [w1 rk dev] in *. rewrite Hn1 in Hi. rewrite Hsl by done.
    rewrite <-(coherent_structures w Hcoh i Hi). by case_bool. }
  assert (target_agrees (mk_slice_target t id) (mk_slice_target t id)) as Hself
    by (by destruct Ht; subst t).
  destruct (sel_do s) eqn:Hdo_s.
  - eapply wp_mono.
    { apply (wp_void_frame (sel_mask s) structure frame (fun _ => mk_slice_target t id) w1); done. }
    intros [[]|e] w2 H2; [|done]. specialize (H2 eq_refl). apply wp_ret.
    intros mask' [= <-]. pose proof (fp_slices _ _ _ _ _ H2) as Hsl2. cbn [w1 rk] in Hsl2.
    rewrite Hn1 in Hsl2. split.
    + apply (frame_post_coherent _ _ _ _ _ H2); [done|]. cbn [w1 rk dev]. rewrite Hn1.
      intros i Hi. rewrite Hm' by done. destruct (picked keep mask (rk w) i) eqn:Hp.
      * by rewrite Hcached.
      * rewrite Hsl, Hlt, Hp by done. by apply Hcoh.
    + apply H2.
    + rewrite <-Hn1. unfold nr_cis_of. by rewrite (fp_desc _ _ _ _ _ H2).
    + done.
    + intros i Hi. rewrite (fp_target _ _ _ _ _ H2); [done|]. cbn [w1 rk]. by rewrite Hn1.
    + intros i Hi Hon. rewrite Hsl2, Hon by done. cbn. apply Hcached; [done|]. by rewrite <-Hm'.
    + intros i Hi. rewrite Hsl2 by done. destruct (Hen i Hi).
      by destruct (CI_MASK_ON (sel_mask s) i).
  - destruct (Hdo eq_refl) as [Hr Hdo']. apply wp_ret. apply wp_ret.
    assert (w1 = w) as -> by (unfold w1; rewrite Hr; by destruct w).
    rewrite Hr in *. intros mask' [= <-]. split; try done.
    + intros i Hi. rewrite Hm' by done. destruct (picked keep mask (rk w) i) eqn:Hp; [|done].
      destruct (Hcoh i Hi) as [_ Hta]. revert Hta. rewrite (Hcached i Hi Hp). unfold target_agrees.
      destruct Ht; subst t; cbn [st_type st_id]; intros H; exact H.
    + intros i Hi Hon. apply Hcached; [done|]. by rewrite <-Hm'.
Qed.

(** Selecting again what is selected sends nothing. *)
Lemma commit_selection_again keep cur t id structure frame mask s w :
  sel_post keep cur (set_target t id) mask (rk w) (nr_cis_of (rk w)) s -> sel_do s = false ->
  commit_selection structure frame s w = (w, Ok (sel_mask s)).
Proof.
  intros Hs Hdo. destruct (sp_do _ _ _ _ _ _ _ Hs Hdo) as [Hr _].
  unfold commit_selection, mbind, C_bind, on_rank, modify. rewrite Hdo, Hr. by destruct w.
Qed.
End Coherence.

(** ** A simulated set of interfaces

    The registers of the specification and an answer whose colour flips at
    every command: the interface is satisfiable, and the examples run on it. *)

Record sim := mk_sim {
  sim_structure : list Z; sim_target : list slice_target; sim_answer : list Z;
  sim_log : list (list Z) }.

Definition answer_color0 := 0x000000FF00000000.
Definition answer_color1 := 0x00FF00FF00000000.

Definition sim_commit (d : sim) (commands : list Z) : sim :=
  mk_sim
    (map (fun i => structure_after commands.[i] (sim_structure d).[i]) (seqZ 0 8))
    (map (fun i => target_after (sim_structure d).[i] commands.[i] (sim_target d).[i]) (seqZ 0 8))
    (map (fun i => if commands.[i] =? CI_EMPTY then (sim_answer d).[i]
                   else if Z.testbit (sim_answer d).[i] 48 then answer_color0 else answer_color1)
       (seqZ 0 8))
    (sim_log d ++ [commands]).

#[export] Instance sim_handler : RankHandler sim := {
  commit_commands d commands := (sim_commit d commands, DPU_RANK_SUCCESS);
  update_commands d := (d, (sim_answer d, DPU_RANK_SUCCESS));
}.

#[export, refine] Instance sim_interface : ControlInterface sim := {
  hw_structure d i := (sim_structure d).[i];
  hw_target d i := (sim_target d).[i];
}.
Proof.
  - intros d commands i _ Hi _. cbn. by rewrite lookup_map_seqZ.
  - intros d commands i _ Hi _. cbn. by rewrite lookup_map_seqZ.
  - done.
  - done.
Defined.

Definition sim0 : sim :=
  mk_sim (replicate 8 0) (replicate 8 (mk_slice_target DPU_SLICE_TARGET_NONE 0))
    (replicate 8 answer_color1) [].
Definition sim_world (nr_cis nr_dpus : Z) : world sim := mk_world (sample_rank nr_cis nr_dpus) sim0.

#[export] Instance sized_dec r : Decision (sized r).
Proof.
  refine (cast_if (decide (0 < nr_cis_of r <= DPU_MAX_NR_CIS /\
    lenz (slice_infos (ci r)) = DPU_MAX_NR_CIS /\ lenz (cmds r) = DPU_MAX_NR_CIS))).
  - abstract (by split; destruct_and!).
  - abstract (intros [? ? ?]; apply n; split_and!; tauto).
Defined.

Lemma sim_world_coherent nr_cis nr_dpus : 0 <= nr_cis <= 8 -> coherent (sim_world nr_cis nr_dpus).
Proof.
  intros Hn i Hi. cbn in Hi. destruct (Z_of_nat_complete i ltac:(lia)) as [k ->].
  do 8 (destruct k as [|k]; [done|]). lia.
Qed.

(** ** Properties *)

Section Properties.
Context {D : Type} `{!RankHandler D} `{!ControlInterface D}.
Implicit Types w : world D.

Lemma select_dpu_frame_effect dpu old : 0 <= dpu < 256 ->
  target_after CI_SELECT_DPU_STRUCT (CI_SELECT_DPU_FRAME dpu) old =
    mk_slice_target DPU_SLICE_TARGET_DPU dpu.
Proof.
  intros Hd. assert ((Z.shiftr (CI_SELECT_DPU_FRAME dpu) 8 &&& 0xFF) = dpu) as Hid
    by (revert dpu Hd; by_eval).
  assert (CI_SELECT_DPU_FRAME dpu <> CI_SELECT_ALL_FRAME) as Hne
    by (revert dpu Hd Hid; clear; intros dpu Hd _; revert dpu Hd; by_eval).
  unfold target_after. rewrite Hid, (proj2 (Z.eqb_neq _ _) Hne), andb_false_r, !Z.eqb_refl. done.
Qed.

Lemma select_group_frame_effect group old : 0 <= group < 256 ->
  target_after CI_SELECT_GROUP_STRUCT (CI_SELECT_GROUP_FRAME group) old =
    mk_slice_target DPU_SLICE_TARGET_GROUP group.
Proof.
  intros Hg. assert ((Z.shiftr (CI_SELECT_GROUP_FRAME group) 8 &&& 0xFF) = group) as Hid
    by (revert group Hg; by_eval).
  assert (CI_SELECT_GROUP_FRAME group <> CI_SELECT_ALL_FRAME /\
          CI_SELECT_GROUP_FRAME group <> CI_SELECT_DPU_FRAME group) as [Ha Hd]
    by (revert group Hg Hid; clear; intros group Hg _; revert group Hg; by_eval).
  unfold target_after. rewrite Hid, (proj2 (Z.eqb_neq _ _) Ha), andb_false_r.
  rewrite (proj2 (Z.eqb_neq _ _) Hd), andb_false_r, !Z.eqb_refl. done.
Qed.

Lemma is_dpu_target dpu info : is_dpu info dpu = true ->
  slice_target_ info = mk_slice_target DPU_SLICE_TARGET_DPU dpu.
Proof.
  unfold is_dpu, is_target, target_id. intros H. zb2p. apply bool_decide_eq_true in H.
  destruct (slice_target_ info). by simpl in *; subst.
Qed.

Lemma is_group_target group info : is_group info group = true ->
  slice_target_ info = mk_slice_target DPU_SLICE_TARGET_GROUP group.
Proof.
  unfold is_group, is_target, target_id. intros H. zb2p. apply bool_decide_eq_true in H.
  destruct (slice_target_ info). by simpl in *; subst.
Qed.

(** The interfaces a DPU selection keeps: those where the DPU is enabled. *)
Definition dpu_enabled_on (dpu : Z) (info : slice_info) : bool :=
  negb (enabled_dpus info &&& Z.shiftl 1 dpu =? 0).
Definition group_populated (group : Z) (info : slice_info) : bool :=
  negb ((dpus_per_group info).[group] =? 0).

Lemma wp_select_dpu mask dpu w : sized (rk w) -> coherent w -> 0 <= dpu < 256 ->
  wp (ufi_select_dpu mask dpu) (fun res w' => forall mask', res = Ok mask' ->
    selected (dpu_enabled_on dpu) DPU_SLICE_TARGET_DPU dpu mask mask' w w') w.
Proof.
  intros Hsz Hcoh Hdpu. unfold ufi_select_dpu, get_rank. wp_step. apply wp_gets. cbv beta iota.
  eapply wp_commit_selection; try done.
  - exact (sel_loop_spec (dpu_enabled_on dpu) (fun info => is_dpu info dpu)
      (set_target DPU_SLICE_TARGET_DPU dpu) mask (rk w) Hsz).
  - revert dpu Hdpu. by_eval.
  - by left.
  - intros old. by apply select_dpu_frame_effect.
  - apply is_dpu_target.
Qed.

(** C25: selecting a DPU on the interfaces of a mask keeps those where the DPU is
    enabled; when it succeeds, the hardware of each of them has this DPU
    selected (whether or not a command was needed), the others keep their
    selection, and the cache still describes the hardware. *)
Theorem ufi_select_dpu_selects mask dpu w w' mask' :
  sized (rk w) -> coherent w -> 0 <= dpu < 256 ->
  ufi_select_dpu mask dpu w = (w', Ok mask') ->
  selected (dpu_enabled_on dpu) DPU_SLICE_TARGET_DPU dpu mask mask' w w'.
Proof.
  intros Hsz Hcoh Hdpu Hrun.
  pose proof (wp_select_dpu mask dpu w Hsz Hcoh Hdpu) as H.
  unfold wp in H. rewrite Hrun in H. by apply H.
Qed.

(** selecting a group keeps the interfaces where the group has a member,
    and the group is then selected on each of them. *)
Theorem ufi_select_group_selects mask group w w' mask' :
  sized (rk w) -> coherent w -> 0 <= group < 256 ->
  ufi_select_group mask group w = (w', Ok mask') ->
  selected (group_populated group) DPU_SLICE_TARGET_GROUP group mask mask' w w'.
Proof.
  intros Hsz Hcoh Hg Hrun.
  enough (wp (ufi_select_group mask group) (fun res w' => forall mask', res = Ok mask' ->
    selected (group_populated group) DPU_SLICE_TARGET_GROUP group mask mask' w w') w) as H
    by (unfold wp in H; rewrite Hrun in H; by apply H).
  unfold ufi_select_group, get_rank. wp_step. apply wp_gets. cbv beta iota.
  eapply wp_commit_selection; try done.
  - exact (sel_loop_spec (group_populated group) (fun info => is_group info group)
      (set_target DPU_SLICE_TARGET_GROUP group) mask (rk w) Hsz).
  - revert group Hg Hrun. clear. intros group Hg _. revert group Hg. by_eval.
  - by right.
  - intros old. by apply select_group_frame_effect.
  - apply is_group_target.
Qed.

(** A loop that finds every kept interface on target requests nothing. *)
Lemma sel_loop_idle keep cur target mask r : sized r ->
  (forall i, 0 <= i < nr_cis_of r -> CI_MASK_ON mask i = true ->
     keep (slice_of r i) = true /\ cur (slice_of r i) = true) ->
  sel_loop (nr_cis_of r) (gen_step keep cur target) mask r =
    mk_selection mask false (ci_prepare_mask zeros8 0 0) r.
Proof.
  intros Hsz Hall. pose proof (sz_cis _ Hsz) as Hn. unfold DPU_MAX_NR_CIS in Hn.
  unfold sel_loop. rewrite for_each_ci_fold by lia.
  match goal with |- foldl ?f ?s0 ?l = _ => enough (for_up (nr_cis_of r) (fun i s => f s i) s0 = s0) by done end.
  apply (for_up_ind (fun _ s => s = mk_selection mask false (ci_prepare_mask zeros8 0 0) r));
    [lia|done|].
  intros i s Hi ->. cbn [sel_mask]. destruct (CI_MASK_ON mask i) eqn:Hon; [|done].
  destruct (Hall i Hi Hon) as [Hk Hc]. unfold gen_step, sel_info. cbn [sel_rank].
  by rewrite Hk, Hc.
Qed.

(** the selection cache works: after a successful selection of a DPU,
    selecting it again on the mask that was returned changes nothing and sends
    nothing. *)
Theorem ufi_select_dpu_cached mask dpu w w' mask' :
  sized (rk w) -> coherent w -> 0 <= dpu < 256 ->
  ufi_select_dpu mask dpu w = (w', Ok mask') ->
  ufi_select_dpu mask' dpu w' = (w', Ok mask').
Proof.
  intros Hsz Hcoh Hdpu Hrun.
  pose proof (wp_select_dpu mask dpu w Hsz Hcoh Hdpu) as H. unfold wp in H. rewrite Hrun in H.
  cbn [fst snd] in H. destruct (H mask' eq_refl) as [_ Hsz' Hn Hm _ Hc He].
    unfold ufi_select_dpu, get_rank, mbind, C_bind, gets. cbv beta iota.
    change (select_dpu_step dpu) with (gen_step (dpu_enabled_on dpu) (fun info => is_dpu info dpu)
      (set_target DPU_SLICE_TARGET_DPU dpu)).
    rewrite sel_loop_idle; [|done|].
    { unfold commit_selection, mbind, C_bind, on_rank, modify. cbn. by destruct w'. }
    rewrite Hn. intros i Hi Hon. split.
    - unfold dpu_enabled_on. rewrite (proj1 (He i Hi)).
      pose proof (Hm i Hi) as Hmi. rewrite Hon in Hmi. unfold picked in Hmi.
      symmetry in Hmi. by apply andb_true_iff in Hmi as [_ ?].
    - unfold is_dpu, is_target, target_id. rewrite (Hc i Hi Hon). cbn.
      by rewrite Z.eqb_refl.
Qed.
End Properties.

(** ** Examples *)

(** DPU 3 is disabled on interface 1. *)
Definition sel_world : world sim :=
  let w := sim_world 2 8 in
  mk_world (upd_slice 1 (fun i => set_enabled_dpus 0xF7 (set_all_dpus_are_enabled false i)) (rk w))
    (dev w).

Lemma sel_world_coherent : coherent sel_world.
Proof.
  intros i Hi. change (0 <= i < 2) in Hi. assert (i = 0 \/ i = 1) as [->| ->] by lia; done.
Qed.

Lemma ufi_select_dpu_selects_witness : exists w',
  ufi_select_dpu 0xFF 3 sel_world = (w', Ok 0xFD) /\
  hw_target (dev w') 0 = mk_slice_target DPU_SLICE_TARGET_DPU 3.
Proof.
  destruct (ufi_select_dpu 0xFF 3 sel_world) as [w' res] eqn:Hrun.
  assert (res = Ok 0xFD) as -> by (vm_compute in Hrun; congruence).
  exists w'. split; [done|].
  exact (se_hw _ _ _ _ _ _ _ (ufi_select_dpu_selects 0xFF 3 sel_world w' 0xFD
    ltac:(by_eval) sel_world_coherent ltac:(by_eval) Hrun) 0 ltac:(by_eval)).
Defined.

Lemma ufi_select_dpu_cached_witness : exists w',
  ufi_select_dpu 0xFF 3 sel_world = (w', Ok 0xFD) /\
  ufi_select_dpu 0xFD 3 w' = (w', Ok 0xFD).
Proof.
  destruct (ufi_select_dpu 0xFF 3 sel_world) as [w' res] eqn:Hrun.
  assert (res = Ok 0xFD) as -> by (vm_compute in Hrun; congruence).
  exists w'. split; [done|].
  exact (ufi_select_dpu_cached 0xFF 3 sel_world w' 0xFD ltac:(by_eval) sel_world_coherent
    ltac:(by_eval) Hrun).
Defined.

(** The groups as a reset leaves them. *)
Definition grouped_world : world sim :=
  mk_world (for_up 8 (fun i => upd_slice i (set_dpus_per_group (reset_groups 8))) (rk sel_world))
    (dev sel_world).

Lemma ufi_select_group_selects_witness : exists w',
  ufi_select_group 0xFF 0 grouped_world = (w', Ok 0xFF) /\
  hw_target (dev w') 1 = mk_slice_target DPU_SLICE_TARGET_GROUP 0.
Proof.
  destruct (ufi_select_group 0xFF 0 grouped_world) as [w' res] eqn:Hrun.
  assert (res = Ok 0xFF) as -> by (vm_compute in Hrun; congruence).
  exists w'. split; [done|].
  assert (coherent grouped_world) as Hcoh.
  { assert (nr_cis_of (rk grouped_world) = 2) as Hn by (vm_compute; reflexivity).
    intros i Hi. rewrite Hn in Hi. assert (i = 0 \/ i = 1) as [->| ->] by lia;
      (split; vm_compute; [reflexivity|exact I]). }
  exact (se_hw _ _ _ _ _ _ _ (ufi_select_group_selects 0xFF 0 grouped_world w' 0xFF
    ltac:(by_eval) Hcoh ltac:(by_eval) Hrun) 1 ltac:(by_eval)).
Defined.

(** ** What the cache costs *)

(** A backend that refuses the first packets. *)
#[export] Instance flaky_handler : RankHandler (nat * sim) := {
  commit_commands d commands :=
    match fst d with
    | O => ((O, sim_commit (snd d) commands), DPU_RANK_SUCCESS)
    | S n => ((n, snd d), DPU_RANK_COMMUNICATION_ERROR)
    end;
  update_commands d := (d, (sim_answer (snd d), DPU_RANK_SUCCESS));
}.

(** the cache is written before the command is sent. When the exchange
    fails, selecting the same DPU again reports success although nothing was
    ever sent: no interface has the DPU selected. *)
Theorem failed_selection_reported_as_done :
  let w := mk_world (sample_rank 2 8) (1%nat, sim0) in
  let '(w1, res1) := ufi_select_dpu 0xFF 3 w in
  let '(w2, res2) := ufi_select_dpu 0xFF 3 w1 in
  res1 = Err DPU_ERR_DRIVER /\ res2 = Ok 0xFF /\
  sim_log (snd (dev w2)) = [] /\
  (sim_target (snd (dev w2))).[0] = mk_slice_target DPU_SLICE_TARGET_NONE 0.
Proof. vm_compute. repeat split. Qed.

(** The words sent to one interface. *)
Definition words_sent (each_ci : Z) (w : world sim) : list Z :=
  filter (fun cmd => cmd <> CI_EMPTY) (map (fun packet => packet.[each_ci]) (sim_log (dev w))).

(** [ufi_select_all] does not clear the command of an interface that is
    already selected: the frame that was in the buffer is sent again. Here a
    thread boot is executed twice on interface 1, where the caller asked for
    one boot and a selection that changes nothing. *)
Theorem select_all_resends_stale_frame :
  let '(w, res) :=
    (_ ← ufi_select_all 0xFF;
     _ ← ufi_select_dpu 0x01 0;
     _ ← ufi_thread_boot 0xFF 0 None;
     ufi_select_all 0xFF) (sim_world 2 8) in
  res = Ok 0xFF /\
  words_sent 1 w = [CI_SELECT_ALL_STRUCT; CI_SELECT_ALL_FRAME;
                    CI_THREAD_BOOT_STRUCT; CI_THREAD_BOOT_FRAME 0; CI_THREAD_BOOT_FRAME 0].
Proof. vm_compute. repeat split. Qed.

(** the same with the operations that fill the command buffer for the
    interfaces of the mask only: when the structure is cached the buffer is
    not cleared, and the previous write of an interface outside the mask is
    sent to it again. *)
Theorem write_dma_ctrl_datas_resends_stale_frame :
  let '(w, res) :=
    (_ ← ufi_write_dma_ctrl 0xFF 0x83 1;
     ufi_write_dma_ctrl_datas 0x01 0x80 zeros8) (sim_world 2 8) in
  res = Ok tt /\
  words_sent 1 w = [CI_DMA_CTRL_WRITE_STRUCT; ci_dma_ctrl_write_frame 0x83 1;
                    ci_dma_ctrl_write_frame 0x83 1].
Proof. vm_compute. repeat split. Qed.
