(* ===== verification/CiEncoding.v ===== *)
(** * Reading the command words back

    The bytes of the words that carry data: what is put in an IRAM, WRAM or
    DMA control command can be read back from the words, so distinct requests
    are distinct commands. *)

From S2P Require Import Prelude CMonad BitConfig CiCommands Rank Ci Ufi.

#[local] Open Scope Z_scope.
#[local] Open Scope dpu_scope.

(** ** Words made of bytes *)

Lemma shl64_byte b n : fits 8 b -> 0 <= n <= 56 -> shl64 (u64 b) n = Z.shiftl b n.
Proof.
  intros [Hb Hb'] Hn. unfold shl64. rewrite (u64_id b) by (unfold fits; lia).
  apply u64_id. rewrite Z.shiftl_mul_pow2 by lia. split; [nia|].
  replace (2 ^ 64) with (2 ^ (64 - n) * 2 ^ n) by (rewrite <-Z.pow_add_r by lia; f_equal; lia).
  apply Z.mul_lt_mono_pos_r; [apply Z.pow_pos_nonneg; lia|].
  eapply Z.lt_le_trans; [exact Hb'|]. apply Z.pow_le_mono_r; lia.
Qed.

Lemma le_word_cons b bs : fits 8 b -> le_word (b :: bs) = b ||| Z.shiftl (le_word bs) 8.
Proof. intros Hb. rewrite lor_shiftl_add by (done || lia). cbn [le_word]. lia. Qed.

(** A word of opcode [op] and seven bytes, as the macros assemble it. *)
Lemma word_of_bytes op b0 b1 b2 b3 b4 b5 b6 :
  Forall (fits 8) [op; b0; b1; b2; b3; b4; b5; b6] ->
  Z.shiftl op 56 ||| shl64 (u64 b0) 0 ||| shl64 (u64 b1) 8 ||| shl64 (u64 b2) 16
    ||| shl64 (u64 b3) 24 ||| shl64 (u64 b4) 32 ||| shl64 (u64 b5) 40 ||| shl64 (u64 b6) 48
  = le_word [b0; b1; b2; b3; b4; b5; b6; op].
Proof.
  rewrite !Forall_cons_iff. intros (? & ? & ? & ? & ? & ? & ? & ? & _).
  rewrite !shl64_byte by (done || lia). rewrite !le_word_cons by done.
  rewrite !Z.shiftl_lor, !Z.shiftl_shiftl by lia.
  change (le_word []) with 0. rewrite Z.shiftl_0_l, Z.shiftl_0_r, Z.lor_0_r.
  repeat match goal with |- context [8 + ?n] =>
    let v := eval vm_compute in (8 + n) in change (8 + n) with v end.
  rewrite !Z.lor_assoc. set (o := Z.shiftl op 56).
  by rewrite (Z.lor_comm _ o), !Z.lor_assoc.
Qed.

Lemma bytes_of_word op b0 b1 b2 b3 b4 b5 b6 :
  Forall (fits 8) [op; b0; b1; b2; b3; b4; b5; b6] ->
  le_bytes 8 (Z.shiftl op 56 ||| shl64 (u64 b0) 0 ||| shl64 (u64 b1) 8 ||| shl64 (u64 b2) 16
    ||| shl64 (u64 b3) 24 ||| shl64 (u64 b4) 32 ||| shl64 (u64 b5) 40 ||| shl64 (u64 b6) 48)
  = [b0; b1; b2; b3; b4; b5; b6; op].
Proof.
  intros Hall. rewrite word_of_bytes by done.
  change 8%nat with (length [b0; b1; b2; b3; b4; b5; b6; op]). apply le_bytes_word.
  revert Hall. rewrite !Forall_cons_iff. tauto.
Qed.

(** [(x >> 8k) & 0xFF] is byte [k] of [x]. *)
Lemma land_byte x : (x &&& 0xFF) = u8 x.
Proof. by apply (land_ones_mod x 8). Qed.

Lemma byte_fits x n : 0 <= n -> fits 8 (Z.shiftr x n &&& 0xFF).
Proof. intros Hn. rewrite (land_ones_mod _ 8) by lia. apply u8_fits. Qed.

Lemma le_bytes_shifts n x k : 0 <= k ->
  le_bytes n (Z.shiftr x (8 * k)) = map (fun j => Z.shiftr x (8 * j) &&& 0xFF) (seqZ k (Z.of_nat n)).
Proof.
  revert k. induction n as [|n IH]; intros k Hk; [done|].
  rewrite seqZ_cons by lia. cbn [le_bytes map].
  rewrite (land_ones_mod _ 8) by lia. f_equal.
  replace (Z.pred (Z.of_nat (S n))) with (Z.of_nat n) by lia.
  rewrite <-IH by lia. rewrite <-Z.shiftr_div_pow2, Z.shiftr_shiftr by lia.
  do 2 f_equal. lia.
Qed.

Lemma le_bytes_map n x :
  le_bytes n x = map (fun j => Z.shiftr x (8 * j) &&& 0xFF) (seqZ 0 (Z.of_nat n)).
Proof. rewrite <-(le_bytes_shifts n x 0) by lia. by rewrite Z.shiftr_0_r. Qed.

(** ** Properties *)

(** an IRAM write frame is the six bytes of the instruction, the low byte
    of the address and the opcode of a frame; the high byte of the address is
    in the structure. The instruction and the address can be read back from
    the two words. *)
Theorem iram_write_words data addr : fits 16 addr ->
  le_bytes 8 (CI_IRAM_WRITE_INSTRUCTION_FRAME data addr) = le_bytes 6 data ++ [u8 addr; 0x33] /\
  le_bytes 8 (CI_IRAM_WRITE_INSTRUCTION_STRUCT addr) = [0xff; 0; addr / 2 ^ 8; 0x47; 0x2; 0; 0; 0x11] /\
  le_word [u8 addr; addr / 2 ^ 8] = addr.
Proof.
  intros Ha. assert (fits 8 (addr / 2 ^ 8)) as Hhi.
  { destruct Ha. split; [apply Z.div_pos; lia|apply Z.div_lt_upper_bound; lia]. }
  assert ((Z.shiftr addr 8 &&& 0xFF) = addr / 2 ^ 8) as Hhi'.
  { rewrite (land_ones_mod _ 8), Z.shiftr_div_pow2 by lia. by apply u8_id. }
  split; [|split].
  - etrans; [exact (bytes_of_word 0x33 (Z.shiftr data 0 &&& 0xFF) (Z.shiftr data 8 &&& 0xFF)
      (Z.shiftr data 16 &&& 0xFF) (Z.shiftr data 24 &&& 0xFF) (Z.shiftr data 32 &&& 0xFF)
      (Z.shiftr data 40 &&& 0xFF) (Z.shiftr addr 0 &&& 0xFF)
      ltac:(repeat constructor; apply byte_fits || idtac; lia))|].
    rewrite (le_bytes_map 6). cbn [map seqZ app].
    change (seqZ 0 (Z.of_nat 6)) with [0; 1; 2; 3; 4; 5]. cbn [map app Z.mul].
    by rewrite (land_byte (Z.shiftr addr 0)), (Z.shiftr_0_r addr).
  - rewrite <-(Z.lor_0_r (CI_IRAM_WRITE_INSTRUCTION_STRUCT addr)).
    etrans; [exact (bytes_of_word 0x11 0xff 0 (Z.shiftr addr 8 &&& 0xFF) 0x47 0x2 0 0
      ltac:(repeat constructor; first [apply byte_fits; lia|by_eval]))|].
    by rewrite Hhi'.
  - cbn [le_word]. unfold u8. rewrite Z.mul_0_r, Z.add_0_r. pose proof (Z.div_mod addr (2 ^ 8)). lia.
Qed.

Lemma iram_write_words_witness :
  le_bytes 8 (CI_IRAM_WRITE_INSTRUCTION_FRAME 0x7c6300112233 0x123) =
    le_bytes 6 0x7c6300112233 ++ [u8 0x123; 0x33] /\
  le_word [u8 0x123; 0x123 / 2 ^ 8] = 0x123.
Proof.
  destruct (iram_write_words 0x7c6300112233 0x123) as (Hf & _ & Ha); [by_eval|].
  split; [exact Hf|exact Ha].
Defined.
