(* ===== verification/WaveGen.v ===== *)
(** * DMA engine and waveform generator configuration

    Model of [src/ufi/src/ufi_dma_wavegen_config.c]: the reference
    configurations, the refresh timings computed from the clock
    ([fill_timing_configuration], whose loop shortens the refresh pulses until
    the DMA engine leaves enough time for the refresh), and the register
    writes that put a configuration in place. *)

From S2P Require Import Prelude CMonad BitConfig CiCommands Rank Ci Ufi.

#[local] Open Scope Z_scope.
#[local] Open Scope dpu_scope.

Record dpu_dma_config_t := mk_dma_config {
  refresh_access_number : Z; column_read_latency : Z; minimal_access_number : Z;
  default_time_origin : Z; ldma_to_sdma_time_origin : Z; xdma_time_start_activate : Z;
  xdma_time_start_access : Z; sdma_time_start_wb_f1 : Z }.

Record wavegen_reg_config := mk_reg {
  rise : Z; fall : Z; counter_enable : Z; counter_disable : Z }.

Record wavegen_timing_config := mk_timing {
  t_activate : Z; t_read : Z; t_write : Z; t_precharge : Z;
  refresh_start : Z; refresh_activ : Z; refresh_prech : Z; refresh_end : Z }.

Record wavegen_vector_sampling_config := mk_sampling {
  rab_gross : Z; cat_gross : Z; dwbsb_gross : Z; drbsb_gross : Z; drbsb_fine : Z }.

Record dpu_wavegen_config_t := mk_wavegen {
  MCBAB : wavegen_reg_config; RCYCLKB : wavegen_reg_config; WCYCLKB : wavegen_reg_config;
  DWCLKB : wavegen_reg_config; DWAEB : wavegen_reg_config; DRAPB : wavegen_reg_config;
  DRAOB : wavegen_reg_config; DWBSB_EN : wavegen_reg_config;
  timing_completion : wavegen_timing_config; vector_sampling : wavegen_vector_sampling_config;
  refresh_and_row_hammer_info : Z; row_hammer_config : Z; refresh_ctrl : Z }.

(** The fields the source leaves out are zero. *)
Definition dma_engine_cas_config := mk_dma_config 53 7 0 (u8 (-4)) (u8 (-10)) 9 18 0.
Definition dma_engine_clock_div2_config := mk_dma_config 0 9 0 (u8 (-4)) (u8 (-10)) 9 18 0.
Definition dma_engine_clock_div3_config := mk_dma_config 0 8 0 (u8 (-4)) (u8 (-10)) 9 18 0.
Definition dma_engine_clock_div4_config := mk_dma_config 0 7 0 (u8 (-4)) (u8 (-10)) 9 18 0.

Definition waveform_generator_clock_div2_config := mk_wavegen
  (mk_reg 0x00 0x39 0x01 0x01) (mk_reg 0x33 0x39 0x01 0x03) (mk_reg 0x31 0x00 0x02 0x03)
  (mk_reg 0x31 0x00 0x01 0x02) (mk_reg 0x31 0x08 0x02 0x04) (mk_reg 0x33 0x39 0x01 0x03)
  (mk_reg 0x31 0x39 0x03 0x04) (mk_reg 0x3C 0x3E 0x01 0x03)
  (mk_timing 0x0A 0x03 0x03 0x0B 0 0 0 0) (mk_sampling 0x01 0x01 0x01 0x01 0x02) 0 0x06 0x01.
Definition waveform_generator_clock_div3_config := mk_wavegen
  (mk_reg 0x00 0x39 0x02 0x02) (mk_reg 0x33 0x39 0x02 0x04) (mk_reg 0x31 0x00 0x03 0x04)
  (mk_reg 0x31 0x00 0x02 0x03) (mk_reg 0x31 0x08 0x03 0x05) (mk_reg 0x33 0x39 0x02 0x04)
  (mk_reg 0x31 0x39 0x04 0x05) (mk_reg 0x3C 0x3E 0x02 0x04)
  (mk_timing 0x0F 0x05 0x05 0x0B 0 0 0 0) (mk_sampling 0x01 0x01 0x01 0x01 0x02) 0 0x06 0x01.
Definition waveform_generator_clock_div4_config := mk_wavegen
  (mk_reg 0x00 0x39 0x03 0x03) (mk_reg 0x33 0x39 0x03 0x05) (mk_reg 0x31 0x00 0x04 0x05)
  (mk_reg 0x31 0x00 0x03 0x04) (mk_reg 0x31 0x08 0x04 0x06) (mk_reg 0x33 0x39 0x03 0x05)
  (mk_reg 0x31 0x39 0x05 0x06) (mk_reg 0x3C 0x3E 0x03 0x05)
  (mk_timing 0x14 0x07 0x07 0x0B 0 0 0 0) (mk_sampling 0x02 0x02 0x01 0x01 0x02) 0 0x06 0x01.

(** ** Refresh timings *)

Definition REFRESH_START_VALUE := 2.
Definition REFRESH_END_VALUE := 2.
Definition REFRESH_ACTIVATE_DURATION_TENFOLD_NS := 512.
Definition REFRESH_PRECHARGE_DURATION_TENFOLD_NS := 269.
Definition REFRESH_NR_PULSES_DEFAULT := 4.

(** [DIV_ROUND_DOWN_ULL], [DIV_ROUND_UP_ULL] on 64-bit operands; the divisor is
    a 32-bit value. *)
Definition DIV_ROUND_DOWN_ULL (ll d : Z) : Z := u64 ll / u32 d.
Definition DIV_ROUND_UP_ULL (ll d : Z) : Z := DIV_ROUND_DOWN_ULL (u64 (ll + d - 1)) d.

Definition nr_cycles_for (duration_in_ns_tenfold frequency_in_mhz : Z) : Z :=
  u32 (DIV_ROUND_UP_ULL (u64 (duration_in_ns_tenfold * frequency_in_mhz)) 1000).

(** [tRFC] and [refresh_mode_log2]. *)
Definition refresh_mode_timing (refresh_mode : Z) : Z * Z :=
  if refresh_mode =? 1 then (345, 0) else if refresh_mode =? 2 then (255, 1) else (155, 2).

(** One pass of the do-while: the refresh duration and the time the DMA engine
    leaves, for the current pulse durations. *)
Record refresh_pass := mk_pass {
  rp_refresh : Z; rp_refresh_dma : Z; rp_refresh_cycles_total : Z; rp_dma_cycles : Z }.

Definition compute_pass (fck_frequency fck_division refresh_mode refresh_activate refresh_precharge : Z)
    : refresh_pass :=
  let half_tenth_fck_frequency := fck_frequency / (2 * 10) in
  let refresh_nr_pulses := REFRESH_NR_PULSES_DEFAULT / refresh_mode in
  let tRFC := fst (refresh_mode_timing refresh_mode) in
  let refresh := u32 (REFRESH_START_VALUE + 1 + refresh_nr_pulses * (refresh_activate + 1)
    + (refresh_nr_pulses - 1) * (refresh_precharge + 1)
    + nr_cycles_for (14 * 10) half_tenth_fck_frequency) in
  let refresh_dma := u32 (DIV_ROUND_DOWN_ULL (u32 (tRFC * fck_frequency))
    (4 * fck_division * 1000) - 1) in
  let refresh_cycles_total := u32 (1 + REFRESH_START_VALUE + 1
    + refresh_nr_pulses * (refresh_activate + 1) + refresh_nr_pulses * (refresh_precharge + 1)
    + REFRESH_END_VALUE + 1) in
  let dma_cycles := u32 (u32 (refresh_dma + 1) * 4 * fck_division) / 2 in
  mk_pass refresh refresh_dma refresh_cycles_total dma_cycles.

(** The do-while loop, [None] when the fuel is spent. *)
Fixpoint refresh_loop (fuel : nat) (fck_frequency fck_division refresh_mode
    refresh_activate refresh_precharge : Z) : option (refresh_pass * Z * Z) :=
  let p := compute_pass fck_frequency fck_division refresh_mode refresh_activate refresh_precharge in
  if rp_dma_cycles p <=? rp_refresh_cycles_total p then
    match fuel with
    | O => None
    | S fuel => refresh_loop fuel fck_frequency fck_division refresh_mode
                  (u32 (refresh_activate - 1)) (u32 (refresh_precharge - 1))
    end
  else Some (p, refresh_activate, refresh_precharge).

Definition initial_activate (fck_frequency : Z) : Z :=
  u32 (nr_cycles_for REFRESH_ACTIVATE_DURATION_TENFOLD_NS (fck_frequency / (2 * 10)) - 1).
Definition initial_precharge (fck_frequency : Z) : Z :=
  u32 (nr_cycles_for REFRESH_PRECHARGE_DURATION_TENFOLD_NS (fck_frequency / (2 * 10)) - 1).

Definition set_refresh_timing (start activ prech end_ : Z) (t : wavegen_timing_config) :=
  mk_timing (t_activate t) (t_read t) (t_write t) (t_precharge t) (u8 start) (u8 activ) (u8 prech)
    (u8 end_).

(** The results are stored in 8-bit and 16-bit fields. *)
Definition fill_timing_configuration (fuel : nat) (dma : dpu_dma_config_t)
    (wavegen : dpu_wavegen_config_t) (fck_frequency fck_division refresh_mode : Z)
    : option (dpu_dma_config_t * dpu_wavegen_config_t) :=
  match refresh_loop fuel fck_frequency fck_division refresh_mode
          (initial_activate fck_frequency) (initial_precharge fck_frequency) with
  | None => None
  | Some (p, refresh_activate, refresh_precharge) =>
      let info := u16 (Z.shiftl (Z.shiftr (rp_refresh p) 8 &&& 1) 15
        ||| Z.shiftl (snd (refresh_mode_timing refresh_mode) &&& 0x3) 8
        ||| (rp_refresh p &&& 0xFF)) in
      Some (mk_dma_config (u8 (rp_refresh_dma p)) (column_read_latency dma)
              (minimal_access_number dma) (default_time_origin dma)
              (ldma_to_sdma_time_origin dma) (xdma_time_start_activate dma)
              (xdma_time_start_access dma) (sdma_time_start_wb_f1 dma),
            mk_wavegen (MCBAB wavegen) (RCYCLKB wavegen) (WCYCLKB wavegen) (DWCLKB wavegen)
              (DWAEB wavegen) (DRAPB wavegen) (DRAOB wavegen) (DWBSB_EN wavegen)
              (set_refresh_timing REFRESH_START_VALUE refresh_activate refresh_precharge
                 REFRESH_END_VALUE (timing_completion wavegen))
              (vector_sampling wavegen) info (row_hammer_config wavegen) (refresh_ctrl wavegen))
  end.

(** [dpu_clock_division_t]. *)
Definition DPU_CLOCK_DIV8 := 0x0.
Definition DPU_CLOCK_DIV4 := 0x4.
Definition DPU_CLOCK_DIV3 := 0x3.
Definition DPU_CLOCK_DIV2 := 0x8.

Definition from_division_factor_to_dpu_enum (factor : Z) : Z :=
  if factor =? 3 then DPU_CLOCK_DIV3 else if factor =? 4 then DPU_CLOCK_DIV4
  else if factor =? 8 then DPU_CLOCK_DIV8 else DPU_CLOCK_DIV2.

Definition fetch_dma_and_wavegen_configs (fuel : nat) (fck_frequency clock_division refresh_mode : Z)
    (ctrl_refresh : bool) : option (dpu_dma_config_t * dpu_wavegen_config_t) :=
  let clock_div := from_division_factor_to_dpu_enum clock_division in
  let '(dma, wavegen, clock_division) :=
    if clock_div =? DPU_CLOCK_DIV4 then
      (dma_engine_clock_div4_config, waveform_generator_clock_div4_config, clock_division)
    else if clock_div =? DPU_CLOCK_DIV3 then
      (dma_engine_clock_div3_config, waveform_generator_clock_div3_config, clock_division)
    else (dma_engine_clock_div2_config, waveform_generator_clock_div2_config, 2) in
  match fill_timing_configuration fuel dma wavegen fck_frequency clock_division refresh_mode with
  | None => None
  | Some (dma, w) =>
      Some (dma, if negb ctrl_refresh then
        mk_wavegen (MCBAB w) (RCYCLKB w) (WCYCLKB w) (DWCLKB w) (DWAEB w) (DRAPB w) (DRAOB w)
          (DWBSB_EN w) (timing_completion w) (vector_sampling w) (refresh_and_row_hammer_info w)
          (row_hammer_config w) 0x0 else w)
  end.

(** ** Register writes *)

(** The 64-bit word of [dpu_dma_config]. *)
Definition dma_engine_timing (config : dpu_dma_config_t) : Z :=
  shl64 (refresh_access_number config &&& 0x7F) 36
  ||| shl64 (column_read_latency config &&& 0x0F) 32
  ||| shl64 (minimal_access_number config &&& 0x07) 29
  ||| shl64 (default_time_origin config &&& 0x7F) 22
  ||| shl64 (ldma_to_sdma_time_origin config &&& 0x7F) 15
  ||| shl64 (xdma_time_start_activate config &&& 0x1F) 10
  ||| shl64 (xdma_time_start_access config &&& 0x1F) 5
  ||| shl64 (sdma_time_start_wb_f1 config &&& 0x1F) 0.

Section WaveGen.
Context {D : Type} `{!RankHandler D}.

(** Registers written one after the other. *)
Definition write_regs (mask : Z) (regs : list (Z * Z)) : W D unit :=
  mfold (fun '(address, data) _ => ufi_write_dma_ctrl mask address data) regs tt.

Definition dpu_dma_shuffling_box_config (config : dpu_bit_config) : W D unit :=
  mask ← ufi_select_all ALL_CIS;
  _ ← write_regs mask
    [(0x10, Z.shiftr (dpu2cpu config) 8 &&& 0xFF); (0x11, Z.shiftr (dpu2cpu config) 0 &&& 0xFF);
     (0x12, Z.shiftr (cpu2dpu config) 8 &&& 0xFF); (0x13, Z.shiftr (cpu2dpu config) 0 &&& 0xFF);
     (0x14, nibble_swap config)];
  ufi_clear_dma_ctrl mask.

Definition dpu_wavegen_reg_config (mask address : Z) (config : wavegen_reg_config) : W D unit :=
  write_regs mask [(address + 0, rise config); (address + 1, fall config);
    (address + 2, counter_enable config); (address + 3, counter_disable config)].

Definition dpu_wavegen_timing_config (mask address : Z) (config : wavegen_timing_config) : W D unit :=
  write_regs mask [(address + 0, t_activate config); (address + 1, t_read config);
    (address + 2, t_write config); (address + 3, t_precharge config);
    (address + 4, refresh_start config); (address + 5, refresh_activ config);
    (address + 6, refresh_prech config); (address + 7, refresh_end config)].

Definition dpu_wavegen_vector_sampling_config (mask address : Z)
    (config : wavegen_vector_sampling_config) : W D unit :=
  write_regs mask [(address + 0, rab_gross config); (address + 1, cat_gross config);
    (address + 2, dwbsb_gross config); (address + 3, drbsb_gross config);
    (address + 4, drbsb_fine config)].

Definition dpu_wavegen_rowhammer_and_refresh_config (mask address rowhammer_info
    rowhammer_config : Z) : W D unit :=
  write_regs mask [(address + 0, Z.shiftr rowhammer_info 0 &&& 0xFF);
    (address + 1, Z.shiftr rowhammer_info 8 &&& 0xFF); (address + 2, rowhammer_config)].

(** The DPU configured at turn [each_dpu]: DPU 4 first. *)
Definition target_dpu (nr_dpus each_dpu : Z) : Z :=
  if nr_dpus <=? 4 then each_dpu
  else if 4 <=? each_dpu then each_dpu - 4 else each_dpu + 4.

Definition dpu_wavegen_config (config : dpu_wavegen_config_t) : W D unit :=
  mask ← ufi_select_all ALL_CIS;
  _ ← dpu_wavegen_reg_config mask 0xC0 (MCBAB config);
  _ ← dpu_wavegen_reg_config mask 0xC4 (RCYCLKB config);
  _ ← dpu_wavegen_reg_config mask 0xC8 (WCYCLKB config);
  _ ← dpu_wavegen_reg_config mask 0xCC (DWCLKB config);
  _ ← dpu_wavegen_reg_config mask 0xD0 (DWAEB config);
  _ ← dpu_wavegen_reg_config mask 0xD4 (DRAPB config);
  _ ← dpu_wavegen_reg_config mask 0xD8 (DRAOB config);
  _ ← dpu_wavegen_reg_config mask 0xDC (DWBSB_EN config);
  _ ← dpu_wavegen_timing_config mask 0xE0 (timing_completion config);
  _ ← dpu_wavegen_vector_sampling_config mask 0xE8 (vector_sampling config);
  _ ← dpu_wavegen_rowhammer_and_refresh_config mask 0xFC (refresh_and_row_hammer_info config)
        (row_hammer_config config);
  r ← get_rank;
  mfor (nr_dpus_of r) (fun each_dpu _ =>
    mask ← ufi_select_dpu ALL_CIS (target_dpu (nr_dpus_of r) each_dpu);
    _ ← ufi_write_dma_ctrl mask 0x83 (refresh_ctrl config);
    ufi_clear_dma_ctrl mask) tt.

Definition dpu_dma_config (config : dpu_dma_config_t) : W D unit :=
  let t := dma_engine_timing config in
  mask ← ufi_select_all ALL_CIS;
  _ ← write_regs mask
    [(0x20, Z.shiftr t 0 &&& 0xFF); (0x21, Z.shiftr t 8 &&& 0xFF); (0x22, Z.shiftr t 16 &&& 0xFF);
     (0x23, Z.shiftr t 24 &&& 0xFF); (0x24, Z.shiftr t 32 &&& 0xFF); (0x25, Z.shiftr t 40 &&& 0xFF)];
  ufi_clear_dma_ctrl mask.
End WaveGen.

(** ** Specification *)

(** The refresh sequence of a configuration in mode 2 (two pulses), in DPU
    cycles, and the pause that the DMA engine makes for it. *)
Definition refresh_sequence (w : dpu_wavegen_config_t) : Z :=
  let t := timing_completion w in
  1 + refresh_start t + 1 + 2 * (refresh_activ t + 1) + 2 * (refresh_prech t + 1)
  + refresh_end t + 1.
Definition dma_pause (fck_division : Z) (dma : dpu_dma_config_t) : Z :=
  (refresh_access_number dma + 1) * 4 * fck_division / 2.

(** The stored configuration is usable: the refresh ends before the pause does,
    the access number fits the 7 bits of its register. *)
Definition refresh_covered (fck_division : Z) (c : option (dpu_dma_config_t * dpu_wavegen_config_t))
    : bool :=
  match c with
  | Some (dma, w) => (refresh_sequence w <? dma_pause fck_division dma)
                     && (refresh_access_number dma <=? 127)
  | None => false
  end.

(** ** Properties *)

(** ** Lemmas *)

(** The refresh control bit takes no part in the timings. *)
Lemma refresh_covered_ctrl fuel f d m ctrl k :
  refresh_covered k (fetch_dma_and_wavegen_configs fuel f d m ctrl) =
  refresh_covered k (fetch_dma_and_wavegen_configs fuel f d m true).
Proof.
  unfold fetch_dma_and_wavegen_configs. set (p := if _ =? DPU_CLOCK_DIV4 then _ else _).
  destruct p as [[dma w] k']. destruct (fill_timing_configuration _ _ _ _ _ _) as [[dma' w']|]; [|done].
  by destruct ctrl.
Qed.

Lemma shl64_field n k x : fits n x -> 0 <= n -> 0 <= k -> n + k <= 64 -> shl64 x k = Z.shiftl x k.
Proof.
  intros [H0 H1] Hn Hk Hnk. apply u64_id. rewrite Z.shiftl_mul_pow2 by lia.
  pose proof (Z.pow_pos_nonneg 2 k). split; [nia|].
  apply Z.lt_le_trans with (2 ^ n * 2 ^ k); [nia|].
  rewrite <-Z.pow_add_r by lia. apply Z.pow_le_mono_r; lia.
Qed.

Lemma land_field n m x : 0 <= n -> m = 2 ^ n - 1 -> fits n x -> (x &&& m) = x.
Proof. intros Hn -> Hx. rewrite land_ones_mod by done. by apply Z.mod_small. Qed.

Lemma div_pow2_add a m n : 0 <= m -> 0 <= n -> a / 2 ^ (m + n) = a / 2 ^ m / 2 ^ n.
Proof.
  intros Hm Hn. pose proof (Z.pow_pos_nonneg 2 m). pose proof (Z.pow_pos_nonneg 2 n).
  by rewrite Z.pow_add_r, Z.div_div by lia.
Qed.

(** A field followed by the rest of the word. *)
Lemma field_split n a b : 0 <= n -> fits n a ->
  (a + 2 ^ n * b) / 2 ^ n = b /\ (a + 2 ^ n * b) mod 2 ^ n = a.
Proof.
  intros Hn Ha. pose proof (Z.pow_pos_nonneg 2 n). rewrite (Z.mul_comm (2 ^ n)).
  rewrite Z.div_add, Z.mod_add by lia. unfold fits in Ha.
  rewrite Z.div_small, Z.mod_small by lia. lia.
Qed.

Lemma lor_field n a b : 0 <= n -> fits n a -> (a ||| Z.shiftl b n) = a + 2 ^ n * b.
Proof. intros Hn Ha. rewrite lor_shiftl_add by done. lia. Qed.

(** for every clock from 142 MHz to 4 GHz and every division 2, 3, 4 the
    loop that adjusts the refresh timings ends within 16 turns, and the values
    stored in the registers give the refresh less time than the DMA engine's
    pause, without truncation. *)
Theorem refresh_fits_dma_pause fck_frequency fck_division ctrl_refresh :
  142 <= fck_frequency < 4000 -> 2 <= fck_division <= 4 ->
  refresh_covered fck_division
    (fetch_dma_and_wavegen_configs 16 fck_frequency fck_division 2 ctrl_refresh) = true.
Proof.
  intros Hf Hd.
  assert (fck_division = 2 \/ fck_division = 3 \/ fck_division = 4) as Hd' by lia.
  rewrite refresh_covered_ctrl.
  assert (forall d, In d [2; 3; 4] -> forall k, 0 <= k < 3858 ->
    refresh_covered d (fetch_dma_and_wavegen_configs 16 (142 + k) d 2 true) = true) as Hall.
  { intros d [<-|[<-|[<-|[]]]]; by_eval. }
  specialize (Hall fck_division ltac:(simpl; lia) (fck_frequency - 142) ltac:(lia)).
  by replace (142 + (fck_frequency - 142)) with fck_frequency in Hall by lia.
Qed.

Lemma refresh_fits_dma_pause_witness :
  refresh_covered 2 (fetch_dma_and_wavegen_configs 16 800 2 2 true) = true.
Proof. apply refresh_fits_dma_pause; lia. Defined.

(** the loop decrements its unsigned durations without a lower bound. At
    120 MHz with the division by 2, a frequency the comment of the function
    admits (even, greater than 100), the precharge duration goes below zero:
    the register gets 255 cycles where the loop started from 1, and the
    refresh sequence is far longer than the DMA pause. *)
Theorem refresh_precharge_underflow :
  match fetch_dma_and_wavegen_configs 16 120 2 2 true with
  | Some (dma, w) =>
      initial_precharge 120 = 1 /\ refresh_prech (timing_completion w) = 255 /\
      dma_pause 2 dma < refresh_sequence w
  | None => False
  end.
Proof. vm_compute. repeat split. Qed.

(** the word of the DMA engine timing holds each field of the configuration
    at its place: all eight can be read back. *)
Theorem dma_engine_timing_fields c :
  fits 7 (refresh_access_number c) -> fits 4 (column_read_latency c) ->
  fits 3 (minimal_access_number c) -> fits 7 (default_time_origin c) ->
  fits 7 (ldma_to_sdma_time_origin c) -> fits 5 (xdma_time_start_activate c) ->
  fits 5 (xdma_time_start_access c) -> fits 5 (sdma_time_start_wb_f1 c) ->
  let t := dma_engine_timing c in
  t / 2 ^ 36 = refresh_access_number c /\
  t / 2 ^ 32 mod 2 ^ 4 = column_read_latency c /\
  t / 2 ^ 29 mod 2 ^ 3 = minimal_access_number c /\
  t / 2 ^ 22 mod 2 ^ 7 = default_time_origin c /\
  t / 2 ^ 15 mod 2 ^ 7 = ldma_to_sdma_time_origin c /\
  t / 2 ^ 10 mod 2 ^ 5 = xdma_time_start_activate c /\
  t / 2 ^ 5 mod 2 ^ 5 = xdma_time_start_access c /\
  t mod 2 ^ 5 = sdma_time_start_wb_f1 c.
Proof.
  intros H1 H2 H3 H4 H5 H6 H7 H8 t.
  assert (t = sdma_time_start_wb_f1 c + 2 ^ 5 * (xdma_time_start_access c
    + 2 ^ 5 * (xdma_time_start_activate c + 2 ^ 5 * (ldma_to_sdma_time_origin c
    + 2 ^ 7 * (default_time_origin c + 2 ^ 7 * (minimal_access_number c
    + 2 ^ 3 * (column_read_latency c + 2 ^ 4 * refresh_access_number c))))))) as Ht.
  { rewrite <-!lor_field by (done || lia). unfold t, dma_engine_timing.
    rewrite (land_field 7 0x7F (refresh_access_number c)), (land_field 4 0x0F),
      (land_field 3 0x07), (land_field 7 0x7F (default_time_origin c)),
      (land_field 7 0x7F (ldma_to_sdma_time_origin c)), (land_field 5 0x1F (xdma_time_start_activate c)),
      (land_field 5 0x1F (xdma_time_start_access c)), (land_field 5 0x1F) by done.
    rewrite (shl64_field 7 36), (shl64_field 4 32), (shl64_field 3 29), (shl64_field 7 22),
      (shl64_field 7 15), (shl64_field 5 10), (shl64_field 5 5), (shl64_field 5 0) by (done || lia).
    rewrite !Z.shiftl_lor, !Z.shiftl_shiftl, Z.shiftl_0_r by lia.
    repeat match goal with |- context [?m + ?n] =>
      let v := eval vm_compute in (m + n) in change (m + n) with v end.
    do 7 (rewrite Z.lor_comm; f_equal). }
  clearbody t. subst t.
  change (2 ^ 36) with (2 ^ (5 + (5 + (5 + (7 + (7 + (3 + 4))))))).
  change (2 ^ 32) with (2 ^ (5 + (5 + (5 + (7 + (7 + 3)))))).
  change (2 ^ 29) with (2 ^ (5 + (5 + (5 + (7 + 7))))).
  change (2 ^ 22) with (2 ^ (5 + (5 + (5 + 7)))).
  change (2 ^ 15) with (2 ^ (5 + (5 + 5))). change (2 ^ 10) with (2 ^ (5 + 5)).
  rewrite !div_pow2_add by lia.
  repeat match goal with |- context [(?a + 2 ^ ?n * ?b) / 2 ^ ?n] =>
    rewrite (proj1 (field_split n a b ltac:(lia) ltac:(done))) end.
  repeat match goal with |- context [(?a + 2 ^ ?n * ?b) mod 2 ^ ?n] =>
    rewrite (proj2 (field_split n a b ltac:(lia) ltac:(done))) end.
  split_and!; try done.
Qed.

Lemma dma_engine_timing_fields_witness :
  dma_engine_timing (mk_dma_config 53 7 0 124 118 9 18 0) / 2 ^ 36 = 53.
Proof. apply (dma_engine_timing_fields (mk_dma_config 53 7 0 124 118 9 18 0)); by_eval. Defined.
