(* ===== verification/Frame.v ===== *)
(** * What the hardware exchanges leave alone

    No operation that talks to the interfaces changes the description, the
    DPUs, the run context, the recorded positions of the muxes or the enabled
    DPUs of the rank, whatever its outcome: [keeps] says so of a computation,
    and the lemmas of this file walk through the operations of the component
    of [src/ufi/src/ufi.c]. The components that follow use it to reason about
    the part of the rank that they own. *)

From stdpp Require Import relations.
From S2P Require Import Prelude CMonad BitConfig CiCommands Rank Ci Ufi.

#[local] Open Scope Z_scope.
#[local] Open Scope dpu_scope.

Record mux_frame (r r' : rank) : Prop := {
  mf_desc : desc r' = desc r;
  mf_run : run r' = run r;
  mf_dpus : dpus r' = dpus r;
  mf_nr_enabled : nr_dpus_enabled r' = nr_dpus_enabled r;
  mf_len : lenz (slice_infos (ci r')) = lenz (slice_infos (ci r));
  mf_mux : forall i, 0 <= i ->
    host_mux_mram_state (slice_of r' i) = host_mux_mram_state (slice_of r i);
  mf_enabled : forall i, 0 <= i -> enabled_dpus (slice_of r' i) = enabled_dpus (slice_of r i);
  mf_all : forall i, 0 <= i ->
    all_dpus_are_enabled (slice_of r' i) = all_dpus_are_enabled (slice_of r i);
}.

#[export] Instance mux_frame_preorder : PreOrder mux_frame.
Proof.
  split; [by intros r; split|].
  intros r1 r2 r3 [] []. split; try (by etrans); intros i Hi.
  - by rewrite mf_mux1, mf_mux0.
  - by rewrite mf_enabled1, mf_enabled0.
  - by rewrite mf_all1, mf_all0.
Qed.

Lemma mux_frame_same_config r r' : same_config r r' -> mux_frame r r'.
Proof.
  intros Hsc. split; try apply Hsc; [by rewrite (sc_slices _ _ Hsc)|..]; intros i Hi;
    unfold slice_of; by rewrite (sc_slices _ _ Hsc).
Qed.

(** Updates of a slice that keep its mux and its DPUs. *)
Definition slice_kept (f : slice_info -> slice_info) : Prop := forall info,
  host_mux_mram_state (f info) = host_mux_mram_state info /\ enabled_dpus (f info) = enabled_dpus info /\
  all_dpus_are_enabled (f info) = all_dpus_are_enabled info.

Lemma slice_of_upd_any {A} (p : slice_info -> A) k f r i :
  (forall info, p (f info) = p info) -> p (slice_of (upd_slice k f r) i) = p (slice_of r i).
Proof.
  intros Hp. unfold slice_of, upd_slice, getz, setz. cbn.
  destruct (decide (Z.to_nat k < length (slice_infos (ci r)))%nat) as [Hlt|Hge].
  - destruct (decide (Z.to_nat k = Z.to_nat i)) as [Heq|Hne].
    + rewrite <-Heq, list_lookup_total_insert_eq by done. apply Hp.
    + by rewrite list_lookup_total_insert_ne by done.
  - by rewrite list_insert_ge by lia.
Qed.

Lemma mux_frame_upd_slice k f r : slice_kept f -> mux_frame r (upd_slice k f r).
Proof.
  intros Hf. split; try done; [apply lenz_upd_slice|..]; intros i Hi;
    apply slice_of_upd_any; intros info; apply Hf.
Qed.

Lemma mux_frame_set_cmds c r : mux_frame r (set_cmds c r).
Proof. by split. Qed.

(** Whatever the visiting loop does, an invariant of its body holds after it;
    the indices are not negative. *)
Lemma next_ci_loop_nonneg fuel mask c nr : 0 <= next_ci_loop fuel mask c nr.
Proof. apply next_ci_nonneg. Qed.

Lemma for_each_ci_ind {S} (P : S -> Prop) nr mask_of (body : Z -> S -> S) s :
  P s -> (forall i s, 0 <= i -> P s -> P (body i s)) -> P (for_each_ci nr mask_of body s).
Proof.
  intros Hs Hbody. unfold for_each_ci.
  assert (0 <= next_ci (mask_of s) (u8 (-1)) nr) as Hi by apply next_ci_loop_nonneg.
  revert Hi. generalize (next_ci (mask_of s) (u8 (-1)) nr) as i.
  generalize 256%nat as fuel. intros fuel. revert s Hs.
  induction fuel as [|fuel IH]; intros s Hs i Hi; [done|]. cbn [for_each_ci_loop].
  case_bool; [|done]. apply IH; [by apply Hbody|]. apply next_ci_loop_nonneg.
Qed.

(** One exchange with the backend. *)
Inductive exchange {D} `{!RankHandler D} (d : D) : D -> Prop :=
  | exchange_commit commands : exchange d (fst (commit_commands d commands))
  | exchange_update : exchange d (fst (update_commands d)).

(** A computation preserves a relation between the ranks before and after it,
    whatever its outcome, and only touches the backend by exchanges. *)
Definition preserves {D} `{!RankHandler D} {A} (R : rank -> rank -> Prop) (m : W D A) : Prop :=
  forall w, R (rk w) (rk (fst (m w))) /\ rtc exchange (dev w) (dev (fst (m w))).
Notation keeps := (preserves mux_frame).

Create HintDb keeps discriminated.
#[export] Hint Constants Opaque : keeps.

Section Rules.
Context {D : Type} `{!RankHandler D} (R : rank -> rank -> Prop) `{!PreOrder R}.
Implicit Types w : world D.

Lemma preserves_ret {A} (a : A) : preserves (D := D) R (mret a).
Proof. intros w. split; reflexivity. Qed.
Lemma preserves_fail {A} e : preserves (D := D) R (fail (A := A) e).
Proof. intros w. split; reflexivity. Qed.
Lemma preserves_gets {A} (f : world D -> A) : preserves (D := D) R (gets f).
Proof. intros w. split; reflexivity. Qed.
Lemma preserves_bind {A B} (m : W D A) (k : A -> W D B) :
  preserves (D := D) R m -> (forall a, preserves (D := D) R (k a)) -> preserves (D := D) R (a ← m; k a).
Proof.
  intros Hm Hk w. unfold mbind, C_bind. specialize (Hm w).
  destruct (m w) as [w' [a|e]]; [|exact Hm]. destruct Hm, (Hk a w'). split; by etrans.
Qed.
Lemma preserves_on_rank f : (forall r, R r (f r)) -> preserves (D := D) R (on_rank f).
Proof. intros Hf w. split; [apply Hf|reflexivity]. Qed.
(** The rank that the computation has just read is written back. *)
Lemma preserves_get_put {A B} (g : rank -> A * rank) (k : A -> W D B) :
  (forall r, R r (snd (g r))) -> (forall a, preserves (D := D) R (k a)) ->
  preserves (D := D) R (r ← get_rank; let '(a, r') := g r in _ ← on_rank (fun _ => r'); k a).
Proof.
  intros Hg Hk w. unfold mbind, C_bind, get_rank, gets, on_rank, modify.
  specialize (Hg (rk w)). destruct (g (rk w)) as [a r']. cbn in *.
  destruct (Hk a (mk_world r' (dev w))). split; [by etrans|done].
Qed.
Lemma preserves_unchecked {A} (m : W D A) : preserves (D := D) R m -> preserves (D := D) R (unchecked m).
Proof. intros Hm w. unfold unchecked. specialize (Hm w). by destruct (m w). Qed.
Lemma preserves_mfold {A B} (body : B -> A -> W D A) l a :
  (forall b a, preserves (D := D) R (body b a)) -> preserves (D := D) R (mfold body l a).
Proof.
  intros Hb. revert a. induction l as [|b l IH]; intros a; [apply preserves_ret|].
  apply preserves_bind; [apply Hb|done].
Qed.
Lemma preserves_mfor {A} n (body : Z -> A -> W D A) a :
  (forall i a, preserves (D := D) R (body i a)) -> preserves (D := D) R (mfor n body a).
Proof.
  intros Hb w. rewrite mfor_mfold. by apply preserves_mfold.
Qed.
End Rules.

Lemma preserves_weaken {D A} `{!RankHandler D} (R R' : rank -> rank -> Prop) (m : W D A) :
  subrelation R R' -> preserves R m -> preserves R' m.
Proof. intros HR Hm w. destruct (Hm w). split; [by apply HR|done]. Qed.

(** Walk through a computation. *)
Ltac keeps_step :=
  lazymatch goal with
  | |- preserves _ (mbind _ _) => apply preserves_bind; [exact _| |intros ?]
  | |- preserves _ (mret _) => apply preserves_ret; exact _
  | |- preserves _ (fail _) => apply preserves_fail; exact _
  | |- preserves _ get_rank => apply preserves_gets; exact _
  | |- preserves _ (gets _) => apply preserves_gets; exact _
  | |- preserves _ (unchecked _) => apply preserves_unchecked
  | |- preserves _ (mfold _ _ _) => apply preserves_mfold; [exact _|intros ? ?]
  | |- preserves _ (mfor _ _ _) => apply preserves_mfor; [exact _|intros ? ?]
  | |- preserves _ (if ?b then _ else _) => destruct b
  | |- preserves _ (match ?x with _ => _ end) => destruct x
  | |- preserves _ ((match ?x with _ => _ end) _) => destruct x
  | |- preserves _ (let '(_, _) := ?x in _) => destruct x
  | |- preserves _ _ => solve [eauto with keeps]
  end.
Ltac keeps_steps := repeat (cbv beta zeta; keeps_step).

(** The packets: the rank by the specification of [exec_cmd], the backend by
    the two callbacks. *)
Section KeepsExec.
Context {D : Type} `{!RankHandler D}.

Lemma keeps_commit commands : keeps (ci_commit_commands (D := D) commands).
Proof.
  intros w. rewrite ci_commit_commands_eq. split.
  - apply mux_frame_same_config, same_config_record.
  - apply rtc_once. constructor.
Qed.
Lemma keeps_update store : (forall answers r, mux_frame r (store answers r)) ->
  keeps (ci_update_commands (D := D) store).
Proof.
  intros Hs w. rewrite ci_update_commands_eq.
  assert (rtc exchange (dev w) (fst (update_commands (dev w)))) as Hx
    by (apply rtc_once; constructor).
  destruct (update_commands (dev w)) as [d [answers status]].
  case_decide; (split; [|exact Hx]); [|apply Hs].
  cbn. etrans; [apply Hs|]. apply mux_frame_same_config, same_config_record.
Qed.

(** The backend only: nothing is said of the rank. *)
Notation talks := (preserves (fun _ _ => True)).
#[local] Instance true_preorder : PreOrder (fun _ _ : rank => True).
Proof. by split. Qed.
Lemma talks_update store : talks (ci_update_commands (D := D) store).
Proof.
  intros w. split; [done|]. rewrite ci_update_commands_eq.
  assert (rtc exchange (dev w) (fst (update_commands (dev w)))) as Hx
    by (apply rtc_once; constructor).
  destruct (update_commands (dev w)) as [d [answers status]]. by case_decide.
Qed.
Lemma talks_exec commands add : talks (exec_cmd (D := D) commands add).
Proof.
  assert (forall n m ec l, talks (poll_commands (D := D) n m ec l)) as Hpoll.
  { induction n as [|n IH]; intros m ec l; cbn [poll_commands]; keeps_steps;
      try apply talks_update; try (by apply preserves_on_rank); apply IH. }
  assert (talks (ci_commit_commands (D := D) commands)) as Hc
    by (eapply preserves_weaken; [|apply keeps_commit]; by intros ? ?).
  unfold exec_cmd. keeps_steps; auto using talks_update; by apply preserves_on_rank.
Qed.
Lemma keeps_exec commands add : keeps (exec_cmd (D := D) commands add).
Proof.
  intros w. split; [|apply talks_exec]. apply mux_frame_same_config.
  by destruct (wp_exec_cmd (fun _ => True) commands add w) as (Hsc & _).
Qed.
End KeepsExec.
#[export] Hint Resolve keeps_exec : keeps.

Section KeepsUfi.
Context {D : Type} `{!RankHandler D}.

Lemma keeps_void commands : keeps (ci_exec_void_cmd (D := D) commands).
Proof. apply keeps_exec. Qed.
Lemma keeps_wait commands : keeps (ci_exec_wait_mask_cmd (D := D) commands).
Proof. apply keeps_exec. Qed.
Lemma keeps_8bit commands results : keeps (ci_exec_8bit_cmd (D := D) commands results).
Proof. unfold ci_exec_8bit_cmd. keeps_steps. Qed.
Lemma keeps_32bit commands results : keeps (ci_exec_32bit_cmd (D := D) commands results).
Proof. unfold ci_exec_32bit_cmd. keeps_steps. Qed.
Lemma keeps_with_cmds {A} (f : list Z -> W D A) : (forall c, keeps (f c)) -> keeps (with_cmds f).
Proof. intros Hf. unfold with_cmds. keeps_steps. Qed.
Lemma keeps_prepare mask data : keeps (prepare_cmds (D := D) mask data).
Proof. apply preserves_on_rank. intros r. apply mux_frame_set_cmds. Qed.
Lemma keeps_fill mask frame : keeps (fill_cmds (D := D) mask frame).
Proof. apply preserves_on_rank. intros r. apply mux_frame_set_cmds. Qed.
End KeepsUfi.
#[export] Hint Resolve keeps_void keeps_wait keeps_8bit keeps_32bit keeps_prepare keeps_fill
  : keeps.

Section KeepsStructure.
Context {D : Type} `{!RankHandler D}.

Lemma keeps_write_structure mask structure : keeps (UFI_exec_write_structure (D := D) mask structure).
Proof.
  unfold UFI_exec_write_structure. apply (preserves_get_put _ (cache_structure mask structure)).
  - intros r. unfold cache_structure, for_cis.
    apply (for_each_ci_ind (fun s => mux_frame r (snd s))); [done|].
    intros i [b r'] Hi Hr. cbn in *. case_bool; [|done]. cbn. etrans; [exact Hr|].
    apply mux_frame_upd_slice. by intros info.
  - intros b. unfold with_cmds. keeps_steps.
Qed.

Lemma keeps_write_structures mask structures :
  keeps (UFI_exec_write_structures (D := D) mask structures).
Proof.
  unfold UFI_exec_write_structures. apply (preserves_get_put _ (cache_structures mask structures)).
  - intros r. unfold cache_structures, for_cis.
    apply (for_each_ci_ind (fun s => mux_frame r (snd s))); [done|].
    intros i [b r'] Hi Hr. cbn in *. case_bool; [|done]. cbn. etrans; [exact Hr|].
    apply mux_frame_upd_slice. by intros info.
  - intros b. keeps_steps.
Qed.
End KeepsStructure.
#[export] Hint Resolve keeps_write_structure keeps_write_structures : keeps.

Section KeepsMux.
Context {D : Type} `{!RankHandler D}.

Lemma keeps_void_frame mask s f : keeps (UFI_exec_void_frame (D := D) mask s f).
Proof. unfold UFI_exec_void_frame, with_cmds. keeps_steps. Qed.
Lemma keeps_void_frames mask ss : keeps (UFI_exec_void_frames (D := D) mask ss).
Proof. unfold UFI_exec_void_frames, with_cmds. keeps_steps. Qed.
Lemma keeps_8bit_frame mask s f res : keeps (UFI_exec_8bit_frame (D := D) mask s f res).
Proof. unfold UFI_exec_8bit_frame, with_cmds. keeps_steps. Qed.
End KeepsMux.
#[export] Hint Resolve keeps_void_frame keeps_void_frames keeps_8bit_frame : keeps.

Section KeepsOpt.
Context {D : Type} `{!RankHandler D}.
Lemma keeps_frame_opt mask s f prev : keeps (UFI_exec_frame_opt (D := D) mask s f prev).
Proof. unfold UFI_exec_frame_opt, with_cmds. keeps_steps. Qed.
End KeepsOpt.
#[export] Hint Resolve keeps_frame_opt : keeps.

Section KeepsSelect.
Context {D : Type} `{!RankHandler D}.

Lemma sel_loop_frame nr body mask r :
  (forall i s, 0 <= i -> mux_frame (sel_rank s) (sel_rank (body i s))) ->
  mux_frame r (sel_rank (sel_loop nr body mask r)).
Proof.
  intros Hb. unfold sel_loop. apply (for_each_ci_ind (fun s => mux_frame r (sel_rank s))); [done|].
  intros i s Hi Hs. etrans; [exact Hs|by apply Hb].
Qed.

Lemma keeps_commit_selection structure frame body mask :
  (forall i s, 0 <= i -> mux_frame (sel_rank s) (sel_rank (body i s))) ->
  preserves (D := D) mux_frame (r ← get_rank; commit_selection structure frame (sel_loop (nr_cis_of r) body mask r)).
Proof.
  intros Hb. unfold commit_selection.
  apply (preserves_get_put _ (fun r => let s := sel_loop (nr_cis_of r) body mask r in (s, sel_rank s))
    (fun s => _ ← (if sel_do s then UFI_exec_void_frame (sel_mask s) structure frame else mret tt);
              mret (sel_mask s))).
  - intros r. by apply sel_loop_frame.
  - intros s. keeps_steps.
Qed.

Lemma keeps_commit_selection_frames body mask :
  (forall i s, 0 <= i -> mux_frame (sel_rank s) (sel_rank (body i s))) ->
  preserves (D := D) mux_frame (r ← get_rank; commit_selection_frames (sel_loop (nr_cis_of r) body mask r)).
Proof.
  intros Hb. unfold commit_selection_frames.
  apply (preserves_get_put _ (fun r => let s := sel_loop (nr_cis_of r) body mask r in (s, sel_rank s))
    (fun s => _ ← (if sel_do s then UFI_exec_void_frames (sel_mask s) (sel_structs s) else mret tt);
              mret (sel_mask s))).
  - intros r. by apply sel_loop_frame.
  - intros s. keeps_steps.
Qed.

Lemma sel_frame_target i f s : 0 <= i -> slice_kept f ->
  mux_frame (sel_rank s) (sel_rank (sel_target i f s)).
Proof. intros Hi Hf. by apply mux_frame_upd_slice. Qed.
Lemma sel_frame_words i f st fr s : 0 <= i -> slice_kept f ->
  mux_frame (sel_rank s) (sel_rank (sel_target i f (sel_words i st fr s))).
Proof.
  intros Hi Hf. etrans; [|by apply sel_frame_target]. apply mux_frame_set_cmds.
Qed.
Lemma sel_frame_drop i s : mux_frame (sel_rank s) (sel_rank (sel_drop i s)).
Proof. by split. Qed.
Lemma kept_target t id : slice_kept (set_target t id).
Proof. by intros info. Qed.
Lemma kept_target_type t : slice_kept (set_target_type t).
Proof. by intros info. Qed.

Ltac sel_frame :=
  intros i s Hi; repeat case_bool;
  first [apply sel_frame_drop | apply sel_frame_words; [exact Hi|] | apply sel_frame_target; [exact Hi|]
        | reflexivity];
  first [apply kept_target | apply kept_target_type].

Lemma keeps_select_dpu mask dpu : keeps (ufi_select_dpu (D := D) mask dpu).
Proof. apply keeps_commit_selection. unfold select_dpu_step. sel_frame. Qed.
Lemma keeps_select_dpu_even_disabled mask dpu : keeps (ufi_select_dpu_even_disabled (D := D) mask dpu).
Proof. apply keeps_commit_selection. unfold select_dpu_even_disabled_step. sel_frame. Qed.
Lemma keeps_select_all mask : keeps (ufi_select_all (D := D) mask).
Proof. apply keeps_commit_selection_frames. unfold select_all_step. sel_frame. Qed.
Lemma keeps_select_all_even_disabled mask : keeps (ufi_select_all_even_disabled (D := D) mask).
Proof. apply keeps_commit_selection_frames. unfold select_all_even_disabled_step. sel_frame. Qed.
End KeepsSelect.
#[export] Hint Resolve keeps_select_dpu keeps_select_dpu_even_disabled keeps_select_all
  keeps_select_all_even_disabled : keeps.

Section KeepsAccess.
Context {D : Type} `{!RankHandler D}.

Lemma keeps_write_dma_ctrl mask a d : keeps (ufi_write_dma_ctrl (D := D) mask a d).
Proof. apply keeps_void_frame. Qed.
Lemma keeps_clear_dma_ctrl mask : keeps (ufi_clear_dma_ctrl (D := D) mask).
Proof. apply keeps_void_frame. Qed.
Lemma keeps_read_dma_ctrl mask d : keeps (ufi_read_dma_ctrl (D := D) mask d).
Proof. apply keeps_8bit_frame. Qed.
Lemma keeps_write_dma_ctrl_datas mask a ds : keeps (ufi_write_dma_ctrl_datas (D := D) mask a ds).
Proof. unfold ufi_write_dma_ctrl_datas, with_cmds. keeps_steps. Qed.
End KeepsAccess.
#[export] Hint Resolve keeps_write_dma_ctrl keeps_clear_dma_ctrl keeps_read_dma_ctrl
  keeps_write_dma_ctrl_datas : keeps.


(** ** The other operations *)

Section KeepsOther.
Context {D : Type} `{!RankHandler D}.

Lemma move_to_group_kept mask group : slice_kept (move_to_group mask group).
Proof.
  intros info. unfold move_to_group. cbn.
  apply (for_up_ind (fun _ info' => host_mux_mram_state info' = host_mux_mram_state info /\
    enabled_dpus info' = enabled_dpus info /\ all_dpus_are_enabled info' = all_dpus_are_enabled info));
    [done|done|]. intros i info' _ H. exact H.
Qed.
Lemma reset_slice_kept nr_dpus : slice_kept (reset_slice nr_dpus).
Proof.
  intros info. unfold reset_slice. cbv zeta.
  apply (for_up_ind (fun _ info' => host_mux_mram_state info' = host_mux_mram_state info /\
    enabled_dpus info' = enabled_dpus info /\ all_dpus_are_enabled info' = all_dpus_are_enabled info));
    [done|done|]. intros i info' _ H. exact H.
Qed.

Lemma keeps_write_group mask group : keeps (ufi_write_group (D := D) mask group).
Proof.
  unfold ufi_write_group. keeps_steps. apply preserves_on_rank. intros r.
  apply mux_frame_upd_slice, move_to_group_kept.
Qed.

Lemma keeps_reset_cmd commands : keeps (ci_exec_reset_cmd (D := D) commands).
Proof.
  unfold ci_exec_reset_cmd. keeps_steps.
  - apply preserves_on_rank. intros r. by apply mux_frame_same_config, same_config_ctx.
  - apply keeps_commit.
  - apply keeps_update. reflexivity.
  - apply preserves_on_rank. intros r. by apply mux_frame_same_config, same_config_ctx.
  - apply preserves_on_rank. intros r.
    apply (for_up_ind (fun _ r' => mux_frame r r')); [done|done|].
    intros i r' _ Hr. etrans; [exact Hr|]. apply mux_frame_upd_slice, reset_slice_kept.
Qed.

Lemma keeps_byte_discovery commands store : (forall answers r, mux_frame r (store answers r)) ->
  keeps (ci_exec_byte_discovery (D := D) commands store).
Proof.
  intros Hs.
  assert (forall mask, keeps (wait_for_byte_discovery (D := D) store mask)) as Hwait.
  { intros mask. unfold wait_for_byte_discovery. generalize NB_RETRY_FOR_VALID_RESULT as n.
    induction n as [|n IH]; cbn [wait_for_byte_discovery_loop]; keeps_steps;
      try (apply keeps_update; exact Hs); exact IH. }
  unfold ci_exec_byte_discovery. keeps_steps.
  - apply preserves_on_rank. intros r. by apply mux_frame_same_config, same_config_ctx.
  - apply keeps_commit.
Qed.
End KeepsOther.
#[export] Hint Resolve keeps_write_group keeps_reset_cmd : keeps.

Ltac keeps_unfold f := unfold f, with_cmds; keeps_steps.

Section KeepsConfig.
Context {D : Type} `{!RankHandler D}.

Lemma keeps_select_cis mask : keeps (ufi_select_cis (D := D) mask).
Proof. keeps_unfold @ufi_select_cis. Qed.
Lemma keeps_soft_reset mask c a : keeps (ufi_soft_reset (D := D) mask c a).
Proof. keeps_unfold @ufi_soft_reset. Qed.
Lemma keeps_bit_config mask c res : keeps (ufi_bit_config (D := D) mask c res).
Proof. keeps_unfold @ufi_bit_config. Qed.
Lemma keeps_identity mask res : keeps (ufi_identity (D := D) mask res).
Proof. keeps_unfold @ufi_identity. Qed.
Lemma keeps_thermal_config mask t : keeps (ufi_thermal_config (D := D) mask t).
Proof. keeps_unfold @ufi_thermal_config. Qed.
Lemma keeps_carousel_config mask c : keeps (ufi_carousel_config (D := D) mask c).
Proof. keeps_unfold @ufi_carousel_config. Qed.
Lemma keeps_iram_repair_config mask c : keeps (ufi_iram_repair_config (D := D) mask c).
Proof. keeps_unfold @ufi_iram_repair_config. Qed.
Lemma keeps_wram_repair_config mask b c : keeps (ufi_wram_repair_config (D := D) mask b c).
Proof. keeps_unfold @ufi_wram_repair_config. Qed.
Lemma keeps_get_pc_mode mask m : keeps (ufi_get_pc_mode (D := D) mask m).
Proof. keeps_unfold @ufi_get_pc_mode. Qed.
Lemma keeps_set_pc_mode mask m : keeps (ufi_set_pc_mode (D := D) mask m).
Proof. keeps_unfold @ufi_set_pc_mode. Qed.
Lemma keeps_set_stack_direction mask d p : keeps (ufi_set_stack_direction (D := D) mask d p).
Proof. keeps_unfold @ufi_set_stack_direction. Qed.
Lemma keeps_iram_write mask src o len : keeps (ufi_iram_write (D := D) mask src o len).
Proof. keeps_unfold @ufi_iram_write. Qed.
Lemma keeps_thread_boot mask t p : keeps (ufi_thread_boot (D := D) mask t p).
Proof. keeps_unfold @ufi_thread_boot. Qed.
Lemma keeps_read_dpu_run mask r : keeps (ufi_read_dpu_run (D := D) mask r).
Proof. keeps_unfold @ufi_read_dpu_run. Qed.
Lemma keeps_clear_run_bit mask b p : keeps (ufi_clear_run_bit (D := D) mask b p).
Proof. keeps_unfold @ufi_clear_run_bit. Qed.
Lemma keeps_byte_order mask : keeps (ufi_byte_order (D := D) mask (fun results r => set_data results r)).
Proof.
  unfold ufi_byte_order, with_cmds. keeps_steps. apply keeps_byte_discovery. by split.
Qed.
End KeepsConfig.
#[export] Hint Resolve keeps_select_cis keeps_soft_reset keeps_bit_config keeps_identity
  keeps_thermal_config keeps_carousel_config keeps_iram_repair_config keeps_wram_repair_config
  keeps_get_pc_mode keeps_set_pc_mode keeps_set_stack_direction keeps_iram_write keeps_thread_boot
  keeps_read_dpu_run keeps_clear_run_bit keeps_byte_order : keeps.
