(* ===== verification/Mux.v ===== *)
(** * The MRAM muxes

    Model of the mux functions of [src/ufi/src/ufi_config.c] and of
    [dpu_get_host_mux_mram_state], [dpu_set_host_mux_mram_state]
    ([src/api/src/dpu_config.c]): each MRAM bank belongs either to the host or
    to its DPU; the rank records the position of every mux, and a switch moves
    the muxes of a line (the same DPU of every interface) or of the whole
    rank. The rank's mutex is not modelled: these functions run with it held. *)

From S2P Require Import Prelude CMonad BitConfig CiCommands Rank Ci Ufi Select Frame.

#[local] Open Scope Z_scope.
#[local] Open Scope dpu_scope.

Definition MUX_DPU_BANK_CTRL := Z.shiftl 1 0.
Definition MUX_DPU_WRITE_CTRL := Z.shiftl 1 1.
Definition WAVEGEN_MUX_HOST_EXPECTED := 0x00.
Definition WAVEGEN_MUX_DPU_EXPECTED := MUX_DPU_BANK_CTRL ||| MUX_DPU_WRITE_CTRL.
Definition TIMEOUT_MUX_STATUS := 100.
Definition CMD_GET_MUX_CTRL := 0x02.

(** [dpu_mask.h]. *)
Definition dpu_mask_one (dpu_id : Z) : Z := u8 (Z.shiftl 1 dpu_id).
Definition dpu_mask_select (mask dpu_id : Z) : Z := mask ||| dpu_mask_one dpu_id.
Definition dpu_mask_all (nb_of_dpus : Z) : Z := u8 (Z.shiftl 1 nb_of_dpus - 1).
Definition dpu_mask_is_selected (mask dpu_id : Z) : bool := negb (mask &&& dpu_mask_one dpu_id =? 0).

Definition dpu_get_host_mux_mram_state (r : rank) (slice_id dpu_id : Z) : Z :=
  Z.shiftr (host_mux_mram_state (slice_of r slice_id)) dpu_id &&& 1.

Definition dpu_set_host_mux_mram_state (slice_id dpu_id : Z) (set : bool) (r : rank) : rank :=
  upd_slice slice_id (fun info =>
    set_host_mux_mram_state
      (if set then u8 (host_mux_mram_state info ||| Z.shiftl 1 dpu_id)
       else host_mux_mram_state info &&& not8 (Z.shiftl 1 dpu_id)) info) r.

(** The byte made of the states of one line. *)
Definition line_state (r : rank) (dpu_id : Z) : Z :=
  for_up (nr_cis_of r) (fun each_slice m =>
    u8 (m ||| Z.shiftl (dpu_get_host_mux_mram_state r each_slice dpu_id) each_slice)) 0.

Section Mux.
Context {D : Type} `{!RankHandler D}.

(** [return disable_api_safe_checks ? DPU_OK : DPU_ERR_TIMEOUT]. *)
Definition mux_timeout : W D bool :=
  r ← get_rank;
  if disable_api_safe_checks (desc r) then mret true else fail DPU_ERR_TIMEOUT.

(** The do-while loop of [dpu_check_wavegen_mux_status_for_dpu]; [n] is
    [timeout] after the decrement of this turn. *)
Fixpoint check_mux_dpu_loop (n : nat) (ci_mask : Z) (expected result_array : list Z) : W D unit :=
  result_array ← ufi_read_dma_ctrl ci_mask result_array;
  r ← get_rank;
  let should_retry := existsb (fun each_slice =>
    CI_MASK_ON ci_mask each_slice &&
    negb (result_array.[each_slice] &&& 0x7B =? expected.[each_slice])) (seqZ 0 (nr_cis_of r)) in
  match n with
  | O => _ ← mux_timeout; mret tt
  | S n => if should_retry then check_mux_dpu_loop n ci_mask expected result_array else mret tt
  end.

Definition dpu_check_wavegen_mux_status_for_dpu (dpu_id : Z) (expected : list Z) : W D unit :=
  ci_mask ← ufi_select_dpu_even_disabled ALL_CIS dpu_id;
  _ ← ufi_write_dma_ctrl ci_mask 0xFF CMD_GET_MUX_CTRL;
  _ ← ufi_clear_dma_ctrl ci_mask;
  check_mux_dpu_loop (Z.to_nat (TIMEOUT_MUX_STATUS - 1)) ci_mask expected zeros8.

(** The inner loop for the rank; [true] when the function returns at the
    timeout with [DPU_OK]. *)
Fixpoint check_mux_rank_loop (n : nat) (ci_mask each_dpu expected : Z) (result_array : list Z)
    : W D (bool * list Z) :=
  mask ← ufi_select_dpu_even_disabled ALL_CIS each_dpu;
  result_array ← ufi_read_dma_ctrl mask result_array;
  r ← get_rank;
  let should_retry := existsb (fun each_slice =>
    CI_MASK_ON ci_mask each_slice && negb (result_array.[each_slice] &&& 0x7B =? expected))
    (seqZ 0 (nr_cis_of r)) in
  match n with
  | O => b ← mux_timeout; mret (b, result_array)
  | S n => if should_retry then check_mux_rank_loop n ci_mask each_dpu expected result_array
           else mret (false, result_array)
  end.

Definition dpu_check_wavegen_mux_status_for_rank (expected : Z) : W D unit :=
  ci_mask ← ufi_select_all_even_disabled ALL_CIS;
  _ ← ufi_write_dma_ctrl ci_mask 0xFF CMD_GET_MUX_CTRL;
  _ ← ufi_clear_dma_ctrl ci_mask;
  r ← get_rank;
  _ ← mfor (nr_dpus_of r) (fun each_dpu '(returned, result_array) =>
        if returned : bool then mret (returned, result_array)
        else check_mux_rank_loop (Z.to_nat (TIMEOUT_MUX_STATUS - 1)) ci_mask each_dpu expected
               result_array) (false, zeros8);
  mret tt.

Definition expected_line (nr_cis ci_mux_pos : Z) : list Z :=
  for_up nr_cis (fun slice_id expected =>
    expected.[slice_id := if negb (ci_mux_pos &&& Z.shiftl 1 slice_id =? 0)
                          then WAVEGEN_MUX_HOST_EXPECTED else WAVEGEN_MUX_DPU_EXPECTED]) zeros8.

Definition host_handle_access_for_dpu (dpu_id ci_mux_pos : Z) : W D unit :=
  ci_mask ← ufi_select_dpu_even_disabled ALL_CIS dpu_id;
  _ ← ufi_set_mram_mux ci_mask ci_mux_pos;
  r ← get_rank;
  dpu_check_wavegen_mux_status_for_dpu dpu_id (expected_line (nr_cis_of r) ci_mux_pos).

Definition host_handle_access_for_rank (set_mux_for_host : bool) : W D unit :=
  mask ← ufi_select_all_even_disabled ALL_CIS;
  _ ← ufi_set_mram_mux mask (if set_mux_for_host then 0xFF else 0x0);
  dpu_check_wavegen_mux_status_for_rank
    (if set_mux_for_host then WAVEGEN_MUX_HOST_EXPECTED else WAVEGEN_MUX_DPU_EXPECTED).

(** [nb_dpu_running] of the lines of [run_mask]. *)
Definition count_running (r : rank) (run_mask : Z) : Z :=
  for_up (nr_cis_of r) (fun each_slice n =>
    n + popcount ((dpu_running (run r)).[each_slice] &&& run_mask)) 0.

(** The loop that records the new positions. *)
Definition record_line (switch_base_line switch_friend_line : bool) (base mask : Z) (r : rank)
    : rank :=
  for_up (nr_cis_of r) (fun each_slice r =>
    let set := negb (mask &&& Z.shiftl 1 each_slice =? 0) in
    let r := if switch_base_line then dpu_set_host_mux_mram_state each_slice base set r else r in
    if switch_friend_line then dpu_set_host_mux_mram_state each_slice (base + 1) set r else r) r.

Definition dpu_switch_mux_for_dpu_line (dpu_id mask : Z) : W D unit :=
  r ← get_rank;
  let dpu_pair_base_id := u8 (Z.ldiff dpu_id 1) in
  let switch_base_line := negb (line_state r dpu_pair_base_id =? mask) in
  let switch_friend_line :=
    (dpu_pair_base_id + 1 <? nr_dpus_of r) && negb (line_state r (dpu_pair_base_id + 1) =? mask) in
  if negb switch_base_line && negb switch_friend_line then mret tt
  else
    let run_mask := 0 in
    let run_mask := if switch_base_line then dpu_mask_select run_mask dpu_pair_base_id else run_mask in
    let run_mask :=
      if switch_friend_line then dpu_mask_select run_mask (dpu_pair_base_id + 1) else run_mask in
    if 0 <? count_running r run_mask then fail DPU_ERR_MRAM_BUSY
    else
      _ ← on_rank (record_line switch_base_line switch_friend_line dpu_pair_base_id mask);
      if negb (api_must_switch_mram_mux (desc r)) then mret tt
      else
        _ ← (if switch_base_line then host_handle_access_for_dpu dpu_pair_base_id mask else mret tt);
        if switch_friend_line then host_handle_access_for_dpu (dpu_pair_base_id + 1) mask
        else mret tt.

(** Some interface of the rank has a mux in the wrong position. *)
Definition rank_needs_switch (r : rank) (set_mux_for_host : bool) : bool :=
  existsb (fun each_slice =>
    let state := host_mux_mram_state (slice_of r each_slice) in
    (set_mux_for_host && (popcount state <? nr_dpus_of r))
    || (negb set_mux_for_host && negb (state =? 0))) (seqZ 0 (nr_cis_of r)).

Definition record_rank (set_mux_for_host : bool) (r : rank) : rank :=
  for_up (nr_cis_of r) (fun each_slice => upd_slice each_slice
    (set_host_mux_mram_state
       (if set_mux_for_host then u8 (Z.shiftl 1 (nr_dpus_of r) - 1) else 0x0))) r.

Definition dpu_switch_mux_for_rank (set_mux_for_host : bool) : W D unit :=
  r ← get_rank;
  if 0 <? nb_dpu_running (run r) then fail DPU_ERR_MRAM_BUSY
  else if negb (rank_needs_switch r set_mux_for_host) then mret tt
  else
    _ ← on_rank (record_rank set_mux_for_host);
    if negb (api_must_switch_mram_mux (desc r)) && negb (init_mram_mux (desc r)) then mret tt
    else host_handle_access_for_rank set_mux_for_host.

(** [dpu_wavegen_read_status]. *)
Definition dpu_wavegen_read_status (d : dpu_t) (address : Z) : W D Z :=
  if negb (enabled d) then fail DPU_ERR_DPU_DISABLED
  else
    mask ← ufi_select_dpu (u8 (CI_MASK_ONE (slice_id d))) (dpu_id d);
    _ ← ufi_write_dma_ctrl mask 0xFF (address &&& 3);
    _ ← ufi_clear_dma_ctrl mask;
    results ← ufi_read_dma_ctrl mask zeros8;
    mret results.[slice_id d].

(** ** Starting and polling ([src/ufi/src/ufi_runner.c]) *)

(** The positions kept for the interfaces outside [ci_mask]. *)
Definition kept_mux_mask (r : rank) (ci_mask dpu_id : Z) : Z :=
  for_up (nr_cis_of r) (fun each_slice m =>
    if negb (CI_MASK_ON ci_mask each_slice)
    then u8 (m ||| Z.shiftl (dpu_get_host_mux_mram_state r each_slice dpu_id) each_slice)
    else m) 0.

Definition start_or_resume (ci_mask thread : Z) (resume : bool) (previous : option (list Z))
    : W D (option (list Z)) :=
  if resume then ufi_thread_resume ci_mask thread previous
  else ufi_thread_boot ci_mask thread previous.

Definition ci_start_thread_rank (thread : Z) (resume : bool) (previous : option (list Z))
    : W D (option (list Z)) :=
  ci_mask ← ufi_select_all ALL_CIS;
  _ ← (if ci_mask =? ALL_CIS then dpu_switch_mux_for_rank false
       else
         r ← get_rank;
         mfor (nr_dpus_of r) (fun each_dpu _ =>
           r ← get_rank;
           dpu_switch_mux_for_dpu_line each_dpu (kept_mux_mask r ci_mask each_dpu)) tt);
  ci_mask ← ufi_select_all ci_mask;
  start_or_resume ci_mask thread resume previous.

Definition ci_start_thread_dpu (d : dpu_t) (thread : Z) (resume : bool)
    (previous : option (list Z)) : W D (option (list Z)) :=
  r ← get_rank;
  let ci_mask := u8 (CI_MASK_ONE (slice_id d)) in
  _ ← dpu_switch_mux_for_dpu_line (dpu_id d) (kept_mux_mask r ci_mask (dpu_id d));
  ci_mask ← ufi_select_dpu ci_mask (dpu_id d);
  start_or_resume ci_mask thread resume previous.

Definition ci_poll_rank (run fault : list Z) : W D (list Z * list Z) :=
  mask ← ufi_select_all ALL_CIS;
  run ← ufi_read_dpu_run mask run;
  fault ← ufi_read_dpu_fault mask fault;
  mret (run, fault).

Definition ci_sample_pc_dpu (d : dpu_t) : W D Z :=
  ci_mask ← ufi_select_dpu (u8 (CI_MASK_ONE (slice_id d))) (dpu_id d);
  _ ← ufi_debug_pc_sample ci_mask;
  pcs ← ufi_debug_pc_read ci_mask zeros8;
  mret pcs.[slice_id d].

(** ** Disabling a DPU ([ci_disable_dpu]) *)

Definition ci_disable_dpu (d : dpu_t) : W D unit :=
  ci_mask ← ufi_select_dpu (u8 (CI_MASK_ONE (slice_id d))) (dpu_id d);
  ufi_write_group ci_mask DPU_DISABLED_GROUP.
End Mux.

Section KeepsHost.
Context {D : Type} `{!RankHandler D}.

Lemma keeps_set_mram_mux mask pos : keeps (ufi_set_mram_mux (D := D) mask pos).
Proof. unfold ufi_set_mram_mux. keeps_steps. Qed.
Lemma keeps_mux_timeout : keeps (mux_timeout (D := D)).
Proof. unfold mux_timeout. keeps_steps. Qed.
Lemma keeps_check_mux_dpu_loop n mask e res : keeps (check_mux_dpu_loop (D := D) n mask e res).
Proof.
  revert res. induction n as [|n IH]; intros res; cbn [check_mux_dpu_loop];
    keeps_steps; apply keeps_mux_timeout.
Qed.
Lemma keeps_check_mux_rank_loop n mask d e res : keeps (check_mux_rank_loop (D := D) n mask d e res).
Proof.
  revert res. induction n as [|n IH]; intros res; cbn [check_mux_rank_loop];
    keeps_steps; apply keeps_mux_timeout.
Qed.
Lemma keeps_host_for_dpu dpu pos : keeps (host_handle_access_for_dpu (D := D) dpu pos).
Proof.
  unfold host_handle_access_for_dpu, dpu_check_wavegen_mux_status_for_dpu. keeps_steps;
    auto using keeps_set_mram_mux, keeps_check_mux_dpu_loop.
Qed.
Lemma keeps_host_for_rank b : keeps (host_handle_access_for_rank (D := D) b).
Proof.
  unfold host_handle_access_for_rank, dpu_check_wavegen_mux_status_for_rank. keeps_steps;
    auto using keeps_set_mram_mux, keeps_check_mux_rank_loop.
Qed.
End KeepsHost.

(** ** The recorded positions *)

(** The host has bank [dpu] of interface [s]; DPU [dpu] of interface [s] runs. *)
Definition mux_bit (r : rank) (s dpu : Z) : bool :=
  Z.testbit (host_mux_mram_state (slice_of r s)) dpu.
Definition running_bit (r : rank) (s dpu : Z) : bool :=
  Z.testbit ((dpu_running (run r)).[s]) dpu.

Record mux_wf (r : rank) : Prop := {
  mw_cis : 0 < nr_cis_of r <= DPU_MAX_NR_CIS;
  mw_dpus : 0 < nr_dpus_of r <= 8;
  mw_slices : lenz (slice_infos (ci r)) = DPU_MAX_NR_CIS;
  mw_running : forall s, 0 <= s < DPU_MAX_NR_CIS -> 0 <= (dpu_running (run r)).[s];
}.

Lemma get_host_mux_bit r s dpu : 0 <= dpu ->
  dpu_get_host_mux_mram_state r s dpu = Z.b2z (mux_bit r s dpu).
Proof.
  intros Hd. unfold dpu_get_host_mux_mram_state, mux_bit.
  rewrite (land_ones_mod _ 1) by lia. change (2 ^ 1) with 2.
  by rewrite <-Z.bit0_mod, Z.shiftr_spec, Z.add_0_l by lia.
Qed.

Lemma b2z_shift_testbit b k s : 0 <= k -> 0 <= s ->
  Z.testbit (Z.shiftl (Z.b2z b) k) s = b && bool_decide (s = k).
Proof.
  intros Hk Hs. destruct b; simpl.
  - rewrite testbit_pow2 by done. by repeat case_bool_decide.
  - by rewrite Z.shiftl_0_l, Z.testbit_0_l.
Qed.

Lemma u8_testbit x i : 0 <= i < 8 -> Z.testbit (u8 x) i = Z.testbit x i.
Proof. intros Hi. unfold u8. by rewrite Z.mod_pow2_bits_low by lia. Qed.

(** The byte of a line holds the position of each interface. *)
Lemma line_state_testbit r dpu s : mux_wf r -> 0 <= dpu -> 0 <= s < nr_cis_of r ->
  Z.testbit (line_state r dpu) s = mux_bit r s dpu.
Proof.
  intros [Hn _ _ _] Hd Hs. unfold line_state, DPU_MAX_NR_CIS in *.
  pose (P := fun k m => forall j, 0 <= j < 8 ->
    Z.testbit m j = bool_decide (j < k) && mux_bit r j dpu).
  enough (P (nr_cis_of r) (for_up (nr_cis_of r) (fun each_slice m =>
    u8 (m ||| Z.shiftl (dpu_get_host_mux_mram_state r each_slice dpu) each_slice)) 0)) as HP.
  { rewrite HP by lia. by rewrite bool_decide_true by lia. }
  apply for_up_ind; [lia| |].
  { intros j Hj. by rewrite Z.testbit_0_l, bool_decide_false by lia. }
  intros k m Hk HP j Hj. rewrite u8_testbit, Z.lor_spec, HP, get_host_mux_bit, b2z_shift_testbit by lia.
  repeat case_bool_decide; subst; try lia; by rewrite ?andb_false_r, ?orb_false_r, ?andb_true_r.
Qed.

Lemma set_mux_testbit s dpu b r j d :
  0 <= s < lenz (slice_infos (ci r)) -> 0 <= j -> 0 <= dpu < 8 -> 0 <= d < 8 ->
  mux_bit (dpu_set_host_mux_mram_state s dpu b r) j d =
    if decide (j = s /\ d = dpu) then b else mux_bit r j d.
Proof.
  intros Hs Hj Hdpu Hd. unfold mux_bit, dpu_set_host_mux_mram_state.
  rewrite slice_of_upd by lia. destruct (decide (s = j)) as [<-|Hne].
  2: { rewrite decide_False by (intros [? ?]; congruence). done. }
  cbn [host_mux_mram_state set_host_mux_mram_state].
  destruct (decide (d = dpu)) as [->|Hdd].
  - rewrite (decide_True (P := _ /\ _)) by done. destruct b.
    + by rewrite u8_testbit, Z.lor_spec, testbit_pow2, bool_decide_true, orb_true_r by lia.
    + by rewrite not8_land_testbit, testbit_pow2, bool_decide_true, andb_false_r by lia.
  - rewrite (decide_False (P := _ /\ _)) by (intros [? ?]; congruence). destruct b.
    + by rewrite u8_testbit, Z.lor_spec, testbit_pow2, bool_decide_false, orb_false_r by (lia || congruence).
    + by rewrite not8_land_testbit, testbit_pow2, bool_decide_false, andb_true_r by (lia || congruence).
Qed.

Lemma set_mux_frame s dpu b r :
  desc (dpu_set_host_mux_mram_state s dpu b r) = desc r /\
  run (dpu_set_host_mux_mram_state s dpu b r) = run r /\
  lenz (slice_infos (ci (dpu_set_host_mux_mram_state s dpu b r))) = lenz (slice_infos (ci r)).
Proof. split_and!; [done|done|apply lenz_upd_slice]. Qed.

(** The lines that a switch moves. *)
Definition moved (sb sf : bool) (base d : Z) : bool :=
  (sb && (d =? base)) || (sf && (d =? base + 1)).

Lemma record_line_spec sb sf base mask r : mux_wf r -> 0 <= base -> base + 1 < 8 ->
  let r' := record_line sb sf base mask r in
  desc r' = desc r /\ run r' = run r /\
  forall s d, 0 <= s < nr_cis_of r -> 0 <= d < 8 ->
    mux_bit r' s d = if moved sb sf base d then Z.testbit mask s else mux_bit r s d.
Proof.
  intros [Hn _ Hl _] Hb Hb' r'. unfold DPU_MAX_NR_CIS in *.
  pose (P := fun k r' => desc r' = desc r /\ run r' = run r /\ lenz (slice_infos (ci r')) = 8 /\
    forall s d, 0 <= s < 8 -> 0 <= d < 8 -> mux_bit r' s d =
      if (s <? k) && moved sb sf base d then Z.testbit mask s else mux_bit r s d).
  enough (P (nr_cis_of r) r') as (Hd & Hr & _ & HP).
  { split; [done|split; [done|]]. intros s d Hs Hd'. rewrite HP by lia.
    by rewrite (proj2 (Z.ltb_lt _ _)) by lia. }
  unfold r', record_line. apply for_up_ind; [lia| |].
  { split_and!; try done. intros s d Hs Hd. by rewrite (proj2 (Z.ltb_ge _ _)) by lia. }
  intros k r1 Hk (Hd & Hr & Hl1 & HP). cbv zeta.
  set (b := negb (mask &&& Z.shiftl 1 k =? 0)).
  assert (b = Z.testbit mask k) as Hbit by (apply CI_MASK_ON_testbit; lia).
  set (r2 := if sb then dpu_set_host_mux_mram_state k base b r1 else r1).
  assert (desc r2 = desc r /\ run r2 = run r /\ lenz (slice_infos (ci r2)) = 8) as (Hd2 & Hr2 & Hl2).
  { unfold r2. destruct sb; [|done]. destruct (set_mux_frame k base b r1) as (-> & -> & ->). done. }
  split_and!; [by destruct sf|by destruct sf|destruct sf; [cbn; by rewrite lenz_setz|done]|].
  intros s d Hs Hd'.
  assert (mux_bit r2 s d = if (s =? k) && (sb && (d =? base)) then b else mux_bit r1 s d) as H2.
  { unfold r2. destruct sb; [|by rewrite andb_false_r]. rewrite set_mux_testbit by lia.
    destruct (Z.eqb_spec s k), (Z.eqb_spec d base); cbn [andb];
      [rewrite decide_True by done|rewrite decide_False by (intros [? ?]; congruence)..]; done. }
  assert (mux_bit (if sf then dpu_set_host_mux_mram_state k (base + 1) b r2 else r2) s d =
    if (s =? k) && (sf && (d =? base + 1)) then b else mux_bit r2 s d) as ->.
  { destruct sf; [|by rewrite andb_false_r]. rewrite set_mux_testbit by lia.
    destruct (Z.eqb_spec s k), (Z.eqb_spec d (base + 1)); cbn [andb];
      [rewrite decide_True by done|rewrite decide_False by (intros [? ?]; congruence)..]; done. }
  rewrite H2, HP by lia. unfold moved.
  destruct (Z.ltb_spec s (k + 1)), (Z.ltb_spec s k), (Z.eqb_spec s k); try lia; subst;
    cbn [andb]; try done.
  by destruct (sb && (d =? base)), (sf && (d =? base + 1)).
Qed.

(** ** Switching a line *)

Lemma count_running_zero r mask s : 0 <= nr_cis_of r -> ~ 0 < count_running r mask ->
  0 <= s < nr_cis_of r -> popcount ((dpu_running (run r)).[s] &&& mask) = 0.
Proof.
  intros Hn Hc Hs.
  pose (P := fun k n => 0 <= n /\ (n = 0 -> forall s, 0 <= s < k ->
    popcount ((dpu_running (run r)).[s] &&& mask) = 0)).
  assert (P (nr_cis_of r) (count_running r mask)) as [H0 HP].
  { unfold count_running. apply for_up_ind; [done|split; [done|lia]|].
    intros k n Hk [H0 HP]. pose proof (popcount_nonneg ((dpu_running (run r)).[k] &&& mask)).
    split; [lia|]. intros Hz j Hj. destruct (decide (j = k)) as [->|]; [lia|apply HP; lia]. }
  apply HP; lia.
Qed.

Lemma pair_base dpu : 0 <= dpu < 8 ->
  0 <= u8 (Z.ldiff dpu 1) /\ u8 (Z.ldiff dpu 1) + 1 < 8 /\ u8 (Z.ldiff dpu 1) <= dpu <= u8 (Z.ldiff dpu 1) + 1.
Proof. intros Hd. revert dpu Hd. by_eval. Qed.

(** Which of the two lines of the pair have to be moved. *)
Definition base_line (dpu : Z) : Z := u8 (Z.ldiff dpu 1).
Definition base_differs (r : rank) (dpu mask : Z) : bool := negb (line_state r (base_line dpu) =? mask).
Definition friend_differs (r : rank) (dpu mask : Z) : bool :=
  (base_line dpu + 1 <? nr_dpus_of r) && negb (line_state r (base_line dpu + 1) =? mask).
Definition lines_mask (sb sf : bool) (base : Z) : Z :=
  let run_mask := if sb then dpu_mask_select 0 base else 0 in
  if sf then dpu_mask_select run_mask (base + 1) else run_mask.

(** A DPU of a line to be moved is in [run_mask]. *)
Lemma lines_mask_testbit sb sf base d : 0 <= base -> base + 1 < 8 -> 0 <= d < 8 ->
  moved sb sf base d = true -> Z.testbit (lines_mask sb sf base) d = true.
Proof.
  intros Hb Hb' Hd. unfold lines_mask, dpu_mask_select, dpu_mask_one, moved.
  assert (forall x, 0 <= x < 8 -> Z.testbit (u8 (Z.shiftl 1 x)) x = true) as Hone
    by (intros x Hx; by rewrite u8_testbit, testbit_pow2, bool_decide_true by lia).
  intros [[-> Hx]%andb_true_iff|[-> Hx]%andb_true_iff]%orb_true_iff; apply Z.eqb_eq in Hx; subst d;
    [destruct sf|destruct sb]; rewrite ?Z.lor_spec, ?Z.testbit_0_l, ?Hone by lia; by rewrite ?orb_true_r.
Qed.

Section Switch.
Context {D : Type} `{!RankHandler D}.
Implicit Types w : world D.

Lemma switch_line_cases dpu mask w w' res :
  dpu_switch_mux_for_dpu_line dpu mask w = (w', res) ->
  let r := rk w in let base := base_line dpu in
  let sb := base_differs r dpu mask in let sf := friend_differs r dpu mask in
  (sb = false /\ sf = false /\ w' = w /\ res = Ok tt) \/
  (w' = w /\ res = Err DPU_ERR_MRAM_BUSY) \/
  (~ 0 < count_running r (lines_mask sb sf base) /\ mux_frame (record_line sb sf base mask r) (rk w')).
Proof.
  unfold dpu_switch_mux_for_dpu_line. unfold mbind, C_bind at 1, get_rank, gets. cbv beta iota zeta.
  fold (base_line dpu). fold (base_differs (rk w) dpu mask). fold (friend_differs (rk w) dpu mask).
  set (sb := base_differs (rk w) dpu mask). set (sf := friend_differs (rk w) dpu mask).
  fold (lines_mask sb sf (base_line dpu)).
  destruct (negb sb && negb sf) eqn:Hnone.
  { intros [= <- <-]. left. by destruct sb, sf. }
  destruct (Z.ltb_spec 0 (count_running (rk w) (lines_mask sb sf (base_line dpu)))).
  { intros [= <- <-]. by right; left. }
  intros Hrun. right; right. split; [lia|].
  set (w1 := mk_world (record_line sb sf (base_line dpu) mask (rk w)) (dev w)).
  assert (forall m : W D unit, keeps m -> m w1 = (w', res) -> mux_frame (rk w1) (rk w')) as Hk
    by (intros m Hm He; destruct (Hm w1) as [Hm' _]; by rewrite He in Hm').
  refine (Hk _ _ Hrun).
  destruct (negb (api_must_switch_mram_mux (desc (rk w)))); [apply preserves_ret; exact _|].
  apply preserves_bind; [exact _|destruct sb; [apply keeps_host_for_dpu|apply preserves_ret; exact _]|].
  intros _. destruct sf; [apply keeps_host_for_dpu|apply preserves_ret; exact _].
Qed.
End Switch.

(** Where the two lines are after a switch. *)
Lemma switch_line_positions {D} `{!RankHandler D} dpu mask (w w' : world D) res :
  mux_wf (rk w) -> 0 <= dpu < nr_dpus_of (rk w) ->
  dpu_switch_mux_for_dpu_line dpu mask w = (w', res) ->
  (res = Err DPU_ERR_MRAM_BUSY /\ w' = w) \/
  (forall s d, 0 <= s < nr_cis_of (rk w) -> 0 <= d < nr_dpus_of (rk w) ->
     mux_bit (rk w') s d =
       if (d =? base_line dpu) || (d =? base_line dpu + 1) then Z.testbit mask s
       else mux_bit (rk w) s d).
Proof.
  intros Hwf Hdpu Hrun. pose proof (mw_dpus _ Hwf) as Hnd.
  destruct (pair_base dpu ltac:(lia)) as (Hb & Hb' & Hbd). fold (base_line dpu) in *.
  assert (base_differs (rk w) dpu mask = false -> forall s, 0 <= s < nr_cis_of (rk w) ->
    mux_bit (rk w) s (base_line dpu) = Z.testbit mask s) as Hbase.
  { intros Hx s Hs. unfold base_differs in Hx. zb2p. by rewrite <-Hx, line_state_testbit. }
  assert (friend_differs (rk w) dpu mask = false -> base_line dpu + 1 < nr_dpus_of (rk w) ->
    forall s, 0 <= s < nr_cis_of (rk w) ->
    mux_bit (rk w) s (base_line dpu + 1) = Z.testbit mask s) as Hfriend.
  { intros Hx Hlt s Hs. unfold friend_differs in Hx. rewrite (proj2 (Z.ltb_lt _ _) Hlt) in Hx.
    cbn [andb] in Hx. zb2p. rewrite <-Hx, line_state_testbit by (done || lia). done. }
  destruct (switch_line_cases _ _ _ _ _ Hrun) as [(Hsb & Hsf & -> & _)|[[-> ->]|[Hc Hf]]];
    [right|by left|right]; intros s d Hs Hd.
  - destruct (Z.eqb_spec d (base_line dpu)) as [->|]; [by apply Hbase|].
    destruct (Z.eqb_spec d (base_line dpu + 1)) as [->|]; [apply Hfriend; auto; lia|done].
  - unfold mux_bit at 1. rewrite (mf_mux _ _ Hf) by lia.
    destruct (record_line_spec (base_differs (rk w) dpu mask) (friend_differs (rk w) dpu mask)
      (base_line dpu) mask (rk w) Hwf Hb Hb') as (_ & _ & Hbit).
    unfold mux_bit at 1 in Hbit. rewrite Hbit by lia. unfold moved.
    destruct (Z.eqb_spec d (base_line dpu)) as [Hd1|Hd1], (Z.eqb_spec d (base_line dpu + 1)) as [Hd2|Hd2];
      try lia; rewrite ?andb_true_r, ?andb_false_r; cbn [orb]; [| |done].
    + destruct (base_differs (rk w) dpu mask) eqn:Hsb; [done|]. subst d. by apply Hbase.
    + destruct (friend_differs (rk w) dpu mask) eqn:Hsf; [done|]. subst d. apply Hfriend; [done|lia|done].
Qed.

(** The mask that gives the started DPUs their banks and keeps the others. *)
Lemma kept_mux_mask_testbit r ci_mask dpu s : mux_wf r -> 0 <= dpu -> 0 <= s < nr_cis_of r ->
  Z.testbit (kept_mux_mask r ci_mask dpu) s = negb (CI_MASK_ON ci_mask s) && mux_bit r s dpu.
Proof.
  intros [Hn _ _ _] Hd Hs. unfold kept_mux_mask, DPU_MAX_NR_CIS in *.
  pose (P := fun k m => forall j, 0 <= j < 8 ->
    Z.testbit m j = bool_decide (j < k) && (negb (CI_MASK_ON ci_mask j) && mux_bit r j dpu)).
  enough (P (nr_cis_of r) (for_up (nr_cis_of r) (fun each_slice m =>
    if negb (CI_MASK_ON ci_mask each_slice)
    then u8 (m ||| Z.shiftl (dpu_get_host_mux_mram_state r each_slice dpu) each_slice)
    else m) 0)) as HP.
  { rewrite HP by lia. by rewrite bool_decide_true by lia. }
  apply for_up_ind; [lia| |].
  { intros j Hj. by rewrite Z.testbit_0_l, bool_decide_false by lia. }
  intros k m Hk HP j Hj. destruct (CI_MASK_ON ci_mask k) eqn:Hon; cbn [negb].
  - rewrite HP by lia. destruct (decide (j = k)) as [->|]; [rewrite Hon; cbn; by rewrite !andb_false_r|].
    f_equal. apply bool_decide_ext. lia.
  - rewrite u8_testbit, Z.lor_spec, HP, get_host_mux_bit, b2z_shift_testbit by lia.
    repeat case_bool_decide; subst; try lia; rewrite ?Hon, ?andb_false_r, ?orb_false_r, ?andb_true_r; done.
Qed.

(** Every mux of the rank has its position in the record. *)
Lemma full_state n x : 0 < n <= 8 -> 0 <= x < 2 ^ n -> ~ popcount x < n -> x = Z.ones n.
Proof.
  intros Hn Hx Hp.
  assert (0 <= n < 9) as Hn' by lia. assert (0 <= x < 256) as Hx'.
  { split; [lia|]. pose proof (Z.pow_le_mono_r 2 n 8 ltac:(lia) ltac:(lia)). lia. }
  enough (forallb (fun n => forallb (fun x => implb ((0 <? n) && (x <? 2 ^ n) && negb (popcount x <? n))
    (x =? Z.ones n)) (seqZ 0 256)) (seqZ 0 9) = true) as Hall.
  { pose proof (forall_range _ _ (forall_range _ _ Hall n Hn') x Hx') as Hnx. cbv beta in Hnx.
    rewrite (proj2 (Z.ltb_lt 0 n)), (proj2 (Z.ltb_lt x _)), (proj2 (Z.ltb_ge _ _)) in Hnx by lia.
    by apply Z.eqb_eq. }
  vm_compute. reflexivity.
Qed.

(** Every mux of the rank is where [set_mux_for_host] puts it. *)
Definition rank_position (nr_dpus : Z) (set_mux_for_host : bool) : Z :=
  if set_mux_for_host then Z.ones nr_dpus else 0.

Lemma rank_needs_no_switch r b : mux_wf r ->
  (forall s, 0 <= s < nr_cis_of r -> 0 <= host_mux_mram_state (slice_of r s) < 2 ^ nr_dpus_of r) ->
  rank_needs_switch r b = false -> forall s, 0 <= s < nr_cis_of r ->
  host_mux_mram_state (slice_of r s) = rank_position (nr_dpus_of r) b.
Proof.
  intros Hwf Hst Hno s Hs. unfold rank_needs_switch in Hno.
  assert (~ In s (filter (fun each_slice =>
    (b && (popcount (host_mux_mram_state (slice_of r each_slice)) <? nr_dpus_of r))
    || (negb b && negb (host_mux_mram_state (slice_of r each_slice) =? 0)) = true) (seqZ 0 (nr_cis_of r))))
    as Hnot.
  { intros [Hin _]%list_elem_of_In%list_elem_of_filter. rewrite (proj2 (existsb_exists _ _)) in Hno; [done|].
    exists s. split; [|done]. by apply list_elem_of_In, elem_of_seqZ. }
  unfold rank_position. specialize (Hst s Hs). pose proof (mw_dpus _ Hwf).
  destruct b; cbn [andb negb orb] in *.
  - apply full_state; [lia|lia|]. intros Hlt. apply Hnot, list_elem_of_In, list_elem_of_filter.
    split; [|by apply elem_of_seqZ]. by rewrite (proj2 (Z.ltb_lt _ _) Hlt).
  - destruct (Z.eqb_spec (host_mux_mram_state (slice_of r s)) 0) as [|Hne]; [done|].
    exfalso. apply Hnot, list_elem_of_In, list_elem_of_filter.
    split; [|by apply elem_of_seqZ]. by rewrite (proj2 (Z.eqb_neq _ _) Hne).
Qed.

Lemma record_rank_position r b s : mux_wf r -> 0 <= s < nr_cis_of r ->
  host_mux_mram_state (slice_of (record_rank b r) s) = rank_position (nr_dpus_of r) b.
Proof.
  intros [Hn Hd Hl _] Hs. unfold record_rank. rewrite for_up_upd_slice by lia.
  rewrite decide_True by lia. cbn [host_mux_mram_state set_host_mux_mram_state].
  unfold rank_position. destruct b; [|done]. rewrite Z.ones_equiv, Z.shiftl_1_l, u8_id; [lia|].
  unfold fits. pose proof (Z.pow_le_mono_r 2 (nr_dpus_of r) 8 ltac:(lia) ltac:(lia)).
  pose proof (Z.pow_pos_nonneg 2 (nr_dpus_of r)). lia.
Qed.

(** Where the muxes are after a switch of the rank. *)
Lemma switch_rank_positions {D} `{!RankHandler D} b (w w' : world D) res :
  mux_wf (rk w) ->
  (forall s, 0 <= s < nr_cis_of (rk w) ->
     0 <= host_mux_mram_state (slice_of (rk w) s) < 2 ^ nr_dpus_of (rk w)) ->
  dpu_switch_mux_for_rank b w = (w', res) ->
  if 0 <? nb_dpu_running (run (rk w)) then res = Err DPU_ERR_MRAM_BUSY /\ w' = w
  else forall s, 0 <= s < nr_cis_of (rk w) ->
    host_mux_mram_state (slice_of (rk w') s) = rank_position (nr_dpus_of (rk w)) b.
Proof.
  intros Hwf Hst. unfold dpu_switch_mux_for_rank.
  unfold mbind at 1, C_bind at 1, get_rank, gets. cbv beta iota zeta.
  destruct (0 <? nb_dpu_running (run (rk w))); [by intros [= <- <-]|].
  destruct (rank_needs_switch (rk w) b) eqn:Hneed; cbn [negb].
  2: { intros [= <- <-] s Hs. by apply rank_needs_no_switch. }
  intros Hrun s Hs.
  assert (mux_frame (record_rank b (rk w)) (rk w')) as Hf.
  { set (w1 := mk_world (record_rank b (rk w)) (dev w)).
    assert (forall m : W D unit, keeps m -> m w1 = (w', res) -> mux_frame (rk w1) (rk w')) as Hk
      by (intros m Hm He; destruct (Hm w1) as [Hm' _]; by rewrite He in Hm').
    refine (Hk _ _ Hrun). case_bool; [apply preserves_ret; exact _|apply keeps_host_for_rank]. }
  rewrite (mf_mux _ _ Hf) by lia. by apply record_rank_position.
Qed.

(** ** Properties *)

(** C26: the bank of a running DPU is never taken away or given: whatever the
    outcome of a switch, the recorded mux of every running DPU is where it
    was. *)
Theorem mux_of_running_dpu_never_moves {D} `{!RankHandler D} dpu mask (w w' : world D) res s d :
  mux_wf (rk w) -> 0 <= dpu < 8 ->
  dpu_switch_mux_for_dpu_line dpu mask w = (w', res) ->
  0 <= s < nr_cis_of (rk w) -> 0 <= d < 8 -> running_bit (rk w) s d = true ->
  mux_bit (rk w') s d = mux_bit (rk w) s d.
Proof.
  intros Hwf Hdpu Hrun Hs Hd Hr.
  destruct (switch_line_cases _ _ _ _ _ Hrun) as [(_ & _ & -> & _)|[[-> _]|[Hc Hf]]]; [done..|].
  destruct (pair_base dpu Hdpu) as (Hb & Hb' & _). fold (base_line dpu) in *.
  destruct (record_line_spec (base_differs (rk w) dpu mask) (friend_differs (rk w) dpu mask)
    (base_line dpu) mask (rk w) Hwf Hb Hb') as (_ & _ & Hbit).
  unfold mux_bit at 1. rewrite (mf_mux _ _ Hf) by lia. fold (mux_bit (record_line
    (base_differs (rk w) dpu mask) (friend_differs (rk w) dpu mask) (base_line dpu) mask (rk w)) s d).
  rewrite Hbit by done. case_bool; [|done]. exfalso.
  pose proof (lines_mask_testbit _ _ _ _ Hb Hb' Hd Heqb) as Hm.
  pose proof (mw_running _ Hwf s) as Hpos. unfold DPU_MAX_NR_CIS in Hpos.
  pose proof (mw_cis _ Hwf) as Hn. unfold DPU_MAX_NR_CIS in Hn.
  assert (popcount ((dpu_running (run (rk w))).[s] &&& lines_mask (base_differs (rk w) dpu mask)
    (friend_differs (rk w) dpu mask) (base_line dpu)) = 0) as Hz
    by (apply count_running_zero; [lia|done|done]).
  apply popcount_zero in Hz; [|apply Z.land_nonneg; left; apply Hpos; lia].
  apply (f_equal (fun x => Z.testbit x d)) in Hz. rewrite Z.land_spec, Hm, Z.testbit_0_l in Hz.
  unfold running_bit in Hr. by rewrite Hr in Hz.
Qed.

(** unless a DPU of the lines to be moved runs, a switch leaves both lines of
    the pair recorded in the requested position on every interface, even when
    the exchange with the hardware fails; when one runs, nothing changes. *)
Theorem dpu_switch_mux_for_dpu_line_positions {D} `{!RankHandler D} dpu mask (w w' : world D) res :
  mux_wf (rk w) -> 0 <= dpu < nr_dpus_of (rk w) ->
  dpu_switch_mux_for_dpu_line dpu mask w = (w', res) ->
  (res = Err DPU_ERR_MRAM_BUSY /\ w' = w) \/
  (forall s d, 0 <= s < nr_cis_of (rk w) -> 0 <= d < nr_dpus_of (rk w) ->
     mux_bit (rk w') s d =
       if (d =? base_line dpu) || (d =? base_line dpu + 1) then Z.testbit mask s
       else mux_bit (rk w) s d).
Proof. apply switch_line_positions. Qed.

(** a DPU only starts with its bank: when [ci_start_thread_dpu] succeeds, the
    mux of the DPU is recorded on the DPU's side, and the same DPU of the other
    interfaces has its mux where it was. *)
Theorem ci_start_thread_dpu_has_bank {D} `{!RankHandler D} d thread resume previous
    (w w' : world D) out s :
  mux_wf (rk w) -> 0 <= slice_id d < nr_cis_of (rk w) -> 0 <= dpu_id d < nr_dpus_of (rk w) ->
  ci_start_thread_dpu d thread resume previous w = (w', Ok out) -> 0 <= s < nr_cis_of (rk w) ->
  mux_bit (rk w') s (dpu_id d) = negb (s =? slice_id d) && mux_bit (rk w) s (dpu_id d).
Proof.
  intros Hwf Hsl Hdpu Hrun Hs. pose proof (mw_cis _ Hwf) as Hn. pose proof (mw_dpus _ Hwf) as Hnd.
  unfold DPU_MAX_NR_CIS in Hn. revert Hrun. unfold ci_start_thread_dpu.
  unfold mbind at 1, C_bind at 1, get_rank, gets. cbv beta iota zeta.
  set (kept := kept_mux_mask _ _ _). unfold mbind at 1, C_bind at 1.
  destruct (dpu_switch_mux_for_dpu_line (dpu_id d) kept w) as [w1 [[]|e]] eqn:Hsw; [|done].
  intros Hrest.
  assert (mux_frame (rk w1) (rk w')) as Hf.
  { match type of Hrest with ?m w1 = _ => assert (keeps m) as Hk end.
    { unfold start_or_resume, ufi_thread_resume, ufi_thread_boot. keeps_steps. }
    destruct (Hk w1) as [Hk' _]. by rewrite Hrest in Hk'. }
  unfold mux_bit at 1. rewrite (mf_mux _ _ Hf) by lia. fold (mux_bit (rk w1) s (dpu_id d)).
  destruct (switch_line_positions _ _ _ _ _ Hwf Hdpu Hsw) as [[? _]|Hbits]; [done|].
  rewrite Hbits by lia. destruct (pair_base (dpu_id d) ltac:(lia)) as (_ & _ & Hb).
  fold (base_line (dpu_id d)) in Hb.
  assert ((dpu_id d =? base_line (dpu_id d)) || (dpu_id d =? base_line (dpu_id d) + 1) = true) as ->.
  { apply orb_true_iff. rewrite !Z.eqb_eq. lia. }
  unfold kept. rewrite kept_mux_mask_testbit by (done || lia). do 2 f_equal.
  unfold CI_MASK_ONE. rewrite CI_MASK_ON_testbit, u8_testbit, testbit_pow2 by lia.
  by destruct (Z.eqb_spec s (slice_id d)); case_bool_decide.
Qed.

(** unless a DPU of the rank runs, a switch of the whole rank leaves every mux
    recorded on the requested side, whatever the hardware answers; when one
    runs, nothing changes. *)
Theorem dpu_switch_mux_for_rank_positions {D} `{!RankHandler D} b (w w' : world D) res :
  mux_wf (rk w) ->
  (forall s, 0 <= s < nr_cis_of (rk w) ->
     0 <= host_mux_mram_state (slice_of (rk w) s) < 2 ^ nr_dpus_of (rk w)) ->
  dpu_switch_mux_for_rank b w = (w', res) ->
  if 0 <? nb_dpu_running (run (rk w)) then res = Err DPU_ERR_MRAM_BUSY /\ w' = w
  else forall s, 0 <= s < nr_cis_of (rk w) ->
    host_mux_mram_state (slice_of (rk w') s) = rank_position (nr_dpus_of (rk w)) b.
Proof. apply switch_rank_positions. Qed.

(** ** On the simulated interfaces *)

(** DPU 5 of interface 1 runs. *)
Definition busy_world : world sim :=
  mk_world (set_run (mk_run_context [0; 0x20; 0; 0; 0; 0; 0; 0] (replicate 8 0) None 1)
              (sample_rank 2 8)) sim0.

Lemma busy_world_wf : mux_wf (rk busy_world).
Proof. split; by_eval. Qed.
Lemma sim_world_wf : mux_wf (rk (sim_world 2 8)).
Proof. split; by_eval. Qed.

(** Bank 2 of both interfaces is given to the host. *)
Lemma mux_of_running_dpu_never_moves_witness : exists w',
  dpu_switch_mux_for_dpu_line 2 0x3 busy_world = (w', Ok tt) /\
  mux_bit (rk w') 1 2 = true /\ mux_bit (rk w') 1 5 = mux_bit (rk busy_world) 1 5.
Proof.
  destruct (dpu_switch_mux_for_dpu_line 2 0x3 busy_world) as [w' res] eqn:Hrun.
  exists w'. split; [vm_compute in Hrun; congruence|]. split.
  - vm_compute in Hrun. injection Hrun as <- <-. reflexivity.
  - exact (mux_of_running_dpu_never_moves 2 0x3 busy_world w' res 1 5 busy_world_wf
      ltac:(by_eval) Hrun ltac:(by_eval) ltac:(by_eval) ltac:(by_eval)).
Defined.

Lemma dpu_switch_mux_for_dpu_line_positions_witness : exists w',
  dpu_switch_mux_for_dpu_line 2 0x1 (sim_world 2 8) = (w', Err DPU_ERR_TIMEOUT) /\
  mux_bit (rk w') 0 3 = true /\ mux_bit (rk w') 1 3 = false.
Proof.
  destruct (dpu_switch_mux_for_dpu_line 2 0x1 (sim_world 2 8)) as [w' res] eqn:Hrun.
  assert (res = Err DPU_ERR_TIMEOUT) as Hres by (vm_compute in Hrun; congruence).
  exists w'. split; [by rewrite Hres|].
  destruct (dpu_switch_mux_for_dpu_line_positions 2 0x1 (sim_world 2 8) w' res sim_world_wf
    ltac:(by_eval) Hrun) as [[? _]|Hbits]; [congruence|].
  split; [exact (Hbits 0 3 ltac:(by_eval) ltac:(by_eval))|exact (Hbits 1 3 ltac:(by_eval) ltac:(by_eval))].
Defined.

Lemma dpu_switch_mux_for_rank_positions_witness : exists w',
  dpu_switch_mux_for_rank true (sim_world 2 8) = (w', Ok tt) /\
  host_mux_mram_state (slice_of (rk w') 1) = 0xFF.
Proof.
  destruct (dpu_switch_mux_for_rank true (sim_world 2 8)) as [w' res] eqn:Hrun.
  assert (res = Ok tt) as Hres by (vm_compute in Hrun; congruence).
  exists w'. split; [by rewrite Hres|].
  exact (dpu_switch_mux_for_rank_positions true (sim_world 2 8) w' res sim_world_wf
    ltac:(by_eval) Hrun 1 ltac:(by_eval)).
Defined.

Lemma ci_start_thread_dpu_has_bank_witness : exists w',
  ci_start_thread_dpu (sample_dpu 8 10) 0 false None busy_world = (w', Ok None) /\
  mux_bit (rk w') 1 2 = false.
Proof.
  destruct (ci_start_thread_dpu (sample_dpu 8 10) 0 false None busy_world) as [w' res] eqn:Hrun.
  assert (res = Ok None) as -> by (vm_compute in Hrun; congruence).
  exists w'. split; [done|].
  exact (ci_start_thread_dpu_has_bank (sample_dpu 8 10) 0 false None busy_world w' None 1
    busy_world_wf ltac:(by_eval) ltac:(by_eval) Hrun ltac:(by_eval)).
Defined.

(** the position is recorded before the mux is moved and is not restored on
    failure: when the exchange fails, the same switch asked again reports
    success and sends nothing, although no mux ever moved. *)
Theorem failed_mux_switch_reported_as_done :
  let w := mk_world (sample_rank 2 8) (1%nat, sim0) in
  let '(w1, res1) := dpu_switch_mux_for_dpu_line 2 0x3 w in
  let '(w2, res2) := dpu_switch_mux_for_dpu_line 2 0x3 w1 in
  res1 = Err DPU_ERR_DRIVER /\ res2 = Ok tt /\ sim_log (snd (dev w2)) = [] /\
  mux_bit (rk w2) 0 2 = true.
Proof. vm_compute. repeat split. Qed.
