(* ===== verification/UfiMemory.v ===== *)
(** * Memory transfers

    Model of [src/ufi/src/ufi_memory.c] (how a transfer of a rank is cut into
    transfers of interfaces and of DPUs, and how the host takes the MRAM banks
    before it hands a transfer matrix to the backend), of the checks of
    [src/api/src/include/dpu_internals.h] and of the entry points of
    [src/api/src/dpu_memory.c] that run them. A pointer of the transfer matrix
    is an integer, 0 for [NULL]; [mem] gives the words of the buffer at a
    pointer. The buffers of an MRAM transfer belong to the backend. *)

From stdpp Require Import relations.
From S2P Require Import Prelude CMonad BitConfig CiCommands Rank Ci Ufi Select Frame Mux.

#[local] Open Scope Z_scope.
#[local] Open Scope dpu_scope.

Definition MAX_NR_DPUS_PER_RANK := 64.

Inductive dpu_transfer_matrix_type_t := DPU_DEFAULT_XFER_MATRIX | DPU_SG_XFER_MATRIX.
Inductive dpu_transfer_type_t := DPU_TRANSFER_FROM_MRAM | DPU_TRANSFER_TO_MRAM.

(** [struct dpu_transfer_matrix]. *)
Record dpu_transfer_matrix := mk_matrix {
  tm_ptr : list Z;
  tm_offset : Z;
  tm_size : Z;
  tm_type : dpu_transfer_matrix_type_t;
}.
Definition set_ptr (v : list Z) (m : dpu_transfer_matrix) : dpu_transfer_matrix :=
  mk_matrix v (tm_offset m) (tm_size m) (tm_type m).
(** [m.size = t.size; m.offset = t.offset; m.type = t.type]. *)
Definition set_shape (t m : dpu_transfer_matrix) : dpu_transfer_matrix :=
  mk_matrix (tm_ptr m) (tm_offset t) (tm_size t) (tm_type t).

Definition get_transfer_matrix_index (r : rank) (slice_id dpu_id : Z) : Z :=
  u8 (dpu_id * nr_cis_of r + slice_id).
Definition ptr_at (r : rank) (m : dpu_transfer_matrix) (slice_id dpu_id : Z) : Z :=
  (tm_ptr m).[get_transfer_matrix_index r slice_id dpu_id].
Definition has_ptr (r : rank) (m : dpu_transfer_matrix) (slice_id dpu_id : Z) : bool :=
  negb (ptr_at r m slice_id dpu_id =? 0).

(** [src/api/src/dpu_memory.c]. *)
Definition dpu_transfer_matrix_add_dpu (r : rank) (d : dpu_t) (buffer : Z)
    (m : dpu_transfer_matrix) : dpu_transfer_matrix :=
  set_ptr (tm_ptr m).[get_transfer_matrix_index r (slice_id d) (dpu_id d) := buffer] m.
Definition dpu_transfer_matrix_clear_dpu (r : rank) (d : dpu_t) (m : dpu_transfer_matrix)
    : dpu_transfer_matrix :=
  set_ptr (tm_ptr m).[get_transfer_matrix_index r (slice_id d) (dpu_id d) := 0] m.
Definition dpu_transfer_matrix_set_all (r : rank) (buffer : Z) (m : dpu_transfer_matrix)
    : dpu_transfer_matrix :=
  for_up (nr_cis_of r) (fun each_ci m =>
    for_up (nr_dpus_of r) (fun each_dpu m =>
      let dpu := dpu_of r each_ci each_dpu in
      dpu_transfer_matrix_add_dpu r dpu (if enabled dpu then buffer else 0) m) m) m.
Definition dpu_transfer_matrix_clear_all : dpu_transfer_matrix :=
  mk_matrix (replicate (Z.to_nat MAX_NR_DPUS_PER_RANK) 0) 0 0 DPU_DEFAULT_XFER_MATRIX.
Definition dpu_transfer_matrix_get_ptr (r : rank) (d : dpu_t) (m : dpu_transfer_matrix) : Z :=
  if negb (enabled d) then 0 else (tm_ptr m).[get_transfer_matrix_index r (slice_id d) (dpu_id d)].

(** [dpu_get] ([src/api/src/dpu_management.c]); [None] is [NULL]. *)
Definition dpu_get (r : rank) (slice_id dpu_id : Z) : option dpu_t :=
  if (nr_cis_of r <=? slice_id) || (nr_dpus_of r <=? dpu_id) then None
  else Some (dpu_of r slice_id dpu_id).

(** [for (each_dpu = 0; each_dpu < nr_dpus; each_dpu += 2)]. *)
Definition even_lines (r : rank) : list Z :=
  map (Z.mul 2) (seqZ 0 ((nr_dpus_of r + 1) / 2)).

(** ** Does a transfer need two matrices? *)

Section Duplicate.
Variables (r : rank) (m : dpu_transfer_matrix).

Definition pair_enabled (each_slice each_dpu : Z) : option bool :=
  first ← dpu_get r each_slice each_dpu;
  if enabled first then
    second ← dpu_get r each_slice (each_dpu + 1);
    Some (enabled second)
  else Some false.

(** The loop over the interfaces, with its [break]:
    [first_dpu_line_has_transfer], [second_dpu_line_has_transfer] and
    [is_duplication_needed_for_line]. *)
Fixpoint scan_line (each_dpu : Z) (slices : list Z) (first_line second_line : bool)
    : option (bool * bool * bool) :=
  match slices with
  | [] => Some (first_line, second_line, false)
  | each_slice :: slices =>
      both ← pair_enabled each_slice each_dpu;
      if both : bool then
        let first := has_ptr r m each_slice each_dpu in
        let second := has_ptr r m each_slice (each_dpu + 1) in
        let first_line := first_line || first in
        let second_line := second_line || second in
        if xorb first second then Some (first_line, second_line, true)
        else scan_line each_dpu slices first_line second_line
      else scan_line each_dpu slices first_line second_line
  end.

Fixpoint scan_lines (lines : list Z) : option bool :=
  match lines with
  | [] => Some false
  | each_dpu :: lines =>
      '(first_line, second_line, conflict) ← scan_line each_dpu (seqZ 0 (nr_cis_of r)) false false;
      if first_line && second_line && conflict then Some true else scan_lines lines
  end.

(** The second loop: the even lines and the odd lines. *)
Definition split_slice (each_dpu each_slice : Z) (eo : dpu_transfer_matrix * dpu_transfer_matrix) :=
  (dpu_transfer_matrix_add_dpu r (dpu_of r each_slice each_dpu) (ptr_at r m each_slice each_dpu) (fst eo),
   dpu_transfer_matrix_add_dpu r (dpu_of r each_slice (each_dpu + 1))
     (ptr_at r m each_slice (each_dpu + 1)) (snd eo)).
Definition split_line (each_dpu : Z) (eo : dpu_transfer_matrix * dpu_transfer_matrix) :=
  for_up (nr_cis_of r) (split_slice each_dpu) eo.
Definition split_matrix (eo : dpu_transfer_matrix * dpu_transfer_matrix) :=
  foldl (fun eo each_dpu => split_line each_dpu eo) eo (even_lines r).

Definition duplicate_transfer_matrix (even odd : dpu_transfer_matrix)
    : option (bool * (dpu_transfer_matrix * dpu_transfer_matrix)) :=
  if nr_dpus_of r <=? 1 then Some (false, (even, odd))
  else if api_must_switch_mram_mux (desc r) then
    is_duplication_needed ← scan_lines (even_lines r);
    Some (is_duplication_needed,
          if is_duplication_needed : bool then split_matrix (even, odd) else (even, odd))
  else Some (false, (even, odd)).

Definition is_transfer_matrix_full : bool :=
  forallb (fun each_slice =>
    let enabled_mask := enabled_dpus (slice_of r each_slice) in
    forallb (fun each_dpu =>
      negb (dpu_mask_is_selected enabled_mask each_dpu)
      || negb (negb (has_ptr r m each_slice each_dpu) && enabled (dpu_of r each_slice each_dpu)))
      (seqZ 0 (nr_dpus_of r))) (seqZ 0 (nr_cis_of r)).

(** [mask1] and [mask2] of one pair of lines. *)
Definition line_masks (each_dpu : Z) : option (Z * Z) :=
  ofold (fun each_slice '(mask1, mask2) =>
    first ← dpu_get r each_slice each_dpu;
    let mask1 := if enabled first
      then u8 (mask1 ||| Z.shiftl (Z.b2z (has_ptr r m each_slice each_dpu)) each_slice) else mask1 in
    second ← dpu_get r each_slice (each_dpu + 1);
    let mask2 := if enabled second
      then u8 (mask2 ||| Z.shiftl (Z.b2z (has_ptr r m each_slice (each_dpu + 1))) each_slice) else mask2 in
    Some (mask1, mask2)) (seqZ 0 (nr_cis_of r)) (0, 0).
End Duplicate.

(** ** MRAM transfers *)

(** The two transfer callbacks of the backend's handler. *)
Class TransferHandler (D : Type) := {
  copy_to_rank : D -> rank -> dpu_transfer_matrix -> D * dpu_rank_status_e;
  copy_from_rank : D -> rank -> dpu_transfer_matrix -> D * dpu_rank_status_e;
}.

Section Mram.
Context {D : Type} `{!RankHandler D} `{!TransferHandler D}.
Notation XW := (X (world D)).

Definition xrank : XW rank := lift get_rank.

Definition host_get_access_for_line (m : dpu_transfer_matrix) (each_dpu : Z) (_ : unit) : XW unit :=
  r ← xrank;
  '(mask1, mask2) ← deref (line_masks r m each_dpu);
  if (mask1 =? 0) && (mask2 =? 0) then mret tt
  else
    _ ← assert_ ((mask1 =? 0) || (mask2 =? 0) || (mask1 =? mask2));
    let mask := mask1 ||| mask2 in
    _ ← lift (dpu_switch_mux_for_dpu_line each_dpu mask);
    lift (dpu_switch_mux_for_dpu_line (each_dpu + 1) mask).

Definition host_get_access_for_transfer_matrix (m : dpu_transfer_matrix) : XW unit :=
  r ← xrank;
  xfold (host_get_access_for_line m) (even_lines r) tt.

Definition host_get_access_for_transfer (m : dpu_transfer_matrix) : XW unit :=
  r ← xrank;
  if is_transfer_matrix_full r m then lift (dpu_switch_mux_for_rank true)
  else host_get_access_for_transfer_matrix m.

(** The call of the backend; [type] has no other value. *)
Definition call_backend (type : dpu_transfer_type_t) (m : dpu_transfer_matrix) : W D unit :=
  w ← get;
  let '(d, status) := match type with
    | DPU_TRANSFER_FROM_MRAM => copy_from_rank (dev w) (rk w) m
    | DPU_TRANSFER_TO_MRAM => copy_to_rank (dev w) (rk w) m
    end in
  _ ← set_dev d;
  if decide (status = DPU_RANK_SUCCESS) then mret tt else fail DPU_ERR_DRIVER.

Definition do_mram_transfer (type : dpu_transfer_type_t) (m : dpu_transfer_matrix) : W D unit :=
  let host_ptr := for_up MAX_NR_DPUS_PER_RANK (fun each_dpu p => p ||| (tm_ptr m).[each_dpu]) 0 in
  if host_ptr =? 0 then mret tt else call_backend type m.

Definition copy_mram_for_dpus (type : dpu_transfer_type_t) (m : dpu_transfer_matrix) : XW unit :=
  r ← xrank;
  '(is_duplication_needed, (even, odd)) ←
    deref (duplicate_transfer_matrix r m dpu_transfer_matrix_clear_all dpu_transfer_matrix_clear_all);
  if negb is_duplication_needed then
    _ ← host_get_access_for_transfer m;
    lift (do_mram_transfer type m)
  else
    let even := set_shape m even in
    _ ← host_get_access_for_transfer_matrix even;
    _ ← lift (do_mram_transfer type even);
    let odd := set_shape m odd in
    _ ← host_get_access_for_transfer_matrix odd;
    lift (do_mram_transfer type odd).

Definition ci_copy_to_mrams (m : dpu_transfer_matrix) : XW unit :=
  copy_mram_for_dpus DPU_TRANSFER_TO_MRAM m.
Definition ci_copy_from_mrams (m : dpu_transfer_matrix) : XW unit :=
  copy_mram_for_dpus DPU_TRANSFER_FROM_MRAM m.
End Mram.

(** ** IRAM and WRAM transfers

    Addresses and sizes are converted to the 16 bits of the operations of
    [ufi.c]. [status] is a variable that the matrix functions return without
    having given it a value first: its initial value is an argument. *)

Definition return_status {D} (status : result unit) : W D unit :=
  match status with Ok a => mret a | Err e => fail e end.

(** The words of the buffer at [p] after they were written. *)
Definition store_buffer (p : Z) (words : list Z) (mem : Z -> list Z) : Z -> list Z :=
  fun q => if q =? p then words else mem q.

(** The pointers of one line: [wram_array] and [mask]. *)
Definition line_buffers (r : rank) (m : dpu_transfer_matrix) (each_dpu : Z) (wram_array : list Z)
    : list Z * Z :=
  for_up (nr_cis_of r) (fun each_ci '(wram_array, mask) =>
    if has_ptr r m each_ci each_dpu
    then (wram_array.[each_ci := ptr_at r m each_ci each_dpu], u8 (mask ||| CI_MASK_ONE each_ci))
    else (wram_array, mask)) (wram_array, 0).

(** What a read of the interfaces of [mask] leaves in the buffers. *)
Definition store_line (nr_cis mask : Z) (wram_array : list Z) (words : list (list Z))
    (mem : Z -> list Z) : Z -> list Z :=
  for_cis nr_cis mask (fun each_ci mem => store_buffer wram_array.[each_ci] words.[each_ci] mem) mem.

Section Control.
Context {D : Type} `{!RankHandler D}.
Implicit Types (mem : Z -> list Z) (status : result unit).

Definition ci_copy_to_irams_rank (iram_instruction_index : Z) (source : list Z)
    (nb_of_instructions : Z) : W D unit :=
  mask ← ufi_select_all ALL_CIS;
  ufi_iram_write mask (replicate 8 source) iram_instruction_index nb_of_instructions.

Definition ci_copy_to_irams_dpu (d : dpu_t) (iram_instruction_index : Z) (source : list Z)
    (nb_of_instructions : Z) : W D unit :=
  mask ← ufi_select_dpu (u8 (CI_MASK_ONE (slice_id d))) (dpu_id d);
  ufi_iram_write mask (replicate 8 []).[slice_id d := source] (u16 iram_instruction_index)
    (u16 nb_of_instructions).

Definition ci_copy_from_irams_dpu (d : dpu_t) (destination : list Z)
    (iram_instruction_index nb_of_instructions : Z) : W D (list Z) :=
  mask ← ufi_select_dpu (u8 (CI_MASK_ONE (slice_id d))) (dpu_id d);
  words ← ufi_iram_read mask (replicate 8 []).[slice_id d := destination]
            (u16 iram_instruction_index) (u16 nb_of_instructions);
  mret words.[slice_id d].

Definition ci_copy_to_irams_matrix status mem (m : dpu_transfer_matrix) : W D unit :=
  r ← get_rank;
  status ← mfor (nr_cis_of r) (fun each_ci status =>
    mfor (nr_dpus_of r) (fun each_dpu status =>
      let dpu := dpu_of r each_ci each_dpu in
      if negb (enabled dpu) then mret status
      else if negb (has_ptr r m each_ci each_dpu) then mret status
      else
        _ ← ci_copy_to_irams_dpu dpu (tm_offset m) (mem (ptr_at r m each_ci each_dpu)) (tm_size m);
        mret (Ok tt)) status) status;
  return_status status.

Definition ci_copy_from_irams_matrix status mem (m : dpu_transfer_matrix) : W D (Z -> list Z) :=
  r ← get_rank;
  '(status, mem) ← mfor (nr_cis_of r) (fun each_ci st =>
    mfor (nr_dpus_of r) (fun each_dpu '(status, mem) =>
      let dpu := dpu_of r each_ci each_dpu in
      if negb (enabled dpu) then mret (status, mem)
      else if negb (has_ptr r m each_ci each_dpu) then mret (status, mem)
      else
        let buffer := ptr_at r m each_ci each_dpu in
        words ← ci_copy_from_irams_dpu dpu (mem buffer) (tm_offset m) (tm_size m);
        mret (Ok tt, store_buffer buffer words mem)) st) (status, mem);
  _ ← return_status status;
  mret mem.

Definition ci_copy_to_wrams_rank (wram_word_offset : Z) (source : list Z) (nb_of_words : Z)
    : W D unit :=
  mask ← ufi_select_all ALL_CIS;
  ufi_wram_write mask (replicate 8 source) (u16 wram_word_offset) (u16 nb_of_words).

Definition ci_copy_to_wrams_dpu (d : dpu_t) (wram_word_offset : Z) (source : list Z)
    (nb_of_words : Z) : W D unit :=
  mask ← ufi_select_dpu (u8 (CI_MASK_ONE (slice_id d))) (dpu_id d);
  ufi_wram_write mask (replicate 8 []).[slice_id d := source] (u16 wram_word_offset) (u16 nb_of_words).

Definition ci_copy_from_wrams_dpu (d : dpu_t) (destination : list Z) (wram_word_offset nb_of_words : Z)
    : W D (list Z) :=
  mask ← ufi_select_dpu (u8 (CI_MASK_ONE (slice_id d))) (dpu_id d);
  words ← ufi_wram_read mask (replicate 8 []).[slice_id d := destination] (u16 wram_word_offset)
            (u16 nb_of_words);
  mret words.[slice_id d].

Definition ci_copy_to_wrams_matrix status mem (m : dpu_transfer_matrix) : W D unit :=
  r ← get_rank;
  '(status, _) ← mfor (nr_dpus_of r) (fun each_dpu '(status, wram_array) =>
    let '(wram_array, mask) := line_buffers r m each_dpu wram_array in
    if mask =? 0 then mret (status, wram_array)
    else
      mask ← ufi_select_dpu mask each_dpu;
      _ ← ufi_wram_write mask (map mem wram_array) (u16 (tm_offset m)) (u16 (tm_size m));
      mret (Ok tt, wram_array)) (status, replicate 8 0);
  return_status status.

Definition ci_copy_from_wrams_matrix status mem (m : dpu_transfer_matrix) : W D (Z -> list Z) :=
  r ← get_rank;
  '(status, (_, mem)) ← mfor (nr_dpus_of r) (fun each_dpu '(status, (wram_array, mem)) =>
    let '(wram_array, mask) := line_buffers r m each_dpu wram_array in
    if mask =? 0 then mret (status, (wram_array, mem))
    else
      mask ← ufi_select_dpu mask each_dpu;
      words ← ufi_wram_read mask (map mem wram_array) (u16 (tm_offset m)) (u16 (tm_size m));
      mret (Ok tt, (wram_array, store_line (nr_cis_of r) mask wram_array words mem)))
    (status, (replicate 8 0, mem));
  _ ← return_status status;
  mret mem.
End Control.

(** ** The checks of the entry points *)

(** The body of the macros: the status to return, or nothing. *)
Definition verify_access (e : dpu_error_t) (size_limit o s : Z) : option (result unit) :=
  if (size_limit <=? o) || (size_limit <? u32 (o + s)) then Some (Err e) else None.
Definition verify_wram_access (o s : Z) (r : rank) : option (result unit) :=
  if s =? 0 then Some (Ok tt)
  else verify_access DPU_ERR_INVALID_WRAM_ACCESS (wram_size (desc r)) o s.
Definition verify_iram_access (o s : Z) (r : rank) : option (result unit) :=
  if s =? 0 then Some (Ok tt)
  else verify_access DPU_ERR_INVALID_IRAM_ACCESS (iram_size (desc r)) o s.
Definition verify_mram_access_offset_and_size (o s : Z) (r : rank) : option (result unit) :=
  if negb (s mod 8 =? 0) || negb (o mod 8 =? 0) then Some (Err DPU_ERR_INVALID_MRAM_ACCESS)
  else verify_access DPU_ERR_INVALID_MRAM_ACCESS (mram_size (desc r)) o s.

Section Api.
Context {D : Type} `{!RankHandler D} `{!TransferHandler D}.
Notation XW := (X (world D)).

(** A macro, then the rest of the function; [early] is the output of a
    function that returns early with [DPU_OK]. *)
Definition verified {A} (verify : rank -> option (result unit)) (early : A) (m : W D A) : W D A :=
  r ← get_rank;
  match verify r with
  | Some (Ok _) => mret early
  | Some (Err e) => fail e
  | None => m
  end.
Definition when_enabled {A} (d : dpu_t) (m : W D A) : W D A :=
  if negb (enabled d) then fail DPU_ERR_DPU_DISABLED else m.

Definition dpu_copy_to_iram_for_matrix status mem (m : dpu_transfer_matrix) : W D unit :=
  verified (verify_iram_access (tm_offset m) (tm_size m)) tt (ci_copy_to_irams_matrix status mem m).
Definition dpu_copy_from_iram_for_matrix status mem (m : dpu_transfer_matrix) : W D (Z -> list Z) :=
  verified (verify_iram_access (tm_offset m) (tm_size m)) mem (ci_copy_from_irams_matrix status mem m).
Definition dpu_copy_to_iram_for_rank (offset : Z) (source : list Z) (size : Z) : W D unit :=
  verified (verify_iram_access offset size) tt (ci_copy_to_irams_rank offset source size).
Definition dpu_copy_to_iram_for_dpu (d : dpu_t) (offset : Z) (source : list Z) (size : Z) : W D unit :=
  when_enabled d (verified (verify_iram_access offset size) tt (ci_copy_to_irams_dpu d offset source size)).
Definition dpu_copy_from_iram_for_dpu (d : dpu_t) (destination : list Z) (offset size : Z)
    : W D (list Z) :=
  when_enabled d (verified (verify_iram_access offset size) destination
    (ci_copy_from_irams_dpu d destination offset size)).
Definition dpu_copy_to_wram_for_matrix status mem (m : dpu_transfer_matrix) : W D unit :=
  verified (verify_wram_access (tm_offset m) (tm_size m)) tt (ci_copy_to_wrams_matrix status mem m).
Definition dpu_copy_from_wram_for_matrix status mem (m : dpu_transfer_matrix) : W D (Z -> list Z) :=
  verified (verify_wram_access (tm_offset m) (tm_size m)) mem (ci_copy_from_wrams_matrix status mem m).
Definition dpu_copy_to_wram_for_rank (offset : Z) (source : list Z) (size : Z) : W D unit :=
  verified (verify_wram_access offset size) tt (ci_copy_to_wrams_rank offset source size).
Definition dpu_copy_to_wram_for_dpu (d : dpu_t) (offset : Z) (source : list Z) (size : Z) : W D unit :=
  when_enabled d (verified (verify_wram_access offset size) tt (ci_copy_to_wrams_dpu d offset source size)).
Definition dpu_copy_from_wram_for_dpu (d : dpu_t) (destination : list Z) (offset size : Z)
    : W D (list Z) :=
  when_enabled d (verified (verify_wram_access offset size) destination
    (ci_copy_from_wrams_dpu d destination offset size)).

(** [dpu_copy_to_mrams], [dpu_copy_from_mrams], with the rank's mutex held.
    [by_program] is [Some access] when [mram_access_by_dpu_only] is set, the
    access through a program that runs on the DPUs. *)
Definition dpu_copy_mrams (by_program : option (XW unit)) (transfer : dpu_transfer_matrix -> XW unit)
    (m : dpu_transfer_matrix) : XW unit :=
  r ← xrank;
  match verify_mram_access_offset_and_size (tm_offset m) (tm_size m) r with
  | Some (Ok _) => mret tt
  | Some (Err e) => xfail e
  | None =>
      if 0 <? nb_dpu_running (run r) then xfail DPU_ERR_MRAM_BUSY
      else match by_program with
           | Some access => access
           | None => transfer m
           end
  end.
Definition dpu_copy_to_mrams (by_program : option (XW unit)) (m : dpu_transfer_matrix) : XW unit :=
  dpu_copy_mrams by_program ci_copy_to_mrams m.
Definition dpu_copy_from_mrams (by_program : option (XW unit)) (m : dpu_transfer_matrix) : XW unit :=
  dpu_copy_mrams by_program ci_copy_from_mrams m.

(** The matrix of one buffer: [dpu_copy_to_mram], [dpu_copy_from_mram]. *)
Definition one_dpu_matrix (r : rank) (d : dpu_t) (buffer mram_byte_offset nb_of_bytes : Z)
    : dpu_transfer_matrix :=
  set_shape (mk_matrix [] mram_byte_offset nb_of_bytes DPU_DEFAULT_XFER_MATRIX)
    (dpu_transfer_matrix_add_dpu r d buffer dpu_transfer_matrix_clear_all).
Definition dpu_copy_mram (copy : dpu_transfer_matrix -> XW unit) (d : dpu_t)
    (mram_byte_offset buffer nb_of_bytes : Z) : XW unit :=
  if negb (enabled d) then xfail DPU_ERR_DPU_DISABLED
  else if nb_of_bytes =? 0 then mret tt
  else r ← xrank; copy (one_dpu_matrix r d buffer mram_byte_offset nb_of_bytes).
Definition dpu_copy_to_mram by_program := dpu_copy_mram (dpu_copy_to_mrams by_program).
Definition dpu_copy_from_mram by_program := dpu_copy_mram (dpu_copy_from_mrams by_program).
End Api.

(** ** Lemmas *)

(** A switch moves muxes only. *)
Record mux_moves (r r' : rank) : Prop := {
  mv_desc : desc r' = desc r;
  mv_run : run r' = run r;
  mv_dpus : dpus r' = dpus r;
  mv_len : lenz (slice_infos (ci r')) = lenz (slice_infos (ci r));
}.
#[export] Instance mux_moves_preorder : PreOrder mux_moves.
Proof. split; [by intros r; split|]. intros r1 r2 r3 [] []. split; by etrans. Qed.
#[export] Instance mux_frame_moves : subrelation mux_frame mux_moves.
Proof. intros r r' []. by split. Qed.

Lemma moves_of_keeps {D A} `{!RankHandler D} (m : W D A) : keeps m -> preserves mux_moves m.
Proof. apply preserves_weaken. apply mux_frame_moves. Qed.
#[export] Hint Resolve moves_of_keeps : keeps.
Lemma mux_moves_upd_slice k f r : mux_moves r (upd_slice k f r).
Proof. split; try done. apply lenz_upd_slice. Qed.

Lemma mux_moves_wf r r' : mux_moves r r' -> mux_wf r -> mux_wf r'.
Proof. intros [Hd Hr _ Hl] []. split; unfold nr_cis_of, nr_dpus_of in *; by rewrite ?Hd, ?Hr, ?Hl. Qed.

Section Moves.
Context {D : Type} `{!RankHandler D}.

Lemma switch_line_moves dpu mask : preserves mux_moves (dpu_switch_mux_for_dpu_line (D := D) dpu mask).
Proof.
  unfold dpu_switch_mux_for_dpu_line. keeps_steps; try apply moves_of_keeps, keeps_host_for_dpu.
  apply preserves_on_rank. intros r. unfold record_line.
  apply (for_up_inv (fun r' => mux_moves r r')); [done|].
  intros i r' Hr. unfold dpu_set_host_mux_mram_state. cbv zeta.
  repeat case_bool; repeat (etrans; [|apply mux_moves_upd_slice]); done.
Qed.

Lemma switch_rank_moves b : preserves mux_moves (dpu_switch_mux_for_rank (D := D) b).
Proof.
  unfold dpu_switch_mux_for_rank. keeps_steps; [|apply moves_of_keeps, keeps_host_for_rank].
  apply preserves_on_rank. intros r. apply (for_up_inv (fun r' => mux_moves r r')); [done|].
  intros i r' Hr. etrans; [exact Hr|apply mux_moves_upd_slice].
Qed.
End Moves.

(** What the matrix functions read of the rank. *)
Lemma moves_fields r r' : mux_moves r r' -> nr_cis_of r' = nr_cis_of r /\ nr_dpus_of r' = nr_dpus_of r /\
  (forall s d, dpu_of r' s d = dpu_of r s d) /\ (forall s d, dpu_get r' s d = dpu_get r s d) /\
  (forall m s d, ptr_at r' m s d = ptr_at r m s d).
Proof.
  intros [Hd _ Hp _].
  assert (nr_cis_of r' = nr_cis_of r) as Hn by (unfold nr_cis_of; by rewrite Hd).
  assert (nr_dpus_of r' = nr_dpus_of r) as Hnd by (unfold nr_dpus_of; by rewrite Hd).
  assert (forall s d, dpu_of r' s d = dpu_of r s d) as Hof
    by (intros; unfold dpu_of, DPU_INDEX; by rewrite Hp, Hnd).
  split_and!; [done..| |]; intros.
  - unfold dpu_get. by rewrite Hn, Hnd, Hof.
  - unfold ptr_at, get_transfer_matrix_index. by rewrite Hn.
Qed.

Lemma line_masks_moves r r' m d : mux_moves r r' -> line_masks r' m d = line_masks r m d.
Proof.
  intros (Hn & Hnd & _ & Hg & Hp)%moves_fields. unfold line_masks, has_ptr. rewrite Hn.
  generalize (0, 0) as acc. generalize (seqZ 0 (nr_cis_of r)) as l.
  induction l as [|s l IH]; intros [m1 m2]; [done|]. cbn [ofold]. rewrite !Hg, !Hp.
  destruct (dpu_get r s d); [|done]. cbn. destruct (dpu_get r s (d + 1)); [|done]. apply IH.
Qed.

Lemma even_lines_moves r r' : mux_moves r r' -> even_lines r' = even_lines r.
Proof. intros (_ & Hnd & _)%moves_fields. unfold even_lines. by rewrite Hnd. Qed.

Lemma elem_of_even_lines r d : d ∈ even_lines r -> 0 <= d < nr_dpus_of r /\ Z.even d = true.
Proof.
  unfold even_lines. intros (k & -> & Hk)%list_elem_of_fmap. apply elem_of_seqZ in Hk.
  rewrite Z.even_mul. split; [|done].
  pose proof (Z.div_mod (nr_dpus_of r + 1) 2 ltac:(done)) as Hdm.
  pose proof (Z.mod_pos_bound (nr_dpus_of r + 1) 2 ltac:(done)). lia.
Qed.
Lemma even_lines_complete r d : 0 <= d < nr_dpus_of r -> Z.even d = true -> d ∈ even_lines r.
Proof.
  intros Hd He. apply Z.even_spec in He as [k ->]. unfold even_lines.
  apply list_elem_of_fmap. exists k. split; [done|]. apply elem_of_seqZ.
  pose proof (Z.div_mod (nr_dpus_of r + 1) 2 ltac:(done)) as Hdm.
  pose proof (Z.mod_pos_bound (nr_dpus_of r + 1) 2 ltac:(done)). lia.
Qed.

Lemma base_line_even d : 0 <= d < 8 -> base_line d = if Z.even d then d else d - 1.
Proof. intros Hd. revert d Hd. by_eval. Qed.

(** The bits of the two masks of a pair. *)
Lemma line_masks_testbit r m d mask1 mask2 : 0 < nr_cis_of r <= DPU_MAX_NR_CIS ->
  line_masks r m d = Some (mask1, mask2) ->
  d < nr_dpus_of r /\ d + 1 < nr_dpus_of r /\ fits 8 mask1 /\ fits 8 mask2 /\
  forall s, 0 <= s < nr_cis_of r ->
    Z.testbit mask1 s = enabled (dpu_of r s d) && has_ptr r m s d /\
    Z.testbit mask2 s = enabled (dpu_of r s (d + 1)) && has_ptr r m s (d + 1).
Proof.
  unfold DPU_MAX_NR_CIS. intros Hn Hl.
  pose (bit := fun k (mask : Z) d => fits 8 mask /\ forall s, 0 <= s < 8 ->
    Z.testbit mask s = bool_decide (s < k) && (enabled (dpu_of r s d) && has_ptr r m s d)).
  pose (P := fun k '(mask1, mask2) => bit k mask1 d /\ bit k mask2 (d + 1) /\
    (0 < k -> d < nr_dpus_of r /\ d + 1 < nr_dpus_of r)).
  assert (forall k mask d, 0 <= k < 8 -> bit k mask d -> bit (k + 1)
    (if enabled (dpu_of r k d) then u8 (mask ||| Z.shiftl (Z.b2z (has_ptr r m k d)) k) else mask) d) as Hstep.
  { intros k mask d' Hk [Hf Hb]. split; [destruct (enabled _); auto with dpu|].
    intros s Hs. destruct (enabled (dpu_of r k d')) eqn:He.
    - rewrite u8_testbit, Z.lor_spec, Hb, b2z_shift_testbit by lia.
      destruct (decide (s = k)) as [->|Hne].
      + rewrite He, (bool_decide_false (k < k)), (bool_decide_true (k < k + 1)), (bool_decide_true (k = k)) by lia.
        by rewrite !andb_true_r.
      + rewrite (bool_decide_false (s = k)), andb_false_r, orb_false_r by done.
        f_equal. apply bool_decide_ext. lia.
    - rewrite Hb by done. destruct (decide (s = k)) as [->|Hne].
      + by rewrite He, !andb_false_r.
      + f_equal. apply bool_decide_ext. lia. }
  assert (P (nr_cis_of r) (mask1, mask2)) as [[Hf1 H1] [[Hf2 H2] H3]].
  { unfold line_masks in Hl. revert Hl. apply ofold_seqZ_ind; [lia| |].
    { unfold P, bit. split_and!; try lia; try done;
        intros s Hs; by rewrite Z.testbit_0_l, bool_decide_false by lia. }
    intros k [m1 m2] s' Hk (Hb1 & Hb2 & _). unfold dpu_get.
    rewrite (proj2 (Z.leb_gt _ _)) by lia. cbn [orb].
    destruct (Z.leb_spec (nr_dpus_of r) d); [done|]. cbn.
    destruct (Z.leb_spec (nr_dpus_of r) (d + 1)); [done|]. cbn. intros [= <-].
    split_and!; [apply Hstep; [lia|done]..|done]. }
  destruct (H3 ltac:(lia)). split_and!; try done.
  intros s Hs. rewrite H1, H2, bool_decide_true by lia. done.
Qed.

(** ** The transfers the backend is handed

    A backend that also records the matrices it is handed, each with the rank
    as it was then. *)

Record logged (D : Type) := mk_logged {
  log_dev : D;
  transfers : list (rank * dpu_transfer_matrix);
}.
Arguments mk_logged {_} _ _.
Arguments log_dev {_} _.
Arguments transfers {_} _.

#[export] Instance logged_handler {D} `{!RankHandler D} : RankHandler (logged D) := {
  commit_commands d commands :=
    let '(d', status) := commit_commands (log_dev d) commands in (mk_logged d' (transfers d), status);
  update_commands d :=
    let '(d', answer) := update_commands (log_dev d) in (mk_logged d' (transfers d), answer);
}.
#[export] Instance logged_transfers {D} `{!TransferHandler D} : TransferHandler (logged D) := {
  copy_to_rank d r m :=
    let '(d', status) := copy_to_rank (log_dev d) r m in
    (mk_logged d' (transfers d ++ [(r, m)]), status);
  copy_from_rank d r m :=
    let '(d', status) := copy_from_rank (log_dev d) r m in
    (mk_logged d' (transfers d ++ [(r, m)]), status);
}.

Lemma exchange_transfers {D} `{!RankHandler D} (d d' : logged D) :
  rtc exchange d d' -> transfers d' = transfers d.
Proof.
  induction 1 as [|d d1 d' Hx _ IH]; [done|]. rewrite IH.
  destruct Hx as [commands|]; cbn.
  - by destruct (commit_commands (log_dev d) commands).
  - by destruct (update_commands (log_dev d)).
Qed.

(** The host has the bank of every enabled DPU that has a buffer. *)
Definition host_has_banks (r : rank) (m : dpu_transfer_matrix) : Prop :=
  forall s d, 0 <= s < nr_cis_of r -> 0 <= d < nr_dpus_of r ->
    enabled (dpu_of r s d) = true -> has_ptr r m s d = true -> mux_bit r s d = true.

Definition any_ptr (m : dpu_transfer_matrix) : bool :=
  negb (for_up MAX_NR_DPUS_PER_RANK (fun each_dpu p => p ||| (tm_ptr m).[each_dpu]) 0 =? 0).

Section Transfers.
Context {D : Type} `{!RankHandler D} `{!TransferHandler D}.
Implicit Types w : world (logged D).

(** From [w] to [w'] the backend was handed the matrices [ms], each with its
    banks on the side of the host. *)
Record handed w w' (ms : list dpu_transfer_matrix) : Prop := {
  ha_moves : mux_moves (rk w) (rk w');
  ha_log : exists new, transfers (dev w') = transfers (dev w) ++ new /\ map snd new = ms /\
    Forall (fun e => mux_moves (rk w) (fst e) /\ host_has_banks (fst e) (snd e)) new;
}.

Lemma handed_trans w w1 w2 ms1 ms2 : handed w w1 ms1 -> handed w1 w2 ms2 -> handed w w2 (ms1 ++ ms2).
Proof.
  intros [Hm1 (n1 & Ht1 & Hs1 & Hf1)] [Hm2 (n2 & Ht2 & Hs2 & Hf2)]. split; [by etrans|].
  exists (n1 ++ n2). rewrite Ht2, Ht1, map_app, Hs1, Hs2, app_assoc. split_and!; [done..|].
  apply Forall_app. split; [done|]. revert Hf2. apply Forall_impl.
  intros e [? ?]. split; [by etrans|done].
Qed.

(** Nothing handed over. *)
Lemma handed_quiet w w' : mux_moves (rk w) (rk w') -> rtc exchange (dev w) (dev w') -> handed w w' [].
Proof.
  intros Hm Hx%exchange_transfers. split; [done|]. exists []. by rewrite app_nil_r.
Qed.

Lemma preserves_handed {A} (m : W (logged D) A) w : preserves mux_moves m -> handed w (fst (m w)) [].
Proof. intros Hm. destruct (Hm w). by apply handed_quiet. Qed.

Lemma wp_do_mram_transfer type m w : host_has_banks (rk w) m ->
  wp (do_mram_transfer type m) (fun _ w' => handed w w' (if any_ptr m then [m] else []) /\ rk w' = rk w) w.
Proof.
  intros Hb. unfold do_mram_transfer, any_ptr. case_bool; cbn [negb].
  { apply wp_ret. split; [by apply handed_quiet|done]. }
  assert (forall d, handed w (mk_world (rk w) (mk_logged d (transfers (dev w) ++ [(rk w, m)]))) [m]) as Hh.
  { intros d. split; [done|]. exists [(rk w, m)]. split_and!; [done..|].
    by constructor; [|constructor]. }
  unfold wp, call_backend, mbind, C_bind, get, set_dev, modify.
  destruct type; cbn [copy_to_rank copy_from_rank logged_transfers];
    [destruct (copy_from_rank _ _ _)|destruct (copy_to_rank _ _ _)]; cbn; case_decide; cbn; auto.
Qed.

(** Taking the banks of a matrix line by line. *)
Lemma xwp_host_access_line m r0 b w :
  mux_wf r0 -> mux_moves r0 (rk w) -> b ∈ even_lines r0 ->
  xwp (host_get_access_for_line m b tt) (fun res w' => handed w w' [] /\
    (res = Some (Ok tt) -> forall s d, 0 <= s < nr_cis_of r0 -> 0 <= d < nr_dpus_of r0 ->
       (base_line d = b -> enabled (dpu_of r0 s d) && has_ptr r0 m s d = true -> mux_bit (rk w') s d = true) /\
       (base_line d <> b -> mux_bit (rk w') s d = mux_bit (rk w) s d))) w.
Proof.
  intros Hwf Hmv Hb. destruct (elem_of_even_lines _ _ Hb) as [Hb0 Heven].
  pose proof (mux_moves_wf _ _ Hmv Hwf) as Hwf1.
  destruct (moves_fields _ _ Hmv) as (Hn & Hnd & _ & _ & _).
  pose proof (mw_cis _ Hwf) as Hcis. pose proof (mw_dpus _ Hwf) as Hdpus. unfold DPU_MAX_NR_CIS in Hcis.
  unfold host_get_access_for_line. apply xwp_bind, xwp_lift, wp_gets. apply xwp_bind, xwp_deref.
  rewrite (line_masks_moves _ _ _ _ Hmv).
  destruct (line_masks r0 m b) as [[mask1 mask2]|] eqn:Hl; [|split; [by apply handed_quiet|done]].
  destruct (line_masks_testbit _ _ _ _ _ (mw_cis _ Hwf) Hl) as (_ & Hb1 & _ & _ & Hbits).
  cbv beta iota. destruct ((mask1 =? 0) && (mask2 =? 0)) eqn:Hzero.
  { zb2p. subst. apply xwp_ret. split; [by apply handed_quiet|]. intros _ s d Hs Hd. split; [|done].
    intros Hbase Hp. exfalso. rewrite base_line_even in Hbase by lia.
    destruct (Hbits s Hs) as [H1 H2]. rewrite Z.testbit_0_l in H1, H2.
    destruct (Z.even d); [subst d|replace d with (b + 1) in * by lia]; congruence. }
  clear Hzero. apply xwp_bind, xwp_assert; intros Ha; [|split; [by apply handed_quiet|done]].
  apply xwp_bind, xwp_lift. unfold wp.
  pose proof (preserves_handed _ w (switch_line_moves b (mask1 ||| mask2))) as Hh1.
  destruct (dpu_switch_mux_for_dpu_line b (mask1 ||| mask2) w) as [w1 [[]|e]] eqn:Hsw1; cbn [fst snd] in *;
    [|split; [done|done]].
  pose proof (mux_moves_wf _ _ (ha_moves _ _ _ Hh1) Hwf1) as Hwf2.
  destruct (moves_fields _ _ (ha_moves _ _ _ Hh1)) as (Hn1 & Hnd1 & _).
  apply xwp_lift. unfold wp.
  pose proof (preserves_handed _ w1 (switch_line_moves (b + 1) (mask1 ||| mask2))) as Hh2.
  destruct (dpu_switch_mux_for_dpu_line (b + 1) (mask1 ||| mask2) w1) as [w2 res] eqn:Hsw2; cbn [fst snd] in *.
  split; [exact (handed_trans _ _ _ _ _ Hh1 Hh2)|]. intros [= ->] s d Hs Hd.
  destruct (switch_line_positions b _ w _ _ Hwf1 ltac:(lia) Hsw1) as [[? _]|Hp1]; [done|].
  destruct (switch_line_positions (b + 1) _ w1 _ _ Hwf2 ltac:(lia) Hsw2) as [[? _]|Hp2]; [done|].
  rewrite Hp2, Hp1 by lia.
  assert (base_line b = b /\ base_line (b + 1) = b) as [-> ->].
  { rewrite !base_line_even by lia. rewrite Z.even_add, Heven. cbn. lia. }
  rewrite base_line_even by lia. destruct (Hbits s Hs) as [H1 H2]. rewrite Z.lor_spec, H1, H2.
  destruct (Z.even d) eqn:Hed.
  - destruct (Z.eqb_spec d b) as [->|]; cbn [orb]; [split; [by intros _ ->|done]|].
    destruct (Z.eqb_spec d (b + 1)) as [->|]; [|done].
    rewrite Z.even_add, Heven in Hed. done.
  - destruct (Z.eqb_spec d b) as [->|]; cbn [orb]; [congruence|].
    destruct (Z.eqb_spec d (b + 1)) as [->|]; [|split; [lia|done]].
    split; [|lia]. intros _ ->. by rewrite orb_true_r.
Qed.

Lemma host_has_banks_moves r r' m : mux_moves r r' ->
  (forall s d, 0 <= s < nr_cis_of r -> 0 <= d < nr_dpus_of r ->
     enabled (dpu_of r s d) && has_ptr r m s d = true -> mux_bit r' s d = true) ->
  host_has_banks r' m.
Proof.
  intros (Hn & Hnd & Hof & _ & Hp)%moves_fields Hb s d. rewrite Hn, Hnd, Hof. intros Hs Hd He.
  unfold has_ptr. rewrite Hp. intros Hptr. apply Hb; [done..|]. unfold has_ptr. by rewrite He, Hptr.
Qed.

Lemma xwp_host_access_matrix m w : mux_wf (rk w) ->
  xwp (host_get_access_for_transfer_matrix m) (fun res w' => handed w w' [] /\
    (res = Some (Ok tt) -> host_has_banks (rk w') m)) w.
Proof.
  intros Hwf. set (r0 := rk w). pose proof (mw_dpus _ Hwf) as Hdpus. fold r0 in Hdpus, Hwf.
  unfold host_get_access_for_transfer_matrix.
  apply xwp_bind, xwp_lift, wp_gets. fold r0.
  pose (I := fun (lines : list Z) (_ : unit) w' => handed w w' [] /\ (forall b, b ∈ lines -> b ∈ even_lines r0) /\
    forall s d, 0 <= s < nr_cis_of r0 -> 0 <= d < nr_dpus_of r0 ->
      enabled (dpu_of r0 s d) && has_ptr r0 m s d = true ->
      mux_bit (rk w') s d = true \/ base_line d ∈ lines).
  eapply xwp_mono.
  - apply (xwp_xfold I (fun _ w' => handed w w' [])).
    { split_and!; [by apply handed_quiet|done|]. intros s d _ Hd _. right.
      rewrite base_line_even by lia. destruct (Z.even d) eqn:He; [by apply even_lines_complete|].
      assert (Z.even (d - 1) = true) as He' by (rewrite Z.even_sub, He; done).
      apply even_lines_complete; [|done]. destruct (decide (d = 0)) as [->|]; [done|lia]. }
    intros b lines [] w1 (Hh & Hl & Hp). eapply xwp_mono;
      [apply (xwp_host_access_line m r0); [done|apply Hh|apply Hl; constructor]|].
    intros res w2 [Hh2 Hok]. pose proof (handed_trans _ _ _ _ _ Hh Hh2) as Hh3. cbn [app] in Hh3.
    destruct res as [[[]|e]|]; [|done..]. specialize (Hok eq_refl). split_and!; [done|..].
    { intros b' Hb'. apply Hl. by constructor. }
    intros s d Hs Hd He. destruct (Hok s d Hs Hd) as [Heq Hne].
    destruct (decide (base_line d = b)) as [Hb|Hb]; [left; by apply Heq|].
    rewrite Hne by done. destruct (Hp s d Hs Hd He) as [?|Hin]; [by left|].
    apply elem_of_cons in Hin as [?|?]; [done|by right].
  - intros [[[]|e]|] w'; [|done..]. intros (Hh & _ & Hp). split; [done|]. intros _.
    eapply host_has_banks_moves; [apply Hh|]. intros s d Hs Hd He.
    destruct (Hp s d Hs Hd He) as [?|Hin%not_elem_of_nil]; done.
Qed.

(** The recorded positions only speak of DPUs that exist. *)
Definition mux_states_ok (r : rank) : Prop := forall s, 0 <= s < nr_cis_of r ->
  0 <= host_mux_mram_state (slice_of r s) < 2 ^ nr_dpus_of r.

Lemma xwp_host_access m w : mux_wf (rk w) -> mux_states_ok (rk w) ->
  xwp (host_get_access_for_transfer m) (fun res w' => handed w w' [] /\
    (res = Some (Ok tt) -> host_has_banks (rk w') m)) w.
Proof.
  intros Hwf Hst. unfold host_get_access_for_transfer. apply xwp_bind, xwp_lift, wp_gets.
  case_bool; [|by apply xwp_host_access_matrix]. apply xwp_lift. unfold wp.
  pose proof (preserves_handed _ w (switch_rank_moves true)) as Hh.
  destruct (dpu_switch_mux_for_rank true w) as [w' res] eqn:Hrun. cbn [fst snd] in *.
  split; [done|]. intros [= ->]. eapply host_has_banks_moves; [apply Hh|]. intros s d Hs Hd _.
  pose proof (switch_rank_positions _ _ _ _ Hwf Hst Hrun) as Hpos.
  destruct (0 <? nb_dpu_running (run (rk w))); [by destruct Hpos|].
  unfold mux_bit. rewrite Hpos by done. unfold rank_position. apply Z.ones_spec_low. lia.
Qed.

(** The matrices of a transfer that is carried out to its end. *)
Definition matrices_of (r : rank) (m : dpu_transfer_matrix) : list dpu_transfer_matrix :=
  match duplicate_transfer_matrix r m dpu_transfer_matrix_clear_all dpu_transfer_matrix_clear_all with
  | Some (true, (even, odd)) => [set_shape m even; set_shape m odd]
  | _ => [m]
  end.

(** Banks, then transfer. *)
Lemma xwp_access_and_transfer type (access : X (world (logged D)) unit) m w :
  xwp access (fun res w' => handed w w' [] /\ (res = Some (Ok tt) -> host_has_banks (rk w') m)) w ->
  xwp (_ ← access; lift (do_mram_transfer type m)) (fun res w' =>
    exists ms, handed w w' ms /\ ms `prefix_of` (if any_ptr m then [m] else []) /\
      (res = Some (Ok tt) -> ms = if any_ptr m then [m] else [])) w.
Proof.
  intros Ha. apply xwp_bind. eapply xwp_mono; [exact Ha|].
  intros [[[]|e]|] w1 [Hh Hok]; [|by exists []; split_and!; [|apply prefix_nil|]..]. apply xwp_lift.
  eapply wp_mono; [by apply wp_do_mram_transfer, Hok|]. intros res w2 [Hh2 _].
  eexists. split; [exact (handed_trans _ _ _ _ _ Hh Hh2)|]. done.
Qed.

Lemma X_bind_assoc {S A B C'} (m : X S A) (f : A -> X S B) (g : B -> X S C') s :
  (a ← m; b ← f a; g b) s = (b ← (a ← m; f a); g b) s.
Proof. unfold mbind, X_bind. by destruct (m s) as [s' [[a|e]|]]. Qed.

Lemma xwp_copy_mram type m w : mux_wf (rk w) -> mux_states_ok (rk w) ->
  xwp (copy_mram_for_dpus type m) (fun res w' =>
    exists ms, handed w w' ms /\ ms `prefix_of` filter any_ptr (matrices_of (rk w) m) /\
      (res = Some (Ok tt) -> ms = filter any_ptr (matrices_of (rk w) m))) w.
Proof.
  intros Hwf Hst. unfold copy_mram_for_dpus, matrices_of.
  apply xwp_bind, xwp_lift, wp_gets. apply xwp_bind, xwp_deref.
  destruct (duplicate_transfer_matrix _ _ _ _) as [[b [even odd]]|];
    [|exists []; split_and!; [by apply handed_quiet|apply prefix_nil|done]].
  cbv beta iota zeta. destruct b; cbn [negb].
  - set (me := set_shape m even). set (mo := set_shape m odd). unfold xwp. rewrite X_bind_assoc.
    apply xwp_bind. eapply xwp_mono.
    { apply xwp_access_and_transfer, xwp_host_access_matrix, Hwf. }
    rewrite !filter_cons, filter_nil.
    assert ((if decide (any_ptr me) then me :: (if decide (any_ptr mo) then [mo] else [])
             else if decide (any_ptr mo) then [mo] else []) =
            (if any_ptr me then [me] else []) ++ (if any_ptr mo then [mo] else [])) as ->
      by (by destruct (any_ptr me), (any_ptr mo)).
    intros [[[]|e]|] w1 (ms1 & Hh1 & Hp1 & Hok1);
      [|by exists ms1; split_and!; [done|apply prefix_app_r|]..]. rewrite (Hok1 eq_refl) in Hh1.
    eapply xwp_mono.
    { apply xwp_access_and_transfer, xwp_host_access_matrix. eapply mux_moves_wf; [apply Hh1|done]. }
    intros res w2 (ms2 & Hh2 & Hp2 & Hok2). exists ((if any_ptr me then [me] else []) ++ ms2).
    split_and!; [exact (handed_trans _ _ _ _ _ Hh1 Hh2)|by apply prefix_app|].
    intros Hres. by rewrite Hok2.
  - rewrite filter_cons, filter_nil. eapply xwp_mono; [by apply xwp_access_and_transfer, xwp_host_access|].
    intros res w1 (ms1 & Hh1 & Hp1 & Hok1). exists ms1. by destruct (any_ptr m).
Qed.
End Transfers.

(** ** What the two matrices hold *)

(** The dimensions of a rank and of a matrix; the DPUs know their place. *)
Record matrix_wf (r : rank) (m : dpu_transfer_matrix) : Prop := {
  xw_cis : 0 < nr_cis_of r <= DPU_MAX_NR_CIS;
  xw_dpus : 0 < nr_dpus_of r <= 8;
  xw_even : Z.even (nr_dpus_of r) = true;
  xw_place : forall s d, 0 <= s < nr_cis_of r -> 0 <= d < nr_dpus_of r ->
    slice_id (dpu_of r s d) = s /\ dpu_id (dpu_of r s d) = d;
  xw_len : lenz (tm_ptr m) = MAX_NR_DPUS_PER_RANK;
  xw_ptrs : Forall (fun p => 0 <= p) (tm_ptr m);
}.

Section Split.
Context (r : rank) (m : dpu_transfer_matrix) (Hwf : matrix_wf r m).
Implicit Types e : dpu_transfer_matrix.

Lemma matrix_index s d : 0 <= s < nr_cis_of r -> 0 <= d < nr_dpus_of r ->
  get_transfer_matrix_index r s d = d * nr_cis_of r + s /\ 0 <= d * nr_cis_of r + s < 64.
Proof.
  destruct Hwf as [Hn Hd _ _ _ _]. unfold DPU_MAX_NR_CIS in Hn. intros Hs Hdd.
  assert (0 <= d * nr_cis_of r + s < 64) by nia. split; [|done].
  unfold get_transfer_matrix_index. apply u8_id. unfold fits. lia.
Qed.

Lemma ptr_at_add e s0 d0 buffer s d : lenz (tm_ptr e) = 64 ->
  0 <= s0 < nr_cis_of r -> 0 <= d0 < nr_dpus_of r -> 0 <= s < nr_cis_of r -> 0 <= d < nr_dpus_of r ->
  ptr_at r (dpu_transfer_matrix_add_dpu r (dpu_of r s0 d0) buffer e) s d =
    if (s =? s0) && (d =? d0) then buffer else ptr_at r e s d.
Proof.
  intros Hl Hs0 Hd0 Hs Hd. unfold ptr_at, dpu_transfer_matrix_add_dpu. cbn [tm_ptr set_ptr].
  destruct (xw_place _ _ Hwf s0 d0 Hs0 Hd0) as [-> ->].
  destruct (matrix_index s0 d0 Hs0 Hd0) as [-> ?], (matrix_index s d Hs Hd) as [-> ?].
  rewrite getz_setz by lia.
  destruct (Z.eqb_spec s s0), (Z.eqb_spec d d0); cbn [andb]; case_decide; try done; exfalso; nia.
Qed.

Lemma lenz_add e d buffer : lenz (tm_ptr (dpu_transfer_matrix_add_dpu r d buffer e)) = lenz (tm_ptr e).
Proof. apply lenz_setz. Qed.

(** One line of each matrix is filled. *)
Lemma split_line_spec line e o : 0 <= line -> line + 1 < nr_dpus_of r ->
  lenz (tm_ptr e) = 64 -> lenz (tm_ptr o) = 64 ->
  let eo := split_line r m line (e, o) in
  lenz (tm_ptr (fst eo)) = 64 /\ lenz (tm_ptr (snd eo)) = 64 /\
  forall s d, 0 <= s < nr_cis_of r -> 0 <= d < nr_dpus_of r ->
    ptr_at r (fst eo) s d = (if d =? line then ptr_at r m s d else ptr_at r e s d) /\
    ptr_at r (snd eo) s d = (if d =? line + 1 then ptr_at r m s d else ptr_at r o s d).
Proof.
  intros Hl0 Hl1 He Ho. unfold split_line.
  pose (P := fun k eo => lenz (tm_ptr (fst eo)) = 64 /\ lenz (tm_ptr (snd eo)) = 64 /\
    forall s d, 0 <= s < nr_cis_of r -> 0 <= d < nr_dpus_of r ->
      ptr_at r (fst eo) s d = (if (s <? k) && (d =? line) then ptr_at r m s d else ptr_at r e s d) /\
      ptr_at r (snd eo) s d = (if (s <? k) && (d =? line + 1) then ptr_at r m s d else ptr_at r o s d)).
  assert (P (nr_cis_of r) (for_up (nr_cis_of r) (split_slice r m line) (e, o))) as (H1 & H2 & HP).
  { apply for_up_ind; [pose proof (xw_cis _ _ Hwf); lia| |].
    { split_and!; [done..|]. intros s d Hs Hd. by rewrite (proj2 (Z.ltb_ge s 0)) by lia. }
    intros k [e' o'] Hk (H1 & H2 & HP). unfold P, split_slice. cbn [fst snd] in *.
    split_and!; [by rewrite lenz_add..|]. intros s d Hs Hd. destruct (HP s d Hs Hd) as [HPe HPo].
    rewrite !ptr_at_add, HPe, HPo by (done || lia).
    destruct (Z.ltb_spec s k), (Z.ltb_spec s (k + 1)), (Z.eqb_spec s k); try lia; cbn [andb]; [done| |done].
    subst k. split; [destruct (Z.eqb_spec d line)|destruct (Z.eqb_spec d (line + 1))]; subst; done. }
  cbv zeta. split_and!; [done..|]. intros s d Hs Hd. destruct (HP s d Hs Hd) as [-> ->].
  by rewrite (proj2 (Z.ltb_lt s _)) by lia.
Qed.

(** The split puts the even lines in the first matrix, the odd lines in the
    second, and nothing else. *)
Lemma split_matrix_spec e o : lenz (tm_ptr e) = 64 -> lenz (tm_ptr o) = 64 ->
  let eo := split_matrix r m (e, o) in
  lenz (tm_ptr (fst eo)) = 64 /\ lenz (tm_ptr (snd eo)) = 64 /\
  forall s d, 0 <= s < nr_cis_of r -> 0 <= d < nr_dpus_of r ->
    ptr_at r (fst eo) s d = (if Z.even d then ptr_at r m s d else ptr_at r e s d) /\
    ptr_at r (snd eo) s d = (if Z.even d then ptr_at r o s d else ptr_at r m s d).
Proof.
  assert (forall lines e o, (forall b, b ∈ lines -> b ∈ even_lines r) ->
    lenz (tm_ptr e) = 64 -> lenz (tm_ptr o) = 64 ->
    let eo := foldl (fun eo line => split_line r m line eo) (e, o) lines in
    lenz (tm_ptr (fst eo)) = 64 /\ lenz (tm_ptr (snd eo)) = 64 /\
    forall s d, 0 <= s < nr_cis_of r -> 0 <= d < nr_dpus_of r ->
      ptr_at r (fst eo) s d = (if decide (d ∈ lines) then ptr_at r m s d else ptr_at r e s d) /\
      ptr_at r (snd eo) s d = (if decide (d - 1 ∈ lines) then ptr_at r m s d else ptr_at r o s d)) as Hgen.
  { induction lines as [|b lines IH]; intros e' o' Hin He Ho; [done|].
    destruct (elem_of_even_lines r b (Hin b ltac:(constructor))) as [Hb Hbe].
    assert (b + 1 < nr_dpus_of r) as Hb1.
    { destruct (decide (b + 1 = nr_dpus_of r)) as [Heq|]; [|lia].
      pose proof (xw_even _ _ Hwf) as Hev. rewrite <-Heq, Z.even_add, Hbe in Hev. done. }
    destruct (split_line_spec b e' o' ltac:(lia) Hb1 He Ho) as (He1 & Ho1 & Hline).
    cbn [foldl]. destruct (split_line r m b (e', o')) as [e1 o1]. cbn [fst snd] in *.
    destruct (IH e1 o1 ltac:(intros; apply Hin; by constructor) He1 Ho1) as (H1 & H2 & HP).
    split_and!; [done..|]. intros s d Hs Hd. destruct (HP s d Hs Hd) as [-> ->].
    destruct (Hline s d Hs Hd) as [-> ->].
    split; [destruct (Z.eqb_spec d b)|destruct (Z.eqb_spec d (b + 1))]; repeat case_decide; try done;
      rewrite ?elem_of_cons in *; exfalso; intuition lia. }
  intros He Ho. destruct (Hgen (even_lines r) e o ltac:(done) He Ho) as (H1 & H2 & HP).
  unfold split_matrix. cbv zeta in *.
  split_and!; [done..|]. intros s d Hs Hd. destruct (HP s d Hs Hd) as [-> ->].
  assert (d ∈ even_lines r <-> Z.even d = true) as Hiff.
  { split; [by intros [_ ?]%elem_of_even_lines|by apply even_lines_complete]. }
  assert (d - 1 ∈ even_lines r <-> Z.even d = false) as Hiff'.
  { split.
    - intros [_ Hx]%elem_of_even_lines. rewrite Z.even_sub in Hx. by destruct (Z.even d).
    - intros Hx. assert (Z.even (d - 1) = true) as Hx' by (rewrite Z.even_sub, Hx; done).
      apply even_lines_complete; [|done]. destruct (decide (d = 0)) as [->|]; [done|lia]. }
  repeat case_decide; destruct (Z.even d); intuition congruence.
Qed.
End Split.

(** A matrix the backend is not handed has no buffer. *)
Lemma any_ptr_false m i : Forall (fun p => 0 <= p) (tm_ptr m) -> lenz (tm_ptr m) = 64 ->
  any_ptr m = false -> 0 <= i < 64 -> (tm_ptr m).[i] = 0.
Proof.
  unfold any_ptr, MAX_NR_DPUS_PER_RANK. intros Hpos Hl Hany.
  apply negb_false_iff, Z.eqb_eq in Hany. revert i.
  pose (P := fun k p => 0 <= p /\ (p = 0 -> forall i, 0 <= i < k -> (tm_ptr m).[i] = 0)).
  enough (P 64 (for_up 64 (fun each_dpu p => p ||| (tm_ptr m).[each_dpu]) 0)) as [_ HP] by auto.
  apply for_up_ind; [done|split; [done|lia]|]. intros k p Hk [Hp HP].
  assert (0 <= (tm_ptr m).[k]) as Hk0.
  { unfold getz. eapply Forall_forall; [exact Hpos|]. apply list_elem_of_In, list_elem_of_lookup_total_2.
    unfold lenz in Hl. lia. }
  split; [by apply Z.lor_nonneg|]. intros [H1 H2]%Z.lor_eq_0_iff i Hi.
  destruct (decide (i = k)) as [->|]; [done|apply HP; [done|lia]].
Qed.

Lemma any_ptr_false_at r m s d : matrix_wf r m -> any_ptr m = false ->
  0 <= s < nr_cis_of r -> 0 <= d < nr_dpus_of r -> ptr_at r m s d = 0.
Proof.
  intros Hwf Hany Hs Hd. unfold ptr_at. destruct (matrix_index r m Hwf s d Hs Hd) as [-> Hi].
  apply any_ptr_false; [apply Hwf..|done|done].
Qed.

(** The pointers stay valid as the matrix is filled. *)
Definition ptrs_ok (m : dpu_transfer_matrix) : Prop := Forall (fun p => 0 <= p) (tm_ptr m).
Lemma ptrs_ok_get m i : ptrs_ok m -> 0 <= (tm_ptr m).[i].
Proof.
  intros Hp. unfold getz. destruct (decide (Z.to_nat i < length (tm_ptr m))%nat) as [Hlt|Hge].
  - eapply Forall_forall; [exact Hp|]. by apply list_elem_of_In, list_elem_of_lookup_total_2.
  - rewrite list_lookup_total_alt, lookup_ge_None_2 by lia. done.
Qed.
Lemma ptrs_ok_add r d buffer m : ptrs_ok m -> 0 <= buffer ->
  ptrs_ok (dpu_transfer_matrix_add_dpu r d buffer m).
Proof. intros Hp Hb. by apply Forall_insert. Qed.

Lemma ptrs_ok_split r m e o : ptrs_ok m -> ptrs_ok e -> ptrs_ok o ->
  ptrs_ok (fst (split_matrix r m (e, o))) /\ ptrs_ok (snd (split_matrix r m (e, o))).
Proof.
  intros Hm He Ho. unfold split_matrix.
  pose (P := fun eo => ptrs_ok (fst eo) /\ ptrs_ok (snd eo)).
  enough (forall lines eo, P eo -> P (foldl (fun eo line => split_line r m line eo) eo lines)) as H
    by (by apply H).
  induction lines as [|line lines IH]; intros eo Heo; [done|]. apply IH. unfold split_line.
  apply (for_up_inv P); [done|]. intros i [e' o'] [He' Ho'].
  split; apply ptrs_ok_add; try done; by apply ptrs_ok_get.
Qed.

Lemma matrix_wf_split r m : matrix_wf r m ->
  let eo := split_matrix r m (dpu_transfer_matrix_clear_all, dpu_transfer_matrix_clear_all) in
  matrix_wf r (set_shape m (fst eo)) /\ matrix_wf r (set_shape m (snd eo)) /\
  forall s d, 0 <= s < nr_cis_of r -> 0 <= d < nr_dpus_of r ->
    ptr_at r (set_shape m (fst eo)) s d = (if Z.even d then ptr_at r m s d else 0) /\
    ptr_at r (set_shape m (snd eo)) s d = (if Z.even d then 0 else ptr_at r m s d).
Proof.
  intros Hwf eo.
  destruct (split_matrix_spec r m Hwf dpu_transfer_matrix_clear_all dpu_transfer_matrix_clear_all
    eq_refl eq_refl) as (H1 & H2 & HP). fold eo in H1, H2, HP.
  assert (ptrs_ok dpu_transfer_matrix_clear_all) as Hc by by_eval.
  destruct (ptrs_ok_split r m _ _ (xw_ptrs _ _ Hwf) Hc Hc) as [H3 H4]. fold eo in H3, H4.
  assert (forall s d, 0 <= s < nr_cis_of r -> 0 <= d < nr_dpus_of r ->
    ptr_at r dpu_transfer_matrix_clear_all s d = 0) as H0.
  { intros s d Hs Hd. unfold ptr_at. destruct (matrix_index r m Hwf s d Hs Hd) as [-> Hi].
    revert Hi. generalize (d * nr_cis_of r + s) as i. by_eval. }
  destruct Hwf. split_and!; [by split..|]. intros s d Hs Hd. destruct (HP s d Hs Hd) as [He Ho].
  rewrite !H0 in * by done. done.
Qed.

Section Handed.
Context (r : rank) (m : dpu_transfer_matrix) (Hwf : matrix_wf r m).

(** The buffers of DPU [d] of interface [s] among the matrices [ms]. *)
Definition buffers_at (ms : list dpu_transfer_matrix) (s d : Z) : list Z :=
  filter (fun p => p <> 0) (map (fun m => ptr_at r m s d) ms).

Lemma buffers_any_ptr ms s d : Forall (matrix_wf r) ms -> 0 <= s < nr_cis_of r -> 0 <= d < nr_dpus_of r ->
  buffers_at (filter any_ptr ms) s d = buffers_at ms s d.
Proof.
  intros Hms Hs Hd. unfold buffers_at. induction Hms as [|m' ms Hm' _ IH]; [done|].
  rewrite filter_cons. destruct (any_ptr m') eqn:Hany; cbn [map Is_true decide].
  - case_decide; [|done]. cbn [map]. rewrite !filter_cons, IH. done.
  - case_decide; [done|]. rewrite filter_cons, IH, (any_ptr_false_at r m') by done. done.
Qed.

Lemma matrices_of_wf : Forall (matrix_wf r) (matrices_of r m) /\
  Forall (fun m' => tm_offset m' = tm_offset m /\ tm_size m' = tm_size m /\ tm_type m' = tm_type m)
    (matrices_of r m).
Proof.
  unfold matrices_of, duplicate_transfer_matrix. destruct (matrix_wf_split r m Hwf) as (He & Ho & _).
  revert He Ho. destruct (split_matrix _ _ _) as [even odd] eqn:Hs. cbn [fst snd]. intros He Ho.
  assert (forall P : dpu_transfer_matrix -> Prop, P m -> Forall P [m]) as Hone
    by (intros P HP; constructor; [done|constructor]).
  case_bool; [by split; apply Hone|]. case_bool; [|by split; apply Hone].
  destruct (scan_lines _ _ _) as [[]|]; cbn; rewrite ?Hs; [|by split; apply Hone..].
  by split; (constructor; [|constructor; [|constructor]]).
Qed.

Lemma buffers_matrices_of s d : 0 <= s < nr_cis_of r -> 0 <= d < nr_dpus_of r ->
  buffers_at (matrices_of r m) s d = if has_ptr r m s d then [ptr_at r m s d] else [].
Proof.
  intros Hs Hd. assert (buffers_at [m] s d = if has_ptr r m s d then [ptr_at r m s d] else []) as Hone.
  { unfold buffers_at, has_ptr. cbn [map]. rewrite filter_cons, filter_nil.
    destruct (Z.eqb_spec (ptr_at r m s d) 0); case_decide; done. }
  unfold matrices_of, duplicate_transfer_matrix. destruct (matrix_wf_split r m Hwf) as (_ & _ & HP).
  specialize (HP s d Hs Hd). revert HP. destruct (split_matrix _ _ _) as [even odd] eqn:Hsp. cbn [fst snd].
  intros [He Ho]. case_bool; [done|]. case_bool; [|done].
  destruct (scan_lines _ _ _) as [[]|]; cbn [mbind option_bind]; rewrite ?Hsp; [|done..].
  rewrite <-Hone. unfold buffers_at. cbn [map]. rewrite He, Ho.
  rewrite !filter_cons, filter_nil. destruct (Z.even d); repeat case_decide; done.
Qed.
End Handed.

(** ** When the assertion holds *)

(** The two lines of a pair want different muxes: the [assert] would fail. *)
Definition line_conflict (r : rank) (m : dpu_transfer_matrix) (each_dpu : Z) : bool :=
  match line_masks r m each_dpu with
  | Some (mask1, mask2) => negb ((mask1 =? 0) || (mask2 =? 0) || (mask1 =? mask2))
  | None => true
  end.
Definition conflict_free (r : rank) (m : dpu_transfer_matrix) : Prop :=
  forall b, b ∈ even_lines r -> line_conflict r m b = false.

#[export] Instance conflict_free_dec r m : Decision (conflict_free r m).
Proof.
  refine (cast_if (decide (forallb (fun b => negb (line_conflict r m b)) (even_lines r) = true))).
  - abstract (rewrite forallb_forall in *; intros b Hb; by apply negb_true_iff, e, list_elem_of_In).
  - abstract (intros Hf; apply n, forallb_forall; intros b Hb; by apply negb_true_iff, Hf, list_elem_of_In).
Defined.

Section EvenRank.
Context (r : rank) (Hn : 0 < nr_cis_of r <= DPU_MAX_NR_CIS) (Heven : Z.even (nr_dpus_of r) = true).

Lemma pair_in_range b : b ∈ even_lines r -> b + 1 < nr_dpus_of r.
Proof.
  intros [Hb He]%elem_of_even_lines. destruct (decide (b + 1 = nr_dpus_of r)) as [Heq|]; [|lia].
  rewrite <-Heq, Z.even_add, He in Heven. done.
Qed.

Lemma dpu_get_pair s b : 0 <= s < nr_cis_of r -> b ∈ even_lines r ->
  dpu_get r s b = Some (dpu_of r s b) /\ dpu_get r s (b + 1) = Some (dpu_of r s (b + 1)).
Proof.
  intros Hs Hb. pose proof (pair_in_range b Hb). apply elem_of_even_lines in Hb as [Hb _]. unfold dpu_get.
  by rewrite (proj2 (Z.leb_gt _ s)), (proj2 (Z.leb_gt _ b)), (proj2 (Z.leb_gt _ (b + 1))) by lia.
Qed.

Lemma line_masks_total m b : b ∈ even_lines r -> is_Some (line_masks r m b).
Proof.
  intros Hb. apply ofold_total. intros s [m1 m2] Hs%elem_of_seqZ.
  destruct (dpu_get_pair s b ltac:(lia) Hb) as [-> ->]. cbn. by eexists.
Qed.

Lemma scan_lines_total m : is_Some (scan_lines r m (even_lines r)).
Proof.
  assert (forall b l f g, b ∈ even_lines r -> (forall s, s ∈ l -> 0 <= s < nr_cis_of r) ->
    is_Some (scan_line r m b l f g)) as Hline.
  { intros b l f g Hb. revert f g. induction l as [|s l IH]; intros f g Hl; [by eexists|].
    assert (is_Some (scan_line r m b l f g)) as HIH by (apply IH; intros; apply Hl; by constructor).
    cbn [scan_line]. unfold pair_enabled.
    destruct (dpu_get_pair s b (Hl s ltac:(constructor)) Hb) as [-> ->]. cbn.
    destruct (enabled (dpu_of r s b)); cbn; [|done]. destruct (enabled (dpu_of r s (b + 1))); [|done].
    case_bool; [by eexists|]. apply IH. intros; apply Hl; by constructor. }
  assert (forall lines, (forall b, b ∈ lines -> b ∈ even_lines r) -> is_Some (scan_lines r m lines)) as H.
  { induction lines as [|b lines IH]; intros Hl; [by eexists|]. cbn [scan_lines].
    destruct (Hline b (seqZ 0 (nr_cis_of r)) false false (Hl b ltac:(constructor))) as [[[f g] c] ->].
    { intros s Hs%elem_of_seqZ. lia. }
    cbn. case_bool; [by eexists|]. apply IH. intros; apply Hl; by constructor. }
  by apply H.
Qed.

Lemma duplicate_total m e o : is_Some (duplicate_transfer_matrix r m e o).
Proof.
  unfold duplicate_transfer_matrix. case_bool; [by eexists|]. case_bool; [|by eexists].
  destruct (scan_lines_total m) as [b ->]. by eexists.
Qed.

(** One line without buffers: no conflict. *)
Lemma empty_line_free m b d : b ∈ even_lines r -> d = b \/ d = b + 1 ->
  (forall s, 0 <= s < nr_cis_of r -> has_ptr r m s d = false) -> line_conflict r m b = false.
Proof.
  intros Hb Hd Hno. unfold line_conflict. destruct (line_masks_total m b Hb) as [[m1 m2] Hl]. rewrite Hl.
  apply negb_false_iff.
  enough ((if decide (d = b) then m1 else m2) = 0) as H0
    by (case_decide; rewrite H0, Z.eqb_refl, ?orb_true_r; done).
  revert Hl. unfold line_masks, DPU_MAX_NR_CIS in *.
  set (P := fun (_ : Z) (masks : Z * Z) => (if decide (d = b) then fst masks else snd masks) = 0).
  intros Hl. change (P (nr_cis_of r) (m1, m2)). revert Hl. apply ofold_seqZ_ind; [lia|by unfold P; case_decide|]. unfold P.
  intros s [k1 k2] st Hs Hk. destruct (dpu_get_pair s b Hs Hb) as [-> ->]. cbn in Hk |- *. intros [= <-].
  specialize (Hno s Hs). case_decide as Hdec.
  - subst. by destruct (enabled _); rewrite ?Hno, ?Z.shiftl_0_l.
  - destruct Hd as [?| ->]; [done|]. subst. by destruct (enabled (dpu_of r s (b + 1))); rewrite ?Hno, ?Z.shiftl_0_l.
Qed.
End EvenRank.

Section NoAbort.
Context {D : Type} `{!RankHandler D} `{!TransferHandler D}.
Implicit Types w : world D.

(** The outcome is not an abnormal end. *)
Definition returns r0 (res : option (result unit)) w' : Prop := res <> None /\ mux_moves r0 (rk w').

Lemma xwp_lift_moves r0 (m : W D unit) w : preserves mux_moves m -> mux_moves r0 (rk w) ->
  xwp (lift m) (fun res w' => returns r0 res w') w.
Proof. intros Hm Hw. apply xwp_lift. unfold wp. destruct (Hm w). split; [done|by etrans]. Qed.

Lemma xwp_access_returns r0 m w : mux_moves r0 (rk w) -> conflict_free r0 m ->
  xwp (host_get_access_for_transfer_matrix m) (fun res w' => returns r0 res w') w.
Proof.
  intros Hmv Hfree. unfold host_get_access_for_transfer_matrix. apply xwp_bind, xwp_lift, wp_gets.
  rewrite (even_lines_moves _ _ Hmv). eapply xwp_mono.
  - apply (xwp_xfold (fun lines _ w' => mux_moves r0 (rk w') /\ forall b, b ∈ lines -> b ∈ even_lines r0)
      (fun e w' => e <> None /\ mux_moves r0 (rk w'))); [done|].
    intros b lines [] w1 [Hmv1 Hl]. unfold host_get_access_for_line.
    apply xwp_bind, xwp_lift, wp_gets. apply xwp_bind, xwp_deref. rewrite (line_masks_moves _ _ _ _ Hmv1).
    assert (b ∈ even_lines r0) as Hb by (apply Hl; constructor).
    assert (forall b', b' ∈ lines -> b' ∈ even_lines r0) as Hl' by (intros; apply Hl; by constructor).
    specialize (Hfree b Hb). unfold line_conflict in Hfree. destruct (line_masks r0 m b) as [[m1 m2]|]; [|done].
    cbv beta iota. case_bool; [by apply xwp_ret|]. apply xwp_bind.
    rewrite (proj1 (negb_false_iff _) Hfree). apply xwp_ret. apply xwp_bind.
    eapply xwp_mono; [by apply (xwp_lift_moves r0); [apply switch_line_moves|]|].
    intros [[[]|e]|] w2 [Hres Hmv2]; [|split; [congruence|done]|done].
    eapply xwp_mono; [by apply (xwp_lift_moves r0); [apply switch_line_moves|]|].
    intros [[[]|e]|] w3 [Hres3 Hmv3]; [done|split; [congruence|done]|done].
  - intros [[[]|e]|] w' Hw'; [by destruct Hw'|by destruct Hw'|by destruct Hw'].
Qed.

Lemma do_mram_transfer_moves type m w : mux_moves (rk w) (rk (fst (do_mram_transfer type m w))).
Proof.
  unfold do_mram_transfer. case_bool; [done|].
  unfold call_backend, mbind, C_bind, get, set_dev, modify.
  destruct type; [destruct (copy_from_rank _ _ _)|destruct (copy_to_rank _ _ _)]; by case_decide.
Qed.

Lemma xwp_access_transfer_returns r0 type (access : X (world D) unit) m w :
  xwp access (fun res w' => returns r0 res w') w ->
  xwp (_ ← access; lift (do_mram_transfer type m)) (fun res w' => returns r0 res w') w.
Proof.
  intros Ha. apply xwp_bind. eapply xwp_mono; [exact Ha|]. intros [[[]|e]|] w1 [Hres Hmv]; [|done..].
  apply xwp_lift. unfold wp. split; [done|]. etrans; [exact Hmv|apply do_mram_transfer_moves].
Qed.

Lemma xwp_copy_mram_returns type m w : matrix_wf (rk w) m ->
  (conflict_free (rk w) m \/ length (matrices_of (rk w) m) = 2%nat) ->
  xwp (copy_mram_for_dpus type m) (fun res w' => res <> None) w.
Proof.
  intros Hwf Hor. pose proof (xw_cis _ _ Hwf) as Hn. pose proof (xw_even _ _ Hwf) as He.
  unfold copy_mram_for_dpus. apply xwp_bind, xwp_lift, wp_gets. apply xwp_bind, xwp_deref.
  destruct (duplicate_total (rk w) He m dpu_transfer_matrix_clear_all dpu_transfer_matrix_clear_all)
    as [[b [even odd]] Hdup]. rewrite Hdup. cbv beta iota zeta.
  unfold matrices_of in Hor. rewrite Hdup in Hor. destruct b; cbn [negb].
  - assert ((even, odd) = split_matrix (rk w) m (dpu_transfer_matrix_clear_all, dpu_transfer_matrix_clear_all))
      as Heo.
    { revert Hdup. unfold duplicate_transfer_matrix. case_bool; [done|]. case_bool; [|done].
      destruct (scan_lines _ _ _) as [[]|]; cbn; congruence. }
    destruct (matrix_wf_split _ _ Hwf) as (_ & _ & HP). rewrite <-Heo in HP. cbn [fst snd] in HP.
    pose proof (elem_of_even_lines (rk w)) as Hel.
    assert (conflict_free (rk w) (set_shape m even)) as Hfe.
    { intros b Hb. destruct (Hel b Hb) as [Hb0 Hbe]. apply (empty_line_free (rk w) Hn He _ b (b + 1) Hb); [by right|].
      pose proof (pair_in_range (rk w) He b Hb).
      intros s Hs. unfold has_ptr. rewrite (proj1 (HP s (b + 1) Hs ltac:(lia))). by rewrite Z.even_add, Hbe. }
    assert (conflict_free (rk w) (set_shape m odd)) as Hfo.
    { intros b Hb. destruct (Hel b Hb) as [Hb0 Hbe]. apply (empty_line_free (rk w) Hn He _ b b Hb); [by left|].
      intros s Hs. unfold has_ptr. rewrite (proj2 (HP s b Hs Hb0)). by rewrite Hbe. }
    unfold xwp. rewrite X_bind_assoc. apply (xwp_bind _ _ (fun res _ => res <> None)). eapply xwp_mono.
    { by apply (xwp_access_transfer_returns (rk w)), xwp_access_returns. }
    intros [[[]|e]|] w1 [Hres Hmv]; [|done..]. eapply xwp_mono.
    { by apply (xwp_access_transfer_returns (rk w)), xwp_access_returns. }
    by intros res w2 [? _].
  - destruct Hor as [Hfree|?]; [|done]. eapply xwp_mono.
    { apply (xwp_access_transfer_returns (rk w)). unfold host_get_access_for_transfer.
      apply xwp_bind, xwp_lift, wp_gets. case_bool; [|by apply xwp_access_returns].
      by apply xwp_lift_moves; [apply switch_rank_moves|]. }
    by intros res w2 [? _].
Qed.
End NoAbort.

(** ** Properties *)

Lemma verify_access_spec e limit o s : fits 32 o -> fits 32 s -> fits 32 limit ->
  verify_access e limit o s = None <-> o < limit /\ (o + s <= limit \/ 2 ^ 32 <= o + s).
Proof.
  unfold fits, verify_access. intros Ho Hs Hl.
  destruct (decide (o + s < 2 ^ 32)) as [Hlt|Hge].
  - rewrite u32_id by (unfold fits; lia).
    destruct (Z.leb_spec limit o), (Z.ltb_spec limit (o + s)); cbn [orb]; (split; [try done; lia|try done; lia]).
  - assert (u32 (o + s) = o + s - 2 ^ 32) as ->.
    { unfold u32. rewrite <-(Z.mod_add _ (-1)) by done. apply Z.mod_small. lia. }
    destruct (Z.leb_spec limit o), (Z.ltb_spec limit (o + s - 2 ^ 32)); cbn [orb];
      (split; [try done; lia|try done; lia]).
Qed.

(** What a transfer of the entry points satisfies when the backend is handed
    it: [r] is the rank at that time. *)
Record transfer_ok (m : dpu_transfer_matrix) (r : rank) (m' : dpu_transfer_matrix) : Prop := {
  to_banks : host_has_banks r m';
  to_stopped : nb_dpu_running (run r) <= 0;
  to_shape : tm_offset m' = tm_offset m /\ tm_size m' = tm_size m /\ tm_type m' = tm_type m;
  to_checked : verify_mram_access_offset_and_size (tm_offset m) (tm_size m) r = None;
}.

(** C17: the backend only moves data through banks that the host owns: whatever
    the outcome of an MRAM transfer, each matrix the backend was handed came
    when no DPU of the rank ran, with the bank of every enabled DPU that has a
    buffer recorded on the side of the host, and with an offset and a size that
    the check accepts. *)
Theorem mram_transfer_has_banks {D} `{!RankHandler D} `{!TransferHandler D} type m
    (w w' : world (logged D)) res :
  mux_wf (rk w) -> mux_states_ok (rk w) -> matrix_wf (rk w) m -> transfers (dev w) = [] ->
  dpu_copy_mrams None (copy_mram_for_dpus type) m w = (w', res) ->
  Forall (fun e => transfer_ok m (fst e) (snd e)) (transfers (dev w')).
Proof.
  intros Hwf Hst Hm Hlog Hrun.
  enough (xwp (dpu_copy_mrams None (copy_mram_for_dpus type) m) (fun _ w' =>
    Forall (fun e => transfer_ok m (fst e) (snd e)) (transfers (dev w'))) w) as H
    by (unfold xwp in H; by rewrite Hrun in H).
  clear Hrun. assert (Forall (fun e => transfer_ok m (fst e) (snd e)) (transfers (dev w))) as Hnil
    by (by rewrite Hlog).
  unfold dpu_copy_mrams. apply xwp_bind, xwp_lift, wp_gets.
  destruct (verify_mram_access_offset_and_size _ _ _) as [[[]|e]|] eqn:Hv; [done..|].
  destruct (Z.ltb_spec 0 (nb_dpu_running (run (rk w)))) as [|Hstop]; [done|].
  eapply xwp_mono; [by apply xwp_copy_mram|].
  intros _ w1 (ms & [_ (new & -> & Hms & Hnew)] & Hpre & _). rewrite Hlog. cbn [app].
  apply Forall_forall. intros e He.
  destruct (proj1 (Forall_forall _ _) Hnew e He) as [Hmv Hb]. split; [done| | |].
  - by rewrite (mv_run _ _ Hmv).
  - destruct (matrices_of_wf _ _ Hm) as [_ Hshape].
    apply (proj1 (Forall_forall _ _) Hshape (snd e)). apply (in_map snd) in He. rewrite Hms in He.
    destruct Hpre as [k Hk]. apply list_elem_of_In.
    assert (snd e ∈ filter any_ptr (matrices_of (rk w) m)) as [_ ?]%list_elem_of_filter; [|done].
    rewrite Hk. apply list_elem_of_In, in_or_app. by left.
  - unfold verify_mram_access_offset_and_size in *. by rewrite (mv_desc _ _ Hmv).
Qed.

(** C18: an MRAM transfer that succeeds has moved every buffer exactly once: over
    the matrices the backend was handed, the DPU of each place appears with its
    buffer in one of them and without buffer in the others. *)
Theorem mram_transfer_exactly_once {D} `{!RankHandler D} `{!TransferHandler D} type m
    (w w' : world (logged D)) s d :
  mux_wf (rk w) -> mux_states_ok (rk w) -> matrix_wf (rk w) m -> transfers (dev w) = [] ->
  copy_mram_for_dpus type m w = (w', Some (Ok tt)) ->
  0 <= s < nr_cis_of (rk w) -> 0 <= d < nr_dpus_of (rk w) ->
  buffers_at (rk w) (map snd (transfers (dev w'))) s d =
    if has_ptr (rk w) m s d then [ptr_at (rk w) m s d] else [].
Proof.
  intros Hwf Hst Hm Hlog Hrun Hs Hd. pose proof (xwp_copy_mram type m w Hwf Hst) as H.
  unfold xwp in H. rewrite Hrun in H. destruct H as (ms & [_ (new & Ht & Hms & _)] & _ & Hok).
  cbn [fst snd] in *. rewrite Ht, Hlog. cbn [app]. rewrite Hms, (Hok eq_refl).
  rewrite buffers_any_ptr by (done || apply matrices_of_wf, Hm). by apply buffers_matrices_of.
Qed.

(** C27: a transfer that is split, and a transfer in which no pair of lines wants
    two different muxes, never trips the assertion of
    [host_get_access_for_transfer_matrix] nor dereferences a missing DPU: it
    returns a status. *)
Theorem mram_transfer_returns {D} `{!RankHandler D} `{!TransferHandler D} type m (w : world D) :
  matrix_wf (rk w) m ->
  conflict_free (rk w) m \/ length (matrices_of (rk w) m) = 2%nat ->
  exists w' res, copy_mram_for_dpus type m w = (w', Some res).
Proof.
  intros Hm Hor. pose proof (xwp_copy_mram_returns type m w Hm Hor) as H. unfold xwp in H.
  destruct (copy_mram_for_dpus type m w) as [w' [res|]]; [by eexists _, _|done].
Qed.

(** the check of an MRAM access accepts exactly the aligned accesses that stay
    in the MRAM - and those whose end wraps around 32 bits. *)
Theorem verify_mram_access_spec o s r : fits 32 o -> fits 32 s -> fits 32 (mram_size (desc r)) ->
  verify_mram_access_offset_and_size o s r = None <->
  (o mod 8 = 0 /\ s mod 8 = 0) /\ o < mram_size (desc r) /\
  (o + s <= mram_size (desc r) \/ 2 ^ 32 <= o + s).
Proof.
  intros Ho Hs Hl. unfold verify_mram_access_offset_and_size.
  rewrite <-(verify_access_spec DPU_ERR_INVALID_MRAM_ACCESS) by done.
  destruct (Z.eqb_spec (s mod 8) 0), (Z.eqb_spec (o mod 8) 0); cbn [negb orb]; tauto || (split; [done|tauto]).
Qed.

(** ** On a simulated board *)

#[export] Instance sim_transfers : TransferHandler sim := {
  copy_to_rank d _ _ := (d, DPU_RANK_SUCCESS);
  copy_from_rank d _ _ := (d, DPU_RANK_SUCCESS);
}.

(** The simulated registers do not show the positions of the muxes: the checks
    of the hardware are disabled. *)
Definition unchecked_description (d : description) : description :=
  mk_description (chip_id d) (carousel d) (fck_frequency_in_mhz d) (reset_wait_duration d)
    (std_temperature d) (clock_division d) (nr_of_control_interfaces d)
    (nr_of_dpus_per_control_interface d) (mram_size d) (wram_size d) (iram_size d)
    (pcb_transformation d) (nr_of_threads d) (nr_of_notify_bits d) (api_must_switch_mram_mux d)
    (init_mram_mux d) (do_iram_repair d) (do_wram_repair d) (enable_cycle_accurate_behavior d)
    true (ila_control_refresh d).
Definition transfer_world (nr_cis nr_dpus : Z) : world (logged sim) :=
  let r := sample_rank nr_cis nr_dpus in
  mk_world (set_desc (unchecked_description (desc r)) r) (mk_logged sim0 []).

(** The matrix whose buffers are [ptrs], line by line. *)
Definition matrix_of (offset size : Z) (ptrs : list Z) : dpu_transfer_matrix :=
  mk_matrix (ptrs ++ replicate (64 - length ptrs) 0) offset size DPU_DEFAULT_XFER_MATRIX.

Definition split_sample : dpu_transfer_matrix := matrix_of 0x40 0x100 [0x1000; 0; 0x2000; 0x3000].

Lemma split_sample_wf : matrix_wf (rk (transfer_world 2 2)) split_sample.
Proof. split; try by_eval. intros s d Hs Hd. revert s Hs d Hd. by_eval. Qed.
Lemma transfer_world_wf : mux_wf (rk (transfer_world 2 2)) /\ mux_states_ok (rk (transfer_world 2 2)).
Proof. split; [split; by_eval|unfold mux_states_ok; by_eval]. Qed.

Lemma mram_transfer_has_banks_witness : exists w',
  dpu_copy_mrams None (copy_mram_for_dpus DPU_TRANSFER_TO_MRAM) split_sample (transfer_world 2 2) = (w', Some (Ok tt)) /\
  length (transfers (dev w')) = 2%nat /\
  Forall (fun e => transfer_ok split_sample (fst e) (snd e)) (transfers (dev w')).
Proof.
  destruct (dpu_copy_mrams None (copy_mram_for_dpus DPU_TRANSFER_TO_MRAM) split_sample (transfer_world 2 2)) as [w' res] eqn:Hrun.
  assert (res = Some (Ok tt) /\ length (transfers (dev w')) = 2%nat) as [-> Hlen].
  { pose proof (f_equal snd Hrun) as H1.
    pose proof (f_equal (fun x => length (transfers (dev (fst x)))) Hrun) as H2. cbn [fst snd] in H1, H2.
    rewrite <-H1, <-H2. split; vm_compute; reflexivity. }
  exists w'. split; [done|]. split; [done|].
  exact (mram_transfer_has_banks DPU_TRANSFER_TO_MRAM split_sample (transfer_world 2 2) w' _
    (proj1 transfer_world_wf) (proj2 transfer_world_wf) split_sample_wf eq_refl Hrun).
Defined.

Lemma mram_transfer_exactly_once_witness : exists w',
  copy_mram_for_dpus DPU_TRANSFER_TO_MRAM split_sample (transfer_world 2 2) = (w', Some (Ok tt)) /\
  buffers_at (rk (transfer_world 2 2)) (map snd (transfers (dev w'))) 1 1 = [0x3000] /\
  buffers_at (rk (transfer_world 2 2)) (map snd (transfers (dev w'))) 1 0 = [].
Proof.
  destruct (copy_mram_for_dpus DPU_TRANSFER_TO_MRAM split_sample (transfer_world 2 2)) as [w' res] eqn:Hrun.
  assert (res = Some (Ok tt)) as ->.
  { apply (f_equal snd) in Hrun. cbn [snd] in Hrun. vm_compute in Hrun. done. }
  exists w'. split; [done|].
  pose proof (fun s d => mram_transfer_exactly_once DPU_TRANSFER_TO_MRAM split_sample (transfer_world 2 2) w' s d
    (proj1 transfer_world_wf) (proj2 transfer_world_wf) split_sample_wf eq_refl Hrun) as H.
  split; (etrans; [apply H; by_eval|vm_compute; reflexivity]).
Defined.

Lemma mram_transfer_returns_witness : exists w' res,
  copy_mram_for_dpus DPU_TRANSFER_FROM_MRAM split_sample (transfer_world 2 2) = (w', Some res).
Proof.
  apply (mram_transfer_returns DPU_TRANSFER_FROM_MRAM split_sample (transfer_world 2 2) split_sample_wf).
  right. vm_compute. reflexivity.
Defined.

Lemma verify_mram_access_spec_witness :
  verify_mram_access_offset_and_size 0x3FFFFF8 8 (sample_rank 2 8) = None <->
  (0x3FFFFF8 mod 8 = 0 /\ 8 mod 8 = 0) /\ 0x3FFFFF8 < mram_size (desc (sample_rank 2 8)) /\
  (0x3FFFFF8 + 8 <= mram_size (desc (sample_rank 2 8)) \/ 2 ^ 32 <= 0x3FFFFF8 + 8).
Proof.
  apply (verify_mram_access_spec 0x3FFFFF8 8 (sample_rank 2 8)); by_eval.
Defined.

(** The second matrix of the comment. *)
Definition comment_example : dpu_transfer_matrix :=
  matrix_of 0 64 [1; 1; 1; 1; 1; 0; 1; 1;   0; 1; 1; 1; 1; 1; 1; 1].
(** the search for conflicts stops at the first interface of a pair of lines
    whose two DPUs differ, before it has seen the other interfaces: on the very
    matrix that the comment of [duplicate_transfer_matrix] splits by hand, it
    finds that no split is needed, and the transfer then ends on the failed
    assertion. *)
Theorem comment_example_not_split :
  duplicate_transfer_matrix (sample_rank 8 8) comment_example
    dpu_transfer_matrix_clear_all dpu_transfer_matrix_clear_all =
    Some (false, (dpu_transfer_matrix_clear_all, dpu_transfer_matrix_clear_all)) /\
  line_conflict (sample_rank 8 8) comment_example 0 = true /\
  snd (ci_copy_to_mrams comment_example (transfer_world 8 8)) = None.
Proof. vm_compute. repeat split. Qed.

Definition disable (s d : Z) (w : world (logged sim)) : world (logged sim) :=
  mk_world (upd_dpu s d (set_enabled false)
              (upd_slice s (fun i => set_enabled_dpus (enabled_dpus i &&& not8 (Z.shiftl 1 d)) i) (rk w)))
    (dev w).
Definition driver_switches (d : description) : description :=
  mk_description (chip_id d) (carousel d) (fck_frequency_in_mhz d) (reset_wait_duration d)
    (std_temperature d) (clock_division d) (nr_of_control_interfaces d)
    (nr_of_dpus_per_control_interface d) (mram_size d) (wram_size d) (iram_size d)
    (pcb_transformation d) (nr_of_threads d) (nr_of_notify_bits d) false
    (init_mram_mux d) (do_iram_repair d) (do_wram_repair d) (enable_cycle_accurate_behavior d)
    (disable_api_safe_checks d) (ila_control_refresh d).
(** other transfers that end abnormally: a DPU that is disabled next to one
    that has a buffer (the search for conflicts skips the pair, the masks do
    not), a matrix that is not full on a rank with one DPU per interface (the
    second DPU of the pair is a null pointer), and any conflict when the driver
    moves the muxes (the search is not made). *)
Theorem other_transfers_that_abort :
  snd (ci_copy_to_mrams (matrix_of 0 64 [1; 1; 0; 1]) (disable 0 1 (transfer_world 2 4))) = None /\
  snd (ci_copy_to_mrams (matrix_of 0 64 [1; 0]) (transfer_world 2 1)) = None /\
  (let w := transfer_world 2 2 in
   snd (ci_copy_to_mrams split_sample
          (mk_world (set_desc (driver_switches (desc (rk w))) (rk w)) (dev w))) = None).
Proof. vm_compute. repeat split. Qed.

(** an access whose end wraps around is accepted: the backend is handed a
    transfer of 2^32 - 8 bytes from offset 8 of a 64 MB memory. *)
Theorem wrapped_access_accepted :
  let m := matrix_of 8 0xFFFFFFF8 [0x1000; 0x2000; 0x3000; 0x4000] in
  let '(w', res) := dpu_copy_to_mrams None m (transfer_world 2 2) in
  res = Some (Ok tt) /\ map (fun e => tm_size (snd e)) (transfers (dev w')) = [0xFFFFFFF8] /\
  mram_size (desc (rk w')) = 0x4000000.
Proof. vm_compute. repeat split. Qed.

(** without any buffer, the matrix functions of the IRAM and of the WRAM
    return the status that their variable happened to hold: [status] is
    returned whatever it is. *)
Theorem unset_status_returned status mem :
  let m := dpu_transfer_matrix_clear_all in let w := sim_world 8 8 in
  snd (ci_copy_to_irams_matrix status mem m w) = status /\
  snd (ci_copy_to_wrams_matrix status mem m w) = status /\
  snd (ci_copy_from_irams_matrix status mem m w) =
    match status with Ok _ => Ok mem | Err e => Err e end /\
  snd (ci_copy_from_wrams_matrix status mem m w) =
    match status with Ok _ => Ok mem | Err e => Err e end.
Proof. destruct status as [[]|e]; vm_compute; repeat split. Qed.
