(* ===== verification/Runner.v ===== *)
(** * Launching and polling the DPUs of a rank

    Model of [src/api/src/dpu_runner.c] and [src/api/src/dpu_custom.c], and of
    the part of [src/api/src/api/dpu_polling.c] that polls a rank and waits for
    its DPUs ([polling_thread_rank], [dpu_check_fault_rank], [dpu_sync_rank],
    [dpu_sync_dpu]). The mutex of a rank is recursive: the state has the number
    of times the calling thread holds it. The custom operation of the backend
    is an argument, as are the values of the arrays that the source does not
    initialise; what the profiler records on the host is not modelled, only
    its accesses to the DPU. *)

From S2P Require Import Prelude CMonad BitConfig CiCommands Rank Ci Ufi Select Frame Mux UfiMemory.

#[local] Open Scope Z_scope.
#[local] Open Scope dpu_scope.

Definition DPU_BOOT_THREAD := 0.
Definition MAGIC_PROFILING_VALUE := 0xDEAD0000.

Inductive dpu_custom_command_t :=
  | DPU_COMMAND_DPU_SOFT_RESET | DPU_COMMAND_ALL_SOFT_RESET | DPU_COMMAND_DPU_PREEXECUTION
  | DPU_COMMAND_ALL_PREEXECUTION | DPU_COMMAND_DPU_POSTEXECUTION | DPU_COMMAND_ALL_POSTEXECUTION
  | DPU_COMMAND_CUSTOM_LABEL | DPU_COMMAND_POSTMORTEM | DPU_COMMAND_SYSTEM_REPORT
  | DPU_COMMAND_BINARY_PATH | DPU_COMMAND_EVENT_START | DPU_COMMAND_EVENT_END
  | DPU_COMMAND_SET_SLICE_INFO.

Inductive dpu_profiling_type_e :=
  | DPU_PROFILING_NOP | DPU_PROFILING_MCOUNT | DPU_PROFILING_STATS | DPU_PROFILING_SAMPLES
  | DPU_PROFILING_SECTIONS.

(** [struct _dpu_profiling_context_t], less what is recorded; the DPU is its
    interface and its number, a symbol its address and its size. *)
Record profiling_context := mk_profiling_context {
  enable_profiling : dpu_profiling_type_e;
  profiled_slice : Z;
  profiled_dpu : Z;
  thread_profiling_address : Z;
  profiling_symbols : list (Z * Z);
  perfcounter_end_value_address : Z;
}.

(** [map_rank_status_to_api_status]. *)
Definition map_rank_status_to_api_status (status : dpu_rank_status_e) : result unit :=
  match status with
  | DPU_RANK_SUCCESS => Ok tt
  | DPU_RANK_COMMUNICATION_ERROR | DPU_RANK_BACKEND_ERROR => Err DPU_ERR_DRIVER
  | DPU_RANK_SYSTEM_ERROR => Err DPU_ERR_SYSTEM
  | DPU_RANK_INVALID_PROPERTY_ERROR => Err DPU_ERR_INVALID_PROFILE
  | DPU_RANK_ENODEV => Err DPU_ERR_INTERNAL
  end.

(** ** The rank and its mutex *)

Record locked (D : Type) := mk_locked { lw : world D; lock_depth : Z }.
Arguments mk_locked {_} _ _.
Arguments lw {_} _.
Arguments lock_depth {_} _.
Definition L (D A : Type) : Type := C (locked D) A.

Section Locked.
Context {D : Type}.

Definition dpu_lock_rank : L D unit := modify (fun s => mk_locked (lw s) (lock_depth s + 1)).
Definition dpu_unlock_rank : L D unit := modify (fun s => mk_locked (lw s) (lock_depth s - 1)).
Definition on_world {A} (m : W D A) : L D A := fun s =>
  let '(w, r) := m (lw s) in (mk_locked w (lock_depth s), r).
Definition the_rank : L D rank := on_world get_rank.

(** The code after the label [end] runs whatever the status. *)
Definition at_end {A} (e : L D unit) (m : L D A) : L D A := fun s =>
  let '(s', r) := m s in (fst (e s'), r).
(** [if ((status = m) != DPU_OK) { h; goto end; }]. *)
Definition or_else {A} (m : L D A) (h : L D unit) : L D A := fun s =>
  let '(s', r) := m s in
  match r with Ok _ => (s', r) | Err _ => (fst (h s'), r) end.
End Locked.

(** The run context from the bits that were read. *)
Definition poll_slice (running in_fault : list Z) (each_slice : Z) (st : rank * Z) : rank * Z :=
  let '(r, nb_dpu_running) := st in
  let mask_all := enabled_dpus (slice_of r each_slice) in
  let c := run r in
  let c := set_dpu_in_fault (dpu_in_fault c).[each_slice := in_fault.[each_slice] &&& mask_all] c in
  let c := set_dpu_running (dpu_running c).[each_slice :=
             (running.[each_slice] &&& mask_all) &&& not8 (dpu_in_fault c).[each_slice]] c in
  (set_run c r, u32 (nb_dpu_running + popcount (dpu_running c).[each_slice])).
Definition update_run_context (running in_fault : list Z) (r : rank) : rank :=
  let '(r, nb) := for_up (nr_cis_of r) (poll_slice running in_fault) (r, 0) in
  set_run (set_nb_dpu_running (u8 nb) (run r)) r.

(** All the enabled DPUs run. *)
Definition launch_slice (each_slice : Z) (st : rank * Z) : rank * Z :=
  let '(r, nb_dpu_running) := st in
  let mask_all := enabled_dpus (slice_of r each_slice) in
  (set_run (set_dpu_running (dpu_running (run r)).[each_slice := mask_all] (run r)) r,
   u32 (nb_dpu_running + popcount mask_all)).
Definition set_all_running (r : rank) : rank :=
  let '(r, nb) := for_up (nr_cis_of r) launch_slice (r, 0) in
  set_run (set_nb_dpu_running (u8 nb) (run r)) r.

(** One more DPU runs. *)
Definition set_one_running (slice_id mask_one : Z) (r : rank) : rank :=
  let c := run r in
  let c := set_dpu_running (dpu_running c).[slice_id := (dpu_running c).[slice_id] ||| mask_one] c in
  set_run (set_nb_dpu_running (u8 (nb_dpu_running c + 1)) c) r.

Section Runner.
Context {D : Type} `{!RankHandler D}.
Context (custom_operation : dpu_custom_command_t -> Z -> Z -> world D -> world D * dpu_rank_status_e).
Context (prof : profiling_context).
(** What the arrays [dpu_poll_running] and [dpu_poll_in_fault] hold at first. *)
Context (run0 fault0 : list Z).

(** ** Custom commands ([dpu_custom.c]) *)

Definition call_custom (command : dpu_custom_command_t) (slice_id dpu_id : Z) : L D unit :=
  _ ← dpu_lock_rank;
  status ← on_world (fun w => let '(w, status) := custom_operation command slice_id dpu_id w in (w, Ok status));
  _ ← dpu_unlock_rank;
  match map_rank_status_to_api_status status with Ok _ => mret tt | Err e => fail e end.
Definition dpu_custom_for_rank (command : dpu_custom_command_t) : L D unit :=
  call_custom command (u8 (-1)) (u8 (-1)).
Definition dpu_custom_for_dpu (slice dpu : Z) (command : dpu_custom_command_t) : L D unit :=
  r ← the_rank;
  if negb (enabled (dpu_of r slice dpu)) then fail DPU_ERR_DPU_DISABLED
  else call_custom command slice dpu.

(** ** The accesses of the profiler *)

(** [dpu_set_magic_profiling_for_dpu], [dpu_profiler.c]. *)
Definition dpu_set_magic_profiling_for_dpu (slice dpu : Z) : L D unit :=
  r ← the_rank;
  if negb (enabled (dpu_of r slice dpu)) then fail DPU_ERR_DPU_DISABLED
  else match enable_profiling prof with
       | DPU_PROFILING_STATS =>
           on_world (dpu_copy_to_wram_for_dpu (dpu_of r slice dpu) (thread_profiling_address prof / 4)
             (replicate (Z.to_nat (nr_of_threads (desc r))) MAGIC_PROFILING_VALUE) (nr_of_threads (desc r)))
       | _ => mret tt
       end.

(** The profiled DPU was running and does not run any more. *)
Definition profiled_stopped (r : rank) (running in_fault : list Z) : bool :=
  let mask_one := dpu_mask_one (profiled_dpu prof) in
  ((running.[profiled_slice prof] &&& mask_one =? 0) || negb (in_fault.[profiled_slice prof] &&& mask_one =? 0))
  && negb ((dpu_running (run r)).[profiled_slice prof] &&& mask_one =? 0).

Definition profile_poll (running in_fault : list Z) : L D unit :=
  r ← the_rank;
  let d := dpu_of r (profiled_slice prof) (profiled_dpu prof) in
  let read address nr :=
    (_ ← on_world (ci_copy_from_wrams_dpu d (replicate (Z.to_nat nr) 0) (address / 4) nr); mret tt) in
  match enable_profiling prof with
  | DPU_PROFILING_STATS => read (thread_profiling_address prof) (nr_of_threads (desc r))
  | DPU_PROFILING_SAMPLES => _ ← on_world (ci_sample_pc_dpu d); mret tt
  | DPU_PROFILING_SECTIONS =>
      if profiled_stopped r running in_fault then
        _ ← read (perfcounter_end_value_address prof) 1;
        mfold (fun '((value, size) : Z * Z) _ => read value (size / 4)) (profiling_symbols prof) tt
      else mret tt
  | _ => mret tt
  end.

(** ** Polling *)

Definition dpu_poll_rank : L D unit :=
  _ ← dpu_lock_rank;
  at_end dpu_unlock_rank (
    '(running, in_fault) ← on_world (ci_poll_rank run0 fault0);
    _ ← profile_poll running in_fault;
    on_world (on_rank (update_run_context running in_fault))).

(** The two outputs are set whatever the status of the poll; the callers of the
    model only read them when it is [DPU_OK]. *)
Definition dpu_poll_dpu (slice dpu : Z) : L D (bool * bool) :=
  r ← the_rank;
  if negb (enabled (dpu_of r slice dpu)) then fail DPU_ERR_DPU_DISABLED
  else
    let mask_one := dpu_mask_one dpu in
    _ ← dpu_lock_rank;
    at_end dpu_unlock_rank (
      _ ← dpu_poll_rank;
      r ← the_rank;
      mret (negb ((dpu_running (run r)).[slice] &&& mask_one =? 0),
            negb ((dpu_in_fault (run r)).[slice] &&& mask_one =? 0))).

(** ** Launching *)

(** [verify_thread_id]. *)
Definition verify_thread_id (thread : Z) : L D unit :=
  r ← the_rank;
  if nr_of_threads (desc r) <=? thread then fail DPU_ERR_INVALID_THREAD_ID else mret tt.

(** The samples are host memory: nothing is sent. *)
Definition profile_launch (slice dpu : Z) (should_resume : bool) : L D unit :=
  if should_resume then mret tt
  else match enable_profiling prof with
       | DPU_PROFILING_STATS => dpu_set_magic_profiling_for_dpu slice dpu
       | _ => mret tt
       end.

Definition dpu_launch_thread_on_rank (thread : Z) (should_resume : bool) : L D unit :=
  _ ← verify_thread_id thread;
  _ ← dpu_lock_rank;
  at_end dpu_unlock_rank (
    _ ← dpu_poll_rank;
    _ ← profile_launch (profiled_slice prof) (profiled_dpu prof) should_resume;
    _ ← on_world (ci_start_thread_rank thread should_resume None);
    on_world (on_rank set_all_running)).

Definition is_profiled (slice dpu : Z) : bool := (slice =? profiled_slice prof) && (dpu =? profiled_dpu prof).

Definition dpu_launch_thread_on_dpu (slice dpu thread : Z) (should_resume : bool) : L D unit :=
  r ← the_rank;
  if negb (enabled (dpu_of r slice dpu)) then fail DPU_ERR_DPU_DISABLED
  else
    _ ← verify_thread_id thread;
    _ ← dpu_lock_rank;
    at_end dpu_unlock_rank (
      '((dpu_is_running, _) : bool * bool) ← dpu_poll_dpu slice dpu;
      _ ← (if is_profiled slice dpu then profile_launch slice dpu should_resume else mret tt);
      r ← the_rank;
      _ ← on_world (ci_start_thread_dpu (dpu_of r slice dpu) thread should_resume None);
      if dpu_is_running then mret tt
      else on_world (on_rank (set_one_running slice (dpu_mask_one dpu)))).

Definition dpu_boot_dpu (slice dpu : Z) : L D unit :=
  r ← the_rank;
  if negb (enabled (dpu_of r slice dpu)) then fail DPU_ERR_DPU_DISABLED
  else
    _ ← dpu_lock_rank;
    r ← the_rank;
    if negb ((dpu_running (run r)).[slice] &&& dpu_mask_one dpu =? 0) then
      _ ← dpu_unlock_rank;
      fail DPU_ERR_DPU_ALREADY_RUNNING
    else
      _ ← or_else (dpu_custom_for_dpu slice dpu DPU_COMMAND_DPU_PREEXECUTION) dpu_unlock_rank;
      _ ← or_else (dpu_launch_thread_on_dpu slice dpu DPU_BOOT_THREAD false) dpu_unlock_rank;
      dpu_unlock_rank.

Definition dpu_boot_rank : L D unit :=
  _ ← dpu_lock_rank;
  r ← the_rank;
  if negb (nb_dpu_running (run r) =? 0) then
    _ ← dpu_unlock_rank;
    fail DPU_ERR_DPU_ALREADY_RUNNING
  else
    _ ← or_else (dpu_custom_for_rank DPU_COMMAND_ALL_PREEXECUTION) dpu_unlock_rank;
    _ ← or_else (dpu_launch_thread_on_rank DPU_BOOT_THREAD false) dpu_unlock_rank;
    dpu_unlock_rank.

(** ** Status *)

(** [(done, fault)]. *)
Definition dpu_status_rank : L D (bool * bool) :=
  _ ← dpu_lock_rank;
  r ← the_rank;
  let c := run r in
  let res := for_up (nr_cis_of r) (fun each_slice '(done, fault) =>
    (done && ((dpu_running c).[each_slice] =? 0), fault || negb ((dpu_in_fault c).[each_slice] =? 0)))
    (true, false) in
  _ ← dpu_unlock_rank;
  mret res.

Definition dpu_status_dpu (slice dpu : Z) : L D (bool * bool) :=
  r ← the_rank;
  if negb (enabled (dpu_of r slice dpu)) then fail DPU_ERR_DPU_DISABLED
  else
    _ ← dpu_lock_rank;
    r ← the_rank;
    let done := negb (dpu_mask_is_selected (dpu_running (run r)).[slice] dpu) in
    let fault := dpu_mask_is_selected (dpu_in_fault (run r)).[slice] dpu in
    _ ← dpu_unlock_rank;
    mret (done, fault).
End Runner.

(** ** The polling thread and the waits ([dpu_polling.c]) *)

(** The status of a call, kept in a variable. *)
Definition attempt {D A} (m : L D A) : L D (result A) := fun s => let '(s', r) := m s in (s', Ok r).
Definition status_of {A} (r : result A) : option dpu_error_t :=
  match r with Ok _ => None | Err e => Some e end.

Definition check_fault_slice (c : run_context) (each_ci : Z) (st : list Z * option dpu_error_t)
    : list Z * option dpu_error_t :=
  let '(in_fault, status) := st in
  if in_fault.[each_ci] =? (dpu_in_fault c).[each_ci] then st
  else (in_fault.[each_ci := (dpu_in_fault c).[each_ci]], Some DPU_ERR_DPU_FAULT).
(** The messages are not modelled. *)
Definition dpu_check_fault_rank (r : rank) (in_fault : list Z) (status : option dpu_error_t)
    : list Z * option dpu_error_t :=
  match poll_status (run r) with
  | Some e => (in_fault, Some e)
  | None => for_up (nr_cis_of r) (check_fault_slice (run r)) (in_fault, status)
  end.

Section Polling.
Context {D : Type} `{!RankHandler D}.
Context (custom_operation : dpu_custom_command_t -> Z -> Z -> world D -> world D * dpu_rank_status_e).
Context (prof : profiling_context) (run0 fault0 : list Z).

(** One rank of the polling loop: whether DPUs are left running, and whether
    the threads that wait are woken. [nb_dpu_running] is read before the mutex
    is tried; [lock_taken] is the outcome of the try. *)
Definition polling_thread_rank (nb_dpu_running_read : Z) (lock_taken : bool) : L D (bool * bool) :=
  if nb_dpu_running_read =? 0 then mret (false, false)
  else if negb lock_taken then mret (true, false)
  else
    _ ← dpu_lock_rank;
    polled ← attempt (dpu_poll_rank prof run0 fault0);
    _ ← on_world (on_rank (fun r => set_run (set_poll_status (status_of polled) (run r)) r));
    match polled with
    | Err _ => _ ← dpu_unlock_rank; mret (false, true)
    | Ok _ =>
        r ← the_rank;
        let nb := nb_dpu_running (run r) in
        _ ← dpu_unlock_rank;
        mret (negb (nb =? 0), nb <? nb_dpu_running_read)
    end.

(** [pthread_cond_wait] lets the other threads run on the rank: [others] is
    what they do, wait after wait. The result is [None] when the thread still
    waits after them. *)
Fixpoint sync_loop (others : list (world D -> world D)) (in_fault : list Z) (status : option dpu_error_t)
    : L D (option (list Z * option dpu_error_t)) :=
  r ← the_rank;
  if negb (nb_dpu_running (run r) =? 0)
     && (bool_decide (status = None) || bool_decide (status = Some DPU_ERR_DPU_FAULT)) then
    match others with
    | [] => mret None
    | other :: others =>
        _ ← on_world (modify other);
        r ← the_rank;
        let '(in_fault, status) := dpu_check_fault_rank r in_fault status in
        sync_loop others in_fault status
    end
  else mret (Some (in_fault, status)).

Definition dpu_sync_rank (others : list (world D -> world D)) : L D (option unit) :=
  st ← sync_loop others (replicate 8 0) None;
  match st with
  | None => mret None
  | Some (in_fault, status) =>
      r ← the_rank;
      match snd (dpu_check_fault_rank r in_fault status) with
      | None => _ ← dpu_custom_for_rank custom_operation DPU_COMMAND_ALL_POSTEXECUTION; mret (Some tt)
      | Some e => fail e
      end
  end.

Fixpoint wait_dpu (others : list (world D -> world D)) (slice dpu : Z) : L D (option unit) :=
  r ← the_rank;
  if dpu_mask_is_selected (dpu_running (run r)).[slice] dpu then
    match others with
    | [] => mret None
    | other :: others => _ ← on_world (modify other); wait_dpu others slice dpu
    end
  else mret (Some tt).

Definition dpu_sync_dpu (others : list (world D -> world D)) (slice dpu : Z) : L D (option unit) :=
  waited ← wait_dpu others slice dpu;
  match waited with
  | None => mret None
  | Some _ =>
      r ← the_rank;
      if dpu_mask_is_selected (dpu_in_fault (run r)).[slice] dpu then fail DPU_ERR_DPU_FAULT
      else
        _ ← dpu_custom_for_dpu custom_operation slice dpu DPU_COMMAND_DPU_POSTEXECUTION;
        mret (Some tt)
  end.
End Polling.

(** ** What a call does to the rank *)

(** The calls of the library on a rank, their outputs left aside. *)
Inductive runner_call :=
  | CallPollRank | CallPollDpu (slice dpu : Z)
  | CallLaunchRank (thread : Z) (should_resume : bool)
  | CallLaunchDpu (slice dpu thread : Z) (should_resume : bool)
  | CallBootRank | CallBootDpu (slice dpu : Z)
  | CallStatusRank | CallStatusDpu (slice dpu : Z)
  | CallPolling (nb_dpu_running_read : Z) (lock_taken : bool).

Section Calls.
Context {D : Type} `{!RankHandler D}.
Context (custom_operation : dpu_custom_command_t -> Z -> Z -> world D -> world D * dpu_rank_status_e).
Context (prof : profiling_context) (run0 fault0 : list Z).

Definition do_call (c : runner_call) : L D unit :=
  match c with
  | CallPollRank => dpu_poll_rank prof run0 fault0
  | CallPollDpu s d => _ ← dpu_poll_dpu prof run0 fault0 s d; mret tt
  | CallLaunchRank t b => dpu_launch_thread_on_rank prof run0 fault0 t b
  | CallLaunchDpu s d t b => dpu_launch_thread_on_dpu prof run0 fault0 s d t b
  | CallBootRank => dpu_boot_rank custom_operation prof run0 fault0
  | CallBootDpu s d => dpu_boot_dpu custom_operation prof run0 fault0 s d
  | CallStatusRank => _ ← dpu_status_rank; mret tt
  | CallStatusDpu s d => _ ← dpu_status_dpu s d; mret tt
  | CallPolling nb b => _ ← polling_thread_rank prof run0 fault0 nb b; mret tt
  end.
(** One call after the other, whatever their outcomes. *)
Definition do_calls (cs : list runner_call) (s : locked D) : locked D :=
  foldl (fun s c => fst (do_call c s)) s cs.
End Calls.

(** ** The mutex is given back

    [moves_lock a b m]: the calling thread holds the mutex [a] times more when
    [m] returns [DPU_OK], [b] times more when it fails. *)

Section Lock.
Context {D : Type} `{!RankHandler D}.

Definition moves_lock {A} (a b : Z) (m : L D A) : Prop := forall s,
  lock_depth (fst (m s)) = lock_depth s + (if is_ok (snd (m s)) then a else b).

Lemma lock_ret {A} (x : A) b : moves_lock 0 b (mret x).
Proof. intros s. cbn. lia. Qed.
Lemma lock_fail {A} e a : moves_lock a 0 (fail (A := A) e).
Proof. intros s. cbn. lia. Qed.
Lemma lock_bind {A B} a b (m : L D A) (k : A -> L D B) :
  moves_lock 0 b m -> (forall x, moves_lock a b (k x)) -> moves_lock a b (x ← m; k x).
Proof.
  intros Hm Hk s. unfold mbind, C_bind. specialize (Hm s). destruct (m s) as [s' [x|e]]; [|exact Hm].
  cbn in Hm. rewrite Hk, Hm. lia.
Qed.
Lemma lock_bind_lock {A} a b (k : unit -> L D A) :
  (forall x, moves_lock (a - 1) (b - 1) (k x)) -> moves_lock a b (x ← dpu_lock_rank; k x).
Proof. intros Hk s. unfold mbind, C_bind. cbn. rewrite Hk. cbn. case_bool; lia. Qed.
Lemma lock_bind_unlock {A} a b (k : unit -> L D A) :
  (forall x, moves_lock (a + 1) (b + 1) (k x)) -> moves_lock a b (x ← dpu_unlock_rank; k x).
Proof. intros Hk s. unfold mbind, C_bind. cbn. rewrite Hk. cbn. case_bool; lia. Qed.
Lemma lock_unlock b : moves_lock (-1) b dpu_unlock_rank.
Proof. intros s. cbn. lia. Qed.
Lemma lock_on_world {A} (m : W D A) : moves_lock 0 0 (on_world m).
Proof. intros s. unfold on_world. destruct (m (lw s)) as [w [x|e]]; cbn; lia. Qed.
Lemma lock_on_rank f b : moves_lock 0 b (on_world (on_rank f)).
Proof. intros s. cbn. lia. Qed.
Lemma lock_the_rank b : moves_lock 0 b the_rank.
Proof. intros s. cbn. lia. Qed.
Lemma lock_at_end {A} a b (m : L D A) :
  moves_lock (a + 1) (b + 1) m -> moves_lock a b (at_end dpu_unlock_rank m).
Proof. intros Hm s. unfold at_end. specialize (Hm s). destruct (m s) as [s' [x|e]]; cbn in *; lia. Qed.
Lemma lock_or_else {A} a b (m : L D A) :
  moves_lock a (b + 1) m -> moves_lock a b (or_else m dpu_unlock_rank).
Proof. intros Hm s. unfold or_else. specialize (Hm s). destruct (m s) as [s' [x|e]]; cbn in *; lia. Qed.
Lemma lock_attempt {A} b (m : L D A) : moves_lock 0 0 m -> moves_lock 0 b (attempt m).
Proof. intros Hm s. unfold attempt. specialize (Hm s). destruct (m s) as [s' [x|e]]; cbn in *; lia. Qed.
Lemma lock_mfold {A B} (body : B -> A -> L D A) l x :
  (forall b x, moves_lock 0 0 (body b x)) -> moves_lock 0 0 (mfold body l x).
Proof. intros Hb. revert x. induction l as [|y l IH]; intros x; [apply lock_ret|by apply lock_bind]. Qed.
End Lock.

Ltac lock_step :=
  cbv beta zeta;
  lazymatch goal with
  | |- moves_lock _ _ (mbind _ dpu_lock_rank) => apply lock_bind_lock; intros ?
  | |- moves_lock _ _ (mbind _ dpu_unlock_rank) => apply lock_bind_unlock; intros ?
  | |- moves_lock _ _ (mbind _ _) => apply lock_bind; [|intros ?]
  | |- moves_lock _ _ (mret _) => apply lock_ret
  | |- moves_lock _ _ (fail _) => apply lock_fail
  | |- moves_lock _ _ dpu_unlock_rank => apply lock_unlock
  | |- moves_lock _ _ the_rank => apply lock_the_rank
  | |- moves_lock _ _ (on_world (on_rank _)) => apply lock_on_rank
  | |- moves_lock _ _ (on_world _) => apply lock_on_world
  | |- moves_lock _ _ (at_end _ _) => apply lock_at_end
  | |- moves_lock _ _ (or_else _ _) => apply lock_or_else
  | |- moves_lock _ _ (attempt _) => apply lock_attempt
  | |- moves_lock _ _ (mfold _ _ _) => apply lock_mfold; intros ? ?
  | |- moves_lock _ _ (if ?b then _ else _) => destruct b
  | |- moves_lock _ _ (match ?x with _ => _ end) => destruct x
  | |- moves_lock _ _ ((match ?x with _ => _ end) _) => destruct x
  | |- moves_lock _ _ _ => solve [eauto]
  end.
Ltac lock_steps := repeat lock_step.

Section Balanced.
Context {D : Type} `{!RankHandler D}.
Context (custom_operation : dpu_custom_command_t -> Z -> Z -> world D -> world D * dpu_rank_status_e).
Context (prof : profiling_context) (run0 fault0 : list Z).

Lemma lock_call_custom c s d : moves_lock 0 0 (call_custom custom_operation c s d).
Proof.
  intros st. unfold call_custom, mbind, C_bind, on_world. cbn.
  destruct (custom_operation c s d (lw st)) as [w []]; cbn; lia.
Qed.
Lemma lock_poll : moves_lock 0 0 (dpu_poll_rank prof run0 fault0).
Proof. unfold dpu_poll_rank, profile_poll. lock_steps. Qed.
Lemma lock_poll_dpu s d : moves_lock 0 0 (dpu_poll_dpu prof run0 fault0 s d).
Proof. pose proof lock_poll. unfold dpu_poll_dpu. lock_steps. Qed.
Lemma lock_profile_launch s d b : moves_lock 0 0 (profile_launch prof s d b).
Proof. unfold profile_launch, dpu_set_magic_profiling_for_dpu. lock_steps. Qed.
Lemma lock_launch_rank t b : moves_lock 0 0 (dpu_launch_thread_on_rank prof run0 fault0 t b).
Proof.
  pose proof lock_poll. pose proof lock_profile_launch.
  unfold dpu_launch_thread_on_rank, verify_thread_id. lock_steps.
Qed.
Lemma lock_launch_dpu s d t b : moves_lock 0 0 (dpu_launch_thread_on_dpu prof run0 fault0 s d t b).
Proof.
  pose proof lock_poll_dpu. pose proof lock_profile_launch.
  unfold dpu_launch_thread_on_dpu, verify_thread_id. lock_steps.
Qed.

Lemma lock_do_call c : moves_lock 0 0 (do_call custom_operation prof run0 fault0 c).
Proof.
  pose proof lock_poll. pose proof lock_poll_dpu. pose proof lock_launch_rank. pose proof lock_launch_dpu.
  pose proof lock_call_custom.
  destruct c; cbn [do_call]; unfold dpu_boot_rank, dpu_boot_dpu, dpu_custom_for_rank, dpu_custom_for_dpu,
    dpu_status_rank, dpu_status_dpu, polling_thread_rank; lock_steps.
Qed.
End Balanced.

(** ** The run context is consistent *)

Definition sum_up (n : Z) (f : Z -> Z) : Z := for_up n (fun i acc => acc + f i) 0.

Lemma sum_up_ext n f g : (forall i, 0 <= i < n -> f i = g i) -> sum_up n f = sum_up n g.
Proof.
  intros Hfg. destruct (decide (0 <= n)) as [Hn|]; [|unfold sum_up; by rewrite !for_up_0 by lia].
  unfold sum_up. enough (for_up n (fun i acc => acc + f i) 0 = for_up n (fun i acc => acc + g i) 0 /\ n <= n)
    as [? _] by done.
  apply (for_up_ind (fun k acc => acc = for_up k (fun i acc => acc + g i) 0 /\ k <= n)); [lia| |].
  - split; [by rewrite for_up_0|lia].
  - intros i acc Hi [-> _]. split; [|lia]. by rewrite for_up_succ, Hfg by lia.
Qed.
Lemma sum_up_bounds n f k : 0 <= n -> (forall i, 0 <= i < n -> 0 <= f i <= k) -> 0 <= sum_up n f <= k * n.
Proof.
  intros Hn Hf. unfold sum_up. apply for_up_ind; [done|lia|]. intros i acc Hi Hacc.
  specialize (Hf i Hi). lia.
Qed.
Lemma sum_up_succ n f : 0 <= n -> sum_up (n + 1) f = sum_up n f + f n.
Proof. intros Hn. unfold sum_up. by rewrite for_up_succ. Qed.
(** One term of the sum changes. *)
Lemma sum_up_change n f g j : 0 <= j < n -> (forall i, 0 <= i < n -> i <> j -> g i = f i) ->
  sum_up n g = sum_up n f + g j - f j.
Proof.
  intros Hj Hfg.
  assert (forall k, 0 <= k -> k <= n -> sum_up k g = sum_up k f + (if j <? k then g j - f j else 0)) as Hk.
  { intros k Hk0. apply (natlike_ind (fun k => k <= n -> sum_up k g = sum_up k f + (if j <? k then g j - f j else 0)));
      [|clear k Hk0; intros k Hk0 IH Hk|done].
    - intros _. unfold sum_up. rewrite !for_up_0 by lia. by rewrite (proj2 (Z.ltb_ge _ _)) by lia.
    - unfold Z.succ in *. rewrite !sum_up_succ, IH by lia. destruct (decide (k = j)) as [->|].
      + rewrite (proj2 (Z.ltb_ge _ _)), (proj2 (Z.ltb_lt _ _)) by lia. lia.
      + rewrite (Hfg k) by lia. destruct (Z.ltb_spec j k), (Z.ltb_spec j (k + 1)); lia. }
  rewrite Hk by lia. rewrite (proj2 (Z.ltb_lt _ _)) by lia. lia.
Qed.

Definition running_of (r : rank) (s : Z) : Z := (dpu_running (run r)).[s].
Definition in_fault_of (r : rank) (s : Z) : Z := (dpu_in_fault (run r)).[s].
Definition nb_running (r : rank) : Z := sum_up (nr_cis_of r) (fun s => popcount (running_of r s)).

(** The sizes of the rank, and its DPUs as the interfaces see them. *)
Record rank_wf (r : rank) : Prop := {
  rw_cis : 0 < nr_cis_of r <= DPU_MAX_NR_CIS;
  rw_dpus : 0 < nr_dpus_of r <= 8;
  rw_slices : lenz (slice_infos (ci r)) = DPU_MAX_NR_CIS;
  rw_enabled : forall s, 0 <= s < nr_cis_of r -> fits 8 (enabled_dpus (slice_of r s));
  rw_dpu : forall s d, 0 <= s < nr_cis_of r -> 0 <= d < nr_dpus_of r ->
    enabled (dpu_of r s d) = Z.testbit (enabled_dpus (slice_of r s)) d;
}.
(** [nb_dpu_running] counts the DPUs of [dpu_running], which are enabled. *)
Record run_consistent (r : rank) : Prop := {
  rc_running : lenz (dpu_running (run r)) = DPU_MAX_NR_CIS;
  rc_fault : lenz (dpu_in_fault (run r)) = DPU_MAX_NR_CIS;
  rc_nonneg : forall s, 0 <= s < DPU_MAX_NR_CIS -> 0 <= running_of r s;
  rc_sub : forall s, 0 <= s < nr_cis_of r -> running_of r s &&& enabled_dpus (slice_of r s) = running_of r s;
  rc_nb : nb_dpu_running (run r) = nb_running r;
}.

(** What sending commands and moving muxes leave alone. *)
Record run_frame (r r' : rank) : Prop := {
  nf_desc : desc r' = desc r;
  nf_run : run r' = run r;
  nf_dpus : dpus r' = dpus r;
  nf_len : lenz (slice_infos (ci r')) = lenz (slice_infos (ci r));
  nf_enabled : forall s, enabled_dpus (slice_of r' s) = enabled_dpus (slice_of r s);
}.
#[export] Instance run_frame_preorder : PreOrder run_frame.
Proof. split; [by intros r; split|]. intros r1 r2 r3 [] []. split; try (by etrans). intros s. by rewrite nf_enabled1. Qed.
Lemma slice_of_nonpos r s : s <= 0 -> slice_of r s = slice_of r 0.
Proof. intros Hs. unfold slice_of, getz. f_equal. lia. Qed.
#[export] Instance mux_frame_run_frame : subrelation mux_frame run_frame.
Proof.
  intros r r' []. split; try done. intros s. destruct (decide (0 <= s)) as [|]; [by apply mf_enabled|].
  rewrite !(slice_of_nonpos _ s) by lia. by apply mf_enabled.
Qed.

Lemma run_frame_wf r r' : run_frame r r' -> rank_wf r -> rank_wf r'.
Proof.
  intros [Hd Hr Hp Hl He] []. unfold nr_cis_of, nr_dpus_of in *.
  split; unfold nr_cis_of, nr_dpus_of; rewrite ?Hd; try done; [congruence|..].
  - intros s Hs. rewrite He. by apply rw_enabled0.
  - intros s d Hs Hd'. rewrite He, <-rw_dpu0 by done. unfold dpu_of, DPU_INDEX, nr_dpus_of. by rewrite Hd, Hp.
Qed.
Lemma run_frame_consistent r r' : run_frame r r' -> run_consistent r -> run_consistent r'.
Proof.
  intros [Hd Hr Hp Hl He] []. unfold running_of, nb_running, running_of, nr_cis_of in *.
  split; unfold running_of, nb_running, running_of, nr_cis_of; rewrite ?Hd, ?Hr; try done.
  intros s Hs. rewrite He. by apply rc_sub0.
Qed.

Lemma byte_popcount x : fits 8 x -> 0 <= popcount x <= 8.
Proof. unfold fits. change (2 ^ 8) with 256. revert x. by_eval. Qed.
Lemma byte_popcount_set x d : fits 8 x -> 0 <= d < 8 -> x &&& dpu_mask_one d = 0 ->
  popcount (x ||| dpu_mask_one d) = popcount x + 1.
Proof.
  unfold fits. change (2 ^ 8) with 256. intros Hx Hd. revert d Hd. revert x Hx.
  apply (forall_range_spec (fun x => forall d, 0 <= d < 8 -> x &&& dpu_mask_one d = 0 ->
    popcount (x ||| dpu_mask_one d) = popcount x + 1)). vm_compute. reflexivity.
Qed.
Lemma sub_fits x y : fits 8 y -> x &&& y = x -> fits 8 x.
Proof.
  intros Hy Hx. rewrite <-Hx, Z.land_comm. pose proof (fits_nonneg _ _ Hy).
  apply fits_testbit; [done|by apply Z.land_nonneg; left|]. intros i Hi. rewrite Z.land_spec.
  by rewrite (proj1 (fits_testbit 8 y ltac:(done) ltac:(done)) Hy).
Qed.

(** The run context alone changes. *)
Record same_rank (r r' : rank) : Prop := {
  sr_desc : desc r' = desc r;
  sr_ci : ci r' = ci r;
  sr_dpus : dpus r' = dpus r;
}.
#[export] Instance same_rank_preorder : PreOrder same_rank.
Proof. split; [by intros r; split|]. intros r1 r2 r3 [] []. split; congruence. Qed.
Lemma same_rank_set_run c r : same_rank r (set_run c r).
Proof. by split. Qed.
Lemma same_rank_fields r r' : same_rank r r' -> nr_cis_of r' = nr_cis_of r /\ nr_dpus_of r' = nr_dpus_of r /\
  (forall s, slice_of r' s = slice_of r s) /\ (forall s d, dpu_of r' s d = dpu_of r s d).
Proof.
  intros [Hd Hc Hp]. unfold nr_cis_of, nr_dpus_of, slice_of, dpu_of, DPU_INDEX, nr_dpus_of.
  by rewrite Hd, Hc, Hp.
Qed.
Lemma same_rank_wf r r' : same_rank r r' -> rank_wf r -> rank_wf r'.
Proof.
  intros Hs []. destruct (same_rank_fields r r' Hs) as (Hn & Hd & Hsl & Hp).
  split; rewrite ?Hn, ?Hd; try done; [by rewrite (sr_ci _ _ Hs)|..]; intros; rewrite ?Hp, ?Hsl; auto.
Qed.

(** The loops that set the bits of each interface: [g s] for the interfaces
    visited so far. *)
Record visited_upto (r : rank) (g h : Z -> Z) (k : Z) (r' : rank) : Prop := {
  vu_same : same_rank r r';
  vu_running_len : lenz (dpu_running (run r')) = DPU_MAX_NR_CIS;
  vu_fault_len : lenz (dpu_in_fault (run r')) = DPU_MAX_NR_CIS;
  vu_running : forall s, 0 <= s < k -> running_of r' s = g s;
  vu_rest : forall s, k <= s -> 0 <= s -> running_of r' s = running_of r s;
  vu_fault : forall s, 0 <= s < k -> in_fault_of r' s = h s;
}.

Lemma consistent_of_visited r g h r' : rank_wf r ->
  (forall s, 0 <= s < DPU_MAX_NR_CIS -> 0 <= running_of r s) -> visited_upto r g h (nr_cis_of r) r' ->
  (forall s, 0 <= s < nr_cis_of r -> g s &&& enabled_dpus (slice_of r s) = g s) ->
  nb_dpu_running (run r') = sum_up (nr_cis_of r) (fun s => popcount (g s)) ->
  run_consistent r'.
Proof.
  intros Hwf Hpos Hv Hg Hnb. destruct (same_rank_fields r r' (vu_same _ _ _ _ _ Hv)) as (Hn & _ & Hs & _).
  split; [apply Hv|apply Hv| | |].
  - intros s Hs'. destruct (decide (s < nr_cis_of r)).
    + rewrite (vu_running _ _ _ _ _ Hv), <-Hg, Z.land_comm by lia. apply Z.land_nonneg. left. apply (rw_enabled _ Hwf s). lia.
    + rewrite (vu_rest _ _ _ _ _ Hv) by lia. by apply Hpos.
  - intros s Hs'. rewrite Hn in Hs'. rewrite (vu_running _ _ _ _ _ Hv), Hs by done. by apply Hg.
  - rewrite Hnb. unfold nb_running. rewrite Hn. apply sum_up_ext. intros s Hs'. by rewrite (vu_running _ _ _ _ _ Hv).
Qed.

(** At most 64 DPUs run. *)
Lemma popcounts_small n g : 0 <= n <= 8 -> (forall s, 0 <= s < n -> fits 8 (g s)) ->
  0 <= sum_up n (fun s => popcount (g s)) <= 64.
Proof.
  intros Hn Hg. pose proof (sum_up_bounds n (fun s => popcount (g s)) 8 ltac:(lia)
    ltac:(intros s Hs; by apply byte_popcount, Hg)). lia.
Qed.
Lemma u32_small x : 0 <= x <= 72 -> u32 x = x.
Proof. intros Hx. apply u32_id. unfold fits. lia. Qed.
Lemma u8_small x : 0 <= x <= 72 -> u8 x = x.
Proof. intros Hx. apply u8_id. unfold fits. lia. Qed.

Section Update.
Context (r : rank) (Hwf : rank_wf r).
Context (Hrl : lenz (dpu_running (run r)) = DPU_MAX_NR_CIS) (Hfl : lenz (dpu_in_fault (run r)) = DPU_MAX_NR_CIS).
Context (Hpos : forall s, 0 <= s < DPU_MAX_NR_CIS -> 0 <= running_of r s).
Context (running in_fault : list Z).

(** The bits kept of an answer. *)
Definition polled_fault (s : Z) : Z := in_fault.[s] &&& enabled_dpus (slice_of r s).
Definition polled_running (s : Z) : Z := (running.[s] &&& enabled_dpus (slice_of r s)) &&& not8 (polled_fault s).

Lemma polled_sub s : polled_running s &&& enabled_dpus (slice_of r s) = polled_running s.
Proof using. unfold polled_running. rewrite <-!Z.land_assoc. f_equal. rewrite (Z.land_comm (not8 _)), Z.land_assoc. by rewrite Z.land_diag. Qed.

Lemma update_run_context_spec :
  visited_upto r polled_running polled_fault (nr_cis_of r) (update_run_context running in_fault r) /\
  run_consistent (update_run_context running in_fault r).
Proof using Hwf Hrl Hfl Hpos.
  pose proof (rw_cis _ Hwf) as Hn. unfold DPU_MAX_NR_CIS in *.
  assert (forall s, 0 <= s < nr_cis_of r -> fits 8 (polled_running s)) as Hfit.
  { intros s Hs. eapply sub_fits; [by apply (rw_enabled _ Hwf s)|apply polled_sub]. }
  pose (P := fun k (st : rank * Z) => visited_upto r polled_running polled_fault k (fst st) /\
    snd st = sum_up k (fun s => popcount (polled_running s))).
  assert (P (nr_cis_of r) (for_up (nr_cis_of r) (poll_slice running in_fault) (r, 0))) as [Hv Hnb].
  { apply for_up_ind; [lia| |].
    - split; [|done]. split; try done; cbn; lia.
    - intros k [r' nb] Hk [Hv Hnb]. cbn [fst snd] in *.
      destruct (same_rank_fields r r' (vu_same _ _ _ _ _ Hv)) as (_ & _ & Hsl & _).
      pose proof (vu_running_len _ _ _ _ _ Hv) as Hl1. pose proof (vu_fault_len _ _ _ _ _ Hv) as Hl2.
      unfold DPU_MAX_NR_CIS in *. unfold poll_slice.
      cbn [fst snd run dpu_running dpu_in_fault set_run set_dpu_running set_dpu_in_fault nb_dpu_running].
      rewrite Hsl, (getz_setz_eq (dpu_in_fault (run r'))), (getz_setz_eq (dpu_running (run r'))) by lia.
      fold (polled_fault k) (polled_running k). split.
      + split; cbn [fst]; [etrans; [apply Hv|apply same_rank_set_run]|cbn; by rewrite lenz_setz|cbn; by rewrite lenz_setz|..].
        * intros s Hs. unfold running_of. cbn. rewrite getz_setz by lia. case_decide; [by subst|apply Hv; lia].
        * intros s Hs Hs'. unfold running_of. cbn. rewrite getz_setz_ne by lia. apply Hv; lia.
        * intros s Hs. unfold in_fault_of. cbn. rewrite getz_setz by lia. case_decide; [by subst|apply Hv; lia].
      + cbn [snd]. rewrite Hnb, sum_up_succ by lia.
        pose proof (popcounts_small k polled_running ltac:(lia) ltac:(intros; apply Hfit; lia)).
        pose proof (byte_popcount _ (Hfit k ltac:(lia))). apply u32_small. lia. }
  unfold update_run_context. destruct (for_up _ _ _) as [r' nb]. cbn [fst snd] in *.
  pose proof (popcounts_small (nr_cis_of r) polled_running ltac:(lia) Hfit).
  assert (visited_upto r polled_running polled_fault (nr_cis_of r)
    (set_run (set_nb_dpu_running (u8 nb) (run r')) r')) as Hv'.
  { destruct Hv. split; try done. etrans; [done|apply same_rank_set_run]. }
  split; [done|]. eapply consistent_of_visited; [done..|intros; apply polled_sub|].
  cbn. rewrite u8_small; lia.
Qed.

Lemma set_all_running_spec :
  visited_upto r (fun s => enabled_dpus (slice_of r s)) (in_fault_of r) (nr_cis_of r) (set_all_running r) /\
  run_consistent (set_all_running r).
Proof using Hwf Hrl Hfl Hpos.
  pose proof (rw_cis _ Hwf) as Hn. unfold DPU_MAX_NR_CIS in *.
  set (g := fun s => enabled_dpus (slice_of r s)).
  pose (P := fun k (st : rank * Z) => visited_upto r g (in_fault_of r) k (fst st) /\
    dpu_in_fault (run (fst st)) = dpu_in_fault (run r) /\ snd st = sum_up k (fun s => popcount (g s))).
  assert (P (nr_cis_of r) (for_up (nr_cis_of r) launch_slice (r, 0))) as (Hv & _ & Hnb).
  { apply for_up_ind; [lia| |].
    - split_and!; [|done..]. split; try done; cbn; lia.
    - intros k [r' nb] Hk (Hv & Hf & Hnb). cbn [fst snd] in *.
      destruct (same_rank_fields r r' (vu_same _ _ _ _ _ Hv)) as (_ & _ & Hsl & _).
      pose proof (vu_running_len _ _ _ _ _ Hv) as Hl1. unfold DPU_MAX_NR_CIS in *. unfold launch_slice.
      rewrite Hsl. fold (g k). split_and!; [|done|].
      + split; cbn [fst]; [etrans; [apply Hv|apply same_rank_set_run]|cbn; by rewrite lenz_setz|apply Hv|..].
        * intros s Hs. unfold running_of. cbn. rewrite getz_setz by lia. case_decide; [by subst|apply Hv; lia].
        * intros s Hs Hs'. unfold running_of. cbn. rewrite getz_setz_ne by lia. apply Hv; lia.
        * intros s Hs. unfold in_fault_of. cbn. by rewrite Hf.
      + cbn [snd]. rewrite Hnb, sum_up_succ by lia.
        pose proof (popcounts_small k g ltac:(lia) ltac:(intros; apply (rw_enabled _ Hwf); lia)).
        pose proof (byte_popcount _ (rw_enabled _ Hwf k ltac:(lia))). apply u32_small. unfold g in *. lia. }
  unfold set_all_running. destruct (for_up _ _ _) as [r' nb]. cbn [fst snd] in *.
  pose proof (popcounts_small (nr_cis_of r) g ltac:(lia) (rw_enabled _ Hwf)).
  assert (visited_upto r g (in_fault_of r) (nr_cis_of r) (set_run (set_nb_dpu_running (u8 nb) (run r')) r')) as Hv'.
  { destruct Hv. split; try done. etrans; [done|apply same_rank_set_run]. }
  split; [done|]. eapply consistent_of_visited; [done..|intros; apply Z.land_diag|].
  cbn. rewrite u8_small; lia.
Qed.
End Update.

Lemma set_one_running_consistent r s d : rank_wf r -> run_consistent r -> 0 <= s < nr_cis_of r ->
  0 <= d < nr_dpus_of r -> enabled (dpu_of r s d) = true -> running_of r s &&& dpu_mask_one d = 0 ->
  run_consistent (set_one_running s (dpu_mask_one d) r).
Proof.
  intros Hwf [Hrl Hfl Hpos Hsub Hnb] Hs Hd He Hnot. pose proof (rw_cis _ Hwf). pose proof (rw_dpus _ Hwf).
  unfold DPU_MAX_NR_CIS in *. set (r' := set_one_running _ _ _).
  assert (forall i, 0 <= i < nr_cis_of r -> running_of r' i =
    if decide (i = s) then running_of r s ||| dpu_mask_one d else running_of r i) as Hr'.
  { intros i Hi. unfold r', running_of. cbn. rewrite getz_setz by lia. repeat case_decide; congruence. }
  assert (sum_up (nr_cis_of r) (fun i => popcount (running_of r' i)) = nb_running r + 1) as Hsum.
  { unfold nb_running. rewrite (sum_up_change _ (fun i => popcount (running_of r i)) _ s) by
      (done || intros i Hi Hne; by rewrite Hr', decide_False by done).
    rewrite Hr', decide_True by done.
    rewrite byte_popcount_set; [lia|eapply sub_fits; [by apply (rw_enabled _ Hwf s)|by apply Hsub]|lia|done]. }
  assert (0 <= nb_running r <= 64) as Hb.
  { apply popcounts_small; [lia|]. intros i Hi. eapply sub_fits; [by apply (rw_enabled _ Hwf i)|by apply Hsub]. }
  split; [cbn; by rewrite lenz_setz|done| | |].
  - intros i Hi. unfold r', running_of. cbn. rewrite getz_setz by lia. case_decide; [|by apply Hpos].
    apply Z.lor_nonneg. split; [apply Hpos; lia|apply u8_fits].
  - intros i Hi. change (nr_cis_of r') with (nr_cis_of r) in Hi. change (slice_of r' i) with (slice_of r i).
    rewrite Hr' by done. case_decide; [subst i|by apply Hsub]. rewrite Z.land_lor_distr_l, Hsub by done. f_equal.
    rewrite (rw_dpu _ Hwf) in He by done. apply Z.bits_inj'. intros j Hj.
    rewrite Z.land_spec. unfold dpu_mask_one, u8. rewrite testbit_mod_pow2, testbit_pow2 by lia.
    case_bool_decide; [subst j; by rewrite He, andb_true_r|by rewrite andb_false_r].
  - change (nb_running r') with (sum_up (nr_cis_of r) (fun i => popcount (running_of r' i))).
    rewrite Hsum. cbn. rewrite Hnb. apply u8_small. lia.
Qed.

(** ** The operations on the rank *)

Lemma frame_of_keeps {D A} `{!RankHandler D} (m : W D A) : keeps m -> preserves run_frame m.
Proof. apply preserves_weaken. apply mux_frame_run_frame. Qed.
#[export] Hint Resolve frame_of_keeps : keeps.

Lemma run_frame_upd_slice k f r : (forall info, enabled_dpus (f info) = enabled_dpus info) ->
  run_frame r (upd_slice k f r).
Proof.
  intros Hf. split; try done; [apply lenz_upd_slice|]. intros s. by apply slice_of_upd_any.
Qed.

Section Frames.
Context {D : Type} `{!RankHandler D}.

Lemma switch_line_frame dpu mask : preserves run_frame (dpu_switch_mux_for_dpu_line (D := D) dpu mask).
Proof.
  unfold dpu_switch_mux_for_dpu_line. keeps_steps; try apply frame_of_keeps, keeps_host_for_dpu.
  apply preserves_on_rank. intros r. unfold record_line.
  apply (for_up_inv (fun r' => run_frame r r')); [done|].
  intros i r' Hr. unfold dpu_set_host_mux_mram_state. cbv zeta.
  repeat case_bool; repeat (etrans; [|by apply run_frame_upd_slice]); done.
Qed.
Lemma switch_rank_frame b : preserves run_frame (dpu_switch_mux_for_rank (D := D) b).
Proof.
  unfold dpu_switch_mux_for_rank. keeps_steps; [|apply frame_of_keeps, keeps_host_for_rank].
  apply preserves_on_rank. intros r. apply (for_up_inv (fun r' => run_frame r r')); [done|].
  intros i r' Hr. etrans; [exact Hr|by apply run_frame_upd_slice].
Qed.

Lemma keeps_thread_resume mask t p : keeps (ufi_thread_resume (D := D) mask t p).
Proof. keeps_unfold @ufi_thread_resume. Qed.
Lemma keeps_read_dpu_fault mask f : keeps (ufi_read_dpu_fault (D := D) mask f).
Proof. keeps_unfold @ufi_read_dpu_fault. Qed.
Lemma keeps_wram_read mask dst o len : keeps (ufi_wram_read (D := D) mask dst o len).
Proof. unfold ufi_wram_read, UFI_exec_32bit_frame, with_cmds. keeps_steps. Qed.
Lemma keeps_wram_write mask src o len : keeps (ufi_wram_write (D := D) mask src o len).
Proof. keeps_unfold @ufi_wram_write. Qed.
Lemma keeps_pc_read mask pcs : keeps (ufi_debug_pc_read (D := D) mask pcs).
Proof. keeps_unfold @ufi_debug_pc_read. Qed.
Lemma keeps_pc_sample mask : keeps (ufi_debug_pc_sample (D := D) mask).
Proof. keeps_unfold @ufi_debug_pc_sample. Qed.
End Frames.
#[export] Hint Resolve switch_line_frame switch_rank_frame keeps_thread_resume keeps_read_dpu_fault keeps_wram_read
  keeps_wram_write keeps_pc_read keeps_pc_sample : keeps.

Section FramesRank.
Context {D : Type} `{!RankHandler D}.

Lemma keeps_start_or_resume mask t b p : keeps (start_or_resume (D := D) mask t b p).
Proof. unfold start_or_resume. keeps_steps. Qed.
Lemma keeps_poll_rank run fault : keeps (ci_poll_rank (D := D) run fault).
Proof. unfold ci_poll_rank. keeps_steps. Qed.
Lemma keeps_copy_from_wrams d dst o n : keeps (ci_copy_from_wrams_dpu (D := D) d dst o n).
Proof. unfold ci_copy_from_wrams_dpu. keeps_steps. Qed.
Lemma keeps_copy_to_wram d o src n : keeps (dpu_copy_to_wram_for_dpu (D := D) d o src n).
Proof.
  unfold dpu_copy_to_wram_for_dpu, when_enabled, verified, ci_copy_to_wrams_dpu.
  keeps_steps.
Qed.
Lemma keeps_sample_pc d : keeps (ci_sample_pc_dpu (D := D) d).
Proof. unfold ci_sample_pc_dpu. keeps_steps. Qed.
End FramesRank.
#[export] Hint Resolve keeps_start_or_resume keeps_poll_rank keeps_copy_from_wrams
  keeps_copy_to_wram keeps_sample_pc : keeps.

Section FramesStart.
Context {D : Type} `{!RankHandler D}.
Lemma start_rank_frame t b p : preserves run_frame (ci_start_thread_rank (D := D) t b p).
Proof. unfold ci_start_thread_rank. keeps_steps. Qed.
Lemma start_dpu_frame d t b p : preserves run_frame (ci_start_thread_dpu (D := D) d t b p).
Proof. unfold ci_start_thread_dpu. keeps_steps. Qed.
End FramesStart.

(** ** Every call keeps the run context consistent

    [related R m]: whatever the outcome of [m], the ranks before and after it
    are related by [R]. *)

Definition rank_at {D} (s : locked D) : rank := rk (lw s).
Definition related {D A} (R : rank -> rank -> Prop) (m : L D A) : Prop := forall s,
  R (rank_at s) (rank_at (fst (m s))).

Section Related.
Context {D : Type} `{!RankHandler D} (R : rank -> rank -> Prop) `{!PreOrder R}.

Lemma related_ret {A} (x : A) : related (D := D) R (mret x).
Proof. by intros s. Qed.
Lemma related_fail {A} e : related (D := D) R (fail (A := A) e).
Proof. by intros s. Qed.
Lemma related_lock : related (D := D) R dpu_lock_rank.
Proof. intros s. reflexivity. Qed.
Lemma related_unlock : related (D := D) R dpu_unlock_rank.
Proof. intros s. reflexivity. Qed.
Lemma related_the_rank : related (D := D) R the_rank.
Proof. intros s. reflexivity. Qed.
Lemma related_bind {A B} (m : L D A) (k : A -> L D B) :
  related R m -> (forall x, related R (k x)) -> related R (x ← m; k x).
Proof.
  intros Hm Hk s. unfold mbind, C_bind. specialize (Hm s).
  destruct (m s) as [s' [x|e]]; [|done]. etrans; [exact Hm|apply Hk].
Qed.
Lemma related_at_end {A} (m : L D A) : related R m -> related R (at_end dpu_unlock_rank m).
Proof. intros Hm s. unfold at_end. specialize (Hm s). by destruct (m s). Qed.
Lemma related_or_else {A} (m : L D A) : related R m -> related R (or_else m dpu_unlock_rank).
Proof. intros Hm s. unfold or_else. specialize (Hm s). by destruct (m s) as [s' [x|e]]. Qed.
Lemma related_attempt {A} (m : L D A) : related R m -> related R (attempt m).
Proof. intros Hm s. unfold attempt. specialize (Hm s). by destruct (m s). Qed.
Lemma related_mfold {A B} (body : B -> A -> L D A) l x :
  (forall b x, related R (body b x)) -> related R (mfold body l x).
Proof. intros Hb. revert x. induction l as [|y l IH]; intros x; [apply related_ret|by apply related_bind]. Qed.
Lemma related_on_world {A} (R' : rank -> rank -> Prop) (m : W D A) :
  subrelation R' R -> preserves R' m -> related R (on_world m).
Proof.
  intros HR Hm s. unfold on_world. destruct (Hm (lw s)) as [Hf _]. destruct (m (lw s)) as [w r].
  by apply HR.
Qed.
Lemma related_on_rank f : (forall r, R r (f r)) -> related (D := D) R (on_world (on_rank f)).
Proof. intros Hf s. apply Hf. Qed.
End Related.

(** Walks through a call; [R'] is the relation known of the operations on the
    interfaces. *)
Create HintDb related discriminated.
Ltac related_step R' :=
  cbv beta zeta;
  lazymatch goal with
  | |- related _ (mbind _ _) => apply related_bind; [exact _| |intros ?]
  | |- related _ (mret _) => apply related_ret; exact _
  | |- related _ (fail _) => apply related_fail; exact _
  | |- related _ dpu_lock_rank => apply related_lock; exact _
  | |- related _ dpu_unlock_rank => apply related_unlock; exact _
  | |- related _ the_rank => apply related_the_rank; exact _
  | |- related _ (on_world (on_rank _)) => apply related_on_rank; solve [eauto with related]
  | |- related _ (on_world _) => apply (related_on_world _ R'); [exact _|]
  | |- related _ (at_end _ _) => apply related_at_end
  | |- related _ (or_else _ _) => apply related_or_else
  | |- related _ (attempt _) => apply related_attempt
  | |- related _ (mfold _ _ _) => apply related_mfold; [exact _|intros ? ?]
  | |- related _ (if ?b then _ else _) => destruct b
  | |- related _ (match ?x with _ => _ end) => destruct x
  | |- related _ ((match ?x with _ => _ end) _) => destruct x
  | |- preserves _ _ => solve [eauto with keeps]
  | |- related _ _ => solve [eauto]
  end.

Definition rank_ok (r : rank) : Prop := rank_wf r /\ run_consistent r.
(** What never changes. *)
Definition statics (r : rank) : description * list dpu_t := (desc r, dpus r).
(** The rank stays well-formed and its run context consistent. *)
Definition ok_rel (r r' : rank) : Prop := rank_ok r -> rank_ok r' /\ statics r' = statics r.
Notation sound := (related ok_rel).
Ltac sound_steps := repeat related_step run_frame.

#[export] Instance ok_rel_preorder : PreOrder ok_rel.
Proof.
  split; [by intros r Hr|]. intros r1 r2 r3 H12 H23 H1. destruct (H12 H1) as [H2 E2].
  destruct (H23 H2) as [H3 E3]. split; [done|congruence].
Qed.
Lemma frame_statics r r' : run_frame r r' -> statics r' = statics r.
Proof. intros []. unfold statics. congruence. Qed.
Lemma same_rank_statics r r' : same_rank r r' -> statics r' = statics r.
Proof. intros []. unfold statics. congruence. Qed.
Lemma rank_ok_frame r r' : run_frame r r' -> rank_ok r -> rank_ok r'.
Proof. intros Hf [Hw Hc]. split; [by eapply run_frame_wf|by eapply run_frame_consistent]. Qed.
#[export] Instance run_frame_ok_rel : subrelation run_frame ok_rel.
Proof. intros r r' Hf Hr. split; [by eapply rank_ok_frame|by apply frame_statics]. Qed.

Lemma ok_rel_update running in_fault r : ok_rel r (update_run_context running in_fault r).
Proof.
  intros [Hw Hc]. destruct (update_run_context_spec r Hw (rc_running _ Hc) (rc_fault _ Hc) (rc_nonneg _ Hc) running in_fault)
    as [Hv Hc']. pose proof (vu_same _ _ _ _ _ Hv) as Hs. split; [split; [by eapply same_rank_wf|done]|by apply same_rank_statics].
Qed.
Lemma ok_rel_all_running r : ok_rel r (set_all_running r).
Proof.
  intros [Hw Hc]. destruct (set_all_running_spec r Hw (rc_running _ Hc) (rc_fault _ Hc) (rc_nonneg _ Hc))
    as [Hv Hc']. pose proof (vu_same _ _ _ _ _ Hv) as Hs. split; [split; [by eapply same_rank_wf|done]|by apply same_rank_statics].
Qed.
Lemma ok_rel_poll_status st r : ok_rel r (set_run (set_poll_status st (run r)) r).
Proof.
  intros [Hw [Hrl Hfl Hpos Hsub Hnb]]. split; [split; [by eapply same_rank_wf; [apply same_rank_set_run|]|by split]|done].
Qed.
#[export] Hint Resolve ok_rel_update ok_rel_all_running ok_rel_poll_status : related.
#[export] Hint Resolve start_rank_frame start_dpu_frame : keeps.

Section SoundCalls.
Context {D : Type} `{!RankHandler D}.
Context (custom_operation : dpu_custom_command_t -> Z -> Z -> world D -> world D * dpu_rank_status_e).
Context (prof : profiling_context) (run0 fault0 : list Z).
Context (Hcustom : forall c s d w, run_frame (rk w) (rk (fst (custom_operation c s d w)))).

Lemma sound_custom c i d : sound (call_custom custom_operation c i d).
Proof using Hcustom.
  intros s. unfold call_custom, mbind, C_bind, on_world. cbn.
  pose proof (Hcustom c i d (lw s)) as Hf. destruct (custom_operation c i d (lw s)) as [w st]. cbn in *.
  apply run_frame_ok_rel in Hf. by destruct st.
Qed.
Lemma sound_poll : sound (dpu_poll_rank prof run0 fault0).
Proof using. unfold dpu_poll_rank, profile_poll. sound_steps. Qed.
Lemma sound_poll_dpu i d : sound (dpu_poll_dpu prof run0 fault0 i d).
Proof using. pose proof sound_poll. unfold dpu_poll_dpu. sound_steps. Qed.
Lemma sound_profile_launch i d b : sound (profile_launch prof i d b).
Proof using. unfold profile_launch, dpu_set_magic_profiling_for_dpu. sound_steps. Qed.
Lemma sound_launch_rank t b : sound (dpu_launch_thread_on_rank prof run0 fault0 t b).
Proof using.
  pose proof sound_poll. pose proof sound_profile_launch.
  unfold dpu_launch_thread_on_rank, verify_thread_id. sound_steps.
Qed.

(** The outputs of a poll are the bits it recorded. *)
Lemma poll_dpu_output i d s s' b f : dpu_poll_dpu prof run0 fault0 i d s = (s', Ok (b, f)) ->
  enabled (dpu_of (rank_at s) i d) = true /\
  b = negb (running_of (rank_at s') i &&& dpu_mask_one d =? 0).
Proof using.
  unfold dpu_poll_dpu, mbind, C_bind, at_end. cbn. destruct (enabled _) eqn:He; cbn; [|by intros [=]].
  destruct (dpu_poll_rank _ _ _ _) as [s1 [x|e]] eqn:H1; cbn; [|by intros [=]]. intros [= <- <- _]. done.
Qed.

(** The profiler's writes and the start of a thread leave the run context alone. *)
Lemma profile_launch_frame i d b s :
  run_frame (rank_at s) (rank_at (fst (profile_launch prof i d b s))).
Proof using.
  unfold profile_launch. destruct b; [reflexivity|]. destruct (enable_profiling prof); try reflexivity.
  unfold dpu_set_magic_profiling_for_dpu, mbind, C_bind. cbn. case_bool; [reflexivity|].
  destruct (enable_profiling prof); try reflexivity. unfold on_world.
  set (m := dpu_copy_to_wram_for_dpu _ _ _ _).
  assert (preserves run_frame m) as Hm by (apply frame_of_keeps, keeps_copy_to_wram).
  destruct (Hm (lw s)) as [Hf _]. cbn [lw lock_depth]. by destruct (m (lw s)).
Qed.

Lemma the_rank_eq (s : locked D) : the_rank s = (s, Ok (rank_at s)).
Proof using. by destruct s. Qed.
Lemma verify_eq t (s : locked D) : verify_thread_id t s =
  (s, if nr_of_threads (desc (rank_at s)) <=? t then Err DPU_ERR_INVALID_THREAD_ID else Ok tt).
Proof using. unfold verify_thread_id, mbind, C_bind. rewrite the_rank_eq. by case_bool. Qed.

Definition sound_at (s s' : locked D) : Prop :=
  rank_ok (rank_at s') /\ statics (rank_at s') = statics (rank_at s).

Lemma sound_launch_dpu i d t b s : rank_ok (rank_at s) ->
  0 <= i < nr_cis_of (rank_at s) -> 0 <= d < nr_dpus_of (rank_at s) ->
  sound_at s (fst (dpu_launch_thread_on_dpu prof run0 fault0 i d t b s)).
Proof using.
  intros Hs Hi Hd. unfold dpu_launch_thread_on_dpu. unfold mbind at 1, C_bind at 1. rewrite the_rank_eq.
  destruct (enabled _) eqn:He; [cbn [negb]|by split]. unfold mbind at 1, C_bind at 1. rewrite verify_eq.
  destruct (nr_of_threads _ <=? t); [by split|]. unfold mbind at 1, C_bind at 1, at_end. cbn [dpu_lock_rank modify].
  set (s1 := mk_locked (lw s) (lock_depth s + 1)). unfold mbind at 1, C_bind at 1.
  destruct (sound_poll_dpu i d s1 Hs) as [H2 Hd2].
  destruct (dpu_poll_dpu prof run0 fault0 i d s1) as [s2 [[running f]|e]] eqn:Hp; [|done].
  destruct (poll_dpu_output _ _ _ _ _ _ Hp) as [_ Hrun].
  set (m3 := if is_profiled prof i d then profile_launch prof i d b else mret tt).
  assert (run_frame (rank_at s2) (rank_at (fst (m3 s2)))) as Hf3
    by (unfold m3; destruct (is_profiled prof i d); [apply profile_launch_frame|reflexivity]).
  pose proof (rank_ok_frame _ _ Hf3 H2) as H3. unfold mbind at 1, C_bind at 1.
  cbn [fst] in Hd2. change (statics (rank_at s1)) with (statics (rank_at s)) in Hd2.
  destruct (m3 s2) as [s3 [[]|e]]; cbn [fst] in *; [|split; [done|]; by rewrite <-Hd2, <-(frame_statics _ _ Hf3)].
  unfold mbind at 1, C_bind at 1. rewrite the_rank_eq.
  unfold mbind at 1, C_bind at 1, on_world at 1.
  destruct (start_dpu_frame (D := D) (dpu_of (rank_at s3) i d) t b None (lw s3)) as [Hf4 _].
  change (rk (lw s3)) with (rank_at s3) in Hf4.
  destruct (ci_start_thread_dpu (dpu_of (rank_at s3) i d) t b None (lw s3)) as [w4 [x|e]]; cbn [fst] in *.
  2: { split; [by eapply rank_ok_frame|]. by rewrite <-Hd2, <-(frame_statics _ _ Hf3), <-(frame_statics _ _ Hf4). }
  pose proof (rank_ok_frame _ _ Hf4 H3) as [Hw4 Hc4].
  assert (run_frame (rank_at s2) (rk w4)) as Hf by (etrans; [exact Hf3|exact Hf4]).
  assert (statics (rk w4) = statics (rank_at s)) as Hd4 by (by rewrite <-Hd2, <-(frame_statics _ _ Hf)).
  injection Hd4 as Hd4 Hp4.
  assert (statics (rk w4) = statics (rank_at s)) as Hst by (unfold statics; congruence).
  destruct running; [by split|]. split; [|exact Hst]. split; [eapply same_rank_wf; [apply same_rank_set_run|done]|].
  assert (0 <= i < nr_cis_of (rk w4) /\ 0 <= d < nr_dpus_of (rk w4)) as [Hi4 Hd4'].
  { unfold nr_cis_of, nr_dpus_of in *. by rewrite Hd4. }
  apply set_one_running_consistent; [done..| |].
  - change (enabled (dpu_of (rk w4) i d) = true). rewrite <-He. unfold dpu_of, DPU_INDEX, nr_dpus_of.
    by rewrite Hd4, Hp4.
  - change (running_of (rk w4) i &&& dpu_mask_one d = 0). unfold running_of. rewrite (nf_run _ _ Hf).
    fold (running_of (rank_at s2) i). symmetry in Hrun. by zb2p.
Qed.

(** The same for the calls on one DPU of the rank. *)
Definition in_rank (r : rank) (i d : Z) : Prop := 0 <= i < nr_cis_of r /\ 0 <= d < nr_dpus_of r.
Definition sound_in {A} (i d : Z) (m : L D A) : Prop := forall s,
  rank_ok (rank_at s) -> in_rank (rank_at s) i d -> sound_at s (fst (m s)).

Lemma in_rank_statics r r' i d : statics r' = statics r -> in_rank r i d -> in_rank r' i d.
Proof using. intros [= Hd _]. unfold in_rank, nr_cis_of, nr_dpus_of. by rewrite Hd. Qed.
Lemma sound_in_of {A} i d (m : L D A) : sound m -> sound_in i d m.
Proof using. intros Hm s Hs _. exact (Hm s Hs). Qed.
Lemma sound_in_bind {A B} i d (m : L D A) (k : A -> L D B) :
  sound_in i d m -> (forall x, sound_in i d (k x)) -> sound_in i d (x ← m; k x).
Proof using.
  intros Hm Hk s Hs Hr. unfold mbind, C_bind. destruct (Hm s Hs Hr) as [Hs' Hd].
  destruct (m s) as [s' [x|e]]; [|done]. cbn in *.
  destruct (Hk x s' Hs' (in_rank_statics _ _ _ _ Hd Hr)) as [Hs2 Hd2]. split; [done|congruence].
Qed.
Lemma sound_in_or_else {A} i d (m : L D A) : sound_in i d m -> sound_in i d (or_else m dpu_unlock_rank).
Proof using.
  intros Hm s Hs Hr. unfold or_else. specialize (Hm s Hs Hr). by destruct (m s) as [s' [x|e]].
Qed.

Lemma sound_boot_dpu i d : sound_in i d (dpu_boot_dpu custom_operation prof run0 fault0 i d).
Proof using Hcustom.
  pose proof sound_custom. assert (sound_in i d (dpu_launch_thread_on_dpu prof run0 fault0 i d DPU_BOOT_THREAD false))
    as Hl by (intros s Hs [Hi Hd]; by apply sound_launch_dpu).
  unfold dpu_boot_dpu. apply sound_in_bind; [apply sound_in_of; sound_steps|intros r].
  case_bool; [apply sound_in_of; sound_steps|]. apply sound_in_bind; [apply sound_in_of; sound_steps|intros _].
  apply sound_in_bind; [apply sound_in_of; sound_steps|intros r'].
  case_bool; [apply sound_in_of; sound_steps|].
  apply sound_in_bind; [apply sound_in_of; unfold dpu_custom_for_dpu; sound_steps|intros _].
  apply sound_in_bind; [by apply sound_in_or_else|intros _]. apply sound_in_of; sound_steps.
Qed.
Lemma sound_boot_rank : sound (dpu_boot_rank custom_operation prof run0 fault0).
Proof using Hcustom.
  pose proof sound_custom. pose proof sound_launch_rank. unfold dpu_boot_rank, dpu_custom_for_rank. sound_steps.
Qed.
Lemma sound_polling nb b : sound (polling_thread_rank prof run0 fault0 nb b).
Proof using. pose proof sound_poll. unfold polling_thread_rank. sound_steps. Qed.

(** The DPU of a call is one of the rank. *)
Definition valid_call (r : rank) (c : runner_call) : Prop :=
  match c with
  | CallLaunchDpu i d _ _ | CallBootDpu i d => in_rank r i d
  | _ => True
  end.

Lemma sound_do_call c s : rank_ok (rank_at s) -> valid_call (rank_at s) c ->
  sound_at s (fst (do_call custom_operation prof run0 fault0 c s)).
Proof using Hcustom.
  pose proof sound_poll. pose proof sound_poll_dpu. pose proof sound_launch_rank. pose proof sound_boot_rank.
  pose proof sound_polling. intros Hs Hv. destruct c; cbn [do_call valid_call] in *.
  4: { destruct Hv. by apply sound_launch_dpu. }
  5: { by apply sound_boot_dpu. }
  all: match goal with |- sound_at ?s (fst (?m ?s)) => enough (sound m) as Hm by exact (Hm _ Hs) end.
  all: unfold dpu_status_rank, dpu_status_dpu; sound_steps.
Qed.
End SoundCalls.

(** ** The banks of the DPUs that are launched *)

Section Banks.
Context {D : Type} `{!RankHandler D}.

(** [ufi_select_all] only drops interfaces without enabled DPUs. *)
Lemma select_all_mask mask (w w' : world D) out i :
  ufi_select_all mask w = (w', Ok out) -> 0 <= i < 8 -> CI_MASK_ON mask i = true ->
  enabled_dpus (slice_of (rk w) i) <> 0 -> CI_MASK_ON out i = true.
Proof.
  intros Hrun Hi Hm He. pose (P := fun s : selection => CI_MASK_ON (sel_mask s) i = true /\
    enabled_dpus (slice_of (sel_rank s) i) = enabled_dpus (slice_of (rk w) i)).
  assert (P (sel_loop (nr_cis_of (rk w)) select_all_step mask (rk w))) as [HP _].
  { unfold sel_loop. apply for_each_ci_ind; [done|]. intros j s Hj [H1 H2]. unfold select_all_step.
    assert (forall f, (forall info, enabled_dpus (f info) = enabled_dpus info) ->
      P (sel_target j f s)) as Ht.
    { intros f Hf. split; [done|]. cbn. by rewrite slice_of_upd_any. }
    assert (forall f a b, (forall info, enabled_dpus (f info) = enabled_dpus info) ->
      P (sel_target j f (sel_words j a b s))) as Htw.
    { intros f a b Hf. split; [done|]. cbn. rewrite slice_of_upd_any by done. exact H2. }
    repeat case_bool; try (by split); try (by apply Htw).
    split; [|exact H2]. cbn [sel_drop sel_mask]. assert (i <> j) as Hij.
    { intros <-. zb2p. unfold sel_info in *. congruence. }
    rewrite CI_MASK_ON_testbit in * by lia. unfold clear_ci, CI_MASK_ONE.
    by rewrite Z.land_spec, not8_testbit, testbit_pow2, bool_decide_false, andb_true_r by (lia || congruence). }
  revert Hrun. unfold ufi_select_all, commit_selection_frames.
  unfold mbind at 1, C_bind at 1, get_rank, gets, on_rank, modify. cbv beta iota.
  generalize dependent (sel_loop (nr_cis_of (rk w)) select_all_step mask (rk w)). intros sel HP.
  unfold mbind at 1, C_bind at 1. cbv beta iota. unfold mbind at 1, C_bind at 1.
  set (m := if sel_do sel then _ else _). destruct (m _) as [w1 [[]|e]]; [|intros [=]].
  intros [= _ <-]. exact HP.
Qed.

Lemma switch_whole (w w' : world D) i d : mux_wf (rk w) -> mux_states_ok (rk w) ->
  0 <= i < nr_cis_of (rk w) -> 0 <= d < nr_dpus_of (rk w) ->
  dpu_switch_mux_for_rank false w = (w', Ok tt) -> mux_bit (rk w') i d = false.
Proof.
  intros Hwf Hst Hi Hd Hrun. pose proof (switch_rank_positions false w w' _ Hwf Hst Hrun) as H.
  destruct (0 <? nb_dpu_running (run (rk w))); [by destruct H|].
  unfold mux_bit. rewrite H by done. apply Z.testbit_0_l.
Qed.

(** The loop over the lines. *)
Lemma switch_lines mask (w w' : world D) i d : mux_wf (rk w) ->
  mfor (nr_dpus_of (rk w)) (fun each_dpu _ =>
    r ← get_rank; dpu_switch_mux_for_dpu_line each_dpu (kept_mux_mask r mask each_dpu)) tt w = (w', Ok tt) ->
  0 <= i < nr_cis_of (rk w) -> 0 <= d < nr_dpus_of (rk w) -> CI_MASK_ON mask i = true ->
  mux_bit (rk w') i d = false.
Proof.
  intros Hwf Hrun Hi Hd Hon. pose proof (mw_dpus _ Hwf) as Hnd.
  pose (I := fun k (_ : unit) (w' : world D) => mux_moves (rk w) (rk w') /\
    forall d, 0 <= d < k -> mux_bit (rk w') i d = false).
  enough (wp (mfor (nr_dpus_of (rk w)) (fun each_dpu _ =>
    r ← get_rank; dpu_switch_mux_for_dpu_line each_dpu (kept_mux_mask r mask each_dpu)) tt)
    (fun r s' => match r with Ok a => I (nr_dpus_of (rk w)) a s' | Err _ => True end) w) as Hwp.
  { unfold wp in Hwp. rewrite Hrun in Hwp. destruct Hwp as [_ Hbits]. by apply Hbits. }
  apply (wp_mfor I (fun _ _ => True)); [lia|split; [reflexivity|intros ? ?; lia]|].
  intros k [] w1 Hk [Hm Hbits]. unfold wp, mbind, C_bind, get_rank, gets. cbv beta iota.
  pose proof (mux_moves_wf _ _ Hm Hwf) as Hwf1.
  assert (nr_cis_of (rk w1) = nr_cis_of (rk w) /\ nr_dpus_of (rk w1) = nr_dpus_of (rk w)) as [Hc1 Hd1].
  { unfold nr_cis_of, nr_dpus_of. by rewrite (mv_desc _ _ Hm). }
  set (kept := kept_mux_mask (rk w1) mask k).
  destruct (switch_line_moves k kept w1) as [Hm2 _].
  destruct (dpu_switch_mux_for_dpu_line k kept w1) as [w2 [[]|e]] eqn:Hsw; [|done]. cbn [fst snd] in *.
  split; [by etrans|]. intros d' Hd'.
  destruct (switch_line_positions k kept w1 w2 _ Hwf1 ltac:(lia) Hsw) as [[? _]|Hpos]; [done|].
  rewrite Hpos by lia. destruct (pair_base k ltac:(lia)) as (_ & _ & Hb). fold (base_line k) in Hb.
  destruct ((d' =? base_line k) || (d' =? base_line k + 1)) eqn:Hpair.
  - unfold kept. rewrite kept_mux_mask_testbit by (done || lia). by rewrite Hon.
  - apply Hbits. zb2p. lia.
Qed.

(** After a successful start, every enabled DPU has its bank. *)
Lemma start_rank_banks t b (w w' : world D) out i d : mux_wf (rk w) -> mux_states_ok (rk w) ->
  ci_start_thread_rank t b None w = (w', Ok out) -> 0 <= i < nr_cis_of (rk w) -> 0 <= d < nr_dpus_of (rk w) ->
  Z.testbit (enabled_dpus (slice_of (rk w) i)) d = true -> mux_bit (rk w') i d = false.
Proof.
  intros Hwf Hst Hrun Hi Hd He. revert Hrun. unfold ci_start_thread_rank. unfold mbind at 1, C_bind at 1.
  pose proof (mw_cis _ Hwf) as Hn. unfold DPU_MAX_NR_CIS in Hn.
  assert (enabled_dpus (slice_of (rk w) i) <> 0) as Hne by (intros E; by rewrite E, Z.testbit_0_l in He).
  destruct (ufi_select_all ALL_CIS w) as [w1 [mask|e]] eqn:Hsel; [|done].
  pose proof (select_all_mask _ _ _ _ i Hsel ltac:(lia)) as Hmask.
  destruct (keeps_select_all (D := D) ALL_CIS w) as [Hf1 _]. rewrite Hsel in Hf1. cbn [fst] in Hf1.
  assert (CI_MASK_ON mask i = true) as Hon.
  { apply Hmask; [|done]. rewrite CI_MASK_ON_testbit by lia. change ALL_CIS with (Z.ones 8). by rewrite Z.ones_spec_low by lia. }
  pose proof (mux_moves_wf _ _ (mux_frame_moves _ _ Hf1) Hwf) as Hwf1.
  assert (nr_cis_of (rk w1) = nr_cis_of (rk w) /\ nr_dpus_of (rk w1) = nr_dpus_of (rk w)) as [Hc1 Hd1].
  { unfold nr_cis_of, nr_dpus_of. by rewrite (mf_desc _ _ Hf1). }
  rewrite <-Hc1 in Hi. rewrite <-Hd1 in Hd.
  set (switch := if mask =? ALL_CIS then _ else _). unfold mbind at 1, C_bind at 1.
  destruct (switch w1) as [w2 [[]|e]] eqn:Hsw; [|done].
  assert (mux_bit (rk w2) i d = false) as Hbit.
  { revert Hsw. unfold switch. destruct (mask =? ALL_CIS).
    - apply switch_whole; try done. intros s Hs. rewrite (mf_mux _ _ Hf1) by lia. rewrite Hd1. apply Hst. lia.
    - unfold mbind at 1, C_bind at 1, get_rank, gets. cbv beta iota. intros Hsw.
      by apply (switch_lines mask w1 w2 i d Hwf1). }
  clear Hsw. intros Hrest.
  assert (mux_frame (rk w2) (rk w')) as Hf.
  { match type of Hrest with ?m w2 = _ => assert (keeps m) as Hk by keeps_steps end.
    destruct (Hk w2) as [Hk' _]. by rewrite Hrest in Hk'. }
  unfold mux_bit. rewrite (mf_mux _ _ Hf) by lia. exact Hbit.
Qed.
End Banks.

(** The muxes, and the DPUs, but not the run context. *)
Record bank_frame (r r' : rank) : Prop := {
  bf_statics : statics r' = statics r;
  bf_mux : forall i, 0 <= i -> host_mux_mram_state (slice_of r' i) = host_mux_mram_state (slice_of r i);
  bf_enabled : forall i, 0 <= i -> enabled_dpus (slice_of r' i) = enabled_dpus (slice_of r i);
}.
#[export] Instance bank_frame_preorder : PreOrder bank_frame.
Proof.
  split; [by intros r; split|]. intros r1 r2 r3 [] []. split; [congruence|..]; intros i Hi.
  - by rewrite bf_mux1, bf_mux0.
  - by rewrite bf_enabled1, bf_enabled0.
Qed.
#[export] Instance mux_frame_bank_frame : subrelation mux_frame bank_frame.
Proof. intros r r' []. split; [unfold statics; congruence|done..]. Qed.
#[export] Instance same_rank_bank_frame : subrelation same_rank bank_frame.
Proof.
  intros r r' Hs. destruct (same_rank_fields r r' Hs) as (_ & _ & Hsl & _).
  split; [by apply same_rank_statics|intros i _; by rewrite Hsl..].
Qed.

Lemma same_rank_for_up n (body : Z -> rank * Z -> rank * Z) r :
  (forall i st, same_rank (fst st) (fst (body i st))) -> same_rank r (fst (for_up n body (r, 0))).
Proof.
  intros Hb. apply (for_up_inv (fun st => same_rank r (fst st))); [reflexivity|].
  intros i st Hst. by etrans.
Qed.
Lemma bank_frame_update running in_fault r : bank_frame r (update_run_context running in_fault r).
Proof.
  apply same_rank_bank_frame. unfold update_run_context.
  pose proof (same_rank_for_up (nr_cis_of r) (poll_slice running in_fault) r) as Hs.
  destruct (for_up _ _ _) as [r' nb]. cbn [fst] in Hs. etrans; [apply Hs; by intros i []|apply same_rank_set_run].
Qed.
#[export] Hint Resolve bank_frame_update : related.

Section Boot.
Context {D : Type} `{!RankHandler D}.
Context (custom_operation : dpu_custom_command_t -> Z -> Z -> world D -> world D * dpu_rank_status_e).
Context (prof : profiling_context) (run0 fault0 : list Z).
Context (Hcustom : forall c s d w, mux_frame (rk w) (rk (fst (custom_operation c s d w)))).

Lemma bank_custom c i d : related bank_frame (call_custom custom_operation c i d).
Proof using Hcustom.
  intros s. unfold call_custom, mbind, C_bind, on_world. cbn.
  pose proof (Hcustom c i d (lw s)) as Hf. destruct (custom_operation c i d (lw s)) as [w st]. cbn in *.
  apply mux_frame_bank_frame in Hf. by destruct st.
Qed.
Lemma bank_poll : related bank_frame (dpu_poll_rank prof run0 fault0).
Proof using. unfold dpu_poll_rank, profile_poll. repeat related_step mux_frame. Qed.
Lemma bank_profile_launch i d b : related bank_frame (profile_launch prof i d b).
Proof using. unfold profile_launch, dpu_set_magic_profiling_for_dpu. repeat related_step mux_frame. Qed.

(** Inversion of the steps of a call that succeeds. *)
Lemma bind_ok {A B} (m : L D A) (k : A -> L D B) s s' b : (x ← m; k x) s = (s', Ok b) ->
  exists s1 x, m s = (s1, Ok x) /\ k x s1 = (s', Ok b).
Proof using. unfold mbind, C_bind. destruct (m s) as [s1 [x|e]]; [by exists s1, x|done]. Qed.
Lemma at_end_ok {A} (m : L D A) s s' x : at_end dpu_unlock_rank m s = (s', Ok x) ->
  exists s1, m s = (s1, Ok x) /\ s' = fst (dpu_unlock_rank s1).
Proof using. unfold at_end. destruct (m s) as [s1 r]. intros [= <- ->]. by exists s1. Qed.
Lemma or_else_ok {A} (m : L D A) h s s' x : or_else m h s = (s', Ok x) -> m s = (s', Ok x).
Proof using. unfold or_else. destruct (m s) as [s1 [y|e]]; [done|by intros [=]]. Qed.
Lemma on_world_ok {A} (m : W D A) s s' x : on_world m s = (s', Ok x) -> m (lw s) = (lw s', Ok x).
Proof using. unfold on_world. destruct (m (lw s)) as [w r]. by intros [= <- ->]. Qed.
Lemma related_ok {A} R (m : L D A) s s' r : related R m -> m s = (s', r) -> R (rank_at s) (rank_at s').
Proof using. intros Hm Hrun. specialize (Hm s). by rewrite Hrun in Hm. Qed.

(** A successful launch of the rank: every enabled DPU is recorded as running
    and has its bank. *)
Lemma launch_rank_banks t b s s' : rank_ok (rank_at s) -> mux_states_ok (rank_at s) ->
  dpu_launch_thread_on_rank prof run0 fault0 t b s = (s', Ok tt) ->
  statics (rank_at s') = statics (rank_at s) /\
  forall i d, 0 <= i < nr_cis_of (rank_at s) -> 0 <= d < nr_dpus_of (rank_at s) ->
    Z.testbit (enabled_dpus (slice_of (rank_at s) i)) d = true ->
    running_bit (rank_at s') i d = true /\ mux_bit (rank_at s') i d = false.
Proof using.
  intros Hs Hmux Hrun. unfold dpu_launch_thread_on_rank in Hrun.
  apply bind_ok in Hrun as (s0 & ? & Hv & Hrun). rewrite verify_eq in Hv. injection Hv as <- _.
  apply bind_ok in Hrun as (s1 & ? & [= <- _] & Hrun). apply at_end_ok in Hrun as (s5 & Hrun & ->).
  set (s1 := mk_locked (lw s) (lock_depth s + 1)) in Hrun.
  apply bind_ok in Hrun as (s2 & ? & Hp & Hrun). apply bind_ok in Hrun as (s3 & ? & Hpl & Hrun).
  apply bind_ok in Hrun as (s4 & out & Hst & Hrun). apply on_world_ok in Hst, Hrun. injection Hrun as Hlast.
  assert (bank_frame (rank_at s) (rank_at s3)) as Hbf.
  { etrans; [exact (related_ok _ _ _ _ _ bank_poll Hp)|exact (related_ok _ _ _ _ _ (bank_profile_launch _ _ _) Hpl)]. }
  assert (rank_ok (rank_at s3)) as H3.
  { apply (related_ok _ _ _ _ _ (sound_profile_launch prof _ _ _) Hpl).
    exact (proj1 (related_ok _ _ _ _ _ (sound_poll prof run0 fault0) Hp Hs)). }
  pose proof (bf_statics _ _ Hbf) as Hst3. injection Hst3 as Hd3 Hp3.
  assert (nr_cis_of (rank_at s3) = nr_cis_of (rank_at s) /\ nr_dpus_of (rank_at s3) = nr_dpus_of (rank_at s))
    as [Hc3 Hn3] by (unfold nr_cis_of, nr_dpus_of; by rewrite Hd3).
  assert (mux_wf (rank_at s3)) as Hwf3.
  { destruct H3 as [[] []]. by split. }
  destruct (start_rank_frame (D := D) t b None (lw s3)) as [Hf4 _]. rewrite Hst in Hf4. cbn [fst] in Hf4.
  change (rk (lw s3)) with (rank_at s3) in Hf4. change (rk (lw s4)) with (rank_at s4) in Hf4.
  pose proof (rank_ok_frame _ _ Hf4 H3) as [Hw4 Hr4].
  destruct (set_all_running_spec (rank_at s4) Hw4 (rc_running _ Hr4) (rc_fault _ Hr4) (rc_nonneg _ Hr4)) as [Hvis _].
  assert (rank_at (fst (dpu_unlock_rank s5)) = set_all_running (rank_at s4)) as -> by (cbn; unfold rank_at; by rewrite <-Hlast).
  assert (statics (rank_at s4) = statics (rank_at s)) as Hst4
    by (rewrite (frame_statics _ _ Hf4); apply Hbf).
  assert (nr_cis_of (rank_at s4) = nr_cis_of (rank_at s)) as Hc4.
  { injection Hst4 as Hd4 _. unfold nr_cis_of. by rewrite Hd4. }
  split; [by rewrite (same_rank_statics _ _ (vu_same _ _ _ _ _ Hvis))|]. intros i d Hi Hd He.
  rewrite <-(bf_enabled _ _ Hbf) in He by lia. split.
  - unfold running_bit. fold (running_of (set_all_running (rank_at s4)) i).
    rewrite (vu_running _ _ _ _ _ Hvis), (nf_enabled _ _ Hf4) by lia. exact He.
  - destruct (same_rank_fields _ _ (vu_same _ _ _ _ _ Hvis)) as (_ & _ & Hsl & _).
    unfold mux_bit. rewrite Hsl. apply (start_rank_banks t b (lw s3) (lw s4) out); try done;
      change (rk (lw s3)) with (rank_at s3); [|by rewrite Hc3|by rewrite Hn3].
    intros j Hj. rewrite (bf_mux _ _ Hbf), Hn3 by lia. apply Hmux. lia.
Qed.
End Boot.

(** ** Waiting for the DPUs of a rank *)

(** The rank as the waiting thread finds it after each wait. *)
Fixpoint wakes {D} (others : list (world D -> world D)) (w : world D) : list (world D) :=
  match others with
  | [] => []
  | other :: others => other w :: wakes others (other w)
  end.

Lemma last_cons_default {A} (x : A) l d : List.last (x :: l) d = List.last l x.
Proof. revert x d. induction l as [|y l IH]; intros x d; [done|]. transitivity (List.last (y :: l) d); [done|]. by rewrite !IH. Qed.

(** The last poll succeeded and no DPU is in fault. *)
Definition quiet (r : rank) : Prop :=
  poll_status (run r) = None /\ forall i, 0 <= i < nr_cis_of r -> in_fault_of r i = 0.
(** Nothing is left to wait for: the DPUs have stopped or the poll has failed. *)
Definition settled (r : rank) : Prop :=
  nb_dpu_running (run r) = 0 \/ exists e, poll_status (run r) = Some e /\ e <> DPU_ERR_DPU_FAULT.

Lemma check_cases r F st : let out := dpu_check_fault_rank r F st in
  match poll_status (run r) with
  | Some e => out = (F, Some e)
  | None => (out = (F, st) /\ forall i, 0 <= i < nr_cis_of r -> F.[i] = in_fault_of r i) \/
            (snd out = Some DPU_ERR_DPU_FAULT /\ exists i, 0 <= i < nr_cis_of r /\ F.[i] <> in_fault_of r i)
  end.
Proof.
  cbv zeta. unfold dpu_check_fault_rank. destruct (poll_status _) as [e|]; [done|].
  destruct (decide (0 <= nr_cis_of r)) as [Hn|]; [|rewrite for_up_0 by lia; left; split; [done|lia]].
  apply (for_up_ind (fun k out =>
    (out = (F, st) /\ forall i, 0 <= i < k -> F.[i] = in_fault_of r i) \/
    (snd out = Some DPU_ERR_DPU_FAULT /\ exists i, 0 <= i < nr_cis_of r /\ F.[i] <> in_fault_of r i)));
    [done|left; split; [done|lia]|].
  intros k out Hk [[-> Hi]|[Ho Hi]]; unfold check_fault_slice.
  - destruct (Z.eqb_spec (F.[k]) ((dpu_in_fault (run r)).[k])) as [E|E].
    + left. split; [done|]. intros i Hi'. destruct (decide (i = k)) as [->|]; [exact E|apply Hi; lia].
    + right. split; [done|]. by exists k.
  - right. destruct out as [F' st']. cbn in Ho. subst. split; [by case_bool|done].
Qed.

(** The loop has seen [F] and [st]. *)
Lemma check_status r F st : poll_status (run r) <> Some DPU_ERR_DPU_FAULT ->
  let st' := snd (dpu_check_fault_rank r F st) in
  st' = poll_status (run r) /\ st' <> None \/ poll_status (run r) = None /\ (st' = st \/ st' = Some DPU_ERR_DPU_FAULT).
Proof.
  intros Hp. pose proof (check_cases r F st) as Hc. cbv zeta in *.
  destruct (poll_status (run r)) as [e|]; [by left; rewrite Hc|right].
  split; [done|]. destruct Hc as [[-> _]|[Hc _]]; [by left|by right].
Qed.

Section Sync.
Context {D : Type} `{!RankHandler D}.
Context (custom_operation : dpu_custom_command_t -> Z -> Z -> world D -> world D * dpu_rank_status_e).

Lemma sync_loop_eq others F st (s : locked D) : sync_loop others F st s =
  if negb (nb_dpu_running (run (rank_at s)) =? 0)
     && (bool_decide (st = None) || bool_decide (st = Some DPU_ERR_DPU_FAULT))
  then match others with
       | [] => (s, Ok None)
       | other :: others =>
           let s' := mk_locked (other (lw s)) (lock_depth s) in
           let '(F, st) := dpu_check_fault_rank (rank_at s') F st in sync_loop others F st s'
       end
  else (s, Ok (Some (F, st))).
Proof.
  destruct others as [|other others]; cbn [sync_loop]; unfold mbind at 1, C_bind at 1; rewrite the_rank_eq;
    destruct (_ && _); try done.
  unfold mbind at 1, C_bind at 1, on_world, modify. unfold mbind at 1, C_bind at 1. cbv zeta. rewrite the_rank_eq.
  by destruct (dpu_check_fault_rank _ _ _).
Qed.

(** The loop ends: the rank is settled at the start or after one of the waits. *)
Lemma sync_loop_ends others F st (s : locked D) :
  (nb_dpu_running (run (rank_at s)) = 0 \/ Exists (fun w => settled (rk w)) (wakes others (lw s))) ->
  exists out, snd (sync_loop others F st s) = Ok (Some out).
Proof using.
  revert F st s. induction others as [|other others IH]; intros F st s Hend; rewrite sync_loop_eq.
  - destruct Hend as [->|Hend]; [by eexists|by inversion Hend].
  - destruct (negb _ && _) eqn:Hgo; [|by eexists]. cbv zeta.
    destruct Hend as [Hend|Hend]; [rewrite Hend in Hgo; done|]. cbn [wakes] in Hend.
    set (s1 := mk_locked (other (lw s)) (lock_depth s)).
    pose proof (check_cases (rank_at s1) F st) as Hc. cbv zeta in Hc.
    destruct (dpu_check_fault_rank (rank_at s1) F st) as [F1 st1] eqn:Hcheck.
    apply Exists_cons in Hend as [[Hnb|(e & Hp & He)]|Hend].
    + apply IH. by left.
    + change (rk (other (lw s))) with (rank_at s1) in Hp. rewrite Hp in Hc. injection Hc as -> ->.
      rewrite sync_loop_eq. rewrite !bool_decide_false by congruence. rewrite andb_false_r. by eexists.
    + apply IH. by right.
Qed.

(** It ends on a rank that is settled, and without a status only when every
    wake-up found it quiet. *)
Lemma sync_loop_result others st F (s s' : locked D) F' st' :
  sync_loop others F st s = (s', Ok (Some (F', st'))) ->
  exists k, s' = mk_locked (List.last (take k (wakes others (lw s))) (lw s)) (lock_depth s) /\
    (st' = None -> nb_dpu_running (run (rank_at s')) = 0 /\ F' = F /\
       Forall (fun w => poll_status (run (rk w)) = None /\
         forall i, 0 <= i < nr_cis_of (rk w) -> F.[i] = in_fault_of (rk w) i) (take k (wakes others (lw s)))) /\
    (st <> None -> st' <> None).
Proof using.
  revert st F s. induction others as [|other others IH]; intros st F s; rewrite sync_loop_eq.
  - destruct (negb _ && _) eqn:Hgo; [by intros [=]|]. intros [= <- <- <-]. exists 0%nat.
    split; [by destruct s|]. split; [|done]. intros ->. split; [|done].
    rewrite bool_decide_true in Hgo by done. cbn in Hgo. rewrite andb_true_r in Hgo. by zb2p.
  - destruct (negb _ && _) eqn:Hgo.
    + cbv zeta. set (s1 := mk_locked (other (lw s)) (lock_depth s)).
      pose proof (check_cases (rank_at s1) F st) as Hc. cbv zeta in Hc.
      destruct (dpu_check_fault_rank (rank_at s1) F st) as [F1 st1] eqn:Hcheck. intros Hrun.
      destruct (IH _ _ _ Hrun) as (k & -> & Hnone & Hsome). exists (S k). cbn [wakes take].
      split; [|split].
      * f_equal. by rewrite last_cons_default.
      * intros ->. destruct st1 as [e|]; [by destruct (Hsome ltac:(done))|].
        destruct (Hnone eq_refl) as (Hnb & -> & Hall). split; [exact Hnb|].
        change (rk (other (lw s))) with (rank_at s1) in *.
        destruct (poll_status (run (rank_at s1))) eqn:Hp; [by injection Hc|].
        destruct Hc as [[Hc Hi]|[Hc _]]; [|done]. injection Hc as -> _. split; [done|].
        apply list_relations.list.Forall_cons. split; [by split|done].
      * intros Hst. apply Hsome. destruct (poll_status (run (rank_at s1))) eqn:Hp; [by injection Hc as _ ->|].
        destruct Hc as [[Hc _]|[Hc _]]; [by injection Hc as _ ->|by cbn in Hc; rewrite Hc].
    + intros [= <- <- <-]. exists 0%nat. split; [by destruct s|]. split; [|done]. intros ->. split; [|done].
      rewrite bool_decide_true in Hgo by done. cbn in Hgo. rewrite andb_true_r in Hgo. by zb2p.
Qed.

(** As long as every wake-up finds the rank quiet, no status appears. *)
Lemma sync_loop_quiet others F (s s' : locked D) F' st' : (forall i, 0 <= i < 8 -> F.[i] = 0) ->
  Forall (fun w => nr_cis_of (rk w) <= DPU_MAX_NR_CIS /\ quiet (rk w)) (wakes others (lw s)) ->
  sync_loop others F None s = (s', Ok (Some (F', st'))) -> F' = F /\ st' = None /\ 
    (nr_cis_of (rank_at s) <= DPU_MAX_NR_CIS /\ quiet (rank_at s) -> nr_cis_of (rank_at s') <= DPU_MAX_NR_CIS /\ quiet (rank_at s')).
Proof using.
  intros HF. revert s. induction others as [|other others IH]; intros s Hq; rewrite sync_loop_eq;
    (destruct (negb _ && _); [|by intros [= <- <- <-]]); [by intros [=]|]. cbv zeta.
  cbn [wakes] in Hq. apply list_relations.list.Forall_cons in Hq as [Hq1 Hq].
  set (s1 := mk_locked (other (lw s)) (lock_depth s)). change (rk (other (lw s))) with (rank_at s1) in Hq1.
  pose proof (check_cases (rank_at s1) F None) as Hc. cbv zeta in Hc. destruct Hq1 as [Hn [Hp Hi]].
  unfold DPU_MAX_NR_CIS in Hn. rewrite Hp in Hc. destruct Hc as [[-> _]|[_ (i & Hi' & Hne)]].
  - intros Hrun. destruct (IH s1 Hq Hrun) as (-> & -> & Hq'). split_and!; [done..|]. intros _. by apply Hq'.
  - destruct Hne. rewrite Hi, HF by lia. done.
Qed.

Lemma sizes_seen (P : world D -> Prop) k w ws : Forall P (w :: ws) -> Forall P (take k ws ++ [List.last (take k ws) w]).
Proof using.
  revert w ws. induction k as [|k IH]; intros w ws H; apply list_relations.list.Forall_cons in H as [Hw Hws]; [by repeat constructor|].
  destruct ws as [|w' ws]; [by repeat constructor|]. cbn [take]. rewrite last_cons_default. constructor; [by inversion Hws|].
  by apply IH.
Qed.
Lemma zeros_at i : 0 <= i < 8 -> (replicate 8 0).[i] = 0.
Proof. revert i. by_eval. Qed.
Definition custom (w : world D) : world D * dpu_rank_status_e :=
  custom_operation DPU_COMMAND_ALL_POSTEXECUTION 0xFF 0xFF w.
Lemma custom_rank_eq (s : locked D) : dpu_custom_for_rank custom_operation DPU_COMMAND_ALL_POSTEXECUTION s =
  (mk_locked (fst (custom (lw s))) (lock_depth s), map_rank_status_to_api_status (snd (custom (lw s)))).
Proof using.
  unfold dpu_custom_for_rank, call_custom, mbind, C_bind, on_world. change (u8 (-1)) with 0xFF. cbn.
  fold (custom (lw s)). destruct (custom (lw s)) as [w st]. cbn.
  replace (lock_depth s + 1 - 1) with (lock_depth s) by lia. by destruct st.
Qed.

Lemma sync_rank_ends others (s : locked D) :
  (nb_dpu_running (run (rank_at s)) = 0 \/ Exists (fun w => settled (rk w)) (wakes others (lw s))) ->
  snd (dpu_sync_rank custom_operation others s) <> Ok None.
Proof using.
  intros Hend. destruct (sync_loop_ends others (replicate 8 0) None s Hend) as [[F st] Hrun].
  unfold dpu_sync_rank, mbind, C_bind.
  destruct (sync_loop _ _ _ s) as [s1 r1]. cbn [snd] in Hrun. subst r1.
  rewrite the_rank_eq. destruct (snd (dpu_check_fault_rank _ _ _)); [done|].
  rewrite custom_rank_eq. by destruct (map_rank_status_to_api_status _).
Qed.

Lemma sync_rank_ok others (s s' : locked D) :
  Forall (fun w => nr_cis_of (rk w) <= DPU_MAX_NR_CIS) (lw s :: wakes others (lw s)) ->
  dpu_sync_rank custom_operation others s = (s', Ok (Some tt)) -> exists k,
  let seen := take k (wakes others (lw s)) in
  let w := List.last seen (lw s) in
  nb_dpu_running (run (rk w)) = 0 /\ Forall (fun w => quiet (rk w)) (seen ++ [w]) /\
  custom w = (lw s', DPU_RANK_SUCCESS).
Proof using.
  intros Hsizes.
  unfold dpu_sync_rank, mbind, C_bind.
  destruct (sync_loop _ _ _ s) as [s1 [[[F st]|]|e]] eqn:Hloop; [|done..].
  destruct (sync_loop_result _ _ _ _ _ _ _ Hloop) as (k & Hs1 & Hnone & _).
  rewrite the_rank_eq.
  pose proof (check_cases (rank_at s1) F st) as Hc. cbv zeta in Hc.
  destruct (snd (dpu_check_fault_rank (rank_at s1) F st)) eqn:Hcheck; [done|].
  rewrite custom_rank_eq. destruct (map_rank_status_to_api_status _) eqn:Hst; [|done].
  intros [= <-]. exists k. cbv zeta. change (List.last _ _) with (lw (mk_locked (List.last (take k (wakes others (lw s))) (lw s)) (lock_depth s))).
  rewrite <-Hs1. destruct (poll_status _) eqn:Hp; [by rewrite Hc in Hcheck|].
  destruct Hc as [[Hc Hi]|[Hc _]]; [|done]. rewrite Hc in Hcheck. cbn in Hcheck. subst st.
  destruct (Hnone eq_refl) as (Hnb & -> & Hall). split; [exact Hnb|].
  assert (Forall (fun w => nr_cis_of (rk w) <= DPU_MAX_NR_CIS) (take k (wakes others (lw s)) ++ [lw s1])) as Hn.
  { rewrite Hs1. cbn [lw]. by apply sizes_seen. }
  assert (Forall (fun w => poll_status (run (rk w)) = None /\
    (forall i, 0 <= i < nr_cis_of (rk w) -> (replicate 8 0).[i] = in_fault_of (rk w) i))
    (take k (wakes others (lw s)) ++ [lw s1])) as Hall'.
  { apply list_relations.list.Forall_app. split; [exact Hall|]. by apply list_relations.list.Forall_singleton. }
  split.
  + apply list_relations.list.Forall_forall. intros w Hw. unfold DPU_MAX_NR_CIS in Hn.
    rewrite list_relations.list.Forall_forall in Hn, Hall'. destruct (Hall' w Hw) as [Hp' Hi']. specialize (Hn w Hw).
    cbn in Hn. split; [done|]. intros i Hi0. rewrite <-Hi', zeros_at by lia. done.
  + fold (custom (lw s1)). cbn [lw]. destruct (custom (lw s1)) as [w st]. cbn in *. by destruct st.
Qed.

Lemma sync_loop_no_error others F st (s : locked D) e : snd (sync_loop others F st s) <> Err e.
Proof using.
  revert s F st. induction others as [|o os IH]; intros s F st; rewrite sync_loop_eq; destruct (negb _ && _); try done.
  cbv zeta. destruct (dpu_check_fault_rank _ _ _). apply IH.
Qed.
Lemma sync_rank_err others (s s' : locked D) e :
  Forall (fun w => nr_cis_of (rk w) <= DPU_MAX_NR_CIS) (lw s :: wakes others (lw s)) ->
  dpu_sync_rank custom_operation others s = (s', Err e) ->
  Forall (fun w => quiet (rk w)) (lw s :: wakes others (lw s)) ->
  exists w status, custom w = (lw s', status) /\ map_rank_status_to_api_status status = Err e.
Proof using.
  intros Hsizes. pose proof (sync_loop_no_error others (replicate 8 0) None s) as Hno.
  unfold dpu_sync_rank, mbind, C_bind.
  destruct (sync_loop _ _ _ s) as [s1 [[[F st]|]|e']] eqn:Hloop; [|done|].
  2: by destruct (Hno e').
  intros Hrun Hq.
  assert (Forall (fun w => nr_cis_of (rk w) <= DPU_MAX_NR_CIS /\ quiet (rk w)) (lw s :: wakes others (lw s))) as Hb
    by (apply list_relations.list.Forall_and; by split).
  apply list_relations.list.Forall_cons in Hb as [Hq0 Hb].
  destruct (sync_loop_quiet _ _ _ _ _ _ zeros_at Hb Hloop) as (-> & -> & Hq1).
  destruct (Hq1 Hq0) as [Hn [Hp Hi]]. unfold DPU_MAX_NR_CIS in Hn. revert Hrun. rewrite the_rank_eq.
  pose proof (check_cases (rank_at s1) (replicate 8 0) None) as Hc. cbv zeta in Hc. rewrite Hp in Hc.
  destruct Hc as [[-> _]|[_ (i & Hi' & Hne)]]; [|by rewrite Hi, zeros_at in Hne by lia].
  cbn [snd]. rewrite custom_rank_eq.
  destruct (map_rank_status_to_api_status _) eqn:Hst; [done|]. intros [= <- <-].
  exists (lw s1), (snd (custom (lw s1))). split; [|done]. cbn [lw]. by destruct (custom (lw s1)).
Qed.
End Sync.

(** ** Properties *)

(** C28: Whatever the calls made on a rank, their outcomes and the answers of
    the hardware, the run context stays consistent - the DPUs recorded as
    running are enabled and [nb_dpu_running] counts them - and every call gives
    the mutex of the rank back as many times as it takes it. *)
Theorem run_context_consistent {D} `{!RankHandler D} custom_operation prof run0 fault0 cs (s : locked D) :
  (forall c i d w, run_frame (rk w) (rk (fst (custom_operation c i d w)))) ->
  rank_wf (rank_at s) -> run_consistent (rank_at s) -> Forall (valid_call (rank_at s)) cs ->
  let s' := do_calls custom_operation prof run0 fault0 cs s in
  run_consistent (rank_at s') /\ lock_depth s' = lock_depth s.
Proof.
  intros Hc Hwf Hrc Hv. cbv zeta. assert (rank_ok (rank_at s)) as Hs by done. clear Hwf Hrc.
  revert s Hs Hv. unfold do_calls. induction cs as [|c cs IH]; intros s Hs Hv; [by destruct Hs|].
  apply list_relations.list.Forall_cons in Hv as [Hv1 Hv]. cbn [foldl].
  destruct (sound_do_call custom_operation prof run0 fault0 Hc c s Hs Hv1) as [Hs' Hst].
  pose proof (lock_do_call custom_operation prof run0 fault0 c s) as Hl.
  set (s1 := fst (do_call custom_operation prof run0 fault0 c s)) in *.
  destruct (IH s1 Hs') as [H1 H2].
  - eapply list_relations.list.Forall_impl; [exact Hv|]. intros c'. unfold valid_call.
    destruct c'; try done; by apply in_rank_statics.
  - split; [exact H1|]. rewrite H2, Hl. destruct (is_ok _); lia.
Qed.

(** C35: [dpu_sync_rank], whatever the other threads do while it waits: it
    returns as soon as a wake-up finds that no DPU runs any more or that the
    poll has failed; it succeeds only on a rank where no DPU runs, when no
    wake-up found a failed poll or a DPU in fault and the custom operation that
    follows succeeded; and when no wake-up does, its result is the one of the
    custom operation. *)
Theorem sync_rank_waits {D} `{!RankHandler D} custom_operation others (s : locked D) :
  Forall (fun w => nr_cis_of (rk w) <= DPU_MAX_NR_CIS) (lw s :: wakes others (lw s)) ->
  (nb_dpu_running (run (rank_at s)) = 0 \/ Exists (fun w => settled (rk w)) (wakes others (lw s)) ->
   snd (dpu_sync_rank custom_operation others s) <> Ok None) /\
  (forall s', dpu_sync_rank custom_operation others s = (s', Ok (Some tt)) -> exists k,
     let seen := take k (wakes others (lw s)) in
     let w := List.last seen (lw s) in
     nb_dpu_running (run (rk w)) = 0 /\ Forall (fun w => quiet (rk w)) (seen ++ [w]) /\
     custom_operation DPU_COMMAND_ALL_POSTEXECUTION 0xFF 0xFF w = (lw s', DPU_RANK_SUCCESS)) /\
  (forall s' e, dpu_sync_rank custom_operation others s = (s', Err e) ->
     Forall (fun w => quiet (rk w)) (lw s :: wakes others (lw s)) ->
     exists w status, custom_operation DPU_COMMAND_ALL_POSTEXECUTION 0xFF 0xFF w = (lw s', status) /\
       map_rank_status_to_api_status status = Err e).
Proof.
  intros Hsizes. split_and!.
  - apply sync_rank_ends.
  - intros s'. by apply sync_rank_ok.
  - intros s' e. by apply sync_rank_err.
Qed.

(** The wait for one DPU does not look at the status of the poll: as long as the
    DPU is recorded as running it waits, a failed poll included. *)
Theorem sync_dpu_ignores_poll_failure {D} `{!RankHandler D} custom_operation others slice dpu (s : locked D) :
  Forall (fun w => dpu_mask_is_selected (running_of (rk w) slice) dpu = true) (lw s :: wakes others (lw s)) ->
  snd (dpu_sync_dpu custom_operation others slice dpu s) = Ok None.
Proof.
  intros Hall. enough (snd (wait_dpu others slice dpu s) = Ok None) as Hw.
  { unfold dpu_sync_dpu, mbind, C_bind. destruct (wait_dpu _ _ _ s). cbn in Hw. by subst. }
  revert s Hall. induction others as [|o os IH]; intros s Hall;
    apply list_relations.list.Forall_cons in Hall as [Hs Hall];
    cbn [wait_dpu]; unfold mbind, C_bind; rewrite the_rank_eq; change (rk (lw s)) with (rank_at s) in Hs;
    fold (running_of (rank_at s) slice); rewrite Hs; [done|].
  exact (IH (mk_locked (o (lw s)) (lock_depth s)) Hall).
Qed.

(** C34: When [dpu_boot_rank] succeeds, no DPU of the rank was running, and
    every enabled DPU is now recorded as running and has the bank of its MRAM;
    the mutex is given back. *)
Theorem boot_rank_banks {D} `{!RankHandler D} custom_operation prof run0 fault0 (s s' : locked D) :
  (forall c i d w, mux_frame (rk w) (rk (fst (custom_operation c i d w)))) ->
  rank_wf (rank_at s) -> run_consistent (rank_at s) -> mux_states_ok (rank_at s) ->
  dpu_boot_rank custom_operation prof run0 fault0 s = (s', Ok tt) ->
  nb_dpu_running (run (rank_at s)) = 0 /\ lock_depth s' = lock_depth s /\
  forall i d, 0 <= i < nr_cis_of (rank_at s) -> 0 <= d < nr_dpus_of (rank_at s) ->
    Z.testbit (enabled_dpus (slice_of (rank_at s) i)) d = true ->
    running_bit (rank_at s') i d = true /\ mux_bit (rank_at s') i d = false.
Proof.
  intros Hc Hwf Hrc Hmux Hrun.
  pose proof (lock_do_call custom_operation prof run0 fault0 CallBootRank s) as Hl. cbn [do_call] in Hl.
  rewrite Hrun in Hl. cbn [fst snd is_ok] in Hl. rewrite Z.add_0_r in Hl. unfold dpu_boot_rank in Hrun.
  apply bind_ok in Hrun as (s1 & ? & [= <- _] & Hrun). set (s1 := mk_locked (lw s) (lock_depth s + 1)) in Hrun.
  apply bind_ok in Hrun as (s2 & r & Hr & Hrun). rewrite the_rank_eq in Hr. injection Hr as <- <-.
  destruct (Z.eqb_spec (nb_dpu_running (run (rank_at s1))) 0) as [Hnb|]; [cbn [negb] in Hrun|done].
  split; [exact Hnb|]. split; [exact Hl|].
  apply bind_ok in Hrun as (s2 & ? & Hcust & Hrun). apply or_else_ok in Hcust.
  apply bind_ok in Hrun as (s3 & [] & Hlaunch & Hrun). apply or_else_ok in Hlaunch. injection Hrun as <-.
  pose proof (related_ok _ _ _ _ _ (bank_custom custom_operation Hc _ _ _) Hcust) as [Hst Hm He].
  assert (rank_ok (rank_at s2)) as H2.
  { refine (proj1 (related_ok _ _ _ _ _ (sound_custom custom_operation _ _ _ _) Hcust _)); [|by split].
    intros c i d w. by apply mux_frame_run_frame. }
  change (rank_at s1) with (rank_at s) in *. injection Hst as Hd2 _.
  assert (nr_cis_of (rank_at s2) = nr_cis_of (rank_at s) /\ nr_dpus_of (rank_at s2) = nr_dpus_of (rank_at s))
    as [Hc2 Hn2] by (unfold nr_cis_of, nr_dpus_of; by rewrite Hd2).
  assert (mux_states_ok (rank_at s2)) as Hmux2.
  { intros i Hi. rewrite Hc2 in Hi. rewrite Hm, Hn2 by lia. by apply Hmux. }
  destruct (launch_rank_banks prof run0 fault0 _ _ _ _ H2 Hmux2 Hlaunch) as [_ Hbanks].
  intros i d Hi Hd Hen. apply Hbanks; rewrite ?Hc2, ?Hn2; try done. rewrite He by lia. exact Hen.
Qed.

(** ** Examples *)

Definition no_custom (command : dpu_custom_command_t) (slice dpu : Z) (w : world sim) : world sim * dpu_rank_status_e :=
  (w, DPU_RANK_SUCCESS).
Definition no_profiling : profiling_context := mk_profiling_context DPU_PROFILING_NOP 0 0 0 [] 0.
(** The host has all the banks of the rank of two DPUs per interface. *)
Definition host_world : world sim :=
  let r := sample_rank 2 2 in
  mk_world (for_up 8 (fun i => upd_slice i (set_host_mux_mram_state 3)) (set_desc (unchecked_description (desc r)) r)) sim0.
Definition host_locked : locked sim := mk_locked host_world 0.

Lemma host_locked_wf : rank_wf (rank_at host_locked) /\ run_consistent (rank_at host_locked) /\
  mux_states_ok (rank_at host_locked).
Proof.
  split_and!.
  - split; try by_eval. intros s d Hs Hd. revert s Hs d Hd. by_eval.
  - split; by_eval.
  - unfold mux_states_ok. by_eval.
Qed.

Lemma boot_rank_banks_witness : exists s',
  dpu_boot_rank no_custom no_profiling (replicate 8 0) (replicate 8 0) host_locked = (s', Ok tt) /\
  mux_bit (rank_at host_locked) 1 1 = true /\
  running_bit (rank_at s') 1 1 = true /\ mux_bit (rank_at s') 1 1 = false.
Proof.
  destruct (dpu_boot_rank no_custom no_profiling (replicate 8 0) (replicate 8 0) host_locked) as [s' res] eqn:Hrun.
  assert (res = Ok tt) as -> by (apply (f_equal snd) in Hrun; vm_compute in Hrun; done).
  exists s'. split; [done|]. split; [vm_compute; reflexivity|].
  destruct (boot_rank_banks no_custom no_profiling (replicate 8 0) (replicate 8 0) host_locked s'
    ltac:(intros; apply mux_frame_preorder) (proj1 host_locked_wf) (proj1 (proj2 host_locked_wf))
    (proj2 (proj2 host_locked_wf)) Hrun) as (_ & _ & H).
  exact (H 1 1 ltac:(by_eval) ltac:(by_eval) ltac:(by_eval)).
Defined.

(** A boot, a poll by the polling thread, and the launch of another thread. *)
Definition some_calls : list runner_call :=
  [CallBootRank; CallPolling 4 true; CallBootDpu 0 1; CallLaunchDpu 1 0 3 true; CallStatusRank].

Lemma run_context_consistent_witness :
  let s' := do_calls no_custom no_profiling (replicate 8 0) (replicate 8 0) some_calls host_locked in
  run_consistent (rank_at s') /\ lock_depth s' = 0 /\ nb_dpu_running (run (rank_at s')) = 1.
Proof.
  cbv zeta. destruct (run_context_consistent no_custom no_profiling (replicate 8 0) (replicate 8 0) some_calls host_locked)
    as [H1 H2].
  - intros. apply run_frame_preorder.
  - apply host_locked_wf.
  - apply host_locked_wf.
  - repeat constructor; by_eval.
  - split; [exact H1|]. split; [exact H2|]. vm_compute. reflexivity.
Defined.

(** What the polling thread records when all the DPUs have stopped, with the
    faults [fault] on the interface 0. *)
Definition all_stopped (fault : Z) (w : world sim) : world sim :=
  fst (on_rank (fun r => set_run (mk_run_context (replicate 8 0) (replicate 8 0).[0 := fault] None 0) r) w).
Definition busy_locked : locked sim :=
  fst (dpu_boot_rank no_custom no_profiling (replicate 8 0) (replicate 8 0) host_locked).

Lemma sync_rank_waits_witness :
  snd (dpu_sync_rank no_custom [id; all_stopped 0] busy_locked) = Ok (Some tt) /\
  snd (dpu_sync_rank no_custom [id; all_stopped 1] busy_locked) = Err DPU_ERR_DPU_FAULT /\
  (exists k, nb_dpu_running (run (rk (List.last (take k (wakes [id; all_stopped 0] (lw busy_locked))) (lw busy_locked)))) = 0) /\
  snd (dpu_sync_rank no_custom [id; id; all_stopped 3; id] busy_locked) <> Ok None.
Proof.
  assert (forall w os, w = lw busy_locked -> Forall (fun o => forall w : world sim, nr_cis_of (rk w) = 2 -> nr_cis_of (rk (o w)) = 2) os ->
    Forall (fun w => nr_cis_of (rk w) <= DPU_MAX_NR_CIS) (w :: wakes os w)) as Hsizes.
  { intros w os Hw Hos. assert (nr_cis_of (rk w) = 2) as Hn by (rewrite Hw; vm_compute; reflexivity). clear Hw.
    revert w Hn. induction Hos as [|o os Ho _ IH]; intros w Hn; (constructor; [by rewrite Hn|]); [constructor|].
    apply IH. by apply Ho. }
  destruct (dpu_sync_rank no_custom [id; all_stopped 0] busy_locked) as [s' res] eqn:Hrun.
  assert (res = Ok (Some tt)) as -> by (apply (f_equal snd) in Hrun; vm_compute in Hrun; done).
  split_and!; [done|vm_compute; reflexivity|..].
  - destruct (sync_rank_waits no_custom [id; all_stopped 0] busy_locked) as (_ & H & _).
    { apply Hsizes; [done|]. by repeat constructor. }
    destruct (H s' Hrun) as (k & Hk & _). by exists k.
  - apply (sync_rank_waits no_custom [id; id; all_stopped 3; id] busy_locked).
    + apply Hsizes; [done|]. by repeat constructor.
    + right. do 2 apply Exists_cons_tl. apply Exists_cons_hd. by left.
Defined.
