(* ===== verification/VpdDb.v ===== *)
(** * The key-value database of a module

    Model of [src/vpd/src/dpu_vpd_container.c], [dpu_vpd_encode.c],
    [dpu_vpd_decode.c] and of the database functions of [dpu_vpd.c]: the vital
    product data of a module is a list of typed values under string keys,
    stored in a flash partition as records (type, length and bytes of the key,
    length and bytes of the value).

    A byte is a [Z]; a key is the bytes of a C string, without the final zero;
    [value_len] is the length of the value. Allocation always succeeds. What C
    leaves undefined - reading or writing outside a buffer, an [int] that
    overflows - is the outcome [Undefined]. *)

From stdpp Require Import strings gmap.
From S2P Require Import Prelude.

#[local] Open Scope Z_scope.
#[local] Open Scope dpu_scope.

(** [enum dpu_vpd_error], less [DPU_VPD_OK]. *)
Inductive dpu_vpd_error :=
  | DPU_VPD_ERR_HEADER_FORMAT | DPU_VPD_ERR_HEADER_VERSION | DPU_VPD_ERR_REPAIR_ENTRIES
  | DPU_VPD_ERR_NB_MAX_REPAIR | DPU_VPD_ERR_FLASH | DPU_VPD_ERR_DPU_ALREADY_ENABLED
  | DPU_VPD_ERR_DPU_ALREADY_DISABLED | DPU_VPD_ERR_OVERFLOW | DPU_VPD_ERR.

Inductive vres (A : Type) :=
  | Done (a : A)
  | Failed (e : dpu_vpd_error)
  | Undefined.
Arguments Done {_} _.
Arguments Failed {_} _.
Arguments Undefined {_}.

#[export] Instance vres_ret : MRet vres := fun A a => Done a.
#[export] Instance vres_bind : MBind vres := fun A B k m =>
  match m with
  | Done a => k a
  | Failed e => Failed e
  | Undefined => Undefined
  end.

(** Any failure of a call becomes the status [e]. *)
Definition or_status {A} (e : dpu_vpd_error) (m : vres A) : vres A :=
  match m with Failed _ => Failed e | m => m end.

(** [enum vpd_data_type]. *)
Definition VPD_TYPE_STRING := 0.
Definition VPD_TYPE_BYTE := 1.
Definition VPD_TYPE_SHORT := 2.
Definition VPD_TYPE_INT := 4.
Definition VPD_TYPE_LONG := 8.
Definition VPD_TYPE_BYTEARRAY := 9.
Definition is_vpd_type (type : Z) : bool :=
  (type =? VPD_TYPE_STRING) || (type =? VPD_TYPE_BYTE) || (type =? VPD_TYPE_SHORT)
  || (type =? VPD_TYPE_INT) || (type =? VPD_TYPE_LONG) || (type =? VPD_TYPE_BYTEARRAY).

(** [FLASH_OFF_SPD - FLASH_OFF_VPD_DB]. *)
Definition FLASH_SIZE_VPD_DB := 0x1F800 - 0x1E800.

(** [struct dpu_vpd_string_pair], [struct dpu_vpd_database]. *)
Record dpu_vpd_string_pair := mk_pair {
  key : list Z;
  value : list Z;
  value_type : Z;
}.
Definition dpu_vpd_database := list dpu_vpd_string_pair.

(** The bytes of a C string up to its end. *)
Fixpoint c_string (bytes : list Z) : list Z :=
  match bytes with
  | [] => []
  | b :: bytes => if b =? 0 then [] else b :: c_string bytes
  end.

(** ** The container ([dpu_vpd_container.c]) *)

Fixpoint vpd_find_string (db : dpu_vpd_database) (k : list Z) : option dpu_vpd_string_pair :=
  match db with
  | [] => None
  | current :: db => if decide (k = key current) then Some current else vpd_find_string db k
  end.

(** The pair found is filled again in its place. *)
Fixpoint vpd_replace (db : dpu_vpd_database) (pair : dpu_vpd_string_pair) : dpu_vpd_database :=
  match db with
  | [] => []
  | current :: db => if decide (key pair = key current) then pair :: db else current :: vpd_replace db pair
  end.

Definition vpd_set_string (db : dpu_vpd_database) (k v : list Z) (type : Z) : dpu_vpd_database :=
  match vpd_find_string db k with
  | Some _ => vpd_replace db (mk_pair k v type)
  | None => db ++ [mk_pair k v type]
  end.

Definition vpd_get_container_length (db : dpu_vpd_database) : Z := lenz db.
Definition vpd_init_container : dpu_vpd_database := [].

(** ** Lengths *)

(** The loop that reverses the groups of 7 bits; an [unsigned int] has 5. *)
Fixpoint reverse_groups (n : nat) (shifting reversed_7bits encoded_len : Z) : Z * Z :=
  match n with
  | O => (reversed_7bits, encoded_len)
  | S n =>
      if shifting =? 0 then (reversed_7bits, encoded_len)
      else reverse_groups n (Z.shiftr shifting 7)
             (shl32 reversed_7bits 7 ||| (shifting &&& 0x7f)) (encoded_len + 1)
  end.

Fixpoint emit_groups (n : nat) (reversed_7bits : Z) : list Z :=
  match n with
  | O => []
  | S n => (0x80 ||| (reversed_7bits &&& 0x7f)) :: emit_groups n (Z.shiftr reversed_7bits 7)
  end.

Definition vpd_encode_len (len max_len : Z) : vres (list Z) :=
  if len <? 0 then Failed DPU_VPD_ERR
  else
    let '(reversed_7bits, encoded_len) := reverse_groups 5 (u32 len) 0 0 in
    if max_len <? encoded_len then Failed DPU_VPD_ERR_OVERFLOW
    else
      let encoded_len := if encoded_len =? 0 then 1 else encoded_len in
      if max_len <? encoded_len then Undefined
      else
        let encode_buf := emit_groups (Z.to_nat encoded_len) reversed_7bits in
        Done encode_buf.[encoded_len - 1 := encode_buf.[encoded_len - 1] &&& 0x7f].

(** [inp] is the [max_len] bytes from the cursor. *)
Fixpoint decode_len_loop (inp : list Z) (length i : Z) : vres (Z * Z) :=
  match inp with
  | [] => Failed DPU_VPD_ERR_OVERFLOW
  | b :: inp =>
      let more := b &&& 0x80 in
      let length := Z.shiftl length 7 in
      if 2 ^ 31 <=? length then Undefined
      else
        let length := length ||| (b &&& 0x7f) in
        if negb (more =? 0) then decode_len_loop inp length (i + 1) else Done (length, i + 1)
  end.
Definition vpd_decode_len (inp : list Z) : vres (Z * Z) := decode_len_loop inp 0 0.

(** ** Records *)

(** [out] is the bytes generated so far. *)
Definition vpd_encode_string (pair : dpu_vpd_string_pair) (max_buffer_len : Z) (out : list Z)
    : vres (list Z) :=
  if max_buffer_len <=? lenz out then Failed DPU_VPD_ERR_OVERFLOW
  else
    let out := out ++ [u8 (value_type pair)] in
    bytes ← or_status DPU_VPD_ERR (vpd_encode_len (lenz (key pair)) (max_buffer_len - lenz out));
    let out := out ++ bytes in
    if max_buffer_len <? lenz out + lenz (key pair) then Failed DPU_VPD_ERR_OVERFLOW
    else
      let out := out ++ key pair in
      bytes ← or_status DPU_VPD_ERR (vpd_encode_len (lenz (value pair)) (max_buffer_len - lenz out));
      let out := out ++ bytes in
      if max_buffer_len <? lenz out + lenz (value pair) then Failed DPU_VPD_ERR_OVERFLOW
      else Done (out ++ value pair).

Definition drop_z {A} (n : Z) (l : list A) : list A := drop (Z.to_nat n) l.

(** [vpd_decode_cb]: the key and the value are read from the buffer. *)
Definition vpd_decode_cb (buf : list Z) (key_at key_len value_at value_len type : Z)
    (db : dpu_vpd_database) : vres dpu_vpd_database :=
  if lenz buf <? key_at + key_len then Undefined
  else if lenz buf <? value_at + value_len then Undefined
  else
    let key_string := c_string (take (Z.to_nat key_len) (drop_z key_at buf)) in
    Done (vpd_set_string db key_string (take (Z.to_nat value_len) (drop_z value_at buf)) type).

Definition vpd_decode_string (buf : list Z) (consumed : Z) (db : dpu_vpd_database)
    : vres (Z * dpu_vpd_database) :=
  let max_len := lenz buf in
  if max_len <=? consumed then Failed DPU_VPD_ERR_OVERFLOW
  else
    let type := buf.[consumed] in
    if negb (is_vpd_type type) then Failed DPU_VPD_ERR
    else
      let consumed := consumed + 1 in
      '(key_len, decoded_len) ← or_status DPU_VPD_ERR_OVERFLOW (vpd_decode_len (drop_z consumed buf));
      if max_len <=? consumed + decoded_len then Failed DPU_VPD_ERR_OVERFLOW
      else
        let key_at := consumed + decoded_len in
        let consumed := key_at + key_len in
        if 2 ^ 31 <=? consumed then Undefined
        else
          '(value_len, decoded_len) ←
            or_status DPU_VPD_ERR_OVERFLOW (vpd_decode_len (drop_z consumed buf));
          if max_len <? consumed + decoded_len then Failed DPU_VPD_ERR_OVERFLOW
          else
            let value_at := consumed + decoded_len in
            let consumed := value_at + value_len in
            if 2 ^ 31 <=? consumed then Undefined
            else
              db ← vpd_decode_cb buf key_at key_len value_at value_len type db;
              Done (consumed, db).

Definition vpd_encode_container (db : dpu_vpd_database) (max_buf_len : Z) : vres (list Z) :=
  foldl (fun out pair => out ← out; or_status DPU_VPD_ERR (vpd_encode_string pair max_buf_len out))
    (Done []) db.

(** The do-while loop; every turn but the last consumes three bytes at least. *)
Fixpoint decode_loop (fuel : nat) (buf : list Z) (consumed : Z) (db : dpu_vpd_database)
    : vres dpu_vpd_database :=
  match fuel with
  | O => Undefined
  | S fuel =>
      match vpd_decode_string buf consumed db with
      | Done (consumed, db) => decode_loop fuel buf consumed db
      | Failed _ => Done db
      | Undefined => Undefined
      end
  end.
Definition vpd_decode_to_container (buf : list Z) (db : dpu_vpd_database) : vres dpu_vpd_database :=
  decode_loop (S (length buf)) buf 0 db.

(** ** The database functions of [dpu_vpd.c]

    A file is its content; [None] is a file that cannot be opened. *)

Definition bytes_of (s : string) : list Z :=
  map (fun a => Z.of_N (Ascii.N_of_ascii a)) (String.list_ascii_of_string s).
(** The [VPD_ADD] macros: the value is stored as in memory, least significant
    byte first. *)
Definition VPD_ADD_BYTE (k : string) (v : Z) (db : dpu_vpd_database) :=
  vpd_set_string db (bytes_of k) (le_bytes 1 v) VPD_TYPE_BYTE.
Definition VPD_ADD_SHORT (k : string) (v : Z) (db : dpu_vpd_database) :=
  vpd_set_string db (bytes_of k) (le_bytes 2 v) VPD_TYPE_SHORT.
Definition VPD_ADD_INT (k : string) (v : Z) (db : dpu_vpd_database) :=
  vpd_set_string db (bytes_of k) (le_bytes 4 v) VPD_TYPE_INT.
Definition VPD_ADD_LONG (k : string) (v : Z) (db : dpu_vpd_database) :=
  vpd_set_string db (bytes_of k) (le_bytes 8 v) VPD_TYPE_LONG.
Definition VPD_ADD_STRING (k s : string) (db : dpu_vpd_database) :=
  vpd_set_string db (bytes_of k) (bytes_of s) VPD_TYPE_STRING.

Definition dpu_vpd_init_db_e19 (db : dpu_vpd_database) : dpu_vpd_database :=
  let db := VPD_ADD_SHORT "fck" 800 db in
  let db := VPD_ADD_SHORT "fck_min" 10 db in
  let db := VPD_ADD_SHORT "fck_max" 945 db in
  let db := VPD_ADD_BYTE "div_min" 3 db in
  let db := VPD_ADD_BYTE "div_max" 4 db in
  let db := VPD_ADD_SHORT "vdd_limit" 11700 db in
  VPD_ADD_STRING "chip_version" "v1.2" db.

Definition dpu_vpd_init_db_p21 (db : dpu_vpd_database) : dpu_vpd_database :=
  let db := VPD_ADD_SHORT "fck" 700 db in
  let db := VPD_ADD_SHORT "fck_min" 700 db in
  let db := VPD_ADD_SHORT "fck_max" 700 db in
  let db := VPD_ADD_BYTE "div_min" 2 db in
  let db := VPD_ADD_BYTE "div_max" 3 db in
  let db := VPD_ADD_SHORT "ltc7106_rfb1" 909 db in
  let db := VPD_ADD_SHORT "ltc7106_rfb2" 10000 db in
  let db := VPD_ADD_SHORT "ltc7106_vref" 1100 db in
  let db := VPD_ADD_SHORT "ltc7106_vdddpu" 1200 db in
  let db := VPD_ADD_SHORT "vdd_limit" 19000 db in
  VPD_ADD_STRING "chip_version" "v1.3" db.

(** [db_path = None] is [NULL]. *)
Definition dpu_vpd_db_init (dual_rank : Z) (db_path : option (option (list Z)))
    : vres dpu_vpd_database :=
  let db := vpd_init_container in
  match db_path with
  | None =>
      Done (if dual_rank =? 0 then dpu_vpd_init_db_e19 db
            else if dual_rank =? 1 then dpu_vpd_init_db_p21 db else db)
  | Some None => Failed DPU_VPD_ERR
  | Some (Some content) => vpd_decode_to_container (take (Z.to_nat FLASH_SIZE_VPD_DB) content) db
  end.

Definition dpu_vpd_db_update (db : dpu_vpd_database) (k v : list Z) (type : Z) : dpu_vpd_database :=
  vpd_set_string db k v type.

(** The content of the file written. *)
Definition dpu_vpd_db_write (db : dpu_vpd_database) : vres (list Z) :=
  buf ← vpd_encode_container db FLASH_SIZE_VPD_DB;
  let generated := lenz buf in
  if negb (generated mod 2 =? 0) then
    if FLASH_SIZE_VPD_DB <=? generated then Failed DPU_VPD_ERR else Done (buf ++ [0xFF])
  else Done buf.

(** ** The database as a map

    The list holds each key once, in the order in which the keys came. *)

Definition keys (db : dpu_vpd_database) : list (list Z) := map key db.
Definition db_map (db : dpu_vpd_database) : gmap (list Z) (list Z * Z) :=
  list_to_map (map (fun p => (key p, (value p, value_type p))) db).

Lemma find_none db k : vpd_find_string db k = None <-> k ∉ keys db.
Proof.
  induction db as [|p db IH]; cbn; [by split; [intros _ ?%not_elem_of_nil|]|].
  case_decide as Hk; rewrite elem_of_cons; [naive_solver|]. rewrite IH. naive_solver.
Qed.

Lemma keys_replace db p : keys (vpd_replace db p) = keys db.
Proof. induction db as [|q db IH]; [done|]. cbn. case_decide as Hk; cbn; [by rewrite Hk|f_equal; exact IH]. Qed.

Lemma db_map_replace db p : key p ∈ keys db ->
  db_map (vpd_replace db p) = <[key p := (value p, value_type p)]> (db_map db).
Proof.
  unfold db_map. induction db as [|q db IH]; [by intros ?%not_elem_of_nil|].
  intros Hin. cbn. case_decide as Hk; cbn.
  - rewrite <-Hk. by rewrite insert_insert_eq.
  - rewrite IH; [|by apply elem_of_cons in Hin as [?|?]]. by rewrite insert_insert_ne.
Qed.

Lemma keys_set db k v type :
  keys (vpd_set_string db k v type) = if decide (k ∈ keys db) then keys db else keys db ++ [k].
Proof.
  unfold vpd_set_string. destruct (vpd_find_string db k) eqn:Hf.
  - rewrite keys_replace. case_decide as Hk; [done|]. apply find_none in Hk. congruence.
  - apply find_none in Hf. rewrite decide_False by done. unfold keys. by rewrite map_app.
Qed.

Lemma NoDup_keys_set db k v type : NoDup (keys db) -> NoDup (keys (vpd_set_string db k v type)).
Proof.
  intros Hn. rewrite keys_set. case_decide; [done|]. apply list_relations.list.NoDup_app. split_and!; [done| |apply NoDup_singleton].
  by intros k' Hk ->%list_elem_of_singleton.
Qed.

Lemma db_map_set db k v type : NoDup (keys db) ->
  db_map (vpd_set_string db k v type) = <[k := (v, type)]> (db_map db).
Proof.
  intros Hn. unfold vpd_set_string. destruct (vpd_find_string db k) eqn:Hf.
  - apply (db_map_replace db (mk_pair k v type)). cbn.
    destruct (decide (k ∈ keys db)) as [|Hk]; [done|]. apply find_none in Hk. congruence.
  - apply find_none in Hf. unfold db_map. rewrite map_app, list_to_map_app. cbn.
    rewrite insert_empty. rewrite <-insert_union_singleton_r; [done|].
    apply not_elem_of_list_to_map_1. rewrite <-list_fmap_compose. exact Hf.
Qed.

Lemma find_spec db k : vpd_find_string db k =
  (fun '(v, type) => mk_pair k v type) <$> db_map db !! k.
Proof.
  unfold db_map. induction db as [|p db IH]; [done|]. cbn. case_decide as Hk.
  - subst k. rewrite lookup_insert_eq. by destruct p.
  - rewrite lookup_insert_ne by done. done.
Qed.

(** ** Lengths, one group of 7 bits at a time *)

Lemma low_group q d : 0 <= d < 128 -> (128 * q + d) &&& 0x7f = d.
Proof.
  intros Hd. rewrite (land_ones_mod _ 7) by lia. change (2 ^ 7) with 128.
  rewrite Z.add_comm, Z.mul_comm, Z.mod_add by lia. by apply Z.mod_small.
Qed.
Lemma high_groups q d : 0 <= d < 128 -> Z.shiftr (128 * q + d) 7 = q.
Proof.
  intros Hd. rewrite Z.shiftr_div_pow2 by lia. change (2 ^ 7) with 128.
  rewrite Z.add_comm, Z.mul_comm, Z.div_add by lia. by rewrite Z.div_small.
Qed.
Lemma push_group x d : 0 <= d < 128 -> Z.shiftl x 7 ||| d = 128 * x + d.
Proof.
  intros Hd. rewrite Z.shiftl_mul_pow2 by lia. change (2 ^ 7) with 128.
  rewrite <-Z.add_lor_land. rewrite (Z.mul_comm 128).
  assert (Z.land (x * 128) d = 0) as ->; [|lia].
  apply Z.bits_inj'. intros i Hi. rewrite Z.land_spec, Z.testbit_0_l.
  change 128 with (2 ^ 7). destruct (Z.ltb_spec i 7).
  - by rewrite Z.mul_pow2_bits_low by lia.
  - rewrite (proj1 (fits_testbit 7 d ltac:(lia) ltac:(lia))); [by rewrite andb_false_r| |lia].
    unfold fits. change (2 ^ 7) with 128. lia.
Qed.

Lemma reverse_stop n rev k : reverse_groups (S n) 0 rev k = (rev, k).
Proof. done. Qed.
Lemma reverse_step n q d rev k : 0 <= d < 128 -> 128 * q + d <> 0 -> 0 <= rev < 2 ^ 21 ->
  reverse_groups (S n) (128 * q + d) rev k = reverse_groups n q (128 * rev + d) (k + 1).
Proof.
  intros Hd Hz Hrev. cbn [reverse_groups]. rewrite (proj2 (Z.eqb_neq _ _) Hz).
  rewrite high_groups, low_group by done. f_equal. rewrite <-push_group by done. f_equal.
  unfold shl32. apply u32_id. rewrite Z.shiftl_mul_pow2 by lia. unfold fits. lia.
Qed.
Lemma emit_step n q d : 0 <= d < 128 -> emit_groups (S n) (128 * q + d) = (128 + d) :: emit_groups n q.
Proof.
  intros Hd. cbn [emit_groups]. rewrite high_groups, low_group by done. f_equal. revert d Hd. by_eval.
Qed.
Lemma emit_last d : 0 <= d < 128 -> emit_groups 1 d = [128 + d].
Proof. intros Hd. by rewrite <-(Z.add_0_l d), <-(Z.mul_0_r 128), emit_step at 1. Qed.
Lemma group_bits d : 0 <= d < 128 ->
  (128 + d) &&& 0x80 = 128 /\ (128 + d) &&& 0x7f = d /\ d &&& 0x80 = 0 /\ d &&& 0x7f = d.
Proof. intros Hd. revert d Hd. by_eval. Qed.
Lemma decode_more d l len i : 0 <= d < 128 -> 0 <= len < 2 ^ 24 ->
  decode_len_loop ((128 + d) :: l) len i = decode_len_loop l (128 * len + d) (i + 1).
Proof.
  intros Hd Hl. destruct (group_bits d Hd) as (H1 & H2 & _). cbn [decode_len_loop]. rewrite H1, H2.
  rewrite push_group by done. rewrite (proj2 (Z.leb_gt _ _)); [done|].
  rewrite Z.shiftl_mul_pow2 by lia. lia.
Qed.
Lemma decode_last d l len i : 0 <= d < 128 -> 0 <= len < 2 ^ 24 ->
  decode_len_loop (d :: l) len i = Done (128 * len + d, i + 1).
Proof.
  intros Hd Hl. destruct (group_bits d Hd) as (_ & _ & H1 & H2). cbn [decode_len_loop]. rewrite H1, H2.
  rewrite push_group by done. rewrite (proj2 (Z.leb_gt _ _)); [done|].
  rewrite Z.shiftl_mul_pow2 by lia. lia.
Qed.

(** A length below 2^28 is four groups at most. *)
Lemma four_groups len : 0 <= len < 2 ^ 28 -> exists d3 d2 d1 d0,
  (0 <= d0 < 128 /\ 0 <= d1 < 128 /\ 0 <= d2 < 128 /\ 0 <= d3 < 128) /\
  len = 128 * (128 * (128 * (128 * 0 + d3) + d2) + d1) + d0.
Proof.
  intros Hl. exists (len / 128 / 128 / 128), (len / 128 / 128 mod 128), (len / 128 mod 128), (len mod 128).
  assert (forall x, 0 <= x mod 128 < 128) as Hm by (intros; by apply Z.mod_pos_bound).
  pose proof (Z.div_mod len 128 ltac:(done)).
  pose proof (Z.div_mod (len / 128) 128 ltac:(done)).
  pose proof (Z.div_mod (len / 128 / 128) 128 ltac:(done)).
  pose proof (Hm len). pose proof (Hm (len / 128)). pose proof (Hm (len / 128 / 128)).
  split; [split_and!; try done; lia|lia].
Qed.

(** The steps of a length of [n] groups. *)
Ltac len_case n :=
  rewrite !reverse_step by lia; change (128 * 0 + 0) with 0; rewrite ?Z.mul_0_r, ?Z.add_0_l, reverse_stop;
  lazymatch goal with |- context [?max <? ?k] =>
    replace k with (Z.of_nat n) by lia; destruct (Z.ltb_spec max (Z.of_nat n)); [done|] end;
  rewrite (proj2 (Z.eqb_neq _ 0)) by lia; rewrite (proj2 (Z.ltb_ge _ _)) by lia;
  rewrite Nat2Z.id, ?emit_step, emit_last by lia; unfold setz, getz;
  replace (Z.to_nat (Z.of_nat n - 1)) with (Nat.pred n) by lia; cbn [Nat.pred];
  intros [= <-]; cbn [insert list_insert lookup_total list_lookup_total app];
  lazymatch goal with |- context [(128 + ?d) &&& 127] =>
    rewrite (proj1 (proj2 (group_bits d ltac:(lia)))) end;
  rewrite ?decode_more, decode_last by lia;
  split; [unfold lenz; cbn [length]; lia|unfold lenz; cbn [length]; do 2 f_equal; lia].

(** What [vpd_encode_len] writes, [vpd_decode_len] reads back. *)
Lemma decode_encode_len len max_len bytes rest : 0 <= len < 2 ^ 28 ->
  vpd_encode_len len max_len = Done bytes ->
  0 < lenz bytes <= max_len /\ vpd_decode_len (bytes ++ rest) = Done (len, lenz bytes).
Proof.
  intros Hl. unfold vpd_encode_len, vpd_decode_len. rewrite (proj2 (Z.ltb_ge _ _)) by lia.
  rewrite u32_id by (unfold fits; lia).
  destruct (four_groups len Hl) as (d3 & d2 & d1 & d0 & (H0 & H1 & H2 & H3) & ->).
  assert (d3 <> 0 \/ d3 = 0 /\ d2 <> 0 \/ d3 = 0 /\ d2 = 0 /\ d1 <> 0 \/
    d3 = 0 /\ d2 = 0 /\ d1 = 0 /\ d0 <> 0 \/ d3 = 0 /\ d2 = 0 /\ d1 = 0 /\ d0 = 0)
    as [Hd|[[-> Hd]|[(-> & -> & Hd)|[(-> & -> & -> & Hd)|(-> & -> & -> & ->)]]]] by lia;
    change (128 * 0 + 0) with 0.
  - len_case 4%nat.
  - len_case 3%nat.
  - len_case 2%nat.
  - len_case 1%nat.
  - rewrite reverse_stop. destruct (Z.ltb_spec max_len 0); [done|]. cbn [Z.eqb].
    destruct (Z.ltb_spec max_len 1); [done|]. intros [= <-].
    lazymatch goal with |- context [lenz ?b] => change b with [0] end.
    change (lenz [0]) with 1. split; [lia|done].
Qed.

(** ** Records *)

Lemma drop_z_app {A} (l1 l2 : list A) : drop_z (lenz l1) (l1 ++ l2) = l2.
Proof. unfold drop_z, lenz. rewrite Nat2Z.id. apply drop_app_length. Qed.
Lemma take_z_app {A} (l1 l2 : list A) : take (Z.to_nat (lenz l1)) (l1 ++ l2) = l1.
Proof. unfold lenz. rewrite Nat2Z.id. apply take_app_length. Qed.
Lemma lenz_nonneg {A} (l : list A) : 0 <= lenz l.
Proof. unfold lenz. lia. Qed.

(** The pairs that the functions of the library make. *)
Record wf_pair (p : dpu_vpd_string_pair) : Prop := {
  wp_key : Forall (fun b => 0 < b < 256) (key p);
  wp_value : Forall (fun b => 0 <= b < 256) (value p);
  wp_type : is_vpd_type (value_type p) = true;
}.
Definition wf_db (db : dpu_vpd_database) : Prop := Forall wf_pair db /\ NoDup (keys db).

Lemma c_string_id bytes : Forall (fun b => 0 < b < 256) bytes -> c_string bytes = bytes.
Proof.
  induction 1 as [|b bytes Hb _ IH]; [done|]. cbn. rewrite (proj2 (Z.eqb_neq b 0)) by lia. by rewrite IH.
Qed.

Lemma vpd_type_byte type : is_vpd_type type = true -> u8 type = type.
Proof.
  unfold is_vpd_type, VPD_TYPE_STRING, VPD_TYPE_BYTE, VPD_TYPE_SHORT, VPD_TYPE_INT, VPD_TYPE_LONG,
    VPD_TYPE_BYTEARRAY. intros H. apply u8_id. unfold fits. change (2 ^ 8) with 256.
  rewrite !orb_true_iff, !Z.eqb_eq in H. lia.
Qed.

(** The layout of a record. *)
Definition record_bytes (p : dpu_vpd_string_pair) (key_len value_len : list Z) : list Z :=
  value_type p :: key_len ++ key p ++ value_len ++ value p.

Lemma lenz_record p kl vl :
  lenz (record_bytes p kl vl) = 1 + lenz kl + lenz (key p) + lenz vl + lenz (value p).
Proof. unfold record_bytes, lenz. cbn [length]. rewrite !length_app. lia. Qed.

Lemma encode_string_layout p max out out' : wf_pair p -> max < 2 ^ 28 ->
  vpd_encode_string p max out = Done out' ->
  exists kl vl, out' = out ++ record_bytes p kl vl /\ lenz out' <= max /\
    0 < lenz kl /\ 0 < lenz vl /\
    (forall rest, vpd_decode_len (kl ++ rest) = Done (lenz (key p), lenz kl)) /\
    (forall rest, vpd_decode_len (vl ++ rest) = Done (lenz (value p), lenz vl)).
Proof.
  intros Hp Hmax. unfold vpd_encode_string. rewrite (vpd_type_byte _ (wp_type _ Hp)).
  pose proof (lenz_nonneg out). pose proof (lenz_nonneg (key p)). pose proof (lenz_nonneg (value p)).
  destruct (Z.leb_spec max (lenz out)); [done|].
  destruct (vpd_encode_len (lenz (key p)) _) as [kl| |] eqn:Hk; cbn [or_status mbind vres_bind]; [|done..].
  case_bool; [done|]. zb2p.
  destruct (vpd_encode_len (lenz (value p)) _) as [vl| |] eqn:Hv; cbn [or_status mbind vres_bind]; [|done..].
  case_bool; [done|]. zb2p. intros [= <-].
  pose proof (lenz_nonneg kl). pose proof (lenz_nonneg vl). rewrite !lenz_app in *.
  assert (lenz [value_type p] = 1) as L1 by done. rewrite L1 in *.
  assert (forall rest, 0 < lenz kl /\ vpd_decode_len (kl ++ rest) = Done (lenz (key p), lenz kl)) as Hdk.
  { intros rest. destruct (decode_encode_len (lenz (key p)) _ _ rest ltac:(lia) Hk) as [[? _] ?]. done. }
  assert (forall rest, 0 < lenz vl /\ vpd_decode_len (vl ++ rest) = Done (lenz (value p), lenz vl)) as Hdv.
  { intros rest. destruct (decode_encode_len (lenz (value p)) _ _ rest ltac:(lia) Hv) as [[? _] ?]. done. }
  exists kl, vl. split_and!; try apply Hdk; try apply Hdv; try done; try exact [].
  unfold record_bytes. by rewrite <-!app_assoc.
Qed.

Lemma decode_string_record p kl vl pre rest db : wf_pair p ->
  0 < lenz kl -> 0 < lenz vl ->
  (forall rest, vpd_decode_len (kl ++ rest) = Done (lenz (key p), lenz kl)) ->
  (forall rest, vpd_decode_len (vl ++ rest) = Done (lenz (value p), lenz vl)) ->
  let buf := pre ++ record_bytes p kl vl ++ rest in
  lenz buf < 2 ^ 31 ->
  vpd_decode_string buf (lenz pre) db =
    Done (lenz (pre ++ record_bytes p kl vl), vpd_set_string db (key p) (value p) (value_type p)).
Proof.
  intros Hp Hkl Hvl Hk Hv buf Hbuf. unfold vpd_decode_string.
  pose proof (lenz_nonneg pre). pose proof (lenz_nonneg rest).
  pose proof (lenz_nonneg (key p)). pose proof (lenz_nonneg (value p)).
  assert (lenz buf = lenz pre + 1 + lenz kl + lenz (key p) + lenz vl + lenz (value p) + lenz rest) as Hl.
  { unfold buf. rewrite !lenz_app, lenz_record. lia. }
  assert (buf = (pre ++ [value_type p]) ++ kl ++ key p ++ vl ++ value p ++ rest) as E1
    by (unfold buf, record_bytes; cbn; by rewrite <-!app_assoc; cbn; rewrite <-?app_assoc).
  assert (buf = (pre ++ [value_type p] ++ kl) ++ key p ++ vl ++ value p ++ rest) as E2
    by (rewrite E1, <-!app_assoc; done).
  assert (buf = (pre ++ [value_type p] ++ kl ++ key p) ++ vl ++ value p ++ rest) as E3
    by (rewrite E1, <-!app_assoc; done).
  assert (buf = (pre ++ [value_type p] ++ kl ++ key p ++ vl) ++ value p ++ rest) as E4
    by (rewrite E1, <-!app_assoc; done).
  assert (lenz [value_type p] = 1) as L1 by done.
  rewrite (proj2 (Z.leb_gt _ _)) by lia.
  assert (buf.[lenz pre] = value_type p) as ->.
  { unfold buf. rewrite getz_app_r, Z.sub_diag by lia. done. }
  rewrite (wp_type _ Hp). cbn [negb].
  replace (lenz pre + 1) with (lenz (pre ++ [value_type p])) by (rewrite lenz_app; lia).
  rewrite E1 at 1. rewrite drop_z_app, Hk. cbn [or_status mbind vres_bind]. cbv beta iota.
  rewrite (proj2 (Z.leb_gt _ _)) by (rewrite lenz_app; lia).
  rewrite (proj2 (Z.leb_gt _ _)) by (rewrite lenz_app; lia).
  replace (lenz (pre ++ [value_type p]) + lenz kl + lenz (key p))
    with (lenz (pre ++ [value_type p] ++ kl ++ key p)) by (rewrite !lenz_app; lia).
  rewrite E3 at 1. rewrite drop_z_app, Hv. cbn [or_status mbind vres_bind]. cbv beta iota.
  rewrite (proj2 (Z.ltb_ge _ _)) by (rewrite !lenz_app; lia).
  rewrite (proj2 (Z.leb_gt _ _)) by (rewrite !lenz_app; lia).
  unfold vpd_decode_cb. rewrite (proj2 (Z.ltb_ge _ _)) by (rewrite !lenz_app; lia).
  rewrite (proj2 (Z.ltb_ge _ _)) by (rewrite !lenz_app; lia). cbn [mbind vres_bind].
  replace (lenz (pre ++ [value_type p]) + lenz kl) with (lenz (pre ++ [value_type p] ++ kl))
    by (rewrite !lenz_app; lia).
  rewrite E2 at 1. rewrite drop_z_app, take_z_app, (c_string_id _ (wp_key _ Hp)).
  replace (lenz (pre ++ [value_type p] ++ kl ++ key p) + lenz vl)
    with (lenz (pre ++ [value_type p] ++ kl ++ key p ++ vl)) by (rewrite !lenz_app; lia).
  rewrite E4 at 1. rewrite drop_z_app, take_z_app. do 2 f_equal.
  rewrite !lenz_app, lenz_record. lia.
Qed.

(** ** Sizes *)

Definition len_size (len : Z) : Z :=
  let n := snd (reverse_groups 5 (u32 len) 0 0) in if n =? 0 then 1 else n.
Definition pair_size (p : dpu_vpd_string_pair) : Z :=
  1 + len_size (lenz (key p)) + lenz (key p) + len_size (lenz (value p)) + lenz (value p).
Fixpoint db_size (db : dpu_vpd_database) : Z :=
  match db with [] => 0 | p :: db => pair_size p + db_size db end.

Lemma reverse_groups_nonneg n s rev k : 0 <= k -> k <= snd (reverse_groups n s rev k).
Proof.
  revert s rev k. induction n as [|n IH]; intros s rev k Hk; cbn; [lia|].
  case_bool; cbn; [lia|]. specialize (IH (Z.shiftr s 7) (shl32 rev 7 ||| (s &&& 0x7f)) (k + 1)). lia.
Qed.
Lemma len_size_pos len : 0 < len_size len.
Proof.
  unfold len_size. pose proof (reverse_groups_nonneg 5 (u32 len) 0 0 ltac:(lia)).
  case_bool; zb2p; lia.
Qed.
Lemma length_emit n rev : length (emit_groups n rev) = n.
Proof. revert rev. induction n as [|n IH]; intros rev; [done|]. cbn [emit_groups length]. by rewrite IH. Qed.

Lemma encode_len_done len max : 0 <= len -> len_size len <= max ->
  exists bytes, vpd_encode_len len max = Done bytes /\ lenz bytes = len_size len.
Proof.
  intros Hl Hm. pose proof (len_size_pos len) as Hp. unfold vpd_encode_len, len_size in *.
  rewrite (proj2 (Z.ltb_ge _ _)) by lia. pose proof (reverse_groups_nonneg 5 (u32 len) 0 0 ltac:(lia)).
  destruct (reverse_groups 5 (u32 len) 0 0) as [rev n]. cbn [snd] in *.
  assert (n <= (if n =? 0 then 1 else n)) by (case_bool; zb2p; lia).
  rewrite (proj2 (Z.ltb_ge max n)) by lia. rewrite (proj2 (Z.ltb_ge max _)) by lia.
  eexists. split; [done|]. rewrite lenz_setz. unfold lenz. rewrite length_emit. lia.
Qed.

Lemma encode_string_done p max out : wf_pair p -> lenz out + pair_size p <= max ->
  exists out', vpd_encode_string p max out = Done out' /\ lenz out' = lenz out + pair_size p.
Proof.
  intros Hp Hs. unfold pair_size in *. unfold vpd_encode_string.
  pose proof (lenz_nonneg out). pose proof (lenz_nonneg (key p)). pose proof (lenz_nonneg (value p)).
  pose proof (len_size_pos (lenz (key p))). pose proof (len_size_pos (lenz (value p))).
  rewrite (proj2 (Z.leb_gt _ _)) by lia.
  assert (lenz (out ++ [u8 (value_type p)]) = lenz out + 1) as Ht by (rewrite lenz_app; done).
  destruct (encode_len_done (lenz (key p)) (max - lenz (out ++ [u8 (value_type p)]))) as (kl & -> & Hkl); [lia..|].
  cbn [or_status mbind vres_bind]. rewrite (proj2 (Z.ltb_ge _ _)) by (rewrite lenz_app; lia).
  destruct (encode_len_done (lenz (value p)) (max - lenz (((out ++ [u8 (value_type p)]) ++ kl) ++ key p)))
    as (vl & -> & Hvl); [lia|rewrite !(lenz_app _ (key p)), !(lenz_app _ kl); lia|].
  cbn [or_status mbind vres_bind].
  assert (lenz ((((out ++ [u8 (value_type p)]) ++ kl) ++ key p) ++ vl) =
    lenz out + 1 + lenz kl + lenz (key p) + lenz vl) as Hall
    by (rewrite (lenz_app _ vl), (lenz_app _ (key p)), (lenz_app _ kl); lia).
  rewrite (proj2 (Z.ltb_ge _ _)) by lia. eexists. split; [done|]. rewrite lenz_app. lia.
Qed.

(** ** The container *)

Definition encode_step (max : Z) (out : vres (list Z)) (p : dpu_vpd_string_pair) : vres (list Z) :=
  out ← out; or_status DPU_VPD_ERR (vpd_encode_string p max out).
Definition add_pair (db : dpu_vpd_database) (p : dpu_vpd_string_pair) : dpu_vpd_database :=
  vpd_set_string db (key p) (value p) (value_type p).

(** A container that fits is encoded; the bytes, whatever follows them, are
    decoded one record per turn. *)
Lemma encode_container_loop max ps out : Forall wf_pair ps -> max < 2 ^ 28 ->
  lenz out + db_size ps <= max ->
  exists out', foldl (encode_step max) (Done out) ps = Done out' /\
    lenz out' = lenz out + db_size ps /\ (exists tail, out' = out ++ tail) /\
    forall fuel rest db, lenz (out' ++ rest) < 2 ^ 31 ->
      decode_loop (length ps + fuel) (out' ++ rest) (lenz out) db =
      decode_loop fuel (out' ++ rest) (lenz out') (foldl add_pair db ps).
Proof.
  intros Hps Hmax. revert out. induction Hps as [|p ps Hp Hps IH]; intros out Hs.
  { exists out. cbn. split_and!; [done|lia|by exists []; rewrite app_nil_r|done]. }
  cbn [db_size foldl] in *. assert (0 <= db_size ps) as Hnn.
  { clear. induction ps as [|p ps IH]; cbn; [done|]. unfold pair_size.
    pose proof (len_size_pos (lenz (key p))). pose proof (len_size_pos (lenz (value p))).
    pose proof (lenz_nonneg (key p)). pose proof (lenz_nonneg (value p)). lia. }
  destruct (encode_string_done p max out Hp ltac:(lia)) as (out1 & He & Hl1).
  destruct (encode_string_layout p max out out1 Hp Hmax He) as (kl & vl & E1 & _ & Hkl & Hvl & Hdk & Hdv).
  destruct (IH out1 ltac:(lia)) as (out' & Hf & Hl' & [tail Htail] & Hdec).
  exists out'. split_and!; [|lia|exists (record_bytes p kl vl ++ tail); by rewrite Htail, E1, app_assoc|].
  { unfold encode_step at 2. cbn [mbind vres_bind]. rewrite He. exact Hf. }
  intros fuel rest db Hlen. cbn [length Nat.add decode_loop].
  assert (out' ++ rest = out ++ record_bytes p kl vl ++ (tail ++ rest)) as Hbuf
    by (by rewrite Htail, E1, <-!app_assoc).
  rewrite Hbuf at 1. rewrite (decode_string_record p kl vl out (tail ++ rest) db Hp Hkl Hvl Hdk Hdv)
    by (rewrite <-Hbuf; exact Hlen).
  rewrite <-E1. by apply Hdec.
Qed.

Lemma foldl_add_pair acc ps : NoDup (keys (acc ++ ps)) -> foldl add_pair acc ps = acc ++ ps.
Proof.
  revert acc. induction ps as [|p ps IH]; intros acc Hn; [by rewrite app_nil_r|].
  cbn [foldl]. assert (add_pair acc p = acc ++ [p]) as ->.
  { unfold add_pair, vpd_set_string. rewrite (proj2 (find_none acc (key p))); [by destruct p|].
    unfold keys in Hn. rewrite map_app in Hn. apply list_relations.list.NoDup_app in Hn as (_ & Hn & _).
    intros Hin. apply (Hn _ Hin). cbn. constructor. }
  rewrite IH; rewrite <-app_assoc; done.
Qed.

Lemma db_size_length ps : 3 * lenz ps <= db_size ps.
Proof.
  induction ps as [|p ps IH]; [done|]. cbn [db_size]. unfold pair_size.
  pose proof (len_size_pos (lenz (key p))). pose proof (len_size_pos (lenz (value p))).
  pose proof (lenz_nonneg (key p)). pose proof (lenz_nonneg (value p)).
  unfold lenz in *. cbn [length]. lia.
Qed.

(** More fuel does not change what is decoded: it is enough. *)
Lemma decode_len_bounds inp len i len' i' : 0 <= len -> decode_len_loop inp len i = Done (len', i') ->
  0 <= len' /\ i < i' <= i + lenz inp.
Proof.
  revert len i. induction inp as [|b inp IH]; intros len i Hl; [done|]. cbn [decode_len_loop].
  case_bool; [done|]. assert (0 <= Z.shiftl len 7 ||| (b &&& 0x7f)).
  { apply Z.lor_nonneg. split; [by apply Z.shiftl_nonneg|apply Z.land_nonneg; right; lia]. }
  unfold lenz. cbn [length]. case_bool.
  - intros Hd. destruct (IH _ _ ltac:(eassumption) Hd). unfold lenz in *. lia.
  - intros [= <- <-]. lia.
Qed.

Lemma decode_string_progress buf c db c' db' : 0 <= c ->
  vpd_decode_string buf c db = Done (c', db') -> c < c' <= lenz buf.
Proof.
  intros Hc. unfold vpd_decode_string. case_bool; [done|]. zb2p. case_bool; [done|].
  destruct (vpd_decode_len (drop_z (c + 1) buf)) as [[kl n1]| |] eqn:H1; cbn [or_status mbind vres_bind]; [|done..].
  apply decode_len_bounds in H1 as [Hkl Hn1]; [|done].
  case_bool; [done|]. case_bool; [done|].
  destruct (vpd_decode_len (drop_z (c + 1 + n1 + kl) buf)) as [[vl n2]| |] eqn:H2; cbn [or_status mbind vres_bind]; [|done..].
  apply decode_len_bounds in H2 as [Hvl Hn2]; [|done].
  case_bool; [done|]. case_bool; [done|]. unfold vpd_decode_cb.
  case_bool; [done|]. case_bool; [done|]. cbn. intros [= <- <-]. zb2p. lia.
Qed.

Lemma decode_loop_fuel n1 n2 buf c db : 0 <= c ->
  lenz buf - c < Z.of_nat n1 -> lenz buf - c < Z.of_nat n2 -> (0 < n1)%nat -> (0 < n2)%nat ->
  decode_loop n1 buf c db = decode_loop n2 buf c db.
Proof.
  revert n2 c db. induction n1 as [|n1 IH]; intros n2 c db Hc H1 H2 Hp1 Hp2; [lia|].
  destruct n2 as [|n2]; [lia|]. cbn [decode_loop].
  destruct (vpd_decode_string buf c db) as [[c' db']| |] eqn:Hd; [|done..].
  apply decode_string_progress in Hd; [|done]. apply IH; lia.
Qed.

(** ** Properties *)

(** C39: the container is a map from keys to typed values: setting a key is the
    insertion in the map, looking a key up is the lookup of the map, and the
    list never holds a key twice. *)
Theorem vpd_set_string_refines_map db k v type :
  NoDup (keys db) ->
  NoDup (keys (vpd_set_string db k v type)) /\
  db_map (vpd_set_string db k v type) = <[k := (v, type)]> (db_map db) /\
  forall k', vpd_find_string (vpd_set_string db k v type) k' =
    if decide (k' = k) then Some (mk_pair k v type) else vpd_find_string db k'.
Proof.
  intros Hn. split_and!; [by apply NoDup_keys_set|by apply db_map_set|]. intros k'.
  rewrite !find_spec, db_map_set by done. case_decide as Hk.
  - subst k'. by rewrite lookup_insert_eq.
  - by rewrite lookup_insert_ne.
Qed.

(** a database whose encoding fits the flash partition is written, and the
    file it is written to, the padding byte included, is read back as the same
    database, in the same order. *)
Theorem db_file_roundtrip db dual_rank :
  wf_db db -> db_size db <= FLASH_SIZE_VPD_DB ->
  exists content, dpu_vpd_db_write db = Done content /\
    lenz content mod 2 = 0 /\ dpu_vpd_db_init dual_rank (Some (Some content)) = Done db.
Proof.
  intros [Hps Hn] Hs. change FLASH_SIZE_VPD_DB with 4096 in *.
  destruct (encode_container_loop 4096 db [] Hps ltac:(done) Hs) as (buf & He & Hl & _ & Hdec).
  change (lenz []) with 0 in Hl, Hdec. rewrite Z.add_0_l in Hl.
  assert (forall rest, lenz rest <= 1 -> (forall d, exists e,
      vpd_decode_string (buf ++ rest) (lenz buf) d = Failed e) -> lenz (buf ++ rest) <= 4096 ->
    dpu_vpd_db_init dual_rank (Some (Some (buf ++ rest))) = Done db) as Hinit.
  { intros rest Hr Hend Hle. unfold dpu_vpd_db_init, vpd_decode_to_container, vpd_init_container.
    change FLASH_SIZE_VPD_DB with 4096. rewrite take_ge by (unfold lenz in Hle; lia).
    pose proof (db_size_length db) as Hdl. pose proof (lenz_nonneg rest) as Hr0.
    assert (S (length (buf ++ rest)) = length db + (S (length (buf ++ rest)) - length db))%nat as ->.
    { unfold lenz in *. rewrite length_app. lia. }
    rewrite Hdec, (foldl_add_pair []) by (done || lia).
    destruct (S (length (buf ++ rest)) - length db)%nat as [|fuel] eqn:Hf.
    { unfold lenz in *. rewrite length_app in Hf. lia. }
    cbn [decode_loop app]. by destruct (Hend db) as [e ->]. }
  unfold dpu_vpd_db_write, vpd_encode_container. change FLASH_SIZE_VPD_DB with 4096.
  fold (encode_step 4096). rewrite He. cbn [mbind vres_bind].
  destruct (Z.eqb_spec (lenz buf mod 2) 0) as [Heven|Hodd]; cbn [negb].
  - exists buf. split_and!; [done..|]. rewrite <-(app_nil_r buf). apply Hinit; [done| |rewrite app_nil_r; lia].
    intros d. exists DPU_VPD_ERR_OVERFLOW. unfold vpd_decode_string. rewrite app_nil_r.
    by rewrite (proj2 (Z.leb_le _ _)) by lia.
  - destruct (Z.leb_spec 4096 (lenz buf)) as [Hge|Hlt].
    { replace (lenz buf) with 4096 in Hodd by lia. done. }
    exists (buf ++ [0xFF]). split_and!; [done| |].
    + rewrite lenz_app. change (lenz [0xFF]) with 1.
      pose proof (Z.mod_pos_bound (lenz buf) 2 ltac:(done)).
      rewrite <-Z.add_mod_idemp_l by done. by replace (lenz buf mod 2) with 1 by lia.
    + apply Hinit; [done| |rewrite lenz_app; change (lenz [0xFF]) with 1; lia].
      intros d. exists DPU_VPD_ERR. unfold vpd_decode_string.
      rewrite lenz_app. change (lenz [0xFF]) with 1. rewrite (proj2 (Z.leb_gt _ _)) by lia.
      rewrite getz_app_r, Z.sub_diag by lia. done.
Qed.

(** decoding does not check what it reads: a record whose value is longer
    than the buffer makes [vpd_decode_cb] copy bytes past its end, and a length
    of five groups overflows the [int]; encoding writes one byte past the end of
    the buffer for an empty value after which no room is left, and loses
    three bits of a length above 2^28. *)
Theorem vpd_unchecked_lengths :
  vpd_decode_to_container [VPD_TYPE_BYTE; 1; 0x61; 0x7F] [] = Undefined /\
  vpd_decode_to_container [VPD_TYPE_BYTE; 0x88; 0x80; 0x80; 0x80; 0x00; 0] [] = Undefined /\
  vpd_encode_string (mk_pair [0x61; 0x62] [] VPD_TYPE_STRING) 4 [] = Undefined /\
  vpd_encode_len (2 ^ 28 + 0x70) 16 = Done [0x81; 0x80; 0x80; 0x80; 0] /\
  vpd_decode_len [0x81; 0x80; 0x80; 0x80; 0] = Done (2 ^ 28, 5).
Proof. vm_compute. repeat split. Qed.

Lemma vpd_set_string_refines_map_witness :
  let db := dpu_vpd_init_db_e19 [] in
  vpd_find_string (vpd_set_string db (bytes_of "fck") (le_bytes 2 600) VPD_TYPE_SHORT) (bytes_of "div_min") =
    Some (mk_pair (bytes_of "div_min") [3] VPD_TYPE_BYTE).
Proof.
  assert (NoDup (keys (dpu_vpd_init_db_e19 []))) as Hn by by_eval.
  etrans; [apply (vpd_set_string_refines_map _ (bytes_of "fck") (le_bytes 2 600) VPD_TYPE_SHORT Hn)|].
  vm_compute. reflexivity.
Defined.

#[export] Instance wf_pair_dec p : Decision (wf_pair p).
Proof.
  refine (cast_if (decide (Forall (fun b => 0 < b < 256) (key p) /\
    Forall (fun b => 0 <= b < 256) (value p) /\ is_vpd_type (value_type p) = true)));
    [abstract (by split; destruct_and!)|abstract (intros []; naive_solver)].
Defined.

Lemma db_file_roundtrip_witness : exists content,
  dpu_vpd_db_write (dpu_vpd_init_db_p21 []) = Done content /\ lenz content mod 2 = 0 /\
  dpu_vpd_db_init 0 (Some (Some content)) = Done (dpu_vpd_init_db_p21 []).
Proof.
  apply (db_file_roundtrip (dpu_vpd_init_db_p21 []) 0); [split; by_eval|by_eval].
Defined.
