(* ===== verification/Vpd.v ===== *)
(** * The vital product data of a module

    Model of the functions of [src/vpd/src/dpu_vpd.c] on [struct dpu_vpd]: a
    header with, for each rank, the bitmaps of the DPUs that are disabled or
    whose memories need a repair, followed by the list of repairs; its image in
    a file, and its updates. The structures are written to the file as they are
    in memory (little-endian, without padding between the fields). A file is
    its bytes; running the flash tools is not modelled. *)

From S2P Require Import Prelude VpdDb.

#[local] Open Scope Z_scope.
#[local] Open Scope dpu_scope.

Definition VPD_MAX_RANK := 4.
(** "UPMV". *)
Definition VPD_STRUCT_ID := [0x55; 0x50; 0x4D; 0x56].
Definition VPD_STRUCT_VERSION := 0x0004000.
Definition VPD_MAX_SIZE := 2048.
Definition VPD_UNDEFINED_REPAIR_COUNT := 0xFFFF.
Definition VPD_SIZE_CHUNK_MULTIPLE := 272.
Definition DPU_VPD_REPAIR_IRAM := 0.
Definition DPU_VPD_REPAIR_WRAM := 1.
Definition DPU_MAX_NR_DPUS_PER_CI := 8.
Definition sizeof_header := 112.
Definition sizeof_entry := 16.
Definition NB_MAX_REPAIR := (VPD_MAX_SIZE - sizeof_header) / sizeof_entry.

(** [struct dpu_vpd_rank_data]. *)
Record rank_data := mk_rank_data {
  dpu_disabled : Z;
  wram_map : Z;
  iram_map : Z;
}.
(** [struct dpu_vpd_repair_entry]. *)
Record repair_entry := mk_repair_entry {
  re_iram_wram : Z;
  re_rank : Z;
  re_ci : Z;
  re_dpu : Z;
  re_bank : Z;
  re_padding : Z;
  re_address : Z;
  re_bits : Z;
}.
(** [struct dpu_vpd_header]. *)
Record vpd_header := mk_header {
  struct_id : list Z;
  struct_ver : Z;
  struct_size : Z;
  rank_count : Z;
  padding_0 : Z;
  repair_count : Z;
  padding_1 : Z;
  ranks : list rank_data;
}.
(** [struct dpu_vpd]. *)
Record dpu_vpd := mk_vpd {
  header : vpd_header;
  repair_entries : list repair_entry;
}.

#[export] Instance rank_data_inhabited : Inhabited rank_data := populate (mk_rank_data 0 0 0).
#[export] Instance repair_entry_inhabited : Inhabited repair_entry :=
  populate (mk_repair_entry 0 0 0 0 0 0 0 0).

Definition set_repair_count (v : Z) (h : vpd_header) : vpd_header :=
  mk_header (struct_id h) (struct_ver h) (struct_size h) (rank_count h) (padding_0 h) v (padding_1 h)
    (ranks h).
Definition upd_rank (i : Z) (f : rank_data -> rank_data) (h : vpd_header) : vpd_header :=
  mk_header (struct_id h) (struct_ver h) (struct_size h) (rank_count h) (padding_0 h) (repair_count h)
    (padding_1 h) (ranks h).[i := f (ranks h).[i]].
Definition upd_header (f : vpd_header -> vpd_header) (v : dpu_vpd) : dpu_vpd :=
  mk_vpd (f (header v)) (repair_entries v).

(** ** The images of the structures *)

(** [n] bytes at offset [off]. *)
Definition bytes_at (off n : Z) (mem : list Z) : list Z := take (Z.to_nat n) (drop_z off mem).
Definition field (off n : Z) (mem : list Z) : Z := le_word (bytes_at off n mem).

Definition rank_bytes (d : rank_data) : list Z :=
  le_bytes 8 (dpu_disabled d) ++ le_bytes 8 (wram_map d) ++ le_bytes 8 (iram_map d).
Definition header_bytes (h : vpd_header) : list Z :=
  struct_id h ++ le_bytes 4 (struct_ver h) ++ le_bytes 2 (struct_size h) ++ le_bytes 1 (rank_count h)
  ++ le_bytes 1 (padding_0 h) ++ le_bytes 2 (repair_count h) ++ le_bytes 2 (padding_1 h)
  ++ concat (map rank_bytes (ranks h)).
Definition entry_bytes (e : repair_entry) : list Z :=
  le_bytes 1 (re_iram_wram e) ++ le_bytes 1 (re_rank e) ++ le_bytes 1 (re_ci e) ++ le_bytes 1 (re_dpu e)
  ++ le_bytes 1 (re_bank e) ++ le_bytes 1 (re_padding e) ++ le_bytes 2 (re_address e)
  ++ le_bytes 8 (re_bits e).

Definition read_rank (mem : list Z) : rank_data :=
  mk_rank_data (field 0 8 mem) (field 8 8 mem) (field 16 8 mem).
Definition read_header (mem : list Z) : vpd_header :=
  mk_header (bytes_at 0 4 mem) (field 4 4 mem) (field 8 2 mem) (field 10 1 mem) (field 11 1 mem)
    (field 12 2 mem) (field 14 2 mem)
    (map (fun i => read_rank (drop_z (16 + 24 * i) mem)) (seqZ 0 VPD_MAX_RANK)).
Definition read_entry (mem : list Z) : repair_entry :=
  mk_repair_entry (field 0 1 mem) (field 1 1 mem) (field 2 1 mem) (field 3 1 mem) (field 4 1 mem)
    (field 5 1 mem) (field 6 2 mem) (field 8 8 mem).

(** ** Reading and writing the file *)

(** What is written over the old bytes of a file opened with "r+" or of the
    memory. *)
Definition overwrite (written old : list Z) : list Z := written ++ drop (length written) old.

(** The loop that reads the entries up to the end of the file: a write past the
    array is undefined; [fread] writes the bytes it finds even when the last
    element is not complete. *)
Fixpoint read_entries (fuel : nat) (mem : list Z) (i : Z) (entries : list repair_entry)
    : vres (list repair_entry) :=
  match fuel with
  | O => Undefined
  | S fuel =>
      if lenz mem =? 0 then Done entries
      else if NB_MAX_REPAIR <=? i then Undefined
      else if lenz mem <? sizeof_entry
      then Done entries.[i := read_entry (overwrite mem (entry_bytes entries.[i]))]
      else read_entries fuel (drop_z sizeof_entry mem) (i + 1) entries.[i := read_entry mem]
  end.

Definition default_header : vpd_header :=
  mk_header VPD_STRUCT_ID VPD_STRUCT_VERSION sizeof_header 0 0 VPD_UNDEFINED_REPAIR_COUNT 0
    (replicate (Z.to_nat VPD_MAX_RANK) (mk_rank_data 0 0 0)).

(** [vpd_path = None] is [NULL], [Some None] a file that cannot be opened; [vpd] is
    the structure the caller gave. After a failure its header is what was read:
    [Failed] does not tell. *)
Definition dpu_vpd_init (vpd_path : option (option (list Z))) (vpd : dpu_vpd) : vres dpu_vpd :=
  match vpd_path with
  | None => Done (upd_header (fun _ => default_header) vpd)
  | Some None => Failed DPU_VPD_ERR
  | Some (Some content) =>
      if lenz content <? sizeof_header then Failed DPU_VPD_ERR
      else
        let h := read_header content in
        if negb (bool_decide (struct_id h = VPD_STRUCT_ID)) then Failed DPU_VPD_ERR_HEADER_FORMAT
        else if negb (struct_ver h =? VPD_STRUCT_VERSION) then Failed DPU_VPD_ERR_HEADER_VERSION
        else if negb (repair_count h =? VPD_UNDEFINED_REPAIR_COUNT) then
          let mem := drop_z sizeof_header content in
          entries ← read_entries (S (length mem)) mem 0 (repair_entries vpd);
          Done (mk_vpd h entries)
        else Done (mk_vpd h (repair_entries vpd))
  end.

(** The content of the file and the status; [old] is the content before, [None]
    when the file does not exist. *)
Definition dpu_vpd_write (vpd : dpu_vpd) (old : option (list Z)) : vres (list Z * option dpu_vpd_error) :=
  let h := header vpd in
  let count := if repair_count h =? VPD_UNDEFINED_REPAIR_COUNT then 0 else repair_count h in
  if NB_MAX_REPAIR <? count then Undefined
  else
    let written := header_bytes h
      ++ concat (map (fun repair => entry_bytes (repair_entries vpd).[repair]) (seqZ 0 count)) in
    let size_written := sizeof_header + sizeof_entry * count in
    let size_align := Z.min (u64 (VPD_MAX_SIZE - size_written))
                        (VPD_SIZE_CHUNK_MULTIPLE - size_written mod VPD_SIZE_CHUNK_MULTIPLE) in
    let old := default [] old in
    (* [fwrite] of an element of size 0 returns 0. *)
    if size_align =? 0 then Done (overwrite written old, Some DPU_VPD_ERR)
    else Done (overwrite (written ++ replicate (Z.to_nat size_align) 0) old, None).

(** ** Updates *)

Definition dpu_vpd_compare_repair_entry (a b : repair_entry) : bool :=
  (re_iram_wram a =? re_iram_wram b) && (re_rank a =? re_rank b) && (re_ci a =? re_ci b)
  && (re_dpu a =? re_dpu b) && (re_bank a =? re_bank b) && (re_address a =? re_address b)
  && (re_bits a =? re_bits b).

(** [(slice_id * DPU_MAX_NR_DPUS_PER_CI) + dpu_id]. *)
Definition dpu_bit (slice_id dpu_id : Z) : Z := slice_id * DPU_MAX_NR_DPUS_PER_CI + dpu_id.

Definition set_repair_bit (e : repair_entry) (d : rank_data) : rank_data :=
  let bit := Z.shiftl 1 (dpu_bit (re_ci e) (re_dpu e)) in
  if re_iram_wram e =? DPU_VPD_REPAIR_IRAM
  then mk_rank_data (dpu_disabled d) (wram_map d) (iram_map d ||| bit)
  else mk_rank_data (dpu_disabled d) (wram_map d ||| bit) (iram_map d).

(** A shift by 64 bits or more and an index outside an array are undefined. *)
Definition dpu_vpd_add_repair_entry (vpd : dpu_vpd) (e : repair_entry) : vres dpu_vpd :=
  if repair_count (header vpd) =? NB_MAX_REPAIR then Failed DPU_VPD_ERR_NB_MAX_REPAIR
  else
    let vpd := if repair_count (header vpd) =? VPD_UNDEFINED_REPAIR_COUNT
               then upd_header (set_repair_count 0) vpd else vpd in
    let count := repair_count (header vpd) in
    if existsb (fun repair => dpu_vpd_compare_repair_entry (repair_entries vpd).[repair] e)
         (seqZ 0 (count `min` NB_MAX_REPAIR))
    then Done vpd
    else if NB_MAX_REPAIR <? count then Undefined
    else if (VPD_MAX_RANK <=? re_rank e) || (64 <=? dpu_bit (re_ci e) (re_dpu e)) then Undefined
    else
      let vpd := upd_header (upd_rank (re_rank e) (set_repair_bit e)) vpd in
      Done (mk_vpd (set_repair_count (u16 (count + 1)) (header vpd)) (repair_entries vpd).[count := e]).

Definition disabled_of (vpd : dpu_vpd) (rank_index : Z) : Z :=
  dpu_disabled (ranks (header vpd)).[rank_index].
Definition set_disabled (rank_index v : Z) (vpd : dpu_vpd) : dpu_vpd :=
  upd_header (upd_rank rank_index (fun d => mk_rank_data v (wram_map d) (iram_map d))) vpd.

Definition dpu_vpd_disable_dpu (vpd : dpu_vpd) (rank_index slice_id dpu_id : Z) : vres dpu_vpd :=
  if (VPD_MAX_RANK <=? rank_index) || (64 <=? dpu_bit slice_id dpu_id) then Undefined
  else
    let mask := Z.shiftl 1 (dpu_bit slice_id dpu_id) in
    if disabled_of vpd rank_index &&& mask =? 0
    then Done (set_disabled rank_index (disabled_of vpd rank_index ||| mask) vpd)
    else Failed DPU_VPD_ERR_DPU_ALREADY_DISABLED.

Definition dpu_vpd_enable_dpu (vpd : dpu_vpd) (rank_index slice_id dpu_id : Z) : vres dpu_vpd :=
  if (VPD_MAX_RANK <=? rank_index) || (64 <=? dpu_bit slice_id dpu_id) then Undefined
  else
    let mask := Z.shiftl 1 (dpu_bit slice_id dpu_id) in
    if negb (disabled_of vpd rank_index &&& mask =? 0)
    then Done (set_disabled rank_index (disabled_of vpd rank_index &&& not64 mask) vpd)
    else Failed DPU_VPD_ERR_DPU_ALREADY_ENABLED.

(** ** The images can be read back *)

Lemma le_word_id n v : fits (8 * Z.of_nat n) v -> le_word (le_bytes n v) = v.
Proof. intros Hv. rewrite le_word_bytes. by apply Z.mod_small. Qed.

Lemma bytes_here n (x l : list Z) : lenz x = n -> bytes_at 0 n (x ++ l) = x.
Proof. intros <-. apply take_z_app. Qed.
Lemma drop_skip off (x l : list Z) : lenz x <= off -> drop_z off (x ++ l) = drop_z (off - lenz x) l.
Proof.
  intros Ho. unfold drop_z, lenz in *. rewrite drop_app_ge by lia. f_equal. lia.
Qed.
Lemma bytes_skip off n (x l : list Z) : lenz x <= off ->
  bytes_at off n (x ++ l) = bytes_at (off - lenz x) n l.
Proof. intros Ho. unfold bytes_at. by rewrite drop_skip. Qed.
Lemma field_here n k v l : n = Z.of_nat k -> fits (8 * n) v -> field 0 n (le_bytes k v ++ l) = v.
Proof. intros -> Hv. unfold field. rewrite bytes_here by apply lenz_le_bytes. by apply le_word_id. Qed.
Lemma field_skip off n k v l : Z.of_nat k <= off ->
  field off n (le_bytes k v ++ l) = field (off - Z.of_nat k) n l.
Proof.
  intros Ho. unfold field. rewrite bytes_skip; rewrite lenz_le_bytes; [done|lia].
Qed.

(** Reads the field at an offset of a concatenation of fields. *)
Ltac read_field :=
  repeat (rewrite field_skip by (cbn; lia); cbn [Z.of_nat Pos.of_succ_nat Pos.succ Z.sub Z.opp Z.add Z.pos_sub
            Pos.pred_double Z.succ_double Z.pred_double Z.double]);
  apply field_here; [done|assumption].

Record wf_rank_data (d : rank_data) : Prop := {
  wr_disabled : fits 64 (dpu_disabled d);
  wr_wram : fits 64 (wram_map d);
  wr_iram : fits 64 (iram_map d);
}.
Record wf_entry (e : repair_entry) : Prop := {
  we_iram_wram : fits 8 (re_iram_wram e);
  we_rank : fits 8 (re_rank e);
  we_ci : fits 8 (re_ci e);
  we_dpu : fits 8 (re_dpu e);
  we_bank : fits 8 (re_bank e);
  we_padding : fits 8 (re_padding e);
  we_address : fits 16 (re_address e);
  we_bits : fits 64 (re_bits e);
}.
Record wf_header (h : vpd_header) : Prop := {
  wh_id : struct_id h = VPD_STRUCT_ID;
  wh_ver : struct_ver h = VPD_STRUCT_VERSION;
  wh_size : fits 16 (struct_size h);
  wh_rank_count : fits 8 (rank_count h);
  wh_padding_0 : fits 8 (padding_0 h);
  wh_repair_count : fits 16 (repair_count h);
  wh_padding_1 : fits 16 (padding_1 h);
  wh_ranks : lenz (ranks h) = VPD_MAX_RANK;
  wh_rank_data : Forall wf_rank_data (ranks h);
}.
(** The types of the structures, and the identification that [dpu_vpd_init] checks. *)
Record wf_vpd (v : dpu_vpd) : Prop := {
  wv_header : wf_header (header v);
  wv_length : lenz (repair_entries v) = NB_MAX_REPAIR;
  wv_entries : Forall wf_entry (repair_entries v);
}.

Lemma read_entry_bytes e l : wf_entry e -> read_entry (entry_bytes e ++ l) = e.
Proof.
  intros []. destruct e. cbn in * |-. unfold read_entry, entry_bytes. cbn [re_iram_wram re_rank re_ci re_dpu re_bank
    re_padding re_address re_bits]. rewrite <-!app_assoc. f_equal; read_field.
Qed.
Lemma read_rank_bytes d l : wf_rank_data d -> read_rank (rank_bytes d ++ l) = d.
Proof.
  intros []. destruct d. cbn in * |-. unfold read_rank, rank_bytes. cbn [dpu_disabled wram_map iram_map].
  rewrite <-!app_assoc. f_equal; read_field.
Qed.

Lemma lenz_entry_bytes e : lenz (entry_bytes e) = sizeof_entry.
Proof. unfold entry_bytes. by rewrite !lenz_app, !lenz_le_bytes. Qed.
Lemma lenz_rank_bytes d : lenz (rank_bytes d) = 24.
Proof. unfold rank_bytes. by rewrite !lenz_app, !lenz_le_bytes. Qed.

Lemma four_ranks (l : list rank_data) : lenz l = VPD_MAX_RANK ->
  exists d0 d1 d2 d3, l = [d0; d1; d2; d3].
Proof.
  unfold lenz, VPD_MAX_RANK.
  destruct l as [|d0 [|d1 [|d2 [|d3 [|]]]]]; cbn [length]; intros Hl; try lia. eauto.
Qed.

Lemma lenz_header_bytes h : wf_header h -> lenz (header_bytes h) = sizeof_header.
Proof.
  intros Hh. destruct (four_ranks _ (wh_ranks _ Hh)) as (d0 & d1 & d2 & d3 & Hr).
  unfold header_bytes. rewrite Hr, (wh_id _ Hh). cbn [map concat]. rewrite !lenz_app, !lenz_le_bytes, !lenz_rank_bytes. done.
Qed.

(** The ranks are at their offsets after the 16 bytes of the first fields. *)
Lemma read_ranks_bytes (pre : list Z) rs l : lenz pre = 16 -> lenz rs = VPD_MAX_RANK -> Forall wf_rank_data rs ->
  map (fun i => read_rank (drop_z (16 + 24 * i) (pre ++ concat (map rank_bytes rs) ++ l)))
    (seqZ 0 VPD_MAX_RANK) = rs.
Proof.
  intros Hp Hl Hrs. destruct (four_ranks rs Hl) as (d0 & d1 & d2 & d3 & ->).
  rewrite !list_relations.list.Forall_cons in Hrs. destruct Hrs as (H0 & H1 & H2 & H3 & _).
  change (seqZ 0 VPD_MAX_RANK) with [0; 1; 2; 3]. cbn [map concat]. rewrite <-!app_assoc.
  repeat f_equal.
  all: repeat (rewrite drop_skip by (rewrite ?Hp, ?lenz_rank_bytes; lia); rewrite ?Hp, ?lenz_rank_bytes).
  all: lazymatch goal with |- read_rank (drop_z ?n _) = _ => change n with 0 end.
  all: by apply read_rank_bytes.
Qed.

Lemma read_header_bytes h l : wf_header h -> read_header (header_bytes h ++ l) = h.
Proof.
  intros Hh. unfold read_header. set (mem := header_bytes h ++ l).
  set (id := 0x564D5055).
  assert (mem = le_bytes 4 id ++ le_bytes 4 (struct_ver h) ++ le_bytes 2 (struct_size h)
    ++ le_bytes 1 (rank_count h) ++ le_bytes 1 (padding_0 h) ++ le_bytes 2 (repair_count h)
    ++ le_bytes 2 (padding_1 h) ++ concat (map rank_bytes (ranks h)) ++ l) as Hm.
  { unfold mem, header_bytes. rewrite (wh_id _ Hh). by rewrite <-!app_assoc. }
  clearbody mem. destruct Hh as [H1 H2 H3 H4 H5 H6 H7 H8 H9]. destruct h as [sid ver size rc p0 count p1 rs].
  cbn [struct_id struct_ver struct_size rank_count padding_0 repair_count padding_1 ranks] in *.
  assert (fits 32 ver) by (subst ver; done).
  f_equal.
  1: by rewrite Hm, H1, bytes_here.
  1-6: rewrite Hm; read_field.
  rewrite Hm. pose proof (read_ranks_bytes (le_bytes 4 id ++ le_bytes 4 ver ++ le_bytes 2 size ++ le_bytes 1 rc
    ++ le_bytes 1 p0 ++ le_bytes 2 count ++ le_bytes 2 p1) rs l) as Hr.
  rewrite <-!app_assoc in Hr. apply Hr; [|done..]. by rewrite !lenz_app, !lenz_le_bytes.
Qed.

(** ** Reading the entries back *)

(** The repairs of a VPD. *)
Definition nr_repairs (v : dpu_vpd) : Z :=
  if repair_count (header v) =? VPD_UNDEFINED_REPAIR_COUNT then 0 else repair_count (header v).
Definition recorded (v : dpu_vpd) : list repair_entry :=
  map (fun i => (repair_entries v).[i]) (seqZ 0 (nr_repairs v)).

Lemma lenz_drop_z n (l : list Z) : 0 <= n <= lenz l -> lenz (drop_z n l) = lenz l - n.
Proof. unfold drop_z, lenz. rewrite length_drop. lia. Qed.

Lemma read_entries_keeps fuel : forall l i entries,
  lenz entries = NB_MAX_REPAIR -> 0 <= i -> lenz l <= sizeof_entry * (NB_MAX_REPAIR - i) ->
  (length l < fuel)%nat ->
  exists entries', read_entries fuel l i entries = Done entries' /\ lenz entries' = NB_MAX_REPAIR /\
    forall j, 0 <= j < i -> entries'.[j] = entries.[j].
Proof.
  change NB_MAX_REPAIR with 121. change sizeof_entry with 16.
  induction fuel as [|fuel IH]; intros l i entries He Hi Hl Hf; [lia|]. cbn [read_entries].
  change NB_MAX_REPAIR with 121. change sizeof_entry with 16.
  destruct (Z.eqb_spec (lenz l) 0); [by eauto|]. pose proof (lenz_nonneg l).
  rewrite (proj2 (Z.leb_gt _ _)) by lia.
  destruct (Z.ltb_spec (lenz l) 16).
  - eexists. split_and!; [done|by rewrite lenz_setz|]. intros j Hj. by rewrite getz_setz_ne by lia.
  - pose proof (lenz_drop_z 16 l ltac:(lia)) as Hd.
    destruct (IH (drop_z 16 l) (i + 1) (setz entries i (read_entry l))) as (es & Hr & Hes & Hk);
      [by rewrite lenz_setz|lia|lia|unfold lenz in Hd; lia|].
    exists es. split_and!; [done..|]. intros j Hj. rewrite Hk by lia. by rewrite getz_setz_ne by lia.
Qed.

(** Reading [es] and then bytes that may be read as entries as long as they fit. *)
Lemma read_entries_images es : forall fuel l i entries, Forall wf_entry es ->
  lenz entries = NB_MAX_REPAIR -> 0 <= i ->
  sizeof_entry * lenz es + lenz l <= sizeof_entry * (NB_MAX_REPAIR - i) ->
  (length es + length l < fuel)%nat ->
  exists entries', read_entries fuel (concat (map entry_bytes es) ++ l) i entries = Done entries' /\
    lenz entries' = NB_MAX_REPAIR /\
    (forall j, 0 <= j < i -> entries'.[j] = entries.[j]) /\
    (forall j, 0 <= j < lenz es -> entries'.[i + j] = es.[j]).
Proof.
  change NB_MAX_REPAIR with 121. change sizeof_entry with 16.
  induction es as [|e es IH]; intros fuel l i entries Hw He Hi Hl Hf.
  { destruct (read_entries_keeps fuel l i entries He Hi) as (es & Hr & Hes & Hk); [|cbn in Hf; lia|].
    { change NB_MAX_REPAIR with 121. change sizeof_entry with 16. change (lenz []) with 0 in Hl. lia. }
    exists es. split_and!; [done..|]. unfold lenz. cbn [length]. lia. }
  apply list_relations.list.Forall_cons in Hw as [Hwe Hw].
  destruct fuel as [|fuel]; [lia|]. cbn [map concat read_entries]. rewrite <-app_assoc.
  change NB_MAX_REPAIR with 121. change sizeof_entry with 16.
  pose proof (lenz_nonneg l). pose proof (lenz_nonneg es). pose proof (lenz_entry_bytes e) as Hn.
  change sizeof_entry with 16 in Hn. assert (lenz (e :: es) = 1 + lenz es) as Hc by (unfold lenz; cbn [length]; lia).
  rewrite (lenz_app (entry_bytes e)), Hn. pose proof (lenz_nonneg (concat (map entry_bytes es) ++ l)).
  rewrite (proj2 (Z.eqb_neq _ _)), (proj2 (Z.leb_gt 121 i)), (proj2 (Z.ltb_ge _ _)) by lia.
  replace (drop_z 16 _) with (concat (map entry_bytes es) ++ l) by (rewrite <-Hn; by rewrite drop_z_app).
  rewrite read_entry_bytes by done.
  destruct (IH fuel l (i + 1) (setz entries i e)) as (es' & Hr & Hes & Hk & Ha);
    [done|by rewrite lenz_setz|lia|lia|cbn [length] in Hf; lia|].
  exists es'. split_and!; [done..| |].
  - intros j Hj. rewrite Hk by lia. by rewrite getz_setz_ne by lia.
  - intros j Hj. destruct (decide (j = 0)) as [->|].
    + rewrite Z.add_0_r, Hk, getz_setz_eq by lia. done.
    + replace (i + j) with (i + 1 + (j - 1)) by lia. rewrite Ha by lia.
      replace j with (j - 1 + 1) at 2 by lia. by rewrite <-(getz_tail (e :: es)) by lia.
Qed.

Lemma lenz_recorded v : 0 <= nr_repairs v -> lenz (recorded v) = nr_repairs v.
Proof. apply lenz_map_seqZ. Qed.

Lemma lenz_images es : lenz (concat (map entry_bytes es)) = sizeof_entry * lenz es.
Proof.
  induction es as [|e es IH]; [done|]. cbn [map concat]. rewrite lenz_app, IH, lenz_entry_bytes.
  unfold lenz. cbn [length]. lia.
Qed.

Lemma lenz_overwrite w l : lenz (overwrite w l) = lenz w `max` lenz l.
Proof. unfold overwrite, lenz. rewrite length_app, length_drop. lia. Qed.

(** What is left of the last chunk. *)
Definition padding_of (n : Z) : Z :=
  (VPD_MAX_SIZE - n) `min` (VPD_SIZE_CHUNK_MULTIPLE - n mod VPD_SIZE_CHUNK_MULTIPLE).

Lemma padding_bounds n : 0 <= n <= VPD_MAX_SIZE ->
  0 <= padding_of n <= VPD_MAX_SIZE - n /\ (padding_of n = 0 <-> n = VPD_MAX_SIZE).
Proof.
  unfold padding_of. change VPD_MAX_SIZE with 2048. change VPD_SIZE_CHUNK_MULTIPLE with 272.
  intros Hn. pose proof (Z.mod_pos_bound n 272 ltac:(done)). lia.
Qed.

Lemma write_content v old : wf_vpd v -> nr_repairs v <= NB_MAX_REPAIR ->
  lenz (default [] old) <= VPD_MAX_SIZE ->
  exists rest, dpu_vpd_write v old =
      Done (header_bytes (header v) ++ concat (map entry_bytes (recorded v)) ++ rest,
            if nr_repairs v =? NB_MAX_REPAIR then Some DPU_VPD_ERR else None) /\
    sizeof_entry * nr_repairs v + lenz rest <= VPD_MAX_SIZE - sizeof_header.
Proof.
  intros Hv Hn Ho. pose proof (wh_repair_count _ (wv_header _ Hv)) as Hf.
  assert (0 <= nr_repairs v) by (unfold nr_repairs; case_bool; [lia|apply Hf]).
  unfold dpu_vpd_write. fold (nr_repairs v). set (n := nr_repairs v) in *.
  rewrite (proj2 (Z.ltb_ge _ _)) by done.
  assert (map (fun repair => entry_bytes (repair_entries v).[repair]) (seqZ 0 n) = map entry_bytes (recorded v))
    as -> by (unfold recorded; by rewrite map_map).
  assert (lenz (header_bytes (header v) ++ concat (map entry_bytes (recorded v))) = 112 + 16 * n) as Hlen.
  { rewrite lenz_app, lenz_header_bytes, lenz_images, lenz_recorded by first [done|apply Hv]. done. }
  change NB_MAX_REPAIR with 121 in *. change sizeof_entry with 16. change sizeof_header with 112.
  change VPD_MAX_SIZE with 2048 in *.
  pose proof (padding_bounds (112 + 16 * n)) as Hp. unfold padding_of in Hp.
  change VPD_MAX_SIZE with 2048 in Hp. destruct Hp as [Hp Hz]; [lia|].
  rewrite u64_id by (unfold fits; lia).
  set (pad := (2048 - (112 + 16 * n)) `min` (VPD_SIZE_CHUNK_MULTIPLE - (112 + 16 * n) mod VPD_SIZE_CHUNK_MULTIPLE)) in *.
  set (written := header_bytes (header v) ++ concat (map entry_bytes (recorded v))) in *.
  assert (lenz (replicate (Z.to_nat pad) 0) = pad) as Hr by (unfold lenz; rewrite length_replicate; lia).
  set (w := if pad =? 0 then written else written ++ replicate (Z.to_nat pad) 0).
  assert (exists rest, overwrite w (default [] old) = written ++ rest /\ lenz w <= 2048) as (rest & Hw & Hl).
  { unfold w, overwrite. case_bool; [|rewrite <-app_assoc, lenz_app, Hr]; eexists; (split; [done|]); lia. }
  exists rest. split.
  - rewrite (app_assoc (header_bytes _)). fold written. rewrite <-Hw. unfold w.
    clearbody pad n. destruct Hz as [Hz1 Hz2].
    destruct (Z.eqb_spec pad 0), (Z.eqb_spec n 121); try done; exfalso; lia.
  - pose proof (lenz_overwrite w (default [] old)) as Hov. rewrite Hw, lenz_app in Hov. lia.
Qed.

(** C40: A VPD of the current format with at most 121 repairs, written over a
    file that is not larger than its partition, is read back by
    [dpu_vpd_init], whatever the structure of the caller held: the same header
    and the same repairs. The write reports success unless the VPD is full; the
    same content is written then, and the write reports an error. *)
Theorem vpd_file_roundtrip v old v0 :
  wf_vpd v -> nr_repairs v <= NB_MAX_REPAIR -> lenz (default [] old) <= VPD_MAX_SIZE ->
  lenz (repair_entries v0) = NB_MAX_REPAIR ->
  exists content v',
    dpu_vpd_write v old = Done (content, if nr_repairs v =? NB_MAX_REPAIR then Some DPU_VPD_ERR else None) /\
    lenz content <= VPD_MAX_SIZE /\
    dpu_vpd_init (Some (Some content)) v0 = Done v' /\
    header v' = header v /\ recorded v' = recorded v.
Proof.
  intros Hv Hn Ho H0. destruct (write_content v old Hv Hn Ho) as (rest & Hw & Hl).
  pose proof (wv_header _ Hv) as Hh. pose proof (lenz_header_bytes _ Hh) as Hhl.
  pose proof (wh_repair_count _ Hh) as Hf.
  assert (0 <= nr_repairs v) by (unfold nr_repairs; case_bool; [lia|apply Hf]).
  pose proof (lenz_images (recorded v)) as Hi. rewrite lenz_recorded in Hi by done.
  pose proof (lenz_nonneg rest). pose proof (lenz_nonneg (concat (map entry_bytes (recorded v)) ++ rest)).
  set (tail := concat (map entry_bytes (recorded v)) ++ rest) in *.
  assert (Forall wf_entry (recorded v)) as He.
  { apply Forall_forall. intros e He%list_elem_of_In%list_elem_of_fmap. destruct He as (i & -> & Hi'%elem_of_seqZ).
    apply (proj1 (list_relations.list.Forall_forall _ _) (wv_entries _ Hv)).
    unfold getz. apply list_elem_of_lookup_total_2. pose proof (wv_length _ Hv). unfold lenz in *. lia. }
  exists (header_bytes (header v) ++ tail).
  assert (lenz (header_bytes (header v) ++ tail) <= VPD_MAX_SIZE) as Hsize.
  { unfold tail in *. rewrite !lenz_app, Hi. lia. }
  unfold dpu_vpd_init. rewrite (lenz_app (header_bytes _)), Hhl, read_header_bytes by done.
  rewrite (proj2 (Z.ltb_ge _ _)) by lia. rewrite (wh_id _ Hh), (wh_ver _ Hh), Z.eqb_refl, bool_decide_true by done.
  cbn [negb]. rewrite <-Hhl, drop_z_app. rewrite lenz_app, Hhl in Hsize.
  destruct (Z.eqb_spec (repair_count (header v)) VPD_UNDEFINED_REPAIR_COUNT) as [Hu|Hu].
  { eexists. split_and!; [done|by rewrite Hhl|done|done|].
    unfold recorded, nr_repairs. cbn [header]. by rewrite Hu. }
  destruct (read_entries_images (recorded v) (S (length tail)) rest 0 (repair_entries v0) He H0)
    as (es & Hr & Hes & _ & Ha); [done|rewrite lenz_recorded by done; change NB_MAX_REPAIR with 121;
      change VPD_MAX_SIZE with 2048 in *; change sizeof_header with 112 in *; change sizeof_entry with 16 in *; lia| |].
  { unfold tail. rewrite length_app. unfold lenz in Hi. change sizeof_entry with 16 in Hi.
    pose proof (lenz_recorded v ltac:(done)). unfold lenz in *. lia. }
  fold tail in Hr. rewrite Hr. eexists. split_and!; [done|by rewrite Hhl|done|done|].
  unfold recorded at 1. unfold nr_repairs. cbn [header repair_entries]. fold (nr_repairs v).
  apply list_eq_lenz; [by rewrite lenz_recorded, lenz_map_seqZ|]. rewrite lenz_map_seqZ by done.
  intros i Hi'. rewrite lookup_map_seqZ by done. rewrite <-(Z.add_0_l i) at 1. apply Ha. by rewrite lenz_recorded.
Qed.

(** ** The repairs and their bitmaps *)

(** Some repair of [l] is in the IRAM (or the WRAM) of the DPU of bit [b] of rank [r]. *)
Definition needs_repair (iram : bool) (r b : Z) (l : list repair_entry) : bool :=
  existsb (fun e => Bool.eqb iram (re_iram_wram e =? DPU_VPD_REPAIR_IRAM) && (re_rank e =? r)
                    && (dpu_bit (re_ci e) (re_dpu e) =? b)) l.
Definition map_of (iram : bool) (d : rank_data) : Z := if iram then iram_map d else wram_map d.

(** The bitmaps tell which DPUs have repairs and no repair is recorded twice. *)
Record coherent_vpd (v : dpu_vpd) : Prop := {
  co_ranks : lenz (ranks (header v)) = VPD_MAX_RANK;
  co_length : lenz (repair_entries v) = NB_MAX_REPAIR;
  co_count : 0 <= nr_repairs v <= NB_MAX_REPAIR;
  co_distinct : forall i j, 0 <= i < j -> j < nr_repairs v ->
    dpu_vpd_compare_repair_entry (repair_entries v).[i] (repair_entries v).[j] = false;
  co_bitmaps : forall iram r b, 0 <= r < VPD_MAX_RANK -> 0 <= b < 64 ->
    Z.testbit (map_of iram (ranks (header v)).[r]) b = needs_repair iram r b (recorded v);
}.

(** The first repair replaces the undefined count by 0. *)
Definition with_count (v : dpu_vpd) : dpu_vpd :=
  if repair_count (header v) =? VPD_UNDEFINED_REPAIR_COUNT then upd_header (set_repair_count 0) v else v.

Lemma with_count_spec v : repair_count (header (with_count v)) = nr_repairs v /\
  nr_repairs (with_count v) = nr_repairs v /\ recorded (with_count v) = recorded v /\
  ranks (header (with_count v)) = ranks (header v) /\
  repair_entries (with_count v) = repair_entries v.
Proof.
  unfold with_count, recorded, nr_repairs.
  destruct (Z.eqb_spec (repair_count (header v)) VPD_UNDEFINED_REPAIR_COUNT) as [Hu|Hu]; [done|].
  by rewrite (proj2 (Z.eqb_neq _ _) Hu).
Qed.

Lemma existsb_map {A B} (f : B -> bool) (g : A -> B) l : existsb f (map g l) = existsb (fun a => f (g a)) l.
Proof. induction l as [|a l IH]; [done|]. cbn. by rewrite IH. Qed.

Lemma compare_recorded v e : 0 <= nr_repairs v <= NB_MAX_REPAIR ->
  existsb (fun repair => dpu_vpd_compare_repair_entry (repair_entries v).[repair] e)
    (seqZ 0 (nr_repairs v `min` NB_MAX_REPAIR)) =
  existsb (fun a => dpu_vpd_compare_repair_entry a e) (recorded v).
Proof. intros Hn. unfold recorded. rewrite existsb_map. by rewrite Z.min_l by lia. Qed.

(** The new last repair. *)
Definition append_repair (v : dpu_vpd) (e : repair_entry) : dpu_vpd :=
  let h := upd_rank (re_rank e) (set_repair_bit e) (header v) in
  mk_vpd (set_repair_count (u16 (repair_count h + 1)) h) (repair_entries v).[repair_count h := e].

Lemma map_of_set_repair iram e d b : 0 <= dpu_bit (re_ci e) (re_dpu e) -> 0 <= b ->
  Z.testbit (map_of iram (set_repair_bit e d)) b =
  Z.testbit (map_of iram d) b
  || (Bool.eqb iram (re_iram_wram e =? DPU_VPD_REPAIR_IRAM) && (dpu_bit (re_ci e) (re_dpu e) =? b)).
Proof.
  intros He Hb. unfold set_repair_bit, map_of. destruct (re_iram_wram e =? _), iram; cbn;
    rewrite ?orb_false_r, ?Z.lor_spec, ?testbit_pow2 by done; try done.
  all: f_equal; by destruct (Z.eqb_spec (dpu_bit (re_ci e) (re_dpu e)) b); case_bool_decide.
Qed.

Lemma needs_repair_snoc iram r b l e : needs_repair iram r b (l ++ [e]) =
  needs_repair iram r b l || (Bool.eqb iram (re_iram_wram e =? DPU_VPD_REPAIR_IRAM) && (re_rank e =? r)
    && (dpu_bit (re_ci e) (re_dpu e) =? b)).
Proof. unfold needs_repair. rewrite existsb_app. cbn. by rewrite orb_false_r. Qed.

Lemma append_recorded v e : coherent_vpd v -> repair_count (header v) = nr_repairs v ->
  nr_repairs v < NB_MAX_REPAIR ->
  nr_repairs (append_repair v e) = nr_repairs v + 1 /\ recorded (append_repair v e) = recorded v ++ [e].
Proof.
  intros [_ Hl Hn _ _] Hc Hlt. change NB_MAX_REPAIR with 121 in *.
  assert (nr_repairs (append_repair v e) = nr_repairs v + 1) as Hn'.
  { unfold append_repair, nr_repairs at 1. cbn [header set_repair_count upd_rank repair_count]. rewrite Hc.
    rewrite u16_id by (unfold fits; lia). unfold VPD_UNDEFINED_REPAIR_COUNT.
    by rewrite (proj2 (Z.eqb_neq _ _)) by lia. }
  split; [done|]. apply snoc_eq.
  - rewrite !lenz_recorded by lia. done.
  - rewrite lenz_recorded by lia. intros i Hi. unfold recorded. rewrite Hn', !lookup_map_seqZ by lia.
    unfold append_repair. cbn [repair_entries set_repair_count upd_rank repair_count header].
    by rewrite Hc, getz_setz_ne by lia.
  - rewrite lenz_recorded by lia. unfold recorded. rewrite Hn', lookup_map_seqZ by lia.
    unfold append_repair. cbn [repair_entries set_repair_count upd_rank repair_count header].
    by rewrite Hc, getz_setz_eq by lia.
Qed.

Lemma append_coherent v e : coherent_vpd v -> repair_count (header v) = nr_repairs v ->
  nr_repairs v < NB_MAX_REPAIR -> 0 <= re_rank e < VPD_MAX_RANK -> 0 <= dpu_bit (re_ci e) (re_dpu e) ->
  existsb (fun a => dpu_vpd_compare_repair_entry a e) (recorded v) = false ->
  coherent_vpd (append_repair v e).
Proof.
  intros Hco Hc Hlt Hr Hb Hnew. destruct (append_recorded v e Hco Hc Hlt) as [Hn Hrec].
  destruct Hco as [H1 H2 H3 H4 H5]. constructor.
  - unfold append_repair. cbn [header set_repair_count upd_rank ranks]. by rewrite lenz_setz.
  - unfold append_repair. cbn [repair_entries]. by rewrite lenz_setz.
  - rewrite Hn. lia.
  - intros i j Hi Hj. rewrite Hn in Hj. unfold append_repair.
    cbn [repair_entries header set_repair_count upd_rank repair_count]. rewrite Hc.
    rewrite (getz_setz_ne _ _ i) by lia. destruct (decide (j = nr_repairs v)) as [->|].
    + rewrite getz_setz_eq by lia.
      apply not_true_is_false. intros Hcmp. apply not_true_iff_false in Hnew. apply Hnew, existsb_exists.
      exists (repair_entries v).[i]. split; [|done]. unfold recorded.
      apply in_map_iff. exists i. split; [done|]. apply list_elem_of_In, elem_of_seqZ. lia.
    + rewrite getz_setz_ne by lia. apply H4; lia.
  - intros iram r b Hr' Hb'. rewrite Hrec, needs_repair_snoc, <-H5 by done. unfold append_repair.
    cbn [header set_repair_count upd_rank ranks]. rewrite getz_setz by lia. case_decide as Hd.
    + subst r. rewrite map_of_set_repair by lia. by rewrite Z.eqb_refl, andb_true_r.
    + rewrite (proj2 (Z.eqb_neq (re_rank e) r)) by done. by rewrite andb_false_r, orb_false_r.
Qed.

(** [dpu_vpd_add_repair_entry] keeps the bitmaps in step with the list of
    repairs and never records a repair twice: on a coherent VPD and a DPU of
    the module, it fails exactly when 121 repairs are recorded; else the repair
    is appended, unless it is already there, the VPD stays coherent and no DPU
    is disabled or enabled. *)
Theorem add_repair_entry_coherent v e :
  coherent_vpd v -> 0 <= re_rank e < VPD_MAX_RANK -> 0 <= re_ci e < 8 -> 0 <= re_dpu e < 8 ->
  if nr_repairs v =? NB_MAX_REPAIR
  then dpu_vpd_add_repair_entry v e = Failed DPU_VPD_ERR_NB_MAX_REPAIR
  else exists v', dpu_vpd_add_repair_entry v e = Done v' /\ coherent_vpd v' /\
    recorded v' = (if existsb (fun a => dpu_vpd_compare_repair_entry a e) (recorded v)
                   then recorded v else recorded v ++ [e]) /\
    forall r, 0 <= r < VPD_MAX_RANK -> disabled_of v' r = disabled_of v r.
Proof.
  intros Hco Hr Hci Hdpu. destruct (with_count_spec v) as (Hc & Hn & Hrec & Hrk & Hre).
  assert (coherent_vpd (with_count v)) as Hco'.
  { destruct Hco as [H1 H2 H3 H4 H5]. constructor; rewrite ?Hrk, ?Hre, ?Hn, ?Hrec; done. }
  assert (0 <= dpu_bit (re_ci e) (re_dpu e) < 64) as Hb.
  { unfold dpu_bit. change DPU_MAX_NR_DPUS_PER_CI with 8. lia. }
  pose proof (co_count _ Hco) as Hn3. unfold dpu_vpd_add_repair_entry. fold (with_count v).
  assert ((repair_count (header v) =? NB_MAX_REPAIR) = (nr_repairs v =? NB_MAX_REPAIR)) as ->.
  { unfold nr_repairs. destruct (Z.eqb_spec (repair_count (header v)) VPD_UNDEFINED_REPAIR_COUNT) as [->|]; done. }
  case_bool; [done|]. zb2p. cbv zeta. rewrite Hc, Hre, compare_recorded by done.
  destruct (existsb _ (recorded v)) eqn:Hex.
  - exists (with_count v). split_and!; [done..|]. intros r _. unfold disabled_of. by rewrite Hrk.
  - rewrite (proj2 (Z.ltb_ge _ _)), (proj2 (Z.leb_gt _ _)), (proj2 (Z.leb_gt _ _)) by lia. cbn [orb].
    exists (append_repair (with_count v) e). split_and!.
    + unfold append_repair, upd_header. cbn [header repair_entries upd_rank repair_count].
      by rewrite Hc, Hre.
    + apply append_coherent; rewrite ?Hrec; [done|congruence|lia|done|lia|done].
    + rewrite <-Hrec. apply append_recorded; [done|congruence|lia].
    + intros r Hr'. unfold disabled_of, append_repair. cbn [header set_repair_count upd_rank ranks].
      rewrite Hrk, getz_setz by (pose proof (co_ranks _ Hco); lia). case_decide; [subst r|done].
      unfold set_repair_bit. by case_bool.
Qed.

(** ** Disabling and enabling DPUs *)

Lemma not64_testbit x i : 0 <= i < 64 -> Z.testbit (not64 x) i = negb (Z.testbit x i).
Proof.
  intros Hi. unfold not64. change (2 ^ 64 - 1) with (Z.ones 64).
  assert (Z.ldiff (u64 x) (Z.ones 64) = 0) as Hd.
  { apply Z.bits_inj'. intros j Hj. unfold u64. rewrite Z.ldiff_spec, testbit_mod_pow2, Z.testbit_0_l by lia.
    destruct (Z.ltb_spec j 64); [|done]. by rewrite Z.ones_spec_low, andb_false_r by lia. }
  rewrite Z.sub_nocarry_ldiff by done. unfold u64.
  rewrite Z.ldiff_spec, Z.ones_spec_low, testbit_mod_pow2 by lia. by rewrite (proj2 (Z.ltb_lt _ _)) by lia.
Qed.

Lemma set_then_clear x b : 0 <= b < 64 -> fits 64 x -> Z.testbit x b = false ->
  (x ||| Z.shiftl 1 b) &&& not64 (Z.shiftl 1 b) = x.
Proof.
  intros Hb Hx Hbit. apply Z.bits_inj'. intros i Hi. pose proof (fits_nonneg _ _ Hx).
  rewrite Z.land_spec, Z.lor_spec, testbit_pow2 by lia. destruct (decide (i < 64)).
  - rewrite not64_testbit, testbit_pow2 by lia.
    case_bool_decide; subst; rewrite ?orb_false_r, ?andb_true_r, ?andb_false_r; done.
  - rewrite (proj1 (fits_testbit 64 x ltac:(done) ltac:(done)) Hx) by lia. by rewrite bool_decide_false by lia.
Qed.

Lemma clear_then_set x b : 0 <= b < 64 -> fits 64 x -> Z.testbit x b = true ->
  (x &&& not64 (Z.shiftl 1 b)) ||| Z.shiftl 1 b = x.
Proof.
  intros Hb Hx Hbit. apply Z.bits_inj'. intros i Hi. pose proof (fits_nonneg _ _ Hx).
  rewrite Z.lor_spec, Z.land_spec, testbit_pow2 by lia. destruct (decide (i < 64)).
  - rewrite not64_testbit, testbit_pow2 by lia.
    case_bool_decide; subst; rewrite ?orb_false_r, ?andb_true_r, ?orb_true_r; done.
  - rewrite (proj1 (fits_testbit 64 x ltac:(done) ltac:(done)) Hx) by lia. by rewrite bool_decide_false by lia.
Qed.

Lemma land_bit_zero x b : 0 <= b -> (x &&& Z.shiftl 1 b =? 0) = negb (Z.testbit x b).
Proof.
  intros Hb. rewrite land_pow2_testbit by done. destruct (Z.testbit x b); [|done].
  rewrite Z.shiftl_1_l. apply Z.eqb_neq. pose proof (Z.pow_pos_nonneg 2 b). lia.
Qed.

Lemma set_disabled_spec v r x : lenz (ranks (header v)) = VPD_MAX_RANK -> 0 <= r < VPD_MAX_RANK ->
  (forall r', 0 <= r' < VPD_MAX_RANK -> disabled_of (set_disabled r x v) r' = if decide (r' = r) then x else disabled_of v r') /\
  lenz (ranks (header (set_disabled r x v))) = VPD_MAX_RANK /\
  (forall y, y = disabled_of v r -> set_disabled r y (set_disabled r x v) = v).
Proof.
  intros Hl Hr. split_and!.
  - intros r' Hr'. unfold disabled_of, set_disabled, upd_header, upd_rank. cbn [header ranks].
    rewrite getz_setz by lia. repeat case_decide; subst; done.
  - unfold set_disabled, upd_header, upd_rank. cbn [header ranks]. by rewrite lenz_setz.
  - intros y ->. unfold set_disabled, upd_header, upd_rank, disabled_of.
    cbn [header ranks struct_id struct_ver struct_size rank_count padding_0 repair_count padding_1 repair_entries].
    rewrite getz_setz_eq by lia. unfold setz at 1 2. rewrite list_insert_insert_eq.
    destruct v as [[id ver size rc p0 c p1 rs] es]. cbn in *. repeat f_equal.
    fold (setz rs r (mk_rank_data (dpu_disabled rs.[r]) (wram_map rs.[r]) (iram_map rs.[r]))).
    replace (mk_rank_data _ _ _) with (rs.[r]) by (by destruct (rs.[r])). by apply setz_getz; lia.
Qed.

Section disable.
Context (v : dpu_vpd) (r s d : Z).
Hypothesis (Hr : 0 <= r < VPD_MAX_RANK) (Hs : 0 <= s < 8) (Hd : 0 <= d < 8).

Lemma dpu_bit_range : 0 <= dpu_bit s d < 64.
Proof using Hs Hd. unfold dpu_bit. change DPU_MAX_NR_DPUS_PER_CI with 8. lia. Qed.

Lemma disable_dpu_eq : dpu_vpd_disable_dpu v r s d =
  if Z.testbit (disabled_of v r) (dpu_bit s d) then Failed DPU_VPD_ERR_DPU_ALREADY_DISABLED
  else Done (set_disabled r (disabled_of v r ||| Z.shiftl 1 (dpu_bit s d)) v).
Proof using Hr Hs Hd.
  pose proof dpu_bit_range. unfold dpu_vpd_disable_dpu.
  rewrite (proj2 (Z.leb_gt _ _)), (proj2 (Z.leb_gt _ _)), land_bit_zero by lia. cbn [orb]. by destruct (Z.testbit _ _).
Qed.
Lemma enable_dpu_eq : dpu_vpd_enable_dpu v r s d =
  if Z.testbit (disabled_of v r) (dpu_bit s d)
  then Done (set_disabled r (disabled_of v r &&& not64 (Z.shiftl 1 (dpu_bit s d))) v)
  else Failed DPU_VPD_ERR_DPU_ALREADY_ENABLED.
Proof using Hr Hs Hd.
  pose proof dpu_bit_range. unfold dpu_vpd_enable_dpu.
  rewrite (proj2 (Z.leb_gt _ _)), (proj2 (Z.leb_gt _ _)), land_bit_zero by lia. cbn [orb]. by destruct (Z.testbit _ _).
Qed.
End disable.

(** One bit of a bitmap of the disabled DPUs is inverted. *)
Lemma flip_disabled v r s d x : lenz (ranks (header v)) = VPD_MAX_RANK ->
  0 <= r < VPD_MAX_RANK -> 0 <= s < 8 -> 0 <= d < 8 ->
  (forall b, 0 <= b < 64 -> Z.testbit x b = xorb (bool_decide (b = dpu_bit s d)) (Z.testbit (disabled_of v r) b)) ->
  forall r' s' d', 0 <= r' < VPD_MAX_RANK -> 0 <= s' < 8 -> 0 <= d' < 8 ->
    Z.testbit (disabled_of (set_disabled r x v) r') (dpu_bit s' d') =
    xorb (bool_decide ((r', s', d') = (r, s, d))) (Z.testbit (disabled_of v r') (dpu_bit s' d')).
Proof.
  intros Hl Hr Hs Hd Hx r' s' d' Hr' Hs' Hd'. rewrite (proj1 (set_disabled_spec v r x Hl Hr)) by done.
  case_decide as Heq; [subst r'|by rewrite bool_decide_false by congruence].
  rewrite Hx by (by apply dpu_bit_range). f_equal. apply bool_decide_ext.
  unfold dpu_bit. change DPU_MAX_NR_DPUS_PER_CI with 8. split; [intros Hb|by intros [= -> ->]].
  assert (s' = s /\ d' = d) as [-> ->] by lia. done.
Qed.

(** Disabling and enabling undo each other: a DPU that is enabled cannot be
    enabled again, but it can be disabled, which sets its bit and only its bit,
    and enabling it again gives the VPD of before; the same the other way
    round. *)
Theorem disable_enable_dpu v r s d :
  lenz (ranks (header v)) = VPD_MAX_RANK -> 0 <= r < VPD_MAX_RANK -> 0 <= s < 8 -> 0 <= d < 8 ->
  fits 64 (disabled_of v r) ->
  let was := Z.testbit (disabled_of v r) (dpu_bit s d) in
  let same := if was then dpu_vpd_disable_dpu else dpu_vpd_enable_dpu in
  let other := if was then dpu_vpd_enable_dpu else dpu_vpd_disable_dpu in
  same v r s d = Failed (if was then DPU_VPD_ERR_DPU_ALREADY_DISABLED else DPU_VPD_ERR_DPU_ALREADY_ENABLED) /\
  exists v', other v r s d = Done v' /\ same v' r s d = Done v /\
    forall r' s' d', 0 <= r' < VPD_MAX_RANK -> 0 <= s' < 8 -> 0 <= d' < 8 ->
      Z.testbit (disabled_of v' r') (dpu_bit s' d') =
      xorb (bool_decide ((r', s', d') = (r, s, d))) (Z.testbit (disabled_of v r') (dpu_bit s' d')).
Proof.
  intros Hl Hr Hs Hd Hf. cbv zeta. pose proof (dpu_bit_range s d Hs Hd) as Hb.
  destruct (Z.testbit (disabled_of v r) (dpu_bit s d)) eqn:Hbit.
  - rewrite disable_dpu_eq, enable_dpu_eq, Hbit by done. split; [done|]. eexists. split; [done|].
    set (x := _ &&& _). destruct (set_disabled_spec v r x Hl Hr) as (Hx & _ & Hback). split.
    + rewrite disable_dpu_eq, Hx, decide_True by done. unfold x at 1.
      rewrite Z.land_spec, not64_testbit, testbit_pow2, bool_decide_true, andb_false_r by done || lia.
      f_equal. apply Hback. by apply clear_then_set.
    + apply flip_disabled; [done..|]. intros b Hb'. unfold x.
      rewrite Z.land_spec, not64_testbit, testbit_pow2 by lia.
      case_bool_decide; case_bool_decide; try congruence; subst; rewrite ?Hbit; cbn; by rewrite ?andb_true_r, ?andb_false_r, ?xorb_false_l.
  - rewrite disable_dpu_eq, enable_dpu_eq, Hbit by done. split; [done|]. eexists. split; [done|].
    set (x := _ ||| _). destruct (set_disabled_spec v r x Hl Hr) as (Hx & _ & Hback). split.
    + rewrite enable_dpu_eq, Hx, decide_True by done. unfold x at 1.
      rewrite Z.lor_spec, testbit_pow2, bool_decide_true, orb_true_r by done || lia.
      f_equal. apply Hback. by apply set_then_clear.
    + apply flip_disabled; [done..|]. intros b Hb'. unfold x. rewrite Z.lor_spec, testbit_pow2 by lia.
      case_bool_decide; case_bool_decide; try congruence; subst; rewrite ?Hbit; cbn; by rewrite ?orb_true_r, ?orb_false_r, ?xorb_false_l.
Qed.

(** ** Files that are too large *)

Lemma read_entries_overrun fuel : forall l i entries, 0 <= i <= NB_MAX_REPAIR ->
  sizeof_entry * (NB_MAX_REPAIR - i) < lenz l -> read_entries fuel l i entries = Undefined.
Proof.
  change NB_MAX_REPAIR with 121. change sizeof_entry with 16.
  induction fuel as [|fuel IH]; intros l i entries Hi Hl; [done|]. cbn [read_entries].
  change NB_MAX_REPAIR with 121. change sizeof_entry with 16.
  rewrite (proj2 (Z.eqb_neq _ _)) by lia. destruct (Z.leb_spec 121 i); [done|].
  rewrite (proj2 (Z.ltb_ge _ _)) by lia. apply IH; [lia|]. rewrite lenz_drop_z; lia.
Qed.

(** A file that is larger than the structure is read past the array of the
    repairs: [dpu_vpd_init] stops at the end of the file only. *)
Theorem larger_file_overruns content v0 :
  VPD_MAX_SIZE < lenz content -> struct_id (read_header content) = VPD_STRUCT_ID ->
  struct_ver (read_header content) = VPD_STRUCT_VERSION ->
  repair_count (read_header content) <> VPD_UNDEFINED_REPAIR_COUNT ->
  dpu_vpd_init (Some (Some content)) v0 = Undefined.
Proof.
  intros Hl Hi Hv Hc. unfold dpu_vpd_init.
  change VPD_MAX_SIZE with 2048 in Hl. change sizeof_header with 112.
  rewrite (proj2 (Z.ltb_ge _ _)) by lia. rewrite Hi, Hv, bool_decide_true, Z.eqb_refl by done. cbn [negb].
  rewrite (proj2 (Z.eqb_neq _ _)) by done. cbn [negb]. rewrite read_entries_overrun; [done|done|].
  rewrite lenz_drop_z; change NB_MAX_REPAIR with 121; change sizeof_entry with 16; lia.
Qed.

(** ** Examples *)

(** A VPD with the first [n] of 121 repairs, of one bit of the WRAM of a DPU. *)
Definition example_repair (i : Z) : repair_entry := mk_repair_entry DPU_VPD_REPAIR_WRAM 0 1 2 0 0 i 1.
Definition example_vpd (n : Z) : dpu_vpd :=
  mk_vpd (upd_rank 0 (fun _ => mk_rank_data 0 (if n =? 0 then 0 else 2 ^ 10) 0) (set_repair_count n default_header))
    (map example_repair (seqZ 0 NB_MAX_REPAIR)).

Lemma example_wf n : fits 16 n -> wf_vpd (example_vpd n).
Proof.
  intros Hn. constructor; [|done|].
  - constructor; [done..| |done|done|]; [exact Hn|].
    repeat constructor; cbn; try done; by case_bool.
  - apply list_relations.list.Forall_forall. intros e (i & -> & Hi%elem_of_seqZ)%list_elem_of_fmap.
    change (0 + NB_MAX_REPAIR) with 121 in Hi.
    constructor; try done. cbn. unfold fits. lia.
Qed.

Lemma vpd_file_roundtrip_witness : exists content v',
  dpu_vpd_write (example_vpd 3) (Some (replicate 1000 7)) = Done (content, None) /\
  lenz content <= VPD_MAX_SIZE /\
  dpu_vpd_init (Some (Some content)) (example_vpd 9) = Done v' /\
  header v' = header (example_vpd 3) /\ recorded v' = recorded (example_vpd 3).
Proof.
  exact (vpd_file_roundtrip (example_vpd 3) (Some (replicate 1000 7)) (example_vpd 9)
    (example_wf 3 ltac:(done)) ltac:(done) ltac:(done) eq_refl).
Defined.

Lemma example_coherent : coherent_vpd (example_vpd 3).
Proof.
  constructor; [done|done|done| |].
  - change (nr_repairs (example_vpd 3)) with 3. intros i j Hi Hj.
    assert (i = 0 /\ j = 1 \/ i = 0 /\ j = 2 \/ i = 1 /\ j = 2) as [[-> ->]|[[-> ->]|[-> ->]]] by lia; done.
  - intros iram r b Hr. revert b. revert r Hr. destruct iram; by_eval.
Qed.

Lemma add_repair_entry_coherent_witness : exists v',
  dpu_vpd_add_repair_entry (example_vpd 3) (example_repair 8) = Done v' /\ coherent_vpd v' /\
  recorded v' = recorded (example_vpd 3) ++ [example_repair 8] /\
  forall r, 0 <= r < VPD_MAX_RANK -> disabled_of v' r = disabled_of (example_vpd 3) r.
Proof.
  exact (add_repair_entry_coherent (example_vpd 3) (example_repair 8) example_coherent
    ltac:(by vm_compute) ltac:(by vm_compute) ltac:(by vm_compute)).
Defined.

Lemma disable_enable_dpu_witness :
  dpu_vpd_enable_dpu (example_vpd 3) 1 2 3 = Failed DPU_VPD_ERR_DPU_ALREADY_ENABLED /\
  exists v', dpu_vpd_disable_dpu (example_vpd 3) 1 2 3 = Done v' /\
    dpu_vpd_enable_dpu v' 1 2 3 = Done (example_vpd 3).
Proof.
  destruct (disable_enable_dpu (example_vpd 3) 1 2 3 eq_refl ltac:(by vm_compute) ltac:(done) ltac:(done)
    ltac:(by vm_compute)) as (H1 & v' & H2 & H3 & _).
  split; [exact H1|]. exists v'. split; [exact H2|exact H3].
Defined.
