(* ===== verification/Repair.v ===== *)
(** * Memory repair configurations

    Model of [extract_memory_repair_configuration] and its helpers
    ([src/ufi/src/ufi_config.c]): from the corrupted addresses of a memory
    and their faulty bits, the configuration of the spare rows A, B (sharing
    their most significant bits), C, D (likewise) and of the two spare columns,
    one for even bits and one for odd bits. *)

From S2P Require Import Prelude CMonad Rank Ufi.

#[local] Open Scope Z_scope.
#[local] Open Scope dpu_scope.

(** [__builtin_clzll], of a word that is not 0. *)
Definition clz64 (x : Z) : Z := 63 - Z.log2 x.

Definition count_nr_of_faulty_bits (data : Z) : Z := u8 (popcount data).
Definition find_index_of_first_faulty_bit (data : Z) : Z := u8 (ctz data).
Definition find_index_of_last_faulty_bit (data : Z) : Z := u8 (63 - clz64 data).

(** Every field at [0xFF]: nothing chosen yet. *)
Definition unset_config : repair_config :=
  mk_repair_config 0xFF 0xFF 0xFF 0xFF 0xFF 0xFF 0xFF 0xFF.

Definition msbs_of (address : Z) : Z := u8 (Z.shiftr address 4).
Definition lsbs_of (address : Z) : Z := u8 (address &&& 0xF).

(** One turn of the loop that places the corrupted addresses. *)
Definition place_address (address : Z) (c : repair_config) : option repair_config :=
  let msbs := msbs_of address in
  let lsbs := lsbs_of address in
  if A_lsbs c =? 0xFF then
    Some (mk_repair_config msbs (CD_msbs c) lsbs (B_lsbs c) (C_lsbs c) (D_lsbs c)
            (even_index c) (odd_index c))
  else if (B_lsbs c =? 0xFF) && (AB_msbs c =? msbs) then
    Some (mk_repair_config (AB_msbs c) (CD_msbs c) (A_lsbs c) lsbs (C_lsbs c) (D_lsbs c)
            (even_index c) (odd_index c))
  else if C_lsbs c =? 0xFF then
    Some (mk_repair_config (AB_msbs c) msbs (A_lsbs c) (B_lsbs c) lsbs (D_lsbs c)
            (even_index c) (odd_index c))
  else if (D_lsbs c =? 0xFF) && (CD_msbs c =? msbs) then
    Some (mk_repair_config (AB_msbs c) (CD_msbs c) (A_lsbs c) (B_lsbs c) (C_lsbs c) lsbs
            (even_index c) (odd_index c))
  else None.

(** The loop: [false] with what was placed so far when an address does not fit. *)
Fixpoint place_addresses (addresses : list Z) (c : repair_config) : bool * repair_config :=
  match addresses with
  | [] => (true, c)
  | address :: addresses =>
      match place_address address c with
      | Some c => place_addresses addresses c
      | None => (false, c)
      end
  end.

Definition set_even_index (v : Z) (c : repair_config) : repair_config :=
  mk_repair_config (AB_msbs c) (CD_msbs c) (A_lsbs c) (B_lsbs c) (C_lsbs c) (D_lsbs c) v (odd_index c).
Definition set_odd_index (v : Z) (c : repair_config) : repair_config :=
  mk_repair_config (AB_msbs c) (CD_msbs c) (A_lsbs c) (B_lsbs c) (C_lsbs c) (D_lsbs c) (even_index c) v.

(** [case 2] of the switch: the last faulty bit. *)
Definition place_last_bit (faulty_bits : Z) (c : repair_config) : repair_config :=
  let last_index := find_index_of_last_faulty_bit faulty_bits in
  if last_index &&& 1 =? 1 then set_odd_index last_index c else set_even_index last_index c.

(** [case 1]: the first faulty bit. *)
Definition place_first_bit (faulty_bits : Z) (c : repair_config) : bool * repair_config :=
  let first_index := find_index_of_first_faulty_bit faulty_bits in
  if first_index &&& 1 =? 1 then
    if negb (odd_index c =? 0xFF) then (false, c) else (true, set_odd_index first_index c)
  else
    if negb (even_index c =? 0xFF) then (false, c) else (true, set_even_index first_index c).

Definition place_bits (faulty_bits : Z) (c : repair_config) : bool * repair_config :=
  let n := count_nr_of_faulty_bits faulty_bits in
  if 2 <? n then (false, c)
  else if n =? 2 then place_first_bit faulty_bits (place_last_bit faulty_bits c)
  else if n =? 1 then place_first_bit faulty_bits c
  else if n =? 0 then (true, c)
  else (false, c).

(** The defaults of the fields that were not chosen. *)
Definition or_default (v default : Z) : Z := if v =? 0xFF then default else v.
Definition default_values (c : repair_config) : repair_config :=
  mk_repair_config (AB_msbs c) (CD_msbs c) (or_default (A_lsbs c) 0xF) (or_default (B_lsbs c) 0xF)
    (or_default (C_lsbs c) 0xF) (or_default (D_lsbs c) 0xF) (or_default (even_index c) 0)
    (or_default (odd_index c) 1).

(** The entries of a memory in use. *)
Definition corrupted (repair_info : memory_repair) : list repair_address :=
  map (fun i => (corrupted_addresses repair_info).[i]) (seqZ 0 (nr_of_corrupted_addresses repair_info)).
Definition all_faulty_bits (entries : list repair_address) : Z :=
  fold_left (fun bits e => bits ||| ra_faulty_bits e) entries 0.

(** [extract_memory_repair_configuration]: the returned boolean and what the
    function leaves in [repair_config]. *)
Definition extract_memory_repair_configuration (repair_info : memory_repair) : bool * repair_config :=
  if NB_MAX_REPAIR_ADDR <? nr_of_corrupted_addresses repair_info then (false, unset_config)
  else
    let entries := corrupted repair_info in
    match place_addresses (map ra_address entries) unset_config with
    | (false, c) => (false, c)
    | (true, c) =>
        match place_bits (all_faulty_bits entries) c with
        | (false, c) => (false, c)
        | (true, c) => (true, default_values c)
        end
    end.

(** ** Specification *)

(** A memory can be repaired when every corrupted entry gets a spare row, two
    entries sharing a pair of spare rows only if they share their most
    significant bits, and when the faulty bits are at most one even bit and one
    odd bit. [bank] says which pair of rows each entry uses. *)
Definition repairable_rows (addresses : list Z) : Prop := exists (ab cd : Z) (bank : list bool),
  Forall2 (fun (b : bool) address => msbs_of address = if b then ab else cd) bank addresses /\
  (length (filter (fun b => b = true) bank) <= 2)%nat /\
  (length (filter (fun b => b = false) bank) <= 2)%nat.
Definition repairable_bits (bits : Z) : Prop := exists e o : Z,
  Z.even e = true /\ Z.odd o = true /\ forall i, Z.testbit bits i = true -> i = e \/ i = o.
Definition repairable (repair_info : memory_repair) : Prop :=
  repairable_rows (map ra_address (corrupted repair_info)) /\
  repairable_bits (all_faulty_bits (corrupted repair_info)).

(** What the hardware replaces under a configuration. *)
Definition spare_row (c : repair_config) (address : Z) : Prop :=
  (AB_msbs c = Z.shiftr address 4 /\ (A_lsbs c = address &&& 0xF \/ B_lsbs c = address &&& 0xF)) \/
  (CD_msbs c = Z.shiftr address 4 /\ (C_lsbs c = address &&& 0xF \/ D_lsbs c = address &&& 0xF)).
Definition spare_column (c : repair_config) (bit : Z) : Prop :=
  even_index c = bit \/ odd_index c = bit.

(** The fields fit the bits that the commands have for them. *)
Record config_fits (c : repair_config) : Prop := {
  cf_A : fits 4 (A_lsbs c); cf_B : fits 4 (B_lsbs c); cf_C : fits 4 (C_lsbs c);
  cf_D : fits 4 (D_lsbs c); cf_AB : fits 8 (AB_msbs c); cf_CD : fits 8 (CD_msbs c);
  cf_even : 0 <= even_index c < 64 /\ Z.even (even_index c) = true;
  cf_odd : 0 <= odd_index c < 64 /\ Z.odd (odd_index c) = true;
}.

Record repair_wf (repair_info : memory_repair) : Prop := {
  rw_nr : 0 <= nr_of_corrupted_addresses repair_info;
  rw_entries : Forall (fun e => fits 12 (ra_address e) /\ fits 64 (ra_faulty_bits e))
    (corrupted repair_info);
}.

(** ** Rows *)

Lemma lsbs_fits a : fits 4 (lsbs_of a).
Proof.
  unfold lsbs_of, fits. rewrite (land_ones_mod _ 4) by lia. pose proof (Z.mod_pos_bound a (2 ^ 4)).
  rewrite u8_id; [lia|]. unfold fits. lia.
Qed.
Lemma lsbs_set a : (lsbs_of a =? 0xFF) = false.
Proof. pose proof (lsbs_fits a) as H. unfold fits in H. apply Z.eqb_neq. lia. Qed.

(** Placing at most four addresses, one comparison after the other. *)
Ltac place :=
  cbv beta iota zeta delta [place_addresses place_address unset_config AB_msbs CD_msbs A_lsbs B_lsbs
    C_lsbs D_lsbs even_index odd_index andb];
  repeat (rewrite ?lsbs_set, ?Z.eqb_refl; cbv beta iota).
Ltac place_cases :=
  repeat first [progress place |
    match goal with |- context [if msbs_of ?a =? msbs_of ?b then _ else _] =>
      destruct (Z.eqb_spec (msbs_of a) (msbs_of b)) end].

Lemma repairable_rows_length addresses : repairable_rows addresses -> (length addresses <= 4)%nat.
Proof.
  intros (ab & cd & bank & Hb & Ht & Hf). rewrite <-(Forall2_length Hb).
  assert (length bank = length (filter (fun b => b = true) bank) +
    length (filter (fun b => b = false) bank))%nat as ->; [|lia].
  clear. induction bank as [|[] bank IH]; [done|..]; rewrite !filter_cons; simpl; lia.
Qed.

Lemma place_complete addresses : repairable_rows addresses ->
  fst (place_addresses addresses unset_config) = true.
Proof.
  intros Hr. pose proof (repairable_rows_length _ Hr) as Hlen.
  destruct Hr as (ab & cd & bank & Hb & Ht & Hf).
  destruct Hb as [|b1 a1 bank addresses H1 Hb]; [done|].
  destruct Hb as [|b2 a2 bank addresses H2 Hb]; [by place_cases|].
  destruct Hb as [|b3 a3 bank addresses H3 Hb].
  { place_cases; done. }
  destruct Hb as [|b4 a4 bank addresses H4 Hb]; [|destruct Hb; [|simpl in Hlen; lia]].
  - destruct b1, b2, b3; vm_compute in Ht, Hf; try lia; place_cases; try done; congruence.
  - destruct b1, b2, b3, b4; vm_compute in Ht, Hf; try lia; place_cases; try done; congruence.
Qed.

Lemma msbs_id a : fits 12 a -> msbs_of a = Z.shiftr a 4.
Proof.
  unfold msbs_of, fits. intros Ha. rewrite Z.shiftr_div_pow2 by lia. apply u8_id. unfold fits.
  change (2 ^ 12) with 4096 in Ha. change (2 ^ 4) with 16. change (2 ^ 8) with 256.
  split; [by apply Z.div_pos; lia|apply Z.div_lt_upper_bound; lia].
Qed.
Lemma msbs_fits a : fits 8 (msbs_of a).
Proof. apply u8_fits. Qed.
Lemma lsbs_id a : lsbs_of a = a &&& 0xF.
Proof.
  unfold lsbs_of. rewrite (land_ones_mod _ 4) by lia. apply u8_id. unfold fits.
  pose proof (Z.mod_pos_bound a (2 ^ 4)). lia.
Qed.

(** What a placement covers. *)
Definition rows_placed (addresses : list Z) (c : repair_config) : Prop :=
  Forall (fun a => (AB_msbs c = msbs_of a /\ (A_lsbs c = lsbs_of a \/ B_lsbs c = lsbs_of a)) \/
                   (CD_msbs c = msbs_of a /\ (C_lsbs c = lsbs_of a \/ D_lsbs c = lsbs_of a)))
    addresses.
Definition row_fields (c : repair_config) : Prop :=
  even_index c = 0xFF /\ odd_index c = 0xFF /\ fits 8 (AB_msbs c) /\ fits 8 (CD_msbs c) /\
  Forall (fun v => v = 0xFF \/ fits 4 v) [A_lsbs c; B_lsbs c; C_lsbs c; D_lsbs c].

Lemma place_fields a c c' : row_fields c -> place_address a c = Some c' -> row_fields c'.
Proof.
  intros (He & Ho & Hab & Hcd & Hf) Hp. unfold place_address in Hp. cbv zeta in Hp.
  pose proof (lsbs_fits a). pose proof (msbs_fits a).
  repeat (apply Forall_cons_iff in Hf as [? Hf]).
  repeat case_match; simplify_eq; unfold row_fields; cbn; split_and!; auto;
    repeat (apply Forall_cons_2 || apply Forall_nil_2); auto.
Qed.
Lemma places_fields addresses c c' b : row_fields c ->
  place_addresses addresses c = (b, c') -> row_fields c'.
Proof.
  revert c. induction addresses as [|a addresses IH]; intros c Hc; cbn [place_addresses];
    [by intros [= _ <-]|].
  destruct (place_address a c) eqn:Hp; [|by intros [= _ <-]].
  apply IH. by eapply place_fields.
Qed.

#[local] Opaque msbs_of lsbs_of.
Ltac rows_done := repeat (apply Forall_cons_2 || apply Forall_nil_2); cbn; tauto.
Ltac bank_done ab cd bank :=
  exists ab, cd, bank; split; [|split; vm_compute; lia];
  repeat (apply Forall2_cons_2 || apply Forall2_nil_2); congruence.
Lemma place_sound addresses c : (length addresses <= 4)%nat ->
  place_addresses addresses unset_config = (true, c) ->
  repairable_rows addresses /\ rows_placed addresses c.
Proof.
  intros Hlen Hp. unfold rows_placed.
  destruct addresses as [|a1 [|a2 [|a3 [|a4 [|a5 l]]]]]; [..|simpl in Hlen; lia].
  all: revert Hp; place_cases; intros [= <-]; (split; [|rows_done]);
    first [bank_done 0 0 (@nil bool)
          |bank_done (msbs_of a1) 0 [true]
          |bank_done (msbs_of a1) 0 [true; true]
          |bank_done (msbs_of a1) (msbs_of a2) [true; false]
          |bank_done (msbs_of a1) (msbs_of a3) [true; true; false]
          |bank_done (msbs_of a1) (msbs_of a2) [true; false; true]
          |bank_done (msbs_of a1) (msbs_of a2) [true; false; false]
          |bank_done (msbs_of a1) (msbs_of a3) [true; true; false; false]
          |bank_done (msbs_of a1) (msbs_of a2) [true; false; true; false]
          |bank_done (msbs_of a1) (msbs_of a2) [true; false; false; true]].
Qed.
#[local] Transparent msbs_of lsbs_of.

Lemma unset_row_fields : row_fields unset_config.
Proof. unfold row_fields. cbn. split_and!; try done; repeat (apply Forall_cons_2 || apply Forall_nil_2); auto. Qed.

(** ** Columns *)

Lemma land1_odd x : (x &&& 1 =? 1) = Z.odd x.
Proof.
  rewrite (land_ones_mod _ 1) by lia. change (2 ^ 1) with 2. rewrite Zmod_odd. by destruct (Z.odd x).
Qed.

Section Bits.
Context (x : Z) (Hx : fits 64 x) (Hpos : 0 < x).

Lemma log2_range : 0 <= Z.log2 x < 64.
Proof. split; [apply Z.log2_nonneg|]. apply Z.log2_lt_pow2; [done|]. apply Hx. Qed.
Lemma ctz_range : 0 <= ctz x <= Z.log2 x.
Proof. apply testbit_true_range; [lia|]. by apply ctz_testbit. Qed.
Lemma first_bit : find_index_of_first_faulty_bit x = ctz x.
Proof.
  pose proof log2_range. pose proof ctz_range. apply u8_id. unfold fits. change (2 ^ 8) with 256. lia.
Qed.
Lemma last_bit : find_index_of_last_faulty_bit x = Z.log2 x.
Proof.
  pose proof log2_range. unfold find_index_of_last_faulty_bit, clz64. rewrite u8_id; [lia|].
  unfold fits. change (2 ^ 8) with 256. lia.
Qed.
End Bits.

Lemma popcount_64 x : fits 64 x -> count_nr_of_faulty_bits x = popcount x.
Proof.
  intros Hx. apply u8_id. unfold fits. change (2 ^ 8) with 256.
  split; [apply popcount_nonneg|].
  assert (popcount x <= Z.of_nat (length (seqZ 0 64))) as Hle.
  { apply popcount_le_length; [apply Hx|]. intros i Hi.
    assert (0 < x) as Hp by (destruct Hx; destruct (decide (x = 0)) as [->|]; [by rewrite Z.testbit_0_l in Hi|lia]).
    pose proof (testbit_true_range x i (proj1 Hx) Hi). pose proof (log2_range x Hx Hp).
    apply elem_of_seqZ. lia. }
  rewrite length_seqZ in Hle. lia.
Qed.

(** One index per parity, [0xFF] where none is needed. *)
Record columns_placed (bits : Z) (c : repair_config) : Prop := {
  cp_even : even_index c = 0xFF \/ (0 <= even_index c < 64 /\ Z.even (even_index c) = true);
  cp_odd : odd_index c = 0xFF \/ (0 <= odd_index c < 64 /\ Z.odd (odd_index c) = true);
  cp_bits : forall i, Z.testbit bits i = true -> i = even_index c \/ i = odd_index c;
}.

Lemma columns_repairable bits c : fits 64 bits -> columns_placed bits c -> repairable_bits bits.
Proof.
  intros Hx [He Ho Hb].
  exists (if decide (even_index c = 0xFF) then 0 else even_index c),
    (if decide (odd_index c = 0xFF) then 1 else odd_index c). split_and!.
  - case_decide; [done|]. by destruct He as [|[_ He]].
  - case_decide; [done|]. by destruct Ho as [|[_ Ho]].
  - intros i Hi.
    assert (0 < bits) as Hp by (destruct Hx; destruct (decide (bits = 0)) as [->|]; [by rewrite Z.testbit_0_l in Hi|lia]).
    pose proof (testbit_true_range bits i (proj1 Hx) Hi). pose proof (log2_range bits Hx Hp).
    destruct (Hb i Hi); subst; repeat case_decide; auto; lia.
Qed.

Section PlaceBits.
Context (x : Z) (c : repair_config) (Hx : fits 64 x).
Context (Heven : even_index c = 0xFF) (Hodd : odd_index c = 0xFF).

Lemma place_bits_sound c' : place_bits x c = (true, c') ->
  columns_placed x c' /\ AB_msbs c' = AB_msbs c /\ CD_msbs c' = CD_msbs c /\ A_lsbs c' = A_lsbs c /\
  B_lsbs c' = B_lsbs c /\ C_lsbs c' = C_lsbs c /\ D_lsbs c' = D_lsbs c.
Proof.
  unfold place_bits. rewrite popcount_64 by done.
  destruct (decide (x = 0)) as [->|Hne].
  { intros [= <-]. split; [|done]. split; auto. intros i. by rewrite Z.testbit_0_l. }
  assert (0 < x) as Hp by (destruct Hx; lia).
  pose proof (log2_range x Hx Hp) as Hlog. pose proof (ctz_range x Hp) as Hctz.
  pose proof (popcount_le_two x) as Hbits.
  unfold place_first_bit, place_last_bit. rewrite first_bit, last_bit by done.
  rewrite !land1_odd.
  destruct (Z.ltb_spec 2 (popcount x)); [done|].
  destruct (Z.eqb_spec (popcount x) 2) as [H2|].
  { destruct (Z.odd (ctz x)) eqn:Hoc, (Z.odd (Z.log2 x)) eqn:Hol;
      cbn [set_odd_index set_even_index odd_index even_index]; rewrite ?Heven, ?Hodd;
      rewrite ?Z.eqb_refl; cbn [negb]; repeat case_bool; intros [= <-]; try (exfalso; lia); cbn;
      (split; [|done]); split; cbn; rewrite ?Heven, ?Hodd, <-?Z.negb_odd, ?Hoc, ?Hol; auto with lia;
      intros i Hi; destruct (Hbits i Hp ltac:(lia) Hi); auto. }
  destruct (Z.eqb_spec (popcount x) 1) as [H1|].
  { pose proof (popcount_le_one x Hp ltac:(lia)) as Heq.
    rewrite Heven, Hodd. destruct (Z.odd (ctz x)) eqn:Hoc; rewrite Z.eqb_refl; cbn [negb];
      intros [= <-]; cbn; (split; [|done]); split; cbn;
      rewrite ?Heven, ?Hodd, <-?Z.negb_odd, ?Hoc; auto with lia;
      intros i Hi; destruct (Hbits i Hp ltac:(lia) Hi); first [left; congruence|right; congruence]. }
  destruct (Z.eqb_spec (popcount x) 0); [|done]. exfalso. apply Hne, popcount_zero; [apply Hx|done].
Qed.

Lemma place_bits_complete : repairable_bits x -> fst (place_bits x c) = true.
Proof.
  intros (e & o & He & Ho & Hb). unfold place_bits. rewrite popcount_64 by done.
  assert (popcount x <= 2) as Hle.
  { apply (popcount_le_length [e; o]); [apply Hx|]. intros i Hi. destruct (Hb i Hi); subst; auto using list_elem_of_here, list_elem_of_further. }
  rewrite (proj2 (Z.ltb_ge _ _)) by done.
  destruct (decide (x = 0)) as [->|Hne]; [done|].
  assert (0 < x) as Hp by (destruct Hx; lia).
  assert (0 < popcount x) as H0.
  { pose proof (popcount_nonneg x). pose proof (popcount_zero x). destruct Hx. lia. }
  pose proof (ctz_testbit x Hp) as Hc. pose proof (Z.bit_log2 x Hp) as Hl.
  pose proof (log2_range x Hx Hp). pose proof (ctz_range x Hp).
  unfold place_first_bit, place_last_bit. rewrite first_bit, last_bit, !land1_odd by done.
  destruct (Z.eqb_spec (popcount x) 2) as [H2|].
  - pose proof (popcount_two_distinct x Hp ltac:(lia)).
    assert (Z.odd (ctz x) = negb (Z.odd (Z.log2 x))) as ->.
    { rewrite <-Z.negb_odd in He. destruct (Z.odd e) eqn:?; [done|].
      destruct (Hb _ Hc) as [E1|E1], (Hb _ Hl) as [E2|E2]; rewrite ?E1, ?E2; rewrite ?Ho, ?Heqb; try done; congruence. }
    destruct (Z.odd (Z.log2 x)); cbn; by rewrite ?Heven, ?Hodd.
  - rewrite (proj2 (Z.eqb_eq (popcount x) 1)) by lia. destruct (Z.odd (ctz x)); by rewrite ?Heven, ?Hodd.
Qed.
End PlaceBits.

Lemma all_faulty_bits_testbit entries i :
  Z.testbit (all_faulty_bits entries) i = existsb (fun e => Z.testbit (ra_faulty_bits e) i) entries.
Proof.
  unfold all_faulty_bits.
  enough (forall acc, Z.testbit (fold_left (fun bits e => bits ||| ra_faulty_bits e) entries acc) i =
    Z.testbit acc i || existsb (fun e => Z.testbit (ra_faulty_bits e) i) entries) as H
    by (rewrite H; by rewrite Z.testbit_0_l).
  induction entries as [|e entries IH]; intros acc; cbn [fold_left existsb]; [by rewrite orb_false_r|].
  by rewrite IH, Z.lor_spec, orb_assoc.
Qed.

Lemma all_faulty_bits_fits entries : Forall (fun e => fits 64 (ra_faulty_bits e)) entries ->
  fits 64 (all_faulty_bits entries).
Proof.
  unfold all_faulty_bits. enough (forall acc, fits 64 acc -> Forall (fun e => fits 64 (ra_faulty_bits e)) entries ->
    fits 64 (fold_left (fun bits e => bits ||| ra_faulty_bits e) entries acc)) as H by (apply H; done).
  induction entries as [|e entries IH]; intros acc Hacc Hf; [done|].
  apply Forall_cons_iff in Hf as [He Hf]. apply IH; [|done]. by apply fits_lor.
Qed.

(** ** Defaults *)

Lemma or_default_fits v : v = 0xFF \/ fits 4 v -> fits 4 (or_default v 0xF).
Proof. unfold or_default, fits. intros [->|H]; [done|]. case_bool; [done|exact H]. Qed.
Lemma or_default_index (P : Z -> bool) v d : 0 <= d < 64 -> P d = true ->
  v = 0xFF \/ (0 <= v < 64 /\ P v = true) ->
  0 <= or_default v d < 64 /\ P (or_default v d) = true.
Proof. unfold or_default. intros Hd Hp [->|H]; [done|]. by case_bool. Qed.

(** A spare row in use is not a default. *)
Lemma default_covers_row c a : fits 12 a ->
  (AB_msbs c = msbs_of a /\ (A_lsbs c = lsbs_of a \/ B_lsbs c = lsbs_of a)) \/
  (CD_msbs c = msbs_of a /\ (C_lsbs c = lsbs_of a \/ D_lsbs c = lsbs_of a)) ->
  spare_row (default_values c) a.
Proof.
  intros Ha. unfold spare_row, default_values, or_default.
  cbn [AB_msbs CD_msbs A_lsbs B_lsbs C_lsbs D_lsbs].
  rewrite <-(msbs_id a Ha), <-(lsbs_id a).
  intros [[-> [->| ->]]|[-> [->| ->]]]; rewrite lsbs_set; auto.
Qed.

(** ** Properties *)

Lemma corrupted_length repair_info : 0 <= nr_of_corrupted_addresses repair_info ->
  Z.of_nat (length (map ra_address (corrupted repair_info))) = nr_of_corrupted_addresses repair_info.
Proof. intros H. unfold corrupted. rewrite !length_map, length_seqZ. lia. Qed.

(** C38: the greedy placement is complete: a configuration is found exactly when
    the memory can be repaired at all with its spare rows and columns. *)
Theorem extract_succeeds_iff_repairable repair_info : repair_wf repair_info ->
  fst (extract_memory_repair_configuration repair_info) = true <-> repairable repair_info.
Proof.
  intros [Hnr Hent]. pose proof (corrupted_length _ Hnr) as Hlen.
  assert (fits 64 (all_faulty_bits (corrupted repair_info))) as Hbits.
  { apply all_faulty_bits_fits. revert Hent. apply Forall_impl. by intros e []. }
  unfold extract_memory_repair_configuration, repairable, NB_MAX_REPAIR_ADDR.
  destruct (Z.ltb_spec 4 (nr_of_corrupted_addresses repair_info)).
  { split; [done|]. intros [Hr _]. apply repairable_rows_length in Hr. lia. }
  destruct (place_addresses (map ra_address (corrupted repair_info)) unset_config) as [[|] c] eqn:Hp.
  2: { split; [done|]. intros [Hr _]. apply place_complete in Hr. by rewrite Hp in Hr. }
  destruct (places_fields _ _ _ _ unset_row_fields Hp) as (He & Ho & _).
  apply place_sound in Hp as [Hr _]; [|lia].
  destruct (place_bits _ c) as [[|] c'] eqn:Hb; cbn [fst]; (split; [intros ?|intros [_ Hrb]]); try done.
  - split; [done|]. apply place_bits_sound in Hb as [Hb _]; [|done..]. by eapply columns_repairable.
  - apply (place_bits_complete _ c) in Hrb; [|done..]. by rewrite Hb in Hrb.
Qed.

(** what a successful extraction configures: every corrupted row is replaced by
    a spare row, every faulty bit by a spare column of its parity, and every
    field fits the command that carries it. *)
Theorem extract_repairs repair_info c : repair_wf repair_info ->
  extract_memory_repair_configuration repair_info = (true, c) ->
  config_fits c /\
  Forall (fun e => spare_row c (ra_address e) /\
    forall bit, Z.testbit (ra_faulty_bits e) bit = true -> spare_column c bit) (corrupted repair_info).
Proof.
  intros [Hnr Hent]. pose proof (corrupted_length _ Hnr) as Hlen.
  assert (fits 64 (all_faulty_bits (corrupted repair_info))) as Hbits.
  { apply all_faulty_bits_fits. revert Hent. apply Forall_impl. by intros e []. }
  unfold extract_memory_repair_configuration, NB_MAX_REPAIR_ADDR.
  destruct (Z.ltb_spec 4 (nr_of_corrupted_addresses repair_info)); [done|].
  destruct (place_addresses _ unset_config) as [[|] c1] eqn:Hp; [|done].
  destruct (places_fields _ _ _ _ unset_row_fields Hp) as (He & Ho & Hab & Hcd & Hf).
  apply place_sound in Hp as [_ Hrows]; [|lia].
  destruct (place_bits _ c1) as [[|] c2] eqn:Hb; [|done]. intros [= <-].
  apply place_bits_sound in Hb as (Hcols & Hab2 & Hcd2 & HA & HB & HC & HD); [|done..].
  split.
  - repeat (apply Forall_cons_iff in Hf as [? Hf]). destruct Hcols as [Hce Hco _].
    split; cbn; rewrite ?HA, ?HB, ?HC, ?HD, ?Hab2, ?Hcd2; auto using or_default_fits;
      apply or_default_index; done.
  - apply Forall_forall. intros e He'. split.
    + apply default_covers_row; [by destruct (proj1 (Forall_forall _ _) Hent e He')|].
      rewrite Hab2, Hcd2, HA, HB, HC, HD. apply (proj1 (Forall_forall _ _) Hrows).
      by apply in_map.
    + intros bit Hbit. destruct Hcols as [Hce Hco Hall].
      assert (bit < 64) as Hlt.
      { destruct (proj1 (Forall_forall _ _) Hent e He') as [_ Hfe].
        destruct (decide (bit < 64)); [done|].
        by rewrite (proj1 (fits_testbit 64 _ ltac:(done) (proj1 Hfe)) Hfe) in Hbit by lia. }
      assert (Z.testbit (all_faulty_bits (corrupted repair_info)) bit = true) as Hb.
      { rewrite all_faulty_bits_testbit. apply existsb_exists. by exists e. }
      destruct (Hall _ Hb) as [E|E]; [left|right]; cbn; rewrite <-E; unfold or_default;
        by rewrite (proj2 (Z.eqb_neq bit 0xFF)) by lia.
Qed.

(** Four corrupted rows in two groups, two faulty columns. *)
Definition sample_repair : memory_repair :=
  mk_memory_repair [mk_repair_address 0x123 0x4; mk_repair_address 0x456 0x8;
    mk_repair_address 0x12a 0x4; mk_repair_address 0x45f 0x0] 4 false.

#[export] Instance repair_wf_dec r : Decision (repair_wf r).
Proof.
  refine (cast_if (decide (0 <= nr_of_corrupted_addresses r /\
    Forall (fun e => fits 12 (ra_address e) /\ fits 64 (ra_faulty_bits e)) (corrupted r)))).
  - abstract (by split; destruct_and!).
  - abstract (intros [? ?]; apply n; tauto).
Defined.

Lemma extract_succeeds_iff_repairable_witness : repairable sample_repair.
Proof.
  exact (proj1 (extract_succeeds_iff_repairable sample_repair ltac:(by_eval)) ltac:(by_eval)).
Defined.

Lemma extract_repairs_witness : exists c,
  extract_memory_repair_configuration sample_repair = (true, c) /\
  AB_msbs c = 0x12 /\ CD_msbs c = 0x45 /\ odd_index c = 3 /\ config_fits c.
Proof.
  exists (mk_repair_config 0x12 0x45 3 0xa 6 0xf 2 3). split; [by vm_compute|]. do 3 (split; [done|]).
  exact (proj1 (extract_repairs sample_repair (mk_repair_config 0x12 0x45 3 0xa 6 0xf 2 3)
    ltac:(by_eval) ltac:(by vm_compute))).
Defined.
