(* ===== verification/Config.v ===== *)
(** * The reset of a rank

    Model of the configuration steps of [src/ufi/src/ufi_config.c] and of
    [ci_reset_rank], which runs them in order: byte order, soft reset, pin
    shuffling, identity, thermal threshold, carousel, memory repair, DMA and
    waveform generator, debug and run bits, PC mode, stack direction, the
    internal reset program, the muxes and the groups. The program that resets
    the DPUs (read from a file) and the rank's custom operation (a callback of
    the backend) are arguments. *)

From S2P Require Import Prelude CMonad BitConfig CiCommands Rank Ci Ufi Select Frame WaveGen Mux Repair.

#[local] Open Scope Z_scope.
#[local] Open Scope dpu_scope.

Definition REFRESH_MODE_VALUE := 2.
Definition EXPECTED_BYTE_ORDER_RESULT_AFTER_CONFIGURATION := 0x000103FF0F8FCFEF.
Definition DPU_PC_MODE_16 := 4.

(** [enum dpu_temperature]. *)
Inductive dpu_temperature :=
  | DPU_TEMPERATURE_LESS_THAN_50 | DPU_TEMPERATURE_BETWEEN_50_AND_60
  | DPU_TEMPERATURE_BETWEEN_60_AND_70 | DPU_TEMPERATURE_BETWEEN_70_AND_80
  | DPU_TEMPERATURE_BETWEEN_80_AND_90 | DPU_TEMPERATURE_BETWEEN_90_AND_100
  | DPU_TEMPERATURE_BETWEEN_100_AND_110 | DPU_TEMPERATURE_GREATER_THAN_110.
Definition temperature_value (t : dpu_temperature) : Z :=
  match t with
  | DPU_TEMPERATURE_LESS_THAN_50 => 0 | DPU_TEMPERATURE_BETWEEN_50_AND_60 => 1
  | DPU_TEMPERATURE_BETWEEN_60_AND_70 => 2 | DPU_TEMPERATURE_BETWEEN_70_AND_80 => 3
  | DPU_TEMPERATURE_BETWEEN_80_AND_90 => 4 | DPU_TEMPERATURE_BETWEEN_90_AND_100 => 5
  | DPU_TEMPERATURE_BETWEEN_100_AND_110 => 6 | DPU_TEMPERATURE_GREATER_THAN_110 => 7
  end.

Definition from_celsius_to_dpu_enum (temperature : Z) : dpu_temperature :=
  if temperature <? 50 then DPU_TEMPERATURE_LESS_THAN_50
  else if temperature <? 60 then DPU_TEMPERATURE_BETWEEN_50_AND_60
  else if temperature <? 70 then DPU_TEMPERATURE_BETWEEN_60_AND_70
  else if temperature <? 80 then DPU_TEMPERATURE_BETWEEN_70_AND_80
  else if temperature <? 90 then DPU_TEMPERATURE_BETWEEN_80_AND_90
  else if temperature <? 100 then DPU_TEMPERATURE_BETWEEN_90_AND_100
  else if temperature <? 110 then DPU_TEMPERATURE_BETWEEN_100_AND_110
  else DPU_TEMPERATURE_GREATER_THAN_110.

(** ** Saving the enabled DPUs *)

(** The two arrays of [ci_reset_rank]. *)
Record enabled_save := mk_enabled_save {
  all_dpus_are_enabled_save : list bool;
  enabled_dpus_save : list Z;
}.

(** One interface of [save_enabled_dpus]. *)
Definition save_enabled_slice (update_save : bool) (nr_dpus each_ci : Z) (st : enabled_save * rank)
    : enabled_save * rank :=
  let '(save, r) := st in
  let ci_info := slice_of r each_ci in
  let save := mk_enabled_save
    ((all_dpus_are_enabled_save save).[each_ci :=
       if update_save then (all_dpus_are_enabled_save save).[each_ci] && all_dpus_are_enabled ci_info
       else all_dpus_are_enabled ci_info])
    ((enabled_dpus_save save).[each_ci :=
       if update_save then (enabled_dpus_save save).[each_ci] &&& enabled_dpus ci_info
       else enabled_dpus ci_info]) in
  if enabled_dpus ci_info =? 0 then (save, r)
  else
    let r := upd_slice each_ci (fun info =>
      set_enabled_dpus (dpu_mask_all nr_dpus) (set_all_dpus_are_enabled true info)) r in
    (save, for_up nr_dpus (fun each_dpu => upd_dpu each_ci each_dpu (set_enabled true)) r).

Definition save_enabled_dpus (save : enabled_save) (update_save : bool) (r : rank)
    : enabled_save * rank :=
  for_up (nr_cis_of r) (save_enabled_slice update_save (nr_dpus_of r)) (save, r).

(** ** Byte order *)

Definition byte_order_values_are_compatible (reference found : Z) : bool :=
  forallb (fun each_byte =>
    popcount (u8 (Z.shiftr reference (8 * each_byte) &&& 0xFF))
    =? popcount (u8 (Z.shiftr found (8 * each_byte) &&& 0xFF))) (seqZ 0 8).

(** Some interface of the mask reports an order that is not the expected one. *)
Definition wrong_byte_order (r : rank) (mask : Z) (byte_order_results : list Z) : bool :=
  existsb (fun slice_id =>
    CI_MASK_ON mask slice_id &&
    negb (byte_order_values_are_compatible byte_order_results.[slice_id]
            EXPECTED_BYTE_ORDER_RESULT_AFTER_CONFIGURATION)) (seqZ 0 (nr_cis_of r)).

(** The copy of the byte orders that the driver reported. *)
Definition copy_byte_orders (r : rank) : list Z :=
  for_up (nr_cis_of r) (fun slice_id results =>
    results.[slice_id := byte_order (slice_of r slice_id)]) (data r).

(** An interface of the mask differs from the first one of the mask. *)
Definition inconsistent_results (r : rank) (mask : Z) (results : list Z) : bool :=
  existsb (fun slice_id =>
    CI_MASK_ON mask slice_id && negb (results.[slice_id] =? results.[ctz mask]))
    (seqZ 0 (nr_cis_of r)).

(** The default configuration of a memory that is not repaired. *)
Definition default_repair_config : repair_config := mk_repair_config 0 0 0 0 0 0 0 1.

(** Takes a DPU out of the rank. *)
Definition disable_faulty_dpu (each_ci each_dpu : Z) (repair : memory_repair -> dpu_t -> dpu_t)
    (info : memory_repair) (r : rank) : rank :=
  let r := upd_dpu each_ci each_dpu (fun dpu =>
    set_enabled false (repair (set_fail_to_repair true info) dpu)) r in
  upd_slice each_ci (fun info =>
    set_all_dpus_are_enabled false
      (set_enabled_dpus (enabled_dpus info &&& not8 (Z.shiftl 1 each_dpu)) info)) r.

(** Where the repair information of a DPU is. *)
Record repair_path := mk_repair_path {
  rp_get : dpu_t -> memory_repair;
  rp_set : memory_repair -> dpu_t -> dpu_t;
}.
Definition iram_path : repair_path := mk_repair_path iram_repair set_iram_repair.
Definition wram_path (bank : Z) : repair_path :=
  mk_repair_path (fun dpu => (wram_repair dpu).[bank])
    (fun info dpu => set_wram_repair ((wram_repair dpu).[bank := info]) dpu).

(** The loop over the interfaces: the configurations of DPU [each_dpu], the
    DPUs that cannot be repaired being disabled. *)
Definition extract_configs (path : repair_path) (nr_cis each_dpu : Z)
    (st : list repair_config * rank) : list repair_config * rank :=
  for_up nr_cis (fun each_ci '(configs, r) =>
    let info := rp_get path (dpu_of r each_ci each_dpu) in
    let '(ok, config) := extract_memory_repair_configuration info in
    (configs.[each_ci := config],
     if ok then r else disable_faulty_dpu each_ci each_dpu (rp_set path) info r)) st.

Definition all_disabled (r : rank) : bool :=
  forallb (fun each_ci => enabled_dpus (slice_of r each_ci) =? 0) (seqZ 0 (nr_cis_of r)).

Section Config.
Context {D : Type} `{!RankHandler D}.

Definition dpu_byte_order : W D unit :=
  r ← get_rank;
  '(mask, results) ←
    match rank_type r with
    | HW =>
        _ ← on_rank (fun r => set_data (copy_byte_orders r) r);
        r ← get_rank; mret (ALL_CIS, data r)
    | _ =>
        mask ← ufi_select_cis ALL_CIS;
        results ← ufi_byte_order mask (fun results r => set_data results r);
        mret (mask, results)
    end;
  r ← get_rank;
  if wrong_byte_order r mask results then fail DPU_ERR_DRIVER else mret tt.

(** The status of the reset command is dropped. *)
Definition dpu_soft_reset (clock_division : Z) : W D unit :=
  r ← get_rank;
  let cycle_accurate := if enable_cycle_accurate_behavior (desc r) then 1 else 0 in
  mask ← ufi_select_cis ALL_CIS;
  unchecked (ufi_soft_reset mask clock_division cycle_accurate).

(** [dpu_bit_config]; the result is written through [config], which the caller points to the
    description. *)
Definition dpu_bit_config_rank : W D unit :=
  mask ← ufi_select_cis ALL_CIS;
  results ← ufi_bit_config mask None (Some zeros8);
  let bit_config_results := default zeros8 results in
  r ← get_rank;
  if inconsistent_results r mask bit_config_results then fail DPU_ERR_INTERNAL
  else
    let config := dpu_bit_config_compute bit_config_results.[ctz mask] (pcb_transformation (desc r)) in
    on_rank (fun r => set_desc (set_pcb_transformation
      (mk_bit_config (cpu2dpu config) (dpu2cpu config) (nibble_swap config) 0) (desc r)) r).

Definition dpu_identity : W D unit :=
  mask ← ufi_select_cis ALL_CIS;
  identity_results ← ufi_identity mask zeros8;
  r ← get_rank;
  if inconsistent_results r mask identity_results then fail DPU_ERR_INTERNAL
  else if negb (identity_results.[ctz mask] =? chip_id (desc r)) then fail DPU_ERR_INTERNAL
  else mret tt.

Definition dpu_ci_shuffling_box_config (config : dpu_bit_config) : W D unit :=
  mask ← ufi_select_cis ALL_CIS;
  _ ← ufi_bit_config mask (Some config) None;
  mret tt.

(** The status of the thermal command is dropped. *)
Definition dpu_thermal_config (thermal_config : Z) : W D unit :=
  mask ← ufi_select_cis ALL_CIS;
  unchecked (ufi_thermal_config mask (temperature_value (from_celsius_to_dpu_enum thermal_config))).

Definition dpu_carousel_config (config : carousel_config) : W D unit :=
  mask ← ufi_select_all ALL_CIS;
  ufi_carousel_config mask config.

(** ** Repair *)

Definition repair_dpu (path : repair_path) (write : Z -> list repair_config -> W D unit) (each_dpu : Z)
    (configs : list repair_config) : W D (list repair_config) :=
  configs ← (fun w =>
    let '(configs, r) := extract_configs path (nr_cis_of (rk w)) each_dpu (configs, rk w) in
    (mk_world r (dev w), Ok configs));
  ci_mask ← ufi_select_dpu ALL_CIS each_dpu;
  _ ← write ci_mask configs;
  mret configs.

(** [configs] is not initialised in the source; an entry is written before it
    is read. *)
Definition no_configs : list repair_config := replicate 8 unset_config.

Definition check_all_disabled : W D unit :=
  r ← get_rank;
  if all_disabled r then fail DPU_ERR_CORRUPTED_MEMORY else mret tt.

Definition try_to_repair_iram : W D unit :=
  r ← get_rank;
  _ ← mfor (nr_dpus_of r) (repair_dpu iram_path ufi_iram_repair_config) no_configs;
  check_all_disabled.

Definition try_to_repair_wram : W D unit :=
  r ← get_rank;
  _ ← mfor (nr_dpus_of r) (fun each_dpu configs =>
        mfor NR_OF_WRAM_BANKS (fun each_wram_bank configs =>
          repair_dpu (wram_path each_wram_bank)
            (fun mask configs => ufi_wram_repair_config mask each_wram_bank configs) each_dpu configs)
          configs) no_configs;
  check_all_disabled.

Definition dpu_iram_repair_config : W D unit :=
  r ← get_rank;
  if do_iram_repair (desc r) then try_to_repair_iram
  else
    mask ← ufi_select_all ALL_CIS;
    ufi_iram_repair_config mask (replicate 8 default_repair_config).

Definition dpu_wram_repair_config : W D unit :=
  r ← get_rank;
  if do_wram_repair (desc r) then try_to_repair_wram
  else
    mask ← ufi_select_all ALL_CIS;
    mfor NR_OF_WRAM_BANKS (fun each_wram_bank _ =>
      ufi_wram_repair_config mask each_wram_bank (replicate 8 default_repair_config)) tt.

(** ** Debug, modes, internal state *)

Definition dpu_clear_debug : W D unit :=
  mask ← ufi_select_all ALL_CIS;
  _ ← ufi_clear_debug_replace mask;
  _ ← ufi_clear_fault_poison mask;
  _ ← ufi_clear_fault_bkp mask;
  _ ← ufi_clear_fault_dma mask;
  _ ← ufi_clear_fault_mem mask;
  _ ← ufi_clear_fault_dpu mask;
  ufi_clear_fault_intercept mask.

Definition dpu_clear_run_bits : W D unit :=
  r ← get_rank;
  let nr_run_bits := u32 (nr_of_threads (desc r) + nr_of_notify_bits (desc r)) in
  mask ← ufi_select_all ALL_CIS;
  mfor nr_run_bits (fun each_bit _ => _ ← ufi_clear_run_bit mask each_bit None; mret tt) tt.

(** The check of one DPU index: the status is set to [DPU_ERR_INTERNAL] when
    an enabled DPU is found with [pc_modes[dpu_id]] different. *)
Definition pc_mode_mismatch (r : rank) (pc_mode dpu_id : Z) (pc_modes : list Z) : bool :=
  existsb (fun slice_id =>
    enabled (dpu_of r slice_id dpu_id) && negb (pc_modes.[dpu_id] =? pc_mode))
    (seqZ 0 (nr_cis_of r)).

(** The status is kept from one DPU to the next; every successful [FF] sets it
    to [DPU_OK] again. *)
Definition dpu_set_pc_mode (pc_mode : Z) : W D unit :=
  mask ← ufi_select_all ALL_CIS;
  _ ← ufi_set_pc_mode mask (replicate 8 pc_mode);
  r ← get_rank;
  '(_, mismatch) ← mfor (nr_dpus_of r) (fun dpu_id '(pc_modes, _) =>
    mask ← ufi_select_dpu ALL_CIS dpu_id;
    pc_modes ← ufi_get_pc_mode mask pc_modes;
    r ← get_rank;
    mret (pc_modes, pc_mode_mismatch r pc_mode dpu_id pc_modes)) (replicate 8 pc_mode, false);
  if mismatch : bool then fail DPU_ERR_INTERNAL else mret tt.

Definition dpu_set_stack_direction (stack_is_up : bool) : W D unit :=
  mask ← ufi_select_all ALL_CIS;
  _ ← ufi_set_stack_direction mask (replicate 8 stack_is_up) None;
  previous ← ufi_set_stack_direction mask (replicate 8 stack_is_up) (Some zeros8);
  let previous_directions := default zeros8 previous in
  r ← get_rank;
  if existsb (fun slice_id => existsb (fun dpu_id =>
       enabled (dpu_of r slice_id dpu_id) &&
       negb (Bool.eqb (dpu_mask_is_selected previous_directions.[slice_id] dpu_id) stack_is_up))
       (seqZ 0 (nr_dpus_of r))) (seqZ 0 (nr_cis_of r))
  then fail DPU_ERR_INTERNAL else mret tt.

(** Some DPU of the interfaces of [mask] runs. *)
Definition some_running (r : rank) (mask mask_all : Z) (state : list Z) : bool :=
  existsb (fun each_ci => CI_MASK_ON mask each_ci && negb (state.[each_ci] &&& mask_all =? 0))
    (seqZ 0 (nr_cis_of r)).

(** The polling loop is not bounded in the source: [None] when [fuel] reads
    were not enough. *)
Fixpoint wait_all_stopped (fuel : nat) (mask mask_all : Z) (state : list Z) : W D (option unit) :=
  match fuel with
  | O => mret None
  | S fuel =>
      state ← ufi_read_dpu_run mask state;
      r ← get_rank;
      if some_running r mask mask_all state then wait_all_stopped fuel mask mask_all state
      else mret (Some tt)
  end.

Definition dpu_reset_internal_state (fuel : nat) (program : option (list Z)) : W D (option unit) :=
  match program with
  | None => fail DPU_ERR_SYSTEM
  | Some internal_state_reset =>
      r ← get_rank;
      mask ← ufi_select_all ALL_CIS;
      _ ← ufi_iram_write mask (replicate 8 internal_state_reset) 0 (u16 (lenz internal_state_reset));
      _ ← mfor (nr_of_threads (desc r)) (fun each_thread _ =>
            _ ← ufi_thread_boot mask each_thread None; mret tt) tt;
      wait_all_stopped fuel mask (u8 (Z.shiftl 1 (nr_dpus_of r) - 1)) zeros8
  end.

(** ** Groups *)

(** The context of one interface, from the saved arrays. *)
Definition restore_slice (save : enabled_save) (nr_dpus each_ci : Z) (r : rank) : rank :=
  let r := upd_slice each_ci (fun info =>
    set_enabled_dpus (enabled_dpus_save save).[each_ci]
      (set_all_dpus_are_enabled (all_dpus_are_enabled_save save).[each_ci] info)) r in
  let r := set_nr_dpus_enabled
    (u32 (nr_dpus_enabled r + popcount (enabled_dpus (slice_of r each_ci)))) r in
  for_up nr_dpus (fun each_dpu r =>
    upd_dpu each_ci each_dpu (set_enabled
      (negb (enabled_dpus (slice_of r each_ci) &&& Z.shiftl 1 each_dpu =? 0))) r) r.
Definition restore_enabled (save : enabled_save) (r : rank) : rank :=
  for_up (nr_cis_of r) (restore_slice save (nr_dpus_of r)) (set_nr_dpus_enabled 0 r).

(** The interface is written DPU by DPU unless all its DPUs are enabled. *)
Definition init_groups_slice (save : enabled_save) (nr_dpus each_ci ci_mask : Z) : W D Z :=
  if (all_dpus_are_enabled_save save).[each_ci] then mret (u8 (ci_mask ||| CI_MASK_ONE each_ci))
  else if (enabled_dpus_save save).[each_ci] =? 0 then mret ci_mask
  else
    _ ← mfor nr_dpus (fun each_dpu _ =>
      let group := if negb ((enabled_dpus_save save).[each_ci] &&& Z.shiftl 1 each_dpu =? 0)
                   then DPU_ENABLED_GROUP else DPU_DISABLED_GROUP in
      single_ci_mask ← ufi_select_dpu (u8 (CI_MASK_ONE each_ci)) each_dpu;
      ufi_write_group single_ci_mask group) tt;
    mret ci_mask.

Definition dpu_init_groups (save : enabled_save) : W D unit :=
  r ← get_rank;
  ci_mask ← mfor (nr_cis_of r) (init_groups_slice save (nr_dpus_of r)) 0;
  _ ← (if negb (ci_mask =? 0) then
         ci_mask ← ufi_select_all ci_mask;
         ufi_write_group ci_mask DPU_ENABLED_GROUP
       else mret tt);
  on_rank (restore_enabled save).

(** ** The reset *)

Definition save_enabled (save : enabled_save) (update_save : bool) : W D enabled_save :=
  fun w => let '(save, r) := save_enabled_dpus save update_save (rk w) in
           (mk_world r (dev w), Ok save).

(** [None] when a fuel did not suffice: [fuel_refresh] bounds the search of the
    refresh timings, [fuel_wait] the reads of the run bits. *)
Definition ci_reset_rank (fuel_refresh fuel_wait : nat) (program : option (list Z))
    (set_slice_info : W D unit) : W D (option unit) :=
  r ← get_rank;
  match fetch_dma_and_wavegen_configs fuel_refresh (fck_frequency_in_mhz (desc r))
          (clock_division (desc r)) REFRESH_MODE_VALUE (negb (ila_control_refresh (desc r))) with
  | None => mret None
  | Some (std_dma_config, wavegen_config) =>
      let dma_config :=
        if bool_decide (rank_type r = CYCLE_ACCURATE_SIMULATOR) then dma_engine_cas_config
        else std_dma_config in
      save ← save_enabled (mk_enabled_save (replicate 8 false) (replicate 8 0)) false;
      _ ← dpu_byte_order;
      _ ← dpu_soft_reset DPU_CLOCK_DIV8;
      _ ← dpu_bit_config_rank;
      r ← get_rank;
      _ ← dpu_ci_shuffling_box_config (pcb_transformation (desc r));
      _ ← dpu_soft_reset (from_division_factor_to_dpu_enum (clock_division (desc r)));
      _ ← dpu_ci_shuffling_box_config (pcb_transformation (desc r));
      _ ← dpu_identity;
      _ ← dpu_thermal_config (std_temperature (desc r));
      _ ← dpu_carousel_config (carousel (desc r));
      _ ← dpu_iram_repair_config;
      save ← save_enabled save true;
      _ ← dpu_wram_repair_config;
      save ← save_enabled save true;
      _ ← dpu_dma_config dma_config;
      _ ← dpu_dma_shuffling_box_config (pcb_transformation (desc r));
      _ ← dpu_wavegen_config wavegen_config;
      _ ← dpu_clear_debug;
      _ ← dpu_clear_run_bits;
      _ ← dpu_set_pc_mode DPU_PC_MODE_16;
      _ ← dpu_set_stack_direction true;
      finished ← dpu_reset_internal_state fuel_wait program;
      match finished with
      | None => mret None
      | Some _ =>
          _ ← dpu_switch_mux_for_rank (api_must_switch_mram_mux (desc r));
          _ ← dpu_init_groups save;
          _ ← set_slice_info;
          mret (Some tt)
      end
  end.
End Config.

(** ** What the steps leave alone *)

(** The enabled DPUs of the rank and its DPUs are the same; of the
    description, only the pin transformation may have changed. *)
Record enab_frame (r r' : rank) : Prop := {
  ef_desc : exists pcb, desc r' = set_pcb_transformation pcb (desc r);
  ef_dpus : dpus r' = dpus r;
  ef_len : lenz (slice_infos (ci r')) = lenz (slice_infos (ci r));
  ef_enabled : forall i, 0 <= i -> enabled_dpus (slice_of r' i) = enabled_dpus (slice_of r i);
}.

Lemma set_pcb_self d : d = set_pcb_transformation (pcb_transformation d) d.
Proof. by destruct d. Qed.
Lemma set_pcb_twice p q d :
  set_pcb_transformation p (set_pcb_transformation q d) = set_pcb_transformation p d.
Proof. done. Qed.

#[export] Instance enab_frame_preorder : PreOrder enab_frame.
Proof.
  split.
  - intros r. split; try done. eexists. apply set_pcb_self.
  - intros r1 r2 r3 [[p Hp] ? ? He1] [[q Hq] ? ? He2].
    split; [exists q; by rewrite Hq, Hp, set_pcb_twice|congruence..|].
    intros i Hi. by rewrite He2, He1.
Qed.

#[export] Instance mux_enab_frame : subrelation mux_frame enab_frame.
Proof.
  intros r r' []. split; try done. exists (pcb_transformation (desc r)). by rewrite mf_desc, <-set_pcb_self.
Qed.

Lemma enab_of_keeps {D A} `{!RankHandler D} (m : W D A) : keeps m -> preserves enab_frame m.
Proof. apply preserves_weaken. apply mux_enab_frame. Qed.
#[export] Hint Resolve enab_of_keeps : keeps.

Lemma enab_frame_upd_slice k f r : (forall info, enabled_dpus (f info) = enabled_dpus info) ->
  enab_frame r (upd_slice k f r).
Proof.
  intros Hf. split; [eexists; apply set_pcb_self|done|apply lenz_upd_slice|].
  intros i _. by apply slice_of_upd_any.
Qed.

Section Steps.
Context {D : Type} `{!RankHandler D}.
Notation preserved m := (preserves (D := D) enab_frame m).

Lemma keeps_switch_rank b : preserved (dpu_switch_mux_for_rank b).
Proof.
  unfold dpu_switch_mux_for_rank. keeps_steps; [|apply enab_of_keeps, keeps_host_for_rank].
  apply preserves_on_rank. intros r. apply (for_up_inv (fun r' => enab_frame r r')); [done|].
  intros i r' Hr. etrans; [exact Hr|]. by apply enab_frame_upd_slice.
Qed.
Lemma keeps_dpu_byte_order : preserved dpu_byte_order.
Proof.
  unfold dpu_byte_order. keeps_steps. apply preserves_on_rank. intros r.
  split; try done. eexists. apply set_pcb_self.
Qed.
Lemma keeps_dpu_soft_reset c : preserved (dpu_soft_reset c).
Proof. unfold dpu_soft_reset. keeps_steps. Qed.
Lemma keeps_dpu_bit_config : preserved dpu_bit_config_rank.
Proof.
  unfold dpu_bit_config_rank. keeps_steps. apply preserves_on_rank. intros r.
  split; try done. by eexists.
Qed.
Lemma keeps_dpu_identity : preserved dpu_identity.
Proof. unfold dpu_identity. keeps_steps. Qed.
Lemma keeps_dpu_ci_shuffling_box_config c : preserved (dpu_ci_shuffling_box_config c).
Proof. unfold dpu_ci_shuffling_box_config. keeps_steps. Qed.
Lemma keeps_dpu_thermal_config t : preserved (dpu_thermal_config t).
Proof. unfold dpu_thermal_config. keeps_steps. Qed.
Lemma keeps_dpu_carousel_config c : preserved (dpu_carousel_config c).
Proof. unfold dpu_carousel_config. keeps_steps. Qed.
Lemma keeps_write_regs mask regs : preserved (write_regs mask regs).
Proof. unfold write_regs. keeps_steps. Qed.
Lemma keeps_dpu_dma_config c : preserved (dpu_dma_config c).
Proof. unfold dpu_dma_config. keeps_steps. apply keeps_write_regs. Qed.
Lemma keeps_dpu_dma_shuffling_box_config c : preserved (dpu_dma_shuffling_box_config c).
Proof. unfold dpu_dma_shuffling_box_config. keeps_steps. apply keeps_write_regs. Qed.
Lemma keeps_dpu_wavegen_config c : preserved (dpu_wavegen_config c).
Proof. unfold dpu_wavegen_config. keeps_steps; apply keeps_write_regs. Qed.
Lemma keeps_dpu_clear_debug : preserved dpu_clear_debug.
Proof.
  unfold dpu_clear_debug. keeps_steps; apply enab_of_keeps;
    unfold ufi_clear_debug_replace, ufi_clear_fault_poison, ufi_clear_fault_bkp, ufi_clear_fault_dma,
      ufi_clear_fault_mem, ufi_clear_fault_dpu, ufi_clear_fault_intercept; keeps_steps.
Qed.
Lemma keeps_dpu_clear_run_bits : preserved dpu_clear_run_bits.
Proof. unfold dpu_clear_run_bits. keeps_steps. Qed.
Lemma keeps_dpu_set_pc_mode m : preserved (dpu_set_pc_mode m).
Proof. unfold dpu_set_pc_mode. keeps_steps. Qed.
Lemma keeps_dpu_set_stack_direction b : preserved (dpu_set_stack_direction b).
Proof. unfold dpu_set_stack_direction. keeps_steps. Qed.
Lemma keeps_wait_all_stopped fuel mask all st : preserved (wait_all_stopped fuel mask all st).
Proof.
  revert st. induction fuel as [|fuel IH]; intros st; cbn [wait_all_stopped]; keeps_steps.
Qed.
Lemma keeps_dpu_reset_internal_state fuel p : preserved (dpu_reset_internal_state fuel p).
Proof. unfold dpu_reset_internal_state. keeps_steps. apply keeps_wait_all_stopped. Qed.
Lemma keeps_init_groups_slice save nr each_ci mask : preserved (init_groups_slice save nr each_ci mask).
Proof. unfold init_groups_slice. keeps_steps. Qed.
End Steps.
#[export] Hint Resolve keeps_switch_rank keeps_dpu_byte_order keeps_dpu_soft_reset keeps_dpu_bit_config keeps_dpu_identity
  keeps_dpu_ci_shuffling_box_config keeps_dpu_thermal_config keeps_dpu_carousel_config keeps_dpu_dma_config
  keeps_dpu_dma_shuffling_box_config keeps_dpu_wavegen_config keeps_dpu_clear_debug keeps_dpu_clear_run_bits
  keeps_dpu_set_pc_mode keeps_dpu_set_stack_direction keeps_dpu_reset_internal_state : keeps.

(** ** Which DPUs are enabled *)

(** DPU [d] of interface [i] is enabled in the mask of its interface. *)
Definition en (r : rank) (i d : Z) : bool := Z.testbit (enabled_dpus (slice_of r i)) d.
(** Its memory found by [path] can be repaired. *)
Definition repaired (path : repair_path) (r : rank) (i d : Z) : bool :=
  fst (extract_memory_repair_configuration (rp_get path (dpu_of r i d))).
Definition wram_repaired (r : rank) (i d : Z) : bool :=
  forallb (fun bank => repaired (wram_path bank) r i d) (seqZ 0 NR_OF_WRAM_BANKS).

(** The paths of the source. *)
Definition bank_path (path : repair_path) : Prop :=
  path = iram_path \/ exists bank, 0 <= bank /\ path = wram_path bank.

(** What the whole reset keeps: the dimensions, the description but for the
    pins, what can be repaired. *)
Record static (r r' : rank) : Prop := {
  st_desc : exists pcb, desc r' = set_pcb_transformation pcb (desc r);
  st_slices : lenz (slice_infos (ci r')) = lenz (slice_infos (ci r));
  st_dpus : lenz (dpus r') = lenz (dpus r);
  st_repaired : forall path i d, bank_path path -> 0 <= DPU_INDEX r i d ->
    repaired path r' i d = repaired path r i d;
}.

Section StaticFacts.
Context (r r' : rank) (Hst : static r r').
Lemma st_desc_fields : nr_cis_of r' = nr_cis_of r /\ nr_dpus_of r' = nr_dpus_of r /\
  do_iram_repair (desc r') = do_iram_repair (desc r) /\
  do_wram_repair (desc r') = do_wram_repair (desc r).
Proof. destruct (st_desc _ _ Hst) as [pcb Hd]. unfold nr_cis_of, nr_dpus_of. by rewrite Hd. Qed.
Lemma st_index i d : DPU_INDEX r' i d = DPU_INDEX r i d.
Proof. unfold DPU_INDEX. destruct st_desc_fields as (_ & -> & _). done. Qed.
End StaticFacts.

#[export] Instance static_preorder : PreOrder static.
Proof.
  split.
  - intros r. split; try done. eexists. apply set_pcb_self.
  - intros r1 r2 r3 H12 H23. pose proof (st_index _ _ H12) as Hi.
    destruct H12 as [[p Hp] ? ? He1], H23 as [[q Hq] ? ? He2].
    split; [exists q; by rewrite Hq, Hp, set_pcb_twice|congruence..|].
    intros path i d Hpath Hd. rewrite He2, He1; [done..|by rewrite Hi].
Qed.

Lemma enab_static r r' : enab_frame r r' -> static r r'.
Proof.
  intros [Hd Hp Hl _]. split; [done|done|by rewrite Hp|].
  intros path i d _ _. unfold repaired, dpu_of, DPU_INDEX, nr_dpus_of.
  destruct Hd as [pcb ->]. by rewrite Hp.
Qed.

(** An update of one DPU that keeps what its memories need. *)
Lemma static_upd_dpu i d f r : 0 <= DPU_INDEX r i d ->
  (forall path, bank_path path -> extract_memory_repair_configuration (rp_get path (f (dpu_of r i d))) =
    extract_memory_repair_configuration (rp_get path (dpu_of r i d))) ->
  static r (upd_dpu i d f r).
Proof.
  intros Hk Hf. split; [eexists; apply set_pcb_self|done|apply lenz_setz|].
  intros path j e Hpath Hje. unfold repaired, dpu_of, upd_dpu, DPU_INDEX, nr_dpus_of in *. cbn [dpus desc set_dpus].
  destruct (decide (nr_of_dpus_per_control_interface (desc r) * i + d < lenz (dpus r))) as [Hlt|Hge].
  - rewrite getz_setz by lia. case_decide as Heq; [|done]. f_equal. rewrite Hf by done.
    unfold dpu_of, DPU_INDEX, nr_dpus_of. by rewrite Heq.
  - unfold setz. rewrite list_insert_ge; [done|]. unfold lenz in Hge. lia.
Qed.

Lemma static_upd_slice i f r : static r (upd_slice i f r).
Proof. split; [eexists; apply set_pcb_self|apply lenz_upd_slice|done|done]. Qed.

Lemma extract_fail_flag b info :
  extract_memory_repair_configuration (set_fail_to_repair b info) =
  extract_memory_repair_configuration info.
Proof. done. Qed.

Lemma static_disable path i d r : bank_path path -> 0 <= DPU_INDEX r i d ->
  static r (disable_faulty_dpu i d (rp_set path) (rp_get path (dpu_of r i d)) r).
Proof.
  intros Hpath Hk. unfold disable_faulty_dpu. etrans; [|apply static_upd_slice].
  apply static_upd_dpu; [done|]. intros path' Hpath'.
  destruct Hpath as [->|(b & Hb & ->)], Hpath' as [->|(b' & Hb' & ->)]; try done.
  cbn [rp_get wram_path wram_repair set_enabled rp_set set_wram_repair].
  set (l := wram_repair (dpu_of r i d)).
  destruct (decide (b < lenz l)).
  - rewrite getz_setz by lia. case_decide; subst; [apply extract_fail_flag|done].
  - unfold setz. rewrite list_insert_ge; [done|]. unfold lenz in *. lia.
Qed.

Lemma slice_of_upd_dpu i d f r j : slice_of (upd_dpu i d f r) j = slice_of r j.
Proof. done. Qed.

Lemma en_disable path i d info r j e : 0 <= i < lenz (slice_infos (ci r)) -> 0 <= j ->
  0 <= e < 8 -> 0 <= d ->
  en (disable_faulty_dpu i d path info r) j e = en r j e && negb ((j =? i) && (e =? d)).
Proof.
  intros Hi Hj He Hd. unfold disable_faulty_dpu, en.
  rewrite slice_of_upd, !slice_of_upd_dpu by done.
  destruct (decide (i = j)) as [<-|Hne].
  - rewrite Z.eqb_refl. cbn [enabled_dpus set_all_dpus_are_enabled set_enabled_dpus andb].
    rewrite not8_land_testbit, testbit_pow2 by lia. f_equal. f_equal.
    destruct (Z.eqb_spec e d); case_bool_decide; congruence.
  - rewrite (proj2 (Z.eqb_neq j i)) by congruence. by rewrite andb_true_r.
Qed.

(** The loop over the interfaces disables the DPUs that cannot be repaired. *)
Lemma extract_configs_spec path n d configs r : bank_path path ->
  0 <= n <= lenz (slice_infos (ci r)) -> 0 <= d < 8 -> 0 <= nr_dpus_of r ->
  let r' := snd (extract_configs path n d (configs, r)) in
  static r r' /\ forall i e, 0 <= i -> 0 <= e < 8 ->
    en r' i e = en r i e && negb ((i <? n) && (e =? d) && negb (repaired path r i d)).
Proof.
  intros Hpath Hn Hd Hnr. unfold extract_configs.
  pose (P := fun k (st : list repair_config * rank) => static r (snd st) /\
    forall i e, 0 <= i -> 0 <= e < 8 ->
    en (snd st) i e = en r i e && negb ((i <? k) && (e =? d) && negb (repaired path r i d))).
  apply (for_up_ind P); [lia| |].
  { split; [done|]. intros i e Hi He. rewrite (proj2 (Z.ltb_ge i 0)) by lia. by rewrite andb_true_r. }
  intros k [cfgs r1] Hk [Hst Hen]. cbn [snd] in *.
  assert (0 <= DPU_INDEX r k d) as Hidx by (unfold DPU_INDEX; nia).
  pose proof (st_index _ _ Hst) as Hix.
  pose proof (st_repaired _ _ Hst path k d Hpath Hidx) as Hrep. unfold repaired in Hrep at 1.
  destruct (extract_memory_repair_configuration (rp_get path (dpu_of r1 k d))) as [ok cfg] eqn:Hx.
  cbn [fst] in Hrep. unfold P. cbv beta iota zeta. cbn [snd]. split.
  - destruct ok; [done|]. etrans; [exact Hst|]. apply static_disable; [done|by rewrite Hix].
  - intros i e Hi He.
    assert (en (if ok then r1 else disable_faulty_dpu k d (rp_set path) (rp_get path (dpu_of r1 k d)) r1) i e =
      en r1 i e && negb ((i =? k) && (e =? d) && negb ok)) as ->.
    { destruct ok; [by rewrite andb_false_r, andb_true_r|].
      rewrite en_disable; [by rewrite andb_true_r|rewrite (st_slices _ _ Hst); lia|lia..]. }
    rewrite Hen by lia. rewrite <-andb_assoc. f_equal. rewrite <-negb_orb. f_equal.
    destruct (Z.eqb_spec i k) as [->|Hne].
    + rewrite Hrep, (proj2 (Z.ltb_lt k (k + 1))), Z.ltb_irrefl by lia. done.
    + replace (i <? k + 1) with (i <? k); [by rewrite orb_false_r|].
      destruct (Z.ltb_spec i k), (Z.ltb_spec i (k + 1)); lia.
Qed.

(** The rank [r] has what [r0] keeps, and its enabled DPUs are those of [e]. *)
Definition tracks (r0 : rank) (e : Z -> Z -> bool) (r : rank) : Prop :=
  static r0 r /\
  forall i d, 0 <= i < nr_cis_of r0 -> 0 <= d < nr_dpus_of r0 -> en r i d = e i d.

Record rank_dims (r : rank) : Prop := {
  rd_cis : 0 < nr_cis_of r <= lenz (slice_infos (ci r));
  rd_dpus : 0 < nr_dpus_of r <= 8;
  rd_slices : lenz (slice_infos (ci r)) = DPU_MAX_NR_CIS;
  rd_len : lenz (dpus r) = nr_cis_of r * nr_dpus_of r;
}.

Lemma tracks_ext r0 e e' r : tracks r0 e r ->
  (forall i d, 0 <= i < nr_cis_of r0 -> 0 <= d < nr_dpus_of r0 -> e i d = e' i d) -> tracks r0 e' r.
Proof. intros [Hs He] Hee. split; [done|]. intros i d Hi Hd. by rewrite He, Hee. Qed.

Section Tracking.
Context {D : Type} `{!RankHandler D} (r0 : rank) (Hdims : rank_dims r0).
Implicit Types w : world D.

Lemma wp_preserves {A} (m : W D A) e w : preserves enab_frame m -> tracks r0 e (rk w) ->
  wp m (fun _ w' => tracks r0 e (rk w')) w.
Proof.
  intros Hm [Hs He]. destruct (Hm w) as [Hm' _]. clear Hm. rename Hm' into Hm. split.
  - etrans; [exact Hs|by apply enab_static].
  - intros i d Hi Hd. rewrite <-He by done. unfold en. by rewrite (ef_enabled _ _ Hm) by lia.
Qed.

Lemma tracks_fields e r : tracks r0 e r -> nr_cis_of r = nr_cis_of r0 /\ nr_dpus_of r = nr_dpus_of r0 /\
  lenz (slice_infos (ci r)) = 8.
Proof.
  intros [Hs _]. destruct (st_desc_fields _ _ Hs) as (H1 & H2 & _). split_and!; [done..|].
  rewrite (st_slices _ _ Hs). apply Hdims.
Qed.

Lemma wp_repair_dpu path write d configs e w :
  bank_path path -> (forall mask c, preserves enab_frame (write mask c)) ->
  0 <= d < nr_dpus_of r0 -> tracks r0 e (rk w) ->
  wp (repair_dpu path write d configs)
    (fun _ w' => tracks r0 (fun i x => e i x && negb ((x =? d) && negb (repaired path r0 i d))) (rk w')) w.
Proof.
  intros Hpath Hw Hd Ht. destruct (tracks_fields _ _ Ht) as (Hn & Hnd & Hl).
  destruct Ht as [Hs He]. destruct Hdims as [Hc Hdp H8 _]. unfold DPU_MAX_NR_CIS in H8.
  unfold repair_dpu. apply wp_bind. unfold wp at 1.
  pose proof (extract_configs_spec path (nr_cis_of (rk w)) d configs (rk w) Hpath ltac:(lia) ltac:(lia) ltac:(lia)) as [Hs1 He1].
  destruct (extract_configs path (nr_cis_of (rk w)) d (configs, rk w)) as [c1 r1]. cbn [fst snd rk] in *.
  assert (tracks r0 (fun i x => e i x && negb ((x =? d) && negb (repaired path r0 i d))) r1) as Ht1.
  { split; [by etrans|]. intros i x Hi Hx. rewrite He1, He by lia. f_equal. f_equal.
    rewrite (proj2 (Z.ltb_lt i _)) by lia. cbn [andb].
    rewrite (st_repaired _ _ Hs path i d Hpath); [done|]. unfold DPU_INDEX. nia. }
  assert (preserves enab_frame (ci_mask ← ufi_select_dpu ALL_CIS d; _ ← write ci_mask c1; mret c1) )
    as Hp by (keeps_steps; apply Hw).
  exact (wp_preserves _ _ (mk_world r1 (dev w)) Hp Ht1).
Qed.

(** One memory of every DPU. *)
Lemma wp_repair_loop (body : Z -> list repair_config -> W D (list repair_config))
    (good : Z -> Z -> bool) configs e w :
  (forall d configs e w, 0 <= d < nr_dpus_of r0 -> tracks r0 e (rk w) ->
    wp (body d configs) (on_ok (fun _ w' =>
      tracks r0 (fun i x => e i x && negb ((x =? d) && negb (good i d))) (rk w'))) w) ->
  tracks r0 e (rk w) ->
  wp (mfor (nr_dpus_of r0) body configs)
    (on_ok (fun _ w' => tracks r0 (fun i x => e i x && good i x) (rk w'))) w.
Proof.
  intros Hbody Ht.
  pose (I := fun k (_ : list repair_config) w' =>
    tracks r0 (fun i x => e i x && ((k <=? x) || good i x)) (rk w')).
  eapply wp_mono.
  - apply (wp_mfor I (fun _ _ => True)); [pose proof (rd_dpus _ Hdims); lia| |].
    { eapply tracks_ext; [exact Ht|]. intros i d _ Hd. rewrite (proj2 (Z.leb_le _ _)) by lia.
      by rewrite andb_true_r. }
    intros k cs w1 Hk Hw1. eapply wp_mono; [exact (Hbody k cs _ w1 Hk Hw1)|].
    intros [?|?] w2 Hw2; [|done]. eapply tracks_ext; [exact Hw2|].
    intros i d _ Hd. cbv beta. rewrite <-andb_assoc. f_equal.
    destruct (Z.eqb_spec d k) as [->|Hne].
    + rewrite Z.leb_refl, (proj2 (Z.leb_gt _ _)) by lia. by destruct (good i k).
    + cbn [andb negb]. rewrite andb_true_r. f_equal.
      destruct (Z.leb_spec k d), (Z.leb_spec (k + 1) d); lia.
  - intros [cs|?] w' Hw'; [|done]. cbn. eapply tracks_ext; [exact Hw'|].
    intros i d _ Hd. cbv beta. by rewrite (proj2 (Z.leb_gt _ _)) by lia.
Qed.

Lemma preserves_check_all_disabled : preserves (D := D) enab_frame check_all_disabled.
Proof. unfold check_all_disabled. keeps_steps. Qed.

Lemma wp_after {A B} (m : W D A) (k : A -> W D B) e w :
  (forall a, preserves enab_frame (k a)) ->
  wp m (on_ok (fun _ w' => tracks r0 e (rk w'))) w ->
  wp (a ← m; k a) (on_ok (fun _ w' => tracks r0 e (rk w'))) w.
Proof.
  intros Hk Hm. apply wp_bind. eapply wp_mono; [exact Hm|]. intros [a|er] w' Hw'; [|done].
  eapply wp_mono; [by apply wp_preserves|]. intros [b|?] w'' Hw''; [exact Hw''|done].
Qed.

Lemma wp_iram_repair_config e w : tracks r0 e (rk w) ->
  wp dpu_iram_repair_config (on_ok (fun _ w' => tracks r0 (fun i d =>
    e i d && (negb (do_iram_repair (desc r0)) || repaired iram_path r0 i d)) (rk w'))) w.
Proof.
  intros Ht. destruct (tracks_fields _ _ Ht) as (Hn & Hnd & _).
  destruct (st_desc_fields _ _ (proj1 Ht)) as (_ & _ & Hdo & _).
  unfold dpu_iram_repair_config. apply wp_bind, wp_gets. rewrite Hdo.
  destruct (do_iram_repair (desc r0)); cbn [negb orb].
  - unfold try_to_repair_iram. apply wp_bind, wp_gets. rewrite Hnd.
    apply wp_after; [intros _; apply preserves_check_all_disabled|].
    apply (wp_repair_loop _ (repaired iram_path r0)); [|done].
    intros d cs e' w1 Hd Hw1. eapply wp_mono;
      [apply (wp_repair_dpu iram_path); [by left|intros; keeps_steps|exact Hd|exact Hw1]|].
    by intros [?|?].
  - eapply wp_mono; [apply (wp_preserves _ e); [keeps_steps|done]|].
    intros [?|?] w' Hw'; [|done]. eapply tracks_ext; [exact Hw'|]. intros; by rewrite andb_true_r.
Qed.

(** The banks of one DPU. *)
Lemma wp_wram_banks d cs e w : 0 <= d < nr_dpus_of r0 -> tracks r0 e (rk w) ->
  wp (mfor NR_OF_WRAM_BANKS (fun bank configs => repair_dpu (wram_path bank)
        (fun mask configs => ufi_wram_repair_config mask bank configs) d configs) cs)
    (on_ok (fun _ w' => tracks r0 (fun i x =>
      e i x && negb ((x =? d) && negb (wram_repaired r0 i d))) (rk w'))) w.
Proof.
  intros Hd Ht.
  pose (I := fun k (_ : list repair_config) w' => tracks r0 (fun i x => e i x && negb ((x =? d) &&
    negb (forallb (fun bank => repaired (wram_path bank) r0 i d) (seqZ 0 k)))) (rk w')).
  eapply wp_mono.
  - apply (wp_mfor I (fun _ _ => True)); [done| |].
    { eapply tracks_ext; [exact Ht|]. intros i x _ _. cbn. by rewrite andb_false_r, andb_true_r. }
    intros k cs' w1 Hk Hw1. eapply wp_mono.
    { apply (wp_repair_dpu (wram_path k)); [right; exists k; split; [lia|done]|intros; keeps_steps|exact Hd|exact Hw1]. }
    intros [?|?] w2 Hw2; [|done]. eapply tracks_ext; [exact Hw2|].
    intros i x _ _. cbv beta. destruct (Z_of_nat_complete k ltac:(lia)) as [n ->].
    replace (Z.of_nat n + 1) with (Z.of_nat (S n)) by lia. rewrite seqZ_S, forallb_app. cbn [forallb].
    rewrite Z.add_0_l. destruct (x =? d); cbn [andb negb]; [|by rewrite !andb_true_r].
    rewrite !negb_involutive, andb_true_r. by rewrite andb_assoc.
  - intros [?|?] w' Hw'; [|done]. exact Hw'.
Qed.

Lemma wp_wram_repair_config e w : tracks r0 e (rk w) ->
  wp dpu_wram_repair_config (on_ok (fun _ w' => tracks r0 (fun i d =>
    e i d && (negb (do_wram_repair (desc r0)) || wram_repaired r0 i d)) (rk w'))) w.
Proof.
  intros Ht. destruct (tracks_fields _ _ Ht) as (Hn & Hnd & _).
  destruct (st_desc_fields _ _ (proj1 Ht)) as (_ & _ & _ & Hdo).
  unfold dpu_wram_repair_config. apply wp_bind, wp_gets. rewrite Hdo.
  destruct (do_wram_repair (desc r0)); cbn [negb orb].
  - unfold try_to_repair_wram. apply wp_bind, wp_gets. rewrite Hnd.
    apply wp_after; [intros _; apply preserves_check_all_disabled|].
    apply (wp_repair_loop _ (wram_repaired r0)); [|done].
    intros d cs e' w1 Hd Hw1. by apply wp_wram_banks.
  - eapply wp_mono; [apply (wp_preserves _ e); [keeps_steps|done]|].
    intros [?|?] w' Hw'; [|done]. eapply tracks_ext; [exact Hw'|]. intros; by rewrite andb_true_r.
Qed.
End Tracking.

(** ** Saving and restoring the enabled DPUs *)

Definition saved_en (save : enabled_save) (i d : Z) : bool :=
  Z.testbit ((enabled_dpus_save save).[i]) d.
Definition alive (r : rank) (i : Z) : bool := negb (enabled_dpus (slice_of r i) =? 0).

Lemma en_alive r i d : en r i d = true -> alive r i = true.
Proof.
  unfold en, alive. intros H. apply negb_true_iff, Z.eqb_neq. intros He.
  by rewrite He, Z.testbit_0_l in H.
Qed.

Lemma mask_all_testbit n d : 0 < n <= 8 -> 0 <= d < n -> Z.testbit (dpu_mask_all n) d = true.
Proof.
  intros Hn Hd. unfold dpu_mask_all. rewrite u8_testbit by lia.
  rewrite Z.shiftl_1_l, Z.sub_1_r, <-Z.ones_equiv. by apply Z.ones_spec_low.
Qed.

Lemma index_injective n i d j e : 0 <= d < n -> 0 <= e < n -> n * i + d = n * j + e -> i = j /\ d = e.
Proof. intros Hd He Heq. assert (i = j) as -> by nia. split; [done|lia]. Qed.

Lemma dpu_of_upd i d f r j e : rank_dims r -> 0 <= i < nr_cis_of r -> 0 <= d < nr_dpus_of r ->
  0 <= j < nr_cis_of r -> 0 <= e < nr_dpus_of r ->
  dpu_of (upd_dpu i d f r) j e = if decide (j = i /\ e = d) then f (dpu_of r i d) else dpu_of r j e.
Proof.
  intros [_ _ _ Hl] Hi Hd Hj He. unfold upd_dpu.
  assert (nr_dpus_of r * i + d < lenz (dpus r)) as Hlt by nia.
  unfold dpu_of, DPU_INDEX, nr_dpus_of in *. cbn [dpus desc set_dpus].
  rewrite getz_setz by nia. repeat case_decide; try done.
  - exfalso. destruct (index_injective (nr_of_dpus_per_control_interface (desc r)) i d j e); [lia..|].
    naive_solver.
  - destruct_and!. by subst.
Qed.

Lemma static_dims r r' : static r r' -> rank_dims r -> rank_dims r'.
Proof.
  intros Hs [Hc Hd H8 Hl]. destruct (st_desc_fields _ _ Hs) as (Hn & Hnd & _).
  split; rewrite ?(st_slices _ _ Hs), ?(st_dpus _ _ Hs), ?Hn, ?Hnd; done.
Qed.

(** Updates of the [enabled] flags only. *)
Lemma static_set_enabled i d b r : 0 <= DPU_INDEX r i d -> static r (upd_dpu i d (set_enabled b) r).
Proof.
  intros Hk. apply static_upd_dpu; [done|]. by intros path [->|(bk & _ & ->)].
Qed.

Lemma enable_loop_static n i r : 0 <= i -> 0 <= nr_dpus_of r -> 0 <= n ->
  let r' := for_up n (fun d => upd_dpu i d (set_enabled true)) r in static r r' /\ ci r' = ci r.
Proof.
  intros Hi Hd Hn. cbv zeta. apply (for_up_ind (fun _ r' => static r r' /\ ci r' = ci r)); [done|done|].
  intros d r' Hd' [Hs Hc]. split; [|exact Hc]. etrans; [exact Hs|]. apply static_set_enabled.
  rewrite (st_index _ _ Hs). unfold DPU_INDEX. nia.
Qed.

Lemma ltb_succ_ne i k : i <> k -> (i <? k + 1) = (i <? k).
Proof. intros Hne. destruct (Z.ltb_spec i (k + 1)), (Z.ltb_spec i k); lia. Qed.

Lemma save_spec save update r : rank_dims r -> lenz (enabled_dpus_save save) = 8 ->
  let '(save', r') := save_enabled_dpus save update r in
  static r r' /\ lenz (enabled_dpus_save save') = 8 /\
  forall i d, 0 <= i < nr_cis_of r -> 0 <= d < nr_dpus_of r ->
    saved_en save' i d = (if update then saved_en save i d && en r i d else en r i d) /\
    en r' i d = alive r i.
Proof.
  intros [Hc Hd H8 _] Hl. unfold DPU_MAX_NR_CIS in H8. unfold save_enabled_dpus.
  pose (P := fun k (st : enabled_save * rank) => static r (snd st) /\ lenz (enabled_dpus_save (fst st)) = 8 /\
    forall i, 0 <= i < nr_cis_of r ->
    (enabled_dpus_save (fst st)).[i] =
      (if i <? k then if update then (enabled_dpus_save save).[i] &&& enabled_dpus (slice_of r i)
                      else enabled_dpus (slice_of r i) else (enabled_dpus_save save).[i]) /\
    enabled_dpus (slice_of (snd st) i) =
      (if (i <? k) && alive r i then dpu_mask_all (nr_dpus_of r) else enabled_dpus (slice_of r i))).
  enough (P (nr_cis_of r) (for_up (nr_cis_of r) (save_enabled_slice update (nr_dpus_of r)) (save, r))) as HP.
  { destruct (for_up _ _ (save, r)) as [save' r']. destruct HP as (Hs & Hl' & HP). cbn [fst snd] in *.
    split_and!; [done..|]. intros i d Hi Hd'. destruct (HP i Hi) as [Hsv Hen]. unfold saved_en, en.
    rewrite Hsv, Hen, (proj2 (Z.ltb_lt i _)) by lia. cbn [andb]. split.
    - destruct update; [apply Z.land_spec|done].
    - destruct (alive r i) eqn:Ha; [by rewrite mask_all_testbit|].
      unfold alive in Ha. apply negb_false_iff, Z.eqb_eq in Ha. by rewrite Ha, Z.testbit_0_l. }
  apply for_up_ind; [lia| |].
  { split_and!; [done..|]. intros i Hi. by rewrite (proj2 (Z.ltb_ge i 0)) by lia. }
  intros k [sv r1] Hk (Hs & Hl1 & HP). cbn [fst snd] in *. destruct (HP k Hk) as [Hsvk Henk].
  rewrite Z.ltb_irrefl in Hsvk, Henk. cbn [andb] in Henk.
  destruct (st_desc_fields _ _ Hs) as (Hn1 & Hd1 & _).
  unfold save_enabled_slice. rewrite Henk, Hsvk. set (v := if update then (enabled_dpus_save save).[k] &&& enabled_dpus (slice_of r k)
            else enabled_dpus (slice_of r k)).
  assert (forall i, 0 <= i < nr_cis_of r -> (enabled_dpus_save sv).[k := v].[i] =
      (if i <? k + 1 then if update then (enabled_dpus_save save).[i] &&& enabled_dpus (slice_of r i)
                          else enabled_dpus (slice_of r i) else (enabled_dpus_save save).[i])) as Hsv'.
  { intros i Hi. rewrite getz_setz by lia. case_decide as Heq.
    - subst i. by rewrite (proj2 (Z.ltb_lt k _)) by lia.
    - rewrite (proj1 (HP i Hi)). by rewrite (ltb_succ_ne i k). }
  destruct (Z.eqb_spec (enabled_dpus (slice_of r k)) 0) as [Hz|Hnz]; unfold P; cbn [fst snd enabled_dpus_save].
  - split_and!; [done|by rewrite lenz_setz|]. intros i Hi. split; [by apply Hsv'|].
    rewrite (proj2 (HP i Hi)). destruct (decide (i = k)) as [->|Hne]; [|by rewrite (ltb_succ_ne i k)].
    assert (alive r k = false) as -> by (unfold alive; by rewrite Hz). by rewrite !andb_false_r.
  - set (r2 := upd_slice k _ r1).
    destruct (enable_loop_static (nr_dpus_of r) k r2 ltac:(lia)) as [Hs2 Hc2];
      [unfold r2; change (nr_dpus_of (upd_slice k _ r1)) with (nr_dpus_of r1); lia|lia|].
    split_and!; [etrans; [exact Hs|]; etrans; [apply static_upd_slice|exact Hs2]|by rewrite lenz_setz|].
    intros i Hi. split; [by apply Hsv'|]. unfold slice_of. rewrite Hc2. fold (slice_of r2 i).
    unfold r2. rewrite slice_of_upd by (rewrite ?(st_slices _ _ Hs); lia). case_decide as Heq.
    + subst i. rewrite (proj2 (Z.ltb_lt k _)) by lia.
      assert (alive r k = true) as -> by (unfold alive; by rewrite (proj2 (Z.eqb_neq _ _))). done.
    + rewrite (proj2 (HP i Hi)). by rewrite (ltb_succ_ne i k).
Qed.

(** Restoring sets the mask of every interface and the flag of every DPU. *)
Lemma restore_slice_spec save n k r : rank_dims r -> n = nr_dpus_of r -> 0 <= k < nr_cis_of r ->
  let r' := restore_slice save n k r in
  static r r' /\
  (forall i, 0 <= i -> enabled_dpus (slice_of r' i) =
     if decide (i = k) then (enabled_dpus_save save).[k] else enabled_dpus (slice_of r i)) /\
  (forall i d, 0 <= i < nr_cis_of r -> 0 <= d < n -> enabled (dpu_of r' i d) =
     if decide (i = k) then saved_en save k d else enabled (dpu_of r i d)).
Proof.
  intros Hdims -> Hk. unfold restore_slice. cbv zeta. set (r1 := set_nr_dpus_enabled _ _).
  assert (static r r1) as Hs1 by (etrans; [apply static_upd_slice|by split; try done; eexists; apply set_pcb_self]).
  pose proof (static_dims _ _ Hs1 Hdims) as Hdims1.
  pose proof Hdims as Hdims'. destruct Hdims as [Hc Hd H8 Hl].
  assert (forall i, 0 <= i -> enabled_dpus (slice_of r1 i) =
    if decide (i = k) then (enabled_dpus_save save).[k] else enabled_dpus (slice_of r i)) as Hen1.
  { intros i Hi. unfold r1. change (slice_of (set_nr_dpus_enabled ?x ?y) i) with (slice_of y i).
    rewrite slice_of_upd by lia. repeat case_decide; subst; try done; congruence. }
  assert (forall i d, dpu_of r1 i d = dpu_of r i d) as Hdpu1 by done.
  assert (nr_dpus_of r1 = nr_dpus_of r) as Hnd1 by done.
  clearbody r1.
  pose (P := fun d r' => static r r' /\ ci r' = ci r1 /\
    forall i e, 0 <= i < nr_cis_of r -> 0 <= e < nr_dpus_of r -> enabled (dpu_of r' i e) =
      if decide (i = k /\ e < d) then saved_en save k e else enabled (dpu_of r i e)).
  assert (P (nr_dpus_of r) (for_up (nr_dpus_of r) (fun each_dpu r => upd_dpu k each_dpu (set_enabled
      (negb (enabled_dpus (slice_of r k) &&& Z.shiftl 1 each_dpu =? 0))) r) r1)) as (Hs & Hci & HP).
  { apply for_up_ind; [lia| |].
    { split_and!; [done..|]. intros i e Hi He. rewrite Hdpu1. by rewrite decide_False by lia. }
    intros d r2 Hd2 (Hs2 & Hc2 & HP2). split_and!; [|done|].
    - etrans; [exact Hs2|]. apply static_set_enabled. rewrite (st_index _ _ Hs2). unfold DPU_INDEX. nia.
    - intros i e Hi He. destruct (st_desc_fields _ _ Hs2) as (Hn2 & Hnd2 & _).
      pose proof (static_dims _ _ Hs2 Hdims') as Hdims2.
      rewrite dpu_of_upd by (rewrite ?Hn2, ?Hnd2; done).
      destruct (decide (i = k /\ e = d)) as [[-> ->]|Hne].
      + rewrite decide_True by lia. cbn [enabled set_enabled].
        assert (slice_of r2 k = slice_of r1 k) as -> by (unfold slice_of; by rewrite Hc2).
        rewrite Hen1, decide_True by lia. fold (CI_MASK_ON (enabled_dpus_save save).[k] d).
        apply CI_MASK_ON_testbit. lia.
      + rewrite HP2 by done. repeat case_decide; try done; lia. }
  set (r' := for_up _ _ r1) in *. clearbody r'. split_and!; [done| |].
  - intros i Hi. unfold slice_of. rewrite Hci. by apply Hen1.
  - intros i d Hi Hd'. rewrite HP by done. repeat case_decide; try done; lia.
Qed.

Lemma restore_spec save r : rank_dims r ->
  let r' := restore_enabled save r in
  static r r' /\
  forall i d, 0 <= i < nr_cis_of r -> 0 <= d < nr_dpus_of r ->
    en r' i d = saved_en save i d /\ enabled (dpu_of r' i d) = saved_en save i d.
Proof.
  intros Hdims. cbv zeta. unfold restore_enabled.
  set (r1 := set_nr_dpus_enabled 0 r).
  assert (static r r1) as Hs1 by (split; try done; eexists; apply set_pcb_self).
  pose (P := fun k r' => static r r' /\
    forall i d, 0 <= i < k -> 0 <= d < nr_dpus_of r ->
    en r' i d = saved_en save i d /\ enabled (dpu_of r' i d) = saved_en save i d).
  apply (for_up_ind P); [destruct Hdims; lia|split; [done|lia]|].
  intros k r2 Hk (Hs2 & HP). pose proof (static_dims _ _ Hs2 Hdims) as Hd2.
  destruct (st_desc_fields _ _ Hs2) as (Hn2 & Hnd2 & _).
  destruct (restore_slice_spec save (nr_dpus_of r) k r2 Hd2 ltac:(done) ltac:(lia)) as (Hs3 & Hen & Hdp).
  split; [by etrans|]. intros i d Hi Hd. unfold en. rewrite Hen, Hdp by lia.
  case_decide as Heq; [by subst|]. apply HP; lia.
Qed.

Section Reset.
Context {D : Type} `{!RankHandler D} (r0 : rank) (Hdims : rank_dims r0).
Implicit Types w : world D.

Lemma tracks_dims e r : tracks r0 e r -> rank_dims r.
Proof. intros [Hs _]. by apply (static_dims r0). Qed.

(** The saved masks hold [s]. *)
Definition saves (save : enabled_save) (s : Z -> Z -> bool) : Prop :=
  lenz (enabled_dpus_save save) = 8 /\
  forall i d, 0 <= i < nr_cis_of r0 -> 0 <= d < nr_dpus_of r0 -> saved_en save i d = s i d.

Lemma wp_save save update s e w : saves save s -> tracks r0 e (rk w) ->
  wp (save_enabled save update) (on_ok (fun save' w' =>
    saves save' (fun i d => if update then s i d && e i d else e i d) /\
    exists al, tracks r0 (fun i _ => al i) (rk w') /\
      forall i d, 0 <= i < nr_cis_of r0 -> 0 <= d < nr_dpus_of r0 -> e i d = true -> al i = true)) w.
Proof.
  intros [Hl Hsv] Ht. destruct (tracks_fields r0 Hdims _ _ Ht) as (Hn & Hnd & _).
  pose proof (save_spec save update (rk w) (tracks_dims _ _ Ht) Hl) as Hspec.
  unfold wp, save_enabled. destruct (save_enabled_dpus save update (rk w)) as [save' r'].
  destruct Hspec as (Hs & Hl' & Hspec). destruct Ht as [Hst He]. rewrite Hn, Hnd in Hspec. cbn. split.
  - split; [done|]. intros i d Hi Hd. rewrite (proj1 (Hspec i d Hi Hd)).
    destruct update; by rewrite ?He, ?Hsv.
  - exists (alive (rk w)). split; [split; [by etrans|]|].
    + intros i d Hi Hd. apply Hspec; done.
    + intros i d Hi Hd Hed. apply (en_alive _ i d). by rewrite He.
Qed.

Lemma wp_init_groups save s e w : saves save s -> tracks r0 e (rk w) ->
  wp (dpu_init_groups save) (on_ok (fun _ w' => static r0 (rk w') /\
    forall i d, 0 <= i < nr_cis_of r0 -> 0 <= d < nr_dpus_of r0 ->
      en (rk w') i d = s i d /\ enabled (dpu_of (rk w') i d) = s i d)) w.
Proof.
  intros [_ Hsv] Ht. unfold dpu_init_groups. apply wp_bind, wp_gets.
  apply wp_bind. eapply wp_mono; [apply (wp_preserves r0 _ e); [|exact Ht]|].
  { apply preserves_mfor; [exact _|]. intros i a. apply keeps_init_groups_slice. }
  intros [mask|?] w1 Ht1; [|done]. apply wp_bind.
  eapply wp_mono; [apply (wp_preserves r0 _ e); [keeps_steps|exact Ht1]|].
  intros [?|?] w2 Ht2; [|done]. unfold wp. cbn.
  destruct (tracks_fields r0 Hdims _ _ Ht2) as (Hn & Hnd & _).
  destruct (restore_spec save (rk w2) (tracks_dims _ _ Ht2)) as [Hs Hr]. rewrite Hn, Hnd in Hr.
  split; [etrans; [apply Ht2|exact Hs]|]. intros i d Hi Hd.
  destruct (Hr i d Hi Hd) as [-> ->]. by rewrite Hsv.
Qed.
End Reset.

(** A DPU is usable when it was enabled and its memories can be repaired, as
    far as the rank repairs them. *)
Definition usable (r : rank) (i d : Z) : bool :=
  en r i d && (negb (do_iram_repair (desc r)) || repaired iram_path r i d)
           && (negb (do_wram_repair (desc r)) || wram_repaired r i d).

(** A step of the reset that keeps the enabled DPUs. *)
Ltac reset_step r0 H :=
  apply wp_bind;
  match type of H with tracks _ ?e _ =>
    eapply wp_mono; [apply (wp_preserves r0 _ e); [|exact H]|]
  end; [|clear H; intros [?|?] ? H; [|done]; cbv beta iota].

Ltac reset_steps r0 H := repeat first [apply wp_bind, wp_gets | reset_step r0 H; [solve [auto with keeps]|]].

(** ** Properties *)

(** C15: a reset that succeeds leaves enabled exactly the DPUs that were enabled
    before it and whose IRAM and WRAM can be repaired, in the mask of their
    interface and in their own flag, although all DPUs are enabled in between. *)
Theorem ci_reset_rank_enabled {D} `{!RankHandler D} fuel_refresh fuel_wait program set_slice_info
    (w w' : world D) i d :
  rank_dims (rk w) -> (forall w, enab_frame (rk w) (rk (fst (set_slice_info w)))) ->
  ci_reset_rank fuel_refresh fuel_wait program set_slice_info w = (w', Ok (Some tt)) ->
  0 <= i < nr_cis_of (rk w) -> 0 <= d < nr_dpus_of (rk w) ->
  en (rk w') i d = usable (rk w) i d /\ enabled (dpu_of (rk w') i d) = usable (rk w) i d.
Proof.
  intros Hdims Hset Hrun Hi Hd. set (r0 := rk w) in *.
  enough (wp (ci_reset_rank fuel_refresh fuel_wait program set_slice_info)
    (on_ok (fun o w' => o = Some tt ->
      en (rk w') i d = usable r0 i d /\ enabled (dpu_of (rk w') i d) = usable r0 i d)) w) as Hwp.
  { unfold wp in Hwp. rewrite Hrun in Hwp. by apply Hwp. }
  assert (tracks r0 (en r0) (rk w)) as Ht by (split; done).
  assert (saves r0 (mk_enabled_save (replicate 8 false) (replicate 8 0)) (fun _ _ => false)) as Hsv.
  { split; [done|]. intros j e Hj _. destruct Hdims as [? _ ? _]. unfold DPU_MAX_NR_CIS in *.
    unfold saved_en. cbn [enabled_dpus_save]. assert ((replicate 8 0).[j] = 0) as ->; [|apply Z.testbit_0_l].
    unfold getz. apply lookup_total_replicate_2. lia. }
  unfold ci_reset_rank. apply wp_bind, wp_gets.
  destruct (fetch_dma_and_wavegen_configs _ _ _ _ _) as [[dma wavegen]|]; [|by apply wp_ret].
  cbv zeta. apply wp_bind. eapply wp_mono; [by apply (wp_save r0 Hdims _ _ _ _ _ Hsv Ht)|].
  clear Hsv Ht. intros [save|?] w1; [|done]. intros (Hsv & al & Ht & Hal). cbv beta iota.
  reset_steps r0 Ht.
  apply wp_bind. eapply wp_mono; [by apply (wp_iram_repair_config r0 Hdims)|].
  clear Ht. intros [[]|?] w2 Ht; [|done]. cbv beta iota.
  apply wp_bind. eapply wp_mono; [by apply (wp_save r0 Hdims _ _ _ _ _ Hsv Ht)|].
  clear Ht. intros [save1|?] w3; [|done]. intros (Hsv1 & al1 & Ht & Hal1). cbv beta iota.
  apply wp_bind. eapply wp_mono; [by apply (wp_wram_repair_config r0 Hdims)|].
  clear Ht. intros [[]|?] w4 Ht; [|done]. cbv beta iota.
  apply wp_bind. eapply wp_mono; [by apply (wp_save r0 Hdims _ _ _ _ _ Hsv1 Ht)|].
  clear Ht. intros [save2|?] w5; [|done]. intros (Hsv2 & al2 & Ht & _). cbv beta iota.
  reset_steps r0 Ht.
  match goal with |- wp (match ?f with _ => _ end) _ _ => destruct f end; [|by apply wp_ret].
  reset_steps r0 Ht.
  apply wp_bind. eapply wp_mono; [by apply (wp_init_groups r0 Hdims _ _ _ _ Hsv2 Ht)|].
  intros [[]|?] w6; [|done]. intros (Hst6 & Hen6). cbv beta iota.
  apply wp_bind. specialize (Hset w6). unfold wp at 1.
  destruct (set_slice_info w6) as [w7 [?|?]]; [|done]. cbn [fst snd] in *. apply wp_ret. intros _.
  destruct Hset as [[pcb Hdesc] Hdp _ Hen7]. destruct (Hen6 i d Hi Hd) as [He6 Hd6].
  assert (dpu_of (rk w7) i d = dpu_of (rk w6) i d) as ->.
  { unfold dpu_of, DPU_INDEX, nr_dpus_of. by rewrite Hdp, Hdesc. }
  unfold en at 1. rewrite Hen7 by lia. fold (en (rk w6) i d). rewrite He6, Hd6.
  pose proof (Hal i d Hi Hd) as Ha. pose proof (Hal1 i d Hi Hd) as Ha1. cbv beta iota in Ha1.
  enough (en r0 i d && (al i && (negb (do_iram_repair (desc r0)) || repaired iram_path r0 i d)) &&
    (al1 i && (negb (do_wram_repair (desc r0)) || wram_repaired r0 i d)) = usable r0 i d) as Heq by done.
  unfold usable. destruct (en r0 i d); [|done]. rewrite Ha by done. rewrite Ha in Ha1 by done.
  destruct (_ || repaired iram_path r0 i d); [|done]. by rewrite Ha1.
Qed.

(** ** A board that can be reset

    The simulated interfaces of Select.v, with what the reset looks at: the
    colour restarts after a soft reset and every DPU answers that its stack
    grows upwards. *)

Definition is_reset (cmd : Z) : bool :=
  (cmd =? CI_SOFTWARE_RESET DPU_CLOCK_DIV8 0) || (cmd =? CI_SOFTWARE_RESET DPU_CLOCK_DIV2 0).

(** The last command of each interface, and the interfaces. *)
Definition board := (list Z * sim)%type.
Definition board_commit (d : board) (commands : list Z) : board :=
  let s := sim_commit (snd d) commands in
  (map (fun i => if commands.[i] =? CI_EMPTY then (fst d).[i] else commands.[i]) (seqZ 0 8),
   mk_sim (sim_structure s) (sim_target s)
     (map (fun i => if is_reset commands.[i] then answer_color1 else (sim_answer s).[i]) (seqZ 0 8)) []).
(** Every DPU has its bit set after a write of the IRAM or a read of the stack
    direction. *)
Definition board_bits (d : board) (i : Z) : Z :=
  if ((fst d).[i] =? CI_STACK_UP_READ_AND_SET_FRAME)
     || ((sim_structure (snd d)).[i] =? CI_IRAM_WRITE_INSTRUCTION_STRUCT 0) then 0x3
  else if (fst d).[i] =? CI_PC_MODE_READ_FRAME then DPU_PC_MODE_16 else 0.

#[export] Instance board_handler : RankHandler board := {
  commit_commands d commands := (board_commit d commands, DPU_RANK_SUCCESS);
  update_commands d :=
    (d, (map (fun i => (sim_answer (snd d)).[i] ||| board_bits d i) (seqZ 0 8), DPU_RANK_SUCCESS));
}.

(** Two interfaces of two DPUs; DPU 1 of interface 1 is disabled and DPU 0 of
    interface 0 has five corrupted IRAM addresses. *)
Definition broken_repair : memory_repair := mk_memory_repair [] 5 false.
Definition board_slice (enabled : Z) : slice_info :=
  mk_slice_info EXPECTED_BYTE_ORDER_RESULT_AFTER_CONFIGURATION 0
    (mk_slice_target DPU_SLICE_TARGET_NONE 0) 0 (replicate 8 0) enabled (enabled =? 3).
Definition board_rank : rank :=
  let r := sample_rank 2 2 in
  let d := mk_description 0 (mk_carousel_config 2 1 2 0) 800 1 0 2 2 2 0x4000000 0x4000 0x1000
    (mk_bit_config 0 0 0 0) 1 1 true true true true false false false in
  let r := set_desc d (set_ci (mk_ci_context 0 0 0 (board_slice 3 :: board_slice 1 ::
             replicate 6 (board_slice 0))) r) in
  upd_dpu 0 0 (set_iram_repair broken_repair) (upd_dpu 1 1 (set_enabled false) r).
Definition board_world : world board := mk_world board_rank (replicate 8 0, sim0).

Lemma board_dims : rank_dims (rk board_world).
Proof. split; by_eval. Qed.

Lemma ci_reset_rank_enabled_witness : exists w',
  ci_reset_rank 100 5 (Some [0x123]) (mret tt) board_world = (w', Ok (Some tt)) /\
  enabled (dpu_of (rk w') 0 0) = false /\ enabled (dpu_of (rk w') 1 0) = true /\
  enabled (dpu_of (rk w') 1 1) = false.
Proof.
  destruct (ci_reset_rank 100 5 (Some [0x123]) (mret tt) board_world) as [w' res] eqn:Hrun.
  assert (res = Ok (Some tt)) as ->.
  { apply (f_equal snd) in Hrun. cbn [snd] in Hrun. rewrite <-Hrun. vm_compute. reflexivity. }
  exists w'. split; [done|].
  pose proof (fun i d => ci_reset_rank_enabled 100 5 (Some [0x123]) (mret tt) board_world w' i d
    board_dims (fun w => reflexivity (rk w)) Hrun) as Hen.
  split_and!; (etrans; [apply Hen; by_eval|vm_compute; reflexivity]).
Defined.

(** One interface of two DPUs: the IRAM of DPU 0 and the WRAM of DPU 1 cannot be
    repaired. Each repair finds a DPU that it did not disable, since the masks are
    restored at the end only: the reset succeeds and leaves no DPU enabled. *)
Definition worn_rank : rank :=
  let r := set_ci (mk_ci_context 0 0 0 (board_slice 3 :: replicate 7 (board_slice 0))) (sample_rank 1 2) in
  let d := mk_description 0 (mk_carousel_config 2 1 2 0) 800 1 0 1 2 2 0x4000000 0x4000 0x1000
    (mk_bit_config 0 0 0 0) 1 1 true true true true false false false in
  upd_dpu 0 0 (set_iram_repair broken_repair) (upd_dpu 0 1 (set_wram_repair [broken_repair]) (set_desc d r)).
Definition worn_world : world board := mk_world worn_rank (replicate 8 0, sim0).
Lemma reset_disables_every_dpu :
  let '(w, res) := ci_reset_rank 100 5 (Some [0x123]) (mret tt) worn_world in
  res = Ok (Some tt) /\ enabled (dpu_of (rk w) 0 0) = false /\ enabled (dpu_of (rk w) 0 1) = false /\
  enabled_dpus (slice_of (rk w) 0) = 0.
Proof. vm_compute. split_and!; reflexivity. Qed.

(** [dpu_set_pc_mode] compares the mode of the interface whose number is that
    of the DPU: with two interfaces whose DPUs all report mode 12, it accepts
    that they are in mode 16. *)
Theorem wrong_pc_mode_accepted :
  let '(w, res) := dpu_set_pc_mode DPU_PC_MODE_16 (sim_world 2 8) in
  res = Ok tt /\
  snd (ufi_get_pc_mode 0x03 (replicate 8 DPU_PC_MODE_16) w) = Ok [0; 0; 4; 4; 4; 4; 4; 4].
Proof. vm_compute. split; reflexivity. Qed.

(** the status of the reset command is dropped: the step succeeds although the
    backend refused the command and nothing was sent. *)
Theorem failed_soft_reset_ignored :
  let '(w, res) := dpu_soft_reset DPU_CLOCK_DIV8 (mk_world (sample_rank 2 8) (1%nat, sim0)) in
  res = Ok tt /\ sim_log (snd (dev w)) = [].
Proof. vm_compute. split; reflexivity. Qed.
