(* ===== verification/ThreadJob.v ===== *)
(** * The queues of jobs of the ranks

    Model of [src/api/src/api/dpu_thread_job.c], of the macros of
    [dpu_thread_job.h] and of [dpu_callback] ([dpu_set.c]): clients take job
    slots, fill them and add them to the FIFO of each rank of a set; a rank
    whose FIFO is not empty is in the list of a queue, from which a worker
    thread takes it to compute its jobs in order.

    A state is the memory the threads share with the point each of them has
    reached; an action is one thread going through one critical section
    ([jobs_mutex], or the mutex of a queue), or one atomic decrement. Waiting on
    a condition is an action that is not enabled. The mutexes, and the threads that
    they stop, are added in ThreadJobLocks.v, whose executions are executions of
    this model: what holds of every state here holds there. What a job does to its
    rank is left out: an action gives the status it returns. A synchronous request on one
    rank, made while a callback runs on it, does not go through the queues: the
    job is computed by the caller (a callback, in principle). It is not an action,
    and the executions are those where no other thread makes one. *)

From S2P Require Import Prelude.
From stdpp Require Import functions.

#[local] Open Scope Z_scope.
#[local] Open Scope dpu_scope.

Definition NR_QUEUES : nat := 4.
Definition DPU_ERR_ASYNC_JOBS := Z.shiftl 1 31.
Definition DPU_ERROR_ASYNC_JOB_TYPE_SHIFT := 16.
Definition DPU_OK := 0.
Definition DPU_ERR_NONBLOCKING_SYNC_CALLBACK := 35.

Inductive dpu_thread_job_type :=
  | DPU_THREAD_JOB_LAUNCH_RANK | DPU_THREAD_JOB_LAUNCH_DPU | DPU_THREAD_JOB_SYNC
  | DPU_THREAD_JOB_COPY_WRAM_TO_MATRIX | DPU_THREAD_JOB_COPY_IRAM_TO_MATRIX
  | DPU_THREAD_JOB_COPY_MRAM_TO_MATRIX | DPU_THREAD_JOB_COPY_WRAM_FROM_MATRIX
  | DPU_THREAD_JOB_COPY_IRAM_FROM_MATRIX | DPU_THREAD_JOB_COPY_MRAM_FROM_MATRIX
  | DPU_THREAD_JOB_COPY_WRAM_TO_RANK | DPU_THREAD_JOB_COPY_IRAM_TO_RANK
  | DPU_THREAD_JOB_COPY_MRAM_TO_RANK | DPU_THREAD_JOB_CALLBACK | DPU_THREAD_JOB_LOAD.

Definition job_type_value (t : dpu_thread_job_type) : Z :=
  match t with
  | DPU_THREAD_JOB_LAUNCH_RANK => 0 | DPU_THREAD_JOB_LAUNCH_DPU => 1 | DPU_THREAD_JOB_SYNC => 2
  | DPU_THREAD_JOB_COPY_WRAM_TO_MATRIX => 3 | DPU_THREAD_JOB_COPY_IRAM_TO_MATRIX => 4
  | DPU_THREAD_JOB_COPY_MRAM_TO_MATRIX => 5 | DPU_THREAD_JOB_COPY_WRAM_FROM_MATRIX => 6
  | DPU_THREAD_JOB_COPY_IRAM_FROM_MATRIX => 7 | DPU_THREAD_JOB_COPY_MRAM_FROM_MATRIX => 8
  | DPU_THREAD_JOB_COPY_WRAM_TO_RANK => 9 | DPU_THREAD_JOB_COPY_IRAM_TO_RANK => 10
  | DPU_THREAD_JOB_COPY_MRAM_TO_RANK => 11 | DPU_THREAD_JOB_CALLBACK => 12 | DPU_THREAD_JOB_LOAD => 13
  end.

(** A slot: its rank, and its index in the [jobs_table] of the rank. *)
Definition job_id : Type := nat * nat.

(** The member [callback] of a job; [cb_set] is the ranks of its [dpu_set],
    [cb_nr_ranks] the counter of its [sync]. *)
Record callback_job := mk_callback {
  master_job : option job_id;
  slot_owner : nat;
  cb_set : list nat;
  cb_nr_ranks : Z;
  is_sync : bool;
  is_nonblocking : bool;
  is_single_call : bool;
}.
Definition set_cb_nr_ranks x c :=
  mk_callback (master_job c) (slot_owner c) (cb_set c) x (is_sync c) (is_nonblocking c) (is_single_call c).

(** [struct dpu_thread_job], its union. A [dpu_thread_job_sync] is on the stack
    of the client that waits for it: it has the number of the client. *)
Inductive job :=
  | JobOperation (type : dpu_thread_job_type)
  | JobSync (sync : nat)
  | JobCallback (c : callback_job).
Definition type_of (j : job) : dpu_thread_job_type :=
  match j with
  | JobOperation t => t
  | JobSync _ => DPU_THREAD_JOB_SYNC
  | JobCallback _ => DPU_THREAD_JOB_CALLBACK
  end.

Record dpu_thread_job_sync := mk_sync { nr_ranks : Z; sync_status : Z }.

(** The members of [rank->api] for the jobs. *)
Record rank_api := mk_rank_api {
  jobs : list job_id;
  available_jobs : list job_id;
  available_jobs_length : Z;
  job_error : Z;
}.
Definition set_jobs x r := mk_rank_api x (available_jobs r) (available_jobs_length r) (job_error r).
Definition set_available_jobs x n r := mk_rank_api (jobs r) x n (job_error r).
Definition set_job_error x r := mk_rank_api (jobs r) (available_jobs r) (available_jobs_length r) x.

(** ** The lists of a rank *)

(** [dpu_thread_job_pop_unlocked]: [None] when it is given an empty list, whose
    head is dereferenced. *)
Definition dpu_thread_job_peek_unlocked (l : list job_id) : option job_id := head l.
Definition dpu_thread_job_pop_unlocked (l : list job_id) : option (job_id * list job_id) :=
  match l with [] => None | job :: l => Some (job, l) end.

Definition dpu_thread_release_job_slot_unlocked (job : job_id) (r : rank_api) : rank_api :=
  set_available_jobs (available_jobs r ++ [job]) (u32 (available_jobs_length r + 1)) r.

Definition dpu_thread_advance_to_next_job (r : rank_api) : option (rank_api * option job_id) :=
  '(job, rest) ← dpu_thread_job_pop_unlocked (jobs r);
  let r := dpu_thread_release_job_slot_unlocked job (set_jobs rest r) in
  Some (r, dpu_thread_job_peek_unlocked (jobs r)).

(** The first of the available slots; [dpu_thread_job_get_job_unlocked] waits
    when there is none. *)
Inductive get_outcome := GetError (status : Z) | GetWait | GetJob (job : job_id) (r : rank_api).
Definition dpu_thread_job_get_job_unlocked (r : rank_api) : get_outcome :=
  if negb (job_error r =? DPU_OK) then GetError (job_error r)
  else match dpu_thread_job_pop_unlocked (available_jobs r) with
       | None => GetWait
       | Some (job, rest) => GetJob job (set_available_jobs rest (u32 (available_jobs_length r - 1)) r)
       end.

(** One rank of [dpu_thread_job_unget_jobs]. *)
Definition unget_rank (js : list job_id) (r : rank_api) : rank_api :=
  foldl (fun r job => set_available_jobs (job :: available_jobs r) (u32 (available_jobs_length r + 1)) r) r js.

(** The status kept in [job_error]. *)
Definition async_status (type : dpu_thread_job_type) (status : Z) : Z :=
  DPU_ERR_ASYNC_JOBS ||| Z.shiftl (job_type_value type) DPU_ERROR_ASYNC_JOB_TYPE_SHIFT
  ||| (status &&& (Z.shiftl 1 DPU_ERROR_ASYNC_JOB_TYPE_SHIFT - 1)).
Definition error_of_status (status : Z) : Z := status &&& (Z.shiftl 1 DPU_ERROR_ASYNC_JOB_TYPE_SHIFT - 1).

(** ** Threads *)

(** A worker, in [dpu_thread_job_fct]. The master job of a callback is [None]
    when the callback has none. *)
Inductive worker :=
  (** Looks for a rank. *)
  | WIdle
  (** About to compute [job]. *)
  | WCompute (job : job_id)
  (** Has the next job of the rank to put back in the queue (non-blocking callback). *)
  | WInsert (next : option job_id) (master : option job_id) (c : callback_job)
  (** Runs the function of a callback; [job] when the rank is kept. *)
  | WFunction (job : option job_id) (master : option job_id) (c : callback_job)
  (** In [dpu_thread_handle_global_block], [todo] being the ranks left. *)
  | WGlobal (job : job_id) (master : option job_id) (todo : list nat) (status : Z)
  (** About to release the master job. *)
  | WRelease (job : option job_id) (master : option job_id) (status : Z)
  (** [job] is computed. *)
  | WDone (job : job_id) (status : Z).

(** What a client asks for. *)
Inductive request_kind :=
  | RequestOperation (type : dpu_thread_job_type) (synchronous : bool)
  | RequestSync
  | RequestCallback (is_sync is_nonblocking is_single_call : bool).
Record request := mk_request { rq_set : list nat; rq_kind : request_kind }.

(** The ranks that get jobs: a synchronous single call only uses the first. *)
Definition rq_ranks (rq : request) : list nat :=
  match rq_kind rq with
  | RequestCallback true _ true => take 1 (rq_set rq)
  | _ => rq_set rq
  end.
(** [synchronous] of [DPU_THREAD_JOB_GET_JOBS], and of [dpu_thread_job_do_jobs]. *)
Definition rq_sync_job (rq : request) : bool :=
  match rq_kind rq with RequestOperation _ b => b | RequestSync => false | RequestCallback b _ _ => b end.
Definition rq_waits (rq : request) : bool :=
  match rq_kind rq with RequestOperation _ b => b | RequestSync => true | RequestCallback b _ _ => b end.
(** [dpu_callback] refuses a synchronous callback that does not block. *)
Definition rq_refused (rq : request) : bool :=
  match rq_kind rq with RequestCallback true true _ => true | _ => false end.
Definition nr_jobs_per_rank (rq : request) : nat := if rq_sync_job rq then 2 else 1.
(** [dpu_callback] takes one more job. *)
Definition rq_master (rq : request) : bool :=
  match rq_kind rq with
  | RequestCallback _ _ single => single && negb (length (rq_ranks rq) =? 1)%nat
  | _ => false
  end.

(** A client. The jobs it has are given with their rank. *)
Inductive client :=
  (** Its last request returned [status]. *)
  | CIdle (status : Z)
  (** In [dpu_thread_job_get_jobs]: [cur] are the jobs of the first rank of [rest]. *)
  | CGet (rq : request) (got : list (nat * list job_id)) (cur : list job_id) (rest : list nat)
  | CUnget (got : list (nat * list job_id)) (status : Z)
  (** In [dpu_thread_job_add_jobs]. *)
  | CAdd (rq : request) (master : option job_id) (remaining : list (nat * list job_id))
  | CWait (rq : request).

(** ** The state *)

(** The counters: those of the synchronisations, and those of the callbacks. *)
Inductive counter := OfSync (client : nat) | OfMaster (job : job_id).
#[export] Instance counter_eq_dec : EqDecision counter.
Proof. solve_decision. Defined.

(** The last four members are not in the program, and no guard reads them:
    the callback job at the head of the FIFO of a rank that its worker has left,
    the ranks that have not decremented a counter, the master jobs that are not
    released, and the slots that no thread has any more. *)
Record state := mk_state {
  ranks : nat -> rank_api;
  table : job_id -> job;
  queues : list (list job_id);
  syncs : nat -> dpu_thread_job_sync;
  workers : list worker;
  clients : list client;
  parked : nat -> option job_id;
  todo : counter -> list nat;
  masters : list job_id;
  leaked : list job_id;
}.

Definition upd_rank (r : nat) (x : rank_api) (s : state) : state :=
  mk_state (<[r := x]> (ranks s)) (table s) (queues s) (syncs s) (workers s) (clients s) (parked s) (todo s) (masters s) (leaked s).
Definition set_table (x : job_id -> job) (s : state) : state :=
  mk_state (ranks s) x (queues s) (syncs s) (workers s) (clients s) (parked s) (todo s) (masters s) (leaked s).
Definition set_queues (x : list (list job_id)) (s : state) : state :=
  mk_state (ranks s) (table s) x (syncs s) (workers s) (clients s) (parked s) (todo s) (masters s) (leaked s).
Definition upd_sync (c : nat) (x : dpu_thread_job_sync) (s : state) : state :=
  mk_state (ranks s) (table s) (queues s) (<[c := x]> (syncs s)) (workers s) (clients s) (parked s) (todo s) (masters s) (leaked s).
Definition upd_worker (w : nat) (x : worker) (s : state) : state :=
  mk_state (ranks s) (table s) (queues s) (syncs s) (<[w := x]> (workers s)) (clients s) (parked s) (todo s) (masters s) (leaked s).
Definition upd_client (c : nat) (x : client) (s : state) : state :=
  mk_state (ranks s) (table s) (queues s) (syncs s) (workers s) (<[c := x]> (clients s)) (parked s) (todo s) (masters s) (leaked s).
Definition upd_parked (r : nat) (x : option job_id) (s : state) : state :=
  mk_state (ranks s) (table s) (queues s) (syncs s) (workers s) (clients s) (<[r := x]> (parked s)) (todo s) (masters s) (leaked s).
Definition upd_todo (k : counter) (x : list nat) (s : state) : state :=
  mk_state (ranks s) (table s) (queues s) (syncs s) (workers s) (clients s) (parked s) (<[k := x]> (todo s)) (masters s) (leaked s).
Definition set_masters (x : list job_id) (s : state) : state :=
  mk_state (ranks s) (table s) (queues s) (syncs s) (workers s) (clients s) (parked s) (todo s) x (leaked s).
Definition set_leaked (x : list job_id) (s : state) : state :=
  mk_state (ranks s) (table s) (queues s) (syncs s) (workers s) (clients s) (parked s) (todo s) (masters s) x.

Section Queues.
(** [thread_info.queue_idx] of a rank, and of the rank a worker was created for. *)
Context (queue_idx worker_queue : nat -> nat).

(** ** Workers *)

Definition insert_in_queue (job : job_id) (s : state) : state :=
  set_queues (alter (fun l => l ++ [job]) (queue_idx (fst job)) (queues s)) s.
Definition dpu_thread_insert_rank_list (first_job : option job_id) (s : state) : state :=
  match first_job with None => s | Some job => insert_in_queue job s end.

(** The counter [k] is decremented for the rank [r]. *)
Definition rank_done (k : counter) (r : nat) (s : state) : state :=
  upd_todo k (List.remove Nat.eq_dec r (todo s k)) s.

(** The signal enables the action of the client. *)
Definition do_sync_job (r sync : nat) (s : state) : state :=
  let x := syncs s sync in
  rank_done (OfSync sync) r (upd_sync sync (mk_sync (u32 (nr_ranks x - 1)) (sync_status x)) s).

(** [dpu_thread_compute_job]; a callback goes on in the actions that follow. *)
Definition dpu_thread_compute_job (w : nat) (job : job_id) (status : Z) (s : state) : option state :=
  let rank := fst job in
  match table s job with
  | JobOperation _ => Some (upd_worker w (WDone job status) s)
  | JobSync sync => Some (upd_worker w (WDone job DPU_OK) (do_sync_job rank sync s))
  | JobCallback c =>
      let master := default job (master_job c) in
      match table s master with
      | JobCallback m =>
          let m := set_cb_nr_ranks (u32 (cb_nr_ranks m - 1)) m in
          let s := rank_done (OfMaster master) rank (set_table (<[master := JobCallback m]> (table s)) s) in
          if cb_nr_ranks m =? 0 then
            if is_nonblocking m then
              '(r, next) ← dpu_thread_advance_to_next_job (ranks s rank);
              Some (upd_worker w (WInsert next (master_job c) m) (upd_rank rank r s))
            else Some (upd_worker w (WFunction (Some job) (master_job c) m) s)
          else if negb (is_nonblocking m) && is_single_call m && negb (is_sync m) then
            Some (upd_worker w WIdle (upd_parked rank (Some master) s))
          else Some (upd_worker w (WDone job DPU_OK) s)
      | _ => None
      end
  end.

(** The jobs left are dropped; those that are synchronisations are told. *)
Definition notify_sync (r : nat) (status : Z) (s : state) (job : job_id) : state :=
  match table s job with
  | JobSync sync =>
      let x := syncs s sync in
      let x := if sync_status x =? DPU_OK then mk_sync (nr_ranks x) status else x in
      do_sync_job r sync (upd_sync sync x s)
  | _ => s
  end.
Definition dpu_thread_update_status (job : job_id) (status : Z) (s : state) : state :=
  let rank := fst job in
  let status := async_status (type_of (table s job)) status in
  let s := foldl (notify_sync rank status) s (jobs (ranks s rank)) in
  let r := set_job_error status (ranks s rank) in
  let r := foldl (fun r job => dpu_thread_release_job_slot_unlocked job r) (set_jobs [] r) (jobs r) in
  upd_rank rank r s.

(** Back in the loop of [dpu_thread_job_fct]. *)
Definition after_job (w : nat) (job : job_id) (status : Z) (s : state) : option state :=
  if negb (status =? DPU_OK) then Some (upd_worker w WIdle (dpu_thread_update_status job status s))
  else
    '(r, next) ← dpu_thread_advance_to_next_job (ranks s (fst job));
    let s := upd_rank (fst job) r s in
    Some (upd_worker w (match next with Some next => WCompute next | None => WIdle end) s).

(** One rank of [dpu_thread_handle_global_block]: [None] when the FIFO has no
    other job, since the null pointer is inserted in the queue. *)
Definition global_block_rank (other : nat) (s : state) : option state :=
  '(r, next) ← dpu_thread_advance_to_next_job (ranks s other);
  next ← next;
  Some (insert_in_queue next (upd_parked other None (upd_rank other r s))).

(** The slot of the master goes back to its owner. *)
Definition release_master (master : job_id) (s : state) : option state :=
  match table s master with
  | JobCallback m =>
      let owner := slot_owner m in
      Some (set_masters (List.remove (prod_eq_dec (A := nat) (B := nat)) master (masters s))
        (upd_rank owner (dpu_thread_release_job_slot_unlocked master (ranks s owner)) s))
  | _ => None
  end.

(** One critical section of the worker [w]. *)
Definition worker_step (w : nat) (status : Z) (s : state) : option state :=
  x ← workers s !! w;
  match x with
  | WIdle =>
      let q := worker_queue w in
      l ← queues s !! q;
      match l with
      | [] => None
      | job :: l => Some (upd_worker w (WCompute job) (set_queues (<[q := l]> (queues s)) s))
      end
  | WCompute job => dpu_thread_compute_job w job status s
  | WInsert next master c => Some (upd_worker w (WFunction None master c) (dpu_thread_insert_rank_list next s))
  | WFunction (Some job) master c =>
      Some (upd_worker w
        (if is_single_call c && negb (is_sync c) then WGlobal job master (cb_set c) status
         else WRelease (Some job) master status) s)
  | WFunction None master c => Some (upd_worker w (WRelease None master status) s)
  | WGlobal job master [] status => Some (upd_worker w (WRelease (Some job) master status) s)
  | WGlobal job master (other :: todo) status =>
      s ← (if (other =? fst job)%nat then Some s else global_block_rank other s);
      Some (upd_worker w (WGlobal job master todo status) s)
  | WRelease job master status =>
      s ← (match master with Some master => release_master master s | None => Some s end);
      Some (upd_worker w (match job with Some job => WDone job status | None => WIdle end) s)
  | WDone job status => after_job w job status s
  end.

(** ** Clients *)

(** The contents of the jobs of a rank ([DPU_THREAD_JOB_SET_JOBS],
    [dpu_callback], [dpu_sync_set_sync_job]). A job that has a master has only
    its [master_job] set: the other members are never read. *)
Definition job_contents (rq : request) (c rank : nat) (master : option job_id) : list job :=
  match rq_kind rq with
  | RequestOperation type synchronous => JobOperation type :: (if synchronous then [JobSync c] else [])
  | RequestSync => [JobSync c]
  | RequestCallback sync nonblocking single =>
      match master with
      | Some m => [JobCallback (mk_callback (Some m) 0 [] 0 false false false)]
      | None =>
          let set := if sync && single then rq_set rq else [rank] in
          JobCallback (mk_callback None 0 set 1 sync nonblocking false) :: (if sync then [JobSync c] else [])
      end
  end.

(** The counter of a callback that is its own master starts at one. *)
Definition write_job (rank : nat) (s : state) (x : job_id * job) : state :=
  let '(job, content) := x in
  let ranks := match content with JobCallback (mk_callback None _ _ _ _ _ _) => [rank] | _ => [] end in
  upd_todo (OfMaster job) ranks (set_table (<[job := content]> (table s)) s).
Definition write_jobs (rq : request) (c : nat) (master : option job_id) (s : state) (x : nat * list job_id) : state :=
  let '(rank, js) := x in
  foldl (write_job rank) s (zip js (job_contents rq c rank master)).

(** The master job of a single call ([dpu_callback]). *)
Definition master_content (rq : request) (owner : nat) : job :=
  let nonblocking := match rq_kind rq with RequestCallback _ b _ => b | _ => false end in
  JobCallback (mk_callback None owner (rq_set rq) (lenz (rq_ranks rq)) false nonblocking true).
Definition write_master (rq : request) (m : job_id) (owner : nat) (s : state) : state :=
  upd_todo (OfMaster m) (rq_ranks rq) (set_table (<[m := master_content rq owner]> (table s)) s).

(** One rank of [dpu_thread_job_add_jobs]. The mutex of the queue, held until
    the last rank, is in ThreadJobLocks.v. *)
Definition add_rank (rank : nat) (js : list job_id) (s : state) : state :=
  let s := match jobs (ranks s rank), js with
           | [], job :: _ => insert_in_queue job s
           | _, _ => s
           end in
  let r := ranks s rank in
  upd_rank rank (set_jobs (jobs r ++ js) r) s.

(** A synchronous request that failed puts the ranks back in use. *)
Definition reset_errors (rs : list nat) (s : state) : state :=
  foldl (fun s r => upd_rank r (set_job_error DPU_OK (ranks s r)) s) s rs.

(** [dpu_thread_job_init_sync_job]: the counter and the status. The mutex of
    the synchronisation, left locked until the wait, is in ThreadJobLocks.v. *)
Definition init_sync (c : nat) (rs : list nat) (s : state) : state :=
  upd_todo (OfSync c) rs (upd_sync c (mk_sync (lenz rs) DPU_OK) s).

Definition request_step (c : nat) (rq : request) (s : state) : option state :=
  x ← clients s !! c;
  match x with
  | CIdle _ =>
      if rq_refused rq then Some (upd_client c (CIdle DPU_ERR_NONBLOCKING_SYNC_CALLBACK) s) else
      let s := if rq_waits rq then init_sync c (rq_ranks rq) s else s in
      Some (upd_client c (CGet rq [] [] (rq_ranks rq)) s)
  | _ => None
  end.

(** One critical section of the client [c]. The last decrement of the counter
    signals the client that waits: without a rank nobody does. A non-blocking single call takes its
    master job from the rank [idx] that seems to have the most slots, after
    reading the lengths without the mutexes: any rank. *)
Definition client_step (c idx : nat) (s : state) : option state :=
  x ← clients s !! c;
  match x with
  | CIdle _ => None
  | CGet rq got cur (rank :: rest) =>
      match dpu_thread_job_get_job_unlocked (ranks s rank) with
      | GetError status => Some (upd_client c (CUnget got status) (set_leaked (cur ++ leaked s) s))
      | GetWait => None
      | GetJob job r =>
          let cur := cur ++ [job] in
          let x := if (length cur =? nr_jobs_per_rank rq)%nat then CGet rq (got ++ [(rank, cur)]) [] rest
                   else CGet rq got cur (rank :: rest) in
          Some (upd_client c x (upd_rank rank r s))
      end
  | CGet rq got cur [] =>
      if rq_master rq then
        let nonblocking := match rq_kind rq with RequestCallback _ b _ => b | _ => false end in
        let master_idx := if nonblocking then idx else 0%nat in
        '(rank, _) ← got !! master_idx;
        match dpu_thread_job_get_job_unlocked (ranks s rank) with
        | GetError status => Some (upd_client c (CUnget got status) s)
        | GetWait => None
        | GetJob m r =>
            let s := set_masters (m :: masters s) (write_master rq m rank (upd_rank rank r s)) in
            Some (upd_client c (CAdd rq (Some m) got) (foldl (write_jobs rq c (Some m)) s got))
        end
      else Some (upd_client c (CAdd rq None got) (foldl (write_jobs rq c None) s got))
  | CUnget [] status => Some (upd_client c (CIdle status) s)
  | CUnget ((rank, js) :: got) status =>
      Some (upd_client c (CUnget got status) (upd_rank rank (unget_rank js (ranks s rank)) s))
  | CAdd rq master ((rank, js) :: remaining) => Some (upd_client c (CAdd rq master remaining) (add_rank rank js s))
  | CAdd rq master [] => Some (upd_client c (if rq_waits rq then CWait rq else CIdle DPU_OK) s)
  | CWait rq =>
      if (nr_ranks (syncs s c) =? 0) && negb (length (rq_ranks rq) =? 0)%nat then
        let status := error_of_status (sync_status (syncs s c)) in
        let s := if status =? DPU_OK then s else reset_errors (rq_ranks rq) s in
        Some (upd_client c (CIdle status) s)
      else None
  end.

(** ** The transition system *)

Inductive action :=
  | ActWorker (w : nat) (status : Z)
  | ActRequest (c : nat) (rq : request)
  | ActClient (c idx : nat).
Definition step (a : action) (s : state) : option state :=
  match a with
  | ActWorker w status => worker_step w status s
  | ActRequest c rq => request_step c rq s
  | ActClient c idx => client_step c idx s
  end.
Definition run (actions : list action) (s : state) : option state :=
  foldl (fun s a => s ← s; step a s) (Some s) actions.

(** After [dpu_thread_job_create]: the slots of each rank are available. *)
Definition initial_state (nr_jobs nr_workers nr_clients : nat) : state :=
  mk_state
    (fun r => mk_rank_api [] (reverse (map (fun i => (r, i)) (seq 0 nr_jobs))) (Z.of_nat nr_jobs) DPU_OK)
    (fun _ => JobOperation DPU_THREAD_JOB_LAUNCH_RANK) (replicate NR_QUEUES [])
    (fun _ => mk_sync 0 DPU_OK) (replicate nr_workers WIdle) (replicate nr_clients (CIdle DPU_OK))
    (fun _ => None) (fun _ => []) [] [].
End Queues.
