(* ===== verification/ThreadJobInv.v ===== *)
(** * Proofs about the queues of jobs

    The invariant of the transition system of ThreadJob.v, one clause per
    aspect of the state, what it says of one state, and the changes that keep
    it, of which the actions of the workers (ThreadJobWorkers.v) and of the
    clients (ThreadJobClients.v) are made. *)

From S2P Require Import Prelude ThreadJob.
From stdpp Require Import functions.

#[local] Open Scope Z_scope.
#[local] Open Scope dpu_scope.

(** ** Counting the occurrences of a job *)

Definition hit (x j : job_id) : nat := if decide (x = j) then 1 else 0.
Fixpoint occ (j : job_id) (l : list job_id) : nat :=
  match l with
  | [] => 0
  | x :: l => hit x j + occ j l
  end.

Lemma occ_nil j : occ j [] = 0%nat.
Proof. done. Qed.
Lemma occ_cons j x l : occ j (x :: l) = (hit x j + occ j l)%nat.
Proof. done. Qed.
#[global] Opaque occ.
Lemma hit_eq j : hit j j = 1%nat.
Proof. unfold hit. by rewrite decide_True. Qed.
Lemma hit_ne x j : x <> j -> hit x j = 0%nat.
Proof. intros H. unfold hit. by rewrite decide_False. Qed.

Lemma occ_app j l1 l2 : occ j (l1 ++ l2) = (occ j l1 + occ j l2)%nat.
Proof. induction l1 as [|x l1 IH]; [done|]. cbn. rewrite !occ_cons, IH. lia. Qed.
Lemma occ_pos j l : j ∈ l <-> (0 < occ j l)%nat.
Proof.
  induction l as [|x l IH]; rewrite ?occ_nil, ?occ_cons; [split; [by intros ?%not_elem_of_nil|lia]|].
  rewrite elem_of_cons, IH. destruct (decide (x = j)) as [->|Hne].
  - rewrite hit_eq. split; [lia|by left].
  - rewrite hit_ne by done. split; [intros [?|?]; [done|lia]|right; lia].
Qed.
Lemma occ_zero j l : j ∉ l -> occ j l = 0%nat.
Proof. rewrite occ_pos. lia. Qed.
Lemma occ_remove j m l : m ∈ l -> NoDup l ->
  (occ j (List.remove (prod_eq_dec (A := nat) (B := nat)) m l) + hit m j = occ j l)%nat.
Proof.
  intros Hm Hnd. induction Hnd as [|x l Hx Hnd IH]; [by apply not_elem_of_nil in Hm|].
  cbn [List.remove]. rewrite occ_cons. destruct (prod_eq_dec m x) as [<-|Hne].
  - rewrite notin_remove by (intros ?%list_elem_of_In; done). lia.
  - rewrite occ_cons. apply elem_of_cons in Hm as [?|Hm]; [done|]. specialize (IH Hm). lia.
Qed.
Lemma occ_bind_insert {X} (f : X -> list job_id) l i x y j : l !! i = Some x ->
  (occ j (<[i := y]> l ≫= f) + occ j (f x) = occ j (l ≫= f) + occ j (f y))%nat.
Proof.
  revert i. induction l as [|z l IH]; intros [|i] Hi; [done..| |].
  - injection Hi as ->. change (<[0%nat := y]> (x :: l)) with (y :: l). rewrite !bind_cons, !occ_app. lia.
  - change (<[S i := y]> (z :: l)) with (z :: <[i := y]> l). rewrite !bind_cons, !occ_app.
    specialize (IH i Hi). lia.
Qed.
Lemma occ_concat_insert (ls : list (list job_id)) q l l' j : ls !! q = Some l ->
  (occ j (concat (<[q := l']> ls)) + occ j l = occ j (concat ls) + occ j l')%nat.
Proof.
  revert q. induction ls as [|z ls IH]; intros [|q] Hq; [done..| |].
  - injection Hq as ->. change (<[0%nat := l']> (l :: ls)) with (l' :: ls). cbn [concat]. rewrite !occ_app. lia.
  - change (<[S q := l']> (z :: ls)) with (z :: <[q := l']> ls). cbn [concat]. rewrite !occ_app.
    specialize (IH q Hq). lia.
Qed.
Lemma occ_concat_alter (ls : list (list job_id)) q x j : (q < length ls)%nat ->
  occ j (concat (alter (fun l => l ++ [x]) q ls)) = (occ j (concat ls) + hit x j)%nat.
Proof.
  intros Hq. destruct (lookup_lt_is_Some_2 ls q Hq) as [l Hl].
  assert (alter (fun l => l ++ [x]) q ls = <[q := l ++ [x]]> ls) as ->.
  { apply list_eq. intros i. rewrite list_lookup_alter, list_lookup_insert.
    destruct (decide (q = i)) as [<-|]; [|by rewrite decide_False by tauto]. by rewrite decide_True, Hl. }
  pose proof (occ_concat_insert ls q l (l ++ [x]) j Hl) as H. rewrite occ_app, occ_cons, occ_nil in H. lia.
Qed.

Lemma fn_insert_eq {A B} `{EqDecision A} (f : A -> B) a b x : (<[a := x]> f) b = if decide (a = b) then x else f b.
Proof. done. Qed.

(** ** The invariant *)

(** The slots a client has, and the job a worker is on: [passed_by] when it has
    decremented its counter. *)
Definition held_by (x : client) : list job_id :=
  match x with
  | CGet _ got cur _ => concat (snd <$> got) ++ cur
  | CUnget got _ => concat (snd <$> got)
  | CAdd _ _ remaining => concat (snd <$> remaining)
  | CIdle _ | CWait _ => []
  end.
Definition held (s : state) : list job_id := (clients s ≫= held_by) ++ masters s ++ leaked s.
Definition passed_by (x : worker) : list job_id :=
  match x with
  | WFunction (Some j) _ _ | WGlobal j _ _ _ | WRelease (Some j) _ _ | WDone j _ => [j]
  | _ => []
  end.
Definition token_of (x : worker) : list job_id :=
  match x with
  | WCompute j | WInsert (Some j) _ _ => [j]
  | _ => passed_by x
  end.
Definition tokens (s : state) : list job_id := concat (queues s) ++ (workers s ≫= token_of).
Definition passed (s : state) : list job_id := workers s ≫= passed_by.
Definition master_of (x : worker) : option job_id :=
  match x with
  | WInsert _ master _ | WFunction _ master _ | WGlobal _ master _ _ | WRelease _ master _ => master
  | _ => None
  end.

(** The counter a job decrements. *)
Definition key_of (j : job_id) (x : job) : option counter :=
  match x with
  | JobOperation _ => None
  | JobSync c => Some (OfSync c)
  | JobCallback c => Some (OfMaster (default j (master_job c)))
  end.
Definition key (s : state) (j : job_id) : option counter := key_of j (table s j).
Definition counter_value (s : state) (k : counter) : Z :=
  match k with
  | OfSync c => nr_ranks (syncs s c)
  | OfMaster m => match table s m with JobCallback c => cb_nr_ranks c | _ => 0 end
  end.

(** The job at the head of the FIFO of its rank has decremented its counter. *)
Definition past (s : state) (j : job_id) : Prop :=
  j ∈ passed s \/ (parked s (fst j) <> None /\ head (jobs (ranks s (fst j))) = Some j).

(** A counter belongs to a client that has added the job of the rank. *)
Definition added (s : state) (c r : nat) : Prop :=
  (exists rq, clients s !! c = Some (CWait rq)) \/
  (exists rq m l, clients s !! c = Some (CAdd rq m l) /\ rq_waits rq = true /\ r ∉ l.*1).
Definition owned (s : state) (k : counter) (j : job_id) (r : nat) : Prop :=
  match k with
  | OfSync c => added s c r
  | OfMaster m => m = j \/
      (m ∈ masters s /\ forall c rq l, clients s !! c = Some (CAdd rq (Some m) l) -> r ∉ l.*1)
  end.

(** Only a master job is a single call. *)
Definition content_ready (j : job_id) (x : job) : Prop := forall c, x = JobCallback c ->
  match master_job c with None => is_single_call c = false | Some m => m <> j end.

(** The jobs [p] of a rank are filled. *)
Record remaining_ok (table : job_id -> job) (todo : counter -> list nat) (c : nat) (rq : request)
    (master : option job_id) (p : nat * list job_id) : Prop := {
  rm_jobs : snd p <> [];
  rm_ready : forall j, j ∈ snd p -> content_ready j (table j);
  rm_home : forall j, j ∈ snd p -> fst j = fst p;
  rm_todo : forall j k, j ∈ snd p -> key_of j (table j) = Some k -> fst p ∈ todo k;
  rm_key : forall j k, j ∈ snd p -> key_of j (table j) = Some k ->
    k = OfSync c /\ rq_waits rq = true \/ k = OfMaster j \/ exists m, master = Some m /\ k = OfMaster m;
  rm_unique : forall j1 j2 k, j1 ∈ snd p -> j2 ∈ snd p ->
    key_of j1 (table j1) = Some k -> key_of j2 (table j2) = Some k -> j1 = j2;
  rm_master : forall m, master = Some m -> exists j, j ∈ snd p /\ key_of j (table j) = Some (OfMaster m);
  rm_sync : rq_waits rq = true -> exists j, j ∈ snd p /\ table j = JobSync c;
}.

Definition taken_ok (n : nat) (p : nat * list job_id) : Prop :=
  length (snd p) = n /\ forall j, j ∈ snd p -> fst j = fst p.
Definition client_ok (s : state) (c : nat) (x : client) : Prop :=
  match x with
  | CIdle _ => True
  | CGet rq got cur rest =>
      got.*1 ++ rest = rq_ranks rq /\ NoDup (rq_set rq) /\ lenz (rq_set rq) < 2 ^ 32 /\
      (forall p, p ∈ got -> taken_ok (nr_jobs_per_rank rq) p) /\
      (forall j, j ∈ cur -> Some (fst j) = head rest) /\ (length cur < nr_jobs_per_rank rq)%nat /\
      (rq_waits rq = true -> todo s (OfSync c) = rq_ranks rq)
  | CUnget got _ => forall p j, p ∈ got -> j ∈ snd p -> fst j = fst p
  | CAdd rq master remaining =>
      (exists pre, pre ++ remaining.*1 = rq_ranks rq) /\ NoDup (rq_set rq) /\
      (forall p, p ∈ remaining -> remaining_ok (table s) (todo s) c rq master p) /\
      (forall m, master = Some m -> remaining <> [] -> m ∈ masters s)
  | CWait rq => rq_waits rq = true
  end.

Definition master_done (s : state) (master : option job_id) : Prop :=
  forall m, master = Some m -> m ∈ masters s /\ todo s (OfMaster m) = [].
(** The ranks of [rs] other than the one of [j], and no others, wait for the end
    of the callback. *)
Record all_parked (parked : nat -> option job_id) (j : job_id) (master : option job_id) (rs : list nat) : Prop := {
  ap_master : is_Some master;
  ap_NoDup : NoDup rs;
  ap_parked : forall r, r ∈ rs -> r <> fst j -> parked r = master;
  ap_others : forall r, parked r = master -> r ∈ rs;
}.
Definition nobody_parked (s : state) (master : option job_id) : Prop :=
  forall m r, master = Some m -> parked s r <> Some m.
Definition not_sync (s : state) (j : job_id) : Prop := forall c, table s j <> JobSync c.
Definition worker_ok (s : state) (x : worker) : Prop :=
  match x with
  | WIdle | WCompute _ => True
  | WInsert _ master _ | WFunction None master _ | WRelease _ master _ =>
      master_done s master /\ nobody_parked s master /\
      match x with WRelease (Some j) _ _ => not_sync s j | _ => True end
  | WFunction (Some j) master c => master_done s master /\ not_sync s j /\
      if is_single_call c && negb (is_sync c) then all_parked (parked s) j master (cb_set c) else nobody_parked s master
  | WGlobal j master rs _ => master_done s master /\ not_sync s j /\ all_parked (parked s) j master rs
  | WDone j status => status <> DPU_OK -> not_sync s j
  end.

Record master_ok (table : job_id -> job) (todo : counter -> list nat) (parked : nat -> option job_id)
    (m : job_id) (c : callback_job) : Prop := {
  mo_table : table m = JobCallback c;
  mo_none : master_job c = None;
  mo_owner : slot_owner c = fst m;
  mo_single : is_single_call c = true;
  mo_async : is_sync c = false;
  mo_set : NoDup (cb_set c);
  mo_parked : is_nonblocking c = false -> todo (OfMaster m) <> [] ->
    forall r, r ∈ cb_set c -> r ∈ todo (OfMaster m) \/ parked r = Some m;
  mo_todo : forall r, r ∈ todo (OfMaster m) -> r ∈ cb_set c;
  mo_in : forall r, parked r = Some m -> r ∈ cb_set c /\ is_nonblocking c = false;
}.

Record inv (n : nat) (s : state) : Prop := {
  iv_queues : length (queues s) = NR_QUEUES;
  iv_home : forall r j, fst j <> r -> occ j (available_jobs (ranks s r)) = 0%nat /\ occ j (jobs (ranks s r)) = 0%nat;
  iv_slots : forall j, (occ j (available_jobs (ranks s (fst j))) + occ j (jobs (ranks s (fst j))) + occ j (held s))%nat =
    if decide (snd j < n)%nat then 1%nat else 0%nat;
  iv_lengths : forall r, available_jobs_length (ranks s r) = lenz (available_jobs (ranks s r));
  iv_tokens : forall j, occ j (tokens s) =
    match parked s (fst j) with None => occ j (take 1 (jobs (ranks s (fst j)))) | Some _ => 0%nat end;
  iv_parked : forall r m, parked s r = Some m -> jobs (ranks s r) <> [] /\ m ∈ masters s;
  iv_counters : forall k, counter_value s k = lenz (todo s k) /\ NoDup (todo s k) /\ lenz (todo s k) < 2 ^ 32;
  iv_jobs : forall r j k, j ∈ jobs (ranks s r) -> key s j = Some k ->
    past s j \/ (r ∈ todo s k /\ owned s k j r);
  iv_unique : forall r j1 j2 k, j1 ∈ jobs (ranks s r) -> j2 ∈ jobs (ranks s r) ->
    key s j1 = Some k -> key s j2 = Some k -> j1 = j2 \/ past s j1 \/ past s j2;
  iv_ready : forall r j, j ∈ jobs (ranks s r) -> content_ready j (table s j);
  iv_masters : forall m, m ∈ masters s -> exists c, master_ok (table s) (todo s) (parked s) m c;
  iv_clients : forall c x, clients s !! c = Some x -> client_ok s c x;
  iv_client_masters : forall c1 c2 rq1 rq2 m l1 l2, clients s !! c1 = Some (CAdd rq1 (Some m) l1) ->
    clients s !! c2 = Some (CAdd rq2 (Some m) l2) -> l1 <> [] -> l2 <> [] -> c1 = c2;
  iv_workers : forall w x, workers s !! w = Some x -> worker_ok s x;
  iv_worker_masters : forall w1 w2 x1 x2 m, workers s !! w1 = Some x1 -> workers s !! w2 = Some x2 ->
    master_of x1 = Some m -> master_of x2 = Some m -> w1 = w2;
}.

(** ** What the invariant says of one state *)

Lemma occ_bind_one {X} (f : X -> list job_id) l i x j : l !! i = Some x -> (occ j (f x) <= occ j (l ≫= f))%nat.
Proof.
  revert i. induction l as [|z l IH]; intros [|i] Hi; [done..| |]; rewrite bind_cons, occ_app.
  - injection Hi as ->. lia.
  - specialize (IH i Hi). lia.
Qed.
Lemma occ_bind_two {X} (f : X -> list job_id) l i1 i2 x1 x2 j : l !! i1 = Some x1 -> l !! i2 = Some x2 ->
  i1 <> i2 -> (occ j (f x1) + occ j (f x2) <= occ j (l ≫= f))%nat.
Proof.
  revert i1 i2. induction l as [|z l IH]; intros [|i1] [|i2] H1 H2 Hne; try done; rewrite bind_cons, occ_app.
  - injection H1 as ->. pose proof (occ_bind_one f l i2 x2 j H2). lia.
  - injection H2 as ->. pose proof (occ_bind_one f l i1 x1 j H1). lia.
  - specialize (IH i1 i2 H1 H2 ltac:(congruence)). lia.
Qed.
Lemma occ_take j k l : (occ j (take k l) <= occ j l)%nat.
Proof. rewrite <-(take_drop k l) at 2. rewrite occ_app. lia. Qed.
Lemma occ_concat_in j (ls : list (list job_id)) l : l ∈ ls -> (occ j l <= occ j (concat ls))%nat.
Proof.
  induction 1 as [|x ls l Hl IH]; cbn [concat]; rewrite occ_app; lia.
Qed.

Lemma available_short n s r :
  (forall r j, fst j <> r -> occ j (available_jobs (ranks s r)) = 0%nat /\ occ j (jobs (ranks s r)) = 0%nat) ->
  (forall j, (occ j (available_jobs (ranks s (fst j))) + occ j (jobs (ranks s (fst j))) + occ j (held s))%nat =
    if decide (snd j < n)%nat then 1%nat else 0%nat) ->
  lenz (available_jobs (ranks s r)) <= Z.of_nat n.
Proof.
  intros Hhome Hslots.
  assert (forall l : list job_id, (forall j, (occ j l <= if decide (fst j = r /\ (snd j < n)%nat) then 1 else 0)%nat) ->
    NoDup l /\ forall j, j ∈ l -> fst j = r /\ (snd j < n)%nat) as H.
  { induction l as [|j l IH]; intros Ho; [split; [constructor|by intros j ?%not_elem_of_nil]|].
    destruct IH as [IH1 IH2].
    { intros j'. specialize (Ho j'). rewrite occ_cons in Ho. case_decide; lia. }
    pose proof (Ho j) as Hj. rewrite occ_cons, hit_eq in Hj. case_decide as Hd; [|lia]. split.
    - constructor; [|done]. intros Hin. apply occ_pos in Hin. lia.
    - intros j' [->|Hj']%elem_of_cons; [done|by apply IH2]. }
  destruct (H (available_jobs (ranks s r))) as [Hnd Hin].
  { intros j. destruct (decide (fst j = r)) as [<-|Hne].
    - pose proof (Hslots j) as Hs. repeat case_decide; try lia; tauto.
    - rewrite (proj1 (Hhome r j Hne)). lia. }
  assert (incl (available_jobs (ranks s r)) (map (fun i => (r, i)) (seq 0 n))) as Hincl.
  { intros [r' i] Hj. apply list_elem_of_In in Hj. apply Hin in Hj as [[= <-] Hi]. apply in_map_iff.
    exists i. split; [done|]. apply in_seq. cbn in Hi. lia. }
  apply NoDup_incl_length in Hincl; [|by apply NoDup_ListNoDup]. rewrite length_map, length_seq in Hincl. unfold lenz. lia.
Qed.

(** The lists of the rank [r] become those of [x]. *)
Lemma lists_upd n s s' r x : Z.of_nat n < 2 ^ 32 -> inv n s -> ranks s' = <[r := x]> (ranks s) ->
  (forall j, fst j <> r -> occ j (available_jobs x) = 0%nat /\ occ j (jobs x) = 0%nat /\ occ j (held s') = occ j (held s)) ->
  (forall j, fst j = r -> (occ j (available_jobs x) + occ j (jobs x) + occ j (held s'))%nat =
     (occ j (available_jobs (ranks s r)) + occ j (jobs (ranks s r)) + occ j (held s))%nat) ->
  available_jobs_length x = u32 (lenz (available_jobs x)) ->
  (forall r j, fst j <> r -> occ j (available_jobs (ranks s' r)) = 0%nat /\ occ j (jobs (ranks s' r)) = 0%nat) /\
  (forall j, (occ j (available_jobs (ranks s' (fst j))) + occ j (jobs (ranks s' (fst j))) + occ j (held s'))%nat =
    if decide (snd j < n)%nat then 1%nat else 0%nat) /\
  (forall r, available_jobs_length (ranks s' r) = lenz (available_jobs (ranks s' r))).
Proof.
  intros Hn Hinv Hr Hother Hsame Hlen.
  assert (forall r j, fst j <> r -> occ j (available_jobs (ranks s' r)) = 0%nat /\ occ j (jobs (ranks s' r)) = 0%nat) as H1.
  { intros r' j Hj. rewrite Hr, fn_insert_eq. case_decide; [subst r'; by destruct (Hother j Hj) as (?&?&_)|by apply (iv_home _ _ Hinv)]. }
  assert (forall j, (occ j (available_jobs (ranks s' (fst j))) + occ j (jobs (ranks s' (fst j))) + occ j (held s'))%nat =
    if decide (snd j < n)%nat then 1%nat else 0%nat) as H2.
  { intros j. rewrite <-(iv_slots _ _ Hinv j), Hr, fn_insert_eq. case_decide as Hd; [rewrite <-Hd; by apply Hsame|].
    destruct (Hother j ltac:(congruence)) as (_ & _ & ->). done. }
  split_and!; [done..|]. intros r'. pose proof (available_short n s' r' H1 H2) as Hs. rewrite Hr, fn_insert_eq in *.
  case_decide; [|by apply (iv_lengths _ _ Hinv)]. rewrite Hlen. apply u32_id. unfold fits, lenz in *. lia.
Qed.

Lemma NoDup_occ (l : list job_id) : (forall j, (occ j l <= 1)%nat) -> NoDup l.
Proof.
  induction l as [|j l IH]; intros Ho; [constructor|]. constructor.
  - intros Hj. apply occ_pos in Hj. specialize (Ho j). rewrite occ_cons, hit_eq in Ho. lia.
  - apply IH. intros j'. specialize (Ho j'). rewrite occ_cons in Ho. lia.
Qed.

Section Facts.
Context {n : nat} {s : state} (Hinv : inv n s).

Lemma token_head w x j : workers s !! w = Some x -> j ∈ token_of x ->
  parked s (fst j) = None /\ exists l, jobs (ranks s (fst j)) = j :: l.
Proof using Hinv.
  intros Hw Hj. apply occ_pos in Hj. pose proof (occ_bind_one token_of (workers s) w x j Hw) as H1.
  pose proof (iv_tokens _ _ Hinv j) as Ht. unfold tokens in Ht. rewrite occ_app in Ht.
  destruct (parked s (fst j)); [lia|]. split; [done|]. destruct (jobs _) as [|j' l]; [rewrite occ_nil in Ht; lia|].
  cbn in Ht. rewrite occ_cons, occ_nil in Ht. destruct (decide (j' = j)) as [->|Hne]; [by exists l|].
  rewrite hit_ne in Ht by done. lia.
Qed.
Lemma tokens_one j : (occ j (tokens s) <= 1)%nat.
Proof using Hinv.
  rewrite (iv_tokens _ _ Hinv). destruct (parked _ _); [lia|]. destruct (jobs _) as [|j' l]; cbn; [rewrite occ_nil; lia|].
  rewrite occ_cons, occ_nil. unfold hit. case_decide; lia.
Qed.
Lemma token_same w1 w2 x1 x2 j1 j2 : workers s !! w1 = Some x1 -> workers s !! w2 = Some x2 ->
  j1 ∈ token_of x1 -> j2 ∈ token_of x2 -> fst j1 = fst j2 -> w1 = w2.
Proof using Hinv.
  intros H1 H2 Hj1 Hj2 Hr. destruct (token_head _ _ _ H1 Hj1) as [_ [l1 Hl1]].
  destruct (token_head _ _ _ H2 Hj2) as [_ [l2 Hl2]]. rewrite Hr, Hl2 in Hl1. injection Hl1 as -> _.
  destruct (decide (w1 = w2)) as [|Hne]; [done|]. pose proof (occ_bind_two token_of _ _ _ _ _ j1 H1 H2 Hne) as Hb.
  apply occ_pos in Hj1, Hj2. pose proof (tokens_one j1) as Ho. unfold tokens in Ho. rewrite occ_app in Ho. lia.
Qed.
Lemma passed_token x j : j ∈ passed_by x -> j ∈ token_of x.
Proof using. destruct x as [| | |[]| |[]|]; cbn; try done; by intros ?%not_elem_of_nil. Qed.
Lemma compute_not_past w j : workers s !! w = Some (WCompute j) -> ~ past s j.
Proof using Hinv.
  intros Hw [Hp|[Hp _]].
  - apply list_elem_of_bind in Hp as (x & Hx & Hin). apply list_elem_of_lookup in Hin as [w' Hw'].
    assert (w = w') as <-.
    { eapply token_same; [exact Hw|exact Hw'|by left|by apply passed_token|done]. }
    rewrite Hw in Hw'. injection Hw' as <-. by apply not_elem_of_nil in Hx.
  - destruct Hp. by apply (token_head w _ _ Hw); left.
Qed.
Lemma past_head j r : j ∈ jobs (ranks s r) -> past s j -> head (jobs (ranks s (fst j))) = Some j.
Proof using Hinv.
  intros Hj [Hp|[_ Hp]]; [|done]. apply list_elem_of_bind in Hp as (x & Hx & Hin).
  apply list_elem_of_lookup in Hin as [w Hw].
  destruct (token_head _ _ _ Hw (passed_token _ _ Hx)) as [_ [l ->]]. done.
Qed.

Lemma jobs_home r j : j ∈ jobs (ranks s r) -> fst j = r.
Proof using Hinv.
  intros Hj. destruct (decide (fst j = r)) as [|Hne]; [done|]. apply occ_pos in Hj.
  pose proof (proj2 (iv_home _ _ Hinv r j Hne)). lia.
Qed.
Lemma available_home r j : j ∈ available_jobs (ranks s r) -> fst j = r.
Proof using Hinv.
  intros Hj. destruct (decide (fst j = r)) as [|Hne]; [done|]. apply occ_pos in Hj.
  pose proof (proj1 (iv_home _ _ Hinv r j Hne)). lia.
Qed.
Lemma slots_one j : (occ j (available_jobs (ranks s (fst j))) + occ j (jobs (ranks s (fst j))) + occ j (held s) <= 1)%nat.
Proof using Hinv. rewrite (iv_slots _ _ Hinv). case_decide; lia. Qed.
Lemma jobs_not_held r j : j ∈ jobs (ranks s r) -> j ∉ held s.
Proof using Hinv.
  intros Hj Hh. pose proof (jobs_home _ _ Hj). subst r. apply occ_pos in Hj, Hh. pose proof (slots_one j). lia.
Qed.
Lemma held_client c x j : clients s !! c = Some x -> j ∈ held_by x -> j ∈ held s.
Proof using.
  intros Hc Hj. unfold held. rewrite elem_of_app. left. apply list_elem_of_bind.
  exists x. split; [done|]. by eapply list_elem_of_lookup_2.
Qed.
Lemma held_master j : j ∈ masters s -> j ∈ held s.
Proof using. intros Hj. unfold held. rewrite !elem_of_app. by auto. Qed.
Lemma client_not_master c x j : clients s !! c = Some x -> j ∈ held_by x -> j ∉ masters s.
Proof using Hinv.
  intros Hc Hj Hm. pose proof (slots_one j) as H1. unfold held in H1. rewrite !occ_app in H1.
  pose proof (occ_bind_one held_by _ _ _ j Hc). apply occ_pos in Hj, Hm. lia.
Qed.
Lemma client_same c1 c2 x1 x2 j : clients s !! c1 = Some x1 -> clients s !! c2 = Some x2 ->
  j ∈ held_by x1 -> j ∈ held_by x2 -> c1 = c2.
Proof using Hinv.
  intros H1 H2 Hj1 Hj2. destruct (decide (c1 = c2)) as [|Hne]; [done|].
  pose proof (occ_bind_two held_by _ _ _ _ _ j H1 H2 Hne). pose proof (slots_one j) as Ho.
  unfold held in Ho. rewrite !occ_app in Ho. apply occ_pos in Hj1, Hj2. lia.
Qed.
Lemma remaining_held (l : list (nat * list job_id)) p j : p ∈ l -> j ∈ snd p -> j ∈ concat (snd <$> l).
Proof using.
  intros Hp Hj. apply occ_pos. apply occ_pos in Hj.
  pose proof (occ_concat_in j (snd <$> l) (snd p) ltac:(by apply list_elem_of_fmap_2)). lia.
Qed.
Lemma masters_NoDup : NoDup (masters s).
Proof using Hinv.
  apply NoDup_occ. intros j. pose proof (slots_one j) as H1. unfold held in H1. rewrite !occ_app in H1. lia.
Qed.
End Facts.

(** ** The steps keep the invariant *)

Lemma passed_insert s w x y j : workers s !! w = Some x -> (forall j, j ∈ passed_by x -> j ∈ passed_by y) ->
  j ∈ passed s -> j ∈ (<[w := y]> (workers s) ≫= passed_by).
Proof.
  intros Hw Hsub Hj. apply list_elem_of_bind in Hj as (z & Hz & [i Hi]%list_elem_of_lookup).
  apply list_elem_of_bind. destruct (decide (w = i)) as [<-|Hne].
  - rewrite Hw in Hi. injection Hi as <-. exists y. split; [by apply Hsub|].
    apply list_elem_of_lookup. exists w. apply list_lookup_insert_eq. by eapply lookup_lt_Some.
  - exists z. split; [done|]. apply list_elem_of_lookup. exists i. by rewrite list_lookup_insert_ne.
Qed.
Lemma lookup_insert_cases {X} (l : list X) w y w' z : <[w := y]> l !! w' = Some z ->
  (w' = w /\ z = y) \/ (w' <> w /\ l !! w' = Some z).
Proof.
  intros H. destruct (decide (w' = w)) as [->|Hne]; [|right; split; [done|by rewrite list_lookup_insert_ne in H]].
  left. split; [done|]. pose proof (lookup_lt_Some _ _ _ H) as Hl. rewrite length_insert in Hl.
  rewrite list_lookup_insert_eq in H by done. congruence.
Qed.

(** A worker, and perhaps a queue, changes: the tokens are the same. *)
Lemma inv_worker n s w x y q : inv n s -> workers s !! w = Some x -> length q = NR_QUEUES ->
  (forall j, occ j (concat q) + occ j (token_of y) = occ j (concat (queues s)) + occ j (token_of x))%nat ->
  (forall j, j ∈ passed_by x -> j ∈ passed_by y) ->
  (forall m w' x', master_of y = Some m -> workers s !! w' = Some x' -> master_of x' = Some m -> w' = w) ->
  worker_ok s y -> inv n (set_queues q (upd_worker w y s)).
Proof.
  intros Hinv Hw Hq Htok Hpass Hmaster Hok. set (s' := set_queues q (upd_worker w y s)).
  assert (forall j, past s j -> past s' j) as Hpast.
  { intros j [Hj|Hj]; [left|right; exact Hj]. by eapply passed_insert. }
  destruct Hinv. split; try done.
  - intros j. change (tokens s') with (concat q ++ (<[w := y]> (workers s) ≫= token_of)).
    specialize (iv_tokens0 j). unfold tokens in iv_tokens0. rewrite occ_app in *.
    pose proof (occ_bind_insert token_of _ _ _ y j Hw). specialize (Htok j). cbn. rewrite <-iv_tokens0. lia.
  - intros r j k Hj Hk. destruct (iv_jobs0 r j k Hj Hk) as [?|?]; [left; by apply Hpast|by right].
  - intros r j1 j2 k H1 H2 Hk1 Hk2. destruct (iv_unique0 r j1 j2 k H1 H2 Hk1 Hk2) as [?|[?|?]]; auto.
  - intros w' z Hz. apply lookup_insert_cases in Hz as [[-> ->]|[_ Hz]]; [exact Hok|by apply (iv_workers0 w')].
  - intros w1 w2 x1 x2 m H1 H2 Hm1 Hm2.
    apply lookup_insert_cases in H1 as [[-> ->]|[Hn1 H1]], H2 as [[-> ->]|[Hn2 H2]]; [done| | |by eapply iv_worker_masters0].
    + symmetry. by eapply Hmaster.
    + by eapply Hmaster.
Qed.
Lemma set_queues_same s : set_queues (queues s) s = s.
Proof. by destruct s. Qed.
Lemma inv_worker_only n s w x y : inv n s -> workers s !! w = Some x -> token_of y = token_of x ->
  (forall j, j ∈ passed_by x -> j ∈ passed_by y) ->
  (forall m w' x', master_of y = Some m -> workers s !! w' = Some x' -> master_of x' = Some m -> w' = w) ->
  worker_ok s y -> inv n (upd_worker w y s).
Proof.
  intros Hinv Hw Ht Hp Hm Hok. rewrite <-(set_queues_same (upd_worker w y s)).
  apply (inv_worker n s w x y); try done; [apply Hinv|]. intros j. by rewrite Ht.
Qed.

(** The counter [k] is decremented for the rank [r]: every job of the rank that
    would decrement it has done so. *)
Definition decrement (k : counter) (r : nat) (s : state) : state :=
  match k with
  | OfSync c => do_sync_job r c s
  | OfMaster m =>
      match table s m with
      | JobCallback c =>
          rank_done k r (set_table (<[m := JobCallback (set_cb_nr_ranks (u32 (cb_nr_ranks c - 1)) c)]> (table s)) s)
      | _ => s
      end
  end.

Lemma elem_of_remove (r x : nat) l : x ∈ List.remove Nat.eq_dec r l <-> x ∈ l /\ x <> r.
Proof.
  rewrite !list_elem_of_In. split; [apply in_remove|]. intros [H1 H2]. by apply in_in_remove.
Qed.
Lemma remove_NoDup (r : nat) l : r ∈ l -> NoDup l ->
  let l' := List.remove Nat.eq_dec r l in NoDup l' /\ lenz l' = lenz l - 1.
Proof.
  intros Hr Hnd. cbv zeta. split.
  - clear Hr. induction Hnd as [|y l Hy Hnd IH]; cbn; [constructor|]. destruct (Nat.eq_dec r y); [done|].
    constructor; [|done]. by intros [? _]%elem_of_remove.
  - induction Hnd as [|y l Hy Hnd IH]; [by apply not_elem_of_nil in Hr|]. cbn [List.remove].
    destruct (Nat.eq_dec r y) as [<-|Hne].
    + rewrite notin_remove by (intros ?%list_elem_of_In; done). unfold lenz. cbn. lia.
    + apply elem_of_cons in Hr as [?|Hr]; [done|]. specialize (IH Hr). unfold lenz in *. cbn. lia.
Qed.

Definition same_threads (s s' : state) : Prop :=
  ranks s' = ranks s /\ queues s' = queues s /\ workers s' = workers s /\ clients s' = clients s /\
  parked s' = parked s /\ masters s' = masters s /\ leaked s' = leaked s.
Definition same_but_count (x x' : job) : Prop :=
  x' = x \/ exists c v, x = JobCallback c /\ x' = JobCallback (set_cb_nr_ranks v c).
Record decremented (k : counter) (r : nat) (s s' : state) : Prop := {
  dc_same : same_threads s s';
  dc_todo : forall k', todo s' k' = if decide (k' = k) then List.remove Nat.eq_dec r (todo s k) else todo s k';
  dc_value : forall k', counter_value s' k' = if decide (k' = k) then counter_value s k - 1 else counter_value s k';
  dc_table : forall j, same_but_count (table s j) (table s' j);
}.

Lemma u32_pred x : 1 <= x < 2 ^ 32 -> u32 (x - 1) = x - 1.
Proof. intros Hx. apply u32_id. unfold fits. lia. Qed.
Lemma todo_positive n s k r : inv n s -> r ∈ todo s k -> 1 <= counter_value s k < 2 ^ 32.
Proof.
  intros Hinv Hr. destruct (iv_counters _ _ Hinv k) as (-> & _ & Hb). split; [|done].
  destruct (todo s k); [by apply not_elem_of_nil in Hr|]. unfold lenz. cbn. lia.
Qed.
Lemma decrement_spec n s k r : inv n s -> r ∈ todo s k -> decremented k r s (decrement k r s).
Proof.
  intros Hinv Hr. pose proof (todo_positive n s k r Hinv Hr) as Hv.
  destruct k as [c|m]; cbn [decrement].
  - split; [done| | |by left].
    + intros k'. cbn. rewrite fn_insert_eq. repeat case_decide; congruence.
    + intros k'. cbn in *. case_decide as Hk.
      * subst. cbn. rewrite fn_insert_eq, decide_True by done. cbn. by apply u32_pred.
      * destruct k' as [c'|]; cbn; [|done]. rewrite fn_insert_eq, decide_False by congruence. done.
  - cbn in Hv. destruct (table s m) as [|c|c] eqn:Hm; [lia..|]. split; [done| | |].
    + intros k'. cbn. rewrite fn_insert_eq. repeat case_decide; congruence.
    + intros k'. cbn in *. case_decide as Hk.
      * subst. cbn. rewrite fn_insert_eq, decide_True by done. rewrite Hm. cbn. by apply u32_pred.
      * destruct k' as [c'|m']; cbn; [done|]. rewrite fn_insert_eq, decide_False by congruence. done.
    + intros j. cbn. rewrite fn_insert_eq. case_decide as Hj; [|by left]. subst. right. rewrite Hm. by eauto.
Qed.

Lemma same_but_count_key j x x' : same_but_count x x' -> key_of j x' = key_of j x.
Proof. by intros [->|(c & v & -> & ->)]. Qed.
Lemma same_but_count_sync x x' c : same_but_count x x' -> x = JobSync c <-> x' = JobSync c.
Proof. by intros [->|(c' & v & -> & ->)]. Qed.
Lemma same_but_count_ready j x x' : same_but_count x x' -> content_ready j x -> content_ready j x'.
Proof.
  intros [->|(c & v & -> & ->)] Hr; [done|]. intros c' [= <-]. by apply (Hr c).
Qed.

Definition no_remaining (s : state) (k : counter) (r : nat) : Prop := forall c rq mo l p j,
  clients s !! c = Some (CAdd rq mo l) -> p ∈ l -> fst p = r -> j ∈ snd p -> key s j <> Some k.

Lemma inv_decrement n s k r : inv n s -> r ∈ todo s k ->
  (forall j, j ∈ jobs (ranks s r) -> key s j = Some k -> past s j) ->
  no_remaining s k r -> (forall c, k = OfSync c -> added s c r) ->
  (forall m c, k = OfMaster m -> table s m = JobCallback c -> is_nonblocking c = false -> m ∈ masters s ->
     List.remove Nat.eq_dec r (todo s k) <> [] -> parked s r = Some m) ->
  inv n (decrement k r s).
Proof.
  intros Hinv Hr Hpast Hrem Hadd Hpark. destruct (decrement_spec n s k r Hinv Hr) as [Hsame Htodo Hval Htab].
  generalize dependent (decrement k r s). intros s' (Er & Eq & Ew & Ec & Ep & Em & El) Htodo Hval Htab.
  assert (forall j, key s' j = key s j) as Hkey by (intros j; by apply same_but_count_key).
  assert (forall j, past s' j <-> past s j) as Hp by (intros j; unfold past, passed; by rewrite Ew, Ep, Er).
  assert (forall k' r', r' ∈ todo s k' -> (k' = k /\ r' = r) \/ r' ∈ todo s' k') as Hin.
  { intros k' r' Hr'. rewrite Htodo. case_decide as Hk; [subst k'|by right].
    destruct (decide (r' = r)) as [->|Hne]; [by left|right]. by apply elem_of_remove. }
  assert (forall m, todo s (OfMaster m) = [] -> todo s' (OfMaster m) = []) as Hnil.
  { intros m Hm. rewrite Htodo. case_decide as Hk; [|done]. by rewrite <-Hk, Hm. }
  assert (forall x, master_done s x -> master_done s' x) as Hmd.
  { intros x Hx m Hm. rewrite Em. destruct (Hx m Hm) as [? ?]. by auto. }
  assert (forall x, nobody_parked s x -> nobody_parked s' x) as Hnp by (intros x; unfold nobody_parked; by rewrite Ep).
  assert (forall j, not_sync s j -> not_sync s' j) as Hns.
  { intros j Hj c Hc. apply (Hj c). by apply (same_but_count_sync _ _ c (Htab j)). }
  assert (forall m r', r' ∈ todo s' (OfMaster m) -> r' ∈ todo s (OfMaster m)) as Hsub.
  { intros m r'. rewrite Htodo. case_decide as Hk; [|done]. rewrite <-Hk. by intros [? _]%elem_of_remove. }
  destruct Hinv. split.
  - by rewrite Eq.
  - by rewrite Er.
  - unfold held. by rewrite Er, Ec, Em, El.
  - by rewrite Er.
  - unfold tokens. by rewrite Eq, Ew, Ep, Er.
  - by rewrite Ep, Er, Em.
  - intros k'. rewrite Hval, Htodo. case_decide as Hk; [|by apply iv_counters0].
    destruct (iv_counters0 k) as (Hc & Hnd & Hb). destruct (remove_NoDup r _ Hr Hnd) as [? ->].
    split; [lia|]. split; [done|lia].
  - intros r' j k' Hj Hk'. rewrite Er in Hj. rewrite Hkey in Hk'. rewrite Hp.
    destruct (iv_jobs0 r' j k' Hj Hk') as [?|[Hr' Ho]]; [by left|].
    destruct (Hin _ _ Hr') as [[-> ->]|Hr'']; [left; by apply Hpast|right]. split; [done|].
    unfold owned, added in *. by rewrite Ec, Em.
  - intros r' j1 j2 k' H1 H2. rewrite Er in H1, H2. rewrite !Hkey, !Hp. by eapply iv_unique0.
  - intros r' j Hj. rewrite Er in Hj. apply (same_but_count_ready _ _ _ (Htab j)). by eapply iv_ready0.
  - intros m Hm. rewrite Em in Hm. destruct (iv_masters0 m Hm) as [c []].
    destruct (Htab m) as [Heq|(c0 & v & H0 & H0')].
    + exists c. split; try done; [by rewrite Heq| |by auto|by rewrite Ep]. intros Hb Hne r' Hr'. rewrite Ep.
      destruct (mo_parked0 Hb) with (r := r') as [Ht|?]; [intros H; by apply Hne, Hnil|done| |by right].
      destruct (Hin _ _ Ht) as [[<- ->]|?]; [|by left]. right. rewrite Htodo, decide_True in Hne by done. by eapply Hpark.
    + rewrite mo_table0 in H0. injection H0 as <-. exists (set_cb_nr_ranks v c). split; try done; [|by auto|by rewrite Ep].
      intros Hb Hne r' Hr'. rewrite Ep.
      destruct (mo_parked0 Hb) with (r := r') as [Ht|?]; [intros H; by apply Hne, Hnil|done| |by right].
      destruct (Hin _ _ Ht) as [[<- ->]|?]; [|by left]. right. rewrite Htodo, decide_True in Hne by done. by eapply Hpark.
  - intros c x Hc. rewrite Ec in Hc. specialize (iv_clients0 c x Hc). destruct x as [|rq got cur rest| |rq mo l|]; try done.
    + destruct iv_clients0 as (?&?&?&?&?&?&Ht). split_and!; try done. intros Hwt. rewrite Htodo. case_decide as Hk; [|by apply Ht].
      destruct (Hadd c) as [(? & Hc')|(? & ? & ? & Hc' & _)]; congruence.
    + destruct iv_clients0 as (?&?&Hl&Hm). split_and!; try done; [|by rewrite Em].
      intros p Hpl. destruct (Hl p Hpl). split; try done.
      * intros j Hj. apply (same_but_count_ready _ _ _ (Htab j)). by apply rm_ready0.
      * intros j k' Hj Hk'. rewrite (same_but_count_key j _ _ (Htab j)) in Hk'.
        destruct (Hin k' (fst p)) as [[-> Hf]|?]; [by eapply rm_todo0| |done]. by destruct (Hrem c rq mo l p j Hc Hpl Hf Hj).
      * intros j k' Hj Hk'. rewrite (same_but_count_key j _ _ (Htab j)) in Hk'. by eapply rm_key0.
      * intros j1 j2 k' H1 H2. rewrite (same_but_count_key j1 _ _ (Htab j1)), (same_but_count_key j2 _ _ (Htab j2)). by apply rm_unique0.
      * intros m Hmo. destruct (rm_master0 m Hmo) as (j & Hj & Ht). exists j. by rewrite (same_but_count_key j _ _ (Htab j)).
      * intros Hw. destruct (rm_sync0 Hw) as (j & Hj & Ht). exists j. split; [done|]. by apply (same_but_count_sync _ _ c (Htab j)).
  - rewrite Ec. done.
  - intros w x Hw. rewrite Ew in Hw. specialize (iv_workers0 w x Hw). destruct x as [| | |[]| | |]; cbn in *; try tauto; try by auto.
    + destruct iv_workers0 as (? & ? & Ha). by auto.
    + destruct iv_workers0 as (? & ? & Ha). split_and!; [by auto..|]. case_bool; [by rewrite Ep|by auto].
    + destruct iv_workers0 as (? & ? & Ha). by auto.
    + destruct iv_workers0 as (? & ? & Ha). split_and!; [by auto..|by rewrite Ep].
    + destruct iv_workers0 as (? & ? & Ha). split_and!; [by auto..|]. destruct job; by auto.
  - by rewrite Ew.
Qed.

(** The rank [r] has computed or dropped its jobs [j :: pre]: the queues and [y]
    have a token for the next one instead of the one of [x] for [j], and the rank
    is not parked any more. *)
Record advanced (s s' : state) (w : nat) (x y : worker) (r : nat) (j : job_id) (pre l : list job_id) (rk : rank_api) : Prop := {
  av_worker : workers s !! w = Some x;
  av_workers : workers s' = <[w := y]> (workers s);
  av_jobs : jobs (ranks s r) = j :: pre ++ l;
  av_ranks : ranks s' = <[r := rk]> (ranks s);
  av_rank : jobs rk = l /\ available_jobs rk = available_jobs (ranks s r) ++ j :: pre /\
    available_jobs_length rk = u32 (lenz (available_jobs rk));
  av_queues : length (queues s') = NR_QUEUES;
  av_tokens : forall j', (occ j' (concat (queues s')) + occ j' (token_of y) + (if parked s r then 0 else hit j j') =
    occ j' (concat (queues s)) + occ j' (token_of x) + occ j' (take 1 l))%nat;
  av_passed : forall j', j' <> j -> j' ∈ passed_by x -> j' ∈ passed_by y;
  av_parked : forall r', parked s' r' = if decide (r' = r) then None else parked s r';
  av_same : table s' = table s /\ syncs s' = syncs s /\ clients s' = clients s /\ todo s' = todo s /\
    masters s' = masters s /\ leaked s' = leaked s;
}.
Lemma inv_advance n s s' w x y r j pre l rk : Z.of_nat n < 2 ^ 32 -> inv n s -> advanced s s' w x y r j pre l rk ->
  (forall m, parked s r = Some m -> todo s (OfMaster m) = [] /\ master_of x = Some m) ->
  worker_ok s' y -> (master_of y = None \/ master_of y = master_of x) -> inv n s'.
Proof.
  intros Hn Hinv [Hw Hws Hj Hr (Hrj & Hra & Hrl) Hq Htok Hpass Hpark (Et & Es & Ec & Ed & Em & El)] Hunpark Hok Hmaster.
  assert (held s' = held s) as Hheld by (unfold held; by rewrite Ec, Em, El).
  assert (fst j = r) as Hjr by (apply (jobs_home Hinv); rewrite Hj; by left).
  assert (forall j', fst j' <> r -> hit j j' = 0%nat) as Hhit by (intros j' Hne; apply hit_ne; congruence).
  destruct (lists_upd n s s' r _ Hn Hinv Hr) as (Hhome & Hslots & Hlens).
  { intros j' Hne. cbn. destruct (iv_home _ _ Hinv r j' Hne) as [H1 H2]. rewrite Hj in H2.
    rewrite Hrj, Hra, ?occ_app, ?occ_cons, ?occ_app, ?occ_nil in *. rewrite Hheld, (Hhit _ Hne) in *. lia. }
  { intros j' _. rewrite Hheld, Hj, Hrj, Hra, !occ_app, !occ_cons, !occ_app. lia. }
  { done. }
  assert (forall r', r' <> r -> ranks s' r' = ranks s r') as Hother by (intros r' Hne; rewrite Hr; by apply fn_lookup_insert_ne).
  assert (jobs (ranks s' r) = l) as Hl by (by rewrite Hr, fn_lookup_insert).
  assert (forall j', j' ∈ l -> j' ∈ jobs (ranks s r) /\ ~ past s j') as Hlast.
  { intros j' Hin. assert (j' ∈ jobs (ranks s r)) as Hin' by (rewrite Hj, app_comm_cons; apply elem_of_app; by right). split; [done|]. intros Hp.
    pose proof (past_head Hinv _ _ Hin' Hp) as Hh. pose proof (jobs_home Hinv _ _ Hin'). subst r.
    replace (fst j') with (fst j) in Hh by congruence. rewrite Hj in Hh. injection Hh as <-.
    pose proof (slots_one Hinv j) as H1. rewrite Hj, occ_cons, occ_app, hit_eq in H1. apply occ_pos in Hin. lia. }
  assert (forall r' j', j' ∈ jobs (ranks s' r') -> j' ∈ jobs (ranks s r') /\ (past s j' -> past s' j')) as Hpast.
  { intros r' j' Hin. destruct (decide (r' = r)) as [->|Hne].
    - rewrite Hl in Hin. destruct (Hlast _ Hin). by split.
    - rewrite Hother in Hin by done. split; [done|]. pose proof (jobs_home Hinv _ _ Hin) as Hf.
      intros [Hp|Hp]; [left|right].
      + apply list_elem_of_bind in Hp as (z & Hz & [i Hi]%list_elem_of_lookup).
        unfold passed. rewrite Hws. apply list_elem_of_bind. destruct (decide (w = i)) as [<-|Hwi].
        * rewrite Hw in Hi. injection Hi as <-. exists y. split; [apply Hpass; [congruence|done]|].
          apply list_elem_of_lookup. exists w. apply list_lookup_insert_eq. by eapply lookup_lt_Some.
        * exists z. split; [done|]. apply list_elem_of_lookup. exists i. by rewrite list_lookup_insert_ne.
      + rewrite Hpark, decide_False, Hother by congruence. done. }
  destruct Hinv. split; try done.
  - intros j'. unfold tokens. rewrite Hpark, occ_app, Hws. specialize (iv_tokens0 j').
    unfold tokens in iv_tokens0. rewrite occ_app in iv_tokens0.
    pose proof (occ_bind_insert token_of _ _ _ y j' Hw) as Hi. specialize (Htok j'). case_decide as Hd.
    + rewrite Hd in *. rewrite Hl. rewrite Hj in iv_tokens0. destruct (parked s r).
      * lia.
      * cbn [take] in iv_tokens0. rewrite occ_cons, take_0, occ_nil in iv_tokens0. lia.
    + rewrite Hother by done. rewrite <-iv_tokens0. rewrite (Hhit j') in Htok by done.
      assert (occ j' (take 1 l) = 0%nat) as H0.
      { destruct (iv_home0 r j' Hd) as [_ H2]. rewrite Hj, occ_cons, occ_app in H2. pose proof (occ_take j' 1 l). lia. }
      destruct (parked s r); lia.
  - intros r' m Hp. rewrite Hpark in Hp. case_decide; [done|]. rewrite Hother, Em by done. by apply iv_parked0.
  - intros k. rewrite Ed. replace (counter_value s' k) with (counter_value s k); [done|]. destruct k; cbn; by rewrite ?Es, ?Et.
  - intros r' j' k Hin Hk. destruct (Hpast _ _ Hin) as [Hin' Hp]. unfold key in Hk. rewrite Et in Hk.
    destruct (iv_jobs0 r' j' k Hin' Hk) as [?|?]; [left; by apply Hp|right]. unfold owned, added in *. by rewrite Ed, Ec, Em.
  - intros r' j1 j2 k H1 H2 Hk1 Hk2. destruct (Hpast _ _ H1) as [H1' Hp1], (Hpast _ _ H2) as [H2' Hp2].
    unfold key in *. rewrite Et in *. destruct (iv_unique0 r' j1 j2 k H1' H2' Hk1 Hk2) as [?|[?|?]]; auto.
  - intros r' j' Hin. destruct (Hpast _ _ Hin) as [Hin' _]. rewrite Et. by apply (iv_ready0 r').
  - intros m Hm. rewrite Em in Hm. destruct (iv_masters0 m Hm) as [c []]. exists c. rewrite Et, Ed. split; try done.
    2: { intros r' Hp. rewrite Hpark in Hp. case_decide; [done|by apply mo_in0]. }
    intros Hb Hne r' Hr'. rewrite Hpark. destruct (mo_parked0 Hb Hne r' Hr') as [?|Hp]; [by left|]. right.
    case_decide as Hd; [|done]. subst r'. destruct (Hunpark _ Hp). done.
  - intros c z Hc. rewrite Ec in Hc. specialize (iv_clients0 c z Hc). unfold client_ok in *. by rewrite Et, Ed, Em.
  - by rewrite Ec.
  - intros w' z Hz. rewrite Hws in Hz. apply lookup_insert_cases in Hz as [[-> ->]|[Hne Hz]]; [done|].
    specialize (iv_workers0 w' z Hz).
    assert (forall mo, master_done s mo -> master_done s' mo) as Hmd by (intros mo; unfold master_done; by rewrite Ed, Em).
    assert (forall j' mo rs, master_of z = mo -> all_parked (parked s) j' mo rs -> all_parked (parked s') j' mo rs) as Hap.
    { intros j' mo rs Hmo [[m Hsome] Hnd Hp Ho]. split; [by exists m|done| |].
      - intros r' Hr' Hne'. rewrite Hpark. specialize (Hp r' Hr' Hne'). case_decide as Hd; [|done]. subst r'.
        destruct (Hunpark m) as [_ Hx]; [congruence|]. destruct Hne. eapply iv_worker_masters0; [done..| |done]. congruence.
      - intros r' Hr'. rewrite Hpark in Hr'. case_decide; [congruence|by apply Ho]. }
    assert (forall mo, nobody_parked s mo -> nobody_parked s' mo) as Hnp.
    { intros mo Hp m r' Hm. rewrite Hpark. case_decide; [done|by apply Hp]. }
    assert (forall j, not_sync s j -> not_sync s' j) as Hns by (intros j'; unfold not_sync; by rewrite Et).
    destruct z as [| | |[]| | |]; cbn in *; try tauto; try by auto.
    + destruct iv_workers0 as (? & ? & ?). by auto.
    + destruct iv_workers0 as (? & ? & Ha). split_and!; [by auto..|]. case_bool; [by apply Hap|by apply Hnp].
    + destruct iv_workers0 as (? & ? & ?). by auto.
    + destruct iv_workers0 as (? & ? & ?). by auto.
    + destruct iv_workers0 as (? & ? & ?). split_and!; [by auto..|]. destruct job; by auto.
  - intros w1 w2 x1 x2 m H1 H2 Hm1 Hm2. rewrite Hws in *.
    apply lookup_insert_cases in H1 as [[-> ->]|[Hn1 H1]], H2 as [[-> ->]|[Hn2 H2]]; [done| | |by eapply iv_worker_masters0].
    + destruct Hmaster as [Hmaster|Hmaster]; rewrite Hmaster in Hm1; [done|]. by eapply iv_worker_masters0.
    + destruct Hmaster as [Hmaster|Hmaster]; rewrite Hmaster in Hm2; [done|]. by eapply iv_worker_masters0.
Qed.

(** A worker leaves its rank, whose job waits for the other ranks of its callback. *)
Lemma inv_park n s w j m c : inv n s -> workers s !! w = Some (WCompute j) -> m ∈ masters s ->
  table s m = JobCallback c -> fst j ∈ todo s (OfMaster m) -> is_nonblocking c = false ->
  inv n (upd_worker w WIdle (upd_parked (fst j) (Some m) s)).
Proof.
  intros Hinv Hw Hm Hc Htodo Hb. set (s' := upd_worker w WIdle (upd_parked (fst j) (Some m) s)).
  destruct (token_head Hinv w _ j Hw ltac:(by left)) as [Hnone [l Hl]].
  assert (forall r, parked s' r = if decide (fst j = r) then Some m else parked s r) as Hpark by done.
  assert (forall w' x, workers s !! w' = Some x -> master_done s (Some m) -> False) as Hno.
  { intros w' x _ Hd. destruct (Hd m eq_refl) as [_ Ht]. rewrite Ht in Htodo. by apply not_elem_of_nil in Htodo. }
  assert (forall j', past s j' -> past s' j') as Hpast.
  { intros j' [Hp|[Hp Hh]]; [left|right].
    - by eapply passed_insert.
    - rewrite Hpark. split; [by case_decide|done]. }
  assert (forall x, nobody_parked s x -> x <> Some m -> nobody_parked s' x) as Hnp.
  { intros x Hx Hne m' r Hm'. rewrite Hpark. case_decide; [congruence|by apply Hx]. }
  assert (forall j' x rs, all_parked (parked s) j' x rs -> x <> Some m -> all_parked (parked s') j' x rs) as Hap.
  { intros j' x rs [[m' ->] Hnd Hp Ho] Hne. split; [by eexists|done| |].
    - intros r Hr Hrj. rewrite Hpark. specialize (Hp r Hr Hrj). case_decide; congruence.
    - intros r. rewrite Hpark. case_decide; [congruence|apply Ho]. }
  assert (forall mo, master_done s mo -> mo <> Some m) as Hne by (intros mo Hmo ->; by eapply Hno).
  destruct Hinv. split; try done.
  - intros j'. change (tokens s') with (concat (queues s) ++ (<[w := WIdle]> (workers s) ≫= token_of)).
    specialize (iv_tokens0 j'). unfold tokens in iv_tokens0. rewrite occ_app in *.
    pose proof (occ_bind_insert token_of _ _ _ WIdle j' Hw) as Hi. cbn [token_of passed_by] in Hi.
    rewrite occ_cons, !occ_nil in Hi. rewrite Hpark. change (ranks s') with (ranks s). case_decide as Hd.
    + rewrite <-Hd, Hnone, Hl in iv_tokens0. cbn [take] in iv_tokens0. rewrite occ_cons, take_0, occ_nil in iv_tokens0. lia.
    + rewrite hit_ne in Hi by congruence. rewrite <-iv_tokens0. lia.
  - intros r m' Hp. rewrite Hpark in Hp. case_decide as Hd; [|by apply iv_parked0]. injection Hp as <-. subst r.
    split; [|done]. change (ranks s') with (ranks s). by rewrite Hl.
  - intros r j' k Hj' Hk. destruct (iv_jobs0 r j' k Hj' Hk) as [?|?]; [left; by apply Hpast|by right].
  - intros r j1 j2 k H1 H2 Hk1 Hk2. destruct (iv_unique0 r j1 j2 k H1 H2 Hk1 Hk2) as [?|[?|?]]; auto.
  - intros m' Hm'. destruct (iv_masters0 m' Hm') as [c' []]. exists c'. split; try done.
    + intros Hb' Hne' r Hr. rewrite Hpark. destruct (mo_parked0 Hb' Hne' r Hr) as [?|Hp]; [by left|right].
      case_decide; [congruence|done].
    + intros r. rewrite Hpark. case_decide as Hd; [|apply mo_in0]. intros [= <-]. subst r.
      split; [by apply mo_todo0|congruence].
  - intros w' z Hz. apply lookup_insert_cases in Hz as [[-> ->]|[_ Hz]]; [done|].
    specialize (iv_workers0 w' z Hz). destruct z as [| | |[]| | |]; cbn in *; try tauto.
    + destruct iv_workers0 as (? & ? & Ha). by auto.
    + destruct iv_workers0 as (? & ? & Ha). split_and!; [done..|]. case_bool; by auto.
    + destruct iv_workers0 as (? & ? & Ha). by auto.
    + destruct iv_workers0 as (? & ? & Ha). by auto.
    + destruct iv_workers0 as (? & ? & Ha). split_and!; [done| |by destruct job]. by auto.
  - intros w1 w2 x1 x2 m' H1 H2 Hm1 Hm2.
    apply lookup_insert_cases in H1 as [[-> ->]|[Hn1 H1]], H2 as [[-> ->]|[Hn2 H2]]; [done..|by eapply iv_worker_masters0].
Qed.

(** The slot of a master goes back to its owner. *)
Lemma inv_release n s w x y m c : Z.of_nat n < 2 ^ 32 -> inv n s -> workers s !! w = Some x ->
  master_of x = Some m -> worker_ok s x -> nobody_parked s (Some m) -> table s m = JobCallback c ->
  token_of y = token_of x -> (forall j, j ∈ passed_by x -> j ∈ passed_by y) -> master_of y = None -> worker_ok s y ->
  let owner := slot_owner c in
  inv n (upd_worker w y (set_masters (List.remove (prod_eq_dec (A := nat) (B := nat)) m (masters s))
    (upd_rank owner (dpu_thread_release_job_slot_unlocked m (ranks s owner)) s))).
Proof.
  intros Hn Hinv Hw Hmx Hokx Hnp Hc Htok Hpass Hmy Hoky. cbv zeta.
  assert (m ∈ masters s /\ todo s (OfMaster m) = []) as [Hm Htodo].
  { destruct x as [| | |[]| | |]; cbn in Hmx; try done; cbn in Hokx; by apply Hokx. }
  destruct (iv_masters _ _ Hinv m Hm) as [c' Hmo]. pose proof (mo_table _ _ _ _ _ Hmo) as Hc'. rewrite Hc in Hc'.
  injection Hc' as <-. rewrite (mo_owner _ _ _ _ _ Hmo).
  set (s' := upd_worker w y _).
  assert (forall j, (occ j (held s') + hit m j = occ j (held s))%nat) as Hheld.
  { intros j. pose proof (occ_remove j m (masters s) Hm (masters_NoDup Hinv)) as H. unfold held in *.
    change (masters s') with (List.remove (prod_eq_dec (A := nat) (B := nat)) m (masters s)).
    change (clients s') with (clients s). change (leaked s') with (leaked s). rewrite !occ_app in *. lia. }
  assert (forall m', m' ∈ masters s' -> m' ∈ masters s) as Hsub.
  { intros m' Hm'. apply list_elem_of_In in Hm'. apply in_remove in Hm' as [? _]. by apply list_elem_of_In. }
  assert (forall m', m' ∈ masters s -> m' <> m -> m' ∈ masters s') as Hsub'.
  { intros m' Hm' Hne. apply list_elem_of_In. apply in_in_remove; [done|by apply list_elem_of_In]. }
  set (rk := dpu_thread_release_job_slot_unlocked m (ranks s (fst m))).
  destruct (lists_upd n s s' (fst m) rk Hn Hinv eq_refl) as (Hhome & Hslots & Hlens).
  { intros j Hne. specialize (Hheld j). rewrite hit_ne in Hheld by congruence.
    destruct (iv_home _ _ Hinv _ _ Hne) as [H1 H2]. change (jobs rk) with (jobs (ranks s (fst m))).
    change (available_jobs rk) with (available_jobs (ranks s (fst m)) ++ [m]).
    rewrite occ_app, occ_cons, occ_nil, hit_ne by congruence. lia. }
  { intros j Hj. specialize (Hheld j). change (jobs rk) with (jobs (ranks s (fst m))).
    change (available_jobs rk) with (available_jobs (ranks s (fst m)) ++ [m]). rewrite occ_app, occ_cons, occ_nil. lia. }
  { cbn. rewrite (iv_lengths _ _ Hinv). f_equal. unfold lenz. rewrite length_app. cbn. lia. }
  assert (forall r, jobs (ranks s' r) = jobs (ranks s r)) as Hjobs.
  { intros r. cbn. rewrite fn_insert_eq. case_decide; [by subst|done]. }
  assert (forall j, past s j -> past s' j) as Hpast.
  { intros j [Hp|Hp]; [left; by eapply passed_insert|right]. by rewrite Hjobs. }
  destruct Hinv. split; try done.
  - intros j. change (tokens s') with (concat (queues s) ++ (<[w := y]> (workers s) ≫= token_of)).
    specialize (iv_tokens0 j). unfold tokens in iv_tokens0. rewrite occ_app in *. pose proof (occ_bind_insert token_of _ _ _ y j Hw) as Hocc.
    rewrite Htok in Hocc. rewrite Hjobs. change (parked s') with (parked s). rewrite <-iv_tokens0. lia.
  - intros r m' Hp. rewrite Hjobs. destruct (iv_parked0 r m' Hp) as [? Hm']. split; [done|].
    apply Hsub'; [done|]. intros ->. by apply (Hnp m r).
  - intros r j k Hj Hk. rewrite Hjobs in Hj. destruct (iv_jobs0 r j k Hj Hk) as [?|[Ht Ho]]; [left; by apply Hpast|right].
    split; [done|]. destruct k as [c'|m']; [done|]. destruct Ho as [->|[Hm' Ho]]; [by left|right]. split; [|done].
    apply Hsub'; [done|]. intros ->. rewrite Htodo in Ht. by apply not_elem_of_nil in Ht.
  - intros r j1 j2 k H1 H2 Hk1 Hk2. rewrite Hjobs in *. destruct (iv_unique0 r j1 j2 k H1 H2 Hk1 Hk2) as [?|[?|?]]; auto.
  - intros r j Hj. rewrite Hjobs in Hj. by apply (iv_ready0 r).
  - intros m' Hm'. apply Hsub in Hm'. by apply iv_masters0.
  - intros c' z Hz. specialize (iv_clients0 c' z Hz). destruct z as [| | |rq mo rem|]; try done.
    destruct iv_clients0 as (? & ? & Hrem & Hmas). split_and!; try done. intros m' -> Hne. apply Hsub'; [by apply Hmas|].
    intros ->. destruct rem as [|p rem]; [done|]. specialize (Hrem p ltac:(by left)).
    destruct (rm_master _ _ _ _ _ _ Hrem m eq_refl) as (j & Hj & Hk). pose proof (rm_todo _ _ _ _ _ _ Hrem j _ Hj Hk) as Ht.
    rewrite Htodo in Ht. by apply not_elem_of_nil in Ht.
  - intros w' z Hz. apply lookup_insert_cases in Hz as [[-> ->]|[Hne Hz]].
    + destruct y as [| | |[]| | |]; cbn in *; subst; try done; destruct Hoky as (? & ? & ?); split_and!; try done; by intros ? [=].
    + assert (forall mo, master_of z = mo -> master_done s mo -> master_done s' mo) as Hmd.
      { intros mo Hmo' Hd m' ->. destruct (Hd m' eq_refl). split; [|done]. apply Hsub'; [done|]. intros ->.
        destruct Hne. by eapply iv_worker_masters0. }
      specialize (iv_workers0 w' z Hz). destruct z as [| | |[]| | |]; cbn in *; try done;
        destruct iv_workers0 as (? & ? & ?); split_and!; by auto.
  - intros w1 w2 x1 x2 m' H1 H2 Hm1 Hm2.
    apply lookup_insert_cases in H1 as [[-> ->]|[Hn1 H1]], H2 as [[-> ->]|[Hn2 H2]]; [congruence..|by eapply iv_worker_masters0].
Qed.

(** The clients have no job left that decrements the counter for the rank of a
    job that has been added. *)
Lemma owned_no_remaining n s k j r : inv n s -> j ∈ jobs (ranks s r) -> key s j = Some k -> owned s k j r ->
  no_remaining s k r.
Proof.
  intros Hinv Hj Hk Ho c rq mo l p j' Hc Hp Hr Hj' Hk'.
  assert (r ∈ l.*1) as Hrl by (rewrite <-Hr; by apply list_elem_of_fmap_2).
  destruct (iv_clients _ _ Hinv c _ Hc) as (_ & _ & Hl & _). specialize (Hl p Hp).
  assert (j' ∈ held_by (CAdd rq mo l)) as Hheld by (by eapply remaining_held).
  destruct (rm_key _ _ _ _ _ _ Hl j' k Hj' Hk') as [[-> _]|[->|(m & -> & ->)]].
  - destruct Ho as [(rq' & Hc')|(rq' & m & l' & Hc' & _ & Hn)]; rewrite Hc in Hc'; [done|]. injection Hc' as <- <- <-. done.
  - destruct Ho as [->|[Hm _]].
    + by eapply (jobs_not_held Hinv), held_client.
    + by eapply (client_not_master Hinv).
  - destruct Ho as [->|[_ Ho]]; [|by eapply Ho].
    eapply (jobs_not_held Hinv); [exact Hj|]. apply held_master.
    destruct (iv_clients _ _ Hinv c _ Hc) as (_ & _ & _ & Hm). apply Hm; [done|]. intros ->. by apply not_elem_of_nil in Hp.
Qed.

Lemma inv_sync_status n s c x : inv n s -> nr_ranks x = nr_ranks (syncs s c) -> inv n (upd_sync c x s).
Proof.
  intros [] Hx. split; try done. intros k. destruct (iv_counters0 k) as [Hv ?]. split; [|done]. change (counter_value (upd_sync c x s) k = lenz (todo s k)). rewrite <-Hv.
  destruct k as [c'|m]; [|done]. cbn. rewrite fn_insert_eq. case_decide; [by subst|done].
Qed.

Lemma inv_notify n r status l s : inv n s -> NoDup l -> jobs (ranks s r) = [] ->
  (forall j c, j ∈ l -> table s j = JobSync c ->
     r ∈ todo s (OfSync c) /\ no_remaining s (OfSync c) r /\ added s c r /\
     forall j', j' ∈ l -> table s j' = JobSync c -> j' = j) ->
  inv n (foldl (notify_sync r status) s l).
Proof.
  intros Hinv Hnd. revert s Hinv. induction Hnd as [|j l Hj Hnd IH]; intros s Hinv Hjobs Hl; [done|]. cbn [foldl].
  unfold notify_sync at 2. destruct (table s j) as [|c|] eqn:Ht.
  - apply IH; [done..|]. intros j' c' Hj' Ht'. destruct (Hl j' c' ltac:(by right) Ht') as (? & ? & ? & Hu).
    split_and!; try done. intros j2 Hj2. apply Hu. by right.
  - destruct (Hl j c ltac:(by left) Ht) as (Hr & Hrem & Hadd & Huniq).
    set (x := if sync_status (syncs s c) =? DPU_OK then _ else _).
    assert (inv n (upd_sync c x s)) as H1 by (apply inv_sync_status; [done|]; unfold x; by case_bool).
    change (do_sync_job r c (upd_sync c x s)) with (decrement (OfSync c) r (upd_sync c x s)).
    apply IH.
    + apply inv_decrement; try done.
      * intros j' Hj'. change (ranks (upd_sync c x s)) with (ranks s) in Hj'. rewrite Hjobs in Hj'. by apply not_elem_of_nil in Hj'.
      * by intros c' [= <-].
    + done.
    + intros j' c' Hj' Ht'. change (table s j' = JobSync c') in Ht'.
      destruct (Hl j' c' ltac:(by right) Ht') as (Hr' & Hrem' & Hadd' & Hu). split_and!; try done.
      * cbn. rewrite fn_insert_eq, decide_False; [done|]. intros [= ->]. rewrite (Huniq j' ltac:(by right) Ht') in Hj'. done.
      * intros j2 Hj2. apply Hu. by right.
  - apply IH; [done..|]. intros j' c' Hj' Ht'. destruct (Hl j' c' ltac:(by right) Ht') as (? & ? & ? & Hu).
    split_and!; try done. intros j2 Hj2. apply Hu. by right.
Qed.

Lemma notify_commutes r status w y rank rk l s :
  upd_worker w y (upd_rank rank rk (foldl (notify_sync r status) s l)) =
  foldl (notify_sync r status) (upd_worker w y (upd_rank rank rk s)) l.
Proof.
  revert s. induction l as [|j l IH]; intros s; [done|]. cbn [foldl]. rewrite IH. f_equal.
  unfold notify_sync. change (table (upd_worker w y (upd_rank rank rk s))) with (table s). by destruct (table s j).
Qed.
Lemma notify_ranks r status l s : ranks (foldl (notify_sync r status) s l) = ranks s.
Proof.
  revert s. induction l as [|j l IH]; intros s; [done|]. cbn [foldl]. rewrite IH. unfold notify_sync. by destruct (table s j).
Qed.
Lemma release_all l x : available_jobs_length x = u32 (lenz (available_jobs x)) ->
  let x' := foldl (fun r job => dpu_thread_release_job_slot_unlocked job r) x l in
  jobs x' = jobs x /\ available_jobs x' = available_jobs x ++ l /\ available_jobs_length x' = u32 (lenz (available_jobs x')).
Proof.
  cbv zeta. revert x. induction l as [|j l IH]; intros x Hx; cbn [foldl]; [by rewrite app_nil_r|].
  destruct (IH (dpu_thread_release_job_slot_unlocked j x)) as (-> & -> & ->).
  - cbn. rewrite Hx. unfold u32, lenz. rewrite length_app. cbn [length]. rewrite Z.add_mod_idemp_l by done. f_equal. lia.
  - cbn. rewrite <-app_assoc. done.
Qed.
Lemma jobs_NoDup n s r : inv n s -> NoDup (jobs (ranks s r)).
Proof.
  intros Hinv. apply (NoDup_occ (jobs (ranks s r))). intros j. destruct (decide (fst j = r)) as [<-|Hne].
  - pose proof (slots_one Hinv j). lia.
  - rewrite (proj2 (iv_home _ _ Hinv r j Hne)). lia.
Qed.
