(* ===== verification/ThreadJobWorkers.v ===== *)
(** * The workers keep the invariant

    Every critical section of a worker of ThreadJob.v keeps the invariant of
    ThreadJobInv.v, that of a callback case by case. *)

From S2P Require Import Prelude ThreadJob ThreadJobInv.
From stdpp Require Import functions.

#[local] Open Scope Z_scope.
#[local] Open Scope dpu_scope.

(** ** The actions of the workers *)

Section Steps.
Context (queue_idx worker_queue : nat -> nat) (n : nat).
Context (Hqueue : forall r, (queue_idx r < NR_QUEUES)%nat) (Hn : Z.of_nat n < 2 ^ 32).

Lemma parked_none s r r' : parked s r = None -> parked s r' = if decide (r' = r) then None else parked s r'.
Proof using. intros H. case_decide; [by subst|done]. Qed.

(** A worker drops all the jobs of its rank, or goes to the next one. *)
Lemma inv_drop s w j l x rk : inv n s -> workers s !! w = Some x -> token_of x = [j] ->
  jobs (ranks s (fst j)) = j :: l -> jobs rk = [] -> available_jobs rk = available_jobs (ranks s (fst j)) ++ j :: l ->
  available_jobs_length rk = u32 (lenz (available_jobs rk)) -> inv n (upd_worker w WIdle (upd_rank (fst j) rk s)).
Proof using Hn.
  intros Hinv Hw Ht Hl H1 H2 H3. destruct (token_head Hinv w x j Hw ltac:(rewrite Ht; by left)) as [Hp _].
  apply (inv_advance n s _ w x WIdle (fst j) j l [] rk Hn Hinv); [|congruence|done|by left].
  split; try done; [by rewrite app_nil_r|by apply Hinv| |intros j' Hne Hj'|by intros r'; apply (parked_none s)].
  - intros j'. rewrite Hp, Ht. cbn. rewrite !occ_cons, !occ_nil. lia.
  - apply passed_token in Hj'. rewrite Ht in Hj'. by apply list_elem_of_singleton in Hj'.
Qed.
Lemma inv_next s w x y j l : inv n s -> workers s !! w = Some x -> token_of x = [j] ->
  jobs (ranks s (fst j)) = j :: l -> token_of y = option_list (head l) -> passed_by y = [] -> master_of y = None ->
  (forall s', worker_ok s' y) ->
  inv n (upd_worker w y (upd_rank (fst j) (dpu_thread_release_job_slot_unlocked j (set_jobs l (ranks s (fst j)))) s)).
Proof using Hn.
  intros Hinv Hw Ht Hl Hy Hpy Hmy Hok. destruct (token_head Hinv w x j Hw ltac:(rewrite Ht; by left)) as [Hp _].
  eapply (inv_advance n s _ w x y (fst j) j [] l _ Hn Hinv); [|congruence|done|by left].
  split; try done; [|by apply Hinv| |intros j' Hne Hj'|by intros r'; apply (parked_none s)].
  - split_and!; [done..|]. cbn. rewrite (iv_lengths _ _ Hinv). f_equal. unfold lenz. rewrite length_app. cbn. lia.
  - intros j'. rewrite Hp, Ht, Hy, !occ_cons, !occ_nil. cbn. destruct l; cbn; rewrite ?take_0, ?occ_cons, ?occ_nil; lia.
  - apply passed_token in Hj'. rewrite Ht in Hj'. by apply list_elem_of_singleton in Hj'.
Qed.

Lemma advance_ok r rk next : dpu_thread_advance_to_next_job r = Some (rk, next) ->
  exists j l, jobs r = j :: l /\ rk = dpu_thread_release_job_slot_unlocked j (set_jobs l r) /\ next = head l.
Proof using.
  unfold dpu_thread_advance_to_next_job, dpu_thread_job_pop_unlocked. destruct (jobs r) as [|j l]; [done|]. cbn.
  intros [= <- <-]. by exists j, l.
Qed.

(** What is known of the jobs behind the head. *)
Lemma behind_head s r j l j' k : inv n s -> jobs (ranks s r) = j :: l -> j' ∈ l -> key s j' = Some k ->
  ~ past s j' /\ r ∈ todo s k /\ owned s k j' r /\ no_remaining s k r.
Proof using.
  intros Hinv Hl Hj' Hk. assert (j' ∈ jobs (ranks s r)) as Hin by (rewrite Hl; by right).
  assert (~ past s j') as Hp.
  { intros Hp. pose proof (past_head Hinv _ _ Hin Hp) as Hh. rewrite (jobs_home Hinv _ _ Hin), Hl in Hh. injection Hh as ->.
    pose proof (jobs_NoDup n s r Hinv) as Hnd. rewrite Hl in Hnd. by apply list_relations.list.NoDup_cons in Hnd as [? _]. }
  destruct (iv_jobs _ _ Hinv r j' k Hin Hk) as [?|[? Ho]]; [done|]. split_and!; try done. by eapply owned_no_remaining.
Qed.

Lemma inv_after_job s w j status s' : inv n s -> workers s !! w = Some (WDone j status) ->
  after_job w j status s = Some s' -> inv n s'.
Proof using Hn.
  intros Hinv Hw. destruct (token_head Hinv w _ j Hw ltac:(by left)) as [Hp [l Hl]]. unfold after_job.
  destruct (Z.eqb_spec status DPU_OK) as [->|Hst]; cbn [negb].
  - destruct (dpu_thread_advance_to_next_job _) as [[rk next]|] eqn:Ha; [|done]. cbn. intros [= <-].
    apply advance_ok in Ha as (j' & l' & Hl' & -> & ->). rewrite Hl in Hl'. injection Hl' as <- <-.
    apply (inv_next s w (WDone j DPU_OK)); try done; by destruct l.
  - intros [= <-]. unfold dpu_thread_update_status. cbv zeta. rewrite !notify_ranks, notify_commutes.
    set (st := async_status _ _). set (x := set_job_error st (ranks s (fst j))).
    destruct (release_all (jobs (ranks s (fst j))) (set_jobs [] x)) as (R1 & R2 & R3).
    { cbn. rewrite (iv_lengths _ _ Hinv). symmetry. apply u32_id. unfold fits.
      pose proof (available_short n s (fst j) (iv_home _ _ Hinv) (iv_slots _ _ Hinv)). unfold lenz in *. lia. }
    set (rk := foldl _ _ _) in *.
    assert (inv n (upd_worker w WIdle (upd_rank (fst j) rk s))) as H1.
    { apply (inv_drop s w j l (WDone j status)); try done. by rewrite R2, Hl. }
    apply inv_notify; [done|by eapply jobs_NoDup|cbn; by rewrite fn_insert_eq, decide_True|].
    pose proof (iv_workers _ _ Hinv w _ Hw) as Hns. cbn in Hns. specialize (Hns Hst).
    intros j' c Hj' Ht. change (table s j' = JobSync c) in Ht. rewrite Hl in Hj'. apply elem_of_cons in Hj' as [->|Hj']; [by destruct (Hns c)|].
    assert (key s j' = Some (OfSync c)) as Hk by (unfold key; by rewrite Ht).
    destruct (behind_head s (fst j) j l j' _ Hinv Hl Hj' Hk) as (Hnp & Hr & Ho & Hrem). split_and!; try done.
    intros j2 Hj2 Ht2. change (table s j2 = JobSync c) in Ht2. rewrite Hl in Hj2. apply elem_of_cons in Hj2 as [->|Hj2]; [by destruct (Hns c)|].
    assert (key s j2 = Some (OfSync c)) as Hk2 by (unfold key; by rewrite Ht2).
    destruct (behind_head s (fst j) j l j2 _ Hinv Hl Hj2 Hk2) as (Hnp2 & _).
    destruct (iv_unique _ _ Hinv (fst j) j2 j' (OfSync c)) as [?|[?|?]]; try done; rewrite Hl; by right.
Qed.

Lemma upd_worker_twice w x y s : upd_worker w y (upd_worker w x s) = upd_worker w y s.
Proof using. unfold upd_worker. cbn. by rewrite list_insert_insert_eq. Qed.

(** The job that is computed: its counter is still to be decremented. *)
Lemma compute_key s w j k : inv n s -> workers s !! w = Some (WCompute j) -> key s j = Some k ->
  fst j ∈ todo s k /\ owned s k j (fst j) /\ no_remaining s k (fst j) /\
  (forall j', j' ∈ jobs (ranks s (fst j)) -> key s j' = Some k -> j' = j) /\
  (forall w' x m, k = OfMaster m -> workers s !! w' = Some x -> master_of x <> Some m).
Proof using.
  intros Hinv Hw Hk. destruct (token_head Hinv w _ j Hw ltac:(by left)) as [_ [l Hl]].
  assert (j ∈ jobs (ranks s (fst j))) as Hin by (rewrite Hl; by left).
  pose proof (compute_not_past Hinv w j Hw) as Hnp.
  destruct (iv_jobs _ _ Hinv (fst j) j k Hin Hk) as [?|[Hr Ho]]; [done|]. split_and!; try done.
  - by eapply owned_no_remaining.
  - intros j' Hj' Hk'. rewrite Hl in Hj'. apply elem_of_cons in Hj' as [|Hj']; [done|].
    destruct (behind_head s (fst j) j l j' k Hinv Hl Hj' Hk') as (Hnp' & _).
    destruct (iv_unique _ _ Hinv (fst j) j' j k) as [?|[?|?]]; try done. rewrite Hl. by right.
  - intros w' x m -> Hw' Hm. pose proof (iv_workers _ _ Hinv w' x Hw') as Hok.
    assert (todo s (OfMaster m) = []) as Ht.
    { destruct x as [| | |[]| | |]; cbn in Hm, Hok; try done; by apply Hok. }
    rewrite Ht in Hr. by apply not_elem_of_nil in Hr.
Qed.

Lemma inv_done s w j status : inv n s -> workers s !! w = Some (WCompute j) -> (status <> DPU_OK -> not_sync s j) ->
  inv n (upd_worker w (WDone j status) s).
Proof using.
  intros Hinv Hw Hst. apply (inv_worker_only n s w (WCompute j)); try done.
  intros j' Hj'. by apply not_elem_of_nil in Hj'.
Qed.
(** The worker decrements the counter of its job and stays on it. *)
Lemma inv_compute_done s w j k : inv n s -> workers s !! w = Some (WCompute j) -> key s j = Some k ->
  (forall m c, k = OfMaster m -> table s m = JobCallback c -> is_nonblocking c = false -> m ∈ masters s ->
     List.remove Nat.eq_dec (fst j) (todo s k) = []) ->
  inv n (decrement k (fst j) (upd_worker w (WDone j DPU_OK) s)).
Proof using.
  intros Hinv Hw Hk Hlast. destruct (compute_key s w j k Hinv Hw Hk) as (Hr & Ho & Hrem & Huniq & _).
  assert (inv n (upd_worker w (WDone j DPU_OK) s)) as H1
    by (by apply (inv_done s w j DPU_OK)).
  apply inv_decrement; try done.
  - intros j' Hj' Hk'. rewrite (Huniq j' Hj' Hk'). left. unfold passed. apply list_elem_of_bind.
    exists (WDone j DPU_OK). split; [by left|]. apply list_elem_of_lookup. exists w.
    apply list_lookup_insert_eq. by eapply lookup_lt_Some.
  - intros c ->. exact Ho.
  - intros m c Hm Hc Hb Hmm Hne. destruct Hne. by eapply Hlast.
Qed.

Lemma remove_last s k r : inv n s -> r ∈ todo s k ->
  u32 (counter_value s k - 1) = 0 <-> List.remove Nat.eq_dec r (todo s k) = [].
Proof using n.
  intros Hinv Hr. rewrite u32_pred by (by eapply todo_positive). destruct (iv_counters _ _ Hinv k) as (-> & Hnd & _).
  destruct (remove_NoDup r _ Hr Hnd) as [_ <-]. unfold lenz. destruct (List.remove _ _ _); cbn; [done|]. split; [lia|done].
Qed.

(** The master of the job, and what it is to the job. *)
Lemma compute_master s j c m : inv n s -> j ∈ jobs (ranks s (fst j)) -> table s j = JobCallback c ->
  owned s (OfMaster (default j (master_job c))) j (fst j) -> table s (default j (master_job c)) = JobCallback m ->
  (master_job c = None /\ m = c /\ is_single_call m = false) \/
  exists m0, master_job c = Some m0 /\ m0 ∈ masters s /\ master_ok (table s) (todo s) (parked s) m0 m.
Proof using n.
  intros Hinv Hj Hc Ho Hm. pose proof (iv_ready _ _ Hinv _ _ Hj c Hc) as Hready.
  destruct (master_job c) as [m0|] eqn:Hmc; cbn [default] in *.
  - right. exists m0. destruct Ho as [?|[Hm0 _]]; [done|]. split_and!; try done.
    destruct (iv_masters _ _ Hinv m0 Hm0) as [c' Hok]. pose proof (mo_table _ _ _ _ _ Hok) as H.
    change (table s m0 = JobCallback m) in Hm. rewrite Hm in H. by injection H as ->.
  - left. rewrite Hc in Hm. injection Hm as <-. done.
Qed.

Section Callback.
Context (s : state) (w : nat) (j : job_id) (c m : callback_job).
Context (Hinv : inv n s) (Hw : workers s !! w = Some (WCompute j)) (Hc : table s j = JobCallback c).
Let master : job_id := default j (master_job c).
Context (Hm : table s master = JobCallback m).
Let k : counter := OfMaster master.
Let m' : callback_job := set_cb_nr_ranks (u32 (cb_nr_ranks m - 1)) m.

Lemma callback_key : key s j = Some k.
Proof using Hc. unfold key. by rewrite Hc. Qed.
Lemma callback_in : j ∈ jobs (ranks s (fst j)).
Proof using n Hinv Hw. destruct (token_head Hinv w _ j Hw ltac:(by left)) as [_ [l ->]]. by left. Qed.
Lemma callback_not_sync : not_sync s j.
Proof using Hc. intros x. by rewrite Hc. Qed.
Lemma callback_decrement s' : table s' = table s ->
  decrement k (fst j) s' = rank_done k (fst j) (set_table (<[master := JobCallback m']> (table s')) s').
Proof using Hm. intros Ht. cbn. by rewrite Ht, Hm. Qed.
Lemma callback_last : u32 (cb_nr_ranks m - 1) = 0 <-> List.remove Nat.eq_dec (fst j) (todo s k) = [].
Proof using n Hinv Hw Hc Hm.
  destruct (compute_key s w j k Hinv Hw callback_key) as (Hr & _). rewrite <-(remove_last s k (fst j) Hinv Hr).
  cbn. by rewrite Hm.
Qed.

(** The last rank: the worker keeps its rank, or leaves it the next job. *)
Lemma callback_after y y' s1 : inv n (decrement k (fst j) s1) -> table s1 = table s -> workers s1 = <[w := y]> (workers s) ->
  token_of y' = token_of y -> (forall j', j' ∈ passed_by y -> j' ∈ passed_by y') ->
  master_of y' = master_job c -> worker_ok (decrement k (fst j) s1) y' ->
  inv n (upd_worker w y' (decrement k (fst j) s1)).
Proof using n Hinv Hw Hc Hm.
  intros Hd Ht Hws Htok Hpass Hmy Hok.
  assert (workers (decrement k (fst j) s1) = <[w := y]> (workers s)) as Hws' by (rewrite callback_decrement by done; done).
  apply (inv_worker_only n _ w y y'); try done.
  - rewrite Hws'. apply list_lookup_insert_eq. by eapply lookup_lt_Some.
  - intros m0 w' x' Hm0 Hw' Hx'. rewrite Hws' in Hw'. apply lookup_insert_cases in Hw' as [[-> _]|[Hne Hw']]; [done|].
    destruct (compute_key s w j k Hinv Hw callback_key) as (_ & _ & _ & _ & Hno).
    destruct (Hno w' x' m0); [|done|done]. unfold k, master. rewrite <-Hmy, Hm0. done.
Qed.

(** The counter is zero: the other ranks are parked. *)
Lemma callback_parked s1 : table s1 = table s -> todo s1 = todo s -> masters s1 = masters s -> parked s1 = parked s ->
  u32 (cb_nr_ranks m - 1) = 0 ->
  master_done (decrement k (fst j) s1) (master_job c) /\
  (is_nonblocking m = true -> nobody_parked (decrement k (fst j) s1) (master_job c)) /\
  (is_nonblocking m = false ->
   if is_single_call m && negb (is_sync m) then all_parked (parked (decrement k (fst j) s1)) j (master_job c) (cb_set m)
   else nobody_parked (decrement k (fst j) s1) (master_job c)).
Proof using n Hinv Hw Hc Hm.
  intros Ht Htd Hms Hp Hlast. rewrite callback_last in Hlast. rewrite callback_decrement by done.
  destruct (compute_key s w j k Hinv Hw callback_key) as (Hr & Ho & _).
  destruct (compute_master s j c m Hinv callback_in Hc Ho Hm) as [(Hmc & -> & Hs)|(m0 & Hmc & Hm0 & Hok)].
  - rewrite Hmc, Hs. cbn. by split_and!.
  - assert (master = m0) as Hmm by (unfold master; by rewrite Hmc). rewrite Hmc. destruct Hok.
    assert (k = OfMaster m0) as Hk by (unfold k; congruence).
    split_and!.
    + intros ? [= <-]. cbn. rewrite Hms. split; [done|]. rewrite Hk, fn_insert_eq, decide_True, Htd, <-Hk by done. done.
    + intros Hb ? r' [= <-]. cbn. rewrite Hp. intros Hr'. apply mo_in in Hr' as [_ ?]. congruence.
    + intros Hb. rewrite mo_single, mo_async. cbn. rewrite Hp. split; [by eexists|done| |].
      * intros r' Hr' Hne. destruct (mo_parked Hb) with (r := r') as [Hin|?]; [|done| |done].
        { intros Hnil. rewrite Hk, Hnil in Hr. by apply not_elem_of_nil in Hr. }
        rewrite <-Hk in Hin. assert (r' ∈ List.remove Nat.eq_dec (fst j) (todo s k)) as H by (by apply elem_of_remove).
        rewrite Hlast in H. by apply not_elem_of_nil in H.
      * intros r' Hr'. by apply mo_in.
Qed.

(** The four ways on after the decrement. *)
Lemma callback_function : u32 (cb_nr_ranks m - 1) = 0 -> is_nonblocking m = false ->
  inv n (upd_worker w (WFunction (Some j) (master_job c) m') (rank_done k (fst j) (set_table (<[master := JobCallback m']> (table s)) s))).
Proof using n Hinv Hw Hc Hm.
  intros Hlast Hb. set (s1 := upd_worker w (WDone j DPU_OK) s).
  assert (inv n (decrement k (fst j) s1)) as H2.
  { apply inv_compute_done; [done|done|exact callback_key|]. intros. by apply callback_last. }
  pose proof (callback_after (WDone j DPU_OK) (WFunction (Some j) (master_job c) m') s1 H2 eq_refl eq_refl eq_refl) as H3.
  rewrite (callback_decrement s1 eq_refl) in H3. rewrite <-(upd_worker_twice w (WDone j DPU_OK)). apply H3; try done.
  destruct (callback_parked s1 eq_refl eq_refl eq_refl eq_refl Hlast) as (Hd & _ & Hp).
  rewrite callback_decrement in Hd, Hp by done. split; [done|]. split; [|exact (Hp Hb)].
  intros x Hx. cbn in Hx. rewrite fn_insert_eq in Hx. case_decide; [done|]. by apply (callback_not_sync x).
Qed.
Lemma callback_nonblocking l : u32 (cb_nr_ranks m - 1) = 0 -> is_nonblocking m = true -> jobs (ranks s (fst j)) = j :: l ->
  inv n (upd_worker w (WInsert (head l) (master_job c) m')
    (upd_rank (fst j) (dpu_thread_release_job_slot_unlocked j (set_jobs l (ranks s (fst j))))
      (rank_done k (fst j) (set_table (<[master := JobCallback m']> (table s)) s)))).
Proof using n Hn Hinv Hw Hc Hm.
  intros Hlast Hb Hl. set (rk := dpu_thread_release_job_slot_unlocked j (set_jobs l (ranks s (fst j)))).
  set (y := WInsert (head l) None m'). set (s1 := upd_worker w y (upd_rank (fst j) rk s)).
  assert (inv n s1) as H1.
  { apply (inv_next s w (WCompute j) y); try done; by destruct l. }
  destruct (compute_key s w j k Hinv Hw callback_key) as (Hr & Ho & Hrem & Huniq & _).
  assert (inv n (decrement k (fst j) s1)) as H2.
  { apply inv_decrement; try done.
    - intros j' Hj' Hk'. cbn in Hj'. rewrite fn_insert_eq, decide_True in Hj' by done.
      assert (j' ∈ jobs (ranks s (fst j))) as Hin by (rewrite Hl; by right).
      rewrite (Huniq j' Hin Hk') in Hj'. pose proof (jobs_NoDup n s (fst j) Hinv) as Hnd. rewrite Hl in Hnd.
      by apply list_relations.list.NoDup_cons in Hnd as [? _].
    - intros m0 c0 _ _ _ _ Hne. destruct Hne. by apply callback_last. }
  pose proof (callback_after y (WInsert (head l) (master_job c) m') s1 H2 eq_refl eq_refl eq_refl) as H3.
  rewrite (callback_decrement s1 eq_refl) in H3. rewrite <-(upd_worker_twice w y). apply H3; try done.
  destruct (callback_parked s1 eq_refl eq_refl eq_refl eq_refl Hlast) as (Hd & Hp & _).
  rewrite callback_decrement in Hd, Hp by done. split_and!; [done|exact (Hp Hb)|done].
Qed.
Lemma callback_park : u32 (cb_nr_ranks m - 1) <> 0 -> is_nonblocking m = false -> is_single_call m = true ->
  inv n (upd_worker w WIdle (upd_parked (fst j) (Some master)
    (rank_done k (fst j) (set_table (<[master := JobCallback m']> (table s)) s)))).
Proof using n Hinv Hw Hc Hm.
  intros Hlast Hb Hs. destruct (compute_key s w j k Hinv Hw callback_key) as (Hr & Ho & Hrem & Huniq & _).
  destruct (token_head Hinv w _ j Hw ltac:(by left)) as [_ [l Hl]].
  destruct (compute_master s j c m Hinv callback_in Hc Ho Hm) as [(_ & _ & Hs')|(m0 & Hmc & Hm0 & Hok)]; [congruence|].
  assert (master = m0) as Hmm by (unfold master; by rewrite Hmc).
  set (s1 := upd_worker w WIdle (upd_parked (fst j) (Some master) s)).
  assert (inv n s1) as H1 by (apply (inv_park n s w j master m); try done; by rewrite Hmm).
  assert (parked s1 (fst j) = Some master) as Hp1 by (cbn; by rewrite fn_insert_eq, decide_True).
  assert (inv n (decrement k (fst j) s1)) as H2.
  { apply inv_decrement; try done.
    - intros j' Hj' Hk'. rewrite (Huniq j' Hj' Hk'). right. rewrite Hp1. split; [done|]. change (ranks s1) with (ranks s). by rewrite Hl.
    - intros m1 c1 [= <-] _ _ _ _. done. }
  by rewrite (callback_decrement s1 eq_refl) in H2.
Qed.
Lemma callback_continue : u32 (cb_nr_ranks m - 1) <> 0 -> negb (is_nonblocking m) && is_single_call m && negb (is_sync m) = false ->
  inv n (upd_worker w (WDone j DPU_OK) (rank_done k (fst j) (set_table (<[master := JobCallback m']> (table s)) s))).
Proof using n Hinv Hw Hc Hm.
  intros Hlast Hflags. set (s1 := upd_worker w (WDone j DPU_OK) s).
  assert (inv n (decrement k (fst j) s1)) as H2; [|by rewrite (callback_decrement s1 eq_refl) in H2].
  apply inv_compute_done; [done|done|exact callback_key|]. intros m0 c0 [= <-] Hc0 Hb Hm0.
  rewrite Hm in Hc0. injection Hc0 as <-. destruct (iv_masters _ _ Hinv _ Hm0) as [c1 [H1 _ _ H2 H3 _ _ _ _]].
  rewrite Hm in H1. injection H1 as <-. by rewrite Hb, H2, H3 in Hflags.
Qed.
End Callback.

Lemma inv_compute s w j status s' : inv n s -> workers s !! w = Some (WCompute j) ->
  dpu_thread_compute_job w j status s = Some s' -> inv n s'.
Proof using Hn.
  intros Hinv Hw. unfold dpu_thread_compute_job. destruct (table s j) as [t|c|c] eqn:Ht.
  - intros [= <-]. apply inv_done; [done..|]. intros _ c. by rewrite Ht.
  - intros [= <-]. change (inv n (decrement (OfSync c) (fst j) (upd_worker w (WDone j DPU_OK) s))).
    apply inv_compute_done; try done. unfold key. by rewrite Ht.
  - destruct (table s (default j (master_job c))) as [|?|m] eqn:Hm; [done..|]. cbv zeta.
    cbn [cb_nr_ranks is_nonblocking is_single_call is_sync set_cb_nr_ranks].
    destruct (Z.eqb_spec (u32 (cb_nr_ranks m - 1)) 0) as [Hz|Hz].
    + destruct (is_nonblocking m) eqn:Hb.
      * destruct (dpu_thread_advance_to_next_job _) as [[rk next]|] eqn:Ha; [|done]. cbn. intros [= <-].
        apply advance_ok in Ha as (j' & l & Hl & -> & ->).
        destruct (token_head Hinv w _ j Hw ltac:(by left)) as [_ [l' Hl']].
        change (jobs (ranks s (fst j)) = j' :: l) in Hl. rewrite Hl in Hl'. injection Hl' as -> _.
        exact (callback_nonblocking s w j c m Hinv Hw Ht Hm l Hz Hb Hl).
      * intros [= <-]. exact (callback_function s w j c m Hinv Hw Ht Hm Hz Hb).
    + destruct (negb _ && _ && _) eqn:Hflags.
      * intros [= <-]. apply andb_true_iff in Hflags as [[Hb Hs]%andb_true_iff _]. apply negb_true_iff in Hb.
        exact (callback_park s w j c m Hinv Hw Ht Hm Hz Hb Hs).
      * intros [= <-]. exact (callback_continue s w j c m Hinv Hw Ht Hm Hz Hflags).
Qed.

Lemma inv_take s w j l : inv n s -> workers s !! w = Some WIdle -> queues s !! worker_queue w = Some (j :: l) ->
  inv n (upd_worker w (WCompute j) (set_queues (<[worker_queue w := l]> (queues s)) s)).
Proof using n.
  intros Hinv Hw Hq. apply (inv_worker n s w WIdle (WCompute j) (<[worker_queue w := l]> (queues s))); try done.
  - rewrite length_insert. apply Hinv.
  - intros j'. pose proof (occ_concat_insert (queues s) _ _ l j' Hq) as H. rewrite occ_cons in H. cbn.
    rewrite occ_cons, !occ_nil. lia.
Qed.
Lemma inv_insert s w next mo c : inv n s -> workers s !! w = Some (WInsert next mo c) ->
  inv n (upd_worker w (WFunction None mo c) (dpu_thread_insert_rank_list queue_idx next s)).
Proof using Hqueue.
  intros Hinv Hw. pose proof (iv_workers _ _ Hinv w _ Hw) as Hok.
  assert (forall q, length q = NR_QUEUES ->
    (forall j, occ j (concat q) = occ j (concat (queues s)) + occ j (token_of (WInsert next mo c)))%nat ->
    inv n (set_queues q (upd_worker w (WFunction None mo c) s))) as H.
  { intros q Hl Ho. apply (inv_worker n s w (WInsert next mo c)); try done.
    - intros j. rewrite Ho. cbn. rewrite occ_nil. lia.
    - intros m w' x' Hm Hw' Hx'. by eapply (iv_worker_masters _ _ Hinv). }
  destruct next as [j|]; cbn [dpu_thread_insert_rank_list].
  - apply (H (alter (fun l => l ++ [j]) (queue_idx (fst j)) (queues s))); [rewrite length_alter; apply Hinv|].
    intros j'. cbn. rewrite occ_concat_alter, occ_cons, occ_nil by (rewrite (iv_queues _ _ Hinv); apply Hqueue). lia.
  - rewrite <-(set_queues_same (upd_worker w (WFunction None mo c) s)). apply H; [apply Hinv|]. intros j. cbn. rewrite occ_nil. lia.
Qed.
(** The worker goes on with the same master and the same job. *)
Lemma inv_move s w x y : inv n s -> workers s !! w = Some x -> token_of y = token_of x ->
  (forall j, j ∈ passed_by x -> j ∈ passed_by y) -> master_of y = master_of x -> worker_ok s y -> inv n (upd_worker w y s).
Proof using n.
  intros Hinv Hw Ht Hp Hm Hok. apply (inv_worker_only n s w x y); try done.
  intros m w' x' Hmy Hw' Hx'. eapply (iv_worker_masters _ _ Hinv); [done..|]. congruence.
Qed.

(** One rank of the global block: it was parked, and its next job is queued. *)
Lemma inv_global s w j mo other rs status s' : inv n s -> workers s !! w = Some (WGlobal j mo (other :: rs) status) ->
  other <> fst j -> global_block_rank queue_idx other s = Some s' -> inv n (upd_worker w (WGlobal j mo rs status) s').
Proof using Hn Hqueue.
  intros Hinv Hw Hne. pose proof (iv_workers _ _ Hinv w _ Hw) as (Hd & Hns & [[m Hm] Hnd Hp Ho]).
  apply list_relations.list.NoDup_cons in Hnd as [Hnin Hnd].
  pose proof (Hp other ltac:(by left) Hne) as Hpark. rewrite Hm in Hpark.
  unfold global_block_rank. destruct (dpu_thread_advance_to_next_job _) as [[rk next]|] eqn:Ha; [|done]. cbn.
  apply advance_ok in Ha as (j' & l & Hl & -> & ->). destruct l as [|next l]; [done|]. cbn. intros [= <-].
  assert (fst next = other) as Hnext by (apply (jobs_home Hinv); rewrite Hl; right; by left).
  eapply (inv_advance n s _ w (WGlobal j mo (other :: rs) status) (WGlobal j mo rs status) other j' [] (next :: l)); try done; [split; try done| | |by right].
  - split_and!; [done..|]. cbn. rewrite (iv_lengths _ _ Hinv). f_equal. unfold lenz. rewrite length_app. cbn. lia.
  - cbn. rewrite length_alter. apply Hinv.
  - intros j2. cbn [upd_worker insert_in_queue set_queues queues upd_parked upd_rank]. rewrite Hpark.
    rewrite occ_concat_alter by (rewrite (iv_queues _ _ Hinv); apply Hqueue). cbn [take token_of passed_by].
    rewrite take_0, !occ_cons, !occ_nil. lia.
  - intros r'. cbn. rewrite fn_insert_eq. repeat case_decide; congruence.
  - intros m2 Hm2. rewrite Hpark in Hm2. injection Hm2 as <-. split; [by apply Hd|done].
  - split; [exact Hd|]. split; [exact Hns|]. split; [by exists m|done| |].
    + intros r Hr Hrj. cbn. rewrite fn_insert_eq, decide_False by (intros ->; done). apply Hp; [by right|done].
    + intros r. cbn. rewrite fn_insert_eq. case_decide as Hd'; [congruence|]. intros Hr. apply Ho in Hr.
      apply elem_of_cons in Hr as [->|]; done.
Qed.

Lemma inv_worker_step s w status s' : inv n s -> worker_step queue_idx worker_queue w status s = Some s' -> inv n s'.
Proof using Hn Hqueue.
  intros Hinv. unfold worker_step. destruct (workers s !! w) as [x|] eqn:Hw; [|done]. cbn.
  pose proof (iv_workers _ _ Hinv w x Hw) as Hok.
  destruct x as [|j|next mo c|[j|] mo c|j mo [|other rs] st|jo mo st|j st].
  - destruct (queues s !! worker_queue w) as [[|j l]|] eqn:Hq; [done| |done]. cbn. intros [= <-]. by apply inv_take.
  - by apply inv_compute.
  - intros [= <-]. by apply inv_insert.
  - intros [= <-]. destruct Hok as (Hd & Hns & Hp).
    destruct (is_single_call c && negb (is_sync c)); by apply (inv_move s w (WFunction (Some j) mo c)).
  - intros [= <-]. by apply (inv_move s w (WFunction None mo c)).
  - intros [= <-]. destruct Hok as (Hd & Hns & Hp). apply (inv_move s w (WGlobal j mo [] st)); try done.
    split; [done|]. split; [|done]. intros m r -> Hr. by apply (ap_others _ _ _ _ Hp), not_elem_of_nil in Hr.
  - destruct (Nat.eqb_spec other (fst j)) as [->|Hne]; cbn.
    + intros [= <-]. destruct Hok as (Hd & Hns & [Hm Hnd Hp Ho]). apply list_relations.list.NoDup_cons in Hnd as [_ Hnd].
      apply (inv_move s w (WGlobal j mo (fst j :: rs) st)); try done. split_and!; [done..|]. split; [done..| |].
      * intros r Hr. apply Hp. by right.
      * intros r Hr. pose proof (Ho r Hr) as Hin. apply elem_of_cons in Hin as [->|]; [|done].
        destruct (token_head Hinv w _ j Hw ltac:(by left)) as [Hnone _]. rewrite Hnone in Hr. subst mo. by destruct Hm.
    + destruct (global_block_rank _ other s) as [s1|] eqn:Hg; [|done]. cbn. intros [= <-]. by eapply inv_global.
  - destruct Hok as (Hd & Hp & Hns). destruct mo as [m|]; cbn.
    + unfold release_master. destruct (Hd m eq_refl) as [Hm Ht]. destruct (iv_masters _ _ Hinv m Hm) as [c Hmo].
      rewrite (mo_table _ _ _ _ _ Hmo). cbn. intros [= <-].
      eapply (inv_release n s w (WRelease jo (Some m) st)); try done; try (by destruct jo).
      { apply (mo_table _ _ _ _ _ Hmo). } destruct jo; [intros _; exact Hns|done].
    + intros [= <-]. apply (inv_worker_only n s w (WRelease jo None st)); try done; destruct jo; try done; intros _; exact Hns.
  - by eapply inv_after_job.
Qed.
End Steps.
