(* ===== verification/ThreadJobClients.v ===== *)
(** * The clients keep the invariant

    The requests, the slots that are taken, filled, added to the FIFOs and given
    back, and the wait for the end of a request. *)

From S2P Require Import Prelude ThreadJob ThreadJobInv.
From stdpp Require Import functions.

#[local] Open Scope Z_scope.
#[local] Open Scope dpu_scope.

(** ** The actions of the clients *)

Definition lists_ok (n : nat) (s : state) : Prop :=
  (forall r j, fst j <> r -> occ j (available_jobs (ranks s r)) = 0%nat /\ occ j (jobs (ranks s r)) = 0%nat) /\
  (forall j, (occ j (available_jobs (ranks s (fst j))) + occ j (jobs (ranks s (fst j))) + occ j (held s))%nat =
    if decide (snd j < n)%nat then 1%nat else 0%nat) /\
  (forall r, available_jobs_length (ranks s r) = lenz (available_jobs (ranks s r))).
Lemma inv_lists n s : inv n s -> lists_ok n s.
Proof. intros []. by split_and!. Qed.

(** The client [c] goes from [x] to [y]; the FIFOs do not change. *)
Record client_moved (s s' : state) (c : nat) (x y : client) : Prop := {
  cm_client : clients s !! c = Some x;
  cm_clients : clients s' = <[c := y]> (clients s);
  cm_jobs : forall r, jobs (ranks s' r) = jobs (ranks s r);
  cm_same : queues s' = queues s /\ workers s' = workers s /\ parked s' = parked s /\ masters s' = masters s;
}.

Section Moved.
Context {n : nat} {s s' : state} {c : nat} {x y : client}.
Context (Hinv : inv n s) (Hmoved : client_moved s s' c x y) (Hlists : lists_ok n s').
Context (Hsame : table s' = table s /\ syncs s' = syncs s /\ todo s' = todo s).

Lemma moved_past j : past s' j <-> past s j.
Proof using Hmoved.
  destruct Hmoved as [_ _ Hj (_ & Hw & Hp & _)]. unfold past, passed. by rewrite Hw, Hp, Hj.
Qed.
Lemma moved_others c' z : c' <> c -> clients s' !! c' = Some z <-> clients s !! c' = Some z.
Proof using Hmoved. intros Hne. rewrite (cm_clients _ _ _ _ _ Hmoved). by rewrite list_lookup_insert_ne. Qed.
Lemma moved_self z : clients s' !! c = Some z -> z = y.
Proof using Hmoved.
  rewrite (cm_clients _ _ _ _ _ Hmoved). intros Hz. by apply lookup_insert_cases in Hz as [[_ ->]|[? _]].
Qed.
Lemma moved_added c' r : c' <> c -> added s c' r -> added s' c' r.
Proof using Hmoved.
  intros Hne [(rq & Hc')|(rq & m & l & Hc' & Hl)]; [left|right].
  - exists rq. by apply moved_others.
  - exists rq, m, l. split; [by apply moved_others|done].
Qed.

(** [y] is not adding jobs. *)
Lemma inv_client : (forall rq mo l, y <> CAdd rq mo l) -> client_ok s' c y ->
  (forall r, added s c r -> r ∈ todo s (OfSync c) -> added s' c r) -> inv n s'.
Proof using Hinv Hmoved Hlists Hsame.
  intros Hy Hok Hadd. pose proof moved_past as Hpast. pose proof moved_added as Hadded. pose proof moved_others as Hoth.
  pose proof moved_self as Hself. destruct Hmoved as [Hc Hcs Hj (Eq & Ew & Ep & Em)], Hsame as (Et & Es & Ed), Hlists as (L1 & L2 & L3).
  assert (forall c' rq mo l, clients s' !! c' = Some (CAdd rq mo l) -> clients s !! c' = Some (CAdd rq mo l)) as Hcadd.
  { intros c' rq mo l Hc'. destruct (decide (c' = c)) as [->|Hne]; [|by apply Hoth]. apply Hself in Hc'. by destruct (Hy rq mo l). }
  destruct Hinv. split; try done.
  - by rewrite Eq.
  - intros j. unfold tokens. rewrite Eq, Ew, Ep, Hj. by apply iv_tokens.
  - intros r m. rewrite Ep, Hj, Em. apply iv_parked.
  - intros k. rewrite Ed. replace (counter_value s' k) with (counter_value s k); [done|]. destruct k; cbn; by rewrite ?Es, ?Et.
  - intros r j k Hjr Hk. rewrite Hj in Hjr. unfold key in Hk. rewrite Et in Hk. rewrite Hpast, Ed.
    destruct (iv_jobs r j k Hjr Hk) as [?|[Hr Ho]]; [by left|right]. split; [done|]. destruct k as [c'|m]; cbn in *.
    + destruct (decide (c' = c)) as [->|Hne]; [by apply Hadd|by apply Hadded].
    + rewrite Em. destruct Ho as [?|[? Ho]]; [by left|right]. split; [done|]. intros c' rq l Hc'. apply Hcadd in Hc'. by eapply Ho.
  - intros r j1 j2 k H1 H2. rewrite Hj in H1, H2. unfold key. rewrite Et, !Hpast. by eapply iv_unique.
  - intros r j Hjr. rewrite Hj in Hjr. rewrite Et. by apply (iv_ready r).
  - intros m Hm. rewrite Em in Hm. rewrite Et, Ed, Ep. by apply iv_masters.
  - intros c' z Hz. destruct (decide (c' = c)) as [->|Hne]; [by rewrite (Hself z Hz)|]. apply Hoth in Hz; [|done].
    specialize (iv_clients c' z Hz). unfold client_ok in *. by rewrite Et, Ed, Em.
  - intros c1 c2 rq1 rq2 m l1 l2 H1 H2. apply Hcadd in H1, H2. by eapply iv_client_masters.
  - intros w z Hz. rewrite Ew in Hz. specialize (iv_workers w z Hz). unfold worker_ok, master_done, nobody_parked, not_sync in *.
    by rewrite Et, Ed, Em, Ep.
  - by rewrite Ew.
Qed.
End Moved.

Lemma held_moved s s' c x y j : clients s !! c = Some x -> clients s' = <[c := y]> (clients s) -> masters s' = masters s ->
  (occ j (held s') + occ j (held_by x) + occ j (leaked s) = occ j (held s) + occ j (held_by y) + occ j (leaked s'))%nat.
Proof.
  intros Hc Hcs Hm. pose proof (occ_bind_insert held_by _ _ _ y j Hc). unfold held. rewrite Hcs, Hm, !occ_app. lia.
Qed.
(** The slots go from the client to the lost ones, or stay. *)
Lemma lists_same n s s' c x y : inv n s -> clients s !! c = Some x -> clients s' = <[c := y]> (clients s) -> masters s' = masters s ->
  ranks s' = ranks s ->
  (forall j, occ j (held_by y) + occ j (leaked s') = occ j (held_by x) + occ j (leaked s))%nat -> lists_ok n s'.
Proof.
  intros Hinv Hc Hcs Hm Hr Ho. destruct Hinv. unfold lists_ok. rewrite Hr. split_and!; try done. intros j.
  rewrite <-iv_slots. pose proof (held_moved s s' c x y j Hc Hcs Hm). specialize (Ho j). lia.
Qed.
Lemma lists_rank n s s' r rk : Z.of_nat n < 2 ^ 32 -> inv n s -> ranks s' = <[r := rk]> (ranks s) ->
  (forall j, fst j <> r -> occ j (available_jobs rk) = 0%nat /\ occ j (jobs rk) = 0%nat /\ occ j (held s') = occ j (held s)) ->
  (forall j, fst j = r -> (occ j (available_jobs rk) + occ j (jobs rk) + occ j (held s'))%nat =
     (occ j (available_jobs (ranks s r)) + occ j (jobs (ranks s r)) + occ j (held s))%nat) ->
  available_jobs_length rk = u32 (lenz (available_jobs rk)) -> lists_ok n s'.
Proof. apply lists_upd. Qed.

Lemma concat_snd_app (l1 l2 : list (nat * list job_id)) :
  concat (snd <$> (l1 ++ l2)) = concat (snd <$> l1) ++ concat (snd <$> l2).
Proof. by rewrite fmap_app, concat_app. Qed.

Lemma get_job_ok r j rk : dpu_thread_job_get_job_unlocked r = GetJob j rk ->
  exists rest, available_jobs r = j :: rest /\ rk = set_available_jobs rest (u32 (available_jobs_length r - 1)) r.
Proof.
  unfold dpu_thread_job_get_job_unlocked, dpu_thread_job_pop_unlocked. case_bool; [done|].
  destruct (available_jobs r) as [|j' rest]; [done|]. intros [= -> <-]. by exists rest.
Qed.
Lemma pop_length r rk j rest : available_jobs r = j :: rest -> available_jobs_length r = lenz (available_jobs r) ->
  rk = set_available_jobs rest (u32 (available_jobs_length r - 1)) r ->
  available_jobs_length rk = u32 (lenz (available_jobs rk)).
Proof. intros Ha Hl ->. cbn. rewrite Hl, Ha. f_equal. unfold lenz. cbn. lia. Qed.

Lemma unget_all js r : available_jobs_length r = u32 (lenz (available_jobs r)) ->
  let r' := unget_rank js r in jobs r' = jobs r /\ (forall j, occ j (available_jobs r') = occ j js + occ j (available_jobs r))%nat /\
    available_jobs_length r' = u32 (lenz (available_jobs r')).
Proof.
  cbv zeta. unfold unget_rank. revert r. induction js as [|j js IH]; intros r Hr; cbn [foldl].
  - split_and!; try done.
  - destruct (IH (set_available_jobs (j :: available_jobs r) (u32 (available_jobs_length r + 1)) r)) as (-> & H & ->).
    { cbn. rewrite Hr. unfold u32, lenz. cbn [length]. rewrite Z.add_mod_idemp_l by done. f_equal. lia. }
    split_and!; [done| |done]. intros j'. rewrite H. cbn. rewrite !occ_cons. lia.
Qed.
Section Clients.
Context (n : nat) (Hn : Z.of_nat n < 2 ^ 32).

(** The lists after the client [c] has taken a slot of the rank [r]. *)
Lemma lists_taken s s' c x y r j rk : inv n s -> dpu_thread_job_get_job_unlocked (ranks s r) = GetJob j rk ->
  ranks s' = <[r := rk]> (ranks s) -> (forall j', occ j' (held s') = occ j' (held s) + hit j j')%nat ->
  clients s !! c = Some x -> clients s' = <[c := y]> (clients s) -> fst j = r /\ lists_ok n s'.
Proof using Hn.
  intros Hinv Hget Hr Hh Hc Hcs. apply get_job_ok in Hget as (rest & Ha & Hrk).
  assert (fst j = r) as Hjr by (apply (available_home Hinv); rewrite Ha; by left). split; [done|].
  apply (lists_rank n s s' r rk Hn Hinv Hr).
  - intros j' Hne. destruct (iv_home _ _ Hinv r j' Hne) as [H1 H2]. rewrite Ha, occ_cons in H1.
    rewrite Hh, hit_ne by congruence. rewrite Hrk. cbn. lia.
  - intros j' _. rewrite Hh, Ha, Hrk, occ_cons. cbn. lia.
  - eapply pop_length; [exact Ha|apply (iv_lengths _ _ Hinv)|done].
Qed.


Lemma no_added s c x r : clients s !! c = Some x -> (forall rq, x <> CWait rq) -> (forall rq m l, x <> CAdd rq m l) -> ~ added s c r.
Proof using.
  intros Hc H1 H2 [(rq & Hc')|(rq & m & l & Hc' & _)]; rewrite Hc in Hc'; injection Hc' as ->; [by eapply H1|by eapply H2].
Qed.

Lemma inv_get s c rq got cur r rest j rk : inv n s -> clients s !! c = Some (CGet rq got cur (r :: rest)) ->
  dpu_thread_job_get_job_unlocked (ranks s r) = GetJob j rk ->
  inv n (upd_client c (if (length (cur ++ [j]) =? nr_jobs_per_rank rq)%nat then CGet rq (got ++ [(r, cur ++ [j])]) [] rest
    else CGet rq got (cur ++ [j]) (r :: rest)) (upd_rank r rk s)).
Proof using Hn.
  intros Hinv Hc Hget. match goal with |- inv n (upd_client c ?z _) => set (y := z) end.
  set (s' := upd_client c y (upd_rank r rk s)).
  assert (forall j', occ j' (held_by y) = occ j' (held_by (CGet rq got cur (r :: rest))) + hit j j')%nat as Hy.
  { intros j'. unfold y. case_bool; cbn [held_by]; rewrite ?concat_snd_app, !occ_app; cbn [fmap list_fmap concat snd];
      rewrite ?occ_app, ?occ_cons, ?occ_nil; lia. }
  destruct (lists_taken s s' c (CGet rq got cur (r :: rest)) y r j rk Hinv Hget eq_refl) as [Hjr Hlists]; [|exact Hc|done|].
  { intros j'. pose proof (held_moved s s' c _ y j' Hc eq_refl eq_refl) as H. specialize (Hy j').
    change (leaked s') with (leaked s) in H. lia. }
  pose proof (iv_clients _ _ Hinv c _ Hc) as (Hrq & Hnd & Hb & Hgot & Hcur & Hlen & Htodo).
  apply get_job_ok in Hget as (av & Ha & ->).
  eapply (inv_client Hinv (x := CGet rq got cur (r :: rest)) (y := y)); try done.
  - split; [done..| |done]. intros r'. cbn. rewrite fn_insert_eq. case_decide; [by subst|done].
  - intros rq' mo l. unfold y. by case_bool.
  - assert (forall j', j' ∈ cur ++ [j] -> fst j' = r) as Hhome.
    { intros j' [Hj'| ->%list_elem_of_singleton]%elem_of_app; [|done]. specialize (Hcur j' Hj'). by injection Hcur. }
    unfold y. destruct (Nat.eqb_spec (length (cur ++ [j])) (nr_jobs_per_rank rq)) as [Hl|Hl]; cbn [client_ok].
    + split_and!; try done.
      * rewrite fmap_app. cbn. rewrite <-app_assoc. done.
      * intros p [Hp| ->%list_elem_of_singleton]%elem_of_app; [by apply Hgot|]. by split.
      * by intros j' ?%not_elem_of_nil.
      * unfold nr_jobs_per_rank. cbn. case_bool; lia.
    + split_and!; try done.
      * intros j' Hj'. cbn. f_equal. by apply Hhome.
      * rewrite length_app in *. cbn in *. lia.
  - intros r' Ha'. exfalso. by eapply (no_added s c _ r' Hc).
Qed.

Lemma inv_get_error s c rq got cur rest status : inv n s -> clients s !! c = Some (CGet rq got cur rest) ->
  inv n (upd_client c (CUnget got status) (set_leaked (cur ++ leaked s) s)).
Proof using.
  intros Hinv Hc. set (s' := upd_client c _ _). pose proof (iv_clients _ _ Hinv c _ Hc) as (_ & _ & _ & Hgot & _).
  eapply (inv_client Hinv (x := CGet rq got cur rest) (y := CUnget got status)); try done.
  - apply (lists_same n s s' c _ (CUnget got status) Hinv Hc); try done. intros j. cbn [held_by].
    change (leaked s') with (cur ++ leaked s). rewrite !occ_app. lia.
  - intros p j Hp Hj. by apply (Hgot p Hp).
  - intros r' Ha'. exfalso. by eapply (no_added s c _ r' Hc).
Qed.

Lemma inv_unget s c r js got status : inv n s -> clients s !! c = Some (CUnget ((r, js) :: got) status) ->
  inv n (upd_client c (CUnget got status) (upd_rank r (unget_rank js (ranks s r)) s)).
Proof using Hn.
  intros Hinv Hc. set (s' := upd_client c _ _). pose proof (iv_clients _ _ Hinv c _ Hc) as Hhome. cbn in Hhome.
  destruct (unget_all js (ranks s r)) as (U1 & U2 & U3).
  { rewrite (iv_lengths _ _ Hinv). symmetry. apply u32_id. unfold fits.
    pose proof (available_short n s r (iv_home _ _ Hinv) (iv_slots _ _ Hinv)). unfold lenz in *. lia. }
  assert (forall j, occ j (held s') + occ j js = occ j (held s))%nat as Hheld.
  { intros j. pose proof (held_moved s s' c _ (CUnget got status) j Hc eq_refl eq_refl) as H.
    change (leaked s') with (leaked s) in H. cbn [held_by fmap list_fmap concat snd] in H. rewrite occ_app in H. lia. }
  eapply (inv_client Hinv (x := CUnget ((r, js) :: got) status) (y := CUnget got status)); try done.
  - split; [done..| |done]. intros r'. cbn. rewrite fn_insert_eq. case_decide; [by subst|done].
  - apply (lists_rank n s s' r (unget_rank js (ranks s r)) Hn Hinv eq_refl); [| |done].
    + intros j Hne. specialize (Hheld j). assert (j ∉ js) as Hj.
      { intros Hj. apply Hne. by apply (Hhome (r, js) j ltac:(by left)). }
      rewrite (occ_zero _ _ Hj) in Hheld. rewrite U1, U2, (occ_zero _ _ Hj). destruct (iv_home _ _ Hinv r j Hne). lia.
    + intros j _. specialize (Hheld j). rewrite U1, U2. lia.
  - intros p j Hp Hj. apply (Hhome p j); [by right|done].
  - intros r' Ha'. exfalso. by eapply (no_added s c _ r' Hc).
Qed.

(** A client that has nothing left to add waits, or returns. *)
Lemma inv_client_end s c x y : inv n s -> clients s !! c = Some x -> held_by x = [] -> held_by y = [] ->
  (forall rq mo l, y <> CAdd rq mo l) -> client_ok s c y ->
  (forall r, added s c r -> r ∈ todo s (OfSync c) -> exists rq, y = CWait rq) -> inv n (upd_client c y s).
Proof using.
  intros Hinv Hc Hx Hy Hna Hok Hadd. set (s' := upd_client c y s).
  eapply (inv_client Hinv (x := x) (y := y)); try done.
  - eapply (lists_same n s s' c _ y Hinv Hc); try done. intros j. by rewrite Hx, Hy.
  - intros r Ha Ht. destruct (Hadd r Ha Ht) as [rq ->]. left. exists rq. apply list_lookup_insert_eq. by eapply lookup_lt_Some.
Qed.

Lemma reset_spec rs s : let s' := reset_errors rs s in
  (forall r, jobs (ranks s' r) = jobs (ranks s r) /\ available_jobs (ranks s' r) = available_jobs (ranks s r) /\
     available_jobs_length (ranks s' r) = available_jobs_length (ranks s r)) /\
  table s' = table s /\ queues s' = queues s /\ syncs s' = syncs s /\ workers s' = workers s /\ clients s' = clients s /\
  parked s' = parked s /\ todo s' = todo s /\ masters s' = masters s /\ leaked s' = leaked s.
Proof using.
  cbv zeta. unfold reset_errors. revert s. induction rs as [|r rs IH]; intros s; cbn [foldl]; [by split_and!|].
  destruct (IH (upd_rank r (set_job_error DPU_OK (ranks s r)) s)) as (H & Hrest). split; [|exact Hrest].
  intros r'. destruct (H r') as (-> & -> & ->). cbn. rewrite fn_insert_eq. case_decide; [by subst|done].
Qed.
Lemma inv_wait s c rq status : inv n s -> clients s !! c = Some (CWait rq) -> nr_ranks (syncs s c) = 0 ->
  inv n (upd_client c (CIdle status) (if status =? DPU_OK then s else reset_errors (rq_ranks rq) s)).
Proof using.
  intros Hinv Hc Hz.
  assert (todo s (OfSync c) = []) as Htodo.
  { destruct (iv_counters _ _ Hinv (OfSync c)) as [Hv _]. cbn in Hv. rewrite Hz in Hv. by destruct (todo s (OfSync c)). }
  assert (forall r, added s c r -> r ∈ todo s (OfSync c) -> False) as Hno.
  { intros r _. rewrite Htodo. apply not_elem_of_nil. }
  destruct (status =? DPU_OK).
  - eapply inv_client_end; try done. intros r Ha Ht. by destruct (Hno r Ha Ht).
  - destruct (reset_spec (rq_ranks rq) s) as (H & Ht & Hq & Hs & Hw & Hcl & Hp & Hd & Hm & Hl).
    generalize dependent (reset_errors (rq_ranks rq) s). intros s1 H Ht Hq Hs Hw Hcl Hp Hd Hm Hl.
    eapply (inv_client Hinv (x := CWait rq) (y := CIdle status)); try done.
    + split; [done| | |done]; [cbn; by rewrite Hcl|]. intros r. apply H.
    + destruct (inv_lists n s Hinv) as (L1 & L2 & L3). split_and!.
      * intros r j Hne. cbn. destruct (H r) as (-> & -> & _). by apply L1.
      * intros j. rewrite <-L2. change (ranks (upd_client c (CIdle status) s1)) with (ranks s1).
        destruct (H (fst j)) as (-> & -> & _).
        pose proof (held_moved s (upd_client c (CIdle status) s1) c _ (CIdle status) j Hc) as Hh.
        specialize (Hh ltac:(cbn; by rewrite Hcl) Hm). change (leaked (upd_client c (CIdle status) s1)) with (leaked s1) in Hh.
        rewrite Hl in Hh. cbn [held_by] in Hh. rewrite occ_nil in Hh. lia.
      * intros r. cbn. destruct (H r) as (_ & -> & ->). apply L3.
    + intros r Ha Hr. by destruct (Hno r Ha Hr).
Qed.

End Clients.

(** ** Requests *)

Section Requests.
Context (n : nat).

Definition valid_request (rq : request) : Prop := NoDup (rq_set rq) /\ lenz (rq_set rq) < 2 ^ 32.
Lemma rq_ranks_sub rq r : r ∈ rq_ranks rq -> r ∈ rq_set rq.
Proof.
  unfold rq_ranks. destruct (rq_kind rq) as [| |[] ? []]; try done. destruct (rq_set rq); cbn; [done|].
  intros H. apply list_elem_of_singleton in H. subst. by left.
Qed.
Lemma rq_ranks_NoDup rq : NoDup (rq_set rq) -> NoDup (rq_ranks rq).
Proof.
  intros Hnd. unfold rq_ranks. destruct (rq_kind rq) as [| |[] ? []]; try done. eapply sublist_NoDup; [exact Hnd|apply sublist_take].
Qed.
Lemma rq_ranks_length rq : lenz (rq_set rq) < 2 ^ 32 -> lenz (rq_ranks rq) < 2 ^ 32.
Proof.
  intros Hl. unfold rq_ranks. destruct (rq_kind rq) as [| |[] ? []]; try done. unfold lenz in *. rewrite length_take. lia.
Qed.

Lemma inv_init_sync s c st rs : inv n s -> clients s !! c = Some (CIdle st) -> NoDup rs -> lenz rs < 2 ^ 32 ->
  inv n (init_sync c rs s).
Proof.
  intros Hinv Hc Hnd Hb. assert (forall r, ~ added s c r) as Hno by (intros r; by eapply no_added).
  assert (forall k, k <> OfSync c -> todo (init_sync c rs s) k = todo s k) as Htodo.
  { intros k Hk. cbn. rewrite fn_insert_eq. by rewrite decide_False. }
  destruct Hinv. split; try done.
  - intros k. destruct (decide (k = OfSync c)) as [->|Hk].
    + cbn. rewrite !fn_insert_eq, !decide_True by done. done.
    + rewrite Htodo by done. destruct k as [c'|m]; cbn; [|apply (iv_counters (OfMaster m))].
      rewrite fn_insert_eq, decide_False by congruence. apply (iv_counters (OfSync c')).
  - intros r j k Hj Hk. destruct (iv_jobs r j k Hj Hk) as [?|[Hr Ho]]; [by left|right]. split; [|done].
    rewrite Htodo; [done|]. intros ->. by destruct (Hno r).
  - intros m Hm. destruct (iv_masters m Hm) as [c' []]. by exists c'.
  - intros c' z Hz. change (clients s !! c' = Some z) in Hz. specialize (iv_clients c' z Hz). destruct z as [|rq got cur rest| |rq mo l|]; try done.
    + destruct (decide (c' = c)) as [->|Hne]; [by rewrite Hc in Hz|]. destruct iv_clients as (?&?&?&?&?&?&Ht). split_and!; try done.
      rewrite Htodo by congruence. done.
    + destruct (decide (c' = c)) as [->|Hne]; [by rewrite Hc in Hz|]. destruct iv_clients as (?&?&Hl&?). split_and!; try done.
      intros p Hp. destruct (Hl p Hp). split; try done. intros j k Hj Hk. rewrite Htodo; [by eapply rm_todo|].
      intros ->. destruct (rm_key j _ Hj Hk) as [[[=] _]|[|(m & _ & ?)]]; congruence.
Qed.

Lemma inv_request s c st rq : inv n s -> clients s !! c = Some (CIdle st) -> valid_request rq ->
  inv n (upd_client c (CGet rq [] [] (rq_ranks rq)) (if rq_waits rq then init_sync c (rq_ranks rq) s else s)).
Proof.
  intros Hinv Hc [Hnd Hb]. set (s1 := if rq_waits rq then _ else _).
  assert (inv n s1) as H1.
  { unfold s1. destruct (rq_waits rq); [|done]. eapply inv_init_sync; [done..|by apply rq_ranks_NoDup|by apply rq_ranks_length]. }
  assert (clients s1 !! c = Some (CIdle st)) as Hc1 by (unfold s1; by destruct (rq_waits rq)).
  apply (inv_client_end n s1 c (CIdle st)); try done.
  - cbn. split_and!; try done.
    + by intros p ?%not_elem_of_nil.
    + by intros p ?%not_elem_of_nil.
    + unfold nr_jobs_per_rank. case_bool; lia.
    + intros Hw. unfold s1. rewrite Hw. cbn. by rewrite fn_insert_eq, decide_True.
  - intros r Ha. exfalso. by eapply no_added in Ha.
Qed.

(** ** Filling the jobs *)

(** The counter of a job, when it is its own. *)
Definition own_ranks (rank : nat) (x : job) : list nat :=
  match x with JobCallback (mk_callback None _ _ _ _ _ _) => [rank] | _ => [] end.
Definition own_count (x : job) : Z := match x with JobCallback c => cb_nr_ranks c | _ => 0 end.
Lemma write_job_eq rank s j x :
  write_job rank s (j, x) = upd_todo (OfMaster j) (own_ranks rank x) (set_table (<[j := x]> (table s)) s).
Proof. done. Qed.

(** A slot that is neither in a FIFO nor a master job is written. *)
Definition free_slot (s : state) (j : job_id) : Prop :=
  (forall r, j ∉ jobs (ranks s r)) /\ j ∉ masters s /\
  (forall c rq mo l, clients s !! c = Some (CAdd rq mo l) -> j ∉ held_by (CAdd rq mo l)).
Lemma inv_write s j x rs : inv n s -> free_slot s j -> own_count x = lenz rs -> NoDup rs -> lenz rs < 2 ^ 32 ->
  inv n (upd_todo (OfMaster j) rs (set_table (<[j := x]> (table s)) s)).
Proof.
  intros Hinv (Hfifo & Hmaster & Hclient) Hcount Hnd Hb. set (s' := upd_todo _ _ _).
  assert (forall j', j' <> j -> table s' j' = table s j') as Htab by (intros j' Hne; cbn; by rewrite fn_insert_eq, decide_False).
  assert (forall k, k <> OfMaster j -> todo s' k = todo s k) as Htodo by (intros k Hk; cbn; by rewrite fn_insert_eq, decide_False).
  assert (forall r j', j' ∈ jobs (ranks s r) -> table s' j' = table s j') as Hjobs.
  { intros r j' Hj'. apply Htab. intros ->. by apply (Hfifo r). }
  assert (forall m, m ∈ masters s -> table s' m = table s m /\ todo s' (OfMaster m) = todo s (OfMaster m)) as Hmas.
  { intros m Hm. assert (m <> j) by congruence. split; [by apply Htab|apply Htodo; congruence]. }
  assert (forall w z j', workers s !! w = Some z -> j' ∈ token_of z -> table s' j' = table s j') as Htok.
  { intros w z j' Hz Hj'. destruct (token_head Hinv w z j' Hz Hj') as [_ [l Hl]]. apply (Hjobs (fst j')). rewrite Hl. by left. }
  destruct Hinv. split; try done.
  - intros k. destruct (decide (k = OfMaster j)) as [->|Hk].
    + cbn. rewrite !fn_insert_eq, !decide_True by done. done.
    + rewrite Htodo by done. destruct k as [c'|m]; [apply (iv_counters (OfSync c'))|].
      cbn. rewrite fn_insert_eq, decide_False by congruence. apply (iv_counters (OfMaster m)).
  - intros r j' k Hj' Hk. unfold key in Hk. rewrite (Hjobs r j' Hj') in Hk.
    destruct (iv_jobs r j' k Hj' Hk) as [?|[Hr Ho]]; [by left|right]. split; [|done]. rewrite Htodo; [done|].
    intros ->. destruct Ho as [->|[? _]]; [by apply (Hfifo r)|done].
  - intros r j1 j2 k H1 H2. unfold key. rewrite (Hjobs r j1 H1), (Hjobs r j2 H2). by apply (iv_unique r).
  - intros r j' Hj'. rewrite (Hjobs r j' Hj'). by apply (iv_ready r).
  - intros m Hm. destruct (iv_masters m Hm) as [c []]. destruct (Hmas m Hm) as [E1 E2]. exists c.
    split; try done; rewrite ?E1, ?E2; done.
  - intros c' z Hz. specialize (iv_clients c' z Hz). destruct z as [|rq got cur rest| |rq mo l|]; try done.
    destruct iv_clients as (? & ? & Hl & Hm). split_and!; try done. intros p Hp. destruct (Hl p Hp).
    assert (forall j', j' ∈ snd p -> j' <> j /\ table s' j' = table s j') as Hp'.
    { intros j' Hj'. assert (j' <> j) as Hne; [|split; [done|by apply Htab]]. intros ->. apply (Hclient c' rq mo l Hz).
      by eapply remaining_held. }
    assert (forall j' k, j' ∈ snd p -> key_of j' (table s j') = Some k -> todo s' k = todo s k) as Hk'.
    { intros j' k Hj' Hk. apply Htodo. intros ->. destruct (rm_key j' _ Hj' Hk) as [[[=] _]|[[= <-]|(m & Hmo & [= <-])]].
      - by destruct (Hp' _ Hj').
      - apply Hmaster. apply (Hm j Hmo). intros ->. by apply not_elem_of_nil in Hp. }
    split; try done.
    + intros j' Hj'. destruct (Hp' j' Hj') as [_ ->]. by apply rm_ready.
    + intros j' k Hj'. destruct (Hp' j' Hj') as [_ ->]. intros Hk. rewrite (Hk' j' k Hj' Hk). by eapply rm_todo.
    + intros j' k Hj'. destruct (Hp' j' Hj') as [_ ->]. by apply rm_key.
    + intros j1 j2 k H1 H2. destruct (Hp' j1 H1) as [_ ->], (Hp' j2 H2) as [_ ->]. by apply rm_unique.
    + intros m Hmo. destruct (rm_master m Hmo) as (j' & Hj' & Hk). exists j'. split; [done|]. by destruct (Hp' j' Hj') as [_ ->].
    + intros Hw. destruct (rm_sync Hw) as (j' & Hj' & Ht). exists j'. split; [done|]. by destruct (Hp' j' Hj') as [_ ->].
  - intros w z Hz. specialize (iv_workers w z Hz). pose proof (Htok w z) as Ht.
    assert (forall mo, master_done s mo -> master_done s' mo) as Hmd.
    { intros mo Hd m Hm. destruct (Hd m Hm) as [Hin ?]. split; [done|]. destruct (Hmas m Hin) as [_ ->]. done. }
    assert (forall j', j' ∈ token_of z -> not_sync s j' -> not_sync s' j') as Hns.
    { intros j' Hj' Hs c. rewrite (Ht j' Hz Hj'). apply Hs. }
    destruct z as [| | |[]| |[]|]; cbn in *; try done; try (destruct iv_workers as (? & ? & ?); split_and!; try by auto; try (apply Hns; [by left|done])).
    intros Hs. apply Hns; [by left|by apply iv_workers].
Qed.

(** Nobody uses [m] as a master. *)
Definition unused_master (s : state) (m : job_id) : Prop :=
  (forall r j, j ∈ jobs (ranks s r) -> key s j = Some (OfMaster m) -> past s j) /\
  (forall c rq l, clients s !! c = Some (CAdd rq (Some m) l) -> l = []).
Lemma available_slot s r m : inv n s -> m ∈ available_jobs (ranks s r) -> free_slot s m /\ unused_master s m /\ fst m = r.
Proof.
  intros Hinv Hm. pose proof (available_home Hinv _ _ Hm). subst r. pose proof (slots_one Hinv m) as H1.
  apply occ_pos in Hm.
  assert (m ∉ held s) as Hh by (rewrite occ_pos; lia).
  assert (m ∉ masters s) as Hma by (intros ?; by apply Hh, held_master).
  assert (forall r, m ∉ jobs (ranks s r)) as Hj.
  { intros r Hj. pose proof (jobs_home Hinv _ _ Hj). subst r. apply occ_pos in Hj. lia. }
  unfold free_slot, unused_master. split_and!; try done.
  - intros c rq mo l Hc Hin. by eapply Hh, held_client.
  - intros r j Hjr Hk. destruct (iv_jobs _ _ Hinv r j _ Hjr Hk) as [?|[_ [->|[? _]]]]; [done|by destruct (Hj r)|done].
  - intros c rq l Hc. destruct (iv_clients _ _ Hinv c _ Hc) as (_ & _ & _ & Hmas). destruct l as [|p l]; [done|].
    destruct Hma. by apply Hmas.
Qed.

Lemma rq_master_set rq : rq_master rq = true -> rq_ranks rq = rq_set rq.
Proof.
  unfold rq_master, rq_ranks. destruct (rq_kind rq) as [| |[] ? []]; try done. cbn.
  destruct (rq_set rq); [done|]. cbn. by destruct l.
Qed.
Lemma inv_master s r m rk rq : Z.of_nat n < 2 ^ 32 -> inv n s -> valid_request rq -> rq_master rq = true ->
  dpu_thread_job_get_job_unlocked (ranks s r) = GetJob m rk ->
  inv n (set_masters (m :: masters s) (write_master rq m r (upd_rank r rk s))).
Proof.
  intros Hn Hinv [Hnd Hb] Hrq Hget. apply get_job_ok in Hget as (rest & Ha & Hrk).
  destruct (available_slot s r m Hinv) as (Hfree & Hunused & Hmr); [rewrite Ha; by left|].
  pose proof (rq_master_set rq Hrq) as Hset.
  assert (inv n (write_master rq m r s)) as H1.
  { apply inv_write; try done; [by apply rq_ranks_NoDup|by apply rq_ranks_length]. }
  set (s1 := write_master rq m r s) in *. set (s' := set_masters _ _).
  assert (forall j, occ j (held s') = occ j (held s1) + hit m j)%nat as Hheld.
  { intros j. unfold held. change (masters s') with (m :: masters s1). change (clients s') with (clients s1).
    change (leaked s') with (leaked s1). rewrite !occ_app, occ_cons. lia. }
  destruct (lists_rank n s1 s' r rk Hn H1 eq_refl) as (L1 & L2 & L3).
  { intros j Hne. destruct (iv_home _ _ H1 r j Hne) as [E1 E2]. change (ranks s1) with (ranks s) in *.
    rewrite Ha, occ_cons in E1. rewrite Hheld, hit_ne by congruence. rewrite Hrk. cbn. lia. }
  { intros j _. change (ranks s1) with (ranks s). rewrite Hheld, Ha, Hrk, occ_cons. cbn. lia. }
  { eapply pop_length; [exact Ha|apply (iv_lengths _ _ Hinv)|done]. }
  assert (forall r', jobs (ranks s' r') = jobs (ranks s1 r')) as Hjobs.
  { intros r'. cbn. rewrite fn_insert_eq. case_decide; [by subst|done]. }
  assert (forall j, past s' j <-> past s1 j) as Hpast by (intros j; unfold past; by rewrite Hjobs).
  assert (forall m', m' ∈ masters s1 -> m' ∈ masters s') as Hmas by (intros m' ?; by right).
  destruct H1. split; try done.
  - intros j. change (tokens s') with (tokens s1). rewrite Hjobs. apply iv_tokens.
  - intros r' m' Hp. rewrite Hjobs. destruct (iv_parked r' m' Hp). by auto.
  - intros r' j k Hj Hk. rewrite Hjobs in Hj. rewrite Hpast. destruct (iv_jobs r' j k Hj Hk) as [?|[? Ho]]; [by left|right].
    split; [done|]. destruct k; [done|]. destruct Ho as [?|[? ?]]; [by left|right]. by auto.
  - intros r' j1 j2 k E1 E2. rewrite Hjobs in E1, E2. rewrite !Hpast. by apply (iv_unique r').
  - intros r' j Hj. rewrite Hjobs in Hj. by apply (iv_ready r').
  - intros m' [->|Hm']%elem_of_cons; [|by apply iv_masters].
    assert (todo s1 (OfMaster m) = rq_ranks rq) as Htodo by (cbn; by rewrite fn_insert_eq, decide_True).
    assert (table s1 m = master_content rq r) as Ht by (cbn; by rewrite fn_insert_eq, decide_True).
    unfold master_content in Ht. match type of Ht with _ = JobCallback ?c => exists c end.
    split; try done.
    + intros _ _ r' Hr'. left. change (todo s') with (todo s1). rewrite Htodo, Hset. exact Hr'.
    + intros r'. change (todo s') with (todo s1). rewrite Htodo. apply rq_ranks_sub.
    + intros r' Hp. destruct (iv_parked r' m Hp) as [_ Hm']. by destruct Hfree as (_ & ? & _).
  - intros c z Hz. specialize (iv_clients c z Hz). destruct z as [| | |rq' mo l|]; try done.
    destruct iv_clients as (? & ? & ? & Hm'). split_and!; try done. intros m' -> Hl. by apply Hmas, Hm'.
  - intros w z Hz. specialize (iv_workers w z Hz).
    assert (forall mo, master_done s1 mo -> master_done s' mo) as Hmd.
    { intros mo Hd m' Hm'. destruct (Hd m' Hm'). by auto. }
    destruct z as [| | |[]| | |]; cbn in *; try done; destruct iv_workers as (? & ? & ?); by auto.
Qed.

Lemma master_unused s r m rk rq : inv n s -> dpu_thread_job_get_job_unlocked (ranks s r) = GetJob m rk ->
  unused_master (set_masters (m :: masters s) (write_master rq m r (upd_rank r rk s))) m.
Proof.
  intros Hinv Hget. apply get_job_ok in Hget as (rest & Ha & ->).
  destruct (available_slot s r m Hinv) as ((Hf & _ & _) & [Hu1 Hu2] & _); [rewrite Ha; by left|].
  set (s' := set_masters _ _).
  assert (forall r', jobs (ranks s' r') = jobs (ranks s r')) as Hjobs.
  { intros r'. cbn. rewrite fn_insert_eq. case_decide; [by subst|done]. }
  split; [|exact Hu2]. intros r' j. unfold past. rewrite !Hjobs. intros Hj Hk. apply (Hu1 r' j Hj).
  unfold key in *. cbn in Hk. rewrite fn_insert_eq, decide_False in Hk; [done|]. intros ->. by apply (Hf r').
Qed.

(** The writes of a client, one after the other. *)
Definition writes_of (rq : request) (c : nat) (master : option job_id) (got : list (nat * list job_id)) :
    list (nat * (job_id * job)) :=
  got ≫= (fun p => map (pair (fst p)) (zip (snd p) (job_contents rq c (fst p) master))).
Definition write_all (s : state) (ws : list (nat * (job_id * job))) : state :=
  foldl (fun s x => write_job (fst x) s (snd x)) s ws.
Lemma write_jobs_all rq c master got s : foldl (write_jobs rq c master) s got = write_all s (writes_of rq c master got).
Proof.
  revert s. induction got as [|[r js] got IH]; intros s; [done|]. unfold writes_of. rewrite bind_cons. unfold write_all.
  rewrite foldl_app. cbn [foldl]. rewrite IH. unfold write_all, writes_of. f_equal. unfold write_jobs. cbn [fst snd].
  generalize (zip js (job_contents rq c r master)). intros l. clear. revert s. induction l as [|x l IH]; intros s; [done|]. cbn. apply IH.
Qed.
Lemma write_all_same ws s : let s' := write_all s ws in ranks s' = ranks s /\ queues s' = queues s /\ syncs s' = syncs s /\
  workers s' = workers s /\ clients s' = clients s /\ parked s' = parked s /\ masters s' = masters s /\ leaked s' = leaked s /\
  (forall c, todo s' (OfSync c) = todo s (OfSync c)) /\
  (forall j, (forall r x, (r, (j, x)) ∉ ws) -> table s' j = table s j /\ todo s' (OfMaster j) = todo s (OfMaster j)).
Proof.
  cbv zeta. unfold write_all. revert s. induction ws as [|[r [j x]] ws IH]; intros s; cbn [foldl fst snd]; [by split_and!|].
  destruct (IH (write_job r s (j, x))) as (H1 & H2 & H3 & H4 & H5 & H6 & H7 & H8 & H9 & H10). rewrite write_job_eq in *.
  split_and!; try done.
  intros j' Hj'. destruct (H10 j') as [E1 E2]; [intros r' x' Hin; apply (Hj' r' x'); by right|]. rewrite E1, E2. cbn.
  rewrite !fn_insert_eq. assert (j <> j') as Hne by (intros ->; apply (Hj' r x); by left).
  rewrite !decide_False by congruence. done.
Qed.
Lemma write_all_in ws s r j x : NoDup (map (fun w => fst (snd w)) ws) -> (r, (j, x)) ∈ ws ->
  table (write_all s ws) j = x /\ todo (write_all s ws) (OfMaster j) = own_ranks r x.
Proof.
  unfold write_all. revert s. induction ws as [|[r' [j' x']] ws IH]; intros s Hnd Hin; [by apply not_elem_of_nil in Hin|].
  cbn [map fst snd] in Hnd. apply list_relations.list.NoDup_cons in Hnd as [Hnin Hnd]. cbn [foldl fst snd].
  apply elem_of_cons in Hin as [Heq|Hin]; [|by apply IH]. injection Heq as <- <- <-.
  destruct (write_all_same ws (write_job r s (j, x))) as (_ & _ & _ & _ & _ & _ & _ & _ & _ & H).
  unfold write_all in H. destruct (H j) as [-> ->].
  - intros r2 x2 Hin. apply Hnin. apply list_elem_of_In, in_map_iff. exists (r2, (j, x2)). split; [done|by apply list_elem_of_In].
  - rewrite write_job_eq. cbn. rewrite !fn_insert_eq, !decide_True by done. done.
Qed.

Lemma inv_write_all s ws c x : inv n s -> clients s !! c = Some x -> (forall rq mo l, x <> CAdd rq mo l) ->
  (forall r j y, (r, (j, y)) ∈ ws -> j ∈ held_by x /\ own_count y = lenz (own_ranks r y)) -> inv n (write_all s ws).
Proof.
  intros Hinv Hc Hx. unfold write_all. revert s Hinv Hc. induction ws as [|[r [j y]] ws IH]; intros s Hinv Hc Hws; [done|].
  cbn [foldl fst snd]. destruct (Hws r j y ltac:(by left)) as [Hj Hcount]. rewrite write_job_eq.
  apply IH; [|done|intros r' j' y' Hin; apply (Hws r'); by right].
  assert (own_ranks r y = [r] \/ own_ranks r y = []) as Hown by (destruct y as [| |[[] ? ? ? ? ? ?]]; cbn; auto).
  apply inv_write; try done.
  - split_and!.
    + intros r' Hj'. by eapply (jobs_not_held Hinv), held_client.
    + by eapply client_not_master.
    + intros c' rq mo l Hc' Hj'. assert (c' = c) as -> by (by eapply client_same). rewrite Hc in Hc'. injection Hc' as ->. by eapply Hx.
  - destruct Hown as [->| ->]; [by apply NoDup_singleton|constructor].
  - destruct Hown as [->| ->]; done.
Qed.

(** What is written in the slots of one rank. *)
Lemma contents_count rq c r master y : y ∈ job_contents rq c r master -> own_count y = lenz (own_ranks r y).
Proof.
  unfold job_contents. destruct (rq_kind rq) as [t b| |b1 b2 b3]; [destruct b| |destruct master; [|destruct b1]];
    intros Hy; repeat (apply elem_of_cons in Hy as [->|Hy]; [done|]); by apply not_elem_of_nil in Hy.
Qed.
Lemma contents_length rq c r master : (is_Some master -> rq_master rq = true) -> (master = None -> rq_master rq = false) ->
  rq_ranks rq <> [] -> length (job_contents rq c r master) = nr_jobs_per_rank rq.
Proof.
  unfold job_contents, nr_jobs_per_rank, rq_sync_job, rq_master, rq_ranks.
  destruct (rq_kind rq) as [t b| |b1 b2 b3]; [by destruct b|done|].
  destruct master; intros H1 _ H2; [|by destruct b1]. specialize (H1 ltac:(by eexists)).
  destruct b1, b3; try done. destruct (rq_set rq) as [|? []]; done.
Qed.

(** The one or two jobs of a rank, whose contents are known. *)
Ltac job_cases H := repeat (apply elem_of_cons in H as [->|H]); [..|by apply not_elem_of_nil in H].
Ltac filled := split; cbn [fst snd] in *;
  [ done
  | intros j Hj; job_cases Hj; repeat match goal with T : @eq job (?f _) _ |- _ => is_var f; rewrite T; clear T end;
    intros c' Hc'; try done; injection Hc' as <-; cbn; try done; intros ->; match goal with H : _ ∉ _ |- _ => apply H; by left end
  | done
  | intros j k Hj Hk; job_cases Hj; repeat match goal with T : @eq job (?f _) _ |- _ => is_var f; rewrite T in Hk end; cbn [key_of master_job default] in Hk;
    try done; injection Hk as <-; try (match goal with D : ?f (OfMaster _) = _ |- _ => rewrite D end; by left); auto
  | intros j k Hj Hk; job_cases Hj; repeat match goal with T : @eq job (?f _) _ |- _ => is_var f; rewrite T in Hk end; cbn [key_of master_job default] in Hk;
    try done; injection Hk as <-; cbn; eauto
  | intros j j' k Hj Hj' Hk Hk'; job_cases Hj; job_cases Hj'; try done;
    repeat match goal with T : @eq job (?f _) _ |- _ => is_var f; rewrite T in Hk, Hk'; clear T end;
    repeat match goal with T : @eq job (?f _) _ |- _ => is_var f; first [rewrite T in Hk|rewrite T in Hk']; clear T end;
    cbn [key_of master_job default] in Hk, Hk'; congruence
  | idtac | idtac].

(** The jobs of the rank [r] once filled. *)
Lemma filled_ok (table : job_id -> job) todo rq c master r js : (is_Some master -> rq_master rq = true) ->
  (master = None -> rq_master rq = false) -> rq_ranks rq <> [] -> length js = nr_jobs_per_rank rq -> NoDup js ->
  (forall j, j ∈ js -> fst j = r) -> (forall m, master = Some m -> m ∉ js /\ r ∈ todo (OfMaster m)) ->
  (rq_waits rq = true -> r ∈ todo (OfSync c)) ->
  (forall j x, (j, x) ∈ zip js (job_contents rq c r master) -> table j = x /\ todo (OfMaster j) = own_ranks r x) ->
  remaining_ok table todo c rq master (r, js).
Proof.
  intros Hm1 Hm2 Hne Hlen Hnd Hhome Hmaster Hsync Hzip. pose proof (contents_length rq c r master Hm1 Hm2 Hne) as Hcl.
  unfold nr_jobs_per_rank, job_contents, rq_waits, rq_sync_job in *.
  destruct (rq_kind rq) as [t b| |b1 b2 b3] eqn:Hkind; [destruct b| |destruct master as [m|]; [|destruct b1]].
  4: { assert (b1 = false) as ->.
       { unfold rq_master, rq_ranks in *. rewrite Hkind in *. destruct b1, b3, (rq_set rq) as [|? []]; try done;
         by specialize (Hm1 ltac:(by eexists)). }
       destruct (Hmaster m eq_refl) as [Hm Hr]. destruct js as [|j1 [|? ?]]; try done.
       destruct (Hzip j1 _ ltac:(by left)) as [T1 _]. filled.
       - intros m0 [= <-]. exists j1. split; [by left|by rewrite T1].
       - unfold rq_waits. by rewrite Hkind. }
  all: destruct js as [|j1 [|j2 [|? ?]]]; try done; destruct (Hzip j1 _ ltac:(by left)) as [T1 D1];
    try destruct (Hzip j2 _ ltac:(by right; left)) as [T2 D2]; clear Hzip.
  all: try (assert (master = None) as -> by (destruct master; [|done]; specialize (Hm1 ltac:(by eexists));
    unfold rq_master in Hm1; by rewrite Hkind in Hm1)).
  all: filled.
  all: try done.
  all: try (left; split; [done|unfold rq_waits; by rewrite Hkind]).
  all: intros Hw; unfold rq_waits in Hw; rewrite Hkind in Hw; try done;
    first [exists j1; by split; [left|]|exists j2; by split; [right; left|]].
Qed.

(** A client that has filled its jobs starts adding them. *)
Lemma inv_start_add s c rq mo got : inv n s -> clients s !! c = Some (CGet rq got [] []) ->
  (forall m, mo = Some m -> m ∈ masters s /\ unused_master s m) ->
  (forall p, p ∈ got -> remaining_ok (table s) (todo s) c rq mo p) -> inv n (upd_client c (CAdd rq mo got) s).
Proof.
  intros Hinv Hc Hmo Hgot. set (s' := upd_client c (CAdd rq mo got) s).
  assert (client_moved s s' c (CGet rq got [] []) (CAdd rq mo got)) as Hmv by (by split).
  destruct (lists_same n s s' c _ (CAdd rq mo got) Hinv Hc eq_refl eq_refl eq_refl) as (L1 & L2 & L3).
  { intros j. cbn [held_by]. rewrite occ_app, occ_nil. change (leaked s') with (leaked s). lia. }
  pose proof (iv_clients _ _ Hinv c _ Hc) as (Hrq & Hnd & _). rewrite app_nil_r in Hrq.
  pose proof (fun c' r => moved_added Hmv c' r) as Hadded.
  pose proof (fun r => no_added s c _ r Hc ltac:(done) ltac:(done)) as Hno.
  destruct Hinv. split; try done.
  - intros r j k Hj Hk. destruct (iv_jobs r j k Hj Hk) as [?|[Hr Ho]]; [by left|]. destruct k as [c'|m].
    + right. split; [done|]. apply Hadded; [|done]. intros ->. by destruct (Hno r).
    + destruct (decide (mo = Some m)) as [->|Hne]; [left; destruct (Hmo m eq_refl) as [_ [Hp _]]; by apply (Hp r)|right].
      split; [done|]. destruct Ho as [->|[Hm Ho]]; [by left|right]. split; [done|]. intros c' rq' l Hl.
      apply lookup_insert_cases in Hl as [[-> [= -> Heq <-]]|[_ Hl]]; [congruence|by eapply Ho].
  - intros c' z Hz. apply lookup_insert_cases in Hz as [[-> ->]|[_ Hz]]; [|by apply (iv_clients c')].
    split_and!; [by exists []|done|done|]. intros m Hm _. by apply Hmo.
  - intros c1 c2 rq1 rq2 m l1 l2 H1 H2 Hl1 Hl2.
    apply lookup_insert_cases in H1 as [[-> E1]|[Hn1 H1]], H2 as [[-> E2]|[Hn2 H2]]; [done| | |by eapply iv_client_masters].
    + injection E1 as -> <- ->. destruct (Hmo m eq_refl) as [_ [_ Hu]]. destruct Hl2. by eapply Hu.
    + injection E2 as -> <- ->. destruct (Hmo m eq_refl) as [_ [_ Hu]]. destruct Hl1. by eapply Hu.
Qed.

Lemma zip_fst_occ (js : list job_id) (l : list job) j : (occ j (map (fun x => fst x) (zip js l)) <= occ j js)%nat.
Proof.
  revert l. induction js as [|x js IH]; intros [|y l]; cbn; rewrite ?occ_nil, ?occ_cons; [lia..|]. specialize (IH l). lia.
Qed.
Lemma writes_occ rq c mo got j :
  (occ j (map (fun w => fst (snd w)) (writes_of rq c mo got)) <= occ j (concat (snd <$> got)))%nat.
Proof.
  unfold writes_of. induction got as [|[r js] got IH]; [done|]. rewrite bind_cons, map_app, occ_app. cbn [fst snd].
  rewrite fmap_cons. cbn [concat snd]. rewrite occ_app, map_map. cbn [snd].
  pose proof (zip_fst_occ js (job_contents rq c r mo) j). unfold writes_of in IH. lia.
Qed.
Lemma writes_inv rq c mo got r j x : (r, (j, x)) ∈ writes_of rq c mo got ->
  exists js, (r, js) ∈ got /\ j ∈ js /\ x ∈ job_contents rq c r mo.
Proof.
  intros Hw. apply list_elem_of_bind in Hw as ([r' js] & Hin & Hgot). cbn [fst snd] in Hin.
  apply list_elem_of_In, in_map_iff in Hin as (y & [= <- ->] & Hz). exists js. split; [done|].
  split; apply list_elem_of_In; [by eapply in_combine_l|by eapply in_combine_r].
Qed.

Lemma inv_fill s c rq mo got : inv n s -> clients s !! c = Some (CGet rq got [] []) ->
  (is_Some mo -> rq_master rq = true) -> (mo = None -> rq_master rq = false) ->
  (forall m, mo = Some m -> m ∈ masters s /\ unused_master s m /\ todo s (OfMaster m) = rq_ranks rq) ->
  inv n (upd_client c (CAdd rq mo got) (foldl (write_jobs rq c mo) s got)).
Proof.
  intros Hinv Hc Hm1 Hm2 Hmo. rewrite write_jobs_all. set (ws := writes_of rq c mo got).
  pose proof (iv_clients _ _ Hinv c _ Hc) as (Hrq & Hnd & _ & Htaken & _ & _ & Htodo). rewrite app_nil_r in Hrq.
  assert (forall j, j ∈ concat (snd <$> got) -> j ∈ held_by (CGet rq got [] [])) as Hheld.
  { intros j Hj. cbn. by rewrite app_nil_r. }
  assert (forall r j x, (r, (j, x)) ∈ ws -> j ∈ concat (snd <$> got) /\ own_count x = lenz (own_ranks r x)) as Hws.
  { intros r j x Hw. apply writes_inv in Hw as (js & Hgot & Hj & Hx). split; [by eapply (remaining_held got (r, js))|].
    by eapply contents_count. }
  assert (inv n (write_all s ws)) as H1.
  { eapply inv_write_all; [done|exact Hc|done|]. intros r j y Hw. destruct (Hws r j y Hw). split; [by apply Hheld|done]. }
  destruct (write_all_same ws s) as (Er & _ & _ & Ew & Ec & Ep & Em & _ & Et & Ej).
  assert (forall j, j ∉ concat (snd <$> got) -> table (write_all s ws) j = table s j /\
    todo (write_all s ws) (OfMaster j) = todo s (OfMaster j)) as Hsame.
  { intros j Hj. apply Ej. intros r x Hw. by destruct (Hws _ _ _ Hw). }
  assert (forall m, mo = Some m -> m ∉ concat (snd <$> got)) as Hfresh.
  { intros m Hm Hin. destruct (Hmo m Hm) as [Hmas _]. exact (client_not_master Hinv c _ m Hc (Hheld m Hin) Hmas). }
  assert (forall j, (occ j (concat (snd <$> got)) <= 1)%nat) as Hone.
  { intros j. pose proof (slots_one Hinv j) as Hs. unfold held in Hs. rewrite !occ_app in Hs.
    pose proof (occ_bind_one held_by _ _ _ j Hc) as Hb. cbn [held_by] in Hb. rewrite occ_app, occ_nil in Hb. lia. }
  apply inv_start_add; [done|by rewrite Ec| |].
  - intros m Hm. destruct (Hmo m Hm) as (Hmas & [Hp Hcl] & _). rewrite Em. split; [done|]. split; [|by rewrite Ec].
    intros r j Hj Hk. rewrite Er in Hj. unfold past, passed. rewrite Ew, Ep, Er. apply (Hp r j Hj).
    unfold key in *. destruct (Hsame j) as [<- _]; [|done]. intros Hin.
    exact (jobs_not_held Hinv r j Hj (held_client c _ j Hc (Hheld j Hin))).
  - intros [r js] Hp. destruct (Htaken _ Hp) as [Hlen Hhome]. cbn [fst snd] in *.
    assert (r ∈ rq_ranks rq) as Hr by (rewrite <-Hrq; by apply (list_elem_of_fmap_2 fst got (r, js))).
    apply filled_ok; try done.
    + intros H0. rewrite H0 in Hr. by apply not_elem_of_nil in Hr.
    + apply NoDup_occ. intros j. specialize (Hone j).
      pose proof (occ_concat_in j (snd <$> got) js ltac:(by apply (list_elem_of_fmap_2 snd got (r, js)))). lia.
    + intros m Hm. destruct (Hmo m Hm) as (_ & _ & Hd). specialize (Hfresh m Hm). destruct (Hsame m Hfresh) as [_ ->].
      rewrite Hd. split; [|done]. intros Hin. apply Hfresh. by eapply (remaining_held got (r, js)).
    + intros Hw. rewrite Et, (Htodo Hw). done.
    + intros j x Hz. apply write_all_in.
      * apply NoDup_occ. intros j'. pose proof (writes_occ rq c mo got j'). specialize (Hone j'). unfold ws. lia.
      * unfold ws, writes_of. apply list_elem_of_bind. exists (r, js). split; [|done]. cbn [fst snd].
        apply list_elem_of_In, in_map. by apply list_elem_of_In.
Qed.
End Requests.

(** ** Adding jobs *)

Section Adding.
Context (queue_idx : nat -> nat) (n : nat).
Context (Hqueue : forall r, (queue_idx r < NR_QUEUES)%nat) (Hn : Z.of_nat n < 2 ^ 32).

(** The FIFO of [r] becomes [jobs ++ js]; its first job is queued when it was empty. *)
Lemma add_rank_spec s r js : js <> [] -> let s' := add_rank queue_idx r js s in
  ranks s' = <[r := set_jobs (jobs (ranks s r) ++ js) (ranks s r)]> (ranks s) /\
  queues s' = (match jobs (ranks s r) with
               | [] => alter (fun l => l ++ take 1 js) (queue_idx (match head js with Some j => fst j | None => r end)) (queues s)
               | _ => queues s end) /\
  table s' = table s /\ syncs s' = syncs s /\ workers s' = workers s /\ clients s' = clients s /\ parked s' = parked s /\
  todo s' = todo s /\ masters s' = masters s /\ leaked s' = leaked s.
Proof using. intros Hjs. cbv zeta. unfold add_rank. destruct js as [|j js]; [done|].
  destruct (jobs (ranks s r)) eqn:Hj; [change (ranks (insert_in_queue queue_idx j s)) with (ranks s)|]; rewrite Hj; by split_and!. Qed.

Lemma inv_add s c rq mo r js rem : inv n s -> clients s !! c = Some (CAdd rq mo ((r, js) :: rem)) ->
  inv n (upd_client c (CAdd rq mo rem) (add_rank queue_idx r js s)).
Proof using Hqueue Hn.
  intros Hinv Hc. pose proof (iv_clients _ _ Hinv c _ Hc) as ([pre Hpre] & Hnd & Hrem & Hmas).
  pose proof (Hrem (r, js) ltac:(by left)) as Hok. assert (js <> []) as Hjs by apply Hok.
  assert (forall j, j ∈ js -> fst j = r) as Hhome by apply Hok.
  destruct (add_rank_spec s r js Hjs) as (Er & Eq & Et & Es & Ew & Ec & Ep & Ed & Em & El).
  set (s1 := add_rank queue_idx r js s) in *. clearbody s1. set (s' := upd_client c (CAdd rq mo rem) s1).
  assert (clients s' = <[c := CAdd rq mo rem]> (clients s)) as Ec' by (unfold s'; cbn; by rewrite Ec).
  assert (r ∉ rem.*1) as Hr.
  { apply rq_ranks_NoDup in Hnd. rewrite <-Hpre in Hnd. apply list_relations.list.NoDup_app in Hnd as (_ & _ & Hnd).
    by apply list_relations.list.NoDup_cons in Hnd as [? _]. }
  assert (forall j, (occ j (held s') + occ j js = occ j (held s))%nat) as Hheld.
  { intros j. pose proof (held_moved s s' c _ (CAdd rq mo rem) j Hc Ec' Em) as H. change (leaked s') with (leaked s1) in H.
    rewrite El in H. cbn [held_by fmap list_fmap concat snd] in H. rewrite occ_app in H. lia. }
  assert (forall r', jobs (ranks s' r') = if decide (r = r') then jobs (ranks s r) ++ js else jobs (ranks s r')) as Hjobs.
  { intros r'. change (ranks s') with (ranks s1). rewrite Er, fn_insert_eq. by case_decide. }
  assert (forall r' j, j ∈ jobs (ranks s' r') -> j ∈ jobs (ranks s r') \/ r' = r /\ j ∈ js) as Hin.
  { intros r' j. rewrite Hjobs. case_decide as Hd; [subst r'; rewrite elem_of_app; intros [?|?]|]; auto. }
  assert (forall j, past s' j <-> past s j) as Hpast.
  { intros j. unfold past, passed. change (workers s') with (workers s1). change (parked s') with (parked s1). rewrite Ew, Ep, Hjobs.
    case_decide as Hd; [|done]. destruct (parked s (fst j)) as [m|] eqn:Hp; [rewrite Hd|split; intros [?|[? ?]]; auto; done].
    destruct (iv_parked _ _ Hinv _ _ Hp) as [Hne _]. by destruct (jobs (ranks s (fst j))). }
  destruct (lists_rank n s s' r (set_jobs (jobs (ranks s r) ++ js) (ranks s r)) Hn Hinv Er) as (L1 & L2 & L3).
  { intros j Hne. cbn [jobs available_jobs set_jobs]. destruct (iv_home _ _ Hinv r j Hne) as [H1 H2]. specialize (Hheld j).
    rewrite occ_app, H1, H2. rewrite (occ_zero j js) in * by (intros ?; by apply Hne, Hhome). lia. }
  { intros j _. cbn [jobs available_jobs set_jobs]. rewrite occ_app. specialize (Hheld j). lia. }
  { cbn. rewrite (iv_lengths _ _ Hinv). symmetry. apply u32_id. unfold fits.
    pose proof (available_short n s r (iv_home _ _ Hinv) (iv_slots _ _ Hinv)). unfold lenz in *. lia. }
  assert (forall j k, j ∈ js -> key s j = Some k -> r ∈ todo s k /\ owned s' k j r) as Hnew.
  { intros j k Hj Hk. split; [by eapply (rm_todo _ _ _ _ _ _ Hok)|].
    destruct (rm_key _ _ _ _ _ _ Hok j k Hj Hk) as [[-> Hw]|[->|(m & -> & ->)]]; [|by left|right].
    - right. exists rq, mo, rem. split; [|done]. rewrite Ec'. apply list_lookup_insert_eq. by eapply lookup_lt_Some.
    - change (masters s') with (masters s1). rewrite Em. split; [by apply Hmas|]. intros c' rq' l Hl. rewrite Ec' in Hl.
      apply lookup_insert_cases in Hl as [[-> [= -> ->]]|[Hne Hl]]; [done|]. intros Hrl. apply Hne. symmetry.
      eapply (iv_client_masters _ _ Hinv c c'); [exact Hc|exact Hl|done|]. intros ->. by apply not_elem_of_nil in Hrl. }
  assert (forall k j, owned s k j r -> j ∈ jobs (ranks s r) -> key s j = Some k ->
    forall j', j' ∈ js -> key s j' <> Some k) as Hold.
  { intros k j Ho Hj Hk j' Hj'. eapply (owned_no_remaining n s k j r Hinv Hj Hk Ho c); [exact Hc|by left|done|exact Hj']. }
  assert (forall k j r', owned s k j r' -> owned s' k j r') as Howned.
  { intros [c'|m] j r' Ho; cbn [owned] in *.
    - destruct Ho as [(rq' & Hc')|(rq' & m & l & Hc' & Hw & Hl)].
      + left. exists rq'. rewrite Ec', list_lookup_insert_ne; [done|]. congruence.
      + right. destruct (decide (c' = c)) as [->|Hne].
        * rewrite Hc in Hc'. injection Hc' as <- <- <-. exists rq, mo, rem. split; [|split; [done|]].
          -- rewrite Ec'. apply list_lookup_insert_eq. by eapply lookup_lt_Some.
          -- intros Hin'. apply Hl. by right.
        * exists rq', m, l. by rewrite Ec', list_lookup_insert_ne.
    - change (masters s') with (masters s1). rewrite Em. destruct Ho as [?|[? Ho]]; [by left|right]. split; [done|].
      intros c' rq' l Hl. rewrite Ec' in Hl. apply lookup_insert_cases in Hl as [[-> [= -> <- ->]]|[Hne Hl]]; [|by eapply Ho].
      intros Hin'. eapply (Ho c); [exact Hc|]. by right. }
  change (queues s1) with (queues s') in Eq. change (table s' = table s) in Et.
  change (syncs s' = syncs s) in Es. change (workers s' = workers s) in Ew. change (parked s' = parked s) in Ep.
  change (todo s' = todo s) in Ed. change (masters s' = masters s) in Em.
  clear Hheld El Er Ec. clearbody s'. destruct Hinv. split; try done.
  - rewrite Eq. destruct (jobs (ranks s r)); [by rewrite length_alter|done].
  - intros j. unfold tokens. rewrite Ew, Ep, Hjobs, occ_app. specialize (iv_tokens j). unfold tokens in iv_tokens.
    rewrite occ_app in iv_tokens. rewrite Eq. destruct (jobs (ranks s r)) as [|j0 l] eqn:Hl.
    + destruct js as [|j1 js]; [done|]. cbn [head take]. rewrite take_0, occ_concat_alter by (rewrite iv_queues; apply Hqueue).
      pose proof (Hhome j1 ltac:(by left)) as Hj1. case_decide as Hd.
      * assert (parked s (fst j) = None) as Hp.
        { destruct (parked s (fst j)) eqn:Hp; [|done]. destruct (iv_parked _ _ Hp) as [Hne _]. by rewrite <-Hd in Hne. }
        rewrite Hp, <-Hd, Hl in *. cbn [take app] in *. rewrite take_0, occ_cons, occ_nil in *. lia.
      * rewrite hit_ne by congruence. lia.
    + case_decide as Hd; [|done]. rewrite <-Hd, Hl in *. cbn [take app] in *. done.
  - intros r' m. rewrite Ep, Em. intros Hp. destruct (iv_parked r' m Hp) as [Hne ?]. split; [|done]. rewrite Hjobs.
    case_decide as Hd; [|done]. subst r'. by destruct (jobs (ranks s r)).
  - intros k. rewrite Ed. replace (counter_value s' k) with (counter_value s k); [done|]. destruct k; cbn; by rewrite ?Es, ?Et.
  - intros r' j k Hj Hk. unfold key in Hk. rewrite Et in Hk. rewrite Hpast, Ed. destruct (Hin _ _ Hj) as [Hj'|[-> Hj']].
    + destruct (iv_jobs r' j k Hj' Hk) as [?|[? ?]]; auto.
    + right. by apply Hnew.
  - intros r' j1 j2 k H1 H2 Hk1 Hk2. unfold key in Hk1, Hk2. rewrite Et in *. rewrite !Hpast.
    destruct (Hin _ _ H1) as [H1'|[-> H1']], (Hin _ _ H2) as [H2'|[E2 H2']].
    + by apply (iv_unique r' j1 j2 k).
    + subst r'. destruct (iv_jobs r j1 k H1' Hk1) as [?|[_ Ho]]; [by auto|]. by destruct (Hold k j1 Ho H1' Hk1 j2 H2').
    + destruct (iv_jobs r j2 k H2' Hk2) as [?|[_ Ho]]; [by auto|]. by destruct (Hold k j2 Ho H2' Hk2 j1 H1').
    + left. by eapply (rm_unique _ _ _ _ _ _ Hok).
  - intros r' j Hj. rewrite Et. destruct (Hin _ _ Hj) as [Hj'|[-> Hj']]; [by apply (iv_ready r')|by apply Hok].
  - intros m. rewrite Em, Et, Ed, Ep. apply iv_masters.
  - intros c' z Hz. rewrite Ec' in Hz. apply lookup_insert_cases in Hz as [[-> ->]|[Hne Hz]].
    + split_and!; [|done| |].
      * exists (pre ++ [r]). by rewrite <-app_assoc.
      * intros p Hp. rewrite Et, Ed. apply Hrem. by right.
      * intros m Hm _. rewrite Em. by apply Hmas.
    + specialize (iv_clients c' z Hz). unfold client_ok in *. by rewrite Et, Ed, Em.
  - intros c1 c2 rq1 rq2 m l1 l2 H1 H2 Hl1 Hl2. rewrite Ec' in *.
    apply lookup_insert_cases in H1 as [[-> E1]|[Hn1 H1]], H2 as [[-> E2]|[Hn2 H2]]; [done| | |by eapply iv_client_masters].
    + injection E1 as -> <- ->. by eapply (iv_client_masters c c2).
    + injection E2 as -> <- ->. by eapply (iv_client_masters c1 c).
  - intros w z Hz. rewrite Ew in Hz. specialize (iv_workers w z Hz). unfold worker_ok, master_done, nobody_parked, not_sync in *.
    by rewrite Et, Ed, Em, Ep.
  - by rewrite Ew.
Qed.
End Adding.
