(* ===== verification/ThreadJobReach.v ===== *)
(** * Reachable states of the queues of jobs

    The invariant of ThreadJobInv.v holds in every state that the actions of
    ThreadJob.v reach. *)

From S2P Require Import Prelude ThreadJob ThreadJobInv ThreadJobWorkers ThreadJobClients.
From stdpp Require Import functions.

#[local] Open Scope Z_scope.
#[local] Open Scope dpu_scope.

Lemma occ_map_pair r (l : list nat) j : NoDup l ->
  occ j (map (fun i => (r, i)) l) = if decide (fst j = r /\ snd j ∈ l) then 1%nat else 0%nat.
Proof.
  intros Hnd. assert (j ∈ map (fun i => (r, i)) l <-> fst j = r /\ snd j ∈ l) as Hin.
  { destruct j as [r' i']. cbn. rewrite !list_elem_of_In, in_map_iff. split.
    - by intros (x & [= -> ->] & ?).
    - intros [-> ?]. by exists i'. }
  case_decide as Hd; [|by apply occ_zero; rewrite Hin].
  assert (NoDup (map (fun i => (r, i)) l)) as Hm by (apply NoDup_fmap_2; [by intros ? ? [=]|done]).
  assert (forall k, NoDup k -> j ∈ k -> occ j k = 1%nat) as H; [|apply H; [done|by apply Hin]].
  induction 1 as [|x k Hx Hk IH]; intros Hj; [by apply not_elem_of_nil in Hj|]. rewrite occ_cons.
  apply elem_of_cons in Hj as [<-|Hj]; [by rewrite hit_eq, (occ_zero _ _ Hx)|]. rewrite hit_ne, IH; [lia|done|congruence].
Qed.
Lemma occ_reverse j l : occ j (reverse l) = occ j l.
Proof.
  induction l as [|x l IH]; [done|]. rewrite reverse_cons, occ_app, IH, !occ_cons, occ_nil. lia.
Qed.
Lemma bind_replicate_nil {X} (f : X -> list job_id) k x : f x = [] -> replicate k x ≫= f = [].
Proof. intros Hf. induction k as [|k IH]; [done|]. cbn [replicate]. by rewrite bind_cons, Hf, IH. Qed.

Lemma inv_initial n nr_workers nr_clients : inv n (initial_state n nr_workers nr_clients).
Proof.
  set (s := initial_state n nr_workers nr_clients).
  assert (forall r j, occ j (available_jobs (ranks s r)) = if decide (fst j = r /\ (snd j < n)%nat) then 1%nat else 0%nat) as Ho.
  { intros r j. cbn. rewrite occ_reverse, occ_map_pair by apply NoDup_seq. repeat case_decide; rewrite ?elem_of_seq in *; lia. }
  assert (forall w x, workers s !! w = Some x -> x = WIdle) as Hw by (by intros w x [-> _]%lookup_replicate).
  assert (forall c x, clients s !! c = Some x -> x = CIdle DPU_OK) as Hc by (by intros c x [-> _]%lookup_replicate).
  assert (held s = []) as Hh by (unfold held; cbn; by rewrite bind_replicate_nil).
  split; try done.
  - intros r j Hne. split; [|done]. rewrite Ho. case_decide; [tauto|done].
  - intros j. rewrite Ho, Hh. cbn [jobs ranks s initial_state]. rewrite !occ_nil. repeat case_decide; tauto || lia.
  - intros r. cbn. unfold lenz. by rewrite length_reverse, length_map, length_seq.
  - intros j. unfold tokens. cbn. by rewrite bind_replicate_nil.
  - intros [c|m]; cbn; by split_and!; [|constructor|].
  - by intros m ?%not_elem_of_nil.
  - by intros c x ->%Hc.
  - by intros c1 c2 rq1 rq2 m l1 l2 ?%Hc.
  - by intros w x ->%Hw.
  - by intros w1 w2 x1 x2 m ->%Hw _.
Qed.

Definition valid_action (a : action) : Prop :=
  match a with ActRequest _ rq => valid_request rq | _ => True end.

Section Reachable.
Context (queue_idx worker_queue : nat -> nat) (n : nat).
Context (Hqueue : forall r, (queue_idx r < NR_QUEUES)%nat) (Hn : Z.of_nat n < 2 ^ 32).

Lemma inv_client_step s c idx s' : inv n s -> client_step queue_idx c idx s = Some s' -> inv n s'.
Proof using Hqueue Hn.
  intros Hinv. unfold client_step. destruct (clients s !! c) as [x|] eqn:Hc; [|done]. cbn [mbind option_bind].
  pose proof (iv_clients _ _ Hinv c x Hc) as Hok.
  destruct x as [|rq got cur [|r rest]|[|[r js] got] st|rq mo [|[r js] rem]|rq]; [done|..].
  - assert (cur = []) as ->.
    { destruct Hok as (_ & _ & _ & _ & Hcur & _). destruct cur as [|j cur]; [done|]. by specialize (Hcur j ltac:(by left)). }
    assert (valid_request rq) as Hrq by (destruct Hok as (_ & ? & ? & _); by split).
    destruct (rq_master rq) eqn:Hm.
    + cbv zeta. match goal with |- context [got !! ?i] => destruct (got !! i) as [[r js]|]; [|done] end. cbn [mbind option_bind].
      destruct (dpu_thread_job_get_job_unlocked (ranks s r)) as [st| |m rk] eqn:Hget; [|done|]; intros [= <-].
      * eapply (inv_get_error n s c rq got [] [] st); done.
      * pose proof Hget as Hget'. apply get_job_ok in Hget' as (av & Ha & _).
        apply inv_fill; [by eapply inv_master|done|done|done|]. intros m' [= <-]. split; [by left|].
        split; [by apply (master_unused n)|]. cbn. by rewrite fn_insert_eq, decide_True.
    + intros [= <-]. apply inv_fill; [done..|by intros []|done|done].
  - destruct (dpu_thread_job_get_job_unlocked (ranks s r)) as [st| |j rk] eqn:Hget; [|done|]; intros [= <-].
    + by eapply inv_get_error.
    + by apply inv_get.
  - intros [= <-]. eapply inv_client_end; try done. intros r Ha. exfalso. by eapply no_added in Ha.
  - intros [= <-]. by apply inv_unget.
  - intros [= <-]. apply (inv_client_end n s c (CAdd rq mo [])); try done; try (by destruct (rq_waits rq)).
    + destruct (rq_waits rq) eqn:Hw; done.
    + intros r [(rq' & Hc')|(rq' & m & l & Hc' & Hw & _)] _; rewrite Hc in Hc'; [done|]. injection Hc' as <- <- <-.
      rewrite Hw. by exists rq.
  - intros [= <-]. by apply inv_add.
  - destruct (Z.eqb_spec (nr_ranks (syncs s c)) 0) as [Hz|]; [|done]. cbn [andb]. case_bool; [|done]. intros [= <-]. by apply inv_wait.
Qed.

Lemma inv_step a s s' : inv n s -> valid_action a -> step queue_idx worker_queue a s = Some s' -> inv n s'.
Proof using Hqueue Hn.
  intros Hinv Ha. destruct a as [w st|c rq|c idx]; cbn [step].
  - by apply (inv_worker_step queue_idx worker_queue).
  - unfold request_step. destruct (clients s !! c) as [x|] eqn:Hc; [|done]. cbn [mbind option_bind]. destruct x as [st| | | |]; try done.
    case_bool; intros [= <-]; [|by eapply inv_request]. eapply inv_client_end; try done. intros r Hr. exfalso. by eapply no_added in Hr.
  - by apply inv_client_step.
Qed.

(** The states of the program: [nr_workers] workers, [nr_clients] clients, whose
    requests name distinct ranks. *)
Inductive reachable (nr_workers nr_clients : nat) : state -> Prop :=
  | reachable_initial : reachable nr_workers nr_clients (initial_state n nr_workers nr_clients)
  | reachable_step a s s' : reachable nr_workers nr_clients s -> valid_action a ->
      step queue_idx worker_queue a s = Some s' -> reachable nr_workers nr_clients s'.

Lemma inv_reachable nr_workers nr_clients s : reachable nr_workers nr_clients s -> inv n s.
Proof using Hqueue Hn. induction 1; [apply inv_initial|by eapply inv_step]. Qed.
End Reachable.
