(* ===== verification/ThreadJobSync.v ===== *)
(** * No synchronisation is lost

    A client waits for the synchronisation jobs that it added: every rank its
    counter waits for has, in its FIFO, the job that decrements the counter. *)

From S2P Require Import Prelude ThreadJob ThreadJobInv ThreadJobWorkers ThreadJobClients ThreadJobReach.
From stdpp Require Import functions.

#[local] Open Scope Z_scope.
#[local] Open Scope dpu_scope.

(** The rank [r] has a job that will decrement the counter of the client [c]. *)
Definition sync_pending (s : state) (c r : nat) : Prop :=
  exists j, j ∈ jobs (ranks s r) /\ table s j = JobSync c /\ ~ past s j.
Definition sync_inv (s : state) : Prop :=
  forall c r, r ∈ todo s (OfSync c) -> added s c r -> sync_pending s c r.

(** The jobs that are waited for are kept. *)
Definition keeps (s s' : state) : Prop := forall c r j, j ∈ jobs (ranks s r) -> table s j = JobSync c -> ~ past s j ->
  r ∈ todo s' (OfSync c) -> j ∈ jobs (ranks s' r) /\ table s' j = JobSync c /\ ~ past s' j.
Lemma sync_keeps s s' : sync_inv s -> keeps s s' ->
  (forall c r, r ∈ todo s' (OfSync c) -> added s' c r -> (r ∈ todo s (OfSync c) /\ added s c r) \/ sync_pending s' c r) ->
  sync_inv s'.
Proof.
  intros Hs Hk Hsub c r Hr Ha. destruct (Hsub c r Hr Ha) as [[Hr' Ha']|?]; [|done].
  destruct (Hs c r Hr' Ha') as (j & Hj & Ht & Hp). exists j. by apply Hk.
Qed.

(** ** Workers *)

(** The worker [w] becomes [y]; it has passed only jobs that are not synchronisations. *)
Record worker_moved (s s' : state) (w : nat) (y : worker) : Prop := {
  wm_workers : workers s' = <[w := y]> (workers s);
  wm_clients : clients s' = clients s;
  wm_todo : forall c r, r ∈ todo s' (OfSync c) -> r ∈ todo s (OfSync c);
  wm_table : forall j c, table s j = JobSync c -> table s' j = JobSync c;
  wm_passed : forall j c, j ∈ passed_by y -> table s j = JobSync c -> fst j ∈ todo s' (OfSync c) -> past s j;
}.

Section Moved.
Context {n : nat} {s s' : state} {w : nat} {y : worker} (Hinv : inv n s) (Hs : sync_inv s) (Hmoved : worker_moved s s' w y).

Lemma passed_moved j : j ∈ passed s' -> j ∈ passed s \/ j ∈ passed_by y.
Proof using Hmoved.
  unfold passed. rewrite (wm_workers _ _ _ _ Hmoved). intros Hj.
  apply list_elem_of_bind in Hj as (z & Hz & [i Hi]%list_elem_of_lookup).
  apply lookup_insert_cases in Hi as [[-> ->]|[_ Hi]]; [by right|left].
  apply list_elem_of_bind. exists z. split; [done|]. by eapply list_elem_of_lookup_2.
Qed.
Lemma sync_moved : keeps s s' -> sync_inv s'.
Proof using Hs Hmoved.
  intros Hk. apply (sync_keeps s); [done..|]. intros c r Hr Ha. left. split; [by apply Hmoved|].
  unfold added in *. by rewrite <-(wm_clients _ _ _ _ Hmoved).
Qed.

(** The FIFOs are the same. *)
Lemma sync_quiet : (forall r, jobs (ranks s' r) = jobs (ranks s r)) -> parked s' = parked s -> sync_inv s'.
Proof using Hinv Hs Hmoved.
  intros Hj Hp. apply sync_moved. intros c r j Hjr Ht Hnp Hr. rewrite Hj. split_and!; [done|by apply Hmoved|].
  intros [Hpast|Hpast]; apply Hnp.
  - apply passed_moved in Hpast as [?|Hy]; [by left|]. eapply (wm_passed _ _ _ _ Hmoved); [done..|].
    by rewrite (jobs_home Hinv r j Hjr).
  - right. by rewrite Hp, Hj in Hpast.
Qed.

(** The head [j] of the rank [r] is released. *)
Lemma sync_advance r j l : jobs (ranks s r) = j :: l -> (not_sync s j \/ past s j) ->
  (forall r', jobs (ranks s' r') = if decide (r' = r) then l else jobs (ranks s r')) ->
  (forall r', parked s' r' = if decide (r' = r) then None else parked s r') -> sync_inv s'.
Proof using Hinv Hs Hmoved.
  intros Hl Hgone Hj Hp. apply sync_moved. intros c r' j' Hj' Ht Hnp Hr'.
  assert (j' <> j) as Hne by (intros ->; destruct Hgone as [Hn|?]; [by destruct (Hn c)|done]).
  split_and!; [|by apply Hmoved|].
  - rewrite Hj. case_decide; [subst r'|done]. rewrite Hl in Hj'. by apply elem_of_cons in Hj' as [?|?].
  - intros [Hpast|Hpast]; apply Hnp.
    + apply passed_moved in Hpast as [?|Hy]; [by left|]. eapply (wm_passed _ _ _ _ Hmoved); [done..|].
      by rewrite (jobs_home Hinv r' j' Hj').
    + right. rewrite Hp, Hj in Hpast. case_decide; [by destruct Hpast|done].
Qed.
End Moved.

Lemma notify_facts r st l s : let s' := foldl (notify_sync r st) s l in
  table s' = table s /\ clients s' = clients s /\ workers s' = workers s /\ parked s' = parked s /\
  (forall c r', r' ∈ todo s' (OfSync c) -> r' ∈ todo s (OfSync c)) /\
  (forall j c, j ∈ l -> table s j = JobSync c -> r ∉ todo s' (OfSync c)).
Proof.
  cbv zeta. revert s. induction l as [|j l IH]; intros s; cbn [foldl]; [split_and!; try done; by intros j c ?%not_elem_of_nil|].
  destruct (IH (notify_sync r st s j)) as (H1 & H2 & H3 & H4 & H5 & H6).
  assert (table (notify_sync r st s j) = table s) as E1 by (unfold notify_sync; by destruct (table s j)).
  assert (forall c r', r' ∈ todo (notify_sync r st s j) (OfSync c) -> r' ∈ todo s (OfSync c) /\ (table s j = JobSync c -> r' <> r)) as E2.
  { intros c r'. unfold notify_sync. destruct (table s j) as [|c'|] eqn:Ht; [by split..| |by split].
    cbn. rewrite fn_insert_eq. case_decide as Hd.
    - injection Hd as <-. by intros [? ?]%elem_of_remove.
    - intros ?. split; [done|]. intros [= ->]. done. }
  split_and!.
  - by rewrite H1.
  - rewrite H2. unfold notify_sync. by destruct (table s j).
  - rewrite H3. unfold notify_sync. by destruct (table s j).
  - rewrite H4. unfold notify_sync. by destruct (table s j).
  - intros c r' Hr. by apply H5, E2 in Hr as [? _].
  - intros j' c [->|Hj']%elem_of_cons Ht; [|apply (H6 j' c Hj'); by rewrite E1].
    intros Hr. apply H5, E2 in Hr as [_ Hr]. by apply Hr.
Qed.

Section Workers.
Context (queue_idx worker_queue : nat -> nat) (n : nat) (s : state) (Hinv : inv n s) (Hs : sync_inv s).

(** What the worker has passed before does not count. *)
Lemma move_passed w x y j c : workers s !! w = Some x -> passed_by y = passed_by x -> j ∈ passed_by y -> table s j = JobSync c ->
  past s j.
Proof using.
  intros Hw Hy Hj _. left. apply list_elem_of_bind. exists x. rewrite <-Hy. split; [done|]. by eapply list_elem_of_lookup_2.
Qed.
Lemma sync_move w x y q : workers s !! w = Some x -> passed_by y = passed_by x -> sync_inv (set_queues q (upd_worker w y s)).
Proof using Hinv Hs.
  intros Hw Hy. apply (sync_quiet (s' := set_queues q (upd_worker w y s)) Hinv Hs (w := w) (y := y)); try done.
  split; try done. intros j c Hj Ht _. by eapply move_passed.
Qed.

Lemma sync_after_job w j status s' : workers s !! w = Some (WDone j status) -> after_job w j status s = Some s' -> sync_inv s'.
Proof using Hinv Hs.
  intros Hw. destruct (token_head Hinv w _ j Hw ltac:(by left)) as [Hp [l Hl]]. unfold after_job.
  destruct (Z.eqb_spec status DPU_OK) as [->|Hst]; cbn [negb].
  - destruct (dpu_thread_advance_to_next_job _) as [[rk next]|] eqn:Ha; [|done]. cbn [mbind option_bind]. intros [= <-].
    apply advance_ok in Ha as (j' & l' & Hl' & -> & ->). rewrite Hl in Hl'. injection Hl' as <- <-.
    eapply (sync_advance Hinv Hs (w := w)); [split; try done|exact Hl| | |].
    + intros j' c Hj'. destruct l; by apply not_elem_of_nil in Hj'.
    + right. left. apply list_elem_of_bind. exists (WDone j DPU_OK). split; [by left|by eapply list_elem_of_lookup_2].
    + intros r'. cbn. rewrite fn_insert_eq. repeat case_decide; subst; done.
    + intros r'. exact (parked_none s _ r' Hp).
  - intros [= <-]. unfold dpu_thread_update_status. cbv zeta. rewrite !notify_ranks.
    set (st := async_status _ _). set (rk := foldl _ _ (jobs (set_job_error _ _))).
    destruct (notify_facts (fst j) st (jobs (ranks s (fst j))) s) as (E1 & E2 & E3 & E4 & E5 & E6).
    pose proof (notify_ranks (fst j) st (jobs (ranks s (fst j))) s) as E7.
    generalize dependent (foldl (notify_sync (fst j) st) s (jobs (ranks s (fst j)))). intros s1 E1 E2 E3 E4 E5 E6 E7.
    assert (worker_moved s (upd_worker w WIdle (upd_rank (fst j) rk s1)) w WIdle) as Hm.
    { split; try done; [cbn; by rewrite E3|cbn; by rewrite E1|]. intros j' c Hj'. by apply not_elem_of_nil in Hj'. }
    apply (sync_moved Hs Hm). intros c r j' Hj' Ht Hnp Hr. change (r ∈ todo s1 (OfSync c)) in Hr. split_and!; [|cbn; by rewrite E1|].
    + cbn. rewrite fn_insert_eq. case_decide; [subst r|by rewrite E7]. by destruct (E6 j' c Hj' Ht).
    + intros [Hpast|[Hpast Hh]]; apply Hnp.
      * apply (passed_moved Hm) in Hpast as [?|Hy]; [by left|by apply not_elem_of_nil in Hy].
      * right. cbn in Hpast, Hh. rewrite E4 in Hpast. split; [done|]. rewrite E7, fn_insert_eq in Hh.
        case_decide as Hd; [rewrite <-Hd, Hp in Hpast; done|done].
Qed.

Lemma sync_compute w j status s' : workers s !! w = Some (WCompute j) -> dpu_thread_compute_job w j status s = Some s' -> sync_inv s'.
Proof using Hinv Hs.
  intros Hw. destruct (token_head Hinv w _ j Hw ltac:(by left)) as [Hp [l Hl]]. unfold dpu_thread_compute_job.
  destruct (table s j) as [t|c|c] eqn:Ht.
  - intros [= <-]. apply (sync_quiet Hinv Hs (w := w) (y := WDone j status)); [split; try done|done..].
    intros j' c ->%list_elem_of_singleton Ht'. congruence.
  - intros [= <-]. set (s' := upd_worker _ _ _).
    assert (forall c' r, r ∈ todo s' (OfSync c') -> r ∈ todo s (OfSync c') /\ (c' = c -> r <> fst j)) as Htodo.
    { intros c' r. unfold s'. cbn. rewrite fn_insert_eq. case_decide as Hd; [injection Hd as <-; by intros [? ?]%elem_of_remove|].
      intros ?. split; [done|congruence]. }
    apply (sync_quiet Hinv Hs (w := w) (y := WDone j DPU_OK)); [split; try done|done..].
    + intros c' r Hr. by apply Htodo.
    + intros j' c' ->%list_elem_of_singleton Ht' Hr. rewrite Ht in Ht'. injection Ht' as <-. apply Htodo in Hr as [_ Hr]. by destruct Hr.
  - destruct (table s (default j (master_job c))) as [|?|m] eqn:Hm; [done..|]. cbv zeta.
    set (s1 := rank_done _ _ _).
    assert (forall j' c', table s j' = JobSync c' -> table s1 j' = JobSync c') as Htab.
    { intros j' c' Ht'. unfold s1. cbn. rewrite fn_insert_eq. case_decide; [congruence|done]. }
    assert (not_sync s j) as Hns by (intros c'; congruence).
    assert (forall y, (forall j', j' ∈ passed_by y -> j' = j) -> worker_moved s (upd_worker w y s1) w y) as Hmv.
    { intros y Hy. split; try done. intros j' c' Hj' Ht'. apply Hy in Hj' as ->. congruence. }
    case_bool; [case_bool|case_bool].
    + change (ranks s1) with (ranks s). destruct (dpu_thread_advance_to_next_job _) as [[rk next]|] eqn:Ha; [|done].
      cbn [mbind option_bind]. intros [= <-].
      apply advance_ok in Ha as (j' & l' & Hl' & -> & ->). rewrite Hl in Hl'. injection Hl' as <- <-.
      eapply (sync_advance Hinv Hs (w := w)); [split; try done|exact Hl|by left| |].
      * intros j' c' Hj'. by apply not_elem_of_nil in Hj'.
      * intros r'. cbn. rewrite fn_insert_eq. repeat case_decide; subst; done.
      * intros r'. exact (parked_none s _ r' Hp).
    + intros [= <-]. eapply (sync_quiet Hinv Hs); [apply Hmv|done..]. by intros j' ->%list_elem_of_singleton.
    + intros [= <-]. assert (worker_moved s (upd_worker w WIdle (upd_parked (fst j) (Some (default j (master_job c))) s1)) w WIdle) as Hm'.
      { split; try done. intros j' c' Hj'. by apply not_elem_of_nil in Hj'. }
      apply (sync_moved Hs Hm'). intros c' r j' Hj' Ht' Hnp Hr. split_and!; [done|by apply Htab|].
      intros [Hpast|[Hpast Hh]]; [apply Hnp; apply (passed_moved Hm') in Hpast as [?|Hy]; [by left|by apply not_elem_of_nil in Hy]|].
      cbn in Hpast, Hh. rewrite fn_insert_eq in Hpast. case_decide as Hd; [|apply Hnp; by right].
      rewrite <-Hd, Hl in Hh. injection Hh as <-. congruence.
    + intros [= <-]. eapply (sync_quiet Hinv Hs); [apply Hmv|done..]. by intros j' ->%list_elem_of_singleton.
Qed.

Lemma sync_worker_step w status s' : worker_step queue_idx worker_queue w status s = Some s' -> sync_inv s'.
Proof using Hinv Hs.
  unfold worker_step. destruct (workers s !! w) as [x|] eqn:Hw; [|done]. cbn [mbind option_bind].
  destruct x as [|j|next mo c|[j|] mo c|j mo [|other rs] st|jo mo st|j st].
  - destruct (queues s !! worker_queue w) as [[|j l]|] eqn:Hq; [done| |done]. cbn [mbind option_bind]. intros [= <-].
    by eapply (sync_move w WIdle (WCompute j)).
  - by apply sync_compute.
  - intros [= <-]. destruct next as [j|]; cbn [dpu_thread_insert_rank_list].
    + by eapply (sync_move w (WInsert (Some j) mo c) (WFunction None mo c)).
    + rewrite <-(set_queues_same (upd_worker _ _ _)). by eapply (sync_move w (WInsert None mo c)).
  - intros [= <-]. rewrite <-(set_queues_same (upd_worker _ _ _)). eapply (sync_move w); [exact Hw|]. by case_bool.
  - intros [= <-]. rewrite <-(set_queues_same (upd_worker _ _ _)). by eapply (sync_move w).
  - intros [= <-]. rewrite <-(set_queues_same (upd_worker _ _ _)). by eapply (sync_move w).
  - destruct (Nat.eqb_spec other (fst j)) as [->|Hne]; cbn [mbind option_bind].
    + intros [= <-]. rewrite <-(set_queues_same (upd_worker _ _ _)). by eapply (sync_move w).
    + destruct (global_block_rank _ other s) as [s1|] eqn:Hg; [|done]. cbn [mbind option_bind]. intros [= <-].
      unfold global_block_rank in Hg. destruct (dpu_thread_advance_to_next_job _) as [[rk next]|] eqn:Ha; [|done].
      cbn [mbind option_bind] in Hg. apply advance_ok in Ha as (j' & l & Hl & -> & ->). destruct l as [|next l]; [done|].
      cbn [head mbind option_bind] in Hg. injection Hg as <-.
      pose proof (iv_workers _ _ Hinv w _ Hw) as (_ & _ & [[m Hm] _ Hpk _]).
      pose proof (Hpk other ltac:(by left) Hne) as Hpo. rewrite Hm in Hpo.
      eapply (sync_advance Hinv Hs (w := w)); [split; try done|exact Hl| | |].
      * intros j2 c Hj2 Ht2 _. by eapply move_passed.
      * right. right. rewrite (jobs_home Hinv other j') by (rewrite Hl; by left). by rewrite Hpo, Hl.
      * intros r'. cbn. rewrite fn_insert_eq. repeat case_decide; subst; done.
      * intros r'. cbn. rewrite fn_insert_eq. repeat case_decide; subst; done.
  - destruct mo as [m|]; cbn [mbind option_bind].
    + unfold release_master. destruct (table s m) as [| |c]; [done..|]. cbn [mbind option_bind]. intros [= <-].
      eapply (sync_quiet Hinv Hs (w := w)); [split; try done| |done].
      * intros j c' Hj Ht _. eapply move_passed; [exact Hw| |exact Hj|exact Ht]. by destruct jo.
      * intros r. cbn. rewrite fn_insert_eq. case_decide; [by subst|done].
    + intros [= <-]. rewrite <-(set_queues_same (upd_worker _ _ _)). eapply (sync_move w); [exact Hw|]. by destruct jo.
  - by apply sync_after_job.
Qed.
End Workers.

(** ** Clients *)

(** The client [c] becomes [y]; the FIFOs, and the contents of their jobs, are the same. *)
Record client_changed (s s' : state) (c : nat) (y : client) : Prop := {
  ck_clients : clients s' = <[c := y]> (clients s);
  ck_workers : workers s' = workers s /\ parked s' = parked s;
  ck_jobs : forall r, jobs (ranks s' r) = jobs (ranks s r);
  ck_table : forall r j, j ∈ jobs (ranks s r) -> table s' j = table s j;
  ck_todo : forall c', c' <> c -> todo s' (OfSync c') = todo s (OfSync c');
}.

Lemma changed_added s s' c y c' r : clients s' = <[c := y]> (clients s) -> c' <> c -> added s' c' r -> added s c' r.
Proof.
  intros Hc Hne. unfold added. rewrite Hc, list_lookup_insert_ne by done. done.
Qed.
Lemma changed_self s s' c y r : clients s' = <[c := y]> (clients s) -> added s' c r ->
  (exists rq, y = CWait rq) \/ (exists rq m l, y = CAdd rq m l /\ rq_waits rq = true /\ r ∉ l.*1).
Proof.
  intros Hcs [(rq & Hc)|(rq & m & l & Hc & Hl)]; rewrite Hcs in Hc; apply lookup_insert_cases in Hc as [[_ Hy]|[? _]]; try done.
  - left. by exists rq.
  - right. by exists rq, m, l.
Qed.
Lemma sync_client s s' c y : sync_inv s -> client_changed s s' c y ->
  (forall r, r ∈ todo s' (OfSync c) -> added s' c r -> r ∈ todo s (OfSync c) /\ added s c r) -> sync_inv s'.
Proof.
  intros Hs [Hc [Hw Hp] Hj Ht Hd] Hself. apply (sync_keeps s); [done| |].
  - intros c' r j Hjr Htj Hnp _. rewrite Hj. split_and!; [done|by rewrite (Ht r j Hjr)|].
    unfold past, passed in *. by rewrite Hw, Hp, Hj.
  - intros c' r Hr Ha. left. destruct (decide (c' = c)) as [->|Hne]; [by apply Hself|].
    split; [by rewrite <-Hd|by eapply changed_added].
Qed.
(** [y] waits for nothing. *)
Lemma sync_client_none s s' c y : sync_inv s -> client_changed s s' c y ->
  (forall rq, y <> CWait rq) -> (forall rq m l, y <> CAdd rq m l) -> sync_inv s'.
Proof.
  intros Hs Hch H1 H2. eapply sync_client; [done..|]. intros r _ Ha. exfalso.
  destruct (changed_self _ _ _ _ _ (ck_clients _ _ _ _ Hch) Ha) as [[rq ?]|(rq & m & l & ? & _)]; [by eapply H1|by eapply H2].
Qed.

Lemma unget_jobs js x : jobs (unget_rank js x) = jobs x.
Proof. unfold unget_rank. revert x. induction js as [|j js IH]; intros x; [done|]. cbn [foldl]. by rewrite IH. Qed.

Section SyncClients.
Context (queue_idx : nat -> nat) (n : nat) (s : state) (Hinv : inv n s) (Hs : sync_inv s).

(** The jobs are filled: the client has added none. *)
Lemma sync_fill s1 c rq mo got : clients s !! c = Some (CGet rq got [] []) ->
  workers s1 = workers s -> parked s1 = parked s -> clients s1 = clients s -> (forall c', todo s1 (OfSync c') = todo s (OfSync c')) ->
  (forall r, jobs (ranks s1 r) = jobs (ranks s r)) -> (forall r j, j ∈ jobs (ranks s r) -> table s1 j = table s j) ->
  sync_inv (upd_client c (CAdd rq mo got) (foldl (write_jobs rq c mo) s1 got)).
Proof using Hinv Hs.
  intros Hc Ew Ep Ec Ed Ej Et. rewrite write_jobs_all. set (ws := writes_of rq c mo got).
  destruct (write_all_same ws s1) as (Er' & _ & _ & Ew' & Ec' & Ep' & _ & _ & Et' & Ej').
  set (s' := upd_client c _ _).
  assert (client_changed s s' c (CAdd rq mo got)) as Hch.
  { split.
    - unfold s'. cbn [upd_client clients]. by rewrite Ec', Ec.
    - unfold s'. cbn [upd_client workers parked]. by rewrite Ew', Ep', Ew, Ep.
    - intros r. unfold s'. cbn [upd_client ranks]. by rewrite Er', Ej.
    - intros r j Hj. unfold s'. cbn [upd_client table]. rewrite <-(Et r j Hj). apply Ej'. intros r' x Hw.
      apply writes_inv in Hw as (js & Hgot & Hjs & _). apply (jobs_not_held Hinv r j Hj). apply (held_client c _ j Hc).
      cbn [held_by]. rewrite app_nil_r. by eapply (remaining_held got (r', js)).
    - intros c' _. unfold s'. cbn [upd_client todo]. by rewrite Et', Ed. }
  apply (sync_client s s' c _ Hs Hch). intros r Hr Ha. exfalso.
  pose proof (iv_clients _ _ Hinv c _ Hc) as (Hrq & _ & _ & _ & _ & _ & Htodo). rewrite app_nil_r in Hrq.
  destruct (changed_self _ _ _ _ _ (ck_clients _ _ _ _ Hch) Ha) as [[? [=]]|(rq' & m & l & [= <- <- <-] & Hw & Hl)].
  unfold s' in Hr. cbn [upd_client todo] in Hr. rewrite Et', Ed, (Htodo Hw), <-Hrq in Hr. done.
Qed.

Lemma sync_add c rq mo r js rem : clients s !! c = Some (CAdd rq mo ((r, js) :: rem)) ->
  sync_inv (upd_client c (CAdd rq mo rem) (add_rank queue_idx r js s)).
Proof using Hinv Hs.
  intros Hc. pose proof (iv_clients _ _ Hinv c _ Hc) as (_ & _ & Hrem & _). pose proof (Hrem (r, js) ltac:(by left)) as Hok.
  destruct (add_rank_spec queue_idx s r js (rm_jobs _ _ _ _ _ _ Hok)) as (Er & _ & Et & _ & Ew & Ec & Ep & Ed & _).
  generalize dependent (add_rank queue_idx r js s). intros s1 Er Et Ew Ec Ep Ed. set (s' := upd_client c _ s1).
  assert (clients s' = <[c := CAdd rq mo rem]> (clients s)) as Ecs by (unfold s'; cbn [upd_client clients]; by rewrite Ec).
  assert (forall r', exists l, jobs (ranks s' r') = jobs (ranks s r') ++ l) as Hjobs.
  { intros r'. change (ranks s') with (ranks s1). rewrite Er, fn_insert_eq. case_decide as Hd; [subst r'; by exists js|].
    exists []. by rewrite app_nil_r. }
  assert (forall j r', j ∈ jobs (ranks s r') \/ j ∈ js -> past s' j -> past s j) as Hpast.
  { intros j r' _. unfold past, passed. change (workers s') with (workers s1). change (parked s') with (parked s1). rewrite Ew, Ep.
    intros [?|[Hp Hh]]; [by left|right]. split; [done|]. destruct (Hjobs (fst j)) as [l Hl]. rewrite Hl in Hh.
    destruct (parked s (fst j)) as [m|] eqn:Hpk; [|done]. destruct (iv_parked _ _ Hinv _ _ Hpk) as [Hne _].
    by destruct (jobs (ranks s (fst j))). }
  apply (sync_keeps s); [done| |].
  - intros c' r' j Hj Ht Hnp _. destruct (Hjobs r') as [l Hl]. split_and!.
    + rewrite Hl. apply elem_of_app. by left.
    + change (table s') with (table s1). by rewrite Et.
    + intros Hp. apply Hnp. apply (Hpast j r'); [by left|done].
  - intros c' r' Hr Ha. change (todo s') with (todo s1) in Hr. rewrite Ed in Hr.
    destruct (decide (c' = c)) as [->|Hne]; [|left; split; [done|by eapply changed_added]].
    destruct (changed_self _ _ _ _ _ Ecs Ha) as [[? [=]]|(rq' & m & l & [= <- <- <-] & Hw & Hl)].
    destruct (decide (r' = r)) as [->|Hne'].
    + right. destruct (rm_sync _ _ _ _ _ _ Hok Hw) as (j & Hj & Ht). exists j. split_and!.
      * change (ranks s') with (ranks s1). rewrite Er, fn_insert_eq, decide_True by done. apply elem_of_app. by right.
      * change (table s') with (table s1). by rewrite Et.
      * intros Hp. apply (Hpast j r) in Hp; [|by right].
        assert (j ∈ held s) as Hh by (apply (held_client c _ j Hc); by eapply (remaining_held _ (r, js)); [left|]).
        destruct Hp as [Hp|[_ Hp]].
        -- apply list_elem_of_bind in Hp as (z & Hz & [w Hz']%list_elem_of_lookup).
           destruct (token_head Hinv w z j Hz' (passed_token _ _ Hz)) as [_ [l Hl']].
           apply (jobs_not_held Hinv (fst j) j); [rewrite Hl'; by left|done].
        -- apply (jobs_not_held Hinv (fst j) j); [|done]. by apply head_Some_elem_of in Hp.
    + left. split; [done|]. right. exists rq, mo, ((r, js) :: rem). split_and!; [done..|]. cbn.
      intros [?|?]%elem_of_cons; done.
Qed.

Lemma sync_client_step c idx s' : client_step queue_idx c idx s = Some s' -> sync_inv s'.
Proof using Hinv Hs.
  unfold client_step. destruct (clients s !! c) as [x|] eqn:Hc; [|done]. cbn [mbind option_bind].
  destruct x as [|rq got cur [|r rest]|[|[r js] got] st|rq mo [|[r js] rem]|rq]; [done|..].
  - assert (cur = []) as ->.
    { pose proof (iv_clients _ _ Hinv c _ Hc) as (_ & _ & _ & _ & Hcur & _). destruct cur as [|j cur]; [done|].
      by specialize (Hcur j ltac:(by left)). }
    destruct (rq_master rq) eqn:Hm.
    + cbv zeta. match goal with |- context [got !! ?i] => destruct (got !! i) as [[r js]|]; [|done] end. cbn [mbind option_bind].
      destruct (dpu_thread_job_get_job_unlocked (ranks s r)) as [st| |m rk] eqn:Hget; [|done|]; intros [= <-].
      * eapply (sync_client_none s _ c (CUnget got st)); [done|by split|done..].
      * pose proof Hget as Hget'. apply get_job_ok in Hget' as (av & Ha & ->).
        apply (sync_fill _ c rq (Some m) got Hc); try done.
        -- intros r'. cbn. rewrite fn_insert_eq. case_decide; [by subst|done].
        -- intros r' j Hj. cbn. rewrite fn_insert_eq, decide_False; [done|]. intros ->.
           destruct (available_slot n s r j Hinv) as ((Hf & _) & _); [rewrite Ha; by left|]. by apply (Hf r').
    + intros [= <-]. by apply sync_fill.
  - destruct (dpu_thread_job_get_job_unlocked (ranks s r)) as [st| |j rk] eqn:Hget; [|done|]; intros [= <-].
    + eapply (sync_client_none s _ c (CUnget got st)); [done|by split|done..].
    + apply get_job_ok in Hget as (av & Ha & ->).
      eapply sync_client_none; [exact Hs|split; try done| |]; [|intros ?; by case_bool|intros ? ? ?; by case_bool].
      intros r'. cbn. rewrite fn_insert_eq. case_decide; [by subst|done].
  - intros [= <-]. eapply (sync_client_none s _ c (CIdle st)); [done|by split|done..].
  - intros [= <-]. eapply (sync_client_none s _ c (CUnget got st)); [done|split; try done|done..].
    intros r'. cbn [upd_client ranks upd_rank]. rewrite fn_insert_eq. case_decide; [subst r'|done].
    apply unget_jobs.
  - intros [= <-]. eapply (sync_client s _ c); [done|by split|]. intros r Hr Ha. split; [done|].
    eapply changed_self in Ha; [|done]. right. exists rq, mo, []. split; [done|].
    destruct (rq_waits rq); [split; [done|by apply not_elem_of_nil]|]. by destruct Ha as [[? ?]|(? & ? & ? & ? & _)].
  - intros [= <-]. by apply sync_add.
  - case_bool; [|done]. intros [= <-].
    match goal with |- sync_inv (upd_client c ?y _) => eapply (sync_client_none s _ c y); [done| |done..] end.
    destruct (error_of_status _ =? DPU_OK); [by split|].
    destruct (reset_spec (rq_ranks rq) s) as (H & Ht & _ & _ & Hw & Hcl & Hp & Hd & _).
    split; cbn [upd_client clients workers parked ranks table todo]; rewrite ?Ht, ?Hw, ?Hcl, ?Hp, ?Hd; try done.
    intros r. apply H.
Qed.

Lemma sync_request_step c rq s' : request_step c rq s = Some s' -> sync_inv s'.
Proof using Hs.
  unfold request_step. destruct (clients s !! c) as [x|] eqn:Hc; [|done]. cbn [mbind option_bind]. destruct x as [st| | | |]; try done.
  case_bool; intros [= <-]; [eapply (sync_client_none s _ c (CIdle DPU_ERR_NONBLOCKING_SYNC_CALLBACK)); [done|by split|done..]|].
  eapply (sync_client_none s _ c (CGet rq [] [] (rq_ranks rq))); [done| |done..].
  destruct (rq_waits rq); [|by split]. split; try done. intros c' Hne. cbn. rewrite fn_insert_eq, decide_False; [done|congruence].
Qed.
End SyncClients.

Lemma sync_reachable queue_idx worker_queue n nr_workers nr_clients s : (forall r, (queue_idx r < NR_QUEUES)%nat) ->
  Z.of_nat n < 2 ^ 32 -> reachable queue_idx worker_queue n nr_workers nr_clients s -> sync_inv s.
Proof.
  intros Hq Hn. induction 1 as [|a s s' Hr IH Ha Hstep]; [by intros c r ?%not_elem_of_nil|].
  pose proof (inv_reachable _ _ _ Hq Hn _ _ _ Hr) as Hinv. destruct a as [w st|c rq|c idx]; cbn [step] in Hstep.
  - by eapply (sync_worker_step queue_idx worker_queue n s).
  - by eapply sync_request_step.
  - by eapply (sync_client_step queue_idx n s).
Qed.
