(* ===== verification/ThreadJobProps.v ===== *)
(** * The queues of jobs: properties

    What the invariants give of the states the program reaches: the slots, the
    ranks and the workers, the clients that wait, the status of the jobs; then
    executions where a callback goes wrong. *)

From S2P Require Import Prelude ThreadJob ThreadJobInv ThreadJobWorkers ThreadJobClients ThreadJobReach ThreadJobSync.
From stdpp Require Import functions.

#[local] Open Scope Z_scope.
#[local] Open Scope dpu_scope.

(** A rank is in the list of its own queue. *)
Definition queued_home (queue_idx : nat -> nat) (s : state) : Prop :=
  forall q l j, queues s !! q = Some l -> j ∈ l -> queue_idx (fst j) = q.
(** The queues of [s'] are those of [s], less some jobs; there are as many workers. *)
Definition queues_less (s s' : state) : Prop :=
  length (workers s') = length (workers s) /\
  (queues s' = queues s \/ exists q j l, queues s !! q = Some (j :: l) /\ queues s' = <[q := l]> (queues s)).

Section Placed.
Context (queue_idx worker_queue : nat -> nat).

Lemma home_insert s j : queued_home queue_idx s -> queued_home queue_idx (insert_in_queue queue_idx j s).
Proof.
  intros Hh q l j' Hl Hj'. cbn in Hl. rewrite list_lookup_alter in Hl. case_decide as Hq; [subst q|by eapply Hh].
  destruct (queues s !! queue_idx (fst j)) as [l0|] eqn:Hl0; [|done]. injection Hl as <-.
  apply elem_of_app in Hj' as [Hj'| ->%list_elem_of_singleton]; [by eapply Hh|done].
Qed.
Lemma home_less s s' : queued_home queue_idx s -> queues_less s s' -> queued_home queue_idx s'.
Proof.
  intros Hh [_ [Hq|(q & j & l & Hq & Hq')]] q' l' j' Hl' Hj'; [rewrite Hq in Hl'; by eapply Hh|].
  rewrite Hq' in Hl'. apply lookup_insert_cases in Hl' as [[-> ->]|[_ Hl']]; [|by eapply Hh].
  eapply Hh; [exact Hq|by right].
Qed.
Definition placed (nr : nat) (s : state) : Prop := length (workers s) = nr /\ queued_home queue_idx s.
Lemma placed_less nr s s' : placed nr s -> queues_less s s' -> placed nr s'.
Proof. intros [Hl Hh] Hq. split; [by destruct Hq as [-> _]|by eapply home_less]. Qed.
Lemma placed_insert nr s j : placed nr s -> placed nr (insert_in_queue queue_idx j s).
Proof. intros [Hl Hh]. split; [done|by apply home_insert]. Qed.
Lemma placed_worker nr s w x : placed nr s -> placed nr (upd_worker w x s).
Proof. intros [Hl Hh]. split; [cbn; by rewrite length_insert|done]. Qed.
Lemma placed_same nr s s' : placed nr s -> workers s' = workers s -> queues s' = queues s -> placed nr s'.
Proof. intros Hp Hw Hq. eapply placed_less; [done|]. split; [by rewrite Hw|by left]. Qed.

Lemma notify_same r st l s : let s' := foldl (notify_sync r st) s l in
  workers s' = workers s /\ queues s' = queues s /\ masters s' = masters s /\ clients s' = clients s.
Proof.
  cbv zeta. revert s. induction l as [|j l IH]; intros s; [done|]. cbn [foldl]. destruct (IH (notify_sync r st s j)) as (-> & -> & -> & ->).
  unfold notify_sync. by destruct (table s j).
Qed.

Lemma placed_worker_step nr s w st s' : placed nr s -> worker_step queue_idx worker_queue w st s = Some s' -> placed nr s'.
Proof.
  intros Hp. unfold worker_step. destruct (workers s !! w) as [x|] eqn:Hw; [|done]. cbn [mbind option_bind].
  destruct x as [|j|next mo c|[j|] mo c|j mo [|other rs] st'|jo mo st'|j st'].
  - destruct (queues s !! worker_queue w) as [[|j l]|] eqn:Hq; [done| |done]. cbn [mbind option_bind]. intros [= <-].
    apply placed_worker. eapply placed_less; [exact Hp|]. split; [done|right]. by exists (worker_queue w), j, l.
  - unfold dpu_thread_compute_job. destruct (table s j) as [t|c|c]; [intros [= <-]; by apply placed_worker| |].
    + intros [= <-]. by apply placed_worker.
    + destruct (table s (default j (master_job c))) as [|?|m]; [done..|]. cbv zeta. repeat case_bool; try (intros [= <-]; by apply placed_worker).
      destruct (dpu_thread_advance_to_next_job _) as [[rk next]|]; [|done]. intros [= <-]. by apply placed_worker.
  - intros [= <-]. apply placed_worker. destruct next; [by apply placed_insert|done].
  - intros [= <-]. by apply placed_worker.
  - intros [= <-]. by apply placed_worker.
  - intros [= <-]. by apply placed_worker.
  - destruct (other =? fst j)%nat; cbn [mbind option_bind]; [intros [= <-]; by apply placed_worker|].
    unfold global_block_rank. destruct (dpu_thread_advance_to_next_job _) as [[rk [next|]]|]; [|done..].
    intros [= <-]. by apply placed_worker, placed_insert.
  - destruct mo as [m|]; cbn [mbind option_bind]; [|intros [= <-]; by apply placed_worker].
    unfold release_master. destruct (table s m); [done..|]. intros [= <-]. by apply placed_worker.
  - unfold after_job. case_bool.
    + intros [= <-]. apply placed_worker. unfold dpu_thread_update_status.
      destruct (notify_same (fst j) (async_status (type_of (table s j)) st') (jobs (ranks s (fst j))) s) as (E1 & E2 & E3 & Ecl).
      by apply (placed_same nr s).
    + destruct (dpu_thread_advance_to_next_job _) as [[rk next]|]; [|done]. intros [= <-]. by apply placed_worker.
Qed.
Lemma placed_client_step nr s c idx s' : placed nr s -> client_step queue_idx c idx s = Some s' -> placed nr s'.
Proof.
  intros Hp. unfold client_step. destruct (clients s !! c) as [x|] eqn:Hc; [|done]. cbn [mbind option_bind].
  assert (forall rq mo s0 got, workers s0 = workers s -> queues s0 = queues s -> placed nr (foldl (write_jobs rq c mo) s0 got)) as Hfill.
  { intros rq mo s0 got E1 E2. rewrite write_jobs_all. destruct (write_all_same (writes_of rq c mo got) s0) as (_ & Hq & _ & Hw & _).
    apply (placed_same nr s); [done|by rewrite Hw|by rewrite Hq]. }
  destruct x as [|rq got cur [|r rest]|[|[r js] got] st|rq mo [|[r js] rem]|rq]; [done|..].
  - case_bool; [|intros [= <-]; by apply Hfill]. cbv zeta.
    match goal with |- context [got !! ?i] => destruct (got !! i) as [[r js]|]; [|done] end. cbn [mbind option_bind].
    destruct (dpu_thread_job_get_job_unlocked (ranks s r)); [by intros [= <-]|done|]. intros [= <-]. by apply Hfill.
  - destruct (dpu_thread_job_get_job_unlocked (ranks s r)); [by intros [= <-]|done|]. by intros [= <-].
  - by intros [= <-].
  - by intros [= <-].
  - by intros [= <-].
  - intros [= <-]. unfold add_rank. cbv zeta. destruct (jobs (ranks s r)), js; try done. by apply (placed_insert nr s).
  - case_bool; [|done]. intros [= <-]. case_bool; [done|].
    destruct (reset_spec (rq_ranks rq) s) as (_ & _ & E1 & _ & E2 & _). by apply (placed_same nr s).
Qed.
Lemma placed_step nr s a s' : placed nr s -> step queue_idx worker_queue a s = Some s' -> placed nr s'.
Proof.
  intros Hp. destruct a as [w st|c rq|c idx]; cbn [step]; [by apply placed_worker_step| |by apply placed_client_step].
  unfold request_step. destruct (clients s !! c) as [x|]; [|done]. cbn [mbind option_bind]. destruct x; try done.
  repeat case_bool; by intros [= <-].
Qed.
Lemma placed_reachable n nr_workers nr_clients s : reachable queue_idx worker_queue n nr_workers nr_clients s -> placed nr_workers s.
Proof.
  induction 1 as [|a s s' _ IH _ Hs]; [|by eapply placed_step]. split; [apply length_replicate|].
  intros q l j Hl Hj. apply lookup_replicate in Hl as [-> _]. by apply not_elem_of_nil in Hj.
Qed.
End Placed.

(** ** Stuck workers *)

Section Stuck.
Context (queue_idx worker_queue : nat -> nat) {n : nat} {s : state} (Hinv : inv n s).

(** The master of a job that is computed is a callback. *)
Lemma compute_defined w j status : workers s !! w = Some (WCompute j) -> is_Some (dpu_thread_compute_job w j status s).
Proof using Hinv.
  intros Hw. destruct (token_head Hinv w _ j Hw ltac:(by left)) as [_ [l Hl]]. unfold dpu_thread_compute_job.
  destruct (table s j) as [t|c|c] eqn:Ht; [done..|].
  destruct (compute_key n s w j (OfMaster (default j (master_job c))) Hinv Hw) as (Hr & _); [unfold key; by rewrite Ht|].
  pose proof (todo_positive n s _ _ Hinv Hr) as Hpos. cbn [counter_value] in Hpos.
  destruct (table s (default j (master_job c))) as [|?|m]; [lia..|]. cbv zeta. repeat case_bool; try done.
  change (ranks (rank_done ?k ?r ?x)) with (ranks x). cbn [ranks set_table].
  unfold dpu_thread_advance_to_next_job. by rewrite Hl.
Qed.
(** A worker that has a rank makes a step, unless it has to queue a rank that has no other job. *)
Lemma worker_step_defined w x status : workers s !! w = Some x -> worker_step queue_idx worker_queue w status s = None ->
  (x = WIdle /\ forall j l, queues s !! worker_queue w <> Some (j :: l)) \/
  (exists j mo other rs st m j', x = WGlobal j mo (other :: rs) st /\ other <> fst j /\ mo = Some m /\ parked s other = Some m /\
     jobs (ranks s other) = [j']).
Proof using Hinv.
  intros Hw. unfold worker_step. rewrite Hw. cbn [mbind option_bind]. pose proof (iv_workers _ _ Hinv w x Hw) as Hok.
  destruct x as [|j|next mo c|[j|] mo c|j mo [|other rs] st|jo mo st|j st]; try done.
  - destruct (queues s !! worker_queue w) as [[|j l]|] eqn:Hq; [|done|]; intros _; left; split; try done; by rewrite Hq.
  - intros Hnone. destruct (compute_defined w j status Hw) as [? He]. by rewrite He in Hnone.
  - destruct (Nat.eqb_spec other (fst j)) as [|Hne]; [done|]. cbn [mbind option_bind]. unfold global_block_rank.
    destruct Hok as (_ & _ & [[m Hm] _ Hpk _]). pose proof (Hpk other ltac:(by left) Hne) as Hpo. rewrite Hm in Hpo.
    destruct (iv_parked _ _ Hinv _ _ Hpo) as [Hj _]. unfold dpu_thread_advance_to_next_job.
    destruct (jobs (ranks s other)) as [|j' [|]] eqn:Hl; [done| |done]. cbn. intros _. right.
    exists j, mo, other, rs, st, m, j'. by rewrite Hpo.
  - destruct mo as [m|]; [|done]. cbn [mbind option_bind]. unfold release_master. destruct Hok as (Hd & _).
    destruct (Hd m eq_refl) as [Hm _]. destruct (iv_masters _ _ Hinv m Hm) as [c Hmo]. by rewrite (mo_table _ _ _ _ _ Hmo).
  - unfold after_job. case_bool; [done|]. destruct (token_head Hinv w _ j Hw ltac:(by left)) as [_ [l Hl]].
    unfold dpu_thread_advance_to_next_job. by rewrite Hl.
Qed.
End Stuck.

(** ** The workers come to rest *)

(** The jobs of the ranks [R], the jobs in the queues and what is left of the job of
    each worker. *)
Definition phase (x : worker) : nat :=
  match x with
  | WIdle => 0 | WDone _ _ => 1 | WRelease _ _ _ => 2 | WFunction _ _ _ => 3 | WGlobal _ _ _ _ => 3
  | WCompute _ => 4 | WInsert _ _ _ => 9
  end.
Definition work (R : list nat) (s : state) : nat :=
  20 * sum_list_with (fun r => length (jobs (ranks s r))) R + 5 * sum_list_with length (queues s)
  + sum_list_with phase (workers s).
Definition covers (R : list nat) (s : state) : Prop := forall r, jobs (ranks s r) <> [] -> r ∈ R.

Lemma sum_insert {X} (f : X -> nat) l i x y : l !! i = Some x ->
  (sum_list_with f (<[i := y]> l) + f x = sum_list_with f l + f y)%nat.
Proof.
  revert i. induction l as [|z l IH]; intros [|i] Hi; [done..| |].
  - injection Hi as ->. cbn. lia.
  - change (<[S i := y]> (z :: l)) with (z :: <[i := y]> l). cbn [sum_list_with]. specialize (IH i Hi). lia.
Qed.
Lemma sum_mono {X} (f g : X -> nat) l : (forall x, (f x <= g x)%nat) -> (sum_list_with f l <= sum_list_with g l)%nat.
Proof. intros H. induction l as [|x l IH]; cbn; [done|]. specialize (H x). lia. Qed.
Lemma sum_less {X} (f g : X -> nat) l x : (forall x, (f x <= g x)%nat) -> x ∈ l -> (f x < g x)%nat ->
  (sum_list_with f l < sum_list_with g l)%nat.
Proof.
  intros H Hx Hlt. induction Hx as [x l|x y l Hx IH]; cbn.
  - pose proof (sum_mono f g l H). lia.
  - specialize (H y). specialize (IH Hlt). lia.
Qed.
Lemma sum_queues_insert (qs : list (list job_id)) q j : (q < length qs)%nat ->
  sum_list_with length (alter (fun l => l ++ [j]) q qs) = S (sum_list_with length qs).
Proof.
  revert q. induction qs as [|l qs IH]; intros [|q] Hq; cbn [length] in Hq; [lia..| |].
  - cbn. rewrite length_app. cbn. lia.
  - change (alter (fun l => l ++ [j]) (S q) (l :: qs)) with (l :: alter (fun l => l ++ [j]) q qs).
    cbn [sum_list_with]. rewrite IH by lia. lia.
Qed.

Lemma release_jobs l x : jobs (foldl (fun r job => dpu_thread_release_job_slot_unlocked job r) x l) = jobs x.
Proof. revert x. induction l as [|j l IH]; intros x; [done|]. cbn [foldl]. by rewrite IH. Qed.

Section Rest.
Context (queue_idx worker_queue : nat -> nat) (n : nat) (R : list nat) (Hqueue : forall r, (queue_idx r < NR_QUEUES)%nat).

(** The worker [w] goes from [x] to [y]; the jobs of the rank [r] may get fewer. *)
Lemma work_moved s s' w x y : workers s !! w = Some x -> workers s' = <[w := y]> (workers s) ->
  (forall r, jobs (ranks s' r) = jobs (ranks s r)) ->
  (5 * sum_list_with length (queues s') + phase y < 5 * sum_list_with length (queues s) + phase x)%nat -> (work R s' < work R s)%nat.
Proof using.
  intros Hw Hws Hj Hlt. unfold work. rewrite Hws. pose proof (sum_insert phase _ _ _ y Hw) as Hp.
  assert (sum_list_with (fun r => length (jobs (ranks s' r))) R <= sum_list_with (fun r => length (jobs (ranks s r))) R)%nat as Hs
    by (apply sum_mono; intros r; by rewrite Hj).
  lia.
Qed.
Lemma work_advanced s s' w x y r : covers R s -> workers s !! w = Some x -> workers s' = <[w := y]> (workers s) ->
  (forall r', r' <> r -> jobs (ranks s' r') = jobs (ranks s r')) -> (length (jobs (ranks s' r)) < length (jobs (ranks s r)))%nat ->
  queues s' = queues s -> (work R s' < work R s)%nat.
Proof using.
  intros Hcov Hw Hws Hj Hlt Hq. unfold work. rewrite Hws, Hq. pose proof (sum_insert phase _ _ _ y Hw) as Hp.
  assert (sum_list_with (fun r => length (jobs (ranks s' r))) R < sum_list_with (fun r => length (jobs (ranks s r))) R)%nat as Hs.
  { apply (sum_less _ _ R r); [| |done].
    - intros r'. destruct (decide (r' = r)) as [->|Hne]; [lia|by rewrite Hj].
    - apply Hcov. intros H0. rewrite H0 in Hlt. cbn in Hlt. lia. }
  assert (phase y <= 9)%nat by (destruct y; cbn; lia). lia.
Qed.

Lemma work_step s w st s' : inv n s -> covers R s -> masters s = [] -> worker_step queue_idx worker_queue w st s = Some s' ->
  masters s' = [] /\ clients s' = clients s /\ (forall r, length (jobs (ranks s' r)) <= length (jobs (ranks s r)))%nat /\ (work R s' < work R s)%nat.
Proof using Hqueue.
  intros Hinv Hcov Hm. unfold worker_step. destruct (workers s !! w) as [x|] eqn:Hw; [|done]. cbn [mbind option_bind].
  pose proof (iv_workers _ _ Hinv w x Hw) as Hok.
  assert (forall m, master_done s (Some m) -> False) as Hno.
  { intros m Hd. destruct (Hd m eq_refl) as [Hin _]. rewrite Hm in Hin. by apply not_elem_of_nil in Hin. }
  assert (forall mo, master_done s mo -> is_Some mo -> False) as Hno'.
  { intros mo Hd [m ->]. by eapply Hno. }
  assert (forall s0 y, workers s0 = workers s -> masters s0 = [] -> clients s0 = clients s -> (forall r, jobs (ranks s0 r) = jobs (ranks s r)) ->
    queues s0 = queues s -> (phase y < phase x)%nat -> let s' := upd_worker w y s0 in
    masters s' = [] /\ clients s' = clients s /\ (forall r, length (jobs (ranks s' r)) <= length (jobs (ranks s r)))%nat /\ (work R s' < work R s)%nat) as Hmove.
  { intros s0 y E1 E2 Ec E3 E4 Hlt. cbv zeta. split_and!; [done|exact Ec| |].
    - intros r. change (ranks (upd_worker w y s0)) with (ranks s0). by rewrite E3.
    - apply (work_moved s _ w x y Hw); [cbn; by rewrite E1|exact E3|]. cbn [queues upd_worker]. rewrite E4. lia. }
  assert (forall s0 y r, workers s0 = workers s -> masters s0 = [] -> clients s0 = clients s -> (forall r', r' <> r -> jobs (ranks s0 r') = jobs (ranks s r')) ->
    (length (jobs (ranks s0 r)) < length (jobs (ranks s r)))%nat -> queues s0 = queues s -> let s' := upd_worker w y s0 in
    masters s' = [] /\ clients s' = clients s /\ (forall r, length (jobs (ranks s' r)) <= length (jobs (ranks s r)))%nat /\ (work R s' < work R s)%nat) as Hadv.
  { intros s0 y r E1 E2 Ec E3 E4 E5. cbv zeta. split_and!; [done|exact Ec| |].
    - intros r'. change (ranks (upd_worker w y s0)) with (ranks s0). destruct (decide (r' = r)) as [->|Hne]; [lia|by rewrite E3].
    - apply (work_advanced s _ w x y r Hcov Hw); [cbn; by rewrite E1|exact E3|exact E4|exact E5]. }
  destruct x as [|j|next mo c|[j|] mo c|j mo rs st'|jo mo st'|j st'].
  - destruct (queues s !! worker_queue w) as [[|j l]|] eqn:Hq; [done| |done]. cbn [mbind option_bind]. intros [= <-].
    split_and!; [done|done|done|]. apply (work_moved s _ w WIdle (WCompute j) Hw); [done|done|].
    cbn [queues upd_worker set_queues phase]. pose proof (sum_insert length _ _ _ l Hq). cbn [length] in *. lia.
  - destruct (token_head Hinv w _ j Hw ltac:(by left)) as [_ [l Hl]]. unfold dpu_thread_compute_job.
    destruct (table s j) as [t|c|c] eqn:Ht; [intros [= <-]; apply Hmove; try done; cbn; lia| |].
    + intros [= <-]. apply (Hmove (do_sync_job (fst j) c s)); try done. cbn. lia.
    + destruct (table s (default j (master_job c))) as [|?|m]; [done..|]. cbv zeta.
      set (s1 := rank_done _ _ _). assert (workers s1 = workers s /\ masters s1 = [] /\ ranks s1 = ranks s /\ queues s1 = queues s /\ clients s1 = clients s)
        as (E1 & E2 & E3 & E4 & Ecl) by done.
      clearbody s1. repeat case_bool; try (intros [= <-]; apply Hmove; rewrite ?E3; try done; cbn; lia).
      * rewrite E3. destruct (dpu_thread_advance_to_next_job _) as [[rk next]|] eqn:Ha; [|done]. cbn [mbind option_bind]. intros [= <-].
        apply advance_ok in Ha as (j' & l' & Hl' & -> & _). apply (Hadv (upd_rank (fst j) _ s1) _ (fst j)); try done.
        -- intros r' Hne. cbn. rewrite fn_insert_eq, decide_False, E3 by congruence. done.
        -- cbn. rewrite fn_insert_eq, decide_True by done. cbn. rewrite Hl'. cbn. lia.
      * intros [= <-]. apply (Hmove (upd_parked _ _ s1)); cbn [ranks upd_parked]; rewrite ?E3; try done. cbn. lia.
  - intros [= <-]. destruct next as [j|]; cbn [dpu_thread_insert_rank_list]; [|apply Hmove; try done; cbn; lia].
    split_and!; [done|done|done|]. eapply (work_moved s _ w _ (WFunction None mo c) Hw); [done|done|].
    cbn [queues upd_worker insert_in_queue set_queues phase]. rewrite sum_queues_insert by (rewrite (iv_queues _ _ Hinv); apply Hqueue). lia.
  - intros [= <-]. destruct Hok as (Hd & _ & Hp). destruct (is_single_call c && negb (is_sync c)).
    + destruct (Hno' mo Hd). by apply Hp.
    + apply Hmove; try done. cbn. lia.
  - intros [= <-]. apply Hmove; try done. cbn. lia.
  - destruct Hok as (Hd & _ & Hp). destruct (Hno' mo Hd). by apply Hp.
  - destruct mo as [m|]; cbn [mbind option_bind].
    + destruct Hok as (Hd & _). by destruct (Hno m).
    + intros [= <-]. apply Hmove; try done. destruct jo; cbn; lia.
  - destruct (token_head Hinv w _ j Hw ltac:(by left)) as [_ [l Hl]]. unfold after_job. case_bool.
    + intros [= <-]. unfold dpu_thread_update_status. cbv zeta. rewrite !notify_ranks.
      set (st0 := async_status _ _). set (x := set_job_error _ _).
      destruct (notify_same (fst j) st0 (jobs (ranks s (fst j))) s) as (E1 & E2 & E3 & Ecl).
      pose proof (notify_ranks (fst j) st0 (jobs (ranks s (fst j))) s) as E4.
      generalize dependent (foldl (notify_sync (fst j) st0) s (jobs (ranks s (fst j)))). intros s1 E1 E2 E3 Ecl E4.
      apply (Hadv (upd_rank (fst j) _ s1) WIdle (fst j)); try done; [cbn; by rewrite E3|..].
      * intros r' Hne. cbn. rewrite fn_insert_eq, decide_False, E4 by congruence. done.
      * cbn [ranks upd_rank]. rewrite fn_insert_eq, decide_True by done. rewrite release_jobs, Hl. cbn. lia.
    + destruct (dpu_thread_advance_to_next_job _) as [[rk next]|] eqn:Ha; [|done]. cbn [mbind option_bind]. intros [= <-].
      apply advance_ok in Ha as (j' & l' & Hl' & -> & _). apply (Hadv (upd_rank (fst j) _ s) _ (fst j)); try done.
      * intros r' Hne. cbn. rewrite fn_insert_eq, decide_False by congruence. done.
      * cbn. rewrite fn_insert_eq, decide_True by done. cbn. rewrite Hl'. cbn. lia.
Qed.
End Rest.

Lemma run_none queue_idx worker_queue acts : foldl (fun s a => s ← s; step queue_idx worker_queue a s) None acts = None.
Proof. by induction acts. Qed.
Lemma run_cons queue_idx worker_queue a acts s s' : run queue_idx worker_queue (a :: acts) s = Some s' ->
  exists s1, step queue_idx worker_queue a s = Some s1 /\ run queue_idx worker_queue acts s1 = Some s'.
Proof.
  unfold run. cbn [foldl mbind option_bind]. destruct (step _ _ a s) as [s1|]; [by exists s1|]. by rewrite run_none.
Qed.

(** ** Properties *)

Section Properties.
Context (queue_idx worker_queue : nat -> nat) (n nr_workers nr_clients : nat) (s : state).
Context (Hqueue : forall r, (queue_idx r < NR_QUEUES)%nat) (Hn : Z.of_nat n < 2 ^ 32).
Context (Hreach : reachable queue_idx worker_queue n nr_workers nr_clients s).

Let Hinv : inv n s := inv_reachable _ _ _ Hqueue Hn _ _ _ Hreach.
Let Hsync : sync_inv s := sync_reachable _ _ _ _ _ _ Hqueue Hn Hreach.

(** Every slot of a rank is in exactly one place: it is available, or in the FIFO of
    its rank, or held by a thread (taken by a client, the master job of a callback,
    or lost when a request failed); and [available_jobs_length] is the length of the list. *)
Theorem slots_accounted r : available_jobs_length (ranks s r) = lenz (available_jobs (ranks s r)) /\
  forall i, (i < n)%nat ->
    (occ (r, i) (available_jobs (ranks s r)) + occ (r, i) (jobs (ranks s r)) + occ (r, i) (held s) = 1)%nat.
Proof using Hqueue Hn Hreach.
  split; [apply (iv_lengths _ _ Hinv)|]. intros i Hi. pose proof (iv_slots _ _ Hinv (r, i)) as Hs. cbn [fst snd] in Hs.
  by rewrite decide_True in Hs.
Qed.

(** C6: Two workers are never on the same rank, and the job of a worker is the head of
    the FIFO of its rank: the jobs of a rank are computed one at a time, in the
    order they were added. *)
Theorem one_worker_per_rank w1 w2 x1 x2 j1 j2 : workers s !! w1 = Some x1 -> workers s !! w2 = Some x2 ->
  j1 ∈ token_of x1 -> j2 ∈ token_of x2 ->
  head (jobs (ranks s (fst j1))) = Some j1 /\ (fst j1 = fst j2 -> w1 = w2).
Proof using Hqueue Hn Hreach.
  intros H1 H2 Hj1 Hj2. destruct (token_head Hinv w1 x1 j1 H1 Hj1) as [_ [l ->]]. split; [done|].
  by eapply (token_same Hinv).
Qed.

(** While the function of a blocking single call runs, no other worker is on a
    rank of its set, and none of these ranks is in a queue. *)
Theorem blocking_call_alone w j mo c r : workers s !! w = Some (WFunction (Some j) mo c) ->
  is_single_call c = true -> is_sync c = false -> r ∈ cb_set c ->
  (forall w' x j', workers s !! w' = Some x -> j' ∈ token_of x -> fst j' = r -> w' = w) /\
  (forall q l j', queues s !! q = Some l -> j' ∈ l -> fst j' <> r).
Proof using Hqueue Hn Hreach.
  intros Hw Hsingle Hsync' Hr. pose proof (iv_workers _ _ Hinv w _ Hw) as (_ & _ & Hap). rewrite Hsingle, Hsync' in Hap.
  destruct Hap as [[m Hm] _ Hpk _].
  assert (forall j', j' ∈ tokens s -> fst j' = r -> fst j' = fst j) as Htok.
  { intros j' Hj' Hf. destruct (decide (r = fst j)) as [->|Hne]; [done|]. apply occ_pos in Hj'.
    rewrite (iv_tokens _ _ Hinv j'), Hf, (Hpk r Hr Hne), Hm in Hj'. lia. }
  split.
  - intros w' x j' Hw' Hj' Hf. eapply (token_same Hinv); [exact Hw'|exact Hw|exact Hj'|by left|]. apply Htok; [|done].
    unfold tokens. rewrite elem_of_app. right. apply list_elem_of_bind. exists x. split; [done|by eapply list_elem_of_lookup_2].
  - intros q l j' Hq Hj' Hf.
    assert (0 < occ j' (concat (queues s)))%nat as Hoc.
    { apply occ_pos in Hj'. pose proof (occ_concat_in j' (queues s) l ltac:(by eapply list_elem_of_lookup_2)). lia. }
    assert (fst j' = fst j) as Hf' by (apply Htok; [unfold tokens; apply elem_of_app; left; by apply occ_pos|done]).
    pose proof (tokens_one Hinv j') as Ho. unfold tokens in Ho. rewrite occ_app in Ho.
    destruct (token_head Hinv w _ j Hw ltac:(by left)) as [Hnone [l' Hl']].
    assert (j' = j) as ->.
    { pose proof (iv_tokens _ _ Hinv j') as Ht. rewrite Hf', Hnone, Hl' in Ht. cbn [take] in Ht.
      rewrite occ_cons, take_0, occ_nil in Ht. unfold tokens in Ht. rewrite occ_app in Ht.
      destruct (decide (j = j')) as [|Hne]; [done|]. rewrite hit_ne in Ht by done. lia. }
    pose proof (occ_bind_one token_of _ _ _ j Hw) as Hb. cbn [token_of passed_by] in Hb. rewrite occ_cons, occ_nil, hit_eq in Hb. lia.
Qed.

(** C36: The counter of a client that waits is the number of ranks whose FIFO has its
    synchronisation job, not computed: none is lost, none is counted twice. *)
Theorem sync_counter_exact c rq : clients s !! c = Some (CWait rq) ->
  exists rs, NoDup rs /\ nr_ranks (syncs s c) = lenz rs /\ forall r, r ∈ rs <-> sync_pending s c r.
Proof using Hqueue Hn Hreach.
  intros Hc. destruct (iv_counters _ _ Hinv (OfSync c)) as (Hv & Hnd & _). exists (todo s (OfSync c)). split_and!; [done..|].
  intros r. split.
  - intros Hr. apply Hsync; [done|]. left. by exists rq.
  - intros (j & Hj & Ht & Hp). destruct (iv_jobs _ _ Hinv r j (OfSync c) Hj) as [?|[? _]]; [unfold key; by rewrite Ht|done..].
Qed.

(** A worker that makes no step waits on an empty queue; or it ends a blocking
    single call and must queue a rank whose FIFO has no other job: the program
    inserts a null pointer. *)
Theorem worker_stuck w x status : workers s !! w = Some x -> worker_step queue_idx worker_queue w status s = None ->
  (x = WIdle /\ forall j l, queues s !! worker_queue w <> Some (j :: l)) \/
  (exists j mo other rs st j', x = WGlobal j mo (other :: rs) st /\ other <> fst j /\ jobs (ranks s other) = [j']).
Proof using Hqueue Hn Hreach.
  intros Hw Hnone. destruct (worker_step_defined queue_idx worker_queue Hinv w x status Hw Hnone) as [?|H]; [by left|right].
  destruct H as (j & mo & other & rs & st & m & j' & -> & ? & _ & _ & ?). by exists j, mo, other, rs, st, j'.
Qed.

(** While a client waits, some worker has a step to make, whatever the status of its
    job, if no rank is held by a blocking single call and the queue of every rank has
    a worker; in ThreadJobLocks.v a mutex may stop it. *)
Lemma progress c idx rq : (forall r, parked s r = None) ->
  (forall r, exists w, (w < nr_workers)%nat /\ worker_queue w = queue_idx r) ->
  clients s !! c = Some (CWait rq) -> rq_ranks rq <> [] -> client_step queue_idx c idx s = None ->
  exists w, forall status, is_Some (worker_step queue_idx worker_queue w status s).
Proof using Hqueue Hn Hreach.
  intros Hpark Hworkers Hc Hne Hnone.
  assert (exists r j l, jobs (ranks s r) = j :: l) as (r & j & l & Hl).
  { destruct (iv_counters _ _ Hinv (OfSync c)) as (Hv & _). unfold client_step in Hnone. rewrite Hc in Hnone.
    cbn [mbind option_bind counter_value] in Hnone, Hv. rewrite Hv in Hnone. destruct (todo s (OfSync c)) as [|r rs] eqn:Htodo.
    - destruct (rq_ranks rq); [done|]. discriminate Hnone.
    - destruct (Hsync c r) as (j & Hj & _); [rewrite Htodo; by left|left; by exists rq|]. exists r.
      destruct (jobs (ranks s r)) as [|j' l]; [by apply not_elem_of_nil in Hj|]. by exists j', l. }
  assert (forall w x, workers s !! w = Some x -> (x = WIdle -> exists j l, queues s !! worker_queue w = Some (j :: l)) ->
    forall status, is_Some (worker_step queue_idx worker_queue w status s)) as Hstep.
  { intros w x Hw Hq status. destruct (worker_step _ _ _ _ _) eqn:Hs; [done|].
    destruct (worker_step_defined queue_idx worker_queue Hinv w x status Hw Hs) as [[-> Hx]|H].
    - destruct (Hq eq_refl) as (j' & l' & Hq'). by destruct (Hx j' l').
    - destruct H as (j' & mo & other & rs & st & m & j2 & _ & _ & _ & Hp & _). by rewrite Hpark in Hp. }
  assert (fst j = r) as Hjr by (apply (jobs_home Hinv); rewrite Hl; by left).
  assert (j ∈ tokens s) as Htok.
  { apply occ_pos. rewrite (iv_tokens _ _ Hinv j), Hjr, Hpark, Hl. cbn [take]. rewrite occ_cons, hit_eq. lia. }
  apply elem_of_app in Htok as [Hq|Hw].
  - apply list_elem_of_In, in_concat in Hq as (ql & Hql & Hin). apply list_elem_of_In in Hql, Hin.
    apply list_elem_of_lookup in Hql as [q Hq]. destruct (placed_reachable _ _ _ _ _ _ Hreach) as [Hlen Hhome].
    pose proof (Hhome q ql j Hq Hin) as Hq'. destruct (Hworkers (fst j)) as (w & Hw & Hwq).
    destruct (lookup_lt_is_Some_2 (workers s) w) as [x Hx]; [lia|]. exists w. apply (Hstep w x Hx). intros _.
    rewrite Hwq, Hq', Hq. destruct ql as [|j' ql]; [by apply not_elem_of_nil in Hin|]. by exists j', ql.
  - apply list_elem_of_bind in Hw as (x & Hx & [w Hw]%list_elem_of_lookup). exists w. apply (Hstep w x Hw). intros ->. by apply not_elem_of_nil in Hx.
Qed.
End Properties.

Section Ends.
Context (queue_idx worker_queue : nat -> nat) (n nr_workers nr_clients : nat) (s : state).
Context (Hqueue : forall r, (queue_idx r < NR_QUEUES)%nat) (Hn : Z.of_nat n < 2 ^ 32).
Context (Hreach : reachable queue_idx worker_queue n nr_workers nr_clients s).

(** Without a new request, without a single call in progress and when no mutex stops
    them (ThreadJobLocks.v adds the mutexes), the workers come to rest after a bounded
    number of steps, whatever the order of the steps and the status of the jobs; a
    client that waits can then return. *)
Theorem workers_rest R steps s' c idx rq : covers R s -> masters s = [] ->
  (forall r, exists w, (w < nr_workers)%nat /\ worker_queue w = queue_idx r) ->
  clients s !! c = Some (CWait rq) -> rq_ranks rq <> [] ->
  run queue_idx worker_queue (map (fun x => ActWorker (fst x) (snd x)) steps) s = Some s' ->
  (length steps <= work R s)%nat /\
  ((forall w, worker_step queue_idx worker_queue w DPU_OK s' = None) -> is_Some (client_step queue_idx c idx s')).
Proof using Hqueue Hn Hreach.
  intros Hcov Hm Hworkers Hc Hne Hrun.
  assert (reachable queue_idx worker_queue n nr_workers nr_clients s' /\ masters s' = [] /\ clients s' = clients s /\
    (length steps + work R s' <= work R s)%nat) as (Hreach' & Hm' & Hc' & Hlen).
  { clear Hc. revert s Hreach Hcov Hm Hrun. induction steps as [|[w st] steps IH]; intros s0 Hreach Hcov Hm Hrun.
    - injection Hrun as <-. split_and!; [done..|cbn; lia].
    - rewrite map_cons in Hrun. apply run_cons in Hrun as (s1 & Hs & Hrun). cbn [step fst snd] in Hs.
      destruct (work_step queue_idx worker_queue n R Hqueue s0 w st s1) as (Hm1 & Hc1 & Hj1 & Hlt); try done.
      { by apply (inv_reachable queue_idx worker_queue n Hqueue Hn nr_workers nr_clients). }
      destruct (IH s1) as (? & ? & Hc' & ?); try done.
      + eapply (reachable_step _ _ _ _ _ (ActWorker w st)); [exact Hreach|done|exact Hs].
      + intros r Hr. apply Hcov. intros H0. specialize (Hj1 r). rewrite H0 in Hj1. by destruct (jobs (ranks s1 r)); [|cbn in Hj1; lia].
      + split_and!; [done..|by rewrite Hc'|cbn [length]; lia]. }
  split; [lia|]. intros Hrest. destruct (client_step queue_idx c idx s') eqn:Hnone; [done|].
  assert (forall r, parked s' r = None) as Hpark.
  { intros r. destruct (parked s' r) as [m|] eqn:Hp; [|done].
    destruct (iv_parked _ _ (inv_reachable _ _ _ Hqueue Hn _ _ _ Hreach') r m Hp) as [_ Hin]. rewrite Hm' in Hin. by apply not_elem_of_nil in Hin. }
  rewrite <-Hc' in Hc.
  destruct (progress queue_idx worker_queue n nr_workers nr_clients s' Hqueue Hn Hreach' c idx rq Hpark Hworkers Hc Hne Hnone) as [w Hw].
  destruct (Hw DPU_OK) as [? Hs]. by rewrite Hrest in Hs.
Qed.
End Ends.

(** ** The status of a job *)

(** The status kept for a rank, from which a synchronous request takes its result,
    keeps the status of the job that failed, when it has 16 bits, and its type; a
    rank in error is never mistaken for one in use. *)
Theorem async_status_roundtrip type status : 0 <= status < 2 ^ 16 ->
  error_of_status (async_status type status) = status /\
  Z.shiftr (async_status type status) DPU_ERROR_ASYNC_JOB_TYPE_SHIFT = 2 ^ 15 + job_type_value type /\
  async_status type status <> DPU_OK.
Proof.
  intros Hs. unfold error_of_status, async_status, DPU_ERR_ASYNC_JOBS, DPU_ERROR_ASYNC_JOB_TYPE_SHIFT.
  change (Z.shiftl 1 16 - 1) with (Z.ones 16). rewrite !Z.land_lor_distr_l, <-Z.land_assoc, Z.land_diag.
  rewrite !Z.shiftr_lor, !Z.land_ones, (Z.mod_small status) by lia.
  assert (forall x, Z.shiftl 1 31 ||| Z.shiftl (job_type_value type) 16 ||| x <> 0) as Hne.
  { intros x Hx. apply (f_equal (fun z => Z.testbit z 31)) in Hx. rewrite !Z.lor_spec in Hx. by destruct type. }
  split_and!; [|..|apply Hne].
  - by destruct type.
  - rewrite (Z.shiftr_div_pow2 status), Z.div_small, Z.lor_0_r by lia. by destruct type.
Qed.

(** ** Executions *)

(** An action that is not enabled is skipped. *)
Definition exec (queue_idx worker_queue : nat -> nat) (acts : list action) (s : state) : state :=
  foldl (fun s a => default s (step queue_idx worker_queue a s)) s acts.
#[global] Instance valid_action_dec a : Decision (valid_action a).
Proof. destruct a; unfold valid_action, valid_request; apply _. Defined.
Lemma reachable_exec queue_idx worker_queue n nw nc acts :
  bool_decide (Forall valid_action acts) = true ->
  reachable queue_idx worker_queue n nw nc (exec queue_idx worker_queue acts (initial_state n nw nc)).
Proof.
  intros H. apply bool_decide_eq_true in H. unfold exec. pose proof (reachable_initial queue_idx worker_queue n nw nc) as Hr.
  revert H Hr. generalize (initial_state n nw nc). induction acts as [|a acts IH]; intros s H Hr; [done|].
  apply list_relations.list.Forall_cons in H as [Ha H]. cbn [foldl]. apply IH; [done|].
  destruct (step queue_idx worker_queue a s) as [s'|] eqn:Hs; [|done]. by eapply reachable_step.
Qed.

(** Two ranks whose jobs are in the first queue, and two workers. *)
Definition first_queue (r : nat) : nat := 0.
Definition client_acts (c k : nat) : list action := replicate k (ActClient c 0).
Definition worker_acts (w k : nat) : list action := replicate k (ActWorker w 0).
Definition run_two (acts : list action) : state := exec first_queue first_queue acts (initial_state 2 2 2).
(** A copy on both ranks, which a first client waits for; both workers are on it. *)
Definition copy_request := mk_request [0; 1]%nat (RequestOperation DPU_THREAD_JOB_COPY_MRAM_TO_MATRIX true).
Definition copy_acts := ActRequest 0 copy_request :: client_acts 0 8 ++ worker_acts 0 2 ++ worker_acts 1 1.
(** A blocking single call on both ranks, whose function runs. *)
Definition call_request := mk_request [0; 1]%nat (RequestCallback false false true).
Definition call_acts := ActRequest 0 call_request :: client_acts 0 6 ++ worker_acts 0 2 ++ worker_acts 1 2.

Lemma two_queues r : (first_queue r < NR_QUEUES)%nat.
Proof. unfold first_queue, NR_QUEUES. lia. Qed.
Lemma two_workers r : exists w, (w < 2)%nat /\ first_queue w = first_queue r.
Proof. exists 0%nat. split; [lia|done]. Qed.
Lemma run_two_reachable acts : bool_decide (Forall valid_action acts) = true ->
  reachable first_queue first_queue 2 2 2 (run_two acts).
Proof. apply reachable_exec. Qed.
Lemma copy_reachable : reachable first_queue first_queue 2 2 2 (run_two copy_acts).
Proof. apply run_two_reachable. vm_compute. reflexivity. Qed.
Lemma call_reachable : reachable first_queue first_queue 2 2 2 (run_two call_acts).
Proof. apply run_two_reachable. vm_compute. reflexivity. Qed.
Lemma call_end_reachable : reachable first_queue first_queue 2 2 2 (run_two (call_acts ++ worker_acts 1 3)).
Proof. apply run_two_reachable. vm_compute. reflexivity. Qed.
Lemma two_slots : Z.of_nat 2 < 2 ^ 32.
Proof. lia. Qed.

Lemma slots_accounted_witness : let s := run_two copy_acts in
  available_jobs_length (ranks s 1) = lenz (available_jobs (ranks s 1)) /\
  forall i, (i < 2)%nat ->
    (occ (1%nat, i) (available_jobs (ranks s 1)) + occ (1%nat, i) (jobs (ranks s 1)) + occ (1%nat, i) (held s) = 1)%nat.
Proof.
  exact (slots_accounted first_queue first_queue 2 2 2 _ two_queues two_slots
    copy_reachable 1).
Defined.
Lemma one_worker_per_rank_witness : let s := run_two copy_acts in
  head (jobs (ranks s 0)) = Some (0%nat, 1%nat) /\ (0%nat = 1%nat -> 0%nat = 1%nat).
Proof.
  apply (one_worker_per_rank first_queue first_queue 2 2 2 _ two_queues two_slots
    copy_reachable 0 1
    (WDone (0%nat, 1%nat) 0) (WCompute (1%nat, 1%nat)) (0%nat, 1%nat) (1%nat, 1%nat)); [vm_compute; reflexivity..|left|left].
Defined.
Lemma blocking_call_alone_witness : let s := run_two call_acts in
  reachable first_queue first_queue 2 2 2 s /\
  forall q l j, queues s !! q = Some l -> j ∈ l -> fst j <> 0%nat.
Proof.
  split; [exact call_reachable|].
  eapply (blocking_call_alone first_queue first_queue 2 2 2 _ two_queues two_slots
    call_reachable 1 (1%nat, 1%nat) (Some (0%nat, 0%nat)));
    [vm_compute; reflexivity..|left].
Defined.
Lemma sync_counter_exact_witness : let s := run_two copy_acts in
  exists rs, NoDup rs /\ nr_ranks (syncs s 0) = lenz rs /\ forall r, r ∈ rs <-> sync_pending s 0 r.
Proof.
  apply (sync_counter_exact first_queue first_queue 2 2 2 _ two_queues two_slots
    copy_reachable 0 copy_request). vm_compute. reflexivity.
Defined.
Lemma worker_stuck_witness : let s := run_two (call_acts ++ worker_acts 1 3) in let x := nth 1 (workers s) WIdle in
  (x = WIdle /\ forall j l, queues s !! 0%nat <> Some (j :: l)) \/
  (exists j mo other rs st j', x = WGlobal j mo (other :: rs) st /\ other <> fst j /\ jobs (ranks s other) = [j']).
Proof.
  apply (worker_stuck first_queue first_queue 2 2 2 _ two_queues two_slots
    call_end_reachable 1 _ 0); vm_compute; reflexivity.
Defined.
(** The second copy and both synchronisations are computed. *)
Definition copy_steps : list (nat * Z) := [(0%nat, 0); (0%nat, 0); (0%nat, 0); (1%nat, 0); (1%nat, 0); (1%nat, 0); (1%nat, 0)].
Lemma workers_rest_witness : let s := run_two copy_acts in exists s',
  run first_queue first_queue (map (fun x => ActWorker (fst x) (snd x)) copy_steps) s = Some s' /\
  (length copy_steps <= work [0; 1]%nat s)%nat /\
  ((forall w, worker_step first_queue first_queue w DPU_OK s' = None) -> is_Some (client_step first_queue 0 0 s')).
Proof.
  eexists. split; [vm_compute; reflexivity|].
  eapply (workers_rest first_queue first_queue 2 2 2 _ two_queues two_slots
    copy_reachable [0; 1]%nat copy_steps _ 0 0 copy_request).
  - intros [|[|r]] Hr; [left|right; left|]. destruct Hr. vm_compute. reflexivity.
  - vm_compute. reflexivity.
  - exact two_workers.
  - vm_compute. reflexivity.
  - discriminate.
  - vm_compute. reflexivity.
Defined.
Lemma async_status_roundtrip_witness : 0 <= 21 < 2 ^ 16 /\
  error_of_status (async_status DPU_THREAD_JOB_LAUNCH_RANK 21) = 21.
Proof. split; [lia|]. apply (async_status_roundtrip DPU_THREAD_JOB_LAUNCH_RANK 21). lia. Defined.

(** At the end of a blocking single call with no job queued behind it, the worker
    inserts a null pointer in the queue of the other rank. *)
Theorem blocking_call_inserts_null : let s := run_two (call_acts ++ worker_acts 1 3) in
  reachable first_queue first_queue 2 2 2 s /\
  workers s !! 1%nat = Some (WGlobal (1%nat, 1%nat) (Some (0%nat, 0%nat)) [0; 1]%nat DPU_OK) /\
  jobs (ranks s 0) = [(0%nat, 1%nat)] /\
  forall status, worker_step first_queue first_queue 1 status s = None.
Proof. split_and!; [exact call_end_reachable|vm_compute; reflexivity..|]. intros st. vm_compute. reflexivity. Qed.

Definition failed_acts : list action :=
  ActRequest 0 (mk_request [0]%nat (RequestOperation DPU_THREAD_JOB_COPY_MRAM_TO_MATRIX false)) :: client_acts 0 4 ++
  ActRequest 0 call_request :: client_acts 0 6 ++ ActRequest 1 (mk_request [1]%nat RequestSync) :: client_acts 1 4 ++
  worker_acts 0 1 ++ worker_acts 1 2 ++ [ActWorker 0 3; ActWorker 0 3].
(** A job of the first rank fails while its part of a blocking single call is
    queued behind: the part is dropped, the call never starts, the second rank is
    never released and a client waits for it without end, all the workers being idle. *)
Theorem failed_rank_blocks_call : let s := exec first_queue first_queue failed_acts (initial_state 3 2 2) in
  reachable first_queue first_queue 3 2 2 s /\ workers s = [WIdle; WIdle] /\ concat (queues s) = [] /\
  jobs (ranks s 0) = [] /\ length (jobs (ranks s 1)) = 2%nat /\
  clients s !! 1%nat = Some (CWait (mk_request [1]%nat RequestSync)) /\
  forall idx, client_step first_queue 1 idx s = None.
Proof. split_and!; [apply reachable_exec; vm_compute; reflexivity|vm_compute; reflexivity..|]. intros idx. vm_compute. reflexivity. Qed.

Definition leak_acts : list action :=
  ActRequest 0 (mk_request [0]%nat (RequestOperation DPU_THREAD_JOB_COPY_MRAM_TO_MATRIX false)) :: client_acts 0 4 ++
  ActRequest 1 (mk_request [0]%nat (RequestOperation DPU_THREAD_JOB_COPY_MRAM_TO_MATRIX true)) :: client_acts 1 1 ++
  [ActWorker 0 3; ActWorker 0 3; ActWorker 0 3] ++ client_acts 1 2.
(** A client that takes its second slot when the rank falls in error loses the first
    one: it is neither available nor in the FIFO, and no thread holds it. *)
Theorem failed_request_loses_slot : let s := run_two leak_acts in
  reachable first_queue first_queue 2 2 2 s /\ leaked s = [(0%nat, 0%nat)] /\
  available_jobs (ranks s 0) = [(0%nat, 1%nat)] /\ jobs (ranks s 0) = [] /\
  workers s = [WIdle; WIdle] /\ clients s = [CIdle DPU_OK; CIdle (async_status DPU_THREAD_JOB_COPY_MRAM_TO_MATRIX 3)].
Proof. split_and!; [apply reachable_exec; vm_compute; reflexivity|vm_compute; reflexivity..]. Qed.
