(* ===== verification/ThreadJobLocks.v ===== *)
(** * The mutexes of the queues of jobs

    ThreadJob.v takes a critical section as one action. This file adds the
    mutexes that [src/api/src/api/dpu_thread_job.c] takes around them, each with
    the thread that has it: that of every queue, the [jobs_mutex] of every rank,
    and the one of the synchronisation of every client. A thread locks the
    mutexes of its next critical section one at a time, in the order of the
    source, waits while another thread has one of them, then goes through the
    critical section, which is the action of ThreadJob.v, and gives up the mutexes
    that the source unlocks there. Those it keeps are the point: a client that adds
    jobs keeps the mutex of a queue while it locks the [jobs_mutex] of the next
    ranks, and that of its synchronisation until it waits.

    Left out: the mutex of a rank ([dpu_lock_rank]). The worker that takes the rank
    has it, and by [ThreadJobProps.one_worker_per_rank] another worker can only ask
    for it between the last critical section of the first one and its unlock,
    which is its next instruction. Left out too are the signals: a thread that waits
    on a condition goes on when the condition holds (and is not woken up before).

    Shown here: the executions are executions of ThreadJob.v; a list only changes
    under its mutex; who may have which mutex; the end of every execution without a
    new request, at rest no client waiting for its jobs, when at most one client is in
    the middle of a request; and the deadlock of two clients that add jobs. *)

From S2P Require Import Prelude ThreadJob ThreadJobInv ThreadJobWorkers ThreadJobClients ThreadJobReach ThreadJobSync ThreadJobProps.
From stdpp Require Import functions.

#[local] Open Scope Z_scope.
#[local] Open Scope dpu_scope.

(** [queue->mutex], [rank->api.jobs_mutex], and [sync->mutex] of the
    [dpu_thread_job_sync] that is on the stack of a client. *)
Inductive mutex := MQueue (q : nat) | MJobs (r : nat) | MSync (c : nat).
Inductive thread := TWorker (w : nat) | TClient (c : nat).
#[export] Instance mutex_eq_dec : EqDecision mutex.
Proof. solve_decision. Defined.
#[export] Instance thread_eq_dec : EqDecision thread.
Proof. solve_decision. Defined.

Record lstate := mk_lstate { base : state; owner : mutex -> option thread }.

(** ** One critical section *)

Definition holds (t : thread) (l : lstate) (m : mutex) : bool := bool_decide (owner l m = Some t).
Definition is_free (l : lstate) (m : mutex) : bool := bool_decide (owner l m = None).
(** [pthread_mutex_unlock] of the mutexes of [t], but those that [keep] tells. *)
Definition unlock (t : thread) (keep : mutex -> bool) (o : mutex -> option thread) : mutex -> option thread :=
  fun m => match o m with Some t' => if bool_decide (t' = t) && negb (keep m) then None else Some t' | None => None end.

(** The next step of the thread [t], whose next critical section needs [locks]
    and locks [inside], one after the other, while it goes through it. When it
    [waits] on a condition it gives up the mutexes ([pthread_cond_wait]) and is
    not enabled until the condition holds. *)
Definition critical (t : thread) (waits : bool) (locks inside : list mutex) (commit : state -> option state)
    (keep : state -> mutex -> bool) (l : lstate) : option lstate :=
  if waits then
    if existsb (holds t l) locks then Some (mk_lstate (base l) (unlock t (fun m => negb (bool_decide (m ∈ locks))) (owner l)))
    else None
  else
    match List.find (fun m => negb (holds t l m)) locks with
    | Some m => if is_free l m then Some (mk_lstate (base l) (<[m := Some t]> (owner l))) else None
    | None =>
        if forallb (is_free l) inside then
          s ← commit (base l);
          Some (mk_lstate s (unlock t (keep s) (owner l)))
        else None
    end.

Section Locks.
Context (queue_idx worker_queue : nat -> nat).

(** ** Workers *)

(** A worker waits on [queue->cond] while the list is empty. *)
Definition worker_waits (w : nat) (x : worker) (s : state) : bool :=
  match x with
  | WIdle => match queues s !! worker_queue w with Some (_ :: _) => false | _ => true end
  | _ => false
  end.

(** The job is the last part of a non-blocking callback: its slot is released first. *)
Definition last_nonblocking (s : state) (job : job_id) : bool :=
  match table s job with
  | JobCallback c =>
      match table s (default job (master_job c)) with
      | JobCallback m => (u32 (cb_nr_ranks m - 1) =? 0) && is_nonblocking m
      | _ => false
      end
  | _ => false
  end.

(** In [dpu_thread_job_fct], [dpu_thread_advance_to_next_job],
    [dpu_thread_insert_rank_list], [dpu_thread_handle_global_block],
    [dpu_thread_compute_job] (the master job) and [dpu_thread_update_status]. *)
Definition worker_locks (w : nat) (x : worker) (s : state) : list mutex :=
  match x with
  | WIdle => [MQueue (worker_queue w)]
  | WCompute job => if last_nonblocking s job then [MJobs (fst job)] else []
  | WInsert (Some next) _ _ => [MQueue (queue_idx (fst next))]
  | WGlobal job _ (other :: _) _ => if (other =? fst job)%nat then [] else [MQueue (queue_idx other); MJobs other]
  | WRelease _ (Some master) _ => match table s master with JobCallback m => [MJobs (slot_owner m)] | _ => [] end
  | WDone job _ => [MJobs (fst job)]
  | WInsert None _ _ | WFunction _ _ _ | WGlobal _ _ [] _ | WRelease _ None _ => []
  end.

(** The mutexes of synchronisations that [do_sync_job] and
    [dpu_thread_update_status] lock and unlock, one at a time. They are asked to be
    free together: that of a client stays free from the moment it waits until its
    last job is told. The decrement that comes before the lock of [do_sync_job] is
    not told apart from it: the client reads the counter when it is woken up. *)
Definition syncs_of (s : state) (js : list job_id) : list mutex :=
  js ≫= (fun job => match table s job with JobSync c => [MSync c] | _ => [] end).
Definition worker_inside (x : worker) (s : state) : list mutex :=
  match x with
  | WCompute job =>
      match table s job with
      | JobSync c => if u32 (nr_ranks (syncs s c) - 1) =? 0 then [MSync c] else []
      | _ => []
      end
  | WDone job status => if status =? DPU_OK then [] else syncs_of s (jobs (ranks s (fst job)))
  | _ => []
  end.

(** [dpu_thread_handle_global_block] unlocks the queues at the end. *)
Definition worker_keeps (w : nat) (s' : state) (m : mutex) : bool :=
  match workers s' !! w, m with Some (WGlobal _ _ _ _), MQueue _ => true | _, _ => false end.

(** ** Clients *)

(** The index of the rank of the master job, chosen before its [jobs_mutex] is locked. *)
Definition master_idx (rq : request) (idx : nat) : nat :=
  match rq_kind rq with RequestCallback _ true _ => idx | _ => 0%nat end.
Definition chosen_idx (c : nat) (x : client) (idx : nat) (l : lstate) : nat :=
  match x with
  | CGet _ got _ [] =>
      match list_find (fun p => owner l (MJobs p.1) = Some (TClient c)) got with Some (i, _) => i | None => idx end
  | _ => idx
  end.

(** A client waits on [available_jobs_cond] while there is no slot, and on the
    condition of its synchronisation. *)
Definition no_slot (r : rank_api) : bool :=
  match dpu_thread_job_get_job_unlocked r with GetWait => true | _ => false end.
Definition client_waits (x : client) (idx : nat) (s : state) : bool :=
  match x with
  | CGet _ _ _ (rank :: _) => no_slot (ranks s rank)
  | CGet rq got _ [] =>
      rq_master rq && match got !! master_idx rq idx with Some (rank, _) => no_slot (ranks s rank) | None => false end
  | _ => false
  end.

(** In [dpu_thread_job_get_jobs], [dpu_callback] (the master job),
    [dpu_thread_job_unget_jobs] and [dpu_thread_job_add_jobs]. *)
Definition client_locks (x : client) (idx : nat) (s : state) : list mutex :=
  match x with
  | CGet _ _ _ (rank :: _) => [MJobs rank]
  | CGet rq got _ [] =>
      if rq_master rq then match got !! master_idx rq idx with Some (rank, _) => [MJobs rank] | None => [] end else []
  | CUnget ((rank, _) :: _) _ => [MJobs rank]
  | CAdd _ _ ((rank, _) :: _) => MJobs rank :: match jobs (ranks s rank) with [] => [MQueue (queue_idx rank)] | _ => [] end
  | CIdle _ | CUnget [] _ | CAdd _ _ [] | CWait _ => []
  end.
(** [pthread_cond_wait] locks the mutex again before it returns. *)
Definition client_inside (c : nat) (x : client) : list mutex :=
  match x with CWait _ => [MSync c] | _ => [] end.

(** What a client keeps when it goes from [x] to [x']: the [jobs_mutex] of a rank
    until it has all its slots there; that of the rank where it failed while it gives
    back the slots of the others; the mutexes of the queues until the last rank; and
    that of its synchronisation until it waits. *)
Definition client_keeps (x x' : client) (m : mutex) : bool :=
  match x', m with
  | CIdle _, _ | CWait _, _ => false
  | _, MSync _ => true
  | CGet _ _ cur _, MJobs _ => negb (bool_decide (cur = []))
  | CUnget _ _, MJobs r =>
      match x with
      | CGet _ _ _ (_ :: _) => true
      | CUnget ((rank, _) :: _) _ => negb (r =? rank)%nat
      | _ => false
      end
  | CAdd _ _ _, MQueue _ => true
  | CAdd _ _ _, MJobs _ | CGet _ _ _ _, MQueue _ | CUnget _ _, MQueue _ => false
  end.
Definition client_keeps_in (c : nat) (x : client) (s' : state) (m : mutex) : bool :=
  match clients s' !! c with Some x' => client_keeps x x' m | None => false end.

(** ** The transition system *)

(** [dpu_thread_job_init_sync_job] makes the mutex of the synchronisation and locks it. *)
Definition lstep (a : action) (l : lstate) : option lstate :=
  match a with
  | ActWorker w status =>
      x ← workers (base l) !! w;
      critical (TWorker w) (worker_waits w x (base l)) (worker_locks w x (base l)) (worker_inside x (base l))
        (worker_step queue_idx worker_queue w status) (worker_keeps w) l
  | ActRequest c rq =>
      s ← request_step c rq (base l);
      Some (mk_lstate s (if rq_waits rq && negb (rq_refused rq) then <[MSync c := Some (TClient c)]> (owner l) else owner l))
  | ActClient c idx =>
      x ← clients (base l) !! c;
      let idx := chosen_idx c x idx l in
      critical (TClient c) (client_waits x idx (base l)) (client_locks x idx (base l)) (client_inside c x)
        (client_step queue_idx c idx) (client_keeps_in c x) l
  end.
Definition lrun (actions : list action) (l : lstate) : option lstate :=
  foldl (fun l a => l ← l; lstep a l) (Some l) actions.

Inductive lreachable (n nr_workers nr_clients : nat) : lstate -> Prop :=
  | lreachable_initial : lreachable n nr_workers nr_clients (mk_lstate (initial_state n nr_workers nr_clients) (fun _ => None))
  | lreachable_step a l l' : lreachable n nr_workers nr_clients l -> valid_action a -> lstep a l = Some l' ->
      lreachable n nr_workers nr_clients l'.

(** ** The critical sections are those of ThreadJob.v *)

Inductive critical_spec (t : thread) (locks inside : list mutex) (commit : state -> option state) (keep : state -> mutex -> bool)
    (l : lstate) : bool -> lstate -> Prop :=
  | critical_wait o m : o = unlock t (fun m => negb (bool_decide (m ∈ locks))) (owner l) -> m ∈ locks -> owner l m = Some t ->
      critical_spec t locks inside commit keep l true (mk_lstate (base l) o)
  | critical_lock m : m ∈ locks -> owner l m = None ->
      critical_spec t locks inside commit keep l false (mk_lstate (base l) (<[m := Some t]> (owner l)))
  | critical_commit s' : (forall m, m ∈ locks -> owner l m = Some t) -> (forall m, m ∈ inside -> owner l m = None) ->
      commit (base l) = Some s' ->
      critical_spec t locks inside commit keep l false (mk_lstate s' (unlock t (keep s') (owner l))).

Lemma critical_cases t waits locks inside commit keep l l' :
  critical t waits locks inside commit keep l = Some l' -> critical_spec t locks inside commit keep l waits l'.
Proof.
  unfold critical. destruct waits.
  - destruct (existsb _ _) eqn:He; [|done]. intros [= <-]. apply existsb_exists in He as (m & Hm & Ho).
    apply list_elem_of_In in Hm. apply bool_decide_eq_true in Ho. by apply (critical_wait _ _ _ _ _ _ _ m).
  - destruct (List.find _ _) as [m|] eqn:Hf.
    + destruct (is_free l m) eqn:Hfree; [|done]. intros [= <-]. apply find_some in Hf as [Hm _].
      apply list_elem_of_In in Hm. apply bool_decide_eq_true in Hfree. by constructor.
    + destruct (forallb _ _) eqn:Hin; [|done]. destruct (commit (base l)) as [s'|] eqn:Hc; [|done]. intros [= <-]. constructor; [..|done].
      * intros m Hm. apply list_elem_of_In in Hm. pose proof (find_none _ _ Hf m Hm) as Hh. apply negb_false_iff in Hh.
        by apply bool_decide_eq_true in Hh.
      * intros m Hm. apply list_elem_of_In in Hm. rewrite forallb_forall in Hin. by apply Hin, bool_decide_eq_true in Hm.
Qed.

(** Every step is an action of ThreadJob.v or leaves its state alone. *)
Lemma lstep_base a l l' : valid_action a -> lstep a l = Some l' ->
  base l' = base l \/ exists a', valid_action a' /\ step queue_idx worker_queue a' (base l) = Some (base l').
Proof.
  intros Hv. destruct a as [w st|c rq|c idx]; cbn [lstep].
  - destruct (workers (base l) !! w) as [x|] eqn:Hw; [|done]. cbn [mbind option_bind].
    intros Hs%critical_cases. destruct Hs as [| |s' _ _ Hc]; [by left..|right]. by exists (ActWorker w st).
  - destruct (request_step c rq (base l)) as [s'|] eqn:Hs; [|done]. intros [= <-]. right. by exists (ActRequest c rq).
  - destruct (clients (base l) !! c) as [x|] eqn:Hc; [|done]. cbn [mbind option_bind].
    intros Hs%critical_cases. destruct Hs as [| |s' _ _ Hs]; [by left..|right]. by exists (ActClient c (chosen_idx c x idx l)).
Qed.
Lemma lreachable_base n nr_workers nr_clients l : lreachable n nr_workers nr_clients l ->
  reachable queue_idx worker_queue n nr_workers nr_clients (base l).
Proof.
  induction 1 as [|a l l' _ IH Hv Hs]; [constructor|]. apply lstep_base in Hs as [->|(a' & Hv' & Hs)]; [done| |done].
  by eapply reachable_step.
Qed.

(** ** Who has which mutex *)

Definition not_empty (s : state) (q : nat) : Prop := exists j l, queues s !! q = Some (j :: l).
Definition worker_may (w : nat) (x : worker) (s : state) (m : mutex) : Prop :=
  match x with
  | WIdle => m = MQueue (worker_queue w) /\ not_empty s (worker_queue w)
  | WCompute job | WDone job _ => m = MJobs (fst job)
  | WInsert (Some next) _ _ => m = MQueue (queue_idx (fst next))
  | WGlobal _ _ _ _ => (exists q, m = MQueue q) \/ exists r, m = MJobs r
  | WRelease _ (Some _) _ => exists r, m = MJobs r
  | WInsert None _ _ | WFunction _ _ _ | WRelease _ None _ => False
  end.
Definition client_may (c : nat) (x : client) (m : mutex) : Prop :=
  match x with
  | CIdle _ | CWait _ => False
  | CGet _ _ _ (rank :: _) => m = MSync c \/ m = MJobs rank
  | CGet rq got _ [] => m = MSync c \/ rq_master rq = true /\ exists r, m = MJobs r
  | CUnget _ _ => m = MSync c \/ exists r, m = MJobs r
  | CAdd _ _ _ => m = MSync c \/ (exists q, m = MQueue q) \/ exists r, m = MJobs r
  end.
Definition may_hold (t : thread) (s : state) (m : mutex) : Prop :=
  match t with
  | TWorker w => exists x, workers s !! w = Some x /\ worker_may w x s m
  | TClient c => exists x, clients s !! c = Some x /\ client_may c x m
  end.
Definition lock_inv (l : lstate) : Prop := forall m t, owner l m = Some t -> may_hold t (base l) m.

Lemma unlock_some t keep o m t' : unlock t keep o m = Some t' -> o m = Some t' /\ (t' = t -> keep m = true).
Proof.
  unfold unlock. destruct (o m) as [t0|]; [|done]. destruct (decide (t0 = t)) as [->|Hne].
  - rewrite bool_decide_eq_true_2 by done. destruct (keep m) eqn:Hk; cbn; [by intros [= <-]|done].
  - rewrite bool_decide_eq_false_2 by done. cbn. intros [= <-]. by split.
Qed.

(** What an action changes of the other threads: nothing, and a queue only gets
    shorter for the worker that takes a rank. *)
Inductive client_next : client -> client -> Prop :=
  | next_error rq got cur rest st : client_next (CGet rq got cur rest) (CUnget got st)
  | next_slot rq got cur cur' r rest : client_next (CGet rq got cur (r :: rest)) (CGet rq got cur' (r :: rest))
  | next_rank rq got cur r rest got' : client_next (CGet rq got cur (r :: rest)) (CGet rq got' [] rest)
  | next_add rq got cur mo : client_next (CGet rq got cur []) (CAdd rq mo got)
  | next_unget p got st : client_next (CUnget (p :: got) st) (CUnget got st)
  | next_added rq mo p rem : client_next (CAdd rq mo (p :: rem)) (CAdd rq mo rem)
  | next_wait x rq : client_next x (CWait rq)
  | next_idle x st : client_next x (CIdle st).

Lemma insert_not_empty j s q : not_empty s q -> not_empty (insert_in_queue queue_idx j s) q.
Proof.
  intros (j' & l & Hq). unfold not_empty. cbn [insert_in_queue set_queues queues]. rewrite list_lookup_alter.
  case_decide as H; [rewrite H, Hq; by exists j', (l ++ [j])|rewrite Hq; by exists j', l].
Qed.

Lemma worker_step_frame w st s s' : worker_step queue_idx worker_queue w st s = Some s' ->
  exists x y, workers s !! w = Some x /\ workers s' = <[w := y]> (workers s) /\ clients s' = clients s /\
    forall q, not_empty s q -> (x = WIdle /\ worker_queue w = q) \/ not_empty s' q.
Proof.
  unfold worker_step. destruct (workers s !! w) as [x|] eqn:Hw; [|done]. cbn [mbind option_bind].
  enough (forall s0 y, workers s0 = workers s -> clients s0 = clients s ->
    (forall q, not_empty s q -> (x = WIdle /\ worker_queue w = q) \/ not_empty s0 q) ->
    exists x' y', Some x = Some x' /\ workers (upd_worker w y s0) = <[w := y']> (workers s) /\ clients (upd_worker w y s0) = clients s /\
    forall q, not_empty s q -> (x' = WIdle /\ worker_queue w = q) \/ not_empty (upd_worker w y s0) q) as Hmove.
  { assert (forall s0 y, workers s0 = workers s -> clients s0 = clients s -> queues s0 = queues s ->
      exists x' y', Some x = Some x' /\ workers (upd_worker w y s0) = <[w := y']> (workers s) /\ clients (upd_worker w y s0) = clients s /\
      forall q, not_empty s q -> (x' = WIdle /\ worker_queue w = q) \/ not_empty (upd_worker w y s0) q) as Hsame.
    { intros s0 y E1 E2 E3. apply Hmove; [done..|]. intros q Hq. right. unfold not_empty. by rewrite E3. }
    destruct x as [|j|next mo c|[j|] mo c|j mo [|other rs] st'|jo mo st'|j st'].
    - destruct (queues s !! worker_queue w) as [[|j l]|] eqn:Hq; [done| |done]. cbn [mbind option_bind]. intros [= <-].
      apply Hmove; [done..|]. intros q (j' & l' & Hq'). destruct (decide (worker_queue w = q)) as [|Hne]; [by left|right].
      exists j', l'. cbn [queues set_queues]. by rewrite list_lookup_insert_ne.
    - unfold dpu_thread_compute_job. destruct (table s j) as [t|c|c]; [intros [= <-]; by apply Hsame| |].
      + intros [= <-]. by apply Hsame.
      + destruct (table s (default j (master_job c))) as [|?|m]; [done..|]. cbv zeta. repeat case_bool; try (intros [= <-]; by apply Hsame).
        destruct (dpu_thread_advance_to_next_job _) as [[rk next]|]; [|done]. intros [= <-]. by apply Hsame.
    - intros [= <-]. destruct next; [|by apply Hsame]. apply Hmove; [done..|]. intros q Hq. right. by apply insert_not_empty.
    - intros [= <-]. by apply Hsame.
    - intros [= <-]. by apply Hsame.
    - intros [= <-]. by apply Hsame.
    - destruct (other =? fst j)%nat; cbn [mbind option_bind]; [intros [= <-]; by apply Hsame|].
      unfold global_block_rank. destruct (dpu_thread_advance_to_next_job _) as [[rk [next|]]|]; [|done..].
      intros [= <-]. apply Hmove; [done..|]. intros q Hq. right. by apply insert_not_empty.
    - destruct mo as [m|]; cbn [mbind option_bind]; [|intros [= <-]; by apply Hsame].
      unfold release_master. destruct (table s m); [done..|]. intros [= <-]. by apply Hsame.
    - unfold after_job. case_bool.
      + intros [= <-]. unfold dpu_thread_update_status.
        destruct (notify_same (fst j) (async_status (type_of (table s j)) st') (jobs (ranks s (fst j))) s) as (E1 & E2 & E3 & Ecl).
        by apply Hsame.
      + destruct (dpu_thread_advance_to_next_job _) as [[rk next]|]; [|done]. intros [= <-]. by apply Hsame. }
  intros s0 y E1 E2 Hq. exists x, y. cbn. by rewrite E1.
Qed.

Lemma client_step_frame c idx s s' : client_step queue_idx c idx s = Some s' ->
  exists x y, clients s !! c = Some x /\ clients s' = <[c := y]> (clients s) /\ workers s' = workers s /\ client_next x y /\
    forall q, not_empty s q -> not_empty s' q.
Proof.
  unfold client_step. destruct (clients s !! c) as [x|] eqn:Hc; [|done]. cbn [mbind option_bind].
  enough (forall s0 y, clients s0 = clients s -> workers s0 = workers s -> client_next x y -> (forall q, not_empty s q -> not_empty s0 q) ->
    exists x' y', Some x = Some x' /\ clients (upd_client c y s0) = <[c := y']> (clients s) /\ workers (upd_client c y s0) = workers s /\
      client_next x' y' /\ forall q, not_empty s q -> not_empty (upd_client c y s0) q) as Hmove.
  { assert (forall rq mo s0 got, clients s0 = clients s -> workers s0 = workers s -> queues s0 = queues s -> let s1 := foldl (write_jobs rq c mo) s0 got in
      clients s1 = clients s /\ workers s1 = workers s /\ forall q, not_empty s q -> not_empty s1 q) as Hfill.
    { intros rq mo s0 got E1 E2 E3. cbv zeta. rewrite write_jobs_all.
      destruct (write_all_same (writes_of rq c mo got) s0) as (_ & Hq & _ & Hw & Hcl & _). unfold not_empty. by rewrite Hq, Hw, Hcl, E1, E2, E3. }
    destruct x as [|rq got cur [|r rest]|[|[r js] got] st|rq mo [|[r js] rem]|rq]; [done|..].
    - case_bool.
      + cbv zeta. match goal with |- context [got !! ?i] => destruct (got !! i) as [[r js]|]; [|done] end. cbn [mbind option_bind].
        destruct (dpu_thread_job_get_job_unlocked (ranks s r)) as [st| |m rk]; [|done|]; intros [= <-].
        * apply Hmove; [done..|constructor|done].
        * destruct (Hfill rq (Some m) (set_masters (m :: masters (write_master rq m r (upd_rank r rk s))) (write_master rq m r (upd_rank r rk s))) got) as (? & ? & ?); [done..|].
          apply Hmove; [done..|constructor|done].
      + intros [= <-]. destruct (Hfill rq None s got) as (? & ? & ?); [done..|]. apply Hmove; [done..|constructor|done].
    - destruct (dpu_thread_job_get_job_unlocked (ranks s r)) as [st| |m rk]; [|done|]; intros [= <-].
      + apply (Hmove (set_leaked (cur ++ leaked s) s)); [done..|constructor|done].
      + apply (Hmove (upd_rank r rk s)); [done..|case_match; constructor|done].
    - intros [= <-]. apply Hmove; [done..|constructor|done].
    - intros [= <-]. apply (Hmove (upd_rank r _ s)); [done..|constructor|done].
    - intros [= <-]. apply Hmove; [done..|destruct (rq_waits rq); constructor|done].
    - intros [= <-]. unfold add_rank. cbv zeta. apply Hmove; try by destruct (jobs (ranks s r)), js; cbn. { constructor. }
      intros q Hq. destruct (jobs (ranks s r)), js; try done. by apply (insert_not_empty j s q).
    - case_bool; [|done]. intros [= <-]. destruct (reset_spec (rq_ranks rq) s) as (_ & _ & Eq & _ & Ew & Ec & _).
      apply Hmove; [by case_bool..|constructor|]. intros q Hq. unfold not_empty. case_bool; [done|by rewrite Eq]. }
  intros s0 y E1 E2 Hn Hq. exists x, y. cbn. by rewrite E1.
Qed.

Lemma worker_locks_may w x s m : worker_waits w x s = false -> m ∈ worker_locks w x s -> worker_may w x s m.
Proof.
  destruct x as [|j|[next|] mo c|jo mo c|j mo [|other rs] st|jo [mo|] st|j st]; cbn [worker_waits worker_locks worker_may]; intros Hw Hm;
    try (by apply not_elem_of_nil in Hm).
  - apply list_elem_of_singleton in Hm as ->. split; [done|]. unfold not_empty.
    destruct (queues s !! worker_queue w) as [[|j l]|]; [done| |done]. by exists j, l.
  - case_match; [by apply list_elem_of_singleton in Hm|by apply not_elem_of_nil in Hm].
  - by apply list_elem_of_singleton in Hm.
  - case_match; [by apply not_elem_of_nil in Hm|]. apply elem_of_cons in Hm as [->|Hm]; [left; by eexists|].
    apply list_elem_of_singleton in Hm as ->. right. by eexists.
  - case_match; try (by apply not_elem_of_nil in Hm). apply list_elem_of_singleton in Hm as ->. by eexists.
  - by apply list_elem_of_singleton in Hm.
Qed.
Lemma client_locks_may c x idx s m : m ∈ client_locks x idx s -> client_may c x m.
Proof.
  destruct x as [|rq got cur [|r rest]|[|[r js] got] st|rq mo [|[r js] rem]|rq]; cbn [client_locks client_may]; intros Hm;
    try (by apply not_elem_of_nil in Hm).
  - destruct (rq_master rq); [|by apply not_elem_of_nil in Hm]. destruct (got !! _) as [[r js]|]; [|by apply not_elem_of_nil in Hm].
    apply list_elem_of_singleton in Hm as ->. right. split; [done|by eexists].
  - apply list_elem_of_singleton in Hm as ->. by right.
  - apply list_elem_of_singleton in Hm as ->. right. by eexists.
  - right. apply elem_of_cons in Hm as [->|Hm]; [right; by eexists|].
    destruct (jobs (ranks s r)); [|by apply not_elem_of_nil in Hm]. apply list_elem_of_singleton in Hm as ->. left. by eexists.
Qed.
Lemma client_kept_may c x y m : client_next x y -> client_may c x m -> client_keeps x y m = true -> client_may c y m.
Proof.
  intros Hn Hm Hk. destruct Hn as [rq got cur rest st|rq got cur cur' r rest|rq got cur r rest got'|rq got cur mo|p got st|rq mo p rem|x rq|x st];
    cbn [client_may client_keeps] in *.
  - destruct m as [q|r|c']; [done|right; by eexists|]. left. destruct rest as [|r rest]; [destruct Hm as [->|[_ [r Hr]]]|destruct Hm as [->|Hr]]; done.
  - destruct m; [done|done|]. destruct Hm as [?|?]; [by left|done].
  - destruct m as [q|r'|c']; [done|by rewrite bool_decide_eq_true_2 in Hk by done|].
    destruct Hm as [->|?]; [|done]. destruct rest; by left.
  - destruct m as [q|r'|c']; [right; left; by eexists|done|]. destruct Hm as [->|[_ [r Hr]]]; [by left|done].
  - destruct m as [q|r'|c']; [done|right; by eexists|]. destruct Hm as [->|[r Hr]]; [by left|done].
  - done.
  - by destruct m.
  - by destruct m.
Qed.

Lemma lock_inv_worker w st l l' : lock_inv l -> lstep (ActWorker w st) l = Some l' -> lock_inv l'.
Proof.
  intros Hinv. cbn [lstep].
  destruct (workers (base l) !! w) as [x|] eqn:Hw; [|done]. cbn [mbind option_bind].
  destruct (worker_waits w x (base l)) eqn:Hwait; intros Hs%critical_cases; inversion Hs as [o m -> _ _|m Hm Ho|s' Hlocks Hinside Hc]; subst.
  + intros m' t' Ht'. cbn [owner base] in *. apply unlock_some in Ht' as [Ht' _]. by apply Hinv.
  + intros m' t'. cbn [owner base]. rewrite fn_insert_eq. case_decide as Hd; [|by apply Hinv].
    intros [= <-]. subst m'. exists x. split; [done|]. by apply worker_locks_may.
  + apply worker_step_frame in Hc as (x' & y & Hx' & Hws & Hcl & Hq). rewrite Hw in Hx'. injection Hx' as <-.
    intros m t Ht. cbn [owner base] in *. apply unlock_some in Ht as [Ht Hk]. pose proof (Hinv m t Ht) as Hmay.
    destruct t as [w'|c'].
    * destruct (decide (w' = w)) as [->|Hne].
      -- specialize (Hk eq_refl). unfold worker_keeps in Hk. destruct (workers s' !! w) as [z|] eqn:Hz; [|done].
         exists z. split; [done|]. destruct z, m; try done. left. by eexists.
      -- destruct Hmay as (z & Hz & Hm). exists z. split; [by rewrite Hws, list_lookup_insert_ne by congruence|].
         destruct z; try done. destruct Hm as [-> Hne']. split; [done|]. destruct (Hq _ Hne') as [[-> Heq]|]; [|done].
         rewrite <-Heq, (Hlocks (MQueue (worker_queue w))) in Ht by (cbn; by left). by injection Ht.
    * destruct Hmay as (z & Hz & Hm). exists z. by rewrite Hcl.
Qed.

Lemma lock_inv_request c rq l l' : lock_inv l -> lstep (ActRequest c rq) l = Some l' -> lock_inv l'.
Proof.
  intros Hinv. cbn [lstep].
  unfold request_step. destruct (clients (base l) !! c) as [x|] eqn:Hc; [|done]. cbn [mbind option_bind].
  destruct x as [st| | | |]; try done.
  assert (forall m t, owner l m = Some t -> t <> TClient c) as Hnone.
  { intros m t Ht ->. destruct (Hinv m _ Ht) as (x & Hx & Hm). rewrite Hc in Hx. by injection Hx as <-. }
  assert (forall s' m t, workers s' = workers (base l) -> queues s' = queues (base l) -> (exists y, clients s' = <[c := y]> (clients (base l))) ->
    owner l m = Some t -> may_hold t s' m) as Hothers.
  { intros s' m t E1 E2 [y E3] Ht. pose proof (Hnone m t Ht) as Hne. pose proof (Hinv m t Ht) as Hmay. destruct t as [w'|c'].
    - destruct Hmay as (z & Hz & Hm). exists z. rewrite E1. split; [done|]. destruct z; try done. unfold worker_may, not_empty in *. by rewrite E2.
    - destruct Hmay as (z & Hz & Hm). exists z. split; [|done]. rewrite E3, list_lookup_insert_ne by congruence. done. }
  destruct (rq_refused rq) eqn:Hrefused; cbn [mbind option_bind].
  + rewrite andb_false_r. intros [= <-]. intros m t Ht. eapply Hothers; [..|exact Ht]; [done..|by eexists].
  + rewrite andb_true_r. destruct (rq_waits rq) eqn:Hwaits; intros [= <-]; intros m t; cbn [owner base].
    * rewrite fn_insert_eq. case_decide as Hd; [|intros Ht; eapply Hothers; [..|exact Ht]; [done..|by eexists]].
      intros [= <-]. eexists. split; [cbn; apply list_lookup_insert_eq; by eapply lookup_lt_Some|].
      destruct (rq_ranks rq); cbn; left; congruence.
    * intros Ht; eapply Hothers; [..|exact Ht]; [done..|by eexists].
Qed.

Lemma lock_inv_client c idx l l' : lock_inv l -> lstep (ActClient c idx) l = Some l' -> lock_inv l'.
Proof.
  intros Hinv. cbn [lstep].
  destruct (clients (base l) !! c) as [x|] eqn:Hx; [|done]. cbn [mbind option_bind].
  set (idx' := chosen_idx c x idx l). clearbody idx'.
  intros Hs%critical_cases. inversion Hs as [o m -> Hm _|m Hm Ho Hw|s' Hlocks Hinside Hc Hw]; subst.
  + intros m' t' Ht'. cbn [owner base] in *. apply unlock_some in Ht' as [Ht' _]. by apply Hinv.
  + intros m' t'. cbn [owner base]. rewrite fn_insert_eq. case_decide as Hd; [|by apply Hinv].
    intros [= <-]. subst m'. exists x. split; [done|]. by eapply client_locks_may.
  + apply client_step_frame in Hc as (x' & y & Hx' & Hcl & Hws & Hn & Hq). rewrite Hx in Hx'. injection Hx' as <-.
    intros m t Ht. cbn [owner base] in *. apply unlock_some in Ht as [Ht Hk]. pose proof (Hinv m t Ht) as Hmay. destruct t as [w'|c'].
    * destruct Hmay as (z & Hz & Hm). exists z. rewrite Hws. split; [done|]. destruct z; try done.
      destruct Hm as [-> Hne]. split; [done|by apply Hq].
    * destruct (decide (c' = c)) as [->|Hne]; destruct Hmay as (z & Hz & Hm).
      -- rewrite Hx in Hz. injection Hz as <-. specialize (Hk eq_refl). unfold client_keeps_in in Hk.
         destruct (clients s' !! c) as [y'|] eqn:Hy; [|done]. rewrite Hcl in Hy.
         rewrite list_lookup_insert_eq in Hy by (by eapply lookup_lt_Some). injection Hy as <-.
         exists y. split; [by rewrite Hcl, list_lookup_insert_eq by (by eapply lookup_lt_Some)|]. by eapply client_kept_may.
      -- exists z. split; [by rewrite Hcl, list_lookup_insert_ne by congruence|done].
Qed.

Lemma lock_inv_reachable n nr_workers nr_clients l : lreachable n nr_workers nr_clients l -> lock_inv l.
Proof.
  induction 1 as [|[w st|c rq|c idx] l l' _ IH _ Hs]; [done|by eapply lock_inv_worker|by eapply lock_inv_request|by eapply lock_inv_client].
Qed.

(** ** The lists only change under their mutex *)

(** The lists of the rank [r] and the list of the queue [q]. *)
Definition lists_of (s : state) (m : mutex) : list job_id * list job_id :=
  match m with
  | MQueue q => (default [] (queues s !! q), [])
  | MJobs r => (jobs (ranks s r), available_jobs (ranks s r))
  | MSync _ => ([], [])
  end.
Lemma lists_same_of s s' m : queues s' = queues s -> (forall r, jobs (ranks s' r) = jobs (ranks s r) /\ available_jobs (ranks s' r) = available_jobs (ranks s r)) ->
  lists_of s' m = lists_of s m.
Proof using. intros Hq Hr. destruct m as [q|r|c]; cbn; [by rewrite Hq| |done]. by destruct (Hr r) as [-> ->]. Qed.
Lemma lists_other_rank s r x m : m <> MJobs r -> lists_of (upd_rank r x s) m = lists_of s m.
Proof using. intros Hm. destruct m as [q|r'|c]; cbn; [done| |done]. by rewrite fn_insert_eq, decide_False by congruence. Qed.
Lemma lists_other_queue s j m : m <> MQueue (queue_idx (fst j)) -> lists_of (insert_in_queue queue_idx j s) m = lists_of s m.
Proof using. intros Hm. destruct m as [q|r'|c]; cbn; [|done..]. by rewrite list_lookup_alter, decide_False by congruence. Qed.

Lemma worker_touches n w x st s s' m : inv n s -> workers s !! w = Some x -> worker_step queue_idx worker_queue w st s = Some s' ->
  m ∉ worker_locks w x s -> lists_of s' m = lists_of s m.
Proof using.
  intros Hinv Hw. unfold worker_step. rewrite Hw. cbn [mbind option_bind].
  assert (forall y s0, lists_of (upd_worker w y s0) m = lists_of s0 m) as Hup by (intros y s0; by destruct m).
  destruct x as [|j|[next|] mo c|[j|] mo c|j mo [|other rs] st'|jo [mo|] st'|j st']; cbn [worker_locks].
  - destruct (queues s !! worker_queue w) as [[|j ql]|] eqn:Hq; [done| |done]. cbn [mbind option_bind]. intros [= <-] Hm.
    rewrite Hup. destruct m as [q|r|c]; cbn; [|done..]. rewrite list_lookup_insert_ne; [done|].
    intros Heq. apply Hm. rewrite Heq. by left.
  - unfold dpu_thread_compute_job, last_nonblocking. destruct (table s j) as [t|c|c]; [by intros [= <-] _; rewrite Hup| |].
    + intros [= <-] _. rewrite Hup. by apply lists_same_of.
    + destruct (table s (default j (master_job c))) as [|?|m']; [done..|]. cbv zeta. cbn [set_cb_nr_ranks cb_nr_ranks is_nonblocking is_single_call is_sync].
      destruct (u32 (cb_nr_ranks m' - 1) =? 0); cbn [andb]; [destruct (is_nonblocking m')|].
      * destruct (dpu_thread_advance_to_next_job _) as [[rk next]|]; [|done]. intros [= <-] Hm.
        rewrite Hup, lists_other_rank; [by apply lists_same_of|]. intros ->. apply Hm. by left.
      * intros [= <-] _. rewrite Hup. by apply lists_same_of.
      * case_bool; intros [= <-] _; rewrite Hup; by apply lists_same_of.
  - intros [= <-] Hm. rewrite Hup. apply lists_other_queue. intros ->. apply Hm. by left.
  - intros [= <-] _. by rewrite Hup.
  - intros [= <-] _. by rewrite Hup.
  - intros [= <-] _. by rewrite Hup.
  - intros [= <-] _. by rewrite Hup.
  - destruct (other =? fst j)%nat; cbn [mbind option_bind]; [by intros [= <-] _; rewrite Hup|]. unfold global_block_rank.
    destruct (dpu_thread_advance_to_next_job (ranks s other)) as [[rk [next|]]|] eqn:Ha; [|done..]. intros [= <-] Hm. rewrite Hup.
    apply advance_ok in Ha as (j' & js & Hjs & -> & Hnext). assert (fst next = other) as Hf.
    { apply (jobs_home Hinv). rewrite Hjs. right. destruct js as [|j2 js]; [done|]. injection Hnext as ->. by left. }
    rewrite lists_other_queue; [|intros ->; apply Hm; rewrite Hf; by left].
    assert (forall r s0, lists_of (upd_parked r None s0) m = lists_of s0 m) as -> by (intros r s0; by destruct m).
    apply lists_other_rank. intros ->. apply Hm. right. by left.
  - cbn [mbind option_bind]. unfold release_master. destruct (table s mo) as [|?|c] eqn:Ht; [done..|]. intros [= <-] Hm. rewrite Hup.
    change (lists_of (upd_rank (slot_owner c) (dpu_thread_release_job_slot_unlocked mo (ranks s (slot_owner c))) s) m = lists_of s m).
    apply lists_other_rank. intros ->. apply Hm. by left.
  - intros [= <-] _. by rewrite Hup.
  - unfold after_job. case_bool.
    + intros [= <-] Hm. rewrite Hup. unfold dpu_thread_update_status. cbv zeta. rewrite lists_other_rank by (intros ->; apply Hm; by left).
      destruct (notify_same (fst j) (async_status (type_of (table s j)) st') (jobs (ranks s (fst j))) s) as (_ & Eq & _ & _).
      apply lists_same_of; [done|]. intros r. by rewrite notify_ranks.
    + destruct (dpu_thread_advance_to_next_job _) as [[rk next]|]; [|done]. intros [= <-] Hm. rewrite Hup.
      apply lists_other_rank. intros ->. apply Hm. by left.
Qed.

Lemma client_touches n c x idx s s' m : inv n s -> clients s !! c = Some x -> client_step queue_idx c idx s = Some s' ->
  m ∉ client_locks x idx s -> lists_of s' m = lists_of s m.
Proof using.
  intros Hinv Hc. unfold client_step. rewrite Hc. cbn [mbind option_bind].
  assert (forall y s0, lists_of (upd_client c y s0) m = lists_of s0 m) as Hup by (intros y s0; by destruct m).
  assert (forall rq mo s0 got, lists_of (foldl (write_jobs rq c mo) s0 got) m = lists_of s0 m) as Hfill.
  { intros rq mo s0 got. rewrite write_jobs_all. destruct (write_all_same (writes_of rq c mo got) s0) as (Er & Eq & _).
    apply lists_same_of; [done|]. intros r. by rewrite Er. }
  destruct x as [|rq got cur [|r rest]|[|[r js] got] st|rq mo [|[r js] rem]|rq]; cbn [client_locks]; [done|..].
  - destruct (rq_master rq).
    + cbv zeta.
      assert ((if match rq_kind rq with RequestCallback _ b _ => b | _ => false end then idx else 0%nat) = master_idx rq idx) as ->.
      { unfold master_idx. destruct (rq_kind rq) as [| |b1 [|] b3]; done. }
      destruct (got !! master_idx rq idx) as [[r js]|]; [|done]. cbn [mbind option_bind].
      destruct (dpu_thread_job_get_job_unlocked (ranks s r)) as [st| |j rk]; [by intros [= <-] _; rewrite Hup|done|]. intros [= <-] Hm.
      rewrite Hup, Hfill. unfold write_master.
      match goal with |- lists_of ?s1 m = _ => change (lists_of s1 m) with (lists_of (upd_rank r rk s) m) end.
      apply lists_other_rank. intros ->. apply Hm. by left.
    + intros [= <-] _. by rewrite Hup, Hfill.
  - destruct (dpu_thread_job_get_job_unlocked (ranks s r)) as [st| |j rk]; [|done|]; intros [= <-] Hm; rewrite Hup; [by destruct m|].
    apply lists_other_rank. intros ->. apply Hm. by left.
  - intros [= <-] _. by rewrite Hup.
  - intros [= <-] Hm. rewrite Hup. apply lists_other_rank. intros ->. apply Hm. by left.
  - intros [= <-] _. by rewrite Hup.
  - intros [= <-] Hm. rewrite Hup. unfold add_rank. cbv zeta. rewrite lists_other_rank by (intros ->; apply Hm; by left).
    destruct (iv_clients _ _ Hinv c _ Hc) as (_ & _ & Hrem & _).
    destruct (jobs (ranks s r)) eqn:Hj; [|done]. destruct js as [|j js]; [done|]. apply lists_other_queue.
    rewrite (rm_home _ _ _ _ _ _ (Hrem (r, j :: js) ltac:(by left)) j ltac:(by left)). intros ->. apply Hm. right. by left.
  - case_bool; [|done]. intros [= <-] _. rewrite Hup. case_bool; [done|].
    destruct (reset_spec (rq_ranks rq) s) as (Ej & _ & Eq & _). apply lists_same_of; [done|]. intros r. by destruct (Ej r) as (-> & -> & _).
Qed.

Definition thread_of (act : action) : thread :=
  match act with ActWorker w _ => TWorker w | ActRequest c _ | ActClient c _ => TClient c end.
(** The FIFO and the slots of a rank are only changed by a thread that has its
    [jobs_mutex], the list of a queue by one that has its mutex. *)
Lemma lists_under_mutex n nr_workers nr_clients act l l' m : (forall r, (queue_idx r < NR_QUEUES)%nat) -> Z.of_nat n < 2 ^ 32 ->
  lreachable n nr_workers nr_clients l -> lstep act l = Some l' ->
  lists_of (base l') m <> lists_of (base l) m -> owner l m = Some (thread_of act).
Proof using.
  intros Hqueue Hn Hreach Hstep Hne. pose proof (inv_reachable _ _ _ Hqueue Hn _ _ _ (lreachable_base _ _ _ _ Hreach)) as Hinv.
  destruct act as [w st|c rq|c idx]; cbn [lstep thread_of] in *.
  - destruct (workers (base l) !! w) as [x|] eqn:Hw; [|done]. cbn [mbind option_bind] in Hstep.
    apply critical_cases in Hstep. destruct Hstep as [| |s' Hlocks _ Hc]; [done..|]. apply Hlocks.
    destruct (decide (m ∈ worker_locks w x (base l))) as [|Hm]; [done|]. destruct Hne. by eapply worker_touches.
  - destruct Hne. unfold request_step in Hstep. destruct (clients (base l) !! c) as [x|]; [|done]. cbn [mbind option_bind] in Hstep.
    destruct x; try done. destruct m; cbn; by destruct (rq_refused rq); injection Hstep as <-; [|destruct (rq_waits rq)].
  - destruct (clients (base l) !! c) as [x|] eqn:Hx; [|done]. cbn [mbind option_bind] in Hstep.
    apply critical_cases in Hstep. destruct Hstep as [| |s' Hlocks _ Hc]; [done..|]. apply Hlocks.
    destruct (decide (m ∈ client_locks x (chosen_idx c x idx l) (base l))) as [|Hm]; [done|]. destruct Hne. by eapply client_touches.
Qed.

(** ** Threads that are stopped *)

(** A thread that could go through its critical section is stopped by a mutex that
    another one has. *)
Lemma critical_blocked t locks inside commit keep l : critical t false locks inside commit keep l = None ->
  is_Some (commit (base l)) ->
  (exists m t', m ∈ locks /\ owner l m = Some t' /\ t' <> t) \/
  ((forall m, m ∈ locks -> owner l m = Some t) /\ exists m t', m ∈ inside /\ owner l m = Some t').
Proof using.
  unfold critical. intros Hnone [s Hs]. destruct (List.find _ _) as [m|] eqn:Hf.
  - left. apply find_some in Hf as [Hm Hh]. apply list_elem_of_In in Hm. apply negb_true_iff, bool_decide_eq_false in Hh.
    unfold is_free in Hnone. case_bool_decide as Ho; [done|]. destruct (owner l m) as [t'|] eqn:Ht; [|done].
    exists m, t'. split_and!; [done..|congruence].
  - right. split.
    + intros m Hm. apply list_elem_of_In in Hm. pose proof (find_none _ _ Hf m Hm) as Hh. apply negb_false_iff in Hh.
      by apply bool_decide_eq_true in Hh.
    + destruct (forallb (is_free l) inside) eqn:Hin; [by rewrite Hs in Hnone|].
      assert (existsb (fun m => negb (is_free l m)) inside = true) as He.
      { clear -Hin. induction inside as [|m ms IH]; [done|]. cbn in *. destruct (is_free l m); [by apply IH|done]. }
      apply existsb_exists in He as (m & Hm & Ho). apply list_elem_of_In in Hm. apply negb_true_iff, bool_decide_eq_false in Ho.
      destruct (owner l m) as [t'|] eqn:Ht; [|done]. by exists m, t'.
Qed.

(** No step is left, of any worker, whatever the status of its job, and of any client. *)
Definition resting (l : lstate) : Prop :=
  (forall w status, lstep (ActWorker w status) l = None) /\ forall c idx, lstep (ActClient c idx) l = None.

Definition quiet (x : client) : Prop := match x with CIdle _ | CWait _ => True | _ => False end.
(** The ranks that a request has not done with. *)
Definition client_ranks (x : client) : list nat :=
  match x with
  | CGet _ got _ rest => got.*1 ++ rest
  | CUnget got _ => got.*1
  | CAdd _ _ remaining => remaining.*1
  | CIdle _ | CWait _ => []
  end.

(** No single call is in progress, and at most one client, [a], is in the middle of
    a request; the ranks that have jobs or will have some are among [R]. *)
Record one_request (R : list nat) (a : nat) (s : state) : Prop := {
  or_masters : masters s = [];
  or_quiet : forall c x, clients s !! c = Some x -> c = a \/ quiet x;
  or_single : forall rq got cur rest, clients s !! a = Some (CGet rq got cur rest) -> rq_master rq = false;
  or_jobs : forall r, jobs (ranks s r) <> [] -> r ∈ R;
  or_ranks : forall x r, clients s !! a = Some x -> r ∈ client_ranks x -> r ∈ R;
}.

Section Rest.
Context (n nr_workers nr_clients : nat) (l : lstate) (R : list nat) (a : nat).
Context (Hqueue : forall r, (queue_idx r < NR_QUEUES)%nat) (Hn : Z.of_nat n < 2 ^ 32).
Context (Hreach : lreachable n nr_workers nr_clients l) (Hone : one_request R a (base l)).

Let Hbase : reachable queue_idx worker_queue n nr_workers nr_clients (base l) := lreachable_base _ _ _ _ Hreach.
Let Hinv : inv n (base l) := inv_reachable _ _ _ Hqueue Hn _ _ _ Hbase.
Let Hlock : lock_inv l := lock_inv_reachable _ _ _ _ Hreach.

(** Only the client in the middle of a request has a mutex, among the clients. *)
Lemma client_owner m c : owner l m = Some (TClient c) -> c = a /\ exists x, clients (base l) !! a = Some x /\ ~ quiet x /\ client_may a x m.
Proof using Hone Hreach.
  intros Ho. destruct (Hlock m _ Ho) as (x & Hx & Hm). destruct (or_quiet _ _ _ Hone c x Hx) as [->|Hq].
  - split; [done|]. exists x. split_and!; [done| |done]. destruct x; cbn in *; tauto.
  - by destruct x.
Qed.
Lemma sync_owner m c t : m = MSync c -> owner l m = Some t -> t = TClient a /\ c = a.
Proof using Hone Hreach.
  intros -> Ho. destruct t as [w|c'].
  - destruct (Hlock _ _ Ho) as (x & _ & Hm).
    destruct x as [|j|[next|] mo c'|jo mo c'|j mo rs st|jo [mo|] st|j st]; cbn in Hm; naive_solver.
  - apply client_owner in Ho as (-> & x & _ & _ & Hm). split; [done|].
    destruct x as [|rq got cur [|r rest]|[|[r js] got] st|rq mo [|[r js] rem]|rq]; cbn in Hm; naive_solver.
Qed.

Lemma no_master m : master_done (base l) (Some m) -> False.
Proof using Hone. intros Hd. destruct (Hd m eq_refl) as [Hin _]. rewrite (or_masters _ _ _ Hone) in Hin. by apply not_elem_of_nil in Hin. Qed.
Lemma nobody_is_parked r : parked (base l) r = None.
Proof using Hqueue Hn Hreach Hone.
  destruct (parked (base l) r) as [m|] eqn:Hp; [|done]. destruct (iv_parked _ _ Hinv r m Hp) as [_ Hin].
  rewrite (or_masters _ _ _ Hone) in Hin. by apply not_elem_of_nil in Hin.
Qed.

(** The rank of the job of a worker. *)
Definition job_rank (x : worker) : option nat := match x with WCompute j | WDone j _ => Some (fst j) | _ => None end.

(** A synchronisation that a worker is about to tell is that of a client that has
    added its job to the rank. *)
Lemma told_added w x m : workers (base l) !! w = Some x -> m ∈ worker_inside x (base l) ->
  exists c r, m = MSync c /\ job_rank x = Some r /\ added (base l) c r.
Proof using Hqueue Hn Hreach.
  intros Hw Hm. destruct x as [|j|next mo c'|jo mo c'|j mo rs st|jo mo st|j st]; cbn [worker_inside] in Hm; try by apply not_elem_of_nil in Hm.
  - destruct (table (base l) j) as [t|c|cb] eqn:Ht; try by apply not_elem_of_nil in Hm.
    case_match; [|by apply not_elem_of_nil in Hm]. apply list_elem_of_singleton in Hm as ->. exists c, (fst j). split_and!; [done..|].
    destruct (compute_key n (base l) w j (OfSync c) Hinv Hw) as (_ & Ho & _); [unfold key; by rewrite Ht|]. exact Ho.
  - case_bool; [by apply not_elem_of_nil in Hm|]. apply list_elem_of_bind in Hm as (j' & Hm & Hj').
    destruct (table (base l) j') as [t|c|cb] eqn:Ht; try by apply not_elem_of_nil in Hm.
    apply list_elem_of_singleton in Hm as ->. exists c, (fst j). split_and!; [done..|].
    destruct (token_head Hinv w _ j Hw ltac:(by left)) as [_ [js Hjs]]. rewrite Hjs in Hj'. zb2p.
    apply elem_of_cons in Hj' as [->|Hj'].
    + by destruct (iv_workers _ _ Hinv w _ Hw ltac:(done) c).
    + by destruct (behind_head n (base l) _ _ _ _ (OfSync c) Hinv Hjs Hj') as (_ & _ & Ho & _); [unfold key; by rewrite Ht|].
Qed.

Lemma worker_can w x st : workers (base l) !! w = Some x -> worker_waits w x (base l) = false ->
  is_Some (worker_step queue_idx worker_queue w st (base l)).
Proof using Hqueue Hn Hreach Hone.
  intros Hw Hwait. destruct (worker_step _ _ _ _ _) eqn:Hs; [done|].
  destruct (worker_step_defined queue_idx worker_queue Hinv w x st Hw Hs) as [[-> Hx]|H].
  - cbn in Hwait. destruct (queues (base l) !! worker_queue w) as [[|j ql]|] eqn:Hq; [done| |done]. by destruct (Hx j ql).
  - destruct H as (j' & mo & other & rs & st' & m & j2 & _ & _ & _ & Hp & _). by rewrite nobody_is_parked in Hp.
Qed.

Section Stopped.
Context (Hrest : resting l).

(** A worker that has a mutex is stopped by the synchronisation of the client [a],
    that has added the job of its rank. *)
Lemma holder_stopped m w : owner l m = Some (TWorker w) ->
  exists r, m = MJobs r /\ added (base l) a r /\ owner l (MSync a) = Some (TClient a).
Proof using Hqueue Hn Hreach Hone Hrest.
  intros Ho. destruct (Hlock m _ Ho) as (x & Hw & Hm). pose proof (iv_workers _ _ Hinv w x Hw) as Hok.
  assert (worker_waits w x (base l) = false) as Hwait.
  { destruct x; try done. destruct Hm as [_ (j & ql & Hq)]. cbn. by rewrite Hq. }
  assert (forall m', m' ∈ worker_locks w x (base l) -> m' = m) as Hone_lock.
  { destruct x as [|j|[next|] mo c|jo mo c|j mo rs st|jo [mo|] st|j st]; cbn [worker_may worker_locks] in *; intros m' Hm';
      try by apply not_elem_of_nil in Hm'.
    - destruct Hm as [-> _]. by apply list_elem_of_singleton in Hm'.
    - subst m. case_match; [by apply list_elem_of_singleton in Hm'|by apply not_elem_of_nil in Hm'].
    - subst m. by apply list_elem_of_singleton in Hm'.
    - destruct Hok as (Hd & _ & [[mo' ->] _ _ _]). by destruct (no_master mo').
    - destruct Hok as (Hd & _). by destruct (no_master mo).
    - subst m. by apply list_elem_of_singleton in Hm'. }
  destruct Hrest as [Hworkers _]. specialize (Hworkers w DPU_OK). cbn [lstep] in Hworkers. rewrite Hw in Hworkers.
  cbn [mbind option_bind] in Hworkers. rewrite Hwait in Hworkers.
  apply critical_blocked in Hworkers as [(m' & t' & Hm' & Ho' & Hne)|(_ & m' & t' & Hm' & Ho')]; [..|by eapply worker_can].
  - rewrite (Hone_lock m' Hm'), Ho in Ho'. congruence.
  - destruct (told_added w x m' Hw Hm') as (c & r & -> & Hr & Ha). destruct (sync_owner _ c t' eq_refl Ho') as [-> ->].
    exists r. split; [|done]. destruct x; cbn in Hr, Hm; naive_solver.
Qed.

(** The client [a] is not stopped while it gives back or adds jobs. *)
Lemma client_stopped x : clients (base l) !! a = Some x -> (exists rq mo rem, x = CAdd rq mo rem) \/ (exists got st, x = CUnget got st) ->
  exists m t, m ∈ client_locks x 0 (base l) /\ owner l m = Some t /\ t <> TClient a.
Proof using Hrest.
  intros Hx Hcase. destruct Hrest as [_ Hclients]. specialize (Hclients a 0%nat). cbn [lstep] in Hclients. rewrite Hx in Hclients.
  cbn [mbind option_bind] in Hclients. cbv zeta in Hclients.
  assert (chosen_idx a x 0 l = 0%nat /\ client_waits x 0 (base l) = false /\ client_inside a x = [] /\
    is_Some (client_step queue_idx a 0 (base l))) as (Hi & Hwait & Hin & Hs).
  { unfold client_step. rewrite Hx. cbn [mbind option_bind].
    destruct Hcase as [(rq & mo & [|[r js] rem] & ->)|([|[r js] got] & st & ->)]; split_and!; try done; by eexists. }
  rewrite Hi, Hwait, Hin in Hclients. apply critical_blocked in Hclients as [?|(_ & m' & t' & Hm' & _)]; [done| |done].
  by apply not_elem_of_nil in Hm'.
Qed.

(** Who stops the client [a] while it gives back or adds jobs is no worker, and
    nobody else has a mutex. *)
Lemma adder_goes_on x : clients (base l) !! a = Some x -> (exists rq mo rem, x = CAdd rq mo rem) \/ (exists got st, x = CUnget got st) -> False.
Proof using Hqueue Hn Hreach Hone Hrest.
  intros Hx Hcase. destruct (client_stopped x Hx Hcase) as (m & [w|c] & Hm & Ho & Hne).
  - destruct (holder_stopped m w Ho) as (r & -> & [(rq & Ha)|(rq & mo & rem & Ha & _ & Hr)] & _); rewrite Hx in Ha; injection Ha as ->.
    + by destruct Hcase as [(? & ? & ? & ?)|(? & ? & ?)].
    + destruct rem as [|[r' js] rem]; cbn [client_locks] in Hm; [by apply not_elem_of_nil in Hm|].
      apply elem_of_cons in Hm as [[= ->]|Hm]; [destruct Hr; by left|]. destruct (jobs (ranks (base l) r')); [|by apply not_elem_of_nil in Hm].
      by apply list_elem_of_singleton in Hm.
  - apply client_owner in Ho as [-> _]. congruence.
Qed.

Lemma added_goes_on r : owner l (MSync a) = Some (TClient a) -> added (base l) a r -> False.
Proof using Hqueue Hn Hreach Hone Hrest.
  intros Ho Ha. apply client_owner in Ho as (_ & x & Hx & Hq & _).
  destruct Ha as [(rq & Ha)|(rq & mo & rem & Ha & _)]; rewrite Hx in Ha; injection Ha as ->; [by apply Hq|].
  apply (adder_goes_on _ Hx). left. by eexists _, _, _.
Qed.
Lemma no_worker_holds m w : owner l m = Some (TWorker w) -> False.
Proof using Hqueue Hn Hreach Hone Hrest. intros (r & _ & Ha & Ho)%holder_stopped. by eapply added_goes_on. Qed.
(** Nor does the client [a] stop a worker. *)
Lemma client_lets_worker w x m t : m ∈ worker_locks w x (base l) -> owner l m = Some t -> t <> TWorker w -> False.
Proof using Hqueue Hn Hreach Hone Hrest.
  intros Hm Ho Hne. destruct t as [w'|c]; [by eapply no_worker_holds|]. apply client_owner in Ho as Hx'. destruct Hx' as (-> & z & Hz & Hq & Hmay).
  assert (m <> MSync a) as Hns.
  { intros ->. clear -Hm. unfold worker_locks in Hm. repeat case_match; repeat (apply elem_of_cons in Hm as [?|Hm]; [done|]); by apply not_elem_of_nil in Hm. }
  destruct z as [|rq got cur [|r rest]|got st|rq mo rem|rq]; [by apply Hq| | | | |by apply Hq]; cbn in Hmay.
  - destruct Hmay as [?|[Hmaster _]]; [done|]. by rewrite (or_single _ _ _ Hone _ _ _ _ Hz) in Hmaster.
  - destruct Hmay as [?| ->]; [done|]. pose proof (proj2 Hrest a 0%nat) as Hstop. cbn [lstep] in Hstop. rewrite Hz in Hstop.
    cbn [mbind option_bind chosen_idx] in Hstop. cbv zeta in Hstop. cbn [client_waits client_locks client_inside] in Hstop.
    destruct (no_slot (ranks (base l) r)) eqn:Hslot.
    + unfold critical in Hstop. cbn [existsb] in Hstop. unfold holds in Hstop. by rewrite bool_decide_eq_true_2 in Hstop.
    + apply critical_blocked in Hstop as [(m & t & Hm' & Ho' & Hnt)|(_ & m & t & Hm' & _)]; [|by apply not_elem_of_nil in Hm'|].
      * apply list_elem_of_singleton in Hm' as ->. congruence.
      * unfold client_step. rewrite Hz. cbn [mbind option_bind]. unfold no_slot in Hslot. by destruct (dpu_thread_job_get_job_unlocked _).
  - apply (adder_goes_on _ Hz). right. by eexists _, _.
  - apply (adder_goes_on _ Hz). left. by eexists _, _, _.
Qed.

(** A client that waits for a rank at least does not rest. *)
Lemma waiters_return c rq : (forall r, exists w, (w < nr_workers)%nat /\ worker_queue w = queue_idx r) ->
  clients (base l) !! c = Some (CWait rq) -> rq_ranks rq = [].
Proof using Hqueue Hn Hreach Hone Hrest.
  intros Hworkers Hc. destruct (decide (rq_ranks rq = [])) as [|Hne]; [done|exfalso].
  assert (client_step queue_idx c 0 (base l) = None) as Hstop.
  { pose proof (proj2 Hrest c 0%nat) as Hstop. cbn [lstep] in Hstop. rewrite Hc in Hstop. cbn [mbind option_bind chosen_idx] in Hstop. cbv zeta in Hstop.
    destruct (client_step queue_idx c 0 (base l)) as [s'|] eqn:Hs; [|done].
    apply critical_blocked in Hstop as [(m & t & Hm & _)|(_ & m & t & Hm & Ho)]; [by apply not_elem_of_nil in Hm| |by rewrite Hs].
    apply list_elem_of_singleton in Hm as ->. destruct (sync_owner _ c t eq_refl Ho) as [-> ->].
    apply client_owner in Ho as (_ & x & Hx & Hq & _). rewrite Hc in Hx. injection Hx as <-. exfalso. by apply Hq. }
  destruct (progress queue_idx worker_queue n nr_workers nr_clients (base l) Hqueue Hn Hbase c 0 rq nobody_is_parked Hworkers Hc Hne Hstop) as [w Hw].
  destruct (Hw DPU_OK) as [s1 Hs1]. destruct (workers (base l) !! w) as [x|] eqn:Hx; [|by unfold worker_step in Hs1; rewrite Hx in Hs1].
  assert (worker_waits w x (base l) = false) as Hwait.
  { destruct x; try done. unfold worker_step in Hs1. rewrite Hx in Hs1. cbn in *. by destruct (queues (base l) !! worker_queue w) as [[|]|]. }
  pose proof (proj1 Hrest w DPU_OK) as Hstopped. cbn [lstep] in Hstopped. rewrite Hx in Hstopped. cbn [mbind option_bind] in Hstopped.
  rewrite Hwait in Hstopped. apply critical_blocked in Hstopped as [(m & t & Hm & Ho & Hnt)|(_ & m & t & Hm & Ho)]; [..|by rewrite Hs1].
  - by eapply client_lets_worker.
  - destruct (told_added w x m Hx Hm) as (c' & r & -> & _ & Ha). destruct (sync_owner _ c' t eq_refl Ho) as [-> ->]. by eapply added_goes_on.
Qed.
End Stopped.

End Rest.

(** ** The steps that are left *)

Definition no_request (a : action) : Prop := match a with ActRequest _ _ => False | _ => True end.

(** What a client has still to do, the jobs it will add included. *)
Definition rank_effort (p : nat * list job_id) : nat := 6 + 20 * length (snd p).
Definition client_effort (x : client) : nat :=
  match x with
  | CIdle _ => 0
  | CWait _ => 1
  | CAdd _ _ remaining => 2 + sum_list_with rank_effort remaining
  | CUnget got _ => 1 + length got
  | CGet rq got cur rest =>
      3 + sum_list_with (fun p => S (rank_effort p)) got + length rest * (7 + 21 * nr_jobs_per_rank rq) - length cur
  end.
Definition effort (R : list nat) (s : state) : nat := work R s + sum_list_with client_effort (clients s).

Section Effort.
Context (n : nat) (R : list nat) (a : nat) (Hqueue : forall r, (queue_idx r < NR_QUEUES)%nat) (HR : NoDup R).

Lemma worker_effort w st s s' : inv n s -> one_request R a s -> worker_step queue_idx worker_queue w st s = Some s' ->
  one_request R a s' /\ (effort R s' < effort R s)%nat.
Proof using Hqueue.
  intros Hinv [Hm Hq Hs Hj Hr] Hstep.
  destruct (work_step queue_idx worker_queue n R Hqueue s w st s' Hinv Hj Hm Hstep) as (Hm' & Hcl & Hjobs & Hlt).
  split; [|unfold effort; rewrite Hcl; lia]. split; rewrite ?Hcl; try done.
  intros r Hne. apply Hj. intros H0. specialize (Hjobs r). rewrite H0 in Hjobs. by destruct (jobs (ranks s' r)); [|cbn in Hjobs; lia].
Qed.

(** The client [c] goes from [x] to [y], the FIFOs and the queues stay. *)
Lemma client_moved_effort s s0 c x y : one_request R a s -> clients s !! c = Some x -> clients s0 = clients s -> workers s0 = workers s ->
  masters s0 = masters s -> queues s0 = queues s -> (forall r, jobs (ranks s0 r) = jobs (ranks s r)) ->
  (quiet x -> quiet y) -> (forall rq got cur rest, y = CGet rq got cur rest -> exists got cur rest, x = CGet rq got cur rest) ->
  (forall r, r ∈ client_ranks y -> r ∈ client_ranks x) -> (client_effort y < client_effort x)%nat ->
  one_request R a (upd_client c y s0) /\ (effort R (upd_client c y s0) < effort R s)%nat.
Proof using.
  intros [Hm Hq Hs Hj Hr] Hc Ec Ew Em Eq Ej Hquiet Hget Hranks Hlt. split.
  - split; cbn [masters clients ranks upd_client]; rewrite ?Ec.
    + by rewrite Em.
    + intros c' z Hz. apply lookup_insert_cases in Hz as [[-> ->]|[_ Hz]]; [|by apply Hq].
      destruct (Hq c x Hc); [by left|right; auto].
    + intros rq got cur rest Hz. apply lookup_insert_cases in Hz as [[-> Hy]|[_ Hz]]; [|by eapply Hs].
      destruct (Hget rq got cur rest) as (? & ? & ? & ->); [done|]. by eapply Hs.
    + intros r. rewrite Ej. apply Hj.
    + intros z r Hz Hin. apply lookup_insert_cases in Hz as [[-> ->]|[_ Hz]]; [|by eapply Hr]. eapply Hr; [exact Hc|by apply Hranks].
  - unfold effort, work. cbn [clients upd_client workers queues ranks]. rewrite Ec, Ew, Eq.
    pose proof (sum_insert client_effort _ _ _ y Hc).
    assert (sum_list_with (fun r => length (jobs (ranks s0 r))) R <= sum_list_with (fun r => length (jobs (ranks s r))) R)%nat; [|lia].
    apply sum_mono. intros r. by rewrite Ej.
Qed.

(** Jobs are added to one rank, once. *)
Lemma sum_jobs_add s r js : r ∈ R -> (sum_list_with (fun r' => length (jobs (ranks (add_rank queue_idx r js s) r'))) R
  = sum_list_with (fun r' => length (jobs (ranks s r'))) R + length js)%nat.
Proof using HR.
  assert (forall r', jobs (ranks (add_rank queue_idx r js s) r') = if decide (r = r') then jobs (ranks s r) ++ js else jobs (ranks s r')) as Hj.
  { intros r'. unfold add_rank. cbv zeta.
    assert (forall s0, ranks s0 = ranks s -> jobs (ranks (upd_rank r (set_jobs (jobs (ranks s0 r) ++ js) (ranks s0 r)) s0) r') =
      if decide (r = r') then jobs (ranks s r) ++ js else jobs (ranks s r')) as H.
    { intros s0 E. cbn [ranks upd_rank]. rewrite fn_insert_eq, E. by case_decide. }
    destruct (jobs (ranks s r)) eqn:E; [destruct js|]; rewrite <-?E in *; by apply H. }
  clear -HR Hj. revert HR. induction R as [|x l IH]; intros Hnd Hr; [by apply not_elem_of_nil in Hr|].
  apply list_relations.list.NoDup_cons in Hnd as [Hx Hnd]. cbn [sum_list_with]. rewrite Hj. case_decide as Hd.
  - subst x. rewrite length_app. assert (sum_list_with (fun r' => length (jobs (ranks (add_rank queue_idx r js s) r'))) l
      = sum_list_with (fun r' => length (jobs (ranks s r'))) l) as ->; [|lia].
    clear -Hx Hj. induction l as [|y l IH]; [done|]. cbn [sum_list_with]. apply not_elem_of_cons in Hx as [Hne Hx].
    rewrite Hj, decide_False, IH by done. done.
  - apply elem_of_cons in Hr as [->|Hr]; [done|]. rewrite IH by done. lia.
Qed.

(** A client adds the jobs of a rank. *)
Lemma client_add_effort s rq mo r js rem : inv n s -> one_request R a s -> clients s !! a = Some (CAdd rq mo ((r, js) :: rem)) ->
  let s' := upd_client a (CAdd rq mo rem) (add_rank queue_idx r js s) in one_request R a s' /\ (effort R s' < effort R s)%nat.
Proof using Hqueue HR worker_queue.
  intros Hinv Hone Hc. cbv zeta. assert (r ∈ R) as HrR by (eapply (or_ranks _ _ _ Hone); [exact Hc|left]).
  set (s0 := add_rank queue_idx r js s).
  assert (workers s0 = workers s /\ clients s0 = clients s /\ masters s0 = masters s /\
    (sum_list_with length (queues s0) <= S (sum_list_with length (queues s)))%nat /\
    forall r', r' <> r -> jobs (ranks s0 r') = jobs (ranks s r')) as (Ew & Ec & Em & Hqs & Ej).
  { unfold s0, add_rank. cbv zeta. assert (forall r' x, r' <> r -> (<[r := x]> (ranks s)) r' = ranks s r') as Hne
      by (intros r' x Hr'; by rewrite fn_insert_eq, decide_False by congruence).
    destruct (jobs (ranks s r)); [destruct js as [|j js]|]; split_and!; try done; cbn [ranks queues upd_rank insert_in_queue set_queues];
      try (intros r' Hr'; by rewrite Hne); try lia.
    rewrite sum_queues_insert by (rewrite (iv_queues _ _ Hinv); apply Hqueue). lia. }
  split.
  + destruct Hone as [Hm Hq Hs Hj Hr]. split; cbn [masters clients ranks upd_client]; rewrite ?Ec.
    * by rewrite Em.
    * intros c' z Hz. apply lookup_insert_cases in Hz as [[-> ->]|[_ Hz]]; [by left|by apply Hq].
    * intros rq' got cur rest Hz. apply lookup_insert_cases in Hz as [[_ Hy]|[Hne _]]; done.
    * intros r' Hr'. destruct (decide (r' = r)) as [->|Hne]; [done|]. apply Hj. by rewrite <-(Ej r' Hne).
    * intros z r' Hz Hin. apply lookup_insert_cases in Hz as [[_ ->]|[Hne _]]; [|done]. eapply Hr; [exact Hc|]. by right.
  + unfold effort, work. cbn [clients upd_client workers queues ranks]. rewrite Ew, Ec.
    pose proof (sum_insert client_effort _ _ _ (CAdd rq mo rem) Hc) as Hcl. pose proof (sum_jobs_add s r js HrR) as Hjobs. fold s0 in Hjobs.
    rewrite Hjobs. cbn [client_effort sum_list_with] in Hcl. change (rank_effort (r, js)) with (6 + 20 * length js)%nat in Hcl. lia.
Qed.

Lemma client_step_effort s c idx s' : inv n s -> one_request R a s -> client_step queue_idx c idx s = Some s' ->
  one_request R a s' /\ (effort R s' < effort R s)%nat.
Proof using Hqueue HR worker_queue.
  intros Hinv Hone. unfold client_step. destruct (clients s !! c) as [x|] eqn:Hc; [|done]. cbn [mbind option_bind].
  pose proof (iv_clients _ _ Hinv c x Hc) as Hok.
  assert (quiet x \/ c = a) as Hca by (destruct (or_quiet _ _ _ Hone c x Hc); tauto).
  destruct x as [|rq got cur [|r rest]|[|[r js] got] st|rq mo [|[r js] rem]|rq]; [done|..].
  - destruct Hca as [[]|Hca]. pose proof Hc as Hc'. rewrite Hca in Hc'. rewrite (or_single _ _ _ Hone _ _ _ _ Hc'). intros [= <-].
    rewrite write_jobs_all. destruct (write_all_same (writes_of rq c None got) s) as (Er & Eq & _ & Ew & Ec & _ & Em & _).
    apply (client_moved_effort s _ c (CGet rq got cur [])); try done.
    + intros r. by rewrite Er.
    + intros r. cbn. rewrite app_nil_r. done.
    + assert (cur = []) as ->.
      { destruct Hok as (_ & _ & _ & _ & Hcur & _). destruct cur as [|j cur]; [done|]. by specialize (Hcur j ltac:(by left)). }
      cbn [client_effort length]. assert (sum_list_with rank_effort got <= sum_list_with (fun p => S (rank_effort p)) got)%nat by (apply sum_mono; intros; cbv beta; lia). lia.
  - destruct Hok as (_ & _ & _ & _ & _ & Hlen & _).
    assert (length cur + 7 <= S (length rest) * (7 + 21 * nr_jobs_per_rank rq))%nat as Hroom by nia.
    destruct (dpu_thread_job_get_job_unlocked (ranks s r)) as [st| |j rk] eqn:Hget; [|done|]; intros [= <-].
    + apply (client_moved_effort s (set_leaked (cur ++ leaked s) s) c (CGet rq got cur (r :: rest))); try done.
      * intros r' Hr'. cbn [client_ranks] in *. apply elem_of_app. by left.
      * cbn [client_effort length]. assert (length got <= sum_list_with (fun p => S (rank_effort p)) got)%nat; [|lia].
        clear. induction got as [|p got IH]; cbn [length sum_list_with]; lia.
    + apply get_job_ok in Hget as (av & _ & ->).
      apply (client_moved_effort s (upd_rank r _ s) c (CGet rq got cur (r :: rest))); try done.
      * intros r'. cbn [ranks upd_rank]. rewrite fn_insert_eq. by case_decide; [subst|].
      * intros rq' got' cur' rest' Hy. case_match; injection Hy as <- <- <- <-; by eexists _, _, _.
      * intros r'. case_match; cbn [client_ranks]; [|done]. rewrite fmap_app. cbn. by rewrite <-app_assoc.
      * rewrite length_app. cbn [length]. destruct (Nat.eqb_spec (length cur + 1) (nr_jobs_per_rank rq)) as [Hfull|Hmore].
        -- cbn [client_effort length]. rewrite sum_list_with_app. cbn [sum_list_with]. unfold rank_effort at 2. cbn [snd].
           rewrite length_app. cbn [length]. lia.
        -- cbn [client_effort length]. rewrite length_app. cbn [length]. lia.
  - intros [= <-]. apply (client_moved_effort s s c (CUnget [] st)); try done. cbn. lia.
  - intros [= <-]. apply (client_moved_effort s (upd_rank r _ s) c (CUnget ((r, js) :: got) st)); try done.
    + intros r'. cbn [ranks upd_rank]. rewrite fn_insert_eq. case_decide; [subst|done]. by rewrite unget_jobs.
    + intros r' Hr'. by right.
    + cbn. lia.
  - intros [= <-]. apply (client_moved_effort s s c (CAdd rq mo [])); try (by destruct (rq_waits rq)).
    destruct (rq_waits rq); cbn; lia.
  - destruct Hca as [[]| ->]. intros [= <-]. by apply client_add_effort.
  - case_bool; [|done]. intros [= <-]. destruct (reset_spec (rq_ranks rq) s) as (Ej & _ & Eq & _ & Ew & Ec & _ & _ & Em & _).
    eapply (client_moved_effort s _ c (CWait rq)); try done; try (by case_bool).
    + intros r. case_bool; [done|]. apply Ej.
    + cbn. lia.
Qed.
End Effort.

(** The mutexes that are locked and unlocked, those that are free, and what the
    client [a] may unlock to wait for a slot. *)
Definition mutexes (R : list nat) : list mutex := map MQueue (seq 0 NR_QUEUES) ++ map MJobs R.
Definition one_if (b : bool) : nat := if b then 1 else 0.
Definition free_mutexes (R : list nat) (l : lstate) : nat := sum_list_with (fun m => one_if (is_free l m)) (mutexes R).
Definition may_wait (a : nat) (l : lstate) : nat :=
  match clients (base l) !! a with
  | Some (CGet _ _ _ (r :: _)) => if no_slot (ranks (base l) r) && negb (holds (TClient a) l (MJobs r)) then 0 else 2
  | _ => 0
  end.
Definition steps_left (R : list nat) (a : nat) (l : lstate) : nat :=
  (8 + length R) * effort R (base l) + free_mutexes R l + may_wait a l.

Lemma one_if_le b : (one_if b <= 1)%nat.
Proof. destruct b; cbn; lia. Qed.
Lemma free_mutexes_le R l : (free_mutexes R l <= 4 + length R)%nat.
Proof.
  unfold free_mutexes. transitivity (length (mutexes R)); [|unfold mutexes; rewrite length_app, !length_map, length_seq; done].
  generalize (mutexes R). intros ms. induction ms as [|m ms IH]; cbn [sum_list_with length]; [lia|]. pose proof (one_if_le (is_free l m)). lia.
Qed.
Lemma may_wait_le a l : (may_wait a l <= 2)%nat.
Proof. unfold may_wait. repeat case_match; lia. Qed.
Lemma mutexes_NoDup R : NoDup R -> NoDup (mutexes R).
Proof.
  intros HR. apply list_relations.list.NoDup_app. split_and!.
  - apply NoDup_fmap_2; [by intros ? ? [=]|apply NoDup_seq].
  - intros m Hm1 Hm2. apply list_elem_of_In, in_map_iff in Hm1 as (? & <- & _). apply list_elem_of_In, in_map_iff in Hm2 as (? & ? & _). done.
  - apply NoDup_fmap_2; [by intros ? ? [=]|done].
Qed.
Lemma queue_mutex R q : (q < NR_QUEUES)%nat -> MQueue q ∈ mutexes R.
Proof. intros Hq. apply elem_of_app. left. apply list_elem_of_In, in_map_iff. exists q. split; [done|]. apply in_seq. lia. Qed.
Lemma jobs_mutex R r : r ∈ R -> MJobs r ∈ mutexes R.
Proof. intros Hr. apply elem_of_app. right. apply list_elem_of_In, in_map_iff. exists r. split; [done|]. by apply list_elem_of_In. Qed.

(** A lock takes a free mutex. *)
Lemma free_lock R l m t : m ∈ mutexes R -> owner l m = None ->
  (free_mutexes R (mk_lstate (base l) (<[m := Some t]> (owner l))) < free_mutexes R l)%nat.
Proof.
  intros Hm Ho. unfold free_mutexes, is_free. cbn [owner]. apply (sum_less _ _ _ m); [|done|].
  - intros m'. rewrite fn_insert_eq. case_decide; [|done]. rewrite bool_decide_eq_false_2 by done. cbn. lia.
  - rewrite fn_insert_eq, decide_True, bool_decide_eq_false_2, bool_decide_eq_true_2 by done. cbn. lia.
Qed.
(** A wait frees one. *)
Lemma free_wait R l m t : NoDup R -> let l' := mk_lstate (base l) (unlock t (fun m' => negb (bool_decide (m' ∈ [m]))) (owner l)) in
  (free_mutexes R l' <= S (free_mutexes R l))%nat.
Proof.
  intros HR. cbv zeta. unfold free_mutexes. pose proof (mutexes_NoDup R HR) as Hnd. revert Hnd. generalize (mutexes R). intros ms.
  set (l' := mk_lstate _ _). assert (forall m', m' <> m -> is_free l' m' = is_free l m') as Hsame.
  { intros m' Hne. unfold is_free, l', unlock. cbn [owner]. rewrite (bool_decide_eq_false_2 (m' ∈ [m])) by (by rewrite list_elem_of_singleton).
    by case_match; rewrite ?andb_false_r. }
  induction ms as [|x ms IH]; intros Hnd; cbn [sum_list_with]; [lia|]. apply list_relations.list.NoDup_cons in Hnd as [Hx Hnd].
  destruct (decide (x = m)) as [->|Hne]; [|rewrite Hsame by done; specialize (IH Hnd); lia].
  assert (sum_list_with (fun m => one_if (is_free l' m)) ms <= sum_list_with (fun m => one_if (is_free l m)) ms)%nat as Hle.
  { clear IH Hnd. induction ms as [|y ms IH]; cbn [sum_list_with]; [lia|]. apply not_elem_of_cons in Hx as [Hy Hx].
    rewrite Hsame by congruence. specialize (IH Hx). lia. }
  pose proof (one_if_le (is_free l' m)). lia.
Qed.

(** ** Every step but a request leads to rest *)

Section Ends.
Context (n nr_workers nr_clients : nat) (R : list nat) (a : nat).
Context (Hqueue : forall r, (queue_idx r < NR_QUEUES)%nat) (Hn : Z.of_nat n < 2 ^ 32) (HR : NoDup R).

(** An action of ThreadJob.v makes up for the mutexes that are given up. *)
Lemma commit_left l l' : (effort R (base l') < effort R (base l))%nat -> (steps_left R a l' < steps_left R a l)%nat.
Proof using.
  intros Hlt. unfold steps_left. pose proof (free_mutexes_le R l'). pose proof (may_wait_le a l'). clear -Hlt H H0. nia.
Qed.
Lemma lock_left l m t : m ∈ mutexes R -> owner l m = None ->
  (forall rq got cur r rest, m = MJobs r -> t = TClient a -> clients (base l) !! a = Some (CGet rq got cur (r :: rest)) ->
     no_slot (ranks (base l) r) = false) ->
  (steps_left R a (mk_lstate (base l) (<[m := Some t]> (owner l))) < steps_left R a l)%nat.
Proof using.
  intros Hm Ho Hslot. pose proof (free_lock R l m t Hm Ho) as Hf. unfold steps_left. cbn [base].
  enough (may_wait a (mk_lstate (base l) (<[m := Some t]> (owner l))) <= may_wait a l)%nat as Hle by (clear -Hle Hf; lia).
  unfold may_wait. cbn [base]. destruct (clients (base l) !! a) as [[|rq got cur [|r rest]| | |]|] eqn:Hc; try done.
  destruct (no_slot (ranks (base l) r)) eqn:Hr; [cbn [andb]|done].
  unfold holds. cbn [owner]. rewrite fn_insert_eq. case_decide as Hd; [|done].
  rewrite (bool_decide_eq_false_2 (Some t = _)); [cbn [negb]; apply Nat.le_0_l|]. intros [= ->]. by rewrite (Hslot _ _ _ _ _ Hd eq_refl eq_refl) in Hr.
Qed.

(** The mutexes that are locked are among those. *)
Lemma worker_mutexes l w x m : lreachable n nr_workers nr_clients l -> one_request R a (base l) -> workers (base l) !! w = Some x ->
  worker_waits w x (base l) = false -> m ∈ worker_locks w x (base l) -> m ∈ mutexes R.
Proof using Hqueue Hn.
  intros Hreach Hone Hw Hwait Hm. pose proof (inv_reachable _ _ _ Hqueue Hn _ _ _ (lreachable_base _ _ _ _ Hreach)) as Hinv.
  pose proof (iv_workers _ _ Hinv w x Hw) as Hok.
  assert (forall j, j ∈ token_of x -> fst j ∈ R) as Htok.
  { intros j Hj. apply (or_jobs _ _ _ Hone). destruct (token_head Hinv w x j Hw Hj) as [_ [js ->]]. done. }
  destruct x as [|j|[next|] mo c|jo mo c|j mo rs st|jo [mo|] st|j st]; cbn [worker_locks worker_waits] in *; try by apply not_elem_of_nil in Hm.
  - apply list_elem_of_singleton in Hm as ->. apply queue_mutex. destruct (queues (base l) !! worker_queue w) as [ql|] eqn:Hq; [|done].
    rewrite <-(iv_queues _ _ Hinv). by eapply lookup_lt_Some.
  - case_match; [|by apply not_elem_of_nil in Hm]. apply list_elem_of_singleton in Hm as ->. apply jobs_mutex, Htok. by left.
  - apply list_elem_of_singleton in Hm as ->. apply queue_mutex, Hqueue.
  - destruct Hok as (Hd & _ & [[mo' ->] _ _ _]). by destruct (no_master l R a Hone mo').
  - destruct Hok as (Hd & _). by destruct (no_master l R a Hone mo).
  - apply list_elem_of_singleton in Hm as ->. apply jobs_mutex, Htok. by left.
Qed.
Lemma client_mutexes l c x idx m : one_request R a (base l) -> clients (base l) !! c = Some x ->
  m ∈ client_locks x idx (base l) -> m ∈ mutexes R /\ c = a /\
    ((exists rq got cur r rest, x = CGet rq got cur (r :: rest)) \/ client_waits x idx (base l) = false).
Proof using Hqueue.
  intros Hone Hx Hm. assert (c = a) as ->.
  { destruct (or_quiet _ _ _ Hone c x Hx) as [|Hq]; [done|]. destruct x; cbn in Hq, Hm; try done; by apply not_elem_of_nil in Hm. }
  assert (forall r, r ∈ client_ranks x -> MJobs r ∈ mutexes R) as Hr by (intros r Hr; by eapply jobs_mutex, or_ranks).
  destruct x as [|rq got cur [|r rest]|[|[r js] got] st|rq mo [|[r js] rem]|rq]; cbn [client_locks] in Hm; try by apply not_elem_of_nil in Hm.
  - rewrite (or_single _ _ _ Hone _ _ _ _ Hx) in Hm. by apply not_elem_of_nil in Hm.
  - apply list_elem_of_singleton in Hm as ->. split; [|split; [done|left; by eexists _, _, _, _, _]]. apply Hr. apply elem_of_app. right. by left.
  - apply list_elem_of_singleton in Hm as ->. split; [|by split; [|right]]. apply Hr. by left.
  - split; [|by split; [|right]]. apply elem_of_cons in Hm as [->|Hm]; [apply Hr; by left|].
    destruct (jobs (ranks (base l) r)); [|by apply not_elem_of_nil in Hm]. apply list_elem_of_singleton in Hm as ->. apply queue_mutex, Hqueue.
Qed.

Lemma step_left l act l' : lreachable n nr_workers nr_clients l -> one_request R a (base l) -> no_request act ->
  lstep act l = Some l' -> one_request R a (base l') /\ (steps_left R a l' < steps_left R a l)%nat.
Proof using Hqueue Hn HR.
  intros Hreach Hone Hno. pose proof (inv_reachable _ _ _ Hqueue Hn _ _ _ (lreachable_base _ _ _ _ Hreach)) as Hinv.
  pose proof (lock_inv_reachable _ _ _ _ Hreach) as Hlock. destruct act as [w st|c rq|c idx]; [|done|]; cbn [lstep].
  - destruct (workers (base l) !! w) as [x|] eqn:Hw; [|done]. cbn [mbind option_bind].
    destruct (worker_waits w x (base l)) eqn:Hwait; intros Hs%critical_cases; inversion Hs as [o m -> Hm Ho|m Hm Ho|s' Hlocks Hinside Hc]; subst.
    + destruct (Hlock m _ Ho) as (z & Hz & Hmay). rewrite Hw in Hz. injection Hz as <-. destruct x; try done.
      cbn in Hwait. destruct Hmay as [_ (j & ql & Hq)]. by rewrite Hq in Hwait.
    + split; [done|]. apply lock_left; [by eapply worker_mutexes|done|done].
    + destruct (worker_effort n R a Hqueue w st (base l) s' Hinv Hone Hc) as [Hone' Hlt]. split; [done|]. by apply commit_left.
  - destruct (clients (base l) !! c) as [x|] eqn:Hx; [|done]. cbn [mbind option_bind].
    set (idx' := chosen_idx c x idx l). clearbody idx'.
    destruct (client_waits x idx' (base l)) eqn:Hwait; intros Hs%critical_cases; inversion Hs as [o m -> Hm Ho|m Hm Ho|s' Hlocks Hinside Hc]; subst.
    + destruct (client_mutexes l c x idx' m Hone Hx Hm) as (_ & -> & [(rq & got & cur & r & rest & ->)|Hw]); [|congruence].
      cbn [client_waits client_locks] in *. apply list_elem_of_singleton in Hm as ->. split; [done|].
      pose proof (free_wait R l (MJobs r) (TClient a) HR) as Hf. cbv zeta in Hf. unfold steps_left. cbn [base].
      assert (may_wait a l = 2%nat) as ->.
      { unfold may_wait. rewrite Hx. unfold holds. by rewrite (bool_decide_eq_true_2 (owner l (MJobs r) = _)), andb_false_r by done. }
      assert (may_wait a (mk_lstate (base l) (unlock (TClient a) (fun m => negb (bool_decide (m ∈ [MJobs r]))) (owner l))) = 0%nat) as ->.
      { unfold may_wait. cbn [base]. rewrite Hx, Hwait. unfold holds. cbn [owner]. unfold unlock. rewrite Ho.
        rewrite (bool_decide_eq_true_2 (TClient a = _)), (bool_decide_eq_true_2 (MJobs r ∈ _)) by (done || by left). done. }
      clear -Hf. lia.
    + split; [done|]. destruct (client_mutexes l c x idx' m Hone Hx Hm) as (Hin & -> & Hcase). apply lock_left; [done..|].
      intros rq got cur r rest -> _ Hget. rewrite Hx in Hget. injection Hget as ->. exact Hwait.
    + destruct (client_step_effort n R a Hqueue HR (base l) c idx' s' Hinv Hone Hc) as [Hone' Hlt]. split; [done|]. by apply commit_left.
Qed.

Lemma lrun_none acts : foldl (fun l a => l ← l; lstep a l) None acts = None.
Proof using. by induction acts. Qed.
Lemma lrun_cons act acts l l' : lrun (act :: acts) l = Some l' -> exists l1, lstep act l = Some l1 /\ lrun acts l1 = Some l'.
Proof using.
  unfold lrun. cbn [foldl mbind option_bind]. destruct (lstep act l) as [l1|]; [by exists l1|]. by rewrite lrun_none.
Qed.
Lemma run_left steps l l' : lreachable n nr_workers nr_clients l -> one_request R a (base l) -> Forall no_request steps ->
  lrun steps l = Some l' -> lreachable n nr_workers nr_clients l' /\ one_request R a (base l') /\
    (length steps + steps_left R a l' <= steps_left R a l)%nat.
Proof using Hqueue Hn HR.
  revert l. induction steps as [|act steps IH]; intros l Hreach Hone Hno Hrun; [by injection Hrun as <-|].
  apply list_relations.list.Forall_cons in Hno as [Hact Hno]. apply lrun_cons in Hrun as (l1 & Hs & Hrun).
  destruct (step_left l act l1 Hreach Hone Hact Hs) as [Hone1 Hlt].
  destruct (IH l1) as (Hr & Ho & Hle); [|done..|].
  - eapply lreachable_step; [exact Hreach| |exact Hs]. by destruct act.
  - split_and!; [done..|]. cbn [length]. clear -Hle Hlt. lia.
Qed.

End Ends.
End Locks.

(** ** Executions *)

(** A step that is not enabled is skipped. *)
Definition lexec (queue_idx worker_queue : nat -> nat) (acts : list action) (l : lstate) : lstate :=
  foldl (fun l a => default l (lstep queue_idx worker_queue a l)) l acts.
Definition linitial (n nr_workers nr_clients : nat) : lstate := mk_lstate (initial_state n nr_workers nr_clients) (fun _ => None).
Lemma lreachable_exec queue_idx worker_queue n nw nc acts : bool_decide (Forall valid_action acts) = true ->
  lreachable queue_idx worker_queue n nw nc (lexec queue_idx worker_queue acts (linitial n nw nc)).
Proof.
  intros H. apply bool_decide_eq_true in H. unfold lexec. pose proof (lreachable_initial queue_idx worker_queue n nw nc) as Hr.
  fold (linitial n nw nc) in Hr. revert H Hr. generalize (linitial n nw nc). induction acts as [|a acts IH]; intros l H Hr; [done|].
  apply list_relations.list.Forall_cons in H as [Ha H]. cbn [foldl]. apply IH; [done|].
  destruct (lstep queue_idx worker_queue a l) as [l'|] eqn:Hs; [|done]. by eapply lreachable_step.
Qed.

(** Three ranks of the first queue, with two workers. A third client waits for the
    last rank; two others add a job to the first two ranks, in the same order. *)
Definition sync_request := mk_request [2]%nat RequestSync.
Definition add_request := mk_request [0; 1]%nat (RequestOperation DPU_THREAD_JOB_COPY_MRAM_TO_MATRIX false).
Definition crossed_acts : list action :=
  ActRequest 2 sync_request :: client_acts 2 7 ++
  ActRequest 0 add_request :: client_acts 0 5 ++ ActRequest 1 add_request :: client_acts 1 5 ++
  client_acts 0 3 ++ client_acts 1 3 ++ client_acts 0 1 ++ client_acts 1 1.
Definition crossed : lstate := lexec first_queue first_queue crossed_acts (linitial 2 2 3).

(** One client has the mutex of the queue and needs the [jobs_mutex] of the second
    rank; the other has this one and needs the queue; the workers need the queue.
    Nobody can make a step, and the client that waits does not return. *)
Lemma concurrent_adds_deadlock : lreachable first_queue first_queue 2 2 3 crossed /\ resting first_queue first_queue crossed /\
  owner crossed (MQueue 0) = Some (TClient 0) /\ owner crossed (MJobs 1) = Some (TClient 1) /\
  workers (base crossed) = [WIdle; WIdle] /\ clients (base crossed) !! 2%nat = Some (CWait sync_request) /\ masters (base crossed) = [].
Proof.
  split; [apply lreachable_exec; vm_compute; reflexivity|]. split; [|split_and!; vm_compute; reflexivity]. split.
  - intros [|[|w]] status; vm_compute; reflexivity.
  - intros [|[|[|c]]] idx; vm_compute; reflexivity.
Qed.

(** A client waits for a copy on two ranks; another one adds a job to a third rank,
    has the mutex of the queue and is about to add one to the second rank. *)
Definition meeting_acts : list action :=
  ActRequest 0 copy_request :: client_acts 0 13 ++
  ActRequest 1 (mk_request [2; 1]%nat (RequestOperation DPU_THREAD_JOB_COPY_MRAM_TO_MATRIX false)) :: client_acts 1 8.
Definition meeting : lstate := lexec first_queue first_queue meeting_acts (linitial 3 2 2).
(** The first thread that can make a step makes it. *)
Fixpoint schedule (fuel : nat) (l : lstate) : list action :=
  match fuel with
  | O => []
  | S fuel =>
      match List.find (fun a => match lstep first_queue first_queue a l with Some _ => true | None => false end)
        [ActWorker 0 0; ActWorker 1 0; ActClient 0 0; ActClient 1 0] with
      | Some a => a :: schedule fuel (default l (lstep first_queue first_queue a l))
      | None => []
      end
  end.
Lemma schedule_runs fuel l : Forall no_request (schedule fuel l) /\
  lrun first_queue first_queue (schedule fuel l) l = Some (lexec first_queue first_queue (schedule fuel l) l).
Proof.
  revert l. induction fuel as [|fuel IH]; intros l; cbn [schedule]; [by split|].
  destruct (List.find _ _) as [a|] eqn:Hf; [|by split]. apply find_some in Hf as [Hin Ha].
  destruct (lstep first_queue first_queue a l) as [l1|] eqn:Hs; [|done]. cbn [default].
  destruct (IH l1) as [Hno Hrun]. split.
  - constructor; [|done]. apply list_elem_of_In in Hin. repeat (apply elem_of_cons in Hin as [->|Hin]; [done|]). by apply not_elem_of_nil in Hin.
  - unfold lrun, lexec in *. cbn [foldl mbind option_bind]. rewrite Hs. cbn [default]. exact Hrun.
Qed.
Lemma meeting_reachable : lreachable first_queue first_queue 3 2 2 meeting.
Proof. apply lreachable_exec. vm_compute. reflexivity. Qed.
Lemma meeting_one_request : one_request [0; 1; 2]%nat 1 (base meeting).
Proof.
  split; [vm_compute; reflexivity|..].
  - intros [|[|c]] x Hx; [right|by left|]; vm_compute in Hx; [by injection Hx as <-|done].
  - intros rq got cur rest Hx. vm_compute in Hx. done.
  - intros [|[|[|r]]] Hr; [by left|by right; left|by right; right; left|]. destruct Hr. vm_compute. reflexivity.
  - intros x r Hx Hr. vm_compute in Hx. injection Hx as <-. apply list_elem_of_singleton in Hr as ->. right. by left.
Qed.
