(* ===== verification/XeonInterleave.v ===== *)
(** * Byte interleaving of the Xeon boards

    Model of the first part of
    [src/hw/src/mappings/xeon_sp/xeon_sp_translation.c]: the 8x8 transposition
    of bytes that lies between a cache line of the host and the eight
    interfaces, in C and in four vectorised versions, and the copies of blocks.

    A buffer of 64 bytes or a vector register is the list of its bytes, lowest
    address (lowest lane) first. The vector instructions are the operations of
    the class [Intrinsics]; [IntrinsicsSpec] states what the Intel manual says
    of them. *)

From S2P Require Import Prelude.

#[local] Open Scope Z_scope.
#[local] Open Scope dpu_scope.

Definition NB_REAL_CIS := 8.
Definition NB_ELEM_MATRIX := 8.

(** ** Vector instructions *)

(** The 32-bit lane k of a register. *)
Definition lane32 (v : list Z) (k : Z) : list Z := map (fun b => v.[4 * k + b]) (seqZ 0 4).
Definition lanes32 (n : Z) (f : Z -> list Z) : list Z := concat (map f (seqZ 0 n)).
(** The two bits 2k+1:2k of an immediate operand. *)
Definition imm2 (imm k : Z) : Z := Z.shiftr imm (2 * k) &&& 3.

Definition vec128 (v : list Z) : Prop := length v = 16%nat.
Definition vec256 (v : list Z) : Prop := length v = 32%nat.
Definition vec512 (v : list Z) : Prop := length v = 64%nat.

(** The instructions the source uses. The arguments of the [set] instructions
    are listed as the source writes them. The loads and stores of a whole
    register are the lists themselves, and the casts do nothing. *)
Class Intrinsics := {
  mm_set_epi8 : list Z -> list Z;
  mm_setr_epi32 : list Z -> list Z;
  mm_set_epi64 : list Z -> list Z;
  mm_setr_epi64 : list Z -> list Z;
  mm_shuffle_ps : list Z -> list Z -> Z -> list Z;
  mm_blend_ps : list Z -> list Z -> Z -> list Z;
  mm_shuffle_epi8 : list Z -> list Z -> list Z;
  (** [i32gather_epi32] at [base] in a buffer, with a scale of 1. *)
  mm_i32gather_epi32 : list Z -> Z -> list Z -> list Z;
  mm256_permutevar8x32_epi32 : list Z -> list Z -> list Z;
  mm512_permutexvar_epi32 : list Z -> list Z -> list Z;
  mm512_permutexvar_epi8 : list Z -> list Z -> list Z;
}.

Definition shuffle_byte (a b : list Z) (i : Z) : Z :=
  if Z.testbit b.[i] 7 then 0 else a.[16 * (i / 16) + (b.[i] &&& 15)].
Definition lane_index (v : list Z) (k : Z) : Z := le_word (lane32 v k).

Class IntrinsicsSpec (I : Intrinsics) : Prop := {
  (** The first argument is the highest lane; [setr] lists the lowest first. *)
  set_epi8_spec l : mm_set_epi8 l = rev (map u8 l);
  setr_epi32_spec l : mm_setr_epi32 l = concat (map (le_bytes 4) l);
  set_epi64_spec l : mm_set_epi64 l = concat (map (le_bytes 8) (rev l));
  setr_epi64_spec l : mm_setr_epi64 l = concat (map (le_bytes 8) l);
  shuffle_ps_spec a b imm : vec128 a -> vec128 b ->
    mm_shuffle_ps a b imm = lane32 a (imm2 imm 0) ++ lane32 a (imm2 imm 1)
      ++ lane32 b (imm2 imm 2) ++ lane32 b (imm2 imm 3);
  blend_ps_spec a b imm : vec128 a -> vec128 b ->
    mm_blend_ps a b imm = lanes32 4 (fun k => lane32 (if Z.testbit imm k then b else a) k);
  (** Within each lane of 128 bits; a control byte with its bit 7 set gives 0. *)
  shuffle_epi8_spec a b : length a = length b -> vec128 a \/ vec256 a \/ vec512 a ->
    mm_shuffle_epi8 a b = map (shuffle_byte a b) (seqZ 0 (lenz a));
  i32gather_epi32_spec m base vindex : vec256 vindex \/ vec512 vindex ->
    (forall k, 0 <= k < lenz vindex / 4 -> lane_index vindex k < 2 ^ 31 /\
      0 <= base + lane_index vindex k /\ base + lane_index vindex k + 4 <= lenz m) ->
    mm_i32gather_epi32 m base vindex = lanes32 (lenz vindex / 4) (fun k =>
      map (fun b => m.[base + lane_index vindex k + b]) (seqZ 0 4));
  permutevar8x32_spec a idx : vec256 a -> vec256 idx ->
    mm256_permutevar8x32_epi32 a idx = lanes32 8 (fun k => lane32 a (lane_index idx k &&& 7));
  permutexvar_epi32_spec idx a : vec512 a -> vec512 idx ->
    mm512_permutexvar_epi32 idx a = lanes32 16 (fun k => lane32 a (lane_index idx k &&& 15));
  permutexvar_epi8_spec idx a : vec512 a -> vec512 idx ->
    mm512_permutexvar_epi8 idx a = map (fun i => a.[idx.[i] &&& 63]) (seqZ 0 64);
}.

(** ** The transposition, in C *)

(** [((uint8_t * )&output[i])[j] = ((uint8_t * )&input[j])[i]], for i and j below 8. *)
Definition byte_interleave (input : list Z) : list Z :=
  for_up NB_ELEM_MATRIX (fun i output =>
    for_up 8 (fun j output => output.[8 * i + j := input.[8 * j + i]]) output)
    (replicate 64 0).

(** ** The transposition, vectorised *)

Section Vectorised.
Context `{I : Intrinsics}.

Definition loadu (n : Z) (m : list Z) (at_ : Z) : list Z := map (fun b => m.[at_ + b]) (seqZ 0 n).

Definition byte_interleave_sse4_1 (A : list Z) : list Z :=
  let pshufbcnst_0 := mm_set_epi8 [15; 7; 11; 3; 13; 5; 9; 1; 14; 6; 10; 2; 12; 4; 8; 0] in
  let pshufbcnst_1 := mm_set_epi8 [13; 5; 9; 1; 15; 7; 11; 3; 12; 4; 8; 0; 14; 6; 10; 2] in
  let pshufbcnst_2 := mm_set_epi8 [11; 3; 15; 7; 9; 1; 13; 5; 10; 2; 14; 6; 8; 0; 12; 4] in
  let pshufbcnst_3 := mm_set_epi8 [9; 1; 13; 5; 11; 3; 15; 7; 8; 0; 12; 4; 10; 2; 14; 6] in
  let B0 := loadu 16 A 0 in
  let B1 := loadu 16 A 16 in
  let B2 := loadu 16 A 32 in
  let B3 := loadu 16 A 48 in
  let B1 := mm_shuffle_ps B1 B1 0xB1 in
  let B3 := mm_shuffle_ps B3 B3 0xB1 in
  let T0 := mm_blend_ps B0 B1 0xA in
  let T1 := mm_blend_ps B2 B3 0xA in
  let T2 := mm_blend_ps B0 B1 0x5 in
  let T3 := mm_blend_ps B2 B3 0x5 in
  let B0 := mm_shuffle_epi8 T0 pshufbcnst_0 in
  let B1 := mm_shuffle_epi8 T1 pshufbcnst_1 in
  let B2 := mm_shuffle_epi8 T2 pshufbcnst_2 in
  let B3 := mm_shuffle_epi8 T3 pshufbcnst_3 in
  let T0 := mm_blend_ps B0 B1 0xA in
  let T1 := mm_blend_ps B0 B1 0x5 in
  let T2 := mm_blend_ps B2 B3 0xA in
  let T3 := mm_blend_ps B2 B3 0x5 in
  let T1 := mm_shuffle_ps T1 T1 0xB1 in
  let T3 := mm_shuffle_ps T3 T3 0xB1 in
  T0 ++ T1 ++ T2 ++ T3.

Definition byte_interleave_avx2 (src1 : list Z) : list Z :=
  let tm := mm_set_epi8 [15; 11; 7; 3; 14; 10; 6; 2; 13; 9; 5; 1; 12; 8; 4; 0;
                         15; 11; 7; 3; 14; 10; 6; 2; 13; 9; 5; 1; 12; 8; 4; 0] in
  let vindex := mm_setr_epi32 [0; 8; 16; 24; 32; 40; 48; 56] in
  let perm := mm_setr_epi32 [0; 4; 1; 5; 2; 6; 3; 7] in
  let load0 := mm_i32gather_epi32 src1 0 vindex in
  let load1 := mm_i32gather_epi32 src1 4 vindex in
  let transpose0 := mm_shuffle_epi8 load0 tm in
  let transpose1 := mm_shuffle_epi8 load1 tm in
  let final0 := mm256_permutevar8x32_epi32 transpose0 perm in
  let final1 := mm256_permutevar8x32_epi32 transpose1 perm in
  final0 ++ final1.

Definition trans8x8shuf : list Z :=
  mm_set_epi64 [0x0f0b07030e0a0602; 0x0d0905010c080400;
                0x0f0b07030e0a0602; 0x0d0905010c080400;
                0x0f0b07030e0a0602; 0x0d0905010c080400;
                0x0f0b07030e0a0602; 0x0d0905010c080400].

(** [use_stream] only chooses a non-temporal store of the same 64 bytes. *)
Definition byte_interleave_avx512 (input : list Z) (use_stream : bool) : list Z :=
  let mask := trans8x8shuf in
  let vindex := mm_setr_epi32 [0; 8; 16; 24; 32; 40; 48; 56; 4; 12; 20; 28; 36; 44; 52; 60] in
  let perm := mm_setr_epi32 [0; 4; 1; 5; 2; 6; 3; 7; 8; 12; 9; 13; 10; 14; 11; 15] in
  let load := mm_i32gather_epi32 input 0 vindex in
  let transpose := mm_shuffle_epi8 load mask in
  let final := mm512_permutexvar_epi32 perm transpose in
  if use_stream then final else final.

Definition byte_interleave_avx512vbmi (src : list Z) (use_stream : bool) : list Z :=
  let vsrc := src in
  let shuffled := mm512_permutexvar_epi8 trans8x8shuf vsrc in
  if use_stream then shuffled else shuffled.

(** ** Copies of blocks: the data are eight 64-bit words *)

Definition write_block_sse4_1 (data : list Z) : list Z :=
  let v0 := mm_set_epi64 [data.[0]; data.[1]] in
  let v1 := mm_set_epi64 [data.[2]; data.[3]] in
  let v2 := mm_set_epi64 [data.[4]; data.[5]] in
  let v3 := mm_set_epi64 [data.[6]; data.[7]] in
  v0 ++ v1 ++ v2 ++ v3.

Definition write_block_avx512 (data : list Z) : list Z :=
  mm_setr_epi64 [data.[0]; data.[1]; data.[2]; data.[3]; data.[4]; data.[5]; data.[6]; data.[7]].
End Vectorised.

(** [output[k] = o[k]] for k below 8, of the line that was loaded. *)
Definition read_block_avx512 (line : list Z) : list Z :=
  map (fun k => le_word (take 8 (drop (Z.to_nat (8 * k)) line))) (seqZ 0 8).

(** ** An instance that computes *)

Definition computed_intrinsics : Intrinsics := {|
  mm_set_epi8 l := rev (map u8 l);
  mm_setr_epi32 l := concat (map (le_bytes 4) l);
  mm_set_epi64 l := concat (map (le_bytes 8) (rev l));
  mm_setr_epi64 l := concat (map (le_bytes 8) l);
  mm_shuffle_ps a b imm := lane32 a (imm2 imm 0) ++ lane32 a (imm2 imm 1)
      ++ lane32 b (imm2 imm 2) ++ lane32 b (imm2 imm 3);
  mm_blend_ps a b imm := lanes32 4 (fun k => lane32 (if Z.testbit imm k then b else a) k);
  mm_shuffle_epi8 a b := map (shuffle_byte a b) (seqZ 0 (lenz a));
  mm_i32gather_epi32 m base vindex := lanes32 (lenz vindex / 4) (fun k =>
      map (fun b => m.[base + lane_index vindex k + b]) (seqZ 0 4));
  mm256_permutevar8x32_epi32 a idx := lanes32 8 (fun k => lane32 a (lane_index idx k &&& 7));
  mm512_permutexvar_epi32 idx a := lanes32 16 (fun k => lane32 a (lane_index idx k &&& 15));
  mm512_permutexvar_epi8 idx a := map (fun i => a.[idx.[i] &&& 63]) (seqZ 0 64);
|}.

#[export] Instance computed_intrinsics_spec : IntrinsicsSpec computed_intrinsics.
Proof. split; reflexivity. Qed.

(** ** Lemmas *)

(** A buffer of 64 bytes, byte by byte. *)
Ltac split64 l H :=
  do 64 (destruct l as [|? l]; [discriminate H|]); destruct l; [clear H|discriminate H].

(** The indices of a gather stay within the buffer. *)
Lemma gather_in_range `{I : Intrinsics} `{!IntrinsicsSpec I} m base vindex : vec256 vindex \/ vec512 vindex ->
  forallb (fun k => (lane_index vindex k <? 2 ^ 31) && (0 <=? base + lane_index vindex k)
    && (base + lane_index vindex k + 4 <=? lenz m)) (seqZ 0 (lenz vindex / 4)) = true ->
  mm_i32gather_epi32 m base vindex = lanes32 (lenz vindex / 4) (fun k =>
    map (fun b => m.[base + lane_index vindex k + b]) (seqZ 0 4)).
Proof.
  intros Hv Hall. apply i32gather_epi32_spec; [done|]. intros k Hk.
  apply (forall_range _ _ Hall) in Hk. zb2p. done.
Qed.

(** Replace an instruction by its documented result, given by [E]. *)
Ltac by_spec E :=
  let H := fresh in
  pose proof E as H;
  lazymatch type of H with _ = ?r => let r' := eval vm_compute in r in change r with r' in H end;
  rewrite H; clear H.

(** Run the instruction whose operands are known. *)
Ltac vec_width v :=
  let n := eval vm_compute in (length v) in
  lazymatch n with
  | 16%nat => constr:(or_introl eq_refl : vec128 v \/ vec256 v \/ vec512 v)
  | 32%nat => constr:(or_intror (or_introl eq_refl) : vec128 v \/ vec256 v \/ vec512 v)
  | 64%nat => constr:(or_intror (or_intror eq_refl) : vec128 v \/ vec256 v \/ vec512 v)
  end.
Ltac run_lane :=
  match goal with
  | |- context [mm_shuffle_ps ?a ?b ?i] => by_spec (shuffle_ps_spec a b i eq_refl eq_refl)
  | |- context [mm_blend_ps ?a ?b ?i] => by_spec (blend_ps_spec a b i eq_refl eq_refl)
  | |- context [mm_shuffle_epi8 ?a ?b] =>
      let H := vec_width a in by_spec (shuffle_epi8_spec a b eq_refl H)
  | |- context [mm256_permutevar8x32_epi32 ?a ?b] => by_spec (permutevar8x32_spec a b eq_refl eq_refl)
  | |- context [mm512_permutexvar_epi32 ?a ?b] => by_spec (permutexvar_epi32_spec a b eq_refl eq_refl)
  | |- context [mm512_permutexvar_epi8 ?a ?b] => by_spec (permutexvar_epi8_spec a b eq_refl eq_refl)
  end.
Ltac run_gather :=
  match goal with
  | |- context [mm_i32gather_epi32 ?m ?base ?v] =>
      let n := eval vm_compute in (length v) in
      lazymatch n with
      | 32%nat => by_spec (gather_in_range m base v (or_introl eq_refl) eq_refl)
      | 64%nat => by_spec (gather_in_range m base v (or_intror eq_refl) eq_refl)
      end
  end.
Ltac run_constants :=
  rewrite ?set_epi8_spec, ?setr_epi32_spec, ?set_epi64_spec, ?setr_epi64_spec.

Lemma length_byte_interleave input : length (byte_interleave input) = 64%nat.
Proof. reflexivity. Qed.

(** Byte 8i+j of the result is byte 8j+i of the buffer. *)
Lemma byte_interleave_get input i j : 0 <= i < 8 -> 0 <= j < 8 ->
  (byte_interleave input).[8 * i + j] = input.[8 * j + i].
Proof.
  intros Hi Hj.
  assert (i = 0 \/ i = 1 \/ i = 2 \/ i = 3 \/ i = 4 \/ i = 5 \/ i = 6 \/ i = 7) as Hi' by lia.
  assert (j = 0 \/ j = 1 \/ j = 2 \/ j = 3 \/ j = 4 \/ j = 5 \/ j = 6 \/ j = 7) as Hj' by lia.
  clear Hi Hj. destruct_or! Hi'; subst i; destruct_or! Hj'; subst j; reflexivity.
Qed.

Section Lanes.
Context `{I : Intrinsics} `{!IntrinsicsSpec I}.

Lemma sse4_1_interleave A : length A = 64%nat -> byte_interleave_sse4_1 A = byte_interleave A.
Proof.
  intros H. split64 A H. unfold byte_interleave_sse4_1. cbv zeta.
  run_constants. repeat run_lane. reflexivity.
Qed.


Lemma avx2_interleave src1 : length src1 = 64%nat -> byte_interleave_avx2 src1 = byte_interleave src1.
Proof.
  intros H. split64 src1 H. unfold byte_interleave_avx2. cbv zeta.
  run_constants. do 2 run_gather. repeat run_lane. reflexivity.
Qed.

Lemma avx512_interleave input use_stream : length input = 64%nat ->
  byte_interleave_avx512 input use_stream = byte_interleave input.
Proof.
  intros H. split64 input H. unfold byte_interleave_avx512, trans8x8shuf. cbv zeta.
  run_constants. run_gather. repeat run_lane. by destruct use_stream.
Qed.

(** Without the gather, the in-lane control bytes of the shuffle index the
    first sixteen bytes of the buffer only. *)
Lemma avx512vbmi_result src use_stream : length src = 64%nat ->
  byte_interleave_avx512vbmi src use_stream =
  concat (replicate 4 (map (fun i => src.[i]) [0; 4; 8; 12; 1; 5; 9; 13; 2; 6; 10; 14; 3; 7; 11; 15])).
Proof.
  intros H. split64 src H. unfold byte_interleave_avx512vbmi, trans8x8shuf. cbv zeta.
  run_constants. repeat run_lane. by destruct use_stream.
Qed.

Lemma write_block_avx512_words data : length data = 8%nat ->
  write_block_avx512 data = concat (map (le_bytes 8) data).
Proof.
  intros H. do 8 (destruct data as [|? data]; [discriminate H|]). destruct data; [|discriminate H].
  unfold write_block_avx512. by run_constants.
Qed.

Lemma write_block_sse4_1_words data : length data = 8%nat ->
  write_block_sse4_1 data = concat (map (fun k => le_bytes 8 data.[k]) [1; 0; 3; 2; 5; 4; 7; 6]).
Proof.
  intros H. do 8 (destruct data as [|? data]; [discriminate H|]). destruct data; [|discriminate H].
  unfold write_block_sse4_1. by run_constants.
Qed.
End Lanes.

Lemma byte_interleave_twice input : length input = 64%nat -> byte_interleave (byte_interleave input) = input.
Proof. intros H. split64 input H. reflexivity. Qed.

Lemma words_of_bytes line : Forall (fits 8) line -> length line = 64%nat ->
  concat (map (le_bytes 8) (read_block_avx512 line)) = line.
Proof.
  intros Hf H. unfold read_block_avx512.
  assert (forall k, (k <= 56)%nat -> le_bytes 8 (le_word (take 8 (drop k line))) = take 8 (drop k line)) as Hw.
  { intros k Hk. rewrite <- (le_bytes_word (take 8 (drop k line))) at 2.
    - f_equal. rewrite length_take, length_drop. lia.
    - by apply Forall_take, Forall_drop. }
  change (seqZ 0 8) with [0; 1; 2; 3; 4; 5; 6; 7]. cbn [map concat].
  rewrite !Hw by (vm_compute; lia). rewrite app_nil_r.
  clear Hw Hf. split64 line H. reflexivity.
Qed.

Lemma chunk_of_words data k : (k < length data)%nat ->
  take 8 (drop (8 * k) (concat (map (le_bytes 8) data))) = le_bytes 8 (data !!! k).
Proof.
  revert k. induction data as [|d data IH]; intros k Hk; [cbn in Hk; lia|].
  cbn [map concat]. destruct k as [|k].
  - rewrite Nat.mul_0_r, drop_0. apply take_app_length'. by rewrite length_le_bytes.
  - replace (8 * S k)%nat with (length (le_bytes 8 d) + 8 * k)%nat by (rewrite length_le_bytes; lia).
    rewrite drop_app_add. apply IH. cbn in Hk. lia.
Qed.

Lemma bytes_of_words data : Forall (fits 64) data -> length data = 8%nat ->
  read_block_avx512 (concat (map (le_bytes 8) data)) = data.
Proof.
  intros Hf H. apply list_eq_same_length with (n := 8%nat); [done..|].
  intros i x y Hi Hx Hy. unfold read_block_avx512 in Hx.
  change (map ?f (seqZ 0 8)) with (f <$> seqZ 0 8) in Hx.
  apply list_lookup_fmap_Some in Hx as (z & -> & Hz). apply lookup_seqZ in Hz as [-> _].
  replace (Z.to_nat (8 * (0 + Z.of_nat i))) with (8 * i)%nat by lia.
  rewrite chunk_of_words by lia. rewrite le_word_bytes.
  rewrite list_lookup_total_alt, Hy. apply Z.mod_small.
  by eapply Forall_lookup in Hy; [|exact Hf].
Qed.

(** ** Properties *)

Section Properties.
Context `{I : Intrinsics} `{!IntrinsicsSpec I}.

(** C20: On any implementation of the vector instructions that follows their
    documentation, the four transpositions that the backend can use compute
    the same bytes as the loop in C. *)
Theorem interleave_equivalent (input : list Z) (use_stream : bool) : length input = 64%nat ->
  byte_interleave_sse4_1 input = byte_interleave input /\
  byte_interleave_avx2 input = byte_interleave input /\
  byte_interleave_avx512 input use_stream = byte_interleave input.
Proof.
  intros H. split; [by apply sse4_1_interleave|].
  split; [by apply avx2_interleave|by apply avx512_interleave].
Qed.

(** What is sent interleaved is read back: the version that writes to the
    ranks and the version that reads from them undo each other. *)
Theorem interleave_roundtrip (input : list Z) (use_stream : bool) : length input = 64%nat ->
  byte_interleave_avx2 (byte_interleave_avx512 input use_stream) = input /\
  byte_interleave_avx512 (byte_interleave_avx2 input) use_stream = input.
Proof.
  intros H. split.
  - rewrite avx512_interleave by done. rewrite avx2_interleave by apply length_byte_interleave.
    by apply byte_interleave_twice.
  - rewrite avx2_interleave by done. rewrite avx512_interleave by apply length_byte_interleave.
    by apply byte_interleave_twice.
Qed.

(** The version for VBMI processors lost the gather of the version it was
    derived from: it only ever looks at the first two words of the buffer. *)
Theorem vbmi_ignores_six_words (src src' : list Z) (use_stream : bool) :
  length src = 64%nat -> length src' = 64%nat -> take 16 src = take 16 src' ->
  byte_interleave_avx512vbmi src use_stream = byte_interleave_avx512vbmi src' use_stream.
Proof.
  intros H H' Heq. rewrite !avx512vbmi_result by done.
  assert (forall i, 0 <= i < 16 -> src.[i] = src'.[i]) as Hi.
  { intros i Hi. unfold getz. rewrite !list_lookup_total_alt.
    rewrite <- (lookup_take_lt src 16), <- (lookup_take_lt src' 16) by lia. by rewrite Heq. }
  cbn [map]. by rewrite !Hi by lia.
Qed.

(** Reading a block gives the eight words that were written. *)
Theorem block_roundtrip (data : list Z) : length data = 8%nat -> Forall (fits 64) data ->
  read_block_avx512 (write_block_avx512 data) = data.
Proof. intros H Hf. rewrite write_block_avx512_words by done. by apply bytes_of_words. Qed.

(** The SSE version of the same copy exchanges the two words of every pair. *)
Theorem sse_block_swaps_words (data : list Z) : length data = 8%nat -> Forall (fits 64) data ->
  read_block_avx512 (write_block_sse4_1 data) = map (fun k => data.[k]) [1; 0; 3; 2; 5; 4; 7; 6].
Proof.
  intros H Hf. rewrite write_block_sse4_1_words by done.
  rewrite <- (map_map (fun k => data.[k]) (le_bytes 8)). apply bytes_of_words; [|done].
  apply Forall_map. apply Forall_forall. intros k Hk.
  unfold getz. apply Forall_lookup_total_1; [done|]. rewrite H. cbn in Hk. destruct_or? Hk; subst; try done; vm_compute; lia.
Qed.
End Properties.

Definition sample_line : list Z := seqZ 0 64.

Lemma interleave_equivalent_witness :
  length sample_line = 64%nat /\
  byte_interleave_sse4_1 (I := computed_intrinsics) sample_line = byte_interleave sample_line /\
  byte_interleave_avx2 (I := computed_intrinsics) sample_line = byte_interleave sample_line /\
  byte_interleave_avx512 (I := computed_intrinsics) sample_line true = byte_interleave sample_line.
Proof. split; [reflexivity|]. by apply interleave_equivalent. Defined.
Lemma interleave_roundtrip_witness :
  byte_interleave_avx2 (I := computed_intrinsics)
    (byte_interleave_avx512 (I := computed_intrinsics) sample_line true) = sample_line /\
  byte_interleave_avx512 (I := computed_intrinsics)
    (byte_interleave_avx2 (I := computed_intrinsics) sample_line) true = sample_line.
Proof. by apply interleave_roundtrip. Defined.
Lemma vbmi_ignores_six_words_witness :
  byte_interleave_avx512vbmi (I := computed_intrinsics) sample_line true =
  byte_interleave_avx512vbmi (I := computed_intrinsics) (seqZ 0 16 ++ replicate 48 0) true.
Proof. by apply vbmi_ignores_six_words. Defined.
Lemma block_roundtrip_witness :
  read_block_avx512 (write_block_avx512 (I := computed_intrinsics) (seqZ 0 8)) = seqZ 0 8.
Proof. apply block_roundtrip; [reflexivity|]. by_eval. Defined.
Lemma sse_block_swaps_words_witness :
  read_block_avx512 (write_block_sse4_1 (I := computed_intrinsics) (seqZ 0 8)) = [1; 0; 3; 2; 5; 4; 7; 6].
Proof. apply (sse_block_swaps_words (seqZ 0 8)); [reflexivity|]. by_eval. Defined.
