(* ===== verification/XeonSg.v ===== *)
(** * Scatter/gather buffers of a transfer

    Model of the iterator of
    [src/hw/src/mappings/xeon_sp/xeon_sp_translation.c] over the host blocks of
    a scatter/gather transfer ([struct sg_xfer_buffer] of
    [src/api/include/api/dpu_types.h]). The memory of the host gives the byte at
    every address. The pointers into the two arrays of the structure are
    indices. *)

From S2P Require Import Prelude.

#[local] Open Scope Z_scope.
#[local] Open Scope dpu_scope.

(** ** The memory of the host *)

Definition memory := Z -> Z.
Definition load_bytes (m : memory) (addr n : Z) : list Z := map (fun i => m (addr + i)) (seqZ 0 n).
Definition store_bytes (addr : Z) (bs : list Z) (m : memory) : memory := fun x =>
  if (addr <=? x) && (x <? addr + lenz bs) then bs.[x - addr] else m x.

(** ** The structure and its iterator *)

Record sg_xfer_buffer := mk_sg {
  max_nr_blocks : Z;
  blocks_addr : list Z;
  blocks_length : list Z;
  nr_blocks : Z;
}.

Record sg_xfer_buffer_iterator := mk_it {
  it_blocks_addr : list Z;
  it_blocks_length : list Z;
  current_block_length : Z;
  current_block_addr : Z;
  current_block_index : Z;
  blocks_addr_ptr : Z;
  blocks_addr_ptr_end : Z;
  blocks_length_ptr : Z;
}.

Definition set_index (v : Z) (it : sg_xfer_buffer_iterator) : sg_xfer_buffer_iterator :=
  mk_it (it_blocks_addr it) (it_blocks_length it) (current_block_length it) (current_block_addr it) v
    (blocks_addr_ptr it) (blocks_addr_ptr_end it) (blocks_length_ptr it).

Section Iterator.
(** The address of the static array [zeros]. *)
Variable zeros : Z.

(** The first block is read before the entry past the last block is written;
    both arrays have one more entry than [max_nr_blocks]. *)
Definition init_sg_xfer_buffer_iterator (sg_buff : sg_xfer_buffer) : sg_xfer_buffer_iterator :=
  let length0 := (blocks_length sg_buff).[0] in
  let addr0 := (blocks_addr sg_buff).[0] in
  mk_it (blocks_addr sg_buff).[nr_blocks sg_buff := zeros]
    (blocks_length sg_buff).[nr_blocks sg_buff := 4096]
    length0 addr0 0 0 (nr_blocks sg_buff) 0.

Definition go_to_next_block (it : sg_xfer_buffer_iterator) : sg_xfer_buffer_iterator :=
  if blocks_addr_ptr_end it - blocks_addr_ptr it =? 0 then set_index 0 it
  else
    let addr_ptr := blocks_addr_ptr it + 1 in
    let length_ptr := blocks_length_ptr it + 1 in
    mk_it (it_blocks_addr it) (it_blocks_length it)
      (it_blocks_length it).[length_ptr] (it_blocks_addr it).[addr_ptr] 0
      addr_ptr (blocks_addr_ptr_end it) length_ptr.

(** The address of the byte, and the iterator after it. *)
Definition get_next_byte (it : sg_xfer_buffer_iterator) : Z * sg_xfer_buffer_iterator :=
  let byte := current_block_addr it + current_block_index it in
  let index := u32 (current_block_index it + 1) in
  let it := set_index index it in
  (byte,
   if index =? current_block_length it then
     if negb (blocks_addr_ptr it =? blocks_addr_ptr_end it) then go_to_next_block it
     else set_index 0 it
   else it).

Definition get_next_eight_bytes (m : memory) (it : sg_xfer_buffer_iterator)
    : list Z * sg_xfer_buffer_iterator :=
  let length := current_block_length it in
  let current := current_block_index it in
  if u32 (8 + current) <? length then
    (load_bytes m (current_block_addr it + current_block_index it) 8,
     set_index (u32 (current_block_index it + 8)) it)
  else if length =? u32 (8 + current) then
    (load_bytes m (current_block_addr it + current_block_index it) 8, go_to_next_block it)
  else
    for_up 8 (fun i '(out_buffer_8, it) =>
      let '(byte, it) := get_next_byte it in (out_buffer_8 ++ [m byte], it)) ([], it).

Definition write_next_eight_bytes (in_buffer : list Z) (it : sg_xfer_buffer_iterator) (m : memory)
    : sg_xfer_buffer_iterator * memory :=
  if blocks_addr_ptr it =? blocks_addr_ptr_end it then (it, m)
  else
    let length := current_block_length it in
    let current := current_block_index it in
    if u32 (8 + current) <? length then
      (set_index (u32 (current_block_index it + 8)) it,
       store_bytes (current_block_addr it + current_block_index it) in_buffer m)
    else if length =? u32 (8 + current) then
      (go_to_next_block it, store_bytes (current_block_addr it + current_block_index it) in_buffer m)
    else
      for_up 8 (fun i '(it, m) =>
        let '(byte, it) := get_next_byte it in (it, store_bytes byte [in_buffer.[i]] m)) (it, m).

(** ** What the iterator stands for *)

(** The addresses of the bytes of the blocks, in order. *)
Definition sg_blocks (b : sg_xfer_buffer) : list (list Z) :=
  map (fun i => seqZ (blocks_addr b).[i] (blocks_length b).[i]) (seqZ 0 (nr_blocks b)).
Definition sg_addrs (b : sg_xfer_buffer) : list Z := concat (sg_blocks b).

(** The k-th address of the transfer: after the blocks, the array [zeros], again and again. *)
Definition sg_stream (b : sg_xfer_buffer) (k : Z) : Z :=
  if k <? lenz (sg_addrs b) then (sg_addrs b).[k] else zeros + (k - lenz (sg_addrs b)) mod 4096.

(** There is a block, no block is empty or reaches 4 GiB, and the arrays hold the extra entry. *)
Record wf_sg (b : sg_xfer_buffer) : Prop := {
  sg_some_block : 0 < nr_blocks b;
  sg_room_addr : nr_blocks b < lenz (blocks_addr b);
  sg_room_length : nr_blocks b < lenz (blocks_length b);
  sg_lengths : forall i, 0 <= i < nr_blocks b -> 0 < (blocks_length b).[i] < 2 ^ 32 - 8;
}.
End Iterator.

(** ** The iterator reads the stream *)

Section Position.
Variables (zeros : Z) (b : sg_xfer_buffer).
Hypothesis Hb : wf_sg b.

Definition off (n : Z) : Z := lenz (concat (take (Z.to_nat n) (sg_blocks b))).

Lemma length_sg_blocks : length (sg_blocks b) = Z.to_nat (nr_blocks b).
Proof. unfold sg_blocks. by rewrite length_map, length_seqZ. Qed.

Lemma off_succ n : 0 <= n < nr_blocks b -> off (n + 1) = off n + (blocks_length b).[n].
Proof using Hb.
  intros Hn. pose proof (sg_lengths b Hb n Hn) as Hlen. unfold off.
  replace (Z.to_nat (n + 1)) with (S (Z.to_nat n)) by lia.
  erewrite take_S_r with (x := seqZ (blocks_addr b).[n] (blocks_length b).[n]).
  - unfold lenz. rewrite concat_app, length_app. cbn [concat]. rewrite app_nil_r, length_seqZ. lia.
  - unfold sg_blocks. change (map ?f (seqZ 0 ?k)) with (f <$> seqZ 0 k).
    rewrite list_lookup_fmap. replace (seqZ 0 (nr_blocks b) !! Z.to_nat n) with (Some n); [done|].
    symmetry. apply lookup_seqZ. lia.
Qed.

Lemma off_end : off (nr_blocks b) = lenz (sg_addrs b).
Proof. unfold off, sg_addrs. by rewrite take_ge by (rewrite length_sg_blocks; lia). Qed.

Lemma off_nonneg n : 0 <= off n.
Proof. unfold off, lenz. lia. Qed.

Lemma off_mono n n' : 0 <= n <= n' -> n' <= nr_blocks b -> off n <= off n'.
Proof using Hb.
  intros [Hn Hle] Hnr. replace n' with (n + (n' - n)) by lia.
  remember (n' - n) as d. assert (0 <= d) as Hd by lia. assert (n + d <= nr_blocks b) as Hnd by lia.
  clear Heqd Hle Hnr. revert Hnd. pattern d. apply natlike_ind; [|clear d Hd|done].
  - intros _. rewrite Z.add_0_r. lia.
  - intros d Hd IH Hnd. replace (n + Z.succ d) with ((n + d) + 1) by lia.
    rewrite off_succ by lia. pose proof (sg_lengths b Hb (n + d) ltac:(lia)). lia.
Qed.

(** Byte i of block n. *)
Lemma stream_block n i : 0 <= n < nr_blocks b -> 0 <= i < (blocks_length b).[n] ->
  off n + i < lenz (sg_addrs b) /\ sg_stream zeros b (off n + i) = (blocks_addr b).[n] + i.
Proof using Hb.
  intros Hn Hi. pose proof (off_succ n Hn) as Hs.
  pose proof (off_mono (n + 1) (nr_blocks b) ltac:(lia) ltac:(lia)) as Hm.
  rewrite off_end in Hm. assert (off n + i < lenz (sg_addrs b)) as Hlt by lia.
  split; [done|]. unfold sg_stream. rewrite (proj2 (Z.ltb_lt _ _) Hlt).
  unfold sg_addrs, getz. rewrite <- (take_drop (Z.to_nat n) (sg_blocks b)) at 1.
  rewrite concat_app, list_lookup_total_alt.
  pose proof (off_nonneg n) as H0. unfold off, lenz in H0 |- *.
  rewrite lookup_app_r by lia.
  erewrite drop_S with (x := seqZ (blocks_addr b).[n] (blocks_length b).[n]).
  2: { unfold sg_blocks. change (map ?f (seqZ 0 ?k)) with (f <$> seqZ 0 k).
    rewrite list_lookup_fmap. replace (seqZ 0 (nr_blocks b) !! Z.to_nat n) with (Some n); [done|].
    symmetry. apply lookup_seqZ. lia. }
  cbn [concat]. rewrite lookup_app_l by (rewrite length_seqZ; lia).
  match goal with |- context [seqZ ?a ?n !! ?k] =>
    replace (seqZ a n !! k) with (Some (a + i)); [done|] end.
  symmetry. apply lookup_seqZ. lia.
Qed.

Record at_pos (k : Z) (it : sg_xfer_buffer_iterator) : Prop := {
  ap_addrs : it_blocks_addr it = (blocks_addr b).[nr_blocks b := zeros];
  ap_lengths : it_blocks_length it = (blocks_length b).[nr_blocks b := 4096];
  ap_end : blocks_addr_ptr_end it = nr_blocks b;
  ap_ptrs : blocks_length_ptr it = blocks_addr_ptr it;
  ap_range : 0 <= blocks_addr_ptr it <= nr_blocks b;
  ap_length : current_block_length it = (it_blocks_length it).[blocks_addr_ptr it];
  ap_addr : current_block_addr it = (it_blocks_addr it).[blocks_addr_ptr it];
  ap_index : 0 <= current_block_index it < current_block_length it;
  ap_pos : if blocks_addr_ptr it <? nr_blocks b
           then k = off (blocks_addr_ptr it) + current_block_index it
           else lenz (sg_addrs b) <= k /\ current_block_index it = (k - lenz (sg_addrs b)) mod 4096;
}.

Lemma padded_length n : 0 <= n <= nr_blocks b ->
  ((blocks_length b).[nr_blocks b := 4096]).[n] = if n <? nr_blocks b then (blocks_length b).[n] else 4096.
Proof using Hb.
  intros Hn. destruct Hb. rewrite getz_setz by lia. case_decide; subst.
  - by rewrite Z.ltb_irrefl.
  - destruct (n <? _) eqn:E; zb2p; [done|lia].
Qed.
Lemma padded_addr n : 0 <= n <= nr_blocks b ->
  ((blocks_addr b).[nr_blocks b := zeros]).[n] = if n <? nr_blocks b then (blocks_addr b).[n] else zeros.
Proof using Hb.
  intros Hn. destruct Hb. rewrite getz_setz by lia. case_decide; subst.
  - by rewrite Z.ltb_irrefl.
  - destruct (n <? _) eqn:E; zb2p; [done|lia].
Qed.

(** The current block and index, in terms of the structure. *)
Lemma at_pos_block k it : at_pos k it ->
  (blocks_addr_ptr it < nr_blocks b /\ current_block_length it = (blocks_length b).[blocks_addr_ptr it]
     /\ current_block_addr it = (blocks_addr b).[blocks_addr_ptr it]
     /\ 0 < current_block_length it < 2 ^ 32 - 8
     /\ k = off (blocks_addr_ptr it) + current_block_index it) \/
  (blocks_addr_ptr it = nr_blocks b /\ current_block_length it = 4096 /\ current_block_addr it = zeros
     /\ lenz (sg_addrs b) <= k /\ current_block_index it = (k - lenz (sg_addrs b)) mod 4096).
Proof using Hb.
  intros H. pose proof (ap_length _ _ H) as HL. pose proof (ap_addr _ _ H) as HA.
  pose proof (ap_range _ _ H) as Hr. pose proof (ap_pos _ _ H) as Hp.
  rewrite (ap_lengths _ _ H), padded_length in HL by done.
  rewrite (ap_addrs _ _ H), padded_addr in HA by done.
  destruct (blocks_addr_ptr it <? nr_blocks b) eqn:E; zb2p; [left|right].
  - pose proof (sg_lengths b Hb (blocks_addr_ptr it) ltac:(lia)). rewrite HL, HA. done.
  - split; [lia|]. done.
Qed.

(** The next address is the one of the stream. *)
Lemma at_pos_stream k it i : at_pos k it ->
  0 <= i < current_block_length it - current_block_index it ->
  sg_stream zeros b (k + i) = current_block_addr it + current_block_index it + i.
Proof using Hb.
  intros H Hi. pose proof (ap_index _ _ H). pose proof (ap_range _ _ H).
  destruct (at_pos_block k it H) as [(Hn & HL & HA & _ & ->)|(Hn & HL & HA & Hk & HI)].
  - rewrite <- Z.add_assoc. rewrite (proj2 (stream_block (blocks_addr_ptr it) (current_block_index it + i) ltac:(lia) ltac:(lia))). lia.
  - unfold sg_stream. rewrite (proj2 (Z.ltb_ge _ _)) by lia. rewrite HA, HI.
    replace (k + i - lenz (sg_addrs b)) with (k - lenz (sg_addrs b) + i) by lia.
    rewrite <- Z.add_mod_idemp_l by done. rewrite (Z.mod_small (_ + i)) by lia. lia.
Qed.

Lemma init_at_pos : at_pos 0 (init_sg_xfer_buffer_iterator zeros b).
Proof using Hb.
  pose proof (sg_some_block b Hb). pose proof (sg_lengths b Hb 0 ltac:(lia)).
  assert (0 <? nr_blocks b = true) as E by (apply Z.ltb_lt; lia).
  split; unfold init_sg_xfer_buffer_iterator;
    cbn [it_blocks_addr it_blocks_length current_block_length current_block_addr
         current_block_index blocks_addr_ptr blocks_addr_ptr_end blocks_length_ptr]; try done; try lia.
  - rewrite padded_length by lia. by rewrite E.
  - rewrite padded_addr by lia. by rewrite E.
  - by rewrite E.
Qed.

(** Moving inside the current block. *)
Lemma at_pos_move k it i : at_pos k it -> 0 <= i ->
  current_block_index it + i < current_block_length it ->
  at_pos (k + i) (set_index (current_block_index it + i) it).
Proof using Hb.
  intros H Hi Hlt. pose proof (ap_index _ _ H) as HI. pose proof (ap_range _ _ H) as Hr.
  destruct (at_pos_block k it H) as [(Hn & HL & _ & _ & Hk)|(Hn & HL & _ & Hk & Hidx)]; destruct H;
  (split; unfold set_index;
    cbn [it_blocks_addr it_blocks_length current_block_length current_block_addr
         current_block_index blocks_addr_ptr blocks_addr_ptr_end blocks_length_ptr]; try done; try lia).
  - rewrite (proj2 (Z.ltb_lt _ _) Hn). lia.
  - rewrite (proj2 (Z.ltb_ge _ _)) by lia. split; [lia|]. rewrite Hidx.
    replace (k + i - lenz (sg_addrs b)) with (k - lenz (sg_addrs b) + i) by lia.
    rewrite <- Z.add_mod_idemp_l by done. rewrite (Z.mod_small (_ + i)); lia.
Qed.

(** Leaving the current block. *)
Lemma at_pos_next k it i j : at_pos k it -> 0 <= i ->
  current_block_index it + i = current_block_length it ->
  at_pos (k + i) (if negb (blocks_addr_ptr it =? blocks_addr_ptr_end it)
                  then go_to_next_block (set_index j it) else set_index 0 it).
Proof using Hb.
  intros H Hi Heq. pose proof (ap_index _ _ H) as HI. pose proof (ap_range _ _ H) as Hr.
  pose proof (ap_end _ _ H) as HE. rewrite HE.
  destruct (at_pos_block k it H) as [(Hn & HL & _ & _ & Hk)|(Hn & HL & _ & Hk & Hidx)].
  - rewrite (proj2 (Z.eqb_neq _ _)) by lia. cbn [negb]. unfold go_to_next_block, set_index at 1 2.
    cbn [blocks_addr_ptr blocks_addr_ptr_end]. rewrite (proj2 (Z.eqb_neq _ _)) by lia.
    assert (k + i = off (blocks_addr_ptr it + 1)) as Hk'.
    { rewrite off_succ by lia. lia. }
    pose proof (ap_addrs _ _ H) as HAs. pose proof (ap_lengths _ _ H) as HLs. pose proof (ap_ptrs _ _ H) as HP.
    split; unfold set_index;
    cbn [it_blocks_addr it_blocks_length current_block_length current_block_addr
         current_block_index blocks_addr_ptr blocks_addr_ptr_end blocks_length_ptr];
      rewrite ?HAs, ?HLs, ?HP; try done; try lia.
    + rewrite padded_length by lia. destruct (_ <? _) eqn:E; zb2p; [|lia].
      pose proof (sg_lengths b Hb (blocks_addr_ptr it + 1) ltac:(lia)). lia.
    + destruct (_ <? _) eqn:E; zb2p; [lia|]. rewrite Hk'.
      replace (blocks_addr_ptr it + 1) with (nr_blocks b) by lia.
      rewrite off_end. rewrite Z.sub_diag. done.
  - rewrite (proj2 (Z.eqb_eq _ _)) by lia. cbn [negb]. destruct H.
    split; unfold set_index;
    cbn [it_blocks_addr it_blocks_length current_block_length current_block_addr
         current_block_index blocks_addr_ptr blocks_addr_ptr_end blocks_length_ptr]; try done; try lia.
    rewrite (proj2 (Z.ltb_ge _ _)) by lia. split; [lia|].
    replace (k + i - lenz (sg_addrs b)) with (k - lenz (sg_addrs b) + i) by lia.
    rewrite <- Z.add_mod_idemp_l, <- Hidx by done. rewrite Heq, HL. done.
Qed.

Lemma at_pos_u32 k it i : at_pos k it -> 0 <= i <= 8 ->
  u32 (current_block_index it + i) = current_block_index it + i.
Proof using Hb.
  intros H Hi. apply u32_id. unfold fits. pose proof (ap_index _ _ H).
  destruct (at_pos_block k it H) as [(_ & _ & _ & ? & _)|(_ & ? & _)]; lia.
Qed.

Lemma get_next_byte_spec k it : at_pos k it ->
  fst (get_next_byte it) = sg_stream zeros b k /\ at_pos (k + 1) (snd (get_next_byte it)).
Proof using Hb.
  intros H. pose proof (ap_index _ _ H) as HI. unfold get_next_byte. cbn [fst snd].
  rewrite (at_pos_u32 k it 1) by (done || lia).
  split.
  - pose proof (at_pos_stream k it 0 H ltac:(lia)) as Hs. rewrite !Z.add_0_r in Hs. by rewrite Hs.
  - change (current_block_length (set_index ?i it)) with (current_block_length it).
    destruct (_ =? current_block_length it) eqn:E; zb2p.
    + exact (at_pos_next k it 1 (current_block_index it + 1) H ltac:(lia) E).
    + apply at_pos_move; [done|lia|lia].
Qed.

(** When the index reaches the end of a block with eight bytes at once. *)
Lemma go_next_at_pos k it : at_pos k it ->
  current_block_index it + 8 = current_block_length it -> at_pos (k + 8) (go_to_next_block it).
Proof using Hb.
  intros H Heq. pose proof (at_pos_next k it 8 (current_block_index it) H ltac:(lia) Heq) as Hn.
  replace (set_index (current_block_index it) it) with it in Hn by (by destruct it).
  destruct (blocks_addr_ptr it =? blocks_addr_ptr_end it) eqn:E; cbn [negb] in Hn; [|done].
  unfold go_to_next_block. zb2p. by rewrite (proj2 (Z.eqb_eq _ _)) by lia.
Qed.

Lemma get_next_eight_bytes_spec m k it : at_pos k it ->
  fst (get_next_eight_bytes m it) = map (fun i => m (sg_stream zeros b (k + i))) (seqZ 0 8) /\
  at_pos (k + 8) (snd (get_next_eight_bytes m it)).
Proof using Hb.
  intros H. pose proof (ap_index _ _ H) as HI. unfold get_next_eight_bytes. cbv zeta.
  rewrite (Z.add_comm 8), (at_pos_u32 k it 8) by (done || lia).
  assert (current_block_index it + 8 <= current_block_length it ->
    load_bytes m (current_block_addr it + current_block_index it) 8
    = map (fun i => m (sg_stream zeros b (k + i))) (seqZ 0 8)) as Hload.
  { intros Hle. unfold load_bytes. apply map_ext_in. intros i Hi.
    apply list_elem_of_In, elem_of_seqZ in Hi. by rewrite (at_pos_stream k it i) by (done || lia). }
  destruct (_ <? current_block_length it) eqn:E1; zb2p; cbn [fst snd].
  { split; [apply Hload; lia|]. apply at_pos_move; [done|lia|lia]. }
  destruct (current_block_length it =? _) eqn:E2; zb2p; cbn [fst snd].
  { split; [apply Hload; lia|]. by apply go_next_at_pos. }
  clear Hload. apply (for_up_ind (fun j s =>
    fst s = map (fun i => m (sg_stream zeros b (k + i))) (seqZ 0 j) /\ at_pos (k + j) (snd s))); [lia| |].
  - rewrite Z.add_0_r. done.
  - intros i [out it'] Hi [Hout Hit]. cbn [fst snd] in Hout, Hit.
    destruct (get_next_byte_spec _ _ Hit) as [Ha Hn].
    destruct (get_next_byte it') as [byte it'']. cbn [fst snd] in *. subst out byte.
    split; [|by rewrite Z.add_assoc].
    rewrite seqZ_app by lia. by rewrite map_app.
Qed.

(** Bytes stored one by one at the addresses of the stream. *)
Definition store_stream (k : Z) (bs : list Z) (m : memory) : memory :=
  for_up (lenz bs) (fun i m => store_bytes (sg_stream zeros b (k + i)) [bs.[i]] m) m.

(** Consecutive bytes stored one by one are stored together. *)
Lemma store_one_by_one (f : Z -> Z) a bs m x : (forall i, 0 <= i < lenz bs -> f i = a + i) ->
  for_up (lenz bs) (fun i m => store_bytes (f i) [bs.[i]] m) m x = store_bytes a bs m x.
Proof.
  intros Hf.
  enough (forall j, 0 <= j <= lenz bs -> for_up j (fun i m => store_bytes (f i) [bs.[i]] m) m x
      = if (a <=? x) && (x <? a + j) then bs.[x - a] else m x) as Hj.
  { rewrite Hj by (unfold lenz; lia). done. }
  intros j [Hj0 Hj1]. revert Hj1. pattern j. apply natlike_ind; [|clear j Hj0|done].
  - intros _. rewrite for_up_0 by lia. rewrite Z.add_0_r.
    destruct (a <=? x) eqn:E1, (x <? a) eqn:E2; zb2p; try lia; done.
  - intros j Hj IH Hj1. rewrite <- Z.add_1_r, for_up_succ by done.
    unfold store_bytes at 1. rewrite Hf, IH by lia. change (lenz [bs.[j]]) with 1.
    destruct (decide (x = a + j)) as [->|Hne].
    + rewrite !(proj2 (Z.leb_le _ _)), !(proj2 (Z.ltb_lt _ _)) by lia. cbn [andb].
      destruct (a + j <? a + (j + 1)) eqn:E; zb2p; [|lia].
      rewrite Z.sub_diag, Z.add_simpl_l. done.
    + destruct (a + j <=? x) eqn:E1, (x <? a + j + 1) eqn:E2; zb2p; try lia; cbn [andb];
      destruct (a <=? x) eqn:E3, (x <? a + j) eqn:E4, (x <? a + (j + 1)) eqn:E5; zb2p; try lia; done.
Qed.

(** The loop of [write_next_eight_bytes] over the bytes of the word. *)
Lemma write_bytes_loop bs m k it j : at_pos k it -> 0 <= j ->
  let s := for_up j (fun i '(it, m) =>
      let '(byte, it) := get_next_byte it in (it, store_bytes byte [bs.[i]] m)) (it, m) in
  at_pos (k + j) (fst s) /\
  snd s = for_up j (fun i m => store_bytes (sg_stream zeros b (k + i)) [bs.[i]] m) m.
Proof using Hb.
  intros H Hj0. pattern j. apply natlike_ind; [|clear j Hj0|done].
  - rewrite !for_up_0 by lia. rewrite Z.add_0_r. done.
  - intros j Hj IH. rewrite <- Z.add_1_r. cbv zeta in IH |- *. rewrite !for_up_succ by done.
    destruct (for_up j _ (it, m)) as [it' m']. cbn [fst snd] in IH |- *. destruct IH as [Hit ->].
    destruct (get_next_byte_spec _ _ Hit) as [Ha Hnext].
    destruct (get_next_byte it') as [byte it'']. cbn [fst snd] in *. subst byte.
    by rewrite Z.add_assoc.
Qed.

Lemma write_next_eight_bytes_spec bs m k it : at_pos k it -> lenz bs = 8 ->
  if k <? lenz (sg_addrs b)
  then at_pos (k + 8) (fst (write_next_eight_bytes bs it m)) /\
    forall x, snd (write_next_eight_bytes bs it m) x = store_stream k bs m x
  else write_next_eight_bytes bs it m = (it, m).
Proof using Hb.
  intros H Hlen. pose proof (ap_index _ _ H) as HI. pose proof (ap_end _ _ H) as HE.
  unfold write_next_eight_bytes. cbv zeta. rewrite HE.
  destruct (blocks_addr_ptr it =? nr_blocks b) eqn:E0; zb2p.
  { destruct (at_pos_block k it H) as [(?&_)|(_&_&_&Hk&_)]; [lia|]. by rewrite (proj2 (Z.ltb_ge _ _) Hk). }
  destruct (at_pos_block k it H) as [(Hn & HL & HA & Hl & Hk)|(?&_)]; [|lia].
  pose proof (stream_block (blocks_addr_ptr it) (current_block_index it)
    ltac:(pose proof (ap_range _ _ H); lia) ltac:(lia)) as [Hlt _].
  rewrite <- Hk in Hlt. rewrite (proj2 (Z.ltb_lt _ _) Hlt).
  rewrite (Z.add_comm 8), (at_pos_u32 k it 8) by (done || lia).
  assert (current_block_index it + 8 <= current_block_length it -> forall x,
    store_bytes (current_block_addr it + current_block_index it) bs m x = store_stream k bs m x) as Hst.
  { intros Hle x. unfold store_stream. symmetry. apply store_one_by_one.
    rewrite Hlen. intros i Hi. apply at_pos_stream; [done|lia]. }
  destruct (_ <? current_block_length it) eqn:E1; zb2p; cbn [fst snd].
  { split; [|apply Hst; lia]. apply at_pos_move; [done|lia|lia]. }
  destruct (current_block_length it =? _) eqn:E2; zb2p; cbn [fst snd].
  { split; [|apply Hst; lia]. by apply go_next_at_pos. }
  destruct (write_bytes_loop bs m k it 8 H ltac:(lia)) as [Hp Hm]. split; [done|].
  intros x. rewrite Hm. unfold store_stream. by rewrite Hlen.
Qed.
End Position.
