(* ===== verification/XeonBank.v ===== *)
(** * MRAM transfers of the Xeon boards

    Model of the second part of
    [src/hw/src/mappings/xeon_sp/xeon_sp_translation.c]: the place of every
    MRAM byte in the mapped region of a rank, the loops of a transfer thread,
    and the accesses to the control interfaces. A region and the host memory are
    two functions from addresses to bytes, those of the region relative to its
    base. *)

From stdpp Require Import relations.
From S2P Require Import Prelude CMonad Rank UfiMemory XeonInterleave XeonSg.

#[local] Open Scope Z_scope.
#[local] Open Scope dpu_scope.

(** ** Addresses *)

Definition BANK_START (dpu_id : Z) : Z := 0x40000 * (dpu_id mod 4) + (if 4 <=? dpu_id then 0x40 else 0).
Definition BANK_OFFSET_NEXT_DATA (i : Z) : Z := i * 16.
Definition BANK_CHUNK_SIZE := 0x20000.
Definition BANK_NEXT_CHUNK_OFFSET := 0x100000.

Definition apply_address_translation_on_mram_offset (byte_offset : Z) : Z :=
  let mask_21_to_15 := shl32 (Z.shiftl 1 (21 - 15 + 1) - 1) 15 in
  let mask_21_to_14 := shl32 (Z.shiftl 1 (21 - 14 + 1) - 1) 14 in
  let bits_21_to_15 := Z.shiftr (byte_offset &&& mask_21_to_15) 15 in
  let bit_14 := Z.shiftr byte_offset 14 &&& 1 in
  let unchanged_bits := byte_offset &&& not32 mask_21_to_14 in
  unchanged_bits ||| shl32 bits_21_to_15 14 ||| shl32 bit_14 21.

(** The line of the word i of a transfer at [offset]. *)
Definition line_offset (offset i : Z) : Z :=
  let mram_64_bit_word_offset :=
    apply_address_translation_on_mram_offset (u32 (u32 (i * 8) + offset)) / 8 in
  let next_data := u64 (BANK_OFFSET_NEXT_DATA (mram_64_bit_word_offset * 8)) in
  next_data mod BANK_CHUNK_SIZE + next_data / BANK_CHUNK_SIZE * BANK_NEXT_CHUNK_OFFSET.

(** ** The two loops of a transfer *)

Definition no_iterator : sg_xfer_buffer_iterator := mk_it [] [] 0 0 0 0 0 0.
#[export] Instance iterator_inhabited : Inhabited sg_xfer_buffer_iterator := populate no_iterator.

(** The bytes of word k of a line. *)
Definition word_of (line : list Z) (k : Z) : list Z := map (fun j => line.[8 * k + j]) (seqZ 0 8).

Section Threads.
Context `{I : Intrinsics}.
(** The topology of the rank, the structures behind the pointers of a
    scatter/gather matrix and the address of [zeros]. *)
Variables (nb_cis : Z) (sg_at : Z -> sg_xfer_buffer) (zeros : Z).
Variable xfer_matrix : dpu_transfer_matrix.

Definition idx_of (dpu_id : Z) : Z := u8 (dpu_id * NB_REAL_CIS).
Definition xptr (dpu_id ci_id : Z) : Z := (tm_ptr xfer_matrix).[idx_of dpu_id + ci_id].
Definition is_active (dpu_id ci_id : Z) : bool := negb (xptr dpu_id ci_id =? 0).
Definition do_dpu_transfer (dpu_id : Z) : bool := existsb (is_active dpu_id) (seqZ 0 nb_cis).
Definition nb_words : Z := tm_size xfer_matrix / 8.
Definition line_address (dpu_id i : Z) : Z := BANK_START dpu_id + line_offset (tm_offset xfer_matrix) i.

(** [sg_it], whose entries are set only where there is a structure. *)
Definition init_sg_iterators (dpu_id : Z) : list sg_xfer_buffer_iterator :=
  for_up nb_cis (fun ci_id sg_it =>
    if is_active dpu_id ci_id
    then sg_it.[ci_id := init_sg_xfer_buffer_iterator zeros (sg_at (xptr dpu_id ci_id))]
    else sg_it) (replicate (Z.to_nat nb_cis) no_iterator).

(** A thread that writes only stores lines into the region: it is the list of
    its stores, address and line. [cache_line] is the list of its eight words,
    each the list of its bytes; it keeps its content from one word to the next. *)
Definition store := (Z * list Z)%type.

Section Write.
Variable host : memory.

Definition fill_word (dpu_id i ci_id : Z) (cache_line : list (list Z)) : list (list Z) :=
  if is_active dpu_id ci_id
  then cache_line.[ci_id := load_bytes host (xptr dpu_id ci_id + 8 * i) 8] else cache_line.
Definition fill_line (dpu_id i : Z) (cache_line : list (list Z)) : list (list Z) :=
  for_up nb_cis (fill_word dpu_id i) cache_line.

Definition sg_fill_word (dpu_id ci_id : Z) (s : list (list Z) * list sg_xfer_buffer_iterator) :=
  let '(cache_line, sg_it) := s in
  if is_active dpu_id ci_id
  then
    let '(word, it) := get_next_eight_bytes host sg_it.[ci_id] in
    (cache_line.[ci_id := word], sg_it.[ci_id := it])
  else (cache_line, sg_it).
Definition sg_fill_line (dpu_id : Z) (s : list (list Z) * list sg_xfer_buffer_iterator) :=
  for_up nb_cis (sg_fill_word dpu_id) s.

Definition line_store (dpu_id i : Z) (cache_line : list (list Z)) : store :=
  (line_address dpu_id i, byte_interleave_avx512 (concat cache_line) true).

Definition write_dpu (dpu_id : Z) (s : list (list Z) * list store) : list (list Z) * list store :=
  let '(cache_line, stores) := s in
  if negb (do_dpu_transfer dpu_id) then (cache_line, stores)
  else match tm_type xfer_matrix with
  | DPU_SG_XFER_MATRIX =>
      fst (for_up nb_words (fun i '(cache_line, stores, sg_it) =>
        let '(cache_line, sg_it) := sg_fill_line dpu_id (cache_line, sg_it) in
        (cache_line, stores ++ [line_store dpu_id i cache_line], sg_it))
        (cache_line, stores, init_sg_iterators dpu_id))
  | DPU_DEFAULT_XFER_MATRIX =>
      for_up nb_words (fun i '(cache_line, stores) =>
        let cache_line := fill_line dpu_id i cache_line in
        (cache_line, stores ++ [line_store dpu_id i cache_line])) (cache_line, stores)
  end.

(** [FOREACH_DPU_MULTITHREAD]: the stores of one thread. [cache_line] starts
    with whatever is on the stack. *)
Definition threads_write_to_rank (stack : list (list Z)) (dpu_id_start dpu_id_stop : Z) : list store :=
  if tm_size xfer_matrix =? 0 then []
  else snd (foldl (fun s dpu_id => write_dpu dpu_id s) (stack, [])
              (seqZ dpu_id_start (dpu_id_stop - dpu_id_start))).
End Write.

Definition run_stores (stores : list store) (region : memory) : memory :=
  foldl (fun region '(addr, line) => store_bytes addr line region) region stores.

Section Read.
Variable region : memory.

(** [cache_line_interleave]. *)
Definition read_line (dpu_id i : Z) : list Z :=
  byte_interleave_avx2 (load_bytes region (line_address dpu_id i) 64).

Definition empty_word (dpu_id i : Z) (cache_line_interleave : list Z) (ci_id : Z) (host : memory) : memory :=
  if is_active dpu_id ci_id
  then store_bytes (xptr dpu_id ci_id + 8 * i) (word_of cache_line_interleave ci_id) host else host.

Definition sg_empty_word (dpu_id : Z) (cache_line_interleave : list Z) (ci_id : Z)
    (s : list sg_xfer_buffer_iterator * memory) : list sg_xfer_buffer_iterator * memory :=
  let '(sg_it, host) := s in
  if is_active dpu_id ci_id
  then
    let '(it, host) := write_next_eight_bytes (word_of cache_line_interleave ci_id) sg_it.[ci_id] host in
    (sg_it.[ci_id := it], host)
  else (sg_it, host).

Definition read_dpu (host : memory) (dpu_id : Z) : memory :=
  if negb (do_dpu_transfer dpu_id) then host
  else match tm_type xfer_matrix with
  | DPU_SG_XFER_MATRIX =>
      snd (for_up nb_words (fun i s => for_up nb_cis (sg_empty_word dpu_id (read_line dpu_id i)) s)
        (init_sg_iterators dpu_id, host))
  | DPU_DEFAULT_XFER_MATRIX =>
      for_up nb_words (fun i host => for_up nb_cis (empty_word dpu_id i (read_line dpu_id i)) host) host
  end.

Definition threads_read_from_rank (dpu_id_start dpu_id_stop : Z) (host : memory) : memory :=
  if tm_size xfer_matrix =? 0 then host
  else foldl read_dpu host (seqZ dpu_id_start (dpu_id_stop - dpu_id_start)).
End Read.
End Threads.

(** ** The control interfaces *)

Definition CI_WRITE_AREA := 0x20000.
Definition CI_READ_AREA := 0x20000 + 32 * 1024.

Section ControlInterfaces.
Context `{I : Intrinsics}.

(** [block_data] is the 64 bytes of the eight words; the result is the region and [one_read]. *)
Definition xeon_sp_write_to_cis (block_data : list Z) (region : memory) : memory * bool :=
  (store_bytes CI_WRITE_AREA (byte_interleave_avx512 block_data true) region, false).

(** [line_at n] is what the n-th load of the area returns: the hardware answers.
    The result is the block, [one_read] and the number of loads. *)
Definition xeon_sp_read_from_cis (one_read : bool) (line_at : Z -> list Z) : list Z * bool * Z :=
  let nb_reads := if one_read then 3 - 1 else 3 in
  let input := for_up nb_reads (fun i _ => line_at i) [] in
  (byte_interleave_avx512 input false, true, nb_reads).
End ControlInterfaces.

(** ** Lemmas on the addresses *)

Notation translate := apply_address_translation_on_mram_offset.

Lemma translate_bits a i : 0 <= a -> 0 <= i ->
  Z.testbit (translate a) i =
  if i <? 14 then Z.testbit a i
  else if i <? 21 then Z.testbit a (i + 1)
  else if i =? 21 then Z.testbit a 14
  else (i <? 32) && Z.testbit a i.
Proof.
  intros Ha Hi. unfold translate. cbv zeta.
  change (shl32 (Z.shiftl 1 (21 - 15 + 1) - 1) 15) with (Z.shiftl (Z.ones 7) 15).
  change (not32 (shl32 (Z.shiftl 1 (21 - 14 + 1) - 1) 14)) with (Z.lor (Z.ones 14) (Z.shiftl (Z.ones 10) 22)).
  change 1 with (Z.ones 1) at 1. unfold shl32, u32.
  rewrite !Z.lor_spec, !Z.land_spec, !Z.lor_spec.
  assert (forall n k, 0 <= n -> 0 <= k -> Z.testbit (Z.shiftl (Z.ones n) k) i = (k <=? i) && (i <? k + n)) as Hones.
  { intros n k Hn Hk. rewrite Z.shiftl_spec by done. destruct (k <=? i) eqn:E; zb2p; cbn [andb].
    - rewrite Z.testbit_ones_nonneg by lia. destruct (i - k <? n) eqn:E1, (i <? k + n) eqn:E2; zb2p; lia || done.
    - apply Z.testbit_neg_r. lia. }
  rewrite Hones by lia. rewrite Z.testbit_ones_nonneg by lia.
  assert (forall x k, Z.testbit (Z.shiftl x k mod 2 ^ 32) i = (i <? 32) && Z.testbit x (i - k)) as Hsh.
  { intros x k. destruct (i <? 32) eqn:E; zb2p; cbn [andb].
    - rewrite Z.mod_pow2_bits_low by lia. by rewrite Z.shiftl_spec.
    - by rewrite Z.mod_pow2_bits_high by lia. }
  rewrite !Hsh.
  destruct (i <? 14) eqn:E1; zb2p.
  { rewrite !(Z.testbit_neg_r _ (i - _)) by lia. rewrite !andb_false_r, !orb_false_r.
    destruct (22 <=? i) eqn:E2; zb2p; [lia|]. by rewrite andb_true_r. }
  destruct (i <? 21) eqn:E2; zb2p.
  { rewrite (Z.testbit_neg_r _ (i - 21)) by lia. rewrite !andb_false_r, !orb_false_r.
    rewrite (proj2 (Z.leb_gt 22 i)) by lia. cbn [orb andb]. rewrite andb_false_r. cbn [orb].
    rewrite (proj2 (Z.ltb_lt i 32)) by lia. cbn [andb].
    rewrite Z.shiftr_spec, Z.land_spec, Z.shiftl_spec by lia.
    replace (i - 14 + 15) with (i + 1) by lia. rewrite Z.testbit_ones_nonneg by lia.
    rewrite (proj2 (Z.ltb_lt (i + 1 - 15) 7)) by lia. by rewrite andb_true_r. }
  rewrite (Z.shiftr_spec _ _ (i - 14)), Z.land_spec, Z.shiftl_spec by lia.
  rewrite (Z.testbit_ones_nonneg 7) by lia. rewrite (proj2 (Z.ltb_ge (i - 14 + 15 - 15) 7)) by lia.
  rewrite !andb_false_r. rewrite Z.land_spec, Z.testbit_ones_nonneg by lia.
  destruct (i =? 21) eqn:E3; zb2p.
  { subst i. change (21 - 21 <? 1) with true. rewrite Z.shiftr_spec by lia.
    change (22 <=? 21) with false. rewrite !andb_false_r, andb_true_r. done. }
  rewrite (proj2 (Z.ltb_ge (i - 21) 1)) by lia. rewrite !andb_false_r, !orb_false_r.
  rewrite (proj2 (Z.leb_le 22 i)) by lia. cbn [orb andb].
  change (22 + 10) with 32. apply andb_comm.
Qed.

Lemma translate_nonneg a : 0 <= a -> 0 <= translate a.
Proof.
  intros Ha. unfold translate. cbv zeta. apply Z.lor_nonneg; split; [apply Z.lor_nonneg; split|].
  - apply Z.land_nonneg. by left.
  - by apply u32_fits.
  - by apply u32_fits.
Qed.

Lemma translate_fits a : fits 26 a -> fits 26 (translate a).
Proof.
  intros Hf. pose proof (fits_nonneg _ _ Hf) as Ha.
  apply fits_testbit; [lia|by apply translate_nonneg|]. intros i Hi.
  rewrite translate_bits by lia. pose proof (proj1 (fits_testbit 26 a ltac:(lia) Ha) Hf i Hi) as Hbit.
  rewrite (proj2 (Z.ltb_ge i 14)), (proj2 (Z.ltb_ge i 21)), (proj2 (Z.eqb_neq i 21)), Hbit by lia.
  apply andb_false_r.
Qed.

(** Every bit of the offset is a bit of its translation. *)
Lemma translate_inj a b : fits 32 a -> fits 32 b -> translate a = translate b -> a = b.
Proof.
  intros Hfa Hfb Heq. pose proof (fits_nonneg _ _ Hfa) as Ha. pose proof (fits_nonneg _ _ Hfb) as Hb.
  assert (forall j, 0 <= j -> Z.testbit (translate a) j = Z.testbit (translate b) j) as Hj by (by intros; rewrite Heq).
  apply Z.bits_inj'. intros i Hi.
  destruct (decide (32 <= i)) as [Hge|Hlt].
  { rewrite (proj1 (fits_testbit 32 a ltac:(lia) Ha) Hfa), (proj1 (fits_testbit 32 b ltac:(lia) Hb) Hfb); done. }
  assert (i < 14 \/ i = 14 \/ 14 < i < 22 \/ 22 <= i) as [?|[->|[?|?]]] by lia.
  - specialize (Hj i Hi). rewrite !translate_bits in Hj by done.
    by rewrite (proj2 (Z.ltb_lt i 14)) in Hj.
  - specialize (Hj 21 ltac:(lia)). by rewrite !translate_bits in Hj.
  - specialize (Hj (i - 1) ltac:(lia)). rewrite !translate_bits in Hj by lia.
    rewrite (proj2 (Z.ltb_ge (i - 1) 14)), (proj2 (Z.ltb_lt (i - 1) 21)) in Hj by lia.
    by replace (i - 1 + 1) with i in Hj by lia.
  - specialize (Hj i Hi). rewrite !translate_bits in Hj by done.
    rewrite (proj2 (Z.ltb_ge i 14)), (proj2 (Z.ltb_ge i 21)), (proj2 (Z.eqb_neq i 21)), (proj2 (Z.ltb_lt i 32)) in Hj by lia.
    done.
Qed.

Lemma translate_low a : 0 <= a -> translate a mod 2 ^ 3 = a mod 2 ^ 3.
Proof.
  intros Ha. apply Z.bits_inj'. intros i Hi. destruct (decide (i < 3)).
  - rewrite !Z.mod_pow2_bits_low, translate_bits by lia. by rewrite (proj2 (Z.ltb_lt i 14)) by lia.
  - by rewrite !Z.mod_pow2_bits_high by lia.
Qed.

Lemma translate_word w j : 0 <= w -> 0 <= j < 8 -> translate (8 * w + j) / 8 = translate (8 * w) / 8.
Proof.
  intros Hw Hj. change 8 with (2 ^ 3) at 2 4. rewrite <- !Z.shiftr_div_pow2 by lia.
  apply Z.bits_inj'. intros i Hi. rewrite !Z.shiftr_spec, !translate_bits by lia.
  assert (forall k, 3 <= k -> Z.testbit (8 * w + j) k = Z.testbit (8 * w) k) as Hk.
  { intros k Hk. replace k with ((k - 3) + 3) by lia. rewrite <- !Z.shiftr_spec, !Z.shiftr_div_pow2 by lia.
    change (2 ^ 3) with 8. f_equal. rewrite (Z.mul_comm 8), Z.div_add_l, (Z.div_small j), Z.div_mul by lia. lia. }
  by rewrite !Hk by lia.
Qed.

(** ** The place of a byte of MRAM *)

Definition mram_line (a : Z) : Z :=
  let next_data := translate a / 8 * 128 in
  next_data mod BANK_CHUNK_SIZE + next_data / BANK_CHUNK_SIZE * BANK_NEXT_CHUNK_OFFSET.

(** Where the byte [a] of the MRAM of DPU [dpu_id] of interface [ci_id] lies in the region. *)
Definition bank_address (dpu_id ci_id a : Z) : Z :=
  BANK_START dpu_id + mram_line a + 8 * (a mod 8) + ci_id.

Lemma translate_div_fits a : fits 26 a -> 0 <= translate a / 8 < 2 ^ 23.
Proof. intros Hf. apply translate_fits in Hf. unfold fits in Hf. Z.div_mod_to_equations. lia. Qed.

Lemma line_offset_eq offset i : 0 <= offset -> 0 <= i -> offset + 8 * i < 2 ^ 26 ->
  line_offset offset i = mram_line (offset + 8 * i).
Proof.
  intros Ho Hi Hlt. unfold line_offset, mram_line, BANK_OFFSET_NEXT_DATA. cbv zeta.
  rewrite (u32_id (i * 8)), u32_id by (unfold fits; lia).
  replace (i * 8 + offset) with (offset + 8 * i) by lia.
  pose proof (translate_div_fits (offset + 8 * i) ltac:(unfold fits; lia)).
  rewrite u64_id by (unfold fits; lia). by replace (_ * 8 * 16) with (translate (offset + 8 * i) / 8 * 128) by lia.
Qed.

Lemma mram_line_word w j : 0 <= w -> 0 <= j < 8 -> mram_line (8 * w + j) = mram_line (8 * w).
Proof. intros Hw Hj. unfold mram_line. by rewrite translate_word. Qed.

(** The fields of an address. *)
Lemma bank_address_fields dpu_id ci_id a : 0 <= dpu_id < 8 -> 0 <= ci_id < 8 -> fits 26 a ->
  let x := bank_address dpu_id ci_id a in
  x mod 8 = ci_id /\ x / 8 mod 8 = a mod 8 /\ x / 64 mod 2 = dpu_id / 4 /\ x / 2 ^ 17 mod 2 = 0 /\
  x / 2 ^ 18 mod 4 = dpu_id mod 4 /\
  x / 2 ^ 20 * 2 ^ 10 + x / 2 ^ 7 mod 2 ^ 10 = translate a / 8 /\ 0 <= x < 2 ^ 33.
Proof.
  intros Hd Hc Ha x. pose proof (translate_div_fits a Ha) as Hw.
  unfold x, bank_address, mram_line, BANK_START, BANK_CHUNK_SIZE, BANK_NEXT_CHUNK_OFFSET. cbv zeta.
  clear x. generalize dependent (translate a / 8). intros w Hw. pose proof (Z.mod_pos_bound a 8 ltac:(lia)) as Hb.
  generalize dependent (a mod 8). intros b Hb. clear a Ha.
  assert (exists q r, w = 1024 * q + r /\ 0 <= r < 1024 /\ 0 <= q < 2 ^ 13) as (q & r & -> & Hr & Hq).
  { exists (w / 1024), (w mod 1024). Z.div_mod_to_equations. lia. }
  assert (exists h l, dpu_id = 4 * h + l /\ 0 <= l < 4 /\ 0 <= h < 2) as (h & l & -> & Hl & Hh).
  { exists (dpu_id / 4), (dpu_id mod 4). Z.div_mod_to_equations. lia. }
  replace ((1024 * q + r) * 128 mod 131072) with (r * 128) by (Z.div_mod_to_equations; lia).
  replace ((1024 * q + r) * 128 / 131072) with q by (Z.div_mod_to_equations; lia).
  replace ((4 * h + l) mod 4) with l by (Z.div_mod_to_equations; lia).
  replace ((4 * h + l) / 4) with h by (Z.div_mod_to_equations; lia).
  replace (if 4 <=? 4 * h + l then 64 else 0) with (64 * h)
    by (destruct (_ <=? _) eqn:E; zb2p; lia).
  clear Hw Hd. repeat split; Z.div_mod_to_equations; lia.
Qed.

Lemma bank_address_inj dpu_id ci_id a dpu_id' ci_id' a' :
  0 <= dpu_id < 8 -> 0 <= ci_id < 8 -> fits 26 a -> 0 <= dpu_id' < 8 -> 0 <= ci_id' < 8 -> fits 26 a' ->
  bank_address dpu_id ci_id a = bank_address dpu_id' ci_id' a' -> dpu_id = dpu_id' /\ ci_id = ci_id' /\ a = a'.
Proof.
  intros Hd Hc Ha Hd' Hc' Ha' Heq.
  destruct (bank_address_fields dpu_id ci_id a Hd Hc Ha) as (H1 & H2 & H3 & _ & H5 & H6 & _).
  destruct (bank_address_fields dpu_id' ci_id' a' Hd' Hc' Ha') as (H1' & H2' & H3' & _ & H5' & H6' & _).
  rewrite <- Heq in *. split; [|split; [lia|]].
  - rewrite (Z.div_mod dpu_id 4), (Z.div_mod dpu_id' 4) by lia. lia.
  - apply translate_inj; [by eapply fits_mono; [|exact Ha]|by eapply fits_mono; [|exact Ha']|].
    pose proof (translate_low a (proj1 Ha)) as HL. pose proof (translate_low a' (proj1 Ha')) as HL'.
    change (2 ^ 3) with 8 in HL, HL'.
    rewrite (Z.div_mod (translate a) 8), (Z.div_mod (translate a') 8) by lia. lia.
Qed.

(** ** Stores of lines *)

Definition line_store_wf (st : store) : Prop := fst st mod 64 = 0 /\ lenz (snd st) = 64.

Lemma run_stores_app l l' region : run_stores (l ++ l') region = run_stores l' (run_stores l region).
Proof. unfold run_stores. apply foldl_app. Qed.

Lemma run_stores_other stores region x : Forall line_store_wf stores ->
  (forall st, st ∈ stores -> fst st <> x - x mod 64) -> run_stores stores region x = region x.
Proof.
  revert region. induction stores as [|[addr line] stores IH]; intros region Hwf Hx; [done|].
  apply list_relations.list.Forall_cons in Hwf as [[Hal Hlen] Hwf].
  change (run_stores (?st :: stores) region) with (run_stores stores (store_bytes (fst st) (snd st) region)).
  rewrite IH; [|done|intros st Hst; apply Hx; by right].
  specialize (Hx (addr, line) ltac:(left)). cbn [fst snd] in *.
  unfold store_bytes. rewrite Hlen. destruct (_ && _) eqn:E; [|done]. zb2p.
  destruct Hx. Z.div_mod_to_equations. lia.
Qed.

Lemma run_stores_hit stores region st x : Forall line_store_wf stores -> NoDup (map fst stores) ->
  st ∈ stores -> fst st = x - x mod 64 -> run_stores stores region x = (snd st).[x mod 64].
Proof.
  revert region. induction stores as [|st' stores IH]; intros region Hwf Hnd Hin Hx; [by apply not_elem_of_nil in Hin|].
  apply list_relations.list.Forall_cons in Hwf as [[Hal Hlen] Hwf]. cbn [map] in Hnd.
  apply list_relations.list.NoDup_cons in Hnd as [Hni Hnd].
  replace (run_stores (st' :: stores) region) with (run_stores stores (store_bytes (fst st') (snd st') region))
    by (by destruct st').
  apply elem_of_cons in Hin as [<-|Hin]; [|by apply IH].
  rewrite run_stores_other; [|done|].
  - unfold store_bytes. rewrite Hlen. pose proof (Z.mod_pos_bound x 64 ltac:(lia)).
    rewrite (proj2 (Z.leb_le _ _)), (proj2 (Z.ltb_lt _ _)) by lia. cbn [andb]. f_equal. lia.
  - intros st'' Hst'' Heq. apply Hni. rewrite Hx, <- Heq.
    change (map fst stores) with (fst <$> stores). by apply list_elem_of_fmap_2.
Qed.

(** Lines at different places can be stored in any order. *)
Lemma run_stores_permutation stores stores' region x : Forall line_store_wf stores -> NoDup (map fst stores) ->
  Permutation stores stores' -> run_stores stores' region x = run_stores stores region x.
Proof.
  intros Hwf Hnd Hp.
  assert (Forall line_store_wf stores') as Hwf' by by rewrite <- Hp.
  assert (NoDup (map fst stores')) as Hnd' by (change (NoDup (fst <$> stores')); by rewrite <- Hp).
  destruct (decide (x - x mod 64 ∈ map fst stores)) as [Hin|Hni].
  - change (map fst stores) with (fst <$> stores) in Hin. apply list_elem_of_fmap in Hin as (st & Heq & Hst).
    rewrite (run_stores_hit stores region st), (run_stores_hit stores' region st); try done. by rewrite <- Hp.
  - rewrite !run_stores_other; try done; intros st Hst Heq; apply Hni; rewrite <- Heq;
      change (map fst stores) with (fst <$> stores); apply list_elem_of_fmap_2; [|by rewrite Hp]. done.
Qed.

(** ** What a thread stores *)

(** The k-th byte of the data of a DPU, in the memory of the host. *)
Definition source_byte (sg_at : Z -> sg_xfer_buffer) (zeros : Z) (m : dpu_transfer_matrix) (dpu_id ci_id k : Z) : Z :=
  match tm_type m with
  | DPU_DEFAULT_XFER_MATRIX => xptr m dpu_id ci_id + k
  | DPU_SG_XFER_MATRIX => sg_stream zeros (sg_at (xptr m dpu_id ci_id)) k
  end.

(** Every scatter/gather structure of the matrix is well formed. *)
Definition wf_buffers (nb_cis : Z) (sg_at : Z -> sg_xfer_buffer) (m : dpu_transfer_matrix) : Prop :=
  tm_type m = DPU_SG_XFER_MATRIX -> forall dpu_id ci_id,
  0 <= dpu_id < 8 -> 0 <= ci_id < nb_cis -> is_active m dpu_id ci_id = true -> wf_sg (sg_at (xptr m dpu_id ci_id)).

Lemma length_words (cl : list (list Z)) : Forall (fun w => length w = 8%nat) cl -> length (concat cl) = (8 * length cl)%nat.
Proof. induction 1 as [|w cl Hw _ IH]; [done|]. cbn [concat length]. rewrite length_app. lia. Qed.

(** Byte j of word k of a line. *)
Lemma getz_words (cl : list (list Z)) k j : Forall (fun w => length w = 8%nat) cl -> 0 <= k < lenz cl -> 0 <= j < 8 ->
  (concat cl).[8 * k + j] = cl.[k].[j].
Proof.
  intros Hf Hk Hj. unfold getz, lenz in *.
  replace (Z.to_nat (8 * k + j)) with (8 * Z.to_nat k + Z.to_nat j)%nat by lia.
  assert (Z.to_nat k < length cl)%nat as Hk' by lia. generalize dependent (Z.to_nat k). clear k Hk.
  intros k Hk. revert k Hk. induction Hf as [|w cl Hw _ IH]; intros k Hk; [cbn in Hk; lia|].
  cbn [concat]. destruct k as [|k].
  - change ((w :: cl) !!! 0%nat) with w. rewrite !list_lookup_total_alt, lookup_app_l by lia.
    by rewrite Nat.mul_0_r, Nat.add_0_l.
  - change ((w :: cl) !!! S k) with (cl !!! k). rewrite <- IH by (cbn in Hk; lia).
    rewrite !list_lookup_total_alt, lookup_app_r by lia. do 2 f_equal. lia.
Qed.

Section Stores.
Context `{I : Intrinsics} `{!IntrinsicsSpec I}.
Variables (nb_cis : Z) (sg_at : Z -> sg_xfer_buffer) (zeros : Z) (m : dpu_transfer_matrix) (host : memory).
Hypothesis Hcis : 0 < nb_cis <= 8.
Hypothesis Hbuf : wf_buffers nb_cis sg_at m.

Definition line_shape (cl : list (list Z)) : Prop :=
  lenz cl = 8 /\ forall ci_id, 0 <= ci_id < 8 -> length cl.[ci_id] = 8%nat.
Definition source_word (dpu_id ci_id i : Z) : list Z :=
  map (fun j => host (source_byte sg_at zeros m dpu_id ci_id (8 * i + j))) (seqZ 0 8).
Definition filled (n dpu_id i : Z) (cl : list (list Z)) : Prop :=
  line_shape cl /\ forall ci_id, 0 <= ci_id < n -> is_active m dpu_id ci_id = true ->
    cl.[ci_id] = source_word dpu_id ci_id i.

Lemma line_shape_set cl ci_id w : line_shape cl -> 0 <= ci_id < 8 -> length w = 8%nat ->
  line_shape cl.[ci_id := w].
Proof.
  intros [Hlen Hw] Hci Hl. split; [by rewrite lenz_setz|]. intros c Hc.
  rewrite getz_setz by lia. case_decide; [done|by apply Hw].
Qed.

Lemma filled_skip n dpu_id i cl : filled n dpu_id i cl -> is_active m dpu_id n = false ->
  filled (n + 1) dpu_id i cl.
Proof.
  intros [Hs Hf] Ha. split; [done|]. intros c Hc Hac.
  destruct (decide (c = n)) as [->|]; [congruence|]. apply Hf; [lia|done].
Qed.

Lemma filled_set n dpu_id i cl w : filled n dpu_id i cl -> 0 <= n < 8 -> w = source_word dpu_id n i ->
  filled (n + 1) dpu_id i cl.[n := w].
Proof.
  intros [Hs Hf] Hn ->. split; [by apply line_shape_set|]. intros c Hc Hac.
  rewrite getz_setz by (try lia; by rewrite (proj1 Hs)).
  case_decide; subst; [done|]. apply Hf; [lia|done].
Qed.

Lemma fill_line_filled dpu_id i cl : tm_type m = DPU_DEFAULT_XFER_MATRIX -> line_shape cl ->
  filled nb_cis dpu_id i (fill_line nb_cis m host dpu_id i cl).
Proof using Hcis.
  intros Ht Hs. apply (for_up_ind (fun n cl => filled n dpu_id i cl)); [lia| |].
  - split; [done|]. intros; lia.
  - intros n cl' Hn Hf. unfold fill_word. destruct (is_active m dpu_id n) eqn:Ha.
    + apply filled_set; [done|lia|]. unfold load_bytes, source_word, source_byte. rewrite Ht.
      apply map_ext. intros j. f_equal. lia.
    + by apply filled_skip.
Qed.

(** The iterators of a DPU, when word i is done for the interfaces below n. *)
Definition iterators_at (n dpu_id i : Z) (its : list sg_xfer_buffer_iterator) : Prop :=
  lenz its = nb_cis /\ forall ci_id, 0 <= ci_id < nb_cis -> is_active m dpu_id ci_id = true ->
    at_pos zeros (sg_at (xptr m dpu_id ci_id)) (8 * i + (if ci_id <? n then 8 else 0)) its.[ci_id].

Lemma init_iterators_at dpu_id : tm_type m = DPU_SG_XFER_MATRIX -> 0 <= dpu_id < 8 ->
  iterators_at 0 dpu_id 0 (init_sg_iterators nb_cis sg_at zeros m dpu_id).
Proof using Hcis Hbuf.
  intros Ht Hd. unfold init_sg_iterators.
  enough (lenz (init_sg_iterators nb_cis sg_at zeros m dpu_id) = nb_cis /\
    forall ci_id, 0 <= ci_id < nb_cis -> is_active m dpu_id ci_id = true ->
    (init_sg_iterators nb_cis sg_at zeros m dpu_id).[ci_id]
    = init_sg_xfer_buffer_iterator zeros (sg_at (xptr m dpu_id ci_id))) as [Hl Hi].
  { split; [done|]. intros c Hc Ha. destruct (c <? 0) eqn:E; zb2p; [lia|].
    unfold init_sg_iterators in Hi. rewrite Hi by done. apply init_at_pos. by apply Hbuf. }
  unfold init_sg_iterators. apply (for_up_ind (fun n its => lenz its = nb_cis /\
    forall ci_id, 0 <= ci_id < n -> is_active m dpu_id ci_id = true ->
    its.[ci_id] = init_sg_xfer_buffer_iterator zeros (sg_at (xptr m dpu_id ci_id)))); [lia| |].
  - split; [|intros; lia]. unfold lenz. rewrite length_replicate. lia.
  - intros n its Hn [Hl Hi]. destruct (is_active m dpu_id n) eqn:Ha.
    + split; [by rewrite lenz_setz|]. intros c Hc Hac. rewrite getz_setz by lia.
      case_decide; subst; [done|]. apply Hi; [lia|done].
    + split; [done|]. intros c Hc Hac. destruct (decide (c = n)) as [->|]; [congruence|].
      apply Hi; [lia|done].
Qed.

Lemma iterators_skip n dpu_id i its : iterators_at n dpu_id i its -> is_active m dpu_id n = false ->
  iterators_at (n + 1) dpu_id i its.
Proof.
  intros [Hl Hp] Ha. split; [done|]. intros c Hc Hac. specialize (Hp c Hc Hac).
  destruct (decide (c = n)) as [->|]; [congruence|].
  destruct (c <? n) eqn:E1, (c <? n + 1) eqn:E2; zb2p; done || lia.
Qed.

Lemma iterators_set n dpu_id i its it : iterators_at n dpu_id i its -> 0 <= n < nb_cis ->
  at_pos zeros (sg_at (xptr m dpu_id n)) (8 * i + 8) it -> iterators_at (n + 1) dpu_id i its.[n := it].
Proof.
  intros [Hl Hp] Hn Hit. split; [by rewrite lenz_setz|]. intros c Hc Hac.
  rewrite getz_setz by lia. case_decide; subst.
  - by rewrite (proj2 (Z.ltb_lt c (c + 1))) by lia.
  - specialize (Hp c Hc Hac). destruct (c <? n) eqn:E1, (c <? n + 1) eqn:E2; zb2p; done || lia.
Qed.

Lemma iterators_next dpu_id i its : iterators_at nb_cis dpu_id i its -> iterators_at 0 dpu_id (i + 1) its.
Proof.
  intros [Hl Hp]. split; [done|]. intros c Hc Hac. specialize (Hp c Hc Hac).
  destruct (c <? nb_cis) eqn:E1, (c <? 0) eqn:E2; zb2p; try lia.
  by replace (8 * (i + 1) + 0) with (8 * i + 8) by lia.
Qed.

Lemma sg_fill_line_filled dpu_id i cl its : tm_type m = DPU_SG_XFER_MATRIX -> 0 <= dpu_id < 8 ->
  line_shape cl -> iterators_at 0 dpu_id i its ->
  filled nb_cis dpu_id i (fst (sg_fill_line nb_cis m host dpu_id (cl, its))) /\
  iterators_at 0 dpu_id (i + 1) (snd (sg_fill_line nb_cis m host dpu_id (cl, its))).
Proof using Hcis Hbuf.
  intros Ht Hd Hs Hits. unfold sg_fill_line.
  enough (filled nb_cis dpu_id i (fst (for_up nb_cis (sg_fill_word m host dpu_id) (cl, its))) /\
    iterators_at nb_cis dpu_id i (snd (for_up nb_cis (sg_fill_word m host dpu_id) (cl, its)))) as [? ?].
  { split; [done|]. by apply iterators_next. }
  apply (for_up_ind (fun n s => filled n dpu_id i (fst s) /\ iterators_at n dpu_id i (snd s))); [lia| |].
  - split; [|done]. split; [done|]. intros; lia.
  - intros n [cl' its'] Hn [Hf Hi]. cbn [fst snd] in Hf, Hi. unfold sg_fill_word.
    destruct (is_active m dpu_id n) eqn:Ha.
    + pose proof (proj2 Hi n Hn Ha) as Hp. rewrite Z.ltb_irrefl in Hp.
      destruct (get_next_eight_bytes_spec zeros _ (Hbuf Ht dpu_id n Hd Hn Ha) host _ _ Hp) as [Hw Hnext].
      destruct (get_next_eight_bytes host its'.[n]) as [w it]. cbn [fst snd] in *.
      split.
      * apply filled_set; [done|lia|]. rewrite Hw. unfold source_word, source_byte. rewrite Ht.
        apply map_ext. intros j. by rewrite Z.add_0_r.
      * apply iterators_set; [done|lia|]. by rewrite Z.add_0_r in Hnext.
    + cbn [fst snd]. split; [by apply filled_skip|by apply iterators_skip].
Qed.

(** ** All the stores of a thread *)

Definition lines_of (dpu_id : Z) : list (Z * Z) :=
  if do_dpu_transfer nb_cis m dpu_id then map (pair dpu_id) (seqZ 0 (nb_words m)) else [].
Definition thread_lines (start stop : Z) : list (Z * Z) :=
  concat (map lines_of (seqZ start (stop - start))).

Definition stored (l : Z * Z) (st : store) : Prop :=
  fst st = line_address m (fst l) (snd l) /\
  exists cl, filled nb_cis (fst l) (snd l) cl /\ snd st = byte_interleave (concat cl).

Lemma line_words cl : line_shape cl -> Forall (fun w => length w = 8%nat) cl.
Proof.
  intros [Hl Hw]. apply Forall_lookup. intros k w Hk.
  pose proof (lookup_lt_Some _ _ _ Hk) as Hlt. unfold lenz in Hl.
  specialize (Hw (Z.of_nat k) ltac:(lia)). unfold getz in Hw.
  by rewrite Nat2Z.id, list_lookup_total_alt, Hk in Hw.
Qed.

Lemma length_line cl : line_shape cl -> length (concat cl) = 64%nat.
Proof.
  intros Hs. rewrite (length_words cl) by by apply line_words. destruct Hs as [Hl _]. unfold lenz in Hl. lia.
Qed.

Lemma line_stored dpu_id i cl : filled nb_cis dpu_id i cl -> stored (dpu_id, i) (line_store m dpu_id i cl).
Proof using IntrinsicsSpec0.
  intros Hf. split; [done|]. exists cl. split; [done|]. cbn [snd line_store].
  apply avx512_interleave. apply length_line. apply Hf.
Qed.

Lemma stored_snoc d n l st : 0 <= n -> Forall2 stored (map (pair d) (seqZ 0 n)) l -> stored (d, n) st ->
  Forall2 stored (map (pair d) (seqZ 0 (n + 1))) (l ++ [st]).
Proof.
  intros Hn HF Hst. rewrite seqZ_app by lia. rewrite map_app.
  apply Forall2_app; [done|]. rewrite Z.add_0_l. by constructor.
Qed.

Lemma write_dpu_stored d cl stores : 0 <= d < 8 -> 0 <= nb_words m -> line_shape cl ->
  line_shape (fst (write_dpu nb_cis sg_at zeros m host d (cl, stores))) /\
  exists l, snd (write_dpu nb_cis sg_at zeros m host d (cl, stores)) = stores ++ l /\ Forall2 stored (lines_of d) l.
Proof using All.
  intros Hd Hn Hs. unfold write_dpu, lines_of. destruct (do_dpu_transfer nb_cis m d); cbn [negb].
  2: { cbn [fst snd]. split; [done|]. exists []. by rewrite app_nil_r. }
  destruct (tm_type m) eqn:Ht.
  - apply (for_up_ind (fun n s => line_shape (fst s) /\ exists l, snd s = stores ++ l /\
      Forall2 stored (map (pair d) (seqZ 0 n)) l)); [lia| |].
    + split; [done|]. exists []. by rewrite app_nil_r.
    + intros i [cl' st'] Hi [Hs' (l & Hl & HF)]. cbn [fst snd] in *. subst st'.
      pose proof (fill_line_filled d i cl' Ht Hs') as Hf. split; [apply Hf|].
      eexists. split; [symmetry; apply app_assoc|]. apply stored_snoc; [lia|done|]. by apply line_stored.
  - match goal with |- context [fst (for_up ?cnt ?body ?s0)] =>
      pose proof (for_up_ind (fun n s => line_shape (fst (fst s)) /\ iterators_at 0 d n (snd s) /\
      exists l, snd (fst s) = stores ++ l /\ Forall2 stored (map (pair d) (seqZ 0 n)) l) cnt body s0) as Hind
    end.
    refine ((fun H => conj (proj1 H) (proj2 (proj2 H))) (Hind _ _ _)); [lia| |]; clear Hind.
    + split; [done|]. split; [by apply init_iterators_at|]. exists []. by rewrite app_nil_r.
    + intros i [[cl' st'] its] Hi (Hs' & Hits & l & Hl & HF). cbn [fst snd] in *. subst st'.
      destruct (sg_fill_line_filled d i cl' its Ht Hd Hs' Hits) as [Hf Hnext].
      destruct (sg_fill_line _ _ _ _ _) as [cl'' its']. cbn [fst snd] in *.
      split; [apply Hf|]. split; [done|].
      eexists. split; [symmetry; apply app_assoc|]. apply stored_snoc; [lia|done|]. by apply line_stored.
Qed.

Lemma threads_write_stored stack start stop : line_shape stack -> 0 <= tm_size m -> 0 <= start -> stop <= 8 ->
  Forall2 stored (thread_lines start stop) (threads_write_to_rank nb_cis sg_at zeros m host stack start stop).
Proof using All.
  intros Hst Hsize H0 H8. unfold threads_write_to_rank, thread_lines.
  destruct (tm_size m =? 0) eqn:E; zb2p.
  { unfold lines_of, nb_words. rewrite E. change (0 / 8) with 0.
    induction (seqZ start (stop - start)) as [|d l IH]; [constructor|]. cbn [map concat].
    by destruct (do_dpu_transfer nb_cis m d). }
  assert (0 <= nb_words m) as Hn by (unfold nb_words; Z.div_mod_to_equations; lia).
  assert (Forall (fun d => 0 <= d < 8) (seqZ start (stop - start))) as Hall.
  { apply list_relations.list.Forall_forall. intros d Hd. apply elem_of_seqZ in Hd. lia. }
  enough (forall l s, Forall (fun d => 0 <= d < 8) l -> line_shape (fst s) ->
    exists sts, snd (foldl (fun s d => write_dpu nb_cis sg_at zeros m host d s) s l) = snd s ++ sts /\
    Forall2 stored (concat (map lines_of l)) sts) as Hgen.
  { by destruct (Hgen _ (stack, []) Hall Hst) as (sts & -> & HF). }
  clear Hall Hst stack. intros l. induction l as [|d l IH]; intros [cl sts] Hall Hs.
  - exists []. cbn. by rewrite app_nil_r.
  - apply list_relations.list.Forall_cons in Hall as [Hd Hall]. cbn [foldl map concat].
    destruct (write_dpu_stored d cl sts Hd Hn Hs) as (Hs' & l1 & Heq & HF1).
    destruct (write_dpu nb_cis sg_at zeros m host d (cl, sts)) as [cl' sts']. cbn [fst snd] in *. subst sts'.
    destruct (IH (cl', sts ++ l1) Hall Hs') as (l2 & -> & HF2). exists (l1 ++ l2). cbn [snd].
    split; [by rewrite app_assoc|]. by apply Forall2_app.
Qed.
End Stores.

(** ** What the stores leave in the region *)

(** The transfer stays within the 64 MB of a bank and is made of whole words. *)
Record wf_range (m : dpu_transfer_matrix) : Prop := {
  range_offset : 0 <= tm_offset m;
  range_size : 0 <= tm_size m;
  range_end : tm_offset m + tm_size m <= 2 ^ 26;
  offset_aligned : tm_offset m mod 8 = 0;
  size_aligned : tm_size m mod 8 = 0;
}.

Section Region.
Variable m : dpu_transfer_matrix.
Hypothesis Hr : wf_range m.

Lemma nb_words_size : 8 * nb_words m = tm_size m.
Proof using Hr. unfold nb_words. destruct Hr. Z.div_mod_to_equations. lia. Qed.

Lemma word_fits i j : 0 <= i < nb_words m -> 0 <= j < 8 -> fits 26 (tm_offset m + 8 * i + j).
Proof using Hr. pose proof nb_words_size. destruct Hr. unfold fits. lia. Qed.

(** Byte j of word i of DPU [ci_id] lies at byte 8j+[ci_id] of the line. *)
Lemma bank_address_line d ci_id i j : 0 <= i < nb_words m -> 0 <= j < 8 ->
  bank_address d ci_id (tm_offset m + 8 * i + j) = line_address m d i + (8 * j + ci_id).
Proof using Hr.
  intros Hi Hj. pose proof nb_words_size. destruct Hr.
  unfold bank_address, line_address. rewrite line_offset_eq by lia.
  assert (exists w, tm_offset m + 8 * i = 8 * w /\ 0 <= w) as (w & Hw & H0).
  { exists (tm_offset m / 8 + i). Z.div_mod_to_equations. lia. }
  rewrite Hw, mram_line_word by done. replace ((8 * w + j) mod 8) with j; [lia|].
  Z.div_mod_to_equations. lia.
Qed.

Lemma line_address_eq d i : 0 <= i < nb_words m -> line_address m d i = bank_address d 0 (tm_offset m + 8 * i).
Proof using Hr.
  intros Hi. pose proof (bank_address_line d 0 i 0 Hi ltac:(lia)) as H. rewrite Z.add_0_r in H. lia.
Qed.

Lemma line_aligned d i : 0 <= d < 8 -> 0 <= i < nb_words m -> line_address m d i mod 64 = 0.
Proof using Hr.
  intros Hd Hi. rewrite line_address_eq by done.
  pose proof (word_fits i 0 Hi ltac:(lia)) as Hf. rewrite Z.add_0_r in Hf.
  destruct (bank_address_fields d 0 _ Hd ltac:(lia) Hf) as (H1 & H2 & _).
  assert ((tm_offset m + 8 * i) mod 8 = 0) by (destruct Hr; Z.div_mod_to_equations; lia).
  Z.div_mod_to_equations. lia.
Qed.

Lemma line_address_inj d i d' i' : 0 <= d < 8 -> 0 <= i < nb_words m -> 0 <= d' < 8 -> 0 <= i' < nb_words m ->
  line_address m d i = line_address m d' i' -> d = d' /\ i = i'.
Proof using Hr.
  intros Hd Hi Hd' Hi'. rewrite !line_address_eq by done. intros Heq.
  pose proof (word_fits i 0 Hi ltac:(lia)) as Hf. pose proof (word_fits i' 0 Hi' ltac:(lia)) as Hf'.
  rewrite Z.add_0_r in Hf, Hf'.
  destruct (bank_address_inj d 0 _ d' 0 _ Hd ltac:(lia) Hf Hd' ltac:(lia) Hf' Heq) as (-> & _ & ?). lia.
Qed.

(** The line of a byte of MRAM. *)
Lemma bank_line d ci_id i j : 0 <= d < 8 -> 0 <= ci_id < 8 -> 0 <= i < nb_words m -> 0 <= j < 8 ->
  let x := bank_address d ci_id (tm_offset m + 8 * i + j) in
  x - x mod 64 = line_address m d i /\ x mod 64 = 8 * j + ci_id.
Proof using Hr.
  intros Hd Hc Hi Hj x. unfold x. rewrite bank_address_line by done.
  pose proof (line_aligned d i Hd Hi). Z.div_mod_to_equations. lia.
Qed.

Section Stored.
Variables (nb_cis : Z) (sg_at : Z -> sg_xfer_buffer) (zeros : Z) (host : memory).
Variables (lines : list (Z * Z)) (stores : list store).
Hypothesis Hcis : 0 < nb_cis <= 8.
Hypothesis Hlines : Forall (fun l => 0 <= fst l < 8 /\ 0 <= snd l < nb_words m) lines.
Hypothesis Hnodup : NoDup lines.
Hypothesis Hstored : Forall2 (stored nb_cis sg_at zeros m host) lines stores.

Lemma stores_addresses : map fst stores = map (fun l => line_address m (fst l) (snd l)) lines.
Proof using Hstored.
  revert Hstored. clear Hlines Hnodup. induction 1 as [|l st ls sts [Hst _] _ IH]; [done|]. cbn [map]. by rewrite Hst, IH.
Qed.

Lemma stores_wf : Forall line_store_wf stores.
Proof using Hr Hlines Hstored.
  revert Hstored Hlines. clear Hnodup. induction 1 as [|l st ls sts [Hst (cl & _ & Hcl)] _ IH]; intros Hall; [constructor|].
  apply list_relations.list.Forall_cons in Hall as [[Hd Hi] Hall]. constructor; [|by apply IH].
  split; [rewrite Hst; by apply line_aligned|]. rewrite Hcl. done.
Qed.

Lemma stores_nodup : NoDup (map fst stores).
Proof using Hr Hlines Hnodup Hstored.
  rewrite stores_addresses. change (NoDup ((fun l => line_address m (fst l) (snd l)) <$> lines)).
  apply NoDup_fmap_2_strong; [|done]. intros [d i] [d' i'] Hin Hin' Heq.
  rewrite list_relations.list.Forall_forall in Hlines.
  destruct (Hlines _ Hin), (Hlines _ Hin'). cbn [fst snd] in *.
  by destruct (line_address_inj d i d' i') as [-> ->].
Qed.

Lemma stored_byte region d i ci_id j : (d, i) ∈ lines -> 0 <= ci_id < nb_cis -> is_active m d ci_id = true ->
  0 <= j < 8 ->
  run_stores stores region (bank_address d ci_id (tm_offset m + 8 * i + j))
  = host (source_byte sg_at zeros m d ci_id (8 * i + j)).
Proof using All.
  intros Hin Hc Ha Hj. pose proof Hlines as Hall. rewrite list_relations.list.Forall_forall in Hall.
  destruct (Hall _ Hin) as [Hd Hi]. cbn [fst snd] in Hd, Hi.
  apply list_elem_of_lookup in Hin as [k Hk].
  destruct (Forall2_lookup_l _ _ _ _ _ Hstored Hk) as (st & Hst & Haddr & cl & [Hshape Hfill] & Hline).
  cbn [fst snd] in Haddr, Hfill.
  destruct (bank_line d ci_id i j Hd ltac:(lia) Hi Hj) as [Hl Hm].
  cbv zeta in Hl, Hm. rewrite (run_stores_hit stores region st);
    [|apply stores_wf|apply stores_nodup|by eapply list_elem_of_lookup_2|by rewrite Haddr, Hl].
  rewrite Hm, Hline. rewrite byte_interleave_get by lia.
  rewrite getz_words by (try apply line_words; first [done | destruct Hshape; lia]).
  rewrite Hfill by done. unfold source_word.
  by rewrite lookup_map_seqZ.
Qed.

Lemma unstored_address region x :
  (forall d i, (d, i) ∈ lines -> line_address m d i <> x - x mod 64) -> run_stores stores region x = region x.
Proof using Hr Hlines Hstored.
  intros Hx. apply run_stores_other; [apply stores_wf|]. intros st Hst Heq.
  assert (fst st ∈ map fst stores) as Hin.
  { change (map fst stores) with (fst <$> stores). by apply list_elem_of_fmap_2. }
  rewrite stores_addresses in Hin.
  change (map ?f lines) with (f <$> lines) in Hin.
  apply list_elem_of_fmap in Hin as ([d i] & Hl & Hin). cbn [fst snd] in Hl.
  apply (Hx d i Hin). by rewrite <- Hl.
Qed.

(** A byte of MRAM that belongs to no line of the transfer. *)
Lemma unstored_byte region d ci_id a : 0 <= d < 8 -> 0 <= ci_id < 8 -> fits 26 a ->
  (forall i, (d, i) ∈ lines -> ~ tm_offset m + 8 * i <= a < tm_offset m + 8 * i + 8) ->
  run_stores stores region (bank_address d ci_id a) = region (bank_address d ci_id a).
Proof using Hr Hlines Hstored.
  intros Hd Hc Ha Hno. apply unstored_address. intros d' i' Hin Heq.
  pose proof Hlines as Hall. rewrite list_relations.list.Forall_forall in Hall.
  destruct (Hall _ Hin) as [Hd' Hi']. cbn [fst snd] in *.
  set (x := bank_address d ci_id a) in *. pose proof (Z.mod_pos_bound x 64 ltac:(lia)) as Hb.
  assert (x = bank_address d' (x mod 64 mod 8) (tm_offset m + 8 * i' + x mod 64 / 8)) as Hx.
  { rewrite bank_address_line by (try done; Z.div_mod_to_equations; lia). rewrite Heq.
    Z.div_mod_to_equations. lia. }
  assert (0 <= x mod 64 / 8 < 8) as Hj by (Z.div_mod_to_equations; lia).
  destruct (bank_address_inj _ _ _ _ _ _ Hd Hc Ha Hd' ltac:(apply Z.mod_pos_bound; lia)
    (word_fits i' _ Hi' Hj) Hx) as (<- & _ & Hax).
  apply (Hno i' Hin). lia.
Qed.

(** The areas of the control interfaces have bit 17 of their address. *)
Lemma unstored_ci_area region x : x / 2 ^ 17 mod 2 = 1 -> run_stores stores region x = region x.
Proof using Hr Hlines Hstored.
  intros Hx. apply unstored_address. intros d i Hin Heq.
  pose proof Hlines as Hall. rewrite list_relations.list.Forall_forall in Hall.
  destruct (Hall _ Hin) as [Hd Hi]. cbn [fst snd] in *.
  rewrite line_address_eq in Heq by done.
  pose proof (word_fits i 0 Hi ltac:(lia)) as Hf. rewrite Z.add_0_r in Hf.
  destruct (bank_address_fields d 0 _ Hd ltac:(lia) Hf) as (_ & _ & _ & H17 & _).
  rewrite Heq in H17. Z.div_mod_to_equations. lia.
Qed.
End Stored.
End Region.
