(* ===== verification/XeonRead.v ===== *)
(** * What a transfer from a rank leaves in the memory of the host

    The effect of [threads_read_from_rank] (XeonBank.v): every word of the
    banks reaches its place in the buffers of the host, and nothing else of the
    host memory changes, when the buffers are disjoint. *)

From stdpp Require Import relations.
From S2P Require Import Prelude CMonad Rank UfiMemory XeonInterleave XeonSg XeonBank.

#[local] Open Scope Z_scope.
#[local] Open Scope dpu_scope.

(** A fold over consecutive integers. *)
Lemma fold_range_ind {S} (P : Z -> S -> Prop) (f : S -> Z -> S) a n s : 0 <= n -> P a s ->
  (forall d s, a <= d < a + n -> P d s -> P (d + 1) (f s d)) -> P (a + n) (foldl f s (seqZ a n)).
Proof.
  intros Hn Ha. pattern n. apply natlike_ind; [|clear n Hn|done].
  - intros _. rewrite seqZ_nil by lia. by rewrite Z.add_0_r.
  - intros n Hn IH Hf. rewrite <- Z.add_1_r, seqZ_app by lia. rewrite foldl_app.
    change (seqZ (a + n) 1) with [a + n]. cbn [foldl]. rewrite Z.add_assoc. apply Hf; [lia|].
    apply IH. intros d s' Hd. apply Hf. lia.
Qed.

Section Read.
Context `{I : Intrinsics} `{!IntrinsicsSpec I}.
Variables (nb_cis : Z) (sg_at : Z -> sg_xfer_buffer) (zeros : Z) (m : dpu_transfer_matrix) (region : memory).
Hypothesis Hcis : 0 < nb_cis <= 8.
Hypothesis Hbuf : wf_buffers nb_cis sg_at m.
Hypothesis Hr : wf_range m.

(** The bytes that the buffer of a DPU can take. *)
Definition capacity (d ci_id : Z) : Z :=
  match tm_type m with
  | DPU_DEFAULT_XFER_MATRIX => tm_size m
  | DPU_SG_XFER_MATRIX => lenz (sg_addrs (sg_at (xptr m d ci_id)))
  end.

(** The word i of a DPU has a place in the host. *)
Definition wanted (d ci_id i : Z) : Prop :=
  0 <= d < 8 /\ 0 <= ci_id < nb_cis /\ is_active m d ci_id = true /\ 0 <= i < nb_words m /\ 8 * i < capacity d ci_id.

Notation dest := (source_byte sg_at zeros m).

(** The buffers do not overlap and hold whole words. *)
Record wf_destinations : Prop := {
  dest_words : forall d ci_id, 0 <= d < 8 -> 0 <= ci_id < nb_cis -> is_active m d ci_id = true ->
    capacity d ci_id mod 8 = 0;
  dest_disjoint : forall d ci_id i j d' ci_id' i' j', wanted d ci_id i -> 0 <= j < 8 ->
    wanted d' ci_id' i' -> 0 <= j' < 8 -> dest d ci_id (8 * i + j) = dest d' ci_id' (8 * i' + j') ->
    (d, ci_id, 8 * i + j) = (d', ci_id', 8 * i' + j');
}.
Hypothesis Hdest : wf_destinations.

Definition bank_word (d ci_id i : Z) : list Z :=
  map (fun j => region (bank_address d ci_id (tm_offset m + 8 * i + j))) (seqZ 0 8).

Lemma read_line_word d ci_id i : 0 <= ci_id < 8 -> 0 <= i < nb_words m ->
  word_of (read_line m region d i) ci_id = bank_word d ci_id i.
Proof using Hr IntrinsicsSpec0.
  intros Hc Hi. unfold word_of, bank_word. apply map_ext_in. intros j Hj.
  apply list_elem_of_In, elem_of_seqZ in Hj. unfold read_line.
  rewrite avx2_interleave by (unfold load_bytes; by rewrite length_map, length_seqZ).
  rewrite byte_interleave_get by lia. unfold load_bytes. rewrite lookup_map_seqZ by lia.
  by rewrite bank_address_line by (done || lia).
Qed.

(** [h] is the memory [h0] once the words of [P] are there. *)
Definition received (h0 : memory) (P : Z -> Z -> Z -> Prop) (h : memory) : Prop :=
  (forall d ci_id i j, wanted d ci_id i -> P d ci_id i -> 0 <= j < 8 ->
     h (dest d ci_id (8 * i + j)) = region (bank_address d ci_id (tm_offset m + 8 * i + j))) /\
  (forall x, (forall d ci_id i j, wanted d ci_id i -> P d ci_id i -> 0 <= j < 8 -> dest d ci_id (8 * i + j) <> x) ->
     h x = h0 x).

Lemma received_iff h0 P Q h : (forall d ci_id i, wanted d ci_id i -> P d ci_id i <-> Q d ci_id i) ->
  received h0 P h -> received h0 Q h.
Proof.
  intros Hpq [H1 H2]. split.
  - intros d c i j Hw Hq Hj. apply H1; [done| |done]. by apply Hpq.
  - intros x Hx. apply H2. intros d c i j Hw Hp Hj. apply Hx; [done| |done]. by apply Hpq.
Qed.

Lemma received_nothing h0 (P : Z -> Z -> Z -> Prop) : (forall d ci_id i, wanted d ci_id i -> ~ P d ci_id i) ->
  received h0 P h0.
Proof. intros Hno. split; [|done]. intros d c i j Hw Hp. by destruct (Hno d c i Hw). Qed.

(** One more word. *)
Lemma received_word h0 P h h' d ci_id i : received h0 P h -> wanted d ci_id i ->
  (forall j, 0 <= j < 8 -> h' (dest d ci_id (8 * i + j)) = (bank_word d ci_id i).[j]) ->
  (forall x, (forall j, 0 <= j < 8 -> dest d ci_id (8 * i + j) <> x) -> h' x = h x) ->
  received h0 (fun d' c' i' => P d' c' i' \/ (d', c', i') = (d, ci_id, i)) h'.
Proof using Hdest.
  intros [H1 H2] Hw Hin Hout. split.
  - intros d' c' i' j Hw' Hp Hj.
    destruct (decide ((d', c', i') = (d, ci_id, i))) as [Heq|Hne].
    + injection Heq as -> -> ->. rewrite Hin by done. unfold bank_word. by rewrite lookup_map_seqZ.
    + destruct Hp as [Hp|?]; [|done]. rewrite Hout; [by apply H1|].
      intros j' Hj' Heq. apply Hne.
      pose proof (dest_disjoint Hdest _ _ _ _ _ _ _ _ Hw Hj' Hw' Hj Heq) as [=-> -> ?].
      do 2 f_equal. lia.
  - intros x Hx. rewrite Hout.
    + apply H2. intros d' c' i' j Hw' Hp Hj. apply Hx; auto.
    + intros j Hj. apply Hx; auto.
Qed.

(** A word stored byte by byte at the places of its bytes. *)
Lemma store_word_spec (f : Z -> Z) bs h : lenz bs = 8 ->
  (forall j j', 0 <= j < 8 -> 0 <= j' < 8 -> f j = f j' -> j = j') ->
  let h' := for_up 8 (fun i h => store_bytes (f i) [bs.[i]] h) h in
  (forall j, 0 <= j < 8 -> h' (f j) = bs.[j]) /\
  (forall x, (forall j, 0 <= j < 8 -> f j <> x) -> h' x = h x).
Proof.
  intros Hl Hinj. cbv zeta.
  enough (forall n, 0 <= n <= 8 -> let h' := for_up n (fun i h => store_bytes (f i) [bs.[i]] h) h in
    (forall j, 0 <= j < n -> h' (f j) = bs.[j]) /\ (forall x, (forall j, 0 <= j < n -> f j <> x) -> h' x = h x)) as Hn.
  { apply (Hn 8). lia. }
  intros n [Hn0 Hn8]. revert Hn8. pattern n. apply natlike_ind; [|clear n Hn0|done].
  - intros _. cbv zeta. rewrite for_up_0 by lia. split; [intros; lia|done].
  - intros n Hn IH Hn8. rewrite <- Z.add_1_r. cbv zeta in *. rewrite !for_up_succ by done.
    destruct (IH ltac:(lia)) as [IH1 IH2]. unfold store_bytes. change (lenz [bs.[n]]) with 1. split.
    + intros j Hj. destruct (decide (j = n)) as [->|Hne].
      * rewrite (proj2 (Z.leb_le _ _)), (proj2 (Z.ltb_lt _ _)) by lia. cbn [andb]. by rewrite Z.sub_diag.
      * destruct (_ && _) eqn:E; [|apply IH1; lia]. zb2p. destruct Hne. apply Hinj; lia.
    + intros x Hx. destruct (_ && _) eqn:E; [|apply IH2; intros j Hj; apply Hx; lia].
      zb2p. destruct (Hx n ltac:(lia)). lia.
Qed.

(** ** The loops *)

(** The words done before interface n of word i of DPU d. *)
Definition before (start d i n : Z) (d' c' i' : Z) : Prop :=
  start <= d' /\ (d' < d \/ (d' = d /\ (i' < i \/ (i' = i /\ c' < n)))).

Lemma dest_inj d ci_id i j j' : wanted d ci_id i -> 0 <= j < 8 -> 0 <= j' < 8 ->
  dest d ci_id (8 * i + j) = dest d ci_id (8 * i + j') -> j = j'.
Proof using Hdest.
  intros Hw Hj Hj' Heq. pose proof (dest_disjoint Hdest _ _ _ _ _ _ _ _ Hw Hj Hw Hj' Heq) as [=]. lia.
Qed.

Lemma received_step h0 h h' start d ci_id i : received h0 (before start d i ci_id) h -> start <= d ->
  (wanted d ci_id i -> forall x, h' x =
     for_up 8 (fun j h => store_bytes (dest d ci_id (8 * i + j)) [(bank_word d ci_id i).[j]] h) h x) ->
  (~ wanted d ci_id i -> forall x, h' x = h x) ->
  received h0 (before start d i (ci_id + 1)) h'.
Proof using Hdest.
  intros Hrec Hs Hw Hnw.
  assert (Decision (wanted d ci_id i)) as Hdec by (unfold wanted; apply _).
  destruct (decide (wanted d ci_id i)) as [Hwant|Hno].
  - destruct (store_word_spec (fun j => dest d ci_id (8 * i + j)) (bank_word d ci_id i) h) as [Hin Hout].
    { unfold bank_word. by rewrite lenz_map_seqZ. }
    { intros j j' Hj Hj'. by apply dest_inj. }
    eapply received_iff; [|eapply (received_word h0 _ h h' d ci_id i Hrec Hwant)].
    + intros d' c' i' Hw'. unfold before. split.
      * intros [?|[= -> -> ->]]; lia.
      * intros (? & ?). destruct (decide ((d', c', i') = (d, ci_id, i))) as [?|Hne]; [by right|].
        left. split; [done|].
        destruct (decide (d' = d)) as [->|]; [|lia]. destruct (decide (i' = i)) as [->|]; [|lia].
        destruct (decide (c' = ci_id)) as [->|]; [done|]. lia.
    + intros j Hj. rewrite Hw by done. by apply Hin.
    + intros x Hx. rewrite Hw by done. by apply Hout.
  - destruct Hrec as [H1 H2]. split.
    + intros d' c' i' j Hw' Hp Hj. rewrite Hnw by done. apply H1; [done| |done].
      unfold before in *. destruct (decide ((d', c', i') = (d, ci_id, i))) as [[= -> -> ->]|Hne]; [done|].
      destruct Hp as [? Hp]. split; [done|].
      destruct (decide (d' = d)) as [->|]; [|lia]. destruct (decide (i' = i)) as [->|]; [|lia].
      destruct (decide (c' = ci_id)) as [->|]; [done|]. lia.
    + intros x Hx. rewrite Hnw by done. apply H2. intros d' c' i' j Hw' Hp Hj. apply Hx; [done| |done].
      unfold before in *. lia.
Qed.

(** The ends of the loops over the interfaces, the words and the DPUs. *)
Lemma received_next_word h0 h start d i : received h0 (before start d i nb_cis) h ->
  received h0 (before start d (i + 1) 0) h.
Proof. apply received_iff. intros d' c' i' (_ & Hc & _). unfold before. lia. Qed.
Lemma received_next_dpu h0 h start d : received h0 (before start d (nb_words m) 0) h ->
  received h0 (before start (d + 1) 0 0) h.
Proof. apply received_iff. intros d' c' i' (_ & Hc & _ & Hi & _). unfold before. lia. Qed.

Lemma active_no_dpu d ci_id : do_dpu_transfer nb_cis m d = false -> 0 <= ci_id < nb_cis ->
  is_active m d ci_id = false.
Proof.
  intros Hd Hc. destruct (is_active m d ci_id) eqn:E; [|done].
  rewrite <- Hd. symmetry. apply existsb_exists. exists ci_id. split; [|done].
  apply list_elem_of_In, elem_of_seqZ. lia.
Qed.

Lemma bank_word_length d ci_id i : lenz (bank_word d ci_id i) = 8.
Proof. unfold bank_word. by rewrite lenz_map_seqZ. Qed.

Section OneDpu.
Variables (h0 : memory) (start d : Z).
Hypothesis Hd : 0 <= start <= d /\ d < 8.

Lemma empty_word_received i n h : tm_type m = DPU_DEFAULT_XFER_MATRIX -> 0 <= i < nb_words m -> 0 <= n < nb_cis ->
  received h0 (before start d i n) h ->
  received h0 (before start d i (n + 1)) (empty_word m d i (read_line m region d i) n h).
Proof using All.
  intros Ht Hi Hn Hrec. eapply received_step; [exact Hrec|lia| |]; unfold empty_word.
  - intros (_ & _ & Ha & _) x. rewrite Ha, read_line_word by lia. rewrite <- (bank_word_length d n i).
    symmetry. apply store_one_by_one. rewrite bank_word_length. intros j Hj.
    unfold source_byte. rewrite Ht. lia.
  - intros Hno x. destruct (is_active m d n) eqn:Ha; [|done]. destruct Hno.
    unfold wanted, capacity. rewrite Ht. pose proof (nb_words_size m Hr). repeat split; done || lia.
Qed.

(** The iterators: those of the interfaces below n have done word i too. *)
Definition reading_at (i n : Z) (its : list sg_xfer_buffer_iterator) : Prop :=
  lenz its = nb_cis /\ forall ci_id, 0 <= ci_id < nb_cis -> is_active m d ci_id = true ->
    at_pos zeros (sg_at (xptr m d ci_id))
      (Z.min (8 * (if ci_id <? n then i + 1 else i)) (capacity d ci_id)) its.[ci_id].

Lemma sg_empty_word_received i n its h : tm_type m = DPU_SG_XFER_MATRIX -> 0 <= i < nb_words m -> 0 <= n < nb_cis ->
  received h0 (before start d i n) h -> reading_at i n its ->
  received h0 (before start d i (n + 1)) (snd (sg_empty_word m d (read_line m region d i) n (its, h))) /\
  reading_at i (n + 1) (fst (sg_empty_word m d (read_line m region d i) n (its, h))).
Proof using All.
  intros Ht Hi Hn Hrec [Hl Hits]. unfold sg_empty_word. destruct (is_active m d n) eqn:Ha.
  2: { cbn [fst snd]. split.
    - eapply received_step; [exact Hrec|lia| |done]. intros (_ & _ & Ha' & _). congruence.
    - split; [done|]. intros c Hc Hac. specialize (Hits c Hc Hac).
      destruct (decide (c = n)) as [->|]; [congruence|].
      destruct (c <? n) eqn:E1, (c <? n + 1) eqn:E2; zb2p; done || lia. }
  pose proof (Hits n Hn Ha) as Hp. rewrite Z.ltb_irrefl in Hp.
  pose proof (dest_words Hdest d n ltac:(lia) Hn Ha) as Hcap.
  assert (capacity d n = lenz (sg_addrs (sg_at (xptr m d n)))) as Hcapeq by (unfold capacity; by rewrite Ht).
  pose proof (write_next_eight_bytes_spec zeros _ (Hbuf Ht d n ltac:(lia) Hn Ha) (bank_word d n i) h _ _ Hp
    (bank_word_length d n i)) as Hw.
  rewrite read_line_word by lia. rewrite <- Hcapeq in Hw.
  assert (forall it, at_pos zeros (sg_at (xptr m d n)) (Z.min (8 * (i + 1)) (capacity d n)) it ->
    reading_at i (n + 1) its.[n := it]) as Hnext.
  { intros it Hit. split; [by rewrite lenz_setz|]. intros c Hc Hac. rewrite getz_setz by lia.
    case_decide; subst.
    - by rewrite (proj2 (Z.ltb_lt c (c + 1))) by lia.
    - specialize (Hits c Hc Hac). destruct (c <? n) eqn:E1, (c <? n + 1) eqn:E2; zb2p; done || lia. }
  destruct (decide (8 * i < capacity d n)) as [Hlt|Hge].
  - rewrite (proj2 (Z.ltb_lt _ _)) in Hw by lia. destruct Hw as [Hpos Hmem].
    destruct (write_next_eight_bytes _ _ h) as [it h']. cbn [fst snd] in *. split.
    + eapply received_step; [exact Hrec|lia| |].
      * intros _ x. rewrite Hmem. unfold store_stream. rewrite bank_word_length.
        unfold source_byte. rewrite Ht. by replace (Z.min (8 * i) (capacity d n)) with (8 * i) by lia.
      * intros Hno. destruct Hno. unfold wanted. repeat split; done || lia.
    + apply Hnext. replace (Z.min (8 * (i + 1)) (capacity d n)) with (Z.min (8 * i) (capacity d n) + 8);
        [done|]. Z.div_mod_to_equations. lia.
  - rewrite (proj2 (Z.ltb_ge _ _)) in Hw by lia. rewrite Hw. cbn [fst snd]. split.
    + eapply received_step; [exact Hrec|lia| |done]. intros (_ & _ & _ & _ & ?). lia.
    + apply Hnext. by replace (Z.min (8 * (i + 1)) (capacity d n)) with (Z.min (8 * i) (capacity d n)) by lia.
Qed.

Lemma init_reading_at : tm_type m = DPU_SG_XFER_MATRIX ->
  reading_at 0 0 (init_sg_iterators nb_cis sg_at zeros m d).
Proof using All.
  intros Ht. destruct (init_iterators_at nb_cis sg_at zeros m Hcis Hbuf d Ht ltac:(lia)) as [Hl Hits].
  split; [done|]. intros c Hc Ha. specialize (Hits c Hc Ha). destruct (c <? 0) eqn:E; zb2p; [lia|].
  replace (Z.min (8 * 0) (capacity d c)) with (8 * 0 + 0); [done|].
  unfold capacity. rewrite Ht. unfold lenz. lia.
Qed.

Lemma read_dpu_received h : received h0 (before start d 0 0) h ->
  received h0 (before start (d + 1) 0 0) (read_dpu nb_cis sg_at zeros m region h d).
Proof using All.
  intros Hrec. unfold read_dpu. destruct (do_dpu_transfer nb_cis m d) eqn:Edo; cbn [negb].
  2: { eapply received_iff; [|exact Hrec]. intros d' c' i' (_ & Hc & Ha & Hi & _). unfold before.
    destruct (decide (d' = d)) as [->|]; [|lia]. by rewrite active_no_dpu in Ha. }
  assert (0 <= nb_words m) as Hnb by (pose proof (nb_words_size m Hr); destruct Hr; lia).
  apply received_next_dpu. destruct (tm_type m) eqn:Ht.
  - apply (for_up_ind (fun i h => received h0 (before start d i 0) h)); [lia|done|].
    intros i h' Hi Hrec'. apply received_next_word.
    apply (for_up_ind (fun n h => received h0 (before start d i n) h)); [lia|done|].
    intros n h'' Hn Hrec''. by apply empty_word_received.
  - match goal with |- context [snd (for_up ?cnt ?body ?s0)] =>
      refine (proj1 (for_up_ind (fun i s => received h0 (before start d i 0) (snd s) /\ reading_at i 0 (fst s))
        cnt body s0 _ _ _)) end; [lia|split; [done|by apply init_reading_at]|].
    intros i s Hi [Hrec' Hits].
    assert (received h0 (before start d i nb_cis) (snd (for_up nb_cis (sg_empty_word m d (read_line m region d i)) s)) /\
      reading_at i nb_cis (fst (for_up nb_cis (sg_empty_word m d (read_line m region d i)) s))) as [Hrec'' [Hl Hits'']].
    { apply (for_up_ind (fun n s => received h0 (before start d i n) (snd s) /\ reading_at i n (fst s)));
        [lia|done|]. intros n [its h'] Hn [? ?]. by apply sg_empty_word_received. }
    split; [by apply received_next_word|]. split; [done|]. intros c Hc Ha. specialize (Hits'' c Hc Ha).
    rewrite (proj2 (Z.ltb_lt c nb_cis)) in Hits'' by lia. by destruct (c <? 0) eqn:E; zb2p; [lia|].
Qed.
End OneDpu.

Lemma threads_read_received h0 h start stop : 0 <= start <= stop -> stop <= 8 ->
  received h0 (before start start 0 0) h ->
  received h0 (before start stop 0 0) (threads_read_from_rank nb_cis sg_at zeros m region start stop h).
Proof using All.
  intros Hs H8 Hrec. unfold threads_read_from_rank. destruct (tm_size m =? 0) eqn:E; zb2p.
  { eapply received_iff; [|exact Hrec]. intros d c i (_ & _ & _ & Hi & _).
    pose proof (nb_words_size m Hr). lia. }
  replace stop with (start + (stop - start)) at 1 by lia.
  apply (fold_range_ind (fun d h => received h0 (before start d 0 0) h)); [lia|done|].
  intros d h' Hd Hrec'. by apply read_dpu_received; [lia|].
Qed.

(** Two transfers of different words, one after the other. *)
Lemma received_union h0 h h' (P Q : Z -> Z -> Z -> Prop) : (forall d c i, Decision (Q d c i)) ->
  received h0 P h -> received h Q h' -> received h0 (fun d c i => P d c i \/ Q d c i) h'.
Proof using Hdest.
  intros Hdec [H1 H2] [H3 H4]. split.
  - intros d c i j Hw Hpq Hj. destruct (decide (Q d c i)) as [Hq|Hq]; [by apply H3|].
    destruct Hpq as [Hp|?]; [|done]. rewrite H4; [by apply H1|].
    intros d' c' i' j' Hw' Hq' Hj' Heq. apply Hq.
    pose proof (dest_disjoint Hdest _ _ _ _ _ _ _ _ Hw' Hj' Hw Hj Heq) as [= <- <- ?].
    by replace i with i' by lia.
  - intros x Hx. rewrite H4, H2; [done| |]; intros d c i j Hw Hp Hj; apply Hx; auto.
Qed.

(** A thread receives the words of its DPUs. *)
Lemma threads_read_words h start stop : 0 <= start <= stop -> stop <= 8 ->
  received h (fun d _ _ => start <= d < stop)
    (threads_read_from_rank nb_cis sg_at zeros m region start stop h).
Proof using All.
  intros Hs H8. eapply received_iff; [|apply threads_read_received; [done..|]].
  - intros d c i (_ & Hc & _ & Hi & _). unfold before. lia.
  - apply received_nothing. intros d c i (_ & Hc & _ & Hi & _). unfold before. lia.
Qed.
End Read.
