(* ===== verification/XeonPool.v ===== *)
(** * The pools of transfer threads of the Xeon boards

    Model of the last part of
    [src/hw/src/mappings/xeon_sp/xeon_sp_translation.c]: one pool of threads for
    each memory channel, created with the first rank of the channel and ended with
    the last one, and the transfers that the pools run. *)

From stdpp Require Import relations.
From S2P Require Import Prelude CMonad Rank UfiMemory XeonInterleave XeonSg XeonBank XeonRead.

#[local] Open Scope Z_scope.
#[local] Open Scope dpu_scope.

(** ** Configuration *)

(** [struct dpu_transfer_thread_configuration]. *)
Record dpu_transfer_thread_configuration := mk_conf {
  nb_thread_per_pool : Z;
  threshold_1_thread : Z;
  threshold_2_threads : Z;
  threshold_4_threads : Z;
}.

Definition DPU_XFER_THREAD_CONF_DEFAULT := 2 ^ 32 - 1.
Definition MAX_THREAD_PER_POOL := 8.
Definition MAX_NB_POOL := 31.
Definition MAX_NB_CHANNEL := MAX_NB_POOL.

(** Every processor gets the same configuration. *)
Definition get_default_xfer_thread_configuration : dpu_transfer_thread_configuration :=
  mk_conf 4 1024 2048 (32 * 1024).

Definition xeon_sp_set_configuration (conf : dpu_transfer_thread_configuration) : dpu_transfer_thread_configuration :=
  let default := get_default_xfer_thread_configuration in
  let or_default (field : dpu_transfer_thread_configuration -> Z) :=
    if field conf =? DPU_XFER_THREAD_CONF_DEFAULT then field default else field conf in
  mk_conf
    (if nb_thread_per_pool conf =? DPU_XFER_THREAD_CONF_DEFAULT then nb_thread_per_pool default
     else if MAX_THREAD_PER_POOL <? nb_thread_per_pool conf then MAX_THREAD_PER_POOL
     else nb_thread_per_pool conf)
    (or_default threshold_1_thread) (or_default threshold_2_threads) (or_default threshold_4_threads).

(** What a region gives to its transfers. *)
Record translation := mk_tr {
  tr_desc : description;
  xfer_thread_conf : dpu_transfer_thread_configuration;
}.

(** ** Pools *)

Inductive thread_mram_xfer := thread_mram_xfer_read | thread_mram_xfer_write.

(** [struct xeon_sp_private]: the fields of the current transfer, the threads
    that were created (with [stop_thread]) and the count of the barrier. *)
Record xeon_sp_private := mk_pool {
  pool_tr : option translation;
  direction : thread_mram_xfer;
  pool_matrix : dpu_transfer_matrix;
  nb_dpus_per_ci : Z;
  nb_threads_for_xfer : Z;
  nb_threads : Z;
  stop_thread : list bool;
  barrier_count : Z;
}.
#[export] Instance xeon_sp_private_inhabited : Inhabited xeon_sp_private :=
  populate (mk_pool None thread_mram_xfer_read dpu_transfer_matrix_clear_all 0 0 0 [] 0).

Definition channel_id_to_pool_id (channel_id : Z) : Z :=
  if channel_id =? 0xFF then MAX_NB_CHANNEL - 1 else channel_id.

(** The mutex that is taken, and the pool. *)
Definition xeon_sp_acquire_pool (channel_id : Z) : Z * Z :=
  (if channel_id <? MAX_NB_CHANNEL then channel_id else MAX_NB_CHANNEL - 1, channel_id_to_pool_id channel_id).
(** The mutex that is released. *)
Definition xeon_sp_release_pool (channel_id : Z) : Z :=
  if channel_id <? MAX_NB_CHANNEL then channel_id else MAX_NB_CHANNEL - 1.

(** The number of threads of a transfer of [size_transfer] bytes. *)
Definition threads_for (conf : dpu_transfer_thread_configuration) (size_transfer : Z) : Z :=
  u8 (if size_transfer <? threshold_1_thread conf then 1
      else if (size_transfer <? threshold_2_threads conf) && (2 <=? nb_thread_per_pool conf) then 2
      else if (size_transfer <? threshold_4_threads conf) && (4 <=? nb_thread_per_pool conf) then 4
      else nb_thread_per_pool conf).

(** [xeon_sp_init_and_do_xfer], up to the first barrier. *)
Definition xeon_sp_init_xfer (tr : translation) (xfer_matrix : dpu_transfer_matrix) (d : thread_mram_xfer)
    (pool : xeon_sp_private) : xeon_sp_private :=
  mk_pool (Some tr) d xfer_matrix (nb_dpus_per_ci pool)
    (threads_for (xfer_thread_conf tr) (tm_size xfer_matrix)) (nb_threads pool) (stop_thread pool) (barrier_count pool).

(** The DPUs of one thread, [None] when it has nothing to do. *)
Definition thread_range (pool : xeon_sp_private) (thread_id : Z) : option (Z * Z) :=
  if negb (thread_id <? nb_threads_for_xfer pool) then None
  else
    let nb_dpus_per_thread := u8 (nb_dpus_per_ci pool / nb_threads_for_xfer pool) in
    let dpu_id_start := u8 (thread_id * nb_dpus_per_thread) in
    let dpu_id_stop :=
      if thread_id =? nb_threads_for_xfer pool - 1 then nb_dpus_per_ci pool
      else u8 ((thread_id + 1) * nb_dpus_per_thread) in
    Some (dpu_id_start, dpu_id_stop).

(** An interleaving of the stores of several threads. *)
Inductive interleaving {A} : list (list A) -> list A -> Prop :=
| interleaving_done ls : Forall (fun l => l = []) ls -> interleaving ls []
| interleaving_step ls1 x l ls2 r :
    interleaving (ls1 ++ l :: ls2) r -> interleaving (ls1 ++ (x :: l) :: ls2) (x :: r).

Section Transfers.
Context `{I : Intrinsics}.
Variables (sg_at : Z -> sg_xfer_buffer) (zeros : Z).

(** [thread_do_mram_xfer] in the direction of a write: the stores of a thread,
    from the content of its stack. *)
Definition thread_stores (pool : xeon_sp_private) (nb_cis : Z) (host : memory) (stack : Z -> list (list Z))
    (thread_id : Z) : list store :=
  match thread_range pool thread_id with
  | None => []
  | Some (start, stop) =>
      threads_write_to_rank nb_cis sg_at zeros (pool_matrix pool) host (stack thread_id) start stop
  end.

(** [thread_do_mram_xfer] in the direction of a read. *)
Definition thread_reads (pool : xeon_sp_private) (nb_cis : Z) (region : memory) (host : memory) (thread_id : Z) : memory :=
  match thread_range pool thread_id with
  | None => host
  | Some (start, stop) => threads_read_from_rank nb_cis sg_at zeros (pool_matrix pool) region start stop host
  end.

(** [xeon_sp_write_to_rank] on a pool: between the two barriers every thread of
    the pool runs once, and their stores reach the memory in some order. *)
Definition xeon_sp_write_to_rank (tr : translation) (xfer_matrix : dpu_transfer_matrix) (pool : xeon_sp_private)
    (host : memory) (stack : Z -> list (list Z)) (region region' : memory) : Prop :=
  let pool := xeon_sp_init_xfer tr xfer_matrix thread_mram_xfer_write pool in
  exists stores,
    interleaving (map (thread_stores pool (nr_of_control_interfaces (tr_desc tr)) host stack)
                    (seqZ 0 (nb_threads pool))) stores /\
    region' = run_stores stores region.

(** [xeon_sp_read_from_rank]: the threads of the pool, in the order [order]. *)
Definition xeon_sp_read_from_rank (tr : translation) (xfer_matrix : dpu_transfer_matrix) (pool : xeon_sp_private)
    (region : memory) (order : list Z) (host : memory) : memory :=
  let pool := xeon_sp_init_xfer tr xfer_matrix thread_mram_xfer_read pool in
  foldl (thread_reads pool (nr_of_control_interfaces (tr_desc tr)) region) host order.
End Transfers.

(** ** Creation and end of the pools *)

Record xeon_sp_ctx := mk_ctx {
  pools : list xeon_sp_private;
  nb_region_per_channel : list Z;
}.

(** [channel_id > MAX_NB_CHANNEL]. *)
Definition region_channel (channel_id : Z) : Z :=
  if MAX_NB_CHANNEL <? channel_id then MAX_NB_CHANNEL - 1 else channel_id.

Definition count_region (channel_id n : Z) (ctx : xeon_sp_ctx) : xeon_sp_ctx :=
  mk_ctx (pools ctx) (nb_region_per_channel ctx).[channel_id := n].
Definition set_pool (pool_id : Z) (pool : xeon_sp_private) (ctx : xeon_sp_ctx) : xeon_sp_ctx :=
  mk_ctx (pools ctx).[pool_id := pool] (nb_region_per_channel ctx).

(** The loop of the creations, up to the first that fails: [create k] is what
    [pthread_create] returns for thread k. *)
Fixpoint create_threads (create : Z -> Z) (ks : list Z) (threads : list bool) : Z * list bool :=
  match ks with
  | [] => (0, threads)
  | k :: ks =>
      if negb (create k =? 0) then (create k, threads)
      else create_threads create ks (threads ++ [false])
  end.

(** [barrier_ret] is what [pthread_barrier_init] returns. [None]: an access out
    of the arrays. The result is the code, the configuration kept in the
    region, and the context. *)
Definition xeon_sp_init_rank (tr : translation) (channel_id barrier_ret : Z) (create : Z -> Z) (ctx : xeon_sp_ctx)
    : option (Z * translation * xeon_sp_ctx) :=
  let conf := xeon_sp_set_configuration (xfer_thread_conf tr) in
  let tr := mk_tr (tr_desc tr) conf in
  let channel_id := region_channel channel_id in
  if negb (channel_id <? MAX_NB_CHANNEL) then None
  else
    let n := (nb_region_per_channel ctx).[channel_id] in
    let ctx := count_region channel_id (u32 (n + 1)) ctx in
    if 0 <? n then Some (0, tr, ctx)
    else
      let pool_id := channel_id_to_pool_id channel_id in
      let pool := (pools ctx).[pool_id] in
      let nb := u8 (nb_thread_per_pool conf) in
      let failed ctx ret :=
        Some (ret, tr, count_region channel_id (u32 ((nb_region_per_channel ctx).[channel_id] - 1)) ctx) in
      let pool_with threads :=
        mk_pool (pool_tr pool) (direction pool) (pool_matrix pool)
          (nr_of_dpus_per_control_interface (tr_desc tr)) (nb_threads_for_xfer pool) nb threads
          (nb_thread_per_pool conf + 1) in
      if negb (barrier_ret =? 0)
      then failed (set_pool pool_id (pool_with (stop_thread pool)) ctx) barrier_ret
      else
        let '(ret, threads) := create_threads create (seqZ 0 nb) [] in
        let ctx := set_pool pool_id (pool_with threads) ctx in
        if negb (ret =? 0) then failed ctx ret else Some (0, tr, ctx).

(** The last rank stops the threads; they have ended when the function returns. *)
Definition xeon_sp_destroy_rank (tr : translation) (channel_id : Z) (ctx : xeon_sp_ctx)
    : option (translation * xeon_sp_ctx) :=
  let tr := mk_tr (tr_desc tr) (xeon_sp_set_configuration (xfer_thread_conf tr)) in
  let channel_id := region_channel channel_id in
  if negb (channel_id <? MAX_NB_CHANNEL) then None
  else
    let n := u32 ((nb_region_per_channel ctx).[channel_id] - 1) in
    let ctx := count_region channel_id n ctx in
    if negb (n =? 0) then Some (tr, ctx)
    else
      let pool_id := channel_id_to_pool_id channel_id in
      let pool := (pools ctx).[pool_id] in
      Some (tr, set_pool pool_id
        (mk_pool (pool_tr pool) (direction pool) (pool_matrix pool) (nb_dpus_per_ci pool)
           (nb_threads_for_xfer pool) (nb_threads pool) [] (barrier_count pool)) ctx).

(** ** Interleavings *)

Lemma interleaving_permutation {A} (ls : list (list A)) r : interleaving ls r -> Permutation (concat ls) r.
Proof.
  induction 1 as [ls Hall|ls1 x l ls2 r _ IH].
  - induction Hall as [|l ls -> _ IH]; [done|]. cbn [concat]. by rewrite app_nil_l.
  - rewrite concat_app in IH |- *. cbn [concat] in IH |- *. rewrite <- IH. symmetry.
    apply (Permutation_middle (concat ls1) (l ++ concat ls2) x).
Qed.

(** The threads one after the other are an interleaving. *)
Lemma interleaving_sequential {A} (ls : list (list A)) : interleaving ls (concat ls).
Proof.
  enough (forall ls0, Forall (fun l => l = []) ls0 -> interleaving (ls0 ++ ls) (concat ls)) as Hgen by (by apply (Hgen [])).
  induction ls as [|l ls IH]; intros ls0 H0.
  - rewrite app_nil_r. by constructor.
  - cbn [concat]. induction l as [|x l IHl].
    + rewrite app_nil_l. replace (ls0 ++ [] :: ls) with ((ls0 ++ [[]]) ++ ls) by (by rewrite <- app_assoc).
      apply IH. apply list_relations.list.Forall_app. split; [done|]. by constructor.
    + cbn [app]. by apply interleaving_step.
Qed.

(** ** The division of the DPUs among the threads *)

Lemma threads_for_bounds conf size : 1 <= nb_thread_per_pool conf <= 255 ->
  1 <= threads_for conf size <= nb_thread_per_pool conf.
Proof.
  intros Hn. unfold threads_for. rewrite u8_id; repeat case_bool; unfold fits; zb2p; lia.
Qed.

(** The DPUs of a thread. *)
Definition thread_dpus (pool : xeon_sp_private) (thread_id : Z) : list Z :=
  match thread_range pool thread_id with
  | None => []
  | Some (start, stop) => seqZ start (stop - start)
  end.

Section Partition.
Variable pool : xeon_sp_private.
Hypothesis Hdpus : 0 <= nb_dpus_per_ci pool < 256.
Hypothesis Hthreads : 1 <= nb_threads_for_xfer pool < 256.

Notation per := (nb_dpus_per_ci pool / nb_threads_for_xfer pool).

Lemma per_bounds k : 0 <= k <= nb_threads_for_xfer pool -> 0 <= per /\ k * per <= nb_dpus_per_ci pool.
Proof using Hdpus Hthreads.
  intros Hk. pose proof (Z.div_pos (nb_dpus_per_ci pool) (nb_threads_for_xfer pool) ltac:(lia) ltac:(lia)).
  pose proof (Z.mul_div_le (nb_dpus_per_ci pool) (nb_threads_for_xfer pool) ltac:(lia)). nia.
Qed.

Lemma thread_range_eq k : 0 <= k -> thread_range pool k =
  if k <? nb_threads_for_xfer pool
  then Some (k * per, if k =? nb_threads_for_xfer pool - 1 then nb_dpus_per_ci pool else (k + 1) * per)
  else None.
Proof using Hdpus Hthreads.
  intros H0. unfold thread_range. destruct (k <? _) eqn:E; zb2p; cbn [negb]; [|done].
  pose proof (per_bounds k ltac:(lia)). pose proof (per_bounds (k + 1) ltac:(lia)).
  pose proof (per_bounds 1 ltac:(lia)).
  rewrite (u8_id per), !u8_id by (unfold fits; lia). done.
Qed.

Lemma thread_dpus_sorted k : 0 <= k -> k < nb_threads_for_xfer pool ->
  concat (map (thread_dpus pool) (seqZ 0 k)) = seqZ 0 (k * per).
Proof using Hdpus Hthreads.
  intros Hk. pattern k. apply natlike_ind; [done| |done]. clear k Hk. intros k Hk IH Hlt.
  rewrite <- Z.add_1_r, seqZ_app, map_app, concat_app by lia. rewrite IH by lia.
  change (map (thread_dpus pool) (seqZ (0 + k) 1)) with [thread_dpus pool (0 + k)].
  cbn [concat]. rewrite app_nil_r, Z.add_0_l. unfold thread_dpus. rewrite thread_range_eq by lia.
  rewrite (proj2 (Z.ltb_lt k _)), (proj2 (Z.eqb_neq k _)) by lia.
  pose proof (per_bounds 1 ltac:(lia)).
  replace ((k + 1) * per) with (k * per + per) by lia. rewrite seqZ_app by nia.
  f_equal. f_equal; lia.
Qed.

Lemma thread_dpus_all : nb_threads_for_xfer pool <= nb_threads pool ->
  concat (map (thread_dpus pool) (seqZ 0 (nb_threads pool))) = seqZ 0 (nb_dpus_per_ci pool).
Proof using Hdpus Hthreads.
  intros Hle. set (n := nb_threads_for_xfer pool) in *.
  replace (nb_threads pool) with ((n - 1) + (1 + (nb_threads pool - n))) by lia.
  rewrite !seqZ_app, !map_app, !concat_app by lia. rewrite thread_dpus_sorted by lia.
  change (map (thread_dpus pool) (seqZ (0 + (n - 1)) 1)) with [thread_dpus pool (0 + (n - 1))].
  cbn [concat]. rewrite app_nil_r.
  assert (concat (map (thread_dpus pool) (seqZ (0 + (n - 1) + 1) (nb_threads pool - n))) = []) as ->.
  { apply concat_nil_Forall, list_relations.list.Forall_forall. intros l Hl.
    change (map ?f ?s) with (f <$> s) in Hl. apply list_elem_of_fmap in Hl as (k & -> & Hk).
    apply elem_of_seqZ in Hk. unfold thread_dpus. rewrite thread_range_eq by lia.
    by rewrite (proj2 (Z.ltb_ge k _)) by lia. }
  rewrite app_nil_r, Z.add_0_l. unfold thread_dpus. rewrite thread_range_eq by lia. fold n.
  rewrite (proj2 (Z.ltb_lt (n - 1) n)), Z.eqb_refl by lia.
  pose proof (per_bounds (n - 1) ltac:(lia)) as [? Hb]. fold n in Hb, H.
  set (p := nb_dpus_per_ci pool / n) in *.
  replace (nb_dpus_per_ci pool) with ((n - 1) * p + (nb_dpus_per_ci pool - (n - 1) * p)) at 2 by lia.
  rewrite (seqZ_app _ ((n - 1) * p)) by nia. by rewrite Z.add_0_l.
Qed.
End Partition.

(** ** Transfers *)

Lemma concat_map_concat {A B} (f : A -> list B) (ls : list (list A)) :
  concat (map (fun l => concat (map f l)) ls) = concat (map f (concat ls)).
Proof. induction ls as [|l ls IH]; [done|]. cbn [map concat]. by rewrite map_app, concat_app, IH. Qed.

(** What a transfer asks of its pool, its region and its matrix. *)
Record xfer_ok (sg_at : Z -> sg_xfer_buffer) (tr : translation) (m : dpu_transfer_matrix) (pool : xeon_sp_private) : Prop := {
  ok_cis : 0 < nr_of_control_interfaces (tr_desc tr) <= 8;
  ok_dpus : 0 <= nb_dpus_per_ci pool <= 8;
  ok_conf : 1 <= nb_thread_per_pool (xfer_thread_conf tr) <= 255;
  ok_pool : nb_thread_per_pool (xfer_thread_conf tr) <= nb_threads pool;
  ok_range : wf_range m;
  ok_buffers : wf_buffers (nr_of_control_interfaces (tr_desc tr)) sg_at m;
}.

Section Transfer.
Context `{I : Intrinsics} `{!IntrinsicsSpec I}.
Variables (sg_at : Z -> sg_xfer_buffer) (zeros : Z) (tr : translation) (m : dpu_transfer_matrix) (pool : xeon_sp_private).
Hypothesis Hok : xfer_ok sg_at tr m pool.
Notation nb_cis := (nr_of_control_interfaces (tr_desc tr)).
Notation nb_dpus := (nb_dpus_per_ci pool).
Notation running d := (xeon_sp_init_xfer tr m d pool).

Lemma init_threads_bounds d : 1 <= nb_threads_for_xfer (running d) < 256 /\
  nb_threads_for_xfer (running d) <= nb_threads pool.
Proof using Hok.
  cbn [nb_threads_for_xfer xeon_sp_init_xfer].
  pose proof (threads_for_bounds (xfer_thread_conf tr) (tm_size m) (ok_conf _ _ _ _ Hok)).
  destruct Hok. lia.
Qed.

Lemma running_dpus d :
  concat (map (thread_dpus (running d)) (seqZ 0 (nb_threads pool))) = seqZ 0 nb_dpus.
Proof using Hok.
  destruct (init_threads_bounds d). pose proof (ok_dpus _ _ _ _ Hok).
  apply (thread_dpus_all (running d)); cbn [nb_dpus_per_ci xeon_sp_init_xfer] in *; lia || done.
Qed.

Lemma range_within d k start stop : 0 <= k -> thread_range (running d) k = Some (start, stop) ->
  0 <= start <= stop /\ stop <= nb_dpus.
Proof using Hok.
  intros Hk Heq. destruct (init_threads_bounds d) as [Hb _]. pose proof (ok_dpus _ _ _ _ Hok) as Hd.
  rewrite thread_range_eq in Heq by (cbn [nb_dpus_per_ci xeon_sp_init_xfer]; lia || done).
  destruct (k <? _) eqn:E; [|done]. zb2p. injection Heq as <- <-.
  pose proof (per_bounds (running d) ltac:(cbn [nb_dpus_per_ci xeon_sp_init_xfer]; lia) Hb k ltac:(lia)) as [Hp H1].
  pose proof (per_bounds (running d) ltac:(cbn [nb_dpus_per_ci xeon_sp_init_xfer]; lia) Hb (k + 1) ltac:(lia)) as [_ H2].
  change (nb_dpus_per_ci (running d)) with nb_dpus in *.
  change (threads_for _ _) with (nb_threads_for_xfer (running d)).
  set (p := nb_dpus / nb_threads_for_xfer (running d)) in *. clearbody p.
  destruct (k =? _); nia.
Qed.

(** ** Writes *)

Section Writes.
Variables (host : memory) (stack : Z -> list (list Z)).
Hypothesis Hstack : forall k, line_shape (stack k).

Notation all_lines := (thread_lines nb_cis m 0 nb_dpus).
Notation threads_stores :=
  (map (thread_stores sg_at zeros (running thread_mram_xfer_write) nb_cis host stack) (seqZ 0 (nb_threads pool))).

Lemma threads_stored : Forall2 (stored nb_cis sg_at zeros m host) all_lines (concat threads_stores).
Proof using All.
  replace all_lines with (concat (map (fun k => concat (map (lines_of nb_cis m)
    (thread_dpus (running thread_mram_xfer_write) k))) (seqZ 0 (nb_threads pool)))).
  2: { unfold thread_lines. rewrite Z.sub_0_r, <- (running_dpus thread_mram_xfer_write).
    rewrite <- concat_map_concat. by rewrite map_map. }
  assert (Forall (fun k => 0 <= k) (seqZ 0 (nb_threads pool))) as Hall.
  { apply list_relations.list.Forall_forall. intros k Hk. apply elem_of_seqZ in Hk. lia. }
  induction Hall as [|k ks Hk _ IH]; [constructor|]. cbn [map concat]. apply Forall2_app; [|exact IH].
  unfold thread_dpus, thread_stores.
  destruct (thread_range _ k) as [[start stop]|] eqn:E; [|constructor].
  destruct (range_within _ _ _ _ Hk E). pose proof (ok_dpus _ _ _ _ Hok).
  apply threads_write_stored; try apply Hok; try apply Hstack; try lia.
Qed.

Lemma all_lines_in d i : (d, i) ∈ all_lines <->
  0 <= d < nb_dpus /\ do_dpu_transfer nb_cis m d = true /\ 0 <= i < nb_words m.
Proof.
  unfold thread_lines. rewrite list_elem_of_In, in_concat. split.
  - intros (l & Hl & Hin). apply in_map_iff in Hl as (d' & <- & Hd').
    apply list_elem_of_In, elem_of_seqZ in Hd'. unfold lines_of in Hin.
    destruct (do_dpu_transfer nb_cis m d') eqn:E; [|done].
    apply in_map_iff in Hin as (i' & [= -> ->] & Hi). apply list_elem_of_In, elem_of_seqZ in Hi. split_and!; done || lia.
  - intros (Hd & Hdo & Hi). exists (lines_of nb_cis m d). split.
    + apply in_map, list_elem_of_In, elem_of_seqZ. lia.
    + unfold lines_of. rewrite Hdo. apply in_map, list_elem_of_In, elem_of_seqZ. lia.
Qed.

Lemma all_lines_nodup : NoDup all_lines.
Proof.
  unfold thread_lines. rewrite Z.sub_0_r.
  assert (NoDup (seqZ 0 nb_dpus)) as Hnd by apply NoDup_seqZ.
  induction Hnd as [|d ds Hni Hnd IH]; [constructor|]. cbn [map concat].
  apply list_relations.list.NoDup_app. split_and!; [| |exact IH].
  - unfold lines_of. destruct (do_dpu_transfer nb_cis m d); [|constructor].
    change (NoDup (pair d <$> seqZ 0 (nb_words m))). apply NoDup_fmap_2; [|apply NoDup_seqZ].
    by intros ? ? [=].
  - intros [d' i] Hin Hin'. rewrite list_elem_of_In in Hin. rewrite list_elem_of_In, in_concat in Hin'.
    destruct Hin' as (l & Hl & Hin'). apply in_map_iff in Hl as (d'' & <- & Hd'').
    unfold lines_of in Hin, Hin'.
    destruct (do_dpu_transfer nb_cis m d); [|done]. destruct (do_dpu_transfer nb_cis m d''); [|done].
    apply in_map_iff in Hin as (? & [= -> ->] & _). apply in_map_iff in Hin' as (? & [= -> ->] & _).
    apply Hni. by apply list_elem_of_In.
Qed.

Lemma all_lines_range : Forall (fun l => 0 <= fst l < 8 /\ 0 <= snd l < nb_words m) all_lines.
Proof using Hok.
  apply list_relations.list.Forall_forall. intros [d i] Hin. apply all_lines_in in Hin as (Hd & _ & Hi).
  pose proof (ok_dpus _ _ _ _ Hok). cbn [fst snd]. lia.
Qed.

(** Any interleaving leaves what the threads would leave one after the other. *)
Lemma write_any_order region region' :
  xeon_sp_write_to_rank sg_at zeros tr m pool host stack region region' ->
  forall x, region' x = run_stores (concat threads_stores) region x.
Proof using All.
  intros (stores & Hint & ->) x. apply interleaving_permutation in Hint.
  apply run_stores_permutation; [| |exact Hint].
  - eapply stores_wf; [apply Hok|apply all_lines_range|apply threads_stored].
  - eapply stores_nodup; [apply Hok|apply all_lines_range|apply all_lines_nodup|apply threads_stored].
Qed.

Lemma active_dpu d ci_id : is_active m d ci_id = true -> 0 <= ci_id < nb_cis -> do_dpu_transfer nb_cis m d = true.
Proof.
  intros Ha Hc. apply existsb_exists. exists ci_id. split; [|done]. apply list_elem_of_In, elem_of_seqZ. lia.
Qed.

Lemma split_byte k : 0 <= k < tm_size m -> exists i j, k = 8 * i + j /\ 0 <= i < nb_words m /\ 0 <= j < 8.
Proof using Hok.
  intros Hk. exists (k / 8), (k mod 8). pose proof (nb_words_size m (ok_range _ _ _ _ Hok)).
  Z.div_mod_to_equations. lia.
Qed.

Lemma write_result region region' :
  xeon_sp_write_to_rank sg_at zeros tr m pool host stack region region' ->
  (forall d ci_id k, 0 <= d < nb_dpus -> 0 <= ci_id < nb_cis -> is_active m d ci_id = true -> 0 <= k < tm_size m ->
     region' (bank_address d ci_id (tm_offset m + k)) = host (source_byte sg_at zeros m d ci_id k)) /\
  (forall d ci_id a, 0 <= d < 8 -> 0 <= ci_id < 8 -> fits 26 a ->
     nb_dpus <= d \/ do_dpu_transfer nb_cis m d = false \/ ~ tm_offset m <= a < tm_offset m + tm_size m ->
     region' (bank_address d ci_id a) = region (bank_address d ci_id a)) /\
  (forall x, x / 2 ^ 17 mod 2 = 1 -> region' x = region x).
Proof using All.
  intros Hw. pose proof (write_any_order _ _ Hw) as Hx. pose proof (ok_range _ _ _ _ Hok) as Hr.
  pose proof (ok_dpus _ _ _ _ Hok) as Hdp.
  split_and!.
  - intros d ci_id k Hd Hc Ha Hk. destruct (split_byte k Hk) as (i & j & -> & Hi & Hj). rewrite Hx, Z.add_assoc.
    eapply (stored_byte m Hr _ _ _ _ _ _ (ok_cis _ _ _ _ Hok) all_lines_range all_lines_nodup threads_stored);
      [|done..].
    apply all_lines_in. split_and!; try lia. by eapply active_dpu.
  - intros d ci_id a Hd Hc Ha Hno. rewrite Hx.
    eapply (unstored_byte m Hr _ _ _ _ _ _ all_lines_range threads_stored); [done..|].
    intros i Hin. apply all_lines_in in Hin as (? & Hdo & Hi). pose proof (nb_words_size m Hr).
    destruct Hno as [?|[?|?]]; [lia|congruence|lia].
  - intros x Hb. rewrite Hx. by eapply (unstored_ci_area m Hr _ _ _ _ _ _ all_lines_range threads_stored).
Qed.
End Writes.

(** ** Reads *)

Section Reads.
Variable region : memory.
Hypothesis Hdest : wf_destinations nb_cis sg_at zeros m.

Lemma threads_read_all order h : Forall (fun k => 0 <= k) order ->
  received nb_cis sg_at zeros m region h (fun d _ _ => d ∈ concat (map (thread_dpus (running thread_mram_xfer_read)) order))
    (foldl (thread_reads sg_at zeros (running thread_mram_xfer_read) nb_cis region) h order).
Proof using All.
  enough (forall done_ h0, Forall (fun k => 0 <= k) order ->
    received nb_cis sg_at zeros m region h0 (fun d _ _ => d ∈ done_) h ->
    received nb_cis sg_at zeros m region h0
      (fun d _ _ => d ∈ done_ ++ concat (map (thread_dpus (running thread_mram_xfer_read)) order))
      (foldl (thread_reads sg_at zeros (running thread_mram_xfer_read) nb_cis region) h order)) as Hgen.
  { intros Hall. apply (Hgen []); [done|]. apply received_nothing. intros d c i _. apply not_elem_of_nil. }
  revert h. induction order as [|k ks IH]; intros h ds h0 Hall Hrec.
  - cbn. by rewrite app_nil_r.
  - apply list_relations.list.Forall_cons in Hall as [Hk Hall]. cbn [foldl map concat]. rewrite app_assoc.
    apply IH; [done|]. eapply received_iff.
    2: { eapply received_union; [exact Hdest| |exact Hrec|].
      2: { instantiate (1 := fun d _ _ => d ∈ thread_dpus (running thread_mram_xfer_read) k).
        unfold thread_reads, thread_dpus. destruct (thread_range _ k) as [[start stop]|] eqn:E.
        - destruct (range_within _ _ _ _ Hk E). pose proof (ok_dpus _ _ _ _ Hok).
          eapply received_iff; [|apply threads_read_words; try apply Hok; try done; lia].
          intros d c i _. rewrite elem_of_seqZ. lia.
        - apply received_nothing. intros d c i _. apply not_elem_of_nil. }
      intros d c i. cbv beta. apply _. }
    intros d c i _. by rewrite elem_of_app.
Qed.

Lemma read_result order host : Permutation order (seqZ 0 (nb_threads pool)) ->
  received nb_cis sg_at zeros m region host (fun d _ _ => 0 <= d < nb_dpus)
    (xeon_sp_read_from_rank sg_at zeros tr m pool region order host).
Proof using All.
  intros Hp. eapply received_iff; [|apply threads_read_all].
  - intros d c i _. rewrite list_elem_of_In, in_concat.
    rewrite <- (Z.sub_0_r nb_dpus). replace (0 <= d < nb_dpus - 0) with (0 <= d < 0 + (nb_dpus - 0)) by done.
    rewrite <- elem_of_seqZ, Z.sub_0_r, <- (running_dpus thread_mram_xfer_read), list_elem_of_In, in_concat.
    split; intros (l & Hl & Hd); exists l; (split; [|done]); apply in_map_iff in Hl as (k & <- & Hk);
      apply in_map; by eapply Permutation_in; [|exact Hk]; [first [done | symmetry]].
  - rewrite Hp. apply list_relations.list.Forall_forall. intros k Hk. apply elem_of_seqZ in Hk. lia.
Qed.
End Reads.
End Transfer.
