(* ===== verification/XeonProps.v ===== *)
(** * Properties of the Xeon backend

    Transfers, pools of threads and control interfaces of the Xeon boards, put
    together (XeonInterleave.v, XeonSg.v, XeonBank.v, XeonRead.v, XeonPool.v). *)

From stdpp Require Import relations gmap.
From S2P Require Import Prelude CMonad Rank UfiMemory XeonInterleave XeonSg XeonBank XeonRead XeonPool.

#[local] Open Scope Z_scope.
#[local] Open Scope dpu_scope.

(** ** The life of the pools *)

Definition initial_ctx : xeon_sp_ctx := mk_ctx (replicate 31 inhabitant) (replicate 31 0).

Definition moved (open : Z -> Z) (c n : Z) : Z -> Z := fun c' => if c' =? c then open c + n else open c'.

(** The contexts that the ranks of a program go through. [open c] openings of
    channel c that succeeded are not closed; [failed] are the channels on which
    [pthread_barrier_init] or [pthread_create] failed in an opening. As the caller
    only takes a negative code for a failure, the ranks of such a channel may be
    closed even when their opening failed. *)
Inductive pools_reachable : (Z -> Z) -> gset Z -> xeon_sp_ctx -> Prop :=
| reachable_initial : pools_reachable (fun _ => 0) ∅ initial_ctx
| reachable_init open failed ctx tr channel_id barrier_ret create ret tr' ctx' :
    pools_reachable open failed ctx -> 0 <= channel_id < 256 -> 0 <= nb_thread_per_pool (xfer_thread_conf tr) ->
    open (region_channel channel_id) < 2 ^ 32 - 1 ->
    xeon_sp_init_rank tr channel_id barrier_ret create ctx = Some (ret, tr', ctx') ->
    pools_reachable (if ret =? 0 then moved open (region_channel channel_id) 1 else open)
      (if ret =? 0 then failed else {[region_channel channel_id]} ∪ failed) ctx'
| reachable_destroy open failed ctx tr channel_id tr' ctx' :
    pools_reachable open failed ctx -> 0 <= channel_id < 256 ->
    0 < open (region_channel channel_id) \/ region_channel channel_id ∈ failed ->
    xeon_sp_destroy_rank tr channel_id ctx = Some (tr', ctx') ->
    pools_reachable (moved open (region_channel channel_id) (-1)) failed ctx'
| reachable_transfer open failed ctx tr m d channel_id :
    pools_reachable open failed ctx -> 0 <= channel_id < MAX_NB_CHANNEL ->
    pools_reachable open failed
      (set_pool channel_id (xeon_sp_init_xfer tr m d (pools ctx).[channel_id]) ctx).

(** The threads of a pool that runs wait on a barrier that counts them and the caller. *)
Definition pool_runs (pool : xeon_sp_private) : Prop :=
  stop_thread pool = replicate (Z.to_nat (nb_threads pool)) false /\ barrier_count pool = nb_threads pool + 1 /\
  0 <= nb_threads pool <= MAX_THREAD_PER_POOL.

(** A channel with [n] ranks. *)
Definition channel_ok (n count : Z) (pool : xeon_sp_private) : Prop :=
  count = n /\ 0 <= n < 2 ^ 32 /\ (n = 0 -> stop_thread pool = []) /\ (0 < n -> pool_runs pool).

Record pools_ok (open : Z -> Z) (failed : gset Z) (ctx : xeon_sp_ctx) : Prop := {
  pools_length : lenz (pools ctx) = MAX_NB_POOL;
  counts_length : lenz (nb_region_per_channel ctx) = MAX_NB_CHANNEL;
  channels : forall c, 0 <= c < MAX_NB_CHANNEL -> c ∉ failed ->
    channel_ok (open c) (nb_region_per_channel ctx).[c] (pools ctx).[c];
}.

(** The creations that succeed make all the threads. *)
Lemma create_all create ks threads threads' : create_threads create ks threads = (0, threads') ->
  threads' = threads ++ replicate (length ks) false.
Proof.
  revert threads. induction ks as [|k ks IH]; intros threads; cbn [create_threads length replicate].
  - intros [= <-]. by rewrite app_nil_r.
  - destruct (create k =? 0) eqn:E; cbn [negb]; [|zb2p; by intros [= ? _]].
    intros H%IH. by rewrite <- app_assoc in H.
Qed.

Lemma set_configuration_bounds conf : 0 <= nb_thread_per_pool conf ->
  0 <= nb_thread_per_pool (xeon_sp_set_configuration conf) <= MAX_THREAD_PER_POOL.
Proof.
  intros H. cbn [nb_thread_per_pool xeon_sp_set_configuration]. unfold MAX_THREAD_PER_POOL.
  repeat case_bool; zb2p; cbn; lia.
Qed.

Lemma region_channel_range channel_id : 0 <= channel_id -> region_channel channel_id < MAX_NB_CHANNEL ->
  0 <= region_channel channel_id < MAX_NB_CHANNEL.
Proof. unfold region_channel, MAX_NB_CHANNEL, MAX_NB_POOL. case_bool; zb2p; lia. Qed.

Lemma pool_id_channel c : 0 <= c < MAX_NB_CHANNEL -> channel_id_to_pool_id c = c.
Proof. unfold channel_id_to_pool_id, MAX_NB_CHANNEL, MAX_NB_POOL. case_bool; zb2p; lia. Qed.

Lemma setz_setz {A} (l : list A) i x y : l.[i := x].[i := y] = l.[i := y].
Proof. apply list_insert_insert_eq. Qed.
(** A change of the channel [c] only. *)
Lemma pools_ok_set open open' failed failed' ctx c count pool : pools_ok open failed ctx -> 0 <= c < MAX_NB_CHANNEL ->
  (forall c', c' <> c -> open' c' = open c') -> failed ⊆ failed' -> (c ∉ failed' -> channel_ok (open' c) count pool) ->
  pools_ok open' failed' (mk_ctx (pools ctx).[c := pool] (nb_region_per_channel ctx).[c := count]).
Proof.
  intros [Hp Hc Hn] Hrange Ho Hf Hok. unfold MAX_NB_CHANNEL, MAX_NB_POOL in *.
  split; cbn [pools nb_region_per_channel]; rewrite ?lenz_setz; [done..|].
  intros c' Hc' Hin. rewrite !getz_setz by lia. destruct (decide (c = c')) as [<-|Hne]; [by apply Hok|].
  rewrite Ho by done. apply Hn; [done|set_solver].
Qed.
Lemma moved_other open c n c' : c' <> c -> moved open c n c' = open c'.
Proof. intros Hne. unfold moved. by rewrite (proj2 (Z.eqb_neq c' c)). Qed.
Lemma moved_same open c n : moved open c n c = open c + n.
Proof. unfold moved. by rewrite Z.eqb_refl. Qed.
Lemma pools_same open failed ctx c count : pools_ok open failed ctx -> 0 <= c < MAX_NB_CHANNEL ->
  mk_ctx (pools ctx) (nb_region_per_channel ctx).[c := count] = mk_ctx (pools ctx).[c := (pools ctx).[c]] (nb_region_per_channel ctx).[c := count].
Proof. intros Hok Hc. by rewrite setz_getz by (rewrite (pools_length _ _ _ Hok); exact Hc). Qed.

Lemma pools_ok_init open failed ctx tr channel_id barrier_ret create ret tr' ctx' : pools_ok open failed ctx -> 0 <= channel_id ->
  0 <= nb_thread_per_pool (xfer_thread_conf tr) -> open (region_channel channel_id) < 2 ^ 32 - 1 ->
  xeon_sp_init_rank tr channel_id barrier_ret create ctx = Some (ret, tr', ctx') ->
  pools_ok (if ret =? 0 then moved open (region_channel channel_id) 1 else open)
    (if ret =? 0 then failed else {[region_channel channel_id]} ∪ failed) ctx'.
Proof.
  intros Hok H0 Hth Hlt Heq. unfold xeon_sp_init_rank in Heq.
  pose proof (set_configuration_bounds _ Hth) as Hbd. set (conf := xeon_sp_set_configuration (xfer_thread_conf tr)) in *.
  clearbody conf. cbv zeta in Heq. destruct (region_channel channel_id <? MAX_NB_CHANNEL) eqn:E; [|done]. zb2p. cbn [negb] in Heq.
  pose proof (region_channel_range channel_id H0 E) as Hc. set (c := region_channel channel_id) in *.
  pose proof (channels _ _ _ Hok c Hc) as Hch.
  destruct (0 <? (nb_region_per_channel ctx).[c]) eqn:E1; zb2p.
  - injection Heq as <- <- <-. change (0 =? 0) with true. cbv iota. unfold count_region.
    rewrite (pools_same open failed) by done.
    apply (pools_ok_set open _ failed); [done|done|by apply moved_other|done|]. intros Hin.
    destruct (Hch Hin) as (Hcount & Hb & _ & Hrun). rewrite Hcount in *. rewrite moved_same.
    split_and!; [apply u32_id; unfold fits; lia|lia|lia|intros; exfalso; lia|]. intros _. apply Hrun. lia.
  - rewrite pool_id_channel in Heq by done. unfold set_pool, count_region in Heq. cbn [pools nb_region_per_channel] in Heq.
    assert (forall count pool', pools_ok open ({[c]} ∪ failed)
      (mk_ctx (pools ctx).[c := pool'] ((nb_region_per_channel ctx).[c := u32 ((nb_region_per_channel ctx).[c] + 1)]).[c := count])) as Hfail.
    { intros count pool'. rewrite setz_setz. apply (pools_ok_set open _ failed); [done|done|done|set_solver|]. intros Hin. set_solver. }
    destruct (negb (barrier_ret =? 0)) eqn:Eb.
    { injection Heq as <- <- <-. apply negb_true_iff in Eb. rewrite Eb. apply Hfail. }
    destruct (create_threads _ _ _) as [ret0 threads] eqn:Ecr. destruct (ret0 =? 0) eqn:Er; cbn [negb] in Heq; injection Heq as <- <- <-.
    2: { rewrite Er. apply Hfail. }
    zb2p. subst ret0. change (0 =? 0) with true. cbv iota.
    apply (pools_ok_set open _ failed); [done|done|by apply moved_other|done|]. intros Hin.
    destruct (Hch Hin) as (Hcount & Hb & _ & _). rewrite Hcount in *. rewrite moved_same.
    split_and!; [apply u32_id; unfold fits; lia|lia|lia|intros; exfalso; lia|]. intros _.
    apply create_all in Ecr as ->. cbn [app].
    unfold pool_runs, MAX_THREAD_PER_POOL in *. cbn [stop_thread nb_threads barrier_count].
    rewrite !(u8_id (nb_thread_per_pool conf)) by (unfold fits; lia). by rewrite length_seqZ.
Qed.

Lemma pools_ok_destroy open failed ctx tr channel_id tr' ctx' : pools_ok open failed ctx -> 0 <= channel_id ->
  0 < open (region_channel channel_id) \/ region_channel channel_id ∈ failed ->
  xeon_sp_destroy_rank tr channel_id ctx = Some (tr', ctx') ->
  pools_ok (moved open (region_channel channel_id) (-1)) failed ctx'.
Proof.
  intros Hok H0 Hpos Heq. unfold xeon_sp_destroy_rank in Heq. cbv zeta in Heq.
  destruct (region_channel channel_id <? MAX_NB_CHANNEL) eqn:E; [|done]. zb2p. cbn [negb] in Heq.
  pose proof (region_channel_range channel_id H0 E) as Hc. set (c := region_channel channel_id) in *.
  pose proof (channels _ _ _ Hok c Hc) as Hch.
  assert (c ∉ failed -> u32 ((nb_region_per_channel ctx).[c] - 1) = open c + -1 /\ 0 <= open c + -1 < 2 ^ 32 /\
    (0 < open c + -1 -> pool_runs (pools ctx).[c])) as Hdown.
  { intros Hin. destruct (Hch Hin) as (-> & Hb & _ & Hrun). destruct Hpos as [Hpos|]; [|done].
    split_and!; [apply u32_id; unfold fits; lia|lia|lia|]. intros. apply Hrun. lia. }
  destruct (u32 ((nb_region_per_channel ctx).[c] - 1) =? 0) eqn:E1; zb2p; cbn [negb] in Heq; injection Heq as <- <-;
    unfold set_pool, count_region; cbn [pools nb_region_per_channel].
  - rewrite pool_id_channel by done. apply (pools_ok_set open _ failed); [done|done|by apply moved_other|done|].
    intros Hin. destruct (Hdown Hin) as (Hu & Hb & _). rewrite moved_same. split_and!; [done|lia|lia|done|intros; exfalso; lia].
  - rewrite (pools_same open failed) by done. apply (pools_ok_set open _ failed); [done|done|by apply moved_other|done|].
    intros Hin. destruct (Hdown Hin) as (Hu & Hb & Hrun). rewrite moved_same. split_and!; [done|lia|lia|intros; exfalso; lia|done].
Qed.

Lemma pools_ok_transfer open failed ctx tr m d c : pools_ok open failed ctx -> 0 <= c < MAX_NB_CHANNEL ->
  pools_ok open failed (set_pool c (xeon_sp_init_xfer tr m d (pools ctx).[c]) ctx).
Proof.
  intros Hok Hc. pose proof (channels _ _ _ Hok c Hc) as Hch.
  unfold set_pool. rewrite <- (setz_getz (nb_region_per_channel ctx) c) by (rewrite (counts_length _ _ _ Hok); exact Hc).
  apply (pools_ok_set open _ failed); [done|done|done|done|]. intros Hin. exact (Hch Hin).
Qed.

Lemma reachable_pools_ok open failed ctx : pools_reachable open failed ctx -> pools_ok open failed ctx.
Proof.
  induction 1 as [|open failed ctx tr c bar cr ret tr' ctx' _ IH Hc Hth Hlt Heq|open failed ctx tr c tr' ctx' _ IH Hc Hlt Heq|open failed ctx tr m d c _ IH Hc].
  - split; [reflexivity..|]. intros c Hc _. cbn [pools nb_region_per_channel initial_ctx].
    unfold channel_ok, getz, MAX_NB_CHANNEL, MAX_NB_POOL in *. rewrite !lookup_total_replicate_2 by lia. split_and!; [done|lia..|done|intros; exfalso; lia].
  - by eapply pools_ok_init; [exact IH|lia|done|done|exact Heq].
  - by eapply pools_ok_destroy; [exact IH|lia|done|exact Heq].
  - by apply pools_ok_transfer.
Qed.

(** ** Transfers of a rank *)

Section Properties.
Context `{I : Intrinsics} `{!IntrinsicsSpec I}.

(** The byte k of the buffer of a DPU takes part in the transfer. *)
Definition taken (sg_at : Z -> sg_xfer_buffer) (tr : translation) (m : dpu_transfer_matrix) (pool : xeon_sp_private)
    (d ci_id k : Z) : Prop :=
  0 <= d < nb_dpus_per_ci pool /\ 0 <= ci_id < nr_of_control_interfaces (tr_desc tr) /\
  is_active m d ci_id = true /\ 0 <= k < tm_size m /\ k < capacity sg_at m d ci_id.

Lemma taken_wanted sg_at zeros tr m pool d ci_id k : xfer_ok sg_at tr m pool ->
  wf_destinations (nr_of_control_interfaces (tr_desc tr)) sg_at zeros m ->
  taken sg_at tr m pool d ci_id k <->
  (0 <= d < nb_dpus_per_ci pool /\
   exists i j, k = 8 * i + j /\ 0 <= j < 8 /\ wanted (nr_of_control_interfaces (tr_desc tr)) sg_at m d ci_id i).
Proof.
  intros Hok Hdest. pose proof (nb_words_size m (ok_range _ _ _ _ Hok)) as Hn. pose proof (ok_dpus _ _ _ _ Hok).
  unfold taken, wanted. split.
  - intros (Hd & Hc & Ha & Hk & Hcap). split; [done|]. exists (k / 8), (k mod 8).
    split_and!; try done; Z.div_mod_to_equations; lia.
  - intros (Hd & i & j & -> & Hj & _ & Hc & Ha & Hi & Hcap).
    pose proof (dest_words _ _ _ _ Hdest d ci_id ltac:(lia) Hc Ha). split_and!; try done; Z.div_mod_to_equations; lia.
Qed.

Lemma read_effect sg_at zeros tr m pool region order host : xfer_ok sg_at tr m pool ->
  wf_destinations (nr_of_control_interfaces (tr_desc tr)) sg_at zeros m ->
  Permutation order (seqZ 0 (nb_threads pool)) ->
  let host' := xeon_sp_read_from_rank sg_at zeros tr m pool region order host in
  (forall d ci_id k, taken sg_at tr m pool d ci_id k ->
     host' (source_byte sg_at zeros m d ci_id k) = region (bank_address d ci_id (tm_offset m + k))) /\
  (forall x, (forall d ci_id k, taken sg_at tr m pool d ci_id k -> source_byte sg_at zeros m d ci_id k <> x) ->
     host' x = host x).
Proof.
  intros Hok Hdest Hp. cbv zeta.
  destruct (read_result sg_at zeros tr m pool Hok region Hdest order host Hp) as [H1 H2]. split.
  - intros d ci_id k Hk. apply (taken_wanted _ zeros) in Hk as (Hd & i & j & -> & Hj & Hw); [|done..].
    rewrite Z.add_assoc. by apply H1.
  - intros x Hx. apply H2. intros d ci_id i j Hw Hd Hj. apply Hx.
    apply (taken_wanted _ zeros); [done..|]. split; [done|]. by exists i, j.
Qed.

(** C5: A write to a rank implements the copy of the buffers into the banks:
    whatever the interleaving of the threads of the pool, every byte of every
    selected DPU gets the byte of its buffer (scatter/gather blocks one after the
    other, then zeros); the DPUs of the lines without any buffer, the bytes
    outside the transfer and the areas of the control interfaces keep their
    content. *)
Theorem write_to_rank_fills_banks sg_at zeros tr m pool host stack region region' :
  xfer_ok sg_at tr m pool -> (forall k, line_shape (stack k)) ->
  xeon_sp_write_to_rank sg_at zeros tr m pool host stack region region' ->
  (forall d ci_id k, 0 <= d < nb_dpus_per_ci pool -> 0 <= ci_id < nr_of_control_interfaces (tr_desc tr) ->
     is_active m d ci_id = true -> 0 <= k < tm_size m ->
     region' (bank_address d ci_id (tm_offset m + k)) = host (source_byte sg_at zeros m d ci_id k)) /\
  (forall d ci_id a, 0 <= d < 8 -> 0 <= ci_id < 8 -> fits 26 a ->
     nb_dpus_per_ci pool <= d \/ do_dpu_transfer (nr_of_control_interfaces (tr_desc tr)) m d = false \/
     ~ tm_offset m <= a < tm_offset m + tm_size m ->
     region' (bank_address d ci_id a) = region (bank_address d ci_id a)) /\
  (forall x, x / 2 ^ 17 mod 2 = 1 -> region' x = region x).
Proof. intros Hok Hstack Hw. by apply (write_result sg_at zeros tr m pool Hok host stack Hstack). Qed.

(** C7: A read from a rank fills the buffers of the host from the banks, in
    whatever order the threads of the pool run, and writes nothing else in the
    memory of the host. *)
Theorem read_from_rank_fills_buffers sg_at zeros tr m pool region order host : xfer_ok sg_at tr m pool ->
  wf_destinations (nr_of_control_interfaces (tr_desc tr)) sg_at zeros m ->
  Permutation order (seqZ 0 (nb_threads pool)) ->
  let host' := xeon_sp_read_from_rank sg_at zeros tr m pool region order host in
  (forall d ci_id k, taken sg_at tr m pool d ci_id k ->
     host' (source_byte sg_at zeros m d ci_id k) = region (bank_address d ci_id (tm_offset m + k))) /\
  (forall x, (forall d ci_id k, taken sg_at tr m pool d ci_id k -> source_byte sg_at zeros m d ci_id k <> x) ->
     host' x = host x).
Proof. apply read_effect. Qed.

(** C22: What was written to the banks is what a later read of the same bytes
    brings back, in buffers of either kind. *)
Theorem mram_roundtrip sg_at zeros tr m m' pool host stack region region' order host0 :
  xfer_ok sg_at tr m pool -> xfer_ok sg_at tr m' pool -> (forall k, line_shape (stack k)) ->
  wf_destinations (nr_of_control_interfaces (tr_desc tr)) sg_at zeros m' ->
  Permutation order (seqZ 0 (nb_threads pool)) ->
  tm_offset m' = tm_offset m -> tm_size m' = tm_size m ->
  (forall d ci_id, is_active m' d ci_id = is_active m d ci_id) ->
  xeon_sp_write_to_rank sg_at zeros tr m pool host stack region region' ->
  forall d ci_id k, taken sg_at tr m' pool d ci_id k ->
    xeon_sp_read_from_rank sg_at zeros tr m' pool region' order host0 (source_byte sg_at zeros m' d ci_id k)
    = host (source_byte sg_at zeros m d ci_id k).
Proof.
  intros Hok Hok' Hstack Hdest Hp Hoff Hsize Hact Hw d ci_id k Hk.
  destruct (read_effect sg_at zeros tr m' pool region' order host0 Hok' Hdest Hp) as [-> _]; [|done].
  destruct (write_result sg_at zeros tr m pool Hok host stack Hstack region region' Hw) as [Hin _].
  destruct Hk as (Hd & Hc & Ha & Hk & _). rewrite Hoff. apply Hin; [done..|by rewrite <- Hact|by rewrite <- Hsize].
Qed.

(** A block written to the control interfaces is found, interleaved, in
    their area, touches no bank, and is recovered by the transposition of a read. *)
Theorem ci_block_roundtrip block_data region : length block_data = 64%nat ->
  let region' := fst (xeon_sp_write_to_cis block_data region) in
  fst (fst (xeon_sp_read_from_cis (snd (xeon_sp_write_to_cis block_data region))
    (fun _ => load_bytes region' CI_WRITE_AREA 64))) = block_data /\
  (forall d ci_id a, 0 <= d < 8 -> 0 <= ci_id < 8 -> fits 26 a ->
     region' (bank_address d ci_id a) = region (bank_address d ci_id a)).
Proof.
  intros Hl. cbv zeta. unfold xeon_sp_write_to_cis, xeon_sp_read_from_cis. cbn [fst snd]. rewrite (avx512_interleave block_data) by done. split.
  - assert (load_bytes (store_bytes CI_WRITE_AREA (byte_interleave block_data) region) CI_WRITE_AREA 64
      = byte_interleave block_data) as Heq.
    { apply list_eq_getz; [by unfold load_bytes; rewrite length_map, length_seqZ|].
      unfold load_bytes. rewrite lenz_map_seqZ by lia. intros i Hi. rewrite lookup_map_seqZ by done.
      unfold store_bytes. change (lenz (byte_interleave block_data)) with 64.
      rewrite (proj2 (Z.leb_le _ _)), (proj2 (Z.ltb_lt _ _)) by lia. cbn [andb]. f_equal. lia. }
    change (byte_interleave_avx512 (load_bytes (store_bytes CI_WRITE_AREA (byte_interleave block_data) region)
      CI_WRITE_AREA 64) false = block_data).
    rewrite Heq, avx512_interleave by done. by apply byte_interleave_twice.
  - intros d ci_id a Hd Hc Ha. unfold store_bytes. destruct (_ && _) eqn:E; [|done]. zb2p. exfalso.
    destruct (bank_address_fields d ci_id a Hd Hc Ha) as (_ & _ & _ & H17 & _).
    change (lenz (byte_interleave block_data)) with 64 in *. unfold CI_WRITE_AREA in *.
    Z.div_mod_to_equations. lia.
Qed.
End Properties.

(** C33: Every byte of the MRAM of every DPU of a rank has an address of its own
    in the region, below 8 GiB and outside the areas of the control interfaces. *)
Theorem bank_addresses_disjoint d ci_id a d' ci_id' a' :
  0 <= d < 8 -> 0 <= ci_id < 8 -> fits 26 a -> 0 <= d' < 8 -> 0 <= ci_id' < 8 -> fits 26 a' ->
  0 <= bank_address d ci_id a < 2 ^ 33 /\ bank_address d ci_id a / 2 ^ 17 mod 2 = 0 /\
  (bank_address d ci_id a = bank_address d' ci_id' a' -> (d, ci_id, a) = (d', ci_id', a')).
Proof.
  intros Hd Hc Ha Hd' Hc' Ha'. destruct (bank_address_fields d ci_id a Hd Hc Ha) as (_ & _ & _ & H17 & _ & _ & Hx).
  split; [done|]. split; [done|]. intros Heq.
  by destruct (bank_address_inj _ _ _ _ _ _ Hd Hc Ha Hd' Hc' Ha' Heq) as (-> & -> & ->).
Qed.

(** The threads of a pool share the DPUs out: thread after thread, they
    take every DPU once, in order, however many threads a transfer uses. *)
Theorem threads_share_dpus tr m d pool : 0 <= nb_dpus_per_ci pool < 256 ->
  1 <= nb_thread_per_pool (xfer_thread_conf tr) <= 255 ->
  nb_thread_per_pool (xfer_thread_conf tr) <= nb_threads pool ->
  concat (map (thread_dpus (xeon_sp_init_xfer tr m d pool)) (seqZ 0 (nb_threads pool))) = seqZ 0 (nb_dpus_per_ci pool).
Proof.
  intros Hd Hc Hp. pose proof (threads_for_bounds (xfer_thread_conf tr) (tm_size m) Hc).
  apply (thread_dpus_all (xeon_sp_init_xfer tr m d pool)); cbn [nb_threads_for_xfer nb_threads nb_dpus_per_ci xeon_sp_init_xfer]; lia.
Qed.

(** C32: The pools follow the ranks: after any sequence of openings, even ones
    that fail, closings and transfers, a channel on which no opening failed
    counts its ranks, has no thread when it has no rank, and otherwise has the
    threads that its barrier waits for. *)
Theorem pools_follow_ranks open failed ctx c : pools_reachable open failed ctx -> 0 <= c < MAX_NB_CHANNEL -> c ∉ failed ->
  (nb_region_per_channel ctx).[c] = open c /\
  (open c = 0 -> stop_thread (pools ctx).[c] = []) /\ (0 < open c -> pool_runs (pools ctx).[c]).
Proof.
  intros Hr Hc Hin. by destruct (channels _ _ _ (reachable_pools_ok _ _ _ Hr) c Hc Hin) as (-> & _ & ? & ?).
Qed.

(** ** Where the code does not do what it means to *)

Definition sample_conf : dpu_transfer_thread_configuration :=
  mk_conf DPU_XFER_THREAD_CONF_DEFAULT DPU_XFER_THREAD_CONF_DEFAULT DPU_XFER_THREAD_CONF_DEFAULT DPU_XFER_THREAD_CONF_DEFAULT.
(** A region once its configuration is set. *)
Definition sample_tr : translation := mk_tr (sample_description 8 8) (xeon_sp_set_configuration sample_conf).
(** 16 bytes at offset 64: from 4096 for DPU 0 of interface 0, from 8192 for DPU 5 of interface 3. *)
Definition sample_matrix : dpu_transfer_matrix :=
  mk_matrix ((replicate 64 0).[0 := 4096]).[43 := 8192] 64 16 DPU_DEFAULT_XFER_MATRIX.
Definition sample_host : memory := fun x => x mod 251.
Definition sample_stack : Z -> list (list Z) := fun _ => replicate 8 (replicate 8 0xAA).
Definition no_sg : Z -> sg_xfer_buffer := fun _ => mk_sg 0 [] [] 0.
Definition zero_region : memory := fun _ => 0.
Definition pool_of (nb dpus : Z) : xeon_sp_private :=
  mk_pool None thread_mram_xfer_read dpu_transfer_matrix_clear_all dpus 0 nb (replicate (Z.to_nat nb) false) (nb + 1).

(** The region after the threads ran one after the other. *)
Definition sequential_write (tr : translation) (m : dpu_transfer_matrix) (pool : xeon_sp_private) (region : memory) : memory :=
  run_stores (concat (map (thread_stores (I := computed_intrinsics) no_sg 0
    (xeon_sp_init_xfer tr m thread_mram_xfer_write pool) (nr_of_control_interfaces (tr_desc tr)) sample_host sample_stack)
    (seqZ 0 (nb_threads pool)))) region.

Lemma sequential_write_run tr m pool region :
  xeon_sp_write_to_rank (I := computed_intrinsics) no_sg 0 tr m pool sample_host sample_stack region
    (sequential_write tr m pool region).
Proof. eexists. split; [apply interleaving_sequential|reflexivity]. Qed.

(** A DPU without a buffer on a line where another DPU has one is
    overwritten with what the stack of the thread held. *)
Theorem null_dpu_overwritten : let region' := sequential_write sample_tr sample_matrix (pool_of 4 8) zero_region in
  xeon_sp_write_to_rank (I := computed_intrinsics) no_sg 0 sample_tr sample_matrix (pool_of 4 8)
    sample_host sample_stack zero_region region' /\
  is_active sample_matrix 0 1 = false /\ zero_region (bank_address 0 1 64) = 0 /\
  region' (bank_address 0 1 64) = 0xAA.
Proof. split; [apply sequential_write_run|]. split_and!; vm_compute; reflexivity. Qed.

(** A region whose configuration asks for more threads than the pool of its
    channel was created with loses the DPUs of the missing threads. *)
Theorem missing_threads_lose_dpus :
  let region' := sequential_write (mk_tr (sample_description 8 8) (mk_conf 4 0 0 0)) sample_matrix (pool_of 1 8) zero_region in
  xeon_sp_write_to_rank (I := computed_intrinsics) no_sg 0 (mk_tr (sample_description 8 8) (mk_conf 4 0 0 0))
    sample_matrix (pool_of 1 8) sample_host sample_stack zero_region region' /\
  is_active sample_matrix 5 3 = true /\ sample_host (xptr sample_matrix 5 3) = 160 /\
  region' (bank_address 5 3 64) = 0.
Proof. split; [apply sequential_write_run|]. split_and!; vm_compute; reflexivity. Qed.

(** A thread that cannot be created makes the initialisation fail with a
    positive code, which the caller does not take for a failure, with no rank
    counted but the threads created before still waiting. *)
Theorem failed_creation_leaves_threads : exists tr' ctx',
  xeon_sp_init_rank sample_tr 3 0 (fun k => if k =? 2 then 11 else 0) initial_ctx = Some (11, tr', ctx') /\
  (nb_region_per_channel ctx').[3] = 0 /\ stop_thread (pools ctx').[3] = [false; false].
Proof. do 2 eexists. split; [vm_compute; reflexivity|]. split; vm_compute; reflexivity. Qed.

(** A channel from 32 to 254 is counted on the last pool, but its transfers
    take the pool of an index out of the array; channel 31 is out of the arrays
    from the start. *)
Theorem high_channels_out_of_bounds channel_id tr barrier_ret create ctx :
  xeon_sp_init_rank tr 31 barrier_ret create ctx = None /\
  (32 <= channel_id < 255 ->
   region_channel channel_id = MAX_NB_POOL - 1 /\ xeon_sp_acquire_pool channel_id = (MAX_NB_POOL - 1, channel_id) /\
   MAX_NB_POOL <= channel_id).
Proof.
  split; [reflexivity|]. intros H.
  unfold region_channel, xeon_sp_acquire_pool, channel_id_to_pool_id, MAX_NB_CHANNEL, MAX_NB_POOL.
  rewrite (proj2 (Z.ltb_lt 31 channel_id)), (proj2 (Z.ltb_ge channel_id 31)), (proj2 (Z.eqb_neq channel_id 255)) by lia.
  split_and!; done || lia.
Qed.

(** A read into blocks that end in the middle of a word stores the rest of
    the word in the array of zeros that pads the later writes. *)
Theorem short_blocks_spoil_padding :
  let b := mk_sg 1 [100; 0] [4; 0] 1 in
  wf_sg b /\ lenz (sg_addrs b) = 4 /\
  snd (write_next_eight_bytes [1; 2; 3; 4; 5; 6; 7; 8] (init_sg_xfer_buffer_iterator 5000 b) (fun _ => 0)) 5000 = 5.
Proof.
  cbv zeta. split; [|split; vm_compute; reflexivity].
  split; [reflexivity..|]. intros i Hi. cbn [nr_blocks] in Hi. replace i with 0 by lia. by_eval.
Qed.

(** ** The theorems on concrete inputs *)

Lemma sample_line_shape k : line_shape (sample_stack k).
Proof. split; [reflexivity|]. intros c Hc. unfold sample_stack, getz. by rewrite lookup_total_replicate_2 by lia. Qed.

Lemma sample_ok : xfer_ok no_sg sample_tr sample_matrix (pool_of 4 8).
Proof. split; [by_eval..|split; by_eval|]. intros H. discriminate H. Qed.

(** Buffers of [tm_size] bytes at their pointers, apart from each other. *)
Lemma default_destinations nb_cis sg_at zeros m : tm_type m = DPU_DEFAULT_XFER_MATRIX -> wf_range m -> nb_cis <= 8 ->
  (forall d, 0 <= d < 8 -> forall c, 0 <= c < 8 -> forall d', 0 <= d' < 8 -> forall c', 0 <= c' < 8 ->
    is_active m d c = true -> is_active m d' c' = true -> (d, c) = (d', c') \/
    xptr m d c + tm_size m <= xptr m d' c' \/ xptr m d' c' + tm_size m <= xptr m d c) ->
  wf_destinations nb_cis sg_at zeros m.
Proof.
  intros Ht Hr Hn Hsep. pose proof (nb_words_size m Hr). split.
  - intros d c _ _ _. unfold capacity. rewrite Ht. apply Hr.
  - intros d c i j d' c' i' j' (Hd & Hc & Ha & Hi & _) Hj (Hd' & Hc' & Ha' & Hi' & _) Hj' Heq.
    unfold source_byte in Heq. rewrite Ht in Heq.
    destruct (Hsep d Hd c ltac:(lia) d' Hd' c' ltac:(lia) Ha Ha') as [[= <- <-]|[?|?]]; [|lia..].
    f_equal. lia.
Qed.

Lemma sample_destinations : wf_destinations 8 no_sg 0 sample_matrix.
Proof.
  apply default_destinations; [reflexivity|apply sample_ok|lia|].
  intros d Hd c Hc d' Hd' c' Hc' Ha Ha'.
  assert (forall d, 0 <= d < 8 -> forall c, 0 <= c < 8 -> is_active sample_matrix d c = true ->
    (d, c, xptr sample_matrix d c) = (0, 0, 4096) \/ (d, c, xptr sample_matrix d c) = (5, 3, 8192)) as Hcases by by_eval.
  change (tm_size sample_matrix) with 16.
  destruct (Hcases d Hd c Hc Ha) as [[= -> -> ->]|[= -> -> ->]], (Hcases d' Hd' c' Hc' Ha') as [[= -> -> ->]|[= -> -> ->]];
    first [left; reflexivity | right; lia].
Qed.

Lemma write_to_rank_fills_banks_witness :
  let region' := sequential_write sample_tr sample_matrix (pool_of 4 8) zero_region in
  region' (bank_address 5 3 (64 + 9)) = sample_host (8192 + 9) /\
  region' (bank_address 1 0 64) = 0 /\ region' 0x20000 = 0.
Proof.
  destruct (write_to_rank_fills_banks no_sg 0 sample_tr sample_matrix (pool_of 4 8) sample_host sample_stack
    zero_region _ sample_ok sample_line_shape (sequential_write_run _ _ _ _)) as (H1 & H2 & H3).
  split; [|split].
  - apply (H1 5 3 9); [cbn; lia|cbn; lia|vm_compute; reflexivity|cbn; lia].
  - apply (H2 1 0 64); [lia|lia|unfold fits; lia|]. right. left. vm_compute. reflexivity.
  - apply (H3 0x20000). vm_compute. reflexivity.
Defined.

Lemma read_from_rank_fills_buffers_witness :
  let host' := xeon_sp_read_from_rank (I := computed_intrinsics) no_sg 0 sample_tr sample_matrix (pool_of 4 8)
    (fun x => x mod 256) [2; 0; 3; 1] (fun _ => 0) in
  host' (8192 + 9) = bank_address 5 3 (64 + 9) mod 256 /\ host' 4095 = 0.
Proof.
  destruct (read_from_rank_fills_buffers (I := computed_intrinsics) no_sg 0 sample_tr sample_matrix (pool_of 4 8)
    (fun x => x mod 256) [2; 0; 3; 1] (fun _ => 0) sample_ok sample_destinations) as [H1 H2].
  { change (seqZ 0 (nb_threads (pool_of 4 8))) with [0; 1; 2; 3]. by_eval. }
  split.
  - apply (H1 5 3 9). unfold taken. split_and!; try (cbn; lia). vm_compute. reflexivity.
  - apply H2. intros d c k (Hd & Hc & Ha & Hk & _) Heq. cbn in Hd, Hc, Hk.
    assert (forall d, 0 <= d < 8 -> forall c, 0 <= c < 8 -> is_active sample_matrix d c = true ->
      4096 <= xptr sample_matrix d c) as Hcases by by_eval.
    specialize (Hcases d Hd c Hc Ha). unfold source_byte in Heq. cbn [tm_type sample_matrix] in Heq. lia.
Defined.

Lemma mram_roundtrip_witness :
  xeon_sp_read_from_rank (I := computed_intrinsics) no_sg 0 sample_tr sample_matrix (pool_of 4 8)
    (sequential_write sample_tr sample_matrix (pool_of 4 8) zero_region) [2; 0; 3; 1] (fun _ => 0) (8192 + 9)
  = sample_host (8192 + 9).
Proof.
  apply (mram_roundtrip no_sg 0 sample_tr sample_matrix sample_matrix (pool_of 4 8) sample_host sample_stack
    zero_region _ [2; 0; 3; 1] (fun _ => 0) sample_ok sample_ok sample_line_shape sample_destinations) with (d := 5) (ci_id := 3) (k := 9).
  - change (seqZ 0 (nb_threads (pool_of 4 8))) with [0; 1; 2; 3]. by_eval.
  - reflexivity.
  - reflexivity.
  - reflexivity.
  - apply sequential_write_run.
  - unfold taken. split_and!; try (cbn; lia). vm_compute. reflexivity.
Defined.

Lemma ci_block_roundtrip_witness :
  fst (fst (xeon_sp_read_from_cis (I := computed_intrinsics) false
    (fun _ => load_bytes (fst (xeon_sp_write_to_cis (I := computed_intrinsics) sample_line zero_region)) CI_WRITE_AREA 64)))
  = sample_line.
Proof. exact (proj1 (ci_block_roundtrip (I := computed_intrinsics) sample_line zero_region eq_refl)). Defined.

Lemma bank_addresses_disjoint_witness :
  0 <= bank_address 7 7 (2 ^ 26 - 1) < 2 ^ 33 /\ bank_address 7 7 (2 ^ 26 - 1) / 2 ^ 17 mod 2 = 0.
Proof.
  destruct (bank_addresses_disjoint 7 7 (2 ^ 26 - 1) 0 0 0) as (H1 & H2 & _); unfold fits; lia.
Defined.

Lemma threads_share_dpus_witness :
  concat (map (thread_dpus (xeon_sp_init_xfer sample_tr sample_matrix thread_mram_xfer_read (pool_of 4 6))) (seqZ 0 4)) = seqZ 0 6.
Proof. apply (threads_share_dpus sample_tr sample_matrix thread_mram_xfer_read (pool_of 4 6)); by_eval. Defined.

(** A thread of channel 5 could not be created, and a rank was opened on channel 3. *)
Definition init_ctx (channel_id : Z) (create : Z -> Z) (ctx : xeon_sp_ctx) : xeon_sp_ctx :=
  match xeon_sp_init_rank sample_tr channel_id 0 create ctx with Some (_, _, ctx) => ctx | None => ctx end.
Definition third_fails (k : Z) : Z := if k =? 2 then 11 else 0.
Definition one_rank_ctx : xeon_sp_ctx := init_ctx 3 (fun _ => 0) (init_ctx 5 third_fails initial_ctx).
Lemma one_rank_reachable : pools_reachable (moved (fun _ => 0) 3 1) {[5]} one_rank_ctx.
Proof.
  rewrite <- (union_empty_r_L {[5]} : {[5]} ∪ ∅ = ({[5]} : gset Z)).
  apply (reachable_init (fun _ => 0) ({[5]} ∪ ∅) (init_ctx 5 third_fails initial_ctx) sample_tr 3 0 (fun _ => 0) 0 sample_tr one_rank_ctx);
    [|lia|by_eval|lia|vm_compute; reflexivity].
  apply (reachable_init (fun _ => 0) ∅ initial_ctx sample_tr 5 0 third_fails 11 sample_tr);
    [apply reachable_initial|lia|by_eval|lia|vm_compute; reflexivity].
Qed.
Lemma pools_follow_ranks_witness : (nb_region_per_channel one_rank_ctx).[3] = 1 /\ pool_runs (pools one_rank_ctx).[3].
Proof.
  destruct (pools_follow_ranks _ _ one_rank_ctx 3 one_rank_reachable) as (H1 & _ & H3); [by_eval|set_solver|].
  split; [exact H1|]. apply H3. reflexivity.
Defined.
