(* ===== verification/DpuSet.v ===== *)
(** * Sets of DPUs

    Model of the sets of [src/api/src/api/dpu_set.c]: their kinds, the counts,
    the iterators behind [DPU_RANK_FOREACH] and [DPU_FOREACH] of
    [src/api/include/api/dpu.h], the iterator on the DPUs of a rank and the
    conversions of [src/api/src/dpu_management.c]. A pointer to a rank is its
    number in the store of the ranks; a pointer to a DPU is the rank and the
    index of the DPU in its array. *)

From stdpp Require Import relations.
From S2P Require Import Prelude CMonad Rank Ci Ufi Select Frame Mux UfiMemory Runner.

#[local] Open Scope Z_scope.
#[local] Open Scope dpu_scope.

Definition rank_ptr := nat.
Definition dpu_ptr : Type := rank_ptr * Z.

(** [struct dpu_set_t]; [DPU_SET_OTHER] stands for any other value of [kind]. *)
Inductive dpu_set_t :=
| DPU_SET_RANKS (ranks : list rank_ptr)
| DPU_SET_DPU (dpu : dpu_ptr)
| DPU_SET_OTHER.

(** [struct dpu_set_rank_iterator_t] and [struct dpu_set_dpu_iterator_t]. *)
Record dpu_set_rank_iterator_t := mk_rank_it {
  rit_set : dpu_set_t;
  rit_count : Z;
  rit_next_idx : Z;
  rit_has_next : bool;
  rit_next : dpu_set_t;
}.
Record dpu_set_dpu_iterator_t := mk_dpu_it {
  rank_iterator : dpu_set_rank_iterator_t;
  dit_count : Z;
  dit_next_idx : Z;
  dit_has_next : bool;
  dit_next : dpu_set_t;
}.

Definition dpu_set_rank_iterator_from (set : dpu_set_t) : dpu_set_rank_iterator_t :=
  match set with
  | DPU_SET_RANKS ranks => mk_rank_it set 0 1 (negb (lenz ranks =? 0)) (DPU_SET_RANKS (take 1 ranks))
  | DPU_SET_DPU _ => mk_rank_it set 0 1 true set
  | DPU_SET_OTHER => mk_rank_it set 0 1 false set
  end.

Definition dpu_set_rank_iterator_next (it : dpu_set_rank_iterator_t) : dpu_set_rank_iterator_t :=
  let count := u32 (rit_count it + 1) in
  if negb (rit_has_next it) then mk_rank_it (rit_set it) count (rit_next_idx it) (rit_has_next it) (rit_next it)
  else match rit_set it with
  | DPU_SET_RANKS ranks =>
      if rit_next_idx it <? lenz ranks
      then mk_rank_it (rit_set it) count (u32 (rit_next_idx it + 1)) true (DPU_SET_RANKS [ranks.[rit_next_idx it]])
      else mk_rank_it (rit_set it) count (rit_next_idx it) false (rit_next it)
  | _ => mk_rank_it (rit_set it) count (rit_next_idx it) false (rit_next it)
  end.

(** The first rank of the set of a rank iterator. *)
Definition it_rank (it : dpu_set_rank_iterator_t) : rank_ptr :=
  match rit_next it with DPU_SET_RANKS ranks => ranks.[0] | _ => O end.

Section Sets.
(** The store of the ranks. *)
Variable store : rank_ptr -> rank.

Definition nr_dpus_in (r : rank_ptr) : Z := nr_cis_of (store r) * nr_dpus_of (store r).
Definition dpu_enabled (d : dpu_ptr) : bool := enabled (dpus (store (fst d))).[snd d].

(** ** Counting *)

Definition get_nr_of_dpus_in_rank (r : rank) : Z :=
  for_up (nr_cis_of r) (fun each_ci count =>
    if all_dpus_are_enabled (slice_of r each_ci) then u32 (count + nr_dpus_of r)
    else u32 (count + popcount (enabled_dpus (slice_of r each_ci)))) 0.

Definition dpu_get_nr_ranks (set : dpu_set_t) : result Z :=
  match set with
  | DPU_SET_RANKS ranks => Ok (lenz ranks)
  | DPU_SET_DPU _ => Ok 1
  | DPU_SET_OTHER => Err DPU_ERR_INTERNAL
  end.
Definition dpu_get_nr_dpus (set : dpu_set_t) : result Z :=
  match set with
  | DPU_SET_RANKS ranks =>
      Ok (foldl (fun nr_dpus r => u32 (nr_dpus + get_nr_of_dpus_in_rank (store r))) 0 ranks)
  | DPU_SET_DPU _ => Ok 1
  | DPU_SET_OTHER => Err DPU_ERR_INTERNAL
  end.

(** ** The iterators on the DPUs *)

(** The [for] loop over the DPUs of a rank: the first enabled one from [dpu_idx]. *)
Fixpoint next_enabled (r : rank_ptr) (n : nat) (dpu_idx : Z) : option Z :=
  match n with
  | O => None
  | S n => if dpu_enabled (r, dpu_idx) then Some dpu_idx else next_enabled r n (dpu_idx + 1)
  end.
Definition next_enabled_in (nr_dpus : Z) (r : rank_ptr) (dpu_idx : Z) : option Z :=
  next_enabled r (Z.to_nat (nr_dpus - dpu_idx)) dpu_idx.

(** The [do ... while] over the ranks, all with the number of DPUs of the first;
    [None] when the fuel is spent. *)
Fixpoint advance_ranks (fuel : nat) (nr_dpus dpu_idx : Z) (it : dpu_set_dpu_iterator_t) : option dpu_set_dpu_iterator_t :=
  match fuel with
  | O => None
  | S fuel =>
      let r := it_rank (rank_iterator it) in
      match next_enabled_in nr_dpus r dpu_idx with
      | Some idx =>
          Some (mk_dpu_it (rank_iterator it) (dit_count it) (idx + 1) true (DPU_SET_DPU (r, idx)))
      | None =>
          let rit := dpu_set_rank_iterator_next (rank_iterator it) in
          let it := mk_dpu_it rit (dit_count it) (dit_next_idx it) (dit_has_next it) (dit_next it) in
          if rit_has_next rit then advance_ranks fuel nr_dpus 0 it
          else Some (mk_dpu_it rit (dit_count it) (dit_next_idx it) false (dit_next it))
      end
  end.
Definition nb_ranks (set : dpu_set_t) : nat := match set with DPU_SET_RANKS ranks => length ranks | _ => O end.
Definition advance_to_next_dpu_in_rank_list (it : dpu_set_dpu_iterator_t) : option dpu_set_dpu_iterator_t :=
  advance_ranks (S (nb_ranks (rit_set (rank_iterator it)))) (nr_dpus_in (it_rank (rank_iterator it)))
    (dit_next_idx it) it.

Definition dpu_set_dpu_iterator_from (set : dpu_set_t) : option dpu_set_dpu_iterator_t :=
  let rit := dpu_set_rank_iterator_from set in
  if negb (rit_has_next rit) then Some (mk_dpu_it rit 0 0 false DPU_SET_OTHER)
  else match set with
  | DPU_SET_RANKS _ => advance_to_next_dpu_in_rank_list (mk_dpu_it rit 0 0 false DPU_SET_OTHER)
  | DPU_SET_DPU _ => Some (mk_dpu_it rit 0 0 true set)
  | DPU_SET_OTHER => Some (mk_dpu_it rit 0 0 false DPU_SET_OTHER)
  end.

Definition dpu_set_dpu_iterator_next (it : dpu_set_dpu_iterator_t) : option dpu_set_dpu_iterator_t :=
  let it := mk_dpu_it (rank_iterator it) (u32 (dit_count it + 1)) (dit_next_idx it) (dit_has_next it) (dit_next it) in
  if negb (dit_has_next it) then Some it
  else match rit_set (rank_iterator it) with
  | DPU_SET_RANKS _ => advance_to_next_dpu_in_rank_list it
  | _ => Some (mk_dpu_it (rank_iterator it) (dit_count it) (dit_next_idx it) false (dit_next it))
  end.

(** The loops [DPU_RANK_FOREACH(set, x, i)] and [DPU_FOREACH(set, x, i)]: the
    values that [i] and [x] take. *)
Fixpoint rank_foreach (fuel : nat) (it : dpu_set_rank_iterator_t) : option (list (Z * dpu_set_t)) :=
  match fuel with
  | O => None
  | S fuel =>
      if rit_has_next it
      then l ← rank_foreach fuel (dpu_set_rank_iterator_next it); Some ((rit_count it, rit_next it) :: l)
      else Some []
  end.
Definition DPU_RANK_FOREACH (fuel : nat) (set : dpu_set_t) : option (list (Z * dpu_set_t)) :=
  rank_foreach fuel (dpu_set_rank_iterator_from set).
Fixpoint dpu_foreach (fuel : nat) (it : dpu_set_dpu_iterator_t) : option (list (Z * dpu_set_t)) :=
  match fuel with
  | O => None
  | S fuel =>
      if dit_has_next it
      then it' ← dpu_set_dpu_iterator_next it;
           l ← dpu_foreach fuel it'; Some ((dit_count it, dit_next it) :: l)
      else Some []
  end.
Definition DPU_FOREACH (fuel : nat) (set : dpu_set_t) : option (list (Z * dpu_set_t)) :=
  it ← dpu_set_dpu_iterator_from set; dpu_foreach fuel it.

(** ** What the loops stand for *)

Definition enabled_in (r : rank_ptr) : list dpu_ptr :=
  map (pair r) (filter (fun i => dpu_enabled (r, i) = true) (seqZ 0 (nr_dpus_in r))).
Definition dpus_of_set (set : dpu_set_t) : list dpu_ptr :=
  match set with
  | DPU_SET_RANKS ranks => concat (map enabled_in ranks)
  | DPU_SET_DPU d => [d]
  | DPU_SET_OTHER => []
  end.
End Sets.

(** ** Conversions ([dpu_management.c]); [None] is [NULL] *)

Definition dpu_set_from_rank (r : rank_ptr) : dpu_set_t := DPU_SET_RANKS [r].
Definition dpu_set_from_dpu (d : dpu_ptr) : dpu_set_t := DPU_SET_DPU d.
Definition dpu_rank_from_set (set : dpu_set_t) : option rank_ptr :=
  match set with DPU_SET_RANKS [r] => Some r | _ => None end.
Definition dpu_from_set (set : dpu_set_t) : option dpu_ptr :=
  match set with DPU_SET_DPU d => Some d | _ => None end.

(** ** The loops visit the enabled DPUs *)

Section Foreach.
Variable store : rank_ptr -> rank.

Definition enabled_from (r : rank_ptr) (i : Z) : list Z :=
  filter (fun i => dpu_enabled store (r, i) = true) (seqZ i (nr_dpus_in store r - i)).

Lemma next_enabled_spec r i :
  match next_enabled_in store (nr_dpus_in store r) r i with
  | Some j => enabled_from r i = j :: enabled_from r (j + 1)
  | None => enabled_from r i = []
  end.
Proof.
  unfold next_enabled_in, enabled_from. generalize (nr_dpus_in store r) as n. intros n.
  remember (Z.to_nat (n - i)) as k eqn:Hk. revert i Hk. induction k as [|k IH]; intros i Hk; cbn [next_enabled].
  - by rewrite seqZ_nil by lia.
  - rewrite (seqZ_cons i) by lia. replace (Z.succ i) with (i + 1) by lia.
    replace (Z.pred (n - i)) with (n - (i + 1)) by lia.
    destruct (dpu_enabled store (r, i)) eqn:E.
    + by rewrite filter_cons_True.
    + rewrite filter_cons_False by congruence. apply IH. lia.
Qed.

Lemma enabled_from_0 r : map (pair r) (enabled_from r 0) = enabled_in store r.
Proof. unfold enabled_from, enabled_in. by rewrite Z.sub_0_r. Qed.

Section Ranks.
Variable ranks : list rank_ptr.
Hypothesis Hlen : lenz ranks < 2 ^ 32.
Variable nr_dpus : Z.
Hypothesis Hsame : Forall (fun r => nr_dpus_in store r = nr_dpus) ranks.
Lemma same_at p : (p < length ranks)%nat -> nr_dpus_in store (ranks !!! p) = nr_dpus.
Proof using Hsame. intros Hp.
  exact (list_relations.list.Forall_lookup_1 _ _ _ _ Hsame (list_lookup_lookup_total_lt _ _ Hp)).
Qed.

(** The iterator on the ranks is at the rank [p]. *)
Definition rank_at (p : nat) (it : dpu_set_rank_iterator_t) : Prop :=
  rit_set it = DPU_SET_RANKS ranks /\ rit_has_next it = true /\ (p < length ranks)%nat /\
  rit_next_idx it = Z.of_nat p + 1 /\ it_rank it = ranks !!! p.

Lemma rank_at_from : ranks <> [] -> rank_at 0 (dpu_set_rank_iterator_from (DPU_SET_RANKS ranks)).
Proof using Type. clear Hsame Hlen. unfold rank_at. destruct ranks as [|r rs]; [done|]. intros _. split_and!; try done; cbn [length]; lia. Qed.

Lemma rank_at_next p it : rank_at p it ->
  (if (S p <? length ranks)%nat then rank_at (S p) (dpu_set_rank_iterator_next it)
   else rit_set (dpu_set_rank_iterator_next it) = DPU_SET_RANKS ranks /\
        rit_has_next (dpu_set_rank_iterator_next it) = false).
Proof using Hlen.
  intros (Hs & Hn & Hp & Hi & Hr). unfold dpu_set_rank_iterator_next. rewrite Hn, Hs. cbn [negb]. rewrite Hi.
  destruct (Nat.ltb_spec (S p) (length ranks)) as [Hlt|Hge].
  - rewrite (proj2 (Z.ltb_lt _ _)) by (unfold lenz; lia). split_and!; cbn; try done.
    + unfold lenz in Hlen. rewrite u32_id by (unfold fits; lia). lia.
    + unfold it_rank. cbn [rit_next]. unfold getz at 1. change ([?x] !!! Z.to_nat 0) with x. unfold getz. f_equal. lia.
  - rewrite (proj2 (Z.ltb_ge _ _)) by (unfold lenz; lia). done.
Qed.

(** What is left to visit from the index [idx] of the rank [p]. *)
Definition rest (p : nat) (idx : Z) : list dpu_ptr :=
  map (pair (ranks !!! p)) (enabled_from (ranks !!! p) idx) ++ concat (map (enabled_in store) (drop (S p) ranks)).

(** An iterator on the DPUs that has [l] left to visit. *)
Definition dpus_left (l : list dpu_ptr) (it : dpu_set_dpu_iterator_t) : Prop :=
  match l with
  | [] => dit_has_next it = false
  | d :: l => dit_has_next it = true /\ dit_next it = DPU_SET_DPU d /\
      exists p, rank_at p (rank_iterator it) /\ rest p (dit_next_idx it) = l
  end.

Lemma advance_spec fuel p idx it : (length ranks - p <= fuel)%nat -> rank_at p (rank_iterator it) ->
  exists it', advance_ranks store fuel nr_dpus idx it = Some it' /\ dit_count it' = dit_count it /\ dpus_left (rest p idx) it' /\
    rit_set (rank_iterator it') = DPU_SET_RANKS ranks.
Proof using Hlen Hsame.
  revert p idx it. induction fuel as [|fuel IH]; intros p idx it Hf Hat; pose proof Hat as (Hs & Hn & Hp & Hi & Hr); [lia|].
  cbn [advance_ranks]. rewrite Hr. pose proof (next_enabled_spec (ranks !!! p) idx) as Hne. unfold rest.
  rewrite same_at in Hne by done. destruct (next_enabled_in store nr_dpus (ranks !!! p) idx) as [j|]; rewrite Hne.
  - eexists. split; [done|]. split; [done|]. split; [|done]. split; [done|]. split; [done|]. by exists p.
  - cbn [map app]. pose proof (rank_at_next p _ Hat) as Hnext. cbv zeta.
    destruct (Nat.ltb_spec (S p) (length ranks)) as [Hlt|Hge].
    + rewrite (proj1 (proj2 Hnext)). erewrite drop_S by (by apply list_lookup_lookup_total_lt). cbn [map concat].
      rewrite <- enabled_from_0.
      destruct (IH (S p) 0 (mk_dpu_it (dpu_set_rank_iterator_next (rank_iterator it)) (dit_count it)
        (dit_next_idx it) (dit_has_next it) (dit_next it)) ltac:(lia) Hnext) as (it' & ? & ? & ? & ?).
      by exists it'.
    + destruct Hnext as [Hs' Hn']. rewrite Hn'. rewrite drop_ge by lia. eexists. split; [done|]. split; [done|]. by split.
Qed.

(** One turn of the loop. *)
Lemma dpu_next_spec d l it : dpus_left (d :: l) it -> exists it', dpu_set_dpu_iterator_next store it = Some it' /\
  dit_count it' = u32 (dit_count it + 1) /\ dpus_left l it'.
Proof using Hlen Hsame.
  intros (Hn & Hd & p & Hat & Hrest). unfold dpu_set_dpu_iterator_next. cbv zeta. cbn [dit_has_next]. rewrite Hn.
  cbn [negb rank_iterator]. pose proof Hat as (Hs & _ & Hp & _). rewrite Hs. unfold advance_to_next_dpu_in_rank_list.
  cbn [rank_iterator dit_next_idx]. rewrite Hs. cbn [nb_ranks].
  pose proof Hat as (_ & _ & _ & _ & Hr). rewrite Hr, same_at by done.
  destruct (advance_spec (S (length ranks)) p (dit_next_idx it)
    (mk_dpu_it (rank_iterator it) (u32 (dit_count it + 1)) (dit_next_idx it) true (dit_next it)) ltac:(lia) Hat)
    as (it' & ? & ? & ? & ?).
  exists it'. split; [done|]. split; [done|]. by rewrite <- Hrest.
Qed.

(** The indices count the DPUs. *)
Definition numbered {A} (l : list A) : list (Z * A) := zip (seqZ 0 (lenz l)) l.

Lemma dpu_foreach_spec fuel it l c : (length l < fuel)%nat -> 0 <= c -> c + lenz l < 2 ^ 32 ->
  dit_count it = c -> dpus_left l it ->
  dpu_foreach store fuel it = Some (zip (seqZ c (lenz l)) (map DPU_SET_DPU l)).
Proof using Hlen Hsame.
  revert it l c. induction fuel as [|fuel IH]; intros it l c Hf Hc0 Hc Hcount Hleft; [lia|]. cbn [dpu_foreach].
  destruct l as [|d l].
  - cbn in Hleft. rewrite Hleft. done.
  - pose proof (dpu_next_spec d l it Hleft) as (it' & Hnext & Hcount' & Hleft').
    destruct Hleft as (Hn & Hd & _). rewrite Hn, Hnext. cbn [mbind option_bind].
    unfold lenz in *. cbn [length] in Hc, Hf. rewrite Hcount in Hcount'.
    rewrite u32_id in Hcount' by (unfold fits; lia).
    rewrite (IH it' l (c + 1)) by (lia || done). cbn [mbind option_bind map].
    rewrite (seqZ_cons c) by (cbn [length]; lia). cbn [zip zip_with]. rewrite Hcount, Hd.
    do 3 f_equal. cbn [length]. f_equal; lia.
Qed.
End Ranks.

Lemma foreach_dpus set fuel : lenz (dpus_of_set store set) < 2 ^ 32 ->
  (forall ranks, set = DPU_SET_RANKS ranks -> lenz ranks < 2 ^ 32 /\
     exists n, Forall (fun r => nr_dpus_in store r = n) ranks) -> (length (dpus_of_set store set) < fuel)%nat ->
  DPU_FOREACH store fuel set =
    Some (zip (seqZ 0 (lenz (dpus_of_set store set))) (map DPU_SET_DPU (dpus_of_set store set))).
Proof.
  intros Hd Hr Hf. unfold DPU_FOREACH, dpu_set_dpu_iterator_from. destruct set as [ranks|d|].
  - destruct (Hr ranks eq_refl) as (Hl & n & Hsame). destruct ranks as [|r rs].
    + destruct fuel; [cbn in Hf; lia|]. done.
    + assert (rit_has_next (dpu_set_rank_iterator_from (DPU_SET_RANKS (r :: rs))) = true) as -> by done. cbn [negb].
      unfold advance_to_next_dpu_in_rank_list.
      destruct (advance_spec (r :: rs) Hl n Hsame (S (length (r :: rs))) 0 0
        (mk_dpu_it (dpu_set_rank_iterator_from (DPU_SET_RANKS (r :: rs))) 0 0 false DPU_SET_OTHER) ltac:(lia)
        (rank_at_from (r :: rs) ltac:(done))) as (it' & Hadv & Hcount & Hleft & Hs).
      cbn [rank_iterator dit_next_idx]. change (rit_set (dpu_set_rank_iterator_from (DPU_SET_RANKS (r :: rs)))) with (DPU_SET_RANKS (r :: rs)).
      cbn [nb_ranks]. change (it_rank (dpu_set_rank_iterator_from (DPU_SET_RANKS (r :: rs)))) with r.
      pose proof (same_at (r :: rs) n Hsame 0 ltac:(cbn; lia)) as Hn. change ((r :: rs) !!! 0%nat) with r in Hn.
      rewrite Hn, Hadv. cbn [mbind option_bind].
      replace (rest (r :: rs) 0 0) with (dpus_of_set store (DPU_SET_RANKS (r :: rs))) in Hleft.
      2: { unfold rest. change ((r :: rs) !!! 0%nat) with r. by rewrite enabled_from_0. }
      by apply (dpu_foreach_spec (r :: rs) Hl n Hsame).
  - do 2 (destruct fuel as [|fuel]; [cbn in Hf; lia|]). done.
  - destruct fuel as [|fuel]; [cbn in Hf; lia|]. done.
Qed.

(** ** Counting *)

(** Every bit of the mask of an interface is a DPU, and the flag says that all are there. *)
Record counted (r : rank) : Prop := {
  counted_wf : rank_wf r;
  counted_mask : forall s, 0 <= s < nr_cis_of r -> fits (nr_dpus_of r) (enabled_dpus (slice_of r s));
  counted_all : forall s, 0 <= s < nr_cis_of r -> all_dpus_are_enabled (slice_of r s) = true ->
    popcount (enabled_dpus (slice_of r s)) = nr_dpus_of r;
}.

Lemma nr_dpus_in_rank_sum r : counted r ->
  get_nr_of_dpus_in_rank r = sum_up (nr_cis_of r) (fun s => popcount (enabled_dpus (slice_of r s))) /\
  0 <= get_nr_of_dpus_in_rank r <= 64.
Proof.
  intros [Hwf Hm Ha]. pose proof (rw_cis _ Hwf) as Hc. unfold DPU_MAX_NR_CIS in Hc.
  assert (forall n, 0 <= n <= nr_cis_of r -> 0 <= sum_up n (fun s => popcount (enabled_dpus (slice_of r s))) <= 8 * n) as Hb.
  { intros n Hn. apply sum_up_bounds; [lia|]. intros i Hi. apply byte_popcount, (rw_enabled _ Hwf). lia. }
  assert (get_nr_of_dpus_in_rank r = sum_up (nr_cis_of r) (fun s => popcount (enabled_dpus (slice_of r s)))) as Heq.
  { unfold get_nr_of_dpus_in_rank.
    apply (for_up_ind (fun n acc => acc = sum_up n (fun s => popcount (enabled_dpus (slice_of r s))))); [lia| |].
    - unfold sum_up. by rewrite for_up_0.
    - intros i acc Hi ->. rewrite sum_up_succ by lia. pose proof (Hb (i + 1) ltac:(lia)) as Hb'.
      rewrite sum_up_succ in Hb' by lia.
      destruct (all_dpus_are_enabled (slice_of r i)) eqn:E.
      + rewrite <- (Ha i Hi E). apply u32_id. unfold fits. lia.
      + apply u32_id. unfold fits. lia. }
  split; [done|]. rewrite Heq. specialize (Hb (nr_cis_of r) ltac:(lia)). lia.
Qed.
End Foreach.

(** ** The loop and the count agree *)

Section Agree.
Variable store : rank_ptr -> rank.

Lemma seqZ_split a n m : 0 <= n -> 0 <= m -> seqZ a (n + m) = seqZ a n ++ seqZ (a + n) m.
Proof. intros Hn Hm. by apply seqZ_app. Qed.

Lemma byte_bits_count m : fits 8 m -> lenz (filter (fun i => Z.testbit m i = true) (seqZ 0 8)) = popcount m.
Proof. unfold fits. change (2 ^ 8) with 256. revert m. by_eval. Qed.
Lemma bits_count n m : 0 <= n <= 8 -> fits n m -> lenz (filter (fun i => Z.testbit m i = true) (seqZ 0 n)) = popcount m.
Proof.
  intros Hn Hm. rewrite <- byte_bits_count by (eapply fits_mono; [|done]; lia).
  replace 8 with (n + (8 - n)) by lia. rewrite seqZ_split by lia. rewrite list_basics.list.filter_app, lenz_app.
  enough (filter (fun i => Z.testbit m i = true) (seqZ (0 + n) (8 - n)) = []) as -> by (unfold lenz; cbn; lia).
  assert (forall l, Forall (fun i => n <= i) l -> filter (fun i => Z.testbit m i = true) l = []) as Hl.
  { induction 1 as [|i l Hi _ IH]; [done|]. rewrite filter_cons_False; [done|].
    rewrite (proj1 (fits_testbit n m ltac:(lia) (fits_nonneg _ _ Hm)) Hm i Hi). done. }
  apply Hl, list_relations.list.Forall_forall. intros i Hi%elem_of_seqZ. lia.
Qed.

Lemma filter_shift (P : Z -> bool) a n : lenz (filter (fun i => P i = true) (seqZ a n)) =
  lenz (filter (fun i => P (a + i) = true) (seqZ 0 n)).
Proof.
  rewrite <- (Z.add_0_r a) at 1. rewrite <- fmap_add_seqZ. unfold lenz. f_equal.
  generalize (seqZ 0 n) as l. induction l as [|i l IH]; [done|]. cbn [fmap list_fmap].
  destruct (P (a + i)) eqn:E.
  - rewrite !filter_cons_True by done. cbn [length]. by rewrite IH.
  - rewrite !filter_cons_False by congruence. done.
Qed.

Lemma filter_same (P Q : Z -> bool) (l : list Z) : (forall i, i ∈ l -> P i = Q i) ->
  filter (fun i => P i = true) l = filter (fun i => Q i = true) l.
Proof.
  induction l as [|i l IH]; intros H; [done|]. pose proof (H i ltac:(by constructor)) as Hi.
  specialize (IH ltac:(intros j Hj; apply H; by constructor)). destruct (P i) eqn:E.
  - rewrite !filter_cons_True by congruence. by rewrite IH.
  - rewrite !filter_cons_False by congruence. done.
Qed.

Lemma length_enabled_in r : counted (store r) -> lenz (enabled_in store r) = get_nr_of_dpus_in_rank (store r).
Proof.
  intros Hc. rewrite (proj1 (nr_dpus_in_rank_sum _ Hc)). destruct Hc as [Hwf Hm _].
  pose proof (rw_cis _ Hwf) as Hcis. pose proof (rw_dpus _ Hwf) as Hd.
  assert (lenz (enabled_in store r) = lenz (filter (fun i => dpu_enabled store (r, i) = true) (seqZ 0 (nr_dpus_in store r)))) as ->.
  { unfold enabled_in, lenz. by rewrite length_map. }
  unfold nr_dpus_in. set (rk := store r) in *. set (P := fun i => dpu_enabled store (r, i)).
  enough (forall n, 0 <= n -> n <= nr_cis_of rk -> lenz (filter (fun i => P i = true) (seqZ 0 (n * nr_dpus_of rk))) =
    sum_up n (fun s => popcount (enabled_dpus (slice_of rk s)))) as H by (apply H; lia).
  intros n Hn. apply (natlike_ind (fun n => n <= nr_cis_of rk -> lenz (filter (fun i => P i = true) (seqZ 0 (n * nr_dpus_of rk))) =
    sum_up n (fun s => popcount (enabled_dpus (slice_of rk s))))); [|clear n Hn; intros n Hn IH Hle|done].
  - intros _. by rewrite Z.mul_0_l.
  - unfold Z.succ in *. rewrite sum_up_succ by lia. rewrite Z.mul_add_distr_r, Z.mul_1_l.
    rewrite seqZ_split by nia. rewrite list_basics.list.filter_app, lenz_app. rewrite IH by lia. f_equal.
    rewrite filter_shift, <-(bits_count (nr_dpus_of rk)) by (lia || apply Hm; lia). f_equal.
    apply filter_same. intros i Hi%elem_of_seqZ. rewrite <- (rw_dpu _ Hwf) by lia.
    unfold P, dpu_enabled, dpu_of, DPU_INDEX. cbn [fst snd]. fold rk. do 2 f_equal. lia.
Qed.

Lemma length_dpus_of_set ranks : Forall (fun r => counted (store r)) ranks -> 64 * lenz ranks < 2 ^ 32 ->
  dpu_get_nr_dpus store (DPU_SET_RANKS ranks) = Ok (lenz (dpus_of_set store (DPU_SET_RANKS ranks))).
Proof.
  intros Hc Hsmall. cbn [dpu_get_nr_dpus dpus_of_set]. f_equal.
  enough (forall l n, Forall (fun r => counted (store r)) l -> 0 <= n -> n + 64 * lenz l < 2 ^ 32 ->
    foldl (fun nr_dpus r => u32 (nr_dpus + get_nr_of_dpus_in_rank (store r))) n l = n + lenz (concat (map (enabled_in store) l))) as Hn
    by (rewrite Hn by (done || lia); lia).
  clear. induction l as [|r l IH]; intros n Hc Hn Hb; [unfold lenz; cbn; lia|]. apply list_relations.list.Forall_cons in Hc as [Hr Hc].
  pose proof (proj2 (nr_dpus_in_rank_sum _ Hr)). cbn [foldl map concat]. rewrite lenz_app, length_enabled_in by done.
  unfold lenz in *. cbn [length] in Hb. rewrite u32_id by (unfold fits; lia). rewrite IH by (done || lia). lia.
Qed.
End Agree.

(** ** Properties *)

(** C29: [DPU_FOREACH] over a set of ranks of one topology ends after visiting
    each enabled DPU of each rank once, in the order of the ranks and of their
    DPUs, with the index counting from 0 to [dpu_get_nr_dpus]. *)
Theorem DPU_FOREACH_visits store ranks nr_dpus_per_rank fuel : Forall (fun r => counted (store r)) ranks ->
  Forall (fun r => nr_dpus_in store r = nr_dpus_per_rank) ranks -> 64 * lenz ranks < 2 ^ 32 ->
  64 * lenz ranks < Z.of_nat fuel ->
  let dpus := concat (map (enabled_in store) ranks) in
  dpu_get_nr_dpus store (DPU_SET_RANKS ranks) = Ok (lenz dpus) /\
  DPU_FOREACH store fuel (DPU_SET_RANKS ranks) = Some (zip (seqZ 0 (lenz dpus)) (map DPU_SET_DPU dpus)) /\
  forall r i, (r, i) ∈ dpus <-> r ∈ ranks /\ 0 <= i < nr_dpus_per_rank /\ enabled (Rank.dpus (store r)).[i] = true.
Proof.
  intros Hc Hsame Hsmall Hfuel dpus. pose proof (length_dpus_of_set store ranks Hc Hsmall) as Hlen. split; [done|].
  assert (lenz dpus <= 64 * lenz ranks) as Hle.
  { unfold dpus, lenz. revert Hc. clear. induction 1 as [|r l Hr _ IH]; [done|]. cbn [map concat]. rewrite length_app. cbn [length].
    pose proof (length_enabled_in store r Hr) as Hl. pose proof (proj2 (nr_dpus_in_rank_sum _ Hr)). unfold lenz in Hl. lia. }
  split.
  - apply (foreach_dpus store (DPU_SET_RANKS ranks) fuel); cbn [dpus_of_set]; fold dpus; [lia| |unfold lenz in *; lia].
    intros ranks' [= <-]. split; [lia|]. by exists nr_dpus_per_rank.
  - intros r i. unfold dpus. split.
    + intros (l & Hl & Hx)%list_elem_of_In%in_concat. apply in_map_iff in Hl as (r' & <- & Hr'). unfold enabled_in in Hx.
      apply in_map_iff in Hx as (j & [= -> ->] & Hj). apply list_elem_of_In in Hj, Hr'.
      apply list_elem_of_filter in Hj as [He Hj%elem_of_seqZ].
      eapply list_relations.list.Forall_forall in Hsame; [|exact Hr']. rewrite Hsame in Hj. split; [done|]. split; [lia|done].
    + intros (Hr & Hi & He). apply list_elem_of_In, in_concat. exists (enabled_in store r). split; [apply in_map_iff; exists r; split; [done|by apply list_elem_of_In]|].
      apply in_map_iff. exists i. split; [done|]. apply list_elem_of_In, list_elem_of_filter. split; [done|].
      eapply list_relations.list.Forall_forall in Hsame; [|exact Hr]. rewrite Hsame. apply elem_of_seqZ. lia.
Qed.

Lemma sample_counted : counted (sample_rank 2 8).
Proof.
  split; [split; try by_eval| |].
  - intros s d Hs Hd. revert s Hs d Hd. by_eval.
  - intros s Hs. revert s Hs. unfold fits. by_eval.
  - intros s Hs _. revert s Hs. by_eval.
Qed.

Lemma DPU_FOREACH_visits_witness : DPU_FOREACH (fun _ => sample_rank 2 8) 200 (DPU_SET_RANKS [4; 7]%nat) <> None /\
  dpu_get_nr_dpus (fun _ => sample_rank 2 8) (DPU_SET_RANKS [4; 7]%nat) = Ok 32.
Proof.
  destruct (DPU_FOREACH_visits (fun _ => sample_rank 2 8) [4; 7]%nat 16 200
    (list_relations.list.Forall_true _ _ (fun _ => sample_counted)) (list_relations.list.Forall_true _ _ (fun _ => eq_refl)) ltac:(by_eval) ltac:(by_eval)) as (Hn & Hf & _).
  split; [rewrite Hf; discriminate|exact Hn].
Defined.

(** When the ranks differ, the number of DPUs of one bounds the search of the
    first DPU of the next: here the DPUs of the second rank are missed, because
    its first interface has none. *)
Definition second_half : rank :=
  upd_slice 0 (fun info => set_all_dpus_are_enabled false (set_enabled_dpus 0 info))
    (for_up 8 (fun d => upd_dpu 0 d (set_enabled false)) (sample_rank 2 8)).
Lemma foreach_misses_dpus : let store r := match r with O => sample_rank 1 8 | _ => second_half end in
  dpu_get_nr_dpus store (DPU_SET_RANKS [0; 1]%nat) = Ok 16 /\
  length <$> DPU_FOREACH store 200 (DPU_SET_RANKS [0; 1]%nat) = Some 8%nat.
Proof. split; vm_compute; reflexivity. Qed.
