(* ===== verification/DpuAlloc.v ===== *)
(** * Allocation of sets of DPUs

    Model of the allocation functions of [src/api/src/api/dpu_set.c] with
    [dpu_disable_one_dpu] of [src/api/src/dpu_internals.c]: the ranks are taken
    one by one from the backend, the DPUs in excess are disabled, the set is
    registered and the scatter/gather buffers are laid out. What the backend,
    the profile, the thread jobs and the polling thread answer is an argument
    ([outside]). A computation that returns [None] does not return: an
    [assert] failed, an access left an array, or the fuel was spent. *)

From stdpp Require Import relations functions.
From S2P Require Import Prelude CMonad Rank Ci Ufi Select Frame Mux UfiMemory Runner DpuSet.

#[local] Open Scope Z_scope.
#[local] Open Scope dpu_scope.

Definition DPU_ALLOCATE_ALL := 2 ^ 32 - 1.

(** ** Disabling one DPU of a rank ([dpu_internals.c]) *)

Section OneDpu.
Context {D : Type} `{!RankHandler D}.

Definition dpu_disable_one_dpu (slice dpu : Z) : W D unit :=
  r ← get_rank;
  if negb (enabled (dpu_of r slice dpu)) then fail DPU_ERR_DPU_DISABLED
  else
    _ ← ci_disable_dpu (dpu_of r slice dpu);
    _ ← on_rank (upd_slice slice (fun info =>
          set_all_dpus_are_enabled false (set_enabled_dpus (enabled_dpus info &&& not8 (Z.shiftl 1 dpu)) info)));
    on_rank (upd_dpu slice dpu (set_enabled false)).
End OneDpu.

(** ** The choice of the DPU to disable *)

(** [target_rank], [target_ci] and [target_line] ([None]: [UINT_MAX] and
    [UCHAR_MAX]), and the best counts so far. *)
Record choice := mk_choice {
  target : option (rank_ptr * Z * Z);
  max_disabled : Z;
  max_enabled_on_rank : Z;
}.
Definition no_choice : choice := mk_choice None 0 0.

(** A line (or an interface): how many of its DPUs are disabled, the last
    enabled one, and whether there is one. *)
Definition scan_line (n : Z) (en : Z -> bool) : Z * Z * bool :=
  for_up n (fun i '(count_disabled, last_enabled, one_enabled) =>
    if en i then (count_disabled, i, true) else (u32 (count_disabled + 1), last_enabled, one_enabled)) (0, 0, false).

Definition better (one_enabled : bool) (count_disabled enabled_on_rank : Z) (c : choice) : bool :=
  one_enabled && ((max_disabled c <? count_disabled) ||
    ((count_disabled =? max_disabled c) && (max_enabled_on_rank c <=? enabled_on_rank))).

(** The two inner loops: [outer] lines of [inner] DPUs, [en i j] the DPU [j] of
    the line [i], [at_ i j] its interface and its line. *)
Definition scan_rank (r : rank_ptr) (enabled_on_rank outer inner : Z) (en : Z -> Z -> bool)
    (at_ : Z -> Z -> rank_ptr * Z * Z) (c : choice) : choice :=
  for_up outer (fun i c =>
    let '(count_disabled, last_enabled, one_enabled) := scan_line inner (en i) in
    if better one_enabled count_disabled enabled_on_rank c
    then mk_choice (Some (at_ i last_enabled)) count_disabled enabled_on_rank else c) c.

(** [disable_one_dpu] empties whole lines first; [disable_one_dpu_comm] does it
    for a [comm_type] of 1, empties whole interfaces for 2, and looks at nothing
    for the others. *)
Inductive grouping := BY_LINE | BY_INTERFACE | BY_NOTHING.

Definition scan_one (g : grouping) (store : rank_ptr -> rank) (c : choice) (r : rank_ptr) : choice :=
  let rk := store r in
  let enabled_dpus_on_rank := get_nr_of_dpus_in_rank rk in
  if enabled_dpus_on_rank =? 1 then c
  else match g with
  | BY_LINE => scan_rank r enabled_dpus_on_rank (nr_dpus_of rk) (nr_cis_of rk)
      (fun line ci => enabled (dpu_of rk ci line)) (fun line ci => (r, ci, line)) c
  | BY_INTERFACE => scan_rank r enabled_dpus_on_rank (nr_cis_of rk) (nr_dpus_of rk)
      (fun ci line => enabled (dpu_of rk ci line)) (fun ci line => (r, ci, line)) c
  | BY_NOTHING => c
  end.
Definition choose (g : grouping) (store : rank_ptr -> rank) (ranks : list rank_ptr) : choice :=
  foldl (scan_one g store) no_choice ranks.

(** ** The state of the library *)

(** An element of [sg_buffer_pool]: the position of its blocks in the arrays of
    the pool stands for the two addresses. *)
Record sg_slot := mk_sg_slot { sl_max_nr_blocks : Z; sl_pos : Z; sl_nr_blocks : Z }.

Record host (D : Type) := mk_host {
  worlds : rank_ptr -> world D;
  calls : nat;
  freed : list rank_ptr;
  jobs_created : list (list rank_ptr);
  set_allocator_sets : list dpu_set_t;
  sg_xfer_enabled : rank_ptr -> bool;
  sg_buffer_pool : rank_ptr -> list sg_slot;
  dpu_offset : rank_ptr -> Z;
}.
Arguments mk_host {_} _ _ _ _ _ _ _ _.
Arguments worlds {_} _ _.
Arguments calls {_} _.
Arguments freed {_} _.
Arguments jobs_created {_} _.
Arguments set_allocator_sets {_} _.
Arguments sg_xfer_enabled {_} _ _.
Arguments sg_buffer_pool {_} _ _.
Arguments dpu_offset {_} _ _.

(** What the code outside this file answers: the [k]-th call of
    [dpu_get_rank_of_type], the reset of a rank, the thread jobs, the polling
    thread, and the properties of the profile ([None] when a value is malformed). *)
Record outside (D : Type) := mk_outside {
  get_rank_call : nat -> result (world D);
  disable_reset_on_alloc : rank_ptr -> bool;
  reset_rank_call : W D unit;
  thread_job_create_call : list rank_ptr -> result unit;
  polling_thread_call : result unit;
  profile_valid : bool;
  prop_dispatch_on_all_ranks : option bool;
  prop_sg_xfer_enable : option bool;
  prop_sg_max_blocks : option Z;
}.
Arguments get_rank_call {_} _ _.
Arguments disable_reset_on_alloc {_} _ _.
Arguments reset_rank_call {_} _.
Arguments thread_job_create_call {_} _ _.
Arguments polling_thread_call {_} _.
Arguments profile_valid {_} _.
Arguments prop_dispatch_on_all_ranks {_} _.
Arguments prop_sg_xfer_enable {_} _.
Arguments prop_sg_max_blocks {_} _.

#[export] Instance dpu_set_eq_dec : EqDecision dpu_set_t.
Proof. solve_decision. Defined.

Section Alloc.
Context {D : Type} `{!RankHandler D} (env : outside D).
Notation H := (C (host D)).

Definition ranks_of_host (h : host D) (r : rank_ptr) : rank := rk (worlds h r).

(** ** Ranks *)

Definition on_world_of {A} (r : rank_ptr) (m : W D A) : H A := fun h =>
  let '(w, res) := m (worlds h r) in
  (mk_host (<[r := w]> (worlds h)) (calls h) (freed h) (jobs_created h) (set_allocator_sets h)
     (sg_xfer_enabled h) (sg_buffer_pool h) (dpu_offset h), res).

(** A new rank is named by the call that made it. *)
Definition dpu_get_rank_of_type : H rank_ptr := fun h =>
  let k := calls h in
  match get_rank_call env k with
  | Ok w => (mk_host (<[k := w]> (worlds h)) (S k) (freed h) (jobs_created h) (set_allocator_sets h)
      (<[k := false]> (sg_xfer_enabled h)) (<[k := []]> (sg_buffer_pool h)) (<[k := 0]> (dpu_offset h)), Ok k)
  | Err e => (mk_host (worlds h) (S k) (freed h) (jobs_created h) (set_allocator_sets h)
      (sg_xfer_enabled h) (sg_buffer_pool h) (dpu_offset h), Err e)
  end.
Definition dpu_free_rank (r : rank_ptr) : H unit := modify (fun h =>
  mk_host (worlds h) (calls h) (freed h ++ [r]) (jobs_created h) (set_allocator_sets h)
    (sg_xfer_enabled h) (sg_buffer_pool h) (dpu_offset h)).
Definition free_all (ranks : list rank_ptr) : H unit := mfold (fun r _ => dpu_free_rank r) ranks tt.
Definition count_of (r : rank_ptr) : H Z := gets (fun h => get_nr_of_dpus_in_rank (ranks_of_host h r)).
(** A call whose status is looked at. *)
Definition attempt {A} (m : H A) : H (result A) := fun h => let '(h, res) := m h in (h, Ok res).
Definition reset_new_rank (r : rank_ptr) : H unit :=
  if disable_reset_on_alloc env r then mret tt else on_world_of r (reset_rank_call env).

(** ** Disabling the DPUs in excess; [None]: an [assert] failed *)

Definition disable_one_dpu (g : grouping) (ranks : list rank_ptr) : H (option unit) :=
  c ← gets (fun h => choose g (ranks_of_host h) ranks);
  match target c with
  | None => mret None
  | Some (r, ci, line) => _ ← on_world_of r (dpu_disable_one_dpu ci line); mret (Some tt)
  end.
Fixpoint disable_dpus (g : grouping) (ranks : list rank_ptr) (n : nat) : H (option unit) :=
  match n with
  | O => mret (Some tt)
  | S n => o ← disable_one_dpu g ranks;
           match o with None => mret None | Some _ => disable_dpus g ranks n end
  end.
Definition disable_unused_dpus (g : grouping) (current_nr_of_dpus nr_dpus : Z) (ranks : list rank_ptr) : H (option unit) :=
  if (lenz ranks =? 0) || (current_nr_of_dpus <? nr_dpus) then mret None
  else disable_dpus g ranks (Z.to_nat (current_nr_of_dpus - nr_dpus)).

(** ** The registered sets *)

Definition set_sets (l : list dpu_set_t) (h : host D) : host D :=
  mk_host (worlds h) (calls h) (freed h) (jobs_created h) l (sg_xfer_enabled h) (sg_buffer_pool h) (dpu_offset h).
Definition set_allocator_register (set : dpu_set_t) : H unit :=
  modify (fun h => set_sets (set_allocator_sets h ++ [set]) h).
Fixpoint find_from (set : dpu_set_t) (idx : nat) (sets : list dpu_set_t) : option nat :=
  match sets with
  | [] => None
  | allocated_set :: sets => if decide (set = allocated_set) then Some idx else find_from set (S idx) sets
  end.
Definition set_allocator_find (set : dpu_set_t) (h : host D) : option nat := find_from set 0 (set_allocator_sets h).
Definition set_allocator_unregister (set : dpu_set_t) : H unit := fun h =>
  match set_allocator_find set h with
  | None => (h, Err DPU_ERR_INVALID_DPU_SET)
  | Some idx => (set_sets (take idx (set_allocator_sets h) ++ drop (S idx) (set_allocator_sets h)) h, Ok tt)
  end.

Definition thread_job_create (ranks : list rank_ptr) : H unit := fun h =>
  match thread_job_create_call env ranks with
  | Ok _ => (mk_host (worlds h) (calls h) (freed h) (jobs_created h ++ [ranks]) (set_allocator_sets h)
               (sg_xfer_enabled h) (sg_buffer_pool h) (dpu_offset h), Ok tt)
  | Err e => (h, Err e)
  end.
Definition init_dpu_set (ranks : list rank_ptr) : H dpu_set_t :=
  let set := DPU_SET_RANKS ranks in
  _ ← thread_job_create ranks;
  _ ← set_allocator_register set;
  match polling_thread_call env with Ok _ => mret set | Err e => fail e end.

(** ** The buffers of scatter/gather transfers *)

Definition sg_slot_at (each_rank dpu_max_nr_blocks dpu_index : Z) : sg_slot :=
  mk_sg_slot dpu_max_nr_blocks
    (u32 (u32 (each_rank * MAX_NR_DPUS_PER_RANK + dpu_index) * u32 (1 + dpu_max_nr_blocks))) 0.
(** The number of elements of the two arrays. *)
Definition sg_array_length (nr_ranks dpu_max_nr_blocks : Z) : Z :=
  u32 (u32 (nr_ranks * MAX_NR_DPUS_PER_RANK) * u32 (1 + dpu_max_nr_blocks)).
Definition set_pool (r : rank_ptr) (pool : list sg_slot) (h : host D) : host D :=
  mk_host (worlds h) (calls h) (freed h) (jobs_created h) (set_allocator_sets h) (sg_xfer_enabled h)
    (<[r := pool]> (sg_buffer_pool h)) (dpu_offset h).
Definition set_sg_enabled (r : rank_ptr) (b : bool) (h : host D) : host D :=
  mk_host (worlds h) (calls h) (freed h) (jobs_created h) (set_allocator_sets h)
    (<[r := b]> (sg_xfer_enabled h)) (sg_buffer_pool h) (dpu_offset h).
Definition set_offset (r : rank_ptr) (o : Z) (h : host D) : host D :=
  mk_host (worlds h) (calls h) (freed h) (jobs_created h) (set_allocator_sets h)
    (sg_xfer_enabled h) (sg_buffer_pool h) (<[r := o]> (dpu_offset h)).

Definition sg_buffer_pool_create (ranks : list rank_ptr) (dpu_max_nr_blocks : Z) : H unit := fun h =>
  if negb (sg_xfer_enabled h (ranks.[0])) then (h, Err DPU_ERR_INTERNAL)
  else if negb (lenz (sg_buffer_pool h (ranks.[0])) =? 0) then (h, Err DPU_ERR_INTERNAL)
  else (for_up (lenz ranks) (fun each_rank =>
          set_pool (ranks.[each_rank])
            (map (sg_slot_at each_rank dpu_max_nr_blocks) (seqZ 0 MAX_NR_DPUS_PER_RANK))) h, Ok tt).
(** [blocks_addr] and [blocks_length] are set together, so one test is enough. *)
Definition sg_buffer_pool_free (ranks : list rank_ptr) : H unit := fun h =>
  if negb (sg_xfer_enabled h (ranks.[0])) then (h, Ok tt)
  else if lenz (sg_buffer_pool h (ranks.[0])) =? 0 then (h, Err DPU_ERR_INTERNAL)
  else (set_sg_enabled (ranks.[0]) false h, Ok tt).

(** [dpu_offset] of each rank: the DPUs of the ranks before it. *)
Definition set_offsets (ranks : list rank_ptr) (h : host D) : host D :=
  snd (foldl (fun '(nr_dpus, h) r =>
    (u32 (nr_dpus + get_nr_of_dpus_in_rank (ranks_of_host h r)), set_offset r nr_dpus h)) (0, h) ranks).

Definition init_scatter_gather_transfer_buffer (nr_dpus : Z) (ranks : list rank_ptr) : H unit :=
  match prop_sg_xfer_enable env, prop_sg_max_blocks env with
  | None, _ | _, None => fail DPU_ERR_INVALID_PROFILE
  | Some dpu_sg_xfer_enabled, Some dpu_sg_xfer_max_block_per_dpu =>
      if negb dpu_sg_xfer_enabled && (0 <? dpu_sg_xfer_max_block_per_dpu) then fail DPU_ERR_INVALID_PROFILE
      else
        _ ← modify (fun h => foldl (fun h r => set_sg_enabled r dpu_sg_xfer_enabled h) h ranks);
        _ ← (if dpu_sg_xfer_enabled
             then sg_buffer_pool_create ranks (if 0 <? dpu_sg_xfer_max_block_per_dpu then dpu_sg_xfer_max_block_per_dpu else nr_dpus)
             else mret tt);
        modify (set_offsets ranks)
  end.

(** ** Taking the ranks

    The [do ... while] of the allocation functions: [got] are the ranks taken
    so far with the DPUs counted on each, [more] is the condition under which
    the function takes another one. *)

Inductive taken :=
| Taken (got : list (rank_ptr * Z))
| Failed (got : list (rank_ptr * Z)) (not_reset : list rank_ptr) (status : dpu_error_t).
Definition total (got : list (rank_ptr * Z)) : Z := foldl (fun n g => u32 (n + snd g)) 0 got.

Fixpoint take_ranks (fuel : nat) (nr_dpus : Z) (dispatch : bool) (more : list (rank_ptr * Z) -> bool)
    (got : list (rank_ptr * Z)) : H (option taken) :=
  match fuel with
  | O => mret None
  | S fuel =>
      next_rank ← attempt dpu_get_rank_of_type;
      match next_rank with
      | Err e =>
          if bool_decide (e = DPU_ERR_ALLOCATION) && negb (lenz got =? 0) &&
             ((nr_dpus =? DPU_ALLOCATE_ALL) || dispatch)
          then if dispatch && (total got <? nr_dpus) then mret (Some (Failed got [] e)) else mret (Some (Taken got))
          else mret (Some (Failed got [] e))
      | Ok r =>
          status ← attempt (reset_new_rank r);
          match status with
          | Err e => mret (Some (Failed got [r] e))
          | Ok _ =>
              count ← count_of r;
              let got := got ++ [(r, count)] in
              if more got then take_ranks fuel nr_dpus dispatch more got else mret (Some (Taken got))
          end
      end
  end.

(** [error_free_ranks]. *)
Definition error_free_ranks {A} (ranks : list rank_ptr) (status : dpu_error_t) : H A :=
  _ ← free_all ranks; fail status.
Definition or_free {A} (ranks : list rank_ptr) (m : H A) : H A := fun h =>
  let '(h, res) := m h in
  match res with Ok a => (h, Ok a) | Err e => error_free_ranks ranks e h end.

(** ** The allocation functions *)

(** The first lines of the three functions: whether to use all the ranks. *)
Definition dispatch_property (nr_dpus : Z) : H bool :=
  if nr_dpus =? 0 then fail DPU_ERR_ALLOCATION
  else if negb (profile_valid env) then fail DPU_ERR_INVALID_PROFILE
  else match prop_dispatch_on_all_ranks env with
  | None => fail DPU_ERR_INVALID_PROFILE
  | Some dispatch => mret (dispatch && negb (nr_dpus =? DPU_ALLOCATE_ALL))
  end.

Definition dpu_alloc (fuel : nat) (nr_dpus : Z) : H (option dpu_set_t) :=
  dispatch_on_all_ranks ← dispatch_property nr_dpus;
  o ← take_ranks fuel nr_dpus dispatch_on_all_ranks
        (fun got => (lenz got <? nr_dpus) && (dispatch_on_all_ranks || (total got <? nr_dpus))) [];
  match o with
  | None => mret None
  | Some (Failed got not_reset status) => error_free_ranks (got.*1 ++ not_reset) status
  | Some (Taken got) =>
      let current_ranks := got.*1 in
      let nr_dpus := if nr_dpus =? DPU_ALLOCATE_ALL then total got else nr_dpus in
      or_free current_ranks (
        o ← disable_unused_dpus BY_LINE (total got) nr_dpus current_ranks;
        match o with
        | None => mret None
        | Some _ =>
            dpu_set ← init_dpu_set current_ranks;
            _ ← init_scatter_gather_transfer_buffer nr_dpus current_ranks;
            mret (Some dpu_set)
        end)
  end.

(** The set and [enabled_dpus]. *)
Definition dpu_alloc_custom (fuel : nat) (nr_dpus : Z) : H (option (dpu_set_t * Z)) :=
  dispatch_on_all_ranks ← dispatch_property nr_dpus;
  o ← take_ranks fuel nr_dpus dispatch_on_all_ranks
        (fun got => (lenz got <? nr_dpus) && dispatch_on_all_ranks) [];
  match o with
  | None => mret None
  | Some (Failed got not_reset status) => error_free_ranks (got.*1 ++ not_reset) status
  | Some (Taken got) =>
      or_free (got.*1) (dpu_set ← init_dpu_set (got.*1); mret (Some (dpu_set, total got)))
  end.

(** [complete_rank_array]: the ranks whose 64 DPUs are all enabled. *)
Definition is_complete (g : rank_ptr * Z) : Prop := snd g = 64.
Definition incomplete_ranks (got : list (rank_ptr * Z)) : list (rank_ptr * Z) := filter (fun g => ~ is_complete g) got.
Definition complete_ranks (got : list (rank_ptr * Z)) : list (rank_ptr * Z) := filter is_complete got.
Definition comm_grouping (comm_type : Z) : grouping :=
  if comm_type =? 1 then BY_LINE else if comm_type =? 2 then BY_INTERFACE else BY_NOTHING.
(** [status = f() != DPU_OK]: every failure of [f] becomes [DPU_ERR_INTERNAL]. *)
Definition as_internal {A} (m : H A) : H A := fun h =>
  let '(h, res) := m h in (h, match res with Ok a => Ok a | Err _ => Err DPU_ERR_INTERNAL end).

Definition dpu_alloc_comm (fuel : nat) (nr_dpus comm_type : Z) : H (option dpu_set_t) :=
  dispatch_on_all_ranks ← dispatch_property nr_dpus;
  o ← take_ranks fuel nr_dpus dispatch_on_all_ranks
        (fun got => dispatch_on_all_ranks || (total got <? u32 (nr_dpus + total (incomplete_ranks got)))) [];
  match o with
  | None => mret None
  | Some (Failed got not_reset status) =>
      if 40 <? lenz got then mret None else error_free_ranks (got.*1 ++ not_reset) status
  | Some (Taken got) =>
      if 40 <? lenz got then mret None else
      _ ← free_all (incomplete_ranks got).*1;
      let current_ranks := (complete_ranks got).*1 in
      if nr_dpus / 64 + (nr_dpus mod 64 + 63) / 64 <? lenz current_ranks then mret None else
      let current_nr_of_dpus := u32 (total got - total (incomplete_ranks got)) in
      let nr_dpus := if nr_dpus =? DPU_ALLOCATE_ALL then current_nr_of_dpus else nr_dpus in
      or_free current_ranks (
        o ← as_internal (disable_unused_dpus (comm_grouping comm_type) current_nr_of_dpus nr_dpus current_ranks);
        match o with
        | None => mret None
        | Some _ => dpu_set ← init_dpu_set current_ranks; mret (Some dpu_set)
        end)
  end.

(** The loop of [dpu_alloc_ranks]: the ranks taken, and the status that ended it;
    a rank whose reset failed is not among them. *)
Fixpoint take_n_ranks (n : nat) (ranks : list rank_ptr) : H (list rank_ptr * result unit) :=
  match n with
  | O => mret (ranks, Ok tt)
  | S n =>
      next_rank ← attempt dpu_get_rank_of_type;
      match next_rank with
      | Err e => mret (ranks, Err e)
      | Ok r =>
          status ← attempt (reset_new_rank r);
          match status with
          | Err e => mret (ranks, Err e)
          | Ok _ => take_n_ranks n (ranks ++ [r])
          end
      end
  end.
Definition dpu_alloc_ranks (fuel : nat) (nr_ranks : Z) : H (option dpu_set_t) :=
  if nr_ranks =? DPU_ALLOCATE_ALL then dpu_alloc fuel DPU_ALLOCATE_ALL
  else if nr_ranks =? 0 then fail DPU_ERR_ALLOCATION
  else
    '(ranks, status) ← take_n_ranks (Z.to_nat nr_ranks) [];
    match status with
    | Err e => error_free_ranks ranks e
    | Ok _ =>
        or_free ranks (
          dpu_set ← init_dpu_set ranks;
          nr_dpus ← gets (fun h => foldl (fun nr_dpus r => u32 (nr_dpus + get_nr_of_dpus_in_rank (ranks_of_host h r))) 0 ranks);
          _ ← init_scatter_gather_transfer_buffer nr_dpus ranks;
          mret (Some dpu_set))
    end.

(** ** Freeing a set; only sets of ranks are ever registered *)

Definition thread_job_free (ranks : list rank_ptr) : H unit := modify (fun h =>
  mk_host (worlds h) (calls h) (freed h) (filter (fun l => l <> ranks) (jobs_created h)) (set_allocator_sets h)
    (sg_xfer_enabled h) (sg_buffer_pool h) (dpu_offset h)).
Definition dpu_free (ranks : list rank_ptr) : H unit :=
  _ ← sg_buffer_pool_free ranks;
  _ ← set_allocator_unregister (DPU_SET_RANKS ranks);
  _ ← thread_job_free ranks;
  free_all ranks.
End Alloc.

(** ** The choice is the best line *)

Section Choice.
Variable store : rank_ptr -> rank.

(** A line with an enabled DPU: its disabled DPUs, the DPUs of its rank, and
    the DPU that would be disabled. *)
Definition candidate : Type := Z * Z * (rank_ptr * Z * Z).
Definition pick (c : choice) (x : candidate) : choice :=
  if better true (x.1.1) (x.1.2) c then mk_choice (Some x.2) (x.1.1) (x.1.2) else c.

Definition candidates_on (e outer inner : Z) (en : Z -> Z -> bool) (at_ : Z -> Z -> rank_ptr * Z * Z) : list candidate :=
  omap (fun i => let '(count, last, one) := scan_line inner (en i) in
    if one then Some (count, e, at_ i last) else None) (seqZ 0 outer).
Definition candidates (g : grouping) (r : rank_ptr) : list candidate :=
  let rk := store r in
  let e := get_nr_of_dpus_in_rank rk in
  if e =? 1 then [] else match g with
  | BY_LINE => candidates_on e (nr_dpus_of rk) (nr_cis_of rk)
      (fun line ci => enabled (dpu_of rk ci line)) (fun line ci => (r, ci, line))
  | BY_INTERFACE => candidates_on e (nr_cis_of rk) (nr_dpus_of rk)
      (fun ci line => enabled (dpu_of rk ci line)) (fun ci line => (r, ci, line))
  | BY_NOTHING => []
  end.

Lemma scan_rank_pick r e outer inner en at_ c :
  scan_rank r e outer inner en at_ c = foldl pick c (candidates_on e outer inner en at_).
Proof.
  unfold scan_rank, candidates_on, for_up. revert c. generalize (seqZ 0 outer) as l.
  induction l as [|i l IH]; intros c; [done|]. cbn [foldl omap list_omap].
  destruct (scan_line inner (en i)) as [[count last] one] eqn:E. destruct one.
  - cbn [foldl]. rewrite IH. done.
  - unfold better at 1. cbn [andb]. apply IH.
Qed.

Lemma choose_pick g ranks : choose g store ranks = foldl pick no_choice (concat (map (candidates g) ranks)).
Proof.
  unfold choose. generalize no_choice as c. induction ranks as [|r ranks IH]; intros c; [done|].
  cbn [foldl map concat]. rewrite foldl_app, IH. f_equal. unfold scan_one, candidates.
  destruct (_ =? 1); [done|]. destruct g; [apply scan_rank_pick..|done].
Qed.

Definition key_le (a b : Z * Z) : Prop := a.1 < b.1 \/ (a.1 = b.1 /\ a.2 <= b.2).
Lemma key_le_trans a b c : key_le a b -> key_le b c -> key_le a c.
Proof. unfold key_le. lia. Qed.

Lemma better_key d e c : better true d e c = true <-> key_le (max_disabled c, max_enabled_on_rank c) (d, e).
Proof.
  unfold better, key_le. cbn. rewrite orb_true_iff, andb_true_iff, Z.ltb_lt, Z.eqb_eq, Z.leb_le. lia.
Qed.

(** The choice after some candidates: one of them, and none is better. *)
Lemma pick_best l : (forall x, x ∈ l -> 0 <= x.1.1 /\ 0 <= x.1.2) ->
  let c := foldl pick no_choice l in
  (forall x, x ∈ l -> key_le x.1 (max_disabled c, max_enabled_on_rank c)) /\
  match target c with
  | None => l = []
  | Some t => (max_disabled c, max_enabled_on_rank c, t) ∈ l
  end.
Proof.
  induction l as [|x l IH] using rev_ind; intros Hl.
  { split; [|done]. intros x Hx. by apply not_elem_of_nil in Hx. }
  rewrite foldl_app. cbn [foldl]. destruct IH as [Hmax Hin]; [intros y Hy; apply Hl, elem_of_app; by left|].
  pose proof (Hl x ltac:(apply elem_of_app; right; by apply list_elem_of_singleton)) as Hx.
  set (c := foldl pick no_choice l) in *. cbv zeta in *. unfold pick.
  destruct (better true x.1.1 x.1.2 c) eqn:E.
  - cbn [target max_disabled max_enabled_on_rank]. apply better_key in E. split.
    + intros y [Hy| ->%list_elem_of_singleton]%elem_of_app.
      * eapply key_le_trans; [by apply Hmax|]. by destruct x as [[]].
      * destruct x as [[] ]; cbn. right. cbn. lia.
    + apply elem_of_app. right. apply list_elem_of_singleton. by destruct x as [[]].
  - assert (target c <> None) as Ht.
    { intros Hn. rewrite Hn in Hin. subst l. unfold better in E. cbn in E. lia. }
    split.
    + intros y [Hy| ->%list_elem_of_singleton]%elem_of_app; [by apply Hmax|].
      destruct x as [[d e] t]. cbn [fst snd] in E, Hx |- *.
      apply not_true_iff_false in E. rewrite better_key in E. unfold key_le in *. cbn [fst snd] in *. lia.
    + destruct (target c); [|done]. apply elem_of_app. by left.
Qed.
End Choice.

(** How many of the DPUs of a line are disabled. *)
Definition disabled_among (n : Z) (en : Z -> bool) : Z := sum_up n (fun i => if en i then 0 else 1).

Lemma disabled_among_bounds n en : 0 <= n -> 0 <= disabled_among n en <= n.
Proof.
  intros Hn. unfold disabled_among. pose proof (sum_up_bounds n (fun i => if en i then 0 else 1) 1 Hn) as Hb.
  specialize (Hb ltac:(intros i _; cbv beta; destruct (en i); lia)). lia.
Qed.

Lemma scan_line_spec n en : 0 <= n < 2 ^ 32 ->
  let '(count, last, one) := scan_line n en in
  count = disabled_among n en /\
  (if one then 0 <= last < n /\ en last = true else forall i, 0 <= i < n -> en i = false).
Proof.
  intros Hn. unfold scan_line, disabled_among.
  enough (forall k, 0 <= k <= n -> let '(count, last, one) := for_up k (fun i '(count_disabled, last_enabled, one_enabled) =>
      if en i then (count_disabled, i, true) else (u32 (count_disabled + 1), last_enabled, one_enabled)) (0, 0, false) in
    count = sum_up k (fun i => if en i then 0 else 1) /\
    (if one then 0 <= last < k /\ en last = true else forall i, 0 <= i < k -> en i = false)) as Hk by (apply Hk; lia).
  intros k Hk.
  apply (for_up_ind (fun k (st : Z * Z * bool) => let '(count, last, one) := st in
    count = sum_up k (fun i => if en i then 0 else 1) /\
    (if one then 0 <= last < k /\ en last = true else forall i, 0 <= i < k -> en i = false))); [lia| |].
  - split; [done|]. intros i Hi. lia.
  - intros i [[count last] one] Hi [-> Hone]. cbn beta iota. rewrite sum_up_succ by lia.
    destruct (en i) eqn:E.
    + split; [lia|]. split; [lia|done].
    + pose proof (disabled_among_bounds i en ltac:(lia)) as Hb. unfold disabled_among in Hb. split.
      * apply u32_id. unfold fits. lia.
      * destruct one; [split; [lia|by apply Hone]|]. intros j Hj. destruct (decide (j = i)) as [->|]; [done|].
        apply Hone. lia.
Qed.

Lemma candidates_on_spec e outer inner en at_ x : 0 <= inner < 2 ^ 32 ->
  x ∈ candidates_on e outer inner en at_ <->
  exists i j, 0 <= i < outer /\ 0 <= j < inner /\ en i j = true /\ x = (disabled_among inner (en i), e, at_ i j) /\
    scan_line inner (en i) = (disabled_among inner (en i), j, true).
Proof.
  intros Hn. unfold candidates_on. rewrite list_elem_of_omap. split.
  - intros (i & Hi%elem_of_seqZ & Hx). pose proof (scan_line_spec inner (en i) Hn) as Hs.
    destruct (scan_line inner (en i)) as [[count last] one] eqn:E. destruct Hs as [-> Hs]. destruct one; [|done].
    injection Hx as <-. exists i, last. split_and!; try done; try lia; by apply Hs.
  - intros (i & j & Hi & Hj & He & -> & Hs). exists i. split; [apply elem_of_seqZ; lia|]. by rewrite Hs.
Qed.

(** Every enabled DPU is on the line of a candidate. *)
Lemma candidates_on_complete e outer inner en at_ i j : 0 <= inner < 2 ^ 32 -> 0 <= i < outer -> 0 <= j < inner ->
  en i j = true -> exists j', (disabled_among inner (en i), e, at_ i j') ∈ candidates_on e outer inner en at_.
Proof.
  intros Hn Hi Hj He. pose proof (scan_line_spec inner (en i) Hn) as Hs.
  destruct (scan_line inner (en i)) as [[count last] one] eqn:E. destruct Hs as [-> Hs]. destruct one.
  - exists last. apply candidates_on_spec; [done|]. exists i, last. split_and!; try done; try lia; by apply Hs.
  - rewrite Hs in He by done. done.
Qed.

(** ** One DPU less *)

Definition without_dpu (s d : Z) (r : rank) : rank :=
  upd_dpu s d (set_enabled false) (upd_slice s (fun info =>
    set_all_dpus_are_enabled false (set_enabled_dpus (enabled_dpus info &&& not8 (Z.shiftl 1 d)) info)) r).

Lemma counted_frame r r' : mux_frame r r' -> counted r -> counted r'.
Proof.
  intros Hf [Hwf Hm Ha]. pose proof Hf as [Hd _ _ _ _ _ He Hall].
  assert (nr_cis_of r' = nr_cis_of r /\ nr_dpus_of r' = nr_dpus_of r) as [Hc Hn] by (unfold nr_cis_of, nr_dpus_of; by rewrite Hd).
  split; rewrite ?Hc, ?Hn.
  - eapply run_frame_wf; [|done]. by apply mux_frame_run_frame.
  - intros s Hs. rewrite He by lia. by apply Hm.
  - intros s Hs. rewrite He, Hall by lia. by apply Ha.
Qed.
Lemma count_frame r r' : mux_frame r r' -> get_nr_of_dpus_in_rank r' = get_nr_of_dpus_in_rank r.
Proof.
  intros [Hd _ _ _ _ _ He Hall]. unfold get_nr_of_dpus_in_rank, nr_cis_of, nr_dpus_of. rewrite Hd.
  assert (forall l acc, Forall (fun i => 0 <= i) l ->
    foldl (fun count each_ci => if all_dpus_are_enabled (slice_of r' each_ci)
      then u32 (count + nr_of_dpus_per_control_interface (desc r)) else u32 (count + popcount (enabled_dpus (slice_of r' each_ci)))) acc l =
    foldl (fun count each_ci => if all_dpus_are_enabled (slice_of r each_ci)
      then u32 (count + nr_of_dpus_per_control_interface (desc r)) else u32 (count + popcount (enabled_dpus (slice_of r each_ci)))) acc l) as Hl.
  { induction l as [|i l IH]; intros acc Hl; [done|]. apply list_relations.list.Forall_cons in Hl as [Hi Hl].
    cbn [foldl]. rewrite IH by done. by rewrite He, Hall by done. }
  apply Hl. apply list_relations.list.Forall_forall. intros i Hi%elem_of_seqZ. lia.
Qed.

Lemma byte_clear_bit m d : fits 8 m -> 0 <= d < 8 -> Z.testbit m d = true ->
  popcount (m &&& not8 (Z.shiftl 1 d)) = popcount m - 1.
Proof.
  unfold fits. change (2 ^ 8) with 256. intros Hm Hd. revert d Hd. revert m Hm.
  apply (forall_range_spec (fun m => forall d, 0 <= d < 8 -> Z.testbit m d = true ->
    popcount (m &&& not8 (Z.shiftl 1 d)) = popcount m - 1)). vm_compute. reflexivity.
Qed.
Lemma cleared_testbit m d e : 0 <= d < 8 -> 0 <= e < 8 ->
  Z.testbit (m &&& not8 (Z.shiftl 1 d)) e = Z.testbit m e && negb (e =? d).
Proof.
  intros Hd He. rewrite Z.land_spec, not8_testbit by done. rewrite testbit_pow2 by lia.
  do 2 f_equal. apply eq_true_iff_eq. rewrite bool_decide_eq_true, Z.eqb_eq. lia.
Qed.

Lemma enabled_in_array r s d : enabled (dpu_of r s d) = true -> DPU_INDEX r s d < lenz (dpus r).
Proof.
  intros He. destruct (Z_lt_le_dec (DPU_INDEX r s d) (lenz (dpus r))) as [|Hge]; [done|].
  unfold dpu_of, getz in He. rewrite list_lookup_total_alt, lookup_ge_None_2 in He by (unfold lenz in Hge; lia). done.
Qed.

Lemma index_inj n s d i e : 0 <= d < n -> 0 <= e < n -> n * s + d = n * i + e -> i = s /\ e = d.
Proof.
  intros Hd He Heq. assert (i = s) as ->; [|lia]. destruct (Z.lt_trichotomy i s) as [Hlt|[|Hgt]]; [|done|]; nia.
Qed.

Section Without.
Context (r : rank) (s d : Z).
Hypotheses (Hc : counted r) (Hin : in_rank r s d) (Hen : enabled (dpu_of r s d) = true).
Let r' := without_dpu s d r.

Lemma without_dims : nr_cis_of r' = nr_cis_of r /\ nr_dpus_of r' = nr_dpus_of r /\ lenz (dpus r') = lenz (dpus r).
Proof using Type. split_and!; try done. apply lenz_setz. Qed.

Lemma without_slice i : 0 <= i -> slice_of r' i = if decide (i = s)
  then set_all_dpus_are_enabled false (set_enabled_dpus (enabled_dpus (slice_of r s) &&& not8 (Z.shiftl 1 d)) (slice_of r s))
  else slice_of r i.
Proof using Hc Hin.
  intros Hi. destruct Hc as [Hwf _ _]. destruct Hin as [Hs _]. pose proof (rw_slices _ Hwf). pose proof (rw_cis _ Hwf).
  unfold r', without_dpu. match goal with |- slice_of (upd_dpu _ _ _ ?x) i = ?y => change (slice_of x i = y) end.
  rewrite slice_of_upd by lia. repeat case_decide; (done || congruence).
Qed.

Lemma without_enabled i e : 0 <= i < nr_cis_of r -> 0 <= e < nr_dpus_of r ->
  enabled (dpu_of r' i e) = enabled (dpu_of r i e) && negb (bool_decide (i = s /\ e = d)).
Proof using Hc Hin Hen.
  intros Hi He. destruct Hc as [Hwf _ _]. destruct Hin as [Hs Hd]. pose proof (rw_dpus _ Hwf) as Hn.
  pose proof (enabled_in_array r s d Hen) as Hlt.
  assert (dpu_of r' i e = if decide (i = s /\ e = d) then set_enabled false (dpu_of r s d) else dpu_of r i e) as ->.
  { unfold r', without_dpu, upd_dpu, dpu_of, DPU_INDEX, nr_dpus_of in *. cbn [dpus set_dpus desc upd_slice set_ci] in *.
    rewrite getz_setz by nia. case_decide as H1; case_decide as H2; try done; exfalso; [apply H2; by apply (index_inj (nr_of_dpus_per_control_interface (desc r)))|apply H1; destruct H2; by subst]. }
  case_decide as H; [|by rewrite bool_decide_false, andb_true_r].
  rewrite bool_decide_true by done. cbn. by rewrite andb_false_r.
Qed.

Lemma without_counted : counted r' /\ get_nr_of_dpus_in_rank r' = get_nr_of_dpus_in_rank r - 1.
Proof using Hc Hin Hen.
  destruct without_dims as (Hnc & Hnd & _). pose proof Hc as [Hwf Hm Ha]. pose proof Hin as [Hs Hd].
  pose proof (rw_dpus _ Hwf) as Hn. pose proof (rw_dpu _ Hwf s d Hs Hd) as Hb. rewrite Hen in Hb.
  assert (forall i, 0 <= i < nr_cis_of r -> enabled_dpus (slice_of r' i) =
    if decide (i = s) then enabled_dpus (slice_of r s) &&& not8 (Z.shiftl 1 d) else enabled_dpus (slice_of r i)) as He.
  { intros i Hi. rewrite without_slice by lia. by case_decide. }
  assert (counted r') as Hc'.
  { assert (forall i, 0 <= i < nr_cis_of r -> fits (nr_dpus_of r) (enabled_dpus (slice_of r' i))) as Hfit.
    { intros i Hi. rewrite He by done. case_decide; [|by apply Hm].
      apply fits_land; [lia| |by apply Hm]. unfold not8. pose proof (u8_fits (Z.shiftl 1 d)) as Hu. unfold fits in Hu. lia. }
    split; rewrite ?Hnc, ?Hnd; [split; rewrite ?Hnc, ?Hnd|done|].
    - apply Hwf.
    - apply Hwf.
    - rewrite <- (rw_slices _ Hwf). unfold r', without_dpu. apply lenz_upd_slice.
    - intros i Hi. eapply fits_mono; [|by apply Hfit]. lia.
    - intros i e Hi He'. rewrite without_enabled by done. rewrite (rw_dpu _ Hwf) by done. rewrite He by done.
      case_decide as Hi'; [subst i|by rewrite bool_decide_false by tauto; rewrite andb_true_r].
      rewrite cleared_testbit by lia. do 2 f_equal. apply eq_true_iff_eq. rewrite bool_decide_eq_true, Z.eqb_eq. tauto.
    - intros i Hi. rewrite He by done. rewrite without_slice by lia. case_decide as Hi'; [done|]. by apply Ha. }
  split; [done|]. rewrite (proj1 (nr_dpus_in_rank_sum _ Hc')), (proj1 (nr_dpus_in_rank_sum _ Hc)), Hnc.
  rewrite (sum_up_change _ (fun i => popcount (enabled_dpus (slice_of r i))) _ s Hs).
  - rewrite He by done. rewrite decide_True by done. rewrite byte_clear_bit; [lia|by apply (rw_enabled _ Hwf)|lia|done].
  - intros i Hi Hne. rewrite He by done. by rewrite decide_False by done.
Qed.
End Without.

Section DisableOne.
Context {D : Type} `{!RankHandler D}.

Lemma keeps_disable_dpu d : keeps (ci_disable_dpu (D := D) d).
Proof. unfold ci_disable_dpu. keeps_steps. Qed.

(** Either the DPU is disabled, or the command failed and the rank keeps its DPUs. *)
Lemma disable_one_spec s d (w : world D) : enabled (dpu_of (rk w) s d) = true ->
  let '(w', res) := dpu_disable_one_dpu s d w in
  match res with
  | Ok _ => exists r, mux_frame (rk w) r /\ rk w' = without_dpu s d r
  | Err _ => mux_frame (rk w) (rk w')
  end.
Proof.
  intros He. unfold dpu_disable_one_dpu. unfold mbind, C_bind at 1. cbn [get_rank gets]. unfold get_rank, gets.
  rewrite He. cbn [negb]. unfold C_bind. pose proof (proj1 (keeps_disable_dpu (dpu_of (rk w) s d) w)) as Hk.
  destruct (ci_disable_dpu (dpu_of (rk w) s d) w) as [w1 [[]|e]]; cbn [fst] in Hk; [|done].
  exists (rk w1). split; [done|]. reflexivity.
Qed.

Lemma mux_frame_enabled r r' s d : mux_frame r r' -> enabled (dpu_of r' s d) = enabled (dpu_of r s d).
Proof. intros [Hd _ Hp _ _ _ _ _]. unfold dpu_of, DPU_INDEX, nr_dpus_of. by rewrite Hd, Hp. Qed.
Lemma mux_frame_in_rank r r' s d : mux_frame r r' -> in_rank r s d -> in_rank r' s d.
Proof. intros [Hd _ _ _ _ _ _ _]. unfold in_rank, nr_cis_of, nr_dpus_of. by rewrite Hd. Qed.

Lemma disable_one_counted s d (w : world D) : counted (rk w) -> in_rank (rk w) s d ->
  enabled (dpu_of (rk w) s d) = true ->
  let '(w', res) := dpu_disable_one_dpu s d w in
  counted (rk w') /\ get_nr_of_dpus_in_rank (rk w') =
    if res then get_nr_of_dpus_in_rank (rk w) - 1 else get_nr_of_dpus_in_rank (rk w).
Proof.
  intros Hc Hin He. pose proof (disable_one_spec s d w He) as Hs. destruct (dpu_disable_one_dpu s d w) as [w' [[]|e]].
  - destruct Hs as (r & Hf & ->). rewrite <-(count_frame _ _ Hf).
    apply without_counted; [by eapply counted_frame|by eapply mux_frame_in_rank|by rewrite (mux_frame_enabled _ _ _ _ Hf)].
  - split; [by eapply counted_frame|by apply count_frame].
Qed.
End DisableOne.

(** A rank with an enabled DPU. *)
Lemma counted_enabled r : counted r -> 0 < get_nr_of_dpus_in_rank r ->
  exists s d, in_rank r s d /\ enabled (dpu_of r s d) = true.
Proof.
  intros Hc Hpos. pose proof Hc as [Hwf Hm _]. rewrite (proj1 (nr_dpus_in_rank_sum r Hc)) in Hpos.
  pose proof (rw_cis _ Hwf) as Hcis. pose proof (rw_dpus _ Hwf) as Hd.
  assert (forall n, 0 <= n <= nr_cis_of r -> 0 < sum_up n (fun s => popcount (enabled_dpus (slice_of r s))) ->
    exists s, 0 <= s < n /\ 0 < popcount (enabled_dpus (slice_of r s))) as Hex.
  { intros n Hn. apply (natlike_ind (fun n => n <= nr_cis_of r ->
      0 < sum_up n (fun s => popcount (enabled_dpus (slice_of r s))) ->
      exists s, 0 <= s < n /\ 0 < popcount (enabled_dpus (slice_of r s)))); [| |lia|lia].
    - intros _ H. unfold sum_up in H. rewrite for_up_0 in H; lia.
    - intros k Hk IH Hle H. unfold Z.succ in H. rewrite sum_up_succ in H by lia.
      destruct (Z_lt_le_dec 0 (popcount (enabled_dpus (slice_of r k)))) as [|Hz]; [exists k; lia|].
      destruct IH as (s & Hs & Hp); [lia|lia|]. exists s. split; [lia|done]. }
  destruct (Hex (nr_cis_of r) ltac:(lia) Hpos) as (s & Hs & Hp). pose proof (Hm s Hs) as Hfit.
  set (m := enabled_dpus (slice_of r s)) in *.
  assert (0 < m) as Hm0 by (destruct m; [done|unfold fits in *; lia|unfold fits in *; lia]).
  exists s, (ctz m). pose proof (ctz_testbit m Hm0) as Hb.
  assert (0 <= ctz m < nr_dpus_of r) as Hr.
  { pose proof (testbit_true_range m (ctz m) ltac:(lia) Hb). split; [lia|].
    eapply Z.le_lt_trans; [apply H|]. apply Z.log2_lt_pow2; [done|]. apply Hfit. }
  split; [done|]. by rewrite (rw_dpu _ Hwf).
Qed.

(** ** Disabling DPUs of a list of ranks *)

Section DisableMany.
Context {D : Type} `{!RankHandler D}.
Implicit Types h : host D.

Definition usable_ranks h (ranks : list rank_ptr) : Prop :=
  Forall (fun r => counted (ranks_of_host h r) /\ 1 <= get_nr_of_dpus_in_rank (ranks_of_host h r)) ranks.
Definition nb_dpus h (ranks : list rank_ptr) : Z :=
  foldr (fun r n => get_nr_of_dpus_in_rank (ranks_of_host h r) + n) 0 ranks.

(** Only the worlds of some ranks changed. *)
Record worlds_frame (ranks : list rank_ptr) h h' : Prop := {
  wf_worlds : forall r, r ∉ ranks -> worlds h' r = worlds h r;
  wf_calls : calls h' = calls h;
  wf_freed : freed h' = freed h;
  wf_jobs : jobs_created h' = jobs_created h;
  wf_sets : set_allocator_sets h' = set_allocator_sets h;
  wf_sg : sg_xfer_enabled h' = sg_xfer_enabled h;
  wf_pool : sg_buffer_pool h' = sg_buffer_pool h;
  wf_offset : dpu_offset h' = dpu_offset h;
}.
#[export] Instance worlds_frame_preorder ranks : PreOrder (worlds_frame ranks).
Proof.
  split; [by intros h; split|]. intros h1 h2 h3 [] []. split; try congruence.
  intros r Hr. by rewrite wf_worlds1, wf_worlds0.
Qed.

Lemma nb_dpus_update h h' ranks r : NoDup ranks -> r ∈ ranks ->
  (forall r', r' <> r -> worlds h' r' = worlds h r') ->
  nb_dpus h' ranks = nb_dpus h ranks + (get_nr_of_dpus_in_rank (ranks_of_host h' r) - get_nr_of_dpus_in_rank (ranks_of_host h r)).
Proof.
  intros Hnd Hin Hother. induction ranks as [|r' ranks IH]; [by apply not_elem_of_nil in Hin|].
  apply list_relations.list.NoDup_cons in Hnd as [Hni Hnd]. cbn [nb_dpus foldr]. fold (nb_dpus h' ranks) (nb_dpus h ranks).
  apply elem_of_cons in Hin as [->|Hin].
  - assert (nb_dpus h' ranks = nb_dpus h ranks) as ->; [|lia]. clear IH Hnd.
    induction ranks as [|r'' ranks IH]; [done|]. apply not_elem_of_cons in Hni as [Hne Hni].
    cbn [nb_dpus foldr]. fold (nb_dpus h' ranks) (nb_dpus h ranks). rewrite IH by done.
    unfold ranks_of_host. by rewrite (Hother r'') by done.
  - rewrite (IH Hnd Hin). unfold ranks_of_host at 1. rewrite (Hother r') by congruence. unfold ranks_of_host. lia.
Qed.

Lemma nb_dpus_ge h ranks : usable_ranks h ranks -> lenz ranks <= nb_dpus h ranks.
Proof.
  unfold usable_ranks, lenz. induction 1 as [|r ranks [_ Hr] _ IH]; [done|]. cbn [nb_dpus foldr length].
  fold (nb_dpus h ranks). lia.
Qed.
Lemma nb_dpus_busy h ranks : lenz ranks < nb_dpus h ranks -> usable_ranks h ranks ->
  exists r, r ∈ ranks /\ 1 < get_nr_of_dpus_in_rank (ranks_of_host h r).
Proof.
  unfold usable_ranks, lenz. intros Hlt. induction 1 as [|r ranks [_ Hr] _ IH]; [done|]. cbn [nb_dpus foldr length] in Hlt.
  fold (nb_dpus h ranks) in Hlt. destruct (Z_lt_le_dec 1 (get_nr_of_dpus_in_rank (ranks_of_host h r))).
  - exists r. split; [by constructor|done].
  - destruct IH as (r' & ? & ?); [lia|]. exists r'. split; [by constructor|done].
Qed.
End DisableMany.

Section DisableUnused.
Context {D : Type} `{!RankHandler D}.
Implicit Types h : host D.

Definition line_en (g : grouping) (rk : rank) (i j : Z) : bool :=
  enabled (match g with BY_INTERFACE => dpu_of rk i j | _ => dpu_of rk j i end).
Definition line_size (g : grouping) (rk : rank) : Z := match g with BY_INTERFACE => nr_dpus_of rk | _ => nr_cis_of rk end.

(** A candidate is a line of a rank that has other DPUs, with its last enabled DPU. *)
Lemma candidate_ok g h ranks x : usable_ranks h ranks -> x ∈ concat (map (candidates (ranks_of_host h) g) ranks) ->
  exists r ci line, x.2 = (r, ci, line) /\ r ∈ ranks /\ in_rank (ranks_of_host h r) ci line /\
    enabled (dpu_of (ranks_of_host h r) ci line) = true /\ get_nr_of_dpus_in_rank (ranks_of_host h r) <> 1 /\
    0 <= x.1.1 /\ 1 <= x.1.2 /\ x.1.2 = get_nr_of_dpus_in_rank (ranks_of_host h r) /\
    x.1.1 = disabled_among (line_size g (ranks_of_host h r))
      (line_en g (ranks_of_host h r) (match g with BY_INTERFACE => ci | _ => line end)).
Proof.
  intros Hok Hx. apply list_elem_of_In, in_concat in Hx as (l & Hl & Hx). apply in_map_iff in Hl as (r & <- & Hr).
  apply list_elem_of_In in Hx, Hr. unfold candidates in Hx.
  eapply list_relations.list.Forall_forall in Hok as [Hc Hpos]; [|exact Hr].
  pose proof (counted_wf _ Hc) as Hw. pose proof (rw_cis _ Hw) as Hcis. pose proof (rw_dpus _ Hw) as Hd. unfold DPU_MAX_NR_CIS in Hcis.
  destruct (Z.eqb_spec (get_nr_of_dpus_in_rank (ranks_of_host h r)) 1); [by apply not_elem_of_nil in Hx|].
  destruct g; [..|by apply not_elem_of_nil in Hx]; apply candidates_on_spec in Hx as (i & j & Hi & Hj & He & -> & _); try lia; cbn [fst snd].
  - exists r, j, i. split_and!; try done. apply disabled_among_bounds. lia.
  - exists r, i, j. split_and!; try done. apply disabled_among_bounds. lia.
Qed.

(** An enabled DPU of such a rank is on the line of a candidate. *)
Lemma candidate_exists g h ranks r ci line : usable_ranks h ranks -> g <> BY_NOTHING -> r ∈ ranks ->
  get_nr_of_dpus_in_rank (ranks_of_host h r) <> 1 -> in_rank (ranks_of_host h r) ci line ->
  enabled (dpu_of (ranks_of_host h r) ci line) = true ->
  exists t, (disabled_among (line_size g (ranks_of_host h r))
      (line_en g (ranks_of_host h r) (match g with BY_INTERFACE => ci | _ => line end)),
    get_nr_of_dpus_in_rank (ranks_of_host h r), t) ∈ concat (map (candidates (ranks_of_host h) g) ranks).
Proof.
  intros Hok Hg Hr Hne [Hs Hd] He. pose proof Hok as Hok'. eapply list_relations.list.Forall_forall in Hok' as [Hc _]; [|exact Hr].
  pose proof (counted_wf _ Hc) as Hw. pose proof (rw_cis _ Hw) as Hcis. pose proof (rw_dpus _ Hw) as Hdp. unfold DPU_MAX_NR_CIS in Hcis.
  enough (exists t, (disabled_among (line_size g (ranks_of_host h r))
      (line_en g (ranks_of_host h r) (match g with BY_INTERFACE => ci | _ => line end)),
    get_nr_of_dpus_in_rank (ranks_of_host h r), t) ∈ candidates (ranks_of_host h) g r) as [t Ht].
  { exists t. apply list_elem_of_In, in_concat. exists (candidates (ranks_of_host h) g r).
    split; [|by apply list_elem_of_In]. apply in_map_iff. exists r. split; [done|by apply list_elem_of_In]. }
  unfold candidates. rewrite (proj2 (Z.eqb_neq _ _)) by lia. destruct g; [..|done].
  - destruct (candidates_on_complete (get_nr_of_dpus_in_rank (ranks_of_host h r)) (nr_dpus_of (ranks_of_host h r))
      (nr_cis_of (ranks_of_host h r)) (line_en BY_LINE (ranks_of_host h r)) (fun line ci => (r, ci, line))
      line ci ltac:(lia) Hd Hs He) as [j Hj]. by eexists.
  - destruct (candidates_on_complete (get_nr_of_dpus_in_rank (ranks_of_host h r)) (nr_cis_of (ranks_of_host h r))
      (nr_dpus_of (ranks_of_host h r)) (line_en BY_INTERFACE (ranks_of_host h r)) (fun ci line => (r, ci, line))
      ci line ltac:(lia) Hs Hd He) as [j Hj]. by eexists.
Qed.

Lemma choice_best g h ranks : usable_ranks h ranks -> let c := choose g (ranks_of_host h) ranks in
  (forall x, x ∈ concat (map (candidates (ranks_of_host h) g) ranks) -> key_le x.1 (max_disabled c, max_enabled_on_rank c)) /\
  match target c with
  | None => concat (map (candidates (ranks_of_host h) g) ranks) = []
  | Some t => (max_disabled c, max_enabled_on_rank c, t) ∈ concat (map (candidates (ranks_of_host h) g) ranks)
  end.
Proof.
  intros Hok. cbv zeta. rewrite choose_pick. apply pick_best. intros x Hx.
  destruct (candidate_ok g h ranks x Hok Hx) as (r & ci & line & Hrest). destruct_and!. lia.
Qed.

(** A choice is an enabled DPU of one of the ranks, whose rank has another one. *)
Lemma choice_ok g h ranks r ci line : usable_ranks h ranks -> target (choose g (ranks_of_host h) ranks) = Some (r, ci, line) ->
  r ∈ ranks /\ in_rank (ranks_of_host h r) ci line /\ enabled (dpu_of (ranks_of_host h r) ci line) = true /\
  get_nr_of_dpus_in_rank (ranks_of_host h r) <> 1.
Proof.
  intros Hok Ht. pose proof (choice_best g h ranks Hok) as [_ Hin]. rewrite Ht in Hin.
  destruct (candidate_ok g h ranks _ Hok Hin) as (r' & ci' & line' & Heq & Hr & Hi & He & Hne & _).
  cbn [snd] in Heq. injection Heq as -> -> ->. done.
Qed.

(** There is a choice as long as a rank has two DPUs. *)
Lemma choice_exists g h ranks : g <> BY_NOTHING -> usable_ranks h ranks -> lenz ranks < nb_dpus h ranks ->
  exists r ci line, target (choose g (ranks_of_host h) ranks) = Some (r, ci, line).
Proof.
  intros Hg Hok Hlt. destruct (nb_dpus_busy h ranks Hlt Hok) as (r & Hr & Hbusy).
  pose proof Hok as Hok'. eapply list_relations.list.Forall_forall in Hok' as [Hc _]; [|exact Hr].
  destruct (counted_enabled _ Hc ltac:(lia)) as (s & d & Hin & He).
  destruct (candidate_exists g h ranks r s d Hok Hg Hr ltac:(lia) Hin He) as [t Ht].
  pose proof (choice_best g h ranks Hok) as [_ Hnone].
  destruct (target (choose g (ranks_of_host h) ranks)) as [[[r' ci'] line']|]; [by exists r', ci', line'|].
  rewrite Hnone in Ht. by apply not_elem_of_nil in Ht.
Qed.

Lemma worlds_frame_on_world {A} r (m : W D A) h ranks : r ∈ ranks -> worlds_frame ranks h (fst (on_world_of r m h)).
Proof.
  intros Hr. unfold on_world_of. destruct (m (worlds h r)) as [w res]. cbn [fst]. split; try done.
  intros r' Hr'. cbn [worlds]. apply fn_lookup_insert_ne. congruence.
Qed.

(** One turn of the loop: a DPU less, no rank empty, or the command failed. *)
Lemma disable_one_ok g h ranks : g <> BY_NOTHING -> NoDup ranks -> usable_ranks h ranks -> lenz ranks < nb_dpus h ranks ->
  let '(h', res) := disable_one_dpu g ranks h in
  worlds_frame ranks h h' /\
  match res with
  | Ok (Some _) => usable_ranks h' ranks /\ nb_dpus h' ranks = nb_dpus h ranks - 1
  | Ok None => False
  | Err _ => True
  end.
Proof.
  intros Hg Hnd Hok Hlt. destruct (choice_exists g h ranks Hg Hok Hlt) as (r & ci & line & Ht).
  destruct (choice_ok g h ranks r ci line Hok Ht) as (Hr & Hin & He & Hne).
  unfold disable_one_dpu, mbind, C_bind, gets. rewrite Ht.
  pose proof (worlds_frame_on_world r (dpu_disable_one_dpu ci line) h ranks Hr) as Hf.
  pose proof Hok as Hok'. eapply list_relations.list.Forall_forall in Hok' as [Hc Hpos]; [|exact Hr].
  pose proof (disable_one_counted ci line (worlds h r) Hc Hin He) as Hd.
  unfold on_world_of in *. destruct (dpu_disable_one_dpu ci line (worlds h r)) as [w [[]|e]]; cbn [fst] in *; [|done].
  split; [done|]. destruct Hd as [Hc' Hcount]. split.
  - apply list_relations.list.Forall_forall. intros r' Hr'. unfold ranks_of_host. cbn [worlds].
    destruct (decide (r' = r)) as [->|Hrr].
    + rewrite fn_lookup_insert. split; [done|]. unfold ranks_of_host in *. lia.
    + rewrite fn_lookup_insert_ne by done. eapply list_relations.list.Forall_forall in Hok; [|exact Hr']. exact Hok.
  - rewrite (nb_dpus_update h _ ranks r Hnd Hr); [|intros r' Hrr; cbn [worlds]; by apply fn_lookup_insert_ne].
    unfold ranks_of_host. cbn [worlds]. rewrite fn_lookup_insert. lia.
Qed.

Lemma disable_dpus_ok g ranks n h : g <> BY_NOTHING -> NoDup ranks -> usable_ranks h ranks ->
  lenz ranks + Z.of_nat n <= nb_dpus h ranks ->
  let '(h', res) := disable_dpus g ranks n h in
  worlds_frame ranks h h' /\
  match res with
  | Ok (Some _) => usable_ranks h' ranks /\ nb_dpus h' ranks = nb_dpus h ranks - Z.of_nat n
  | Ok None => False
  | Err _ => True
  end.
Proof.
  intros Hg Hnd. revert h. induction n as [|n IH]; intros h Hok Hle; cbn [disable_dpus].
  { cbn. split; [done|]. split; [done|lia]. }
  unfold mbind, C_bind. pose proof (disable_one_ok g h ranks Hg Hnd Hok ltac:(lia)) as H1.
  destruct (disable_one_dpu g ranks h) as [h1 [[[]|]|e]]; [|by destruct H1|done].
  destruct H1 as (Hf & Hok1 & Hn1). specialize (IH h1 Hok1 ltac:(lia)).
  destruct (disable_dpus g ranks n h1) as [h2 [[[]|]|e]]; destruct IH as [Hf2 IH]; (split; [by etrans|]); try done.
  destruct IH as [? ->]. split; [done|]. lia.
Qed.
End DisableUnused.
