(* ===== verification/DpuAllocProps.v ===== *)
(** * Properties of the allocation of sets of DPUs

    What [dpu_alloc] of [DpuAlloc.v] gives its caller: the number of DPUs that
    was asked for, with one on each rank at least; what it frees when it fails;
    and the cases where the allocation functions do not keep these promises. *)

From stdpp Require Import relations functions.
From S2P Require Import Prelude CMonad Rank Ci Ufi Select Frame Mux UfiMemory Runner Config DpuSet DpuAlloc.

#[local] Open Scope Z_scope.
#[local] Open Scope dpu_scope.

(** ** Taking ranks *)

Section Taking.
Context {D : Type} `{!RankHandler D} (env : outside D).
Implicit Types h : host D.

(** The outcome of the reset that follows the [k]-th call. *)
Definition after_reset (k : nat) (w : world D) : world D * result unit :=
  if disable_reset_on_alloc env k then (w, Ok tt) else reset_rank_call env w.

(** A machine with at most [N] ranks, whose DPUs the library counts right and
    which have one when they come out of their reset. [ci_reset_rank] does not
    see to it: it may succeed and leave no DPU enabled
    ([Config.reset_disables_every_dpu]). *)
Record machine (N : nat) : Prop := {
  mc_small : Z.of_nat N < 2 ^ 25;
  mc_bounded : forall k, (N <= k)%nat -> is_ok (get_rank_call env k) = false;
  mc_usable : forall k w, get_rank_call env k = Ok w -> snd (after_reset k w) = Ok tt ->
    counted (rk (fst (after_reset k w))) /\ 1 <= get_nr_of_dpus_in_rank (rk (fst (after_reset k w)));
}.

(** The ranks made by the calls from [a] to [b]. *)
Definition made (a b : nat) : list rank_ptr := filter (fun k => is_ok (get_rank_call env k) = true) (seq a (b - a)).

Lemma elem_of_made a b r : r ∈ made a b -> (a <= r < b)%nat /\ is_ok (get_rank_call env r) = true.
Proof.
  unfold made. rewrite list_elem_of_filter, elem_of_seq. intros [? ?]. split; [lia|done].
Qed.
Lemma made_NoDup a b : NoDup (made a b).
Proof. apply list_relations.list.NoDup_filter, NoDup_ListNoDup, seq_NoDup. Qed.
Lemma made_succ a b : (a <= b)%nat -> made a (S b) = made a b ++ (if is_ok (get_rank_call env b) then [b] else []).
Proof.
  intros Hab. unfold made. replace (S b - a)%nat with ((b - a) + 1)%nat by lia. rewrite seq_app, list_basics.list.filter_app.
  cbn [seq]. replace (a + (b - a))%nat with b by lia. f_equal.
  destruct (is_ok (get_rank_call env b)) eqn:E; [by rewrite filter_cons_True|].
  rewrite filter_cons_False by congruence. done.
Qed.
Lemma made_length N a b : machine N -> (length (made a b) <= N)%nat.
Proof.
  intros Hm. rewrite <- (length_seq N 0). apply submseteq_length, NoDup_submseteq; [apply made_NoDup|].
  intros r Hr. apply elem_of_made in Hr as [_ Hok]. apply elem_of_seq.
  destruct (decide (N <= r)%nat) as [Hge|]; [|lia]. by rewrite (mc_bounded _ Hm r Hge) in Hok.
Qed.

Lemma nb_dpus_app h l1 l2 : nb_dpus h (l1 ++ l2) = nb_dpus h l1 + nb_dpus h l2.
Proof. induction l1 as [|r l1 IH]; [done|]. cbn [app nb_dpus foldr]. fold (nb_dpus h (l1 ++ l2)) (nb_dpus h l1). lia. Qed.
Lemma nb_dpus_ext h h' l : (forall r, r ∈ l -> worlds h' r = worlds h r) -> nb_dpus h' l = nb_dpus h l.
Proof.
  induction l as [|r l IH]; intros Hw; [done|]. cbn [nb_dpus foldr]. fold (nb_dpus h' l) (nb_dpus h l).
  rewrite IH by (intros r' Hr'; apply Hw; by constructor). unfold ranks_of_host. by rewrite Hw by constructor.
Qed.
Lemma usable_ext h h' l : (forall r, r ∈ l -> worlds h' r = worlds h r) -> usable_ranks h l -> usable_ranks h' l.
Proof.
  intros Hw Hok. apply list_relations.list.Forall_forall. intros r Hr. unfold ranks_of_host. rewrite Hw by done.
  by eapply list_relations.list.Forall_forall in Hok.
Qed.
Lemma nb_dpus_le h l : usable_ranks h l -> nb_dpus h l <= 64 * lenz l.
Proof.
  unfold usable_ranks, lenz. induction 1 as [|r l [Hc _] _ IH]; [done|]. cbn [nb_dpus foldr length]. fold (nb_dpus h l).
  pose proof (proj2 (nr_dpus_in_rank_sum _ Hc)). lia.
Qed.

(** What taking ranks leaves alone. *)
Record taking_frame h0 h : Prop := {
  tf_calls : (calls h0 <= calls h)%nat;
  tf_worlds : forall r, (r < calls h0)%nat -> worlds h r = worlds h0 r;
  tf_freed : freed h = freed h0;
  tf_jobs : jobs_created h = jobs_created h0;
  tf_sets : set_allocator_sets h = set_allocator_sets h0;
}.
#[export] Instance taking_frame_preorder : PreOrder taking_frame.
Proof.
  split; [by intros h; split|]. intros h1 h2 h3 [] []. split; try congruence; [lia|].
  intros r Hr. rewrite tf_worlds1, tf_worlds0; [done|lia|lia].
Qed.

(** The ranks taken since [h0]. *)
Record taken_since h0 h (got : list (rank_ptr * Z)) : Prop := {
  ts_frame : taking_frame h0 h;
  ts_made : got.*1 = made (calls h0) (calls h);
  ts_usable : usable_ranks h (got.*1);
  ts_count : Forall (fun g => g.2 = get_nr_of_dpus_in_rank (ranks_of_host h g.1)) got;
  ts_total : total got = nb_dpus h (got.*1);
}.

Lemma get_rank_eq h : dpu_get_rank_of_type env h =
  match get_rank_call env (calls h) with
  | Ok w => (mk_host (<[calls h := w]> (worlds h)) (S (calls h)) (freed h) (jobs_created h) (set_allocator_sets h)
      (<[calls h := false]> (sg_xfer_enabled h)) (<[calls h := []]> (sg_buffer_pool h)) (<[calls h := 0]> (dpu_offset h)), Ok (calls h))
  | Err e => (mk_host (worlds h) (S (calls h)) (freed h) (jobs_created h) (set_allocator_sets h)
      (sg_xfer_enabled h) (sg_buffer_pool h) (dpu_offset h), Err e)
  end.
Proof. reflexivity. Qed.

(** A call that makes a rank, and its reset. *)
Lemma new_rank h w : get_rank_call env (calls h) = Ok w -> exists h' h'',
  dpu_get_rank_of_type env h = (h', Ok (calls h)) /\
  attempt (reset_new_rank env (calls h)) h' = (h'', Ok (snd (after_reset (calls h) w))) /\
  calls h'' = S (calls h) /\ worlds h'' (calls h) = fst (after_reset (calls h) w) /\ taking_frame h h''.
Proof.
  intros Hk. rewrite get_rank_eq, Hk. unfold attempt, reset_new_rank, after_reset.
  destruct (disable_reset_on_alloc env (calls h)).
  - eexists _, _. split; [done|]. cbn. split; [done|]. split; [done|]. split; [apply fn_lookup_insert|]. split; cbn; try done; [lia|].
    intros r Hr. apply fn_lookup_insert_ne. lia.
  - destruct (reset_rank_call env w) as [w' res] eqn:Hres. eexists _, _. split; [done|].
    unfold on_world_of. cbn [worlds]. rewrite fn_lookup_insert, Hres. cbn [fst snd].
    split; [done|]. split; [done|]. split; [apply fn_lookup_insert|]. split; cbn; try done; [lia|].
    intros r Hr. rewrite !fn_lookup_insert_ne by lia. done.
Qed.
End Taking.

Section TakeRanks.
Context {D : Type} `{!RankHandler D} (env : outside D) (N : nat) (Hm : machine env N).
Implicit Types h : host D.

Lemma since_NoDup h0 h got : taken_since env h0 h got -> NoDup got.*1.
Proof using Type. intros [_ Hmade _ _ _]. rewrite Hmade. apply made_NoDup. Qed.
Lemma since_small h0 h got : taken_since env h0 h got -> 0 <= nb_dpus h got.*1 <= 64 * Z.of_nat N.
Proof using Hm.
  intros [? Hmade Hus _ _]. pose proof (nb_dpus_le h _ Hus). pose proof (nb_dpus_ge h _ Hus).
  pose proof (made_length env N (calls h0) (calls h) Hm). unfold lenz in *. rewrite Hmade in *. lia.
Qed.

Lemma since_start h : taken_since env h h [].
Proof using Type.
  split; try done; [|by constructor..]. unfold made. by rewrite Nat.sub_diag.
Qed.

(** A failed call changes nothing but the number of calls. *)
Lemma since_failed h0 h h' got e : taken_since env h0 h got -> get_rank_call env (calls h) = Err e ->
  dpu_get_rank_of_type env h = (h', Err e) -> taken_since env h0 h' got.
Proof using Type.
  intros [Hf Hmade Hus Hc Ht] Hk. rewrite get_rank_eq, Hk. intros [= <-]. pose proof (tf_calls _ _ Hf). split; try done.
  - etrans; [exact Hf|]. split; cbn; try done. lia.
  - cbn [calls]. rewrite made_succ, Hk by lia. cbn [is_ok]. by rewrite app_nil_r.
Qed.

(** A rank made and reset. *)
Lemma since_snoc h0 h h'' got w : taken_since env h0 h got -> get_rank_call env (calls h) = Ok w ->
  snd (after_reset env (calls h) w) = Ok tt -> calls h'' = S (calls h) ->
  worlds h'' (calls h) = fst (after_reset env (calls h) w) -> taking_frame h h'' ->
  taken_since env h0 h'' (got ++ [(calls h, get_nr_of_dpus_in_rank (ranks_of_host h'' (calls h)))]).
Proof using Hm.
  intros Hs Hk Hok Hc Hw Hf''. pose proof (since_small _ _ _ Hs) as Hsmall. pose proof (since_NoDup _ _ _ Hs) as Hnd.
  pose proof Hs as [Hf Hmade Hus Hcount Ht].
  pose proof (mc_usable _ _ Hm _ _ Hk Hok) as [Hgood Hpos]. pose proof (tf_calls _ _ Hf).
  assert (forall r, r ∈ got.*1 -> worlds h'' r = worlds h r) as Hsame.
  { intros r Hr. apply (tf_worlds _ _ Hf''). rewrite Hmade in Hr. apply elem_of_made in Hr as [Hr _]. lia. }
  assert (counted (ranks_of_host h'' (calls h)) /\ 1 <= get_nr_of_dpus_in_rank (ranks_of_host h'' (calls h))) as Hnew.
  { unfold ranks_of_host. by rewrite Hw. }
  split.
  - by etrans.
  - rewrite Hc, made_succ, Hk, fmap_app, Hmade by lia. done.
  - rewrite fmap_app. apply list_relations.list.Forall_app. split; [by apply (usable_ext h)|]. by constructor.
  - apply list_relations.list.Forall_app. split; [|by constructor].
    apply list_relations.list.Forall_forall. intros g Hg. eapply list_relations.list.Forall_forall in Hcount; [|exact Hg].
    unfold ranks_of_host. rewrite Hsame by by apply list_elem_of_fmap_2. done.
  - unfold total. rewrite foldl_app. fold (total got). cbn [foldl snd]. rewrite fmap_app, nb_dpus_app.
    rewrite (nb_dpus_ext h h'') by done. rewrite Ht. cbn [fmap list_fmap nb_dpus foldr fst].
    pose proof (proj2 (nr_dpus_in_rank_sum _ (proj1 Hnew))). pose proof (mc_small _ _ Hm).
    rewrite u32_id by (unfold fits; lia). lia.
Qed.

(** The loop ends, with the ranks it made; it gives up only on a failure. *)
Lemma take_ranks_ok fuel nr_dpus dispatch more h0 h got : (0 < fuel)%nat -> (S N <= fuel + calls h)%nat ->
  taken_since env h0 h got -> got = [] \/ more got = true ->
  exists h' t, take_ranks env fuel nr_dpus dispatch more got h = (h', Ok (Some t)) /\
  match t with
  | Taken got' => taken_since env h0 h' got' /\ got' <> [] /\
      (more got' = false \/ (((nr_dpus =? DPU_ALLOCATE_ALL) || dispatch) = true /\ (dispatch = true -> nr_dpus <= total got'))) /\
      (more got' = true \/ exists g x, got' = g ++ [x] /\ (g = [] \/ more g = true))
  | Failed got' not_reset e => taking_frame h0 h' /\ got'.*1 ++ not_reset = made env (calls h0) (calls h')
  end.
Proof using Hm.
  revert h got. induction fuel as [|fuel IH]; intros h got Hpos Hfuel Hs Hentry; [lia|].
  pose proof Hs as [Hf Hmade _ _ _]. pose proof (tf_calls _ _ Hf) as Hle.
  cbn [take_ranks]. unfold mbind, C_bind. unfold attempt at 1.
  destruct (get_rank_call env (calls h)) as [w|e] eqn:Hk.
  - destruct (new_rank env h w Hk) as (h1 & h2 & -> & Hreset & Hc & Hw & Hf2). cbv iota beta. rewrite Hreset.
    destruct (snd (after_reset env (calls h) w)) as [[]|e] eqn:Hok.
    + unfold count_of, gets. pose proof (since_snoc _ _ _ _ _ Hs Hk Hok Hc Hw Hf2) as Hs'.
      set (got' := got ++ _) in *. destruct (more got') eqn:Hmore.
      * apply IH; [|lia|done|by right]. destruct (decide (N <= calls h)%nat) as [Hge|]; [|lia].
        apply (mc_bounded _ _ Hm) in Hge. by rewrite Hk in Hge.
      * eexists _, _. split; [done|]. split; [done|]. split; [unfold got'; by destruct got|].
        split; [by left|]. right. by eexists _, _.
    + eexists _, _. split; [done|]. split; [by etrans|]. rewrite Hc, made_succ, Hk, Hmade by lia. done.
  - destruct (dpu_get_rank_of_type env h) as [h1 [|e']] eqn:Hcall; rewrite get_rank_eq, Hk in Hcall; [done|].
    injection Hcall as <- <-. set (h1 := mk_host _ _ _ _ _ _ _ _).
    assert (taken_since env h0 h1 got) as Hs1 by (eapply since_failed; [exact Hs|exact Hk|by rewrite get_rank_eq, Hk]).
    destruct (bool_decide (e = DPU_ERR_ALLOCATION) && negb (lenz got =? 0) && _) eqn:Hcond;
      [destruct (dispatch && (total got <? nr_dpus)) eqn:Hshort|].
    + eexists _, _. split; [done|]. split; [apply Hs1|]. rewrite app_nil_r. apply Hs1.
    + eexists _, _. split; [done|]. split; [done|]. apply andb_true_iff in Hcond as [Hcond Hall].
      assert (got <> []) as Hne by (by destruct got; [rewrite andb_false_r in Hcond|]).
      split; [done|]. split; [|left; by destruct Hentry]. right. split; [done|]. intros ->. lia.
    + eexists _, _. split; [done|]. split; [apply Hs1|]. rewrite app_nil_r. apply Hs1.
Qed.
End TakeRanks.

(** ** The end of an allocation *)

Section Ending.
Context {D : Type} `{!RankHandler D} (env : outside D).
Implicit Types h : host D.

(** Registering a set and laying out its buffers leave the ranks alone. *)
Record ranks_frame h h' : Prop := {
  rf_worlds : worlds h' = worlds h;
  rf_calls : calls h' = calls h;
  rf_freed : freed h' = freed h;
}.
#[export] Instance ranks_frame_preorder : PreOrder ranks_frame.
Proof. split; [by intros h; split|]. intros h1 h2 h3 [] []. split; congruence. Qed.

Lemma free_all_eq ranks h : free_all ranks h =
  (mk_host (worlds h) (calls h) (freed h ++ ranks) (jobs_created h) (set_allocator_sets h)
     (sg_xfer_enabled h) (sg_buffer_pool h) (dpu_offset h), Ok tt).
Proof.
  unfold free_all. revert h. induction ranks as [|r ranks IH]; intros h; cbn [mfold].
  - rewrite app_nil_r. by destruct h.
  - unfold mbind, C_bind, dpu_free_rank, modify. rewrite IH. cbn. by rewrite <- app_assoc.
Qed.

Lemma frame_sg_enabled b ranks h : ranks_frame h (foldl (fun h r => set_sg_enabled r b h) h ranks).
Proof. revert h. induction ranks as [|r ranks IH]; intros h; [done|]. cbn [foldl]. etrans; [|apply IH]. done. Qed.
Lemma frame_offsets ranks h : ranks_frame h (set_offsets ranks h).
Proof.
  unfold set_offsets. generalize 0 as n. revert h. induction ranks as [|r ranks IH]; intros h n; [done|].
  cbn [foldl]. etrans; [|apply IH]. done.
Qed.
Lemma frame_pool ranks max h : ranks_frame h (fst (sg_buffer_pool_create ranks max h)).
Proof.
  unfold sg_buffer_pool_create. destruct (negb _); [done|]. destruct (negb _); [done|]. cbn [fst].
  apply (for_up_ind (fun _ h' => ranks_frame h h')); [unfold lenz; lia|done|].
  intros i h' _ Hf. etrans; [exact Hf|]. done.
Qed.

(** The set is registered, and its jobs are created, only when the calls succeed. *)
Lemma init_dpu_set_ok ranks h : let '(h', res) := init_dpu_set env ranks h in
  ranks_frame h h' /\ match res with
  | Ok set => set = DPU_SET_RANKS ranks /\ set_allocator_sets h' = set_allocator_sets h ++ [DPU_SET_RANKS ranks] /\
      jobs_created h' = jobs_created h ++ [ranks]
  | Err _ => True
  end.
Proof.
  unfold init_dpu_set, thread_job_create, set_allocator_register, set_sets, modify, mbind, C_bind.
  destruct (thread_job_create_call env ranks); [|done]. by destruct (polling_thread_call env).
Qed.
Lemma init_sg_ok nr_dpus ranks h : let '(h', res) := init_scatter_gather_transfer_buffer env nr_dpus ranks h in
  ranks_frame h h' /\ set_allocator_sets h' = set_allocator_sets h /\ jobs_created h' = jobs_created h.
Proof.
  assert (forall b l h, set_allocator_sets (foldl (fun h r => set_sg_enabled r b h) h l) = set_allocator_sets h /\
    jobs_created (foldl (fun h r => set_sg_enabled r b h) h l) = jobs_created h) as Hsg.
  { intros b l. induction l as [|r l IH]; intros h'; [done|]. cbn [foldl]. by destruct (IH (set_sg_enabled r b h')) as [-> ->]. }
  assert (forall l h, set_allocator_sets (set_offsets l h) = set_allocator_sets h /\ jobs_created (set_offsets l h) = jobs_created h) as Hoff.
  { intros l. unfold set_offsets. generalize 0 as n. induction l as [|r l IH]; intros n h'; [done|]. cbn [foldl].
    match goal with |- context [foldl ?f (?x, ?y) l] => by destruct (IH x y) as [-> ->] end. }
  assert (forall max h, set_allocator_sets (fst (sg_buffer_pool_create ranks max h)) = set_allocator_sets h /\
    jobs_created (fst (sg_buffer_pool_create ranks max h)) = jobs_created h) as Hpool.
  { intros max h'. unfold sg_buffer_pool_create. destruct (negb _); [done|]. destruct (negb _); [done|]. cbn [fst].
    apply (for_up_ind (fun _ h'' => set_allocator_sets h'' = set_allocator_sets h' /\ jobs_created h'' = jobs_created h'));
      [unfold lenz; lia|done|]. done. }
  unfold init_scatter_gather_transfer_buffer. destruct (prop_sg_xfer_enable env) as [b|]; [|done].
  destruct (prop_sg_max_blocks env) as [m|]; [|done]. destruct (negb b && _); [done|].
  unfold mbind, C_bind, modify. set (h1 := foldl _ _ _).
  assert (ranks_frame h h1) as Hf1 by apply frame_sg_enabled. destruct (Hsg b ranks h) as [Hs1 Hj1]. fold h1 in Hs1, Hj1.
  destruct b.
  - match goal with |- context [sg_buffer_pool_create ranks ?m h1] => set (max := m) end. pose proof (frame_pool ranks max h1) as Hf2. destruct (Hpool max h1) as [Hs2 Hj2].
    destruct (sg_buffer_pool_create ranks max h1) as [h2 [[]|e]]; cbn [fst] in *.
    + destruct (Hoff ranks h2) as [-> ->]. split; [|by rewrite Hs2, Hs1, Hj2, Hj1].
      etrans; [exact Hf1|]. etrans; [exact Hf2|]. apply frame_offsets.
    + split; [by etrans|]. by rewrite Hs2, Hs1, Hj2, Hj1.
  - cbn. destruct (Hoff ranks h1) as [-> ->]. split; [|done]. etrans; [exact Hf1|]. apply frame_offsets.
Qed.

(** The pool is there when transfers by blocks are enabled. *)
Lemma init_sg_pool nr_dpus ranks h h' : ranks <> [] ->
  init_scatter_gather_transfer_buffer env nr_dpus ranks h = (h', Ok tt) ->
  sg_xfer_enabled h' (ranks.[0]) = true -> sg_buffer_pool h' (ranks.[0]) <> [].
Proof.
  intros Hne. unfold init_scatter_gather_transfer_buffer. destruct (prop_sg_xfer_enable env) as [b|]; [|done].
  destruct (prop_sg_max_blocks env) as [m|]; [|done]. destruct (negb b && _); [done|].
  unfold mbind, C_bind, modify. set (h1 := foldl _ _ _).
  assert (forall l h, sg_xfer_enabled (set_offsets l h) = sg_xfer_enabled h /\ sg_buffer_pool (set_offsets l h) = sg_buffer_pool h) as Hoff.
  { intros l. unfold set_offsets. generalize 0 as n. induction l as [|r l IH]; intros n h0; [done|]. cbn [foldl].
    match goal with |- context [foldl ?f (?x, ?y) l] => by destruct (IH x y) as [-> ->] end. }
  assert (sg_xfer_enabled h1 (ranks.[0]) = b) as Hb.
  { assert (ranks.[0] ∈ ranks) as Hin by (destruct ranks; [done|by constructor]). revert Hin.
    unfold h1. clear h1. generalize (ranks.[0]) as r. intros r. revert h. clear. induction ranks as [|r' ranks IH] using rev_ind; intros h Hin.
    - by apply not_elem_of_nil in Hin.
    - rewrite foldl_app. cbn [foldl set_sg_enabled sg_xfer_enabled]. destruct (decide (r = r')) as [->|Hn].
      + apply fn_lookup_insert.
      + rewrite fn_lookup_insert_ne by done. apply IH. apply elem_of_app in Hin as [|Hin]; [done|].
        by apply list_elem_of_singleton in Hin. }
  destruct b.
  - match goal with |- context [sg_buffer_pool_create ranks ?m h1] => set (max := m) end.
    destruct (sg_buffer_pool_create ranks max h1) as [h2 [[]|e]] eqn:Hp; [|done]. intros [= <-] _.
    destruct (Hoff ranks h2) as [_ ->]. unfold sg_buffer_pool_create in Hp. rewrite Hb in Hp. cbn [negb] in Hp.
    destruct (negb _); [done|]. injection Hp as <-.
    assert (0 < lenz ranks) as Hl by (unfold lenz; destruct ranks; [done|cbn [length]; lia]).
    apply (for_up_ind (fun n h => 0 < n -> sg_buffer_pool h (ranks.[0]) <> [])); [lia|lia| |done].
    intros i h' Hi IH _. cbn [set_pool sg_buffer_pool]. destruct (decide (ranks.[i] = ranks.[0])) as [->|Hn].
    + by rewrite fn_lookup_insert.
    + rewrite fn_lookup_insert_ne by done. apply IH. destruct (decide (i = 0)) as [->|]; [done|lia].
  - cbn. intros [= <-]. destruct (Hoff ranks h1) as [-> _]. by rewrite Hb.
Qed.
(** The counts of a set of well-formed ranks do not wrap. *)
Lemma get_nr_dpus_ok h ranks : usable_ranks h ranks -> lenz ranks < 2 ^ 25 ->
  dpu_get_nr_dpus (ranks_of_host h) (DPU_SET_RANKS ranks) = Ok (nb_dpus h ranks).
Proof.
  intros Hus Hlen. cbn [dpu_get_nr_dpus]. f_equal.
  enough (forall l n, usable_ranks h l -> 0 <= n -> n + 64 * lenz l < 2 ^ 32 ->
    foldl (fun nr_dpus r => u32 (nr_dpus + get_nr_of_dpus_in_rank (ranks_of_host h r))) n l = n + nb_dpus h l) as Hn
    by (rewrite Hn by (done || lia); lia).
  clear. induction l as [|r l IH]; intros n Hus Hn Hb; [cbn; lia|]. cbn [foldl nb_dpus foldr]. fold (nb_dpus h l).
  apply list_relations.list.Forall_cons in Hus as [[Hc _] Hus]. pose proof (proj2 (nr_dpus_in_rank_sum _ Hc)).
  unfold lenz in *. cbn [length] in Hb. rewrite u32_id by (unfold fits; lia). rewrite IH by (done || lia). lia.
Qed.
End Ending.

(** ** [dpu_alloc] *)

Section DpuAlloc.
Context {D : Type} `{!RankHandler D} (env : outside D) (N : nat) (Hm : machine env N).
Implicit Types h : host D.

Lemma or_free_eq {A} ranks (m : C (host D) A) h : or_free ranks m h =
  let '(h', res) := m h in
  match res with Ok a => (h', Ok a) | Err e => (fst (free_all ranks h'), Err e) end.
Proof.
  unfold or_free. destruct (m h) as [h' [a|e]]; [done|]. unfold error_free_ranks, mbind, C_bind.
  rewrite free_all_eq. done.
Qed.

(** The DPUs in excess are disabled, and one stays on each rank. *)
Lemma disable_unused_ok g h ranks nr : g <> BY_NOTHING -> NoDup ranks -> ranks <> [] -> usable_ranks h ranks ->
  lenz ranks <= nr <= nb_dpus h ranks ->
  let '(h', res) := disable_unused_dpus g (nb_dpus h ranks) nr ranks h in
  worlds_frame ranks h h' /\
  match res with
  | Ok (Some _) => usable_ranks h' ranks /\ nb_dpus h' ranks = nr
  | Ok None => False
  | Err _ => True
  end.
Proof.
  intros Hg Hnd Hne Hus Hle. unfold disable_unused_dpus.
  rewrite (proj2 (Z.eqb_neq (lenz ranks) 0)) by (unfold lenz; destruct ranks; [done|cbn [length]; lia]).
  rewrite (proj2 (Z.ltb_ge (nb_dpus h ranks) nr)) by lia. cbn [orb].
  pose proof (disable_dpus_ok g ranks (Z.to_nat (nb_dpus h ranks - nr)) h Hg Hnd Hus ltac:(lia)) as Hd.
  destruct (disable_dpus g ranks _ h) as [h' [[[]|]|e]]; [|done|done].
  destruct Hd as (? & ? & ->). split_and!; try done. lia.
Qed.

(** What the ranks that were taken are enough for. *)
Lemma taken_enough nr dispatch h0 h got : 0 < nr -> nr <= DPU_ALLOCATE_ALL -> taken_since env h0 h got -> got <> [] ->
  let more := fun got : list (rank_ptr * Z) => (lenz got <? nr) && (dispatch || (total got <? nr)) in
  (more got = false \/ (((nr =? DPU_ALLOCATE_ALL) || dispatch) = true /\ (dispatch = true -> nr <= total got))) ->
  (more got = true \/ exists g x, got = g ++ [x] /\ (g = [] \/ more g = true)) ->
  lenz got.*1 <= (if nr =? DPU_ALLOCATE_ALL then total got else nr) <= nb_dpus h got.*1.
Proof using Hm.
  intros Hpos Hall Hs Hne more Hend Hlast. pose proof Hs as [_ Hmade Hus _ Ht]. rewrite Ht in *.
  pose proof (nb_dpus_ge h _ Hus) as Hge. assert (lenz got.*1 = lenz got) as Hl by (unfold lenz; by rewrite length_fmap).
  destruct (Z.eqb_spec nr DPU_ALLOCATE_ALL) as [|Hna]; [lia|]. cbn [orb] in Hend.
  assert (lenz got <= nr) as Hle.
  { destruct Hlast as [Hmore|(g & x & -> & [->|Hmore])].
    - unfold more in Hmore. lia.
    - unfold lenz. cbn. lia.
    - unfold more in Hmore. unfold lenz in *. rewrite length_app. cbn [length]. lia. }
  split; [lia|]. destruct Hend as [Hmore|[-> Hd]]; [|by apply Hd].
  unfold more in Hmore. rewrite Ht in Hmore. destruct dispatch; lia.
Qed.

Lemma dpu_alloc_cases fuel nr h : (0 < fuel)%nat -> (S N <= fuel + calls h)%nat -> 0 <= nr <= DPU_ALLOCATE_ALL ->
  let '(h', res) := dpu_alloc env fuel nr h in
  (forall r, (r < calls h)%nat -> worlds h' r = worlds h r) /\
  match res with
  | Ok (Some set) => let ranks := made env (calls h) (calls h') in
      set = DPU_SET_RANKS ranks /\ ranks <> [] /\ usable_ranks h' ranks /\
      (nr <> DPU_ALLOCATE_ALL -> dpu_get_nr_dpus (ranks_of_host h') set = Ok nr) /\
      freed h' = freed h /\ set_allocator_sets h' = set_allocator_sets h ++ [set] /\
      jobs_created h' = jobs_created h ++ [ranks] /\
      (sg_xfer_enabled h' (ranks.[0]) = true -> sg_buffer_pool h' (ranks.[0]) <> [])
  | Ok None => False
  | Err _ => freed h' = freed h ++ made env (calls h) (calls h')
  end.
Proof using Hm.
  intros Hpos Hfuel Hnr. unfold dpu_alloc, mbind, C_bind at 1.
  assert (made env (calls h) (calls h) = []) as Hnil by (unfold made; by rewrite Nat.sub_diag).
  destruct (dispatch_property env nr h) as [h0 [dispatch|e]] eqn:Hd.
  2: { assert (h0 = h) as ->. { unfold dispatch_property, mret, C_ret, fail in Hd. repeat case_match; congruence. }
       split; [done|]. by rewrite Hnil, app_nil_r. }
  assert (h0 = h /\ 0 < nr) as [-> Hnr0].
  { unfold dispatch_property, mret, C_ret, fail in Hd. destruct (Z.eqb_spec nr 0); [done|]. repeat case_match; (split; [congruence|lia]). }
  clear Hd. unfold C_bind. set (more := fun got : list (rank_ptr * Z) => _).
  destruct (take_ranks_ok env N Hm fuel nr dispatch more h h [] Hpos Hfuel (since_start env h) ltac:(by left))
    as (h1 & t & -> & Ht). destruct t as [got|got not_reset e].
  2: { destruct Ht as [Hf Hmade]. unfold error_free_ranks, mbind, C_bind. rewrite free_all_eq. cbn. rewrite Hmade.
       split; [apply Hf|]. by rewrite (tf_freed _ _ Hf). }
  destruct Ht as (Hs & Hne & Hend & Hlast). pose proof Hs as [Hf Hmade Hus _ Htot].
  pose proof (taken_enough nr dispatch h h1 got Hnr0 (proj2 Hnr) Hs Hne Hend Hlast) as Henough.
  set (nr' := if nr =? DPU_ALLOCATE_ALL then total got else nr) in *.
  assert (got.*1 <> []) as Hne1 by (by destruct got).
  pose proof (disable_unused_ok BY_LINE h1 got.*1 nr' ltac:(done) (since_NoDup env _ _ _ Hs) Hne1 Hus Henough) as Hdis.
  rewrite or_free_eq, Htot. cbv beta.
  assert (forall h', worlds_frame got.*1 h1 h' -> forall r, (r < calls h)%nat -> worlds h' r = worlds h r) as Hold.
  { intros h' Hwf r Hr. rewrite (wf_worlds _ _ _ Hwf), (tf_worlds _ _ Hf r Hr); [done|].
    rewrite Hmade. intros [? _]%elem_of_made. lia. }
  destruct (disable_unused_dpus BY_LINE (nb_dpus h1 got.*1) nr' got.*1 h1) as [h2 [[[]|]|e]]; [|by destruct Hdis|].
  2: { destruct Hdis as [Hwf _]. rewrite free_all_eq. cbn. split; [by apply Hold|].
       rewrite (wf_freed _ _ _ Hwf), (wf_calls _ _ _ Hwf), (tf_freed _ _ Hf), Hmade. done. }
  destruct Hdis as (Hwf & Hus2 & Hn2). cbv beta iota. pose proof (init_dpu_set_ok env got.*1 h2) as Hinit.
  destruct (init_dpu_set env got.*1 h2) as [h3 [set|e]].
  2: { destruct Hinit as [[Hw3 Hc3 Hf3] _]. rewrite free_all_eq. cbn. rewrite Hw3, Hc3, Hf3. split; [by apply Hold|].
       rewrite (wf_freed _ _ _ Hwf), (wf_calls _ _ _ Hwf), (tf_freed _ _ Hf), Hmade. done. }
  destruct Hinit as [[Hw3 Hc3 Hf3] (-> & Hs3 & Hj3)]. pose proof (init_sg_ok env nr' got.*1 h3) as Hsg.
  pose proof (init_sg_pool env nr' got.*1 h3) as Hpool.
  destruct (init_scatter_gather_transfer_buffer env nr' got.*1 h3) as [h4 [[]|e]]; destruct Hsg as [[Hw4 Hc4 Hf4] [Hs4 Hj4]].
  - cbn. rewrite Hw4, Hc4, Hf4, Hs4, Hj4, Hw3, Hc3, Hf3, Hs3, Hj3. split; [by apply Hold|].
    rewrite (wf_freed _ _ _ Hwf), (wf_calls _ _ _ Hwf), (wf_sets _ _ _ Hwf), (wf_jobs _ _ _ Hwf), (tf_freed _ _ Hf),
      (tf_sets _ _ Hf), (tf_jobs _ _ Hf), <-Hmade.
    assert (usable_ranks h4 got.*1) as Hus4 by (apply (usable_ext h2); [intros; by rewrite Hw4, Hw3|done]).
    split_and!; try done; [|by apply Hpool]. intros Hna.
    change (dpu_get_nr_dpus (ranks_of_host h4) (DPU_SET_RANKS got.*1) = Ok nr).
    rewrite get_nr_dpus_ok; [|done|].
    + rewrite (nb_dpus_ext h2) by (intros; by rewrite Hw4, Hw3). rewrite Hn2. unfold nr'. by rewrite (proj2 (Z.eqb_neq _ _) Hna).
    + pose proof (made_length env N (calls h) (calls h1) Hm). pose proof (mc_small _ _ Hm). unfold lenz. rewrite Hmade. lia.
  - rewrite free_all_eq. cbn. rewrite Hw4, Hc4, Hf4, Hw3, Hc3, Hf3. split; [by apply Hold|].
    rewrite (wf_freed _ _ _ Hwf), (wf_calls _ _ _ Hwf), (tf_freed _ _ Hf), Hmade. done.
Qed.
End DpuAlloc.

(** ** Freeing a set *)

Section Freeing.
Context {D : Type} `{!RankHandler D} (env : outside D).
Implicit Types h : host D.

Lemma find_from_app set k l1 l2 : set ∉ l1 -> find_from set k (l1 ++ set :: l2) = Some (k + length l1)%nat.
Proof.
  revert k. induction l1 as [|s l1 IH]; intros k Hn; cbn [app find_from].
  - rewrite decide_True by done. f_equal. cbn. lia.
  - apply not_elem_of_cons in Hn as [Hne Hn]. rewrite decide_False by done. rewrite IH by done. f_equal. cbn. lia.
Qed.
Lemma find_from_none set k l : set ∉ l -> find_from set k l = None.
Proof.
  revert k. induction l as [|s l IH]; intros k Hn; [done|]. apply not_elem_of_cons in Hn as [Hne Hn]. cbn.
  rewrite decide_False by done. by apply IH.
Qed.

(** The first set of the table that is the one to free is removed. *)
Lemma unregister_app set h l1 l2 : set_allocator_sets h = l1 ++ set :: l2 -> set ∉ l1 ->
  set_allocator_unregister set h = (set_sets (l1 ++ l2) h, Ok tt).
Proof.
  intros Hl Hn. unfold set_allocator_unregister, set_allocator_find. rewrite Hl, find_from_app by done. cbn [Nat.add].
  rewrite take_app_length. assert (drop (S (length l1)) (l1 ++ set :: l2) = l2) as -> by (clear; by induction l1). done.
Qed.

Lemma dpu_free_app ranks h l1 l2 : (sg_xfer_enabled h (ranks.[0]) = true -> sg_buffer_pool h (ranks.[0]) <> []) ->
  set_allocator_sets h = l1 ++ DPU_SET_RANKS ranks :: l2 -> DPU_SET_RANKS ranks ∉ l1 ->
  let '(h', res) := dpu_free ranks h in
  res = Ok tt /\ freed h' = freed h ++ ranks /\ set_allocator_sets h' = l1 ++ l2 /\ worlds h' = worlds h /\ calls h' = calls h.
Proof.
  intros Hsg Hl Hn. unfold dpu_free, mbind, C_bind.
  assert (exists h1, sg_buffer_pool_free ranks h = (h1, Ok tt) /\ set_allocator_sets h1 = set_allocator_sets h /\
    freed h1 = freed h /\ worlds h1 = worlds h /\ calls h1 = calls h) as (h1 & -> & Hs1 & Hf1 & Hw1 & Hc1).
  { unfold sg_buffer_pool_free. destruct (sg_xfer_enabled h (ranks.[0])); cbn [negb]; [|by eexists].
    specialize (Hsg eq_refl). destruct (sg_buffer_pool h (ranks.[0])) as [|s l]; [done|].
    rewrite (proj2 (Z.eqb_neq _ _)) by (unfold lenz; cbn [length]; lia). by eexists. }
  rewrite (unregister_app _ _ l1 l2) by (done || by rewrite Hs1). unfold thread_job_free, modify.
  rewrite free_all_eq. cbn. by rewrite Hf1, Hw1, Hc1.
Qed.
End Freeing.

(** ** The buffers of the pool *)

(** The part of the arrays of the pool that belongs to the DPU [dpu_index] of the rank [each_rank]. *)
Definition sg_slots_apart (max i j i' j' : Z) : Prop :=
  sl_pos (sg_slot_at i max j) + (1 + max) <= sl_pos (sg_slot_at i' max j') \/
  sl_pos (sg_slot_at i' max j') + (1 + max) <= sl_pos (sg_slot_at i max j).

Lemma sg_slot_pos nr_ranks max i j : 0 <= max -> nr_ranks * 64 * (1 + max) < 2 ^ 32 -> 0 <= i < nr_ranks -> 0 <= j < 64 ->
  sl_pos (sg_slot_at i max j) = (i * 64 + j) * (1 + max).
Proof.
  intros Hmax Hsmall Hi Hj. unfold sg_slot_at, MAX_NR_DPUS_PER_RANK. cbn [sl_pos].
  assert (fits 32 (i * 64 + j) /\ fits 32 (1 + max) /\ fits 32 ((i * 64 + j) * (1 + max))) as (H1 & H2 & H3) by (unfold fits; nia).
  rewrite (u32_id _ H1), (u32_id _ H2). by apply u32_id.
Qed.

(** ** Cases where the functions do not do what they mean to *)

Section Surprises.
Context {D : Type} `{!RankHandler D} (env : outside D).
Implicit Types h : host D.

(** A rank whose reset fails is not freed by [dpu_alloc_ranks]. *)
Lemma dpu_alloc_ranks_leaks fuel nr_ranks w e h : 0 < nr_ranks < DPU_ALLOCATE_ALL -> get_rank_call env (calls h) = Ok w ->
  snd (after_reset env (calls h) w) = Err e ->
  let '(h', res) := dpu_alloc_ranks env fuel nr_ranks h in
  res = Err e /\ calls h' = S (calls h) /\ freed h' = freed h.
Proof.
  intros Hnr Hk Hres. unfold dpu_alloc_ranks. rewrite (proj2 (Z.eqb_neq _ _)) by lia. rewrite (proj2 (Z.eqb_neq nr_ranks 0)) by lia.
  destruct (Z.to_nat nr_ranks) as [|n] eqn:Hn; [lia|]. unfold mbind, C_bind. cbn [take_n_ranks]. unfold mbind, C_bind.
  unfold attempt at 1. destruct (new_rank env h w Hk) as (h1 & h2 & -> & Hreset & Hc & _ & Hf). cbv iota beta.
  rewrite Hreset, Hres. cbv iota beta. unfold mret, C_ret, error_free_ranks, mbind, C_bind. rewrite free_all_eq. cbn.
  rewrite app_nil_r. split_and!; [done|done|apply Hf].
Qed.

(** [dpu_free] of a set that was not allocated gives up the buffers of its first rank before it refuses. *)
Lemma dpu_free_unregistered ranks h : DPU_SET_RANKS ranks ∉ set_allocator_sets h ->
  sg_xfer_enabled h (ranks.[0]) = true -> sg_buffer_pool h (ranks.[0]) <> [] ->
  let '(h', res) := dpu_free ranks h in
  res = Err DPU_ERR_INVALID_DPU_SET /\ sg_xfer_enabled h' (ranks.[0]) = false /\ freed h' = freed h.
Proof.
  intros Hn Hen Hp. unfold dpu_free, mbind, C_bind, sg_buffer_pool_free. rewrite Hen. cbn [negb].
  destruct (sg_buffer_pool h (ranks.[0])) as [|s l]; [done|].
  rewrite (proj2 (Z.eqb_neq _ _)) by (unfold lenz; cbn [length]; lia).
  unfold set_allocator_unregister, set_allocator_find. cbn [set_sg_enabled set_allocator_sets].
  rewrite find_from_none by done. split_and!; try done. cbn. apply fn_lookup_insert.
Qed.
End Surprises.

(** ** Properties *)

(** C8: [dpu_alloc] that succeeds gives a registered set of new ranks with
    exactly the number of DPUs that was asked for, at least one of them on each
    rank, and frees no rank; on a machine whose ranks have a DPU when they come
    out of their reset. *)
Theorem dpu_alloc_exact {D} `{!RankHandler D} (env : outside D) N fuel nr_dpus (h h' : host D) set :
  machine env N -> (0 < fuel)%nat -> (S N <= fuel + calls h)%nat -> 0 <= nr_dpus < DPU_ALLOCATE_ALL ->
  dpu_alloc env fuel nr_dpus h = (h', Ok (Some set)) ->
  dpu_get_nr_dpus (ranks_of_host h') set = Ok nr_dpus /\
  (exists ranks, set = DPU_SET_RANKS ranks /\ NoDup ranks /\
    forall r, r ∈ ranks -> (calls h <= r)%nat /\ 1 <= get_nr_of_dpus_in_rank (ranks_of_host h' r)) /\
  set_allocator_sets h' = set_allocator_sets h ++ [set] /\ freed h' = freed h.
Proof.
  intros Hm Hpos Hfuel Hnr Hrun. pose proof (dpu_alloc_cases env N Hm fuel nr_dpus h Hpos Hfuel ltac:(lia)) as Hc.
  rewrite Hrun in Hc. destruct Hc as (_ & -> & _ & Hus & Hcount & Hfreed & Hsets & _). split; [apply Hcount; lia|].
  split; [|by split]. eexists. split; [done|]. split; [apply made_NoDup|]. intros r Hr. split; [apply elem_of_made in Hr; lia|].
  eapply list_relations.list.Forall_forall in Hus; [|exact Hr]. apply Hus.
Qed.

(** C31: [dpu_alloc] ends without failing one of its assertions, whichever of the
    calls it makes fail, on a machine of at most [N] ranks that have a DPU when they
    come out of their reset: there is then always a DPU to disable. Without a DPU
    on a rank it may fail one ([rank_without_dpu_aborts]). *)
Theorem dpu_alloc_ends {D} `{!RankHandler D} (env : outside D) N fuel nr_dpus (h : host D) :
  machine env N -> (0 < fuel)%nat -> (S N <= fuel + calls h)%nat -> 0 <= nr_dpus <= DPU_ALLOCATE_ALL ->
  snd (dpu_alloc env fuel nr_dpus h) <> Ok None.
Proof.
  intros Hm Hpos Hfuel Hnr. pose proof (dpu_alloc_cases env N Hm fuel nr_dpus h Hpos Hfuel Hnr) as Hc.
  destruct (dpu_alloc env fuel nr_dpus h) as [h' [[]|]]; try done. by destruct Hc.
Qed.

(** C24: [dpu_alloc] that fails frees each rank it took once, in order, and no other. *)
Theorem dpu_alloc_failure_frees {D} `{!RankHandler D} (env : outside D) N fuel nr_dpus (h h' : host D) e :
  machine env N -> (0 < fuel)%nat -> (S N <= fuel + calls h)%nat -> 0 <= nr_dpus <= DPU_ALLOCATE_ALL ->
  dpu_alloc env fuel nr_dpus h = (h', Err e) ->
  exists ranks, freed h' = freed h ++ ranks /\ NoDup ranks /\
    forall r, r ∈ ranks <-> (calls h <= r < calls h')%nat /\ is_ok (get_rank_call env r) = true.
Proof.
  intros Hm Hpos Hfuel Hnr Hrun. pose proof (dpu_alloc_cases env N Hm fuel nr_dpus h Hpos Hfuel Hnr) as Hc.
  rewrite Hrun in Hc. destruct Hc as (_ & Hf). exists (made env (calls h) (calls h')). split; [done|]. split; [apply made_NoDup|].
  intros r. split; [apply elem_of_made|]. intros [Hr Hok]. unfold made. apply list_elem_of_filter. split; [done|].
  apply elem_of_seq. lia.
Qed.

(** the DPU that is disabled next is on a line with the most disabled DPUs
    among the lines with an enabled one, and among these on a rank with the
    most enabled DPUs; the ranks with a single DPU are left alone. *)
Theorem disabled_dpu_is_best {D} `{!RankHandler D} g (h : host D) ranks r ci line : usable_ranks h ranks ->
  target (choose g (ranks_of_host h) ranks) = Some (r, ci, line) ->
  let key r ci line := (disabled_among (line_size g (ranks_of_host h r))
      (line_en g (ranks_of_host h r) (match g with BY_INTERFACE => ci | _ => line end)),
    get_nr_of_dpus_in_rank (ranks_of_host h r)) in
  let eligible r ci line := r ∈ ranks /\ in_rank (ranks_of_host h r) ci line /\
    enabled (dpu_of (ranks_of_host h r) ci line) = true /\ get_nr_of_dpus_in_rank (ranks_of_host h r) <> 1 in
  eligible r ci line /\ forall r' ci' line', eligible r' ci' line' -> key_le (key r' ci' line') (key r ci line).
Proof.
  intros Hus Ht key eligible. pose proof (choice_ok g h ranks r ci line Hus Ht) as Hok. split; [done|].
  intros r' ci' line' (Hr' & Hin' & He' & Hne'). pose proof (choice_best g h ranks Hus) as [Hmax Hin]. rewrite Ht in Hin.
  destruct (candidate_ok g h ranks _ Hus Hin) as (r0 & c0 & l0 & Heq & _ & _ & _ & _ & _ & _ & He & Hd).
  cbn [fst snd] in Heq, He, Hd. injection Heq as <- <- <-.
  assert (g <> BY_NOTHING) as Hg.
  { intros ->. enough (target (choose BY_NOTHING (ranks_of_host h) ranks) = None) by congruence.
    rewrite choose_pick. clear. assert (concat (map (candidates (ranks_of_host h) BY_NOTHING) ranks) = []) as ->; [|done].
    induction ranks as [|r ranks IH]; [done|]. cbn [map concat]. rewrite IH, app_nil_r. unfold candidates. by destruct (_ =? 1). }
  destruct (candidate_exists g h ranks r' ci' line' Hus Hg Hr' Hne' Hin' He') as [t Hcand].
  apply Hmax in Hcand. cbn [fst] in Hcand. unfold key. by rewrite <- Hd, <- He.
Qed.

(** C37: freeing the set that [dpu_alloc] gave frees its ranks, all those the
    allocation took, and gives back the sets that were registered before. *)
Theorem dpu_alloc_then_free {D} `{!RankHandler D} (env : outside D) N fuel nr_dpus (h h' : host D) ranks :
  machine env N -> (0 < fuel)%nat -> (S N <= fuel + calls h)%nat -> 0 <= nr_dpus <= DPU_ALLOCATE_ALL ->
  (forall ranks r, DPU_SET_RANKS ranks ∈ set_allocator_sets h -> r ∈ ranks -> (r < calls h)%nat) ->
  dpu_alloc env fuel nr_dpus h = (h', Ok (Some (DPU_SET_RANKS ranks))) ->
  let '(h'', res) := dpu_free ranks h' in
  res = Ok tt /\ set_allocator_sets h'' = set_allocator_sets h /\ freed h'' = freed h ++ ranks.
Proof.
  intros Hm Hpos Hfuel Hnr Hknown Hrun. pose proof (dpu_alloc_cases env N Hm fuel nr_dpus h Hpos Hfuel Hnr) as Hc.
  rewrite Hrun in Hc. destruct Hc as (_ & [= Hranks] & Hne & _ & _ & Hfreed & Hsets & _ & Hpool). rewrite <-Hranks in Hne, Hpool.
  assert (DPU_SET_RANKS ranks ∉ set_allocator_sets h) as Hnew.
  { intros Hin. destruct ranks as [|r l]; [done|]. pose proof (Hknown _ r Hin ltac:(by constructor)) as Hlt.
    assert (r ∈ made env (calls h) (calls h')) as Hr by (rewrite <-Hranks; by constructor). apply elem_of_made in Hr. lia. }
  pose proof (dpu_free_app ranks h' (set_allocator_sets h) [] Hpool Hsets Hnew) as Hfree.
  destruct (dpu_free ranks h') as [h'' res]. rewrite Hfreed, app_nil_r in Hfree. by destruct Hfree as (? & ? & ? & _).
Qed.

(** the parts of the scatter/gather arrays given to two DPUs of a set do not
    overlap and lie inside the arrays, as long as their size fits 32 bits. *)
Theorem sg_pool_apart nr_ranks max i j i' j' : 0 <= max -> nr_ranks * 64 * (1 + max) < 2 ^ 32 ->
  0 <= i < nr_ranks -> 0 <= j < 64 -> 0 <= i' < nr_ranks -> 0 <= j' < 64 -> (i, j) <> (i', j') ->
  sg_slots_apart max i j i' j' /\
  0 <= sl_pos (sg_slot_at i max j) /\ sl_pos (sg_slot_at i max j) + (1 + max) <= sg_array_length nr_ranks max.
Proof.
  intros Hmax Hsmall Hi Hj Hi' Hj' Hne. unfold sg_slots_apart.
  rewrite !(sg_slot_pos nr_ranks) by done. assert (sg_array_length nr_ranks max = nr_ranks * 64 * (1 + max)) as ->.
  { unfold sg_array_length, MAX_NR_DPUS_PER_RANK. rewrite !u32_id; unfold fits; rewrite ?u32_id; unfold fits; nia. }
  assert (i * 64 + j <> i' * 64 + j') as Hn by (intros Heq; apply Hne; f_equal; lia).
  split; [|nia]. destruct (Z.lt_total (i * 64 + j) (i' * 64 + j')) as [|[|]]; [left|done|right]; nia.
Qed.

(** A profile may ask for buffers that make the 32-bit sizes wrap: the DPUs of
    two ranks then share their blocks, in arrays of no element. *)
Lemma sg_pool_shared : let max := 2 ^ 26 - 1 in
  sg_slot_at 0 max 0 = sg_slot_at 1 max 0 /\ sg_array_length 2 max = 0.
Proof. split; vm_compute; reflexivity. Qed.

(** [dpu_alloc_comm] of all the DPUs fails its assertion when the first rank
    has a disabled DPU: the sum of the test of its loop wraps, and no rank is left. *)
Theorem dpu_alloc_comm_all_aborts {D} `{!RankHandler D} (env : outside D) fuel comm_type (h : host D) w dispatch :
  (0 < fuel)%nat -> profile_valid env = true -> prop_dispatch_on_all_ranks env = Some dispatch ->
  get_rank_call env (calls h) = Ok w -> snd (after_reset env (calls h) w) = Ok tt ->
  0 < get_nr_of_dpus_in_rank (rk (fst (after_reset env (calls h) w))) < 64 ->
  snd (dpu_alloc_comm env fuel DPU_ALLOCATE_ALL comm_type h) = Ok None.
Proof.
  intros Hpos Hp Hdisp Hk Hres Hcount. unfold dpu_alloc_comm, mbind, C_bind, dispatch_property. rewrite Hp, Hdisp.
  change (DPU_ALLOCATE_ALL =? 0) with false. change (DPU_ALLOCATE_ALL =? DPU_ALLOCATE_ALL) with true. cbn [negb].
  rewrite andb_false_r. unfold mret, C_ret. destruct fuel as [|fuel]; [lia|]. cbn [take_ranks]. unfold mbind, C_bind.
  unfold attempt at 1. destruct (new_rank env h w Hk) as (h1 & h2 & -> & Hreset & Hc & Hw & Hf). cbv iota beta.
  rewrite Hreset, Hres. unfold count_of, gets, ranks_of_host. rewrite Hw. cbv iota beta.
  set (c := get_nr_of_dpus_in_rank _) in *. cbn [app orb].
  match goal with |- context [if total ?l <? _ then _ else _] => set (got := l) end.
  assert (incomplete_ranks got = got) as Hinc.
  { unfold incomplete_ranks, got. rewrite filter_cons_True by (unfold is_complete; cbn; lia). done. }
  assert (complete_ranks got = []) as Hcomp.
  { unfold complete_ranks, got. rewrite filter_cons_False by (unfold is_complete; cbn; lia). done. }
  rewrite Hinc. assert (total got = c) as Htot by (cbn; apply u32_id; unfold fits; lia). rewrite Htot.
  assert (u32 (DPU_ALLOCATE_ALL + c) = c - 1) as ->.
  { unfold u32, DPU_ALLOCATE_ALL. replace (2 ^ 32 - 1 + c) with (c - 1 + 1 * 2 ^ 32) by lia. rewrite Z_mod_plus_full. apply Z.mod_small. lia. }
  rewrite (proj2 (Z.ltb_ge c (c - 1))) by lia. unfold mret, C_ret. change (40 <? lenz got) with false. cbv iota beta.
  rewrite free_all_eq, Hcomp. reflexivity.
Qed.

(** ** Witnesses: a machine of two ranks of 16 DPUs, and one whose ranks lost a DPU *)

Definition answer_of (r : rank) (k : nat) : result (world sim) :=
  if (k <? 2)%nat then Ok (mk_world r sim0) else Err DPU_ERR_ALLOCATION.
Definition sample_env (r : rank) (reset : W sim unit) (sg : option bool) : outside sim :=
  mk_outside _ (answer_of r) (fun _ => false) reset (fun _ => Ok tt) (Ok tt) true (Some false) sg (Some 0).
Definition no_reset : W sim unit := fun w => (w, Ok tt).
Definition two_ranks : outside sim := sample_env (sample_rank 2 8) no_reset (Some true).
Definition empty_host : host sim :=
  mk_host (fun _ => sim_world 2 8) 0 [] [] [] (fun _ => false) (fun _ => []) (fun _ => 0).

Lemma two_ranks_machine : machine two_ranks 2.
Proof.
  split; [lia| |].
  - intros k Hk. unfold two_ranks, sample_env. cbn [get_rank_call]. unfold answer_of.
    by rewrite (proj2 (Nat.ltb_ge k 2)) by lia.
  - intros k w Hk _. cbn [two_ranks sample_env get_rank_call] in Hk. unfold answer_of in Hk.
    destruct (k <? 2)%nat; [|done]. injection Hk as <-. split; [apply sample_counted|]. vm_compute. discriminate.
Qed.

(** 20 DPUs on two ranks of 16. *)
Definition twenty : host sim := fst (dpu_alloc two_ranks 5 20 empty_host).
Lemma twenty_run : dpu_alloc two_ranks 5 20 empty_host = (twenty, Ok (Some (DPU_SET_RANKS [0%nat; 1%nat]))).
Proof.
  unfold twenty. destruct (dpu_alloc two_ranks 5 20 empty_host) as [h' res] eqn:Hrun.
  assert (snd (dpu_alloc two_ranks 5 20 empty_host) = Ok (Some (DPU_SET_RANKS [0%nat; 1%nat]))) as Hres by (vm_compute; reflexivity).
  rewrite Hrun in Hres. cbn [fst snd] in *. by rewrite Hres.
Qed.

Lemma dpu_alloc_exact_witness :
  dpu_get_nr_dpus (ranks_of_host twenty) (DPU_SET_RANKS [0%nat; 1%nat]) = Ok 20 /\ freed twenty = [].
Proof.
  destruct (dpu_alloc_exact two_ranks 2 5 20 empty_host twenty _ two_ranks_machine ltac:(lia) ltac:(cbn; lia)
    ltac:(by_eval) twenty_run) as (Hn & _ & _ & Hf). split; [exact Hn|exact Hf].
Defined.

Lemma dpu_alloc_ends_witness : snd (dpu_alloc two_ranks 5 20 empty_host) <> Ok None /\ (5 > 0)%nat.
Proof.
  split; [|lia]. exact (dpu_alloc_ends two_ranks 2 5 20 empty_host two_ranks_machine ltac:(lia) ltac:(cbn; lia) ltac:(by_eval)).
Defined.

Lemma dpu_alloc_failure_frees_witness : exists h' : host sim, dpu_alloc two_ranks 5 40 empty_host = (h', Err DPU_ERR_ALLOCATION) /\ exists ranks : list rank_ptr, freed h' = ranks /\ 0%nat ∈ ranks /\ 1%nat ∈ ranks.
Proof.
  destruct (dpu_alloc two_ranks 5 40 empty_host) as [h' res] eqn:Hrun.
  assert (res = Err DPU_ERR_ALLOCATION) as -> by (vm_compute in Hrun; congruence).
  assert (calls h' = 3%nat) as Hc by (vm_compute in Hrun; injection Hrun as <-; reflexivity).
  exists h'. split; [done|].
  destruct (dpu_alloc_failure_frees two_ranks 2 5 40 empty_host h' _ two_ranks_machine ltac:(lia) ltac:(cbn; lia)
    ltac:(by_eval) Hrun) as (ranks & Hf & _ & Hr). exists ranks. split; [exact Hf|]. rewrite Hc in Hr.
  split; apply Hr; (split; [cbn; lia|done]).
Defined.

Lemma empty_host_known : forall ranks r, DPU_SET_RANKS ranks ∈ set_allocator_sets empty_host -> r ∈ ranks -> (r < calls empty_host)%nat.
Proof. intros ranks r Hr. by apply not_elem_of_nil in Hr. Qed.
Lemma dpu_alloc_then_free_witness : snd (dpu_free [0%nat; 1%nat] twenty) = Ok tt /\ freed (fst (dpu_free [0%nat; 1%nat] twenty)) = [0%nat; 1%nat].
Proof.
  pose proof (dpu_alloc_then_free two_ranks 2 5 20 empty_host twenty [0%nat; 1%nat] two_ranks_machine ltac:(lia) ltac:(cbn; lia)
    ltac:(by_eval) empty_host_known twenty_run) as H.
  destruct (dpu_free [0%nat; 1%nat] twenty) as [h'' res]. destruct H as (-> & _ & Hf). split; [reflexivity|exact Hf].
Defined.

Lemma sg_pool_apart_witness : sg_slots_apart 16 0 63 1 0 /\ sg_array_length 2 16 = 2176.
Proof.
  split; [|reflexivity].
  apply (sg_pool_apart 2 16 0 63 1 0); by_eval || (intros [=]).
Defined.

(** A rank of 64 DPUs that lost one. *)
Definition chipped_rank : rank := without_dpu 3 4 (sample_rank 8 8).
Definition chipped : outside sim := sample_env chipped_rank no_reset (Some false).
Lemma dpu_alloc_comm_all_aborts_witness : get_nr_of_dpus_in_rank chipped_rank = 63 /\ snd (dpu_alloc_comm chipped 5 DPU_ALLOCATE_ALL 1 empty_host) = Ok None.
Proof.
  split; [vm_compute; reflexivity|].
  apply (dpu_alloc_comm_all_aborts chipped 5 1 empty_host (mk_world chipped_rank sim0) false);
    try reflexivity; [lia|]. by_eval.
Defined.

(** One rank, whose reset succeeds and leaves no DPU enabled. *)
Definition worn_reset : W board unit := fun w =>
  let '(w, res) := ci_reset_rank 100 5 (Some [0x123]) (mret tt) w in (w, match res with Ok _ => Ok tt | Err e => Err e end).
Definition worn_machine : outside board :=
  mk_outside _ (fun k => if (k <? 1)%nat then Ok worn_world else Err DPU_ERR_ALLOCATION) (fun _ => false) worn_reset
    (fun _ => Ok tt) (Ok tt) true (Some false) (Some true) (Some 0).
Definition worn_host : host board :=
  mk_host (fun _ => worn_world) 0 [] [] [] (fun _ => false) (fun _ => []) (fun _ => 0).
(** The allocation of one DPU on it fails the assertion [current_nr_of_dpus >= nr_dpus]. *)
Lemma rank_without_dpu_aborts :
  snd (worn_reset worn_world) = Ok tt /\ get_nr_of_dpus_in_rank (rk (fst (worn_reset worn_world))) = 0 /\
  snd (dpu_alloc worn_machine 5 1 worn_host) = Ok None.
Proof. vm_compute. split_and!; reflexivity. Qed.

(** When the buffers cannot be laid out, the ranks are freed but their set stays registered. *)
Lemma freed_set_stays_registered :
  let '(h', res) := dpu_alloc (sample_env (sample_rank 2 8) no_reset None) 5 16 empty_host in
  res = Err DPU_ERR_INVALID_PROFILE /\ freed h' = [0%nat] /\ set_allocator_sets h' = [DPU_SET_RANKS [0%nat]] /\ jobs_created h' = [[0%nat]].
Proof. vm_compute. done. Qed.

(** The line counts before the rank: a DPU is taken from the rank that has fewer. *)
Definition uneven (r : rank_ptr) : rank :=
  match r with O => without_dpu 1 0 (sample_rank 2 8) | _ => sample_rank 2 8 end.
Lemma fullest_rank_not_first :
  target (choose BY_LINE uneven [0%nat; 1%nat]) = Some (0%nat, 0, 0) /\ get_nr_of_dpus_in_rank (uneven 0%nat) < get_nr_of_dpus_in_rank (uneven 1%nat).
Proof. vm_compute. done. Qed.

Lemma uneven_usable : usable_ranks (mk_host (fun r => mk_world (uneven r) sim0) 2 [] [] [] (fun _ => false) (fun _ => []) (fun _ => 0)) [0%nat; 1%nat].
Proof.
  apply list_relations.list.Forall_cons. split; [|apply list_relations.list.Forall_cons; split; [|by constructor]];
    (split; [|vm_compute; discriminate]); unfold ranks_of_host; cbn [worlds rk uneven]; [|apply sample_counted].
  apply (without_counted (sample_rank 2 8) 1 0 sample_counted); by_eval.
Qed.
Lemma disabled_dpu_is_best_witness :
  target (choose BY_LINE uneven [0%nat; 1%nat]) = Some (0%nat, 0, 0) /\ key_le (disabled_among 2 (line_en BY_LINE (uneven 1%nat) 5), 16) (disabled_among 2 (line_en BY_LINE (uneven 0%nat) 0), 15).
Proof.
  split; [vm_compute; reflexivity|].
  pose proof (disabled_dpu_is_best BY_LINE (mk_host (fun r => mk_world (uneven r) sim0) 2 [] [] [] (fun _ => false) (fun _ => []) (fun _ => 0))
    [0%nat; 1%nat] 0%nat 0 0 uneven_usable ltac:(vm_compute; reflexivity)) as [_ H].
  refine (H 1%nat 0 5 (conj _ (conj _ (conj _ _)))); [set_solver|by_eval|vm_compute; reflexivity|vm_compute; discriminate].
Defined.
