(* ===== verification/DpuGroups.v ===== *)
(** * The DPUs in the order of the rotate groups

    Model of the iterator behind [DPU_FOREACH_ENTANGLED_GROUP] of
    [src/api/include/api/dpu.h], in [src/api/src/api/dpu_set.c]: the DPUs of a
    rank, one of each interface before the next one of each, which is the order
    in which the collective operations number them. It is the iterator of
    DpuSet.v on ranks whose DPUs are permuted. *)

From stdpp Require Import relations.
From S2P Require Import Prelude CMonad Rank Ci Ufi Select Frame Mux UfiMemory Runner DpuSet.

#[local] Open Scope Z_scope.
#[local] Open Scope dpu_scope.

(** The index in the array of the rank of the DPU that comes at [dpu_idx]. *)
Definition my_dpu_idx (dpu_idx : Z) : Z := dpu_idx mod 8 * 8 + dpu_idx / 8.

Section Groups.
Variable store : rank_ptr -> rank.

Fixpoint next_enabled_group (r : rank_ptr) (n : nat) (dpu_idx : Z) : option Z :=
  match n with
  | O => None
  | S n => if dpu_enabled store (r, my_dpu_idx dpu_idx) then Some dpu_idx else next_enabled_group r n (dpu_idx + 1)
  end.
Definition next_enabled_group_in (nr_dpus : Z) (r : rank_ptr) (dpu_idx : Z) : option Z :=
  next_enabled_group r (Z.to_nat (nr_dpus - dpu_idx)) dpu_idx.

Fixpoint advance_groups (fuel : nat) (nr_dpus dpu_idx : Z) (it : dpu_set_dpu_iterator_t) : option dpu_set_dpu_iterator_t :=
  match fuel with
  | O => None
  | S fuel =>
      let r := it_rank (rank_iterator it) in
      match next_enabled_group_in nr_dpus r dpu_idx with
      | Some idx =>
          Some (mk_dpu_it (rank_iterator it) (dit_count it) (idx + 1) true (DPU_SET_DPU (r, my_dpu_idx idx)))
      | None =>
          let rit := dpu_set_rank_iterator_next (rank_iterator it) in
          let it := mk_dpu_it rit (dit_count it) (dit_next_idx it) (dit_has_next it) (dit_next it) in
          if rit_has_next rit then advance_groups fuel nr_dpus 0 it
          else Some (mk_dpu_it rit (dit_count it) (dit_next_idx it) false (dit_next it))
      end
  end.
(** [cube_size] only gives a count of groups that is not used. *)
Definition advance_to_next_dpu_in_rank_list_rotate_group (it : dpu_set_dpu_iterator_t) (cube_size : Z) : option dpu_set_dpu_iterator_t :=
  advance_groups (S (nb_ranks (rit_set (rank_iterator it)))) (nr_dpus_in store (it_rank (rank_iterator it)))
    (dit_next_idx it) it.

Definition dpu_set_dpu_iterator_next_entangled_group (it : dpu_set_dpu_iterator_t) (cube_size : Z) : option dpu_set_dpu_iterator_t :=
  let it := mk_dpu_it (rank_iterator it) (u32 (dit_count it + 1)) (dit_next_idx it) (dit_has_next it) (dit_next it) in
  if negb (dit_has_next it) then Some it
  else match rit_set (rank_iterator it) with
  | DPU_SET_RANKS _ => advance_to_next_dpu_in_rank_list_rotate_group it cube_size
  | _ => Some (mk_dpu_it (rank_iterator it) (dit_count it) (dit_next_idx it) false (dit_next it))
  end.

Fixpoint foreach_entangled_group (cube_size : Z) (fuel : nat) (it : dpu_set_dpu_iterator_t) : option (list (Z * dpu_set_t)) :=
  match fuel with
  | O => None
  | S fuel =>
      if dit_has_next it
      then it' ← dpu_set_dpu_iterator_next_entangled_group it cube_size;
           l ← foreach_entangled_group cube_size fuel it'; Some ((dit_count it, dit_next it) :: l)
      else Some []
  end.
Definition DPU_FOREACH_ENTANGLED_GROUP (fuel : nat) (set : dpu_set_t) (cube_size : Z) : option (list (Z * dpu_set_t)) :=
  it ← dpu_set_dpu_iterator_from store set; foreach_entangled_group cube_size fuel it.
End Groups.

(** ** The ranks with their DPUs permuted *)

Section Permuted.
Variable store : rank_ptr -> rank.

Definition permuted (r : rank_ptr) : rank :=
  set_dpus (map (fun i => (dpus (store r)).[my_dpu_idx i]) (seqZ 0 64)) (store r).
Definition to_group (set : dpu_set_t) : dpu_set_t :=
  match set with DPU_SET_DPU (r, i) => DPU_SET_DPU (r, my_dpu_idx i) | _ => set end.
Definition it_to_group (it : dpu_set_dpu_iterator_t) : dpu_set_dpu_iterator_t :=
  mk_dpu_it (rank_iterator it) (dit_count it) (dit_next_idx it) (dit_has_next it) (to_group (dit_next it)).

Lemma permuted_nr_dpus r : nr_dpus_in permuted r = nr_dpus_in store r.
Proof. done. Qed.

Lemma permuted_enabled r i : 0 <= i < 64 -> dpu_enabled permuted (r, i) = dpu_enabled store (r, my_dpu_idx i).
Proof. intros Hi. unfold dpu_enabled, permuted. cbn [fst snd dpus set_dpus]. by rewrite lookup_map_seqZ. Qed.

Lemma next_enabled_permuted n r i : 0 <= i -> n <= 64 ->
  next_enabled_group_in store n r i = next_enabled_in permuted n r i.
Proof.
  intros Hi Hn. unfold next_enabled_group_in, next_enabled_in. remember (Z.to_nat (n - i)) as k eqn:Hk.
  revert i Hi Hk. induction k as [|k IH]; intros i Hi Hk; [done|]. cbn [next_enabled_group next_enabled].
  rewrite permuted_enabled by lia. by rewrite IH by lia.
Qed.

Lemma advance_permuted fuel n i it : 0 <= i -> n <= 64 ->
  advance_groups store fuel n i (it_to_group it) = it_to_group <$> advance_ranks permuted fuel n i it.
Proof.
  intros Hi Hn. revert i it Hi. induction fuel as [|fuel IH]; intros i it Hi; [done|].
  cbn [advance_groups advance_ranks]. change (rank_iterator (it_to_group it)) with (rank_iterator it).
  rewrite next_enabled_permuted by done. destruct (next_enabled_in permuted n _ i); [done|]. cbv zeta.
  destruct (rit_has_next _); [|done]. rewrite <- IH by done. done.
Qed.

(** The index of the next DPU stays positive. *)
Lemma next_enabled_pos r k i j : next_enabled permuted r k i = Some j -> 0 <= i -> 0 <= j.
Proof.
  revert i. induction k as [|k IH]; intros i; [done|]. cbn [next_enabled]. destruct (dpu_enabled _ _).
  - by intros [= ->].
  - intros H Hi. apply (IH (i + 1)); [done|lia].
Qed.
Lemma advance_idx fuel n i it it' : advance_ranks permuted fuel n i it = Some it' -> 0 <= i -> 0 <= dit_next_idx it -> 0 <= dit_next_idx it'.
Proof.
  revert i it. induction fuel as [|fuel IH]; intros i it; [done|]. cbn [advance_ranks].
  destruct (next_enabled_in permuted n _ i) as [j|] eqn:Hj.
  - intros [= <-] Hi _. cbn [dit_next_idx]. apply next_enabled_pos in Hj; [lia|done].
  - cbv zeta. destruct (rit_has_next _).
    + intros H Hi Hidx. by apply (IH 0 _ H).
    + by intros [= <-].
Qed.

Lemma next_permuted it cube_size : 0 <= dit_next_idx it -> nr_dpus_in store (it_rank (rank_iterator it)) <= 64 ->
  dpu_set_dpu_iterator_next_entangled_group store (it_to_group it) cube_size =
  it_to_group <$> dpu_set_dpu_iterator_next permuted it.
Proof.
  intros Hi Hn. unfold dpu_set_dpu_iterator_next_entangled_group, dpu_set_dpu_iterator_next. cbv zeta.
  cbn [dit_has_next it_to_group]. destruct (negb (dit_has_next it)); [done|]. cbn [rank_iterator it_to_group].
  destruct (rit_set (rank_iterator it)); [|done..].
  unfold advance_to_next_dpu_in_rank_list_rotate_group, advance_to_next_dpu_in_rank_list. cbn [rank_iterator dit_next_idx it_to_group].
  rewrite permuted_nr_dpus, <- advance_permuted by done. done.
Qed.
End Permuted.

Section Order.
Variable store : rank_ptr -> rank.
Variable ranks : list rank_ptr.
Hypothesis Hlen : 64 * lenz ranks < 2 ^ 32.
Hypothesis H64 : Forall (fun r => nr_dpus_in store r = 64) ranks.

Lemma iterator_rank it l : dpus_left (permuted store) ranks l it -> l <> [] -> it_rank (rank_iterator it) ∈ ranks.
Proof using Type.
  intros Hl Hne. destruct l as [|d l]; [done|]. destruct Hl as (_ & _ & p & (_ & _ & Hp & _ & ->) & _).
  by apply list_elem_of_lookup_total_2.
Qed.

Lemma foreach_permuted cube_size fuel it l : dpus_left (permuted store) ranks l it -> 0 <= dit_next_idx it ->
  foreach_entangled_group store cube_size fuel (it_to_group it) =
  map (prod_map id to_group) <$> dpu_foreach (permuted store) fuel it.
Proof using Hlen H64.
  revert it l. induction fuel as [|fuel IH]; intros it l Hl Hi; [done|]. cbn [foreach_entangled_group dpu_foreach].
  change (dit_has_next (it_to_group it)) with (dit_has_next it). destruct l as [|d l].
  - cbn [dpus_left] in Hl. by rewrite Hl.
  - pose proof (iterator_rank it (d :: l) Hl ltac:(done)) as Hr.
    rewrite list_relations.list.Forall_forall in H64. pose proof (H64 _ Hr) as Hn.
    assert (Forall (fun r => nr_dpus_in (permuted store) r = 64) ranks) as Hsame
      by (apply list_relations.list.Forall_forall; intros; by apply H64).
    destruct (dpu_next_spec (permuted store) ranks ltac:(unfold lenz in *; lia) 64 Hsame d l it Hl) as (it' & Hnext & _ & Hl').
    rewrite (proj1 Hl). rewrite next_permuted by (done || lia). rewrite Hnext. cbn [fmap option_fmap option_map mbind option_bind].
    assert (0 <= dit_next_idx it') as Hi'.
    { unfold dpu_set_dpu_iterator_next in Hnext. cbv zeta in Hnext. cbn [dit_has_next] in Hnext. rewrite (proj1 Hl) in Hnext.
      cbn [negb rank_iterator] in Hnext. destruct (rit_set _); [|injection Hnext as <-; done..].
      by apply advance_idx in Hnext. }
    rewrite (IH it' l Hl' Hi'). by destruct (dpu_foreach (permuted store) fuel it').
Qed.

(** The plain iterator starts the loop: it has to find the DPU 0. *)
Lemma from_permuted r rs : ranks = r :: rs -> dpu_enabled store (r, 0) = true ->
  exists it, dpu_set_dpu_iterator_from (permuted store) (DPU_SET_RANKS ranks) = Some it /\
    dpu_set_dpu_iterator_from store (DPU_SET_RANKS ranks) = Some (it_to_group it) /\
    dit_next_idx it = 1 /\ dit_count it = 0 /\
    dpus_left (permuted store) ranks (dpus_of_set (permuted store) (DPU_SET_RANKS ranks)) it.
Proof using H64.
  clear Hlen. intros -> H0. apply list_relations.list.Forall_cons in H64 as [Hr _].
  assert (forall st, nr_dpus_in st r = 64 -> dpu_enabled st (r, 0) = true ->
    dpu_set_dpu_iterator_from st (DPU_SET_RANKS (r :: rs)) =
    Some (mk_dpu_it (dpu_set_rank_iterator_from (DPU_SET_RANKS (r :: rs))) 0 1 true (DPU_SET_DPU (r, 0)))) as Hfrom.
  { intros st Hst Hen. unfold dpu_set_dpu_iterator_from.
    assert (rit_has_next (dpu_set_rank_iterator_from (DPU_SET_RANKS (r :: rs))) = true) as -> by done. cbn [negb].
    unfold advance_to_next_dpu_in_rank_list. cbn [rank_iterator dit_next_idx].
    change (it_rank (dpu_set_rank_iterator_from (DPU_SET_RANKS (r :: rs)))) with r. rewrite Hst. cbn [advance_ranks rank_iterator].
    change (it_rank (dpu_set_rank_iterator_from (DPU_SET_RANKS (r :: rs)))) with r.
    unfold next_enabled_in. change (Z.to_nat (64 - 0)) with 64%nat. cbn [next_enabled]. by rewrite Hen. }
  eexists. split; [apply Hfrom; [done|by rewrite permuted_enabled]|]. split; [by apply Hfrom|]. split; [done|]. split; [done|].
  assert (dpus_of_set (permuted store) (DPU_SET_RANKS (r :: rs)) = (r, 0) :: rest (permuted store) (r :: rs) 0 1) as ->.
  { cbn [dpus_of_set map concat]. rewrite <- enabled_from_0. unfold rest. change ((r :: rs) !!! 0%nat) with r.
    pose proof (next_enabled_spec (permuted store) r 0) as Hne. unfold next_enabled_in in Hne.
    change (nr_dpus_in (permuted store) r) with (nr_dpus_in store r) in Hne. rewrite Hr in Hne.
    change (Z.to_nat (64 - 0)) with 64%nat in Hne. cbn [next_enabled] in Hne. rewrite permuted_enabled in Hne by done.
    change (my_dpu_idx 0) with 0 in Hne. rewrite H0 in Hne. by rewrite Hne. }
  split; [done|]. split; [done|]. exists 0%nat. split; [by apply rank_at_from|done].
Qed.

(** The loop over full ranks: the DPU i is on the interface i mod 8 of the rank i/64. *)
Definition full_ranks : Prop := forall r i, r ∈ ranks -> 0 <= i < 64 -> dpu_enabled store (r, i) = true.
Definition group_order : list (Z * dpu_set_t) :=
  map (fun i => (i, DPU_SET_DPU (ranks.[i / 64], my_dpu_idx (i mod 64)))) (seqZ 0 (64 * lenz ranks)).

Lemma my_dpu_idx_range i : 0 <= i < 64 -> 0 <= my_dpu_idx i < 64.
Proof using Type. intros Hi. unfold my_dpu_idx. Z.div_mod_to_equations. lia. Qed.

Lemma full_enabled_in r : full_ranks -> r ∈ ranks -> enabled_in (permuted store) r = map (pair r) (seqZ 0 64).
Proof using H64.
  intros Hf Hr. unfold enabled_in. rewrite list_relations.list.Forall_forall in H64. rewrite permuted_nr_dpus, (H64 _ Hr). f_equal.
  assert (forall l : list Z, (forall i, i ∈ l -> 0 <= i < 64) -> filter (fun i => dpu_enabled (permuted store) (r, i) = true) l = l) as Hl.
  { induction l as [|i l IH]; intros Hi; [done|]. pose proof (Hi i ltac:(apply elem_of_cons; by left)) as Hi0.
    rewrite filter_cons_True by (rewrite permuted_enabled by done; apply Hf; [done|by apply my_dpu_idx_range]).
    rewrite IH; [done|]. intros j Hj. apply Hi, elem_of_cons. by right. }
  apply Hl. intros i Hi%elem_of_seqZ. lia.
Qed.

Lemma dpus_of_full_ranks : full_ranks -> dpus_of_set (permuted store) (DPU_SET_RANKS ranks) =
  map (fun i => (ranks.[i / 64], i mod 64)) (seqZ 0 (64 * lenz ranks)).
Proof using H64.
  intros Hf. cbn [dpus_of_set]. rewrite (Z.mul_comm 64).
  rewrite <- (seqZ_blocks (fun k u => (ranks.[k], u mod 64))) by (unfold lenz; lia).
  assert (map (enabled_in (permuted store)) ranks = map (fun r => map (pair r) (seqZ 0 64)) ranks) as ->.
  { apply map_ext_in. intros r Hr%list_elem_of_In. by apply full_enabled_in. }
  assert (map (fun r => map (pair r) (seqZ 0 64)) ranks =
    map (fun k => map (fun u => (ranks.[k], u mod 64)) (seqZ (k * 64) 64)) (seqZ 0 (lenz ranks))) as ->; [|done].
  apply list_eq_lenz; [rewrite lenz_map_seqZ by (unfold lenz; lia); unfold lenz; by rewrite length_map|].
  intros k Hk. unfold lenz in Hk. rewrite length_map in Hk. rewrite lookup_map_seqZ by (unfold lenz; lia).
  unfold getz. rewrite (list_lookup_total_fmap (fun r => map (pair r) (seqZ 0 64))) by lia.
  replace (seqZ (k * 64) 64) with (map (Z.add (k * 64)) (seqZ 0 64)) by (rewrite <- (Z.add_0_r (k * 64)) at 2; apply (fmap_add_seqZ (k * 64) 0 64)).
  rewrite map_map. apply map_ext_in. intros u Hu%list_elem_of_In%elem_of_seqZ.
  by rewrite Z.add_comm, Z.mod_add, Z.mod_small by lia.
Qed.

Lemma groups_in_order cube_size fuel : ranks <> [] -> full_ranks -> 64 * lenz ranks < Z.of_nat fuel ->
  DPU_FOREACH_ENTANGLED_GROUP store fuel (DPU_SET_RANKS ranks) cube_size = Some group_order.
Proof using All.
  intros Hne Hf Hfuel. assert (exists r rs, ranks = r :: rs) as (r & rs & Hranks).
  { clear - Hne. destruct ranks as [|r rs]; [done|by exists r, rs]. }
  assert (r ∈ ranks) as Hr by (rewrite Hranks; apply elem_of_cons; by left).
  destruct (from_permuted r rs Hranks (Hf r 0 Hr ltac:(lia))) as (it & _ & Hfrom & Hidx & Hcount & Hleft).
  assert (Forall (fun r => nr_dpus_in (permuted store) r = 64) ranks) as Hsame by done.
  rewrite dpus_of_full_ranks in Hleft by done. set (l := map _ (seqZ 0 (64 * lenz ranks))) in *.
  assert (@lenz dpu_ptr l = 64 * lenz ranks) as Hl by (apply lenz_map_seqZ; unfold lenz; lia).
  unfold DPU_FOREACH_ENTANGLED_GROUP. rewrite Hfrom. cbn [mbind option_bind].
  rewrite (foreach_permuted cube_size fuel it l Hleft) by lia.
  assert (lenz ranks < 2 ^ 32) as Hl32 by (unfold lenz in *; lia).
  assert (length l < fuel)%nat as Hlf by (apply Nat2Z.inj_lt; change (Z.of_nat (length l)) with (@lenz dpu_ptr l); by rewrite Hl).
  rewrite (dpu_foreach_spec (permuted store) ranks Hl32 64 Hsame fuel it l 0) by (done || lia).
  rewrite Hl. unfold l. rewrite map_map, zip_map_self. cbn [fmap option_fmap option_map]. by rewrite map_map.
Qed.
End Order.

(** The number of the DPU [rg] of the interface [ci_id] of the rank k. *)
Lemma number_in_group_order ranks k rg ci_id : 0 <= k < lenz ranks -> 0 <= rg < 8 -> 0 <= ci_id < 8 ->
  (64 * k + 8 * rg + ci_id, DPU_SET_DPU (ranks.[k], ci_id * 8 + rg)) ∈ group_order ranks.
Proof.
  intros Hk Hr Hc. apply list_elem_of_In, in_map_iff. exists (64 * k + 8 * rg + ci_id). split.
  - do 3 f_equal; [f_equal; symmetry; apply (Z.div_unique _ 64 _ (8 * rg + ci_id)); [left|]; lia|].
    unfold my_dpu_idx. Z.div_mod_to_equations. lia.
  - apply list_elem_of_In, elem_of_seqZ. lia.
Qed.

Lemma group_order_inj ranks i j d : NoDup ranks -> (i, d) ∈ group_order ranks -> (j, d) ∈ group_order ranks -> i = j.
Proof.
  intros Hnd (i' & Hi' & Hi)%list_elem_of_In%in_map_iff (j' & Hj' & Hj)%list_elem_of_In%in_map_iff.
  injection Hi' as -> <-. injection Hj' as -> Hd Hx.
  apply list_elem_of_In, elem_of_seqZ in Hi, Hj.
  assert (i / 64 = j / 64) as Hq.
  { unfold getz in Hd. enough (Z.to_nat (i / 64) = Z.to_nat (j / 64)) by (Z.div_mod_to_equations; lia).
    assert (forall x, 0 <= x < 64 * lenz ranks -> ranks !! Z.to_nat (x / 64) = Some (ranks !!! Z.to_nat (x / 64))) as Hlk.
    { intros x Hxr. apply list_lookup_lookup_total_lt. unfold lenz in *. Z.div_mod_to_equations. lia. }
    eapply NoDup_lookup; [exact Hnd|rewrite Hlk by lia; reflexivity|]. rewrite Hlk by lia. by rewrite Hd. }
  unfold my_dpu_idx in Hx. Z.div_mod_to_equations. lia.
Qed.

(** The loop starts from the first DPU in the order of the array: when the DPU 0
    is disabled, the DPU 1 of the interface 0 comes first and again as the ninth,
    and the first DPU of the interface 1 is missed. *)
Lemma disabled_first_dpu : let store _ := upd_dpu 0 0 (set_enabled false) (sample_rank 8 8) in
  let index (x : Z * dpu_set_t) := match x.2 with DPU_SET_DPU (_, i) => i | _ => -1 end in
  (fun l => (length (filter (fun i => i = 1) (map index l)), length (filter (fun i => i = 8) (map index l)))) <$>
    DPU_FOREACH_ENTANGLED_GROUP store 100 (DPU_SET_RANKS [O]) 64 = Some (2%nat, 0%nat).
Proof. vm_compute. reflexivity. Qed.

(** With four DPUs per interface, the fifth index is past the array of the rank. *)
Lemma group_index_out_of_rank : nr_dpus_in (fun _ => sample_rank 8 4) O = 32 /\ my_dpu_idx 4 = 32.
Proof. done. Qed.
