(* ===== verification/SymbolAccess.v ===== *)
(** * Accesses to the symbols of a set of DPUs

    Model of the entry points of [src/api/src/api/dpu_memory.c] that copy data
    between the host and a symbol of the program of a set of DPUs: the checks
    of the access, the jobs given to the threads of the ranks, the common
    program of a set and the transfer matrix that [dpu_prepare_xfer] fills.
    The memory is selected by two bits of the address; the offset of a symbol
    is a 32-bit integer and the length of the copy a 64-bit one. A program is
    its address (0 for [NULL]), and so is a host buffer. *)

From Stdlib Require Import String.
From stdpp Require Import relations functions strings.
From S2P Require Import Prelude CMonad Rank Ci Ufi Select Frame Mux UfiMemory Runner DpuSet.
From S2P Require ThreadJob.
Import ThreadJob(dpu_thread_job_type(..)).

#[local] Open Scope Z_scope.
#[local] Open Scope dpu_scope.

Definition IRAM_MASK := 0x80000000.
Definition MRAM_MASK := 0x08000000.
Definition IRAM_ALIGN := 3.
Definition WRAM_ALIGN := 2.
Definition ALIGN_MASK (align : Z) : Z := not32 (shl32 1 align - 1).
Definition IRAM_ALIGN_MASK := ALIGN_MASK IRAM_ALIGN.
Definition WRAM_ALIGN_MASK := ALIGN_MASK WRAM_ALIGN.

(** [struct dpu_symbol_t]. *)
Record dpu_symbol_t := mk_symbol { sym_address : Z; sym_size : Z }.

Inductive dpu_xfer_t := DPU_XFER_TO_DPU | DPU_XFER_FROM_DPU | DPU_XFER_OTHER.
Definition DPU_XFER_DEFAULT := 0.
Definition DPU_XFER_NO_RESET := 1.
Definition DPU_XFER_ASYNC := 2.

(** ** The memory of an address *)

Inductive memory_kind := IRAM | MRAM | WRAM.

Definition MEMORY_SWITCH (address : Z) : memory_kind :=
  if address &&& IRAM_MASK =? IRAM_MASK then IRAM
  else if address &&& MRAM_MASK =? MRAM_MASK then MRAM
  else WRAM.

(** [UPDATE_<memory>_COPY_PARAMETERS]: the address and the length in the units of the memory. *)
Definition UPDATE_COPY_PARAMETERS (address length : Z) : Z * Z :=
  match MEMORY_SWITCH address with
  | IRAM => (Z.shiftr (address &&& not32 IRAM_MASK) IRAM_ALIGN, Z.shiftr length IRAM_ALIGN)
  | MRAM => (address &&& not32 MRAM_MASK, length)
  | WRAM => (Z.shiftr address WRAM_ALIGN, Z.shiftr length WRAM_ALIGN)
  end.

(** The masks of [CHECK_SYMBOL] have 32 bits, so they keep the low bits of the length. *)
Definition CHECK_SYMBOL (symbol : dpu_symbol_t) (symbol_offset length : Z) : option dpu_error_t :=
  let address := u32 (sym_address symbol + symbol_offset) in
  if sym_size symbol <? u64 (symbol_offset + length) then Some DPU_ERR_INVALID_SYMBOL_ACCESS
  else match MEMORY_SWITCH address with
  | IRAM => if negb (address &&& not32 IRAM_ALIGN_MASK =? 0) then Some DPU_ERR_INVALID_IRAM_ACCESS
            else if negb (length &&& not32 IRAM_ALIGN_MASK =? 0) then Some DPU_ERR_INVALID_IRAM_ACCESS
            else None
  | MRAM => None
  | WRAM => if negb (address &&& not32 WRAM_ALIGN_MASK =? 0) then Some DPU_ERR_INVALID_WRAM_ACCESS
            else if negb (length &&& not32 WRAM_ALIGN_MASK =? 0) then Some DPU_ERR_INVALID_WRAM_ACCESS
            else None
  end.

Definition DPU_BROADCAST_SET_JOB_TYPE (address : Z) : dpu_thread_job_type :=
  match MEMORY_SWITCH address with
  | IRAM => DPU_THREAD_JOB_COPY_IRAM_TO_RANK
  | MRAM => DPU_THREAD_JOB_COPY_MRAM_TO_RANK
  | WRAM => DPU_THREAD_JOB_COPY_WRAM_TO_RANK
  end.
Definition DPU_COPY_MATRIX_SET_JOB_TYPE (xfer : dpu_xfer_t) (address : Z) : option dpu_thread_job_type :=
  match xfer, MEMORY_SWITCH address with
  | DPU_XFER_TO_DPU, IRAM => Some DPU_THREAD_JOB_COPY_IRAM_TO_MATRIX
  | DPU_XFER_TO_DPU, MRAM => Some DPU_THREAD_JOB_COPY_MRAM_TO_MATRIX
  | DPU_XFER_TO_DPU, WRAM => Some DPU_THREAD_JOB_COPY_WRAM_TO_MATRIX
  | DPU_XFER_FROM_DPU, IRAM => Some DPU_THREAD_JOB_COPY_IRAM_FROM_MATRIX
  | DPU_XFER_FROM_DPU, MRAM => Some DPU_THREAD_JOB_COPY_MRAM_FROM_MATRIX
  | DPU_XFER_FROM_DPU, WRAM => Some DPU_THREAD_JOB_COPY_WRAM_FROM_MATRIX
  | DPU_XFER_OTHER, _ => None
  end.
Definition SYNCHRONOUS_FLAGS (flags : Z) : bool := DPU_XFER_ASYNC &&& flags =? 0.

(** The jobs of an access: a copy of the same bytes to the DPUs of a rank, or
    the transfer of a matrix. *)
Inductive access_job :=
| RankJob (type : dpu_thread_job_type) (address length buffer : Z)
| MatrixJob (type : dpu_thread_job_type) (matrix : dpu_transfer_matrix).

(** The matrices of the ranks, and the jobs posted so far. *)
Record access_state := mk_access {
  api_matrix : rank_ptr -> dpu_transfer_matrix;
  callback_matrix : rank_ptr -> dpu_transfer_matrix;
  posted : list (bool * list (rank_ptr * access_job));
}.

Section Access.
(** The ranks, the program of each DPU, the symbols of each program in the
    order of its table, and whether the calling thread runs a callback of a
    rank; what getting and doing jobs answers. *)
Variable store : rank_ptr -> rank.
Variable dpu_get_program : dpu_ptr -> Z.
Variable symbols : Z -> list (string * dpu_symbol_t).
Variable in_callback : rank_ptr -> bool.
Variable get_jobs : bool -> list rank_ptr -> option dpu_error_t.
Variable do_jobs : bool -> list (rank_ptr * access_job) -> option dpu_error_t.
Notation A := (C access_state).

Definition status (e : option dpu_error_t) : A unit := match e with None => mret tt | Some e => fail e end.
Definition as_status (m : A unit) : A (option dpu_error_t) := fun s =>
  let '(s, res) := m s in (s, Ok (match res with Ok _ => None | Err e => Some e end)).
Definition dpu_thread_job_get_jobs (sync : bool) (ranks : list rank_ptr) : A unit := status (get_jobs sync ranks).
Definition dpu_thread_job_do_jobs (sync : bool) (jobs : list (rank_ptr * access_job)) : A unit :=
  _ ← modify (fun s => mk_access (api_matrix s) (callback_matrix s) (posted s ++ [(sync, jobs)]));
  status (do_jobs sync jobs).

(** [dpu_get_transfer_matrix] and its update. *)
Definition dpu_get_transfer_matrix (r : rank_ptr) (s : access_state) : dpu_transfer_matrix :=
  if in_callback r then callback_matrix s r else api_matrix s r.
Definition upd_transfer_matrix (r : rank_ptr) (f : dpu_transfer_matrix -> dpu_transfer_matrix) : A unit := modify (fun s =>
  if in_callback r then mk_access (api_matrix s) (<[r := f (callback_matrix s r)]> (callback_matrix s)) (posted s)
  else mk_access (<[r := f (api_matrix s r)]> (api_matrix s)) (callback_matrix s) (posted s)).

Definition the_dpu (d : dpu_ptr) : dpu_t := (dpus (store (fst d))).[snd d].

(** ** One DPU, and the ranks *)

Definition dpu_copy_symbol_dpu (d : dpu_ptr) (symbol : dpu_symbol_t) (symbol_offset buffer length : Z)
    (xfer : dpu_xfer_t) (flags : Z) : A unit :=
  if negb (enabled (the_dpu d)) then fail DPU_ERR_DPU_DISABLED
  else
    _ ← status (CHECK_SYMBOL symbol symbol_offset length);
    let address := u32 (sym_address symbol + symbol_offset) in
    match DPU_COPY_MATRIX_SET_JOB_TYPE xfer address with
    | None => fail DPU_ERR_INVALID_MEMORY_TRANSFER
    | Some job_type =>
        let '(address, length) := UPDATE_COPY_PARAMETERS address length in
        _ ← dpu_thread_job_get_jobs (SYNCHRONOUS_FLAGS flags) [fst d];
        let matrix := dpu_transfer_matrix_add_dpu (store (fst d)) (the_dpu d) buffer dpu_transfer_matrix_clear_all in
        dpu_thread_job_do_jobs (SYNCHRONOUS_FLAGS flags)
          [(fst d, MatrixJob job_type (mk_matrix (tm_ptr matrix) address (u32 length) (tm_type matrix)))]
    end.

Definition dpu_broadcast_to_symbol_for_ranks (ranks : list rank_ptr) (symbol : dpu_symbol_t)
    (symbol_offset src length flags : Z) : A unit :=
  _ ← status (CHECK_SYMBOL symbol symbol_offset length);
  let address := u32 (sym_address symbol + symbol_offset) in
  let job_type := DPU_BROADCAST_SET_JOB_TYPE address in
  let '(address, length) := UPDATE_COPY_PARAMETERS address length in
  _ ← dpu_thread_job_get_jobs (SYNCHRONOUS_FLAGS flags) ranks;
  dpu_thread_job_do_jobs (SYNCHRONOUS_FLAGS flags) (map (fun r => (r, RankJob job_type address (u32 length) src)) ranks).

(** ** Programs and symbols *)

(** The DPUs of a rank by interface then by number, as the nested loops visit them. *)
Definition dpus_by_interface (r : rank_ptr) : list dpu_ptr :=
  concat (map (fun each_ci => map (fun each_dpu => (r, DPU_INDEX (store r) each_ci each_dpu))
    (seqZ 0 (nr_dpus_of (store r)))) (seqZ 0 (nr_cis_of (store r)))).

Fixpoint common_program (dpus : list dpu_ptr) (the_program : Z) : result Z :=
  match dpus with
  | [] => Ok the_program
  | d :: dpus =>
      if negb (enabled (the_dpu d)) then common_program dpus the_program
      else
        let dpu_program := dpu_get_program d in
        let the_program := if the_program =? 0 then dpu_program else the_program in
        if negb (the_program =? dpu_program) then Err DPU_ERR_DIFFERENT_DPU_PROGRAMS
        else common_program dpus the_program
  end.
Definition dpu_get_common_program (dpu_set : dpu_set_t) : result Z :=
  let the_program := match dpu_set with
    | DPU_SET_RANKS ranks => common_program (concat (map dpus_by_interface ranks)) 0
    | DPU_SET_DPU d => Ok (dpu_get_program d)
    | DPU_SET_OTHER => Err DPU_ERR_INTERNAL
    end in
  match the_program with
  | Ok p => if p =? 0 then Err DPU_ERR_NO_PROGRAM_LOADED else Ok p
  | Err e => Err e
  end.

Fixpoint find_symbol (symbol_name : string) (table : list (string * dpu_symbol_t)) : result dpu_symbol_t :=
  match table with
  | [] => Err DPU_ERR_UNKNOWN_SYMBOL
  | (name, symbol) :: table => if (symbol_name =? name)%string then Ok symbol else find_symbol symbol_name table
  end.
Definition dpu_get_symbol (program : Z) (symbol_name : string) : result dpu_symbol_t :=
  find_symbol symbol_name (symbols program).
Definition of_result {B} (r : result B) : A B := match r with Ok b => mret b | Err e => fail e end.
Definition symbol_of_set (dpu_set : dpu_set_t) (symbol_name : string) : A dpu_symbol_t :=
  program ← of_result (dpu_get_common_program dpu_set);
  of_result (dpu_get_symbol program symbol_name).

(** ** Copies *)

Definition dpu_broadcast_to_symbol (dpu_set : dpu_set_t) (symbol : dpu_symbol_t) (symbol_offset src length flags : Z) : A unit :=
  match dpu_set with
  | DPU_SET_RANKS ranks => dpu_broadcast_to_symbol_for_ranks ranks symbol symbol_offset src length flags
  | DPU_SET_DPU d => dpu_copy_symbol_dpu d symbol symbol_offset src length DPU_XFER_TO_DPU flags
  | DPU_SET_OTHER => fail DPU_ERR_INTERNAL
  end.
Definition dpu_broadcast_to (dpu_set : dpu_set_t) (symbol_name : string) (symbol_offset src length flags : Z) : A unit :=
  symbol ← symbol_of_set dpu_set symbol_name;
  dpu_broadcast_to_symbol dpu_set symbol symbol_offset src length flags.
Definition dpu_copy_to (dpu_set : dpu_set_t) (symbol_name : string) (symbol_offset src length : Z) : A unit :=
  symbol ← symbol_of_set dpu_set symbol_name;
  dpu_broadcast_to_symbol dpu_set symbol symbol_offset src length DPU_XFER_DEFAULT.
Definition dpu_copy_to_symbol (dpu_set : dpu_set_t) (symbol : dpu_symbol_t) (symbol_offset src length : Z) : A unit :=
  dpu_broadcast_to_symbol dpu_set symbol symbol_offset src length DPU_XFER_DEFAULT.

Definition only_one_dpu (dpu_set : dpu_set_t) : result dpu_ptr :=
  match dpu_set with
  | DPU_SET_DPU d => Ok d
  | DPU_SET_RANKS _ => Err DPU_ERR_INVALID_DPU_SET
  | DPU_SET_OTHER => Err DPU_ERR_INTERNAL
  end.
Definition dpu_copy_from (dpu_set : dpu_set_t) (symbol_name : string) (symbol_offset dst length : Z) : A unit :=
  dpu ← of_result (only_one_dpu dpu_set);
  if dpu_get_program dpu =? 0 then fail DPU_ERR_NO_PROGRAM_LOADED
  else
    symbol ← of_result (dpu_get_symbol (dpu_get_program dpu) symbol_name);
    dpu_copy_symbol_dpu dpu symbol symbol_offset dst length DPU_XFER_FROM_DPU DPU_XFER_DEFAULT.
Definition dpu_copy_from_symbol (dpu_set : dpu_set_t) (symbol : dpu_symbol_t) (symbol_offset dst length : Z) : A unit :=
  dpu ← of_result (only_one_dpu dpu_set);
  dpu_copy_symbol_dpu dpu symbol symbol_offset dst length DPU_XFER_FROM_DPU DPU_XFER_DEFAULT.

(** ** Transfers prepared in the matrix of each rank *)

Definition dpu_prepare_xfer (dpu_set : dpu_set_t) (buffer : Z) : A unit :=
  match dpu_set with
  | DPU_SET_RANKS ranks =>
      mfold (fun r _ =>
        mfor (nr_cis_of (store r)) (fun each_ci _ =>
          mfor (nr_dpus_of (store r)) (fun each_dpu _ =>
            let dpu := dpu_of (store r) each_ci each_dpu in
            if negb (enabled dpu) then mret tt
            else upd_transfer_matrix r (dpu_transfer_matrix_add_dpu (store r) dpu buffer)) tt) tt) ranks tt
  | DPU_SET_DPU d =>
      if negb (enabled (the_dpu d)) then fail DPU_ERR_DPU_DISABLED
      else upd_transfer_matrix (fst d) (dpu_transfer_matrix_add_dpu (store (fst d)) (the_dpu d) buffer)
  | DPU_SET_OTHER => fail DPU_ERR_INTERNAL
  end.

(** The switch on the kind of set: a failure returns from the function, the
    value is the status at the end of the switch ([None]: [DPU_OK]). *)
Definition push_xfer_ranks (ranks : list rank_ptr) (xfer : dpu_xfer_t) (symbol : dpu_symbol_t)
    (symbol_offset length flags : Z) : A (option dpu_error_t) :=
  _ ← status (CHECK_SYMBOL symbol symbol_offset length);
  let address := u32 (sym_address symbol + symbol_offset) in
  match DPU_COPY_MATRIX_SET_JOB_TYPE xfer address with
  | None => fail DPU_ERR_INVALID_MEMORY_TRANSFER
  | Some job_type =>
      let '(address, length) := UPDATE_COPY_PARAMETERS address length in
      _ ← dpu_thread_job_get_jobs (SYNCHRONOUS_FLAGS flags) ranks;
      jobs ← gets (fun s => map (fun r => let m := dpu_get_transfer_matrix r s in
        (r, MatrixJob job_type (mk_matrix (tm_ptr m) address (u32 length) (tm_type m)))) ranks);
      as_status (dpu_thread_job_do_jobs (SYNCHRONOUS_FLAGS flags) jobs)
  end.
(** The copy of one DPU does not return from the function when it fails. *)
Definition push_xfer_dpu (d : dpu_ptr) (xfer : dpu_xfer_t) (symbol : dpu_symbol_t)
    (symbol_offset length flags : Z) : A (option dpu_error_t) := fun s =>
  let dpu := the_dpu d in
  let buffer := (tm_ptr (dpu_get_transfer_matrix (fst d) s)).[get_transfer_matrix_index (store (fst d)) (slice_id dpu) (dpu_id dpu)] in
  as_status (dpu_copy_symbol_dpu d symbol symbol_offset buffer length xfer flags) s.

Definition reset_matrices (dpu_set : dpu_set_t) : A unit :=
  match dpu_set with
  | DPU_SET_RANKS ranks => mfold (fun r _ => upd_transfer_matrix r (fun _ => dpu_transfer_matrix_clear_all)) ranks tt
  | DPU_SET_DPU d => upd_transfer_matrix (fst d) (dpu_transfer_matrix_clear_dpu (store (fst d)) (the_dpu d))
  | DPU_SET_OTHER => fail DPU_ERR_INTERNAL
  end.

Definition dpu_push_xfer_symbol (dpu_set : dpu_set_t) (xfer : dpu_xfer_t) (symbol : dpu_symbol_t)
    (symbol_offset length flags : Z) : A unit :=
  st ← match dpu_set with
       | DPU_SET_RANKS ranks => push_xfer_ranks ranks xfer symbol symbol_offset length flags
       | DPU_SET_DPU d => push_xfer_dpu d xfer symbol symbol_offset length flags
       | DPU_SET_OTHER => fail DPU_ERR_INTERNAL
       end;
  _ ← (if negb (flags =? DPU_XFER_NO_RESET) then reset_matrices dpu_set else mret tt);
  status st.
Definition dpu_push_xfer (dpu_set : dpu_set_t) (xfer : dpu_xfer_t) (symbol_name : string)
    (symbol_offset length flags : Z) : A unit :=
  symbol ← symbol_of_set dpu_set symbol_name;
  dpu_push_xfer_symbol dpu_set xfer symbol symbol_offset length flags.
End Access.

(** ** What an accepted access is *)

(** The bytes per unit of a memory, and the first address of a memory. *)
Definition unit_of (k : memory_kind) : Z := match k with IRAM => 8 | MRAM => 1 | WRAM => 4 end.
Definition base_of (k : memory_kind) : Z := match k with IRAM => 2 ^ 31 | MRAM => 2 ^ 27 | WRAM => 0 end.

Lemma land_pow2_eq x n : 0 <= n -> (x &&& 2 ^ n =? 2 ^ n) = Z.testbit x n.
Proof.
  intros Hn. pose proof (Z.pow_pos_nonneg 2 n ltac:(lia) Hn).
  rewrite <- (Z.shiftl_1_l n), land_pow2_testbit by done. destruct (Z.testbit x n).
  - by rewrite Z.eqb_refl.
  - rewrite Z.shiftl_1_l. lia.
Qed.

Lemma clear_bit_sub x n : 0 <= n < 32 -> fits 32 x -> Z.testbit x n = true -> x &&& not32 (2 ^ n) = x - 2 ^ n.
Proof.
  intros Hn Hx Hb. assert (not32 (2 ^ n) = Z.ldiff (Z.ones 32) (2 ^ n)) as ->.
  { unfold not32. pose proof (Z.pow_pos_nonneg 2 n ltac:(lia) ltac:(lia)).
    assert (2 ^ n < 2 ^ 32) by (apply Z.pow_lt_mono_r; lia). rewrite u32_id by (unfold fits; lia).
    rewrite Z.ones_equiv. symmetry. replace (Z.pred (2 ^ 32)) with (2 ^ 32 - 1) by lia. rewrite <- Z.sub_nocarry_ldiff; [done|].
    apply Z.bits_inj'. intros i Hi. rewrite Z.ldiff_spec, Z.bits_0, Z.pow2_bits_eqb by lia.
    destruct (Z.eqb_spec n i) as [<-|]; [|done]. replace (2 ^ 32 - 1) with (Z.ones 32) by by_eval.
    rewrite Z.ones_spec_low by lia. done. }
  rewrite Z.sub_nocarry_ldiff.
  - apply Z.bits_inj'. intros i Hi. rewrite Z.land_spec, !Z.ldiff_spec. destruct (Z_lt_le_dec i 32).
    + rewrite (Z.ones_spec_low 32 i) by lia. done.
    + rewrite (proj1 (fits_testbit 32 x ltac:(lia) (proj1 Hx)) Hx i ltac:(lia)). done.
  - apply Z.bits_inj'. intros i Hi. rewrite Z.ldiff_spec, Z.bits_0, Z.pow2_bits_eqb by lia.
    destruct (Z.eqb_spec n i) as [<-|]; [by rewrite Hb|done].
Qed.

Lemma low_bits_zero x n : 0 <= n < 32 -> 0 <= x -> (x &&& not32 (ALIGN_MASK n) =? 0) = (x mod 2 ^ n =? 0).
Proof.
  intros Hn Hx. assert (not32 (ALIGN_MASK n) = 2 ^ n - 1) as ->.
  { unfold ALIGN_MASK, not32, shl32. pose proof (Z.pow_pos_nonneg 2 n ltac:(lia) ltac:(lia)).
    assert (2 ^ n < 2 ^ 32) by (apply Z.pow_lt_mono_r; lia). rewrite Z.shiftl_1_l.
    rewrite (u32_id (2 ^ n)) by (unfold fits; lia). rewrite (u32_id (2 ^ n - 1)) by (unfold fits; lia).
    rewrite u32_id by (unfold fits; lia). lia. }
  by rewrite land_ones_mod by lia.
Qed.

(** Accepting an access: the bytes are in the symbol, and the address and the
    length are multiples of the unit of the memory. *)
Lemma CHECK_SYMBOL_accepts symbol off len : 0 <= len -> let address := u32 (sym_address symbol + off) in
  CHECK_SYMBOL symbol off len = None <->
  u64 (off + len) <= sym_size symbol /\ address mod unit_of (MEMORY_SWITCH address) = 0 /\ len mod unit_of (MEMORY_SWITCH address) = 0.
Proof.
  intros Hlen address. unfold CHECK_SYMBOL. fold address. pose proof (u32_fits (sym_address symbol + off)) as Ha. fold address in Ha.
  destruct (Z.ltb_spec (sym_size symbol) (u64 (off + len))) as [|Hle]; [split; [done|lia]|].
  unfold IRAM_ALIGN_MASK, WRAM_ALIGN_MASK, IRAM_ALIGN, WRAM_ALIGN.
  rewrite !low_bits_zero by (lia || apply Ha || done). change (2 ^ 3) with 8. change (2 ^ 2) with 4.
  destruct (MEMORY_SWITCH address); cbn [unit_of]; rewrite ?Z.mod_1_r; [|tauto|];
    destruct (address mod _ =? 0) eqn:E1; cbn [negb]; try (split; [done|]; lia);
    destruct (len mod _ =? 0) eqn:E2; cbn [negb]; (split; [done || (intros; split_and!; lia)|done || lia]).
Qed.

(** The address and the length of the job, in bytes. *)
Lemma update_parameters_bytes address length : fits 32 address -> 0 <= length ->
  address mod unit_of (MEMORY_SWITCH address) = 0 -> length mod unit_of (MEMORY_SWITCH address) = 0 ->
  let k := MEMORY_SWITCH address in
  unit_of k * fst (UPDATE_COPY_PARAMETERS address length) = address - base_of k /\
  unit_of k * snd (UPDATE_COPY_PARAMETERS address length) = length.
Proof.
  intros Ha Hl Hma Hml k. subst k. unfold UPDATE_COPY_PARAMETERS. unfold MEMORY_SWITCH in *.
  change IRAM_MASK with (2 ^ 31) in *. change MRAM_MASK with (2 ^ 27) in *.
  rewrite !land_pow2_eq in * by lia. destruct (Z.testbit address 31) eqn:E1; [|destruct (Z.testbit address 27) eqn:E2];
    cbn [unit_of base_of fst snd] in *; unfold IRAM_ALIGN, WRAM_ALIGN.
  - rewrite clear_bit_sub by (done || lia). rewrite !Z.shiftr_div_pow2 by lia. change (2 ^ 3) with 8.
    assert ((address - 2 ^ 31) mod 8 = 0).
    { replace (address - 2 ^ 31) with (address + (- 2 ^ 28) * 8) by lia. by rewrite Z_mod_plus_full. }
    split; symmetry; apply Z_div_exact_2; lia.
  - rewrite clear_bit_sub by (done || lia). lia.
  - rewrite !Z.shiftr_div_pow2 by lia. change (2 ^ 2) with 4. split; [rewrite Z.sub_0_r|]; symmetry; apply Z_div_exact_2; lia.
Qed.

(** ** The program of a set *)

Section Program.
Variable store : rank_ptr -> rank.
Variable dpu_get_program : dpu_ptr -> Z.

(** The programs of the enabled DPUs, in the order of the visit. *)
Definition programs (dpus : list dpu_ptr) : list Z :=
  map dpu_get_program (filter (fun d => enabled (the_dpu store d) = true) dpus).

Lemma programs_cons d dpus : programs (d :: dpus) =
  if enabled (the_dpu store d) then dpu_get_program d :: programs dpus else programs dpus.
Proof.
  unfold programs. destruct (enabled (the_dpu store d)) eqn:E; [by rewrite filter_cons_True|].
  rewrite filter_cons_False; [done|congruence].
Qed.

Lemma common_program_loaded dpus p q : p <> 0 ->
  common_program store dpu_get_program dpus p = Ok q <-> q = p /\ Forall (fun x => x = p) (programs dpus).
Proof.
  intros Hp. induction dpus as [|d dpus IH]; cbn [common_program].
  - unfold programs. cbn. split; [intros [= <-]; by split; [|constructor]|intros [-> _]; done].
  - rewrite programs_cons. destruct (enabled (the_dpu store d)); cbn [negb]; [|done].
    rewrite (proj2 (Z.eqb_neq p 0)) by done. rewrite list_relations.list.Forall_cons.
    destruct (Z.eqb_spec p (dpu_get_program d)) as [->|Hne]; cbn [negb]; [rewrite IH; tauto|].
    split; [done|]. intros (_ & Hd & _). congruence.
Qed.

(** The DPUs without a program that come first do not count. *)
Lemma common_program_unloaded dpus q : q <> 0 ->
  common_program store dpu_get_program dpus 0 = Ok q <->
  exists l1 l2, programs dpus = l1 ++ q :: l2 /\ Forall (fun x => x = 0) l1 /\ Forall (fun x => x = q) l2.
Proof.
  intros Hq. induction dpus as [|d dpus IH]; cbn [common_program].
  - unfold programs. cbn. split; [intros [= <-]; done|]. intros (l1 & l2 & Heq & _). by destruct l1.
  - rewrite programs_cons. destruct (enabled (the_dpu store d)); cbn [negb]; [|done].
    rewrite Z.eqb_refl, Z.eqb_refl. cbn [negb]. destruct (Z.eq_dec (dpu_get_program d) 0) as [Hz|Hz].
    + rewrite Hz, IH. split.
      * intros (l1 & l2 & -> & H1 & H2). exists (0 :: l1), l2. split; [done|]. split; [by constructor|done].
      * intros (l1 & l2 & Heq & H1 & H2). destruct l1 as [|x l1]; injection Heq as <- Heq; [done|].
        apply list_relations.list.Forall_cons in H1 as [_ H1]. by exists l1, l2.
    + rewrite common_program_loaded by done. split.
      * intros [-> H2]. exists [], (programs dpus). split; [done|]. split; [constructor|done].
      * intros (l1 & l2 & Heq & H1 & H2). destruct l1 as [|x l1]; injection Heq as Hd Heq; [by subst|].
        apply list_relations.list.Forall_cons in H1 as [H1 _]. cbv beta in H1. congruence.
Qed.
End Program.

(** ** Filling and clearing the matrices *)

Section Matrices.
Variable store : rank_ptr -> rank.
Variable in_callback : rank_ptr -> bool.
Notation matrix := (dpu_get_transfer_matrix in_callback).
Notation upd r f s := (fst (upd_transfer_matrix in_callback r f s)).

Lemma mfor_modify {S} n (f : Z -> S -> S) (s : S) : mfor n (fun i _ => modify (f i)) tt s = (for_up n f s, Ok tt).
Proof.
  rewrite mfor_mfold. unfold for_up. revert s. induction (seqZ 0 n) as [|i l IH]; intros s; [done|].
  cbn [mfold foldl]. unfold mbind, C_bind, modify. apply IH.
Qed.
Lemma mfold_modify {S B} l (f : B -> S -> S) (s : S) : mfold (fun b _ => modify (f b)) l tt s = (foldl (fun s b => f b s) s l, Ok tt).
Proof. revert s. induction l as [|b l IH]; intros s; [done|]. cbn [mfold foldl]. unfold mbind, C_bind, modify. apply IH. Qed.

Lemma upd_matrix r f s r' : matrix r' (upd r f s) = if decide (r' = r) then f (matrix r s) else matrix r' s.
Proof.
  unfold upd_transfer_matrix, modify, dpu_get_transfer_matrix. cbn [fst]. destruct (in_callback r) eqn:E.
  - destruct (in_callback r') eqn:E'; cbn [callback_matrix api_matrix]; case_decide; subst; try congruence;
      [by rewrite fn_lookup_insert|by rewrite fn_lookup_insert_ne].
  - destruct (in_callback r') eqn:E'; cbn [callback_matrix api_matrix]; case_decide; subst; try congruence;
      [by rewrite fn_lookup_insert|by rewrite fn_lookup_insert_ne].
Qed.
Lemma upd_posted r f s : posted (upd r f s) = posted s.
Proof. unfold upd_transfer_matrix, modify. cbn [fst]. by destruct (in_callback r). Qed.

(** The matrix of the rank [r] has the buffer for the enabled DPUs visited so far. *)
Record prepared (r : rank_ptr) (buffer : Z) (s : access_state) (visited : Z -> Z -> bool) (s' : access_state) : Prop := {
  pr_other : forall r', r' <> r -> matrix r' s' = matrix r' s;
  pr_posted : posted s' = posted s;
  pr_length : lenz (tm_ptr (matrix r s')) = 64;
  pr_type : tm_type (matrix r s') = tm_type (matrix r s);
  pr_ptr : forall i e, 0 <= i < nr_cis_of (store r) -> 0 <= e < nr_dpus_of (store r) ->
    ptr_at (store r) (matrix r s') i e =
      if visited i e && enabled (dpu_of (store r) i e) then buffer else ptr_at (store r) (matrix r s) i e;
}.

Definition prepare_one (r : rank_ptr) (buffer each_ci each_dpu : Z) (s : access_state) : access_state :=
  let dpu := dpu_of (store r) each_ci each_dpu in
  if negb (enabled dpu) then s else upd r (dpu_transfer_matrix_add_dpu (store r) dpu buffer) s.
Definition prepare_rank (r : rank_ptr) (buffer : Z) (s : access_state) : access_state :=
  for_up (nr_cis_of (store r)) (fun i => for_up (nr_dpus_of (store r)) (prepare_one r buffer i)) s.

Lemma mfor_ext {S A} n (f g : Z -> A -> C S A) a s : (forall i a s, f i a s = g i a s) -> mfor n f a s = mfor n g a s.
Proof.
  intros H. rewrite !mfor_mfold. revert a s. induction (seqZ 0 n) as [|i l IH]; intros a s; [done|].
  cbn [mfold]. unfold mbind, C_bind. rewrite H. destruct (g i a s) as [s' [a'|]]; [apply IH|done].
Qed.
Lemma mfold_ext {S A B} l (f g : B -> A -> C S A) a s : (forall i a s, f i a s = g i a s) -> mfold f l a s = mfold g l a s.
Proof.
  intros H. revert a s. induction l as [|i l IH]; intros a s; [done|].
  cbn [mfold]. unfold mbind, C_bind. rewrite H. destruct (g i a s) as [s' [a'|]]; [apply IH|done].
Qed.

Lemma prepare_ranks_eq ranks buffer s : dpu_prepare_xfer store in_callback (DPU_SET_RANKS ranks) buffer s =
  (foldl (fun s r => prepare_rank r buffer s) s ranks, Ok tt).
Proof.
  cbn [dpu_prepare_xfer]. rewrite <- (mfold_modify ranks (fun r => prepare_rank r buffer) s). apply mfold_ext. intros r [] s0.
  unfold modify at 1, prepare_rank. rewrite <- mfor_modify. apply mfor_ext. intros i [] s1.
  unfold modify. rewrite <- mfor_modify. apply mfor_ext. intros e [] s2. unfold prepare_one.
  destruct (enabled (dpu_of (store r) i e)); cbn [negb]; [|done]. unfold upd_transfer_matrix, modify. done.
Qed.

Lemma prepare_rank_ok r buffer s : matrix_wf (store r) dpu_transfer_matrix_clear_all -> lenz (tm_ptr (matrix r s)) = 64 ->
  prepared r buffer s (fun _ _ => true) (prepare_rank r buffer s).
Proof.
  intros Hwf Hl. pose proof (xw_cis _ _ Hwf) as Hc. pose proof (xw_dpus _ _ Hwf) as Hd.
  assert (forall k n s', 0 <= k < nr_cis_of (store r) -> 0 <= n < nr_dpus_of (store r) ->
    prepared r buffer s (fun i e => (i <? k) || ((i =? k) && (e <? n))) s' ->
    prepared r buffer s (fun i e => (i <? k) || ((i =? k) && (e <? n + 1))) (prepare_one r buffer k n s')) as Hstep.
  { intros k n s' Hk Hn [Ho Hp Hl' Ht Hptr]. unfold prepare_one. destruct (enabled (dpu_of (store r) k n)) eqn:E; cbn [negb].
    - split.
      + intros r' Hr'. rewrite upd_matrix, decide_False by done. by apply Ho.
      + by rewrite upd_posted.
      + rewrite upd_matrix, decide_True by done. unfold dpu_transfer_matrix_add_dpu. cbn [tm_ptr set_ptr]. by rewrite lenz_setz.
      + by rewrite upd_matrix, decide_True by done.
      + intros i e Hi He. rewrite upd_matrix, decide_True by done. rewrite (ptr_at_add _ _ Hwf) by done. rewrite Hptr by done.
        destruct (Z.eqb_spec i k) as [->|], (Z.eqb_spec e n) as [->|]; cbn [andb];
          repeat (match goal with |- context [?a <? ?b] => destruct (Z.ltb_spec a b) end); cbn [orb andb]; rewrite ?E; try done; lia.
    - split; try done. intros i e Hi He. rewrite Hptr by done.
      destruct (Z.eqb_spec i k) as [->|], (Z.eqb_spec e n) as [->|]; cbn [andb];
        repeat (match goal with |- context [?a <? ?b] => destruct (Z.ltb_spec a b) end); cbn [orb andb]; rewrite ?E; try done; lia. }
  assert (forall vis vis' s', prepared r buffer s vis s' ->
    (forall i e, 0 <= i < nr_cis_of (store r) -> 0 <= e < nr_dpus_of (store r) -> vis' i e = vis i e) -> prepared r buffer s vis' s') as Hext.
  { intros vis vis' s' [Ho Hp Hl' Ht Hptr] Hv. split; try done. intros i e Hi He. rewrite Hptr, Hv by done. done. }
  unfold prepare_rank.
  apply (Hext (fun i e => i <? nr_cis_of (store r))); [|intros i e Hi _; cbv beta; symmetry; apply Z.ltb_lt; lia].
  apply (for_up_ind (fun k s' => prepared r buffer s (fun i e => i <? k) s')); [lia| |].
  - split; try done. intros i e Hi _. by rewrite (proj2 (Z.ltb_ge i 0)) by lia.
  - intros k s' Hk Hs'.
    apply (Hext (fun i e => (i <? k) || ((i =? k) && (e <? nr_dpus_of (store r))))).
    + apply (for_up_ind (fun n s' => prepared r buffer s (fun i e => (i <? k) || ((i =? k) && (e <? n))) s')); [lia| |].
      * eapply Hext; [exact Hs'|]. intros i e Hi He. cbv beta. rewrite (proj2 (Z.ltb_ge e 0)) by lia. by rewrite andb_false_r, orb_false_r.
      * intros n s'' Hn. by apply Hstep.
    + intros i e Hi He. cbv beta. rewrite (proj2 (Z.ltb_lt e _)) by lia. rewrite andb_true_r. lia.
Qed.
End Matrices.

Section Push.
Variable store : rank_ptr -> rank.
Variable in_callback : rank_ptr -> bool.
Variable get_jobs : bool -> list rank_ptr -> option dpu_error_t.
Variable do_jobs : bool -> list (rank_ptr * access_job) -> option dpu_error_t.
Notation matrix := (dpu_get_transfer_matrix in_callback).
Notation upd r f s := (fst (upd_transfer_matrix in_callback r f s)).

Lemma prepare_ranks_ok ranks buffer s : NoDup ranks ->
  Forall (fun r => matrix_wf (store r) dpu_transfer_matrix_clear_all /\ lenz (tm_ptr (matrix r s)) = 64) ranks ->
  let s' := foldl (fun s r => prepare_rank store in_callback r buffer s) s ranks in
  posted s' = posted s /\ (forall r, r ∉ ranks -> matrix r s' = matrix r s) /\
  forall r, r ∈ ranks -> tm_type (matrix r s') = tm_type (matrix r s) /\
    forall i e, 0 <= i < nr_cis_of (store r) -> 0 <= e < nr_dpus_of (store r) ->
      ptr_at (store r) (matrix r s') i e =
        if enabled (dpu_of (store r) i e) then buffer else ptr_at (store r) (matrix r s) i e.
Proof.
  intros Hnd. revert s. induction ranks as [|r0 ranks IH]; intros s Hall; cbv zeta.
  { cbn [foldl]. split_and!; try done. intros r Hr. by apply not_elem_of_nil in Hr. }
  apply list_relations.list.NoDup_cons in Hnd as [Hni Hnd]. apply list_relations.list.Forall_cons in Hall as [[Hwf Hl] Hall].
  pose proof (prepare_rank_ok store in_callback r0 buffer s Hwf Hl) as [Ho Hp Hl0 Ht Hptr].
  set (s0 := prepare_rank store in_callback r0 buffer s) in *. cbn [foldl]. fold s0.
  assert (forall r, r ∈ ranks -> r <> r0) as Hne by (intros r Hr ->; done).
  destruct (IH Hnd s0) as (Hp' & Ho' & Hin).
  { apply list_relations.list.Forall_forall. intros r Hr. eapply list_relations.list.Forall_forall in Hall; [|exact Hr].
    by rewrite Ho by by apply Hne. }
  split; [by rewrite Hp'|]. split.
  - intros r Hr. apply not_elem_of_cons in Hr as [Hr0 Hr]. by rewrite Ho', Ho.
  - intros r [->|Hr]%elem_of_cons.
    + rewrite Ho' by done. split; [done|]. intros i e Hi He. rewrite Hptr by done. done.
    + destruct (Hin r Hr) as [Htr Hptr']. rewrite Ho in Htr by by apply Hne. split; [done|].
      intros i e Hi He. rewrite Hptr' by done. by rewrite Ho by by apply Hne.
Qed.

Lemma reset_ranks_ok ranks s : exists s', reset_matrices store in_callback (DPU_SET_RANKS ranks) s = (s', Ok tt) /\
  posted s' = posted s /\ forall r, matrix r s' = if decide (r ∈ ranks) then dpu_transfer_matrix_clear_all else matrix r s.
Proof.
  cbn [reset_matrices].
  assert (mfold (fun r _ => upd_transfer_matrix in_callback r (fun _ => dpu_transfer_matrix_clear_all)) ranks tt s =
    (foldl (fun s r => upd r (fun _ => dpu_transfer_matrix_clear_all) s) s ranks, Ok tt)) as ->.
  { rewrite <- (mfold_modify ranks (fun r s => upd r (fun _ => dpu_transfer_matrix_clear_all) s) s). by apply mfold_ext. }
  eexists. split; [done|]. induction ranks as [|r0 ranks IH] using rev_ind.
  { cbn [foldl]. split; [done|]. intros r. rewrite decide_False; [done|]. apply not_elem_of_nil. }
  rewrite foldl_app. cbn [foldl]. destruct IH as [Hp Hm]. split; [by rewrite upd_posted|]. intros r. rewrite upd_matrix, Hm.
  destruct (decide (r = r0)) as [->|Hne].
  - rewrite decide_True; [done|]. apply elem_of_app. right. by apply list_elem_of_singleton.
  - destruct (decide (r ∈ ranks)) as [Hin|Hni].
    + rewrite decide_True; [done|]. apply elem_of_app. by left.
    + rewrite decide_False; [done|]. intros [|Hr]%elem_of_app; [done|]. by apply list_elem_of_singleton in Hr.
Qed.

(** The job of the rank [r] of a transfer. *)
Definition transfer_job (jt : dpu_thread_job_type) (address length : Z) (r : rank_ptr) (s : access_state) : rank_ptr * access_job :=
  (r, MatrixJob jt (mk_matrix (tm_ptr (matrix r s)) (fst (UPDATE_COPY_PARAMETERS address length))
    (u32 (snd (UPDATE_COPY_PARAMETERS address length))) (tm_type (matrix r s)))).

Lemma push_ranks_eq ranks xfer symbol off len flags jt s :
  CHECK_SYMBOL symbol off len = None ->
  DPU_COPY_MATRIX_SET_JOB_TYPE xfer (u32 (sym_address symbol + off)) = Some jt ->
  get_jobs (SYNCHRONOUS_FLAGS flags) ranks = None ->
  let jobs := map (fun r => transfer_job jt (u32 (sym_address symbol + off)) len r s) ranks in
  exists s', dpu_push_xfer_symbol store in_callback get_jobs do_jobs (DPU_SET_RANKS ranks) xfer symbol off len flags s =
    (s', match do_jobs (SYNCHRONOUS_FLAGS flags) jobs with None => Ok tt | Some e => Err e end) /\
  posted s' = posted s ++ [(SYNCHRONOUS_FLAGS flags, jobs)] /\
  forall r, matrix r s' = if decide (r ∈ ranks /\ flags <> DPU_XFER_NO_RESET) then dpu_transfer_matrix_clear_all else matrix r s.
Proof.
  intros Hcheck Hjt Hget jobs. unfold dpu_push_xfer_symbol, push_xfer_ranks. rewrite Hcheck. unfold mbind, C_bind.
  cbn [status]. unfold mret, C_ret at 1. rewrite Hjt. unfold dpu_thread_job_get_jobs. rewrite Hget.
  destruct (UPDATE_COPY_PARAMETERS (u32 (sym_address symbol + off)) len) as [a l] eqn:Hup.
  unfold gets, as_status, dpu_thread_job_do_jobs, mbind, C_bind, modify. cbn [status]. unfold mret, C_ret at 1.
  assert (map (fun r => (r, MatrixJob jt (mk_matrix (tm_ptr (matrix r s)) a (u32 l) (tm_type (matrix r s))))) ranks = jobs) as ->.
  { unfold jobs. apply map_ext. intros r. unfold transfer_job. by rewrite Hup. }
  set (s1 := mk_access _ _ _). assert (forall r, matrix r s1 = matrix r s) as Hm1 by done.
  assert (forall o : option dpu_error_t, status (match (status o s1).2 with Ok _ => None | Err e => Some e end) = status o) as Hst
    by (by intros []).
  assert (forall o, (status o s1).1 = s1) as Hs1 by (by intros []).
  destruct (status (do_jobs (SYNCHRONOUS_FLAGS flags) jobs) s1) as [s1' res] eqn:Hdo.
  assert (s1' = s1) as -> by (rewrite <-(Hs1 (do_jobs (SYNCHRONOUS_FLAGS flags) jobs)); by rewrite Hdo).
  pose proof (Hst (do_jobs (SYNCHRONOUS_FLAGS flags) jobs)) as Hst'. rewrite Hdo in Hst'. cbn [snd] in Hst'.
  destruct (Z.eqb_spec flags DPU_XFER_NO_RESET) as [Hf|Hf]; cbn [negb].
  - unfold mret, C_ret. rewrite Hst'. exists s1. split; [by destruct (do_jobs _ _)|]. split; [done|].
    intros r. rewrite decide_False by tauto. done.
  - destruct (reset_ranks_ok ranks s1) as (s2 & -> & Hp & Hm). rewrite Hst'. exists s2. split; [by destruct (do_jobs _ _)|].
    split; [by rewrite Hp|]. intros r. rewrite Hm. destruct (decide (r ∈ ranks)).
    + by rewrite decide_True.
    + rewrite decide_False by tauto. done.
Qed.
End Push.

(** ** Properties *)

(** C30: an accepted access to a symbol lies in the symbol, and the job that is
    posted copies exactly its bytes, when the 64-bit sum of its offset and its length
    does not wrap: in the units of the memory, its address is
    the one of the access in this memory and its length the one of the access. *)
Theorem accepted_access_in_symbol symbol off len : fits 32 off -> 0 <= len -> off + len < 2 ^ 64 ->
  0 <= sym_address symbol -> sym_address symbol + sym_size symbol < 2 ^ 32 ->
  CHECK_SYMBOL symbol off len = None ->
  let address := u32 (sym_address symbol + off) in let k := MEMORY_SWITCH address in
  address = sym_address symbol + off /\ sym_address symbol <= address /\ address + len <= sym_address symbol + sym_size symbol /\
  unit_of k * fst (UPDATE_COPY_PARAMETERS address len) = address - base_of k /\
  unit_of k * snd (UPDATE_COPY_PARAMETERS address len) = len.
Proof.
  intros Hoff Hlen Hsum Ha Hs Hcheck address k. apply CHECK_SYMBOL_accepts in Hcheck as (Hle & Hma & Hml); [|done].
  unfold fits in Hoff. rewrite u64_id in Hle by (unfold fits; lia).
  assert (address = sym_address symbol + off) as He by (apply u32_id; unfold fits; lia).
  pose proof (u32_fits (sym_address symbol + off)) as Hfit. fold address in Hfit, Hma, Hml.
  destruct (update_parameters_bytes address len Hfit Hlen Hma Hml) as [H1 H2]. split_and!; try done; lia.
Qed.

(** The sum of the offset and the length is taken on 64 bits: a length that
    makes it wrap is accepted. *)
Lemma huge_length_accepted : CHECK_SYMBOL (mk_symbol MRAM_MASK 64) 8 (2 ^ 64 - 8) = None.
Proof. vm_compute. reflexivity. Qed.

(** [dpu_get_common_program] of a set of ranks gives a program when the
    enabled DPUs have it, those that come before its first one and have no
    program being ignored; in all the other cases it is an error. *)
Theorem common_program_of_ranks store dpu_get_program ranks p :
  dpu_get_common_program store dpu_get_program (DPU_SET_RANKS ranks) = Ok p <->
  p <> 0 /\ exists l1 l2, programs store dpu_get_program (concat (map (dpus_by_interface store) ranks)) = l1 ++ p :: l2 /\
    Forall (fun x => x = 0) l1 /\ Forall (fun x => x = p) l2.
Proof.
  unfold dpu_get_common_program. set (dpus := concat _). destruct (common_program store dpu_get_program dpus 0) as [q|e] eqn:E.
  - destruct (Z.eqb_spec q 0) as [->|Hq].
    + split; [done|]. intros (Hp & H). apply common_program_unloaded in H; [|done]. congruence.
    + split.
      * intros [= <-]. split; [done|]. by apply common_program_unloaded.
      * intros (Hp & H). apply common_program_unloaded in H; [|done]. congruence.
  - split; [done|]. intros (Hp & H). apply common_program_unloaded in H; [|done]. congruence.
Qed.

(** C21: preparing a buffer for a set of ranks and pushing the transfer posts, for
    each rank, one job whose matrix has the buffer for each enabled DPU and
    nothing for the others, with the bytes of the access. Afterwards the matrices
    are as they were prepared when the flags are [DPU_XFER_NO_RESET] alone, and
    empty otherwise: in particular with [DPU_XFER_NO_RESET | DPU_XFER_ASYNC]. *)
Theorem prepared_buffers_pushed store in_callback get_jobs do_jobs ranks buffer xfer symbol off len flags jt s s1 s2 res :
  NoDup ranks ->
  Forall (fun r => matrix_wf (store r) dpu_transfer_matrix_clear_all /\
    dpu_get_transfer_matrix in_callback r s = dpu_transfer_matrix_clear_all) ranks ->
  CHECK_SYMBOL symbol off len = None ->
  DPU_COPY_MATRIX_SET_JOB_TYPE xfer (u32 (sym_address symbol + off)) = Some jt ->
  get_jobs (SYNCHRONOUS_FLAGS flags) ranks = None ->
  dpu_prepare_xfer store in_callback (DPU_SET_RANKS ranks) buffer s = (s1, Ok tt) ->
  dpu_push_xfer_symbol store in_callback get_jobs do_jobs (DPU_SET_RANKS ranks) xfer symbol off len flags s1 = (s2, res) ->
  exists jobs, posted s2 = posted s ++ [(SYNCHRONOUS_FLAGS flags, jobs)] /\ jobs.*1 = ranks /\
  (forall r job, (r, job) ∈ jobs -> exists m, job = MatrixJob jt m /\ tm_type m = DPU_DEFAULT_XFER_MATRIX /\
    tm_offset m = fst (UPDATE_COPY_PARAMETERS (u32 (sym_address symbol + off)) len) /\
    tm_size m = u32 (snd (UPDATE_COPY_PARAMETERS (u32 (sym_address symbol + off)) len)) /\
    forall i e, 0 <= i < nr_cis_of (store r) -> 0 <= e < nr_dpus_of (store r) ->
      ptr_at (store r) m i e = if enabled (dpu_of (store r) i e) then buffer else 0) /\
  (flags = DPU_XFER_NO_RESET -> forall r, r ∈ ranks -> dpu_get_transfer_matrix in_callback r s2 = dpu_get_transfer_matrix in_callback r s1) /\
  (flags <> DPU_XFER_NO_RESET -> forall r, r ∈ ranks -> dpu_get_transfer_matrix in_callback r s2 = dpu_transfer_matrix_clear_all).
Proof.
  intros Hnd Hall Hcheck Hjt Hget Hprep Hpush. rewrite prepare_ranks_eq in Hprep. injection Hprep as <-.
  set (s1 := foldl _ s ranks) in *.
  destruct (prepare_ranks_ok store in_callback ranks buffer s Hnd) as (Hp & _ & Hin).
  { eapply list_relations.list.Forall_impl; [exact Hall|]. intros r [Hwf ->]. done. }
  fold s1 in Hp, Hin.
  destruct (push_ranks_eq store in_callback get_jobs do_jobs ranks xfer symbol off len flags jt s1 Hcheck Hjt Hget) as (s' & Heq & Hp2 & Hm).
  rewrite Hpush in Heq. injection Heq as -> _. eexists. split; [by rewrite Hp2, Hp|]. split.
  - rewrite <- list_fmap_compose. by rewrite list_fmap_id.
  - split.
    + intros r job Hj. apply list_elem_of_In, in_map_iff in Hj as (r' & Hj & Hr'). apply list_elem_of_In in Hr'.
      injection Hj as <- <-. eexists. split; [done|]. cbn [tm_type tm_offset tm_size].
      destruct (Hin r' Hr') as [Ht Hptr]. eapply list_relations.list.Forall_forall in Hall as [Hwf Hfresh]; [|exact Hr'].
      rewrite Hfresh in Ht, Hptr. split; [by rewrite Ht|]. split; [done|]. split; [done|]. intros i e Hi He.
      unfold ptr_at in *. cbn [tm_ptr]. rewrite Hptr by done. destruct (enabled _); [done|].
      unfold dpu_transfer_matrix_clear_all. cbn [tm_ptr]. unfold getz. apply lookup_total_replicate_2.
      pose proof (matrix_index _ _ Hwf i e Hi He) as [-> ?]. unfold MAX_NR_DPUS_PER_RANK. lia.
    + split; intros Hf r Hr; rewrite Hm; [by rewrite decide_False by naive_solver|by rewrite decide_True].
Qed.

(** [DPU_XFER_NO_RESET] with [DPU_XFER_ASYNC] does not keep the matrices. *)
Definition no_failure {A B} : A -> B -> option dpu_error_t := fun _ _ => None.
Definition fresh_state : access_state := mk_access (fun _ => dpu_transfer_matrix_clear_all) (fun _ => dpu_transfer_matrix_clear_all) [].
Definition two_banks (_ : rank_ptr) : rank := sample_rank 2 8.
Definition nobody (_ : rank_ptr) : bool := false.
Definition prepared_state : access_state := fst (dpu_prepare_xfer two_banks nobody (DPU_SET_RANKS [0%nat]) 4096 fresh_state).
Lemma no_reset_async_resets : let flags := DPU_XFER_NO_RESET ||| DPU_XFER_ASYNC in
  let '(s, res) := dpu_push_xfer_symbol two_banks nobody no_failure no_failure (DPU_SET_RANKS [0%nat])
    DPU_XFER_TO_DPU (mk_symbol MRAM_MASK 64) 0 8 flags prepared_state in
  res = Ok tt /\ api_matrix s 0%nat = dpu_transfer_matrix_clear_all.
Proof. vm_compute. done. Qed.

(** A refused access leaves the matrices of a set of ranks as they were
    prepared, and forgets the buffer of a set of one DPU. *)
Lemma refused_transfer_keeps_matrix :
  let push set := dpu_push_xfer_symbol two_banks nobody no_failure no_failure set DPU_XFER_TO_DPU (mk_symbol MRAM_MASK 64) 0 65
    DPU_XFER_DEFAULT prepared_state in
  snd (push (DPU_SET_RANKS [0%nat])) = Err DPU_ERR_INVALID_SYMBOL_ACCESS /\
  api_matrix (fst (push (DPU_SET_RANKS [0%nat]))) 0%nat = api_matrix prepared_state 0%nat /\
  snd (push (DPU_SET_DPU (0%nat, 0))) = Err DPU_ERR_INVALID_SYMBOL_ACCESS /\
  (tm_ptr (api_matrix (fst (push (DPU_SET_DPU (0%nat, 0)))) 0%nat)).[0] = 0.
Proof. vm_compute. done. Qed.

Lemma two_banks_matrix r : matrix_wf (two_banks r) dpu_transfer_matrix_clear_all.
Proof.
  change (two_banks r) with (sample_rank 2 8).
  split; try by_eval. intros s d Hs Hd. revert s Hs d Hd. by_eval.
Qed.

Lemma accepted_access_in_symbol_witness : CHECK_SYMBOL (mk_symbol 0x80000100 64) 8 16 = None /\
  8 * fst (UPDATE_COPY_PARAMETERS 0x80000108 16) = 0x108 /\ 8 * snd (UPDATE_COPY_PARAMETERS 0x80000108 16) = 16.
Proof.
  split; [vm_compute; reflexivity|].
  destruct (accepted_access_in_symbol (mk_symbol 0x80000100 64) 8 16 ltac:(unfold fits; by_eval) ltac:(by_eval) ltac:(by_eval)
    ltac:(by_eval) ltac:(by_eval) ltac:(vm_compute; reflexivity)) as (_ & _ & _ & H1 & H2). exact (conj H1 H2).
Defined.

Lemma common_program_of_ranks_witness :
  dpu_get_common_program two_banks (fun d => if snd d =? 0 then 0 else 42) (DPU_SET_RANKS [0%nat]) = Ok 42 /\ 42 <> 0.
Proof.
  assert (dpu_get_common_program two_banks (fun d => if snd d =? 0 then 0 else 42) (DPU_SET_RANKS [0%nat]) = Ok 42) as H
    by (vm_compute; reflexivity).
  split; [exact H|]. exact (proj1 (proj1 (common_program_of_ranks two_banks _ [0%nat] 42) H)).
Defined.

Lemma prepared_buffers_pushed_witness : exists s2,
  dpu_push_xfer_symbol two_banks nobody no_failure no_failure (DPU_SET_RANKS [0%nat]) DPU_XFER_TO_DPU
    (mk_symbol MRAM_MASK 64) 0 8 DPU_XFER_DEFAULT prepared_state = (s2, Ok tt) /\
  dpu_get_transfer_matrix nobody 0%nat s2 = dpu_transfer_matrix_clear_all /\ length (posted s2) = 1%nat.
Proof.
  destruct (dpu_push_xfer_symbol two_banks nobody no_failure no_failure (DPU_SET_RANKS [0%nat]) DPU_XFER_TO_DPU
    (mk_symbol MRAM_MASK 64) 0 8 DPU_XFER_DEFAULT prepared_state) as [s2 res] eqn:Hrun.
  assert (res = Ok tt) as -> by (vm_compute in Hrun; congruence).
  exists s2. split; [reflexivity|].
  destruct (prepared_buffers_pushed two_banks nobody no_failure no_failure [0%nat] 4096 DPU_XFER_TO_DPU (mk_symbol MRAM_MASK 64) 0 8
    DPU_XFER_DEFAULT DPU_THREAD_JOB_COPY_MRAM_TO_MATRIX fresh_state prepared_state s2 (Ok tt) (NoDup_singleton 0%nat)
    ltac:(apply list_relations.list.Forall_cons; split; [split; [apply two_banks_matrix|reflexivity]|constructor])
    ltac:(vm_compute; reflexivity) ltac:(vm_compute; reflexivity) ltac:(reflexivity) ltac:(vm_compute; reflexivity) Hrun)
    as (jobs & Hp & _ & _ & _ & Hclear).
  split; [apply Hclear; [discriminate|set_solver]|by rewrite Hp].
Defined.
