(* ===== verification/SgTransfer.v ===== *)
(** * Scatter/gather transfers of a set of DPUs

    Model of the callback of [src/api/src/api/dpu_memory.c] that asks the user
    for the blocks of each DPU of a rank, of [dpu_transfer_matrix_add_dpu_block]
    of [src/api/src/dpu_memory.c] and of the entry points that start the
    transfer. The user's function gives the block of a DPU and of an index, or
    none. The buffers are those of [XeonSg.v], which the backend reads. *)

From stdpp Require Import relations functions.
From S2P Require Import Prelude CMonad Rank Ci Ufi Select Frame Mux UfiMemory Runner DpuSet SymbolAccess XeonSg.

#[local] Open Scope Z_scope.
#[local] Open Scope dpu_scope.

Definition DPU_SG_XFER_ASYNC := 2.
Definition DPU_SG_XFER_DISABLE_LENGTH_CHECK := 4.

#[export] Instance sg_buffer_inhabited : Inhabited sg_xfer_buffer := populate (mk_sg 0 [] [] 0).

(** [struct sg_xfer_callback_args]; [freeing_refcpt] counts the ranks whose
    callback has not ended, and the arguments are freed with the last one. *)
Record sg_xfer_callback_args := mk_sg_args {
  get_block : Z -> Z -> option (Z * Z);
  sg_xfer : dpu_xfer_t;
  symbol_addr : Z;
  sg_length : Z;
  sg_flags : Z;
}.

(** The pool of a rank, the DPUs whose [sg_ptr] is set, and the counter of the arguments. *)
Record sg_state := mk_sg_state { pool : list sg_xfer_buffer; sg_ptr : list bool; freeing_refcpt : Z; args_freed : bool }.
Definition set_buffers (p : list sg_xfer_buffer) (s : sg_state) : sg_state :=
  mk_sg_state p (sg_ptr s) (freeing_refcpt s) (args_freed s).
Definition set_sg_ptr (l : list bool) (s : sg_state) : sg_state :=
  mk_sg_state (pool s) l (freeing_refcpt s) (args_freed s).

Definition set_nr_blocks (n : Z) (b : sg_xfer_buffer) : sg_xfer_buffer :=
  mk_sg (max_nr_blocks b) (blocks_addr b) (blocks_length b) n.
Definition push_block (addr length : Z) (b : sg_xfer_buffer) : sg_xfer_buffer :=
  mk_sg (max_nr_blocks b) (blocks_addr b).[nr_blocks b := addr] (blocks_length b).[nr_blocks b := length] (u32 (nr_blocks b + 1)).

(** The matrix is always one for scatter/gather transfers. *)
Definition dpu_transfer_matrix_add_dpu_block (idx addr length : Z) : C sg_state unit := fun s =>
  let b := (pool s).[idx] in
  if max_nr_blocks b <=? nr_blocks b then (s, Err DPU_ERR_INTERNAL)
  else (set_buffers (pool s).[idx := push_block addr length b] s, Ok tt).

Section Blocks.
Variable args : sg_xfer_callback_args.
Let check_length : bool := sg_flags args &&& DPU_SG_XFER_DISABLE_LENGTH_CHECK =? 0.

(** [while (1)]: the blocks of one DPU; [None] when the fuel is spent. *)
Fixpoint add_blocks (fuel : nat) (idx dpu_index max_nr block_index nr_bytes : Z) : C sg_state (option unit) :=
  match fuel with
  | O => mret None
  | S fuel =>
      match get_block args dpu_index block_index with
      | None =>
          if check_length && negb (nr_bytes =? sg_length args) then fail DPU_ERR_SG_LENGTH_MISMATCH else mret (Some tt)
      | Some (addr, length) =>
          if max_nr <=? block_index then fail DPU_ERR_SG_TOO_MANY_BLOCKS
          else if negb (length =? 0) && (check_length && (sg_length args <=? nr_bytes)) then fail DPU_ERR_SG_LENGTH_MISMATCH
          else if length =? 0 then add_blocks fuel idx dpu_index max_nr (u32 (block_index + 1)) nr_bytes
          else
            match sg_xfer args with
            | DPU_XFER_OTHER => fail DPU_ERR_INVALID_MEMORY_TRANSFER
            | _ =>
                _ ← modify (fun s => set_sg_ptr (sg_ptr s).[idx := true] s);
                _ ← dpu_transfer_matrix_add_dpu_block idx addr length;
                add_blocks fuel idx dpu_index max_nr (u32 (block_index + 1)) (u32 (nr_bytes + length))
            end
      end
  end.

(** The loop over the DPUs of the rank, with their numbers. *)
Fixpoint add_dpus (fuel : nat) (dpu_rank_offset : Z) (dpus : list (Z * Z)) : C sg_state (option unit) :=
  match dpus with
  | [] => mret (Some tt)
  | (rank_dpu_index, idx) :: dpus =>
      max_nr ← gets (fun s => max_nr_blocks (pool s).[idx]);
      o ← add_blocks fuel idx (u32 (rank_dpu_index + dpu_rank_offset)) max_nr 0 0;
      match o with None => mret None | Some _ => add_dpus fuel dpu_rank_offset dpus end
  end.

Variable store : rank_ptr -> rank.
(** What [dpu_copy_to_mrams] or [dpu_copy_from_mrams] answers. *)
Variable copy_mrams : dpu_xfer_t -> sg_state -> option dpu_error_t.

Definition index_of (d : dpu_ptr) : Z :=
  get_transfer_matrix_index (store (fst d)) (slice_id (the_dpu store d)) (dpu_id (the_dpu store d)).
Definition numbered_dpus (visits : list (Z * dpu_set_t)) : list (Z * Z) :=
  omap (fun v => match v.2 with DPU_SET_DPU d => Some (v.1, index_of d) | _ => None end) visits.

Definition reset_sg_buffer_pool (dpus : list (Z * Z)) : C sg_state unit :=
  modify (fun s => set_buffers (foldl (fun p v => p.[v.2 := set_nr_blocks 0 p.[v.2]]) (pool s) dpus) s).
Definition free_cb_args : C sg_state unit := modify (fun s =>
  let n := u32 (freeing_refcpt s - 1) in mk_sg_state (pool s) (sg_ptr s) n (args_freed s || (n =? 0))).

Definition sg_xfer_rank_handler (fuel : nat) (r : rank_ptr) (dpu_offset : Z) (sg_xfer_enabled : bool) : C sg_state (option unit) :=
  _ ← modify (set_sg_ptr (replicate 64 false));
  if negb sg_xfer_enabled then fail DPU_ERR_SG_NOT_ACTIVATED
  else match DPU_FOREACH store fuel (DPU_SET_RANKS [r]) with
  | None => mret None
  | Some visits =>
      let dpus := numbered_dpus visits in
      o ← add_dpus fuel dpu_offset dpus;
      match o with
      | None => mret None
      | Some _ =>
          _ ← match sg_xfer args with
              | DPU_XFER_OTHER => fail DPU_ERR_INVALID_MEMORY_TRANSFER
              | x => fun s => match copy_mrams x s with None => (s, Ok tt) | Some e => (s, Err e) end
              end;
          _ ← reset_sg_buffer_pool dpus;
          _ ← free_cb_args;
          mret (Some tt)
      end
  end.
End Blocks.

(** [dpu_push_sg_xfer_symbol] up to the call of [dpu_callback]: the arguments of
    the callback, the initial count of its users, and whether it is asynchronous. *)
Definition dpu_push_sg_xfer_symbol (dpu_set : dpu_set_t) (xfer : dpu_xfer_t) (symbol : dpu_symbol_t)
    (symbol_offset length : Z) (block : Z -> Z -> option (Z * Z)) (flags : Z) : result (sg_xfer_callback_args * Z * bool) :=
  match dpu_set with
  | DPU_SET_RANKS ranks =>
      let addr := u32 (sym_address symbol + symbol_offset) in
      if negb (addr &&& MRAM_MASK =? MRAM_MASK) then Err DPU_ERR_SG_NOT_MRAM_SYMBOL
      else Ok (mk_sg_args block xfer addr length flags, lenz ranks, negb (flags &&& DPU_SG_XFER_ASYNC =? 0))
  | DPU_SET_DPU _ => Err DPU_ERR_INTERNAL
  | DPU_SET_OTHER => Err DPU_ERR_INTERNAL
  end.
Definition dpu_push_sg_xfer (store : rank_ptr -> rank) (program_of : dpu_ptr -> Z)
    (symbols : Z -> list (String.string * dpu_symbol_t)) (dpu_set : dpu_set_t) (xfer : dpu_xfer_t) (symbol_name : String.string)
    (symbol_offset length : Z) (block : Z -> Z -> option (Z * Z)) (flags : Z) : result (sg_xfer_callback_args * Z * bool) :=
  match dpu_get_common_program store program_of dpu_set with
  | Err e => Err e
  | Ok program => match dpu_get_symbol symbols program symbol_name with
    | Err e => Err e
    | Ok symbol => dpu_push_sg_xfer_symbol dpu_set xfer symbol symbol_offset length block flags
    end
  end.
(** The offset in the MRAM and the size that the matrix of the callback has. *)
Definition sg_matrix_shape (args : sg_xfer_callback_args) : Z * Z :=
  (symbol_addr args &&& not32 MRAM_MASK, u32 (sg_length args)).

(** ** What the buffers hold *)

(** The blocks of a buffer, in order. *)
Definition contents (b : sg_xfer_buffer) : list (Z * Z) :=
  map (fun i => ((blocks_addr b).[i], (blocks_length b).[i])) (seqZ 0 (nr_blocks b)).
(** The blocks of the user that are not empty, of the indices from [lo] to [hi]. *)
Definition user_blocks (block : Z -> option (Z * Z)) (lo hi : Z) : list (Z * Z) :=
  omap (fun j => match block j with Some (a, l) => if l =? 0 then None else Some (a, l) | None => None end) (seqZ lo (hi - lo)).
Definition total_length (l : list (Z * Z)) : Z := foldr (fun x n => snd x + n) 0 l.

(** The arrays of a buffer have the entry of the sentinel. *)
Record roomy (b : sg_xfer_buffer) : Prop := {
  ro_nr : 0 <= nr_blocks b <= max_nr_blocks b;
  ro_max : max_nr_blocks b < 2 ^ 32 - 1;
  ro_addr : lenz (blocks_addr b) = max_nr_blocks b + 1;
  ro_length : lenz (blocks_length b) = max_nr_blocks b + 1;
}.

Lemma contents_push a l b : roomy b -> nr_blocks b < max_nr_blocks b ->
  contents (push_block a l b) = contents b ++ [(a, l)] /\ roomy (push_block a l b) /\
  nr_blocks (push_block a l b) = nr_blocks b + 1 /\ max_nr_blocks (push_block a l b) = max_nr_blocks b.
Proof.
  intros [Hn Hm Ha Hl] Hlt. assert (u32 (nr_blocks b + 1) = nr_blocks b + 1) as Hu by (apply u32_id; unfold fits; lia).
  split; [|split_and!; try done; split; cbn [push_block nr_blocks max_nr_blocks blocks_addr blocks_length];
    rewrite ?Hu, ?lenz_setz; lia].
  unfold contents, push_block. cbn [nr_blocks blocks_addr blocks_length]. rewrite Hu. rewrite seqZ_app by lia.
  rewrite map_app. f_equal.
  - apply map_ext_in. intros i Hi%list_elem_of_In%elem_of_seqZ. rewrite !getz_setz_ne by lia. done.
  - cbn. rewrite seqZ_cons, seqZ_nil by lia. cbn. rewrite !getz_setz_eq by lia. done.
Qed.

Lemma user_blocks_cons block lo hi : lo < hi -> user_blocks block lo hi =
  match block lo with Some (a, l) => if l =? 0 then [] else [(a, l)] | None => [] end ++ user_blocks block (lo + 1) hi.
Proof.
  intros H. unfold user_blocks. rewrite (seqZ_cons lo) by lia. replace (Z.pred (hi - lo)) with (hi - (lo + 1)) by lia.
  change (Z.succ lo) with (lo + 1). cbn [omap list_omap]. destruct (block lo) as [[a l]|]; [|done]. by destruct (l =? 0).
Qed.
Lemma user_blocks_nil block lo : user_blocks block lo lo = [].
Proof. unfold user_blocks. by rewrite Z.sub_diag. Qed.

(** Buffers other than [idx], and the counter, are left alone. *)
Record pool_frame (idx : Z) (s s' : sg_state) : Prop := {
  pf_other : forall j, 0 <= j -> j <> idx -> (pool s').[j] = (pool s).[j];
  pf_lenz : lenz (pool s') = lenz (pool s);
  pf_refcpt : freeing_refcpt s' = freeing_refcpt s;
  pf_freed : args_freed s' = args_freed s;
}.
#[export] Instance pool_frame_preorder idx : PreOrder (pool_frame idx).
Proof.
  split; [by intros s; split|]. intros s1 s2 s3 [] []. split; try congruence. intros j Hj Hne. by rewrite pf_other1, pf_other0.
Qed.

Section AddBlocks.
Variable args : sg_xfer_callback_args.
Hypothesis Hlengths : forall d j a l, get_block args d j = Some (a, l) -> 0 <= l < 2 ^ 32 - 8.

Lemma add_blocks_ok fuel idx d max bi nb s : 0 <= idx < lenz (pool s) -> roomy (pool s).[idx] ->
  max = max_nr_blocks (pool s).[idx] -> nr_blocks (pool s).[idx] <= bi <= max -> max - bi < Z.of_nat fuel -> fits 32 nb ->
  let '(s', res) := add_blocks args fuel idx d max bi nb s in
  pool_frame idx s s' /\
  match res with
  | Err _ => True
  | Ok None => False
  | Ok (Some _) => exists n, bi <= n <= max /\ get_block args d n = None /\
      (forall j, bi <= j < n -> is_Some (get_block args d j)) /\
      roomy (pool s').[idx] /\ max_nr_blocks (pool s').[idx] = max /\
      contents (pool s').[idx] = contents (pool s).[idx] ++ user_blocks (get_block args d) bi n /\
      (sg_flags args &&& DPU_SG_XFER_DISABLE_LENGTH_CHECK = 0 ->
        u32 (nb + total_length (user_blocks (get_block args d) bi n)) = sg_length args)
  end.
Proof using Hlengths.
  revert bi nb s. induction fuel as [|fuel IH]; intros bi nb s Hidx Hroom Hmax Hbi Hfuel Hnb; [lia|]. cbn [add_blocks].
  destruct (get_block args d bi) as [[a l]|] eqn:Hb.
  - destruct (Z.leb_spec max bi) as [|Hlt]; [by split|].
    destruct (negb (l =? 0) && _) eqn:Hover; [by split|]. clear Hover.
    assert (u32 (bi + 1) = bi + 1) as Hbi1 by (apply u32_id; destruct Hroom; unfold fits; lia). rewrite Hbi1.
    pose proof (Hlengths _ _ _ _ Hb) as Hl.
    destruct (Z.eqb_spec l 0) as [->|Hl0].
    + specialize (IH (bi + 1) nb s Hidx Hroom Hmax ltac:(lia) ltac:(lia) Hnb).
      destruct (add_blocks args fuel idx d max (bi + 1) nb s) as [s' [[[]|]|e]]; [|by destruct IH|done].
      destruct IH as (Hf & n & Hn & Hnone & Hsome & Hr & Hm & Hc & Hsum). split; [done|]. exists n. split; [lia|]. split; [done|].
      rewrite (user_blocks_cons _ bi) by lia. rewrite Hb, Z.eqb_refl. cbn [app]. split; [|done].
      intros j Hj. destruct (decide (j = bi)) as [->|]; [by eexists|]. apply Hsome. lia.
    + set (s0 := set_sg_ptr (sg_ptr s).[idx := true] s).
      set (s1 := set_buffers (pool s).[idx := push_block a l (pool s).[idx]] s0).
      destruct (contents_push a l _ Hroom ltac:(lia)) as (Hcp & Hrp & Hnp & Hmp).
      assert ((pool s1).[idx] = push_block a l (pool s).[idx]) as Hp1 by (unfold s1; cbn [set_buffers pool]; by rewrite getz_setz_eq).
      assert (pool_frame idx s s1) as Hf1.
      { split; try done; unfold s1; cbn [set_buffers pool]; [|by rewrite lenz_setz]. intros j Hj Hne. rewrite getz_setz_ne by lia. done. }
      specialize (IH (bi + 1) (u32 (nb + l)) s1).
      rewrite Hp1, Hmp, Hnp in IH. specialize (IH ltac:(rewrite (pf_lenz _ _ _ Hf1); done) Hrp Hmax ltac:(lia) ltac:(lia) (u32_fits _)).
      assert (match sg_xfer args with
          | DPU_XFER_OTHER => fail DPU_ERR_INVALID_MEMORY_TRANSFER
          | _ => _ ← modify (fun s => set_sg_ptr (sg_ptr s).[idx := true] s);
                _ ← dpu_transfer_matrix_add_dpu_block idx a l;
                add_blocks args fuel idx d max (bi + 1) (u32 (nb + l)) end s =
        match sg_xfer args with
          | DPU_XFER_OTHER => (s, Err DPU_ERR_INVALID_MEMORY_TRANSFER)
          | _ => add_blocks args fuel idx d max (bi + 1) (u32 (nb + l)) s1 end) as ->.
      { assert ((_ ← modify (fun s => set_sg_ptr (sg_ptr s).[idx := true] s);
                _ ← dpu_transfer_matrix_add_dpu_block idx a l;
                add_blocks args fuel idx d max (bi + 1) (u32 (nb + l))) s = add_blocks args fuel idx d max (bi + 1) (u32 (nb + l)) s1) as Heq.
        { unfold mbind, C_bind, modify, dpu_transfer_matrix_add_dpu_block. cbn [set_sg_ptr pool].
          rewrite (proj2 (Z.leb_gt _ _)) by lia. done. }
        by destruct (sg_xfer args). }
      enough (let '(s', res) := add_blocks args fuel idx d max (bi + 1) (u32 (nb + l)) s1 in
        pool_frame idx s s' /\ match res with
        | Err _ => True | Ok None => False
        | Ok (Some _) => exists n, bi <= n <= max /\ get_block args d n = None /\
            (forall j, bi <= j < n -> is_Some (get_block args d j)) /\ roomy (pool s').[idx] /\ max_nr_blocks (pool s').[idx] = max /\
            contents (pool s').[idx] = contents (pool s).[idx] ++ user_blocks (get_block args d) bi n /\
            (sg_flags args &&& DPU_SG_XFER_DISABLE_LENGTH_CHECK = 0 ->
              u32 (nb + total_length (user_blocks (get_block args d) bi n)) = sg_length args) end) as Hgoal.
      { destruct (sg_xfer args); [exact Hgoal|exact Hgoal|by split]. }
      destruct (add_blocks args fuel idx d max (bi + 1) (u32 (nb + l)) s1) as [s' [[[]|]|e]]; [|by destruct IH|split; [|done]].
      2: { etrans; [exact Hf1|apply IH]. }
      destruct IH as (Hf & n & Hn & Hnone & Hsome & Hr & Hm & Hc & Hsum). split; [by etrans|]. exists n. split; [lia|]. split; [done|].
      rewrite (user_blocks_cons _ bi) by lia. rewrite Hb, (proj2 (Z.eqb_neq l 0)) by done. cbn [app total_length foldr snd].
      split; [intros j Hj; destruct (decide (j = bi)) as [->|]; [by eexists|apply Hsome; lia]|].
      split; [done|]. split; [done|]. split; [by rewrite Hc, Hcp, <- app_assoc|]. intros Hcheck. rewrite <- (Hsum Hcheck).
      fold (total_length (user_blocks (get_block args d) (bi + 1) n)). unfold u32. rewrite Zplus_mod_idemp_l. f_equal. lia.
  - destruct ((sg_flags args &&& DPU_SG_XFER_DISABLE_LENGTH_CHECK =? 0) && negb (nb =? sg_length args)) eqn:Hcheck; [by split|].
    split; [done|]. exists bi. rewrite user_blocks_nil, app_nil_r. cbn [total_length foldr]. rewrite Z.add_0_r.
    split_and!; try done; try lia. intros Hc. rewrite Hc in Hcheck. cbn in Hcheck. rewrite u32_id by done. lia.
Qed.
End AddBlocks.

(** What the user's blocks become: all of them, up to the first missing one. *)
Definition filled (args : sg_xfer_callback_args) (d : Z) (b : sg_xfer_buffer) : Prop :=
  exists n, 0 <= n <= max_nr_blocks b /\ get_block args d n = None /\
    (forall j, 0 <= j < n -> is_Some (get_block args d j)) /\ roomy b /\ contents b = user_blocks (get_block args d) 0 n /\
    (sg_flags args &&& DPU_SG_XFER_DISABLE_LENGTH_CHECK = 0 -> u32 (total_length (contents b)) = sg_length args).
(** A buffer that waits for a transfer. *)
Definition idle (fuel : nat) (b : sg_xfer_buffer) : Prop := roomy b /\ nr_blocks b = 0 /\ max_nr_blocks b < Z.of_nat fuel.

Section AddDpus.
Variable args : sg_xfer_callback_args.
Hypothesis Hlengths : forall d j a l, get_block args d j = Some (a, l) -> 0 <= l < 2 ^ 32 - 8.

Lemma add_dpus_ok fuel off dpus s : NoDup dpus.*2 ->
  Forall (fun v => 0 <= v.2 < lenz (pool s) /\ idle fuel (pool s).[v.2]) dpus ->
  let '(s', res) := add_dpus args fuel off dpus s in
  lenz (pool s') = lenz (pool s) /\ freeing_refcpt s' = freeing_refcpt s /\ args_freed s' = args_freed s /\
  (forall j, 0 <= j -> j ∉ dpus.*2 -> (pool s').[j] = (pool s).[j]) /\
  match res with
  | Err _ => True
  | Ok None => False
  | Ok (Some _) => forall v, v ∈ dpus -> filled args (u32 (v.1 + off)) (pool s').[v.2]
  end.
Proof using Hlengths.
  intros Hnd. revert s. induction dpus as [|[k idx] dpus IH]; intros s Hall; cbn [add_dpus].
  { split_and!; try done. intros v Hv. by apply not_elem_of_nil in Hv. }
  cbn [fmap list_fmap snd] in Hnd. apply list_relations.list.NoDup_cons in Hnd as [Hni Hnd].
  apply list_relations.list.Forall_cons in Hall as [[Hidx (Hroom & Hz & Hfuel)] Hall]. cbn [fst snd] in *.
  unfold mbind, C_bind, gets.
  pose proof (add_blocks_ok args Hlengths fuel idx (u32 (k + off)) _ 0 0 s Hidx Hroom eq_refl ltac:(destruct Hroom; lia) ltac:(lia) ltac:(unfold fits; lia)) as H1.
  destruct (add_blocks args fuel idx (u32 (k + off)) (max_nr_blocks (pool s).[idx]) 0 0 s) as [s1 [[[]|]|e]]; [|by destruct H1|].
  2: { destruct H1 as [[Ho Hl Hr Hfr] _]. split_and!; try done. intros j Hj [Hne _]%not_elem_of_cons. by apply Ho. }
  destruct H1 as ([Ho Hl Hr Hfr] & n & Hn & Hnone & Hsome & Hroom1 & Hmax1 & Hc & Hsum).
  assert (forall v, v ∈ dpus -> v.2 <> idx) as Hne.
  { intros v Hv Heq. apply Hni. rewrite <- Heq. by apply list_elem_of_fmap_2. }
  specialize (IH Hnd s1). destruct (add_dpus args fuel off dpus s1) as [s' res]. destruct IH as (Hl' & Hr' & Hfr' & Ho' & Hres).
  { apply list_relations.list.Forall_forall. intros v Hv. eapply list_relations.list.Forall_forall in Hall as [Hv1 Hv2]; [|exact Hv].
    rewrite Hl. split; [done|]. rewrite Ho by (lia || by apply Hne). done. }
  split; [by rewrite Hl'|]. split; [by rewrite Hr'|]. split; [by rewrite Hfr'|]. split.
  - intros j Hj [Hj1 Hj2]%not_elem_of_cons. by rewrite Ho', Ho.
  - destruct res as [[[]|]|]; try done. intros v [->|Hv]%elem_of_cons; [|by apply Hres]. cbn [fst snd].
    assert ((pool s').[idx] = (pool s1).[idx]) as -> by (apply Ho'; [lia|done]).
    assert (contents (pool s).[idx] = []) as Hempty by (unfold contents; rewrite Hz; done). rewrite Hempty in Hc. cbn [app] in Hc.
    exists n. rewrite Hmax1, Hc. split_and!; done || lia.
Qed.
End AddDpus.

(** A filled buffer with a block is one that the backend can read. *)
Lemma filled_wf args d b : (forall d j a l, get_block args d j = Some (a, l) -> 0 <= l < 2 ^ 32 - 8) ->
  filled args d b -> contents b <> [] -> wf_sg b.
Proof.
  intros Hlen (n & Hn & _ & _ & [Hnr Hmax Ha Hl] & Hc & _) Hne.
  assert (0 < nr_blocks b) as Hpos.
  { destruct (Z.eq_dec (nr_blocks b) 0) as [Hz|]; [|lia]. exfalso. apply Hne. unfold contents. by rewrite Hz. }
  split; [done|lia|lia|]. intros i Hi.
  assert (((blocks_addr b).[i], (blocks_length b).[i]) ∈ contents b) as Hin.
  { unfold contents. apply list_elem_of_In, in_map_iff. exists i. split; [done|]. apply list_elem_of_In, elem_of_seqZ. lia. }
  rewrite Hc in Hin. unfold user_blocks in Hin. apply list_elem_of_omap in Hin as (j & _ & Hj).
  destruct (get_block args d j) as [[a l]|] eqn:E; [|done]. destruct (Z.eqb_spec l 0); [done|].
  injection Hj as _ Hl'. specialize (Hlen _ _ _ _ E). lia.
Qed.

(** ** The DPUs of a rank have each their buffer *)

Section Indices.
Variable store : rank_ptr -> rank.

Lemma index_of_at r i : matrix_wf (store r) dpu_transfer_matrix_clear_all -> 0 <= i < nr_dpus_in store r ->
  index_of store (r, i) = (i mod nr_dpus_of (store r)) * nr_cis_of (store r) + i / nr_dpus_of (store r) /\
  0 <= index_of store (r, i) < 64.
Proof.
  intros Hwf Hi. pose proof (xw_cis _ _ Hwf) as Hc. pose proof (xw_dpus _ _ Hwf) as Hd. unfold nr_dpus_in in Hi.
  set (n := nr_dpus_of (store r)) in *. pose proof (Z.div_mod i n ltac:(lia)) as Hdiv. pose proof (Z.mod_pos_bound i n ltac:(lia)) as Hmod.
  assert (0 <= i / n < nr_cis_of (store r)) as Hq by (split; [apply Z.div_pos; lia|apply Z.div_lt_upper_bound; lia]).
  assert (the_dpu store (r, i) = dpu_of (store r) (i / n) (i mod n)) as He.
  { unfold the_dpu, dpu_of, DPU_INDEX. cbn [fst snd]. fold n. f_equal. done. }
  unfold index_of. rewrite He. cbn [fst]. destruct (xw_place _ _ Hwf (i / n) (i mod n) Hq Hmod) as [-> ->].
  destruct (matrix_index _ _ Hwf (i / n) (i mod n) Hq Hmod) as [-> ?]. done.
Qed.
Lemma index_of_inj r i j : matrix_wf (store r) dpu_transfer_matrix_clear_all -> 0 <= i < nr_dpus_in store r ->
  0 <= j < nr_dpus_in store r -> index_of store (r, i) = index_of store (r, j) -> i = j.
Proof.
  intros Hwf Hi Hj. pose proof (xw_cis _ _ Hwf) as Hc. pose proof (xw_dpus _ _ Hwf) as Hd.
  rewrite (proj1 (index_of_at r i Hwf Hi)), (proj1 (index_of_at r j Hwf Hj)). unfold nr_dpus_in in *.
  set (n := nr_dpus_of (store r)) in *. set (c := nr_cis_of (store r)) in *. intros Heq.
  pose proof (Z.div_mod i n ltac:(lia)) as Hi1. pose proof (Z.div_mod j n ltac:(lia)) as Hj1.
  assert (0 <= i / n < c) by (split; [apply Z.div_pos; lia|apply Z.div_lt_upper_bound; lia]).
  assert (0 <= j / n < c) by (split; [apply Z.div_pos; lia|apply Z.div_lt_upper_bound; lia]).
  assert (i mod n = j mod n /\ i / n = j / n) as [H1 H2]; [|rewrite Hi1, Hj1, H1, H2; done].
  set (q := i / n) in *. set (q' := j / n) in *. set (m := i mod n) in *. set (m' := j mod n) in *. clearbody q q' m m'.
  assert (m = m') as ->; [|lia]. destruct (Z.lt_trichotomy m m') as [|[|]]; [|done|]; nia.
Qed.

Lemma numbered_visits (l : list dpu_ptr) c :
  numbered_dpus store (zip (seqZ c (lenz l)) (map DPU_SET_DPU l)) = zip (seqZ c (lenz l)) (map (index_of store) l).
Proof.
  revert c. induction l as [|d l IH]; intros c; [by rewrite seqZ_nil|]. unfold lenz in *. cbn [length map].
  rewrite (seqZ_cons c) by lia. replace (Z.pred (Z.of_nat (S (length l)))) with (Z.of_nat (length l)) by lia.
  cbn [zip zip_with]. unfold numbered_dpus in *. cbn [omap list_omap fst snd]. f_equal. apply IH.
Qed.
End Indices.

(** ** The callback of a rank *)

Section Handler.
Variable args : sg_xfer_callback_args.
Hypothesis Hlengths : forall d j a l, get_block args d j = Some (a, l) -> 0 <= l < 2 ^ 32 - 8.
Variable store : rank_ptr -> rank.
Variable copy_mrams : dpu_xfer_t -> sg_state -> option dpu_error_t.
Variable r : rank_ptr.
Hypothesis Hcounted : counted (store r).
Hypothesis Hplaced : matrix_wf (store r) dpu_transfer_matrix_clear_all.
Variable fuel : nat.
Hypothesis Hfuel : (64 < fuel)%nat.

Definition rank_dpus : list (Z * Z) := zip (seqZ 0 (lenz (enabled_in store r))) (map (index_of store) (enabled_in store r)).

Lemma enabled_in_range d : d ∈ enabled_in store r -> exists i, d = (r, i) /\ 0 <= i < nr_dpus_in store r.
Proof using Type.
  clear Hfuel. intros Hd. unfold enabled_in in Hd. apply list_elem_of_In, in_map_iff in Hd as (i & <- & Hi).
  apply list_elem_of_In, list_elem_of_filter in Hi as [_ Hi%elem_of_seqZ]. exists i. split; [done|lia].
Qed.

Lemma rank_dpus_snd : rank_dpus.*2 = map (index_of store) (enabled_in store r).
Proof using Type. clear Hfuel. unfold rank_dpus. apply snd_zip. rewrite length_map, length_seqZ. unfold lenz. lia. Qed.
Lemma rank_dpus_NoDup : NoDup rank_dpus.*2.
Proof using Hplaced.
  clear Hfuel.   rewrite rank_dpus_snd. unfold enabled_in. rewrite map_map.
  apply NoDup_fmap_2_strong.
  - intros i j Hi Hj Heq. apply list_elem_of_filter in Hi as [_ Hi%elem_of_seqZ]. apply list_elem_of_filter in Hj as [_ Hj%elem_of_seqZ].
    eapply index_of_inj; [exact Hplaced|lia|lia|exact Heq].
  - apply list_relations.list.NoDup_filter, NoDup_seqZ.
Qed.
Lemma rank_dpus_range v : v ∈ rank_dpus -> 0 <= v.2 < 64.
Proof using Hplaced.
  clear Hfuel.   intros Hv. assert (v.2 ∈ rank_dpus.*2) as Hin by by apply list_elem_of_fmap_2. rewrite rank_dpus_snd in Hin.
  apply list_elem_of_In, in_map_iff in Hin as (d & <- & Hd). apply list_elem_of_In in Hd.
  apply enabled_in_range in Hd as (i & -> & Hi). by apply index_of_at.
Qed.
Lemma rank_dpus_at k d : enabled_in store r !! k = Some d -> (Z.of_nat k, index_of store d) ∈ rank_dpus.
Proof using Type.
  clear Hfuel. intros Hk. apply list_elem_of_lookup. exists k. unfold rank_dpus. rewrite lookup_zip_with.
  pose proof (lookup_lt_Some _ _ _ Hk). rewrite (proj2 (lookup_seqZ 0 (lenz (enabled_in store r)) k (Z.of_nat k))) by (unfold lenz; lia).
  cbn [mbind option_bind]. change (map (index_of store) (enabled_in store r)) with (index_of store <$> enabled_in store r).
  rewrite list_lookup_fmap, Hk. done.
Qed.

Lemma visits_of_rank : exists visits, DPU_FOREACH store fuel (DPU_SET_RANKS [r]) = Some visits /\ numbered_dpus store visits = rank_dpus.
Proof using Hcounted Hfuel.
  pose proof (length_enabled_in store r Hcounted) as Hl. pose proof (proj2 (nr_dpus_in_rank_sum _ Hcounted)) as Hb.
  assert (dpus_of_set store (DPU_SET_RANKS [r]) = enabled_in store r) as Hs by (cbn; by rewrite app_nil_r).
  exists (zip (seqZ 0 (lenz (enabled_in store r))) (map DPU_SET_DPU (enabled_in store r))). split; [|apply numbered_visits].
  rewrite <- Hs. apply (foreach_dpus store (DPU_SET_RANKS [r]) fuel).
  - rewrite Hs. lia.
  - intros ranks [= <-]. split; [by_eval|]. exists (nr_dpus_in store r). by constructor.
  - rewrite Hs. unfold lenz in *. lia.
Qed.

Lemma reset_pool_at (dpus : list (Z * Z)) p j : Forall (fun v => 0 <= v.2 < lenz p) dpus -> 0 <= j -> j ∈ dpus.*2 ->
  nr_blocks (foldl (fun p v => p.[v.2 := set_nr_blocks 0 p.[v.2]]) p dpus).[j] = 0.
Proof using Type.
  clear Hfuel. intros Hr Hj. induction dpus as [|v dpus IH] using rev_ind; [intros Hin; by apply not_elem_of_nil in Hin|].
  apply list_relations.list.Forall_app in Hr as [Hr Hv]. apply list_relations.list.Forall_cons in Hv as [Hv _].
  rewrite fmap_app, foldl_app. cbn [foldl fmap list_fmap]. set (p' := foldl _ p dpus) in *.
  assert (lenz p' = lenz p) as Hl.
  { unfold p'. clear. induction dpus as [|w dpus IH] using rev_ind; [done|]. rewrite foldl_app. cbn [foldl]. by rewrite lenz_setz. }
  intros Hin. destruct (Z.eq_dec j v.2) as [->|Hne].
  - rewrite getz_setz_eq by lia. done.
  - rewrite getz_setz_ne by lia. apply IH; [done|]. apply elem_of_app in Hin as [|Hin]; [done|].
    apply list_elem_of_singleton in Hin. congruence.
Qed.

Lemma handler_ok off s : lenz (pool s) = 64 -> Forall (idle fuel) (pool s) ->
  let '(s', res) := sg_xfer_rank_handler args store copy_mrams fuel r off true s in
  match res with
  | Err _ => True
  | Ok None => False
  | Ok (Some _) => freeing_refcpt s' = u32 (freeing_refcpt s - 1) /\ exists s1, copy_mrams (sg_xfer args) s1 = None /\
      forall k d, enabled_in store r !! k = Some d ->
        filled args (u32 (Z.of_nat k + off)) (pool s1).[index_of store d] /\ nr_blocks (pool s').[index_of store d] = 0
  end.
Proof using Hlengths Hcounted Hplaced Hfuel.
  intros Hlen Hidle. unfold sg_xfer_rank_handler, mbind, C_bind, modify. cbn [negb].
  destruct visits_of_rank as (visits & -> & ->). set (s0 := set_sg_ptr _ s).
  assert (Forall (fun v => 0 <= v.2 < lenz (pool s0) /\ idle fuel (pool s0).[v.2]) rank_dpus) as Hall.
  { apply list_relations.list.Forall_forall. intros v Hv. pose proof (rank_dpus_range v Hv). unfold s0. cbn [set_sg_ptr pool].
    split; [lia|]. eapply list_relations.list.Forall_lookup_1; [exact Hidle|]. unfold getz. apply list_lookup_lookup_total_lt.
    unfold lenz in Hlen. lia. }
  pose proof (add_dpus_ok args Hlengths fuel off rank_dpus s0 rank_dpus_NoDup Hall) as Had.
  destruct (add_dpus args fuel off rank_dpus s0) as [s1 [[[]|]|e]]; [|by destruct Had as (_ & _ & _ & _ & Had)|done].
  destruct Had as (Hl1 & Hr1 & _ & _ & Hfill).
  destruct (sg_xfer args) eqn:Hx; [| |done]; (destruct (copy_mrams _ s1) eqn:Hcopy; [done|]).
  all: unfold reset_sg_buffer_pool, free_cb_args, modify; cbn [set_buffers freeing_refcpt pool mret C_ret]; unfold mret, C_ret;
    cbn [freeing_refcpt pool]; rewrite Hr1; split; [done|]; exists s1; (split; [done|]); intros k d Hk;
    pose proof (rank_dpus_at k d Hk) as Hin; pose proof (rank_dpus_range _ Hin) as Hidx; cbn [snd] in Hidx;
    (split; [exact (Hfill _ Hin)|]); apply reset_pool_at; [|lia|by apply (list_elem_of_fmap_2 snd) in Hin];
    apply list_relations.list.Forall_forall; intros v Hv; rewrite Hl1; unfold s0; cbn [set_sg_ptr pool]; rewrite Hlen;
    by apply rank_dpus_range.
Qed.
End Handler.

(** ** Properties *)

(** C14: when the callback of a rank succeeds, the buffers that the copy was
    given hold, for each enabled DPU and in order, the user's blocks that are
    not empty, up to the first missing one; their lengths sum to the length of
    the transfer unless the check is disabled; a buffer with a block is one the
    backend can read; and the pool is empty again afterwards. *)
Theorem sg_blocks_gathered args store copy_mrams r fuel off s s' :
  (forall d j a l, get_block args d j = Some (a, l) -> 0 <= l < 2 ^ 32 - 8) ->
  counted (store r) -> matrix_wf (store r) dpu_transfer_matrix_clear_all -> (64 < fuel)%nat ->
  lenz (pool s) = 64 -> Forall (idle fuel) (pool s) ->
  sg_xfer_rank_handler args store copy_mrams fuel r off true s = (s', Ok (Some tt)) ->
  exists s1, copy_mrams (sg_xfer args) s1 = None /\
  forall k d, enabled_in store r !! k = Some d -> let b := (pool s1).[index_of store d] in
    filled args (u32 (Z.of_nat k + off)) b /\ (contents b <> [] -> wf_sg b) /\ nr_blocks (pool s').[index_of store d] = 0.
Proof.
  intros Hlen Hc Hm Hfuel Hl Hidle Hrun.
  pose proof (handler_ok args Hlen store copy_mrams r Hc Hm fuel Hfuel off s Hl Hidle) as Hok. rewrite Hrun in Hok.
  destruct Hok as (_ & s1 & Hcopy & Hall). exists s1. split; [done|]. intros k d Hk b. destruct (Hall k d Hk) as [Hf Hz].
  split; [done|]. split; [|done]. by apply (filled_wf args (u32 (Z.of_nat k + off))).
Qed.

(** the callback of a rank ends, whatever blocks the user gives: at most one
    more call than a buffer has room for is made for each DPU. *)
Theorem sg_handler_ends args store copy_mrams r fuel off enabled s :
  (forall d j a l, get_block args d j = Some (a, l) -> 0 <= l < 2 ^ 32 - 8) ->
  counted (store r) -> matrix_wf (store r) dpu_transfer_matrix_clear_all -> (64 < fuel)%nat ->
  lenz (pool s) = 64 -> Forall (idle fuel) (pool s) ->
  snd (sg_xfer_rank_handler args store copy_mrams fuel r off enabled s) <> Ok None.
Proof.
  intros Hlen Hc Hm Hfuel Hl Hidle. destruct enabled; [|done].
  pose proof (handler_ok args Hlen store copy_mrams r Hc Hm fuel Hfuel off s Hl Hidle) as Hok.
  destruct (sg_xfer_rank_handler args store copy_mrams fuel r off true s) as [s' [[[]|]|e]]; by destruct Hok || done.
Qed.

(** ** Examples: a rank of two DPUs with room for two blocks each *)

Definition idle_buffer : sg_xfer_buffer := mk_sg 2 [0; 0; 0] [0; 0; 0] 0.
Definition idle_state : sg_state := mk_sg_state (replicate 64 idle_buffer) (replicate 64 false) 1 false.
Definition two_dpus (_ : rank_ptr) : rank := sample_rank 1 2.
Definition copies (_ : dpu_xfer_t) (_ : sg_state) : option dpu_error_t := None.
(** Two blocks of 8 and 16 bytes, at addresses that depend on the DPU. *)
Definition two_blocks (d j : Z) : option (Z * Z) :=
  if j =? 0 then Some (4096 * (d + 1), 8) else if j =? 1 then Some (4096 * (d + 1) + 64, 16) else None.
Definition sg_args (block : Z -> Z -> option (Z * Z)) : sg_xfer_callback_args := mk_sg_args block DPU_XFER_TO_DPU MRAM_MASK 24 0.

Lemma two_dpus_wf r : counted (two_dpus r) /\ matrix_wf (two_dpus r) dpu_transfer_matrix_clear_all.
Proof.
  change (two_dpus r) with (sample_rank 1 2). split.
  - split; [split; try by_eval| |].
    + intros s d Hs Hd. revert s Hs d Hd. by_eval.
    + intros s Hs. revert s Hs. unfold fits. by_eval.
    + intros s Hs _. revert s Hs. by_eval.
  - split; try by_eval. intros s d Hs Hd. revert s Hs d Hd. by_eval.
Qed.
Lemma idle_state_ok : Forall (idle 65) (pool idle_state).
Proof. apply list_relations.list.Forall_replicate. split; [split; by_eval|by_eval]. Qed.
Lemma two_blocks_lengths d j a l : get_block (sg_args two_blocks) d j = Some (a, l) -> 0 <= l < 2 ^ 32 - 8.
Proof. cbn. unfold two_blocks. destruct (j =? 0); [intros [= _ <-]; lia|]. destruct (j =? 1); [intros [= _ <-]; lia|done]. Qed.

Lemma sg_blocks_gathered_witness : exists s1, copies DPU_XFER_TO_DPU s1 = None /\
  filled (sg_args two_blocks) 11 (pool s1).[index_of two_dpus (0%nat, 1)].
Proof.
  destruct (sg_xfer_rank_handler (sg_args two_blocks) two_dpus copies 65 0%nat 10 true idle_state) as [s' res] eqn:Hrun.
  assert (res = Ok (Some tt)) as -> by (vm_compute in Hrun; congruence).
  destruct (sg_blocks_gathered (sg_args two_blocks) two_dpus copies 0%nat 65 10 idle_state s' two_blocks_lengths
    (proj1 (two_dpus_wf 0%nat)) (proj2 (two_dpus_wf 0%nat)) ltac:(lia) ltac:(reflexivity) idle_state_ok Hrun) as (s1 & Hc & Hall).
  exists s1. split; [exact Hc|]. exact (proj1 (Hall 1%nat (0%nat, 1) ltac:(vm_compute; reflexivity))).
Defined.

Lemma sg_handler_ends_witness : snd (sg_xfer_rank_handler (sg_args (fun _ _ => Some (4096, 0))) two_dpus copies 65 0%nat 10 true idle_state) <> Ok None /\
  (65 > 0)%nat.
Proof.
  split; [|lia]. apply (sg_handler_ends (sg_args (fun _ _ => Some (4096, 0))) two_dpus copies 0%nat 65 10 true idle_state).
  - cbn. intros d j a l [= _ <-]. lia.
  - exact (proj1 (two_dpus_wf 0%nat)).
  - exact (proj2 (two_dpus_wf 0%nat)).
  - lia.
  - reflexivity.
  - exact idle_state_ok.
Defined.

(** A transfer that fails leaves its blocks in the pool, and its arguments are
    not freed; the next one of the same rank succeeds, and sends them again. *)
Definition half_blocks (d j : Z) : option (Z * Z) := if (j =? 0) && (d =? 10) then Some (1000, 24) else None.
Definition one_block (d j : Z) : option (Z * Z) := if j =? 0 then Some (4096 * (d + 1), 24) else None.
Definition after_failure : sg_state :=
  fst (sg_xfer_rank_handler (sg_args half_blocks) two_dpus copies 65 0%nat 10 true idle_state).
(** The copy looks at the buffer of the first DPU. *)
Definition checks_stale (_ : dpu_xfer_t) (s : sg_state) : option dpu_error_t :=
  if bool_decide (contents (pool s).[0] = [(1000, 24); (4096 * 11, 24)]) then None else Some DPU_ERR_INTERNAL.
Lemma failed_transfer_leaves_blocks :
  snd (sg_xfer_rank_handler (sg_args half_blocks) two_dpus copies 65 0%nat 10 true idle_state) = Err DPU_ERR_SG_LENGTH_MISMATCH /\
  freeing_refcpt after_failure = 1 /\ args_freed after_failure = false /\
  snd (sg_xfer_rank_handler (sg_args one_block) two_dpus checks_stale 65 0%nat 10 true after_failure) = Ok (Some tt).
Proof. vm_compute. done. Qed.

(** The size of the symbol is not looked at. *)
Lemma sg_symbol_size_ignored block :
  CHECK_SYMBOL (mk_symbol MRAM_MASK 8) 0 64 = Some DPU_ERR_INVALID_SYMBOL_ACCESS /\
  dpu_push_sg_xfer_symbol (DPU_SET_RANKS [0%nat]) DPU_XFER_TO_DPU (mk_symbol MRAM_MASK 8) 0 64 block 0 =
    Ok (mk_sg_args block DPU_XFER_TO_DPU MRAM_MASK 64 0, 1, false).
Proof. split; reflexivity. Qed.

(** With the check disabled, more bytes than the length are accepted too. *)
Definition lax_args : sg_xfer_callback_args := mk_sg_args two_blocks DPU_XFER_TO_DPU MRAM_MASK 8 DPU_SG_XFER_DISABLE_LENGTH_CHECK.
Lemma disabled_check_accepts_more :
  snd (sg_xfer_rank_handler lax_args two_dpus copies 65 0%nat 10 true idle_state) = Ok (Some tt) /\
  total_length (user_blocks (get_block lax_args 10) 0 2) = 24.
Proof. vm_compute. done. Qed.
