(* ===== verification/Interleave.v ===== *)
(** * Interleavings of threads

    Traces whose steps are tagged with the thread that makes them, shared by the
    programs of the DPUs (PidKernel.v) and by the threads of the host
    (PidMachine.v). *)

From S2P Require Import Prelude.

#[local] Open Scope Z_scope.
#[local] Open Scope dpu_scope.

(** The steps of one thread, in order. *)
Definition own {X} (k : Z) (tr : list (Z * X)) : list X := map snd (filter (fun e : Z * X => e.1 = k) tr).

(** The threads are numbered from 0, and each makes all its steps. *)
Definition interleaves {X} (tr : list (Z * X)) (threads : list (list X)) : Prop :=
  Forall (fun e : Z * X => 0 <= e.1 < lenz threads) tr /\ forall k, 0 <= k < lenz threads -> own k tr = threads.[k].

Section Own.
Context {X : Type}.
Implicit Types (tr : list (Z * X)) (a : X).

Lemma own_app k tr1 tr2 : own k (tr1 ++ tr2) = own k tr1 ++ own k tr2.
Proof. unfold own. by rewrite list_basics.list.filter_app, map_app. Qed.
Lemma own_cons_eq k a tr : own k ((k, a) :: tr) = a :: own k tr.
Proof. unfold own. by rewrite filter_cons_True. Qed.
Lemma own_cons_ne k k' a tr : k' <> k -> own k ((k', a) :: tr) = own k tr.
Proof. intros H. unfold own. by rewrite filter_cons_False. Qed.

(** A part of the steps of a thread comes from a part of the trace. *)
Lemma own_split k tr l1 a l2 : own k tr = l1 ++ a :: l2 ->
  exists p1 p2, tr = p1 ++ (k, a) :: p2 /\ own k p1 = l1 /\ own k p2 = l2.
Proof.
  revert l1. induction tr as [|[k' a'] tr IH]; intros l1 H; [by destruct l1|].
  destruct (decide (k' = k)) as [->|Hne].
  - rewrite own_cons_eq in H. destruct l1 as [|x l1].
    + injection H as -> <-. by exists [], tr.
    + injection H as -> H. destruct (IH l1 H) as (p1 & p2 & -> & <- & <-). exists ((k, x) :: p1), p2.
      by rewrite own_cons_eq.
  - rewrite own_cons_ne in H by done. destruct (IH l1 H) as (p1 & p2 & -> & <- & <-). exists ((k', a') :: p1), p2.
    by rewrite own_cons_ne.
Qed.

Lemma elem_of_own k a tr : a ∈ own k tr <-> (k, a) ∈ tr.
Proof.
  induction tr as [|[k' a'] tr IH]; [by rewrite !elem_of_nil|]. destruct (decide (k' = k)) as [->|Hne].
  - rewrite own_cons_eq, !elem_of_cons, IH. split; [intros [->|]; auto|intros [[= ->]|]; auto].
  - rewrite own_cons_ne, elem_of_cons, IH by done. split; [auto|intros [[= <- _]|]; done].
Qed.

(** One thread after the other. *)
Lemma own_tagged k k' (l : list X) : own k (map (pair k') l) = if bool_decide (k' = k) then l else [].
Proof.
  case_bool_decide as Hk.
  - subst k'. induction l as [|a l IH]; [done|]. cbn [map]. by rewrite own_cons_eq, IH.
  - induction l as [|a l IH]; [done|]. cbn [map]. by rewrite own_cons_ne.
Qed.

Lemma own_sequence k (threads : list (list X)) i : 0 <= i ->
  own k (concat (map (fun t => map (pair t.1) t.2) (zip (seqZ i (lenz threads)) threads))) =
  if bool_decide (i <= k < i + lenz threads) then threads.[k - i] else [].
Proof.
  revert i. induction threads as [|th threads IH]; intros i Hi.
  { cbn. rewrite bool_decide_eq_false_2; [done|unfold lenz; cbn; lia]. }
  assert (lenz (th :: threads) = lenz threads + 1) as Hl by (unfold lenz; cbn [length]; lia).
  assert (0 <= lenz threads) as Hp by (unfold lenz; lia).
  rewrite Hl. rewrite seqZ_cons by lia. replace (Z.pred (lenz threads + 1)) with (lenz threads) by lia.
  change (zip (i :: seqZ (Z.succ i) (lenz threads)) (th :: threads)) with ((i, th) :: zip (seqZ (Z.succ i) (lenz threads)) threads).
  cbn [map concat fst snd]. rewrite own_app, own_tagged, IH by lia. destruct (decide (i = k)) as [->|Hne].
  - rewrite (bool_decide_eq_true_2 (k = k)), (bool_decide_eq_false_2 (Z.succ k <= _ < _)), (bool_decide_eq_true_2 (k <= k < _)) by lia.
    rewrite app_nil_r, Z.sub_diag. done.
  - rewrite (bool_decide_eq_false_2 (i = k)) by done. cbn [app].
    destruct (decide (i <= k < i + (lenz threads + 1))) as [Hin|Hout].
    + rewrite !bool_decide_eq_true_2 by lia. unfold getz.
      replace (Z.to_nat (k - i)) with (S (Z.to_nat (k - Z.succ i))) by lia. done.
    + by rewrite !bool_decide_eq_false_2 by lia.
Qed.

Lemma interleaves_exists (threads : list (list X)) : exists tr, interleaves tr threads.
Proof.
  exists (concat (map (fun t => map (pair t.1) t.2) (zip (seqZ 0 (lenz threads)) threads))). split.
  - apply Forall_concat, Forall_map, Forall_forall. intros [i th] Hin%list_elem_of_In%elem_of_zip_l.
    apply elem_of_seqZ in Hin. apply Forall_map, Forall_true. intros a. cbn. lia.
  - intros k Hk. rewrite own_sequence by lia. rewrite bool_decide_eq_true_2 by lia. by rewrite Z.sub_0_r.
Qed.

(** Collecting what each thread gives: a change in one thread. *)
Lemma concat_one {Y} (f g : Z -> list Y) (ks : list Z) k c : NoDup ks -> k ∈ ks -> f k = c :: g k -> (forall j, j <> k -> f j = g j) ->
  Permutation (concat (map f ks)) (c :: concat (map g ks)).
Proof.
  intros Hnd Hin Hk Hj. induction Hnd as [|j ks Hnew Hnd IH]; [by apply not_elem_of_nil in Hin|]. cbn [map concat].
  apply elem_of_cons in Hin as [<-|Hin].
  - assert (map f ks = map g ks) as ->; [|by rewrite Hk].
    apply map_ext_in. intros j' Hj'%list_elem_of_In. apply Hj. by intros ->.
  - rewrite IH by done. rewrite (Hj j) by (intros ->; done). symmetry. apply Permutation_middle.
Qed.
End Own.

Lemma concat_concat {X} (l : list (list (list X))) : concat (concat l) = concat (map (@concat X) l).
Proof. induction l as [|x l IH]; [done|]. cbn [concat map]. by rewrite concat_app, IH. Qed.
