(* ===== verification/PidComm.v ===== *)
(** * Copies between rotate groups

    Model of [xeon_sp_trans_all_to_all_rg] of
    [src/hw/src/mappings/xeon_sp/pid_comm.c]. A rotate group is the eight DPUs
    of a rank that share a line, one of each interface: a word of each of them is
    a cache line of the region of the rank, the byte j of interface i at 8j + i.
    Rotating the 64-bit lanes of a line by eight bits gives the word of every
    DPU to the next interface.

    The addresses that the function copies from and to do not depend on what is
    copied, so the function is the list of its copies of lines and the memory is
    changed by running them. The flushes and the fences do not change the
    contents of the memory and are left out. A region is named by its number. *)

From stdpp Require Import relations functions.
From S2P Require Import Prelude XeonInterleave XeonSg XeonBank.

#[local] Open Scope Z_scope.
#[local] Open Scope dpu_scope.

(** ** The rotation of the 64-bit lanes *)

Definition rotl64 (x n : Z) : Z := u64 (Z.shiftl x n) ||| Z.shiftr x (64 - n).

Class Rotations := { mm512_rol_epi64 : list Z -> Z -> list Z }.
(** The count is taken modulo 64. *)
Class RotationsSpec (R : Rotations) : Prop := {
  rol_epi64_spec a n : vec512 a -> Forall (fits 8) a -> 0 <= n ->
    mm512_rol_epi64 a n = concat (map (fun k => le_bytes 8 (rotl64 (le_word (word_of a k)) (n mod 64))) (seqZ 0 8));
}.

(** ** Addresses *)

Definition BANK_OFFSET_NEXT_DATA_a2a (i : Z) : Z := u32 (i * 16).
Definition BANK_CHUNK_SIZE_a2a := 0x20000.
Definition BANK_NEXT_CHUNK_OFFSET_a2a := 0x100000.

Definition apply_address_translation_on_mram_offset_a2a (byte_offset : Z) : Z :=
  let mask_21_to_15 := shl32 (Z.shiftl 1 (21 - 15 + 1) - 1) 15 in
  let mask_21_to_14 := shl32 (Z.shiftl 1 (21 - 14 + 1) - 1) 14 in
  let bits_21_to_15 := Z.shiftr (byte_offset &&& mask_21_to_15) 15 in
  let bit_14 := Z.shiftr byte_offset 14 &&& 1 in
  let unchanged_bits := byte_offset &&& not32 mask_21_to_14 in
  unchanged_bits ||| shl32 bits_21_to_15 14 ||| shl32 bit_14 21.

(** [mram_src_offset_1mb_wise] and [mram_dst_offset_1mb_wise]. *)
Definition offset_1mb_wise (mram_offset : Z) : Z :=
  let mram_64_bit_word_offset := apply_address_translation_on_mram_offset_a2a mram_offset in
  let next_data := BANK_OFFSET_NEXT_DATA_a2a mram_64_bit_word_offset in
  next_data mod BANK_CHUNK_SIZE_a2a + next_data / BANK_CHUNK_SIZE_a2a * BANK_NEXT_CHUNK_OFFSET_a2a.

Definition rotate_group_offset_256_64 (rg_id : Z) : Z := rg_id mod 4 * (256 * 1024) + rg_id / 4 * 64.

(** ** The copies of lines *)

Inductive rns := Rotate (rotate_bit : Z) | Straight.
Record copy := mk_copy { c_from : Z * Z; c_rns : rns; c_to : Z * Z }.
Definition regions := Z -> memory.

Section Copies.
Context `{R : Rotations}.

Definition rns_line (k : rns) (reg1 : list Z) : list Z :=
  match k with Rotate rotate_bit => mm512_rol_epi64 reg1 rotate_bit | Straight => reg1 end.
Definition copied_line (c : copy) (m : regions) : list Z :=
  rns_line (c_rns c) (load_bytes (m (fst (c_from c))) (snd (c_from c)) 64).
Definition run_copy (m : regions) (c : copy) : regions := fun r =>
  if r =? fst (c_to c) then store_bytes (snd (c_to c)) (copied_line c m) (m r) else m r.
Definition run_copies (cs : list copy) (m : regions) : regions := foldl run_copy m cs.
End Copies.

(** [RNS_COPY_a2a] and [S_COPY_a2a], with one line for [iter]. *)
Definition RNS_COPY_a2a (rotate_bit : Z) (src dst : Z * Z) : copy := mk_copy src (Rotate rotate_bit) dst.
Definition S_COPY_a2a (src dst : Z * Z) : copy := mk_copy src Straight dst.
Definition src_off_gran := 128.

(** [src_mram_offset], [dst_mram_offset] and the copies made so far. *)
Definition a2a_state := (Z * Z * list copy)%type.

Section Group.
Variables (base_region_addr_src base_region_addr_dst src_rg_id dst_rg_id : Z).

(** The turns of the loops over the blocks of 64 bytes and over the words that remain. *)
Definition copy_block (line : Z * Z -> Z * Z -> copy) (s : a2a_state) : a2a_state :=
  let '(src_mram_offset, dst_mram_offset, copies) := s in
  let src_rank_addr_iter := offset_1mb_wise src_mram_offset + rotate_group_offset_256_64 src_rg_id in
  let dst_rank_addr_iter := offset_1mb_wise dst_mram_offset + rotate_group_offset_256_64 dst_rg_id in
  (u32 (src_mram_offset + 64), u32 (dst_mram_offset + 64),
   copies ++ map (fun iter_8 => line (base_region_addr_src, src_rank_addr_iter + src_off_gran * iter_8)
                                     (base_region_addr_dst, dst_rank_addr_iter + src_off_gran * iter_8)) (seqZ 0 8)).
Definition copy_word (line : Z * Z -> Z * Z -> copy) (s : a2a_state) : a2a_state :=
  let '(src_mram_offset, dst_mram_offset, copies) := s in
  let src_rank_addr_iter := offset_1mb_wise src_mram_offset + rotate_group_offset_256_64 src_rg_id in
  let dst_rank_addr_iter := offset_1mb_wise dst_mram_offset + rotate_group_offset_256_64 dst_rg_id in
  (u32 (src_mram_offset + 8), u32 (dst_mram_offset + 8),
   copies ++ [line (base_region_addr_src, src_rank_addr_iter) (base_region_addr_dst, dst_rank_addr_iter)]).

Definition a2a_pass (line : Z * Z -> Z * Z -> copy) (iter_length remain_length : Z) (s : a2a_state) : a2a_state :=
  for_up remain_length (fun _ => copy_word line) (for_up iter_length (fun _ => copy_block line) s).

Definition xeon_sp_trans_all_to_all_rg (src_start_offset dst_start_offset byte_length alltoall_comm_type
    communication_buffer_offset : Z) : list copy :=
  let src_mram_offset := u32 (src_start_offset + 1024 * 1024) in
  let dst_mram_offset := u32 (dst_start_offset + 1024 * 1024 + communication_buffer_offset) in
  let aligned := (src_start_offset mod 64 =? 0) && (dst_start_offset mod 64 =? 0) in
  let iter_length := if aligned then byte_length / 64 else 0 in
  let remain_length := if aligned then (byte_length mod 64 + 7) / 8 else byte_length / 8 in
  let s := (src_mram_offset, dst_mram_offset, []) in
  snd (if alltoall_comm_type =? 0
       then for_up 8 (fun rns_chip_id => a2a_pass (RNS_COPY_a2a (8 * rns_chip_id)) iter_length remain_length) s
       else a2a_pass S_COPY_a2a iter_length remain_length s).
End Group.

(** ** Rotating a line *)

Lemma le_word_app l1 l2 : le_word (l1 ++ l2) = le_word l1 + 2 ^ (8 * lenz l1) * le_word l2.
Proof.
  induction l1 as [|b l1 IH]; [cbn [app le_word lenz length]; change (2 ^ (8 * lenz [])) with 1; lia|]. cbn [app le_word]. rewrite IH. unfold lenz. cbn [length].
  replace (8 * Z.of_nat (S (length l1))) with (8 + 8 * Z.of_nat (length l1)) by lia. rewrite Z.pow_add_r by lia. lia.
Qed.

Lemma rotl64_word l1 l2 : Forall (fits 8) (l1 ++ l2) -> length (l1 ++ l2) = 8%nat ->
  rotl64 (le_word (l1 ++ l2)) (8 * lenz l2) = le_word (l2 ++ l1).
Proof.
  intros Hf Hl. rewrite length_app in Hl. apply list_relations.list.Forall_app in Hf as [H1 H2].
  apply le_word_fits in H1, H2. rewrite !le_word_app. unfold rotl64.
  assert (64 - 8 * lenz l2 = 8 * lenz l1) as -> by (unfold lenz; lia).
  assert (0 <= lenz l1 /\ 0 <= lenz l2 /\ lenz l1 + lenz l2 = 8) as Hlen by (unfold lenz; lia).
  clear Hl. set (a := 8 * lenz l1) in *. set (b := 8 * lenz l2) in *.
  assert (0 < 2 ^ a /\ 0 < 2 ^ b) as [Ha Hb] by (split; apply Z.pow_pos_nonneg; unfold a, b; lia).
  assert (2 ^ 64 = 2 ^ b * 2 ^ a) as H64 by (rewrite <- Z.pow_add_r by (unfold a, b; lia); f_equal; unfold a, b; lia).
  unfold fits in *. set (x := le_word l1) in *. set (y := le_word l2) in *.
  rewrite Z.shiftr_div_pow2 by (unfold a; lia).
  replace ((x + 2 ^ a * y) / 2 ^ a) with y by (rewrite (Z.mul_comm _ y), Z.div_add by lia; rewrite (Z.div_small x); lia).
  assert (u64 (Z.shiftl (x + 2 ^ a * y) b) = Z.shiftl x b) as ->.
  { rewrite !Z.shiftl_mul_pow2 by (unfold b; lia). unfold u64.
    replace ((x + 2 ^ a * y) * 2 ^ b) with (x * 2 ^ b + y * 2 ^ 64) by (rewrite H64; ring).
    rewrite Z.mod_add by done. apply Z.mod_small. rewrite H64. nia. }
  rewrite Z.lor_comm, lor_shiftl_add by (unfold fits, b; lia || done). lia.
Qed.

Lemma rotl64_bytes bs k : Forall (fits 8) bs -> length bs = 8%nat -> 0 <= k < 8 ->
  le_bytes 8 (rotl64 (le_word bs) (8 * k)) = map (fun p => bs.[(p - k) mod 8]) (seqZ 0 8).
Proof.
  intros Hf Hl Hk. set (n := Z.to_nat (8 - k)).
  assert (lenz (take n bs) = 8 - k) as H1 by (unfold lenz; rewrite length_take; unfold n; lia).
  assert (lenz (drop n bs) = k) as H2 by (unfold lenz; rewrite length_drop; unfold n; lia).
  pose proof (rotl64_word (take n bs) (drop n bs)) as Hw. rewrite (take_drop n bs), H2 in Hw. rewrite Hw by done.
  assert (length (drop n bs ++ take n bs) = 8%nat) as Hlen by (rewrite length_app, length_drop, length_take; lia).
  rewrite <- Hlen at 1. rewrite le_bytes_word.
  2:{ apply list_relations.list.Forall_app. split; [by apply Forall_drop|by apply Forall_take]. }
  apply list_eq_lenz. { rewrite lenz_map_seqZ by lia. unfold lenz. rewrite Hlen. done. }
  intros i Hi. assert (0 <= i < 8) as Hi8 by (unfold lenz in Hi; rewrite Hlen in Hi; lia).
  rewrite lookup_map_seqZ by lia. destruct (Z_lt_le_dec i k).
  - rewrite getz_app_l by lia. replace ((i - k) mod 8) with (i - k + 8) by (Z.div_mod_to_equations; lia).
    unfold getz. rewrite lookup_total_drop. f_equal. unfold n. lia.
  - rewrite getz_app_r by lia. rewrite H2, (Z.mod_small (i - k)) by lia. unfold getz. rewrite lookup_total_take_lt by (unfold n; lia). done.
Qed.

Lemma word_of_fits line k : Forall (fits 8) line -> length (word_of line k) = 8%nat /\ (0 <= k < 8 -> vec512 line ->
  Forall (fits 8) (word_of line k)).
Proof.
  intros Hf. split; [done|]. intros Hk Hl. apply Forall_map, Forall_forall. intros j Hj%list_elem_of_In%elem_of_seqZ.
  unfold getz. rewrite list_relations.list.Forall_forall in Hf. apply Hf.
  destruct (lookup_lt_is_Some_2 line (Z.to_nat (8 * k + j))) as [x Hx]; [unfold vec512 in Hl; lia|].
  rewrite (list_lookup_total_correct _ _ _ Hx). by eapply list_elem_of_lookup_2.
Qed.

(** A rotation by 8k bits gives byte q of each lane to its byte q + k. *)
Lemma rol_line `{R : Rotations} `{!RotationsSpec R} line k p q : vec512 line -> Forall (fits 8) line ->
  0 <= k < 8 -> 0 <= p < 8 -> 0 <= q < 8 ->
  (mm512_rol_epi64 line (8 * k)).[8 * p + q] = line.[8 * p + (q - k) mod 8].
Proof.
  intros Hl Hf Hk Hp Hq. rewrite rol_epi64_spec by (done || lia). rewrite (Z.mod_small (8 * k)) by lia.
  rewrite getz_words; [|apply Forall_map, Forall_forall; intros; apply length_le_bytes|rewrite lenz_map_seqZ; lia|done].
  rewrite lookup_map_seqZ by done.
  rewrite rotl64_bytes; [|by apply word_of_fits|done|done].
  rewrite lookup_map_seqZ by done. unfold word_of. rewrite lookup_map_seqZ; [done|].
  pose proof (Z.mod_pos_bound (q - k) 8). lia.
Qed.

Lemma length_rol `{R : Rotations} `{!RotationsSpec R} line k : vec512 line -> Forall (fits 8) line -> 0 <= k ->
  lenz (mm512_rol_epi64 line (8 * k)) = 64.
Proof.
  intros Hl Hf Hk. rewrite rol_epi64_spec by (done || lia). unfold lenz.
  rewrite (length_words _) by (apply Forall_map, Forall_forall; intros; apply length_le_bytes). done.
Qed.

(** ** The addresses of the lines *)

(** The line of the word of the rotate group [rg_id] at the offset [a] of the MRAMs. *)
Definition group_line (rg_id a : Z) : Z := BANK_START rg_id + mram_line a.

Lemma rotate_group_offset_start rg_id : 0 <= rg_id < 8 -> rotate_group_offset_256_64 rg_id = BANK_START rg_id.
Proof.
  intros Hr. unfold rotate_group_offset_256_64, BANK_START.
  destruct (Z.leb_spec 4 rg_id); Z.div_mod_to_equations; lia.
Qed.

Lemma offset_1mb_wise_line a : fits 26 a -> a mod 8 = 0 -> offset_1mb_wise a = mram_line a.
Proof.
  intros Hf Ha. unfold offset_1mb_wise, mram_line, BANK_OFFSET_NEXT_DATA_a2a.
  change (apply_address_translation_on_mram_offset_a2a a) with (translate a).
  pose proof (translate_low a (fits_nonneg _ _ Hf)) as Hlow. change (2 ^ 3) with 8 in Hlow.
  pose proof (translate_fits a Hf) as Ht. rewrite u32_id by (unfold fits in *; lia).
  replace (translate a * 16) with (translate a / 8 * 128) by (Z.div_mod_to_equations; lia). done.
Qed.

Lemma translate_aligned a : 0 <= a -> a mod 64 = 0 -> translate a mod 64 = 0.
Proof.
  intros H0 Ha. change 64 with (2 ^ 6). apply Z.bits_inj'. intros i Hi. rewrite Z.bits_0. destruct (Z_lt_le_dec i 6).
  - rewrite Z.mod_pow2_bits_low, translate_bits by lia. rewrite (proj2 (Z.ltb_lt i 14)) by lia.
    rewrite <- (Z.mod_pow2_bits_low a 6 i) by lia. change (2 ^ 6) with 64. by rewrite Ha, Z.bits_0.
  - by apply Z.mod_pow2_bits_high.
Qed.

Lemma translate_block a b : fits 26 a -> a mod 64 = 0 -> 0 <= b < 64 -> translate (a + b) = translate a + b.
Proof.
  intros Hf Ha Hb. pose proof (fits_nonneg _ _ Hf) as Ha0.
  assert (forall x, x mod 64 = 0 -> x + b = Z.lor b (Z.shiftl (x / 64) 6)) as Hlor.
  { intros x Hx. rewrite lor_shiftl_add by (unfold fits; lia || done). Z.div_mod_to_equations. lia. }
  pose proof (translate_aligned a Ha0 Ha) as Hta.
  rewrite (Hlor (translate a) Hta). apply Z.bits_inj'. intros i Hi.
  rewrite translate_bits by lia. rewrite (Hlor a Ha).
  assert (forall j, Z.testbit (a / 64) (j - 6) = (6 <=? j) && Z.testbit a j) as Hdiv.
  { intros j. destruct (Z.leb_spec 6 j); [|by rewrite Z.testbit_neg_r by lia].
    change 64 with (2 ^ 6). rewrite Z.div_pow2_bits by lia. by replace (j - 6 + 6) with j by lia. }
  assert (forall j, 0 <= j -> Z.testbit (translate a / 64) (j - 6) = (6 <=? j) && Z.testbit (translate a) j) as Hdivt.
  { intros j Hj. destruct (Z.leb_spec 6 j); [|by rewrite Z.testbit_neg_r by lia].
    change 64 with (2 ^ 6). rewrite Z.div_pow2_bits by lia. by replace (j - 6 + 6) with j by lia. }
  assert (forall j, 6 <= j -> Z.testbit b j = false) as Hhigh.
  { intros j Hj. apply (proj1 (fits_testbit 6 b ltac:(lia) ltac:(lia))); [unfold fits; lia|done]. }
  rewrite !Z.lor_spec, !testbit_shiftl by lia. rewrite !Hdiv, Hdivt by lia. rewrite (translate_bits a i) by lia.
  destruct (Z.ltb_spec i 14).
  { destruct (Z.leb_spec 6 i); [rewrite Hhigh by lia; done|]. by rewrite !andb_false_l, !orb_false_r. }
  rewrite (Hhigh i), (Hhigh (i + 1)), (Hhigh 14) by lia. rewrite !orb_false_l.
  rewrite (proj2 (Z.leb_le 6 (i + 1))), (proj2 (Z.leb_le 6 i)) by lia. change (6 <=? 14) with true. rewrite !andb_true_l. done.
Qed.

(** A block of 64 bytes that is aligned is eight lines, 128 bytes apart. *)
Lemma mram_line_block a j : fits 26 a -> a mod 64 = 0 -> 0 <= j < 8 -> mram_line (a + 8 * j) = mram_line a + 128 * j.
Proof.
  intros Hf Ha Hj. unfold mram_line. rewrite translate_block by (done || lia). cbv zeta.
  pose proof (translate_aligned a (fits_nonneg _ _ Hf) Ha) as Hta.
  generalize dependent (translate a). intros t Ht. assert (exists q, t = 64 * q) as [q ->] by (exists (t / 64); Z.div_mod_to_equations; lia).
  unfold BANK_CHUNK_SIZE, BANK_NEXT_CHUNK_OFFSET.
  replace ((64 * q + 8 * j) / 8) with (8 * q + j) by (Z.div_mod_to_equations; lia).
  replace (64 * q / 8) with (8 * q) by (Z.div_mod_to_equations; lia).
  assert (exists h l, q = 128 * h + l /\ 0 <= l < 128) as (h & l & -> & Hl) by (exists (q / 128), (q mod 128); Z.div_mod_to_equations; lia).
  replace ((8 * (128 * h + l) + j) * 128) with ((8 * l + j) * 128 + h * 131072) by ring.
  replace (8 * (128 * h + l) * 128) with (8 * l * 128 + h * 131072) by ring.
  change 0x20000 with 131072. rewrite !Z.mod_add, !Z.div_add by done. rewrite !Z.mod_small, !Z.div_small by lia. lia.
Qed.

(** ** The copies of a group, one per word *)

(** What the offsets and the lengths have to be: [n] is the number of passes.
    The blocks of 64 bytes are only used when the two starts are multiples of
    64, and then the rest has to be as well. *)
Record a2a_range (src_start_offset dst_start_offset byte_length communication_buffer_offset n : Z) : Prop := {
  ar_src : 0 <= src_start_offset;
  ar_dst : 0 <= dst_start_offset;
  ar_length : 0 <= byte_length;
  ar_buffer : 0 <= communication_buffer_offset;
  ar_passes : 0 <= n;
  ar_src_end : src_start_offset + 1024 * 1024 + n * byte_length <= 2 ^ 26;
  ar_dst_end : dst_start_offset + 1024 * 1024 + communication_buffer_offset + n * byte_length <= 2 ^ 26;
  ar_words : src_start_offset mod 8 = 0 /\ dst_start_offset mod 8 = 0 /\ byte_length mod 8 = 0 /\
    communication_buffer_offset mod 8 = 0;
  ar_blocks : src_start_offset mod 64 = 0 -> dst_start_offset mod 64 = 0 ->
    byte_length mod 64 = 0 /\ communication_buffer_offset mod 64 = 0;
}.

Section Closed.
Variables (bs bd src_rg dst_rg : Z).
Hypothesis Hsrc : 0 <= src_rg < 8.
Hypothesis Hdst : 0 <= dst_rg < 8.
(** The offsets at the start. *)
Variables (src0 dst0 : Z).
Hypothesis Hsrc0 : 0 <= src0 /\ src0 mod 8 = 0.
Hypothesis Hdst0 : 0 <= dst0 /\ dst0 mod 8 = 0.

Definition word_copy (line : Z * Z -> Z * Z -> copy) (w : Z) : copy :=
  line (bs, group_line src_rg (src0 + 8 * w)) (bd, group_line dst_rg (dst0 + 8 * w)).

Lemma copy_word_at line j l : 0 <= j -> src0 + 8 * (j + 1) <= 2 ^ 26 -> dst0 + 8 * (j + 1) <= 2 ^ 26 ->
  copy_word bs bd src_rg dst_rg line (src0 + 8 * j, dst0 + 8 * j, l) =
  (src0 + 8 * (j + 1), dst0 + 8 * (j + 1), l ++ [word_copy line j]).
Proof using All.
  intros Hj Hs Hd. unfold copy_word, word_copy, group_line.
  rewrite !offset_1mb_wise_line by (unfold fits; Z.div_mod_to_equations; lia).
  rewrite !rotate_group_offset_start by done. rewrite !u32_id by (unfold fits; lia).
  rewrite !(Z.add_comm (mram_line _)). f_equal. f_equal; lia.
Qed.

Lemma copy_block_at line j l : 0 <= j -> src0 + 8 * (j + 8) <= 2 ^ 26 -> dst0 + 8 * (j + 8) <= 2 ^ 26 ->
  (src0 + 8 * j) mod 64 = 0 -> (dst0 + 8 * j) mod 64 = 0 ->
  copy_block bs bd src_rg dst_rg line (src0 + 8 * j, dst0 + 8 * j, l) =
  (src0 + 8 * (j + 8), dst0 + 8 * (j + 8), l ++ map (word_copy line) (seqZ j 8)).
Proof using All.
  intros Hj Hs Hd Hsa Hda. unfold copy_block.
  rewrite !offset_1mb_wise_line by (unfold fits; Z.div_mod_to_equations; lia).
  rewrite !rotate_group_offset_start by done. rewrite !u32_id by (unfold fits; lia).
  f_equal; [f_equal; lia|]. f_equal.
  replace (seqZ j 8) with (map (Z.add j) (seqZ 0 8)) by (rewrite <- (Z.add_0_r j) at 2; apply (fmap_add_seqZ j 0 8)).
  rewrite map_map. apply map_ext_in. intros i Hi%list_elem_of_In%elem_of_seqZ.
  unfold word_copy, group_line, src_off_gran. replace (src0 + 8 * (j + i)) with (src0 + 8 * j + 8 * i) by lia.
  replace (dst0 + 8 * (j + i)) with (dst0 + 8 * j + 8 * i) by lia.
  rewrite (mram_line_block (src0 + 8 * j) i), (mram_line_block (dst0 + 8 * j) i) by (done || (unfold fits; lia) || lia).
  f_equal; f_equal; lia.
Qed.

Lemma pass_at line iter_length remain_length j l : 0 <= j -> 0 <= iter_length -> 0 <= remain_length ->
  src0 + 8 * (j + (8 * iter_length + remain_length)) <= 2 ^ 26 ->
  dst0 + 8 * (j + (8 * iter_length + remain_length)) <= 2 ^ 26 ->
  (0 < iter_length -> (src0 + 8 * j) mod 64 = 0 /\ (dst0 + 8 * j) mod 64 = 0) ->
  a2a_pass bs bd src_rg dst_rg line iter_length remain_length (src0 + 8 * j, dst0 + 8 * j, l) =
  (src0 + 8 * (j + (8 * iter_length + remain_length)), dst0 + 8 * (j + (8 * iter_length + remain_length)),
   l ++ map (word_copy line) (seqZ j (8 * iter_length + remain_length))).
Proof using All.
  intros Hj Hi Hr Hs Hd Hal. unfold a2a_pass.
  assert (for_up iter_length (fun _ => copy_block bs bd src_rg dst_rg line) (src0 + 8 * j, dst0 + 8 * j, l) =
    (src0 + 8 * (j + 8 * iter_length), dst0 + 8 * (j + 8 * iter_length), l ++ map (word_copy line) (seqZ j (8 * iter_length)))) as ->.
  { apply (for_up_ind (fun i s => s = (src0 + 8 * (j + 8 * i), dst0 + 8 * (j + 8 * i), l ++ map (word_copy line) (seqZ j (8 * i))))); [lia| |].
    - rewrite Z.mul_0_r, Z.add_0_r, seqZ_nil by lia. cbn [map]. by rewrite app_nil_r.
    - intros i s Hlt ->. destruct Hal as [Hsa Hda]; [lia|].
      rewrite copy_block_at by (Z.div_mod_to_equations; lia).
      replace (8 * (i + 1)) with (8 * i + 8) by lia. rewrite (seqZ_app j (8 * i) 8) by lia. rewrite map_app, app_assoc.
      by replace (j + 8 * i + 8) with (j + (8 * i + 8)) by lia. }
  apply (for_up_ind (fun i s => s = (src0 + 8 * (j + (8 * iter_length + i)), dst0 + 8 * (j + (8 * iter_length + i)),
    l ++ map (word_copy line) (seqZ j (8 * iter_length + i))))); [lia| |].
  - by rewrite Z.add_0_r.
  - intros i s Hlt ->. rewrite copy_word_at by lia.
    replace (8 * iter_length + (i + 1)) with (8 * iter_length + i + 1) by lia.
    rewrite (seqZ_app j (8 * iter_length + i) 1) by lia. rewrite map_app, app_assoc.
    by replace (j + (8 * iter_length + i) + 1) with (j + (8 * iter_length + i + 1)) by lia.
Qed.
End Closed.

(** The kind of the copies of the pass k, and the number of passes. *)
Definition pass_line (comm_type k : Z) : Z * Z -> Z * Z -> copy :=
  if comm_type =? 0 then RNS_COPY_a2a (8 * k) else S_COPY_a2a.
Definition nb_passes (comm_type : Z) : Z := if comm_type =? 0 then 8 else 1.

Definition group_copies (bs bd src_rg dst_rg src0 dst0 comm_type nb_words : Z) : list copy :=
  concat (map (fun k => map (word_copy bs bd src_rg dst_rg src0 dst0 (pass_line comm_type k)) (seqZ (k * nb_words) nb_words))
    (seqZ 0 (nb_passes comm_type))).

Lemma all_to_all_rg_copies bs bd src_rg dst_rg src dst len comm_type buf : 0 <= src_rg < 8 -> 0 <= dst_rg < 8 ->
  a2a_range src dst len buf (nb_passes comm_type) ->
  xeon_sp_trans_all_to_all_rg bs bd src_rg dst_rg src dst len comm_type buf =
  group_copies bs bd src_rg dst_rg (src + 1024 * 1024) (dst + 1024 * 1024 + buf) comm_type (len / 8).
Proof.
  intros Hs Hd [H1 H2 H3 H4 H5 H6 H7 (H8 & H9 & H10 & H11) H12].
  assert (0 <= nb_passes comm_type * len) as Hn by nia.
  unfold xeon_sp_trans_all_to_all_rg. cbv zeta. rewrite !u32_id by (unfold fits; lia).
  set (src0 := src + 1024 * 1024) in *. set (dst0 := dst + 1024 * 1024 + buf) in *.
  set (iter := if _ && _ then len / 64 else 0). set (rem := if _ && _ then (len mod 64 + 7) / 8 else len / 8).
  assert (8 * iter + rem = len / 8 /\ 0 <= iter /\ 0 <= rem /\ (0 < iter -> src0 mod 64 = 0 /\ dst0 mod 64 = 0 /\ len mod 64 = 0)) as (Hw & Hi & Hr & Hal).
  { unfold iter, rem, src0, dst0. destruct (Z.eqb_spec (src mod 64) 0), (Z.eqb_spec (dst mod 64) 0); cbn [andb];
      [destruct H12; [done|done|]|..]; Z.div_mod_to_equations; lia. }
  unfold group_copies, nb_passes, pass_line in *. destruct (comm_type =? 0).
  - enough (forall n, 0 <= n <= 8 -> for_up n (fun k => a2a_pass bs bd src_rg dst_rg (RNS_COPY_a2a (8 * k)) iter rem) (src0, dst0, []) =
      (src0 + 8 * (n * (len / 8)), dst0 + 8 * (n * (len / 8)),
       concat (map (fun k => map (word_copy bs bd src_rg dst_rg src0 dst0 (RNS_COPY_a2a (8 * k))) (seqZ (k * (len / 8)) (len / 8))) (seqZ 0 n)))) as Hall
      by (rewrite Hall by lia; done).
    intros n Hn8. apply (for_up_ind (fun n s => s = (src0 + 8 * (n * (len / 8)), dst0 + 8 * (n * (len / 8)),
       concat (map (fun k => map (word_copy bs bd src_rg dst_rg src0 dst0 (RNS_COPY_a2a (8 * k))) (seqZ (k * (len / 8)) (len / 8))) (seqZ 0 n))))); [lia| |].
    + rewrite !Z.add_0_r. done.
    + intros k s Hk ->. assert (8 * (len / 8) = len) as Hlen by (Z.div_mod_to_equations; lia).
      rewrite pass_at; [|done|done|unfold src0; Z.div_mod_to_equations; lia|unfold dst0; Z.div_mod_to_equations; lia
        |nia|done|done|rewrite Hw; unfold src0 in *; nia|rewrite Hw; unfold dst0 in *; nia|].
      2:{ intros Hlt. destruct (Hal Hlt) as (Ha & Hb & Hc). replace (8 * (k * (len / 8))) with (k * len) by lia.
          assert (len = 64 * (len / 64)) as Hl64 by (Z.div_mod_to_equations; lia). rewrite Hl64.
          replace (k * (64 * (len / 64))) with (k * (len / 64) * 64) by ring. by rewrite !Z.mod_add. }
      rewrite Hw. rewrite seqZ_app by lia. rewrite seqZ_1, map_app, concat_app. cbn [map concat]. rewrite app_nil_r, Z.add_0_l.
      replace (k * (len / 8) + len / 8) with ((k + 1) * (len / 8)) by ring. done.
  - rewrite <- (Z.add_0_r src0) at 1. rewrite <- (Z.add_0_r dst0) at 1. change 0 with (8 * 0) at 1 2.
    rewrite pass_at; [|done|done|unfold src0; Z.div_mod_to_equations; lia|unfold dst0; Z.div_mod_to_equations; lia
        |lia|done|done|rewrite Hw; unfold src0; Z.div_mod_to_equations; lia|rewrite Hw; unfold dst0; Z.div_mod_to_equations; lia|].
    2:{ intros Hlt. destruct (Hal Hlt) as (Ha & Hb & Hc). by rewrite !Z.add_0_r. }
    rewrite Hw, seqZ_1. cbn [snd app map concat]. by rewrite app_nil_r.
Qed.

(** ** Running copies *)

Definition bytes (m : regions) : Prop := forall r x, fits 8 (m r x).

Section Run.
Context `{R : Rotations} `{!RotationsSpec R}.

(** The rotations are by whole bytes, the lines are aligned. *)
Definition byte_rotation (k : rns) : Prop := match k with Rotate b => b mod 8 = 0 /\ 0 <= b < 64 | Straight => True end.
Definition copy_wf (c : copy) : Prop :=
  byte_rotation (c_rns c) /\ snd (c_from c) mod 64 = 0 /\ snd (c_to c) mod 64 = 0.

Lemma copied_line_shape c m : bytes m -> copy_wf c -> lenz (copied_line c m) = 64 /\ Forall (fits 8) (copied_line c m).
Proof using RotationsSpec0.
  intros Hm (Hk & _). unfold copied_line. set (line := load_bytes _ _ 64).
  assert (vec512 line /\ Forall (fits 8) line) as [Hl Hf].
  { split; [done|]. apply Forall_map, Forall_forall. intros i _. apply Hm. }
  destruct (c_rns c) as [b|]; [|done]. destruct Hk as [Hk Hb]. cbn [rns_line].
  replace b with (8 * (b / 8)) by (Z.div_mod_to_equations; lia).
  split; [apply length_rol; try done; Z.div_mod_to_equations; lia|].
  rewrite rol_epi64_spec by (done || Z.div_mod_to_equations; lia).
  apply Forall_concat, Forall_map, Forall_forall. intros p _. apply le_bytes_fits.
Qed.

Lemma copied_line_ext c m m' : (forall i, 0 <= i < 64 -> m (fst (c_from c)) (snd (c_from c) + i) = m' (fst (c_from c)) (snd (c_from c) + i)) ->
  copied_line c m = copied_line c m'.
Proof using Type.
  intros H. unfold copied_line. f_equal. apply map_ext_in. intros i Hi%list_elem_of_In%elem_of_seqZ. apply H. lia.
Qed.

Lemma run_copy_at m c r x : bytes m -> copy_wf c -> run_copy m c r x =
  if bool_decide ((r, x - x mod 64) = c_to c) then (copied_line c m).[x mod 64] else m r x.
Proof using RotationsSpec0.
  intros Hm Hc. destruct (copied_line_shape c m Hm Hc) as [Hlen _]. destruct Hc as (_ & _ & Hal).
  unfold run_copy. destruct (c_to c) as [d a] eqn:Hto. cbn [fst snd] in *.
  destruct (Z.eqb_spec r d) as [->|Hne].
  - unfold store_bytes. rewrite Hlen. case_bool_decide as Heq.
    + injection Heq as <-. pose proof (Z.mod_pos_bound x 64 ltac:(lia)).
      rewrite (proj2 (Z.leb_le _ _)), (proj2 (Z.ltb_lt _ _)) by lia. cbn [andb]. f_equal. lia.
    + destruct (Z.leb_spec a x), (Z.ltb_spec x (a + 64)); try done. exfalso. apply Heq. f_equal. Z.div_mod_to_equations. lia.
  - rewrite bool_decide_eq_false_2; [done|congruence].
Qed.

Lemma run_copy_bytes m c : bytes m -> copy_wf c -> bytes (run_copy m c).
Proof using RotationsSpec0.
  intros Hm Hc r x. rewrite run_copy_at by done. case_bool_decide; [|apply Hm].
  destruct (copied_line_shape c m Hm Hc) as [Hlen Hf]. rewrite list_relations.list.Forall_forall in Hf. apply Hf.
  apply list_elem_of_lookup_total_2. pose proof (Z.mod_pos_bound x 64 ltac:(lia)). unfold lenz in Hlen. lia.
Qed.

Lemma run_copies_other cs m r x : bytes m -> Forall copy_wf cs -> (r, x - x mod 64) ∉ map c_to cs ->
  run_copies cs m r x = m r x.
Proof using RotationsSpec0.
  revert m. induction cs as [|c cs IH]; intros m Hm Hwf Hx; [done|].
  apply list_relations.list.Forall_cons in Hwf as [Hc Hwf]. cbn [map] in Hx. apply not_elem_of_cons in Hx as [Hne Hx].
  cbn. change (foldl run_copy (run_copy m c) cs) with (run_copies cs (run_copy m c)).
  rewrite IH; [|by apply run_copy_bytes|done|done]. rewrite run_copy_at by done. by rewrite bool_decide_eq_false_2.
Qed.

Lemma run_copies_bytes cs m : bytes m -> Forall copy_wf cs -> bytes (run_copies cs m).
Proof using RotationsSpec0.
  revert m. induction cs as [|c cs IH]; intros m Hm Hwf; [done|].
  apply list_relations.list.Forall_cons in Hwf as [Hc Hwf]. apply IH; [by apply run_copy_bytes|done].
Qed.

(** Copies whose lines are apart: each target gets the line that its source had. *)
Lemma run_copies_hit cs m c r x : bytes m -> Forall copy_wf cs -> NoDup (map c_to cs) ->
  (forall c c', c ∈ cs -> c' ∈ cs -> c_from c <> c_to c') -> c ∈ cs -> (r, x - x mod 64) = c_to c ->
  run_copies cs m r x = (copied_line c m).[x mod 64].
Proof using RotationsSpec0.
  revert m. induction cs as [|c0 cs IH]; intros m Hm Hwf Hnd Hap Hin Hx; [by apply not_elem_of_nil in Hin|].
  apply list_relations.list.Forall_cons in Hwf as [Hc Hwf]. cbn [map] in Hnd. apply list_relations.list.NoDup_cons in Hnd as [Hnew Hnd].
  cbn. change (foldl run_copy (run_copy m c0) cs) with (run_copies cs (run_copy m c0)).
  pose proof (run_copy_bytes m c0 Hm Hc) as Hm'.
  destruct (decide (c_to c = c_to c0)) as [Heq|Hne].
  - rewrite run_copies_other by (try done; rewrite Hx, Heq; done).
    rewrite run_copy_at by done. rewrite bool_decide_eq_true_2 by congruence.
    apply elem_of_cons in Hin as [->|Hin]; [done|]. exfalso. apply Hnew. rewrite <- Heq.
    apply list_elem_of_fmap. by exists c.
  - assert (c ∈ cs) as Hcs by (apply elem_of_cons in Hin as [->|Hin]; done).
    rewrite (IH (run_copy m c0)); [|done|done|done| |done|done].
    2:{ intros c1 c2 H1 H2. apply Hap; by apply elem_of_cons; right. }
    f_equal. apply copied_line_ext. intros i Hi. rewrite run_copy_at by done. rewrite bool_decide_eq_false_2; [done|].
    assert (copy_wf c) as (_ & Hal & _) by (rewrite list_relations.list.Forall_forall in Hwf; by apply Hwf).
    intros Heq. apply (Hap c c0); [done|apply elem_of_cons; by left|]. rewrite <- Heq.
    destruct (c_from c) as [d a]. cbn [fst snd] in *. f_equal. Z.div_mod_to_equations. lia.
Qed.
End Run.

(** ** Moving the words of rotate groups *)

(** A word of a rotate group: its rank, the group and the offset in the MRAMs;
    and the byte j of this word for the DPU of interface [ci_id]. *)
Definition place := (Z * Z * Z)%type.
Definition line_of (p : place) : Z * Z := let '(r, rg, a) := p in (r, group_line rg a).
Definition place_ok (p : place) : Prop := let '(r, rg, a) := p in 0 <= rg < 8 /\ fits 26 a /\ a mod 8 = 0.
Definition mram_byte (m : regions) (r rg ci_id a : Z) : Z := m r (bank_address rg ci_id a).
Definition word_byte (m : regions) (p : place) (ci_id j : Z) : Z := let '(r, rg, a) := p in mram_byte m r rg ci_id (a + j).

Definition move := (place * rns * place)%type.
Definition copy_of (mv : move) : copy := let '(p, k, q) := mv in mk_copy (line_of p) k (line_of q).
(** How many interfaces further the words go. *)
Definition shift (k : rns) : Z := match k with Rotate b => b / 8 | Straight => 0 end.

Lemma bank_address_group rg ci_id a j : 0 <= a -> a mod 8 = 0 -> 0 <= j < 8 ->
  bank_address rg ci_id (a + j) = group_line rg a + (8 * j + ci_id).
Proof.
  intros H0 Ha Hj. unfold bank_address, group_line. assert (a = 8 * (a / 8)) as Heq by (Z.div_mod_to_equations; lia).
  rewrite Heq, mram_line_word, <- Heq by (Z.div_mod_to_equations; lia).
  replace ((a + j) mod 8) with j by (Z.div_mod_to_equations; lia). lia.
Qed.

Lemma group_line_bank rg a : 0 <= a -> a mod 8 = 0 -> group_line rg a = bank_address rg 0 a.
Proof. intros H0 Ha. pose proof (bank_address_group rg 0 a 0 H0 Ha ltac:(lia)) as H. rewrite Z.add_0_r in H. lia. Qed.

Lemma line_of_inj p q : place_ok p -> place_ok q -> line_of p = line_of q -> p = q.
Proof.
  destruct p as [[r rg] a], q as [[r' rg'] a']. intros (H1 & H2 & H3) (H1' & H2' & H3') [= -> Heq].
  rewrite !group_line_bank in Heq by (done || by eapply fits_nonneg).
  apply bank_address_inj in Heq as (-> & _ & ->); done || lia.
Qed.

Lemma line_of_aligned p : place_ok p -> snd (line_of p) mod 64 = 0.
Proof.
  destruct p as [[r rg] a]. intros (H1 & H2 & H3). cbn [line_of snd].
  rewrite group_line_bank by (done || by eapply fits_nonneg).
  destruct (bank_address_fields rg 0 a H1 ltac:(lia) H2) as (Hm1 & Hm2 & _). Z.div_mod_to_equations. lia.
Qed.

Lemma word_byte_line m p ci_id j : place_ok p -> 0 <= ci_id < 8 -> 0 <= j < 8 ->
  word_byte m p ci_id j = m (fst (line_of p)) (snd (line_of p) + (8 * j + ci_id)).
Proof.
  destruct p as [[r rg] a]. intros (H1 & H2 & H3) Hc Hj. unfold word_byte, mram_byte. cbn [line_of fst snd].
  by rewrite bank_address_group by (done || by eapply fits_nonneg).
Qed.

(** The moves do not read what they write, and write nothing twice. *)
Record moves_wf (mvs : list move) : Prop := {
  mw_rotation : Forall (fun mv : move => byte_rotation mv.1.2) mvs;
  mw_from : Forall (fun mv : move => place_ok mv.1.1) mvs;
  mw_to : Forall (fun mv : move => place_ok mv.2) mvs;
  mw_nodup : NoDup (map (fun mv : move => mv.2) mvs);
  mw_apart : forall mv mv', mv ∈ mvs -> mv' ∈ mvs -> mv.1.1 <> mv'.2;
}.

Section Moves.
Context `{R : Rotations} `{!RotationsSpec R}.
Variable mvs : list move.
Hypothesis Hwf : moves_wf mvs.
(** The copies of the moves, in any order. *)
Variable cs : list copy.
Hypothesis Hcs : Permutation cs (map copy_of mvs).
Variable m : regions.
Hypothesis Hm : bytes m.

Lemma moves_copies_wf : Forall copy_wf cs.
Proof using Hwf Hcs.
  rewrite Hcs. apply Forall_map, Forall_forall. intros mv Hin. destruct Hwf as [H1 H2 H3 _ _].
  rewrite list_relations.list.Forall_forall in H1, H2, H3. apply list_elem_of_In in Hin.
  specialize (H1 _ Hin). specialize (H2 _ Hin). specialize (H3 _ Hin). destruct mv as [[p k] q].
  split; [done|]. split; by apply line_of_aligned.
Qed.

Lemma moves_to_nodup : NoDup (map c_to cs).
Proof using Hwf Hcs.
  rewrite Hcs, map_map. destruct Hwf as [_ _ H3 H4 _]. revert H3 H4. clear. induction mvs as [|mv l IH]; intros H3 H4; [constructor|].
  apply list_relations.list.Forall_cons in H3 as [Hmv H3]. cbn [map] in *. apply list_relations.list.NoDup_cons in H4 as [Hnew H4].
  apply list_relations.list.NoDup_cons. split; [|by apply IH]. intros (mv' & Heq & Hin)%list_elem_of_fmap. apply Hnew.
  rewrite list_relations.list.Forall_forall in H3. specialize (H3 _ Hin).
  destruct mv as [[p k] q], mv' as [[p' k'] q']. cbn in *. apply line_of_inj in Heq; [|done|done]. subst.
  apply list_elem_of_fmap. by exists (p', k', q').
Qed.

Lemma moves_apart c c' : c ∈ cs -> c' ∈ cs -> c_from c <> c_to c'.
Proof using Hwf Hcs.
  rewrite Hcs. intros (mv & -> & Hin)%list_elem_of_fmap (mv' & -> & Hin')%list_elem_of_fmap.
  destruct Hwf as [_ H2 H3 _ H5]. specialize (H5 _ _ Hin Hin'). rewrite list_relations.list.Forall_forall in H2, H3.
  specialize (H2 _ Hin). specialize (H3 _ Hin'). destruct mv as [[p k] q], mv' as [[p' k'] q']. cbn in *.
  intros Heq. apply H5. by apply line_of_inj.
Qed.

Lemma run_moves_hit p k q ci_id j : (p, k, q) ∈ mvs -> 0 <= ci_id < 8 -> 0 <= j < 8 ->
  word_byte (run_copies cs m) q ((ci_id + shift k) mod 8) j = word_byte m p ci_id j.
Proof using All.
  intros Hin Hc Hj. destruct Hwf as [H1 H2 H3 _ _]. rewrite list_relations.list.Forall_forall in H1, H2, H3.
  specialize (H1 _ Hin). specialize (H2 _ Hin). specialize (H3 _ Hin). cbn in H1, H2, H3.
  pose proof (Z.mod_pos_bound (ci_id + shift k) 8 ltac:(lia)) as Hc'.
  rewrite !word_byte_line by done. set (c' := (ci_id + shift k) mod 8) in *.
  pose proof (line_of_aligned q H3) as Hal.
  assert ((snd (line_of q) + (8 * j + c')) mod 64 = 8 * j + c') as Hmod by (Z.div_mod_to_equations; lia).
  rewrite (run_copies_hit cs m (copy_of (p, k, q)) _ _ Hm moves_copies_wf moves_to_nodup moves_apart).
  2:{ rewrite Hcs. apply list_elem_of_fmap. by exists (p, k, q). }
  2:{ cbn [copy_of c_to]. rewrite Hmod. rewrite Z.add_simpl_r. by destruct (line_of q). }
  rewrite Hmod. unfold copied_line. cbn [copy_of c_from c_rns]. set (line := load_bytes _ _ 64).
  assert (forall i, 0 <= i < 64 -> line.[i] = m (fst (line_of p)) (snd (line_of p) + i)) as Hline.
  { intros i Hi. unfold line, load_bytes. by rewrite lookup_map_seqZ. }
  assert (vec512 line /\ Forall (fits 8) line) as [Hl Hf].
  { split; [done|]. apply Forall_map, Forall_forall. intros i _. apply Hm. }
  destruct k as [b|]; cbn [rns_line shift] in *.
  - destruct H1 as [Hb Hb64]. replace b with (8 * (b / 8)) at 1 by (Z.div_mod_to_equations; lia).
    rewrite rol_line by (done || Z.div_mod_to_equations; lia).
    pose proof (Z.mod_pos_bound (c' - b / 8) 8 ltac:(lia)).
    replace ((c' - b / 8) mod 8) with ci_id in * by (unfold c' in *; Z.div_mod_to_equations; lia).
    apply Hline. lia.
  - replace c' with ci_id by (unfold c'; Z.div_mod_to_equations; lia). apply Hline. lia.
Qed.

Lemma run_moves_other p ci_id j : place_ok p -> p ∉ map (fun mv : move => mv.2) mvs -> 0 <= ci_id < 8 -> 0 <= j < 8 ->
  word_byte (run_copies cs m) p ci_id j = word_byte m p ci_id j.
Proof using All.
  intros Hp Hout Hc Hj. rewrite !word_byte_line by done. pose proof (line_of_aligned p Hp) as Hal.
  apply run_copies_other; [done|apply moves_copies_wf|].
  replace (snd (line_of p) + (8 * j + ci_id) - _) with (snd (line_of p)) by (Z.div_mod_to_equations; lia).
  rewrite Hcs, map_map. intros (mv & Heq & Hin)%list_elem_of_fmap. apply Hout.
  destruct Hwf as [_ _ H3 _ _]. rewrite list_relations.list.Forall_forall in H3. specialize (H3 _ Hin).
  destruct mv as [[p' k] q]. cbn in *. replace p with q; [apply list_elem_of_fmap; by exists (p', k, q)|].
  symmetry. apply line_of_inj; [done|done|]. rewrite <- Heq. by destruct (line_of p).
Qed.
End Moves.

(** ** The moves of a rotate group *)

Definition pass_rns (comm_type k : Z) : rns := if comm_type =? 0 then Rotate (8 * k) else Straight.
(** The word u of a call: its pass is u over the words of a pass. *)
Definition group_move (src dst : Z * Z) (src0 dst0 comm_type nb_words u : Z) : move :=
  ((src.1, src.2, src0 + 8 * u), pass_rns comm_type (u / nb_words), (dst.1, dst.2, dst0 + 8 * u)).
Definition group_moves (src dst : Z * Z) (src0 dst0 comm_type nb_words : Z) : list move :=
  map (group_move src dst src0 dst0 comm_type nb_words) (seqZ 0 (nb_passes comm_type * nb_words)).

Lemma group_copies_moves bs bd sg dg src0 dst0 comm_type nb_words : 0 <= nb_words ->
  group_copies bs bd sg dg src0 dst0 comm_type nb_words =
  map copy_of (group_moves (bs, sg) (bd, dg) src0 dst0 comm_type nb_words).
Proof.
  intros Hw. unfold group_moves. rewrite map_map. unfold group_copies.
  assert (0 <= nb_passes comm_type) as Hn by (unfold nb_passes; destruct (_ =? _); lia).
  destruct (decide (nb_words = 0)) as [->|].
  { rewrite Z.mul_0_r. change (seqZ 0 0) with (@nil Z). induction (seqZ 0 (nb_passes comm_type)) as [|k l IH]; [done|]. cbn [map concat]. by rewrite IH, seqZ_nil. }
  rewrite (seqZ_blocks (fun k => word_copy bs bd sg dg src0 dst0 (pass_line comm_type k))) by lia.
  apply map_ext_in. intros u _. unfold group_move, word_copy, pass_line, pass_rns. cbn [fst snd copy_of line_of].
  by destruct (comm_type =? 0).
Qed.

Lemma pass_rns_byte comm_type nb_words u : 0 <= u < nb_passes comm_type * nb_words ->
  byte_rotation (pass_rns comm_type (u / nb_words)).
Proof.
  unfold nb_passes, pass_rns. destruct (comm_type =? 0); [|done]. intros Hu. cbn. split; [Z.div_mod_to_equations; lia|].
  assert (0 <= u / nb_words < 8); [|lia]. split; [apply Z.div_pos; nia|apply Z.div_lt_upper_bound; nia].
Qed.
