(* ===== verification/PidMachine.v ===== *)
(** * Threads that copy lines through registers

    A thread of the host has vector registers of its own and makes accesses: each
    may read a line of 64 bytes of the memory, changes the registers, and may
    store a line. [run_machine] runs an interleaving of such threads. When no
    thread stores in a line that another reads, what the threads store is what
    each would store alone in the initial memory ([interleaved_solo]), so that the
    order of the accesses does not matter. *)

From stdpp Require Import relations functions.
From S2P Require Import Prelude Interleave XeonInterleave XeonSg XeonBank PidComm.

#[local] Open Scope Z_scope.
#[local] Open Scope dpu_scope.

(** ** Lines *)

Definition line_at (m : regions) (l : Z * Z) : list Z := load_bytes (m (fst l)) (snd l) 64.
(** A line, and what is stored there. *)
Definition line_write := ((Z * Z) * list Z)%type.
Definition write_line (m : regions) (w : line_write) : regions :=
  fun r => if r =? fst w.1 then store_bytes (snd w.1) w.2 (m r) else m r.
Definition write_lines (m : regions) (ws : list line_write) : regions := foldl write_line m ws.
Definition write_ok (w : line_write) : Prop := snd w.1 mod 64 = 0 /\ lenz w.2 = 64 /\ Forall (fits 8) w.2.

Lemma write_line_at m w r x : write_ok w -> write_line m w r x = if bool_decide ((r, x - x mod 64) = w.1) then w.2.[x mod 64] else m r x.
Proof.
  intros (Hal & Hlen & _). unfold write_line. destruct w as [[d a] v]. cbn [fst snd] in *. destruct (Z.eqb_spec r d) as [->|Hne].
  - unfold store_bytes. rewrite Hlen. case_bool_decide as Heq.
    + injection Heq as <-. pose proof (Z.mod_pos_bound x 64 ltac:(lia)).
      rewrite (proj2 (Z.leb_le _ _)), (proj2 (Z.ltb_lt _ _)) by lia. cbn [andb]. f_equal. lia.
    + destruct (Z.leb_spec a x), (Z.ltb_spec x (a + 64)); try done. exfalso. apply Heq. f_equal. Z.div_mod_to_equations. lia.
  - rewrite bool_decide_eq_false_2; [done|congruence].
Qed.

Lemma write_line_bytes m w : bytes m -> write_ok w -> bytes (write_line m w).
Proof.
  intros Hm Hw r x. rewrite write_line_at by done. case_bool_decide; [|apply Hm]. destruct Hw as (_ & Hlen & Hf).
  rewrite list_relations.list.Forall_forall in Hf. apply Hf.
  apply list_elem_of_lookup_total_2. pose proof (Z.mod_pos_bound x 64 ltac:(lia)). unfold lenz in Hlen. lia.
Qed.

Lemma write_lines_bytes m ws : bytes m -> Forall write_ok ws -> bytes (write_lines m ws).
Proof.
  revert m. induction ws as [|w ws IH]; intros m Hm Hws; [done|]. apply list_relations.list.Forall_cons in Hws as [Hw Hws].
  apply IH; [by apply write_line_bytes|done].
Qed.

Lemma line_at_write m w l : write_ok w -> snd l mod 64 = 0 -> l <> w.1 -> line_at (write_line m w) l = line_at m l.
Proof.
  intros Hw Hl Hne. apply map_ext_in. intros i Hi%list_elem_of_In%elem_of_seqZ. rewrite write_line_at by done.
  rewrite bool_decide_eq_false_2; [done|]. intros Heq. apply Hne. rewrite <- Heq. destruct l as [r x]. cbn [fst snd] in *.
  f_equal. Z.div_mod_to_equations. lia.
Qed.

Lemma line_shape m l : bytes m -> vec512 (line_at m l) /\ Forall (fits 8) (line_at m l).
Proof. intros Hm. split; [done|]. apply Forall_map, Forall_forall. intros i _. apply Hm. Qed.

Lemma write_lines_other m ws r x : Forall write_ok ws -> (r, x - x mod 64) ∉ map fst ws -> write_lines m ws r x = m r x.
Proof.
  revert m. induction ws as [|w ws IH]; intros m Hws Hx; [done|]. apply list_relations.list.Forall_cons in Hws as [Hw Hws].
  cbn [map] in Hx. apply not_elem_of_cons in Hx as [Hne Hx]. change (write_lines m (w :: ws)) with (write_lines (write_line m w) ws).
  rewrite IH by done. rewrite write_line_at by done. by rewrite bool_decide_eq_false_2.
Qed.

Lemma write_lines_hit m ws w r x : Forall write_ok ws -> NoDup (map fst ws) -> w ∈ ws -> (r, x - x mod 64) = w.1 ->
  write_lines m ws r x = w.2.[x mod 64].
Proof.
  revert m. induction ws as [|w0 ws IH]; intros m Hws Hnd Hin Hx; [by apply not_elem_of_nil in Hin|].
  apply list_relations.list.Forall_cons in Hws as [Hw Hws]. cbn [map] in Hnd. apply list_relations.list.NoDup_cons in Hnd as [Hnew Hnd].
  change (write_lines m (w0 :: ws)) with (write_lines (write_line m w0) ws). apply elem_of_cons in Hin as [->|Hin].
  - rewrite write_lines_other by (done || by rewrite Hx). rewrite write_line_at by done. by rewrite bool_decide_eq_true_2.
  - by apply IH.
Qed.

(** ** Machines *)

Record machine (L A : Type) := mk_machine {
  reads : A -> option (Z * Z);
  update : A -> list Z -> L -> L;
  writes : A -> L -> option line_write;
}.
Arguments reads {L A}. Arguments update {L A}. Arguments writes {L A}.

(** The registers of each thread, and the memory. *)
Record host_state (L : Type) := mk_host { local : Z -> L; host_mem : regions }.
Arguments mk_host {L}. Arguments local {L}. Arguments host_mem {L}.

Section Machine.
Context {L A : Type}.
Variable M : machine L A.

Definition read_line (m : regions) (a : A) : list Z := match reads M a with Some l => line_at m l | None => [] end.
Definition set_local (t : Z) (l : L) (locals : Z -> L) : Z -> L := fun t' => if t' =? t then l else locals t'.
Definition run_step (s : host_state L) (e : Z * A) : host_state L :=
  let '(t, a) := e in
  mk_host (set_local t (update M a (read_line (host_mem s) a) (local s t)) (local s))
    (match writes M a (local s t) with Some w => write_line (host_mem s) w | None => host_mem s end).
Definition run_machine (tr : list (Z * A)) (s : host_state L) : host_state L := foldl run_step s tr.

(** What a thread stores alone, in a memory that does not change. *)
Fixpoint solo (m : regions) (l : L) (acts : list A) : list line_write :=
  match acts with [] => [] | a :: acts => option_list (writes M a l) ++ solo m (update M a (read_line m a) l) acts end.

Lemma solo_app m l acts1 acts2 :
  solo m l (acts1 ++ acts2) = solo m l acts1 ++ solo m (foldl (fun l a => update M a (read_line m a) l) l acts1) acts2.
Proof using Type. revert l. induction acts1 as [|a acts1 IH]; intros l; [done|]. cbn [app solo foldl]. by rewrite IH, app_assoc. Qed.

(** *** Interleavings *)

Variable m0 : regions.
Fixpoint solo_trace (locals : Z -> L) (tr : list (Z * A)) : list line_write :=
  match tr with
  | [] => []
  | (t, a) :: tr => option_list (writes M a (locals t)) ++ solo_trace (set_local t (update M a (read_line m0 a) (locals t)) locals) tr
  end.

Lemma set_local_eq t l locals : set_local t l locals t = l.
Proof using Type. unfold set_local. by rewrite Z.eqb_refl. Qed.
Lemma set_local_ne t l locals t' : t' <> t -> set_local t l locals t' = locals t'.
Proof using Type. intros H. unfold set_local. by rewrite (proj2 (Z.eqb_neq _ _) H). Qed.

Lemma solo_trace_own locals tr ks : NoDup ks -> Forall (fun e : Z * A => e.1 ∈ ks) tr ->
  Permutation (solo_trace locals tr) (concat (map (fun k => solo m0 (locals k) (own k tr)) ks)).
Proof using Type.
  intros Hnd. revert locals. induction tr as [|[t a] tr IH]; intros locals Htr.
  { clear. induction ks as [|k ks IH]; done. }
  apply list_relations.list.Forall_cons in Htr as [Ht Htr]. cbn [fst] in Ht. cbn [solo_trace].
  set (locals' := set_local t (update M a (read_line m0 a) (locals t)) locals).
  assert (forall j, j <> t -> solo m0 (locals j) (own j ((t, a) :: tr)) = solo m0 (locals' j) (own j tr)) as Hother
    by (intros j Hj; unfold locals'; rewrite own_cons_ne, set_local_ne by congruence; done).
  assert (solo m0 (locals t) (own t ((t, a) :: tr)) = option_list (writes M a (locals t)) ++ solo m0 (locals' t) (own t tr)) as Hown
    by (unfold locals'; by rewrite own_cons_eq, set_local_eq).
  destruct (writes M a (locals t)) as [w|]; cbn [option_list app] in *.
  - rewrite IH by done. symmetry. by apply (concat_one _ _ ks t w).
  - rewrite IH by done. rewrite (map_ext_in (fun k => solo m0 (locals k) _) (fun k => solo m0 (locals' k) (own k tr))); [done|].
    intros j _. destruct (decide (j = t)) as [->|Hj]; [by rewrite Hown|by rewrite Hother].
Qed.

(** What is still to be read is as in the initial memory, and apart from what is still to be written. *)
Record unread (locals : Z -> L) (tr : list (Z * A)) (m : regions) : Prop := {
  un_same : forall t a l, (t, a) ∈ tr -> reads M a = Some l -> line_at m l = line_at m0 l;
  un_aligned : forall t a l, (t, a) ∈ tr -> reads M a = Some l -> snd l mod 64 = 0;
  un_writes : forall t, Forall write_ok (solo m0 (locals t) (own t tr));
  un_apart : forall t a l t' w, (t, a) ∈ tr -> reads M a = Some l -> w ∈ solo m0 (locals t') (own t' tr) -> l <> w.1;
}.

Lemma unread_step locals t a tr m : unread locals ((t, a) :: tr) m ->
  read_line m a = read_line m0 a /\
  unread (set_local t (update M a (read_line m0 a) (locals t)) locals) tr
    (match writes M a (locals t) with Some w => write_line m w | None => m end).
Proof using Type.
  intros [Hs Hal Hw Hap].
  assert (forall t' a', (t', a') ∈ tr -> (t', a') ∈ (t, a) :: tr) as Hlater by (intros; apply elem_of_cons; by right).
  assert ((t, a) ∈ (t, a) :: tr) as Hnow by (apply elem_of_cons; by left).
  set (locals' := set_local t (update M a (read_line m0 a) (locals t)) locals).
  assert (forall t' w, w ∈ solo m0 (locals' t') (own t' tr) -> w ∈ solo m0 (locals t') (own t' ((t, a) :: tr))) as Hsub.
  { intros t' w Hin. unfold locals' in Hin. destruct (decide (t' = t)) as [->|Hne].
    - rewrite set_local_eq in Hin. rewrite own_cons_eq. cbn [solo]. apply elem_of_app. by right.
    - rewrite set_local_ne in Hin by done. by rewrite own_cons_ne by congruence. }
  split.
  - unfold read_line. destruct (reads M a) as [l|] eqn:E; [|done]. by apply (Hs t a).
  - split.
    + intros t' a' l Hin Hr. destruct (writes M a (locals t)) as [w|] eqn:Ew; [|by apply (Hs t' a'), Hr; apply Hlater].
      assert (w ∈ solo m0 (locals t) (own t ((t, a) :: tr))) as Hwin by (rewrite own_cons_eq; cbn [solo]; rewrite Ew; apply elem_of_app; left; by apply elem_of_cons; left).
      specialize (Hw t). rewrite list_relations.list.Forall_forall in Hw.
      rewrite line_at_write; [by apply (Hs t' a'), Hr; apply Hlater|by apply Hw|by apply (Hal t' a'), Hr; apply Hlater|].
      by apply (Hap t' a' l t w), Hwin; [apply Hlater|].
    + intros t' a' l Hin. apply (Hal t'). by apply Hlater.
    + intros t'. specialize (Hw t'). rewrite list_relations.list.Forall_forall in Hw |- *. intros w Hin. by apply Hw, Hsub.
    + intros t' a' l t2 w Hin Hr Hw2. apply (Hap t' a' l t2 w); [by apply Hlater|done|by apply Hsub].
Qed.

Lemma run_machine_solo tr s : unread (local s) tr (host_mem s) ->
  host_mem (run_machine tr s) = write_lines (host_mem s) (solo_trace (local s) tr).
Proof using Type.
  revert s. induction tr as [|[t a] tr IH]; intros s Hun; [done|].
  apply unread_step in Hun as [Hread Hun]. change (run_machine ((t, a) :: tr) s) with (run_machine tr (run_step s (t, a))).
  rewrite IH; cbn [run_step local host_mem]; rewrite Hread; [|done]. cbn [solo_trace].
  destruct (writes M a (local s t)); done.
Qed.
End Machine.

(** Interleaved threads store what each stores alone. *)
Lemma interleaved_solo {L A} (M : machine L A) threads tr locals m : interleaves tr threads ->
  (forall th a l, th ∈ threads -> a ∈ th -> reads M a = Some l -> snd l mod 64 = 0) ->
  (forall th l, th ∈ threads -> Forall write_ok (solo M m l th)) ->
  (forall th th' a l l0 w, th ∈ threads -> th' ∈ threads -> a ∈ th -> reads M a = Some l -> w ∈ solo M m l0 th' -> l <> w.1) ->
  exists ws, Permutation ws (concat (map (fun k => solo M m (locals k) threads.[k]) (seqZ 0 (lenz threads)))) /\
    host_mem (run_machine M tr (mk_host locals m)) = write_lines m ws.
Proof.
  intros [Htr Hown] Hal Hws Hap. exists (solo_trace M m locals tr).
  assert (forall k, 0 <= k < lenz threads -> threads.[k] ∈ threads) as Hget
    by (intros k Hk; apply list_elem_of_lookup_total_2; unfold lenz in Hk; lia).
  assert (forall t a, (t, a) ∈ tr -> exists th, th ∈ threads /\ a ∈ th) as Hin.
  { intros t a Ha. rewrite list_relations.list.Forall_forall in Htr. specialize (Htr _ Ha). cbn [fst] in Htr.
    exists threads.[t]. split; [by apply Hget|]. rewrite <- Hown by done. by apply elem_of_own. }
  assert (forall t, own t tr = [] \/ exists th, th ∈ threads /\ own t tr = th) as Hcase.
  { intros t. destruct (decide (0 <= t < lenz threads)) as [Ht|Ht]; [right; exists threads.[t]; split; [by apply Hget|by apply Hown]|].
    left. destruct (own t tr) as [|a l] eqn:E; [done|]. exfalso.
    assert (a ∈ own t tr) as Ha by (rewrite E; apply elem_of_cons; by left). apply elem_of_own in Ha.
    rewrite list_relations.list.Forall_forall in Htr. by specialize (Htr _ Ha). }
  split.
  - rewrite (solo_trace_own M m _ tr (seqZ 0 (lenz threads)) (NoDup_seqZ _ _)).
    2:{ eapply list_relations.list.Forall_impl; [exact Htr|]. intros e He. cbn beta in He |- *. apply elem_of_seqZ. clear -He. unfold lenz in *. lia. }
    rewrite (map_ext_in (fun k => solo M m (locals k) (own k tr)) (fun k => solo M m (locals k) threads.[k])); [done|].
    intros k Hk%list_elem_of_In%elem_of_seqZ. by rewrite Hown by lia.
  - apply (run_machine_solo M m tr (mk_host locals m)). split; cbn [local host_mem].
    + done.
    + intros t a l Ha. destruct (Hin t a Ha) as (th & Hth & Hath). by apply (Hal th).
    + intros t. destruct (Hcase t) as [-> |(th & Hth & ->)]; [constructor|by apply Hws].
    + intros t a l t' w Ha Hr Hw. destruct (Hin t a Ha) as (th & Hth & Hath).
      destruct (Hcase t') as [E|(th' & Hth' & E)]; rewrite E in Hw; [by apply not_elem_of_nil in Hw|].
      by apply (Hap th th' a l (locals t') w).
Qed.
