(* ===== verification/PidAccess.v ===== *)
(** * The memory accesses of the threads of the host

    A thread of the host copies a line of 64 bytes by a load into a vector
    register, rotations of this register and stores: it is a machine of
    PidMachine.v, whose accesses other threads interleave with. When no thread
    stores in a line that another loads, an interleaving does what the copies of
    PidComm.v do in some order ([interleaved_copies]). *)

From stdpp Require Import relations functions.
From S2P Require Import Prelude Interleave XeonInterleave XeonSg XeonBank PidComm PidMachine.

#[local] Open Scope Z_scope.
#[local] Open Scope dpu_scope.

(** [_mm512_stream_load_si512], [_mm512_rol_epi64] and [_mm512_stream_si512] on
    the register [reg1] of the thread. *)
Inductive access := Load (line : Z * Z) | Rol (rotate_bit : Z) | Store (line : Z * Z).
#[export] Instance access_eq_dec : EqDecision access.
Proof. solve_decision. Defined.

Section Run.
Context `{R : Rotations}.

Definition access_machine : machine (list Z) access := {|
  reads a := match a with Load l => Some l | _ => None end;
  update a line reg1 := match a with Load _ => line | Rol b => mm512_rol_epi64 reg1 b | Store _ => reg1 end;
  writes a reg1 := match a with Store l => Some (l, reg1) | _ => None end;
|}.
Definition run_accesses : list (Z * access) -> host_state (list Z) -> host_state (list Z) := run_machine access_machine.
End Run.

(** The body of [RNS_COPY_a2a] and of [S_COPY_a2a]. *)
Definition accesses_of (c : copy) : list access :=
  match c_rns c with
  | Rotate rotate_bit => [Load (c_from c); Rol rotate_bit; Store (c_to c)]
  | Straight => [Load (c_from c); Store (c_to c)]
  end.
Definition thread_accesses (cs : list copy) : list access := concat (map accesses_of cs).

(** ** What the stores of a thread store *)

(** The line that was loaded, and how far it has been rotated. *)
Definition loaded := option ((Z * Z) * rns).
Definition rotate_by (b : Z) (k : rns) : rns := match k with Straight => Rotate b | Rotate b0 => Rotate (b0 + b) end.
Definition load_step (g : loaded) (a : access) : loaded :=
  match a with
  | Load l => Some (l, Straight)
  | Rol b => match g with Some (l, k) => Some (l, rotate_by b k) | None => None end
  | Store _ => g
  end.
(** The copies that the stores of a thread amount to. *)
Definition stored (g : loaded) (a : access) : list copy :=
  match a, g with Store q, Some (l, k) => [mk_copy l k q] | _, _ => [] end.
Fixpoint resolve (g : loaded) (l : list access) : list copy :=
  match l with [] => [] | a :: l => stored g a ++ resolve (load_step g a) l end.
(** A thread loads before it stores, in aligned lines, and rotates whole bytes. *)
Fixpoint accesses_wf (g : loaded) (l : list access) : Prop :=
  match l with
  | [] => True
  | a :: l =>
      match a, g with
      | Load l, _ => snd l mod 64 = 0
      | Rol b, Some (_, k) => b mod 8 = 0 /\ 0 <= b /\ byte_rotation (rotate_by b k)
      | Store q, Some _ => snd q mod 64 = 0
      | _, None => False
      end /\ accesses_wf (load_step g a) l
  end.

Lemma resolve_copy g c l : resolve g (accesses_of c ++ l) = c :: resolve (Some (c_from c, c_rns c)) l.
Proof. destruct c as [p [b|] q]; done. Qed.

Lemma resolve_copies g cs : resolve g (thread_accesses cs) = cs.
Proof.
  revert g. induction cs as [|c cs IH]; intros g; [done|]. unfold thread_accesses. cbn [map concat].
  rewrite resolve_copy. f_equal. apply IH.
Qed.

Lemma copies_accesses_wf g cs : Forall copy_wf cs -> accesses_wf g (thread_accesses cs).
Proof.
  revert g. induction cs as [|c cs IH]; intros g; [done|]. intros [(Hk & Hf & Ht) Hcs]%list_relations.list.Forall_cons.
  specialize (fun g => IH g Hcs). unfold thread_accesses. cbn [map concat].
  destruct c as [p [b|] q]; cbn in *; split_and!; (done || lia || apply IH).
Qed.

Lemma load_aligned g l p : accesses_wf g l -> Load p ∈ l -> snd p mod 64 = 0.
Proof.
  revert g. induction l as [|a l IH]; intros g Hwf Hin; [by apply not_elem_of_nil in Hin|]. destruct Hwf as [Ha Hl].
  apply elem_of_cons in Hin as [<-|Hin]; [done|by eapply IH].
Qed.

Lemma resolved_from g l c : c ∈ resolve g l ->
  (Load (c_from c) ∈ l \/ exists k, g = Some (c_from c, k)) /\ Store (c_to c) ∈ l.
Proof.
  revert g. induction l as [|a l IH]; intros g Hin; [by apply not_elem_of_nil in Hin|].
  cbn [resolve] in Hin. rewrite !elem_of_cons. apply elem_of_app in Hin as [Hin|Hin].
  - destruct a as [l0|b|q]; [by apply not_elem_of_nil in Hin..|]. destruct g as [[l0 k]|]; [|by apply not_elem_of_nil in Hin].
    apply list_elem_of_singleton in Hin as ->. split; [right; by exists k|by left].
  - destruct (IH _ Hin) as [[Hf|[k Hf]] Ht]; (split; [|by right]); [left; by right|].
    destruct a as [l0|b|q]; cbn in Hf; [injection Hf as -> _; left; by left| |right; by exists k].
    destruct g as [[l1 k1]|]; [|done]. injection Hf as -> _. right. by exists k1.
Qed.

Lemma resolved_ends l c : c ∈ resolve None l -> Load (c_from c) ∈ l /\ Store (c_to c) ∈ l.
Proof. intros H. destruct (resolved_from None l c H) as [[Hf|[k Hk]] Ht]; done. Qed.

(** ** The copies of a trace *)

Section Trace.
Context `{R : Rotations} `{!RotationsSpec R}.

Lemma rol_twice line b n : vec512 line -> Forall (fits 8) line -> b mod 8 = 0 -> n mod 8 = 0 -> 0 <= b -> 0 <= n -> b + n < 64 ->
  mm512_rol_epi64 (mm512_rol_epi64 line b) n = mm512_rol_epi64 line (b + n).
Proof using RotationsSpec0.
  intros Hl Hf Hb8 Hn8 Hb Hn Hbn. 
  assert (exists i j, b = 8 * i /\ n = 8 * j) as (i & j & -> & ->) by (exists (b / 8), (n / 8); Z.div_mod_to_equations; lia).
  replace (8 * i + 8 * j) with (8 * (i + j)) by ring.
  assert (vec512 (mm512_rol_epi64 line (8 * i)) /\ Forall (fits 8) (mm512_rol_epi64 line (8 * i))) as [Hl' Hf'].
  { split; [pose proof (length_rol line i Hl Hf ltac:(lia)) as Hlen; unfold vec512; unfold lenz in Hlen; lia|].
    rewrite rol_epi64_spec by (done || lia). apply Forall_concat, Forall_map, Forall_forall. intros p _. apply le_bytes_fits. }
  apply list_eq_lenz; [by rewrite !length_rol by (done || lia)|]. intros x Hx. rewrite length_rol in Hx by (done || lia).
  replace x with (8 * (x / 8) + x mod 8) by (Z.div_mod_to_equations; lia).
  assert (0 <= x / 8 < 8 /\ 0 <= x mod 8 < 8) as [Hq Hr] by (Z.div_mod_to_equations; lia).
  rewrite rol_line by (done || lia). rewrite rol_line by (done || lia || by apply Z.mod_pos_bound).
  rewrite rol_line by (done || lia). f_equal. Z.div_mod_to_equations. lia.
Qed.

Lemma rns_rotate line k b : vec512 line -> Forall (fits 8) line -> byte_rotation k -> b mod 8 = 0 -> 0 <= b -> byte_rotation (rotate_by b k) ->
  mm512_rol_epi64 (rns_line k line) b = rns_line (rotate_by b k) line.
Proof using RotationsSpec0. intros Hl Hf Hk Hb H0 Hkb. destruct k as [b0|]; [|done]. cbn in *. apply rol_twice; (done || lia). Qed.

(** What the register holds. *)
Definition register_of (m : regions) (g : loaded) (reg1 : list Z) : Prop :=
  match g with Some (l, k) => byte_rotation k /\ snd l mod 64 = 0 /\ reg1 = rns_line k (line_at m l) | None => True end.
Definition copy_write (m : regions) (c : copy) : line_write := (c_to c, copied_line c m).

Lemma register_step m g reg1 a : bytes m -> register_of m g reg1 -> accesses_wf g [a] ->
  register_of m (load_step g a) (update access_machine a (read_line access_machine m a) reg1).
Proof using RotationsSpec0.
  intros Hm Hreg [Ha _]. destruct a as [l|b|q]; cbn in *; [done| |done].
  destruct g as [[l k]|]; [|done]. destruct Hreg as (Hk & Hl & ->), Ha as (Hb & H0 & Hkb). split_and!; [done|done|].
  destruct (line_shape m l Hm). by apply rns_rotate.
Qed.

(** Alone, a thread stores what its copies do. *)
Lemma solo_copies m g reg1 l : bytes m -> register_of m g reg1 -> accesses_wf g l ->
  solo access_machine m reg1 l = map (copy_write m) (resolve g l) /\ Forall copy_wf (resolve g l).
Proof using RotationsSpec0.
  intros Hm. revert g reg1. induction l as [|a l IH]; intros g reg1 Hreg Hwf; [done|].
  pose proof (proj1 Hwf) as Ha.
  destruct (IH _ _ (register_step m g reg1 a Hm Hreg (conj Ha I)) (proj2 Hwf)) as [Hsolo Hcs]. cbn [solo resolve].
  rewrite Hsolo, map_app. destruct a as [l0|b|q]; cbn [writes access_machine stored option_list app map] in *; [done|done|].
  destruct g as [[l0 k]|]; [|done]. destruct Hreg as (Hk & Hl & ->). split; [done|]. by constructor.
Qed.

Lemma copy_write_ok m c : bytes m -> copy_wf c -> write_ok (copy_write m c).
Proof using RotationsSpec0. intros Hm Hc. split; [apply Hc|by apply copied_line_shape]. Qed.

(** Copies apart may all be taken from the memory before. *)
Lemma written_copies cs m : bytes m -> Forall copy_wf cs -> (forall c c', c ∈ cs -> c' ∈ cs -> c_from c <> c_to c') ->
  write_lines m (map (copy_write m) cs) = run_copies cs m.
Proof using RotationsSpec0.
  revert m. induction cs as [|c cs IH]; intros m Hm Hwf Hap; [done|]. apply list_relations.list.Forall_cons in Hwf as [Hc Hcs].
  change (write_lines (write_line m (copy_write m c)) (map (copy_write m) cs) = run_copies cs (run_copy m c)).
  pose proof (copy_write_ok m c Hm Hc) as Hw. change (run_copy m c) with (write_line m (copy_write m c)).
  rewrite <- IH; [|by apply write_line_bytes|done|intros c1 c2 H1 H2; apply Hap; apply elem_of_cons; by right].
  f_equal. apply map_ext_in. intros c' Hc'%list_elem_of_In. unfold copy_write, copied_line. do 2 f_equal. symmetry.
  apply (line_at_write m (copy_write m c)); [done| |apply Hap; apply elem_of_cons; [by right|by left]].
  rewrite list_relations.list.Forall_forall in Hcs. by apply (Hcs c').
Qed.

(** Interleaved threads do what their copies do in some order. *)
Lemma interleaved_copies threads tr regs m : interleaves tr threads -> Forall (accesses_wf None) threads ->
  (forall th th' l q, th ∈ threads -> th' ∈ threads -> Load l ∈ th -> Store q ∈ th' -> l <> q) ->
  bytes m ->
  exists cs, Permutation cs (concat (map (resolve None) threads)) /\ host_mem (run_accesses tr (mk_host regs m)) = run_copies cs m.
Proof using RotationsSpec0.
  intros Htr Hwf Hap Hm. rewrite list_relations.list.Forall_forall in Hwf.
  assert (forall th reg1, th ∈ threads -> solo access_machine m reg1 th = map (copy_write m) (resolve None th) /\ Forall copy_wf (resolve None th)) as Hsolo
    by (intros th reg1 Hth; apply solo_copies; [done|done|by apply Hwf]).
  destruct (interleaved_solo access_machine threads tr regs m Htr) as (ws & Hws & Hrun).
  - intros th [l| |] l0 Hth Ha [= <-]. by eapply load_aligned; [apply Hwf|].
  - intros th reg1 Hth. destruct (Hsolo th reg1 Hth) as [-> Hcs]. apply Forall_map.
    eapply list_relations.list.Forall_impl; [exact Hcs|]. intros c. by apply copy_write_ok.
  - intros th th' [l| |] l0 reg1 w Hth Hth' Ha [= <-] Hw. destruct (Hsolo th' reg1 Hth') as [E _]. rewrite E in Hw.
    apply list_elem_of_fmap in Hw as (c & -> & Hc). apply (Hap th th'); try done. by apply resolved_ends.
  - assert (map (fun k => solo access_machine m (regs k) threads.[k]) (seqZ 0 (lenz threads)) = map (fun th => map (copy_write m) (resolve None th)) threads) as E.
    { apply list_eq_lenz; [rewrite lenz_map_seqZ; unfold lenz; [by rewrite length_map|lia]|]. intros k Hk. rewrite lenz_map_seqZ in Hk by (unfold lenz; lia).
      assert (threads.[k] ∈ threads) as Hin by (apply list_elem_of_lookup_total_2; unfold lenz in Hk; lia).
      rewrite lookup_map_seqZ by done. rewrite (proj1 (Hsolo _ _ Hin)).
      symmetry. apply (list_lookup_total_fmap (fun th => map (copy_write m) (resolve None th))). unfold lenz in Hk. lia. }
    rewrite E, <- map_map, <- concat_map in Hws. destruct (Permutation_map_inv _ _ Hws) as (cs & -> & Hcs). exists cs. split; [by symmetry|].
    etrans; [exact Hrun|]. apply written_copies; [done| |].
    + rewrite <- Hcs. apply Forall_concat, Forall_map, Forall_forall. intros th Hth%list_elem_of_In. apply (Hsolo th []), Hth.
    + intros c c'. rewrite <- Hcs. intros (l & (th & <- & Hth%list_elem_of_In)%in_map_iff & Hc%list_elem_of_In)%list_elem_of_In%in_concat.
      intros (l & (th' & <- & Hth'%list_elem_of_In)%in_map_iff & Hc'%list_elem_of_In)%list_elem_of_In%in_concat.
      apply (Hap th th'); [done|done|by apply resolved_ends|by apply resolved_ends].
Qed.
End Trace.

(** ** Threads that make moves *)

Lemma stores_resolved g l q : accesses_wf g l -> Store q ∈ l -> exists c, c ∈ resolve g l /\ c_to c = q.
Proof.
  revert g. induction l as [|a l IH]; intros g Hwf Hin; [by apply not_elem_of_nil in Hin|]. destruct Hwf as [Ha Hl].
  apply elem_of_cons in Hin as [<-|Hin].
  - destruct g as [[l0 k]|]; [|done]. exists (mk_copy l0 k q). split; [apply elem_of_cons; by left|done].
  - destruct (IH _ Hl Hin) as (c & Hc & Hq). exists c. split; [|done]. apply elem_of_app. by right.
Qed.

Lemma load_of_copy l cs : Load l ∈ thread_accesses cs -> exists c, c ∈ cs /\ c_from c = l.
Proof.
  intros (al & (c & <- & Hc)%in_map_iff & Hl)%list_elem_of_In%in_concat. exists c. split; [by apply list_elem_of_In|].
  destruct c as [p [b|] q]; cbn in Hl; destruct Hl as [[= ->]|Hl]; try done; by repeat destruct Hl as [|Hl].
Qed.

Section Moves.
Context `{R : Rotations} `{!RotationsSpec R}.
Variables (mvs : list move) (m : regions) (regs : Z -> list Z) (tr : list (Z * access)).
Hypothesis Hwf : moves_wf mvs.
Hypothesis Hm : bytes m.

Lemma interleaved_moves threads : interleaves tr threads -> Forall (accesses_wf None) threads ->
  Permutation (concat (map (resolve None) threads)) (map copy_of mvs) ->
  (forall th l, th ∈ threads -> Load l ∈ th -> exists mv, mv ∈ mvs /\ l = line_of mv.1.1) ->
  exists cs, Permutation cs (map copy_of mvs) /\ host_mem (run_accesses tr (mk_host regs m)) = run_copies cs m.
Proof using All.
  intros Htr Hacc Hperm Hloads.
  destruct (interleaved_copies threads tr regs m Htr Hacc) as (cs & Hcs & Hrun); [|done|exists cs; split; [by rewrite Hcs|done]].
  intros th th' l q Hth Hth' Hl Hq. destruct (Hloads th l Hth Hl) as (mv & Hmv & ->).
  rewrite list_relations.list.Forall_forall in Hacc. destruct (stores_resolved None th' q (Hacc _ Hth') Hq) as (c & Hc & <-).
  assert (c ∈ concat (map (resolve None) threads)) as Hin.
  { apply list_elem_of_In, in_concat. exists (resolve None th'). split; [by apply in_map, list_elem_of_In|by apply list_elem_of_In]. }
  rewrite Hperm in Hin. assert (copy_of mv ∈ map copy_of mvs) as Hin' by (apply list_elem_of_fmap; by exists mv).
  pose proof (moves_apart mvs Hwf (map copy_of mvs) (Permutation_refl _) (copy_of mv) c Hin' Hin) as H. by destruct mv as [[p k] q].
Qed.

Lemma interleaved_thread_copies threads : interleaves tr (map thread_accesses threads) ->
  Permutation (concat threads) (map copy_of mvs) ->
  exists cs, Permutation cs (map copy_of mvs) /\ host_mem (run_accesses tr (mk_host regs m)) = run_copies cs m.
Proof using All.
  intros Htr Hperm. apply (interleaved_moves _ Htr).
  - apply Forall_map, Forall_forall. intros cs Hcs. apply copies_accesses_wf.
    pose proof (moves_copies_wf mvs Hwf (concat threads) Hperm) as H. apply Forall_concat in H.
    rewrite List.Forall_forall in H. by apply H.
  - rewrite map_map. rewrite (map_ext _ id), map_id; [done|]. intros cs. apply resolve_copies.
  - intros th l (cs & -> & Hcs)%list_elem_of_fmap (c & Hc & <-)%load_of_copy.
    assert (c ∈ concat threads) as Hin by (apply list_elem_of_In, in_concat; exists cs; split; by apply list_elem_of_In).
    rewrite Hperm in Hin. apply list_elem_of_fmap in Hin as (mv & -> & Hmv). exists mv. split; [done|]. by destruct mv as [[p k] q].
Qed.
End Moves.
