(* ===== verification/PidThreads.v ===== *)
(** * The threads of an all-to-all exchange

    Model of [thread_all_to_all_rns] and [hw_all_to_all_rns] of
    [src/hw/src/rank/hw_dpu_rank.c]. The DPUs of a set form a hypercube whose
    first axis runs over the interfaces of the rotate groups, so that the groups
    form a hypercube of their own, with the first axis eight times shorter. Each
    turn of a thread takes one pair of groups that communicate: from the number
    of the turn it finds the coordinates of the two groups, then their ranks and
    the offsets of the two blocks, and calls the copy of PidComm.v. *)

From stdpp Require Import relations.
From S2P Require Import Prelude Interleave XeonInterleave XeonSg XeonBank PidComm PidMachine PidAccess.

#[local] Open Scope Z_scope.
#[local] Open Scope dpu_scope.

(** ** Coordinates *)

(** [axis_len] and [comm_axis] of each dimension, the first length divided by 8. *)
Definition axes := list (Z * Z).

(** The loop from the last dimension to the first: the coordinates on the axes
    that do not communicate, the other ones being left as they are. *)
Fixpoint fixed_axes (ax : axes) (iter_src iter_dst : list Z) (cur_iter_num cur_remain : Z) : Z * Z * list Z * list Z :=
  match ax, iter_src, iter_dst with
  | (axis_len, comm) :: ax, s :: iter_src, d :: iter_dst =>
      let '(cur_iter_num, cur_remain, iter_src, iter_dst) := fixed_axes ax iter_src iter_dst cur_iter_num cur_remain in
      if comm =? 0 then
        let cur_iter_num := cur_iter_num / axis_len in
        let i := cur_remain / cur_iter_num in
        (cur_iter_num, u32 (cur_remain - i * cur_iter_num), i :: iter_src, i :: iter_dst)
      else (cur_iter_num, cur_remain, s :: iter_src, d :: iter_dst)
  | _, _, _ => (cur_iter_num, cur_remain, [], [])
  end.

(** The loop from the first dimension: the coordinates on the axes that communicate. *)
Fixpoint comm_axes (ax : axes) (iter_src iter_dst : list Z) (cur_iter_src cur_iter_dst : Z) : list Z * list Z :=
  match ax, iter_src, iter_dst with
  | (axis_len, comm) :: ax, s :: iter_src, d :: iter_dst =>
      if comm =? 1 then
        let '(iter_src, iter_dst) := comm_axes ax iter_src iter_dst (cur_iter_src / axis_len) (cur_iter_dst / axis_len) in
        (cur_iter_src mod axis_len :: iter_src, cur_iter_dst mod axis_len :: iter_dst)
      else
        let '(iter_src, iter_dst) := comm_axes ax iter_src iter_dst cur_iter_src cur_iter_dst in
        (s :: iter_src, d :: iter_dst)
  | _, _, _ => ([], [])
  end.

(** [src_rank_id] and [src_rg_id] (or the destination's): a division per dimension. *)
Fixpoint group_ids (ax : axes) (iter : list Z) (temp_total_product rank_id rg_id : Z) : Z * Z :=
  match ax, iter with
  | (axis_len, _) :: ax, i :: iter =>
      group_ids ax iter (u32 (temp_total_product * axis_len)) (u32 (rank_id + u32 (i * temp_total_product) / 8))
        (u32 (rg_id + u32 (i * temp_total_product)))
  | _, _ => (rank_id, rg_id mod 8)
  end.

(** ** One thread *)

Section Threads.
Variables (axis_len comm_axis : list Z).
Variables (src_start_offset dst_start_offset dpu_byte_length comm_type communication_buffer_offset : Z).

Definition group_axes : axes :=
  match zip axis_len comm_axis with (len, c) :: ax => (len / 8, c) :: ax | [] => [] end.

(** [total_iter_num] and [total_axis_product]. *)
Definition axis_products : Z * Z :=
  let '(total_iter_num, total_axis_product) :=
    foldl (fun '(t, a) '(len, c) => (u32 (t * len), if c =? 1 then u32 (a * len) else a)) (1, 1) (zip axis_len comm_axis) in
  let total_axis_product := if comm_type =? 0 then total_axis_product / 8 else total_axis_product in
  (u32 (total_iter_num / 8 * total_axis_product), total_axis_product).

(** [start_point] and the number of turns, with one thread per pair of groups. *)
Definition thread_span (total_iter_num num_thread thread_id : Z) : Z * Z :=
  let share := total_iter_num / num_thread in
  let remainder := total_iter_num mod num_thread in
  if thread_id <? remainder then (u32 (share * thread_id + thread_id), share + 1)
  else (u32 (share * thread_id + remainder), share).

(** The coordinates of the two groups of turn i and the offsets of their blocks. *)
Definition turn (i : Z) (iter : list Z * list Z) : list Z * list Z * Z * Z :=
  let '(total_iter_num, total_axis_product) := axis_products in
  let '(_, cur_remain, iter_src, iter_dst) := fixed_axes group_axes (fst iter) (snd iter) total_iter_num i in
  let cur_iter_src := cur_remain / total_axis_product in
  let cur_iter_dst := cur_remain mod total_axis_product in
  let blocks := if comm_type =? 0 then 8 else 1 in
  let src_start_offset_iter := u32 (src_start_offset + cur_iter_dst * blocks * dpu_byte_length) in
  let dst_start_offset_iter := u32 (dst_start_offset + cur_iter_src * blocks * dpu_byte_length) in
  let '(iter_src, iter_dst) := comm_axes group_axes iter_src iter_dst cur_iter_src cur_iter_dst in
  (iter_src, iter_dst, src_start_offset_iter, dst_start_offset_iter).

Definition turn_copies (t : list Z * list Z * Z * Z) : list copy :=
  let '(iter_src, iter_dst, src_start_offset_iter, dst_start_offset_iter) := t in
  let '(src_rank_id, src_rg_id) := group_ids group_axes iter_src 1 0 0 in
  let '(dst_rank_id, dst_rg_id) := group_ids group_axes iter_dst 1 0 0 in
  xeon_sp_trans_all_to_all_rg src_rank_id dst_rank_id src_rg_id dst_rg_id src_start_offset_iter dst_start_offset_iter
    dpu_byte_length comm_type communication_buffer_offset.

Definition thread_all_to_all_rns (num_thread thread_id : Z) : list copy :=
  let '(start_point, nb_turns) := thread_span (fst axis_products) num_thread thread_id in
  let zeros := replicate (length axis_len) 0 in
  snd (foldl (fun '(iter, copies) i =>
      let t := turn i iter in (fst (fst t), copies ++ turn_copies t))
    ((zeros, zeros), []) (seqZ start_point nb_turns)).

(** The copies of each of the 32 threads. With a first axis below 8 no thread is
    created, but all of them are joined: [None]. *)
Definition thread_num := 32.
Definition hw_all_to_all_rns : option (list (list copy)) :=
  if 8 <=? axis_len.[0] then Some (map (thread_all_to_all_rns thread_num) (seqZ 0 thread_num)) else None.
End Threads.

(** ** Mixed radix *)

(** The number that the coordinates on the axes of kind [b] stand for, the first
    one the least significant, and the number of these. *)
Fixpoint index_on (b : Z) (ax : axes) (v : list Z) : Z :=
  match ax, v with
  | (len, c) :: ax, d :: v => if c =? b then d + len * index_on b ax v else index_on b ax v
  | _, _ => 0
  end.
Fixpoint size_on (b : Z) (ax : axes) : Z :=
  match ax with
  | (len, c) :: ax => if c =? b then len * size_on b ax else size_on b ax
  | [] => 1
  end.
(** The number of a group, over all the axes. *)
Fixpoint group_number (ax : axes) (v : list Z) : Z :=
  match ax, v with
  | (len, _) :: ax, d :: v => d + len * group_number ax v
  | _, _ => 0
  end.
Fixpoint nb_groups (ax : axes) : Z := match ax with (len, _) :: ax => len * nb_groups ax | [] => 1 end.

Definition axes_wf (ax : axes) : Prop := Forall (fun x => 0 < x.1 /\ (x.2 = 0 \/ x.2 = 1)) ax.
Definition coordinates (ax : axes) (v : list Z) : Prop := Forall2 (fun x d => 0 <= d < x.1) ax v.

Lemma size_on_pos b ax : axes_wf ax -> 0 < size_on b ax.
Proof. induction 1 as [|[len c] ax [Hl Hc] _ IH]; cbn [size_on fst snd] in *; [lia|]. destruct (c =? b); nia. Qed.

Lemma sizes ax : axes_wf ax -> nb_groups ax = size_on 0 ax * size_on 1 ax.
Proof.
  induction 1 as [|[len c] ax [Hl Hc] _ IH]; [done|]. cbn [nb_groups size_on fst snd] in *. rewrite IH.
  destruct Hc as [-> | ->]; cbn [Z.eqb Pos.eqb]; ring.
Qed.

Lemma index_on_range b ax v : coordinates ax v -> 0 <= index_on b ax v < size_on b ax.
Proof.
  induction 1 as [|[len c] d ax v Hd _ IH]; cbn [index_on size_on fst] in *; [lia|]. destruct (c =? b); nia.
Qed.

Lemma group_number_range ax v : coordinates ax v -> 0 <= group_number ax v < nb_groups ax.
Proof. induction 1 as [|[len c] d ax v Hd _ IH]; cbn [group_number nb_groups fst] in *; [lia|]. nia. Qed.

Lemma radix_unique len d e x y : 0 <= d < len -> 0 <= e < len -> d + len * x = e + len * y -> d = e /\ x = y.
Proof.
  intros Hd He H. assert (x = y) as ->; [|lia].
  transitivity ((d + len * x) / len); [|symmetry].
  - apply (Z.div_unique _ _ _ d); [by left|lia].
  - apply (Z.div_unique _ _ _ e); [by left|lia].
Qed.

(** The two numbers determine the coordinates, and so does the number of the group. *)
Lemma index_on_inj ax v w : axes_wf ax -> coordinates ax v -> coordinates ax w ->
  index_on 0 ax v = index_on 0 ax w -> index_on 1 ax v = index_on 1 ax w -> v = w.
Proof.
  intros Hwf Hv. revert w Hwf. induction Hv as [|[len c] d ax v Hd Hv IH]; intros w Hwf Hw H0 H1.
  { by inversion Hw. }
  inversion Hw as [|? e ? w' He Hw']; subst. apply list_relations.list.Forall_cons in Hwf as [[Hl Hc] Hwf].
  cbn [fst snd index_on] in *.
  destruct Hc as [-> | ->]; cbn [Z.eqb Pos.eqb] in *.
  - apply radix_unique in H0 as [-> Hi]; [|done|done]. f_equal. by apply IH.
  - apply radix_unique in H1 as [-> Hi]; [|done|done]. f_equal. by apply IH.
Qed.

Lemma group_number_inj ax v w : coordinates ax v -> coordinates ax w -> group_number ax v = group_number ax w -> v = w.
Proof.
  intros Hv. revert w. induction Hv as [|[len c] d ax v Hd Hv IH]; intros w Hw H.
  { by inversion Hw. }
  inversion Hw as [|? e ? w' He Hw']; subst. cbn [fst group_number] in *.
  apply radix_unique in H as [-> Hi]; [|done|done]. f_equal. by apply IH.
Qed.

(** ** What a turn decodes *)

Definition agree_on (b : Z) (ax : axes) (v w : list Z) : Prop := index_on b ax v = index_on b ax w.

Lemma fixed_axes_spec ax v w M rem : axes_wf ax -> length v = length ax -> length w = length ax ->
  0 < M -> 0 <= rem < size_on 0 ax * M -> size_on 0 ax * M < 2 ^ 32 ->
  exists v' w', fixed_axes ax v w (size_on 0 ax * M) rem = (M, rem mod M, v', w') /\
    length v' = length ax /\ length w' = length ax /\
    Forall2 (fun x d => x.2 = 0 -> 0 <= d < x.1) ax v' /\ Forall2 (fun x d => x.2 = 0 -> 0 <= d < x.1) ax w' /\
    index_on 0 ax v' = rem / M /\ index_on 0 ax w' = rem / M.
Proof.
  intros Hwf. revert v w M. induction Hwf as [|[len c] ax [Hl Hc] Hwf IH]; intros v w M Hv Hw HM Hrem Hfit.
  { cbn [size_on] in *. rewrite Z.mul_1_l in *. exists [], []. cbn.
    rewrite Z.mod_small, Z.div_small by lia. split_and!; try done; by constructor. }
  destruct v as [|s v]; [done|]. destruct w as [|d w]; [done|]. cbn [length] in Hv, Hw. injection Hv as Hv. injection Hw as Hw.
  pose proof (size_on_pos 0 ax Hwf) as Hpos. cbn [fst snd size_on fixed_axes index_on] in *.
  destruct Hc as [-> | ->]; cbn [Z.eqb Pos.eqb] in *.
  - replace (len * size_on 0 ax * M) with (size_on 0 ax * (len * M)) in * by ring.
    destruct (IH v w (len * M) Hv Hw ltac:(nia) Hrem Hfit) as (v' & w' & -> & Hlv & Hlw & Hdv & Hdw & Hiv & Hiw).
    rewrite (Z.mul_comm len M), Z.div_mul by lia.
    pose proof (Z.mod_pos_bound rem (M * len) ltac:(nia)) as Hb. set (r := rem mod (M * len)) in *.
    assert (u32 (r - r / M * M) = rem mod M) as Hu.
    { replace (r - r / M * M) with (r mod M) by (rewrite Z.mod_eq by lia; lia).
      assert (r mod M = rem mod M) as ->.
      { unfold r. rewrite Z.rem_mul_r by lia. rewrite (Z.mul_comm M), Z.mod_add, Z.mod_mod by lia. done. }
      apply u32_id. pose proof (Z.mod_pos_bound rem M HM). unfold fits. nia. }
    assert (0 <= r / M < len) as Hq by (split; [apply Z.div_pos; lia|apply Z.div_lt_upper_bound; lia]).
    assert (r / M + len * (rem / (len * M)) = rem / M) as Hi.
    { unfold r. rewrite (Z.mul_comm len M), <- (Z.div_div rem M len) by lia. rewrite Z.rem_mul_r by lia.
      rewrite (Z.mul_comm M), Z.div_add by lia. rewrite (Z.div_small (rem mod M)) by (by apply Z.mod_pos_bound).
      pose proof (Z.div_mod (rem / M) len ltac:(lia)). lia. }
    exists (r / M :: v'), (r / M :: w'). rewrite Hu. split; [done|]. cbn [length]. rewrite Hlv, Hlw.
    split_and!; try done; [by constructor..| |]; cbn [Z.eqb]; rewrite ?Hiv, ?Hiw; exact Hi.
  - destruct (IH v w M Hv Hw HM Hrem Hfit) as (v' & w' & -> & Hlv & Hlw & Hdv & Hdw & Hiv & Hiw).
    exists (s :: v'), (d :: w'). cbn [length Z.eqb]. rewrite Hlv, Hlw. split_and!; try done; by constructor.
Qed.

Lemma comm_axes_spec ax v w x y : axes_wf ax ->
  Forall2 (fun x d => x.2 = 0 -> 0 <= d < x.1) ax v -> Forall2 (fun x d => x.2 = 0 -> 0 <= d < x.1) ax w ->
  0 <= x < size_on 1 ax -> 0 <= y < size_on 1 ax ->
  let '(v', w') := comm_axes ax v w x y in
  coordinates ax v' /\ coordinates ax w' /\ index_on 1 ax v' = x /\ index_on 1 ax w' = y /\
  index_on 0 ax v' = index_on 0 ax v /\ index_on 0 ax w' = index_on 0 ax w.
Proof.
  intros Hwf. revert v w x y. induction Hwf as [|[len c] ax [Hl Hc] Hwf IH]; intros v w x y Hv Hw Hx Hy.
  { inversion Hv; inversion Hw; subst. cbn [size_on] in *. cbn. split_and!; try done; try constructor; lia. }
  inversion Hv as [|? d ? v1 Hd Hv1]; inversion Hw as [|? e ? w1 He Hw1]; subst.
  cbn [fst snd comm_axes size_on] in *.
  destruct Hc as [-> | ->]; cbn [Z.eqb Pos.eqb] in *.
  - specialize (IH v1 w1 x y Hv1 Hw1 Hx Hy). destruct (comm_axes ax v1 w1 x y) as [v' w'].
    destruct IH as (H1 & H2 & H3 & H4 & H5 & H6). cbn [index_on Z.eqb]. rewrite H5, H6.
    split_and!; try done; constructor; try done; cbn; auto.
  - specialize (IH v1 w1 (x / len) (y / len) Hv1 Hw1).
    destruct (comm_axes ax v1 w1 (x / len) (y / len)) as [v' w'].
    destruct IH as (H1 & H2 & H3 & H4 & H5 & H6);
      [split; [apply Z.div_pos; lia|apply Z.div_lt_upper_bound; lia]..|].
    cbn [index_on Z.eqb Pos.eqb]. rewrite H3, H4, H5, H6.
    split_and!; try done; try (constructor; [cbn; by apply Z.mod_pos_bound|done]);
      pose proof (Z.div_mod x len ltac:(lia)); pose proof (Z.div_mod y len ltac:(lia)); lia.
Qed.

(** Ranks hold eight groups: the products of the lengths divide 8 or are
    multiples of 8, so that no rank is cut in the middle of an axis. *)
Fixpoint ranks_on_axes (product : Z) (ax : axes) : Prop :=
  match ax with
  | [] => True
  | (len, _) :: ax => ((product * len | 8) \/ (8 | product * len)) /\ ranks_on_axes (product * len) ax
  end.

Lemma div_by_parts P len d f : 0 < P -> 0 <= d < len -> 0 <= f -> (P * len | 8) \/ (8 | P * len) ->
  d * P / 8 + P * len * f / 8 = P * (d + len * f) / 8.
Proof.
  intros HP Hd Hf H. replace (P * (d + len * f)) with (d * P + P * len * f) by ring. destruct H as [[q Hq]|[q Hq]].
  - assert (0 < P * len) as Hpos by nia. set (L := P * len) in *. assert (0 < q) by nia.
    assert (0 <= d * P < L) by (unfold L; nia). assert (L * f = L * (f mod q) + f / q * 8) as ->.
    { pose proof (Z.div_mod f q ltac:(lia)) as Hdm. rewrite Hq. set (a := f mod q) in *. set (b := f / q) in *. rewrite Hdm. ring. }
    pose proof (Z.mod_pos_bound f q ltac:(lia)). rewrite Z.add_assoc, !Z.div_add by lia.
    rewrite (Z.div_small (d * P)), (Z.div_small (L * _)), (Z.div_small (_ + _)) by nia. lia.
  - rewrite Hq. replace (q * 8 * f) with (q * f * 8) by ring. rewrite Z.div_add, Z.div_mul by lia. lia.
Qed.

Lemma group_ids_spec ax v P rank rg : axes_wf ax -> coordinates ax v -> 0 < P -> ranks_on_axes P ax ->
  P * nb_groups ax < 2 ^ 32 -> 0 <= rank -> 0 <= rg ->
  rank + P * group_number ax v < 2 ^ 32 -> rg + P * group_number ax v < 2 ^ 32 ->
  group_ids ax v P rank rg = (rank + P * group_number ax v / 8, (rg + P * group_number ax v) mod 8).
Proof.
  intros Hwf Hv. revert P rank rg Hwf. induction Hv as [|[len c] d ax v Hd Hv IH]; intros P rank rg Hwf HP Hr Hfit H1 H2 H3 H4.
  { cbn. by rewrite Z.mul_0_r, !Z.add_0_r. }
  apply list_relations.list.Forall_cons in Hwf as [[Hl Hc] Hwf]. destruct Hr as [Hdiv Hr].
  pose proof (group_number_range ax v Hv) as Hg. cbn [fst snd group_ids group_number nb_groups] in *.
  assert (P * len <= P * (len * nb_groups ax)) as Hle by nia.
  replace (P * (d + len * group_number ax v)) with (d * P + P * len * group_number ax v) in * by ring.
  assert (0 <= d * P /\ 0 <= P * len * group_number ax v) as [Hdp Hpf] by nia.
  assert (0 <= d * P / 8 <= d * P) as Hdp8 by (split; [apply Z.div_pos; lia|apply Z.div_le_upper_bound; lia]).
  assert (0 < P * len) as HPl by nia. rewrite (u32_id (d * P)), !u32_id by (unfold fits; lia).
  rewrite IH; [|done|nia|done|nia|lia..].
  pose proof (div_by_parts P len d (group_number ax v) HP Hd ltac:(lia) Hdiv) as Hparts.
  replace (P * (d + len * group_number ax v)) with (d * P + P * len * group_number ax v) in Hparts by ring.
  f_equal; [|f_equal]; lia.
Qed.

(** The coordinates with given numbers. *)
Fixpoint unrank (ax : axes) (x0 x1 : Z) : list Z :=
  match ax with
  | (len, c) :: ax => if c =? 0 then x0 mod len :: unrank ax (x0 / len) x1 else x1 mod len :: unrank ax x0 (x1 / len)
  | [] => []
  end.

Lemma unrank_spec ax x0 x1 : axes_wf ax -> 0 <= x0 < size_on 0 ax -> 0 <= x1 < size_on 1 ax ->
  coordinates ax (unrank ax x0 x1) /\ index_on 0 ax (unrank ax x0 x1) = x0 /\ index_on 1 ax (unrank ax x0 x1) = x1.
Proof.
  intros Hwf. revert x0 x1. induction Hwf as [|[len c] ax [Hl Hc] Hwf IH]; intros x0 x1 H0 H1.
  { cbn [size_on] in *. cbn. split_and!; [constructor|lia..]. }
  cbn [fst snd size_on unrank] in *. destruct Hc as [-> | ->]; cbn [Z.eqb Pos.eqb] in *.
  - destruct (IH (x0 / len) x1) as (Hv & Hi0 & Hi1);
      [split; [apply Z.div_pos; lia|apply Z.div_lt_upper_bound; lia]|done|].
    cbn [index_on Z.eqb]. rewrite Hi0, Hi1. split; [constructor; [by apply Z.mod_pos_bound|done]|].
    split; [|done]. pose proof (Z.div_mod x0 len ltac:(lia)). lia.
  - destruct (IH x0 (x1 / len)) as (Hv & Hi0 & Hi1);
      [done|split; [apply Z.div_pos; lia|apply Z.div_lt_upper_bound; lia]|].
    cbn [index_on Z.eqb Pos.eqb]. rewrite Hi0, Hi1. split; [constructor; [by apply Z.mod_pos_bound|done]|].
    split; [done|]. pose proof (Z.div_mod x1 len ltac:(lia)). lia.
Qed.

Lemma unrank_of ax v : axes_wf ax -> coordinates ax v -> unrank ax (index_on 0 ax v) (index_on 1 ax v) = v.
Proof.
  intros Hwf Hv. pose proof (index_on_range 0 ax v Hv) as H0. pose proof (index_on_range 1 ax v Hv) as H1.
  destruct (unrank_spec ax _ _ Hwf H0 H1) as (Hc & Hi0 & Hi1). by apply (index_on_inj ax).
Qed.

(** ** The turns of an exchange *)

(** The hypercube: its first axis runs over whole rotate groups, no rank is cut,
    and nothing wraps around. *)
Record hypercube (axis_len comm_axis : list Z) : Prop := {
  hc_length : length comm_axis = length axis_len;
  hc_nonempty : axis_len <> [];
  hc_first : axis_len.[0] mod 8 = 0;
  hc_axes : axes_wf (group_axes axis_len comm_axis);
  hc_ranks : ranks_on_axes 1 (group_axes axis_len comm_axis);
  hc_fits : 8 * nb_groups (group_axes axis_len comm_axis) * size_on 1 (group_axes axis_len comm_axis) < 2 ^ 32;
}.

Lemma products_spec l t a : axes_wf l -> 0 < t -> 0 < a -> t * nb_groups l < 2 ^ 32 -> a * size_on 1 l < 2 ^ 32 ->
  foldl (fun '(t, a) '(len, c) => (u32 (t * len), if c =? 1 then u32 (a * len) else a)) (t, a) l =
  (t * nb_groups l, a * size_on 1 l).
Proof.
  intros Hwf. revert t a. induction Hwf as [|[len c] l [Hl Hc] Hwf IH]; intros t a Ht Ha Hft Hfa.
  { cbn. by rewrite !Z.mul_1_r. }
  pose proof (size_on_pos 1 l Hwf). pose proof (size_on_pos 0 l Hwf). pose proof (sizes l Hwf).
  assert (0 < nb_groups l) by nia. cbn [foldl nb_groups size_on fst snd] in *.
  rewrite (u32_id (t * len)) by (unfold fits; nia).
  destruct Hc as [-> | ->]; cbn [Z.eqb Pos.eqb] in *.
  - rewrite IH by nia. f_equal; ring.
  - rewrite (u32_id (a * len)) by (unfold fits; nia). rewrite IH by nia. f_equal; ring.
Qed.

(** The areas of the blocks, apart and inside the MRAMs. *)
Record exchange_range (src dst len comm_type buf nb_dests : Z) : Prop := {
  er_src : 0 <= src;
  er_dst : 0 <= dst;
  er_length : 0 <= len;
  er_buffer : 0 <= buf;
  er_src_end : src + 1024 * 1024 + nb_dests * len <= 2 ^ 26;
  er_dst_end : dst + 1024 * 1024 + buf + nb_dests * len <= 2 ^ 26;
  er_apart : src + nb_dests * len <= dst + buf \/ dst + buf + nb_dests * len <= src;
  er_words : src mod 8 = 0 /\ dst mod 8 = 0 /\ len mod 8 = 0 /\ buf mod 8 = 0;
  er_blocks : (len mod 64 = 0 /\ buf mod 64 = 0) \/ (comm_type = 0 /\ (src mod 64 <> 0 \/ dst mod 64 <> 0));
}.

Section Exchange.
Variables (axis_len comm_axis : list Z) (src dst len comm_type buf : Z).
Hypothesis Hcube : hypercube axis_len comm_axis.
Hypothesis Htype : comm_type = if comm_axis.[0] =? 1 then 0 else 1.
Notation ax := (group_axes axis_len comm_axis).
Notation A := (size_on 1 ax).
Notation N := (size_on 0 ax).
Hypothesis Hrange : exchange_range src dst len comm_type buf (A * nb_passes comm_type).

(** The products of the lengths, the first one not divided by 8. *)
Lemma lengths_products :
  foldl (fun '(t, a) '(len, c) => (u32 (t * len), if c =? 1 then u32 (a * len) else a)) (1, 1) (zip axis_len comm_axis) =
  (8 * (N * A), A * nb_passes comm_type).
Proof using Hcube Htype.
  clear Hrange. destruct Hcube as [Hlen Hne Hfirst Hax _ Hfit]. pose proof (size_on_pos 1 ax Hax) as HA. pose proof (size_on_pos 0 ax Hax) as HN.
  rewrite (sizes ax Hax) in Hfit. rewrite Htype. clear Htype.
  destruct axis_len as [|x0 xs]; [done|]. destruct comm_axis as [|c0 cs]; [done|].
  unfold group_axes in *. change (zip (x0 :: xs) (c0 :: cs)) with ((x0, c0) :: zip xs cs) in *.
  change ((x0 :: xs).[0]) with x0 in Hfirst. change ((c0 :: cs).[0]) with c0.
  apply list_relations.list.Forall_cons in Hax as [[Hx0 Hc0] Hax]. cbn [fst snd] in Hx0, Hc0.
  pose proof (sizes _ Hax) as Hsz. pose proof (size_on_pos 0 _ Hax). pose proof (size_on_pos 1 _ Hax).
  assert (x0 = 8 * (x0 / 8)) as Hx by (Z.div_mod_to_equations; lia). set (y := x0 / 8) in *. rewrite Hx.
  assert (axes_wf ((8 * y, c0) :: zip xs cs)) as Hax' by (apply list_relations.list.Forall_cons; split; [cbn; lia|done]).
  cbn [size_on] in *. set (S0 := size_on 0 (zip xs cs)) in *. set (S1 := size_on 1 (zip xs cs)) in *.
  destruct Hc0 as [-> | ->]; cbn [Z.eqb Pos.eqb] in *.
  - assert (0 < y * S0 * S1 /\ y * S0 * S1 <= y * S0 * S1 * S1) as [Hp Hle] by nia.
    rewrite (products_spec _ 1 1 Hax') by (cbn [nb_groups size_on Z.eqb]; fold S1; rewrite ?Hsz; nia).
    cbn [nb_groups size_on Z.eqb]. fold S1. rewrite Hsz. change (nb_passes 1) with 1. f_equal; ring.
  - assert (0 < y * S0 * S1 /\ y * S0 * S1 <= y * S0 * S1 * (y * S1) /\ y * S1 <= y * S0 * S1) as (Hp & Hle & Hle') by nia.
    rewrite (products_spec _ 1 1 Hax') by (cbn [nb_groups size_on Z.eqb Pos.eqb]; fold S1; rewrite ?Hsz; nia).
    cbn [nb_groups size_on Z.eqb Pos.eqb]. fold S1. rewrite Hsz. change (nb_passes 0) with 8. f_equal; ring.
Qed.

Lemma product_of_axes : (if comm_type =? 0 then A * nb_passes comm_type / 8 else A * nb_passes comm_type) = A.
Proof using Type. clear. unfold nb_passes. destruct (comm_type =? 0); [by rewrite Z.div_mul|lia]. Qed.

Lemma axis_products_eq : axis_products axis_len comm_axis comm_type = (N * (A * A), A).
Proof using Hcube Htype.
  unfold axis_products. rewrite lengths_products, product_of_axes. clear Hrange. destruct Hcube as [_ _ _ Hax _ Hfit].
  pose proof (size_on_pos 1 ax Hax) as HA. pose proof (size_on_pos 0 ax Hax) as HN. rewrite (sizes ax Hax) in Hfit.
  rewrite (Z.mul_comm 8), Z.div_mul by lia. rewrite u32_id by (unfold fits; nia). f_equal. ring.
Qed.

(** The groups of turn i, and the index of their blocks. *)
Definition turn_src (i : Z) : list Z := unrank ax (i / (A * A)) (i mod (A * A) / A).
Definition turn_dst (i : Z) : list Z := unrank ax (i / (A * A)) (i mod A).

Lemma turn_ranges i : 0 <= i < N * (A * A) ->
  0 <= i / (A * A) < N /\ 0 <= i mod (A * A) / A < A /\ 0 <= i mod A < A.
Proof using Hcube.
  intros Hi. destruct Hcube as [_ _ _ Hax _ _]. pose proof (size_on_pos 1 ax Hax) as HA.
  split; [split; [apply Z.div_pos; nia|apply Z.div_lt_upper_bound; nia]|]. split; [|by apply Z.mod_pos_bound].
  pose proof (Z.mod_pos_bound i (A * A) ltac:(nia)). split; [apply Z.div_pos; lia|apply Z.div_lt_upper_bound; nia].
Qed.

Lemma turn_coordinates i : 0 <= i < N * (A * A) -> coordinates ax (turn_src i) /\ coordinates ax (turn_dst i) /\
  index_on 0 ax (turn_src i) = i / (A * A) /\ index_on 1 ax (turn_src i) = i mod (A * A) / A /\
  index_on 0 ax (turn_dst i) = i / (A * A) /\ index_on 1 ax (turn_dst i) = i mod A.
Proof using Hcube.
  intros Hi. destruct (turn_ranges i Hi) as (H0 & H1 & H2). destruct Hcube as [_ _ _ Hax _ _].
  destruct (unrank_spec ax _ _ Hax H0 H1) as (Hv & Hv0 & Hv1). destruct (unrank_spec ax _ _ Hax H0 H2) as (Hw & Hw0 & Hw1).
  split_and!; done.
Qed.

Lemma turn_eq i iter : 0 <= i < N * (A * A) -> length iter.1 = length ax -> length iter.2 = length ax ->
  turn axis_len comm_axis src dst len comm_type i iter =
  (turn_src i, turn_dst i, src + i mod A * nb_passes comm_type * len, dst + i mod (A * A) / A * nb_passes comm_type * len).
Proof using Hcube Htype Hrange.
  intros Hi Hv Hw. destruct (turn_ranges i Hi) as (H0 & H1 & H2). pose proof (hc_axes _ _ Hcube) as Hax.
  pose proof (hc_fits _ _ Hcube) as Hfit. rewrite (sizes ax Hax) in Hfit.
  pose proof (size_on_pos 1 ax Hax) as HA. pose proof (size_on_pos 0 ax Hax) as HN.
  unfold turn. rewrite axis_products_eq.
  destruct (fixed_axes_spec ax iter.1 iter.2 (A * A) i Hax Hv Hw ltac:(nia) Hi ltac:(nia)) as (v' & w' & -> & _ & _ & Hdv & Hdw & Hiv & Hiw).
  assert (i mod (A * A) mod A = i mod A) as Hmod by (rewrite Z.rem_mul_r, (Z.mul_comm A), Z.mod_add, Z.mod_mod by lia; done).
  rewrite Hmod. pose proof (comm_axes_spec ax v' w' (i mod (A * A) / A) (i mod A) Hax Hdv Hdw H1 H2) as Hc.
  destruct (comm_axes _ _ _ _ _) as [v w]. destruct Hc as (Hcv & Hcw & Hv1 & Hw1 & Hv0 & Hw0).
  destruct (turn_coordinates i Hi) as (Hs & Hd & Hs0 & Hs1 & Hd0 & Hd1).
  rewrite (index_on_inj ax v (turn_src i)), (index_on_inj ax w (turn_dst i)) by (done || congruence).
  destruct Hrange as [Rs Rd Rl Rb Rse Rde _ _ _]. unfold nb_passes in *.
  f_equal; [f_equal|]; apply u32_id; unfold fits; destruct (comm_type =? 0); nia.
Qed.
(** ** The threads make every turn once *)

Notation P := (nb_passes comm_type).
Definition turn_at (i : Z) : list Z * list Z * Z * Z :=
  (turn_src i, turn_dst i, src + i mod A * P * len, dst + i mod (A * A) / A * P * len).
Notation copies_at i := (turn_copies axis_len comm_axis len comm_type buf (turn_at i)).

Lemma length_group_axes : length ax = length axis_len.
Proof using Hcube.
  clear Hrange Htype. destruct Hcube as [Hlen Hne _ _ _ _]. destruct axis_len as [|x0 xs]; [done|]. destruct comm_axis as [|c0 cs]; [done|].
  change (zip (x0 :: xs) (c0 :: cs)) with ((x0, c0) :: zip xs cs). cbn [group_axes length] in *. cbn [zip zip_with group_axes length].
  f_equal. rewrite length_zip_with. lia.
Qed.

Lemma turns_foldl l iter copies : (forall i, i ∈ l -> 0 <= i < N * (A * A)) ->
  length iter.1 = length ax -> length iter.2 = length ax ->
  snd (foldl (fun '(iter, copies) i => let t := turn axis_len comm_axis src dst len comm_type i iter in
    (fst (fst t), copies ++ turn_copies axis_len comm_axis len comm_type buf t)) (iter, copies) l) =
  copies ++ concat (map (fun i => copies_at i) l).
Proof using Hcube Htype Hrange.
  revert iter copies. induction l as [|i l IH]; intros iter copies Hl Hv Hw; [by rewrite app_nil_r|].
  cbn [foldl map concat]. assert (0 <= i < N * (A * A)) as Hi by (apply Hl, elem_of_cons; by left).
  rewrite turn_eq by done. cbn [fst]. destruct (turn_coordinates i Hi) as (Hs & Hd & _).
  rewrite IH; [by rewrite <- app_assoc| | |].
  - intros j Hj. apply Hl, elem_of_cons. by right.
  - cbn [fst]. symmetry. by eapply Forall2_length.
  - cbn [snd]. symmetry. by eapply Forall2_length.
Qed.

Lemma spans_cover total n : 0 < n -> 0 <= total < 2 ^ 32 -> n < 2 ^ 32 ->
  concat (map (fun t => seqZ (fst (thread_span total n t)) (snd (thread_span total n t))) (seqZ 0 n)) = seqZ 0 total.
Proof using Type.
  intros Hn Htot Hn32. pose proof (Z.div_mod total n ltac:(lia)) as Hdm. pose proof (Z.mod_pos_bound total n Hn) as Hr.
  assert (0 <= total / n) as Hq by (apply Z.div_pos; lia).
  enough (forall k, 0 <= k -> k <= n ->
    concat (map (fun t => seqZ (fst (thread_span total n t)) (snd (thread_span total n t))) (seqZ 0 k)) =
    seqZ 0 (total / n * k + k `min` (total mod n))) as Hall.
  { rewrite Hall by lia. f_equal. nia. }
  apply (natlike_ind (fun k => k <= n -> _)); [intros _; by rewrite Z.mul_0_r, Z.min_l by lia|].
  intros k Hk IH Hle. unfold Z.succ. rewrite (seqZ_app 0 k 1) by lia. rewrite map_app, concat_app, IH by lia.
  rewrite Z.add_0_l, seqZ_1. cbn [map concat]. rewrite app_nil_r. unfold thread_span.
  destruct (Z.ltb_spec k (total mod n)); cbn [fst snd].
  - rewrite u32_id by (unfold fits; nia). rewrite !Z.min_l by lia.
    replace (total / n * (k + 1) + (k + 1)) with (total / n * k + k + (total / n + 1)) by ring.
    rewrite (seqZ_app 0 (total / n * k + k) (total / n + 1)) by nia. by rewrite Z.add_0_l.
  - rewrite u32_id by (unfold fits; nia). rewrite !Z.min_r by lia.
    replace (total / n * (k + 1) + total mod n) with (total / n * k + total mod n + total / n) by ring.
    rewrite (seqZ_app 0 (total / n * k + total mod n) (total / n)) by nia. by rewrite Z.add_0_l.
Qed.

(** What the threads do is what the turns do in order. *)
Notation span total n t := (seqZ (fst (thread_span total n t)) (snd (thread_span total n t))).
Lemma spans_concat {Y} (f : Z -> list Y) total n : 0 < n -> 0 <= total < 2 ^ 32 -> n < 2 ^ 32 ->
  concat (map (fun t => concat (map f (span total n t))) (seqZ 0 n)) = concat (map f (seqZ 0 total)).
Proof using Type.
  intros Hn Ht Hn32. clear Hcube Htype Hrange. rewrite <- (spans_cover total n) by done.
  by rewrite concat_map, map_map, concat_concat, map_map.
Qed.
Lemma span_range total n t i : 0 < n -> 0 <= total < 2 ^ 32 -> n < 2 ^ 32 -> 0 <= t < n -> i ∈ span total n t -> 0 <= i < total.
Proof using Type.
  intros Hn Htot Hn32 Ht Hi. clear Hcube Htype Hrange. enough (i ∈ seqZ 0 total) as Hin by (apply elem_of_seqZ in Hin; lia).
  rewrite <- (spans_cover total n) by done. apply list_elem_of_In, in_concat. exists (span total n t).
  split; [|by apply list_elem_of_In]. apply in_map_iff. exists t. split; [done|]. apply list_elem_of_In, elem_of_seqZ. lia.
Qed.

Lemma total_fits : 0 < N * (A * A) < 2 ^ 32.
Proof using Hcube.
  destruct Hcube as [_ _ _ Hax _ Hfit]. rewrite (sizes ax Hax) in Hfit.
  pose proof (size_on_pos 1 ax Hax). pose proof (size_on_pos 0 ax Hax). nia.
Qed.

Lemma threads_copies n : 0 < n < 2 ^ 32 ->
  concat (map (thread_all_to_all_rns axis_len comm_axis src dst len comm_type buf n) (seqZ 0 n)) =
  concat (map (fun i => copies_at i) (seqZ 0 (N * (A * A)))).
Proof using Hcube Htype Hrange.
  intros Hn. pose proof total_fits as Ht. rewrite <- (spans_concat (fun i => copies_at i) (N * (A * A)) n) by lia.
  f_equal. apply map_ext_in. intros t Hin%list_elem_of_In%elem_of_seqZ.
  pose proof (span_range (N * (A * A)) n t) as Hspan.
  unfold thread_all_to_all_rns. rewrite axis_products_eq. cbn [fst].
  destruct (thread_span (N * (A * A)) n t) as [start count]. cbn [fst snd] in *.
  rewrite turns_foldl; [done| |cbn [fst snd]; by rewrite length_replicate, length_group_axes..].
  intros i Hi. apply Hspan; (done || lia).
Qed.

(** ** The turns as moves of words *)

(** The place of the word u of the block area [base] of the group [v]. *)
Definition group_rank (v : list Z) : Z := group_number ax v / 8.
Definition group_in_rank (v : list Z) : Z := group_number ax v mod 8.
Definition turn_moves (i : Z) : list move :=
  group_moves (group_rank (turn_src i), group_in_rank (turn_src i)) (group_rank (turn_dst i), group_in_rank (turn_dst i))
    (src + i mod A * P * len + 1024 * 1024) (dst + i mod (A * A) / A * P * len + 1024 * 1024 + buf) comm_type (len / 8).
Definition exchange_moves : list move := concat (map turn_moves (seqZ 0 (N * (A * A)))).

Lemma nb_passes_pos : 1 <= P <= 8.
Proof using Type. clear. unfold nb_passes. destruct (comm_type =? 0); lia. Qed.

Lemma group_ids_number v : coordinates ax v -> group_ids ax v 1 0 0 = (group_rank v, group_in_rank v).
Proof using Hcube.
  intros Hv. pose proof (group_number_range ax v Hv). destruct Hcube as [_ _ _ Hax Hr Hfit].
  pose proof (size_on_pos 1 ax Hax). pose proof (size_on_pos 0 ax Hax). pose proof (sizes ax Hax).
  assert (nb_groups ax < 2 ^ 32) as Hnb by (assert (0 <= nb_groups ax * (size_on 1 ax - 1)) by nia; nia).
  rewrite group_ids_spec by (done || lia). unfold group_rank, group_in_rank. by rewrite !Z.mul_1_l, !Z.add_0_l.
Qed.

Lemma group_in_rank_range v : 0 <= group_in_rank v < 8.
Proof using Type. apply Z.mod_pos_bound. lia. Qed.

(** The offset of the block of index d. *)
Lemma block_range d : 0 <= d < A -> 0 <= d * P * len /\ d * P * len + P * len <= A * P * len.
Proof using Hrange. intros Hd. destruct Hrange as [_ _ Hl _ _ _ _ _ _]. pose proof nb_passes_pos. nia. Qed.

Lemma turn_range i : 0 <= i < N * (A * A) ->
  a2a_range (src + i mod A * P * len) (dst + i mod (A * A) / A * P * len) len buf P.
Proof using Hcube Hrange.
  intros Hi. destruct (turn_ranges i Hi) as (_ & H1 & H2). apply block_range in H1 as [H1 H1'], H2 as [H2 H2'].
  pose proof nb_passes_pos. destruct Hrange as [Rs Rd Rl Rb Rse Rde _ (M1 & M2 & M3 & M4) Hbl].
  assert (len = 8 * (len / 8)) as Hl8 by (Z.div_mod_to_equations; lia).
  assert (forall d b, b mod 8 = 0 -> (b + d * P * len) mod 8 = 0) as Hm8.
  { intros d b Hb. rewrite Hl8. replace (b + d * P * (8 * (len / 8))) with (b + d * P * (len / 8) * 8) by ring. by rewrite Z.mod_add. }
  split; try lia; [by auto|]. intros Hs64 Hd64. destruct Hbl as [Hbl|[Ht Hbl]]; [done|]. exfalso.
  assert (forall d b, (b + d * P * len) mod 64 = 0 -> b mod 64 = 0) as Hm64.
  { intros d b. unfold nb_passes. rewrite Ht, Z.eqb_refl, Hl8.
    replace (b + d * 8 * (8 * (len / 8))) with (b + d * (len / 8) * 64) by ring. by rewrite Z.mod_add. }
  apply Hm64 in Hs64, Hd64. lia.
Qed.

Lemma copies_at_moves i : 0 <= i < N * (A * A) -> copies_at i = map copy_of (turn_moves i).
Proof using Hcube Hrange.
  intros Hi. destruct (turn_coordinates i Hi) as (Hs & Hd & _). unfold turn_copies, turn_at.
  rewrite !group_ids_number by done.
  rewrite all_to_all_rg_copies by (apply group_in_rank_range || by apply turn_range).
  apply group_copies_moves. apply Z.div_pos; [|lia]. apply Hrange.
Qed.

Lemma threads_moves n : 0 < n < 2 ^ 32 ->
  concat (map (thread_all_to_all_rns axis_len comm_axis src dst len comm_type buf n) (seqZ 0 n)) = map copy_of exchange_moves.
Proof using Hcube Htype Hrange.
  intros Hn. rewrite threads_copies by done. unfold exchange_moves. rewrite concat_map, map_map. f_equal.
  apply map_ext_in. intros i Hi%list_elem_of_In%elem_of_seqZ. apply copies_at_moves. lia.
Qed.

(** The words of the moves, from the coordinates of the groups. *)
Definition words_of_turn : Z := P * (len / 8).
Definition source (v w : list Z) (u : Z) : place :=
  (group_rank v, group_in_rank v, src + index_on 1 ax w * P * len + 1024 * 1024 + 8 * u).
Definition target (v w : list Z) (u : Z) : place :=
  (group_rank w, group_in_rank w, dst + index_on 1 ax v * P * len + 1024 * 1024 + buf + 8 * u).

Lemma elem_of_exchange mv : mv ∈ exchange_moves <-> exists v w u, coordinates ax v /\ coordinates ax w /\
  index_on 0 ax v = index_on 0 ax w /\ 0 <= u < words_of_turn /\
  mv = (source v w u, pass_rns comm_type (u / (len / 8)), target v w u).
Proof using Hcube.
  unfold exchange_moves. rewrite list_elem_of_In, in_concat. split.
  - intros (l & (i & <- & Hi%list_elem_of_In%elem_of_seqZ)%in_map_iff & (u & <- & Hu%list_elem_of_In%elem_of_seqZ)%in_map_iff).
    destruct (turn_coordinates i ltac:(lia)) as (Hs & Hd & Hs0 & Hs1 & Hd0 & Hd1).
    exists (turn_src i), (turn_dst i), u. split_and!; try done; [congruence|unfold words_of_turn; lia..|].
    unfold group_move, source, target. rewrite Hs1, Hd1. done.
  - intros (v & w & u & Hv & Hw & Heq & Hu & ->). destruct Hcube as [_ _ _ Hax _ _].
    pose proof (size_on_pos 1 ax Hax) as HA. pose proof (index_on_range 0 ax v Hv) as H0.
    pose proof (index_on_range 1 ax v Hv) as H1. pose proof (index_on_range 1 ax w Hw) as H2.
    set (i := index_on 0 ax v * (A * A) + (index_on 1 ax v * A + index_on 1 ax w)).
    assert (0 <= index_on 1 ax v * A + index_on 1 ax w < A * A) as Hlow by nia.
    assert (i / (A * A) = index_on 0 ax v) as E0 by (symmetry; apply (Z.div_unique _ _ _ (index_on 1 ax v * A + index_on 1 ax w)); [left|unfold i]; lia).
    assert (i mod (A * A) = index_on 1 ax v * A + index_on 1 ax w) as E1 by (symmetry; apply (Z.mod_unique _ _ (index_on 0 ax v)); [left|unfold i]; lia).
    assert (i mod A = index_on 1 ax w) as E2 by (symmetry; apply (Z.mod_unique _ _ (index_on 0 ax v * A + index_on 1 ax v)); [left; lia|unfold i; ring]).
    assert (i mod (A * A) / A = index_on 1 ax v) as E3 by (rewrite E1; symmetry; apply (Z.div_unique _ _ _ (index_on 1 ax w)); [left|]; lia).
    exists (turn_moves i). split.
    + apply in_map. apply list_elem_of_In, elem_of_seqZ. unfold i. nia.
    + assert (turn_src i = v) as Ev by (unfold turn_src; rewrite E0, E3; by apply unrank_of).
      assert (turn_dst i = w) as Ew by (unfold turn_dst; rewrite E0, E2, Heq; by apply unrank_of).
      unfold turn_moves. rewrite Ev, Ew, E2, E3. apply in_map_iff. exists u. split; [done|].
      apply list_elem_of_In, elem_of_seqZ. unfold words_of_turn in Hu. lia.
Qed.

Lemma words_length u : 0 <= u < words_of_turn -> 0 <= 8 * u /\ 8 * u + 8 <= P * len.
Proof using Hrange.
  intros Hu. unfold words_of_turn in Hu. destruct Hrange as [_ _ _ _ _ _ _ (_ & _ & Hl & _) _].
  assert (len = 8 * (len / 8)) as Hl8 by (Z.div_mod_to_equations; lia). nia.
Qed.

Lemma block_words d b : b mod 8 = 0 -> (b + d * P * len) mod 8 = 0.
Proof using Hrange.
  intros Hb. destruct Hrange as [_ _ _ _ _ _ _ (_ & _ & Hl & _) _].
  assert (len = 8 * (len / 8)) as Hl8 by (Z.div_mod_to_equations; lia). rewrite Hl8.
  replace (b + d * P * (8 * (len / 8))) with (b + d * P * (len / 8) * 8) by ring. by rewrite Z.mod_add.
Qed.

Lemma source_ok v w u : coordinates ax w -> 0 <= u < words_of_turn -> place_ok (source v w u) /\
  src + 1024 * 1024 <= snd (source v w u) /\ snd (source v w u) + 8 <= src + 1024 * 1024 + A * P * len.
Proof using Hrange.
  intros Hw Hu. apply words_length in Hu. pose proof (index_on_range 1 ax w Hw) as Hi. apply block_range in Hi.
  pose proof (block_words (index_on 1 ax w) src) as Hb. destruct Hrange as [? ? ? ? ? ? _ (? & ? & ? & ?) _].
  specialize (Hb ltac:(done)). unfold source, place_ok. cbn [snd]. split; [|lia].
  split; [apply group_in_rank_range|]. unfold fits. split; [lia|Z.div_mod_to_equations; lia].
Qed.

Lemma target_ok v w u : coordinates ax v -> 0 <= u < words_of_turn -> place_ok (target v w u) /\
  dst + 1024 * 1024 + buf <= snd (target v w u) /\ snd (target v w u) + 8 <= dst + 1024 * 1024 + buf + A * P * len.
Proof using Hrange.
  intros Hv Hu. apply words_length in Hu. pose proof (index_on_range 1 ax v Hv) as Hi. apply block_range in Hi.
  pose proof (block_words (index_on 1 ax v) dst) as Hb. destruct Hrange as [? ? ? ? ? ? _ (? & ? & ? & ?) _].
  specialize (Hb ltac:(done)). unfold target, place_ok. cbn [snd]. split; [|lia].
  split; [apply group_in_rank_range|]. unfold fits. split; [lia|Z.div_mod_to_equations; lia].
Qed.

Lemma group_place_inj v w : coordinates ax v -> coordinates ax w ->
  group_rank v = group_rank w -> group_in_rank v = group_in_rank w -> v = w.
Proof using Type.
  intros Hv Hw Hr Hg. apply (group_number_inj ax); [done|done|]. unfold group_rank, group_in_rank in *.
  rewrite (Z.div_mod (group_number ax v) 8), (Z.div_mod (group_number ax w) 8) by lia. lia.
Qed.

Lemma target_inj v w u v' w' u' : coordinates ax v -> coordinates ax w -> coordinates ax v' -> coordinates ax w' ->
  index_on 0 ax v = index_on 0 ax w -> index_on 0 ax v' = index_on 0 ax w' ->
  0 <= u < words_of_turn -> 0 <= u' < words_of_turn -> target v w u = target v' w' u' -> v = v' /\ w = w' /\ u = u'.
Proof using Hcube Hrange.
  intros Hv Hw Hv' Hw' H0 H0' Hu Hu' Heq. unfold target in Heq.
  assert (group_rank w = group_rank w' /\ group_in_rank w = group_in_rank w' /\
    index_on 1 ax v * P * len + 8 * u = index_on 1 ax v' * P * len + 8 * u') as (Hr & Hg & Ho)
    by (injection Heq; intros; split_and!; try done; lia).
  assert (w = w') as <- by by apply group_place_inj. apply words_length in Hu, Hu'.
  destruct (radix_unique (P * len) (8 * u) (8 * u') (index_on 1 ax v) (index_on 1 ax v')) as [Hu1 Hi]; [lia..|].
  split_and!; [|done|lia]. apply (index_on_inj ax); [apply Hcube|done|done|congruence|done].
Qed.

Lemma NoDup_concat_map {X Y} (f : X -> list Y) l : NoDup l -> (forall x, x ∈ l -> NoDup (f x)) ->
  (forall x x' y, x ∈ l -> x' ∈ l -> y ∈ f x -> y ∈ f x' -> x = x') -> NoDup (concat (map f l)).
Proof using Type.
  clear. intros Hl Hf Hx. induction Hl as [|x l Hnew Hl IH]; [constructor|]. cbn [map concat].
  apply list_relations.list.NoDup_app. split_and!.
  - apply Hf, elem_of_cons. by left.
  - intros y Hy Hy'. apply list_elem_of_In, in_concat in Hy' as (ys & (x' & <- & Hx')%in_map_iff & Hin).
    apply list_elem_of_In in Hx', Hin. apply Hnew.
    rewrite (Hx x x' y); [done|apply elem_of_cons; by left|apply elem_of_cons; by right|done|done].
  - apply IH; [intros; apply Hf, elem_of_cons; by right|]. intros x1 x2 y H1 H2. apply Hx; apply elem_of_cons; by right.
Qed.

Lemma exchange_targets_nodup : NoDup (map (fun mv : move => mv.2) exchange_moves).
Proof using Hcube Hrange.
  unfold exchange_moves. rewrite concat_map, map_map.
  assert (forall i q, i ∈ seqZ 0 (N * (A * A)) -> q ∈ map (fun mv : move => mv.2) (turn_moves i) ->
    exists u, 0 <= u < words_of_turn /\ q = target (turn_src i) (turn_dst i) u) as Hq.
  { intros i q Hi%elem_of_seqZ (mv & -> & (u & -> & Hu%elem_of_seqZ)%list_elem_of_fmap)%list_elem_of_fmap.
    destruct (turn_coordinates i ltac:(lia)) as (Hs & Hd & Hs0 & Hs1 & Hd0 & Hd1).
    exists u. split; [unfold words_of_turn; lia|]. unfold target. by rewrite Hs1. }
  apply NoDup_concat_map; [apply NoDup_seqZ| |].
  - intros i Hi%elem_of_seqZ. unfold turn_moves, group_moves. rewrite map_map.
    change (NoDup ((fun u => (group_move (group_rank (turn_src i), group_in_rank (turn_src i)) (group_rank (turn_dst i), group_in_rank (turn_dst i))
      (src + i mod A * P * len + 1024 * 1024) (dst + i mod (A * A) / A * P * len + 1024 * 1024 + buf) comm_type (len / 8) u).2) <$> seqZ 0 (P * (len / 8)))).
    apply NoDup_fmap_2; [|apply NoDup_seqZ]. intros u u'. cbn. intros [= Heq]. lia.
  - intros i i' q Hi Hi' Hqi Hqi'. destruct (Hq i q Hi Hqi) as (u & Hu & ->). destruct (Hq i' _ Hi' Hqi') as (u' & Hu' & Heq).
    apply elem_of_seqZ in Hi, Hi'. destruct (turn_coordinates i ltac:(lia)) as (Hs & Hd & Hs0 & Hs1 & Hd0 & Hd1).
    destruct (turn_coordinates i' ltac:(lia)) as (Hs' & Hd' & Hs0' & Hs1' & Hd0' & Hd1').
    apply target_inj in Heq as (Ev & Ew & _); try done; try congruence.
    rewrite Ev in Hs0, Hs1. rewrite Ew in Hd1. destruct Hcube as [_ _ _ Hax _ _]. pose proof (size_on_pos 1 ax Hax).
    rewrite (Z.div_mod i (A * A)), (Z.div_mod i' (A * A)) by nia.
    rewrite (Z.div_mod (i mod (A * A)) A), (Z.div_mod (i' mod (A * A)) A) by lia.
    assert (forall j, j mod (A * A) mod A = j mod A) as Hmod by (intros j; rewrite Z.rem_mul_r, (Z.mul_comm A), Z.mod_add, Z.mod_mod by lia; done).
    rewrite !Hmod. congruence.
Qed.

Lemma exchange_moves_wf : moves_wf exchange_moves.
Proof using Hcube Hrange.
  split; [| | |apply exchange_targets_nodup|];
    [apply Forall_forall; intros mv Hin%list_elem_of_In; apply elem_of_exchange in Hin as (v & w & u & Hv & Hw & Heq & Hu & ->)..|].
  - cbn [fst snd]. apply pass_rns_byte. exact Hu.
  - by apply source_ok.
  - by apply target_ok.
  - intros mv mv' (v & w & u & Hv & Hw & Heq & Hu & ->)%elem_of_exchange (v' & w' & u' & Hv' & Hw' & Heq' & Hu' & ->)%elem_of_exchange.
    cbn [fst snd]. intros Hp. destruct (source_ok v w u Hw Hu) as (_ & H1 & H2). destruct (target_ok v' w' u' Hv' Hu') as (_ & H3 & H4).
    rewrite Hp in H1, H2. destruct Hrange as [_ _ _ _ _ _ Hap _ _]. lia.
Qed.

(** ** The bytes of the DPUs *)

Section Bytes.
Context `{R : Rotations} `{!RotationsSpec R}.
Variables (cs : list copy) (m : regions).
Hypothesis Hcs : Permutation cs (map copy_of exchange_moves).
Hypothesis Hm : bytes m.

Lemma exchange_bytes v w ci k x : coordinates ax v -> coordinates ax w -> index_on 0 ax v = index_on 0 ax w ->
  0 <= ci < 8 -> 0 <= k < P -> 0 <= x < len ->
  mram_byte (run_copies cs m) (group_rank w) (group_in_rank w) ((ci + (if comm_type =? 0 then k else 0)) mod 8)
    (dst + 1024 * 1024 + buf + (index_on 1 ax v * P + k) * len + x) =
  mram_byte m (group_rank v) (group_in_rank v) ci (src + 1024 * 1024 + (index_on 1 ax w * P + k) * len + x).
Proof using Hcube Hrange Hcs Hm RotationsSpec0.
  intros Hv Hw Heq Hci Hk Hx. assert (len = 8 * (len / 8)) as Hl8.
  { destruct Hrange as [_ _ _ _ _ _ _ (_ & _ & Hl & _) _]. Z.div_mod_to_equations. lia. }
  set (W := len / 8) in *. set (u := k * W + x / 8). assert (0 <= x / 8 < W) as Hx8 by (Z.div_mod_to_equations; lia).
  assert (0 <= u < words_of_turn) as Hu by (unfold u, words_of_turn; fold W; nia).
  assert (u / W = k) as Huk by (symmetry; apply (Z.div_unique _ _ _ (x / 8)); [left|unfold u]; lia).
  assert ((source v w u, pass_rns comm_type k, target v w u) ∈ exchange_moves) as Hin.
  { apply elem_of_exchange. exists v, w, u. fold W. rewrite Huk. split_and!; done || apply Hu. }
  pose proof (run_moves_hit _ exchange_moves_wf cs Hcs m Hm _ _ _ ci (x mod 8) Hin Hci ltac:(by apply Z.mod_pos_bound)) as Hhit.
  assert (shift (pass_rns comm_type k) = if comm_type =? 0 then k else 0) as Hsh.
  { unfold pass_rns. destruct (comm_type =? 0); cbn [shift]; [|done]. by rewrite (Z.mul_comm 8), Z.div_mul. }
  rewrite Hsh in Hhit. unfold word_byte, source, target in Hhit.
  pose proof (Z.div_mod x 8 ltac:(lia)) as Hxd.
  assert (8 * u = k * len + (x - x mod 8)) as Hu8 by (unfold u; rewrite Hl8; lia).
  replace (dst + 1024 * 1024 + buf + (index_on 1 ax v * P + k) * len + x) with
    (dst + index_on 1 ax v * P * len + 1024 * 1024 + buf + 8 * u + x mod 8) by lia.
  rewrite Hhit. f_equal. lia.
Qed.

(** Nothing else changes: bytes out of the area of the destinations, and groups that take no part. *)
Lemma exchange_others r rg ci a : 0 <= rg < 8 -> 0 <= ci < 8 -> fits 26 a ->
  (forall w, coordinates ax w -> r = group_rank w -> rg = group_in_rank w ->
    a < dst + 1024 * 1024 + buf \/ dst + 1024 * 1024 + buf + A * P * len <= a) ->
  mram_byte (run_copies cs m) r rg ci a = mram_byte m r rg ci a.
Proof using Hcube Hrange Hcs Hm RotationsSpec0.
  intros Hrg Hci Ha Hout. set (p := (r, rg, a - a mod 8) : place).
  assert (place_ok p) as Hp by (unfold p, place_ok, fits in *; Z.div_mod_to_equations; lia).
  pose proof (run_moves_other _ exchange_moves_wf cs Hcs m Hm p ci (a mod 8) Hp) as Hother.
  unfold p, word_byte in Hother. rewrite Z.sub_add in Hother. apply Hother; [|done|by apply Z.mod_pos_bound].
  intros (mv & Heq & (v & w & u & Hv & Hw & _ & Hu & ->)%elem_of_exchange)%list_elem_of_fmap.
  cbn [snd] in Heq. destruct (target_ok v w u Hv Hu) as (Hok & H1 & H2). unfold target in *. injection Heq as -> -> Ho.
  cbn [snd] in H1, H2. destruct (Hout w Hw eq_refl eq_refl); destruct Hok as (_ & _ & Hmod); Z.div_mod_to_equations; lia.
Qed.
End Bytes.
End Exchange.

Lemma hw_threads `{R : Rotations} `{!RotationsSpec R} axis_len comm_axis src dst len comm_type buf threads tr regs m :
  hypercube axis_len comm_axis -> comm_type = (if comm_axis.[0] =? 1 then 0 else 1) ->
  exchange_range src dst len comm_type buf (size_on 1 (group_axes axis_len comm_axis) * nb_passes comm_type) ->
  hw_all_to_all_rns axis_len comm_axis src dst len comm_type buf = Some threads ->
  interleaves tr (map thread_accesses threads) -> bytes m ->
  exists cs, Permutation cs (map copy_of (exchange_moves axis_len comm_axis src dst len comm_type buf)) /\
    host_mem (run_accesses tr (mk_host regs m)) = run_copies cs m.
Proof.
  intros Hc Ht Hr Hhw Htr Hm.
  apply (interleaved_thread_copies _ m regs tr (exchange_moves_wf _ _ _ _ _ _ _ Hc Hr) Hm threads Htr).
  unfold hw_all_to_all_rns in Hhw. destruct (8 <=? _); [|done]. apply (inj Some) in Hhw as <-.
  unfold thread_num. rewrite threads_moves by (done || lia). done.
Qed.

(** ** Properties *)

(** C9: whatever the interleaving of the accesses of the 32 threads, an all-to-all
    exchange of the host writes, for two groups that communicate, the blocks of the first one
    meant for the second into the area of the second kept for the first: in the
    exchange along the first axis, the k-th block of interface i goes to
    interface i + k; and nothing else in the MRAMs changes. *)
Theorem all_to_all_exchanges `{R : Rotations} `{!RotationsSpec R} axis_len comm_axis src dst len comm_type buf threads tr regs m :
  hypercube axis_len comm_axis -> comm_type = (if comm_axis.[0] =? 1 then 0 else 1) ->
  let ax := group_axes axis_len comm_axis in let P := nb_passes comm_type in
  exchange_range src dst len comm_type buf (size_on 1 ax * P) ->
  hw_all_to_all_rns axis_len comm_axis src dst len comm_type buf = Some threads ->
  interleaves tr (map thread_accesses threads) -> bytes m ->
  let m' := host_mem (run_accesses tr (mk_host regs m)) in
  (forall v w ci k x, coordinates ax v -> coordinates ax w -> index_on 0 ax v = index_on 0 ax w ->
    0 <= ci < 8 -> 0 <= k < P -> 0 <= x < len ->
    mram_byte m' (group_number ax w / 8) (group_number ax w mod 8) ((ci + (if comm_type =? 0 then k else 0)) mod 8)
      (dst + 1024 * 1024 + buf + (index_on 1 ax v * P + k) * len + x) =
    mram_byte m (group_number ax v / 8) (group_number ax v mod 8) ci (src + 1024 * 1024 + (index_on 1 ax w * P + k) * len + x)) /\
  (forall r rg ci a, 0 <= rg < 8 -> 0 <= ci < 8 -> fits 26 a ->
    a < dst + 1024 * 1024 + buf \/ dst + 1024 * 1024 + buf + size_on 1 ax * P * len <= a ->
    mram_byte m' r rg ci a = mram_byte m r rg ci a).
Proof.
  intros Hc Ht ax P Hr Hhw Htr Hm m'.
  destruct (hw_threads _ _ _ _ _ _ _ _ tr regs m Hc Ht Hr Hhw Htr Hm) as (cs & Hp & Hrun). subst m'. rewrite Hrun. split.
  - intros v w ci k x Hv Hw Heq Hci Hk Hx. by apply (exchange_bytes axis_len comm_axis src dst len comm_type buf Hc Hr cs m Hp Hm).
  - intros r rg ci a Hrg Hci Ha Hout. by apply (exchange_others axis_len comm_axis src dst len comm_type buf Hc Hr cs m Hp Hm).
Qed.

(** The documented rotation, as an instance. *)
Definition documented_rotations : Rotations :=
  {| mm512_rol_epi64 a n := concat (map (fun k => le_bytes 8 (rotl64 (le_word (word_of a k)) (n mod 64))) (seqZ 0 8)) |}.
Lemma documented_rotations_spec : RotationsSpec documented_rotations.
Proof. by split. Qed.

(** Two ranks, 16 DPUs on the first axis: byte 1000 of every MRAM is its DPU. *)
Definition sample_regions : regions := fun r x => (64 * r + x mod 8 + 8 * (x / 2 ^ 18 mod 4)) mod 256.
Lemma sample_bytes : bytes sample_regions.
Proof. intros r x. apply Z.mod_pos_bound. done. Qed.
Lemma sample_hypercube : hypercube [16; 8] [1; 0].
Proof.
  split; [done|done|done|by_eval| |done]. cbn. split; [left; by exists 4|]. split; [right; by exists 2|done].
Qed.
Lemma sample_range : exchange_range 0 0 64 0 4096 16.
Proof. split; try done; left; done. Qed.

Lemma all_to_all_exchanges_witness : exists threads tr,
  hw_all_to_all_rns [16; 8] [1; 0] 0 0 64 0 4096 = Some threads /\ interleaves tr (map thread_accesses threads) /\
  mram_byte (host_mem (@run_accesses documented_rotations tr (mk_host (fun _ => []) sample_regions))) 0 1 5 (1024 * 1024 + 4096 + 2 * 64) =
  mram_byte sample_regions 0 0 3 (1024 * 1024 + 10 * 64).
Proof.
  eexists. destruct (interleaves_exists (map thread_accesses
    (map (thread_all_to_all_rns [16; 8] [1; 0] 0 0 64 0 4096 thread_num) (seqZ 0 thread_num)))) as [tr Htr].
  exists tr. split; [reflexivity|]. split; [exact Htr|].
  destruct (@all_to_all_exchanges documented_rotations documented_rotations_spec [16; 8] [1; 0] 0 0 64 0 4096 _ tr (fun _ => []) sample_regions
    sample_hypercube eq_refl sample_range eq_refl Htr sample_bytes) as [H _].
  exact (H [0; 0] [1; 0] 3 2 0 ltac:(repeat constructor; cbn; lia) ltac:(repeat constructor; cbn; lia) eq_refl ltac:(lia)
    ltac:(cbn; lia) ltac:(lia)).
Defined.

(** ** Where the exchange goes wrong *)

(** The ranks are found by a division per axis: with three groups on the first
    axis, the group 8 = 2 + 3 * 2 is taken for the group 0 of the rank 0. *)
Lemma cut_rank_misplaced : group_number [(3, 1); (6, 1)] [2; 2] = 8 /\ group_ids [(3, 1); (6, 1)] [2; 2] 1 0 0 = (0, 0).
Proof. done. Qed.

(** Blocks of 72 bytes from the offset 16256: the second pass starts 56 bytes
    below a multiple of 16 KiB, and the last line of its block of 64 bytes is
    taken 128 bytes after the one before, which is another word. *)
Lemma unaligned_block_misses_line :
  (c_from <$> xeon_sp_trans_all_to_all_rg 0 1 0 0 16256 0 72 0 4096 !! 16%nat) <>
  Some (0, group_line 0 (1024 * 1024 + 16256 + 72 + 56)).
Proof. vm_compute. intros H. discriminate H. Qed.

(** A length that is not a multiple of 8 is rounded up or down, as the offsets are aligned or not. *)
Lemma length_rounded : lenz (xeon_sp_trans_all_to_all_rg 0 1 0 0 0 0 12 1 4096) = 2 /\
  lenz (xeon_sp_trans_all_to_all_rg 0 1 0 0 8 0 12 1 4096) = 1.
Proof. split; vm_compute; reflexivity. Qed.

(** No thread is created for a first axis below 8, and the 32 are joined. *)
Lemma small_axis_joins_nothing axis_len comm_axis src dst len comm_type buf : axis_len.[0] < 8 ->
  hw_all_to_all_rns axis_len comm_axis src dst len comm_type buf = None.
Proof. intros H. unfold hw_all_to_all_rns. by rewrite (proj2 (Z.leb_gt _ _)). Qed.
