(* ===== verification/PidKernel.v ===== *)
(** * The programs that reorder the blocks inside a DPU

    Model of the DPU programs of [src/pidcomm_lib] that are run before and after an
    exchange of the host: [data_relocate_clockwise.c],
    [data_relocate_reverse_clockwise.c], [data_relocate_modified_clockwise.c],
    [data_relocate_modified_reverse_clockwise.c], [data_relocate_clockwise_short.c],
    [data_relocate_reverse_clockwise_short.c], [data_relocate_counterclockwise.c]
    and [data_relocate_incremental_counterclockwise.c]. A program
    is, for each tasklet, the list of its waits on the barriers and of its
    transfers between the MRAM and its cache: which transfers it makes does not
    depend on what they carry. An execution interleaves the lists of the 16
    tasklets as the barriers allow; the transfers and the barriers are those of
    the run-time library of the DPUs, known by what it documents. *)

From stdpp Require Import relations functions.
From S2P Require Import Prelude Interleave XeonInterleave XeonSg PidComm.

#[local] Open Scope Z_scope.
#[local] Open Scope dpu_scope.

(** ** The program of a tasklet *)

(** [barrier_wait] on the barrier of that many tasklets, [mram_read] into the
    cache of the tasklet, and [mram_write] from it. *)
Inductive action := Wait (barrier : Z) | Read (addr n : Z) | Write (addr n : Z).
#[export] Instance action_eq_dec : EqDecision action.
Proof. solve_decision. Defined.

Record dpu_arguments_comm_t := mk_args {
  da_start_offset : Z;
  da_target_offset : Z;
  da_total_data_size : Z;
  da_num_comm_dpu : Z;
  da_each_dpu : Z;
  da_no_rotate : bool;
  da_num_row : Z;
  da_comm_type : Z;
  da_a_length : Z;
  da_num_comm_rg : Z;
}.

(** The values of [for (i = first; i < bound; i = i + step)]. *)
Definition steps (first step bound : Z) : list Z :=
  map (fun k => first + step * k) (seqZ 0 ((bound - first + step - 1) / step)).

Section Programs.
(** The size of the words and [DPU_MRAM_HEAP_POINTER]. *)
Variables (sizeof_T heap : Z).

Section Blocks.
Variable a : dpu_arguments_comm_t.

Definition max_words_per_dpu : Z := da_total_data_size a / u32 (da_num_comm_dpu a * sizeof_T).
Definition iter : Z :=
  let block_bytes := u32 (max_words_per_dpu * sizeof_T) in
  if block_bytes mod 2048 =? 0 then block_bytes / 2048 else block_bytes / 2048 + 1.
Definition original_addr (target_dpu_num iteration : Z) : Z :=
  u32 (heap + da_start_offset a + max_words_per_dpu * target_dpu_num * sizeof_T + 2048 * iteration).
Definition leftover_num (iteration : Z) : Z := u32 (max_words_per_dpu - 2048 / sizeof_T * iteration).
Definition transfer_size (iteration : Z) : Z :=
  if iteration =? iter - 1 then u32 (leftover_num iteration * sizeof_T) else 2048.
(** Rotated by [offset] inside its group of blocks, or left at its place. *)
Definition target_addr (group : Z) (offset : Z -> Z) (target_dpu_num iteration : Z) : Z :=
  if da_no_rotate a
  then u32 (heap + da_target_offset a + max_words_per_dpu * target_dpu_num * sizeof_T + 2048 * iteration)
  else u32 (heap + da_target_offset a + target_dpu_num / group * group * max_words_per_dpu * sizeof_T
            + offset target_dpu_num * max_words_per_dpu * sizeof_T + 2048 * iteration).

(** The body of the two loops, and the loops of a tasklet. *)
Definition move_chunk (wait : list action) group offset (target_dpu_num iteration : Z) : list action :=
  Read (original_addr target_dpu_num iteration) (transfer_size iteration) ::
  wait ++ Write (target_addr group offset target_dpu_num iteration) (transfer_size iteration) :: wait.
Definition move_blocks (wait : list action) (step group : Z) (offset : Z -> Z) (tasklet_id : Z) : list action :=
  concat (map (fun target_dpu_num => concat (map (move_chunk wait group offset target_dpu_num) (seqZ 0 iter)))
    (steps tasklet_id step (da_num_comm_dpu a))).
End Blocks.

Definition set_target_offset (v : Z) (a : dpu_arguments_comm_t) : dpu_arguments_comm_t :=
  mk_args (da_start_offset a) v (da_total_data_size a) (da_num_comm_dpu a) (da_each_dpu a) (da_no_rotate a)
    (da_num_row a) (da_comm_type a) (da_a_length a) (da_num_comm_rg a).
Definition set_num_comm_dpu (v : Z) (a : dpu_arguments_comm_t) : dpu_arguments_comm_t :=
  mk_args (da_start_offset a) (da_target_offset a) (da_total_data_size a) v (da_each_dpu a) (da_no_rotate a)
    (da_num_row a) (da_comm_type a) (da_a_length a) (da_num_comm_rg a).

Definition data_relocate_clockwise (a : dpu_arguments_comm_t) (tasklet_id : Z) : list action :=
  let num_comm_dpu := da_num_comm_dpu a in
  if 8 <=? tasklet_id then [] else
  Wait 8 ::
  if num_comm_dpu mod 8 =? 0 then
    Wait 8 :: move_blocks a [Wait 8] 8 8 (fun t => u32 (t - da_each_dpu a) mod 8) tasklet_id
  else if (num_comm_dpu =? 4) || (num_comm_dpu =? 2) then
    if num_comm_dpu <=? tasklet_id then [] else
    Wait num_comm_dpu ::
    move_blocks a [Wait num_comm_dpu] num_comm_dpu num_comm_dpu (fun t => u32 (t - da_each_dpu a) mod num_comm_dpu) tasklet_id
  else [].

Definition data_relocate_reverse_clockwise (a : dpu_arguments_comm_t) (tasklet_id : Z) : list action :=
  let num_comm_dpu := da_num_comm_dpu a in
  let num_comm_rg := da_num_comm_rg a in
  let dpu_num := da_each_dpu a in
  if 8 <=? tasklet_id then [] else
  Wait 8 ::
  if (num_comm_dpu mod 8 =? 0) && (num_comm_rg =? 8) then
    Wait 8 :: move_blocks a [Wait 8] 8 8 (fun t => u32 (dpu_num - t) mod 8) tasklet_id
  else if (num_comm_rg <? 8) && (da_comm_type a =? 0) then
    if num_comm_rg <=? tasklet_id then [] else
    move_blocks a [] num_comm_rg num_comm_rg (fun t => u32 (dpu_num - t) mod num_comm_rg) tasklet_id
  else if (num_comm_rg <? 8) && negb (da_comm_type a =? 0) then
    if 8 / num_comm_rg <=? tasklet_id then [] else
    move_blocks a [] (8 / num_comm_rg) num_comm_rg (fun t => u32 (dpu_num / (8 / num_comm_rg) - t) mod num_comm_rg) tasklet_id
  else if (num_comm_dpu =? 4) || (num_comm_dpu =? 2) then
    if num_comm_dpu <=? tasklet_id then [] else
    Wait num_comm_dpu ::
    move_blocks a [Wait num_comm_dpu] num_comm_dpu num_comm_dpu (fun t => u32 (dpu_num - t) mod num_comm_dpu) tasklet_id
  else [].

Definition data_relocate_modified_clockwise (a : dpu_arguments_comm_t) (tasklet_id : Z) : list action :=
  let num_comm_rg := da_num_comm_rg a in
  let dpu_num := da_each_dpu a in
  if 8 <=? tasklet_id then [] else
  Wait 8 ::
  if (num_comm_rg <? 8) && (da_comm_type a =? 0) then
    if 4 <=? tasklet_id then [] else
    move_blocks (set_target_offset (da_start_offset a) a) [Wait 4] 4 2 (fun t => u32 (dpu_num - t) mod 2) tasklet_id ++
    if 2 <=? tasklet_id then [] else
    move_blocks (set_num_comm_dpu (da_num_comm_dpu a / 2) a) [] 2 2 (fun t => u32 (dpu_num / 4 - t) mod 2) tasklet_id
  else if (num_comm_rg <? 8) && negb (da_comm_type a =? 0) then
    if 2 <=? tasklet_id then [] else
    move_blocks a [] 2 2 (fun t => u32 (dpu_num / 2 - t) mod 2) tasklet_id
  else [].

Definition data_relocate_clockwise_short (a : dpu_arguments_comm_t) (tasklet_id : Z) : list action :=
  let num_comm_rg := da_num_comm_rg a in
  let dpu_num := da_each_dpu a in
  if 8 <=? tasklet_id then [] else
  Wait 8 ::
  if num_comm_rg <=? tasklet_id then [] else
  if da_comm_type a =? 0 then
    let wait := if num_comm_rg =? 4 then [Wait 4] else if num_comm_rg =? 2 then [Wait 2] else [] in
    move_blocks a wait num_comm_rg num_comm_rg (fun t => u32 (t - dpu_num) mod num_comm_rg) tasklet_id
  else
    move_blocks a [] num_comm_rg num_comm_rg (fun t => u32 (t - dpu_num / (8 / num_comm_rg)) mod num_comm_rg) tasklet_id.

Definition data_relocate_reverse_clockwise_short (a : dpu_arguments_comm_t) (tasklet_id : Z) : list action :=
  let num_comm_rg := da_num_comm_rg a in
  let dpu_num := da_each_dpu a in
  if 8 <=? tasklet_id then [] else
  Wait 8 ::
  if num_comm_rg <=? tasklet_id then [] else
  if da_comm_type a =? 0 then
    let wait := if num_comm_rg =? 4 then [Wait 4] else if num_comm_rg =? 2 then [Wait 2] else [] in
    move_blocks a wait num_comm_rg num_comm_rg (fun t => u32 (dpu_num - t) mod num_comm_rg) tasklet_id
  else
    move_blocks a [] num_comm_rg num_comm_rg (fun t => u32 (dpu_num / (8 / num_comm_rg) - t) mod num_comm_rg) tasklet_id.

Definition data_relocate_counterclockwise (a : dpu_arguments_comm_t) (tasklet_id : Z) : list action :=
  let num_comm_dpu := da_num_comm_dpu a in
  if 8 <=? tasklet_id then [] else
  Wait 8 ::
  if num_comm_dpu mod 8 =? 0 then
    Wait 8 :: move_blocks a [Wait 8] 8 8 (fun t => u32 (t + da_each_dpu a) mod 8) tasklet_id
  else if (num_comm_dpu =? 4) || (num_comm_dpu =? 2) then
    if num_comm_dpu <=? tasklet_id then [] else
    Wait num_comm_dpu ::
    move_blocks a [Wait num_comm_dpu] num_comm_dpu num_comm_dpu (fun t => u32 (t + da_each_dpu a) mod num_comm_dpu) tasklet_id
  else [].

(** The position of the DPU in its group is taken away, so that no block turns. *)
Definition data_relocate_incremental_counterclockwise (a : dpu_arguments_comm_t) (tasklet_id : Z) : list action :=
  let num_comm_dpu := da_num_comm_dpu a in
  let dpu_num := da_each_dpu a in
  if 8 <=? tasklet_id then [] else
  Wait 8 :: Wait 8 ::
  if num_comm_dpu mod 8 =? 0 then
    move_blocks a [Wait 8] 8 8 (fun t => u32 (t + dpu_num - dpu_num mod 8) mod 8) tasklet_id
  else if (num_comm_dpu =? 4) || (num_comm_dpu =? 2) then
    if num_comm_dpu <=? tasklet_id then [] else
    Wait num_comm_dpu ::
    move_blocks a [Wait num_comm_dpu] num_comm_dpu num_comm_dpu (fun t => u32 (t + dpu_num - dpu_num mod num_comm_dpu) mod num_comm_dpu) tasklet_id
  else [].

Definition data_relocate_modified_reverse_clockwise (a : dpu_arguments_comm_t) (tasklet_id : Z) : list action :=
  let num_comm_rg := da_num_comm_rg a in
  let dpu_num := da_each_dpu a in
  if 8 <=? tasklet_id then [] else
  Wait 8 ::
  if num_comm_rg <=? tasklet_id then [] else
  if da_comm_type a =? 0 then
    move_blocks (set_target_offset (da_start_offset a) a) [Wait 2] num_comm_rg num_comm_rg
      (fun t => u32 (t - dpu_num) mod num_comm_rg) tasklet_id ++
    move_blocks (set_num_comm_dpu (da_num_comm_dpu a / 2) a) [Wait 2] num_comm_rg num_comm_rg
      (fun t => u32 (t - dpu_num / 4) mod num_comm_rg) tasklet_id
  else
    move_blocks a [] num_comm_rg num_comm_rg (fun t => u32 (t - dpu_num / 2) mod num_comm_rg) tasklet_id.
End Programs.

(** ** Executions *)

(** [mram_read] gives the bytes of the transfer, [mram_write] stores those of the cache. *)
Class DpuRuntime := {
  mram_read : memory -> Z -> Z -> list Z;
  mram_write : list Z -> Z -> Z -> memory -> memory;
}.
(** The transfers have to be of a multiple of 8 bytes, at most 2048, and aligned on 8 bytes. *)
Definition transfer_ok (addr n : Z) : Prop := addr mod 8 = 0 /\ n mod 8 = 0 /\ 0 < n <= 2048.
Class DpuRuntimeSpec (D : DpuRuntime) : Prop := {
  mram_read_spec m addr n : transfer_ok addr n -> mram_read m addr n = load_bytes m addr n;
  mram_write_spec bs addr n m : transfer_ok addr n -> n <= lenz bs ->
    mram_write bs addr n m = store_bytes addr (take (Z.to_nat n) bs) m;
}.

(** An action of a tasklet. *)
#[local] Notation event := (Z * action)%type.
Record dpu_state := mk_dpu { mram : memory; caches : Z -> list Z }.

Section Execution.
Context `{D : DpuRuntime}.

Definition run_event (s : dpu_state) (e : event) : dpu_state :=
  let '(tasklet, a) := e in
  match a with
  | Wait _ => s
  | Read addr n => mk_dpu (mram s) (fun k =>
      if k =? tasklet then mram_read (mram s) addr n ++ drop (Z.to_nat n) (caches s k) else caches s k)
  | Write addr n => mk_dpu (mram_write (caches s tasklet) addr n (mram s)) (caches s)
  end.
Definition run_events (tr : list event) (s : dpu_state) : dpu_state := foldl run_event s tr.
End Execution.

(** How often a tasklet has reached a barrier. *)
Definition waits (b : Z) (l : list action) : nat := length (filter (fun a => a = Wait b) l).

(** The barrier of b tasklets, which the tasklets below b use: none goes on
    after its n-th wait before each has reached it n times. *)
Definition barrier_respected (b : Z) (tr : list event) : Prop :=
  forall pre k a post k', tr = pre ++ (k, a) :: post -> 0 <= k < b -> 0 <= k' < b ->
    (waits b (own k pre) <= waits b (own k' pre))%nat.

Definition NR_TASKLETS := 16.
(** What the tasklets have done so far, and a run of the whole program. *)
Record partial_execution (prog : Z -> list action) (tr : list event) : Prop := {
  pe_tasklets : Forall (fun e : event => 0 <= e.1 < NR_TASKLETS) tr;
  pe_own : forall k, 0 <= k < NR_TASKLETS -> own k tr `prefix_of` prog k;
  pe_barriers : Forall (fun b => barrier_respected b tr) [8; 4; 2];
}.
Definition execution (prog : Z -> list action) (tr : list event) : Prop :=
  partial_execution prog tr /\ forall k, 0 <= k < NR_TASKLETS -> own k tr = prog k.

(** ** Traces *)

Lemma waits_app b l1 l2 : waits b (l1 ++ l2) = (waits b l1 + waits b l2)%nat.
Proof. unfold waits. by rewrite list_basics.list.filter_app, length_app. Qed.
Lemma waits_prefix b l1 l2 : l1 `prefix_of` l2 -> (waits b l1 <= waits b l2)%nat.
Proof. intros [l ->]. rewrite waits_app. lia. Qed.
Lemma waits_cons b a l : waits b (a :: l) = ((if decide (a = Wait b) then 1 else 0) + waits b l)%nat.
Proof. unfold waits. destruct (decide (a = Wait b)); [by rewrite filter_cons_True|by rewrite filter_cons_False]. Qed.

Lemma concat_split {X Y} (f : X -> list Y) l l1 e l2 : concat (map f l) = l1 ++ e :: l2 ->
  exists r1 r r2 q1 q2, l = r1 ++ r :: r2 /\ f r = q1 ++ e :: q2 /\ l1 = concat (map f r1) ++ q1 /\
    l2 = q2 ++ concat (map f r2).
Proof.
  revert l1. induction l as [|x l IH]; intros l1 H; [by destruct l1|]. cbn [map concat] in H.
  apply app_eq_app in H as [p [(Hx & Hp)|(-> & Hp)]].
  - destruct p as [|e' p].
    + cbn [app] in Hp. destruct (IH [] (eq_sym Hp)) as (r1 & r & r2 & q1 & q2 & -> & Hf & H1 & ->).
      symmetry in H1. apply app_eq_nil in H1 as [H1 ->]. exists (x :: r1), r, r2, [], q2.
      cbn [map concat]. rewrite H1, Hx, !app_nil_r. done.
    + injection Hp as -> Hp. exists [], x, l, l1, p. by rewrite Hx.
  - destruct (IH p Hp) as (r1 & r & r2 & q1 & q2 & -> & Hf & -> & ->).
    exists (x :: r1), r, r2, q1, q2. cbn [map concat]. by rewrite app_assoc.
Qed.

Lemma seqZ_split_at n l1 u l2 : seqZ 0 n = l1 ++ u :: l2 -> 0 <= u < n /\ l1 = seqZ 0 u.
Proof.
  intros H. assert (u = lenz l1) as ->.
  { assert (seqZ 0 n !! length l1 = Some u) as Hu by (rewrite H; by apply list_lookup_middle).
    apply lookup_seqZ in Hu. unfold lenz. lia. }
  assert (0 <= lenz l1 < n) as Hr.
  { assert (length (seqZ 0 n) = length (l1 ++ lenz l1 :: l2)) as Hl by (by rewrite H).
    rewrite length_seqZ, length_app in Hl. cbn [length] in Hl. unfold lenz. lia. }
  split; [done|]. replace n with (lenz l1 + (n - lenz l1)) in H by lia. rewrite seqZ_app in H by lia.
  apply (app_inj_1 _ _ _ _) in H as [H _]; [done|]. rewrite length_seqZ. unfold lenz. lia.
Qed.

(** ** Copies through the caches *)

Definition disjoint (a n b m : Z) : Prop := a + n <= b \/ b + m <= a.

Section Copying.
Context `{D : DpuRuntime} `{!DpuRuntimeSpec D}.

Lemma run_events_app l1 l2 s : run_events (l1 ++ l2) s = run_events l2 (run_events l1 s).
Proof using Type. unfold run_events. apply foldl_app. Qed.

Definition transfers_ok (tr : list event) : Prop :=
  forall k a, (k, a) ∈ tr -> match a with Wait _ => True | Read addr n | Write addr n => transfer_ok addr n end.
Definition caches_ok (s : dpu_state) : Prop := forall k, lenz (caches s k) = 2048.

Lemma run_event_caches s e : caches_ok s -> transfers_ok [e] -> caches_ok (run_event s e).
Proof using DpuRuntimeSpec0.
  intros Hs He k. destruct e as [k' a]. specialize (He k' a ltac:(apply elem_of_cons; by left)).
  destruct a as [b|addr n|addr n]; cbn [run_event caches]; [apply Hs| |apply Hs].
  destruct (k =? k'); [|apply Hs]. rewrite mram_read_spec by done. specialize (Hs k).
  destruct He as (_ & _ & Hn). unfold lenz, load_bytes in *. rewrite length_app, length_map, length_seqZ, length_drop, Nat2Z.inj_add. lia.
Qed.

Lemma transfers_ok_app l1 l2 : transfers_ok (l1 ++ l2) <-> transfers_ok l1 /\ transfers_ok l2.
Proof using Type.
  unfold transfers_ok. split.
  - intros H. split; intros k a Hin; apply (H k), elem_of_app; [by left|by right].
  - intros [H1 H2] k a [Hin|Hin]%elem_of_app; [by apply (H1 k)|by apply (H2 k)].
Qed.
Lemma transfers_ok_cons e l : transfers_ok (e :: l) <-> transfers_ok [e] /\ transfers_ok l.
Proof using Type. change (e :: l) with ([e] ++ l). apply transfers_ok_app. Qed.

Lemma run_events_caches l s : caches_ok s -> transfers_ok l -> caches_ok (run_events l s).
Proof using DpuRuntimeSpec0.
  revert s. induction l as [|e l IH]; intros s Hs Hl; [done|]. apply transfers_ok_cons in Hl as [He Hl].
  apply IH; [by apply run_event_caches|done].
Qed.

(** What no write touches stays, and the cache of a tasklet that only waits. *)
Lemma run_events_mram l s x : caches_ok s -> transfers_ok l ->
  (forall k b n, (k, Write b n) ∈ l -> x < b \/ b + n <= x) -> mram (run_events l s) x = mram s x.
Proof using DpuRuntimeSpec0.
  revert s. induction l as [|e l IH]; intros s Hs Hl Hx; [done|]. apply transfers_ok_cons in Hl as [He Hl].
  change (run_events (e :: l) s) with (run_events l (run_event s e)).
  rewrite IH; [|by apply run_event_caches|done|intros k b n Hin; apply (Hx k), elem_of_cons; by right].
  destruct e as [k [b|addr n|addr n]]; [done..|]. cbn [run_event mram].
  specialize (He k _ ltac:(apply elem_of_cons; by left)). cbn beta iota in He. pose proof (Hs k) as Hk.
  rewrite mram_write_spec by (done || destruct He; lia). unfold store_bytes.
  destruct (Hx k addr n ltac:(apply elem_of_cons; by left)) as [Hlt|Hge].
  - by rewrite (proj2 (Z.leb_gt _ _)).
  - rewrite (proj2 (Z.ltb_ge _ _)); [by rewrite andb_false_r|].
    destruct He as (_ & _ & Hn). unfold lenz. rewrite length_take. lia.
Qed.

Lemma run_events_cache l s k : (forall a, (k, a) ∈ l -> exists b, a = Wait b) ->
  caches (run_events l s) k = caches s k.
Proof using Type.
  revert s. induction l as [|e l IH]; intros s Hk; [done|].
  change (run_events (e :: l) s) with (run_events l (run_event s e)).
  rewrite IH by (intros a Hin; apply Hk, elem_of_cons; by right).
  destruct e as [k' [b|addr n|addr n]]; [done| |done]. cbn [run_event caches].
  destruct (Z.eqb_spec k k') as [<-|]; [|done].
  destruct (Hk (Read addr n)) as [b Hb]; [apply elem_of_cons; by left|done].
Qed.

(** The contents stay bytes. *)
Definition bytes_ok (s : dpu_state) : Prop := (forall k, Forall (fits 8) (caches s k)) /\ forall x, fits 8 (mram s x).
Lemma run_events_bytes l s : caches_ok s -> transfers_ok l -> bytes_ok s -> bytes_ok (run_events l s).
Proof using DpuRuntimeSpec0.
  revert s. induction l as [|e l IH]; intros s Hs Hl Hb; [done|]. apply transfers_ok_cons in Hl as [He Hl].
  apply IH; [by apply run_event_caches|done|]. destruct Hb as [Hc Hm], e as [k [b|addr n|addr n]]; [done|..].
  - specialize (He k _ ltac:(apply elem_of_cons; by left)). cbn beta iota in He. split; [|done]. intros k'. cbn [run_event caches].
    destruct (k' =? k); [|apply Hc]. rewrite mram_read_spec by done. apply list_relations.list.Forall_app. split; [|by apply Forall_drop].
    apply Forall_map, Forall_forall. intros i _. apply Hm.
  - specialize (He k _ ltac:(apply elem_of_cons; by left)). cbn beta iota in He. pose proof (Hs k) as Hk. split; [done|].
    intros x. cbn [run_event mram]. rewrite mram_write_spec by (done || destruct He; lia). unfold store_bytes.
    destruct (_ && _) eqn:E; [|apply Hm]. zb2p. specialize (Hc k). rewrite list_relations.list.Forall_forall in Hc. apply Hc.
    unfold lenz in *. rewrite length_take in *. unfold getz. rewrite lookup_total_take_lt by lia.
    apply list_elem_of_lookup_total_2. lia.
Qed.

(** A read and the write that follows: nothing writes its source before it, nor
    its target after it. *)
Lemma run_events_copy p1 k a n p2 b p3 s i : caches_ok s ->
  transfers_ok (p1 ++ (k, Read a n) :: p2 ++ (k, Write b n) :: p3) ->
  (forall c, (k, c) ∈ p2 -> exists w, c = Wait w) ->
  (forall k' b' n', (k', Write b' n') ∈ p1 -> disjoint a n b' n') ->
  (forall k' b' n', (k', Write b' n') ∈ p3 -> disjoint b n b' n') -> 0 <= i < n ->
  mram (run_events (p1 ++ (k, Read a n) :: p2 ++ (k, Write b n) :: p3) s) (b + i) = mram s (a + i).
Proof using DpuRuntimeSpec0.
  intros Hs Hok Hp2 Hp1 Hp3 Hi. apply transfers_ok_app in Hok as [Hok1 Hok].
  apply transfers_ok_cons in Hok as [Hok2 Hok]. apply transfers_ok_app in Hok as [Hok3 Hok].
  apply transfers_ok_cons in Hok as [Hok4 Hok5]. unfold disjoint in *.
  rewrite run_events_app. change ((k, Read a n) :: p2 ++ (k, Write b n) :: p3) with ([(k, Read a n)] ++ p2 ++ [(k, Write b n)] ++ p3).
  rewrite !run_events_app. set (s1 := run_events p1 s). set (s2 := run_events [(k, Read a n)] s1). set (s3 := run_events p2 s2).
  assert (caches_ok s1) as H1 by by apply run_events_caches. assert (caches_ok s2) as H2 by by apply run_events_caches.
  assert (caches_ok s3) as H3 by by apply run_events_caches.
  rewrite run_events_mram; [|by apply run_events_caches|done|].
  2:{ intros k' b' n' Hin. specialize (Hp3 k' b' n' Hin). assert (transfer_ok b' n') as Hb by (apply (Hok5 k' (Write b' n')), Hin).
      destruct Hb as (_ & _ & ?). lia. }
  change (run_events [(k, Write b n)] s3) with (run_event s3 (k, Write b n)). cbn [run_event mram].
  specialize (Hok4 k _ ltac:(apply elem_of_cons; by left)). specialize (Hok2 k _ ltac:(apply elem_of_cons; by left)).
  cbn beta iota in Hok2, Hok4. rewrite mram_write_spec by (done || rewrite H3; destruct Hok4; lia).
  assert (caches s3 k = load_bytes (mram s1) a n ++ drop (Z.to_nat n) (caches s1 k)) as Hc.
  { unfold s3. rewrite run_events_cache by done. unfold s2. cbn. by rewrite Z.eqb_refl, mram_read_spec. }
  assert (lenz (load_bytes (mram s1) a n) = n) as Hll by (unfold load_bytes; apply lenz_map_seqZ; lia).
  rewrite Hc. rewrite take_app_length' by (unfold lenz in Hll; lia).
  unfold store_bytes. rewrite Hll, (proj2 (Z.leb_le _ _)), (proj2 (Z.ltb_lt _ _)) by lia. cbn [andb].
  replace (b + i - b) with i by lia. unfold load_bytes. rewrite lookup_map_seqZ by done.
  apply run_events_mram; [done|done|]. intros k' b' n' Hin. specialize (Hp1 k' b' n' Hin).
  assert (transfer_ok b' n') as Hb by (apply (Hok1 k' (Write b' n')), Hin). destruct Hb as (_ & _ & ?). lia.
Qed.
End Copying.

(** ** Rounds of chunks *)

Definition is_wait (a : action) : Prop := exists b, a = Wait b.

(** An action that is not a wait comes after the waits at the head. *)
Lemma waits_head w r q1 x q2 : Forall is_wait w -> ~ is_wait x -> w ++ r = q1 ++ x :: q2 ->
  exists q, q1 = w ++ q /\ r = q ++ x :: q2.
Proof.
  intros Hw Hx. revert q1. induction Hw as [|y w Hy Hw IH]; intros q1 H; [by exists q1|].
  destruct q1 as [|z q1]; [by injection H as -> _|]. injection H as <- H.
  destruct (IH q1 H) as (q & -> & ->). by exists q.
Qed.

(** What a set of tasklets has to move: [num] blocks of [len] bytes from [S0],
    the block t to the block [dest t] from [D0], [step] tasklets at a time. *)
Section Rounds.
Variables (len step num S0 D0 : Z) (dest : Z -> Z) (wait init : list action).

Definition nb_chunks : Z := (len + 2047) / 2048.
Definition chunk_size (it : Z) : Z := Z.min 2048 (len - 2048 * it).
Definition chunk_src (t it : Z) : Z := S0 + t * len + 2048 * it.
Definition chunk_dst (t it : Z) : Z := D0 + dest t * len + 2048 * it.
Definition chunk (t it : Z) : list action :=
  Read (chunk_src t it) (chunk_size it) :: wait ++ Write (chunk_dst t it) (chunk_size it) :: wait.
Definition round_block (k u : Z) : Z := k + step * (u / nb_chunks).
Definition round (k u : Z) : list action := chunk (round_block k u) (u mod nb_chunks).
Definition nb_rounds : Z := num / step * nb_chunks.
Definition rounds (k : Z) : list action := concat (map (round k) (seqZ 0 nb_rounds)).

Record moves_blocks : Prop := {
  mb_len : 0 < len /\ len mod 8 = 0;
  mb_aligned : S0 mod 8 = 0 /\ D0 mod 8 = 0;
  mb_step : 0 < step /\ 0 < num /\ num mod step = 0;
  mb_dest : forall t, 0 <= t < num -> 0 <= dest t < num;
  mb_inj : forall t t', 0 <= t < num -> 0 <= t' < num -> dest t = dest t' -> t = t';
  mb_waits : Forall is_wait wait /\ Forall is_wait init;
  (** Either the two areas are apart, or the blocks move inside the rounds,
      between two barriers. *)
  mb_apart : disjoint S0 (num * len) D0 (num * len) \/
    (S0 = D0 /\ wait = [Wait step] /\ forall t, 0 <= t < num -> dest t / step = t / step);
}.
Hypothesis Hmb : moves_blocks.

Lemma nb_chunks_pos : 0 < nb_chunks /\ 2048 * (nb_chunks - 1) < len <= 2048 * nb_chunks.
Proof using Hmb. destruct Hmb as [[Hl _] _ _ _ _ _ _]. unfold nb_chunks. Z.div_mod_to_equations. lia. Qed.

Lemma chunk_size_range it : 0 <= it < nb_chunks -> 0 < chunk_size it <= 2048 /\ 2048 * it + chunk_size it <= len.
Proof using Hmb. intros Hi. destruct nb_chunks_pos. unfold chunk_size. lia. Qed.

Lemma round_range k u : 0 <= k < step -> 0 <= u < nb_rounds -> 0 <= round_block k u < num /\ 0 <= u mod nb_chunks < nb_chunks.
Proof using Hmb.
  intros Hk Hu. destruct nb_chunks_pos as [Hc _]. destruct Hmb as [_ _ (Hs & Hn & Hm) _ _ _ _]. unfold nb_rounds, round_block in *.
  assert (0 <= u / nb_chunks < num / step) by (split; [apply Z.div_pos; lia|apply Z.div_lt_upper_bound; lia]).
  assert (num = step * (num / step)) by (Z.div_mod_to_equations; lia).
  split; [nia|by apply Z.mod_pos_bound].
Qed.

Lemma round_inj k u k' u' : 0 <= k < step -> 0 <= k' < step -> 
  round_block k u / step = round_block k' u' / step -> u mod nb_chunks = u' mod nb_chunks -> u = u'.
Proof using Hmb.
  intros Hk Hk' Ht Hi. destruct nb_chunks_pos as [Hc _]. unfold round_block in Ht.
  rewrite !(Z.add_comm _ (step * _)), !(Z.mul_comm step), !Z.div_add_l in Ht by lia. rewrite !(Z.div_small _ step) in Ht by lia.
  rewrite (Z.div_mod u nb_chunks), (Z.div_mod u' nb_chunks) by lia. rewrite Hi. f_equal. nia.
Qed.

(** Bytes of chunks that are the same byte. *)
Lemma chunk_unique d it i d' it' i' : 0 <= it < nb_chunks -> 0 <= it' < nb_chunks ->
  0 <= i < chunk_size it -> 0 <= i' < chunk_size it' ->
  d * len + 2048 * it + i = d' * len + 2048 * it' + i' -> d = d' /\ it = it'.
Proof using Hmb.
  intros Hit Hit' Hi Hi' H. destruct (chunk_size_range it Hit), (chunk_size_range it' Hit').
  assert (d = d') as ->.
  { transitivity ((d * len + 2048 * it + i) / len); [|symmetry].
    - apply (Z.div_unique _ _ _ (2048 * it + i)); [left|]; lia.
    - apply (Z.div_unique _ _ _ (2048 * it' + i')); [left|]; lia. }
  split; [done|lia].
Qed.

Lemma overlap_byte a n b m : 0 < n -> 0 < m -> disjoint a n b m \/ exists i j, 0 <= i < n /\ 0 <= j < m /\ a + i = b + j.
Proof using Type.
  intros Hn Hm. unfold disjoint. destruct (Z_le_dec (a + n) b) as [|H1]; [by left; left|].
  destruct (Z_le_dec (b + m) a) as [|H2]; [by left; right|]. right.
  exists (Z.max 0 (b - a)), (Z.max 0 (a - b)). lia.
Qed.

Lemma chunk_split t it q1 x q2 : ~ is_wait x -> chunk t it = q1 ++ x :: q2 ->
  (q1 = [] /\ x = Read (chunk_src t it) (chunk_size it)) \/
  (q1 = Read (chunk_src t it) (chunk_size it) :: wait /\ x = Write (chunk_dst t it) (chunk_size it)).
Proof using Hmb.
  intros Hx H. destruct Hmb as [_ _ _ _ _ [Hw _] _]. destruct q1 as [|y q1].
  - injection H as <- _. by left.
  - injection H as <- H. apply waits_head in H as ([|z q] & -> & H); [| |done|done].
    + injection H as <- _. right. by rewrite app_nil_r.
    + injection H as _ H. rewrite <- (app_nil_r wait) in H. apply waits_head in H as (q' & _ & H); [by destruct q'|done..].
Qed.

(** ** The trace of an execution *)

Section Trace.
Context `{D : DpuRuntime} `{!DpuRuntimeSpec D}.
Variable tr : list event.
Hypothesis Hown : forall k, 0 <= k < step -> own k tr = init ++ rounds k.
Hypothesis Hothers : forall k a, (k, a) ∈ tr -> ~ is_wait a -> 0 <= k < step.
Hypothesis Hbarrier : wait = [Wait step] -> barrier_respected step tr.

Lemma event_round pre k x post : tr = pre ++ (k, x) :: post -> ~ is_wait x -> 0 <= k < step /\
  exists u q1 q2, 0 <= u < nb_rounds /\ round k u = q1 ++ x :: q2 /\
    own k pre = init ++ concat (map (round k) (seqZ 0 u)) ++ q1.
Proof using Hmb Hown Hothers.
  intros Htr Hx. assert (0 <= k < step) as Hk.
  { apply (Hothers k x); [|done]. rewrite Htr. apply elem_of_app. right. apply elem_of_cons. by left. }
  split; [done|]. pose proof (Hown k Hk) as H. rewrite Htr, own_app, own_cons_eq in H.
  destruct Hmb as [_ _ _ _ _ [_ Hi] _]. symmetry in H. apply waits_head in H as (q & Hpre & H); [|done..]. rewrite Hpre.
  apply concat_split in H as (r1 & u & r2 & q1 & q2 & Hseq & Hr & -> & _).
  apply seqZ_split_at in Hseq as [Hu ->]. by exists u, q1, q2.
Qed.

Lemma read_round pre k a n post : tr = pre ++ (k, Read a n) :: post -> 0 <= k < step /\
  exists u, 0 <= u < nb_rounds /\ a = chunk_src (round_block k u) (u mod nb_chunks) /\ n = chunk_size (u mod nb_chunks) /\
    own k pre = init ++ concat (map (round k) (seqZ 0 u)).
Proof using Hmb Hown Hothers.
  intros Htr. destruct (event_round _ _ _ _ Htr) as (Hk & u & q1 & q2 & Hu & Hr & Hpre); [by intros [? ?]|].
  split; [done|]. exists u. apply chunk_split in Hr as [(-> & Hr)|(_ & Hr)]; [|done|by intros [? ?]].
  injection Hr as -> ->. by rewrite app_nil_r in Hpre.
Qed.

Lemma write_round pre k b n post : tr = pre ++ (k, Write b n) :: post -> 0 <= k < step /\
  exists u, 0 <= u < nb_rounds /\ b = chunk_dst (round_block k u) (u mod nb_chunks) /\ n = chunk_size (u mod nb_chunks) /\
    own k pre = init ++ concat (map (round k) (seqZ 0 u)) ++
      Read (chunk_src (round_block k u) (u mod nb_chunks)) (chunk_size (u mod nb_chunks)) :: wait.
Proof using Hmb Hown Hothers.
  intros Htr. destruct (event_round _ _ _ _ Htr) as (Hk & u & q1 & q2 & Hu & Hr & Hpre); [by intros [? ?]|].
  split; [done|]. exists u. apply chunk_split in Hr as [(_ & Hr)|(-> & Hr)]; [done| |by intros [? ?]].
  injection Hr as -> ->. done.
Qed.

Lemma waits_rounds k u : wait = [Wait step] -> 0 <= u -> waits step (concat (map (round k) (seqZ 0 u))) = (2 * Z.to_nat u)%nat.
Proof using Type.
  intros Hw. revert u. apply natlike_ind; [done|]. intros u Hu IH. unfold Z.succ. rewrite seqZ_app by lia.
  rewrite map_app, concat_app, waits_app, IH, Z.add_0_l, seqZ_1. cbn [map concat]. rewrite app_nil_r.
  unfold round, chunk. rewrite Hw. cbn [app]. rewrite !waits_cons. change (waits step []) with 0%nat.
  rewrite (decide_True (P := Wait step = Wait step)), !decide_False by done. lia.
Qed.

(** No chunk is written before it is read. *)
Lemma read_before_write pre k a n post k' b n' : tr = pre ++ (k, Read a n) :: post -> (k', Write b n') ∈ pre -> disjoint a n b n'.
Proof using All.
  intros Htr Hin. destruct (read_round _ _ _ _ _ Htr) as (Hk & u & Hu & -> & -> & Hpre).
  apply list_elem_of_split in Hin as (p1 & p2 & ->). rewrite <- app_assoc in Htr. cbn [app] in Htr.
  destruct (write_round _ _ _ _ _ Htr) as (Hk' & u' & Hu' & -> & -> & Hpre').
  destruct (round_range k u Hk Hu) as [Ht Hi]. destruct (round_range k' u' Hk' Hu') as [Ht' Hi'].
  destruct (chunk_size_range _ Hi), (chunk_size_range _ Hi').
  match goal with |- disjoint ?a ?n ?b ?m =>
    destruct (overlap_byte a n b m) as [Hd|(i & j & Hic & Hjc & Hij)]; [lia|lia|exact Hd|exfalso] end.
  unfold chunk_src, chunk_dst in Hij. pose proof (mb_dest Hmb _ Ht') as Hd.
  destruct (mb_apart Hmb) as [Hap|(Heq & Hw & Hgr)].
  - destruct (mb_len Hmb) as [Hl _]. unfold disjoint in Hap. nia.
  - rewrite Heq in Hij. destruct (chunk_unique (round_block k u) (u mod nb_chunks) i (dest (round_block k' u')) (u' mod nb_chunks) j) as [Hb Hc]; [done..|lia|].
    assert (u = u') as <-.
    { apply (round_inj k u k' u' Hk Hk'); [|done]. rewrite Hb. by apply Hgr. }
    pose proof (Hbarrier Hw _ _ _ _ k Htr Hk' Hk) as Hle.
    assert (waits step (own k p1) <= waits step (own k (p1 ++ (k', Write (chunk_dst (round_block k' u) (u mod nb_chunks)) (chunk_size (u mod nb_chunks))) :: p2)))%nat as Hmono
      by (apply waits_prefix; rewrite own_app; by apply prefix_app_r).
    rewrite Hpre in Hmono. rewrite Hpre' in Hle. rewrite !waits_app, waits_rounds in Hmono by (done || lia).
    rewrite !waits_app, waits_rounds in Hle by (done || lia). rewrite waits_cons, decide_False in Hle by done.
    rewrite Hw in Hle. rewrite waits_cons, decide_True in Hle by done. lia.
Qed.

(** No byte is written twice. *)
Lemma write_once pre k b n post k' b' n' : tr = pre ++ (k, Write b n) :: post -> (k', Write b' n') ∈ post -> disjoint b n b' n'.
Proof using Hmb Hown Hothers.
  intros Htr Hin. destruct (write_round _ _ _ _ _ Htr) as (Hk & u & Hu & -> & -> & Hpre).
  apply list_elem_of_split in Hin as (p1 & p2 & ->). rewrite app_comm_cons, app_assoc in Htr.
  destruct (write_round _ _ _ _ _ Htr) as (Hk' & u' & Hu' & -> & -> & Hpre').
  destruct (round_range k u Hk Hu) as [Ht Hi]. destruct (round_range k' u' Hk' Hu') as [Ht' Hi'].
  destruct (chunk_size_range _ Hi), (chunk_size_range _ Hi').
  match goal with |- disjoint ?a ?n ?b ?m =>
    destruct (overlap_byte a n b m) as [Hd|(i & j & Hic & Hjc & Hij)]; [lia|lia|exact Hd|exfalso] end.
  unfold chunk_dst in Hij.
  destruct (chunk_unique (dest (round_block k u)) (u mod nb_chunks) i (dest (round_block k' u')) (u' mod nb_chunks) j) as [Hb Hc]; [done..|lia|].
  apply (mb_inj Hmb) in Hb; [|done|done]. assert (u = u') as <- by (apply (round_inj k u k' u' Hk Hk'); [by rewrite Hb|done]).
  assert (k = k') as <- by (unfold round_block in Hb; lia).
  rewrite own_app, own_cons_eq, Hpre in Hpre'. apply (f_equal length) in Hpre'. rewrite !length_app in Hpre'. cbn [length] in Hpre'.
  lia.
Qed.

(** Every chunk is read, then written. *)
Lemma chunk_moved t it : 0 <= t < num -> 0 <= it < nb_chunks -> exists k p1 p2 p3,
  tr = p1 ++ (k, Read (chunk_src t it) (chunk_size it)) :: p2 ++ (k, Write (chunk_dst t it) (chunk_size it)) :: p3 /\
  own k p2 = wait.
Proof using Hmb Hown Hothers Hbarrier.
  intros Ht Hi. destruct nb_chunks_pos as [Hc _]. destruct Hmb as [_ _ (Hs & Hn & Hm) _ _ _ _].
  set (k := t mod step). set (u := t / step * nb_chunks + it).
  assert (0 <= k < step) as Hk by by apply Z.mod_pos_bound.
  assert (0 <= t / step < num / step) as Hts by (split; [apply Z.div_pos; lia|Z.div_mod_to_equations; nia]).
  assert (0 <= u < nb_rounds) as Hu by (unfold u, nb_rounds; nia).
  assert (round k u = chunk t it) as Hr.
  { unfold round, round_block, u. rewrite Z.div_add_l, (Z.div_small it), (Z.add_comm (_ * _)), Z.mod_add, Z.mod_small by lia.
    f_equal. unfold k. rewrite (Z.div_mod t step) at 3 by lia. lia. }
  pose proof (Hown k Hk) as H. unfold rounds in H.
  replace nb_rounds with (u + (1 + (nb_rounds - u - 1))) in H by lia. rewrite !seqZ_app, Z.add_0_l, seqZ_1 in H by lia.
  rewrite !map_app, !concat_app in H. cbn [map concat] in H. rewrite app_nil_r, Hr in H. unfold chunk in H.
  cbn [app] in H. rewrite app_assoc in H. apply own_split in H as (p1 & p' & -> & _ & H).
  rewrite <- app_assoc in H. cbn [app] in H. apply own_split in H as (p2 & p3 & -> & Hp2 & _). by exists k, p1, p2, p3.
Qed.

Lemma trace_transfers_ok : transfers_ok tr.
Proof using Hmb Hown Hothers.
  destruct (mb_len Hmb) as [Hl Hl8]. destruct (mb_aligned Hmb) as [HS HD].
  assert (forall d it B, 0 <= it < nb_chunks -> B mod 8 = 0 -> transfer_ok (B + d * len + 2048 * it) (chunk_size it)) as Hok.
  { intros d it B Hit HB. destruct (chunk_size_range it Hit). unfold transfer_ok, chunk_size in *.
    assert (exists q, len = 8 * q) as [q Hq] by (exists (len / 8); Z.div_mod_to_equations; lia).
    replace (B + d * len + 2048 * it) with (B + (d * q + 256 * it) * 8) by (rewrite Hq; ring).
    rewrite Z.mod_add by lia. split; [done|]. split; [|lia]. Z.div_mod_to_equations. lia. }
  intros k a Hin. apply list_elem_of_split in Hin as (pre & post & Htr). destruct a as [b|a n|b n]; [done|..].
  - destruct (read_round _ _ _ _ _ Htr) as (Hk & u & Hu & -> & -> & _). apply Hok; [|done]. by apply (round_range k u).
  - destruct (write_round _ _ _ _ _ Htr) as (Hk & u & Hu & -> & -> & _). apply Hok; [|done]. by apply (round_range k u).
Qed.

Variable s : dpu_state.
Hypothesis Hs : caches_ok s.

Lemma blocks_moved t x : 0 <= t < num -> 0 <= x < len ->
  mram (run_events tr s) (D0 + dest t * len + x) = mram s (S0 + t * len + x).
Proof using All.
  intros Ht Hx. destruct nb_chunks_pos as [Hc Hcl].
  assert (exists it i, x = 2048 * it + i /\ 0 <= it < nb_chunks /\ 0 <= i < chunk_size it) as (it & i & -> & Hit & Hi).
  { exists (x / 2048), (x mod 2048). unfold chunk_size. Z.div_mod_to_equations. lia. }
  destruct (chunk_moved t it Ht Hit) as (k & p1 & p2 & p3 & Htr & Hp2).
  pose proof trace_transfers_ok as Hok.
  assert (forall k' b' n', (k', Write b' n') ∈ p1 -> disjoint (chunk_src t it) (chunk_size it) b' n') as H1
    by (intros; by eapply read_before_write).
  assert (forall k' b' n', (k', Write b' n') ∈ p3 -> disjoint (chunk_dst t it) (chunk_size it) b' n') as H3.
  { intros k' b' n' Hin. eapply (write_once (p1 ++ (k, _) :: p2)); [|exact Hin]. rewrite Htr, <- app_assoc. done. }
  rewrite Htr in Hok |- *. rewrite !Z.add_assoc.
  apply run_events_copy; [done|done| |done|done|done].
  intros c Hin. assert (c ∈ own k p2) as Hc' by (apply list_elem_of_fmap; exists (k, c); split; [done|by apply list_elem_of_filter]).
  rewrite Hp2 in Hc'. destruct (mb_waits Hmb) as [Hw _]. rewrite list_relations.list.Forall_forall in Hw. by apply Hw.
Qed.

Lemma blocks_others x : x < D0 \/ D0 + num * len <= x -> mram (run_events tr s) x = mram s x.
Proof using All.
  intros Hx. apply run_events_mram; [done|apply trace_transfers_ok|]. intros k b n (pre & post & Htr)%list_elem_of_split.
  destruct (write_round _ _ _ _ _ Htr) as (Hk & u & Hu & -> & -> & _). destruct (round_range k u Hk Hu) as [Ht Hi].
  destruct (chunk_size_range _ Hi). pose proof (mb_dest Hmb _ Ht). destruct (mb_len Hmb) as [Hl _]. unfold chunk_dst. nia.
Qed.
End Trace.
End Rounds.

(** ** The barriers let every execution end *)

#[export] Instance is_wait_dec a : Decision (is_wait a).
Proof. destruct a as [b|? ?|? ?]; [left; by exists b|right; by intros [? ?]..]. Defined.
(** The waits that a tasklet makes, in order. *)
Definition waits_of (l : list action) : list action := filter is_wait l.

Lemma waits_of_app l1 l2 : waits_of (l1 ++ l2) = waits_of l1 ++ waits_of l2.
Proof. apply list_basics.list.filter_app. Qed.
Lemma waits_waits_of b l : waits b (waits_of l) = waits b l.
Proof.
  induction l as [|x l IH]; [done|]. unfold waits_of in *. destruct (decide (is_wait x)) as [H|H].
  - rewrite filter_cons_True by done. rewrite !waits_cons. by rewrite IH.
  - rewrite filter_cons_False by done. rewrite waits_cons, decide_False, IH; [done|]. intros ->. apply H. by exists b.
Qed.
Lemma waits_of_prefix l1 l2 : l1 `prefix_of` l2 -> waits_of l1 `prefix_of` waits_of l2.
Proof. intros [l ->]. rewrite waits_of_app. by apply prefix_app_r. Qed.

Lemma barrier_respected_snoc b tr k a : barrier_respected b tr ->
  (0 <= k < b -> forall k', 0 <= k' < b -> (waits b (own k tr) <= waits b (own k' tr))%nat) ->
  barrier_respected b (tr ++ [(k, a)]).
Proof.
  intros Hb Hk pre k1 a1 post k' Heq Hk1 Hk'. induction post as [|e post' _] using rev_ind.
  - apply app_inj_tail in Heq as [-> [= -> ->]]. by apply Hk.
  - rewrite app_comm_cons, app_assoc in Heq. apply app_inj_tail in Heq as [-> _]. by eapply Hb.
Qed.

Lemma list_min {A} (f : A -> nat) l : l <> [] -> exists x, x ∈ l /\ forall y, y ∈ l -> (f x <= f y)%nat.
Proof.
  induction l as [|x l IH]; [done|]. intros _. destruct l as [|x' l].
  - exists x. split; [by apply elem_of_cons; left|]. intros y [->|Hy]%elem_of_cons; [done|by apply not_elem_of_nil in Hy].
  - destruct IH as (y & Hy & Hmin); [done|]. destruct (le_lt_dec (f x) (f y)) as [Hle|Hlt].
    + exists x. split; [by apply elem_of_cons; left|]. intros z [->|Hz]%elem_of_cons; [done|]. specialize (Hmin z Hz). lia.
    + exists y. split; [by apply elem_of_cons; right|]. intros z [->|Hz]%elem_of_cons; [lia|by apply Hmin].
Qed.

(** Tasklets that wait at the same barriers in the same order, those of a
    barrier as often as each other. *)
Record synchronised (prog : Z -> list action) : Prop := {
  sy_total : forall b k k', b ∈ [8; 4; 2] -> 0 <= k < b -> 0 <= k' < b -> waits b (prog k) = waits b (prog k');
  sy_order : forall k k', 0 <= k -> 0 <= k' -> waits_of (prog k) `prefix_of` waits_of (prog k') \/ waits_of (prog k') `prefix_of` waits_of (prog k);
}.

Section Progress.
Variable prog : Z -> list action.
Hypothesis Hsync : synchronised prog.

Definition left_to_do (tr : list event) (k : Z) : nat := (length (prog k) - length (own k tr))%nat.

(** The one that has waited least can go on. *)
Lemma least_waited tr k : partial_execution prog tr -> 0 <= k < NR_TASKLETS ->
  (forall k', 0 <= k' < NR_TASKLETS -> own k' tr <> prog k' -> (length (waits_of (own k tr)) <= length (waits_of (own k' tr)))%nat) ->
  Forall (fun b => 0 <= k < b -> forall k', 0 <= k' < b -> (waits b (own k tr) <= waits b (own k' tr))%nat) [8; 4; 2].
Proof using Hsync.
  intros [_ Hpre _] Hk Hmin. apply list_relations.list.Forall_forall. intros b Hb Hkb k' Hkb'.
  assert (0 <= k' < NR_TASKLETS) as Hk'.
  { unfold NR_TASKLETS. rewrite !elem_of_cons in Hb. destruct Hb as [->|[->|[->|Hb%not_elem_of_nil]]]; [lia..|done]. }
  pose proof (Hpre k Hk) as Hp. pose proof (Hpre k' Hk') as Hp'.
  destruct (decide (own k' tr = prog k')) as [Hend|Hend].
  - rewrite Hend, <- (sy_total _ Hsync b k k') by done. by apply waits_prefix.
  - specialize (Hmin k' Hk' Hend). apply waits_of_prefix in Hp, Hp'.
    assert (waits_of (own k tr) `prefix_of` waits_of (own k' tr)) as Hin.
    { assert (exists W, waits_of (own k tr) `prefix_of` W /\ waits_of (own k' tr) `prefix_of` W) as (W & HW & HW').
      { destruct (sy_order _ Hsync k k'); [lia|lia|exists (waits_of (prog k'))|exists (waits_of (prog k))]; split; try done; by etrans. }
      destruct (prefix_weak_total _ _ _ HW HW') as [H|H]; [done|]. by rewrite (prefix_length_eq _ _ H). }
    rewrite <- (waits_waits_of b (own k tr)), <- (waits_waits_of b (own k' tr)). by apply waits_prefix.
Qed.

Lemma next_action tr : partial_execution prog tr -> (forall k, 0 <= k < NR_TASKLETS -> own k tr = prog k) \/
  exists k a, partial_execution prog (tr ++ [(k, a)]).
Proof using Hsync.
  intros Hpe. pose proof Hpe as [Ht Hpre Hb].
  set (todo := filter (fun k => own k tr <> prog k) (seqZ 0 NR_TASKLETS)).
  destruct (decide (todo = [])) as [Hnil|Hne].
  { left. intros k Hk. destruct (decide (own k tr = prog k)) as [|Hne]; [done|].
    assert (k ∈ todo) as Hin by (apply list_elem_of_filter; split; [done|apply elem_of_seqZ; lia]).
    rewrite Hnil in Hin. by apply not_elem_of_nil in Hin. }
  right. destruct (list_min (fun k => length (waits_of (own k tr))) todo Hne) as (k & Hin & Hmin).
  apply list_elem_of_filter in Hin as [Hend Hk%elem_of_seqZ]. destruct (Hpre k ltac:(lia)) as [[|a l] Hl].
  { rewrite app_nil_r in Hl. by rewrite Hl in Hend. }
  exists k, a. split.
  - apply list_relations.list.Forall_app. split; [done|]. apply list_relations.list.Forall_singleton. cbn. lia.
  - intros k' Hk'. rewrite own_app. destruct (decide (k = k')) as [<-|Hk2].
    + rewrite own_cons_eq, Hl. exists l. by rewrite <- app_assoc.
    + rewrite own_cons_ne, app_nil_r by done. by apply Hpre.
  - assert (Forall (fun b => 0 <= k < b -> forall k', 0 <= k' < b -> (waits b (own k tr) <= waits b (own k' tr))%nat) [8; 4; 2]) as Hok.
    { apply least_waited; [done|lia|]. intros k' Hk' Hne'. apply Hmin, list_elem_of_filter. split; [done|apply elem_of_seqZ; lia]. }
    rewrite list_relations.list.Forall_forall in Hb, Hok |- *. intros b Hbin. apply barrier_respected_snoc; [by apply Hb|by apply Hok].
Qed.

Lemma sum_cons {A} (f : A -> nat) x l : sum_list_with f (x :: l) = (f x + sum_list_with f l)%nat.
Proof using Type. done. Qed.

Lemma partial_length tr : partial_execution prog tr -> (length tr <= sum_list_with (fun k => length (prog k)) (seqZ 0 NR_TASKLETS))%nat.
Proof using Type.
  intros [Ht Hpre _].
  assert (length tr = sum_list_with (fun k => length (own k tr)) (seqZ 0 NR_TASKLETS)) as ->.
  { clear Hpre. induction Ht as [|[k a] tr Hk _ IH]; [done|]. cbn [length]. rewrite IH. cbn [fst] in Hk.
    assert (forall l, NoDup l -> k ∈ l -> sum_list_with (fun k' => length (own k' ((k, a) :: tr))) l =
      S (sum_list_with (fun k => length (own k tr)) l)) as Hsum.
    { induction 1 as [|x l Hx Hnd IHl]; intros Hin; [by apply not_elem_of_nil in Hin|]. rewrite !sum_cons.
      assert (forall l', k ∉ l' -> sum_list_with (fun k' => length (own k' ((k, a) :: tr))) l' = sum_list_with (fun k => length (own k tr)) l') as Hno.
      { induction l' as [|y l' IHl']; [done|]. intros Hy. apply not_elem_of_cons in Hy as [Hy Hy']. rewrite !sum_cons.
        rewrite own_cons_ne by done. f_equal. by apply IHl'. }
      destruct (decide (x = k)) as [->|Hxk].
      - rewrite own_cons_eq. cbn [length]. rewrite Hno by done. done.
      - rewrite own_cons_ne by done. rewrite IHl; [lia|]. apply elem_of_cons in Hin as [->|Hin]; done. }
    symmetry. apply Hsum; [apply NoDup_seqZ|apply elem_of_seqZ; lia]. }
  assert (forall l : list Z, (forall k, k ∈ l -> 0 <= k < NR_TASKLETS) ->
    (sum_list_with (fun k => length (own k tr)) l <= sum_list_with (fun k => length (prog k)) l)%nat) as Hle.
  { induction l as [|k l IH]; intros Hl; [done|]. rewrite !sum_cons. pose proof (prefix_length _ _ (Hpre k (Hl k ltac:(apply elem_of_cons; by left)))).
    specialize (IH ltac:(intros; apply Hl, elem_of_cons; by right)). lia. }
  apply Hle. intros k Hk%elem_of_seqZ. lia.
Qed.

(** No tasklet is left waiting: what has been done so far is the start of a whole execution. *)
Lemma partial_completes tr : partial_execution prog tr -> exists post, execution prog (tr ++ post).
Proof using Hsync.
  remember (sum_list_with (fun k => length (prog k)) (seqZ 0 NR_TASKLETS) - length tr)%nat as n eqn:Hn.
  revert tr Hn. induction n as [|n IH]; intros tr Hn Hpe.
  - destruct (next_action tr Hpe) as [Hend|(k & a & Hpe')]; [exists []; by rewrite app_nil_r|].
    pose proof (partial_length _ Hpe') as Hl. rewrite length_app in Hl. cbn [length] in Hl. lia.
  - destruct (next_action tr Hpe) as [Hend|(k & a & Hpe')]; [exists []; by rewrite app_nil_r|].
    destruct (IH (tr ++ [(k, a)])) as (post & Hpost); [rewrite length_app; cbn [length]; lia|done|].
    exists ((k, a) :: post). by rewrite <- app_assoc in Hpost.
Qed.

Lemma nothing_done : partial_execution prog [].
Proof using Type.
  split; [constructor|intros; apply prefix_nil|]. apply list_relations.list.Forall_forall.
  intros b _ pre k a post k' H. by destruct pre.
Qed.
End Progress.

(** ** The programs move the blocks *)

(** The shape of the programs: barriers of all, then the tasklets below [step] go on. *)
Definition shape (step : Z) (enter start : list action) (body : Z -> list action) (k : Z) : list action :=
  if 8 <=? k then [] else enter ++ if step <=? k then [] else start ++ body k.

Lemma enter_once : Forall (eq (Wait 8)) [Wait 8].
Proof. by repeat constructor. Qed.

Lemma waits_of_waits l : Forall is_wait l -> waits_of l = l.
Proof. induction 1 as [|x l Hx _ IH]; [done|]. unfold waits_of in *. by rewrite filter_cons_True, IH. Qed.

Lemma waits_of_rounds len step num S0 D0 dest wait k k' : Forall is_wait wait ->
  waits_of (rounds len step num S0 D0 dest wait k) = waits_of (rounds len step num S0 D0 dest wait k').
Proof.
  intros Hw. unfold rounds. induction (seqZ 0 (nb_rounds len step num)) as [|u l IH]; [done|].
  cbn [map concat]. rewrite !waits_of_app, IH. f_equal. unfold round, chunk, waits_of.
  rewrite !filter_cons_False by (by intros [? ?]). rewrite !list_basics.list.filter_app.
  by rewrite !filter_cons_False by (by intros [? ?]).
Qed.

Lemma waits_none b l : (forall a, a ∈ l -> a <> Wait b) -> waits b l = 0%nat.
Proof.
  induction l as [|x l IH]; intros H; [done|]. rewrite waits_cons, decide_False, IH; [done| |].
  - intros a Ha. apply H, elem_of_cons. by right.
  - apply H, elem_of_cons. by left.
Qed.

Lemma waits_in_rounds len step num S0 D0 dest wait k a : Forall (eq (Wait step)) wait ->
  a ∈ rounds len step num S0 D0 dest wait k -> is_wait a -> a = Wait step.
Proof.
  intros Hw Hin Ha. unfold rounds in Hin. apply list_elem_of_In, in_concat in Hin as (l & (u & <- & _)%in_map_iff & Hin).
  apply list_elem_of_In in Hin. unfold round, chunk in Hin. rewrite list_relations.list.Forall_forall in Hw.
  rewrite elem_of_cons, elem_of_app, elem_of_cons in Hin.
  destruct Hin as [->|[Hin|[->|Hin]]]; [by destruct Ha|by rewrite (Hw _ Hin)|by destruct Ha|by rewrite (Hw _ Hin)].
Qed.

Lemma shape_synchronised prog len step num S0 D0 dest wait enter start : 0 < step <= 8 ->
  Forall (eq (Wait step)) wait -> Forall (eq (Wait 8)) enter -> Forall (eq (Wait step)) start ->
  (forall k, 0 <= k -> prog k = shape step enter start (rounds len step num S0 D0 dest wait) k) ->
  synchronised prog.
Proof.
  intros Hs Hw Hen Hst Hp.
  assert (Forall is_wait wait) as Hww by (eapply list_relations.list.Forall_impl; [exact Hw|intros ? <-; by exists step]).
  assert (forall k k', 0 <= k < step -> 0 <= k' < step -> waits_of (prog k) = waits_of (prog k')) as Hsame.
  { intros k k' Hk Hk'. rewrite !Hp by lia. unfold shape. rewrite !(proj2 (Z.leb_gt _ _)) by lia.
    rewrite !waits_of_app. do 2 f_equal. by apply waits_of_rounds. }
  split.
  - intros b k k' Hb. revert k k'.
    assert (b <= 8) as Hb8 by (rewrite !elem_of_cons in Hb; destruct Hb as [->|[->|[->|Hb%not_elem_of_nil]]]; done || lia).
    assert (forall k k', 0 <= k < b -> 0 <= k' < b -> k < step <= k' -> waits b (prog k) = waits b (prog k')) as Hcross.
    { intros k k' Hk Hk' Hks. rewrite !Hp by lia. unfold shape. rewrite !(proj2 (Z.leb_gt 8 _)) by lia.
      rewrite (proj2 (Z.leb_gt step k)), (proj2 (Z.leb_le step k')) by lia. rewrite !(waits_app b enter).
      rewrite (waits_none b (start ++ _)); [done|]. intros a Ha ->. assert (Wait b = Wait step) as [= ->]; [|lia].
      apply elem_of_app in Ha as [Ha|Ha].
      - rewrite list_relations.list.Forall_forall in Hst. by rewrite <- (Hst _ Ha).
      - exact (waits_in_rounds _ _ _ _ _ _ _ _ _ Hw Ha (ex_intro _ b eq_refl)). }
    intros k k' Hk Hk'. destruct (Z_lt_le_dec k step), (Z_lt_le_dec k' step).
    + rewrite <- (waits_waits_of b (prog k)), (Hsame k k') by lia. apply waits_waits_of.
    + by apply Hcross.
    + symmetry. by apply Hcross.
    + rewrite !Hp by lia. unfold shape. by rewrite !(proj2 (Z.leb_gt 8 _)), !(proj2 (Z.leb_le step _)) by lia.
  - assert (forall k, 0 <= k -> prog k = [] \/ prog k = enter \/ exists l, 0 <= k < step /\ prog k = enter ++ l) as Hcases.
    { intros k Hk. rewrite Hp by done. unfold shape.
      destruct (Z.leb_spec 8 k); [by left|]. right. destruct (Z.leb_spec step k); [left; by rewrite app_nil_r|]. right. eexists. split; [lia|done]. }
    intros k k' Hk0 Hk0'. destruct (Hcases k Hk0) as [->|[->|(l & Hk & Hl)]]; [left; apply prefix_nil| |].
    + destruct (Hcases k' Hk0') as [->|[->|(l' & Hk' & ->)]]; [right; apply prefix_nil|by left|left].
      rewrite waits_of_app. by apply prefix_app_r.
    + destruct (Hcases k' Hk0') as [->|[->|(l' & Hk' & Hl')]]; [right; apply prefix_nil| |].
      * right. rewrite Hl, waits_of_app. by apply prefix_app_r.
      * left. by rewrite (Hsame k k').
Qed.

(** What the host has to give: blocks of [len] bytes, aligned, in areas that do not wrap around. *)
Record kernel_range (sizeof_T heap len : Z) (a : dpu_arguments_comm_t) : Prop := {
  kr_sizeof : sizeof_T ∈ [1; 2; 4; 8];
  kr_num : 0 < da_num_comm_dpu a;
  kr_total : da_total_data_size a = da_num_comm_dpu a * len;
  kr_len : 0 < len /\ len mod 8 = 0;
  kr_heap : 0 <= heap /\ heap mod 8 = 0;
  kr_start : 0 <= da_start_offset a /\ da_start_offset a mod 8 = 0 /\
    heap + da_start_offset a + da_num_comm_dpu a * len < 2 ^ 32;
  kr_target : 0 <= da_target_offset a /\ da_target_offset a mod 8 = 0 /\
    heap + da_target_offset a + da_num_comm_dpu a * len < 2 ^ 32;
}.

(** Blocks moved from the area at [S0] to the area at [D0], the rest of the MRAM being as it was. *)
Definition relocated (len num S0 D0 : Z) (dest : Z -> Z) (m m' : memory) : Prop :=
  (forall t x, 0 <= t < num -> 0 <= x < len -> m' (D0 + dest t * len + x) = m (S0 + t * len + x)) /\
  (forall x, x < D0 \/ D0 + num * len <= x -> m' x = m x).

Section Kernel.
Variables (sizeof_T heap len : Z) (a : dpu_arguments_comm_t).
Hypothesis Hk : kernel_range sizeof_T heap len a.
Notation num := (da_num_comm_dpu a).
Notation S0 := (heap + da_start_offset a).
Notation D0 := (heap + da_target_offset a).

Lemma words_bytes : 0 < sizeof_T <= 8 /\ 2048 / sizeof_T * sizeof_T = 2048 /\
  max_words_per_dpu sizeof_T a * sizeof_T = len.
Proof using Hk.
  destruct Hk as [Hsz Hn Ht [Hl Hl8] _ (_ & _ & Hf) _]. rewrite !elem_of_cons in Hsz.
  assert ((sizeof_T = 1 \/ sizeof_T = 2 \/ sizeof_T = 4 \/ sizeof_T = 8)) as Hs
    by (destruct Hsz as [|[|[|[|Hx%not_elem_of_nil]]]]; auto; done).
  unfold max_words_per_dpu. destruct Hk as [_ _ _ _ (Hh & _) (Hs0 & _) _].
  rewrite u32_id by (unfold fits; destruct Hs as [->|[->|[->| ->]]]; Z.div_mod_to_equations; nia). rewrite Ht.
  rewrite Z.div_mul_cancel_l by (destruct Hs as [->|[->|[->| ->]]]; lia).
  destruct Hs as [->|[->|[->| ->]]]; (split; [lia|split; [done|Z.div_mod_to_equations; lia]]).
Qed.

Lemma len_fits : fits 32 len.
Proof using Hk. destruct Hk as [_ Hn _ [Hl _] [Hh _] (Hs & _ & Hf) _]. unfold fits. nia. Qed.

Lemma iter_chunks : iter sizeof_T a = nb_chunks len.
Proof using Hk.
  unfold iter. destruct words_bytes as (_ & _ & ->). rewrite u32_id by apply len_fits.
  destruct (kr_len _ _ _ _ Hk) as [Hl _]. unfold nb_chunks. destruct (Z.eqb_spec (len mod 2048) 0); Z.div_mod_to_equations; lia.
Qed.

Lemma transfer_size_chunk it : 0 <= it < nb_chunks len -> transfer_size sizeof_T a it = chunk_size len it.
Proof using Hk.
  intros Hit. unfold transfer_size, leftover_num. rewrite iter_chunks. destruct words_bytes as (Hs & H2 & Hw).
  destruct (kr_len _ _ _ _ Hk) as [Hl _]. pose proof len_fits as Hf. unfold chunk_size, nb_chunks, fits in *.
  set (W := max_words_per_dpu sizeof_T a) in *. set (Q := 2048 / sizeof_T) in *.
  destruct (Z.eqb_spec it ((len + 2047) / 2048 - 1)) as [->|Hne]; [|Z.div_mod_to_equations; lia].
  set (n := (len + 2047) / 2048 - 1) in *. assert (2048 * n < len <= 2048 * (n + 1)) as Hn by (unfold n; Z.div_mod_to_equations; lia).
  assert ((W - Q * n) * sizeof_T = len - 2048 * n) as He by (rewrite Z.mul_sub_distr_r, Hw; nia).
  assert (0 <= W - Q * n < 2 ^ 32) by nia. rewrite (u32_id (W - Q * n)) by (unfold fits; lia). rewrite He, u32_id by (unfold fits; lia). lia.
Qed.

(** The block that the block t becomes. *)
Definition destination (group : Z) (offset : Z -> Z) (t : Z) : Z :=
  if da_no_rotate a then t else t / group * group + offset t.

Lemma move_chunk_at wait group offset t it : 0 <= t < num -> 0 <= destination group offset t < num -> 0 <= it < nb_chunks len ->
  move_chunk sizeof_T heap a wait group offset t it = chunk len S0 D0 (destination group offset) wait t it.
Proof using Hk.
  intros Ht Hd Hit. unfold move_chunk, chunk. rewrite transfer_size_chunk by done. destruct words_bytes as (Hs & H2 & Hw).
  destruct Hk as [_ Hn _ [Hl _] [Hh _] (Hs0 & _ & Hs1) (Hd0 & _ & Hd1)].
  assert (2048 * it <= len) as Hc by (unfold nb_chunks in Hit; Z.div_mod_to_equations; lia).
  set (W := max_words_per_dpu sizeof_T a) in *.
  assert (forall d, W * d * sizeof_T = d * len /\ d * W * sizeof_T = d * len) as Hwd by (intros d; split; rewrite <- Hw; ring).
  assert (forall d, 0 <= d < num -> 0 <= d * len /\ d * len + len <= num * len) as Hb by (intros d; nia).
  assert (original_addr sizeof_T heap a t it = chunk_src len S0 t it) as ->.
  { unfold original_addr, chunk_src. fold W. rewrite (proj1 (Hwd t)). destruct (Hb t Ht). apply u32_id. unfold fits. lia. }
  assert (target_addr sizeof_T heap a group offset t it = chunk_dst len D0 (destination group offset) t it) as ->; [|done].
  unfold target_addr, chunk_dst, destination in *. fold W. destruct (da_no_rotate a).
  - rewrite (proj1 (Hwd t)). destruct (Hb t Ht). apply u32_id. unfold fits. lia.
  - rewrite !(proj2 (Hwd _)). destruct (Hb _ Hd) as [H1 H3]. rewrite Z.mul_add_distr_r in H1, H3.
    rewrite Z.mul_add_distr_r, Z.add_assoc. apply u32_id. unfold fits. lia.
Qed.

Lemma steps_blocks step k : 0 <= k < step -> num mod step = 0 ->
  steps k step num = map (fun j => k + step * j) (seqZ 0 (num / step)).
Proof using Type.
  intros Hs Hm. unfold steps. do 2 f_equal. assert (num = num / step * step) as Heq by (Z.div_mod_to_equations; lia).
  rewrite Heq at 1. replace (num / step * step - k + step - 1) with (num / step * step + (step - 1 - k)) by ring.
  rewrite Z.div_add_l, (Z.div_small (step - 1 - k)) by lia. lia.
Qed.

Lemma move_blocks_rounds wait step group offset k : 0 <= k < step -> num mod step = 0 ->
  (forall t, 0 <= t < num -> 0 <= destination group offset t < num) ->
  move_blocks sizeof_T heap a wait step group offset k = rounds len step num S0 D0 (destination group offset) wait k.
Proof using Hk.
  intros Hks Hm Hd. unfold move_blocks, rounds, nb_rounds. rewrite steps_blocks, iter_chunks by done. rewrite map_map.
  destruct (kr_len _ _ _ _ Hk) as [Hl _]. pose proof (kr_num _ _ _ _ Hk) as Hn.
  assert (0 < nb_chunks len) as Hw by (unfold nb_chunks; Z.div_mod_to_equations; lia). set (w := nb_chunks len) in *.
  assert (0 <= num / step) as Hns by (apply Z.div_pos; lia).
  set (f := fun j u => chunk len S0 D0 (destination group offset) wait (k + step * j) (u mod w)).
  change (round len step S0 D0 (destination group offset) wait k) with (fun u => f (u / w) u).
  rewrite <- (seqZ_blocks f) by done. rewrite concat_concat, map_map. f_equal. apply map_ext_in.
  intros j Hj%list_elem_of_In%elem_of_seqZ. f_equal.
  replace (seqZ (j * w) w) with (map (Z.add (j * w)) (seqZ 0 w)) by (rewrite <- (Z.add_0_r (j * w)) at 2; apply (fmap_add_seqZ (j * w) 0 w)).
  rewrite map_map. apply map_ext_in. intros it Hit%list_elem_of_In%elem_of_seqZ.
  assert (0 <= k + step * j < num) as Ht by (assert (num = num / step * step) by (Z.div_mod_to_equations; lia); nia).
  unfold f. rewrite (Z.add_comm (j * w)), Z.mod_add, Z.mod_small by lia. apply move_chunk_at; [done|by apply Hd|done].
Qed.

(** What a program does, whatever the interleaving: it ends, and moves the blocks. *)
Definition relocates (prog : Z -> list action) (dest : Z -> Z) : Prop :=
  (forall tr, partial_execution prog tr -> exists post, execution prog (tr ++ post)) /\
  (forall (D : DpuRuntime) tr s, DpuRuntimeSpec D -> execution prog tr -> caches_ok s ->
    relocated len num S0 D0 dest (mram s) (mram (run_events tr s)) /\ (bytes_ok s -> bytes_ok (run_events tr s))).

Lemma shape_relocates prog step enter start wait group offset : 0 < step <= 8 -> num mod step = 0 -> Forall (eq (Wait 8)) enter ->
  wait = [] \/ (step ∈ [8; 4; 2] /\ wait = [Wait step]) -> start = [] \/ start = [Wait step] ->
  (forall t, 0 <= t < num -> 0 <= destination group offset t < num) ->
  (forall t t', 0 <= t < num -> 0 <= t' < num -> destination group offset t = destination group offset t' -> t = t') ->
  disjoint S0 (num * len) D0 (num * len) \/
    (S0 = D0 /\ wait = [Wait step] /\ forall t, 0 <= t < num -> destination group offset t / step = t / step) ->
  (forall k, 0 <= k -> prog k = shape step enter start (move_blocks sizeof_T heap a wait step group offset) k) ->
  relocates prog (destination group offset).
Proof using Hk.
  intros Hs Hm Hen Hw Hst Hd Hi Hap Hp. set (dest := destination group offset) in *.
  assert (forall k, 0 <= k -> prog k = shape step enter start (rounds len step num S0 D0 dest wait) k) as Hp'.
  { intros k Hk0. rewrite Hp by done. unfold shape. destruct (8 <=? k); [done|]. destruct (Z.leb_spec step k); [done|].
    by rewrite move_blocks_rounds. }
  assert (Forall (eq (Wait step)) wait /\ Forall (eq (Wait step)) start) as [Hww Hsw].
  { split; [destruct Hw as [->|[_ ->]]|destruct Hst as [->| ->]]; by repeat constructor. }
  split; [intros tr; apply partial_completes; by apply (shape_synchronised prog len step num S0 D0 dest wait enter start)|].
  intros D tr s HD [[Ht Hpre Hb] Hown] Hc. unfold NR_TASKLETS in *.
  assert (moves_blocks len step num S0 D0 dest wait (enter ++ start)) as Hmb.
  { destruct Hk as [_ Hn _ Hl (_ & Hh) (_ & Hsa & _) (_ & Hda & _)]. split; try done.
    - split; Z.div_mod_to_equations; lia.
    - lia.
    - split; [|apply list_relations.list.Forall_app; split]; eapply list_relations.list.Forall_impl; try done; intros ? <-; by eexists. }
  assert (forall k, 0 <= k < step -> own k tr = (enter ++ start) ++ rounds len step num S0 D0 dest wait k) as H1.
  { intros k Hks. rewrite Hown, Hp' by lia. unfold shape. rewrite !(proj2 (Z.leb_gt _ _)) by lia. apply app_assoc. }
  assert (forall k x, (k, x) ∈ tr -> ~ is_wait x -> 0 <= k < step) as H2.
  { intros k x Hin Hx. rewrite list_relations.list.Forall_forall in Ht. pose proof (Ht _ Hin) as Hk16. cbn [fst] in Hk16.
    assert (x ∈ prog k) as Hxin.
    { rewrite <- Hown by done. apply list_elem_of_fmap. exists (k, x). split; [done|]. by apply list_elem_of_filter. }
    rewrite Hp' in Hxin by lia. unfold shape in Hxin. destruct (8 <=? k); [by apply not_elem_of_nil in Hxin|].
    destruct (Z.leb_spec step k); [|lia]. rewrite app_nil_r in Hxin. rewrite list_relations.list.Forall_forall in Hen.
    rewrite <- (Hen _ Hxin) in Hx. exfalso. apply Hx. by exists 8. }
  assert (wait = [Wait step] -> barrier_respected step tr) as H3.
  { intros Hw1. rewrite list_relations.list.Forall_forall in Hb. apply Hb. destruct Hw as [->|[H _]]; done. }
  split; [|by apply run_events_bytes; [done|apply (trace_transfers_ok len step num S0 D0 dest wait (enter ++ start) Hmb tr H1 H2)]].
  split; [intros t x; by apply (blocks_moved len step num S0 D0 dest wait (enter ++ start) Hmb tr H1 H2 H3)|].
  intros x. by apply (blocks_others len step num S0 D0 dest wait (enter ++ start) Hmb tr H1 H2 H3).
Qed.

(** *** Rotations *)

Lemma u32_mod x g : (g | 2 ^ 32) -> 0 < g -> u32 x mod g = x mod g.
Proof using Type. intros [q Hq] Hg. unfold u32. rewrite Hq, (Z.mul_comm q), Z.rem_mul_r, (Z.mul_comm g), Z.mod_add, Z.mod_mod by (nia || lia). done. Qed.

(** The block t of its group of [g], turned by the position of the DPU. *)
Definition rotated (g : Z) (pos : Z -> Z) (t : Z) : Z := t / g * g + pos t mod g.

Lemma rotated_range g pos t n : 0 < g -> n mod g = 0 -> 0 <= t < n -> 0 <= rotated g pos t < n.
Proof using Type.
  intros Hg Hn Ht. unfold rotated. pose proof (Z.mod_pos_bound (pos t) g Hg). assert (n = n / g * g) by (Z.div_mod_to_equations; lia).
  assert (0 <= t / g < n / g) by (split; [apply Z.div_pos; lia|apply Z.div_lt_upper_bound; lia]). nia.
Qed.
Lemma rotated_group g pos t : 0 < g -> rotated g pos t / g = t / g.
Proof using Type. intros Hg. unfold rotated. rewrite Z.div_add_l, (Z.div_small (_ mod g)); [lia|by apply Z.mod_pos_bound|lia]. Qed.
Lemma rotated_inj g pos t t' : 0 < g -> (pos t mod g = pos t' mod g -> t mod g = t' mod g) -> rotated g pos t = rotated g pos t' -> t = t'.
Proof using Type.
  intros Hg Hp H. pose proof (rotated_group g pos t Hg) as H1. pose proof (rotated_group g pos t' Hg) as H2.
  rewrite H, H2 in H1. unfold rotated in H. rewrite (Z.div_mod t g), (Z.div_mod t' g) by lia. rewrite H1 in *.
  rewrite Hp by lia. done.
Qed.
Lemma mod_cancel_l x y p g : 0 < g -> (x - p) mod g = (y - p) mod g -> x mod g = y mod g.
Proof using Type.
  intros Hg H. replace x with ((x - p) + p) by lia. replace y with ((y - p) + p) by lia.
  rewrite (Z.add_mod (x - p)), (Z.add_mod (y - p)) by lia. by rewrite H.
Qed.
Lemma mod_cancel_r x y p g : 0 < g -> (p - x) mod g = (p - y) mod g -> x mod g = y mod g.
Proof using Type.
  intros Hg H. replace x with (p - (p - x)) by lia. replace y with (p - (p - y)) by lia.
  rewrite (Zminus_mod p (p - x)), (Zminus_mod p (p - y)). by rewrite H.
Qed.

(** The blocks stay, or turn in their groups of [g]. *)
Definition placed (g : Z) (pos : Z -> Z) (t : Z) : Z := if da_no_rotate a then t else rotated g pos t.

(** A step of [step] tasklets that turns the blocks by [pos] in groups of [g]. *)
Lemma rotation_relocates prog step enter start wait g pos : 0 < step <= 8 -> num mod step = 0 -> (g | 2 ^ 32) -> 0 < g -> num mod g = 0 ->
  Forall (eq (Wait 8)) enter ->
  wait = [] \/ (step ∈ [8; 4; 2] /\ wait = [Wait step]) -> start = [] \/ start = [Wait step] ->
  (forall t t', pos t mod g = pos t' mod g -> t mod g = t' mod g) ->
  disjoint S0 (num * len) D0 (num * len) \/ (S0 = D0 /\ wait = [Wait step] /\ step = g) ->
  (forall k, 0 <= k -> prog k = shape step enter start (move_blocks sizeof_T heap a wait step g (fun t => u32 (pos t) mod g)) k) ->
  relocates prog (placed g pos).
Proof using Hk.
  intros Hs Hm Hgd Hg Hng Hen Hw Hst Hpos Hap Hp.
  assert (forall t, destination g (fun t => u32 (pos t) mod g) t = placed g pos t) as Hd.
  { intros t. unfold destination, placed, rotated. by rewrite u32_mod. }
  destruct (shape_relocates prog step enter start wait g (fun t => u32 (pos t) mod g)) as [H1 H2]; try done.
  - intros t Ht. rewrite Hd. unfold placed. destruct (da_no_rotate a); [done|by apply rotated_range].
  - intros t t' _ _. rewrite !Hd. unfold placed. destruct (da_no_rotate a); [done|]. apply rotated_inj; auto.
  - destruct Hap as [|(He & Hw1 & ->)]; [by left|right]. split_and!; [done|done|]. intros t _. rewrite Hd. unfold placed.
    destruct (da_no_rotate a); [done|by apply rotated_group].
  - split; [done|]. intros D tr s HD Htr Hc. destruct (H2 D tr s HD Htr Hc) as [[H3 H4] Hb]. split; [|done]. split; [|done].
    intros t x Ht Hx. rewrite <- Hd. by apply H3.
Qed.

(** *** The two programs *)

Definition clockwise_group : Z := if num mod 8 =? 0 then 8 else num.

Lemma whole_group : num mod 8 = 0 \/ num = 4 \/ num = 2 ->
  let g := clockwise_group in 0 < g <= 8 /\ g ∈ [8; 4; 2] /\ num mod g = 0 /\ (g | 2 ^ 32).
Proof using Type.
  intros Hn g. subst g. unfold clockwise_group. destruct (Z.eqb_spec (num mod 8) 0) as [H|H]; [|destruct Hn as [|[-> | ->]]; [done|..]];
    (split_and!; [lia|lia|by eapply bool_decide_unpack; vm_compute|done|]); [by exists (2 ^ 29)|by exists (2 ^ 30)|by exists (2 ^ 31)].
Qed.

Lemma clockwise_moves : num mod 8 = 0 \/ num = 4 \/ num = 2 ->
  S0 = D0 \/ disjoint S0 (num * len) D0 (num * len) ->
  relocates (data_relocate_clockwise sizeof_T heap a) (placed clockwise_group (fun t => t - da_each_dpu a)).
Proof using Hk.
  intros Hn Hap. destruct (whole_group Hn) as (Hg8 & Hg & Hm & Hgd).
  pose proof enter_once as Hen. apply (rotation_relocates _ clockwise_group [Wait 8] [Wait clockwise_group] [Wait clockwise_group]); try done; try lia; [by right|by right| | |].
  - intros t t'. apply mod_cancel_l. lia.
  - destruct Hap; [by right|by left].
  - intros k Hk0. unfold data_relocate_clockwise, shape, clockwise_group. cbv zeta. destruct (Z.leb_spec 8 k); [done|].
    destruct (Z.eqb_spec (num mod 8) 0); [by rewrite (proj2 (Z.leb_gt 8 k))|].
    destruct Hn as [|Hn]; [done|]. replace ((num =? 4) || (num =? 2)) with true by (destruct Hn as [-> | ->]; done).
    by destruct (num <=? k).
Qed.

Lemma counterclockwise_moves : num mod 8 = 0 \/ num = 4 \/ num = 2 ->
  S0 = D0 \/ disjoint S0 (num * len) D0 (num * len) ->
  relocates (data_relocate_counterclockwise sizeof_T heap a) (placed clockwise_group (fun t => t + da_each_dpu a)).
Proof using Hk.
  intros Hn Hap. destruct (whole_group Hn) as (Hg8 & Hg & Hm & Hgd). pose proof enter_once as Hen.
  apply (rotation_relocates _ clockwise_group [Wait 8] [Wait clockwise_group] [Wait clockwise_group]); try done; try lia; [by right|by right| | |].
  - intros t t' H. apply (mod_cancel_l t t' (- da_each_dpu a)); [lia|]. by rewrite !Z.sub_opp_r.
  - destruct Hap; [by right|by left].
  - intros k Hk0. unfold data_relocate_counterclockwise, shape, clockwise_group. cbv zeta. destruct (Z.leb_spec 8 k); [done|].
    destruct (Z.eqb_spec (num mod 8) 0); [by rewrite (proj2 (Z.leb_gt 8 k))|].
    destruct Hn as [|Hn]; [done|]. replace ((num =? 4) || (num =? 2)) with true by (destruct Hn as [-> | ->]; done).
    by destruct (num <=? k).
Qed.

Lemma incremental_moves : num mod 8 = 0 \/ num = 4 \/ num = 2 ->
  S0 = D0 \/ disjoint S0 (num * len) D0 (num * len) ->
  relocates (data_relocate_incremental_counterclockwise sizeof_T heap a)
    (placed clockwise_group (fun t => t + da_each_dpu a - da_each_dpu a mod clockwise_group)).
Proof using Hk.
  intros Hn Hap. destruct (whole_group Hn) as (Hg8 & Hg & Hm & Hgd).
  set (start := if num mod 8 =? 0 then [] else [Wait clockwise_group]).
  apply (rotation_relocates _ clockwise_group [Wait 8; Wait 8] start [Wait clockwise_group]); try done; try lia; [by repeat constructor|by right|..].
  - unfold start. destruct (num mod 8 =? 0); [by left|by right].
  - intros t t'. rewrite <- !Z.add_sub_assoc. intros H. apply (mod_cancel_l t t' (- (da_each_dpu a - da_each_dpu a mod clockwise_group))); [lia|].
    by rewrite !Z.sub_opp_r.
  - destruct Hap; [by right|by left].
  - intros k Hk0. unfold data_relocate_incremental_counterclockwise, shape, start, clockwise_group. cbv zeta. destruct (Z.leb_spec 8 k); [done|].
    destruct (Z.eqb_spec (num mod 8) 0); [by rewrite (proj2 (Z.leb_gt 8 k))|].
    destruct Hn as [|Hn]; [done|]. replace ((num =? 4) || (num =? 2)) with true by (destruct Hn as [-> | ->]; done).
    by destruct (num <=? k).
Qed.

(** The position of a DPU among those of its rotate group that communicate. *)
Definition reverse_group : Z := if da_num_comm_rg a <? 8 then da_num_comm_rg a else 8.
Definition position_in_group : Z :=
  if (da_num_comm_rg a <? 8) && negb (da_comm_type a =? 0) then da_each_dpu a / (8 / da_num_comm_rg a) else da_each_dpu a.

Lemma reverse_moves_whole : num mod 8 = 0 -> da_num_comm_rg a = 8 -> S0 = D0 \/ disjoint S0 (num * len) D0 (num * len) ->
  relocates (data_relocate_reverse_clockwise sizeof_T heap a) (placed 8 (fun t => da_each_dpu a - t)).
Proof using Hk.
  intros Hn Hr Hap.
  pose proof enter_once as Hen. apply (rotation_relocates _ 8 [Wait 8] [Wait 8] [Wait 8]); try done; try lia; [by exists (2 ^ 29)|right; split; [by eapply bool_decide_unpack; vm_compute|done]|by right| | |].
  - intros t t'. apply mod_cancel_r. lia.
  - destruct Hap; [by right|by left].
  - intros k Hk0. unfold data_relocate_reverse_clockwise, shape. cbv zeta. destruct (Z.leb_spec 8 k); [done|].
    rewrite Hn, Hr. change ((0 =? 0) && (8 =? 8)) with true. cbn iota. done.
Qed.

Lemma reverse_moves_part : da_num_comm_rg a ∈ [1; 2; 4] -> num mod 8 = 0 -> disjoint S0 (num * len) D0 (num * len) ->
  relocates (data_relocate_reverse_clockwise sizeof_T heap a) (placed reverse_group (fun t => position_in_group - t)).
Proof using Hk.
  intros Hg Hn Hap. set (rg := da_num_comm_rg a) in *.
  assert (rg = 1 \/ rg = 2 \/ rg = 4) as Hrg
    by (rewrite !elem_of_cons in Hg; destruct Hg as [->|[->|[->|Hx%not_elem_of_nil]]]; auto; done).
  assert (reverse_group = rg) as Hrev by (unfold reverse_group; fold rg; destruct Hrg as [->|[->| ->]]; done).
  set (step := if da_comm_type a =? 0 then rg else 8 / rg).
  assert (0 < step <= 8 /\ num mod step = 0) as [Hs Hm].
  { assert (step = 1 \/ step = 2 \/ step = 4 \/ step = 8) as Hst
      by (unfold step; destruct (_ =? 0), Hrg as [->|[->| ->]]; auto).
    destruct Hst as [->|[->|[->| ->]]]; (split; [lia|Z.div_mod_to_equations; lia]). }
  pose proof enter_once as Hen. rewrite Hrev. apply (rotation_relocates _ step [Wait 8] [] [] rg); try done; [|lia| |by left|by left| |by left|].
  - destruct Hrg as [->|[->| ->]]; [by exists (2 ^ 32)|by exists (2 ^ 31)|by exists (2 ^ 30)].
  - destruct Hrg as [->|[->| ->]]; Z.div_mod_to_equations; lia.
  - intros t t'. apply mod_cancel_r. lia.
  - intros k Hk0. unfold data_relocate_reverse_clockwise, shape. cbv zeta. fold rg. destruct (Z.leb_spec 8 k); [done|].
    rewrite (proj2 (Z.eqb_neq rg 8)), andb_false_r by lia. unfold step, position_in_group. fold rg.
    rewrite (proj2 (Z.ltb_lt rg 8)) by lia. cbn [andb]. destruct (da_comm_type a =? 0); cbn [negb]; done.
Qed.

(** Before an exchange among a part of the DPUs of a rotate group. *)
Lemma short_moves : da_num_comm_rg a ∈ [2; 4] -> num mod da_num_comm_rg a = 0 ->
  disjoint S0 (num * len) D0 (num * len) \/ (S0 = D0 /\ da_comm_type a = 0) ->
  relocates (data_relocate_clockwise_short sizeof_T heap a) (placed (da_num_comm_rg a) (fun t => t - position_in_group)).
Proof using Hk.
  intros Hg Hn Hap. unfold position_in_group. set (rg := da_num_comm_rg a) in *.
  assert (rg = 2 \/ rg = 4) as Hrg by (rewrite !elem_of_cons in Hg; destruct Hg as [->|[->|Hx%not_elem_of_nil]]; auto; done).
  rewrite (proj2 (Z.ltb_lt rg 8)) by lia. cbn [andb].
  set (wait := if da_comm_type a =? 0 then [Wait rg] else []).
  pose proof enter_once as Hen. apply (rotation_relocates _ rg [Wait 8] [] wait rg); try done; [lia| |lia| |by left| | |].
  - destruct Hrg as [->| ->]; [by exists (2 ^ 31)|by exists (2 ^ 30)].
  - unfold wait. destruct (_ =? 0); [right; split; [|done]|by left].
    destruct Hrg as [-> | ->]; by eapply bool_decide_unpack; vm_compute.
  - intros t t'. apply mod_cancel_l. lia.
  - destruct Hap as [|[He Ht]]; [by left|right]. unfold wait. by rewrite (proj2 (Z.eqb_eq _ _) Ht).
  - intros k Hk0. unfold data_relocate_clockwise_short, shape. cbv zeta. fold rg. destruct (Z.leb_spec 8 k); [done|].
    destruct (rg <=? k); [done|]. unfold wait. destruct (da_comm_type a =? 0); cbn [negb app]; [|done]. by destruct Hrg as [->| ->].
Qed.
End Kernel.

(** ** Properties *)

(** The documented transfers, as an instance. *)
Definition documented_runtime : DpuRuntime :=
  {| mram_read m addr n := load_bytes m addr n; mram_write bs addr n m := store_bytes addr (take (Z.to_nat n) bs) m |}.
Lemma documented_runtime_spec : DpuRuntimeSpec documented_runtime.
Proof. by split. Qed.

(** C10: the program run before an exchange, in place or into an area apart:
    whatever the interleaving of its tasklets, none is left waiting at a barrier,
    and at the end the block t is at the place t - i of its group, i the number
    of the DPU (or where it was, without rotation), and nothing else in the MRAM
    has changed. *)
Theorem data_relocate_clockwise_moves sizeof_T heap len a : kernel_range sizeof_T heap len a ->
  let num := da_num_comm_dpu a in
  num mod 8 = 0 \/ num = 4 \/ num = 2 ->
  let S0 := heap + da_start_offset a in let D0 := heap + da_target_offset a in
  S0 = D0 \/ disjoint S0 (num * len) D0 (num * len) ->
  let prog := data_relocate_clockwise sizeof_T heap a in
  let g := if num mod 8 =? 0 then 8 else num in
  let dest t := if da_no_rotate a then t else t / g * g + (t - da_each_dpu a) mod g in
  (forall tr, partial_execution prog tr -> exists post, execution prog (tr ++ post)) /\
  (forall (D : DpuRuntime) tr s, DpuRuntimeSpec D -> execution prog tr -> caches_ok s ->
    (forall t x, 0 <= t < num -> 0 <= x < len -> mram (run_events tr s) (D0 + dest t * len + x) = mram s (S0 + t * len + x)) /\
    (forall x, x < D0 \/ D0 + num * len <= x -> mram (run_events tr s) x = mram s x)).
Proof.
  intros Hk num Hn S0 D0 Hap. destruct (clockwise_moves sizeof_T heap len a Hk Hn Hap) as [Hend Hmoves].
  split; [done|]. intros D tr s HD Htr Hc. by apply Hmoves.
Qed.

Definition sample_args : dpu_arguments_comm_t := mk_args 0 0 192 8 3 false 0 0 8 8.
Definition sample_state : dpu_state := mk_dpu (fun x => x mod 251) (fun _ => replicate 2048 0).
Lemma sample_kernel_range : kernel_range 4 (1024 * 1024) 24 sample_args.
Proof. split; try done. by eapply bool_decide_unpack; vm_compute. Qed.

(** In place, the block 1 of DPU 3 goes to the place 6. *)
Lemma data_relocate_clockwise_moves_witness : exists tr, execution (data_relocate_clockwise 4 (1024 * 1024) sample_args) tr /\
  mram (@run_events documented_runtime tr sample_state) (1024 * 1024 + 6 * 24 + 5) = (1024 * 1024 + 1 * 24 + 5) mod 251.
Proof.
  destruct (data_relocate_clockwise_moves 4 (1024 * 1024) 24 sample_args sample_kernel_range
    ltac:(by left) ltac:(by left)) as [Hend Hmoves].
  destruct (Hend [] (nothing_done _)) as [tr Htr]. exists tr. split; [exact Htr|].
  destruct (Hmoves documented_runtime tr sample_state documented_runtime_spec Htr ltac:(done)) as [H _].
  exact (H 1 5 ltac:(by split) ltac:(by split)).
Defined.

(** The programs say that missing words are filled with zeros: the loop that
    would starts at the index where it ends. *)
Definition filled_words (sizeof_T : Z) (a : dpu_arguments_comm_t) (iteration : Z) : list Z :=
  steps (leftover_num sizeof_T a iteration) 1 (leftover_num sizeof_T a iteration).
Lemma no_word_filled sizeof_T a iteration : filled_words sizeof_T a iteration = [].
Proof. unfold filled_words, steps. by rewrite Z.sub_diag. Qed.

(** With 6 DPUs that communicate, the program does nothing. *)
Lemma other_counts_do_nothing sizeof_T heap a k : da_num_comm_dpu a = 6 ->
  data_relocate_clockwise sizeof_T heap a k = if 8 <=? k then [] else [Wait 8].
Proof. intros H. unfold data_relocate_clockwise. by rewrite H. Qed.
