(* ===== verification/PidAllToAll.v ===== *)
(** * The all-to-all exchange of a set of DPUs

    Model of [init_hypercube_manager], [all_to_all] and [pidcomm_alltoall] of
    [src/api/src/api/dpu_memory.c]: the programs of PidKernel.v run before and
    after the exchange of the host of PidThreads.v, with the arguments that the
    loop of DpuGroups.v gives to the DPUs. A region of the memory is the MRAMs of
    a rank of the set, named by the index of the rank; a call relates the regions
    before to the regions after, for every interleaving of the tasklets and of
    the threads. A failed assertion of the host ends its process and is no call. *)

From stdpp Require Import relations functions.
From S2P Require Import Prelude CMonad Rank XeonInterleave XeonSg XeonBank DpuSet DpuGroups Interleave PidComm PidMachine PidAccess PidThreads PidKernel.

#[local] Open Scope Z_scope.
#[local] Open Scope dpu_scope.

Record hypercube_manager := mk_manager {
  hm_dpu_set : dpu_set_t;
  hm_dimension : Z;
  hm_axis_len : list Z;
}.
Definition init_hypercube_manager (dpu_set : dpu_set_t) (dimension : Z) (axis_len : list Z) : hypercube_manager :=
  mk_manager dpu_set dimension axis_len.

(** ** What the host computes from the axes *)

Definition comm_axis_of (dimension : Z) (comm : list Z) : list Z :=
  map (fun dim => u32 (comm.[dim] - 48)) (seqZ 0 dimension).
Definition comm_type_of (comm_axis : list Z) : Z := if comm_axis.[0] =? 1 then 0 else 1.
Definition num_comm_dpu_of (ax : axes) : Z :=
  foldl (fun n '(len, c) => if c =? 1 then u32 (n * len) else n) 1 ax.
Fixpoint num_comm_rg_of (ax : axes) (len num_comm_rg : Z) : Z :=
  match ax with
  | [] => num_comm_rg
  | (axis_len, comm) :: ax =>
      if len <? 8 then
        let num_comm_rg :=
          if comm =? 1 then
            if axis_len <=? 8 / len then u32 (num_comm_rg * axis_len) else u32 (num_comm_rg * (8 / len))
          else num_comm_rg in
        num_comm_rg_of ax (u32 (len * axis_len)) (if 8 <=? num_comm_rg then 8 else num_comm_rg)
      else num_comm_rg
  end.
(** Which program runs after the exchange. *)
Definition modified_case (axis_len comm_axis : list Z) : bool :=
  (axis_len.[0] =? 2) && (axis_len.[1] =? 2) &&
  ((comm_axis.[0] =? 1) && (comm_axis.[1] =? 0) && (comm_axis.[2] =? 1) ||
   (comm_axis.[0] =? 0) && (comm_axis.[1] =? 1) && (comm_axis.[2] =? 0)).
Definition reverse_case (axis_len comm_axis : list Z) (comm_type : Z) : bool :=
  (comm_type =? 0) || (axis_len.[0] <? 8) && (comm_axis.[1] =? 1) ||
  (u32 (axis_len.[0] * axis_len.[1]) =? 4) && ((comm_axis.[1] =? 1) || (comm_axis.[2] =? 1)).

(** ** Programs on the DPUs of a set *)

(** The memory of a DPU: interface [ci_id] and index [rg_id] in the rank k. *)
Definition mram_of (m : regions) (k rg_id ci_id : Z) : memory := mram_byte m k rg_id ci_id.

(** The last number that [dpu_prepare_xfer] has given to a DPU. *)
Definition is_dpu (d : dpu_ptr) (set : dpu_set_t) : bool :=
  match set with DPU_SET_DPU (r, i) => Nat.eqb r (fst d) && (i =? snd d) | _ => false end.
Definition argument_of (order : list (Z * dpu_set_t)) (d : dpu_ptr) : option Z :=
  foldl (fun number '(i, set) => if is_dpu d set then Some i else number) None order.

Section Launch.
Context `{D : DpuRuntime}.
Variable ranks : list rank_ptr.

(** [dpu_load], [dpu_push_xfer] of the arguments and [dpu_launch]: on every DPU an
    execution of the program with its argument. *)
Definition launched (prog : dpu_arguments_comm_t -> Z -> list action) (order : list (Z * dpu_set_t))
    (dpu_argument : Z -> dpu_arguments_comm_t) (m m' : regions) : Prop :=
  bytes m' /\ (forall k, ~ 0 <= k < lenz ranks -> forall x, m' k x = m k x) /\
  forall k rg_id ci_id, 0 <= k < lenz ranks -> 0 <= rg_id < 8 -> 0 <= ci_id < 8 ->
    exists i tr cache, argument_of order (ranks.[k], ci_id * 8 + rg_id) = Some i /\
      execution (prog (dpu_argument i)) tr /\ (forall t, lenz (cache t) = 2048 /\ Forall (fits 8) (cache t)) /\
      forall x, fits 26 x -> mram_byte m' k rg_id ci_id x = mram (run_events tr (mk_dpu (mram_of m k rg_id ci_id) cache)) x.
End Launch.

(** ** The call *)

Section Call.
Context `{D : DpuRuntime} `{R : Rotations}.
(** The ranks, the word size of the programs and their [DPU_MRAM_HEAP_POINTER],
    and what [malloc] leaves in the arguments. *)
Variables (store : rank_ptr -> rank) (fuel : nat) (sizeof_T heap : Z) (allocated : Z -> dpu_arguments_comm_t).

(** [all_to_all]: an interleaving of the accesses of the threads of the first rank. *)
Definition all_to_all (axis_len comm_axis : list Z) (src_start_offset dst_start_offset byte_length comm_type communication_buffer_offset : Z)
    (m m' : regions) : Prop :=
  exists threads tr regs, hw_all_to_all_rns axis_len comm_axis src_start_offset dst_start_offset byte_length comm_type
      communication_buffer_offset = Some threads /\
    interleaves tr (map thread_accesses threads) /\ m' = host_mem (run_accesses tr (mk_host regs m)).

(** The loop that fills the arguments. *)
Definition fill_arguments (nr_dpus : Z) (f : Z -> dpu_arguments_comm_t -> dpu_arguments_comm_t)
    (dpu_argument : Z -> dpu_arguments_comm_t) : Z -> dpu_arguments_comm_t :=
  fun i => if (0 <=? i) && (i <? nr_dpus) then f i (dpu_argument i) else dpu_argument i.
(** The fields set before the exchange; [num_row] and [num_comm_rg] are left as they are. *)
Definition set_argument (start_offset target_offset total_data_size num_comm_dpu : Z) (no_rotate : bool) (comm_type a_length i : Z)
    (a : dpu_arguments_comm_t) : dpu_arguments_comm_t :=
  mk_args start_offset target_offset total_data_size num_comm_dpu i no_rotate (da_num_row a) comm_type a_length (da_num_comm_rg a).
Definition set_num_comm_rg (v : Z) (a : dpu_arguments_comm_t) : dpu_arguments_comm_t :=
  mk_args (da_start_offset a) (da_target_offset a) (da_total_data_size a) (da_num_comm_dpu a) (da_each_dpu a) (da_no_rotate a)
    (da_num_row a) (da_comm_type a) (da_a_length a) v.

(** The program run after the exchange, which takes the blocks from the buffer. *)
Definition relocate_after (ranks : list rank_ptr) (order : list (Z * dpu_set_t)) (nr_dpus : Z) (axis_len comm_axis : list Z)
    (num_comm_rg total_data_size start_offset target_offset buffer_offset : Z) (dpu_argument : Z -> dpu_arguments_comm_t) (m m' : regions) : Prop :=
  let comm_type := comm_type_of comm_axis in
  let num_comm_dpu := num_comm_dpu_of (zip axis_len comm_axis) in
  let set_arg no_rotate := set_argument (u32 (start_offset + buffer_offset)) target_offset total_data_size num_comm_dpu no_rotate
    comm_type axis_len.[0] in
  if modified_case axis_len comm_axis then
    launched ranks (data_relocate_modified_clockwise sizeof_T heap) order
      (fill_arguments nr_dpus (fun i a => set_num_comm_rg 2 (set_arg false i a)) dpu_argument) m m'
  else if reverse_case axis_len comm_axis comm_type then
    launched ranks (data_relocate_reverse_clockwise sizeof_T heap) order
      (fill_arguments nr_dpus (fun i a => set_num_comm_rg num_comm_rg (set_arg false i a)) dpu_argument) m m'
  else
    launched ranks (data_relocate_clockwise sizeof_T heap) order (fill_arguments nr_dpus (set_arg true) dpu_argument) m m'.

Definition ranks_of_set (set : dpu_set_t) : list rank_ptr := match set with DPU_SET_RANKS ranks => ranks | _ => [] end.

Definition pidcomm_alltoall (manager : hypercube_manager) (comm : list Z) (total_data_size start_offset target_offset buffer_offset : Z)
    (m m' : regions) : Prop :=
  let dpu_set := hm_dpu_set manager in
  let axis_len := hm_axis_len manager in
  let comm_axis := comm_axis_of (hm_dimension manager) comm in
  let ranks := ranks_of_set dpu_set in
  let comm_type := comm_type_of comm_axis in
  let num_comm_dpu := num_comm_dpu_of (zip axis_len comm_axis) in
  exists nr_dpus order m1 m2,
    dpu_get_nr_dpus store dpu_set = Ok nr_dpus /\
    DPU_FOREACH_ENTANGLED_GROUP store fuel dpu_set nr_dpus = Some order /\
    let pre := if comm_type =? 0
      then fill_arguments nr_dpus (set_argument start_offset start_offset total_data_size num_comm_dpu false comm_type axis_len.[0]) allocated
      else allocated in
    (if comm_type =? 0 then launched ranks (data_relocate_clockwise sizeof_T heap) order pre m m1 else m1 = m) /\
    all_to_all axis_len comm_axis start_offset start_offset (total_data_size / num_comm_dpu) comm_type buffer_offset m1 m2 /\
    relocate_after ranks order nr_dpus axis_len comm_axis (num_comm_rg_of (zip axis_len comm_axis) 1 1) total_data_size start_offset
      target_offset buffer_offset pre m2 m'.
End Call.

(** ** Coordinates of the DPUs *)

(** The group of a DPU and its interface. *)
Definition group_of (X : list Z) : list Z := match X with x :: xs => x / 8 :: xs | [] => [] end.
Definition interface_of (X : list Z) : Z := X.[0] mod 8.

Section Hypercube.
Variables (axis_len comm_axis : list Z).
Hypothesis Hcube : hypercube axis_len comm_axis.
Notation full := (zip axis_len comm_axis).
Notation ax := (group_axes axis_len comm_axis).
Notation comm_type := (comm_type_of comm_axis).

Lemma first_axis : exists y c ys cs, axis_len = 8 * y :: ys /\ comm_axis = c :: cs /\ 0 < y /\ (c = 0 \/ c = 1) /\
  ax = (y, c) :: zip ys cs /\ axes_wf (zip ys cs).
Proof using Hcube.
  destruct Hcube as [Hl Hne Hf Hax _ _]. destruct axis_len as [|x0 xs]; [done|]. destruct comm_axis as [|c0 cs]; [done|].
  change ((x0 :: xs).[0]) with x0 in Hf. change (group_axes (x0 :: xs) (c0 :: cs)) with ((x0 / 8, c0) :: zip xs cs) in Hax |- *.
  apply list_relations.list.Forall_cons in Hax as [[Hx Hc] Hax]. cbn [fst snd] in Hx, Hc.
  exists (x0 / 8), c0, xs, cs. split; [f_equal; Z.div_mod_to_equations; lia|]. by split_and!.
Qed.

Lemma type_first c cs : comm_axis = c :: cs -> c = 0 \/ c = 1 -> comm_type = 1 - c /\ nb_passes comm_type = if c =? 1 then 8 else 1.
Proof using Type. clear Hcube. intros -> [-> | ->]; done. Qed.

Lemma split_coordinates X : coordinates full X -> coordinates ax (group_of X) /\ 0 <= interface_of X < 8 /\
  group_number full X = 8 * group_number ax (group_of X) + interface_of X /\
  (if comm_type =? 0
   then index_on 1 full X = 8 * index_on 1 ax (group_of X) + interface_of X /\ index_on 0 full X = index_on 0 ax (group_of X)
   else index_on 1 full X = index_on 1 ax (group_of X) /\ index_on 0 full X = 8 * index_on 0 ax (group_of X) + interface_of X).
Proof using Hcube.
  intros HX. destruct first_axis as (y & c & ys & cs & Hl & Hc & Hy & Hc01 & -> & _).
  destruct (type_first c cs Hc Hc01) as [-> _]. rewrite Hl, Hc in HX |- *.
  change (zip (8 * y :: ys) (c :: cs)) with ((8 * y, c) :: zip ys cs) in HX |- *.
  inversion HX as [|? x ? xs Hx Hxs]; subst X. cbn [fst] in Hx. unfold interface_of. change ((x :: xs).[0]) with x.
  cbn [group_of group_number index_on]. split; [constructor; [cbn; Z.div_mod_to_equations; lia|done]|].
  split; [apply Z.mod_pos_bound; lia|]. split; [Z.div_mod_to_equations; lia|].
  destruct Hc01 as [-> | ->]; cbn [Z.eqb Pos.eqb Z.sub Z.opp Z.add Pos.add]; (split; Z.div_mod_to_equations; lia).
Qed.

Lemma num_comm_dpu_spec l n : axes_wf l -> 0 < n -> n * size_on 1 l < 2 ^ 32 ->
  foldl (fun n '(len, c) => if c =? 1 then u32 (n * len) else n) n l = n * size_on 1 l.
Proof using Type.
  clear Hcube. intros Hwf. revert n. induction Hwf as [|[len c] l [Hlen Hc] Hwf IH]; intros n Hn Hf; [cbn; lia|].
  pose proof (size_on_pos 1 l Hwf). cbn [foldl size_on fst snd] in *. destruct Hc as [-> | ->]; cbn [Z.eqb Pos.eqb] in *.
  - by apply IH.
  - rewrite u32_id by (unfold fits; nia). rewrite IH by nia. ring.
Qed.

(** The number of DPUs that communicate with each other. *)
Lemma num_comm_dpu_eq : num_comm_dpu_of full = size_on 1 ax * nb_passes comm_type /\ 0 < num_comm_dpu_of full /\
  size_on 1 ax * nb_passes comm_type < 2 ^ 32.
Proof using Hcube.
  pose proof (hc_fits _ _ Hcube) as Hfit. pose proof (hc_axes _ _ Hcube) as Hax. rewrite (sizes ax Hax) in Hfit.
  pose proof (size_on_pos 0 ax Hax) as H0. pose proof (size_on_pos 1 ax Hax) as H1.
  destruct first_axis as (y & c & ys & cs & Hl & Hc & Hy & Hc01 & Hax' & Hwf).
  rewrite Hax' in *. destruct (type_first c cs Hc Hc01) as [_ ->]. unfold num_comm_dpu_of. rewrite Hl, Hc.
  change (zip (8 * y :: ys) (c :: cs)) with ((8 * y, c) :: zip ys cs).
  assert (axes_wf ((8 * y, c) :: zip ys cs)) as Hfw by (apply list_relations.list.Forall_cons; split; [cbn; lia|done]).
  assert (size_on 1 ((8 * y, c) :: zip ys cs) = size_on 1 ((y, c) :: zip ys cs) * (if c =? 1 then 8 else 1)) as Heq.
  { cbn [size_on]. destruct (c =? 1); lia. }
  assert (size_on 1 ((y, c) :: zip ys cs) * (if c =? 1 then 8 else 1) < 2 ^ 32) as Hlt by (destruct (c =? 1); nia).
  rewrite num_comm_dpu_spec by (done || lia). rewrite Z.mul_1_l, Heq. split_and!; [done|destruct (c =? 1); lia|done].
Qed.

Lemma num_comm_rg_eq : comm_type = 0 -> num_comm_rg_of full 1 1 = 8.
Proof using Hcube.
  intros Ht. pose proof (hc_fits _ _ Hcube) as Hfit. pose proof (hc_axes _ _ Hcube) as Hax. rewrite (sizes ax Hax) in Hfit.
  pose proof (size_on_pos 0 ax Hax) as H0. pose proof (size_on_pos 1 ax Hax) as H1.
  destruct first_axis as (y & c & ys & cs & Hl & Hc & Hy & Hc01 & Hax' & Hwf).
  rewrite Hax' in *. destruct (type_first c cs Hc Hc01) as [Ht' _]. assert (c = 1) as -> by lia. rewrite Hl, Hc.
  change (zip (8 * y :: ys) (1 :: cs)) with ((8 * y, 1) :: zip ys cs). cbn [num_comm_rg_of Z.ltb Z.compare Pos.compare Pos.compare_cont Z.eqb Pos.eqb].
  change (8 / 1) with 8. rewrite !Z.mul_1_l.
  pose proof (size_on_pos 1 _ Hwf). pose proof (size_on_pos 0 _ Hwf). cbn [size_on Z.eqb Pos.eqb] in Hfit.
  assert (8 * y < 2 ^ 32) as Hy32 by nia. rewrite (u32_id (8 * y)) by (unfold fits; lia). change (u32 8) with 8.
  replace (if 8 * y <=? 8 then 8 * y else 8) with 8 by (destruct (Z.leb_spec (8 * y) 8); lia). change (8 <=? 8) with true. cbn iota.
  destruct (zip ys cs) as [|[len c] l]; [done|]. cbn [num_comm_rg_of]. by rewrite (proj2 (Z.ltb_ge (8 * y) 8)) by lia.
Qed.

(** Only the first two programs are used. *)
Lemma no_modified_case : modified_case axis_len comm_axis = false.
Proof using Hcube.
  destruct first_axis as (y & c & ys & cs & Hl & _ & Hy & _). unfold modified_case. rewrite Hl.
  change ((8 * y :: ys).[0]) with (8 * y). by rewrite (proj2 (Z.eqb_neq _ _)) by lia.
Qed.
Lemma reverse_case_eq : reverse_case axis_len comm_axis comm_type = (comm_type =? 0).
Proof using Hcube.
  pose proof (hc_fits _ _ Hcube) as Hfit. pose proof (hc_axes _ _ Hcube) as Hax. rewrite (sizes ax Hax) in Hfit.
  pose proof (size_on_pos 0 ax Hax) as H0. pose proof (size_on_pos 1 ax Hax) as H1.
  assert (0 < size_on 0 ax * size_on 1 ax /\ 8 * (size_on 0 ax * size_on 1 ax) < 2 ^ 32) as [Hp Hn] by nia.
  rewrite <- (sizes ax Hax) in Hp, Hn.
  destruct first_axis as (y & c & ys & cs & Hl & Hc & Hy & Hc01 & Hax' & Hwf). rewrite Hax' in Hp, Hn. unfold reverse_case. rewrite Hl, Hc.
  change ((8 * y :: ys).[0]) with (8 * y). rewrite (proj2 (Z.ltb_ge (8 * y) 8)) by lia.
  assert (u32 (8 * y * (8 * y :: ys).[1]) <> 4) as Hne.
  { change ((8 * y :: ys).[1]) with (ys.[0]). destruct ys as [|y1 ys'].
    - change (([] : list Z).[0]) with 1. cbn [zip zip_with nb_groups] in Hn. rewrite u32_id by (unfold fits; lia). lia.
    - pose proof (hc_length _ _ Hcube) as Hlen. rewrite Hl, Hc in Hlen. destruct cs as [|c1 cs']; [done|].
      change ((y1 :: ys').[0]) with y1. change (zip (y1 :: ys') (c1 :: cs')) with ((y1, c1) :: zip ys' cs') in *.
      apply list_relations.list.Forall_cons in Hwf as [[Hy1 _] Hwf]. cbn [fst nb_groups] in *.
      assert (0 < nb_groups (zip ys' cs')) as Hnb by (rewrite sizes by done; pose proof (size_on_pos 0 _ Hwf); pose proof (size_on_pos 1 _ Hwf); nia).
      assert (8 <= 8 * y * y1 < 2 ^ 32) as Hb by nia. rewrite u32_id by (unfold fits; lia). lia. }
  rewrite (proj2 (Z.eqb_neq _ 4)) by done. by rewrite !andb_false_l, !orb_false_r.
Qed.
End Hypercube.

(** ** The argument of a DPU *)

Lemma is_dpu_spec d set : is_dpu d set = true <-> set = DPU_SET_DPU d.
Proof.
  destruct set as [l|[r i]|], d as [r' i']; cbn [is_dpu fst snd]; [done| |done].
  rewrite andb_true_iff, Nat.eqb_eq, Z.eqb_eq. split; [by intros [-> ->]|by intros [= -> ->]].
Qed.

Lemma argument_unique order d n : (n, DPU_SET_DPU d) ∈ order -> (forall i, (i, DPU_SET_DPU d) ∈ order -> i = n) ->
  argument_of order d = Some n.
Proof.
  unfold argument_of. intros Hin Hall. enough (forall l acc, (forall i, (i, DPU_SET_DPU d) ∈ l -> i = n) ->
    acc = Some n \/ (n, DPU_SET_DPU d) ∈ l ->
    foldl (fun number '(i, set) => if is_dpu d set then Some i else number) acc l = Some n) as H by (apply H; auto).
  clear. induction l as [|[i set] l IH]; intros acc Hall Hacc; [destruct Hacc as [|Hin%not_elem_of_nil]; done|]. cbn [foldl].
  apply IH; [intros j Hj; apply Hall, elem_of_cons; by right|]. destruct (is_dpu d set) eqn:E.
  - left. apply is_dpu_spec in E as ->. f_equal. apply Hall, elem_of_cons. by left.
  - destruct Hacc as [|Hin]; [by left|]. apply elem_of_cons in Hin as [[= -> <-]|Hin]; [|by right].
    by rewrite (proj2 (is_dpu_spec d _)) in E.
Qed.

Lemma argument_in_order ranks k rg ci_id : NoDup ranks -> 0 <= k < lenz ranks -> 0 <= rg < 8 -> 0 <= ci_id < 8 ->
  argument_of (group_order ranks) (ranks.[k], ci_id * 8 + rg) = Some (64 * k + 8 * rg + ci_id).
Proof.
  intros Hnd Hk Hr Hc. pose proof (number_in_group_order ranks k rg ci_id Hk Hr Hc) as Hin.
  apply argument_unique; [done|]. intros i Hi. by eapply group_order_inj.
Qed.

(** ** What a launch does *)

(** A region with another memory for one DPU. *)
Definition set_mram (m : regions) (k rg_id ci_id : Z) (f : memory) : regions := fun k' x =>
  if k' =? k
  then match find (fun a => bank_address rg_id ci_id a =? x) (seqZ 0 (2 ^ 26)) with Some a => f a | None => m k' x end
  else m k' x.

Lemma set_mram_same m k rg ci f a : 0 <= rg < 8 -> 0 <= ci < 8 -> fits 26 a -> mram_byte (set_mram m k rg ci f) k rg ci a = f a.
Proof.
  intros Hr Hc Ha. unfold mram_byte, set_mram. rewrite Z.eqb_refl.
  destruct (find _ _) as [a'|] eqn:E.
  - apply find_some in E as [Hin%list_elem_of_In%elem_of_seqZ Heq%Z.eqb_eq].
    apply bank_address_inj in Heq as (_ & _ & ->); try done; unfold fits; lia.
  - eapply (find_none _ _) in E; [rewrite Z.eqb_refl in E; discriminate E|].
    apply list_elem_of_In, elem_of_seqZ. unfold fits in Ha. lia.
Qed.

Lemma set_mram_other m k rg ci f k' rg' ci' a : 0 <= rg < 8 -> 0 <= ci < 8 -> 0 <= rg' < 8 -> 0 <= ci' < 8 -> fits 26 a ->
  (k', rg', ci') <> (k, rg, ci) -> mram_byte (set_mram m k rg ci f) k' rg' ci' a = mram_byte m k' rg' ci' a.
Proof.
  intros Hr Hc Hr' Hc' Ha Hne. unfold mram_byte, set_mram. destruct (Z.eqb_spec k' k) as [->|]; [|done].
  destruct (find _ _) as [a'|] eqn:E; [|done].
  apply find_some in E as [Hin%list_elem_of_In%elem_of_seqZ Heq%Z.eqb_eq].
  apply bank_address_inj in Heq as (-> & -> & ->); try done; unfold fits; lia.
Qed.

Lemma set_mram_bytes m k rg ci f : bytes m -> (forall x, fits 8 (f x)) -> bytes (set_mram m k rg ci f).
Proof. intros Hm Hf r x. unfold set_mram. destruct (r =? k); [|apply Hm]. destruct (find _ _); [apply Hf|apply Hm]. Qed.

Lemma set_mram_region m k rg ci f k' : k' <> k -> set_mram m k rg ci f k' = m k'.
Proof. intros Hne. unfold set_mram. by rewrite (proj2 (Z.eqb_neq _ _)). Qed.

Definition dpu_number (k rg_id ci_id : Z) : Z := 64 * k + 8 * rg_id + ci_id.
Definition in_set (ranks : list rank_ptr) (k rg_id ci_id : Z) : Prop :=
  0 <= k < lenz ranks /\ 0 <= rg_id < 8 /\ 0 <= ci_id < 8.

Section Launched.
Context `{D : DpuRuntime} `{!DpuRuntimeSpec D}.
Variables (ranks : list rank_ptr) (prog : dpu_arguments_comm_t -> Z -> list action) (heap len : Z).
Variable dpu_argument : Z -> dpu_arguments_comm_t.
Variable dest : Z -> Z -> Z.
Hypothesis Hranks : NoDup ranks.
(** The program moves the blocks of every DPU with its argument. *)
Hypothesis Hprog : forall k rg ci, in_set ranks k rg ci ->
  let i := dpu_number k rg ci in relocates heap len (dpu_argument i) (prog (dpu_argument i)) (dest i).

Lemma launched_moves m m' k rg ci : launched ranks prog (group_order ranks) dpu_argument m m' -> in_set ranks k rg ci ->
  let a := dpu_argument (dpu_number k rg ci) in
  let S0 := heap + da_start_offset a in let D0 := heap + da_target_offset a in
  (forall t x, 0 <= t < da_num_comm_dpu a -> 0 <= x < len -> fits 26 (D0 + dest (dpu_number k rg ci) t * len + x) ->
    mram_byte m' k rg ci (D0 + dest (dpu_number k rg ci) t * len + x) = mram_byte m k rg ci (S0 + t * len + x)) /\
  (forall x, fits 26 x -> x < D0 \/ D0 + da_num_comm_dpu a * len <= x -> mram_byte m' k rg ci x = mram_byte m k rg ci x).
Proof using All.
  intros (_ & _ & Hl) Hin. pose proof Hin as (Hk & Hr & Hc). destruct (Hl k rg ci Hk Hr Hc) as (i & tr & cache & Harg & Htr & Hcache & Hbyte).
  rewrite argument_in_order in Harg by done. injection Harg as <-. fold (dpu_number k rg ci) in Htr.
  destruct (Hprog k rg ci Hin) as [_ Hmoves]. destruct (Hmoves D tr (mk_dpu (mram_of m k rg ci) cache) _ Htr) as [[H1 H2] _].
  { intros t. apply Hcache. }
  split; [intros t x Ht Hx Hf; rewrite Hbyte by done; by apply H1|intros x Hf Hx; rewrite Hbyte by done; by apply H2].
Qed.

Lemma launched_elsewhere m m' k : launched ranks prog (group_order ranks) dpu_argument m m' -> ~ 0 <= k < lenz ranks ->
  forall x, m' k x = m k x.
Proof using Type. intros (_ & H & _) Hk. by apply H. Qed.

(** Some execution of each DPU, one after the other. *)
Lemma launch_some m l : bytes m -> NoDup l -> (forall p, p ∈ l -> in_set ranks p.1.1 p.1.2 p.2) ->
  exists m', bytes m' /\ (forall k, ~ 0 <= k < lenz ranks -> forall x, m' k x = m k x) /\
  (forall k rg ci x, (k, rg, ci) ∉ l -> 0 <= rg < 8 -> 0 <= ci < 8 -> fits 26 x -> mram_byte m' k rg ci x = mram_byte m k rg ci x) /\
  forall k rg ci, (k, rg, ci) ∈ l -> exists tr cache, execution (prog (dpu_argument (dpu_number k rg ci))) tr /\
    (forall t, lenz (cache t) = 2048 /\ Forall (fits 8) (cache t)) /\
    forall x, fits 26 x -> mram_byte m' k rg ci x = mram (run_events tr (mk_dpu (mram_of m k rg ci) cache)) x.
Proof using Hprog DpuRuntimeSpec0.
  intros Hm Hnd. induction Hnd as [|[[k rg] ci] l Hnew Hnd IH]; intros Hl.
  { exists m. split_and!; [done..|]. intros k rg ci Hin. by apply not_elem_of_nil in Hin. }
  destruct IH as (m1 & Hb1 & Hout1 & Hoth1 & Hin1); [intros; apply Hl, elem_of_cons; by right|].
  pose proof (Hl (k, rg, ci) ltac:(apply elem_of_cons; by left)) as Hset. cbn [fst snd] in Hset. pose proof Hset as (Hk & Hr & Hc).
  destruct (Hprog k rg ci Hset) as [Hend Hmoves]. destruct (Hend [] (nothing_done _)) as [tr Htr]. cbn [app] in Htr.
  set (cache := fun _ : Z => replicate 2048 0).
  assert (forall t, lenz (cache t) = 2048 /\ Forall (fits 8) (cache t)) as Hcache
    by (intros t; split; [done|by apply Forall_replicate]).
  set (s := mk_dpu (mram_of m k rg ci) cache).
  destruct (Hmoves D tr s _ Htr) as [_ Hbytes]; [intros t; apply Hcache|].
  destruct Hbytes as [_ Hbytes]; [split; [intros t; apply Hcache|intros x; apply Hm]|].
  exists (set_mram m1 k rg ci (mram (run_events tr s))). split_and!.
  - by apply set_mram_bytes.
  - intros k' Hk' x. rewrite set_mram_region by (intros ->; done). by apply Hout1.
  - intros k' rg' ci' x Hno Hr' Hc' Hf. apply not_elem_of_cons in Hno as [Hne Hno]. rewrite set_mram_other by done. by apply Hoth1.
  - intros k' rg' ci' Hin. destruct (decide ((k', rg', ci') = (k, rg, ci))) as [[= -> -> ->]|Hne].
    + exists tr, cache. split; [done|]. split; [done|]. intros x Hf. by apply set_mram_same.
    + apply elem_of_cons in Hin as [|Hin]; [done|]. destruct (Hin1 k' rg' ci' Hin) as (tr' & cache' & H1 & H2 & H3).
      exists tr', cache'. split; [done|]. split; [done|]. intros x Hf. rewrite <- H3 by done.
      destruct (Hl (k', rg', ci') ltac:(apply elem_of_cons; by right)) as (_ & Hr' & Hc'). by apply set_mram_other.
Qed.

Definition dpus_in_set : list (Z * Z * Z) :=
  map (fun i => (i / 64, i mod 64 / 8, i mod 8)) (seqZ 0 (64 * lenz ranks)).

Lemma launched_exists m : bytes m -> exists m', launched ranks prog (group_order ranks) dpu_argument m m'.
Proof using All.
  intros Hm. destruct (launch_some m dpus_in_set) as (m' & Hb & Hout & _ & Hin); [done| | |].
  - unfold dpus_in_set. change (NoDup ((fun i => (i / 64, i mod 64 / 8, i mod 8)) <$> seqZ 0 (64 * lenz ranks))).
    apply NoDup_fmap_2; [|apply NoDup_seqZ]. intros i j [= H1 H2 H3]. Z.div_mod_to_equations. lia.
  - intros p (i & <- & Hi%list_elem_of_In%elem_of_seqZ)%list_elem_of_In%in_map_iff. cbn [fst snd]. unfold in_set.
    Z.div_mod_to_equations. lia.
  - exists m'. split; [done|]. split; [done|]. intros k rg ci Hk Hr Hc.
    destruct (Hin k rg ci) as (tr & cache & H1 & H2 & H3).
    { apply list_elem_of_In, in_map_iff. exists (dpu_number k rg ci). unfold dpu_number. split.
      - f_equal; [f_equal|]; Z.div_mod_to_equations; lia.
      - apply list_elem_of_In, elem_of_seqZ. lia. }
    exists (dpu_number k rg ci), tr, cache. split; [by apply argument_in_order|done].
Qed.
End Launched.

(** ** The whole call *)

(** The set: ranks of 64 DPUs, all there, that the hypercube covers. *)
Record whole_set (store : rank_ptr -> rank) (fuel : nat) (ranks : list rank_ptr) (nb_dpus : Z) : Prop := {
  ws_nodup : NoDup ranks;
  ws_nonempty : ranks <> [];
  ws_counted : Forall (fun r => counted (store r)) ranks;
  ws_topology : Forall (fun r => nr_dpus_in store r = 64) ranks;
  ws_enabled : full_ranks store ranks;
  ws_size : 64 * lenz ranks = nb_dpus /\ nb_dpus < 2 ^ 32 /\ nb_dpus < Z.of_nat fuel;
}.

(** The second program of a call: [n] blocks of [len] bytes, from the buffer to the target. *)
Record buffer_range (sizeof_T heap len n from target_offset : Z) : Prop := {
  br_sizeof : sizeof_T ∈ [1; 2; 4; 8];
  br_heap : 0 <= heap /\ heap mod 8 = 0;
  br_len : 0 < len /\ len mod 8 = 0;
  br_from : 0 <= from /\ from mod 8 = 0 /\ heap + from + n * len <= 2 ^ 26;
  br_target : 0 <= target_offset /\ target_offset mod 8 = 0 /\ heap + target_offset + n * len <= 2 ^ 26;
  br_apart : from = target_offset \/ disjoint (heap + from) (n * len) (heap + target_offset) (n * len);
  br_count : n mod 8 = 0 \/ n = 4 \/ n = 2;
}.

Lemma get_nr_dpus_full store fuel ranks n : whole_set store fuel ranks n -> dpu_get_nr_dpus store (DPU_SET_RANKS ranks) = Ok n.
Proof.
  intros [Hnd Hne Hc Ht He (Hn & Hn32 & _)]. rewrite length_dpus_of_set by (done || lia). f_equal. rewrite <- Hn. cbn [dpus_of_set].
  clear Hnd Hne Hc Hn Hn32. induction Ht as [|r l Hr Ht IH]; [done|]. cbn [map concat]. rewrite lenz_app, IH.
  2:{ intros r' i Hin Hi. apply He; [apply elem_of_cons; by right|done]. }
  assert (lenz (enabled_in store r) = 64) as ->; [|unfold lenz; cbn [length]; lia].
  unfold enabled_in. rewrite Hr. unfold lenz. rewrite length_map.
  assert (forall l : list Z, (forall i, i ∈ l -> 0 <= i < 64) -> filter (fun i => dpu_enabled store (r, i) = true) l = l) as Hl.
  { induction l0 as [|i l0 IHl]; intros Hi; [done|]. pose proof (Hi i ltac:(apply elem_of_cons; by left)) as Hi0.
    rewrite filter_cons_True by (apply He; [apply elem_of_cons; by left|done]).
    rewrite IHl; [done|]. intros j Hj. apply Hi, elem_of_cons. by right. }
  rewrite Hl; [done|]. intros i Hi%elem_of_seqZ. lia.
Qed.

(** *** After the exchange *)

Section After.
Context `{D : DpuRuntime} `{!DpuRuntimeSpec D}.
Variables (store : rank_ptr -> rank) (fuel : nat) (sizeof_T heap : Z).
Variables (ranks : list rank_ptr) (axis_len comm_axis : list Z) (len from target : Z).
Notation full := (zip axis_len comm_axis).
Notation ax := (group_axes axis_len comm_axis).
Notation comm_type := (comm_type_of comm_axis).
Notation n := (size_on 1 ax * nb_passes comm_type).
Notation nr_dpus := (8 * nb_groups ax).
Hypothesis Hcube : hypercube axis_len comm_axis.
Hypothesis Hset : whole_set store fuel ranks nr_dpus.
Hypothesis Hrange : buffer_range sizeof_T heap len n from target.

Definition argument_after (i : Z) (a : dpu_arguments_comm_t) : dpu_arguments_comm_t :=
  if comm_type =? 0
  then set_num_comm_rg 8 (set_argument from target (n * len) n false comm_type axis_len.[0] i a)
  else set_argument from target (n * len) n true comm_type axis_len.[0] i a.
Definition program_after : dpu_arguments_comm_t -> Z -> list action :=
  if comm_type =? 0 then data_relocate_reverse_clockwise sizeof_T heap else data_relocate_clockwise sizeof_T heap.
Definition arguments_after (before : Z -> dpu_arguments_comm_t) : Z -> dpu_arguments_comm_t :=
  fill_arguments nr_dpus argument_after before.
(** Where the blocks go. *)
Definition dest_after (i t : Z) : Z := if comm_type =? 0 then t / 8 * 8 + (i - t) mod 8 else t.

Lemma num_positive : 0 < n.
Proof using Hcube. destruct (num_comm_dpu_eq axis_len comm_axis Hcube) as (Hn & Hpos & _). by rewrite Hn in Hpos. Qed.

Lemma after_range i a : kernel_range sizeof_T heap len (argument_after i a).
Proof using Hcube Hrange.
  pose proof num_positive as Hn. destruct Hrange as [Hsz Hh Hl (Hf0 & Hf8 & Hf) (Ht0 & Ht8 & Ht) _ _].
  unfold argument_after. destruct (comm_type =? 0);
    split; cbn [set_num_comm_rg set_argument da_num_comm_dpu da_total_data_size da_start_offset da_target_offset]; try done; lia.
Qed.

Lemma after_moves i a : relocates heap len (argument_after i a) (program_after (argument_after i a)) (dest_after i).
Proof using Hcube Hrange.
  assert (heap + from = heap + target \/ disjoint (heap + from) (n * len) (heap + target) (n * len)) as Hap
    by (destruct (br_apart _ _ _ _ _ _ Hrange); [left; lia|by right]).
  pose proof (after_range i a) as Hr. unfold argument_after, program_after, dest_after in *.
  destruct (Z.eqb_spec comm_type 0) as [Ht|Ht].
  - assert (n mod 8 = 0) as Hn8 by (rewrite Ht; change (nb_passes 0) with 8; apply Z.mod_mul; lia).
    exact (reverse_moves_whole sizeof_T heap len _ Hr Hn8 eq_refl Hap).
  - pose proof (clockwise_moves sizeof_T heap len _ Hr) as H.
    cbn [set_argument da_num_comm_dpu da_start_offset da_target_offset] in H.
    specialize (H (br_count _ _ _ _ _ _ Hrange) Hap). exact H.
Qed.

(** The argument of a DPU of the set. *)
Lemma number_in_range k rg ci : in_set ranks k rg ci -> 0 <= dpu_number k rg ci < nr_dpus.
Proof using Hset. intros (Hk & Hr & Hc). destruct (ws_size _ _ _ _ Hset) as (Hsz & _). unfold dpu_number. lia. Qed.
Lemma filled f g i : 0 <= i < nr_dpus -> fill_arguments nr_dpus f g i = f i (g i).
Proof using Type. intros Hi. unfold fill_arguments. by rewrite (proj2 (Z.leb_le 0 i)), (proj2 (Z.ltb_lt i _)) by lia. Qed.

Variable before : Z -> dpu_arguments_comm_t.
Lemma after_programs : forall k rg ci, in_set ranks k rg ci -> let i := dpu_number k rg ci in
  relocates heap len (arguments_after before i) (program_after (arguments_after before i)) (dest_after i).
Proof using Hcube Hrange Hset.
  intros k rg ci Hin i. unfold arguments_after. rewrite filled by by apply number_in_range. apply after_moves.
Qed.

Lemma relocate_after_eq order start buf m m' : from = start + buf ->
  relocate_after sizeof_T heap ranks order nr_dpus axis_len comm_axis (num_comm_rg_of full 1 1) (n * len) start target buf before m m' =
  launched ranks program_after order (arguments_after before) m m'.
Proof using Hcube Hrange.
  intros Hfrom. pose proof num_positive as Hn0. destruct (num_comm_dpu_eq axis_len comm_axis Hcube) as (Hn & _).
  unfold relocate_after. rewrite no_modified_case, reverse_case_eq, Hn, <- Hfrom by done.
  assert (u32 from = from) as ->.
  { apply u32_id. destruct Hrange as [_ (Hh & _) (Hl & _) (Hf0 & _ & Hf) _ _ _]. unfold fits. assert (0 < n * len) by nia. lia. }
  unfold arguments_after, argument_after, program_after.
  destruct (Z.eqb_spec comm_type 0) as [Ht|Ht]; [by rewrite num_comm_rg_eq|done].
Qed.

Lemma after_bytes m2 m' k rg ci : launched ranks program_after (group_order ranks) (arguments_after before) m2 m' -> in_set ranks k rg ci ->
  (forall t x, 0 <= t < n -> 0 <= x < len ->
    mram_byte m' k rg ci (heap + target + dest_after (dpu_number k rg ci) t * len + x) = mram_byte m2 k rg ci (heap + from + t * len + x)) /\
  (forall x, fits 26 x -> x < heap + target \/ heap + target + n * len <= x -> mram_byte m' k rg ci x = mram_byte m2 k rg ci x).
Proof using All.
  intros Hl Hin. destruct (br_target _ _ _ _ _ _ Hrange) as (Ht0 & _ & Ht1). destruct (br_heap _ _ _ _ _ _ Hrange) as [Hh _].
  pose proof (launched_moves ranks _ heap len (arguments_after before) dest_after (ws_nodup _ _ _ _ Hset) after_programs m2 m' k rg ci Hl Hin) as H.
  cbv zeta in H. unfold arguments_after in H. rewrite filled in H by by apply number_in_range.
  assert (da_num_comm_dpu (argument_after (dpu_number k rg ci) (before (dpu_number k rg ci))) = n /\
    da_start_offset (argument_after (dpu_number k rg ci) (before (dpu_number k rg ci))) = from /\
    da_target_offset (argument_after (dpu_number k rg ci) (before (dpu_number k rg ci))) = target) as (E1 & E2 & E3)
    by (unfold argument_after; destruct (comm_type =? 0); done).
  rewrite E1, E2, E3 in H. destruct H as [Hm Ho]. split; [|exact Ho].
  intros t x Htn Hx. apply Hm; [done|done|].
  assert (0 <= dest_after (dpu_number k rg ci) t < n) as Hd.
  { unfold dest_after. destruct (Z.eqb_spec comm_type 0) as [Ht|]; [|done].
    assert (n mod 8 = 0) as Hn8 by (rewrite Ht; change (nb_passes 0) with 8; apply Z.mod_mul; lia).
    exact (rotated_range 8 (fun t => dpu_number k rg ci - t) t n ltac:(lia) Hn8 Htn). }
  unfold fits. nia.
Qed.

(** The place of a DPU from its number. *)
Lemma place_of X : coordinates full X -> let p := group_number full X in let g := group_number ax (group_of X) in
  p / 64 = g / 8 /\ p mod 64 / 8 = g mod 8 /\ p mod 8 = interface_of X /\
  in_set ranks (g / 8) (g mod 8) (interface_of X) /\ dpu_number (g / 8) (g mod 8) (interface_of X) = p.
Proof using Hcube Hset.
  clear before. intros HX p g. destruct (split_coordinates axis_len comm_axis Hcube X HX) as (Hg & Hi & Hp & _). fold p g in Hp.
  pose proof (group_number_range ax _ Hg) as Hr. fold g in Hr. destruct (ws_size _ _ _ _ Hset) as (Hsz & _).
  unfold in_set, dpu_number. rewrite Hp. Z.div_mod_to_equations. lia.
Qed.
End After.

(** *** The call *)

(** The areas of an all-to-all exchange: that of the source, the buffer and that of the target. *)
Record call_range (sizeof_T heap len n start_offset target_offset buffer_offset comm_type : Z) : Prop := {
  cr_heap : heap = 1024 * 1024;
  cr_exchange : exchange_range start_offset start_offset len comm_type buffer_offset n;
  cr_buffer : buffer_range sizeof_T heap len n (start_offset + buffer_offset) target_offset;
}.

Section Result.
Context `{D : DpuRuntime} `{!DpuRuntimeSpec D} `{R : Rotations} `{!RotationsSpec R}.
Variables (store : rank_ptr -> rank) (fuel : nat) (sizeof_T heap : Z) (allocated : Z -> dpu_arguments_comm_t).
Variables (ranks : list rank_ptr) (axis_len comm_axis : list Z) (len start target buf : Z).
Notation full := (zip axis_len comm_axis).
Notation ax := (group_axes axis_len comm_axis).
Notation comm_type := (comm_type_of comm_axis).
Notation P := (nb_passes comm_type).
Notation n := (size_on 1 ax * P).
Hypothesis Hcube : hypercube axis_len comm_axis.
Hypothesis Hset : whole_set store fuel ranks (8 * nb_groups ax).
Hypothesis Hrange : call_range sizeof_T heap len n start target buf comm_type.

Definition argument_before (i : Z) (a : dpu_arguments_comm_t) : dpu_arguments_comm_t :=
  set_argument start start (n * len) n false comm_type axis_len.[0] i a.

Lemma range_facts : 0 < n /\ 0 <= start /\ start mod 8 = 0 /\ len mod 8 = 0 /\ 0 <= buf /\ buf mod 8 = 0 /\
  start + heap + n * len <= 2 ^ 26 /\ start + buf + heap + n * len <= 2 ^ 26 /\ n * len <= buf.
Proof using Hcube Hrange.
  clear allocated. pose proof (num_positive axis_len comm_axis Hcube) as Hpos.
  destruct Hrange as [-> [Hs _ _ Hb Hse Hbe Hap (Hs8 & _ & Hl8 & Hb8) _] [_ _ [Hl _] _ _ _ _]].
  assert (0 < n * len) by nia. split_and!; try done; lia.
Qed.

Lemma before_range i a : kernel_range sizeof_T heap len (argument_before i a).
Proof using Hcube Hrange.
  clear allocated. destruct range_facts as (H1 & H2 & H3 & H4 & H5 & H6 & H7 & H8 & H9). destruct Hrange as [_ _ [Hsz Hh Hl _ _ _ _]].
  split; cbn [argument_before set_argument da_num_comm_dpu da_total_data_size da_start_offset da_target_offset]; try done; lia.
Qed.

Definition dest_before (i t : Z) : Z := t / 8 * 8 + (t - i) mod 8.

Lemma before_moves i a : comm_type = 0 ->
  relocates heap len (argument_before i a) (data_relocate_clockwise sizeof_T heap (argument_before i a)) (dest_before i).
Proof using Hcube Hrange.
  intros Ht. assert (n mod 8 = 0) as Hn8 by (rewrite Ht; change (nb_passes 0) with 8; apply Z.mod_mul; lia).
  pose proof (clockwise_moves sizeof_T heap len (argument_before i a) (before_range i a)) as H.
  cbn [argument_before set_argument da_num_comm_dpu da_start_offset da_target_offset] in H.
  specialize (H (or_introl Hn8) (or_introl eq_refl)). unfold placed, clockwise_group, rotated in H.
  cbn [argument_before set_argument da_num_comm_dpu da_each_dpu da_no_rotate] in H. rewrite Hn8 in H. exact H.
Qed.

(** *** The steps of the call *)

Notation nr_dpus := (8 * nb_groups ax).
Definition arguments_before : Z -> dpu_arguments_comm_t :=
  if comm_type =? 0 then fill_arguments nr_dpus argument_before allocated else allocated.
Variable comm : list Z.
Hypothesis Hcomm : comm_axis_of (lenz axis_len) comm = comm_axis.
Notation manager := (init_hypercube_manager (DPU_SET_RANKS ranks) (lenz axis_len) axis_len).
Notation program_after' := (program_after sizeof_T heap comm_axis).
Notation arguments_after' := (arguments_after axis_len comm_axis len (start + buf) target arguments_before).
Notation dest_after' := (dest_after comm_axis).
Notation the_call := (pidcomm_alltoall store fuel sizeof_T heap allocated manager comm (n * len) start target buf).

Lemma call_steps m m' : the_call m m' <-> exists m1 m2,
  (if comm_type =? 0 then launched ranks (data_relocate_clockwise sizeof_T heap) (group_order ranks) arguments_before m m1 else m1 = m) /\
  all_to_all axis_len comm_axis start start len comm_type buf m1 m2 /\
  launched ranks program_after' (group_order ranks) arguments_after' m2 m'.
Proof using Hcube Hset Hrange Hcomm.
  pose proof (num_positive axis_len comm_axis Hcube) as Hpos. destruct (num_comm_dpu_eq axis_len comm_axis Hcube) as (Hn & _).
  pose proof (get_nr_dpus_full _ _ _ _ Hset) as Hnr. destruct Hset as [Hnd Hne Hct Ht He (Hsz & Hsz32 & Hfuel)].
  pose proof (fun c => groups_in_order store ranks ltac:(lia) Ht c fuel Hne He ltac:(lia)) as Horder.
  assert (forall m1 m2, relocate_after sizeof_T heap ranks (group_order ranks) nr_dpus axis_len comm_axis (num_comm_rg_of full 1 1) (n * len) start target buf arguments_before m1 m2 =
    launched ranks program_after' (group_order ranks) arguments_after' m1 m2) as Hafter
    by (intros; apply relocate_after_eq; [done|apply Hrange|done]).
  unfold pidcomm_alltoall. cbn [ranks_of_set init_hypercube_manager hm_dpu_set hm_axis_len hm_dimension]. cbv zeta. rewrite Hcomm, Hn.
  replace (n * len / n) with len by (rewrite Z.mul_comm, Z.div_mul; lia).
  change (if comm_type =? 0 then fill_arguments nr_dpus (set_argument start start (n * len) n false comm_type axis_len.[0]) allocated
    else allocated) with arguments_before. split.
  - intros (nr & order & m1 & m2 & Hnr' & Hord & Hpre & Hx & Hpost). rewrite Hnr in Hnr'. injection Hnr' as <-.
    rewrite Horder in Hord. injection Hord as <-. exists m1, m2. rewrite <- Hafter.
    change (if comm_type =? 0 then fill_arguments nr_dpus (set_argument start start (n * len) n false comm_type axis_len.[0]) allocated
      else allocated) with arguments_before in Hpre, Hpost. split; [|done]. unfold arguments_before in Hpre |- *. by destruct (comm_type =? 0).
  - intros (m1 & m2 & Hpre & Hx & Hpost). exists nr_dpus, (group_order ranks), m1, m2. rewrite Horder. rewrite <- Hafter in Hpost.
    split; [done|]. split; [done|]. unfold arguments_before in Hpre, Hpost. by destruct (comm_type =? 0).
Qed.

Lemma before_programs : comm_type = 0 -> forall k rg ci, in_set ranks k rg ci -> let i := dpu_number k rg ci in
  relocates heap len (arguments_before i) (data_relocate_clockwise sizeof_T heap (arguments_before i)) (dest_before i).
Proof using Hcube Hrange Hset.
  intros Ht k rg ci Hin i. unfold arguments_before. rewrite (proj2 (Z.eqb_eq _ _) Ht), filled by by eapply number_in_range.
  by apply before_moves.
Qed.
(** The bytes after each step. *)
Notation S0 := (heap + start).
Notation B0 := (heap + (start + buf)).
Notation T0 := (heap + target).

Lemma before_bytes m m1 k rg ci : comm_type = 0 ->
  launched ranks (data_relocate_clockwise sizeof_T heap) (group_order ranks) arguments_before m m1 -> in_set ranks k rg ci ->
  (forall t x, 0 <= t < n -> 0 <= x < len ->
    mram_byte m1 k rg ci (S0 + dest_before (dpu_number k rg ci) t * len + x) = mram_byte m k rg ci (S0 + t * len + x)) /\
  (forall x, fits 26 x -> x < S0 \/ S0 + n * len <= x -> mram_byte m1 k rg ci x = mram_byte m k rg ci x).
Proof using All.
  intros Ht Hl Hin. destruct range_facts as (H1 & H2 & _ & _ & H5 & _ & H7 & _).
  assert (0 <= heap) as Hh by (destruct Hrange as [-> _ _]; lia).
  pose proof (launched_moves ranks _ heap len arguments_before dest_before (ws_nodup _ _ _ _ Hset) (before_programs Ht) m m1 k rg ci Hl Hin) as H.
  cbv zeta in H. unfold arguments_before in H. rewrite (proj2 (Z.eqb_eq _ _) Ht), filled in H by by eapply number_in_range.
  cbn [argument_before set_argument da_num_comm_dpu da_start_offset da_target_offset] in H. destruct H as [Hm Ho]. split; [|exact Ho].
  intros t x Htn Hx. apply Hm; [done|done|].
  assert (n mod 8 = 0) as Hn8 by (rewrite Ht; change (nb_passes 0) with 8; apply Z.mod_mul; lia).
  pose proof (rotated_range 8 (fun t => t - dpu_number k rg ci) t n ltac:(lia) Hn8 Htn) as Hd. unfold rotated in Hd.
  fold (dest_before (dpu_number k rg ci) t) in Hd. unfold fits. nia.
Qed.

(** *** The whole call *)

Lemma type_eq : comm_type = if comm_axis.[0] =? 1 then 0 else 1.
Proof using Type. done. Qed.

Lemma exchange_step m1 m2 : bytes m1 -> all_to_all axis_len comm_axis start start len comm_type buf m1 m2 ->
  exists cs, Permutation cs (map copy_of (exchange_moves axis_len comm_axis start start len comm_type buf)) /\ m2 = run_copies cs m1 /\ bytes m2.
Proof using Hcube Hrange RotationsSpec0.
  intros Hm (threads & tr & regs & Hhw & Htr & ->). destruct Hrange as [_ Hex _].
  destruct (hw_threads _ _ _ _ _ _ _ _ tr regs m1 Hcube type_eq Hex Hhw Htr Hm) as (cs & Hcs & ->).
  exists cs. split; [done|]. split; [done|].
  apply run_copies_bytes; [done|].
  eapply moves_copies_wf; [|exact Hcs]. by apply exchange_moves_wf.
Qed.

Lemma exchange_some m1 : exists m2, all_to_all axis_len comm_axis start start len comm_type buf m1 m2.
Proof using Hcube.
  destruct (first_axis axis_len comm_axis Hcube) as (y & c & ys & cs & Hl & _ & Hy & _).
  set (threads := map (thread_all_to_all_rns axis_len comm_axis start start len comm_type buf thread_num) (seqZ 0 thread_num)).
  destruct (interleaves_exists (map thread_accesses threads)) as [tr Htr].
  eexists. exists threads, tr, (fun _ => []). split; [|split; [exact Htr|reflexivity]]. unfold hw_all_to_all_rns. rewrite Hl at 1.
  change ((8 * y :: ys).[0]) with (8 * y). by rewrite (proj2 (Z.leb_le _ _)) by lia.
Qed.

(** A call always ends. *)
Lemma call_ends m : bytes m -> exists m', the_call m m'.
Proof using All.
  intros Hm.
  assert (exists m1, bytes m1 /\ if comm_type =? 0
    then launched ranks (data_relocate_clockwise sizeof_T heap) (group_order ranks) arguments_before m m1 else m1 = m) as (m1 & Hb1 & H1).
  { destruct (Z.eqb_spec comm_type 0) as [Ht|]; [|by exists m].
    destruct (launched_exists ranks _ heap len arguments_before dest_before (ws_nodup _ _ _ _ Hset) (before_programs Ht) m Hm) as [m1 H1].
    exists m1. split; [apply H1|done]. }
  destruct (exchange_some m1) as [m2 H2]. destruct (exchange_step m1 m2 Hb1 H2) as (_ & _ & _ & Hb2).
  destruct (launched_exists ranks _ heap len arguments_after' dest_after' (ws_nodup _ _ _ _ Hset)
    (after_programs store fuel sizeof_T heap ranks axis_len comm_axis len (start + buf) target Hcube Hset (cr_buffer _ _ _ _ _ _ _ _ Hrange)
      arguments_before) m2 Hb2) as [m' H3].
  exists m'. apply call_steps. by exists m1, m2.
Qed.

Lemma call_bytes m m' X Y x : bytes m -> the_call m m' -> coordinates full X -> coordinates full Y ->
  index_on 0 full X = index_on 0 full Y -> 0 <= x < len ->
  let p := group_number full X in let q := group_number full Y in
  mram_byte m' (q / 64) (q mod 64 / 8) (q mod 8) (T0 + index_on 1 full X * len + x) =
  mram_byte m (p / 64) (p mod 64 / 8) (p mod 8) (S0 + index_on 1 full Y * len + x).
Proof using All.
  intros Hm Hcall HX HY Heq Hx p q. apply call_steps in Hcall as (m1 & m2 & H1 & H2 & H3).
  destruct (split_coordinates axis_len comm_axis Hcube X HX) as (HgX & HiX & _ & HsX).
  destruct (split_coordinates axis_len comm_axis Hcube Y HY) as (HgY & HiY & _ & HsY).
  destruct (place_of store fuel ranks axis_len comm_axis Hcube Hset X HX) as (HpX1 & HpX2 & HpX3 & HinX & HnX). destruct (place_of store fuel ranks axis_len comm_axis Hcube Hset Y HY) as (HpY1 & HpY2 & HpY3 & HinY & HnY).
  fold p in HpX1, HpX2, HpX3, HnX. fold q in HpY1, HpY2, HpY3, HnY. rewrite HpX1, HpX2, HpX3, HpY1, HpY2, HpY3.
  set (v := group_of X) in *. set (w := group_of Y) in *. set (ci := interface_of X) in *. set (cj := interface_of Y) in *.
  destruct (after_bytes store fuel sizeof_T heap ranks axis_len comm_axis len (start + buf) target Hcube Hset (cr_buffer _ _ _ _ _ _ _ _ Hrange)
    arguments_before m2 m' _ _ _ H3 HinY) as [Hafter _]. rewrite HnY in Hafter. fold w in Hafter.
  assert (bytes m1) as Hb1 by (destruct (comm_type =? 0); [apply H1|by rewrite H1]).
  destruct (exchange_step m1 m2 Hb1 H2) as (cs & Hcs & Hrun & _). destruct Hrange as [Hheap Hex _].
  pose proof (exchange_bytes axis_len comm_axis start start len comm_type buf Hcube Hex cs m1 Hcs Hb1 v w) as Hexch.
  rewrite <- Hrun in Hexch. unfold group_rank, group_in_rank in Hexch.
  pose proof (index_on_range 1 ax v HgX) as Hiv. pose proof (index_on_range 1 ax w HgY) as Hiw.
  unfold dest_after in Hafter. destruct (Z.eqb_spec comm_type 0) as [Ht|Ht].
  - destruct HsX as [HX1 HX0], HsY as [HY1 HY0]. rewrite HX0, HY0 in Heq. rewrite HX1, HY1.
    destruct (before_bytes m m1 _ _ _ Ht H1 HinX) as [Hbefore _]. rewrite HnX in Hbefore. fold v in Hbefore.
    assert (P = 8) as HP by (by rewrite Ht). rewrite HP in *. set (k := (cj - ci) mod 8).
    assert (0 <= k < 8) as Hk by (by apply Z.mod_pos_bound).
    assert ((8 * index_on 1 ax v + k) / 8 * 8 + (q - (8 * index_on 1 ax v + k)) mod 8 = 8 * index_on 1 ax v + ci) as Hda
      by (unfold k in *; Z.div_mod_to_equations; lia).
    assert (dest_before p (8 * index_on 1 ax w + cj) = 8 * index_on 1 ax w + k) as Hdb
      by (unfold dest_before, k; Z.div_mod_to_equations; lia).
    assert ((ci + k) mod 8 = cj) as Hck by (unfold k; Z.div_mod_to_equations; lia).
    specialize (Hafter (8 * index_on 1 ax v + k) x ltac:(lia) Hx). rewrite Hda in Hafter. rewrite Hafter.
    specialize (Hexch ci k x HgX HgY Heq HiX Hk Hx). rewrite Hck in Hexch.
    specialize (Hbefore (8 * index_on 1 ax w + cj) x ltac:(lia) Hx). rewrite Hdb in Hbefore. rewrite <- Hbefore.
    rewrite Hheap. etrans; [|etrans; [exact Hexch|]]; f_equal; lia.
  - destruct HsX as [HX1 HX0], HsY as [HY1 HY0]. rewrite HX0, HY0 in Heq. rewrite HX1, HY1.
    assert (P = 1) as HP by (unfold nb_passes; by rewrite (proj2 (Z.eqb_neq _ _) Ht)). rewrite HP in *.
    assert (index_on 0 ax v = index_on 0 ax w /\ ci = cj) as [HI He] by lia.
    specialize (Hafter (index_on 1 ax v) x ltac:(lia) Hx). rewrite Hafter. rewrite H1 in Hexch.
    specialize (Hexch ci 0 x HgX HgY ltac:(lia) HiX ltac:(lia) Hx). rewrite Z.add_0_r, (Z.mod_small ci), He in Hexch by done.
    rewrite Hheap. etrans; [|etrans; [exact Hexch|]]; f_equal; lia.
Qed.
Lemma call_others m m' k rg ci x : bytes m -> the_call m m' -> 0 <= rg < 8 -> 0 <= ci < 8 -> fits 26 x ->
  x < S0 \/ S0 + n * len <= x -> x < B0 \/ B0 + n * len <= x -> x < T0 \/ T0 + n * len <= x ->
  mram_byte m' k rg ci x = mram_byte m k rg ci x.
Proof using All.
  intros Hm Hcall Hr Hc Hf HS HB HT. apply call_steps in Hcall as (m1 & m2 & H1 & H2 & H3).
  assert (bytes m1) as Hb1 by (destruct (comm_type =? 0); [apply H1|by rewrite H1]).
  destruct (exchange_step m1 m2 Hb1 H2) as (cs & Hcs & Hrun & _). pose proof (cr_exchange _ _ _ _ _ _ _ _ Hrange) as Hex.
  pose proof (cr_heap _ _ _ _ _ _ _ _ Hrange) as Hheap.
  assert (mram_byte m2 k rg ci x = mram_byte m1 k rg ci x) as E2.
  { rewrite Hrun. apply (exchange_others axis_len comm_axis start start len comm_type buf Hcube Hex cs m1 Hcs Hb1); try done.
    intros w _ _ _. lia. }
  destruct (decide (0 <= k < lenz ranks)) as [Hk|Hk].
  - rewrite (proj2 (after_bytes store fuel sizeof_T heap ranks axis_len comm_axis len (start + buf) target Hcube Hset (cr_buffer _ _ _ _ _ _ _ _ Hrange)
      arguments_before m2 m' k rg ci H3 (conj Hk (conj Hr Hc)))), E2 by done.
    destruct (Z.eqb_spec comm_type 0) as [Ht|]; [|by rewrite H1].
    by rewrite (proj2 (before_bytes m m1 k rg ci Ht H1 (conj Hk (conj Hr Hc)))).
  - unfold mram_byte in *. rewrite (launched_elsewhere ranks _ _ _ _ _ H3 Hk), E2.
    destruct (comm_type =? 0); [by rewrite (launched_elsewhere ranks _ _ _ _ _ H1 Hk)|by rewrite H1].
Qed.
End Result.

(** ** Properties *)

(** C1: an all-to-all exchange of a set of whole ranks, as a hypercube of DPUs: a
    call always ends, whatever the interleavings of the tasklets of each DPU and
    of the 32 threads of the host; and when X and Y are the coordinates of two
    DPUs that only differ on the axes of the exchange, the block of Y at the
    position of X among these axes is then the block that X had at the position
    of Y; no other byte of any MRAM changes, but in the three areas of the call. *)
Theorem pidcomm_alltoall_exchanges `{D : DpuRuntime} `{!DpuRuntimeSpec D} `{R : Rotations} `{!RotationsSpec R}
    store fuel sizeof_T heap allocated ranks axis_len comm len start target buf m :
  let comm_axis := comm_axis_of (lenz axis_len) comm in let comm_type := comm_type_of comm_axis in
  let ax := group_axes axis_len comm_axis in let n := size_on 1 ax * nb_passes comm_type in
  hypercube axis_len comm_axis -> whole_set store fuel ranks (8 * nb_groups ax) ->
  call_range sizeof_T heap len n start target buf comm_type -> bytes m ->
  let call := pidcomm_alltoall store fuel sizeof_T heap allocated
    (init_hypercube_manager (DPU_SET_RANKS ranks) (lenz axis_len) axis_len) comm (n * len) start target buf in
  let dpus := zip axis_len comm_axis in
  (exists m', call m m') /\ forall m', call m m' ->
  (forall X Y x, coordinates dpus X -> coordinates dpus Y -> index_on 0 dpus X = index_on 0 dpus Y -> 0 <= x < len ->
    let p := group_number dpus X in let q := group_number dpus Y in
    mram_byte m' (q / 64) (q mod 64 / 8) (q mod 8) (heap + target + index_on 1 dpus X * len + x) =
    mram_byte m (p / 64) (p mod 64 / 8) (p mod 8) (heap + start + index_on 1 dpus Y * len + x)) /\
  (forall k rg ci x, 0 <= rg < 8 -> 0 <= ci < 8 -> fits 26 x ->
    (forall area, area ∈ [heap + start; heap + (start + buf); heap + target] -> x < area \/ area + n * len <= x) ->
    mram_byte m' k rg ci x = mram_byte m k rg ci x).
Proof.
  intros comm_axis comm_type ax n Hcube Hset Hrange Hm call dpus. split.
  - by apply (call_ends store fuel sizeof_T heap allocated ranks axis_len comm_axis len start target buf Hcube Hset Hrange comm eq_refl).
  - intros m' Hcall. split.
    + intros X Y x HX HY Heq Hx.
      by apply (call_bytes store fuel sizeof_T heap allocated ranks axis_len comm_axis len start target buf Hcube Hset Hrange comm eq_refl).
    + intros k rg ci x Hr Hc Hf Ha.
      by apply (call_others store fuel sizeof_T heap allocated ranks axis_len comm_axis len start target buf Hcube Hset Hrange comm eq_refl);
        try apply Ha; rewrite ?elem_of_cons; auto.
Qed.

(** Two ranks of 64 DPUs as a hypercube of 16 by 8, exchanged along the first axis. *)
Definition sample_store : rank_ptr -> rank := fun _ => sample_rank 8 8.
Lemma sample_counted_8 : counted (sample_rank 8 8).
Proof.
  split; [split; try by_eval| |].
  - intros s d Hs Hd. revert s Hs d Hd. by_eval.
  - intros s Hs. revert s Hs. unfold fits. by_eval.
  - intros s Hs _. revert s Hs. by_eval.
Qed.
Lemma sample_whole_set : whole_set sample_store 200 [O; 1%nat] 128.
Proof.
  split; [by eapply bool_decide_unpack; vm_compute|done| | | |done].
  - apply list_relations.list.Forall_true. intros r. exact sample_counted_8.
  - by apply list_relations.list.Forall_true.
  - intros r i _ Hi. change (dpu_enabled sample_store (O, i) = true). revert i Hi. by_eval.
Qed.
Lemma sample_call_range : call_range 4 (1024 * 1024) 64 16 0 8192 4096 0.
Proof.
  split; [done|exact sample_range|]. split; try done; [by eapply bool_decide_unpack; vm_compute|right; by left|by left].
Qed.

Lemma pidcomm_alltoall_exchanges_witness : exists m',
  @pidcomm_alltoall documented_runtime documented_rotations sample_store 200 4 (1024 * 1024) (fun _ => sample_args)
    (init_hypercube_manager (DPU_SET_RANKS [O; 1%nat]) 2 [16; 8]) [49; 48] 1024 0 8192 4096 sample_regions m' /\
  mram_byte m' 0 1 5 (1024 * 1024 + 8192 + 3 * 64) = mram_byte sample_regions 0 0 3 (1024 * 1024 + 13 * 64).
Proof.
  destruct (@pidcomm_alltoall_exchanges documented_runtime documented_runtime_spec documented_rotations documented_rotations_spec
    sample_store 200 4 (1024 * 1024) (fun _ => sample_args) [O; 1%nat] [16; 8] [49; 48] 64 0 8192 4096 sample_regions
    sample_hypercube sample_whole_set sample_call_range sample_bytes) as [[m' Hm'] Hall].
  exists m'. split; [exact Hm'|]. destruct (Hall m' Hm') as [H _].
  exact (H [3; 0] [13; 0] 0 ltac:(repeat constructor; cbn; lia) ltac:(repeat constructor; cbn; lia) eq_refl ltac:(lia)).
Defined.
