(* ===== verification/PidGather.v ===== *)
(** * The threads of an all-gather exchange

    Model of [RNS_COPY_ag], [S_COPY_ag] and [xeon_sp_trans_all_gather_rg] of
    [src/hw/src/mappings/xeon_sp/pid_comm.c] and of [thread_all_gather_rns] and
    [hw_all_gather_rns] of [src/hw/src/rank/hw_dpu_rank.c]. A turn of a thread
    takes one rotate group, loads each of its lines once and stores it in all the
    groups of its axes, rotated for the eight interfaces when the first axis takes
    part. The division of the turns among the threads and the coordinates are
    those of PidThreads.v. *)

From stdpp Require Import relations.
From S2P Require Import Prelude Interleave XeonInterleave XeonSg XeonBank PidComm PidMachine PidAccess PidThreads.

#[local] Open Scope Z_scope.
#[local] Open Scope dpu_scope.

(** ** The copies of a group *)

(** One load, then the stores of the register, rotated by one more interface
    after the stores for each. *)
Definition RNS_COPY_ag (iter : Z) (src : Z * Z) (dst_array : list (Z * Z)) : list access :=
  Load src :: concat (map (fun k =>
    (if k =? 0 then [] else [Rol 8]) ++ map (fun cl => Store dst_array.[8 * cl + k]) (seqZ 0 iter)) (seqZ 0 8)).
Definition S_COPY_ag (iter : Z) (src : Z * Z) (dst_array : list (Z * Z)) : list access :=
  Load src :: map (fun cl => Store dst_array.[cl]) (seqZ 0 iter).

(** [src_mram_offset], [dst_mram_offset] and the accesses made so far. *)
Definition ag_state := (Z * Z * list access)%type.

Section Group.
Variables (base_region_addr_src : Z) (base_region_addr_dst : list Z) (src_rg_id : Z) (dst_rg_id : list Z).
Variables (byte_length allgather_comm_type num_iter_dst : Z).

(** The addresses of the word in the destinations: for each one, for each rotation. *)
Definition dst_rank_addr_array (dst_mram_offset : Z) : list (Z * Z) :=
  if allgather_comm_type =? 0 then
    let mram_dst_offset_1mb_wise := map (fun rg_offset => offset_1mb_wise (u32 (dst_mram_offset + rg_offset * byte_length))) (seqZ 0 8) in
    map (fun rg_offset => (base_region_addr_dst.[rg_offset / 8],
           mram_dst_offset_1mb_wise.[rg_offset mod 8] + rotate_group_offset_256_64 dst_rg_id.[rg_offset / 8]))
      (seqZ 0 (8 * num_iter_dst))
  else
    map (fun rg_offset => (base_region_addr_dst.[rg_offset],
           offset_1mb_wise dst_mram_offset + rotate_group_offset_256_64 dst_rg_id.[rg_offset])) (seqZ 0 num_iter_dst).

Definition gather_word (s : ag_state) : ag_state :=
  let '(src_mram_offset, dst_mram_offset, accesses) := s in
  let src_rank_addr_iter := (base_region_addr_src, offset_1mb_wise src_mram_offset + rotate_group_offset_256_64 src_rg_id) in
  let copy := if allgather_comm_type =? 0 then RNS_COPY_ag else S_COPY_ag in
  (u32 (src_mram_offset + 8), u32 (dst_mram_offset + 8),
   accesses ++ copy num_iter_dst src_rank_addr_iter (dst_rank_addr_array dst_mram_offset)).

Definition xeon_sp_trans_all_gather_rg (src_start_offset dst_start_offset communication_buffer_offset num_thread thread_id : Z) : list access :=
  let src_mram_offset := u32 (src_start_offset + 1024 * 1024) in
  let dst_mram_offset := u32 (dst_start_offset + 1024 * 1024 + communication_buffer_offset) in
  let iter_length := byte_length / 8 in
  let first := u32 (iter_length / num_thread * thread_id) in
  let last := u32 (iter_length / num_thread * (thread_id + 1)) in
  snd (for_up (last - first) (fun _ => gather_word) (src_mram_offset, dst_mram_offset, [])).
End Group.

(** ** One thread *)

(** The coordinates of the destination j: those of the source on the axes that do
    not communicate, the digits of j on the others. [temp_comm_product] is 1 on
    the first axis. *)
Fixpoint dest_ids (ax : axes) (iter_dst : list Z) (j temp_total_product temp_comm_product dst_rank_id dst_rg_id : Z) : Z * Z :=
  match ax, iter_dst with
  | (axis_len, comm) :: ax, i :: iter_dst =>
      let i := if comm =? 0 then i else j / temp_comm_product mod axis_len in
      dest_ids ax iter_dst j (u32 (temp_total_product * axis_len))
        (if comm =? 1 then u32 (temp_comm_product * axis_len) else temp_comm_product)
        (u32 (dst_rank_id + u32 (i * temp_total_product) / 8)) (u32 (dst_rg_id + u32 (i * temp_total_product)))
  | _, _ => (dst_rank_id, dst_rg_id mod 8)
  end.

Section Threads.
Variables (axis_len comm_axis : list Z).
Variables (src_start_offset dst_start_offset dpu_byte_length comm_type communication_buffer_offset : Z).
Notation group_axes := (group_axes axis_len comm_axis).

(** [total_iter_num] and [total_axis_product]. *)
Definition gather_products : Z * Z :=
  let '(total_iter_num, total_axis_product) :=
    foldl (fun '(t, a) '(len, c) => (u32 (t * len), if c =? 1 then u32 (a * len) else a)) (1, 1) (zip axis_len comm_axis) in
  (total_iter_num / 8, if comm_type =? 0 then total_axis_product / 8 else total_axis_product).

(** The coordinates of turn i, and the offset of its block in the destinations. *)
Definition gather_turn (i : Z) (iter : list Z * list Z) : list Z * list Z * Z :=
  let '(total_iter_num, _) := gather_products in
  let '(_, cur_remain, iter_src, iter_dst) := fixed_axes group_axes (fst iter) (snd iter) total_iter_num i in
  let blocks := if comm_type =? 0 then 8 else 1 in
  let dst_start_offset_iter := u32 (dst_start_offset + cur_remain * blocks * dpu_byte_length) in
  let '(iter_src, iter_dst) := comm_axes group_axes iter_src iter_dst cur_remain cur_remain in
  (iter_src, iter_dst, dst_start_offset_iter).

Definition gather_turn_accesses (t : list Z * list Z * Z) : list access :=
  let '(iter_src, iter_dst, dst_start_offset_iter) := t in
  let total_axis_product := snd gather_products in
  let '(src_rank_id, src_rg_id) := group_ids group_axes iter_src 1 0 0 in
  let dst := map (fun j => dest_ids group_axes iter_dst j 1 1 0 0) (seqZ 0 total_axis_product) in
  xeon_sp_trans_all_gather_rg src_rank_id (map fst dst) src_rg_id (map snd dst) dpu_byte_length comm_type total_axis_product
    src_start_offset dst_start_offset_iter communication_buffer_offset 1 0.

Definition thread_all_gather_rns (num_thread thread_id : Z) : list access :=
  let '(start_point, nb_turns) := thread_span (fst gather_products) num_thread thread_id in
  let zeros := replicate (length axis_len) 0 in
  snd (foldl (fun '(iter, accesses) i =>
      let t := gather_turn i iter in (fst t, accesses ++ gather_turn_accesses t))
    ((zeros, zeros), []) (seqZ start_point nb_turns)).

(** The 32 threads, for a first axis of at least 8; below, the source runs other
    versions of the threads, which are not modelled. *)
Definition hw_all_gather_rns : option (list (list access)) :=
  if 8 <=? axis_len.[0] then Some (map (thread_all_gather_rns thread_num) (seqZ 0 thread_num)) else None.
End Threads.

(** ** What the copies amount to *)

Lemma resolve_app g l1 l2 : resolve g (l1 ++ l2) = resolve g l1 ++ resolve (foldl load_step g l1) l2.
Proof. revert g. induction l1 as [|a l1 IH]; intros g; [done|]. cbn [app resolve foldl]. by rewrite IH, app_assoc. Qed.
Lemma accesses_wf_app g l1 l2 : accesses_wf g (l1 ++ l2) <-> accesses_wf g l1 /\ accesses_wf (foldl load_step g l1) l2.
Proof. revert g. induction l1 as [|a l1 IH]; intros g; [cbn; tauto|]. cbn [app accesses_wf foldl]. rewrite IH. tauto. Qed.

(** The stores of a register. *)
Lemma same_register_state src k (q : Z -> Z * Z) js : foldl load_step (Some (src, k)) (map (fun j => Store (q j)) js) = Some (src, k).
Proof. induction js as [|j js IH]; [done|]. exact IH. Qed.
Lemma same_register_copies src k (q : Z -> Z * Z) js :
  resolve (Some (src, k)) (map (fun j => Store (q j)) js) = map (fun j => mk_copy src k (q j)) js.
Proof. induction js as [|j js IH]; [done|]. cbn. by rewrite IH. Qed.
Lemma same_register_wf src k (q : Z -> Z * Z) js : (forall j, j ∈ js -> snd (q j) mod 64 = 0) ->
  accesses_wf (Some (src, k)) (map (fun j => Store (q j)) js).
Proof.
  induction js as [|j js IH]; intros H; [done|]. cbn. split; [apply H, elem_of_cons; by left|].
  apply IH. intros j' Hj. apply H, elem_of_cons. by right.
Qed.

(** The register for the interfaces k further. *)
Definition rns_at (k : Z) : rns := if k =? 0 then Straight else Rotate (8 * k).
Lemma rns_at_next k : 0 < k -> rotate_by 8 (rns_at (k - 1)) = rns_at k.
Proof.
  intros Hk. unfold rns_at. rewrite (proj2 (Z.eqb_neq k 0)) by lia. destruct (Z.eqb_spec (k - 1) 0); cbn; f_equal; lia.
Qed.
Lemma rns_at_byte k : 0 <= k < 8 -> byte_rotation (rns_at k) /\ shift (rns_at k) = k.
Proof.
  intros Hk. unfold rns_at. destruct (Z.eqb_spec k 0) as [->|]; [done|]. cbn [byte_rotation shift].
  split; [Z.div_mod_to_equations; lia|]. by rewrite (Z.mul_comm 8), Z.div_mul.
Qed.

(** The rounds of [RNS_COPY_ag], one for each rotation. *)
Section Rounds.
Variables (src : Z * Z) (q : Z -> Z -> Z * Z) (js : list Z).
Notation rounds ks := (concat (map (fun k => (if k =? 0 then [] else [Rol 8]) ++ map (fun j => Store (q k j)) js) ks)).

Lemma rounds_spec i n : 0 < i -> 0 <= n -> i + n <= 8 ->
  resolve (Some (src, rns_at (i - 1))) (rounds (seqZ i n)) = concat (map (fun k => map (fun j => mk_copy src (rns_at k) (q k j)) js) (seqZ i n)) /\
  ((forall k j, i <= k < i + n -> j ∈ js -> snd (q k j) mod 64 = 0) -> accesses_wf (Some (src, rns_at (i - 1))) (rounds (seqZ i n))).
Proof.
  intros Hi Hn. revert i Hi. revert n Hn. apply (natlike_ind (fun n => forall i, 0 < i -> i + n <= 8 -> _)); [done|].
  intros n Hn IH i Hi Hle. specialize (IH (Z.succ i) ltac:(lia) ltac:(lia)). rewrite seqZ_cons by lia.
  replace (Z.pred (Z.succ n)) with n by lia. replace (Z.succ i - 1) with i in IH by lia. cbn [map concat].
  rewrite (proj2 (Z.eqb_neq i 0)) by lia. rewrite <- app_assoc. cbn [app resolve stored load_step accesses_wf]. rewrite rns_at_next by lia.
  rewrite resolve_app, accesses_wf_app, same_register_state, same_register_copies. destruct IH as [-> IHwf]. split; [done|].
  intros Hal. split; [split_and!; [done|lia|apply rns_at_byte; lia]|]. split.
  - apply same_register_wf. intros j Hj. apply Hal; [lia|done].
  - apply IHwf. intros k j Hk Hj. apply Hal; [lia|done].
Qed.

Lemma all_rounds_spec g :
  resolve g (Load src :: rounds (seqZ 0 8)) = concat (map (fun k => map (fun j => mk_copy src (rns_at k) (q k j)) js) (seqZ 0 8)) /\
  (snd src mod 64 = 0 -> (forall k j, 0 <= k < 8 -> j ∈ js -> snd (q k j) mod 64 = 0) -> accesses_wf g (Load src :: rounds (seqZ 0 8))).
Proof.
  change (seqZ 0 8) with (0 :: seqZ 1 7). cbn [map concat resolve stored load_step accesses_wf app Z.eqb].
  rewrite resolve_app, accesses_wf_app, same_register_state, same_register_copies. destruct (rounds_spec 1 7) as [Hres Hwf]; [lia..|].
  change (rns_at (1 - 1)) with Straight in Hres, Hwf. rewrite Hres. split; [done|]. intros Hs Hal. split; [done|]. split.
  - apply same_register_wf. intros j Hj. apply Hal; [lia|done].
  - apply Hwf. intros k j Hk Hj. apply Hal; [lia|done].
Qed.
End Rounds.

(** ** The words of a group *)

(** The offsets, and the room for the length in the MRAMs. *)
Record gather_range (src dst len comm_type buf nb_blocks : Z) : Prop := {
  gr_src : 0 <= src;
  gr_dst : 0 <= dst;
  gr_length : 0 <= len;
  gr_buffer : 0 <= buf;
  gr_src_end : src + 1024 * 1024 + len <= 2 ^ 26;
  gr_dst_end : dst + 1024 * 1024 + buf + nb_blocks * len <= 2 ^ 26;
  gr_apart : src + len <= dst + buf \/ dst + buf + nb_blocks * len <= src;
  gr_words : src mod 8 = 0 /\ dst mod 8 = 0 /\ len mod 8 = 0 /\ buf mod 8 = 0;
}.

Section Words.
Variables (bs src_rg : Z) (dest : Z -> Z * Z) (nb_dests len comm_type src0 dst0 : Z).
Notation P := (nb_passes comm_type).
Hypothesis Hsrc : 0 <= src_rg < 8.
Hypothesis Hdest : forall j, 0 <= j < nb_dests -> 0 <= snd (dest j) < 8.
Hypothesis Hnb : 0 <= nb_dests.
Hypothesis Hlen : 0 <= len /\ len mod 8 = 0.
Hypothesis Hsrc0 : 0 <= src0 /\ src0 mod 8 = 0 /\ src0 + len <= 2 ^ 26.
Hypothesis Hdst0 : 0 <= dst0 /\ dst0 mod 8 = 0 /\ dst0 + P * len <= 2 ^ 26.
Notation bd := (map (fun j => fst (dest j)) (seqZ 0 nb_dests)).
Notation rgs := (map (fun j => snd (dest j)) (seqZ 0 nb_dests)).

Definition word_source (u : Z) : place := (bs, src_rg, src0 + 8 * u).
Definition word_target (j k u : Z) : place := (fst (dest j), snd (dest j), dst0 + k * len + 8 * u).
Definition word_moves (u : Z) : list move :=
  concat (map (fun k => map (fun j => (word_source u, rns_at k, word_target j k u)) (seqZ 0 nb_dests)) (seqZ 0 P)).

Lemma gather_passes : P = 8 /\ comm_type = 0 \/ P = 1 /\ comm_type <> 0.
Proof using Type. clear. unfold nb_passes. destruct (Z.eqb_spec comm_type 0); auto. Qed.

Lemma word_offset k u : 0 <= k < P -> 0 <= u < len / 8 -> 0 <= dst0 + k * len + 8 * u /\ (dst0 + k * len + 8 * u) mod 8 = 0 /\
  dst0 + k * len + 8 * u + 8 <= dst0 + P * len.
Proof using All.
  intros Hk Hu. assert (len = 8 * (len / 8)) as Hl8 by (Z.div_mod_to_equations; lia). set (W := len / 8) in *. rewrite Hl8.
  split; [nia|]. split; [|nia]. replace (dst0 + k * (8 * W) + 8 * u) with (dst0 + (k * W + u) * 8) by ring. rewrite Z.mod_add by done. lia.
Qed.

Lemma word_target_ok j k u : 0 <= j < nb_dests -> 0 <= k < P -> 0 <= u < len / 8 -> place_ok (word_target j k u).
Proof using All.
  intros Hj Hk Hu. destruct (word_offset k u Hk Hu) as (H1 & H2 & H3). split; [by apply Hdest|]. unfold fits. lia.
Qed.
Lemma word_source_ok u : 0 <= u < len / 8 -> place_ok (word_source u).
Proof using All.
  intros Hu. split; [done|]. unfold fits. split; Z.div_mod_to_equations; lia.
Qed.

Lemma dst_offset_line k u : 0 <= k < P -> 0 <= u < len / 8 ->
  offset_1mb_wise (u32 (dst0 + 8 * u + k * len)) = mram_line (dst0 + k * len + 8 * u).
Proof using All.
  intros Hk Hu. destruct (word_offset k u Hk Hu) as (H1 & H2 & H3). clear Hdest.
  replace (dst0 + 8 * u + k * len) with (dst0 + k * len + 8 * u) by ring.
  rewrite u32_id by (unfold fits; lia). apply offset_1mb_wise_line; [unfold fits; lia|done].
Qed.

(** The addresses of the destinations are the lines of the targets. *)
Lemma array_at u j k : 0 <= u < len / 8 -> 0 <= j < nb_dests -> 0 <= k < P ->
  (dst_rank_addr_array bd rgs len comm_type nb_dests (dst0 + 8 * u)).[if comm_type =? 0 then 8 * j + k else j] =
  line_of (word_target j k u).
Proof using All.
  intros Hu Hj Hk. unfold dst_rank_addr_array, word_target, line_of, group_line. pose proof (dst_offset_line k u Hk Hu) as Hoff.
  destruct gather_passes as [[HP Ht]|[HP Ht]]; rewrite HP in Hk.
  - rewrite (proj2 (Z.eqb_eq _ _) Ht). rewrite lookup_map_seqZ by lia.
    replace ((8 * j + k) / 8) with j by (Z.div_mod_to_equations; lia). replace ((8 * j + k) mod 8) with k by (Z.div_mod_to_equations; lia).
    rewrite !lookup_map_seqZ by lia. rewrite Hoff, rotate_group_offset_start by by apply Hdest. by rewrite Z.add_comm.
  - rewrite (proj2 (Z.eqb_neq _ _) Ht). assert (k = 0) as -> by lia. rewrite !lookup_map_seqZ by lia.
    rewrite !Z.mul_0_l, !Z.add_0_r in *. rewrite u32_id in Hoff.
    2:{ destruct (word_offset 0 u ltac:(lia) Hu) as (H1 & H2 & H3). unfold fits. lia. }
    rewrite Hoff, rotate_group_offset_start by by apply Hdest. by rewrite Z.add_comm.
Qed.

Definition word_accesses (u : Z) : list access :=
  (if comm_type =? 0 then RNS_COPY_ag else S_COPY_ag) nb_dests (line_of (word_source u))
    (dst_rank_addr_array bd rgs len comm_type nb_dests (dst0 + 8 * u)).

Lemma gather_word_at u l : 0 <= u < len / 8 ->
  gather_word bs bd src_rg rgs len comm_type nb_dests (src0 + 8 * u, dst0 + 8 * u, l) =
  (src0 + 8 * (u + 1), dst0 + 8 * (u + 1), l ++ word_accesses u).
Proof using All.
  intros Hu. destruct (word_source_ok u Hu) as (_ & Hf & H8). destruct (word_offset 0 u) as (H1 & H2 & H3); [destruct gather_passes; lia|done|].
  destruct gather_passes as [[HP _]|[HP _]]; rewrite HP in *;
  (unfold gather_word, word_accesses, word_source, line_of, group_line; rewrite offset_1mb_wise_line, rotate_group_offset_start by done;
   rewrite !u32_id by (unfold fits; Z.div_mod_to_equations; lia); rewrite (Z.add_comm (mram_line _));
   destruct (comm_type =? 0); (f_equal; f_equal; lia)).
Qed.

Lemma word_copies g u : 0 <= u < len / 8 -> resolve g (word_accesses u) = map copy_of (word_moves u) /\ accesses_wf g (word_accesses u).
Proof using All.
  intros Hu. pose proof (line_of_aligned _ (word_source_ok u Hu)) as Hsal.
  assert (forall j k, 0 <= j < nb_dests -> 0 <= k < P -> snd (line_of (word_target j k u)) mod 64 = 0) as Htal
    by (intros j k Hj Hk; by apply line_of_aligned, word_target_ok).
  unfold word_moves. rewrite concat_map, map_map. unfold word_accesses, RNS_COPY_ag, S_COPY_ag.
  pose proof (array_at u) as Hat. set (arr := dst_rank_addr_array _ _ _ _ _ _) in *. clearbody arr.
  destruct gather_passes as [[HP Ht]|[HP Ht]]; rewrite HP in *.
  - rewrite (proj2 (Z.eqb_eq _ _) Ht) in *.
    destruct (all_rounds_spec (line_of (word_source u)) (fun k j => arr.[8 * j + k]) (seqZ 0 nb_dests) g) as [Hres Hwf].
    split.
    + etrans; [exact Hres|]. f_equal. apply map_ext_in. intros k Hk%list_elem_of_In%elem_of_seqZ. rewrite map_map.
      apply map_ext_in. intros j Hj%list_elem_of_In%elem_of_seqZ. rewrite (Hat j k) by lia. done.
    + apply Hwf; [done|]. intros k j Hk Hj%elem_of_seqZ. rewrite (Hat j k) by lia. apply Htal; lia.
  - rewrite (proj2 (Z.eqb_neq _ _) Ht) in *. cbn [resolve stored load_step accesses_wf app].
    rewrite same_register_copies, seqZ_1. cbn [map concat]. rewrite app_nil_r, map_map. split; [|split; [done|]].
    + apply map_ext_in. intros j Hj%list_elem_of_In%elem_of_seqZ. rewrite (Hat j 0) by lia. done.
    + apply same_register_wf. intros j Hj%elem_of_seqZ. rewrite (Hat j 0) by lia. apply Htal; lia.
Qed.
End Words.

Lemma gather_rg_accesses bs src_rg dest nb_dests src dst len comm_type buf :
  0 <= src_rg < 8 -> (forall j, 0 <= j < nb_dests -> 0 <= snd (dest j) < 8) -> 0 <= nb_dests ->
  gather_range src dst len comm_type buf (nb_passes comm_type) ->
  xeon_sp_trans_all_gather_rg bs (map (fun j => fst (dest j)) (seqZ 0 nb_dests)) src_rg (map (fun j => snd (dest j)) (seqZ 0 nb_dests))
    len comm_type nb_dests src dst buf 1 0 =
  concat (map (word_accesses bs src_rg dest nb_dests len comm_type (src + 1024 * 1024) (dst + 1024 * 1024 + buf)) (seqZ 0 (len / 8))).
Proof.
  intros Hs Hd Hn [H1 H2 H3 H4 H5 H6 _ (H8 & H9 & H10 & H11)].
  assert (0 <= nb_passes comm_type * len) as Hp by (unfold nb_passes; destruct (comm_type =? 0); lia).
  assert (0 <= len / 8 <= len) as Hw by (Z.div_mod_to_equations; lia).
  unfold xeon_sp_trans_all_gather_rg. rewrite Z.div_1_r, Z.mul_0_r, Z.mul_1_r. rewrite !u32_id by (unfold fits; lia). rewrite Z.sub_0_r.
  set (src0 := src + 1024 * 1024). set (dst0 := dst + 1024 * 1024 + buf).
  assert (0 <= src0 /\ src0 mod 8 = 0 /\ src0 + len <= 2 ^ 26) as Hsrc0 by (unfold src0; Z.div_mod_to_equations; lia).
  assert (0 <= dst0 /\ dst0 mod 8 = 0 /\ dst0 + nb_passes comm_type * len <= 2 ^ 26) as Hdst0
    by (unfold dst0; split_and!; [lia|Z.div_mod_to_equations; lia|lia]).
  rewrite (for_up_ind (fun u s => s = (src0 + 8 * u, dst0 + 8 * u,
    concat (map (word_accesses bs src_rg dest nb_dests len comm_type src0 dst0) (seqZ 0 u))))); [done|lia| |].
  - by rewrite !Z.add_0_r.
  - intros u s Hu ->. rewrite gather_word_at by (done || lia).
    rewrite (seqZ_app 0 u 1) by lia. rewrite seqZ_1, map_app, concat_app. cbn [map concat]. by rewrite app_nil_r.
Qed.

(** ** The destinations of a turn *)

Lemma dest_ids_spec ax v j P C rank rg : axes_wf ax -> coordinates ax v -> 0 < C -> C * size_on 1 ax < 2 ^ 32 -> 0 <= j ->
  dest_ids ax v j P C rank rg = group_ids ax (unrank ax (index_on 0 ax v) (j / C)) P rank rg.
Proof.
  intros Hwf Hv. revert P C rank rg Hwf. induction Hv as [|[len c] d ax v Hd Hv IH]; intros P C rank rg Hwf HC Hfit Hj; [done|].
  apply list_relations.list.Forall_cons in Hwf as [[Hl Hc] Hwf]. pose proof (size_on_pos 1 ax Hwf). cbn [fst snd dest_ids index_on unrank size_on] in *.
  destruct Hc as [-> | ->]; cbn [Z.eqb Pos.eqb group_ids] in *.
  - replace ((d + len * index_on 0 ax v) mod len) with d by (symmetry; rewrite Z.mul_comm, Z.mod_add by lia; by apply Z.mod_small).
    replace ((d + len * index_on 0 ax v) / len) with (index_on 0 ax v) by (symmetry; rewrite Z.mul_comm, Z.div_add by lia; rewrite Z.div_small by lia; lia).
    by apply IH.
  - rewrite (u32_id (C * len)) by (unfold fits; nia). rewrite IH by (done || nia). by rewrite Z.div_div by lia.
Qed.

(** ** The threads *)

(** Pieces that begin with a load resolve on their own. *)
Lemma resolve_concat {X} (f : X -> list access) (h : X -> list copy) l :
  (forall x g, x ∈ l -> resolve g (f x) = h x /\ accesses_wf g (f x)) ->
  forall g, resolve g (concat (map f l)) = concat (map h l) /\ accesses_wf g (concat (map f l)).
Proof.
  intros H. induction l as [|x l IH]; intros g; [done|]. cbn [map concat]. rewrite resolve_app, accesses_wf_app.
  destruct (H x g ltac:(apply elem_of_cons; by left)) as [-> Hx].
  destruct (IH ltac:(intros y g' Hy; apply H, elem_of_cons; by right) (foldl load_step g (f x))) as [-> Hl]. done.
Qed.

(** Nested loops that never give the same result twice. *)
Lemma NoDup_loops {Y} (f : Z -> Z -> Z -> Z -> Y) a b c d :
  (forall i u k j i' u' k' j', 0 <= i < a -> 0 <= u < b -> 0 <= k < c -> 0 <= j < d ->
    0 <= i' < a -> 0 <= u' < b -> 0 <= k' < c -> 0 <= j' < d -> f i u k j = f i' u' k' j' -> i = i' /\ u = u' /\ k = k' /\ j = j') ->
  NoDup (concat (map (fun i => concat (map (fun u => concat (map (fun k => map (f i u k) (seqZ 0 d)) (seqZ 0 c))) (seqZ 0 b))) (seqZ 0 a))).
Proof.
  intros Hinj.
  assert (forall i u k y, y ∈ map (f i u k) (seqZ 0 d) -> exists j, 0 <= j < d /\ y = f i u k j) as H1.
  { intros i u k y (j & -> & Hj%elem_of_seqZ)%list_elem_of_fmap. exists j. split; [lia|done]. }
  assert (forall i u y, y ∈ concat (map (fun k => map (f i u k) (seqZ 0 d)) (seqZ 0 c)) ->
    exists k j, 0 <= k < c /\ 0 <= j < d /\ y = f i u k j) as H2.
  { intros i u y (l & (k & <- & Hk%list_elem_of_In%elem_of_seqZ)%in_map_iff & Hy%list_elem_of_In)%list_elem_of_In%in_concat.
    destruct (H1 _ _ _ _ Hy) as (j & Hj & ->). exists k, j. split; [lia|done]. }
  assert (forall i y, y ∈ concat (map (fun u => concat (map (fun k => map (f i u k) (seqZ 0 d)) (seqZ 0 c))) (seqZ 0 b)) ->
    exists u k j, 0 <= u < b /\ 0 <= k < c /\ 0 <= j < d /\ y = f i u k j) as H3.
  { intros i y (l & (u & <- & Hu%list_elem_of_In%elem_of_seqZ)%in_map_iff & Hy%list_elem_of_In)%list_elem_of_In%in_concat.
    destruct (H2 _ _ _ Hy) as (k & j & Hk & Hj & ->). exists u, k, j. split; [lia|done]. }
  apply NoDup_concat_map; [apply NoDup_seqZ| |].
  - intros i Hi%elem_of_seqZ. apply NoDup_concat_map; [apply NoDup_seqZ| |].
    + intros u Hu%elem_of_seqZ. apply NoDup_concat_map; [apply NoDup_seqZ| |].
      * intros k Hk%elem_of_seqZ. change (NoDup (f i u k <$> seqZ 0 d)). apply NoDup_fmap_2_strong; [|apply NoDup_seqZ].
        intros j j' Hj%elem_of_seqZ Hj'%elem_of_seqZ Heq. eapply (Hinj i u k j i u k j'); (done || lia).
      * intros k k' y Hk%elem_of_seqZ Hk'%elem_of_seqZ (j & Hj & ->)%H1 (j' & Hj' & Heq)%H1.
        eapply (Hinj i u k j i u k' j'); (done || lia).
    + intros u u' y Hu%elem_of_seqZ Hu'%elem_of_seqZ (k & j & Hk & Hj & ->)%H2 (k' & j' & Hk' & Hj' & Heq)%H2.
      eapply (Hinj i u k j i u' k' j'); (done || lia).
  - intros i i' y Hi%elem_of_seqZ Hi'%elem_of_seqZ (u & k & j & Hu & Hk & Hj & ->)%H3 (u' & k' & j' & Hu' & Hk' & Hj' & Heq)%H3.
    eapply (Hinj i u k j i' u' k' j'); (done || lia).
Qed.

Section Exchange.
Variables (axis_len comm_axis : list Z) (src dst len comm_type buf : Z).
Hypothesis Hcube : hypercube axis_len comm_axis.
Hypothesis Htype : comm_type = if comm_axis.[0] =? 1 then 0 else 1.
Notation ax := (group_axes axis_len comm_axis).
Notation A := (size_on 1 ax).
Notation N := (size_on 0 ax).
Notation P := (nb_passes comm_type).
Hypothesis Hrange : gather_range src dst len comm_type buf (A * P).

Lemma sizes_pos : axes_wf ax /\ 0 < A /\ 0 < N /\ 0 < N * A < 2 ^ 32.
Proof using Hcube.
  destruct Hcube as [_ _ _ Hax _ Hfit]. pose proof (size_on_pos 1 ax Hax) as HA. pose proof (size_on_pos 0 ax Hax) as HN.
  rewrite (sizes ax Hax) in Hfit. split_and!; (done || nia).
Qed.

Lemma gather_products_eq : gather_products axis_len comm_axis comm_type = (N * A, A).
Proof using Hcube Htype.
  unfold gather_products. rewrite (lengths_products axis_len comm_axis comm_type Hcube Htype), product_of_axes.
  by rewrite (Z.mul_comm 8), Z.div_mul by lia.
Qed.

(** The group of turn i, and those it writes to. *)
Definition gather_src (i : Z) : list Z := unrank ax (i / A) (i mod A).
Definition gather_dest (i j : Z) : Z * Z :=
  let w := unrank ax (i / A) j in (group_number ax w / 8, group_number ax w mod 8).

Lemma gather_indices i : 0 <= i < N * A -> 0 <= i / A < N /\ 0 <= i mod A < A.
Proof using Hcube.
  intros Hi. destruct sizes_pos as (_ & HA & HN & _). clear Hrange. split; [|by apply Z.mod_pos_bound].
  split; [apply Z.div_pos; lia|apply Z.div_lt_upper_bound; lia].
Qed.

Lemma gather_src_spec i : 0 <= i < N * A ->
  coordinates ax (gather_src i) /\ index_on 0 ax (gather_src i) = i / A /\ index_on 1 ax (gather_src i) = i mod A.
Proof using Hcube. intros Hi. destruct (gather_indices i Hi) as [H0 H1]. apply unrank_spec; [apply sizes_pos|done|done]. Qed.

Lemma gather_turn_eq i iter : 0 <= i < N * A -> length iter.1 = length ax -> length iter.2 = length ax ->
  gather_turn axis_len comm_axis dst len comm_type i iter = (gather_src i, gather_src i, dst + i mod A * P * len).
Proof using Hcube Htype Hrange.
  intros Hi Hv Hw. destruct (gather_indices i Hi) as [H0 H1]. destruct sizes_pos as (Hax & HA & HN & Hfit).
  unfold gather_turn. rewrite gather_products_eq.
  destruct (fixed_axes_spec ax iter.1 iter.2 A i Hax Hv Hw HA Hi ltac:(lia)) as (v' & w' & -> & _ & _ & Hdv & Hdw & Hiv & Hiw).
  pose proof (comm_axes_spec ax v' w' (i mod A) (i mod A) Hax Hdv Hdw H1 H1) as Hc.
  destruct (comm_axes _ _ _ _ _) as [v w]. destruct Hc as (Hcv & Hcw & Hv1 & Hw1 & Hv0 & Hw0).
  destruct (gather_src_spec i Hi) as (Hs & Hs0 & Hs1).
  rewrite (index_on_inj ax v (gather_src i)), (index_on_inj ax w (gather_src i)) by (done || congruence).
  destruct Hrange as [_ Rd Rl Rb _ Rde _ _]. unfold nb_passes in *.
  f_equal. apply u32_id. unfold fits. destruct (comm_type =? 0); nia.
Qed.

Lemma gather_range_blocks : 1 <= P /\ len = 8 * (len / 8).
Proof using Hrange.
  split; [unfold nb_passes; destruct (comm_type =? 0); lia|]. destruct Hrange as [_ _ _ _ _ _ _ (_ & _ & Hl & _)].
  clear -Hl. Z.div_mod_to_equations. lia.
Qed.

(** The words of turn i. *)
Definition turn_words (i u : Z) : list access :=
  word_accesses (group_number ax (gather_src i) / 8) (group_number ax (gather_src i) mod 8) (gather_dest i) A len comm_type
    (src + 1024 * 1024) (dst + i mod A * P * len + 1024 * 1024 + buf) u.
Definition turn_word_moves (i u : Z) : list move :=
  word_moves (group_number ax (gather_src i) / 8) (group_number ax (gather_src i) mod 8) (gather_dest i) A len comm_type
    (src + 1024 * 1024) (dst + i mod A * P * len + 1024 * 1024 + buf) u.

Lemma gather_turn_range i : 0 <= i < N * A -> gather_range src (dst + i mod A * P * len) len comm_type buf P.
Proof using Hcube Hrange.
  intros Hi. destruct (gather_indices i Hi) as [_ H1]. destruct gather_range_blocks as [Hp Hl8]. pose proof (gr_length _ _ _ _ _ _ Hrange) as Hl.
  assert (0 <= i mod A * P * len /\ i mod A * P * len + P * len <= A * P * len) as [Ho Ho'] by nia.
  destruct Hrange as [R1 R2 R3 R4 R5 R6 R7 (M1 & M2 & M3 & M4)]. split; try lia. split_and!; try done.
  rewrite Hl8. replace (dst + i mod A * P * (8 * (len / 8))) with (dst + i mod A * P * (len / 8) * 8) by ring. by rewrite Z.mod_add.
Qed.

Lemma gather_dest_ok i j : 0 <= snd (gather_dest i j) < 8.
Proof using Type. by apply Z.mod_pos_bound. Qed.

Lemma turn_word_copies g i u : 0 <= i < N * A -> 0 <= u < len / 8 ->
  resolve g (turn_words i u) = map copy_of (turn_word_moves i u) /\ accesses_wf g (turn_words i u).
Proof using Hcube Hrange.
  intros Hi Hu. destruct (gather_turn_range i Hi) as [R1 R2 R3 R4 R5 R6 _ (M1 & M2 & M3 & M4)]. destruct sizes_pos as (_ & HA & _).
  apply word_copies; try done; try (by apply Z.mod_pos_bound); try lia.
  - intros j _. apply gather_dest_ok.
  - split_and!; [lia|Z.div_mod_to_equations; lia|lia].
  - split_and!; [lia| |lia]. clear -M2 M4. Z.div_mod_to_equations. lia.
Qed.

Lemma turn_accesses_eq i : 0 <= i < N * A ->
  gather_turn_accesses axis_len comm_axis src len comm_type buf (gather_src i, gather_src i, dst + i mod A * P * len) =
  concat (map (turn_words i) (seqZ 0 (len / 8))).
Proof using Hcube Htype Hrange.
  intros Hi. destruct (gather_src_spec i Hi) as (Hs & Hs0 & Hs1). destruct (gather_indices i Hi) as [H0 _].
  destruct sizes_pos as (Hax & HA & HN & Hfit).
  unfold gather_turn_accesses. rewrite gather_products_eq. cbn [snd]. rewrite (group_ids_number _ _ Hcube) by done.
  assert (map (fun j => dest_ids ax (gather_src i) j 1 1 0 0) (seqZ 0 A) = map (gather_dest i) (seqZ 0 A)) as ->.
  { apply map_ext_in. intros j Hj%list_elem_of_In%elem_of_seqZ. rewrite dest_ids_spec by (done || nia). rewrite Hs0, Z.div_1_r.
    destruct (unrank_spec ax (i / A) j Hax H0 ltac:(lia)) as (Hc & _). by apply (group_ids_number _ _ Hcube). }
  rewrite !map_map. apply gather_rg_accesses; [by apply Z.mod_pos_bound|intros; apply gather_dest_ok|lia|by apply gather_turn_range].
Qed.

Lemma gather_turns_foldl l iter accesses : (forall i, i ∈ l -> 0 <= i < N * A) ->
  length iter.1 = length ax -> length iter.2 = length ax ->
  snd (foldl (fun '(iter, accesses) i => let t := gather_turn axis_len comm_axis dst len comm_type i iter in
    (fst t, accesses ++ gather_turn_accesses axis_len comm_axis src len comm_type buf t)) (iter, accesses) l) =
  accesses ++ concat (map (fun i => concat (map (turn_words i) (seqZ 0 (len / 8)))) l).
Proof using Hcube Htype Hrange.
  revert iter accesses. induction l as [|i l IH]; intros iter accesses Hl Hv Hw; [by rewrite app_nil_r|].
  cbn [foldl map concat]. assert (0 <= i < N * A) as Hi by (apply Hl, elem_of_cons; by left).
  rewrite gather_turn_eq by done. cbn [fst]. destruct (gather_src_spec i Hi) as (Hs & _).
  rewrite turn_accesses_eq by done. rewrite IH; [by rewrite <- app_assoc| |symmetry; by eapply Forall2_length..].
  intros j Hj. apply Hl, elem_of_cons. by right.
Qed.

Lemma gather_thread_eq n t : 0 < n < 2 ^ 32 -> 0 <= t < n ->
  thread_all_gather_rns axis_len comm_axis src dst len comm_type buf n t =
  concat (map (fun i => concat (map (turn_words i) (seqZ 0 (len / 8))))
    (seqZ (fst (thread_span (N * A) n t)) (snd (thread_span (N * A) n t)))) /\
  forall i, i ∈ seqZ (fst (thread_span (N * A) n t)) (snd (thread_span (N * A) n t)) -> 0 <= i < N * A.
Proof using Hcube Htype Hrange.
  intros Hn Ht. destruct sizes_pos as (_ & _ & _ & Hfit). pose proof (span_range (N * A) n t) as Hspan.
  unfold thread_all_gather_rns. rewrite gather_products_eq. cbn [fst].
  destruct (thread_span (N * A) n t) as [start count]. cbn [fst snd] in *.
  assert (forall i, i ∈ seqZ start count -> 0 <= i < N * A) as Hin by (intros i Hi; apply Hspan; (done || lia)). split; [|done].
  by rewrite gather_turns_foldl by (done || cbn [fst snd]; by rewrite length_replicate, (length_group_axes _ _ Hcube)).
Qed.

(** *** The moves *)

Definition gather_moves : list move :=
  concat (map (fun i => concat (map (turn_word_moves i) (seqZ 0 (len / 8)))) (seqZ 0 (N * A))).
Definition gather_source (v : list Z) (u : Z) : place := (group_number ax v / 8, group_number ax v mod 8, src + 1024 * 1024 + 8 * u).
Definition gather_target (v w : list Z) (k u : Z) : place :=
  (group_number ax w / 8, group_number ax w mod 8, dst + index_on 1 ax v * P * len + 1024 * 1024 + buf + k * len + 8 * u).

Lemma elem_of_gather mv : mv ∈ gather_moves <-> exists v w k u, coordinates ax v /\ coordinates ax w /\
  index_on 0 ax v = index_on 0 ax w /\ 0 <= k < P /\ 0 <= u < len / 8 /\ mv = (gather_source v u, rns_at k, gather_target v w k u).
Proof using Hcube.
  destruct sizes_pos as (Hax & HA & HN & Hfit). unfold gather_moves. rewrite list_elem_of_In, in_concat. split.
  - intros (l & (i & <- & Hi%list_elem_of_In%elem_of_seqZ)%in_map_iff & Hmv).
    apply in_concat in Hmv as (l & (u & <- & Hu%list_elem_of_In%elem_of_seqZ)%in_map_iff & Hmv).
    apply in_concat in Hmv as (l & (k & <- & Hk%list_elem_of_In%elem_of_seqZ)%in_map_iff & (j & <- & Hj%list_elem_of_In%elem_of_seqZ)%in_map_iff).
    destruct (gather_src_spec i ltac:(lia)) as (Hs & Hs0 & Hs1). destruct (gather_indices i ltac:(lia)) as [H0 _].
    destruct (unrank_spec ax (i / A) j Hax H0 ltac:(lia)) as (Hd & Hd0 & _).
    exists (gather_src i), (unrank ax (i / A) j), k, u. split_and!; try done; try lia.
    unfold gather_source, gather_target. by rewrite Hs1.
  - intros (v & w & k & u & Hv & Hw & Heq & Hk & Hu & ->).
    pose proof (index_on_range 0 ax v Hv) as H0. pose proof (index_on_range 1 ax v Hv) as H1. pose proof (index_on_range 1 ax w Hw) as H2.
    set (i := index_on 0 ax v * A + index_on 1 ax v).
    assert (i / A = index_on 0 ax v) as E0 by (symmetry; apply (Z.div_unique _ _ _ (index_on 1 ax v)); [left|unfold i]; lia).
    assert (i mod A = index_on 1 ax v) as E1 by (symmetry; apply (Z.mod_unique _ _ (index_on 0 ax v)); [left|unfold i]; lia).
    eexists. split; [apply (in_map _ _ i), list_elem_of_In, elem_of_seqZ; unfold i; nia|].
    apply in_concat. eexists. split; [apply (in_map _ _ u), list_elem_of_In, elem_of_seqZ; lia|].
    apply in_concat. eexists. split; [apply (in_map _ _ k), list_elem_of_In, elem_of_seqZ; lia|].
    apply in_map_iff. exists (index_on 1 ax w). split; [|apply list_elem_of_In, elem_of_seqZ; lia].
    assert (gather_src i = v) as Ev by (unfold gather_src; rewrite E0, E1; by apply unrank_of).
    assert (unrank ax (i / A) (index_on 1 ax w) = w) as Ew by (rewrite E0, Heq; by apply unrank_of).
    unfold word_source, word_target, gather_source, gather_target, gather_dest. cbn [fst snd]. rewrite Ew, Ev, E1. done.
Qed.

Lemma gather_offset v w k u : coordinates ax v -> 0 <= k < P -> 0 <= u < len / 8 ->
  dst + 1024 * 1024 + buf <= snd (gather_target v w k u) /\ snd (gather_target v w k u) mod 8 = 0 /\
  snd (gather_target v w k u) + 8 <= dst + 1024 * 1024 + buf + A * P * len.
Proof using Hrange.
  intros Hv Hk Hu. pose proof (index_on_range 1 ax v Hv) as Hi. destruct gather_range_blocks as [HP Hl8]. cbn [gather_target snd].
  destruct Hrange as [_ Rd Rl Rb _ _ _ (M1 & M2 & M3 & M4)]. set (W := len / 8) in *. rewrite Hl8.
  split; [nia|]. split.
  - replace (dst + index_on 1 ax v * P * (8 * W) + 1024 * 1024 + buf + k * (8 * W) + 8 * u) with
      (dst + buf + (index_on 1 ax v * P * W + k * W + u + 131072) * 8) by ring. rewrite Z.mod_add by done. clear -M2 M4. Z.div_mod_to_equations. lia.
  - assert (k * W + u + 1 <= P * W) by nia. assert (index_on 1 ax v * P * W + P * W <= A * P * W) by nia. nia.
Qed.

Lemma gather_target_inj v w k u v' w' k' u' : coordinates ax v -> coordinates ax w -> coordinates ax v' -> coordinates ax w' ->
  index_on 0 ax v = index_on 0 ax w -> index_on 0 ax v' = index_on 0 ax w' -> 0 <= k < P -> 0 <= k' < P ->
  0 <= u < len / 8 -> 0 <= u' < len / 8 -> gather_target v w k u = gather_target v' w' k' u' -> v = v' /\ w = w' /\ k = k' /\ u = u'.
Proof using Hcube Hrange.
  intros Hv Hw Hv' Hw' H0 H0' Hk Hk' Hu Hu' Heq. destruct gather_range_blocks as [HP Hl8]. destruct sizes_pos as (Hax & _).
  assert (w = w') as <- by (apply (group_place_inj axis_len comm_axis); try done; unfold group_rank, group_in_rank, gather_target in *; congruence).
  assert (k * len + 8 * u + P * len * index_on 1 ax v = k' * len + 8 * u' + P * len * index_on 1 ax v') as Ho
    by (unfold gather_target in Heq; injection Heq; intros; lia).
  assert (0 <= k * len + 8 * u < P * len /\ 0 <= k' * len + 8 * u' < P * len) as [Hr Hr'] by nia.
  apply radix_unique in Ho as [Ho Hi]; [|done|done].
  destruct (radix_unique len (8 * u) (8 * u') k k') as [Hu1 ->]; [lia..|]. split_and!; try done; try lia.
  apply (index_on_inj ax); congruence.
Qed.

Lemma gather_source_ok v u : 0 <= u < len / 8 -> place_ok (gather_source v u) /\
  src + 1024 * 1024 <= snd (gather_source v u) /\ snd (gather_source v u) + 8 <= src + 1024 * 1024 + len.
Proof using Hrange.
  intros Hu. destruct gather_range_blocks as [_ Hl8]. destruct Hrange as [? _ ? _ ? _ _ (M1 & _ & _ & _)]. cbn [gather_source snd].
  split; [|lia]. split; [by apply Z.mod_pos_bound|]. unfold fits. split; [lia|clear -M1; Z.div_mod_to_equations; lia].
Qed.

Lemma gather_target_ok v w k u : coordinates ax v -> 0 <= k < P -> 0 <= u < len / 8 -> place_ok (gather_target v w k u).
Proof using Hrange.
  intros Hv Hk Hu. destruct (gather_offset v w k u Hv Hk Hu) as (H1 & H2 & H3). destruct Hrange as [_ Rd Rl Rb _ Re _ _].
  split; [by apply Z.mod_pos_bound|]. cbn [gather_target snd] in *. unfold fits. lia.
Qed.

Lemma gather_targets_nodup : NoDup (map (fun mv : move => mv.2) gather_moves).
Proof using Hcube Hrange.
  set (target i u k j := gather_target (gather_src i) (unrank ax (i / A) j) k u).
  assert (map (fun mv : move => mv.2) gather_moves = concat (map (fun i => concat (map (fun u => concat (map (fun k =>
    map (target i u k) (seqZ 0 A)) (seqZ 0 P))) (seqZ 0 (len / 8)))) (seqZ 0 (N * A)))) as ->.
  { unfold gather_moves. rewrite concat_map, map_map. f_equal. apply map_ext_in. intros i Hi%list_elem_of_In%elem_of_seqZ.
    rewrite concat_map, map_map. f_equal. apply map_ext. intros u. unfold turn_word_moves, word_moves. rewrite concat_map, map_map.
    f_equal. apply map_ext. intros k. rewrite map_map. apply map_ext. intros j. unfold target, gather_target, word_target. cbn [snd].
    destruct (gather_src_spec i ltac:(lia)) as (_ & _ & ->). done. }
  destruct sizes_pos as (Hax & HA & HN & _). apply NoDup_loops. intros i u k j i' u' k' j' Hi Hu Hk Hj Hi' Hu' Hk' Hj' Heq.
  destruct (gather_src_spec i Hi) as (Hs & Hs0 & Hs1). destruct (gather_src_spec i' Hi') as (Hs' & Hs0' & Hs1').
  destruct (gather_indices i Hi) as [H0 _]. destruct (gather_indices i' Hi') as [H0' _].
  destruct (unrank_spec ax (i / A) j Hax H0 Hj) as (Hd & Hd0 & Hd1). destruct (unrank_spec ax (i' / A) j' Hax H0' Hj') as (Hd' & Hd0' & Hd1').
  apply gather_target_inj in Heq as (Ev & Ew & -> & ->); try done; try congruence.
  rewrite Ev, Hs0' in Hs0. rewrite Ev, Hs1' in Hs1. rewrite Ew, Hd1' in Hd1. split_and!; try done.
  rewrite (Z.div_mod i A), (Z.div_mod i' A) by lia. congruence.
Qed.

Lemma gather_moves_wf : moves_wf gather_moves.
Proof using Hcube Hrange.
  split; [| | |apply gather_targets_nodup|];
    [apply Forall_forall; intros mv Hin%list_elem_of_In; apply elem_of_gather in Hin as (v & w & k & u & Hv & Hw & Heq & Hk & Hu & ->)..|].
  - cbn [fst snd]. apply rns_at_byte. unfold nb_passes in Hk. destruct (comm_type =? 0); lia.
  - by apply gather_source_ok.
  - by apply gather_target_ok.
  - intros mv mv' (v & w & k & u & Hv & Hw & Heq & Hk & Hu & ->)%elem_of_gather (v' & w' & k' & u' & Hv' & Hw' & Heq' & Hk' & Hu' & ->)%elem_of_gather.
    cbn [fst snd]. intros Hp. destruct (gather_source_ok v u Hu) as (_ & H1 & H2). destruct (gather_offset v' w' k' u' Hv' Hk' Hu') as (H3 & _ & H4).
    rewrite Hp in H1, H2. destruct Hrange as [_ _ _ _ _ _ Hap _]. lia.
Qed.

(** *** The accesses of the threads are those of the moves *)

Lemma word_load l i u : Load l ∈ turn_words i u -> l = line_of (gather_source (gather_src i) u).
Proof using Type.
  unfold turn_words, word_accesses, RNS_COPY_ag, S_COPY_ag.
  assert (forall (q : Z -> Z * Z) js, Load l ∉ map (fun j => Store (q j)) js) as Hno
    by (intros q js (j & Hj & _)%list_elem_of_fmap; done).
  destruct (comm_type =? 0); intros [[= ->]|Hin]%elem_of_cons; try done; exfalso; [|exact (Hno _ _ Hin)].
  apply list_elem_of_In, in_concat in Hin as (al & (k & <- & _)%in_map_iff & Hin%list_elem_of_In).
  apply elem_of_app in Hin as [Hin|Hin]; [|exact (Hno _ _ Hin)]. destruct (k =? 0); [by apply not_elem_of_nil in Hin|].
  apply elem_of_cons in Hin as [|Hin]; [done|by apply not_elem_of_nil in Hin].
Qed.

Section Spans.
Variable n : Z.
Hypothesis Hn : 0 < n < 2 ^ 32.
Notation threads := (map (thread_all_gather_rns axis_len comm_axis src dst len comm_type buf n) (seqZ 0 n)).

Lemma turn_resolve i g : 0 <= i < N * A ->
  resolve g (concat (map (turn_words i) (seqZ 0 (len / 8)))) = concat (map (fun u => map copy_of (turn_word_moves i u)) (seqZ 0 (len / 8))) /\
  accesses_wf g (concat (map (turn_words i) (seqZ 0 (len / 8)))).
Proof using Hcube Hrange.
  intros Hi. apply resolve_concat. intros u g' Hu%elem_of_seqZ. apply turn_word_copies; [done|lia].
Qed.

Lemma gather_threads_wf : Forall (accesses_wf None) threads.
Proof using Hcube Htype Hrange Hn.
  apply Forall_map, Forall_forall. intros t Ht%list_elem_of_In%elem_of_seqZ.
  destruct (gather_thread_eq n t Hn ltac:(lia)) as [-> Hin].
  eapply (resolve_concat _ (fun i => concat (map (fun u => map copy_of (turn_word_moves i u)) (seqZ 0 (len / 8))))).
  intros i g Hi. by apply turn_resolve, Hin.
Qed.

Lemma gather_threads_moves : concat (map (resolve None) threads) = map copy_of gather_moves.
Proof using Hcube Htype Hrange Hn.
  destruct sizes_pos as (_ & _ & _ & Hfit). unfold gather_moves. rewrite concat_map, !map_map.
  rewrite <- (spans_concat _ (N * A) n) by lia. f_equal. apply map_ext_in. intros t Ht%list_elem_of_In%elem_of_seqZ.
  destruct (gather_thread_eq n t Hn ltac:(lia)) as [-> Hin].
  edestruct (resolve_concat (fun i => concat (map (turn_words i) (seqZ 0 (len / 8))))
    (fun i => map copy_of (concat (map (turn_word_moves i) (seqZ 0 (len / 8)))))) as [-> _]; [|done].
  intros i g Hi. rewrite concat_map, map_map. by apply turn_resolve, Hin.
Qed.

Lemma gather_threads_loads th l : th ∈ threads -> Load l ∈ th -> exists mv, mv ∈ gather_moves /\ l = line_of mv.1.1.
Proof using Hcube Htype Hrange Hn.
  intros (t & -> & Ht%elem_of_seqZ)%list_elem_of_fmap. destruct (gather_thread_eq n t Hn ltac:(lia)) as [-> Hin].
  intros (al & (i & <- & Hi%list_elem_of_In)%in_map_iff & Hal)%list_elem_of_In%in_concat. specialize (Hin i Hi).
  apply in_concat in Hal as (al & (u & <- & Hu%list_elem_of_In%elem_of_seqZ)%in_map_iff & ->%list_elem_of_In%word_load).
  destruct (gather_src_spec i Hin) as (Hs & _). exists (gather_source (gather_src i) u, rns_at 0, gather_target (gather_src i) (gather_src i) 0 u).
  split; [|done]. apply elem_of_gather. exists (gather_src i), (gather_src i), 0, u.
  destruct gather_range_blocks as [HP _]. split_and!; (done || lia).
Qed.
End Spans.

(** *** The bytes of the DPUs *)

Section Bytes.
Context `{R : Rotations} `{!RotationsSpec R}.
Variables (cs : list copy) (m : regions).
Hypothesis Hcs : Permutation cs (map copy_of gather_moves).
Hypothesis Hm : bytes m.

Lemma gather_bytes v w ci k x : coordinates ax v -> coordinates ax w -> index_on 0 ax v = index_on 0 ax w ->
  0 <= ci < 8 -> 0 <= k < P -> 0 <= x < len ->
  mram_byte (run_copies cs m) (group_number ax w / 8) (group_number ax w mod 8) ((ci + k) mod 8)
    (dst + 1024 * 1024 + buf + (index_on 1 ax v * P + k) * len + x) =
  mram_byte m (group_number ax v / 8) (group_number ax v mod 8) ci (src + 1024 * 1024 + x).
Proof using Hcube Hrange Hcs Hm RotationsSpec0.
  intros Hv Hw Heq Hci Hk Hx. destruct gather_range_blocks as [HP Hl8]. set (u := x / 8).
  assert (0 <= u < len / 8 /\ x = 8 * u + x mod 8) as [Hu Hxu] by (unfold u; clear -Hx Hl8; Z.div_mod_to_equations; lia).
  assert ((gather_source v u, rns_at k, gather_target v w k u) ∈ gather_moves) as Hin
    by (apply elem_of_gather; by exists v, w, k, u).
  pose proof (run_moves_hit _ gather_moves_wf cs Hcs m Hm _ _ _ ci (x mod 8) Hin Hci ltac:(by apply Z.mod_pos_bound)) as Hhit.
  destruct (rns_at_byte k) as [_ Hsh]; [unfold nb_passes in Hk; destruct (comm_type =? 0); lia|]. rewrite Hsh in Hhit.
  unfold word_byte, gather_source, gather_target in Hhit.
  etrans; [|etrans; [exact Hhit|]]; f_equal; lia.
Qed.

(** Nothing else changes: bytes out of the area of the destinations. *)
Lemma gather_others r rg ci a : 0 <= rg < 8 -> 0 <= ci < 8 -> fits 26 a ->
  a < dst + 1024 * 1024 + buf \/ dst + 1024 * 1024 + buf + A * P * len <= a ->
  mram_byte (run_copies cs m) r rg ci a = mram_byte m r rg ci a.
Proof using Hcube Hrange Hcs Hm RotationsSpec0.
  intros Hrg Hci Ha Hout. set (p := (r, rg, a - a mod 8) : place).
  assert (place_ok p) as Hp by (unfold p, place_ok, fits in *; Z.div_mod_to_equations; lia).
  pose proof (run_moves_other _ gather_moves_wf cs Hcs m Hm p ci (a mod 8) Hp) as Hother.
  unfold p, word_byte in Hother. rewrite Z.sub_add in Hother. apply Hother; [|done|by apply Z.mod_pos_bound].
  intros (mv & Heq & (v & w & k & u & Hv & Hw & _ & Hk & Hu & ->)%elem_of_gather)%list_elem_of_fmap.
  cbn [snd] in Heq. destruct (gather_offset v w k u Hv Hk Hu) as (H1 & Hmod & H2). rewrite <- Heq in H1, Hmod, H2. cbn [snd] in H1, Hmod, H2.
  clear -Hout H1 H2 Hmod. Z.div_mod_to_equations. lia.
Qed.
End Bytes.
End Exchange.

Lemma hw_gather_threads `{R : Rotations} `{!RotationsSpec R} axis_len comm_axis src dst len comm_type buf threads tr regs m :
  hypercube axis_len comm_axis -> comm_type = (if comm_axis.[0] =? 1 then 0 else 1) ->
  gather_range src dst len comm_type buf (size_on 1 (group_axes axis_len comm_axis) * nb_passes comm_type) ->
  hw_all_gather_rns axis_len comm_axis src dst len comm_type buf = Some threads -> interleaves tr threads -> bytes m ->
  exists cs, Permutation cs (map copy_of (gather_moves axis_len comm_axis src dst len comm_type buf)) /\
    host_mem (run_accesses tr (mk_host regs m)) = run_copies cs m.
Proof.
  intros Hc Ht Hr Hhw Htr Hm. unfold hw_all_gather_rns in Hhw. destruct (8 <=? _); [|done]. apply (inj Some) in Hhw as <-.
  apply (interleaved_moves _ m regs tr (gather_moves_wf _ _ _ _ _ _ _ Hc Hr) Hm _ Htr).
  - by apply gather_threads_wf.
  - by rewrite gather_threads_moves.
  - intros th l. by apply gather_threads_loads.
Qed.

(** ** Properties *)

(** C11: whatever the interleaving of the accesses of the 32 threads, an all-gather
    exchange of the host writes the block of every DPU in all the groups of its
    axes, into the area kept for its group: in the exchange along the first axis,
    the k-th block there is, for each interface, the one of the interface k
    before it; and nothing else in the MRAMs changes. *)
Theorem all_gather_exchanges `{R : Rotations} `{!RotationsSpec R} axis_len comm_axis src dst len comm_type buf threads tr regs m :
  hypercube axis_len comm_axis -> comm_type = (if comm_axis.[0] =? 1 then 0 else 1) ->
  let ax := group_axes axis_len comm_axis in let P := nb_passes comm_type in
  gather_range src dst len comm_type buf (size_on 1 ax * P) ->
  hw_all_gather_rns axis_len comm_axis src dst len comm_type buf = Some threads -> interleaves tr threads -> bytes m ->
  let m' := host_mem (run_accesses tr (mk_host regs m)) in
  (forall v w ci k x, coordinates ax v -> coordinates ax w -> index_on 0 ax v = index_on 0 ax w ->
    0 <= ci < 8 -> 0 <= k < P -> 0 <= x < len ->
    mram_byte m' (group_number ax w / 8) (group_number ax w mod 8) ((ci + k) mod 8)
      (dst + 1024 * 1024 + buf + (index_on 1 ax v * P + k) * len + x) =
    mram_byte m (group_number ax v / 8) (group_number ax v mod 8) ci (src + 1024 * 1024 + x)) /\
  (forall r rg ci a, 0 <= rg < 8 -> 0 <= ci < 8 -> fits 26 a ->
    a < dst + 1024 * 1024 + buf \/ dst + 1024 * 1024 + buf + size_on 1 ax * P * len <= a ->
    mram_byte m' r rg ci a = mram_byte m r rg ci a).
Proof.
  intros Hc Ht ax P Hr Hhw Htr Hm m'.
  destruct (hw_gather_threads _ _ _ _ _ _ _ _ tr regs m Hc Ht Hr Hhw Htr Hm) as (cs & Hp & Hrun). subst m'. rewrite Hrun. split.
  - intros v w ci k x Hv Hw Heq Hci Hk Hx. by apply (gather_bytes axis_len comm_axis src dst len comm_type buf Hc Hr cs m Hp Hm).
  - intros r rg ci a Hrg Hci Ha Hout. by apply (gather_others axis_len comm_axis src dst len comm_type buf Hc Hr cs m Hp Hm).
Qed.

Lemma sample_gather_range : gather_range 0 0 64 0 4096 16.
Proof. split; try done. by left. Qed.

Lemma all_gather_exchanges_witness : exists threads tr,
  hw_all_gather_rns [16; 8] [1; 0] 0 0 64 0 4096 = Some threads /\ interleaves tr threads /\
  mram_byte (host_mem (@run_accesses documented_rotations tr (mk_host (fun _ => []) sample_regions))) 0 1 5 (1024 * 1024 + 4096 + 2 * 64) =
  mram_byte sample_regions 0 0 3 (1024 * 1024).
Proof.
  eexists. destruct (interleaves_exists (map (thread_all_gather_rns [16; 8] [1; 0] 0 0 64 0 4096 thread_num) (seqZ 0 thread_num))) as [tr Htr].
  exists tr. split; [reflexivity|]. split; [exact Htr|].
  destruct (@all_gather_exchanges documented_rotations documented_rotations_spec [16; 8] [1; 0] 0 0 64 0 4096 _ tr (fun _ => []) sample_regions
    sample_hypercube eq_refl sample_gather_range eq_refl Htr sample_bytes) as [H _].
  exact (H [0; 0] [1; 0] 3 2 0 ltac:(repeat constructor; cbn; lia) ltac:(repeat constructor; cbn; lia) eq_refl ltac:(lia)
    ltac:(cbn; lia) ltac:(lia)).
Defined.
