(* ===== verification/PidAllGather.v ===== *)
(** * The all-gather exchange of a set of DPUs

    Model of [all_gather] and [pidcomm_allgather] of
    [src/api/src/api/dpu_memory.c]: the exchange of the host of PidGather.v, then
    the program that PidAllToAll.v runs after its own exchange. The words that the
    host reads before, between and after are read and dropped. *)

From stdpp Require Import relations functions.
From S2P Require Import Prelude CMonad Rank XeonInterleave XeonSg XeonBank DpuSet DpuGroups Interleave PidComm PidMachine PidAccess PidThreads PidKernel PidAllToAll PidGather.

#[local] Open Scope Z_scope.
#[local] Open Scope dpu_scope.

(** The loop of [num_comm_rg] here does not stop after the last dimension: it may
    read past the arrays, [None]. *)
Fixpoint num_comm_rg_unbounded (ax : axes) (len num_comm_rg : Z) : option Z :=
  if len <? 8 then
    match ax with
    | [] => None
    | (axis_len, comm) :: ax =>
        let num_comm_rg :=
          if comm =? 1 then
            if axis_len <=? 8 / len then u32 (num_comm_rg * axis_len) else u32 (num_comm_rg * (8 / len))
          else num_comm_rg in
        num_comm_rg_unbounded ax (u32 (len * axis_len)) (if 8 <=? num_comm_rg then 8 else num_comm_rg)
    end
  else Some num_comm_rg.

Section Call.
Context `{D : DpuRuntime} `{R : Rotations}.
Variables (store : rank_ptr -> rank) (fuel : nat) (sizeof_T heap : Z) (allocated : Z -> dpu_arguments_comm_t).

Definition all_gather (axis_len comm_axis : list Z) (src_start_offset dst_start_offset byte_length comm_type communication_buffer_offset : Z)
    (m m' : regions) : Prop :=
  exists threads tr regs, hw_all_gather_rns axis_len comm_axis src_start_offset dst_start_offset byte_length comm_type
      communication_buffer_offset = Some threads /\
    interleaves tr threads /\ m' = host_mem (run_accesses tr (mk_host regs m)).

Definition pidcomm_allgather (manager : hypercube_manager) (comm : list Z) (total_data_size start_offset target_offset buffer_offset : Z)
    (m m' : regions) : Prop :=
  let dpu_set := hm_dpu_set manager in
  let axis_len := hm_axis_len manager in
  let comm_axis := comm_axis_of (hm_dimension manager) comm in
  let comm_type := comm_type_of comm_axis in
  let num_comm_dpu := num_comm_dpu_of (zip axis_len comm_axis) in
  exists nr_dpus order num_comm_rg m1,
    dpu_get_nr_dpus store dpu_set = Ok nr_dpus /\
    DPU_FOREACH_ENTANGLED_GROUP store fuel dpu_set nr_dpus = Some order /\
    num_comm_rg_unbounded (zip axis_len comm_axis) 1 1 = Some num_comm_rg /\
    all_gather axis_len comm_axis start_offset start_offset (total_data_size / num_comm_dpu) comm_type buffer_offset m m1 /\
    relocate_after sizeof_T heap (ranks_of_set dpu_set) order nr_dpus axis_len comm_axis num_comm_rg total_data_size start_offset
      target_offset buffer_offset allocated m1 m'.
End Call.

(** The areas of an all-gather exchange: one block at the source, [n] in the
    buffer and at the target. *)
Record gather_call_range (sizeof_T heap len n start_offset target_offset buffer_offset comm_type : Z) : Prop := {
  gc_heap : heap = 1024 * 1024;
  gc_exchange : gather_range start_offset start_offset len comm_type buffer_offset n;
  gc_buffer : buffer_range sizeof_T heap len n (start_offset + buffer_offset) target_offset;
}.

Section Result.
Context `{D : DpuRuntime} `{!DpuRuntimeSpec D} `{R : Rotations} `{!RotationsSpec R}.
Variables (store : rank_ptr -> rank) (fuel : nat) (sizeof_T heap : Z) (allocated : Z -> dpu_arguments_comm_t).
Variables (ranks : list rank_ptr) (axis_len comm_axis : list Z) (len start target buf : Z).
Notation full := (zip axis_len comm_axis).
Notation ax := (group_axes axis_len comm_axis).
Notation comm_type := (comm_type_of comm_axis).
Notation P := (nb_passes comm_type).
Notation n := (size_on 1 ax * P).
Notation nr_dpus := (8 * nb_groups ax).
Hypothesis Hcube : hypercube axis_len comm_axis.
Hypothesis Hset : whole_set store fuel ranks nr_dpus.
Hypothesis Hrange : gather_call_range sizeof_T heap len n start target buf comm_type.
Variable comm : list Z.
Hypothesis Hcomm : comm_axis_of (lenz axis_len) comm = comm_axis.
Notation manager := (init_hypercube_manager (DPU_SET_RANKS ranks) (lenz axis_len) axis_len).
Notation program_after' := (program_after sizeof_T heap comm_axis).
Notation arguments_after' := (arguments_after axis_len comm_axis len (start + buf) target allocated).
Notation the_call := (pidcomm_allgather store fuel sizeof_T heap allocated manager comm (n * len) start target buf).

(** The first axis is long enough for the loop to stop. *)
Lemma num_comm_rg_bounded : num_comm_rg_unbounded full 1 1 = Some (num_comm_rg_of full 1 1).
Proof using Hcube.
  clear Hset Hrange. pose proof (hc_fits _ _ Hcube) as Hfit. pose proof (hc_axes _ _ Hcube) as Hax. rewrite (sizes ax Hax) in Hfit.
  pose proof (size_on_pos 0 ax Hax) as H0. pose proof (size_on_pos 1 ax Hax) as H1.
  destruct (first_axis axis_len comm_axis Hcube) as (y & c & ys & cs & Hl & Hc & Hy & Hc01 & Hax' & Hwf). rewrite Hax' in *. rewrite Hl, Hc.
  change (zip (8 * y :: ys) (c :: cs)) with ((8 * y, c) :: zip ys cs). cbn [num_comm_rg_unbounded num_comm_rg_of].
  change (1 <? 8) with true. cbn iota. rewrite Z.mul_1_l.
  pose proof (size_on_pos 1 _ Hwf). pose proof (size_on_pos 0 _ Hwf).
  assert (8 * y < 2 ^ 32) as Hy32 by (cbn [size_on] in *; destruct Hc01 as [-> | ->]; cbn [Z.eqb Pos.eqb] in *; nia).
  rewrite (u32_id (8 * y)) by (unfold fits; lia).
  destruct (zip ys cs) as [|[len' c'] l]; cbn [num_comm_rg_unbounded num_comm_rg_of]; by rewrite (proj2 (Z.ltb_ge (8 * y) 8)) by lia.
Qed.

Lemma gather_steps m m' : the_call m m' <-> exists m1,
  all_gather axis_len comm_axis start start len comm_type buf m m1 /\
  launched ranks program_after' (group_order ranks) arguments_after' m1 m'.
Proof using Hcube Hset Hrange Hcomm.
  pose proof (num_positive axis_len comm_axis Hcube) as Hpos. destruct (num_comm_dpu_eq axis_len comm_axis Hcube) as (Hn & _).
  pose proof (get_nr_dpus_full _ _ _ _ Hset) as Hnr. destruct Hset as [Hnd Hne Hct Ht He (Hsz & Hsz32 & Hfuel)].
  pose proof (fun c => groups_in_order store ranks ltac:(lia) Ht c fuel Hne He ltac:(lia)) as Horder.
  assert (forall m1, relocate_after sizeof_T heap ranks (group_order ranks) nr_dpus axis_len comm_axis (num_comm_rg_of full 1 1) (n * len) start target buf allocated m1 m' =
    launched ranks program_after' (group_order ranks) arguments_after' m1 m') as Hafter
    by (intros; apply relocate_after_eq; [done|apply Hrange|done]).
  unfold pidcomm_allgather. cbn [ranks_of_set init_hypercube_manager hm_dpu_set hm_axis_len hm_dimension]. cbv zeta. rewrite Hcomm, Hn.
  replace (n * len / n) with len by (rewrite Z.mul_comm, Z.div_mul; lia). rewrite num_comm_rg_bounded. split.
  - intros (nr & order & rg & m1 & Hnr' & Hord & Hrg & Hx & Hpost). rewrite Hnr in Hnr'. injection Hnr' as <-.
    rewrite Horder in Hord. injection Hord as <-. injection Hrg as <-. exists m1. by rewrite <- Hafter.
  - intros (m1 & Hx & Hpost). exists nr_dpus, (group_order ranks), (num_comm_rg_of full 1 1), m1. rewrite Horder. by rewrite Hafter.
Qed.

Lemma gather_step m m1 : bytes m -> all_gather axis_len comm_axis start start len comm_type buf m m1 ->
  exists cs, Permutation cs (map copy_of (gather_moves axis_len comm_axis start start len comm_type buf)) /\ m1 = run_copies cs m /\ bytes m1.
Proof using Hcube Hrange RotationsSpec0.
  intros Hm (threads & tr & regs & Hhw & Htr & ->). destruct Hrange as [_ Hex _].
  destruct (hw_gather_threads _ _ _ _ _ _ _ _ tr regs m Hcube (type_eq comm_axis) Hex Hhw Htr Hm) as (cs & Hcs & ->).
  exists cs. split; [done|]. split; [done|]. apply run_copies_bytes; [done|].
  eapply moves_copies_wf; [|exact Hcs]. by apply gather_moves_wf.
Qed.

Lemma gather_some m : exists m1, all_gather axis_len comm_axis start start len comm_type buf m m1.
Proof using Hcube.
  destruct (first_axis axis_len comm_axis Hcube) as (y & c & ys & cs & Hl & _ & Hy & _).
  set (threads := map (thread_all_gather_rns axis_len comm_axis start start len comm_type buf thread_num) (seqZ 0 thread_num)).
  destruct (interleaves_exists threads) as [tr Htr].
  eexists. exists threads, tr, (fun _ => []). split; [|split; [exact Htr|reflexivity]]. unfold hw_all_gather_rns. rewrite Hl at 1.
  change ((8 * y :: ys).[0]) with (8 * y). by rewrite (proj2 (Z.leb_le _ _)) by lia.
Qed.

(** A call always ends. *)
Lemma gather_ends m : bytes m -> exists m', the_call m m'.
Proof using All.
  intros Hm. destruct (gather_some m) as [m1 H1]. destruct (gather_step m m1 Hm H1) as (_ & _ & _ & Hb1).
  destruct (launched_exists ranks _ heap len arguments_after' (dest_after comm_axis) (ws_nodup _ _ _ _ Hset)
    (after_programs store fuel sizeof_T heap ranks axis_len comm_axis len (start + buf) target Hcube Hset (gc_buffer _ _ _ _ _ _ _ _ Hrange)
      allocated) m1 Hb1) as [m' H2].
  exists m'. apply gather_steps. by exists m1.
Qed.

Lemma gather_call_bytes m m' X Y x : bytes m -> the_call m m' -> coordinates full X -> coordinates full Y ->
  index_on 0 full X = index_on 0 full Y -> 0 <= x < len ->
  let p := group_number full X in let q := group_number full Y in
  mram_byte m' (q / 64) (q mod 64 / 8) (q mod 8) (heap + target + index_on 1 full X * len + x) =
  mram_byte m (p / 64) (p mod 64 / 8) (p mod 8) (heap + start + x).
Proof using All.
  intros Hm Hcall HX HY Heq Hx p q. apply gather_steps in Hcall as (m1 & H1 & H2).
  destruct (split_coordinates axis_len comm_axis Hcube X HX) as (HgX & HiX & _ & HsX).
  destruct (split_coordinates axis_len comm_axis Hcube Y HY) as (HgY & HiY & _ & HsY).
  destruct (place_of store fuel ranks axis_len comm_axis Hcube Hset X HX) as (HpX1 & HpX2 & HpX3 & _ & _).
  destruct (place_of store fuel ranks axis_len comm_axis Hcube Hset Y HY) as (HpY1 & HpY2 & HpY3 & HinY & HnY).
  fold p in HpX1, HpX2, HpX3. fold q in HpY1, HpY2, HpY3, HnY. rewrite HpX1, HpX2, HpX3, HpY1, HpY2, HpY3.
  set (v := group_of X) in *. set (w := group_of Y) in *. set (ci := interface_of X) in *. set (cj := interface_of Y) in *.
  destruct (after_bytes store fuel sizeof_T heap ranks axis_len comm_axis len (start + buf) target Hcube Hset (gc_buffer _ _ _ _ _ _ _ _ Hrange)
    allocated m1 m' _ _ _ H2 HinY) as [Hafter _]. rewrite HnY in Hafter. fold w in Hafter.
  destruct (gather_step m m1 Hm H1) as (cs & Hcs & Hrun & _). destruct Hrange as [Hheap Hex _].
  pose proof (gather_bytes axis_len comm_axis start start len comm_type buf Hcube Hex cs m Hcs Hm v w) as Hexch.
  rewrite <- Hrun in Hexch. pose proof (index_on_range 1 ax v HgX) as Hiv.
  unfold dest_after in Hafter. destruct (Z.eqb_spec comm_type 0) as [Ht|Ht].
  - destruct HsX as [HX1 HX0], HsY as [HY1 HY0]. rewrite HX0, HY0 in Heq. rewrite HX1.
    assert (P = 8) as HP by (by rewrite Ht). rewrite HP in *. set (k := (cj - ci) mod 8).
    assert (0 <= k < 8) as Hk by (by apply Z.mod_pos_bound).
    assert ((8 * index_on 1 ax v + k) / 8 * 8 + (q - (8 * index_on 1 ax v + k)) mod 8 = 8 * index_on 1 ax v + ci) as Hda
      by (unfold k in *; Z.div_mod_to_equations; lia).
    assert ((ci + k) mod 8 = cj) as Hck by (unfold k; Z.div_mod_to_equations; lia).
    specialize (Hafter (8 * index_on 1 ax v + k) x ltac:(lia) Hx). rewrite Hda in Hafter. rewrite Hafter.
    specialize (Hexch ci k x HgX HgY Heq HiX Hk Hx). rewrite Hck in Hexch.
    rewrite Hheap. etrans; [|etrans; [exact Hexch|]]; f_equal; lia.
  - destruct HsX as [HX1 HX0], HsY as [HY1 HY0]. rewrite HX0, HY0 in Heq. rewrite HX1.
    assert (P = 1) as HP by (unfold nb_passes; by rewrite (proj2 (Z.eqb_neq _ _) Ht)). rewrite HP in *.
    assert (index_on 0 ax v = index_on 0 ax w /\ ci = cj) as [HI He] by lia.
    specialize (Hafter (index_on 1 ax v) x ltac:(lia) Hx). rewrite Hafter.
    specialize (Hexch ci 0 x HgX HgY ltac:(lia) HiX ltac:(lia) Hx). rewrite Z.add_0_r, (Z.mod_small ci), He in Hexch by done.
    rewrite He, Hheap. etrans; [|etrans; [exact Hexch|]]; f_equal; lia.
Qed.

Lemma gather_call_others m m' k rg ci x : bytes m -> the_call m m' -> 0 <= rg < 8 -> 0 <= ci < 8 -> fits 26 x ->
  x < heap + (start + buf) \/ heap + (start + buf) + n * len <= x -> x < heap + target \/ heap + target + n * len <= x ->
  mram_byte m' k rg ci x = mram_byte m k rg ci x.
Proof using All.
  intros Hm Hcall Hr Hc Hf HB HT. apply gather_steps in Hcall as (m1 & H1 & H2).
  destruct (gather_step m m1 Hm H1) as (cs & Hcs & Hrun & _). pose proof (gc_exchange _ _ _ _ _ _ _ _ Hrange) as Hex.
  pose proof (gc_heap _ _ _ _ _ _ _ _ Hrange) as Hheap.
  assert (mram_byte m1 k rg ci x = mram_byte m k rg ci x) as E1.
  { rewrite Hrun. apply (gather_others axis_len comm_axis start start len comm_type buf Hcube Hex cs m Hcs Hm); try done. lia. }
  destruct (decide (0 <= k < lenz ranks)) as [Hk|Hk].
  - by rewrite (proj2 (after_bytes store fuel sizeof_T heap ranks axis_len comm_axis len (start + buf) target Hcube Hset (gc_buffer _ _ _ _ _ _ _ _ Hrange)
      allocated m1 m' k rg ci H2 (conj Hk (conj Hr Hc)))), E1 by done.
  - unfold mram_byte in *. by rewrite (launched_elsewhere ranks _ _ _ _ _ H2 Hk), E1.
Qed.
End Result.

(** ** Properties *)

(** C2: an all-gather exchange of a set of whole ranks, as a hypercube of DPUs: a
    call always ends, whatever the interleavings of the tasklets of each DPU and
    of the accesses of the 32 threads of the host; every DPU Y has then at the
    target, for each DPU X that only differs from Y on the axes of the exchange,
    the block of X, at the position of X among these axes; no other byte of any
    MRAM changes, but in the buffer and at the target. *)
Theorem pidcomm_allgather_gathers `{D : DpuRuntime} `{!DpuRuntimeSpec D} `{R : Rotations} `{!RotationsSpec R}
    store fuel sizeof_T heap allocated ranks axis_len comm len start target buf m :
  let comm_axis := comm_axis_of (lenz axis_len) comm in let comm_type := comm_type_of comm_axis in
  let ax := group_axes axis_len comm_axis in let n := size_on 1 ax * nb_passes comm_type in
  hypercube axis_len comm_axis -> whole_set store fuel ranks (8 * nb_groups ax) ->
  gather_call_range sizeof_T heap len n start target buf comm_type -> bytes m ->
  let call := pidcomm_allgather store fuel sizeof_T heap allocated
    (init_hypercube_manager (DPU_SET_RANKS ranks) (lenz axis_len) axis_len) comm (n * len) start target buf in
  let dpus := zip axis_len comm_axis in
  (exists m', call m m') /\ forall m', call m m' ->
  (forall X Y x, coordinates dpus X -> coordinates dpus Y -> index_on 0 dpus X = index_on 0 dpus Y -> 0 <= x < len ->
    let p := group_number dpus X in let q := group_number dpus Y in
    mram_byte m' (q / 64) (q mod 64 / 8) (q mod 8) (heap + target + index_on 1 dpus X * len + x) =
    mram_byte m (p / 64) (p mod 64 / 8) (p mod 8) (heap + start + x)) /\
  (forall k rg ci x, 0 <= rg < 8 -> 0 <= ci < 8 -> fits 26 x ->
    (forall area, area ∈ [heap + (start + buf); heap + target] -> x < area \/ area + n * len <= x) ->
    mram_byte m' k rg ci x = mram_byte m k rg ci x).
Proof.
  intros comm_axis comm_type ax n Hcube Hset Hrange Hm call dpus. split.
  - by apply (gather_ends store fuel sizeof_T heap allocated ranks axis_len comm_axis len start target buf Hcube Hset Hrange comm eq_refl).
  - intros m' Hcall. split.
    + intros X Y x HX HY Heq Hx.
      by apply (gather_call_bytes store fuel sizeof_T heap allocated ranks axis_len comm_axis len start target buf Hcube Hset Hrange comm eq_refl).
    + intros k rg ci x Hr Hc Hf Ha.
      by apply (gather_call_others store fuel sizeof_T heap allocated ranks axis_len comm_axis len start target buf Hcube Hset Hrange comm eq_refl);
        try apply Ha; rewrite ?elem_of_cons; auto.
Qed.

Lemma sample_gather_call : gather_call_range 4 (1024 * 1024) 64 16 0 8192 4096 0.
Proof. split; [done|exact sample_gather_range|]. exact (cr_buffer _ _ _ _ _ _ _ _ sample_call_range). Qed.

Lemma pidcomm_allgather_gathers_witness : exists m',
  @pidcomm_allgather documented_runtime documented_rotations sample_store 200 4 (1024 * 1024) (fun _ => sample_args)
    (init_hypercube_manager (DPU_SET_RANKS [O; 1%nat]) 2 [16; 8]) [49; 48] 1024 0 8192 4096 sample_regions m' /\
  mram_byte m' 0 1 5 (1024 * 1024 + 8192 + 3 * 64) = mram_byte sample_regions 0 0 3 (1024 * 1024).
Proof.
  destruct (@pidcomm_allgather_gathers documented_runtime documented_runtime_spec documented_rotations documented_rotations_spec
    sample_store 200 4 (1024 * 1024) (fun _ => sample_args) [O; 1%nat] [16; 8] [49; 48] 64 0 8192 4096 sample_regions
    sample_hypercube sample_whole_set sample_gather_call sample_bytes) as [[m' Hm'] Hall].
  exists m'. split; [exact Hm'|]. destruct (Hall m' Hm') as [H _].
  exact (H [3; 0] [13; 0] 0 ltac:(repeat constructor; cbn; lia) ltac:(repeat constructor; cbn; lia) eq_refl ltac:(lia)).
Defined.

(** With fewer than 8 DPUs on all the axes, the loop goes past the arrays. *)
Lemma few_dpus_read_past_axes : num_comm_rg_unbounded [(2, 1); (2, 1)] 1 1 = None.
Proof. done. Qed.
