(* ===== verification/PidSum.v ===== *)
(** * Sums and maxima of lines

    Model of [S_SUM_RS], [RNS_SUM_RS], [S_SUM_AR] and [RNS_SUM_AR] of
    [src/hw/src/mappings/xeon_sp/pid_comm.c], which combine lines of 64 bytes as
    vectors of numbers of [size] bytes, and store the result, once or for several
    groups. In a line the bytes of the eight interfaces alternate, so that wider
    numbers are transposed before they are combined, and the result after. A
    thread that runs them is a machine of PidMachine.v; alone, it stores lines
    whose numbers are the sums modulo their width, or the maxima
    ([reduce_solo], [reduce_line_number]). *)

From stdpp Require Import relations functions.
From S2P Require Import Prelude Interleave XeonInterleave XeonSg XeonBank PidComm PidMachine.

#[local] Open Scope Z_scope.
#[local] Open Scope dpu_scope.

(** ** Vectors of numbers *)

(** The lane k of [z] bytes. *)
Definition lane (z : Z) (v : list Z) (k : Z) : list Z := map (fun b => v.[z * k + b]) (seqZ 0 z).
Definition map_lanes (z : Z) (f : Z -> Z -> Z) (a b : list Z) : list Z :=
  concat (map (fun k => le_bytes (Z.to_nat z) (f (le_word (lane z a k)) (le_word (lane z b k)))) (seqZ 0 (64 / z))).
(** The number of [w] bits read in two's complement. *)
Definition signed (w x : Z) : Z := if x <? 2 ^ (w - 1) then x else x - 2 ^ w.
Definition signed_max (w x y : Z) : Z := if signed w x <? signed w y then y else x.

Class Combinations := {
  mm512_add_epi8 : list Z -> list Z -> list Z;
  mm512_add_epi16 : list Z -> list Z -> list Z;
  mm512_add_epi32 : list Z -> list Z -> list Z;
  mm512_add_epi64 : list Z -> list Z -> list Z;
  mm512_max_epi8 : list Z -> list Z -> list Z;
  mm512_max_epi16 : list Z -> list Z -> list Z;
  mm512_max_epi32 : list Z -> list Z -> list Z;
  mm512_max_epi64 : list Z -> list Z -> list Z;
  mm512_or_epi64 : list Z -> list Z -> list Z;
}.
(** The carries out of the lanes are lost; the maxima are those of signed numbers. *)
Class CombinationsSpec (V : Combinations) : Prop := {
  add_epi8_spec a b : vec512 a -> vec512 b -> mm512_add_epi8 a b = map_lanes 1 Z.add a b;
  add_epi16_spec a b : vec512 a -> vec512 b -> mm512_add_epi16 a b = map_lanes 2 Z.add a b;
  add_epi32_spec a b : vec512 a -> vec512 b -> mm512_add_epi32 a b = map_lanes 4 Z.add a b;
  add_epi64_spec a b : vec512 a -> vec512 b -> mm512_add_epi64 a b = map_lanes 8 Z.add a b;
  max_epi8_spec a b : vec512 a -> vec512 b -> mm512_max_epi8 a b = map_lanes 1 (signed_max 8) a b;
  max_epi16_spec a b : vec512 a -> vec512 b -> mm512_max_epi16 a b = map_lanes 2 (signed_max 16) a b;
  max_epi32_spec a b : vec512 a -> vec512 b -> mm512_max_epi32 a b = map_lanes 4 (signed_max 32) a b;
  max_epi64_spec a b : vec512 a -> vec512 b -> mm512_max_epi64 a b = map_lanes 8 (signed_max 64) a b;
  or_epi64_spec a b : vec512 a -> vec512 b -> mm512_or_epi64 a b = map_lanes 8 Z.lor a b;
}.
Definition documented_combinations : Combinations := {|
  mm512_add_epi8 := map_lanes 1 Z.add; mm512_add_epi16 := map_lanes 2 Z.add;
  mm512_add_epi32 := map_lanes 4 Z.add; mm512_add_epi64 := map_lanes 8 Z.add;
  mm512_max_epi8 := map_lanes 1 (signed_max 8); mm512_max_epi16 := map_lanes 2 (signed_max 16);
  mm512_max_epi32 := map_lanes 4 (signed_max 32); mm512_max_epi64 := map_lanes 8 (signed_max 64);
  mm512_or_epi64 := map_lanes 8 Z.lor;
|}.
#[export] Instance documented_combinations_spec : CombinationsSpec documented_combinations.
Proof. split; done. Qed.

(** ** The instructions of a thread *)

(** On its registers [reg1] to [reg8], with [sum] the register 0: a load, a
    rotation, the three instructions of the transposition, a combination with the
    sum, and a store of the sum. *)
Inductive instruction :=
  | Clear_sum
  | Load_reg (reg : Z) (line : Z * Z)
  | Rol_reg (reg rotate_bit : Z)
  | Transpose_reg (reg : Z)
  | Add_reg (size reg : Z)
  | Max_reg (size reg : Z)
  | Or_reg (reg : Z)
  | Store_sum (line : Z * Z).
Definition sum_reg := 0.

Section Instructions.
Context `{R : Rotations} `{I : Intrinsics} `{V : Combinations}.

Definition transpose (reg : list Z) : list Z :=
  let mask := mm_set_epi64 [0x0f0b07030e0a0602; 0x0d0905010c080400;
                            0x0f0b07030e0a0602; 0x0d0905010c080400;
                            0x0f0b07030e0a0602; 0x0d0905010c080400;
                            0x0f0b07030e0a0602; 0x0d0905010c080400] in
  let vindex := mm_setr_epi32 [0; 2; 4; 6; 8; 10; 12; 14; 1; 3; 5; 7; 9; 11; 13; 15] in
  let perm := mm_setr_epi32 [0; 4; 1; 5; 2; 6; 3; 7; 8; 12; 9; 13; 10; 14; 11; 15] in
  mm512_permutexvar_epi32 perm (mm_shuffle_epi8 (mm512_permutexvar_epi32 vindex reg) mask).
Definition mm512_add (size : Z) : list Z -> list Z -> list Z :=
  if size =? 1 then mm512_add_epi8 else if size =? 2 then mm512_add_epi16 else if size =? 4 then mm512_add_epi32 else mm512_add_epi64.
Definition mm512_max (size : Z) : list Z -> list Z -> list Z :=
  if size =? 1 then mm512_max_epi8 else if size =? 2 then mm512_max_epi16 else if size =? 4 then mm512_max_epi32 else mm512_max_epi64.
Definition sum_cleared : list Z := mm_set_epi64 [0; 0; 0; 0; 0; 0; 0; 0].

Definition set_reg (r : Z) (v : list Z) (regs : Z -> list Z) : Z -> list Z := fun r' => if r' =? r then v else regs r'.
Definition sum_machine : machine (Z -> list Z) instruction := {|
  reads a := match a with Load_reg _ l => Some l | _ => None end;
  update a line regs :=
    match a with
    | Clear_sum => set_reg sum_reg sum_cleared regs
    | Load_reg r _ => set_reg r line regs
    | Rol_reg r b => set_reg r (mm512_rol_epi64 (regs r) b) regs
    | Transpose_reg r => set_reg r (transpose (regs r)) regs
    | Add_reg size r => set_reg sum_reg (mm512_add size (regs sum_reg) (regs r)) regs
    | Max_reg size r => set_reg sum_reg (mm512_max size (regs sum_reg) (regs r)) regs
    | Or_reg r => set_reg sum_reg (mm512_or_epi64 (regs sum_reg) (regs r)) regs
    | Store_sum _ => regs
    end;
  writes a regs := match a with Store_sum l => Some (l, regs sum_reg) | _ => None end;
|}.
End Instructions.

Definition transposed (size r : Z) : list instruction := if size =? 1 then [] else [Transpose_reg r].

(** The turn i of the loop over the sources, and the macros. *)
Definition S_SUM_turn (src : list (Z * Z)) (size i : Z) : list instruction :=
  Load_reg 1 src.[i] :: transposed size 1 ++ [Add_reg size 1].
Definition S_SUM_RS (iter : Z) (src : list (Z * Z)) (dst : Z * Z) (num_iter_src size : Z) : list instruction :=
  Clear_sum :: concat (map (fun _ => concat (map (S_SUM_turn src size) (seqZ 0 num_iter_src)) ++ transposed size sum_reg ++ [Store_sum dst]) (seqZ 0 iter)).

Definition RNS_SUM_turn (src : list (Z * Z)) (size i : Z) : list instruction :=
  concat (map (fun k => Load_reg (k + 1) src.[8 * i + k] :: Rol_reg (k + 1) (8 * k) :: transposed size (k + 1)) (seqZ 0 8)) ++
  map (fun k => Add_reg size (k + 1)) (seqZ 0 8).
Definition RNS_SUM_RS (iter : Z) (src : list (Z * Z)) (dst : Z * Z) (num_iter_src size : Z) : list instruction :=
  Clear_sum :: concat (map (fun _ => concat (map (RNS_SUM_turn src size) (seqZ 0 num_iter_src)) ++ transposed size sum_reg ++ [Store_sum dst]) (seqZ 0 iter)).

(** The sum or the maximum, stored for every group. *)
Definition combine_reg (reduce_type size r : Z) : list instruction :=
  if reduce_type =? 0 then [Add_reg size r] else if reduce_type =? 1 then [Max_reg size r] else [].
Definition S_SUM_AR_turn (src : list (Z * Z)) (size reduce_type i : Z) : list instruction :=
  Load_reg 1 src.[i] :: transposed size 1 ++ combine_reg reduce_type size 1.
Definition S_SUM_AR (iter : Z) (src dst : list (Z * Z)) (num_iter_src size reduce_type : Z) : list instruction :=
  Clear_sum :: concat (map (fun _ => concat (map (S_SUM_AR_turn src size reduce_type) (seqZ 0 num_iter_src)) ++ transposed size sum_reg ++
    map (fun i => Store_sum dst.[i]) (seqZ 0 num_iter_src)) (seqZ 0 iter)).

(** Here a [size] of 0 asks for the union of the bits, without a transposition. *)
Definition RNS_SUM_AR_turn (src : list (Z * Z)) (size reduce_type i : Z) : list instruction :=
  concat (map (fun k => Load_reg (k + 1) src.[8 * i + k] :: Rol_reg (k + 1) (8 * k) :: if size =? 0 then [] else transposed size (k + 1)) (seqZ 0 8)) ++
  concat (map (fun k => if size =? 0 then [Or_reg (k + 1)] else combine_reg reduce_type size (k + 1)) (seqZ 0 8)).
Definition RNS_SUM_AR_stores (dst : list (Z * Z)) (num_iter_src : Z) : list instruction :=
  Rol_reg sum_reg 8 ::
  concat (map (fun i => concat (map (fun k => [Rol_reg sum_reg 56; Store_sum dst.[8 * i + k]]) (seqZ 0 8))) (seqZ 0 num_iter_src)).
Definition RNS_SUM_AR (iter : Z) (src dst : list (Z * Z)) (num_iter_src size reduce_type : Z) : list instruction :=
  Clear_sum :: concat (map (fun _ => concat (map (RNS_SUM_AR_turn src size reduce_type) (seqZ 0 num_iter_src)) ++
    (if size =? 0 then [] else transposed size sum_reg) ++ RNS_SUM_AR_stores dst num_iter_src) (seqZ 0 iter)).

(** ** What they store *)

(** The bytes of the lanes: the size 8 stands for the other ones. *)
Definition lane_bytes (size : Z) : Z := if size =? 1 then 1 else if size =? 2 then 2 else if size =? 4 then 4 else 8.
(** The number l of interface [ci_id] in a line. *)
Definition line_number (z : Z) (line : list Z) (ci_id l : Z) : Z := le_word (map (fun b => line.[8 * (z * l + b) + ci_id]) (seqZ 0 z)).
Definition sumZ (l : list Z) : Z := foldr Z.add 0 l.
(** The sum of numbers of [z] bytes modulo their width, or the greatest of zero
    and of the signed numbers; zero for another [reduce_type]. *)
Definition reduction (reduce_type z : Z) (numbers : list Z) : Z :=
  if reduce_type =? 0 then sumZ numbers mod 2 ^ (8 * z)
  else if reduce_type =? 1 then foldr Z.max 0 (map (signed (8 * z)) numbers)
  else 0.

Section Sum.
Context `{R : Rotations} `{I : Intrinsics} `{V : Combinations}.
Definition turned (size : Z) (reg : list Z) : list Z := if size =? 1 then reg else transpose reg.
Definition combine (reduce_type size : Z) : list Z -> list Z -> list Z :=
  if reduce_type =? 0 then mm512_add size else if reduce_type =? 1 then mm512_max size else fun sum _ => sum.
(** The combination of lines, each rotated. *)
Definition reduce_line (reduce_type size : Z) (m : regions) (sources : list ((Z * Z) * rns)) : list Z :=
  turned size (foldl (combine reduce_type size) sum_cleared (map (fun s => turned size (rns_line s.2 (line_at m s.1))) sources)).
End Sum.

(** *** Lanes *)

Lemma lane_bytes_cases size : lane_bytes size = 1 /\ size = 1 \/ size <> 1 /\ (lane_bytes size = 2 \/ lane_bytes size = 4 \/ lane_bytes size = 8).
Proof.
  unfold lane_bytes. destruct (Z.eqb_spec size 1); [auto|]. right. split; [done|].
  destruct (Z.eqb_spec size 2); [auto|]. destruct (Z.eqb_spec size 4); auto.
Qed.

Lemma chunk_get {X} `{Inhabited X} (f : Z -> list X) z n k b : 0 <= n -> (forall i, lenz (f i) = z) -> 0 <= k < n -> 0 <= b < z ->
  (concat (map f (seqZ 0 n))).[z * k + b] = (f k).[b] /\ lenz (concat (map f (seqZ 0 n))) = z * n.
Proof.
  intros Hn Hf. revert k. pattern n. apply natlike_ind; [lia| |done]. clear n Hn. intros n Hn IH k Hk Hb.
  assert (lenz (concat (map f (seqZ 0 n))) = z * n) as Hlen.
  { destruct (decide (n = 0)) as [->|]; [rewrite Z.mul_0_r; done|]. by apply (IH 0); [lia|]. }
  replace (Z.succ n) with (n + 1) by lia. rewrite seqZ_app, seqZ_1 by lia. rewrite map_app, concat_app, Z.add_0_l.
  cbn [map concat]. rewrite app_nil_r, lenz_app, Hlen, Hf. split; [|lia]. destruct (decide (k = n)) as [->|].
  - rewrite getz_app_r by lia. rewrite Hlen. f_equal. lia.
  - rewrite getz_app_l by nia. apply IH; lia.
Qed.

Lemma lane_vec z v k : lenz (lane z v k) = Z.max 0 z.
Proof. unfold lane, lenz. rewrite length_map, length_seqZ. lia. Qed.

Lemma lane_width size : 0 < lane_bytes size /\ lane_bytes size * (64 / lane_bytes size) = 64 /\
  lane_bytes size * (8 / lane_bytes size) = 8 /\ 0 < 8 / lane_bytes size /\ 64 / lane_bytes size = 8 * (8 / lane_bytes size).
Proof. destruct (lane_bytes_cases size) as [[-> _]|[_ [-> |[-> | ->]]]]; done. Qed.

Lemma map_lanes_spec size f a b k : let z := lane_bytes size in
  vec512 (map_lanes z f a b) /\ Forall (fits 8) (map_lanes z f a b) /\
  (0 <= k < 64 / z -> le_word (lane z (map_lanes z f a b) k) = f (le_word (lane z a k)) (le_word (lane z b k)) mod 2 ^ (8 * z)).
Proof.
  intros z. destruct (lane_width size) as (Hz & H64 & _). fold z in Hz, H64. unfold map_lanes.
  set (g := fun k => le_bytes (Z.to_nat z) (f (le_word (lane z a k)) (le_word (lane z b k)))).
  assert (0 <= 64 / z) as Hn by nia.
  assert (forall i, lenz (g i) = z) as Hf by (intros i; unfold g; rewrite lenz_le_bytes; lia).
  split; [|split].
  - destruct (chunk_get g z (64 / z) 0 0 Hn Hf ltac:(nia) ltac:(lia)) as [_ Hlen]. unfold vec512, lenz in *. lia.
  - apply Forall_concat, Forall_map, Forall_forall. intros i _. apply le_bytes_fits.
  - intros Hk. replace (2 ^ (8 * z)) with (2 ^ (8 * Z.of_nat (Z.to_nat z))) by (rewrite Z2Nat.id by lia; done).
    rewrite <- le_word_bytes. fold (g k). f_equal. apply list_eq_lenz; [rewrite lane_vec, Hf; lia|]. intros b' Hb'. rewrite lane_vec in Hb'.
    unfold lane. rewrite lookup_map_seqZ by lia. by apply (chunk_get g z (64 / z)); [|done| |lia].
Qed.

(** Registers of 64 bytes. *)
Definition shaped (v : list Z) : Prop := vec512 v /\ Forall (fits 8) v.

Lemma bytes_number_fits z f : 0 <= z -> (forall b, 0 <= b < z -> fits 8 (f b)) -> fits (8 * z) (le_word (map f (seqZ 0 z))).
Proof.
  intros Hz Hf. replace (8 * z) with (8 * lenz (map f (seqZ 0 z))) by (rewrite lenz_map_seqZ; lia). apply le_word_fits, Forall_map, Forall_forall.
  intros b Hb%list_elem_of_In%elem_of_seqZ. apply Hf. lia.
Qed.
Lemma shaped_byte v i : shaped v -> 0 <= i < 64 -> fits 8 v.[i].
Proof.
  intros [Hv Hf] Hi. rewrite list_relations.list.Forall_forall in Hf. apply Hf. unfold getz. apply list_elem_of_lookup_total_2. unfold vec512 in Hv. lia.
Qed.
Lemma lane_fits size v k : let z := lane_bytes size in shaped v -> 0 <= k < 64 / z -> fits (8 * z) (le_word (lane z v k)).
Proof.
  intros z Hv Hk. destruct (lane_width size) as (Hz & H64 & _). fold z in Hz, H64. apply bytes_number_fits; [lia|].
  intros b Hb. apply shaped_byte; [done|nia].
Qed.

Section Vectors.
Context `{R : Rotations} `{!RotationsSpec R} `{I : Intrinsics} `{!IntrinsicsSpec I} `{V : Combinations} `{!CombinationsSpec V}.

Lemma add_spec size a b : vec512 a -> vec512 b -> mm512_add size a b = map_lanes (lane_bytes size) Z.add a b.
Proof using CombinationsSpec0.
  intros Ha Hb. unfold mm512_add, lane_bytes. destruct (size =? 1); [by apply add_epi8_spec|].
  destruct (size =? 2); [by apply add_epi16_spec|]. destruct (size =? 4); [by apply add_epi32_spec|by apply add_epi64_spec].
Qed.

Lemma max_spec size a b : vec512 a -> vec512 b -> mm512_max size a b = map_lanes (lane_bytes size) (signed_max (8 * lane_bytes size)) a b.
Proof using CombinationsSpec0.
  intros Ha Hb. unfold mm512_max, lane_bytes. destruct (size =? 1); [by apply max_epi8_spec|].
  destruct (size =? 2); [by apply max_epi16_spec|]. destruct (size =? 4); [by apply max_epi32_spec|by apply max_epi64_spec].
Qed.

(** What a combination does to each number. *)
Definition combine_number (reduce_type z x y : Z) : Z :=
  if reduce_type =? 0 then (x + y) mod 2 ^ (8 * z) else if reduce_type =? 1 then signed_max (8 * z) x y else x.
Lemma combine_lanes reduce_type size a b k : let z := lane_bytes size in shaped a -> shaped b ->
  shaped (combine reduce_type size a b) /\ (0 <= k < 64 / z ->
    le_word (lane z (combine reduce_type size a b) k) = combine_number reduce_type z (le_word (lane z a k)) (le_word (lane z b k))).
Proof using CombinationsSpec0.
  cbv zeta. intros Ha Hb. pose proof (proj1 Ha) as Ha1. pose proof (proj1 Hb) as Hb1. unfold combine, combine_number, shaped.
  destruct (reduce_type =? 0); [|destruct (reduce_type =? 1); [|done]].
  - rewrite add_spec by done. by destruct (map_lanes_spec size Z.add a b k) as (H1 & H2 & H3).
  - rewrite max_spec by done. destruct (map_lanes_spec size (signed_max (8 * lane_bytes size)) a b k) as (H1 & H2 & H3).
    split; [done|]. intros Hk. rewrite (H3 Hk). apply Z.mod_small.
    pose proof (lane_fits size a k Ha Hk). pose proof (lane_fits size b k Hb Hk). unfold signed_max, fits in *. destruct (_ <? _); done.
Qed.

Lemma transpose_interleave line : vec512 line -> transpose line = byte_interleave line.
Proof using IntrinsicsSpec0.
  intros H. unfold vec512 in H. split64 line H. unfold transpose. cbv zeta. run_constants. repeat run_lane. reflexivity.
Qed.

Lemma cleared_zero : sum_cleared = replicate 64 0.
Proof using IntrinsicsSpec0. unfold sum_cleared. by run_constants. Qed.

Lemma turned_vec size line : vec512 line -> vec512 (turned size line).
Proof using IntrinsicsSpec0. intros H. unfold turned. destruct (size =? 1); [done|]. rewrite transpose_interleave by done. apply length_byte_interleave. Qed.

(** The number l of interface [ci_id] is a lane of the transposed line. *)
Lemma turned_lane size ci_id l : let z := lane_bytes size in 0 <= ci_id < 8 -> 0 <= l < 8 / z ->
  exists k, 0 <= k < 64 / z /\ forall v, vec512 v -> (lane z (turned size v) k = map (fun b => v.[8 * (z * l + b) + ci_id]) (seqZ 0 z)) /\
    map (fun b => (turned size v).[8 * (z * l + b) + ci_id]) (seqZ 0 z) = lane z v k.
Proof using IntrinsicsSpec0.
  intros z Hc Hl. destruct (lane_width size) as (Hz & H64 & H8 & Hp & Hq). fold z in Hz, H64, H8, Hp, Hq.
  destruct (lane_bytes_cases size) as [[E ->]|[Hne _]].
  - unfold z in *. rewrite E in *. exists (8 * l + ci_id). change (8 / 1) with 8 in Hl. change (64 / 1) with 64. split; [lia|]. intros v Hv. unfold lane, turned.
    change (1 =? 1) with true. cbn iota. change (seqZ 0 1) with [0]. cbn [map]. split; do 2 f_equal; lia.
  - exists (8 / z * ci_id + l). split; [rewrite Hq; nia|]. intros v Hv. unfold turned. rewrite (proj2 (Z.eqb_neq _ _) Hne).
    rewrite transpose_interleave by done. unfold lane.
    split; apply map_ext_in; intros b Hb%list_elem_of_In%elem_of_seqZ;
      replace (z * (8 / z * ci_id + l) + b) with (8 * ci_id + (z * l + b)) by (transitivity (z * (8 / z) * ci_id + (z * l + b)); [rewrite H8|]; ring);
      by apply byte_interleave_get; nia.
Qed.
End Vectors.

(** *** Sums and maxima *)

Lemma sumZ_app l1 l2 : sumZ (l1 ++ l2) = sumZ l1 + sumZ l2.
Proof. unfold sumZ. induction l1 as [|x l1 IH]; [done|]. cbn [app foldr]. rewrite IH. lia. Qed.

Lemma signed_zero w : 0 < w -> signed w 0 = 0.
Proof. intros Hw. unfold signed. rewrite (proj2 (Z.ltb_lt _ _)); [done|]. apply Z.pow_pos_nonneg; lia. Qed.

(** A maximum starts from a number that is not negative, and stays so. *)
Lemma signed_max_from w x l : 0 < w -> Forall (fits w) l -> 0 <= x < 2 ^ (w - 1) ->
  foldl (signed_max w) x l = Z.max x (foldr Z.max 0 (map (signed w) l)).
Proof.
  intros Hw Hl. assert (2 ^ w = 2 * 2 ^ (w - 1)) as Hp by (rewrite <- Z.pow_succ_r by lia; f_equal; lia).
  revert x. induction Hl as [|y l Hy _ IH]; intros x Hx; [cbn; lia|]. cbn [foldl map foldr].
  assert (0 <= signed_max w x y < 2 ^ (w - 1) /\ signed_max w x y = Z.max x (signed w y)) as [H1 H2].
  { clear IH. unfold signed_max. assert (signed w x = x) as -> by (unfold signed; by rewrite (proj2 (Z.ltb_lt _ _)) by lia).
    assert (signed w y = y /\ y < 2 ^ (w - 1) \/ signed w y = y - 2 ^ w) as Hs
      by (unfold signed; destruct (Z.ltb_spec y (2 ^ (w - 1))); auto).
    unfold fits in Hy. destruct (Z.ltb_spec x (signed w y)); lia. }
  rewrite IH by done. lia.
Qed.

Lemma reduction_steps reduce_type z l : 0 < z -> Forall (fits (8 * z)) l ->
  foldl (combine_number reduce_type z) 0 l = reduction reduce_type z l.
Proof.
  intros Hz Hl. unfold combine_number, reduction. destruct (reduce_type =? 0); [|destruct (reduce_type =? 1)].
  - enough (forall x, foldl (fun x y => (x + y) mod 2 ^ (8 * z)) (x mod 2 ^ (8 * z)) l = (x + sumZ l) mod 2 ^ (8 * z)) as H
      by (specialize (H 0); by rewrite Z.mod_0_l in H by (apply Z.pow_nonzero; lia)).
    clear Hl. induction l as [|y l IH]; intros x; [by rewrite Z.add_0_r|]. cbn [foldl sumZ foldr].
    rewrite Zplus_mod_idemp_l, IH. f_equal. fold (sumZ l). lia.
  - rewrite signed_max_from; [|lia|done|split; [done|apply Z.pow_pos_nonneg; lia]].
    apply Z.max_r. clear Hl. induction l as [|y l IH]; [done|]. cbn [map foldr]. lia.
  - clear Hl. induction l; done.
Qed.

Section Numbers.
Context `{R : Rotations} `{!RotationsSpec R} `{I : Intrinsics} `{!IntrinsicsSpec I} `{V : Combinations} `{!CombinationsSpec V}.
Variables reduce_type size : Z.
Notation z := (lane_bytes size).

Lemma combined_lanes k terms s : Forall shaped terms -> shaped s -> 0 <= k < 64 / z ->
  shaped (foldl (combine reduce_type size) s terms) /\
  le_word (lane z (foldl (combine reduce_type size) s terms) k) =
    foldl (combine_number reduce_type z) (le_word (lane z s k)) (map (fun v => le_word (lane z v k)) terms).
Proof using CombinationsSpec0.
  intros Hall Hs Hk. revert s Hs. induction Hall as [|v terms Hv _ IH]; intros s Hs; [done|].
  cbn [foldl map]. destruct (combine_lanes reduce_type size s v k Hs Hv) as [Hc <-]; [|done]. by apply IH.
Qed.

Lemma turned_shape v : shaped v -> shaped (turned size v).
Proof using IntrinsicsSpec0.
  intros [Hv Hf]. split; [by apply turned_vec|]. unfold turned. destruct (size =? 1); [done|]. rewrite transpose_interleave by done.
  unfold vec512 in Hv. revert Hf. generalize (fits 8). intros Q Hf. split64 v Hv. vm_compute. repeat (apply list_relations.list.Forall_cons in Hf as [? Hf]). by repeat constructor.
Qed.

Lemma rol_shape v k : shaped v -> 0 <= k -> shaped (mm512_rol_epi64 v (8 * k)).
Proof using RotationsSpec0.
  intros [Hv Hf] Hk. split.
  - pose proof (length_rol v k Hv Hf Hk) as H. unfold vec512. unfold lenz in H. lia.
  - rewrite rol_epi64_spec by (done || lia). apply Forall_concat, Forall_map, Forall_forall. intros p _. apply le_bytes_fits.
Qed.

Lemma rol_number v k ci_id l : shaped v -> 0 <= k < 8 -> 0 <= ci_id < 8 -> 0 <= l < 8 / z ->
  line_number z (mm512_rol_epi64 v (8 * k)) ci_id l = line_number z v ((ci_id - k) mod 8) l.
Proof using RotationsSpec0.
  intros [Hv Hf] Hk Hc Hl. destruct (lane_width size) as (Hz & _ & H8 & _). unfold line_number. f_equal.
  apply map_ext_in. intros b Hb%list_elem_of_In%elem_of_seqZ. apply rol_line; try done. nia.
Qed.

Lemma rns_line_shape k line : shaped line -> byte_rotation k -> shaped (rns_line k line).
Proof using RotationsSpec0.
  intros Hl. destruct k as [b|]; [|done]. intros [Hb H0]. cbn [rns_line].
  replace b with (8 * (b / 8)) by (Z.div_mod_to_equations; lia). apply rol_shape; [done|Z.div_mod_to_equations; lia].
Qed.

Lemma rns_line_number k line ci_id l : shaped line -> byte_rotation k -> 0 <= ci_id < 8 -> 0 <= l < 8 / z ->
  line_number z (rns_line k line) ci_id l = line_number z line ((ci_id - shift k) mod 8) l.
Proof using RotationsSpec0.
  intros Hl Hk Hc Hlz. destruct k as [b|]; cbn [rns_line shift].
  - destruct Hk as [Hb H0]. replace b with (8 * (b / 8)) at 1 by (Z.div_mod_to_equations; lia).
    apply rol_number; try done. Z.div_mod_to_equations; lia.
  - by rewrite Z.sub_0_r, Z.mod_small.
Qed.

Lemma line_number_fits v ci_id l : shaped v -> 0 <= ci_id < 8 -> 0 <= l < 8 / z -> fits (8 * z) (line_number z v ci_id l).
Proof using Type.
  intros Hv Hc Hl. destruct (lane_width size) as (Hz & _ & H8 & _). apply bytes_number_fits; [lia|]. intros b Hb. apply shaped_byte; [done|nia].
Qed.

Variable m : regions.
Hypothesis Hm : bytes m.

Notation term s := (turned size (rns_line (snd s) (line_at m (fst s)))).
Lemma terms_shape (sources : list ((Z * Z) * rns)) : Forall (fun s => byte_rotation s.2) sources -> Forall shaped (map (fun s => term s) sources).
Proof using RotationsSpec0 IntrinsicsSpec0 Hm.
  intros Hs. apply Forall_map. eapply list_relations.list.Forall_impl; [exact Hs|]. intros s Hb.
  apply turned_shape, rns_line_shape; [exact (line_shape m s.1 Hm)|done].
Qed.

Lemma cleared_shape : shaped sum_cleared.
Proof using IntrinsicsSpec0. clear Hm. rewrite cleared_zero. split; [done|by apply Forall_replicate]. Qed.

Lemma reduce_line_shape sources : Forall (fun s => byte_rotation s.2) sources -> shaped (reduce_line reduce_type size m sources).
Proof using All.
  intros Hs. destruct (lane_width size) as (Hz & H64 & _). apply turned_shape.
  apply (combined_lanes 0); [by apply terms_shape|apply cleared_shape|nia].
Qed.

(** A number of the combination of lines is the combination of their numbers. *)
Lemma reduce_line_number sources ci_id l : Forall (fun s => byte_rotation s.2) sources -> 0 <= ci_id < 8 -> 0 <= l < 8 / z ->
  line_number z (reduce_line reduce_type size m sources) ci_id l =
  reduction reduce_type z (map (fun s => line_number z (line_at m s.1) ((ci_id - shift s.2) mod 8) l) sources).
Proof using All.
  intros Hs Hc Hl. destruct (turned_lane size ci_id l Hc Hl) as (k & Hk & Hturn). destruct (lane_width size) as (Hz & H64 & _).
  assert (le_word (lane z sum_cleared k) = 0) as H0.
  { rewrite cleared_zero. unfold lane. rewrite (map_ext_in _ (fun _ => 0)).
    - clear. induction (seqZ 0 z) as [|b bs IH]; [done|]. cbn [map le_word]. by rewrite IH.
    - intros b Hb%list_elem_of_In%elem_of_seqZ. unfold getz. apply lookup_total_replicate_2. nia. }
  destruct (combined_lanes k _ _ (terms_shape sources Hs) cleared_shape Hk) as [Hsum Hval].
  unfold line_number at 1, reduce_line. rewrite (proj2 (Hturn _ (proj1 Hsum))), Hval, H0, map_map.
  rewrite <- reduction_steps; [|done|].
  - f_equal. apply map_ext_in. intros s Hin%list_elem_of_In. rewrite list_relations.list.Forall_forall in Hs. specialize (Hs s Hin).
    rewrite (proj1 (Hturn _ (proj1 (rns_line_shape _ _ (line_shape m s.1 Hm) Hs)))).
    by apply (rns_line_number s.2 (line_at m s.1) ci_id l); [exact (line_shape m s.1 Hm)|..].
  - apply Forall_map, Forall_forall. intros s _. apply line_number_fits; [exact (line_shape m s.1 Hm)|by apply Z.mod_pos_bound|done].
Qed.

(** *** What the macros store *)

Definition s_sources (src : list (Z * Z)) (num_iter_src : Z) : list ((Z * Z) * rns) :=
  map (fun i => (src.[i], Straight)) (seqZ 0 num_iter_src).
Definition rns_sources (src : list (Z * Z)) (num_iter_src : Z) : list ((Z * Z) * rns) :=
  concat (map (fun i => map (fun k => (src.[8 * i + k], Rotate (8 * k))) (seqZ 0 8)) (seqZ 0 num_iter_src)).

Notation executed regs l := (foldl (fun regs a => update sum_machine a (read_line sum_machine m a) regs) regs l).
Notation summed sum sources := (foldl (combine reduce_type size) sum (map (fun s => term s) sources)).

Lemma turns_executed (turn : Z -> list instruction) (sources : Z -> list ((Z * Z) * rns)) l :
  (forall i regs, executed regs (turn i) sum_reg = summed (regs sum_reg) (sources i) /\ solo sum_machine m regs (turn i) = []) ->
  forall regs, executed regs (concat (map turn l)) sum_reg = summed (regs sum_reg) (concat (map sources l)) /\
    solo sum_machine m regs (concat (map turn l)) = [].
Proof using Type.
  intros H. induction l as [|i l IH]; intros regs; [done|]. cbn [map concat]. rewrite foldl_app, solo_app, map_app, foldl_app.
  destruct (H i regs) as [<- ->]. by apply IH.
Qed.

(** Turns that combine the sources, then stores of the result. *)
Lemma reduce_solo (turn : Z -> list instruction) (sources : Z -> list ((Z * Z) * rns)) stores (h : list Z -> list line_write) num :
  (forall i regs, executed regs (turn i) sum_reg = summed (regs sum_reg) (sources i) /\ solo sum_machine m regs (turn i) = []) ->
  (forall regs, solo sum_machine m regs stores = h (regs sum_reg)) ->
  forall regs, solo sum_machine m regs (Clear_sum :: concat (map (fun _ => concat (map turn (seqZ 0 num)) ++ transposed size sum_reg ++ stores) (seqZ 0 1))) =
    h (reduce_line reduce_type size m (concat (map sources (seqZ 0 num)))).
Proof using Type.
  intros H Hst regs. cbn [solo writes sum_machine option_list app]. rewrite seqZ_1. cbn [map concat]. rewrite app_nil_r, solo_app.
  set (regs0 := update _ _ _ _). destruct (turns_executed turn sources (seqZ 0 num) H regs0) as [E ->]. cbn [app].
  set (regs1 := foldl _ regs0 _) in *. rewrite solo_app, Hst. unfold reduce_line, transposed, turned at 1.
  destruct (size =? 1); cbn; rewrite E; reflexivity.
Qed.

Lemma s_sources_concat src num : s_sources src num = concat (map (fun i => [(src.[i], Straight)]) (seqZ 0 num)).
Proof using Type. clear. unfold s_sources. induction (seqZ 0 num) as [|i l IH]; [done|]. cbn [map concat app]. by rewrite IH. Qed.

Lemma S_SUM_AR_solo src dst num regs :
  solo sum_machine m regs (S_SUM_AR 1 src dst num size reduce_type) =
  map (fun i => (dst.[i], reduce_line reduce_type size m (s_sources src num))) (seqZ 0 num).
Proof using Type.
  rewrite s_sources_concat. apply (reduce_solo _ (fun i => [(src.[i], Straight)]) _ (fun v => map (fun i => (dst.[i], v)) (seqZ 0 num))).
  - intros i r. unfold S_SUM_AR_turn, transposed, turned, combine_reg, combine.
    destruct (reduce_type =? 0); [|destruct (reduce_type =? 1)]; destruct (size =? 1); done.
  - clear. intros r. induction (seqZ 0 num) as [|i l IH]; [done|]. cbn [map solo]. by rewrite <- IH.
Qed.

(** The result of the t-th store, turned back by one more byte each time. *)
Definition rolled (v : list Z) (t : Z) : list Z :=
  Nat.iter (Z.to_nat (t + 1)) (fun v => mm512_rol_epi64 v (8 * 7)) (mm512_rol_epi64 v (8 * 1)).

Lemma rolled_number v t : shaped v -> 0 <= t -> shaped (rolled v t) /\
  forall ci_id l, 0 <= ci_id < 8 -> 0 <= l < 8 / z -> line_number z (rolled v t) ci_id l = line_number z v ((ci_id + t) mod 8) l.
Proof using RotationsSpec0.
  intros Hv Ht. unfold rolled. set (iterated n := Nat.iter n (fun v => mm512_rol_epi64 v (8 * 7)) (mm512_rol_epi64 v (8 * 1))).
  assert (forall n, shaped (iterated n) /\ forall ci_id l, 0 <= ci_id < 8 -> 0 <= l < 8 / z ->
    line_number z (iterated n) ci_id l = line_number z v ((ci_id - 1 - 7 * Z.of_nat n) mod 8) l) as H.
  { induction n as [|n [IH1 IH2]]; unfold iterated in *; cbn [Nat.iter nat_rect].
    - split; [by apply rol_shape|]. intros ci l Hc Hl. rewrite rol_number by done. do 2 f_equal. lia.
    - split; [by apply rol_shape|]. intros ci l Hc Hl. rewrite rol_number by done. rewrite IH2 by (done || by apply Z.mod_pos_bound).
      f_equal. rewrite <- !Z.sub_add_distr, Zminus_mod_idemp_l. f_equal. lia. }
  destruct (H (Z.to_nat (t + 1))) as [H1 H2]. split; [exact H1|]. intros ci l Hc Hl. etrans; [by apply H2|]. f_equal.
  rewrite Z2Nat.id by lia. replace (ci - 1 - 7 * (t + 1)) with (ci + t + (- t - 1) * 8) by lia. by apply Z.mod_add.
Qed.

Lemma RNS_stores_solo dst num regs : 0 <= num -> solo sum_machine m regs (RNS_SUM_AR_stores dst num) =
  map (fun t => (dst.[t], rolled (regs sum_reg) t)) (seqZ 0 (8 * num)).
Proof using Type.
  clear. intros Hn. unfold RNS_SUM_AR_stores. cbn [solo writes sum_machine option_list app].
  set (g t := [Rol_reg sum_reg 56; Store_sum dst.[t]]).
  assert (concat (map (fun i => concat (map (fun k => g (8 * i + k)) (seqZ 0 8))) (seqZ 0 num)) = concat (map g (seqZ 0 (8 * num)))) as E.
  { rewrite (Z.mul_comm 8), <- (seqZ_blocks (fun _ => g)) by lia. rewrite concat_concat, map_map. f_equal. apply map_ext. intros i.
    replace (seqZ (i * 8) 8) with (map (Z.add (i * 8)) (seqZ 0 8)) by (rewrite <- (Z.add_0_r (i * 8)) at 2; apply (fmap_add_seqZ (i * 8) 0 8)).
    rewrite map_map. f_equal. apply map_ext. intros k. f_equal. lia. }
  unfold g in E at 1. rewrite E. clear E.
  set (regs0 := update _ _ _ _). assert (regs0 sum_reg = mm512_rol_epi64 (regs sum_reg) (8 * 1)) as E0 by done.
  assert (forall n regs0, 0 <= n -> solo sum_machine m regs0 (concat (map g (seqZ 0 n))) =
    map (fun t => (dst.[t], Nat.iter (Z.to_nat (t + 1)) (fun v => mm512_rol_epi64 v (8 * 7)) (regs0 sum_reg))) (seqZ 0 n) /\
    executed regs0 (concat (map g (seqZ 0 n))) sum_reg = Nat.iter (Z.to_nat n) (fun v => mm512_rol_epi64 v (8 * 7)) (regs0 sum_reg)) as H.
  { clear. intros n r Hn. revert n Hn. apply natlike_ind; [done|]. intros n Hn [IH1 IH2]. unfold Z.succ.
    rewrite seqZ_app by lia. rewrite seqZ_1, Z.add_0_l, !map_app, concat_app, solo_app, foldl_app, IH1. cbn [map concat]. rewrite app_nil_r.
    assert (Z.to_nat (n + 1) = S (Z.to_nat n)) as E by lia.
    set (regs1 := foldl _ r (concat _)) in *. clearbody regs1. rewrite E.
    split; [f_equal|]; unfold g; cbn [solo foldl map writes update sum_machine option_list app set_reg Z.eqb sum_reg] in *; by rewrite ?E, IH2. }
  etrans; [by apply (H (8 * num) regs0); lia|]. apply map_ext. intros t. unfold rolled. by rewrite E0.
Qed.

Lemma RNS_SUM_AR_solo src dst num regs : size <> 0 -> 0 <= num ->
  solo sum_machine m regs (RNS_SUM_AR 1 src dst num size reduce_type) =
  map (fun t => (dst.[t], rolled (reduce_line reduce_type size m (rns_sources src num)) t)) (seqZ 0 (8 * num)).
Proof using Type.
  intros Hsz Hn. pose proof (proj2 (Z.eqb_neq size 0) Hsz) as E. unfold RNS_SUM_AR. rewrite E.
  apply (reduce_solo _ (fun i => map (fun k => (src.[8 * i + k], Rotate (8 * k))) (seqZ 0 8)) _
    (fun v => map (fun t => (dst.[t], rolled v t)) (seqZ 0 (8 * num)))); [|intros r; by apply RNS_stores_solo].
  intros i r. unfold RNS_SUM_AR_turn, transposed, turned, combine_reg, combine. rewrite E.
  destruct (reduce_type =? 0); [|destruct (reduce_type =? 1)]; destruct (size =? 1); done.
Qed.
End Numbers.

(** A sum, stored once. *)
Section Sums.
Context `{R : Rotations} `{I : Intrinsics} `{V : Combinations}.
Variables (size : Z) (m : regions).

Lemma S_SUM_RS_solo src dst num regs :
  solo sum_machine m regs (S_SUM_RS 1 src dst num size) = [(dst, reduce_line 0 size m (s_sources src num))].
Proof using Type.
  rewrite s_sources_concat. apply (reduce_solo 0 size m _ (fun i => [(src.[i], Straight)]) _ (fun v => [(dst, v)])); [|done].
  intros i r. unfold S_SUM_turn, transposed, turned. destruct (size =? 1); done.
Qed.

Lemma RNS_SUM_RS_solo src dst num regs :
  solo sum_machine m regs (RNS_SUM_RS 1 src dst num size) = [(dst, reduce_line 0 size m (rns_sources src num))].
Proof using Type.
  apply (reduce_solo 0 size m _ (fun i => map (fun k => (src.[8 * i + k], Rotate (8 * k))) (seqZ 0 8)) _ (fun v => [(dst, v)])); [|done].
  intros i r. unfold RNS_SUM_turn, transposed, turned. destruct (size =? 1); done.
Qed.
End Sums.

(** The lines that they read. *)
Section Reads.
Context `{R : Rotations} `{I : Intrinsics} `{V : Combinations}.

Lemma transposed_reads size r a : a ∈ transposed size r -> reads sum_machine a = None.
Proof. unfold transposed. destruct (size =? 1); [by intros ?%not_elem_of_nil|]. by intros ->%list_elem_of_singleton. Qed.

Lemma reduce_reads (turn : Z -> list instruction) (sources : Z -> list ((Z * Z) * rns)) stores num size a l :
  reads sum_machine a = Some l -> (forall i, a ∈ turn i -> l ∈ map fst (sources i)) -> a ∉ stores ->
  a ∈ Clear_sum :: concat (map (fun _ => concat (map turn (seqZ 0 num)) ++ transposed size sum_reg ++ stores) (seqZ 0 1)) ->
  l ∈ map fst (concat (map sources (seqZ 0 num))).
Proof.
  intros Hr H Hst. rewrite seqZ_1. cbn [map concat]. rewrite app_nil_r, elem_of_cons, !elem_of_app.
  intros [Hin|[Hin|[Hin%transposed_reads|Hin]]]; subst; [done| |congruence|done].
  apply list_elem_of_In, in_concat in Hin as (t & (i & <- & Hi)%in_map_iff & Ha%list_elem_of_In).
  rewrite concat_map, map_map. apply list_elem_of_In, in_concat. exists (map fst (sources i)).
  split; [by apply (in_map (fun i => map fst (sources i)))|by apply list_elem_of_In, H].
Qed.

(** A load, then what does not load. *)
Lemma load_turn_reads size r line rest a l : reads sum_machine a = Some l -> (a ∈ rest -> reads sum_machine a = None) ->
  a ∈ Load_reg r line :: transposed size r ++ rest -> l = line.
Proof.
  intros Hr Hrest. rewrite elem_of_cons, elem_of_app. intros [->|[Ha%transposed_reads|Ha]]; [by injection Hr|congruence|].
  rewrite (Hrest Ha) in Hr. done.
Qed.
Lemma combine_reg_reads reduce_type size r a : a ∈ combine_reg reduce_type size r -> reads sum_machine a = None.
Proof.
  unfold combine_reg. destruct (reduce_type =? 0); [|destruct (reduce_type =? 1); [|by intros ?%not_elem_of_nil]]; by intros ->%list_elem_of_singleton.
Qed.

Lemma S_SUM_reads src dst num size a l : a ∈ S_SUM_RS 1 src dst num size -> reads sum_machine a = Some l ->
  l ∈ map fst (s_sources src num).
Proof.
  intros Ha Hr. rewrite s_sources_concat. revert Ha. apply (reduce_reads (S_SUM_turn src size)); [done| |intros ->%list_elem_of_singleton; done].
  intros i Ha. apply list_elem_of_singleton. revert Ha. apply load_turn_reads; [done|]. by intros ->%list_elem_of_singleton.
Qed.

Lemma S_SUM_AR_reads src dst num size reduce_type a l : a ∈ S_SUM_AR 1 src dst num size reduce_type -> reads sum_machine a = Some l ->
  l ∈ map fst (s_sources src num).
Proof.
  intros Ha Hr. rewrite s_sources_concat. revert Ha. apply (reduce_reads (S_SUM_AR_turn src size reduce_type)); [done| |].
  - intros i Ha. apply list_elem_of_singleton. revert Ha. apply load_turn_reads; [done|]. apply combine_reg_reads.
  - by intros (k & -> & _)%list_elem_of_fmap.
Qed.

Lemma rns_turn_reads src size i a l (post : Z -> list instruction) : reads sum_machine a = Some l ->
  (forall k, a ∈ post k -> reads sum_machine a = None) ->
  a ∈ concat (map (fun k => Load_reg (k + 1) src.[8 * i + k] :: Rol_reg (k + 1) (8 * k) :: transposed size (k + 1)) (seqZ 0 8)) ++
    concat (map post (seqZ 0 8)) -> l ∈ map fst (map (fun k => (src.[8 * i + k], Rotate (8 * k))) (seqZ 0 8)).
Proof.
  intros Hr Hpost [Ha|Ha]%elem_of_app; apply list_elem_of_In, in_concat in Ha as (t & (k & <- & Hk)%in_map_iff & Ha%list_elem_of_In);
    [|rewrite (Hpost k Ha) in Hr; done].
  rewrite !elem_of_cons in Ha. destruct Ha as [->|[->|Ha%transposed_reads]]; [|done|congruence].
  injection Hr as <-. rewrite map_map. apply list_elem_of_In. exact (in_map (fun k => src.[8 * i + k]) _ _ Hk).
Qed.

Lemma RNS_SUM_reads src dst num size a l : a ∈ RNS_SUM_RS 1 src dst num size -> reads sum_machine a = Some l ->
  l ∈ map fst (rns_sources src num).
Proof.
  intros Ha Hr. revert Ha. apply (reduce_reads (RNS_SUM_turn src size)); [done| |intros ->%list_elem_of_singleton; done].
  intros i Ha. apply (rns_turn_reads src size i a l (fun k => [Add_reg size (k + 1)])); [done| |exact Ha].
  by intros k ->%list_elem_of_singleton.
Qed.

Lemma RNS_SUM_AR_reads src dst num size reduce_type a l : size <> 0 ->
  a ∈ RNS_SUM_AR 1 src dst num size reduce_type -> reads sum_machine a = Some l -> l ∈ map fst (rns_sources src num).
Proof.
  intros Hsz%Z.eqb_neq Ha Hr. unfold RNS_SUM_AR in Ha. rewrite Hsz in Ha. revert Ha.
  apply (reduce_reads (RNS_SUM_AR_turn src size reduce_type)); [done| |].
  - intros i Ha. unfold RNS_SUM_AR_turn in Ha. rewrite Hsz in Ha. revert Ha. apply rns_turn_reads; [done|]. intros k. apply combine_reg_reads.
  - unfold RNS_SUM_AR_stores. intros [->|Ha]%elem_of_cons; [done|].
    apply list_elem_of_In, in_concat in Ha as (t & (i & <- & _)%in_map_iff & Ha). apply in_concat in Ha as (t & (k & <- & _)%in_map_iff & Ha%list_elem_of_In).
    rewrite elem_of_cons, list_elem_of_singleton in Ha. by destruct Ha as [-> | ->].
Qed.
End Reads.
