(* ===== verification/PidWrites.v ===== *)
(** * Lines stored at words of the MRAMs

    What the threads of a reduce-scatter (PidReduce.v) or of an all-reduce
    (PidAllReduce.v) exchange store: each line goes to a word of a rotate group,
    no two to the same one. The numbers of the MRAMs are then those of the lines,
    and the other bytes those of before. *)

From stdpp Require Import relations functions.
From S2P Require Import Prelude Interleave XeonInterleave XeonSg XeonBank PidComm PidMachine PidThreads PidSum.

#[local] Open Scope Z_scope.
#[local] Open Scope dpu_scope.

(** A number of [width] bytes in the MRAM of a DPU. *)
Definition mram_number (width : Z) (m : regions) (r rg ci_id a : Z) : Z := le_word (map (fun b => mram_byte m r rg ci_id (a + b)) (seqZ 0 width)).

Lemma mram_number_fits width m r rg ci_id a : bytes m -> 0 <= width -> fits (8 * width) (mram_number width m r rg ci_id a).
Proof. intros Hm Hw. apply bytes_number_fits; [done|]. intros b _. apply Hm. Qed.

Section Writes.
Variables (size : Z) (m : regions).
Notation z := (lane_bytes size).

Lemma line_number_place p ci_id l : place_ok p -> 0 <= ci_id < 8 -> 0 <= l < 8 / z ->
  let '(r, rg, a) := p in line_number z (line_at m (line_of p)) ci_id l = mram_number z m r rg ci_id (a + z * l).
Proof using Type.
  intros Hp Hc Hl. destruct (lane_width size) as (Hz & _ & H8 & _). destruct p as [[r rg] a]. unfold line_number, mram_number. f_equal.
  apply map_ext_in. intros b Hb%list_elem_of_In%elem_of_seqZ. assert (0 <= z * l + b < 8) as Hj by nia.
  pose proof (word_byte_line m (r, rg, a) ci_id (z * l + b) Hp Hc Hj) as H. unfold word_byte in H. rewrite <- Z.add_assoc, H.
  unfold line_at, load_bytes. by rewrite lookup_map_seqZ by lia.
Qed.

Definition place_write (w : place * list Z) : line_write := (line_of w.1, w.2).

Variable ws : list (place * list Z).
Hypothesis Hplaces : Forall (fun w : place * list Z => place_ok w.1 /\ shaped w.2) ws.
Hypothesis Hnodup : NoDup (map fst ws).
Variable lines : list line_write.
Hypothesis Hlines : Permutation lines (map place_write ws).

Lemma writes_ok : Forall write_ok lines.
Proof using Hplaces Hlines.
  rewrite Hlines. apply Forall_map. eapply list_relations.list.Forall_impl; [exact Hplaces|]. intros w [Hp [Hv Hf]].
  split; [by apply line_of_aligned|]. split; [|done]. cbn [place_write snd]. unfold vec512 in Hv. unfold lenz. lia.
Qed.

Lemma writes_nodup : NoDup (map fst lines).
Proof using Hplaces Hnodup Hlines.
  rewrite Hlines, map_map. cbn [place_write fst]. clear Hlines. induction ws as [|w l IH]; [constructor|].
  apply list_relations.list.Forall_cons in Hplaces as [[Hw _] Hl]. cbn [map] in *. apply list_relations.list.NoDup_cons in Hnodup as [Hnew Hnd].
  apply list_relations.list.NoDup_cons. split; [|by apply IH]. intros (w' & Heq & Hin)%list_elem_of_fmap. apply Hnew.
  rewrite list_relations.list.Forall_forall in Hl. apply line_of_inj in Heq; [|done|by apply Hl]. rewrite Heq. apply list_elem_of_fmap. by exists w'.
Qed.

Lemma writes_hit w ci_id l : w ∈ ws -> 0 <= ci_id < 8 -> 0 <= l < 8 / z ->
  let '(r, rg, a) := w.1 in mram_number z (write_lines m lines) r rg ci_id (a + z * l) = line_number z w.2 ci_id l.
Proof using Hplaces Hnodup Hlines.
  intros Hin Hc Hl. pose proof Hplaces as Hp. rewrite list_relations.list.Forall_forall in Hp.
  specialize (Hp w Hin) as [Hp _]. destruct (lane_width size) as (Hz & _ & H8 & _).
  destruct w as [[[r rg] a] line]. cbn [fst snd] in *. unfold mram_number, line_number. f_equal.
  apply map_ext_in. intros b Hb%list_elem_of_In%elem_of_seqZ. assert (0 <= z * l + b < 8) as Hj by nia.
  pose proof (word_byte_line (write_lines m lines) (r, rg, a) ci_id (z * l + b) Hp Hc Hj) as H. unfold word_byte in H.
  rewrite <- Z.add_assoc, H. cbn [line_of fst snd]. pose proof (line_of_aligned _ Hp) as Hal. cbn [line_of snd] in Hal.
  assert ((group_line rg a + (8 * (z * l + b) + ci_id)) mod 64 = 8 * (z * l + b) + ci_id) as Hmod
    by (clear -Hal Hj Hc; set (x := z * l + b) in *; Z.div_mod_to_equations; lia).
  rewrite (write_lines_hit m lines (place_write ((r, rg, a), line)) _ _ writes_ok writes_nodup).
  - by rewrite Hmod.
  - rewrite Hlines. apply list_elem_of_fmap. by exists ((r, rg, a), line).
  - rewrite Hmod, Z.add_simpl_r. done.
Qed.

Lemma writes_other r rg ci_id a : 0 <= rg < 8 -> 0 <= ci_id < 8 -> fits 26 a -> (r, rg, a - a mod 8) ∉ map fst ws ->
  mram_byte (write_lines m lines) r rg ci_id a = mram_byte m r rg ci_id a.
Proof using Hplaces Hnodup Hlines.
  intros Hr Hc Ha Hout. set (p := (r, rg, a - a mod 8) : place) in *.
  assert (place_ok p) as Hp by (unfold p, place_ok, fits in *; Z.div_mod_to_equations; lia).
  pose proof (Z.mod_pos_bound a 8 ltac:(lia)) as Hj.
  pose proof (word_byte_line (write_lines m lines) p ci_id (a mod 8) Hp Hc Hj) as H1. pose proof (word_byte_line m p ci_id (a mod 8) Hp Hc Hj) as H2.
  unfold p in H1, H2. unfold word_byte in H1, H2. fold p in H1, H2. rewrite Z.sub_add in H1, H2. rewrite H1, H2. pose proof (line_of_aligned p Hp) as Hal.
  apply write_lines_other; [apply writes_ok|].
  replace (snd (line_of p) + (8 * (a mod 8) + ci_id) - _) with (snd (line_of p)) by (clear -Hal Hc Hj; generalize dependent (a mod 8); intros; Z.div_mod_to_equations; lia).
  rewrite Hlines, map_map. intros (w & Heq & Hin)%list_elem_of_fmap. cbn [place_write fst] in Heq. apply Hout.
  rewrite list_relations.list.Forall_forall in Hplaces. destruct (Hplaces w Hin) as [Hpw _].
  apply list_elem_of_fmap. exists w. split; [|done]. apply line_of_inj; [done|done|]. rewrite <- Heq. by destruct (line_of p).
Qed.
End Writes.

(** Pieces of a thread that store the same whatever its registers. *)
Lemma solo_concat {L A X} (M : machine L A) (f : X -> list A) (h : X -> list line_write) m l :
  (forall x regs, x ∈ l -> solo M m regs (f x) = h x) -> forall regs, solo M m regs (concat (map f l)) = concat (map h l).
Proof.
  intros H. induction l as [|x l IH]; intros regs; [done|]. cbn [map concat]. rewrite solo_app, H by (apply elem_of_cons; by left).
  rewrite IH; [done|]. intros y r Hy. apply H, elem_of_cons. by right.
Qed.

(** The number l of a block of [len] bytes is the number of a word of the block. *)
Lemma number_in_word size len l : let z := lane_bytes size in len = 8 * (len / 8) -> 0 <= l -> z * l < len ->
  exists u l', 0 <= u < len / 8 /\ 0 <= l' < 8 / z /\ z * l = 8 * u + z * l'.
Proof.
  intros z Hl8 Hl Hlen. destruct (lane_width size) as (Hz & _ & H8 & Hp & _). fold z in Hz, H8, Hp.
  exists (l / (8 / z)), (l mod (8 / z)). assert (0 <= l mod (8 / z) < 8 / z) as Hl' by (by apply Z.mod_pos_bound).
  assert (l = 8 / z * (l / (8 / z)) + l mod (8 / z)) as Hlu by (apply Z.div_mod; lia).
  assert (z * l = 8 * (l / (8 / z)) + z * (l mod (8 / z))) as Hzl
    by (rewrite Hlu at 1; transitivity (z * (8 / z) * (l / (8 / z)) + z * (l mod (8 / z))); [ring|by rewrite H8]).
  assert (0 <= z * (l mod (8 / z))) by nia. pose proof (Z.div_pos l (8 / z) Hl Hp). split_and!; lia.
Qed.

(** ** Turns shared among threads *)

(** The turns are shared in order among [n] threads, each of [nb_words] pieces
    that store [h i u] whatever the registers: however the accesses interleave,
    every piece is stored once, when no line is both read and stored. *)
Section Turns.
Context {L A : Type}.
Variables (M : machine L A) (total n nb_words : Z) (body : Z -> Z -> list A) (h : Z -> Z -> list line_write) (m : regions).
Hypothesis Hn : 0 < n < 2 ^ 32.
Hypothesis Htotal : 0 <= total < 2 ^ 32.
Notation turn i := (concat (map (body i) (seqZ 0 nb_words))).
Notation span t := (seqZ (fst (thread_span total n t)) (snd (thread_span total n t))).
Notation threads := (map (fun t => concat (map (fun i => turn i) (span t))) (seqZ 0 n)).
Notation writes := (concat (map (fun i => concat (map (h i) (seqZ 0 nb_words))) (seqZ 0 total))).
Hypothesis Hsolo : forall i u regs, 0 <= i < total -> 0 <= u < nb_words -> solo M m regs (body i u) = h i u.
Hypothesis Hreads : forall i u a l, 0 <= i < total -> 0 <= u < nb_words -> a ∈ body i u -> reads M a = Some l ->
  snd l mod 64 = 0 /\ l ∉ map fst writes.
Hypothesis Hok : Forall write_ok writes.

Lemma span_turn t i : 0 <= t < n -> i ∈ span t -> 0 <= i < total.
Proof using Hn Htotal. intros Ht Hi. apply (span_range total n t i); (done || lia). Qed.

Lemma thread_solo t regs : 0 <= t < n ->
  solo M m regs (concat (map (fun i => turn i) (span t))) = concat (map (fun i => concat (map (h i) (seqZ 0 nb_words))) (span t)).
Proof using Hn Htotal Hsolo.
  intros Ht. apply solo_concat. intros i r Hi. apply solo_concat. intros u r' Hu%elem_of_seqZ. apply Hsolo; [by apply (span_turn t)|lia].
Qed.

Lemma in_thread th a : th ∈ threads -> a ∈ th -> exists i u, 0 <= i < total /\ 0 <= u < nb_words /\ a ∈ body i u.
Proof using Hn Htotal.
  intros (t & -> & Ht%elem_of_seqZ)%list_elem_of_fmap Ha.
  apply list_elem_of_In, in_concat in Ha as (al & (i & <- & Hi%list_elem_of_In)%in_map_iff & Ha).
  apply in_concat in Ha as (al & (u & <- & Hu%list_elem_of_In%elem_of_seqZ)%in_map_iff & Ha%list_elem_of_In).
  exists i, u. split_and!; try done; try lia; apply (span_turn t i); (done || lia).
Qed.

Lemma thread_writes th regs w : th ∈ threads -> w ∈ solo M m regs th -> w ∈ writes.
Proof using Hn Htotal Hsolo.
  intros (t & -> & Ht%elem_of_seqZ)%list_elem_of_fmap Hw. rewrite thread_solo in Hw by lia.
  apply list_elem_of_In, in_concat in Hw as (l & (i & <- & Hi%list_elem_of_In)%in_map_iff & Hw).
  apply list_elem_of_In, in_concat. eexists. split; [|exact Hw].
  apply (in_map (fun i => concat (map (h i) (seqZ 0 nb_words)))), list_elem_of_In, elem_of_seqZ. apply (span_turn t) in Hi; lia.
Qed.

Lemma turns_interleaved tr regs : interleaves tr threads -> exists lines,
  Permutation lines writes /\ host_mem (run_machine M tr (mk_host regs m)) = write_lines m lines.
Proof using All.
  intros Htr. rewrite list_relations.list.Forall_forall in Hok.
  destruct (interleaved_solo M threads tr regs m Htr) as (lines & Hlines & Hrun).
  - intros th a l Hth Ha Hr. destruct (in_thread th a Hth Ha) as (i & u & Hi & Hu & Hb). by apply (Hreads i u a l).
  - intros th r Hth. apply Forall_forall. intros w Hw%list_elem_of_In. by eapply Hok, thread_writes.
  - intros th th' a l r w Hth Hth' Ha Hr Hw ->. destruct (in_thread th a Hth Ha) as (i & u & Hi & Hu & Hb).
    apply (thread_writes th' r w Hth') in Hw. destruct (Hreads i u a _ Hi Hu Hb Hr) as [_ Hout]. apply Hout, list_elem_of_fmap. by exists w.
  - exists lines. split; [|done]. rewrite Hlines, <- (spans_concat _ total n) by lia.
    assert (lenz threads = n) as -> by (apply lenz_map_seqZ; lia). apply reflexive_eq. f_equal. apply map_ext_in. intros t Ht%list_elem_of_In%elem_of_seqZ.
    rewrite lookup_map_seqZ by lia. apply thread_solo. lia.
Qed.
End Turns.
