(* ===== verification/PidReduce.v ===== *)
(** * The threads of a reduce-scatter exchange

    Model of [xeon_sp_trans_reduce_scatter_cpu_rg] and
    [xeon_sp_trans_reduce_scatter_cpu_y_rg] of
    [src/hw/src/mappings/xeon_sp/pid_comm.c] and of [thread_reduce_scatter_rns]
    and [hw_reduce_scatter_rns] of [src/hw/src/rank/hw_dpu_rank.c]. A turn of a
    thread takes one rotate group and stores in it, word by word, the sum of its
    blocks in all the groups of its axes, with the macros of PidSum.v. The
    division of the turns among the threads is that of PidThreads.v, and the
    groups of a turn are found as in PidGather.v. *)

From stdpp Require Import relations.
From S2P Require Import Prelude Interleave XeonInterleave XeonSg XeonBank PidComm PidMachine PidAccess PidThreads PidGather PidSum PidWrites.

#[local] Open Scope Z_scope.
#[local] Open Scope dpu_scope.

(** ** The sums of a group *)

(** [src_mram_offset], [dst_mram_offset] and the instructions so far. *)
Definition reduce_state := (Z * Z * list instruction)%type.
Definition packet_size := 8.
Definition iteration := packet_size / 8.

Section Group.
Variables (base_region_addr_src : list Z) (base_region_addr_dst : Z) (src_rg_id : list Z) (dst_rg_id : Z).
Variables (byte_length num_iter_src size : Z).

(** The addresses of the word in the [nb_blocks] blocks of each source. *)
Definition src_rank_addr_iter (nb_blocks src_mram_offset : Z) : list (Z * Z) :=
  concat (map (fun j => map (fun k => (base_region_addr_src.[j],
      offset_1mb_wise (u32 (src_mram_offset + byte_length * k)) + rotate_group_offset_256_64 src_rg_id.[j])) (seqZ 0 nb_blocks))
    (seqZ 0 num_iter_src)).
Definition sum_word (nb_blocks : Z) (sum_rs : Z -> list (Z * Z) -> Z * Z -> Z -> Z -> list instruction) (s : reduce_state) : reduce_state :=
  let '(src_mram_offset, dst_mram_offset, instructions) := s in
  let dst_rank_addr_iter := (base_region_addr_dst, offset_1mb_wise dst_mram_offset + rotate_group_offset_256_64 dst_rg_id) in
  (u32 (src_mram_offset + 8), u32 (dst_mram_offset + 8),
   instructions ++ sum_rs iteration (src_rank_addr_iter nb_blocks src_mram_offset) dst_rank_addr_iter num_iter_src size).

Definition xeon_sp_trans_reduce_scatter_cpu_rg (src_start_offset dst_start_offset communication_buffer_offset num_thread thread_id : Z) : list instruction :=
  let iter_length := byte_length / 8 in
  let skipped := 8 * (iter_length / num_thread) * thread_id in
  let src_mram_offset := u32 (src_start_offset + 1024 * 1024 + communication_buffer_offset + skipped) in
  let dst_mram_offset := u32 (dst_start_offset + 1024 * 1024 + skipped) in
  let first := u32 (iter_length / num_thread * thread_id) in
  let last := u32 (iter_length / num_thread * (thread_id + 1)) in
  snd (for_up (last - first) (fun _ => sum_word 8 RNS_SUM_RS) (src_mram_offset, dst_mram_offset, [])).

Definition xeon_sp_trans_reduce_scatter_cpu_y_rg (src_start_offset dst_start_offset communication_buffer_offset : Z) : list instruction :=
  let src_mram_offset := u32 (src_start_offset + 1024 * 1024 + communication_buffer_offset) in
  let dst_mram_offset := u32 (dst_start_offset + 1024 * 1024) in
  snd (for_up (byte_length / 8) (fun _ => sum_word 1 S_SUM_RS) (src_mram_offset, dst_mram_offset, [])).
End Group.

(** ** One thread *)

Section Threads.
Variables (axis_len comm_axis : list Z).
Variables (src_start_offset dst_start_offset dpu_byte_length comm_type communication_buffer_offset size : Z).
Notation group_axes := (group_axes axis_len comm_axis).
(** [total_iter_num] and [total_axis_product] are computed as for an all-gather exchange. *)
Notation reduce_products := (gather_products axis_len comm_axis comm_type).

(** The coordinates of turn i, those of the sources on the axes that do not
    communicate, and the offsets of its blocks. *)
Definition reduce_turn (i : Z) (iter : list Z * list Z) : list Z * list Z * Z * Z :=
  let '(total_iter_num, total_axis_product) := reduce_products in
  let '(_, cur_remain, iter_src, iter_dst) :=
    fixed_axes group_axes (fst iter) (snd iter) (u32 (total_iter_num * total_axis_product)) (u32 (i * total_axis_product)) in
  let cur_iter_src := cur_remain mod total_axis_product in
  let cur_iter_dst := cur_remain / total_axis_product in
  let blocks := if comm_type =? 0 then 8 else 1 in
  let src_start_offset_iter := u32 (src_start_offset + cur_iter_dst * blocks * dpu_byte_length) in
  let dst_start_offset_iter := u32 (dst_start_offset + cur_iter_src * blocks * dpu_byte_length) in
  let '(iter_src, iter_dst) := comm_axes group_axes iter_src iter_dst cur_iter_src cur_iter_dst in
  (iter_src, iter_dst, src_start_offset_iter, dst_start_offset_iter).

Definition reduce_turn_instructions (t : list Z * list Z * Z * Z) : list instruction :=
  let '(iter_src, iter_dst, src_start_offset_iter, dst_start_offset_iter) := t in
  let total_axis_product := snd reduce_products in
  let src := map (fun j => dest_ids group_axes iter_src j 1 1 0 0) (seqZ 0 total_axis_product) in
  let '(dst_rank_id, dst_rg_id) := group_ids group_axes iter_dst 1 0 0 in
  if comm_type =? 0 then
    xeon_sp_trans_reduce_scatter_cpu_rg (map fst src) dst_rank_id (map snd src) dst_rg_id dpu_byte_length total_axis_product size
      src_start_offset_iter dst_start_offset_iter communication_buffer_offset 1 0
  else
    xeon_sp_trans_reduce_scatter_cpu_y_rg (map fst src) dst_rank_id (map snd src) dst_rg_id dpu_byte_length total_axis_product size
      src_start_offset_iter dst_start_offset_iter communication_buffer_offset.

Definition thread_reduce_scatter_rns (num_thread thread_id : Z) : list instruction :=
  let '(start_point, nb_turns) := thread_span (fst reduce_products) num_thread thread_id in
  let zeros := replicate (length axis_len) 0 in
  snd (foldl (fun '(iter, instructions) i =>
      let t := reduce_turn i iter in (fst (fst t), instructions ++ reduce_turn_instructions t))
    ((zeros, zeros), []) (seqZ start_point nb_turns)).

(** The 32 threads, for a first axis of at least 8; below, the source runs other
    versions of the threads, which are not modelled. *)
Definition hw_reduce_scatter_rns : option (list (list instruction)) :=
  if 8 <=? axis_len.[0] then Some (map (thread_reduce_scatter_rns thread_num) (seqZ 0 thread_num)) else None.
End Threads.

(** ** The words of a group *)

(** The offsets, and the room for the [nb_blocks] blocks of the buffer. *)
Record reduce_range (src dst len buf nb_blocks : Z) : Prop := {
  rr_src : 0 <= src;
  rr_dst : 0 <= dst;
  rr_length : 0 <= len;
  rr_buffer : 0 <= buf;
  rr_src_end : src + 1024 * 1024 + buf + nb_blocks * len <= 2 ^ 26;
  rr_dst_end : dst + 1024 * 1024 + len <= 2 ^ 26;
  rr_apart : src + buf + nb_blocks * len <= dst \/ dst + len <= src + buf;
  rr_words : src mod 8 = 0 /\ dst mod 8 = 0 /\ len mod 8 = 0 /\ buf mod 8 = 0;
}.

Section Words.
Variables (source : Z -> Z * Z) (nb_sources bd dst_rg len comm_type size src0 dst0 : Z).
Notation P := (nb_passes comm_type).
Hypothesis Hsource : forall j, 0 <= j < nb_sources -> 0 <= snd (source j) < 8.
Hypothesis Hdst : 0 <= dst_rg < 8.
Hypothesis Hnb : 0 <= nb_sources.
Hypothesis Hlen : 0 <= len /\ len mod 8 = 0.
Hypothesis Hsrc0 : 0 <= src0 /\ src0 mod 8 = 0 /\ src0 + P * len <= 2 ^ 26.
Hypothesis Hdst0 : 0 <= dst0 /\ dst0 mod 8 = 0 /\ dst0 + len <= 2 ^ 26.
Notation bs := (map (fun j => fst (source j)) (seqZ 0 nb_sources)).
Notation rgs := (map (fun j => snd (source j)) (seqZ 0 nb_sources)).

Definition sum_source (j k u : Z) : place := (fst (source j), snd (source j), src0 + k * len + 8 * u).
Definition sum_target (u : Z) : place := (bd, dst_rg, dst0 + 8 * u).
Definition sum_sources (u : Z) : list (place * rns) :=
  concat (map (fun j => map (fun k => (sum_source j k u, pass_rns comm_type k)) (seqZ 0 P)) (seqZ 0 nb_sources)).
Definition lines_of (sources : list (place * rns)) : list ((Z * Z) * rns) := map (fun s => (line_of s.1, s.2)) sources.

Lemma source_offset k u : 0 <= k < P -> 0 <= u < len / 8 -> 0 <= src0 + k * len + 8 * u /\ (src0 + k * len + 8 * u) mod 8 = 0 /\
  src0 + k * len + 8 * u + 8 <= src0 + P * len.
Proof using Hsource Hdst Hnb Hlen Hsrc0 Hdst0.
  intros Hk Hu. assert (len = 8 * (len / 8)) as Hl8 by (Z.div_mod_to_equations; lia). set (W := len / 8) in *. rewrite Hl8.
  split; [nia|]. split; [|nia]. replace (src0 + k * (8 * W) + 8 * u) with (src0 + (k * W + u) * 8) by ring. rewrite Z.mod_add by done. lia.
Qed.

Lemma sum_source_ok j k u : 0 <= j < nb_sources -> 0 <= k < P -> 0 <= u < len / 8 -> place_ok (sum_source j k u).
Proof using Hsource Hdst Hnb Hlen Hsrc0 Hdst0.
  intros Hj Hk Hu. destruct (source_offset k u Hk Hu) as (H1 & H2 & H3). split; [by apply Hsource|]. unfold fits. lia.
Qed.
Lemma sum_target_ok u : 0 <= u < len / 8 -> place_ok (sum_target u).
Proof using Hsource Hdst Hnb Hlen Hsrc0 Hdst0.
  intros Hu. split; [done|]. unfold fits. split; Z.div_mod_to_equations; lia.
Qed.

Lemma elem_of_sources u s : s ∈ sum_sources u <-> exists j k, 0 <= j < nb_sources /\ 0 <= k < P /\ s = (sum_source j k u, pass_rns comm_type k).
Proof using Type.
  clear Hsource Hdst Hnb Hlen Hsrc0 Hdst0. unfold sum_sources. rewrite list_elem_of_In, in_concat. split.
  - intros (l & (j & <- & Hj%list_elem_of_In%elem_of_seqZ)%in_map_iff & (k & <- & Hk%list_elem_of_In%elem_of_seqZ)%in_map_iff).
    exists j, k. split_and!; (lia || done).
  - intros (j & k & Hj & Hk & ->). eexists. split; [apply (in_map _ _ j), list_elem_of_In, elem_of_seqZ; lia|].
    apply (in_map (fun k => (sum_source j k u, pass_rns comm_type k))), list_elem_of_In, elem_of_seqZ. lia.
Qed.

Lemma sources_rotation u : Forall (fun s => byte_rotation s.2) (lines_of (sum_sources u)).
Proof using Type.
  clear Hsource Hdst Hnb Hlen Hsrc0 Hdst0. apply Forall_map, Forall_forall. intros s (j & k & Hj & Hk & ->)%list_elem_of_In%elem_of_sources. cbn [fst snd].
  unfold nb_passes, pass_rns in *. destruct (comm_type =? 0); [|done]. cbn. split; [Z.div_mod_to_equations; lia|lia].
Qed.

Lemma passes_pos : 0 < P /\ (comm_type = 0 /\ P = 8 \/ comm_type <> 0 /\ P = 1).
Proof using Type. clear. unfold nb_passes. destruct (Z.eqb_spec comm_type 0); split; auto; lia. Qed.

(** The addresses of the sources are their lines. *)
Lemma src_address u j k : 0 <= u < len / 8 -> 0 <= j < nb_sources -> 0 <= k < P ->
  (src_rank_addr_iter bs rgs len nb_sources P (src0 + 8 * u)).[P * j + k] = line_of (sum_source j k u).
Proof using Hsource Hdst Hnb Hlen Hsrc0 Hdst0.
  intros Hu Hj Hk. pose proof (proj1 passes_pos) as HP. unfold src_rank_addr_iter. erewrite (proj1 (chunk_get _ P nb_sources j k Hnb _ Hj Hk)).
  Unshelve. 2:{ intros i. apply lenz_map_seqZ. lia. }
  rewrite !lookup_map_seqZ by lia. destruct (source_offset k u Hk Hu) as (H1 & H2 & H3).
  replace (src0 + 8 * u + len * k) with (src0 + k * len + 8 * u) by ring. rewrite u32_id by (unfold fits; lia).
  rewrite offset_1mb_wise_line by (done || (unfold fits; lia)). rewrite rotate_group_offset_start by by apply Hsource.
  unfold sum_source, line_of, group_line. f_equal. lia.
Qed.

Definition word_sums (u : Z) : list instruction :=
  (if comm_type =? 0 then RNS_SUM_RS else S_SUM_RS) iteration (src_rank_addr_iter bs rgs len nb_sources P (src0 + 8 * u))
    (line_of (sum_target u)) nb_sources size.

Lemma sum_word_at u l : 0 <= u < len / 8 ->
  sum_word bs bd rgs dst_rg len nb_sources size P (if comm_type =? 0 then RNS_SUM_RS else S_SUM_RS) (src0 + 8 * u, dst0 + 8 * u, l) =
  (src0 + 8 * (u + 1), dst0 + 8 * (u + 1), l ++ word_sums u).
Proof using Hsource Hdst Hnb Hlen Hsrc0 Hdst0.
  intros Hu. destruct (sum_target_ok u Hu) as (_ & Hf & H8). destruct (source_offset 0 u) as (H1 & H2 & H3); [destruct passes_pos; lia|done|].
  unfold sum_word, word_sums, sum_target. rewrite offset_1mb_wise_line, rotate_group_offset_start by done.
  cbn [line_of]. unfold group_line. rewrite (Z.add_comm (mram_line _)).
  rewrite !u32_id by (unfold fits in *; Z.div_mod_to_equations; lia). f_equal. f_equal; lia.
Qed.

Lemma word_lines u : 0 <= u < len / 8 ->
  (if comm_type =? 0 then rns_sources else s_sources) (src_rank_addr_iter bs rgs len nb_sources P (src0 + 8 * u)) nb_sources =
  lines_of (sum_sources u).
Proof using Hsource Hdst Hnb Hlen Hsrc0 Hdst0.
  intros Hu. unfold lines_of, sum_sources. rewrite concat_map, map_map. pose proof (src_address u) as Hat.
  destruct passes_pos as [_ [[Ht HP]|[Ht HP]]]; rewrite HP in *.
  - rewrite (proj2 (Z.eqb_eq _ _) Ht). unfold rns_sources. f_equal. apply map_ext_in. intros j Hj%list_elem_of_In%elem_of_seqZ. rewrite map_map.
    apply map_ext_in. intros k Hk%list_elem_of_In%elem_of_seqZ. unfold pass_rns. rewrite (proj2 (Z.eqb_eq _ _) Ht). rewrite Hat by lia. done.
  - rewrite (proj2 (Z.eqb_neq _ _) Ht). unfold s_sources. rewrite seqZ_1. cbn [map]. unfold pass_rns. rewrite (proj2 (Z.eqb_neq _ _) Ht).
    rewrite (map_ext_in _ (fun j => (line_of (sum_source j 0 u), Straight))).
    + clear Hat. induction (seqZ 0 nb_sources) as [|j l IH]; [done|]. cbn [map concat app]. by rewrite IH.
    + intros j Hj%list_elem_of_In%elem_of_seqZ. rewrite <- (Hat j 0) by lia. do 2 f_equal. lia.
Qed.
End Words.

(** The two functions are the words of the group, one after the other. *)
Lemma reduce_rg_words source nb_sources bd dst_rg len comm_type size src dst buf :
  (forall j, 0 <= j < nb_sources -> 0 <= snd (source j) < 8) -> 0 <= dst_rg < 8 -> 0 <= nb_sources ->
  reduce_range src dst len buf (nb_passes comm_type) ->
  (if comm_type =? 0 then
    xeon_sp_trans_reduce_scatter_cpu_rg (map (fun j => fst (source j)) (seqZ 0 nb_sources)) bd
      (map (fun j => snd (source j)) (seqZ 0 nb_sources)) dst_rg len nb_sources size src dst buf 1 0
  else
    xeon_sp_trans_reduce_scatter_cpu_y_rg (map (fun j => fst (source j)) (seqZ 0 nb_sources)) bd
      (map (fun j => snd (source j)) (seqZ 0 nb_sources)) dst_rg len nb_sources size src dst buf) =
  concat (map (word_sums source nb_sources bd dst_rg len comm_type size (src + 1024 * 1024 + buf) (dst + 1024 * 1024)) (seqZ 0 (len / 8))).
Proof.
  intros Hs Hd Hn [H1 H2 H3 H4 H5 H6 _ (H8 & H9 & H10 & H11)].
  assert (0 <= nb_passes comm_type * len) as Hp by (unfold nb_passes; destruct (comm_type =? 0); lia).
  assert (0 <= len / 8 <= len) as Hw by (Z.div_mod_to_equations; lia).
  set (src0 := src + 1024 * 1024 + buf). set (dst0 := dst + 1024 * 1024).
  assert (0 <= src0 /\ src0 mod 8 = 0 /\ src0 + nb_passes comm_type * len <= 2 ^ 26) as Hsrc0
    by (unfold src0; split_and!; [lia|Z.div_mod_to_equations; lia|lia]).
  assert (0 <= dst0 /\ dst0 mod 8 = 0 /\ dst0 + len <= 2 ^ 26) as Hdst0 by (unfold dst0; split_and!; [lia|Z.div_mod_to_equations; lia|lia]).
  set (bs := map _ _). set (rgs := map (fun j => snd (source j)) _).
  assert (forall iter, 0 <= iter <= len / 8 -> for_up iter
    (fun _ => sum_word bs bd rgs dst_rg len nb_sources size (nb_passes comm_type) (if comm_type =? 0 then RNS_SUM_RS else S_SUM_RS)) (src0, dst0, []) =
    (src0 + 8 * iter, dst0 + 8 * iter, concat (map (word_sums source nb_sources bd dst_rg len comm_type size src0 dst0) (seqZ 0 iter)))) as Hloop.
  { intros iter Hi. apply (for_up_ind (fun u s => s = (src0 + 8 * u, dst0 + 8 * u,
      concat (map (word_sums source nb_sources bd dst_rg len comm_type size src0 dst0) (seqZ 0 u))))); [lia| |].
    - by rewrite !Z.add_0_r.
    - intros u s Hu ->. unfold bs, rgs. rewrite (sum_word_at source nb_sources bd dst_rg len comm_type size src0 dst0) by (done || lia).
      rewrite (seqZ_app 0 u 1) by lia. rewrite seqZ_1, map_app, concat_app. cbn [map concat]. by rewrite app_nil_r. }
  specialize (Hloop (len / 8) ltac:(lia)). destruct (passes_pos comm_type) as [_ [[Ht HP]|[Ht HP]]]; rewrite HP in Hloop.
  - rewrite (proj2 (Z.eqb_eq _ _) Ht) in *. unfold xeon_sp_trans_reduce_scatter_cpu_rg. cbv zeta.
    rewrite Z.div_1_r, !Z.mul_0_r, !Z.add_0_r, Z.add_0_l, Z.mul_1_r. rewrite !u32_id by (unfold fits; lia). rewrite Z.sub_0_r.
    fold src0 dst0. by rewrite Hloop.
  - rewrite (proj2 (Z.eqb_neq _ _) Ht) in *. unfold xeon_sp_trans_reduce_scatter_cpu_y_rg. cbv zeta.
    rewrite !u32_id by (unfold fits; lia). fold src0 dst0. by rewrite Hloop.
Qed.

(** ** What the words store *)

Section Stores.
Context `{R : Rotations} `{!RotationsSpec R} `{I : Intrinsics} `{!IntrinsicsSpec I} `{V : Combinations} `{!CombinationsSpec V}.
Variables (size : Z) (m : regions).
Hypothesis Hm : bytes m.
Notation z := (lane_bytes size).

(** The place and the sum of a word. *)
Definition summed (w : place * list (place * rns)) : place * list Z := (w.1, reduce_line 0 size m (lines_of w.2)).
Definition sum_write (w : place * list (place * rns)) : line_write := place_write (summed w).

Section Writes.
Variable ws : list (place * list (place * rns)).
Hypothesis Hplaces : Forall (fun w : place * list (place * rns) => place_ok w.1) ws.
Hypothesis Hsources : Forall (fun w : place * list (place * rns) => Forall (fun s : place * rns => place_ok s.1 /\ byte_rotation s.2) w.2) ws.
Hypothesis Hnodup : NoDup (map fst ws).
Variable lines : list line_write.
Hypothesis Hlines : Permutation lines (map sum_write ws).

Lemma rotations_ok w : w ∈ ws -> Forall (fun s => byte_rotation s.2) (lines_of w.2).
Proof using Hsources.
  intros Hw. rewrite list_relations.list.Forall_forall in Hsources. apply Forall_map. eapply list_relations.list.Forall_impl; [by apply Hsources|].
  by intros s [_ Hs].
Qed.

Lemma summed_ok : Forall (fun w : place * list Z => place_ok w.1 /\ shaped w.2) (map summed ws) /\ NoDup (map fst (map summed ws)) /\
  Permutation lines (map place_write (map summed ws)).
Proof using All.
  split; [|by rewrite !map_map]. apply Forall_map, Forall_forall. intros w Hw%list_elem_of_In.
  pose proof (rotations_ok w Hw) as Hr. rewrite list_relations.list.Forall_forall in Hplaces. split; [by apply Hplaces|by apply reduce_line_shape].
Qed.

Lemma sum_writes_ok : Forall write_ok lines.
Proof using All. destruct summed_ok as (H1 & _ & H3). by apply (writes_ok _ H1). Qed.

(** Each number of a word is the sum of those of its sources. *)
Lemma sum_writes_hit w ci_id l : w ∈ ws -> 0 <= ci_id < 8 -> 0 <= l < 8 / z ->
  let '(r, rg, a) := w.1 in mram_number z (write_lines m lines) r rg ci_id (a + z * l) =
  sumZ (map (fun s => let '(r, rg, a) := s.1 in mram_number z m r rg ((ci_id - shift s.2) mod 8) (a + z * l)) w.2) mod 2 ^ (8 * z).
Proof using All.
  intros Hin Hc Hl. destruct summed_ok as (H1 & H2 & H3). pose proof Hsources as Hs. rewrite list_relations.list.Forall_forall in Hs. specialize (Hs w Hin).
  pose proof (writes_hit size m _ H1 H2 lines H3 (summed w) ci_id l ltac:(apply list_elem_of_fmap; by exists w) Hc Hl) as H.
  pose proof (reduce_line_number 0 size m Hm (lines_of w.2) ci_id l (rotations_ok w Hin) Hc Hl) as Hsum.
  destruct w as [[[r rg] a] sources]. cbn [summed fst snd] in *. etrans; [exact H|]. etrans; [exact Hsum|]. unfold reduction. change (0 =? 0) with true. cbn iota.
  do 2 f_equal. unfold lines_of. rewrite map_map. apply map_ext_in. intros s Hsin%list_elem_of_In. cbn [fst snd].
  rewrite list_relations.list.Forall_forall in Hs. destruct (Hs s Hsin) as [Hps _].
  pose proof (line_number_place size m s.1 ((ci_id - shift s.2) mod 8) l Hps ltac:(by apply Z.mod_pos_bound) Hl) as Hn.
  by destruct s as [[[r' rg'] a'] k].
Qed.

Lemma sum_writes_other r rg ci_id a : 0 <= rg < 8 -> 0 <= ci_id < 8 -> fits 26 a -> (r, rg, a - a mod 8) ∉ map fst ws ->
  mram_byte (write_lines m lines) r rg ci_id a = mram_byte m r rg ci_id a.
Proof using All.
  intros Hr Hc Ha Hout. destruct summed_ok as (H1 & H2 & H3). apply (writes_other m _ H1 H2 lines H3); try done. by rewrite map_map.
Qed.
End Writes.
End Stores.

(** ** The threads *)

Section Exchange.
Context `{R : Rotations} `{!RotationsSpec R} `{I : Intrinsics} `{!IntrinsicsSpec I} `{V : Combinations} `{!CombinationsSpec V}.
Variables (axis_len comm_axis : list Z) (src dst len comm_type buf size : Z).
Hypothesis Hcube : hypercube axis_len comm_axis.
Hypothesis Htype : comm_type = if comm_axis.[0] =? 1 then 0 else 1.
Notation ax := (group_axes axis_len comm_axis).
Notation A := (size_on 1 ax).
Notation N := (size_on 0 ax).
Notation P := (nb_passes comm_type).
Notation z := (lane_bytes size).
Hypothesis Hrange : reduce_range src dst len buf (A * P).
(** The group of a turn, and the groups of its axes: those of an all-gather exchange. *)
Notation reduce_dst i := (gather_src axis_len comm_axis i).
Notation reduce_source i j := (gather_dest axis_len comm_axis i j).

Lemma reduce_sizes : axes_wf ax /\ 0 < A /\ 0 < N /\ 0 < N * A < 2 ^ 32 /\ N * (A * A) < 2 ^ 32.
Proof using Hcube.
  clear Hrange Htype. destruct Hcube as [_ _ _ Hax _ Hfit]. pose proof (size_on_pos 1 ax Hax) as HA. pose proof (size_on_pos 0 ax Hax) as HN.
  rewrite (sizes ax Hax) in Hfit. split_and!; (done || nia).
Qed.

Lemma reduce_turn_at i iter : 0 <= src -> 0 <= dst < 2 ^ 32 -> 0 <= len -> src + A * P * len < 2 ^ 32 ->
  0 <= i < N * A -> length iter.1 = length ax -> length iter.2 = length ax ->
  exists v, reduce_turn axis_len comm_axis src dst len comm_type i iter = (v, reduce_dst i, src + i mod A * P * len, dst) /\
    snd (fst (fst (fixed_axes ax iter.1 iter.2 (u32 (N * A * A)) (u32 (i * A))))) / A = i mod A /\
    coordinates ax v /\ index_on 0 ax v = i / A.
Proof using Hcube Htype.
  clear Hrange. intros Rs Rd Rl Rse Hi Hv Hw. destruct (gather_indices axis_len comm_axis Hcube i Hi) as [H0 H1]. destruct reduce_sizes as (Hax & HA & HN & Hfit & Hfit2).
  assert (i * A < N * (A * A)) as HiA by nia.
  unfold reduce_turn. rewrite (gather_products_eq axis_len comm_axis comm_type Hcube Htype).
  rewrite !u32_id by (unfold fits; nia). replace (N * A * A) with (N * (A * A)) by ring.
  destruct (fixed_axes_spec ax iter.1 iter.2 (A * A) (i * A) Hax Hv Hw ltac:(nia) ltac:(nia) ltac:(lia))
    as (v' & w' & -> & _ & _ & Hdv & Hdw & Hiv & Hiw). cbn [fst snd].
  assert (i * A / (A * A) = i / A) as E0 by (apply Z.div_mul_cancel_r; lia).
  assert ((i * A) mod (A * A) = i mod A * A) as E1 by (apply Zmult_mod_distr_r).
  rewrite E0 in Hiv, Hiw. rewrite E1, Z.mod_mul, Z.div_mul by lia.
  pose proof (comm_axes_spec ax v' w' 0 (i mod A) Hax Hdv Hdw ltac:(lia) H1) as Hc.
  destruct (comm_axes _ _ _ _ _) as [v w]. destruct Hc as (Hcv & Hcw & Hv1 & Hw1 & Hv0 & Hw0).
  destruct (gather_src_spec axis_len comm_axis Hcube i Hi) as (Hs & Hs0 & Hs1). exists v. split_and!; [|done|done|congruence].
  rewrite (index_on_inj ax w (reduce_dst i)) by (done || congruence).
  unfold nb_passes in *.
  f_equal; [f_equal|]; rewrite u32_id by (unfold fits; destruct (comm_type =? 0); nia); [destruct (comm_type =? 0); ring|ring].
Qed.

Lemma reduce_turn_eq i iter : 0 <= i < N * A -> length iter.1 = length ax -> length iter.2 = length ax ->
  exists v, reduce_turn axis_len comm_axis src dst len comm_type i iter = (v, reduce_dst i, src + i mod A * P * len, dst) /\
    coordinates ax v /\ index_on 0 ax v = i / A.
Proof using Hcube Htype Hrange.
  intros Hi Hv Hw. destruct Hrange as [Rs Rd Rl Rb Rse Rde _ _].
  destruct (reduce_turn_at i iter) as (v & H1 & _ & H2); [lia..|done|done|done|]. by exists v.
Qed.

Lemma reduce_blocks : 1 <= P /\ len = 8 * (len / 8).
Proof using Hrange.
  split; [unfold nb_passes; destruct (comm_type =? 0); lia|]. destruct Hrange as [_ _ _ _ _ _ _ (_ & _ & Hl & _)].
  clear -Hl. Z.div_mod_to_equations. lia.
Qed.

Lemma reduce_turn_range i : 0 <= i < N * A -> reduce_range (src + i mod A * P * len) dst len buf P.
Proof using Hcube Hrange.
  intros Hi. destruct (gather_indices axis_len comm_axis Hcube i Hi) as [_ H1]. destruct reduce_blocks as [Hp Hl8].
  pose proof (rr_length _ _ _ _ _ Hrange) as Hl.
  assert (0 <= i mod A * P * len /\ i mod A * P * len + P * len <= A * P * len) as [Ho Ho'] by nia.
  destruct Hrange as [R1 R2 R3 R4 R5 R6 R7 (M1 & M2 & M3 & M4)]. split; try lia. split_and!; try done.
  rewrite Hl8. replace (src + i mod A * P * (8 * (len / 8))) with (src + i mod A * P * (len / 8) * 8) by ring. by rewrite Z.mod_add.
Qed.

(** The words of turn i. *)
Notation group_at i := (group_number ax (reduce_dst i)).
Definition turn_sums (i u : Z) : list instruction :=
  word_sums (gather_dest axis_len comm_axis i) A (group_at i / 8) (group_at i mod 8) len comm_type size
    (src + i mod A * P * len + 1024 * 1024 + buf) (dst + 1024 * 1024) u.
Definition turn_write (i u : Z) : place * list (place * rns) :=
  (sum_target (group_at i / 8) (group_at i mod 8) (dst + 1024 * 1024) u,
   sum_sources (gather_dest axis_len comm_axis i) A len comm_type (src + i mod A * P * len + 1024 * 1024 + buf) u).

Lemma reduce_turn_words i v : 0 <= i < N * A -> coordinates ax v -> index_on 0 ax v = i / A ->
  reduce_turn_instructions axis_len comm_axis len comm_type buf size (v, reduce_dst i, src + i mod A * P * len, dst) =
  concat (map (turn_sums i) (seqZ 0 (len / 8))).
Proof using Hcube Htype Hrange.
  intros Hi Hv Hv0. destruct (gather_src_spec axis_len comm_axis Hcube i Hi) as (Hs & _). destruct (gather_indices axis_len comm_axis Hcube i Hi) as [H0 _].
  destruct reduce_sizes as (Hax & HA & HN & Hfit & _).
  unfold reduce_turn_instructions. rewrite (gather_products_eq axis_len comm_axis comm_type Hcube Htype). cbn [snd]. rewrite (group_ids_number _ _ Hcube) by done.
  assert (map (fun j => dest_ids ax v j 1 1 0 0) (seqZ 0 A) = map (gather_dest axis_len comm_axis i) (seqZ 0 A)) as ->.
  { apply map_ext_in. intros j Hj%list_elem_of_In%elem_of_seqZ. rewrite dest_ids_spec by (done || nia). rewrite Hv0, Z.div_1_r.
    destruct (unrank_spec ax (i / A) j Hax H0 ltac:(lia)) as (Hc & _). by apply (group_ids_number _ _ Hcube). }
  rewrite !map_map. apply reduce_rg_words; [intros; by apply Z.mod_pos_bound|by apply Z.mod_pos_bound|lia|by apply reduce_turn_range].
Qed.

Lemma reduce_turns_foldl l iter instructions : (forall i, i ∈ l -> 0 <= i < N * A) ->
  length iter.1 = length ax -> length iter.2 = length ax ->
  snd (foldl (fun '(iter, instructions) i => let t := reduce_turn axis_len comm_axis src dst len comm_type i iter in
    (fst (fst t), instructions ++ reduce_turn_instructions axis_len comm_axis len comm_type buf size t)) (iter, instructions) l) =
  instructions ++ concat (map (fun i => concat (map (turn_sums i) (seqZ 0 (len / 8)))) l).
Proof using Hcube Htype Hrange.
  revert iter instructions. induction l as [|i l IH]; intros iter instructions Hl Hv Hw; [by rewrite app_nil_r|].
  cbn [foldl map concat]. assert (0 <= i < N * A) as Hi by (apply Hl, elem_of_cons; by left).
  destruct (reduce_turn_eq i iter Hi Hv Hw) as (v & -> & Hcv & Hv0). cbn [fst]. destruct (gather_src_spec axis_len comm_axis Hcube i Hi) as (Hs & _).
  rewrite reduce_turn_words by done. rewrite IH; [by rewrite <- app_assoc| |symmetry; by eapply Forall2_length..].
  intros j Hj. apply Hl, elem_of_cons. by right.
Qed.

Lemma reduce_thread_eq n t : 0 < n < 2 ^ 32 -> 0 <= t < n ->
  thread_reduce_scatter_rns axis_len comm_axis src dst len comm_type buf size n t =
  concat (map (fun i => concat (map (turn_sums i) (seqZ 0 (len / 8))))
    (seqZ (fst (thread_span (N * A) n t)) (snd (thread_span (N * A) n t)))) /\
  forall i, i ∈ seqZ (fst (thread_span (N * A) n t)) (snd (thread_span (N * A) n t)) -> 0 <= i < N * A.
Proof using Hcube Htype Hrange.
  intros Hn Ht. destruct reduce_sizes as (_ & _ & _ & Hfit & _). pose proof (span_range (N * A) n t) as Hspan.
  unfold thread_reduce_scatter_rns. rewrite (gather_products_eq axis_len comm_axis comm_type Hcube Htype). cbn [fst].
  destruct (thread_span (N * A) n t) as [start count]. cbn [fst snd] in *.
  assert (forall i, i ∈ seqZ start count -> 0 <= i < N * A) as Hin by (intros i Hi; apply Hspan; (done || lia)). split; [|done].
  by rewrite reduce_turns_foldl by (done || cbn [fst snd]; by rewrite length_replicate, (length_group_axes _ _ Hcube)).
Qed.

(** *** The words of all the turns *)

Definition reduce_writes : list (place * list (place * rns)) := concat (map (fun i => map (turn_write i) (seqZ 0 (len / 8))) (seqZ 0 (N * A))).
(** The word u at the target of a group, and the word u of a block of a group. *)
Definition reduce_target (w : list Z) (u : Z) : place := (group_number ax w / 8, group_number ax w mod 8, dst + 1024 * 1024 + 8 * u).
Definition block_word (w : list Z) (j k u : Z) : place :=
  let g := group_number ax (unrank ax (index_on 0 ax w) j) in
  (g / 8, g mod 8, src + 1024 * 1024 + buf + (index_on 1 ax w * P + k) * len + 8 * u).
Definition block_words (w : list Z) (u : Z) : list (place * rns) :=
  concat (map (fun j => map (fun k => (block_word w j k u, pass_rns comm_type k)) (seqZ 0 P)) (seqZ 0 A)).

Lemma turn_write_eq i u : 0 <= i < N * A -> turn_write i u = (reduce_target (reduce_dst i) u, block_words (reduce_dst i) u).
Proof using Hcube.
  intros Hi. destruct (gather_src_spec axis_len comm_axis Hcube i Hi) as (_ & Hs0 & Hs1). unfold turn_write, reduce_target, block_words. f_equal.
  unfold sum_sources. f_equal. apply map_ext. intros j. apply map_ext. intros k. unfold sum_source, block_word, gather_dest. cbn [fst snd].
  rewrite Hs0, Hs1. f_equal. f_equal. lia.
Qed.

Lemma elem_of_reduce x : x ∈ reduce_writes <-> exists w u, coordinates ax w /\ 0 <= u < len / 8 /\ x = (reduce_target w u, block_words w u).
Proof using Hcube.
  destruct reduce_sizes as (Hax & HA & HN & _). unfold reduce_writes. rewrite list_elem_of_In, in_concat. split.
  - intros (l & (i & <- & Hi%list_elem_of_In%elem_of_seqZ)%in_map_iff & (u & <- & Hu%list_elem_of_In%elem_of_seqZ)%in_map_iff).
    destruct (gather_src_spec axis_len comm_axis Hcube i ltac:(lia)) as (Hs & _). exists (reduce_dst i), u. rewrite turn_write_eq by lia. split_and!; (done || lia).
  - intros (w & u & Hw & Hu & ->). pose proof (index_on_range 0 ax w Hw) as H0. pose proof (index_on_range 1 ax w Hw) as H1.
    set (i := index_on 0 ax w * A + index_on 1 ax w).
    assert (i / A = index_on 0 ax w) as E0 by (symmetry; apply (Z.div_unique _ _ _ (index_on 1 ax w)); [left|unfold i]; lia).
    assert (i mod A = index_on 1 ax w) as E1 by (symmetry; apply (Z.mod_unique _ _ (index_on 0 ax w)); [left|unfold i]; lia).
    eexists. split; [apply (in_map _ _ i), list_elem_of_In, elem_of_seqZ; unfold i; nia|].
    apply in_map_iff. exists u. split; [|apply list_elem_of_In, elem_of_seqZ; lia].
    rewrite turn_write_eq by (unfold i; nia). unfold gather_src. rewrite E0, E1. by rewrite unrank_of.
Qed.

Lemma reduce_target_ok w u : 0 <= u < len / 8 -> place_ok (reduce_target w u) /\
  dst + 1024 * 1024 <= snd (reduce_target w u) /\ snd (reduce_target w u) + 8 <= dst + 1024 * 1024 + len.
Proof using Hrange.
  intros Hu. destruct reduce_blocks as [_ Hl8]. destruct Hrange as [_ Rd Rl _ _ Re _ (_ & M2 & _)]. cbn [reduce_target snd].
  split; [|lia]. split; [by apply Z.mod_pos_bound|]. unfold fits. split; [lia|clear -M2; Z.div_mod_to_equations; lia].
Qed.

Lemma block_words_ok w u s : coordinates ax w -> 0 <= u < len / 8 -> s ∈ block_words w u ->
  place_ok s.1 /\ byte_rotation s.2 /\ src + 1024 * 1024 + buf <= snd s.1 /\ snd s.1 + 8 <= src + 1024 * 1024 + buf + A * P * len.
Proof using Hrange.
  intros Hw Hu Hs. pose proof (index_on_range 1 ax w Hw) as Hi. destruct reduce_blocks as [HP Hl8].
  apply list_elem_of_In, in_concat in Hs as (l & (j & <- & Hj)%in_map_iff & (k & <- & Hk%list_elem_of_In%elem_of_seqZ)%in_map_iff).
  cbn [fst snd block_word]. destruct Hrange as [Rs _ Rl Rb Re _ _ (M1 & _ & _ & M4)]. set (W := len / 8) in *. rewrite Hl8 in *.
  assert (k * W + u + 1 <= P * W) by nia. assert (index_on 1 ax w * P * W + P * W <= A * P * W) by nia.
  split_and!; [| |nia|nia].
  - split; [by apply Z.mod_pos_bound|]. rewrite Hl8. split; [unfold fits; nia|].
    replace (src + 1024 * 1024 + buf + (index_on 1 ax w * P + k) * (8 * W) + 8 * u) with
      (src + buf + ((index_on 1 ax w * P + k) * W + u + 131072) * 8) by ring. rewrite Z.mod_add by done. clear -M1 M4. Z.div_mod_to_equations. lia.
  - unfold nb_passes, pass_rns in *. destruct (comm_type =? 0); [|done]. cbn. split; [clear; Z.div_mod_to_equations; lia|lia].
Qed.

Lemma reduce_places : Forall (fun w : place * list (place * rns) => place_ok w.1) reduce_writes.
Proof using Hcube Hrange.
  apply Forall_forall. intros x (w & u & Hw & Hu & ->)%list_elem_of_In%elem_of_reduce. by apply reduce_target_ok.
Qed.
Lemma reduce_sources_ok : Forall (fun w : place * list (place * rns) => Forall (fun s : place * rns => place_ok s.1 /\ byte_rotation s.2) w.2) reduce_writes.
Proof using Hcube Hrange.
  apply Forall_forall. intros x (w & u & Hw & Hu & ->)%list_elem_of_In%elem_of_reduce. apply Forall_forall. intros s Hs%list_elem_of_In.
  by destruct (block_words_ok w u s Hw Hu Hs) as (H1 & H2 & _).
Qed.

Lemma reduce_nodup : NoDup (map fst reduce_writes).
Proof using Hcube.
  destruct reduce_sizes as (Hax & HA & HN & _). unfold reduce_writes. rewrite concat_map, map_map.
  assert (forall i i' u u', 0 <= i < N * A -> 0 <= i' < N * A -> (turn_write i u).1 = (turn_write i' u').1 -> i = i' /\ u = u') as Hinj.
  { intros i i' u u' Hi Hi' Heq. rewrite !turn_write_eq in Heq by done. cbn [fst] in Heq.
    destruct (gather_src_spec axis_len comm_axis Hcube i Hi) as (Hs & Hs0 & Hs1). destruct (gather_src_spec axis_len comm_axis Hcube i' Hi') as (Hs' & Hs0' & Hs1').
    assert (reduce_dst i = reduce_dst i') as E
      by (apply (group_place_inj axis_len comm_axis); try done; unfold group_rank, group_in_rank, reduce_target in *; congruence).
    split; [rewrite (Z.div_mod i A), (Z.div_mod i' A) by lia; congruence|]. unfold reduce_target in Heq. injection Heq. lia. }
  apply NoDup_concat_map; [apply NoDup_seqZ| |].
  - intros i Hi%elem_of_seqZ. rewrite map_map. change (NoDup ((fun u => (turn_write i u).1) <$> seqZ 0 (len / 8))).
    apply NoDup_fmap_2_strong; [|apply NoDup_seqZ]. intros u u' _ _ Heq. by apply (Hinj i i u u'); [lia..|].
  - intros i i' x Hi%elem_of_seqZ Hi'%elem_of_seqZ Hx Hx'. rewrite map_map in Hx, Hx'.
    apply list_elem_of_fmap in Hx as (u & -> & _). apply list_elem_of_fmap in Hx' as (u' & Heq & _). by apply (Hinj i i' u u'); [lia..|].
Qed.

(** *** What the threads store *)

Lemma word_hypotheses i : 0 <= i < N * A ->
  (forall j, 0 <= j < A -> 0 <= snd (reduce_source i j) < 8) /\ 0 <= group_at i mod 8 < 8 /\ 0 <= A /\ (0 <= len /\ len mod 8 = 0) /\
  (let src0 := src + i mod A * P * len + 1024 * 1024 + buf in 0 <= src0 /\ src0 mod 8 = 0 /\ src0 + P * len <= 2 ^ 26) /\
  (let dst0 := dst + 1024 * 1024 in 0 <= dst0 /\ dst0 mod 8 = 0 /\ dst0 + len <= 2 ^ 26).
Proof using Hcube Hrange.
  intros Hi. destruct (reduce_turn_range i Hi) as [R1 R2 R3 R4 R5 R6 _ (M1 & M2 & M3 & M4)]. destruct reduce_sizes as (_ & HA & _).
  cbv zeta. split_and!; try lia; try done; try (by apply Z.mod_pos_bound).
  - intros j _. by apply Z.mod_pos_bound.
  - clear -M1 M4. generalize dependent (src + i mod A * P * len). intros x Hx. Z.div_mod_to_equations. lia.
  - clear -M2. Z.div_mod_to_equations. lia.
Qed.

Lemma turn_sums_solo m regs i u : 0 <= i < N * A -> 0 <= u < len / 8 ->
  solo sum_machine m regs (turn_sums i u) = [sum_write size m (turn_write i u)].
Proof using Hcube Hrange.
  intros Hi Hu. destruct (word_hypotheses i Hi) as (H1 & H2 & H3 & H4 & H5 & H6).
  pose proof (word_lines (gather_dest axis_len comm_axis i) A (group_at i mod 8) len comm_type _ _ H1 H2 H3 H4 H5 H6 u Hu) as Hlines.
  unfold turn_sums, word_sums. change iteration with 1. unfold turn_write, sum_write, summed, place_write. cbn [fst snd]. rewrite <- Hlines.
  destruct (comm_type =? 0); [apply RNS_SUM_RS_solo|apply S_SUM_RS_solo].
Qed.

Lemma turn_sums_reads i u a l : 0 <= i < N * A -> 0 <= u < len / 8 -> a ∈ turn_sums i u -> reads sum_machine a = Some l ->
  exists s, s ∈ block_words (reduce_dst i) u /\ l = line_of s.1.
Proof using Hcube Hrange.
  intros Hi Hu Ha Hr. destruct (word_hypotheses i Hi) as (H1 & H2 & H3 & H4 & H5 & H6).
  pose proof (word_lines (gather_dest axis_len comm_axis i) A (group_at i mod 8) len comm_type _ _ H1 H2 H3 H4 H5 H6 u Hu) as Hlines.
  pose proof (f_equal snd (turn_write_eq i u Hi)) as Hw. cbn [snd turn_write] in Hw. rewrite <- Hw.
  assert (l ∈ map fst (lines_of (sum_sources (gather_dest axis_len comm_axis i) A len comm_type (src + i mod A * P * len + 1024 * 1024 + buf) u))) as Hin.
  { rewrite <- Hlines. unfold turn_sums, word_sums in Ha. change iteration with 1 in Ha.
    destruct (comm_type =? 0); [by eapply RNS_SUM_reads|by eapply S_SUM_reads]. }
  unfold lines_of in Hin. rewrite map_map in Hin. apply list_elem_of_fmap in Hin as (s & -> & Hs). by exists s.
Qed.

Section Spans.
Variable n : Z.
Hypothesis Hn : 0 < n < 2 ^ 32.
Notation threads := (map (thread_reduce_scatter_rns axis_len comm_axis src dst len comm_type buf size n) (seqZ 0 n)).

Lemma sum_write_lines m : concat (map (fun i => concat (map (fun u => [sum_write size m (turn_write i u)]) (seqZ 0 (len / 8)))) (seqZ 0 (N * A))) =
  map (sum_write size m) reduce_writes.
Proof using Type.
  unfold reduce_writes. rewrite concat_map, map_map. f_equal. apply map_ext. intros i. rewrite map_map.
  induction (seqZ 0 (len / 8)) as [|u l IH]; [done|]. cbn [map concat app]. by rewrite IH.
Qed.

Lemma reduce_threads_writes tr regs m : interleaves tr threads -> bytes m -> exists lines,
  Permutation lines (map (sum_write size m) reduce_writes) /\ host_mem (run_machine sum_machine tr (mk_host regs m)) = write_lines m lines.
Proof using All.
  intros Htr Hm. destruct reduce_sizes as (_ & _ & _ & Hfit & _). rewrite <- sum_write_lines.
  rewrite (map_ext_in _ _ _ (fun t Ht => proj1 (reduce_thread_eq n t Hn (proj1 (elem_of_seqZ 0 n t) (proj2 (list_elem_of_In _ _) Ht))))) in Htr.
  apply (turns_interleaved sum_machine (N * A) n (len / 8) turn_sums (fun i u => [sum_write size m (turn_write i u)]) m Hn ltac:(lia)); [..|exact Htr].
  - intros i u r Hi Hu. by apply turn_sums_solo.
  - intros i u a l Hi Hu Ha Hr. destruct (turn_sums_reads i u a l Hi Hu Ha Hr) as (s & Hs & ->).
    destruct (gather_src_spec axis_len comm_axis Hcube i Hi) as (Hc & _). destruct (block_words_ok _ u s Hc Hu Hs) as (Hp & _ & H1 & H2).
    split; [by apply line_of_aligned|]. rewrite sum_write_lines. intros (w & Heq & (x & -> & (v & u' & Hv & Hu' & ->)%elem_of_reduce)%list_elem_of_fmap)%list_elem_of_fmap.
    destruct (reduce_target_ok v u' Hu') as (Hq & H3 & H4). cbn [sum_write place_write summed fst] in Heq.
    apply line_of_inj in Heq; [|done|done]. rewrite Heq in H1, H2. destruct Hrange as [_ _ _ _ _ _ Hap _]. lia.
  - rewrite sum_write_lines. apply (sum_writes_ok size m Hm reduce_writes reduce_places reduce_sources_ok reduce_nodup _ (Permutation_refl _)).
Qed.
End Spans.

(** *** The numbers of the DPUs *)

Section Numbers.
Variables (lines : list line_write) (m : regions).
Hypothesis Hlines : Permutation lines (map (sum_write size m) reduce_writes).
Hypothesis Hm : bytes m.

Lemma reduce_numbers w ci l : coordinates ax w -> 0 <= ci < 8 -> 0 <= l -> z * l < len ->
  mram_number z (write_lines m lines) (group_number ax w / 8) (group_number ax w mod 8) ci (dst + 1024 * 1024 + z * l) =
  sumZ (concat (map (fun j => map (fun k => let g := group_number ax (unrank ax (index_on 0 ax w) j) in
    mram_number z m (g / 8) (g mod 8) ((ci - k) mod 8) (src + 1024 * 1024 + buf + (index_on 1 ax w * P + k) * len + z * l)) (seqZ 0 P)) (seqZ 0 A)))
  mod 2 ^ (8 * z).
Proof using All.
  intros Hw Hc Hl Hlen. destruct reduce_blocks as [HP Hl8]. destruct (number_in_word size len l Hl8 Hl Hlen) as (u & l' & Hu & Hl' & Hzl).
  assert ((reduce_target w u, block_words w u) ∈ reduce_writes) as Hin by (apply elem_of_reduce; by exists w, u).
  pose proof (sum_writes_hit size m Hm reduce_writes reduce_places reduce_sources_ok reduce_nodup lines Hlines _ ci l' Hin Hc Hl') as H.
  cbn [fst snd reduce_target] in H. rewrite Hzl, Z.add_assoc. rewrite H. f_equal. unfold block_words. f_equal.
  rewrite concat_map, map_map. f_equal. apply map_ext. intros j. rewrite map_map. apply map_ext_in. intros k Hk%list_elem_of_In%elem_of_seqZ.
  cbn [fst snd block_word]. f_equal; [|lia]. unfold pass_rns. f_equal. unfold nb_passes in Hk. destruct (comm_type =? 0); cbn [shift]; [|lia].
  rewrite (Z.mul_comm 8), Z.div_mul by done. done.
Qed.

Lemma reduce_others r rg ci a : 0 <= rg < 8 -> 0 <= ci < 8 -> fits 26 a ->
  a < dst + 1024 * 1024 \/ dst + 1024 * 1024 + len <= a -> mram_byte (write_lines m lines) r rg ci a = mram_byte m r rg ci a.
Proof using All.
  intros Hrg Hci Ha Hout. apply (sum_writes_other size m Hm reduce_writes reduce_places reduce_sources_ok reduce_nodup lines Hlines); try done.
  intros (x & Heq & (w & u & Hw & Hu & ->)%elem_of_reduce)%list_elem_of_fmap. cbn [fst] in Heq.
  destruct (reduce_target_ok w u Hu) as ((_ & _ & Hmod) & H1 & H2). rewrite <- Heq in H1, H2. cbn [snd] in H1, H2.
  unfold reduce_target in Heq. injection Heq as _ _ Ha'. rewrite <- Ha' in Hmod.
  clear -Hout H1 H2. Z.div_mod_to_equations. lia.
Qed.
End Numbers.
End Exchange.

Lemma hw_reduce_threads `{R : Rotations} `{!RotationsSpec R} `{I : Intrinsics} `{!IntrinsicsSpec I} `{V : Combinations} `{!CombinationsSpec V}
    axis_len comm_axis src dst len comm_type buf size threads tr regs m :
  hypercube axis_len comm_axis -> comm_type = (if comm_axis.[0] =? 1 then 0 else 1) ->
  reduce_range src dst len buf (size_on 1 (group_axes axis_len comm_axis) * nb_passes comm_type) ->
  hw_reduce_scatter_rns axis_len comm_axis src dst len comm_type buf size = Some threads -> interleaves tr threads -> bytes m ->
  exists lines, Permutation lines (map (sum_write size m) (reduce_writes axis_len comm_axis src dst len comm_type buf)) /\
    host_mem (run_machine sum_machine tr (mk_host regs m)) = write_lines m lines.
Proof.
  intros Hc Ht Hr Hhw Htr Hm. unfold hw_reduce_scatter_rns in Hhw. destruct (8 <=? _); [|done]. apply (inj Some) in Hhw as <-.
  by apply (reduce_threads_writes axis_len comm_axis src dst len comm_type buf size Hc Ht Hr thread_num).
Qed.

(** ** Properties *)

(** C13: whatever the interleaving of the accesses of the 32 threads, a
    reduce-scatter exchange of the host stores, for every DPU, the sum of its
    blocks in all the groups of its axes, number by number and modulo the width of
    the numbers: in the exchange along the first axis, the k-th of its blocks is
    taken from the interface k before its own; and nothing else in the MRAMs
    changes. *)
Theorem reduce_scatter_sums `{R : Rotations} `{!RotationsSpec R} `{I : Intrinsics} `{!IntrinsicsSpec I} `{V : Combinations} `{!CombinationsSpec V}
    axis_len comm_axis src dst len comm_type buf size threads tr regs m :
  hypercube axis_len comm_axis -> comm_type = (if comm_axis.[0] =? 1 then 0 else 1) ->
  let ax := group_axes axis_len comm_axis in let P := nb_passes comm_type in let A := size_on 1 ax in
  reduce_range src dst len buf (A * P) ->
  hw_reduce_scatter_rns axis_len comm_axis src dst len comm_type buf size = Some threads -> interleaves tr threads -> bytes m ->
  let m' := host_mem (run_machine sum_machine tr (mk_host regs m)) in let width := lane_bytes size in
  (forall w ci l, coordinates ax w -> 0 <= ci < 8 -> 0 <= l -> width * l < len ->
    mram_number width m' (group_number ax w / 8) (group_number ax w mod 8) ci (dst + 1024 * 1024 + width * l) =
    sumZ (concat (map (fun j => map (fun k => let g := group_number ax (unrank ax (index_on 0 ax w) j) in
      mram_number width m (g / 8) (g mod 8) ((ci - k) mod 8) (src + 1024 * 1024 + buf + (index_on 1 ax w * P + k) * len + width * l))
      (seqZ 0 P)) (seqZ 0 A))) mod 2 ^ (8 * width)) /\
  (forall r rg ci a, 0 <= rg < 8 -> 0 <= ci < 8 -> fits 26 a -> a < dst + 1024 * 1024 \/ dst + 1024 * 1024 + len <= a ->
    mram_byte m' r rg ci a = mram_byte m r rg ci a).
Proof.
  intros Hc Ht ax P A Hr Hhw Htr Hm m' width.
  destruct (hw_reduce_threads _ _ _ _ _ _ _ _ _ tr regs m Hc Ht Hr Hhw Htr Hm) as (lines & Hl & Hrun). subst m'. rewrite Hrun. split.
  - intros w ci l Hw Hci H0 Hlen. by apply (reduce_numbers axis_len comm_axis src dst len comm_type buf size Hc Ht Hr lines m Hl Hm).
  - intros r rg ci a Hrg Hci Ha Hout. by apply (reduce_others axis_len comm_axis src dst len comm_type buf size Hc Ht Hr lines m Hl Hm).
Qed.

Lemma sample_reduce_range : reduce_range 0 8192 64 4096 16.
Proof. split; try done. by left. Qed.

Lemma reduce_scatter_sums_witness : exists threads tr,
  hw_reduce_scatter_rns [16; 8] [1; 0] 0 8192 64 0 4096 4 = Some threads /\ interleaves tr threads /\
  let m' := host_mem (run_machine (@sum_machine documented_rotations computed_intrinsics documented_combinations) tr (mk_host (fun _ _ => []) sample_regions)) in
  mram_number 4 m' 0 1 5 (1024 * 1024 + 8192 + 12) =
  sumZ (concat (map (fun j => map (fun k => mram_number 4 sample_regions 0 j ((5 - k) mod 8) (1024 * 1024 + 4096 + (8 + k) * 64 + 12)) (seqZ 0 8)) [0; 1])) mod 2 ^ 32.
Proof.
  eexists. destruct (interleaves_exists (map (thread_reduce_scatter_rns [16; 8] [1; 0] 0 8192 64 0 4096 4 thread_num) (seqZ 0 thread_num))) as [tr Htr].
  exists tr. split; [reflexivity|]. split; [exact Htr|].
  destruct (@reduce_scatter_sums documented_rotations documented_rotations_spec computed_intrinsics computed_intrinsics_spec documented_combinations
    documented_combinations_spec [16; 8] [1; 0] 0 8192 64 0 4096 4 _ tr (fun _ _ => []) sample_regions
    sample_hypercube eq_refl sample_reduce_range eq_refl Htr sample_bytes) as [H _].
  exact (H [1; 0] 5 3 ltac:(repeat constructor; cbn; lia) ltac:(lia) ltac:(lia) ltac:(vm_compute; reflexivity)).
Defined.
