(* ===== verification/PidReduceScatter.v ===== *)
(** * The reduce-scatter exchange of a set of DPUs

    Model of [reduce_scatter] and [pidcomm_reduce_scatter] of
    [src/api/src/api/dpu_memory.c]: a program of PidKernel.v, compiled for numbers
    of 8 or of 32 bits, puts the blocks of every DPU in the buffer, turned for the
    exchange of the host of PidReduce.v, which sums them at the target. The words
    that the host reads between and after are read and dropped. *)

From stdpp Require Import relations functions.
From S2P Require Import Prelude CMonad Rank XeonInterleave XeonSg XeonBank DpuSet DpuGroups Interleave PidComm PidMachine PidAccess PidThreads PidKernel PidAllToAll PidGather PidAllGather PidSum PidWrites PidReduce.

#[local] Open Scope Z_scope.
#[local] Open Scope dpu_scope.

(** [DPU_BINARY_RELOCATE_*_INT8] or [DPU_BINARY_RELOCATE_*_INT32]: the width of their numbers. *)
Definition sizeof_program (size : Z) : Z := if size =? 1 then 1 else 4.

(** [dpu_argument[i].each_dpu = i] in the loop over the DPUs. *)
Definition set_each_dpu (dpu_argument : Z -> dpu_arguments_comm_t) (order : list (Z * dpu_set_t)) : Z -> dpu_arguments_comm_t :=
  foldl (fun args '(i, _) => fun j => if j =? i
    then mk_args (da_start_offset (args j)) (da_target_offset (args j)) (da_total_data_size (args j)) (da_num_comm_dpu (args j)) i
      (da_no_rotate (args j)) (da_num_row (args j)) (da_comm_type (args j)) (da_a_length (args j)) (da_num_comm_rg (args j))
    else args j) dpu_argument order.

Section Call.
Context `{D : DpuRuntime} `{R : Rotations} `{I : Intrinsics} `{V : Combinations}.
Variables (store : rank_ptr -> rank) (fuel : nat) (heap : Z) (allocated : Z -> dpu_arguments_comm_t).

(** The program run before the exchange, which puts the blocks in the buffer.
    [DPU_BINARY_RELOCATE_MODIFIED_REVERSE_CLOCKWISE_INT8] names the same binary as
    the one for 32 bits (dpu_memory.c:890). *)
Definition relocate_before (ranks : list rank_ptr) (order : list (Z * dpu_set_t)) (nr_dpus : Z) (axis_len comm_axis : list Z)
    (num_comm_rg total_data_size start_offset buffer_offset size : Z) (m m' : regions) : Prop :=
  let comm_type := comm_type_of comm_axis in
  let num_comm_dpu := num_comm_dpu_of (zip axis_len comm_axis) in
  let sizeof_T := sizeof_program size in
  let set_arg no_rotate a_length := set_argument start_offset (u32 (start_offset + buffer_offset)) total_data_size num_comm_dpu no_rotate
    comm_type a_length in
  if modified_case axis_len comm_axis then
    launched ranks (data_relocate_modified_reverse_clockwise 4 heap) order
      (fill_arguments nr_dpus (fun i a => set_num_comm_rg 2 (set_arg false 2 i a)) allocated) m m'
  else if (axis_len.[0] <? 8) && ((num_comm_rg <? 8) && (1 <? num_comm_rg)) then
    launched ranks (data_relocate_clockwise_short sizeof_T heap) order
      (fill_arguments nr_dpus (fun i a => set_num_comm_rg num_comm_rg (set_arg false axis_len.[0] i a)) allocated) m m'
  else if comm_type =? 0 then
    launched ranks (data_relocate_clockwise sizeof_T heap) order
      (fill_arguments nr_dpus (fun i a => set_num_comm_rg num_comm_rg (set_arg false axis_len.[0] i a)) allocated) m m'
  else
    launched ranks (data_relocate_clockwise sizeof_T heap) order
      (set_each_dpu (fill_arguments nr_dpus (fun i a => set_arg true axis_len.[0] (da_each_dpu a) a) allocated) order) m m'.

Definition reduce_scatter (axis_len comm_axis : list Z) (src_start_offset dst_start_offset byte_length comm_type communication_buffer_offset size : Z)
    (m m' : regions) : Prop :=
  exists threads tr regs, hw_reduce_scatter_rns axis_len comm_axis src_start_offset dst_start_offset byte_length comm_type
      communication_buffer_offset size = Some threads /\
    interleaves tr threads /\ m' = host_mem (run_machine sum_machine tr (mk_host regs m)).

Definition pidcomm_reduce_scatter (manager : hypercube_manager) (comm : list Z)
    (total_data_size start_offset target_offset buffer_offset size : Z) (m m' : regions) : Prop :=
  let dpu_set := hm_dpu_set manager in
  let axis_len := hm_axis_len manager in
  let comm_axis := comm_axis_of (hm_dimension manager) comm in
  let num_comm_dpu := num_comm_dpu_of (zip axis_len comm_axis) in
  exists nr_dpus order num_comm_rg m1,
    dpu_get_nr_dpus store dpu_set = Ok nr_dpus /\
    DPU_FOREACH_ENTANGLED_GROUP store fuel dpu_set nr_dpus = Some order /\
    num_comm_rg_unbounded (zip axis_len comm_axis) 1 1 = Some num_comm_rg /\
    relocate_before (ranks_of_set dpu_set) order nr_dpus axis_len comm_axis num_comm_rg total_data_size start_offset buffer_offset size m m1 /\
    reduce_scatter axis_len comm_axis start_offset target_offset (total_data_size / num_comm_dpu) (comm_type_of comm_axis) buffer_offset size m1 m'.
End Call.

(** The areas of a call: [n] blocks at the source and in the buffer, one at the target. *)
Record reduce_call_range (heap len n start_offset target_offset buffer_offset size : Z) : Prop := {
  rc_heap : heap = 1024 * 1024;
  rc_buffer : buffer_range (sizeof_program size) heap len n start_offset (start_offset + buffer_offset);
  rc_exchange : reduce_range start_offset target_offset len buffer_offset n;
}.

(** ** Sums in another order *)

Lemma sumZ_concat ls : sumZ (concat ls) = sumZ (map sumZ ls).
Proof. induction ls as [|l ls IH]; [done|]. cbn [concat map]. rewrite sumZ_app, IH. done. Qed.

Lemma sumZ_rotated (f : Z -> Z) c : 0 <= c < 8 -> sumZ (map (fun k => f ((c - k) mod 8)) (seqZ 0 8)) = sumZ (map f (seqZ 0 8)).
Proof.
  intros Hc. assert (c = 0 \/ c = 1 \/ c = 2 \/ c = 3 \/ c = 4 \/ c = 5 \/ c = 6 \/ c = 7) as Hcs by lia. clear Hc.
  change (seqZ 0 8) with [0; 1; 2; 3; 4; 5; 6; 7]. unfold sumZ. cbn [map foldr].
  destruct_or! Hcs; subst c; repeat (match goal with |- context [(?a - ?b) mod 8] => let v := eval vm_compute in ((a - b) mod 8) in change ((a - b) mod 8) with v end); lia.
Qed.

Section Result.
Context `{D : DpuRuntime} `{!DpuRuntimeSpec D} `{R : Rotations} `{!RotationsSpec R} `{I : Intrinsics} `{!IntrinsicsSpec I} `{V : Combinations} `{!CombinationsSpec V}.
Variables (store : rank_ptr -> rank) (fuel : nat) (heap : Z) (allocated : Z -> dpu_arguments_comm_t).
Variables (ranks : list rank_ptr) (axis_len comm_axis : list Z) (len start target buf size : Z).
Notation full := (zip axis_len comm_axis).
Notation ax := (group_axes axis_len comm_axis).
Notation comm_type := (comm_type_of comm_axis).
Notation P := (nb_passes comm_type).
Notation n := (size_on 1 ax * P).
Notation nr_dpus := (8 * nb_groups ax).
Notation sizeof_T := (sizeof_program size).
Hypothesis Hcube : hypercube axis_len comm_axis.
Hypothesis Hset : whole_set store fuel ranks nr_dpus.
Hypothesis Hrange : reduce_call_range heap len n start target buf size.

(** *** The program *)

Definition reduce_argument (each_dpu : Z) (a : dpu_arguments_comm_t) : dpu_arguments_comm_t :=
  if comm_type =? 0
  then set_num_comm_rg 8 (set_argument start (start + buf) (n * len) n false comm_type axis_len.[0] each_dpu a)
  else set_argument start (start + buf) (n * len) n true comm_type axis_len.[0] each_dpu a.
(** Where the blocks go. *)
Definition reduce_dest (i t : Z) : Z := if comm_type =? 0 then t / 8 * 8 + (t - i) mod 8 else t.

Lemma reduce_argument_range i a : kernel_range sizeof_T heap len (reduce_argument i a).
Proof using Hcube Hrange.
  clear allocated. pose proof (num_positive axis_len comm_axis Hcube) as Hn. destruct (rc_buffer _ _ _ _ _ _ _ Hrange) as [Hsz Hh Hl (Hf0 & Hf8 & Hf) (Ht0 & Ht8 & Ht) _ _].
  unfold reduce_argument. destruct (comm_type =? 0);
    split; cbn [set_num_comm_rg set_argument da_num_comm_dpu da_total_data_size da_start_offset da_target_offset]; try done; lia.
Qed.

Lemma reduce_argument_moves i j a : (comm_type = 0 -> j = i) ->
  relocates heap len (reduce_argument j a) (data_relocate_clockwise sizeof_T heap (reduce_argument j a)) (reduce_dest i).
Proof using Hcube Hrange.
  intros Hj. pose proof (rc_buffer _ _ _ _ _ _ _ Hrange) as Hbuf.
  assert (heap + start = heap + (start + buf) \/ disjoint (heap + start) (n * len) (heap + (start + buf)) (n * len)) as Hap
    by (destruct (br_apart _ _ _ _ _ _ Hbuf); [left; lia|by right]).
  pose proof (clockwise_moves sizeof_T heap len _ (reduce_argument_range j a)) as H. unfold reduce_argument, reduce_dest in *.
  destruct (Z.eqb_spec comm_type 0) as [Ht|Ht].
  - assert (n mod 8 = 0) as Hn8 by (rewrite Ht; change (nb_passes 0) with 8; apply Z.mod_mul; lia).
    cbn [set_num_comm_rg set_argument da_num_comm_dpu da_start_offset da_target_offset] in H. rewrite (Hj Ht) in *.
    specialize (H (or_introl Hn8) Hap). unfold placed, clockwise_group, rotated in H.
    cbn [set_num_comm_rg set_argument da_num_comm_dpu da_each_dpu da_no_rotate] in H. rewrite Hn8 in H. exact H.
  - cbn [set_argument da_num_comm_dpu da_start_offset da_target_offset] in H. exact (H (br_count _ _ _ _ _ _ Hbuf) Hap).
Qed.

(** The arguments of the DPUs: on the other axes, each number is set in the loop. *)
Definition reduce_arguments : Z -> dpu_arguments_comm_t :=
  if comm_type =? 0 then fill_arguments nr_dpus reduce_argument allocated
  else set_each_dpu (fill_arguments nr_dpus (fun _ a => reduce_argument (da_each_dpu a) a) allocated) (group_order ranks).

Lemma set_each_dpu_at args order i : exists j, set_each_dpu args order i =
  mk_args (da_start_offset (args i)) (da_target_offset (args i)) (da_total_data_size (args i)) (da_num_comm_dpu (args i)) j
    (da_no_rotate (args i)) (da_num_row (args i)) (da_comm_type (args i)) (da_a_length (args i)) (da_num_comm_rg (args i)).
Proof using Type.
  clear. unfold set_each_dpu. revert args. induction order as [|[i0 d] order IH]; intros args; cbn [foldl].
  - exists (da_each_dpu (args i)). by destruct (args i).
  - destruct (IH (fun j => if j =? i0 then mk_args (da_start_offset (args j)) (da_target_offset (args j)) (da_total_data_size (args j))
      (da_num_comm_dpu (args j)) i0 (da_no_rotate (args j)) (da_num_row (args j)) (da_comm_type (args j)) (da_a_length (args j)) (da_num_comm_rg (args j))
      else args j)) as [j ->]. exists j. by destruct (i =? i0).
Qed.

Lemma reduce_arguments_at i : 0 <= i < nr_dpus -> exists j a, reduce_arguments i = reduce_argument j a /\ (comm_type = 0 -> j = i).
Proof using Hcube.
  intros Hi. unfold reduce_arguments. destruct (Z.eqb_spec comm_type 0) as [Ht|Ht].
  - exists i, (allocated i). split; [|done]. by apply (filled axis_len comm_axis).
  - destruct (set_each_dpu_at (fill_arguments nr_dpus (fun _ a => reduce_argument (da_each_dpu a) a) allocated) (group_order ranks) i) as [j ->].
    rewrite (filled axis_len comm_axis) by done. exists j, (allocated i). split; [|done].
    unfold reduce_argument. by rewrite (proj2 (Z.eqb_neq _ _) Ht).
Qed.

Lemma reduce_programs : forall k rg ci, in_set ranks k rg ci -> let i := dpu_number k rg ci in
  relocates heap len (reduce_arguments i) (data_relocate_clockwise sizeof_T heap (reduce_arguments i)) (reduce_dest i).
Proof using Hcube Hrange Hset.
  intros k rg ci Hin i. pose proof (number_in_range store fuel ranks axis_len comm_axis Hset k rg ci Hin) as Hi.
  destruct (reduce_arguments_at i Hi) as (j & a & -> & Hj). by apply reduce_argument_moves.
Qed.

Lemma buffered_bytes m m1 k rg ci : launched ranks (data_relocate_clockwise sizeof_T heap) (group_order ranks) reduce_arguments m m1 -> in_set ranks k rg ci ->
  (forall t x, 0 <= t < n -> 0 <= x < len ->
    mram_byte m1 k rg ci (heap + (start + buf) + reduce_dest (dpu_number k rg ci) t * len + x) = mram_byte m k rg ci (heap + start + t * len + x)) /\
  (forall x, fits 26 x -> x < heap + (start + buf) \/ heap + (start + buf) + n * len <= x -> mram_byte m1 k rg ci x = mram_byte m k rg ci x).
Proof using Hcube Hrange Hset DpuRuntimeSpec0.
  intros Hl Hin. destruct (br_target _ _ _ _ _ _ (rc_buffer _ _ _ _ _ _ _ Hrange)) as (Ht0 & _ & Ht1).
  destruct (br_heap _ _ _ _ _ _ (rc_buffer _ _ _ _ _ _ _ Hrange)) as [Hh _].
  pose proof (launched_moves ranks _ heap len reduce_arguments reduce_dest (ws_nodup _ _ _ _ Hset) reduce_programs m m1 k rg ci Hl Hin) as H.
  cbv zeta in H. pose proof (number_in_range store fuel ranks axis_len comm_axis Hset k rg ci Hin) as Hi.
  destruct (reduce_arguments_at _ Hi) as (j & a & E & _). rewrite E in H.
  assert (da_num_comm_dpu (reduce_argument j a) = n /\ da_start_offset (reduce_argument j a) = start /\
    da_target_offset (reduce_argument j a) = start + buf) as (E1 & E2 & E3) by (unfold reduce_argument; destruct (comm_type =? 0); done).
  rewrite E1, E2, E3 in H. destruct H as [Hm Ho]. split; [|exact Ho].
  intros t x Ht Hx. apply Hm; [done|done|].
  assert (0 <= reduce_dest (dpu_number k rg ci) t < n) as Hd.
  { unfold reduce_dest. destruct (Z.eqb_spec comm_type 0) as [Htp|]; [|done].
    assert (n mod 8 = 0) as Hn8 by (rewrite Htp; change (nb_passes 0) with 8; apply Z.mod_mul; lia).
    exact (rotated_range 8 (fun t => t - dpu_number k rg ci) t n ltac:(lia) Hn8 Ht). }
  unfold fits. nia.
Qed.

(** *** The steps of the call *)

Variable comm : list Z.
Hypothesis Hcomm : comm_axis_of (lenz axis_len) comm = comm_axis.
Notation manager := (init_hypercube_manager (DPU_SET_RANKS ranks) (lenz axis_len) axis_len).
Notation the_call := (pidcomm_reduce_scatter store fuel heap allocated manager comm (n * len) start target buf size).
Notation buffered := (launched ranks (data_relocate_clockwise sizeof_T heap) (group_order ranks) reduce_arguments).

Lemma relocate_before_eq m m1 :
  relocate_before heap allocated ranks (group_order ranks) nr_dpus axis_len comm_axis (num_comm_rg_of full 1 1) (n * len) start buf size m m1 =
  buffered m m1.
Proof using Hcube Hrange.
  destruct (num_comm_dpu_eq axis_len comm_axis Hcube) as (Hn & _). pose proof (num_positive axis_len comm_axis Hcube) as Hpos.
  destruct (rc_buffer _ _ _ _ _ _ _ Hrange) as [_ (Hh & _) (Hl & _) _ (Hb0 & _ & Hb) _ _].
  unfold relocate_before. rewrite no_modified_case, Hn by done.
  assert (u32 (start + buf) = start + buf) as -> by (apply u32_id; unfold fits; assert (0 < n * len) by nia; lia).
  destruct (first_axis axis_len comm_axis Hcube) as (y & c & ys & cs & Hl' & _ & Hy & _).
  assert (axis_len.[0] <? 8 = false) as -> by (apply Z.ltb_ge; rewrite Hl'; change ((8 * y :: ys).[0]) with (8 * y); lia).
  cbn [andb]. unfold reduce_arguments, reduce_argument. destruct (Z.eqb_spec comm_type 0) as [Ht|Ht]; [by rewrite num_comm_rg_eq|done].
Qed.

Lemma reduce_steps m m' : the_call m m' <-> exists m1, buffered m m1 /\ reduce_scatter axis_len comm_axis start target len comm_type buf size m1 m'.
Proof using Hcube Hset Hrange Hcomm.
  pose proof (num_positive axis_len comm_axis Hcube) as Hpos. destruct (num_comm_dpu_eq axis_len comm_axis Hcube) as (Hn & _).
  pose proof (get_nr_dpus_full _ _ _ _ Hset) as Hnr. destruct Hset as [Hnd Hne Hct Ht He (Hsz & Hsz32 & Hfuel)].
  pose proof (fun c => groups_in_order store ranks ltac:(lia) Ht c fuel Hne He ltac:(lia)) as Horder.
  unfold pidcomm_reduce_scatter. cbn [ranks_of_set init_hypercube_manager hm_dpu_set hm_axis_len hm_dimension]. cbv zeta. rewrite Hcomm, Hn.
  replace (n * len / n) with len by (rewrite Z.mul_comm, Z.div_mul; lia). rewrite (num_comm_rg_bounded axis_len comm_axis Hcube). split.
  - intros (nr & order & rg & m1 & Hnr' & Hord & Hrg & Hpre & Hx). rewrite Hnr in Hnr'. injection Hnr' as <-.
    rewrite Horder in Hord. injection Hord as <-. injection Hrg as <-. rewrite relocate_before_eq in Hpre. by exists m1.
  - intros (m1 & Hpre & Hx). exists nr_dpus, (group_order ranks), (num_comm_rg_of full 1 1), m1. rewrite Horder. by rewrite relocate_before_eq.
Qed.

Lemma reduce_step m1 m' : bytes m1 -> reduce_scatter axis_len comm_axis start target len comm_type buf size m1 m' ->
  exists lines, Permutation lines (map (sum_write size m1) (reduce_writes axis_len comm_axis start target len comm_type buf)) /\ m' = write_lines m1 lines.
Proof using Hcube Hrange RotationsSpec0 IntrinsicsSpec0 CombinationsSpec0.
  intros Hm (threads & tr & regs & Hhw & Htr & ->).
  by apply (hw_reduce_threads _ _ _ _ _ _ _ _ threads tr regs m1 Hcube (type_eq comm_axis) (rc_exchange _ _ _ _ _ _ _ Hrange)).
Qed.

Lemma reduce_some m1 : exists m', reduce_scatter axis_len comm_axis start target len comm_type buf size m1 m'.
Proof using Hcube.
  destruct (first_axis axis_len comm_axis Hcube) as (y & c & ys & cs & Hl & _ & Hy & _).
  set (threads := map (thread_reduce_scatter_rns axis_len comm_axis start target len comm_type buf size thread_num) (seqZ 0 thread_num)).
  destruct (interleaves_exists threads) as [tr Htr].
  eexists. exists threads, tr, (fun _ _ => []). split; [|split; [exact Htr|reflexivity]]. unfold hw_reduce_scatter_rns. rewrite Hl at 1.
  change ((8 * y :: ys).[0]) with (8 * y). by rewrite (proj2 (Z.leb_le _ _)) by lia.
Qed.

(** A call always ends. *)
Lemma reduce_ends m : bytes m -> exists m', the_call m m'.
Proof using All.
  intros Hm.
  destruct (launched_exists ranks _ heap len reduce_arguments reduce_dest (ws_nodup _ _ _ _ Hset) reduce_programs m Hm) as [m1 H1].
  destruct (reduce_some m1) as [m' H2]. exists m'. apply reduce_steps. by exists m1.
Qed.

Lemma full_axes : axes_wf full /\ size_on 1 full = n.
Proof using Hcube.
  destruct (first_axis axis_len comm_axis Hcube) as (y & c & ys & cs & Hl & Hc & Hy & Hc01 & Hax' & Hwf). rewrite Hax'.
  destruct (type_first comm_axis c cs Hc Hc01) as [_ ->]. rewrite Hl, Hc.
  change (zip (8 * y :: ys) (c :: cs)) with ((8 * y, c) :: zip ys cs). split.
  - apply list_relations.list.Forall_cons. split; [cbn; lia|done].
  - cbn [size_on]. destruct (c =? 1); lia.
Qed.

(** The block of each DPU in the buffer, from the interface k before. *)
Lemma buffered_number m m1 Y X k l : buffered m m1 -> coordinates full Y -> coordinates full X ->
  index_on 0 full X = index_on 0 full Y -> interface_of X = (interface_of Y - k) mod 8 -> 0 <= k < P -> 0 <= l -> lane_bytes size * l < len ->
  let p := group_number full X in let g := group_number ax (group_of X) in
  mram_number (lane_bytes size) m1 (g / 8) (g mod 8) ((interface_of Y - k) mod 8)
    (start + 1024 * 1024 + buf + (index_on 1 ax (group_of Y) * P + k) * len + lane_bytes size * l) =
  mram_number (lane_bytes size) m (p / 64) (p mod 64 / 8) (p mod 8) (heap + start + index_on 1 full Y * len + lane_bytes size * l).
Proof using Hcube Hrange Hset DpuRuntimeSpec0.
  intros Hl HY HX Heq Hi Hk H0 Hlen p g. set (z := lane_bytes size) in *. destruct (lane_width size) as (Hz & _ & Hz8 & _). fold z in Hz, Hz8.
  destruct (place_of store fuel ranks axis_len comm_axis Hcube Hset X HX) as (Hp1 & Hp2 & Hp3 & Hin & Hnum).
  fold p g in Hp1, Hp2, Hp3, Hin, Hnum. rewrite Hp1, Hp2, Hp3, <- Hi.
  destruct (split_coordinates axis_len comm_axis Hcube Y HY) as (HgY & HiY & _ & HsY). pose proof (index_on_range 1 ax _ HgY) as HrY.
  destruct (buffered_bytes m m1 _ _ _ Hl Hin) as [Hbytes _]. rewrite Hnum in Hbytes.
  unfold mram_number. f_equal. apply map_ext_in. intros b Hb%list_elem_of_In%elem_of_seqZ.
  assert (z * l + b < len) as Hx.
  { destruct (rc_buffer _ _ _ _ _ _ _ Hrange) as [_ _ (_ & Hl8) _ _ _ _]. assert (len = z * (8 / z * (len / 8))) as El by (rewrite Z.mul_assoc, Hz8; Z.div_mod_to_equations; lia).
    clear -El Hlen Hb Hz. generalize dependent (8 / z * (len / 8)). intros W El. assert (l < W) by nia. nia. }
  assert (0 <= index_on 1 full Y < n /\ reduce_dest p (index_on 1 full Y) = index_on 1 ax (group_of Y) * P + k) as [Ht Hd].
  { unfold reduce_dest, nb_passes in *. destruct (comm_type =? 0); destruct HsY as [HY1 _].
    - split; [lia|]. rewrite HY1. rewrite <- Hp3 in Hi. clear -Hi Hk HiY. Z.div_mod_to_equations. lia.
    - split; [lia|]. lia. }
  pose proof (Hbytes (index_on 1 full Y) (z * l + b) Ht ltac:(nia)) as H. rewrite Hd in H.
  rewrite (rc_heap _ _ _ _ _ _ _ Hrange) in *. etrans; [|etrans; [exact H|]]; f_equal; lia.
Qed.

Lemma reduce_call_numbers m m' Y l : bytes m -> the_call m m' -> coordinates full Y -> 0 <= l -> lane_bytes size * l < len ->
  let q := group_number full Y in let z := lane_bytes size in
  mram_number z m' (q / 64) (q mod 64 / 8) (q mod 8) (heap + target + z * l) =
  sumZ (map (fun t => let p := group_number full (unrank full (index_on 0 full Y) t) in
    mram_number z m (p / 64) (p mod 64 / 8) (p mod 8) (heap + start + index_on 1 full Y * len + z * l)) (seqZ 0 n)) mod 2 ^ (8 * z).
Proof using All.
  intros Hm Hcall HY H0 Hlen q z. apply reduce_steps in Hcall as (m1 & H1 & H2). assert (bytes m1) as Hb1 by apply H1.
  destruct (reduce_step m1 m' Hb1 H2) as (lines & Hlines & ->).
  destruct (place_of store fuel ranks axis_len comm_axis Hcube Hset Y HY) as (Hq1 & Hq2 & Hq3 & _ & _). fold q in Hq1, Hq2, Hq3. rewrite Hq1, Hq2, Hq3.
  destruct (split_coordinates axis_len comm_axis Hcube Y HY) as (HgY & HiY & _ & HsY).
  pose proof (reduce_numbers axis_len comm_axis start target len comm_type buf size Hcube (type_eq comm_axis) (rc_exchange _ _ _ _ _ _ _ Hrange)
    lines m1 Hlines Hb1 (group_of Y) (interface_of Y) l HgY HiY H0 Hlen) as Hsum. fold z in Hsum.
  etrans; [|etrans; [exact Hsum|]].
  { f_equal. rewrite (rc_heap _ _ _ _ _ _ _ Hrange). lia. }
  f_equal. set (F t := mram_number z m (group_number full (unrank full (index_on 0 full Y) t) / 64)
    (group_number full (unrank full (index_on 0 full Y) t) mod 64 / 8) (group_number full (unrank full (index_on 0 full Y) t) mod 8)
    (heap + start + index_on 1 full Y * len + z * l)).
  pose proof (proj1 (passes_pos comm_type)) as HP. destruct Hcube as [_ _ _ Hax _ _]. pose proof (size_on_pos 1 ax Hax) as HA.
  rewrite <- (seqZ_blocks (fun _ => F)) by lia. rewrite !sumZ_concat, !map_map. f_equal. apply map_ext_in. intros j Hj%list_elem_of_In%elem_of_seqZ.
  destruct full_axes as [Hfull Hsize]. pose proof (index_on_range 0 full Y HY) as Hx0.
  assert (forall k t, 0 <= k < P -> 0 <= t < n -> (if comm_type =? 0 then t = 8 * j + (interface_of Y - k) mod 8 else t = j /\ k = 0) ->
    mram_number z m1 (group_number ax (unrank ax (index_on 0 ax (group_of Y)) j) / 8) (group_number ax (unrank ax (index_on 0 ax (group_of Y)) j) mod 8)
      ((interface_of Y - k) mod 8) (start + 1024 * 1024 + buf + (index_on 1 ax (group_of Y) * P + k) * len + z * l) = F t) as Hterm.
  { intros k t Hk Ht Hkt. destruct (unrank_spec full (index_on 0 full Y) t Hfull Hx0 ltac:(lia)) as (HX & HX0 & HX1). unfold F.
    set (X := unrank full (index_on 0 full Y) t) in *. clearbody X.
    destruct (split_coordinates axis_len comm_axis Hcube X HX) as (HgX & HiX & _ & HsX).
    assert (interface_of X = (interface_of Y - k) mod 8 /\ index_on 1 ax (group_of X) = j /\ index_on 0 ax (group_of X) = index_on 0 ax (group_of Y)) as (H3 & <- & <-).
    { clear -HsX HsY Hkt HX0 HX1 HiX HiY. destruct (comm_type =? 0); destruct HsX as [A1 A0], HsY as [B1 B0];
        [|destruct Hkt as [-> ->]]; Z.div_mod_to_equations; lia. }
    rewrite unrank_of by done. by apply buffered_number. }
  destruct (passes_pos comm_type) as [_ [[Ht HPt]|[Ht HPt]]]; rewrite HPt in *.
  - rewrite (proj2 (Z.eqb_eq _ _) Ht) in Hterm. rewrite (map_ext_in _ (fun k => F (8 * j + (interface_of Y - k) mod 8))).
    + rewrite (sumZ_rotated (fun ci => F (8 * j + ci))) by done. rewrite (Z.mul_comm j). rewrite <- (map_map (Z.add (8 * j)) F). do 2 f_equal.
      rewrite <- (Z.add_0_r (8 * j)) at 2. apply (fmap_add_seqZ (8 * j) 0 8).
    + intros k Hk%list_elem_of_In%elem_of_seqZ. pose proof (Z.mod_pos_bound (interface_of Y - k) 8 ltac:(lia)). apply Hterm; [lia|nia|done].
  - rewrite (proj2 (Z.eqb_neq _ _) Ht) in Hterm. rewrite !seqZ_1. cbn [map]. do 2 f_equal. apply Hterm; [lia|lia|]. split; [lia|done].
Qed.

Lemma reduce_call_others m m' k rg ci x : bytes m -> the_call m m' -> 0 <= rg < 8 -> 0 <= ci < 8 -> fits 26 x ->
  x < heap + (start + buf) \/ heap + (start + buf) + n * len <= x -> x < heap + target \/ heap + target + len <= x ->
  mram_byte m' k rg ci x = mram_byte m k rg ci x.
Proof using All.
  intros Hm Hcall Hr Hc Hf HB HT. apply reduce_steps in Hcall as (m1 & H1 & H2). assert (bytes m1) as Hb1 by apply H1.
  destruct (reduce_step m1 m' Hb1 H2) as (lines & Hlines & ->).
  rewrite (reduce_others axis_len comm_axis start target len comm_type buf size Hcube (type_eq comm_axis) (rc_exchange _ _ _ _ _ _ _ Hrange)
    lines m1 Hlines Hb1) by (done || (rewrite (rc_heap _ _ _ _ _ _ _ Hrange) in HT; lia)).
  destruct (decide (0 <= k < lenz ranks)) as [Hk|Hk].
  - by apply (buffered_bytes m m1 k rg ci H1 (conj Hk (conj Hr Hc))).
  - unfold mram_byte. by rewrite (launched_elsewhere ranks _ _ _ _ _ H1 Hk).
Qed.
End Result.

(** ** Properties *)

(** C4: a reduce-scatter exchange of a set of whole ranks, as a hypercube of DPUs:
    a call always ends, whatever the interleavings of the tasklets of each DPU and
    of the accesses of the 32 threads of the host; every DPU Y has then at the
    target the sum of the blocks at its own position of all the DPUs that only
    differ from Y on the axes of the exchange, number by number and modulo the
    width of the numbers; no other byte of any MRAM changes, but in the buffer. *)
Theorem pidcomm_reduce_scatter_reduces `{D : DpuRuntime} `{!DpuRuntimeSpec D} `{R : Rotations} `{!RotationsSpec R}
    `{I : Intrinsics} `{!IntrinsicsSpec I} `{V : Combinations} `{!CombinationsSpec V}
    store fuel heap allocated ranks axis_len comm len start target buf size m :
  let comm_axis := comm_axis_of (lenz axis_len) comm in let comm_type := comm_type_of comm_axis in
  let ax := group_axes axis_len comm_axis in let n := size_on 1 ax * nb_passes comm_type in
  hypercube axis_len comm_axis -> whole_set store fuel ranks (8 * nb_groups ax) ->
  reduce_call_range heap len n start target buf size -> bytes m ->
  let call := pidcomm_reduce_scatter store fuel heap allocated
    (init_hypercube_manager (DPU_SET_RANKS ranks) (lenz axis_len) axis_len) comm (n * len) start target buf size in
  let dpus := zip axis_len comm_axis in let width := lane_bytes size in
  (exists m', call m m') /\ forall m', call m m' ->
  (forall Y l, coordinates dpus Y -> 0 <= l -> width * l < len ->
    let q := group_number dpus Y in
    mram_number width m' (q / 64) (q mod 64 / 8) (q mod 8) (heap + target + width * l) =
    sumZ (map (fun t => let p := group_number dpus (unrank dpus (index_on 0 dpus Y) t) in
      mram_number width m (p / 64) (p mod 64 / 8) (p mod 8) (heap + start + index_on 1 dpus Y * len + width * l)) (seqZ 0 n))
    mod 2 ^ (8 * width)) /\
  (forall k rg ci x, 0 <= rg < 8 -> 0 <= ci < 8 -> fits 26 x ->
    x < heap + (start + buf) \/ heap + (start + buf) + n * len <= x -> x < heap + target \/ heap + target + len <= x ->
    mram_byte m' k rg ci x = mram_byte m k rg ci x).
Proof.
  intros comm_axis comm_type ax n Hcube Hset Hrange Hm call dpus width. split.
  - by apply (reduce_ends store fuel heap allocated ranks axis_len comm_axis len start target buf size Hcube Hset Hrange comm eq_refl).
  - intros m' Hcall. split.
    + intros Y l HY H0 Hl.
      by apply (reduce_call_numbers store fuel heap allocated ranks axis_len comm_axis len start target buf size Hcube Hset Hrange comm eq_refl).
    + intros k rg ci x Hr Hc Hf HB HT.
      by apply (reduce_call_others store fuel heap allocated ranks axis_len comm_axis len start target buf size Hcube Hset Hrange comm eq_refl m).
Qed.

Lemma sample_reduce_call : reduce_call_range (1024 * 1024) 64 16 0 8192 4096 4.
Proof.
  split; [done| |exact sample_reduce_range].
  split; try done; [by eapply bool_decide_unpack; vm_compute|right; by left|by left].
Qed.

Lemma pidcomm_reduce_scatter_reduces_witness : exists m',
  @pidcomm_reduce_scatter documented_runtime documented_rotations computed_intrinsics documented_combinations sample_store 200 (1024 * 1024) (fun _ => sample_args)
    (init_hypercube_manager (DPU_SET_RANKS [O; 1%nat]) 2 [16; 8]) [49; 48] 1024 0 8192 4096 4 sample_regions m' /\
  mram_number 4 m' 0 1 5 (1024 * 1024 + 8192 + 12) =
  sumZ (map (fun t => let p := group_number [(16, 1); (8, 0)] (unrank [(16, 1); (8, 0)] 0 t) in
    mram_number 4 sample_regions (p / 64) (p mod 64 / 8) (p mod 8) (1024 * 1024 + 13 * 64 + 12)) (seqZ 0 16)) mod 2 ^ 32.
Proof.
  destruct (@pidcomm_reduce_scatter_reduces documented_runtime documented_runtime_spec documented_rotations documented_rotations_spec
    computed_intrinsics computed_intrinsics_spec documented_combinations documented_combinations_spec
    sample_store 200 (1024 * 1024) (fun _ => sample_args) [O; 1%nat] [16; 8] [49; 48] 64 0 8192 4096 4 sample_regions
    sample_hypercube sample_whole_set sample_reduce_call sample_bytes) as [[m' Hm'] Hall].
  exists m'. split; [exact Hm'|]. destruct (Hall m' Hm') as [H _].
  exact (H [13; 0] 3 ltac:(repeat constructor; cbn; lia) ltac:(lia) ltac:(vm_compute; reflexivity)).
Defined.
