(* ===== verification/PidAllReduce.v ===== *)
(** * The threads of an all-reduce exchange

    Model of [thread_all_reduce_rns] and [hw_all_reduce_rns] of
    [src/hw/src/rank/hw_dpu_rank.c], and of [xeon_sp_trans_all_reduce_rg] and
    [xeon_sp_trans_all_reduce_y_rg] of
    [src/hw/src/mappings/xeon_sp/pid_comm.c]. Each turn of a thread combines one
    word of the blocks of a position in all the groups that communicate, and
    stores the result at the same position of the buffer of each of them. *)

From stdpp Require Import relations functions.
From S2P Require Import Prelude Interleave XeonInterleave XeonSg XeonBank PidComm PidMachine PidAccess PidThreads PidGather PidSum PidWrites PidReduce.

#[local] Open Scope Z_scope.
#[local] Open Scope dpu_scope.

(** ** The words of a group *)

Section Group.
Variables (base_region_addr_src src_rg_id : list Z) (byte_length num_iter_src size reduce_type : Z).

(** The groups of the targets are those of the sources: the code computes
    [dst_rank_addr_iter] as [src_rank_addr_iter], from [dst_mram_offset]. *)
Definition combine_word (nb_blocks : Z) (sum_ar : Z -> list (Z * Z) -> list (Z * Z) -> Z -> Z -> Z -> list instruction) (s : reduce_state) : reduce_state :=
  let '(src_mram_offset, dst_mram_offset, instructions) := s in
  let addresses := src_rank_addr_iter base_region_addr_src src_rg_id byte_length num_iter_src nb_blocks in
  (u32 (src_mram_offset + 8), u32 (dst_mram_offset + 8),
   instructions ++ sum_ar iteration (addresses src_mram_offset) (addresses dst_mram_offset) num_iter_src size reduce_type).

Definition xeon_sp_trans_all_reduce_rg (iter_dst_a src_start_offset dst_start_offset communication_buffer_offset num_thread thread_id : Z) : list instruction :=
  let iter_length := byte_length / 8 in
  let skipped := 8 * (iter_length / num_thread) * thread_id in
  let src_mram_offset := u32 (src_start_offset + 1024 * 1024 + skipped) in
  let dst_mram_offset := u32 (dst_start_offset + 1024 * 1024 + communication_buffer_offset + byte_length * 8 * iter_dst_a + skipped) in
  let first := u32 (iter_length / num_thread * thread_id) in
  let last := u32 (iter_length / num_thread * (thread_id + 1)) in
  snd (for_up (last - first) (fun _ => combine_word 8 RNS_SUM_AR) (src_mram_offset, dst_mram_offset, [])).

Definition xeon_sp_trans_all_reduce_y_rg (iter_dst_b src_start_offset dst_start_offset alltoall_comm_type communication_buffer_offset : Z) : list instruction :=
  let src_mram_offset := u32 (src_start_offset + 1024 * 1024) in
  let dst_mram_offset :=
    if alltoall_comm_type =? 0 then u32 (dst_start_offset + 1024 * 1024 + communication_buffer_offset)
    else u32 (dst_start_offset + 1024 * 1024 + communication_buffer_offset + byte_length * 1 * iter_dst_b) in
  snd (for_up (byte_length / 8) (fun _ => combine_word 1 S_SUM_AR) (src_mram_offset, dst_mram_offset, [])).
End Group.

(** ** One thread *)

Section Threads.
Variables (axis_len comm_axis : list Z).
Variables (src_start_offset dst_start_offset dpu_byte_length comm_type communication_buffer_offset size reduce_type : Z).
Notation group_axes := (group_axes axis_len comm_axis).
Notation all_reduce_products := (gather_products axis_len comm_axis comm_type).

(** A turn is computed as in a reduce-scatter exchange, and the position of its
    blocks, [cur_remain / total_axis_product], is passed on. *)
Definition all_reduce_turn (i : Z) (iter : list Z * list Z) : list Z * list Z * Z * Z * Z :=
  let '(total_iter_num, total_axis_product) := all_reduce_products in
  let '(_, cur_remain, _, _) :=
    fixed_axes group_axes (fst iter) (snd iter) (u32 (total_iter_num * total_axis_product)) (u32 (i * total_axis_product)) in
  (reduce_turn axis_len comm_axis src_start_offset dst_start_offset dpu_byte_length comm_type i iter, cur_remain / total_axis_product).

Definition all_reduce_turn_instructions (t : list Z * list Z * Z * Z * Z) : list instruction :=
  let '(iter_src, _, src_start_offset_iter, dst_start_offset_iter, iter_dst) := t in
  let total_axis_product := snd all_reduce_products in
  let src := map (fun j => dest_ids group_axes iter_src j 1 1 0 0) (seqZ 0 total_axis_product) in
  if comm_type =? 0 then
    xeon_sp_trans_all_reduce_rg (map fst src) (map snd src) dpu_byte_length total_axis_product size reduce_type
      iter_dst src_start_offset_iter dst_start_offset_iter communication_buffer_offset 1 0
  else
    xeon_sp_trans_all_reduce_y_rg (map fst src) (map snd src) dpu_byte_length total_axis_product size reduce_type
      iter_dst src_start_offset_iter dst_start_offset_iter comm_type communication_buffer_offset.

Definition thread_all_reduce_rns (num_thread thread_id : Z) : list instruction :=
  let '(start_point, nb_turns) := thread_span (fst all_reduce_products) num_thread thread_id in
  let zeros := replicate (length axis_len) 0 in
  snd (foldl (fun '(iter, instructions) i =>
      let t := all_reduce_turn i iter in (fst (fst (fst t)), instructions ++ all_reduce_turn_instructions t))
    ((zeros, zeros), []) (seqZ start_point nb_turns)).

(** The 32 threads, for a first axis of at least 8; below, the source runs other
    versions of the threads, which are not modelled. *)
Definition hw_all_reduce_rns : option (list (list instruction)) :=
  if 8 <=? axis_len.[0] then Some (map (thread_all_reduce_rns thread_num) (seqZ 0 thread_num)) else None.
End Threads.

(** ** The exchange *)

(** The blocks at the source, and as many in the buffer. *)
Record combine_range (src dst len buf n : Z) : Prop := {
  cb_src : 0 <= src;
  cb_dst : 0 <= dst;
  cb_length : 0 <= len;
  cb_buffer : 0 <= buf;
  cb_src_end : src + 1024 * 1024 + n * len <= 2 ^ 26;
  cb_dst_end : dst + 1024 * 1024 + buf + n * len <= 2 ^ 26;
  cb_apart : src + n * len <= dst + buf \/ dst + buf + n * len <= src;
  cb_words : src mod 8 = 0 /\ dst mod 8 = 0 /\ len mod 8 = 0 /\ buf mod 8 = 0;
}.

Section Words.
Variables (source : Z -> Z * Z) (nb_sources len comm_type size reduce_type src0 dst0 : Z).
Notation P := (nb_passes comm_type).
Hypothesis Hsource : forall j, 0 <= j < nb_sources -> 0 <= snd (source j) < 8.
Hypothesis Hnb : 0 <= nb_sources.
Hypothesis Hlen : 0 <= len /\ len mod 8 = 0.
Hypothesis Hsrc0 : 0 <= src0 /\ src0 mod 8 = 0 /\ src0 + P * len <= 2 ^ 26.
Hypothesis Hdst0 : 0 <= dst0 /\ dst0 mod 8 = 0 /\ dst0 + P * len <= 2 ^ 26.
Notation bs := (map (fun j => fst (source j)) (seqZ 0 nb_sources)).
Notation rgs := (map (fun j => snd (source j)) (seqZ 0 nb_sources)).
Notation addresses := (src_rank_addr_iter bs rgs len nb_sources P).

Definition word_combination (u : Z) : list instruction :=
  (if comm_type =? 0 then RNS_SUM_AR else S_SUM_AR) iteration (addresses (src0 + 8 * u)) (addresses (dst0 + 8 * u)) nb_sources size reduce_type.

Lemma combine_word_at u l : 0 <= u < len / 8 ->
  combine_word bs rgs len nb_sources size reduce_type P (if comm_type =? 0 then RNS_SUM_AR else S_SUM_AR) (src0 + 8 * u, dst0 + 8 * u, l) =
  (src0 + 8 * (u + 1), dst0 + 8 * (u + 1), l ++ word_combination u).
Proof using Hlen Hsrc0 Hdst0.
  intros Hu. unfold combine_word, word_combination.
  assert (len <= P * len) by (destruct (passes_pos comm_type); nia).
  rewrite !u32_id by (unfold fits; Z.div_mod_to_equations; lia). f_equal. f_equal; lia.
Qed.

(** The t-th place and what it gets from the combination [line]. *)
Definition stored_line `{R : Rotations} (line : list Z) (t : Z) : list Z := if comm_type =? 0 then rolled line t else line.
Definition stored_place (t u : Z) : place := sum_source source len dst0 (t / P) (t mod P) u.

Lemma word_combination_solo `{R : Rotations} `{!RotationsSpec R} `{I : Intrinsics} `{V : Combinations} m regs u : size <> 0 -> 0 <= u < len / 8 ->
  solo sum_machine m regs (word_combination u) =
  map (fun t => place_write (stored_place t u, stored_line (reduce_line reduce_type size m (lines_of (sum_sources source nb_sources len comm_type src0 u))) t))
    (seqZ 0 (nb_sources * P)).
Proof using Hsource Hnb Hlen Hsrc0 Hdst0.
  intros Hsz Hu. assert (0 <= 0 < 8) as H0 by lia. assert (0 <= 0 /\ 0 mod 8 = 0 /\ 0 + len <= 2 ^ 26) as H0'.
  { destruct (passes_pos comm_type). split_and!; [lia|done|]. nia. }
  rewrite <- (word_lines source nb_sources 0 len comm_type src0 0 Hsource H0 Hnb Hlen Hsrc0 H0' u Hu).
  unfold word_combination. change iteration with 1. unfold place_write, stored_line. cbn [fst snd].
  assert (forall t, 0 <= t < nb_sources * P -> (addresses (dst0 + 8 * u)).[t] = line_of (stored_place t u)) as Hat.
  { intros t Ht. destruct (passes_pos comm_type) as [HP _]. rewrite (Z.div_mod t P) at 1 by lia.
    apply (src_address source nb_sources 0 len comm_type dst0 0 Hsource H0 Hnb Hlen Hdst0 H0' u); [done| |by apply Z.mod_pos_bound].
    split; [apply Z.div_pos; lia|apply Z.div_lt_upper_bound; lia]. }
  destruct (passes_pos comm_type) as [_ [[Ht HP]|[Ht HP]]]; rewrite HP in Hat |- *.
  - rewrite (proj2 (Z.eqb_eq _ _) Ht). rewrite RNS_SUM_AR_solo, (Z.mul_comm 8 nb_sources) by done. apply map_ext_in.
    intros t Hin%list_elem_of_In%elem_of_seqZ. by rewrite Hat by lia.
  - rewrite (proj2 (Z.eqb_neq _ _) Ht). rewrite S_SUM_AR_solo, Z.mul_1_r. apply map_ext_in.
    intros t Hin%list_elem_of_In%elem_of_seqZ. by rewrite Hat by lia.
Qed.

Lemma word_combination_reads `{R : Rotations} `{I : Intrinsics} `{V : Combinations} u a l : size <> 0 -> 0 <= u < len / 8 ->
  a ∈ word_combination u -> reads sum_machine a = Some l -> exists s, s ∈ sum_sources source nb_sources len comm_type src0 u /\ l = line_of s.1.
Proof using Hsource Hnb Hlen Hsrc0.
  clear Hdst0. intros Hsz Hu Ha Hr. assert (0 <= 0 < 8) as H0 by lia. assert (0 <= 0 /\ 0 mod 8 = 0 /\ 0 + len <= 2 ^ 26) as H0'.
  { destruct (passes_pos comm_type). split_and!; [lia|done|]. nia. }
  pose proof (word_lines source nb_sources 0 len comm_type src0 0 Hsource H0 Hnb Hlen Hsrc0 H0' u Hu) as Hlines.
  assert (l ∈ map fst (lines_of (sum_sources source nb_sources len comm_type src0 u))) as Hin.
  { rewrite <- Hlines. unfold word_combination in Ha. change iteration with 1 in Ha.
    destruct (comm_type =? 0); [by eapply RNS_SUM_AR_reads|by eapply S_SUM_AR_reads]. }
  unfold lines_of in Hin. rewrite map_map in Hin. apply list_elem_of_fmap in Hin as (s & -> & Hs). by exists s.
Qed.
End Words.

(** The two functions are the words of the groups, one after the other. *)
Lemma all_reduce_rg_words source nb_sources len comm_type size reduce_type src dst buf block :
  let P := nb_passes comm_type in let dst0 := dst + 1024 * 1024 + buf + block * P * len in
  0 <= src -> src mod 8 = 0 -> src + 1024 * 1024 + P * len <= 2 ^ 26 ->
  0 <= dst0 -> dst0 mod 8 = 0 -> dst0 + P * len <= 2 ^ 26 -> 0 <= len -> len mod 8 = 0 ->
  (if comm_type =? 0 then
    xeon_sp_trans_all_reduce_rg (map (fun j => fst (source j)) (seqZ 0 nb_sources)) (map (fun j => snd (source j)) (seqZ 0 nb_sources))
      len nb_sources size reduce_type block src dst buf 1 0
  else
    xeon_sp_trans_all_reduce_y_rg (map (fun j => fst (source j)) (seqZ 0 nb_sources)) (map (fun j => snd (source j)) (seqZ 0 nb_sources))
      len nb_sources size reduce_type block src dst comm_type buf) =
  concat (map (word_combination source nb_sources len comm_type size reduce_type (src + 1024 * 1024) dst0) (seqZ 0 (len / 8))).
Proof.
  intros P dst0 H1 H2 H3 H4 H5 H6 H7 H8. set (src0 := src + 1024 * 1024). fold src0 in H3.
  assert (0 <= src0 /\ src0 mod 8 = 0 /\ src0 + P * len <= 2 ^ 26) as Hsrc0 by (unfold src0 in *; split_and!; [lia|Z.div_mod_to_equations; lia|lia]).
  assert (0 <= P * len) as Hp by (unfold P, nb_passes; destruct (comm_type =? 0); lia).
  assert (0 <= len / 8 <= len) as Hw by (Z.div_mod_to_equations; lia).
  set (bs := map _ _). set (rgs := map (fun j => snd (source j)) _).
  assert (for_up (len / 8)
    (fun _ => combine_word bs rgs len nb_sources size reduce_type P (if comm_type =? 0 then RNS_SUM_AR else S_SUM_AR)) (src0, dst0, []) =
    (src0 + 8 * (len / 8), dst0 + 8 * (len / 8), concat (map (word_combination source nb_sources len comm_type size reduce_type src0 dst0) (seqZ 0 (len / 8))))) as Hloop.
  { apply (for_up_ind (fun u s => s = (src0 + 8 * u, dst0 + 8 * u,
      concat (map (word_combination source nb_sources len comm_type size reduce_type src0 dst0) (seqZ 0 u))))); [lia| |].
    - by rewrite !Z.add_0_r.
    - intros u s Hu ->. unfold bs, rgs. rewrite (combine_word_at source nb_sources len comm_type size reduce_type src0 dst0) by (done || lia).
      rewrite (seqZ_app 0 u 1) by lia. rewrite seqZ_1, map_app, concat_app. cbn [map concat]. by rewrite app_nil_r. }
  assert (forall x, fits 26 x \/ x = 2 ^ 26 -> u32 x = x) as Hu32 by (intros x Hx; apply u32_id; unfold fits in *; lia).
  unfold P in *. destruct (passes_pos comm_type) as [_ [[Ht HP]|[Ht HP]]]; rewrite HP in *.
  - rewrite (proj2 (Z.eqb_eq _ _) Ht) in *. unfold xeon_sp_trans_all_reduce_rg. cbv zeta.
    rewrite Z.div_1_r, !Z.mul_0_r, !Z.add_0_r, Z.add_0_l, Z.mul_1_r. replace (len * 8 * block) with (block * 8 * len) by ring. fold src0.
    assert (dst + 1024 * 1024 + buf + block * 8 * len = dst0) as -> by (unfold dst0; by rewrite HP).
    rewrite !Hu32 by (unfold fits; lia). rewrite Z.sub_0_r. by rewrite Hloop.
  - rewrite (proj2 (Z.eqb_neq _ _) Ht) in *. unfold xeon_sp_trans_all_reduce_y_rg. rewrite (proj2 (Z.eqb_neq _ _) Ht).
    replace (len * 1 * block) with (block * 1 * len) by ring. fold src0.
    assert (dst + 1024 * 1024 + buf + block * 1 * len = dst0) as -> by (unfold dst0; by rewrite HP). rewrite !Hu32 by (unfold fits; lia). by rewrite Hloop.
Qed.

(** ** The threads *)

Section Exchange.
Context `{R : Rotations} `{!RotationsSpec R} `{I : Intrinsics} `{!IntrinsicsSpec I} `{V : Combinations} `{!CombinationsSpec V}.
Variables (axis_len comm_axis : list Z) (src dst len comm_type buf size reduce_type : Z).
Hypothesis Hcube : hypercube axis_len comm_axis.
Hypothesis Htype : comm_type = if comm_axis.[0] =? 1 then 0 else 1.
Hypothesis Hsize : size <> 0.
Notation ax := (group_axes axis_len comm_axis).
Notation A := (size_on 1 ax).
Notation N := (size_on 0 ax).
Notation P := (nb_passes comm_type).
Notation z := (lane_bytes size).
Hypothesis Hrange : combine_range src dst len buf (A * P).
Notation reduce_dst i := (gather_src axis_len comm_axis i).
Notation reduce_source i j := (gather_dest axis_len comm_axis i j).
(** Where the blocks of turn i are, at the sources and in the buffers. *)
Notation src_at i := (src + i mod A * P * len + 1024 * 1024).
Notation dst_at i := (dst + 1024 * 1024 + buf + i mod A * P * len).

Lemma combined_ranges i : 0 <= i < N * A ->
  (0 <= src_at i /\ src_at i mod 8 = 0 /\ src_at i + P * len <= 2 ^ 26) /\
  (0 <= dst_at i /\ dst_at i mod 8 = 0 /\ dst_at i + P * len <= 2 ^ 26) /\
  0 < A /\ 0 <= i mod A * P * len /\ i mod A * P * len + P * len <= A * P * len /\ len = 8 * (len / 8).
Proof using Hcube Hrange.
  intros Hi. destruct (gather_indices axis_len comm_axis Hcube i Hi) as [_ H1]. destruct (reduce_sizes axis_len comm_axis Hcube) as (_ & HA & _).
  destruct Hrange as [R1 R2 R3 R4 R5 R6 R7 (M1 & M2 & M3 & M4)]. pose proof (proj1 (passes_pos comm_type)) as HP.
  assert (0 <= i mod A * P * len /\ i mod A * P * len + P * len <= A * P * len) as [Ho Ho'] by nia.
  assert ((i mod A * P * len) mod 8 = 0) as Hm by (rewrite Z.mul_mod, M3, Z.mul_0_r by lia; done).
  split_and!; try lia; clear -M1 M2 M3 M4 Hm; generalize dependent (i mod A * P * len); intros x Hx; Z.div_mod_to_equations; lia.
Qed.

Definition turn_combinations (i u : Z) : list instruction :=
  word_combination (gather_dest axis_len comm_axis i) A len comm_type size reduce_type (src_at i) (dst_at i) u.
(** The t-th word stored by the word u of turn i. *)
Definition turn_stores (m : regions) (i u : Z) : list (place * list Z) :=
  map (fun t => (stored_place (gather_dest axis_len comm_axis i) len comm_type (dst_at i) t u,
      stored_line comm_type (reduce_line reduce_type size m (lines_of (sum_sources (gather_dest axis_len comm_axis i) A len comm_type (src_at i) u))) t))
    (seqZ 0 (A * P)).

Lemma all_reduce_turn_words i iter : 0 <= i < N * A -> length iter.1 = length ax -> length iter.2 = length ax ->
  let t := all_reduce_turn axis_len comm_axis src dst len comm_type i iter in
  length (fst (fst (fst (fst t)))) = length ax /\ length (snd (fst (fst (fst t)))) = length ax /\
  all_reduce_turn_instructions axis_len comm_axis len comm_type buf size reduce_type t = concat (map (turn_combinations i) (seqZ 0 (len / 8))).
Proof using Hcube Htype Hrange.
  intros Hi Hv Hw t. destruct (combined_ranges i Hi) as ((S1 & S2 & S3) & (D1 & D2 & D3) & HA & Ho & Ho' & Hl8).
  assert (0 <= A * P * len) as Hall by (pose proof (proj1 (passes_pos comm_type)); pose proof (cb_length _ _ _ _ _ Hrange); nia).
  destruct (reduce_turn_at axis_len comm_axis src dst len comm_type Hcube Htype i iter) as (v & Hturn & Hblock & Hcv & Hv0);
    [destruct Hrange; lia..|done|done|done|].
  destruct (gather_src_spec axis_len comm_axis Hcube i Hi) as (Hs & _). destruct (gather_indices axis_len comm_axis Hcube i Hi) as [H0 _].
  destruct (reduce_sizes axis_len comm_axis Hcube) as (Hax & _ & HN & Hfit & _).
  assert (t = (v, reduce_dst i, src + i mod A * P * len, dst, i mod A)) as ->.
  { unfold t, all_reduce_turn. rewrite (gather_products_eq axis_len comm_axis comm_type Hcube Htype). rewrite Hturn.
    destruct (fixed_axes _ _ _ _ _) as [[[? cur_remain] ?] ?]. cbn [fst snd] in Hblock. by rewrite Hblock. }
  cbn [fst snd]. split_and!; [symmetry; by eapply Forall2_length..|].
  unfold all_reduce_turn_instructions. rewrite (gather_products_eq axis_len comm_axis comm_type Hcube Htype). cbn [snd].
  assert (map (fun j => dest_ids ax v j 1 1 0 0) (seqZ 0 A) = map (gather_dest axis_len comm_axis i) (seqZ 0 A)) as ->.
  { apply map_ext_in. intros j Hj%list_elem_of_In%elem_of_seqZ. rewrite dest_ids_spec by (done || nia). rewrite Hv0, Z.div_1_r.
    destruct (unrank_spec ax (i / A) j Hax H0 ltac:(lia)) as (Hc & _). by apply (group_ids_number _ _ Hcube). }
  rewrite !map_map. destruct Hrange as [R1 R2 R3 R4 R5 R6 R7 (M1 & M2 & M3 & M4)].
  apply all_reduce_rg_words; try done; try lia. clear -S2. Z.div_mod_to_equations. lia.
Qed.

Lemma all_reduce_turns_foldl l iter instructions : (forall i, i ∈ l -> 0 <= i < N * A) ->
  length iter.1 = length ax -> length iter.2 = length ax ->
  snd (foldl (fun '(iter, instructions) i => let t := all_reduce_turn axis_len comm_axis src dst len comm_type i iter in
    (fst (fst (fst t)), instructions ++ all_reduce_turn_instructions axis_len comm_axis len comm_type buf size reduce_type t)) (iter, instructions) l) =
  instructions ++ concat (map (fun i => concat (map (turn_combinations i) (seqZ 0 (len / 8)))) l).
Proof using Hcube Htype Hrange.
  revert iter instructions. induction l as [|i l IH]; intros iter instructions Hl Hv Hw; [by rewrite app_nil_r|].
  cbn [foldl map concat]. assert (0 <= i < N * A) as Hi by (apply Hl, elem_of_cons; by left).
  destruct (all_reduce_turn_words i iter Hi Hv Hw) as (Hlv & Hlw & ->). rewrite IH; [by rewrite <- app_assoc| |done|done].
  intros j Hj. apply Hl, elem_of_cons. by right.
Qed.

Lemma all_reduce_thread_eq n t : 0 < n < 2 ^ 32 -> 0 <= t < n ->
  thread_all_reduce_rns axis_len comm_axis src dst len comm_type buf size reduce_type n t =
  concat (map (fun i => concat (map (turn_combinations i) (seqZ 0 (len / 8)))) (seqZ (fst (thread_span (N * A) n t)) (snd (thread_span (N * A) n t)))).
Proof using Hcube Htype Hrange.
  intros Hn Ht. destruct (reduce_sizes axis_len comm_axis Hcube) as (_ & _ & _ & Hfit & _). pose proof (span_range (N * A) n t) as Hspan.
  unfold thread_all_reduce_rns. rewrite (gather_products_eq axis_len comm_axis comm_type Hcube Htype). cbn [fst].
  destruct (thread_span (N * A) n t) as [start count]. cbn [fst snd] in *.
  rewrite all_reduce_turns_foldl; [done| |cbn [fst snd]; by rewrite length_replicate, (length_group_axes _ _ Hcube)..].
  intros i Hi. apply Hspan; (done || lia).
Qed.

(** *** The words of all the turns *)

Section Stores.
Variable m : regions.
Hypothesis Hm : bytes m.

Definition all_stores : list (place * list Z) :=
  concat (map (fun i => concat (map (turn_stores m i) (seqZ 0 (len / 8)))) (seqZ 0 (N * A))).

(** The word u of the block b in the buffer of the group [w], and the words
    that are combined: those of the blocks of the same position. *)
Definition buffer_word (w : list Z) (b u : Z) : place :=
  (group_number ax w / 8, group_number ax w mod 8, dst + 1024 * 1024 + buf + b * len + 8 * u).
Definition position_word (w : list Z) (b j k u : Z) : place :=
  let g := group_number ax (unrank ax (index_on 0 ax w) j) in (g / 8, g mod 8, src + 1024 * 1024 + (b / P * P + k) * len + 8 * u).
Definition position_words (w : list Z) (b u : Z) : list (place * rns) :=
  concat (map (fun j => map (fun k => (position_word w b j k u, pass_rns comm_type k)) (seqZ 0 P)) (seqZ 0 A)).
Definition buffer_line (w : list Z) (b u : Z) : list Z :=
  (if comm_type =? 0 then fun line => rolled line (index_on 1 ax w * P + b mod P) else fun line => line)
    (reduce_line reduce_type size m (lines_of (position_words w b u))).

(** The t-th store of the word u of turn i is for the group of the same axes at t / P. *)
Lemma turn_store i u t : 0 <= i < N * A -> 0 <= t < A * P ->
  let w := unrank ax (i / A) (t / P) in let b := i mod A * P + t mod P in
  coordinates ax w /\ index_on 0 ax w = i / A /\ index_on 1 ax w = t / P /\ 0 <= b < A * P /\ b / P = i mod A /\ b mod P = t mod P /\
  stored_place (gather_dest axis_len comm_axis i) len comm_type (dst_at i) t u = buffer_word w b u /\
  stored_line comm_type (reduce_line reduce_type size m (lines_of (sum_sources (gather_dest axis_len comm_axis i) A len comm_type (src_at i) u))) t =
  buffer_line w b u.
Proof using Hcube.
  intros Hi Ht w b. destruct (gather_indices axis_len comm_axis Hcube i Hi) as [H0 H1].
  destruct (reduce_sizes axis_len comm_axis Hcube) as (Hax & HA & _). pose proof (proj1 (passes_pos comm_type)) as HP.
  assert (0 <= t / P < A) as Htp by (split; [apply Z.div_pos; lia|apply Z.div_lt_upper_bound; lia]).
  pose proof (Z.mod_pos_bound t P HP) as Htm. destruct (unrank_spec ax (i / A) (t / P) Hax H0 Htp) as (Hw & Hw0 & Hw1). fold w in Hw, Hw0, Hw1.
  assert (b / P = i mod A) as Hb1 by (symmetry; apply (Z.div_unique _ _ _ (t mod P)); [left; done|unfold b; lia]).
  assert (b mod P = t mod P) as Hb2 by (symmetry; apply (Z.mod_unique _ _ (i mod A)); [left; done|unfold b; lia]).
  split_and!; try done; [unfold b; nia..| |].
  - unfold stored_place, sum_source, buffer_word, gather_dest. cbn [fst snd]. fold w. f_equal. unfold b. ring.
  - unfold stored_line, buffer_line. rewrite Hw1, Hb2.
    replace (t / P * P + t mod P) with t by (rewrite (Z.div_mod t P) at 1 by lia; ring).
    assert (sum_sources (gather_dest axis_len comm_axis i) A len comm_type (src_at i) u = position_words w b u) as ->; [|by destruct (comm_type =? 0)].
    unfold sum_sources, position_words. f_equal. apply map_ext. intros j. apply map_ext. intros k.
    unfold sum_source, position_word, gather_dest. cbn [fst snd]. rewrite Hw0, Hb1. do 2 f_equal. ring.
Qed.

Lemma elem_of_stores x : x ∈ all_stores <->
  exists w b u, coordinates ax w /\ 0 <= b < A * P /\ 0 <= u < len / 8 /\ x = (buffer_word w b u, buffer_line w b u).
Proof using Hcube.
  destruct (reduce_sizes axis_len comm_axis Hcube) as (Hax & HA & HN & _). pose proof (proj1 (passes_pos comm_type)) as HP.
  unfold all_stores. rewrite list_elem_of_In, in_concat. split.
  - intros (l & (i & <- & Hi%list_elem_of_In%elem_of_seqZ)%in_map_iff & Hin).
    apply in_concat in Hin as (l & (u & <- & Hu%list_elem_of_In%elem_of_seqZ)%in_map_iff & (t & <- & Ht%list_elem_of_In%elem_of_seqZ)%in_map_iff).
    destruct (turn_store i u t ltac:(lia) ltac:(lia)) as (H1 & _ & _ & H4 & _ & _ & H7 & H8). rewrite H7, H8. eexists _, _, u. split; [exact H1|]. split; [exact H4|]. split; [lia|done].
  - intros (w & b & u & Hw & Hb & Hu & ->). pose proof (index_on_range 0 ax w Hw) as H0. pose proof (index_on_range 1 ax w Hw) as H1.
    set (i := index_on 0 ax w * A + b / P). set (t := index_on 1 ax w * P + b mod P).
    assert (0 <= b / P < A) as Hbp by (split; [apply Z.div_pos; lia|apply Z.div_lt_upper_bound; lia]). pose proof (Z.mod_pos_bound b P HP) as Hbm.
    assert (i / A = index_on 0 ax w) as E0 by (symmetry; apply (Z.div_unique _ _ _ (b / P)); [left; done|unfold i; lia]).
    assert (i mod A = b / P) as E1 by (symmetry; apply (Z.mod_unique _ _ (index_on 0 ax w)); [left; done|unfold i; lia]).
    assert (t / P = index_on 1 ax w) as E2 by (symmetry; apply (Z.div_unique _ _ _ (b mod P)); [left; done|unfold t; lia]).
    assert (t mod P = b mod P) as E3 by (symmetry; apply (Z.mod_unique _ _ (index_on 1 ax w)); [left; done|unfold t; lia]).
    assert (0 <= i < N * A) as Hi by (clear -H0 Hbp HN HA; unfold i; nia). assert (0 <= t < A * P) as Ht by (clear -H1 Hbm HP HA; unfold t; nia).
    destruct (turn_store i u t Hi Ht) as (_ & _ & _ & _ & _ & _ & H7 & H8). cbv zeta in H7, H8.
    assert (unrank ax (i / A) (t / P) = w) as Ew by (rewrite E0, E2; by apply unrank_of).
    assert (i mod A * P + t mod P = b) as Eb by (rewrite E1, E3; pose proof (Z.div_mod b P); lia).
    rewrite Ew, Eb in H7, H8. rewrite <- H7, <- H8.
    eexists. split; [apply (in_map _ _ i), list_elem_of_In, elem_of_seqZ; lia|]. apply in_concat.
    eexists. split; [apply (in_map _ _ u), list_elem_of_In, elem_of_seqZ; lia|]. unfold turn_stores.
    apply (in_map (fun t => (stored_place _ _ _ _ t u, stored_line _ _ t)) _ t), list_elem_of_In, elem_of_seqZ. lia.
Qed.

Lemma buffer_word_ok w b u : 0 <= b < A * P -> 0 <= u < len / 8 -> place_ok (buffer_word w b u) /\
  dst + 1024 * 1024 + buf <= snd (buffer_word w b u) /\ snd (buffer_word w b u) + 8 <= dst + 1024 * 1024 + buf + A * P * len.
Proof using Hrange.
  intros Hb Hu. destruct Hrange as [_ R2 R3 R4 _ R6 _ (_ & M2 & M3 & M4)]. unfold buffer_word. cbn [snd].
  assert (len = 8 * (len / 8)) as Hl8 by (Z.div_mod_to_equations; lia). set (W := len / 8) in *. clearbody W.
  assert (b * W + u + 1 <= A * P * W) by nia. assert (0 <= b * W) by nia.
  assert (dst + 1024 * 1024 + buf + b * len + 8 * u = dst + buf + (b * W + u + 131072) * 8) as -> by (rewrite Hl8; ring).
  assert (A * P * len = A * P * W * 8) as El by (rewrite Hl8; ring). rewrite El in *.
  split; [|lia]. split; [by apply Z.mod_pos_bound|]. split; [unfold fits; lia|]. rewrite Z.mod_add by done.
  clear -M2 M4. Z.div_mod_to_equations. lia.
Qed.

Lemma position_words_ok w b u s : 0 <= b < A * P -> 0 <= u < len / 8 -> s ∈ position_words w b u ->
  place_ok s.1 /\ byte_rotation s.2 /\ src + 1024 * 1024 <= snd s.1 /\ snd s.1 + 8 <= src + 1024 * 1024 + A * P * len.
Proof using Hrange.
  intros Hb Hu Hs. pose proof (proj1 (passes_pos comm_type)) as HP.
  apply list_elem_of_In, in_concat in Hs as (l & (j & <- & Hj)%in_map_iff & (k & <- & Hk%list_elem_of_In%elem_of_seqZ)%in_map_iff).
  unfold position_word. cbn [fst snd]. destruct Hrange as [R1 _ R3 _ R5 _ _ (M1 & _ & M3 & _)].
  assert (len = 8 * (len / 8)) as Hl8 by (Z.div_mod_to_equations; lia). set (W := len / 8) in *. clearbody W.
  assert (0 <= b / P < A) as Hbp by (split; [apply Z.div_pos; lia|apply Z.div_lt_upper_bound; lia]).
  set (c := b / P * P + k). assert (0 <= c < A * P) as Hc by (unfold c; nia).
  assert (c * W + u + 1 <= A * P * W) by nia. assert (0 <= c * W) by nia.
  assert (src + 1024 * 1024 + c * len + 8 * u = src + (c * W + u + 131072) * 8) as -> by (rewrite Hl8; ring).
  assert (A * P * len = A * P * W * 8) as El by (rewrite Hl8; ring). rewrite El in *.
  split_and!; [| |lia|lia].
  - split; [by apply Z.mod_pos_bound|]. split; [unfold fits; lia|]. by rewrite Z.mod_add.
  - unfold nb_passes, pass_rns in *. destruct (comm_type =? 0); [|done]. cbn. split; [clear; Z.div_mod_to_equations; lia|lia].
Qed.

Lemma positions_rotation w b u : 0 <= b < A * P -> 0 <= u < len / 8 -> Forall (fun s => byte_rotation s.2) (lines_of (position_words w b u)).
Proof using Hrange.
  intros Hb Hu. apply Forall_map, Forall_forall. intros s Hs%list_elem_of_In. by destruct (position_words_ok w b u s Hb Hu Hs) as (_ & H & _).
Qed.

Lemma stores_ok : Forall (fun w : place * list Z => place_ok w.1 /\ shaped w.2) all_stores.
Proof using All.
  apply Forall_forall. intros x (w & b & u & Hw & Hb & Hu & ->)%list_elem_of_In%elem_of_stores. cbn [fst snd].
  split; [by apply buffer_word_ok|]. pose proof (positions_rotation w b u Hb Hu) as Hr. pose proof (index_on_range 1 ax w Hw) as H1.
  pose proof (proj1 (passes_pos comm_type)) as HP. pose proof (Z.mod_pos_bound b P HP).
  unfold buffer_line. destruct (comm_type =? 0); [apply (rolled_number size); [|nia]|]; by apply reduce_line_shape.
Qed.

Lemma combined_nodup : NoDup (map fst all_stores).
Proof using Hcube Hrange.
  destruct (reduce_sizes axis_len comm_axis Hcube) as (Hax & HA & HN & _). pose proof (proj1 (passes_pos comm_type)) as HP.
  assert (forall i u t i' u' t', 0 <= i < N * A -> 0 <= t < A * P -> 0 <= i' < N * A -> 0 <= t' < A * P -> 0 <= u < len / 8 -> 0 <= u' < len / 8 ->
    stored_place (gather_dest axis_len comm_axis i) len comm_type (dst_at i) t u =
    stored_place (gather_dest axis_len comm_axis i') len comm_type (dst_at i') t' u' -> i = i' /\ u = u' /\ t = t') as Hinj.
  { intros i u t i' u' t' Hi Ht Hi' Ht' Hu Hu' Heq. destruct (turn_store i u t Hi Ht) as (Hw & Hw0 & Hw1 & Hb & Hb1 & Hb2 & E & _).
    destruct (turn_store i' u' t' Hi' Ht') as (Hw' & Hw0' & Hw1' & Hb' & Hb1' & Hb2' & E' & _). rewrite E, E' in Heq. clear E E'.
    set (w := unrank _ _ _) in *. set (w' := unrank ax (i' / A) (t' / P)) in *. set (b := _ + _) in *. set (b' := i' mod A * P + t' mod P) in *.
    clearbody w w' b b'. unfold buffer_word in Heq. injection Heq as E1 E2 E3.
    assert (w = w') as <- by (by apply (group_place_inj axis_len comm_axis)). 
    assert (b = b' /\ u = u') as [<- <-].
    { assert (len = 8 * (len / 8)) as Hl8 by (destruct Hrange as [_ _ _ _ _ _ _ (_ & _ & M3 & _)]; Z.div_mod_to_equations; lia).
      set (W := len / 8) in *. rewrite Hl8 in E3. clear -E3 Hu Hu'. assert (b = b') by nia. subst. lia. }
    rewrite (Z.div_mod i A), (Z.div_mod i' A), (Z.div_mod t P), (Z.div_mod t' P) by lia. split_and!; [|done|]; congruence. }
  assert (forall i x, x ∈ map fst (concat (map (turn_stores m i) (seqZ 0 (len / 8)))) -> exists u t, 0 <= u < len / 8 /\ 0 <= t < A * P /\
    x = stored_place (gather_dest axis_len comm_axis i) len comm_type (dst_at i) t u) as Hin.
  { intros i x. rewrite concat_map, map_map, list_elem_of_In, in_concat.
    intros (l & (u & <- & Hu%list_elem_of_In%elem_of_seqZ)%in_map_iff & Hx). unfold turn_stores in Hx. rewrite map_map in Hx.
    apply in_map_iff in Hx as (t & <- & Ht%list_elem_of_In%elem_of_seqZ). exists u, t. split_and!; (done || lia). }
  unfold all_stores. rewrite concat_map, map_map. apply NoDup_concat_map; [apply NoDup_seqZ| |].
  - intros i Hi%elem_of_seqZ. rewrite concat_map, map_map. apply NoDup_concat_map; [apply NoDup_seqZ| |].
    + intros u Hu%elem_of_seqZ. unfold turn_stores. rewrite map_map. cbn [fst].
      change (NoDup ((fun t => stored_place (gather_dest axis_len comm_axis i) len comm_type (dst_at i) t u) <$> seqZ 0 (A * P))).
      apply NoDup_fmap_2_strong; [|apply NoDup_seqZ]. intros t t' Ht%elem_of_seqZ Ht'%elem_of_seqZ Heq. by apply (Hinj i u t i u t'); [lia..|].
    + intros u u' x Hu%elem_of_seqZ Hu'%elem_of_seqZ Hx Hx'. unfold turn_stores in Hx, Hx'. rewrite map_map in Hx, Hx'.
      apply list_elem_of_fmap in Hx as (t & -> & Ht%elem_of_seqZ). apply list_elem_of_fmap in Hx' as (t' & Heq & Ht'%elem_of_seqZ).
      cbn [fst] in Heq. by apply (Hinj i u t i u' t'); [lia..|].
  - intros i i' x Hi%elem_of_seqZ Hi'%elem_of_seqZ Hx Hx'. destruct (Hin i x Hx) as (u & t & Hu & Ht & ->). destruct (Hin i' _ Hx') as (u' & t' & Hu' & Ht' & Heq).
    by apply (Hinj i u t i' u' t'); [lia..|].
Qed.
End Stores.

(** *** What the threads store *)

Lemma store_lines m : concat (map (fun i => concat (map (fun u => map place_write (turn_stores m i u)) (seqZ 0 (len / 8)))) (seqZ 0 (N * A))) =
  map place_write (all_stores m).
Proof using Type. unfold all_stores. rewrite concat_map, map_map. f_equal. apply map_ext. intros i. by rewrite concat_map, map_map. Qed.

Lemma all_reduce_threads_writes n tr regs m : 0 < n < 2 ^ 32 ->
  interleaves tr (map (thread_all_reduce_rns axis_len comm_axis src dst len comm_type buf size reduce_type n) (seqZ 0 n)) -> bytes m -> exists lines,
  Permutation lines (map place_write (all_stores m)) /\ host_mem (run_machine sum_machine tr (mk_host regs m)) = write_lines m lines.
Proof using All.
  intros Hn Htr Hm. destruct (reduce_sizes axis_len comm_axis Hcube) as (_ & HA & _ & Hfit & _). rewrite <- store_lines.
  rewrite (map_ext_in _ _ _ (fun t Ht => all_reduce_thread_eq n t Hn (proj1 (elem_of_seqZ 0 n t) (proj2 (list_elem_of_In _ _) Ht)))) in Htr.
  apply (turns_interleaved sum_machine (N * A) n (len / 8) turn_combinations (fun i u => map place_write (turn_stores m i u)) m Hn ltac:(lia)); [..|exact Htr].
  - intros i u r Hi Hu. destruct (combined_ranges i Hi) as (Hs & Hd & _). unfold turn_stores. rewrite map_map.
    apply word_combination_solo; try done; [intros j _; by apply Z.mod_pos_bound|lia|].
    destruct Hrange as [_ _ R3 _ _ _ _ (_ & _ & M3 & _)]. done.
  - intros i u a l Hi Hu Ha Hr. destruct (combined_ranges i Hi) as (Hs & Hd & _ & H1 & H2 & _).
    assert (0 <= len /\ len mod 8 = 0) as Hl by (destruct Hrange as [_ _ R3 _ _ _ _ (_ & _ & M3 & _)]; done).
    assert (forall j, 0 <= j < A -> 0 <= snd (reduce_source i j) < 8) as Hsrc by (intros j _; by apply Z.mod_pos_bound).
    destruct (word_combination_reads _ A len comm_type size reduce_type _ _ Hsrc ltac:(lia) Hl Hs u a l Hsize Hu Ha Hr) as (s & Hin & ->).
    apply elem_of_sources in Hin as (j & k & Hj & Hk & ->). cbn [fst].
    pose proof (sum_source_ok _ A 0 len comm_type _ 0 Hsrc ltac:(lia) ltac:(lia) Hl Hs ltac:(destruct (passes_pos comm_type); split_and!; [lia|done|nia]) j k u Hj Hk Hu) as Hp.
    split; [by apply line_of_aligned|]. rewrite store_lines, map_map. cbn [place_write fst].
    intros (x & Heq & (w & b & u' & Hw & Hb & Hu' & ->)%elem_of_stores)%list_elem_of_fmap. cbn [fst] in Heq.
    destruct (buffer_word_ok w b u' Hb Hu') as (Hq & H3 & H4). apply line_of_inj in Heq; [|done|done]. rewrite <- Heq in H3, H4. cbn [sum_source snd] in H3, H4.
    destruct (source_offset (gather_dest axis_len comm_axis i) A 0 len comm_type _ 0 Hsrc ltac:(lia) ltac:(lia) Hl Hs
      ltac:(destruct (passes_pos comm_type); split_and!; [lia|done|nia]) k u Hk Hu) as (_ & _ & H5).
    destruct Hrange as [_ _ R3 _ _ _ Hap _]. assert (0 <= k * len) by nia. lia.
  - rewrite store_lines. apply (writes_ok (all_stores m) (stores_ok m Hm)). done.
Qed.

(** *** The numbers of the buffers *)

Section Numbers.
Variables (lines : list line_write) (m : regions).
Hypothesis Hlines : Permutation lines (map place_write (all_stores m)).
Hypothesis Hm : bytes m.

Lemma combined_numbers w b ci l : coordinates ax w -> 0 <= b < A * P -> 0 <= ci < 8 -> 0 <= l -> z * l < len ->
  mram_number z (write_lines m lines) (group_number ax w / 8) (group_number ax w mod 8) ci (dst + 1024 * 1024 + buf + b * len + z * l) =
  reduction reduce_type z (concat (map (fun j => map (fun k => let g := group_number ax (unrank ax (index_on 0 ax w) j) in
    mram_number z m (g / 8) (g mod 8) ((ci + b mod P - k) mod 8) (src + 1024 * 1024 + (b / P * P + k) * len + z * l)) (seqZ 0 P)) (seqZ 0 A))).
Proof using All.
  intros Hw Hb Hc Hl Hlen. assert (len = 8 * (len / 8)) as Hl8 by (destruct Hrange as [_ _ _ _ _ _ _ (_ & _ & M3 & _)]; Z.div_mod_to_equations; lia).
  destruct (number_in_word size len l Hl8 Hl Hlen) as (u & l' & Hu & Hl' & Hzl). pose proof (proj1 (passes_pos comm_type)) as HP.
  assert ((buffer_word w b u, buffer_line m w b u) ∈ all_stores m) as Hin by (apply elem_of_stores; by exists w, b, u).
  pose proof (writes_hit size m _ (stores_ok m Hm) (combined_nodup m) lines Hlines _ ci l' Hin Hc Hl') as H. unfold buffer_word in H at 1. cbn [fst snd] in H.
  rewrite Hzl, Z.add_assoc. etrans; [exact H|]. clear H. pose proof (positions_rotation w b u Hb Hu) as Hr.
  assert (line_number z (buffer_line m w b u) ci l' =
    line_number z (reduce_line reduce_type size m (lines_of (position_words w b u))) ((ci + b mod P) mod 8) l') as ->.
  { unfold buffer_line. pose proof (reduce_line_shape reduce_type size m Hm _ Hr) as Hs. pose proof (index_on_range 1 ax w Hw) as H1.
    pose proof (Z.mod_pos_bound b P HP). destruct (passes_pos comm_type) as [_ [[Ht HP']|[Ht HP']]]; rewrite HP' in *.
    - rewrite (proj2 (Z.eqb_eq _ _) Ht). destruct (rolled_number size _ (index_on 1 ax w * 8 + b mod 8) Hs ltac:(nia)) as [_ ->]; [|done..].
      f_equal. replace (ci + (index_on 1 ax w * 8 + b mod 8)) with (ci + b mod 8 + index_on 1 ax w * 8) by ring. by apply Z.mod_add.
    - rewrite (proj2 (Z.eqb_neq _ _) Ht). f_equal. rewrite Z.mod_1_r, Z.add_0_r. by rewrite Z.mod_small. }
  rewrite (reduce_line_number reduce_type size m Hm _ _ l' Hr) by (done || by apply Z.mod_pos_bound). f_equal. unfold lines_of, position_words.
  rewrite !concat_map, !map_map. f_equal. apply map_ext_in. intros j Hj. rewrite !map_map. apply map_ext_in. intros k Hk%list_elem_of_In%elem_of_seqZ. cbn [fst snd].
  assert ((position_word w b j k u, pass_rns comm_type k) ∈ position_words w b u) as Hpos.
  { apply list_elem_of_In, in_concat. eexists. split; [apply (in_map _ _ j), Hj|].
    apply (in_map (fun k => (position_word w b j k u, pass_rns comm_type k))), list_elem_of_In, elem_of_seqZ. lia. }
  destruct (position_words_ok w b u _ Hb Hu Hpos) as [Hpl _]. cbn [fst] in Hpl.
  pose proof (line_number_place size m _ (((ci + b mod P) mod 8 - shift (pass_rns comm_type k)) mod 8) l' Hpl ltac:(by apply Z.mod_pos_bound) Hl') as Hn.
  unfold position_word in Hn at 1. etrans; [exact Hn|]. f_equal; [|lia]. rewrite Zminus_mod_idemp_l. do 2 f_equal.
  unfold pass_rns, nb_passes in *. destruct (comm_type =? 0); cbn [shift]; [|lia]. rewrite (Z.mul_comm 8), Z.div_mul by done. done.
Qed.

Lemma combined_others r rg ci a : 0 <= rg < 8 -> 0 <= ci < 8 -> fits 26 a ->
  a < dst + 1024 * 1024 + buf \/ dst + 1024 * 1024 + buf + A * P * len <= a -> mram_byte (write_lines m lines) r rg ci a = mram_byte m r rg ci a.
Proof using All.
  intros Hrg Hci Ha Hout. apply (writes_other m _ (stores_ok m Hm) (combined_nodup m) lines Hlines); try done.
  intros (x & Heq & (w & b & u & Hw & Hb & Hu & ->)%elem_of_stores)%list_elem_of_fmap. cbn [fst] in Heq.
  destruct (buffer_word_ok w b u Hb Hu) as ((_ & _ & Hmod) & H1 & H2). rewrite <- Heq in H1, H2. cbn [snd] in H1, H2.
  unfold buffer_word in Heq. injection Heq as _ _ Ha'. rewrite <- Ha' in Hmod.
  clear -Hout H1 H2. Z.div_mod_to_equations. lia.
Qed.
End Numbers.
End Exchange.

Lemma hw_all_reduce_threads `{R : Rotations} `{!RotationsSpec R} `{I : Intrinsics} `{!IntrinsicsSpec I} `{V : Combinations} `{!CombinationsSpec V}
    axis_len comm_axis src dst len comm_type buf size reduce_type threads tr regs m :
  hypercube axis_len comm_axis -> comm_type = (if comm_axis.[0] =? 1 then 0 else 1) -> size <> 0 ->
  combine_range src dst len buf (size_on 1 (group_axes axis_len comm_axis) * nb_passes comm_type) ->
  hw_all_reduce_rns axis_len comm_axis src dst len comm_type buf size reduce_type = Some threads -> interleaves tr threads -> bytes m ->
  exists lines, Permutation lines (map place_write (all_stores axis_len comm_axis src dst len comm_type buf size reduce_type m)) /\
    host_mem (run_machine sum_machine tr (mk_host regs m)) = write_lines m lines.
Proof.
  intros Hc Ht Hs Hr Hhw Htr Hm. unfold hw_all_reduce_rns in Hhw. destruct (8 <=? _); [|done]. apply (inj Some) in Hhw as <-.
  by apply (all_reduce_threads_writes axis_len comm_axis src dst len comm_type buf size reduce_type Hc Ht Hs Hr thread_num).
Qed.

(** ** Properties *)

(** C12: whatever the interleaving of the accesses of the 32 threads, an
    all-reduce exchange of the host stores in the buffer of every DPU, at each
    position, the combination of the blocks in all the groups of its axes, number
    by number: the sums modulo the width of the numbers, or the maxima of the blocks
    and zero, so that a maximum of negative numbers is 0.
    In the exchange along the first axis, the k-th of eight blocks is taken from
    the interface k before, and stored for the interface as many after. Nothing
    else in the MRAMs changes. *)
Theorem all_reduce_combines `{R : Rotations} `{!RotationsSpec R} `{I : Intrinsics} `{!IntrinsicsSpec I} `{V : Combinations} `{!CombinationsSpec V}
    axis_len comm_axis src dst len comm_type buf size reduce_type threads tr regs m :
  hypercube axis_len comm_axis -> comm_type = (if comm_axis.[0] =? 1 then 0 else 1) -> size <> 0 ->
  let ax := group_axes axis_len comm_axis in let P := nb_passes comm_type in let A := size_on 1 ax in
  combine_range src dst len buf (A * P) ->
  hw_all_reduce_rns axis_len comm_axis src dst len comm_type buf size reduce_type = Some threads -> interleaves tr threads -> bytes m ->
  let m' := host_mem (run_machine sum_machine tr (mk_host regs m)) in let width := lane_bytes size in
  (forall w b ci l, coordinates ax w -> 0 <= b < A * P -> 0 <= ci < 8 -> 0 <= l -> width * l < len ->
    mram_number width m' (group_number ax w / 8) (group_number ax w mod 8) ci (dst + 1024 * 1024 + buf + b * len + width * l) =
    reduction reduce_type width (concat (map (fun j => map (fun k => let g := group_number ax (unrank ax (index_on 0 ax w) j) in
      mram_number width m (g / 8) (g mod 8) ((ci + b mod P - k) mod 8) (src + 1024 * 1024 + (b / P * P + k) * len + width * l))
      (seqZ 0 P)) (seqZ 0 A)))) /\
  (forall r rg ci a, 0 <= rg < 8 -> 0 <= ci < 8 -> fits 26 a -> a < dst + 1024 * 1024 + buf \/ dst + 1024 * 1024 + buf + A * P * len <= a ->
    mram_byte m' r rg ci a = mram_byte m r rg ci a).
Proof.
  intros Hc Ht Hs ax P A Hr Hhw Htr Hm m' width.
  destruct (hw_all_reduce_threads _ _ _ _ _ _ _ _ _ _ tr regs m Hc Ht Hs Hr Hhw Htr Hm) as (lines & Hl & Hrun). subst m'. rewrite Hrun. split.
  - intros w b ci l Hw Hb Hci H0 Hlen. by apply (combined_numbers axis_len comm_axis src dst len comm_type buf size reduce_type Hc Ht Hs Hr lines m Hl Hm).
  - intros r rg ci a Hrg Hci Ha Hout. by apply (combined_others axis_len comm_axis src dst len comm_type buf size reduce_type Hc Ht Hs Hr lines m Hl Hm).
Qed.

Lemma sample_combine_range : combine_range 0 0 64 4096 16.
Proof. split; try done. by left. Qed.

Lemma all_reduce_combines_witness : exists threads tr,
  hw_all_reduce_rns [16; 8] [1; 0] 0 0 64 0 4096 4 1 = Some threads /\ interleaves tr threads /\
  let m' := host_mem (run_machine (@sum_machine documented_rotations computed_intrinsics documented_combinations) tr (mk_host (fun _ _ => []) sample_regions)) in
  mram_number 4 m' 0 1 5 (1024 * 1024 + 4096 + 11 * 64 + 12) =
  reduction 1 4 (concat (map (fun j => map (fun k => mram_number 4 sample_regions 0 j ((5 + 3 - k) mod 8) (1024 * 1024 + (8 + k) * 64 + 12)) (seqZ 0 8)) [0; 1])).
Proof.
  eexists. destruct (interleaves_exists (map (thread_all_reduce_rns [16; 8] [1; 0] 0 0 64 0 4096 4 1 thread_num) (seqZ 0 thread_num))) as [tr Htr].
  exists tr. split; [reflexivity|]. split; [exact Htr|].
  destruct (@all_reduce_combines documented_rotations documented_rotations_spec computed_intrinsics computed_intrinsics_spec documented_combinations
    documented_combinations_spec [16; 8] [1; 0] 0 0 64 0 4096 4 1 _ tr (fun _ _ => []) sample_regions
    sample_hypercube eq_refl ltac:(done) sample_combine_range eq_refl Htr sample_bytes) as [H _].
  exact (H [1; 0] 11 5 3 ltac:(repeat constructor; cbn; lia) ltac:(by vm_compute) ltac:(lia) ltac:(lia) ltac:(vm_compute; reflexivity)).
Defined.

(** The maximum starts from zero: negative numbers are lost. *)
Lemma negative_maximum_lost z numbers : Forall (fun x => signed (8 * z) x <= 0) numbers -> reduction 1 z numbers = 0.
Proof.
  intros H. unfold reduction. change (1 =? 0) with false. change (1 =? 1) with true. cbn iota.
  induction H as [|x l Hx _ IH]; [done|]. cbn [map foldr]. rewrite IH. lia.
Qed.
(** The maximum of -5 and -3, as numbers of 8 bits. *)
Lemma maximum_of_two_negatives : signed 8 (256 - 5) = -5 /\ signed 8 (256 - 3) = -3 /\ reduction 1 1 [256 - 5; 256 - 3] = 0.
Proof. done. Qed.
