(* ===== verification/PidAllReduceCall.v ===== *)
(** * The all-reduce exchange of a set of DPUs

    Model of [all_reduce] and [pidcomm_all_reduce] of
    [src/api/src/api/dpu_memory.c]: along the first axis, a program of
    PidKernel.v turns the blocks of every DPU in place; the exchange of the host of
    PidAllReduce.v combines them in the buffer; another program moves the buffer to
    the target. The programs are compiled for numbers of 8 or of 32 bits. The
    words that the host reads between and after are read and dropped. *)

From stdpp Require Import relations functions.
From S2P Require Import Prelude CMonad Rank XeonInterleave XeonSg XeonBank DpuSet DpuGroups Interleave PidComm PidMachine PidAccess PidThreads PidKernel PidAllToAll PidGather PidAllGather PidSum PidWrites PidReduce PidReduceScatter PidAllReduce.

#[local] Open Scope Z_scope.
#[local] Open Scope dpu_scope.

Section Call.
Context `{D : DpuRuntime} `{R : Rotations} `{I : Intrinsics} `{V : Combinations}.
Variables (store : rank_ptr -> rank) (fuel : nat) (heap : Z) (allocated : Z -> dpu_arguments_comm_t).

(** A program, and the arguments that are given to it. *)
Definition relocation := ((dpu_arguments_comm_t -> Z -> list action) * (Z -> dpu_arguments_comm_t -> dpu_arguments_comm_t))%type.

(** The program run before the exchange, which turns the blocks in place, if any.
    [DPU_BINARY_RELOCATE_MODIFIED_REVERSE_CLOCKWISE_INT8] names the same binary as
    the one for 32 bits (dpu_memory.c:890). *)
Definition relocation_before (axis_len comm_axis : list Z) (num_comm_rg total_data_size start_offset size : Z) : option relocation :=
  let comm_type := comm_type_of comm_axis in
  let num_comm_dpu := num_comm_dpu_of (zip axis_len comm_axis) in
  let sizeof_T := sizeof_program size in
  let set_arg a_length num_comm_rg i a :=
    set_num_comm_rg num_comm_rg (set_argument start_offset start_offset total_data_size num_comm_dpu false comm_type a_length i a) in
  if modified_case axis_len comm_axis then
    Some (data_relocate_modified_reverse_clockwise 4 heap, set_arg 2 2)
  else if (axis_len.[0] <? 8) && ((num_comm_rg <? 8) && (1 <? num_comm_rg)) then
    Some (data_relocate_clockwise_short sizeof_T heap, set_arg axis_len.[0] num_comm_rg)
  else if comm_type =? 0 then
    Some (data_relocate_clockwise sizeof_T heap, set_arg axis_len.[0] num_comm_rg)
  else None.

(** The program run after it, from the buffer to the target. *)
Definition relocation_after (axis_len comm_axis : list Z) (num_comm_rg total_data_size start_offset target_offset buffer_offset size : Z) : relocation :=
  let comm_type := comm_type_of comm_axis in
  let num_comm_dpu := num_comm_dpu_of (zip axis_len comm_axis) in
  let sizeof_T := sizeof_program size in
  let set_arg num_comm_rg i a :=
    set_num_comm_rg num_comm_rg (set_argument (u32 (start_offset + buffer_offset)) target_offset total_data_size num_comm_dpu false comm_type axis_len.[0] i a) in
  if modified_case axis_len comm_axis then
    (data_relocate_modified_clockwise sizeof_T heap, set_arg 2)
  else if (axis_len.[0] <? 8) && ((num_comm_rg <? 8) && (1 <? num_comm_rg)) then
    (data_relocate_reverse_clockwise_short sizeof_T heap, set_arg num_comm_rg)
  else if comm_type =? 0 then
    (data_relocate_counterclockwise sizeof_T heap, set_arg num_comm_rg)
  else
    (data_relocate_incremental_counterclockwise sizeof_T heap, set_arg num_comm_rg).

Definition all_reduce (axis_len comm_axis : list Z) (src_start_offset dst_start_offset byte_length comm_type communication_buffer_offset size reduce_type : Z)
    (m m' : regions) : Prop :=
  exists threads tr regs, hw_all_reduce_rns axis_len comm_axis src_start_offset dst_start_offset byte_length comm_type
      communication_buffer_offset size reduce_type = Some threads /\
    interleaves tr threads /\ m' = host_mem (run_machine sum_machine tr (mk_host regs m)).

Definition pidcomm_all_reduce (manager : hypercube_manager) (comm : list Z)
    (total_data_size start_offset target_offset buffer_offset size reduce_type : Z) (m m' : regions) : Prop :=
  let dpu_set := hm_dpu_set manager in
  let axis_len := hm_axis_len manager in
  let comm_axis := comm_axis_of (hm_dimension manager) comm in
  let num_comm_dpu := num_comm_dpu_of (zip axis_len comm_axis) in
  let ranks := ranks_of_set dpu_set in
  exists nr_dpus order num_comm_rg m1 m2,
    dpu_get_nr_dpus store dpu_set = Ok nr_dpus /\
    DPU_FOREACH_ENTANGLED_GROUP store fuel dpu_set nr_dpus = Some order /\
    num_comm_rg_unbounded (zip axis_len comm_axis) 1 1 = Some num_comm_rg /\
    let before := relocation_before axis_len comm_axis num_comm_rg total_data_size start_offset size in
    let after := relocation_after axis_len comm_axis num_comm_rg total_data_size start_offset target_offset buffer_offset size in
    let dpu_argument := match before with Some (_, set) => fill_arguments nr_dpus set allocated | None => allocated end in
    match before with Some (prog, _) => launched ranks prog order dpu_argument m m1 | None => m1 = m end /\
    all_reduce axis_len comm_axis start_offset start_offset (total_data_size / num_comm_dpu) (comm_type_of comm_axis) buffer_offset size reduce_type m1 m2 /\
    launched ranks (fst after) order (fill_arguments nr_dpus (snd after) dpu_argument) m2 m'.
End Call.

(** The areas of a call: [n] blocks at the source, in the buffer and at the target. *)
Record combine_call_range (heap len n start_offset target_offset buffer_offset size : Z) : Prop := {
  ca_heap : heap = 1024 * 1024;
  ca_size : size <> 0;
  ca_source : buffer_range (sizeof_program size) heap len n start_offset start_offset;
  ca_exchange : combine_range start_offset start_offset len buffer_offset n;
  ca_target : buffer_range (sizeof_program size) heap len n (start_offset + buffer_offset) target_offset;
}.

(** ** Combinations in another order *)

#[export] Instance reduction_permutation reduce_type z : Proper (Permutation ==> eq) (reduction reduce_type z).
Proof.
  intros l1 l2 H. unfold reduction. destruct (reduce_type =? 0); [|destruct (reduce_type =? 1); [|done]].
  - f_equal. unfold sumZ. induction H as [|x l1 l2 _ IH|x y l|l1 l2 l3 _ IH1 _ IH2]; cbn [foldr]; [done|lia|lia|congruence].
  - induction H as [|x l1 l2 _ IH|x y l|l1 l2 l3 _ IH1 _ IH2]; cbn [map foldr]; [done|lia|lia|congruence].
Qed.

Lemma turned_back c : Permutation (map (fun k => (c - k) mod 8) (seqZ 0 8)) (seqZ 0 8).
Proof.
  rewrite (map_ext _ (fun k => (c mod 8 - k) mod 8)) by (intros k; by rewrite Zminus_mod_idemp_l).
  pose proof (Z.mod_pos_bound c 8 ltac:(lia)) as Hc. set (r := c mod 8) in *. clearbody r.
  assert (r = 0 \/ r = 1 \/ r = 2 \/ r = 3 \/ r = 4 \/ r = 5 \/ r = 6 \/ r = 7) as Hrs by lia. clear Hc.
  destruct_or! Hrs; subst r; vm_compute;
    (apply NoDup_Permutation; [by eapply bool_decide_unpack; vm_compute..|intros x; rewrite !elem_of_cons, elem_of_nil; lia]).
Qed.

(** Eight DPUs of each of [A] groups, in two orders. *)
Lemma groups_reordered {X} (F : Z -> X) c A : 0 <= A ->
  Permutation (concat (map (fun j => map (fun k => F (8 * j + (c - k) mod 8)) (seqZ 0 8)) (seqZ 0 A))) (map F (seqZ 0 (A * 8))).
Proof.
  intros HA. rewrite <- (seqZ_blocks (fun _ => F)) by lia.
  induction (seqZ 0 A) as [|j l IH]; [done|]. cbn [map concat]. rewrite IH. apply Permutation_app_tail.
  replace (seqZ (j * 8) 8) with (map (Z.add (j * 8)) (seqZ 0 8)) by (rewrite <- (Z.add_0_r (j * 8)) at 2; apply (fmap_add_seqZ (j * 8) 0 8)).
  transitivity (map F (map (Z.add (j * 8)) (map (fun k => (c - k) mod 8) (seqZ 0 8)))).
  - rewrite !map_map. apply reflexive_eq, map_ext. intros k. f_equal. lia.
  - apply Permutation_map, Permutation_map, turned_back.
Qed.

(** ** Numbers that are moved *)

Lemma moved_number size m m' k rg ci D S len l : let z := lane_bytes size in
  (forall x, 0 <= x < len -> mram_byte m' k rg ci (D + x) = mram_byte m k rg ci (S + x)) -> len mod 8 = 0 -> 0 <= l -> z * l < len ->
  mram_number z m' k rg ci (D + z * l) = mram_number z m k rg ci (S + z * l).
Proof.
  intros z H Hlen Hl Hx. destruct (lane_width size) as (Hz & _ & Hz8 & _). fold z in Hz, Hz8. unfold mram_number. f_equal.
  apply map_ext_in. intros b Hb%list_elem_of_In%elem_of_seqZ. rewrite <- !Z.add_assoc. apply H. split; [nia|].
  assert (len = z * (8 / z * (len / 8))) as El by (rewrite Z.mul_assoc, Hz8; Z.div_mod_to_equations; lia).
  clear -El Hx Hb Hz. generalize dependent (8 / z * (len / 8)). intros W El. assert (l < W) by nia. nia.
Qed.

(** A number of an area is a number of one of its blocks. *)
Lemma number_in_block size len n l : let z := lane_bytes size in 0 < len -> len mod 8 = 0 -> 0 <= l -> z * l < n * len ->
  exists b l', 0 <= b < n /\ 0 <= l' /\ z * l' < len /\ z * l = b * len + z * l'.
Proof.
  intros z H0 Hlen Hl Hx. destruct (lane_width size) as (Hz & _ & Hz8 & Hp & _). fold z in Hz, Hz8, Hp.
  assert (len = z * (8 / z * (len / 8))) as El by (rewrite Z.mul_assoc, Hz8; Z.div_mod_to_equations; lia).
  assert (0 < 8 / z * (len / 8)) as HW by nia. set (W := 8 / z * (len / 8)) in *. clearbody W.
  exists (l / W), (l mod W). pose proof (Z.mod_pos_bound l W HW) as Hm. pose proof (Z.div_mod l W ltac:(lia)) as Hd.
  assert (0 <= l / W) by (apply Z.div_pos; lia). assert (l < n * W) by (subst len; nia).
  split_and!; [lia|apply Z.div_lt_upper_bound; lia|lia|subst len; nia|]. rewrite El. rewrite Hd at 1. ring.
Qed.

(** ** A program on all the DPUs *)

Section Relocation.
Context `{D : DpuRuntime} `{!DpuRuntimeSpec D}.
Variables (store : rank_ptr -> rank) (fuel : nat) (heap : Z) (ranks : list rank_ptr) (axis_len comm_axis : list Z).
Variables (len from to size num_comm_rg : Z) (prev : Z -> dpu_arguments_comm_t).
Variables (prog : dpu_arguments_comm_t -> Z -> list action) (dest : Z -> Z -> Z).
Notation ax := (group_axes axis_len comm_axis).
Notation comm_type := (comm_type_of comm_axis).
Notation n := (size_on 1 ax * nb_passes comm_type).
Notation nr_dpus := (8 * nb_groups ax).
Hypothesis Hcube : hypercube axis_len comm_axis.
Hypothesis Hset : whole_set store fuel ranks nr_dpus.
Hypothesis Hrange : buffer_range (sizeof_program size) heap len n from to.

Definition all_argument : Z -> dpu_arguments_comm_t -> dpu_arguments_comm_t := fun i a =>
  set_num_comm_rg num_comm_rg (set_argument from to (n * len) n false comm_type axis_len.[0] i a).
Notation arguments := (fill_arguments nr_dpus all_argument prev).

Lemma all_argument_range i a : kernel_range (sizeof_program size) heap len (all_argument i a).
Proof using Hcube Hrange.
  clear prev prog dest. pose proof (num_positive axis_len comm_axis Hcube) as Hn. destruct Hrange as [Hsz Hh Hl (Hf0 & Hf8 & Hf) (Ht0 & Ht8 & Ht) _ _].
  split; cbn [all_argument set_num_comm_rg set_argument da_num_comm_dpu da_total_data_size da_start_offset da_target_offset]; try done; lia.
Qed.

Lemma all_apart : heap + from = heap + to \/ disjoint (heap + from) (n * len) (heap + to) (n * len).
Proof using Hrange. destruct (br_apart _ _ _ _ _ _ Hrange); [left; lia|by right]. Qed.

Hypothesis Hprog : forall i a, relocates heap len (all_argument i a) (prog (all_argument i a)) (dest i).
Hypothesis Hdest : forall i t, 0 <= t < n -> 0 <= dest i t < n.

Lemma all_programs : forall k rg ci, in_set ranks k rg ci -> let i := dpu_number k rg ci in
  relocates heap len (arguments i) (prog (arguments i)) (dest i).
Proof using Hset Hprog.
  intros k r ci Hin i. rewrite (filled axis_len comm_axis) by by apply (number_in_range store fuel ranks axis_len comm_axis Hset). apply Hprog.
Qed.

Lemma all_bytes m m' k rg ci : launched ranks prog (group_order ranks) arguments m m' -> in_set ranks k rg ci ->
  (forall t x, 0 <= t < n -> 0 <= x < len ->
    mram_byte m' k rg ci (heap + to + dest (dpu_number k rg ci) t * len + x) = mram_byte m k rg ci (heap + from + t * len + x)) /\
  (forall x, fits 26 x -> x < heap + to \/ heap + to + n * len <= x -> mram_byte m' k rg ci x = mram_byte m k rg ci x).
Proof using All.
  intros Hl Hin. destruct (br_target _ _ _ _ _ _ Hrange) as (Ht0 & _ & Ht1). destruct (br_heap _ _ _ _ _ _ Hrange) as [Hh _].
  pose proof (launched_moves ranks _ heap len arguments dest (ws_nodup _ _ _ _ Hset) all_programs m m' k rg ci Hl Hin) as H. cbv zeta in H.
  rewrite (filled axis_len comm_axis) in H by by apply (number_in_range store fuel ranks axis_len comm_axis Hset).
  cbn [all_argument set_num_comm_rg set_argument da_num_comm_dpu da_start_offset da_target_offset] in H. destruct H as [Hm Ho]. split; [|exact Ho].
  intros t x Ht Hx. apply Hm; [done|done|]. pose proof (Hdest (dpu_number k rg ci) t Ht) as Hd. unfold fits. nia.
Qed.

Lemma all_outside m m' k rg ci x : launched ranks prog (group_order ranks) arguments m m' -> 0 <= rg < 8 -> 0 <= ci < 8 -> fits 26 x ->
  x < heap + to \/ heap + to + n * len <= x -> mram_byte m' k rg ci x = mram_byte m k rg ci x.
Proof using All.
  intros Hl Hr Hc Hf Hx. destruct (decide (0 <= k < lenz ranks)) as [Hk|Hk].
  - by apply (all_bytes m m' k rg ci Hl (conj Hk (conj Hr Hc))).
  - unfold mram_byte. by rewrite (launched_elsewhere ranks _ _ _ _ _ Hl Hk).
Qed.

(** A number of a block is found in the block where it went. *)
Lemma all_number m m' k rg ci t l : launched ranks prog (group_order ranks) arguments m m' -> in_set ranks k rg ci ->
  0 <= t < n -> 0 <= l -> lane_bytes size * l < len ->
  mram_number (lane_bytes size) m' k rg ci (heap + to + dest (dpu_number k rg ci) t * len + lane_bytes size * l) =
  mram_number (lane_bytes size) m k rg ci (heap + from + t * len + lane_bytes size * l).
Proof using All.
  intros Hl Hin Ht H0 Hx. destruct (all_bytes m m' k rg ci Hl Hin) as [Hb _]. destruct (br_len _ _ _ _ _ _ Hrange) as [_ Hl8].
  apply (moved_number size m m' k rg ci _ _ len l); try done. intros x Hx'. by apply Hb.
Qed.
End Relocation.

(** ** The steps of the call *)

Section Result.
Context `{D : DpuRuntime} `{!DpuRuntimeSpec D} `{R : Rotations} `{!RotationsSpec R} `{I : Intrinsics} `{!IntrinsicsSpec I} `{V : Combinations} `{!CombinationsSpec V}.
Variables (store : rank_ptr -> rank) (fuel : nat) (heap : Z) (allocated : Z -> dpu_arguments_comm_t).
Variables (ranks : list rank_ptr) (axis_len comm_axis : list Z) (len start target buf size reduce_type : Z).
Notation full := (zip axis_len comm_axis).
Notation ax := (group_axes axis_len comm_axis).
Notation comm_type := (comm_type_of comm_axis).
Notation P := (nb_passes comm_type).
Notation n := (size_on 1 ax * P).
Notation nr_dpus := (8 * nb_groups ax).
Notation sizeof_T := (sizeof_program size).
Notation rg_count := (num_comm_rg_of full 1 1).
Hypothesis Hcube : hypercube axis_len comm_axis.
Hypothesis Hset : whole_set store fuel ranks nr_dpus.
Hypothesis Hrange : combine_call_range heap len n start target buf size.

Notation set_before := (all_argument axis_len comm_axis len start start rg_count).
Notation set_after := (all_argument axis_len comm_axis len (start + buf) target rg_count).
Definition arguments_first : Z -> dpu_arguments_comm_t :=
  if comm_type =? 0 then fill_arguments nr_dpus set_before allocated else allocated.
Definition program_last : dpu_arguments_comm_t -> Z -> list action :=
  if comm_type =? 0 then data_relocate_counterclockwise sizeof_T heap else data_relocate_incremental_counterclockwise sizeof_T heap.
(** Where the blocks go. *)
Definition dest_first (i t : Z) : Z := t / 8 * 8 + (t - i) mod 8.
Definition dest_last (i t : Z) : Z := if comm_type =? 0 then t / 8 * 8 + (t + i) mod 8 else t.

Lemma whole_groups : comm_type = 0 -> n mod 8 = 0.
Proof using Type. clear. intros ->. change (nb_passes 0) with 8. apply Z.mod_mul. lia. Qed.

Lemma first_moves : comm_type = 0 -> forall i a,
  relocates heap len (set_before i a) (data_relocate_clockwise sizeof_T heap (set_before i a)) (dest_first i).
Proof using Hcube Hrange.
  clear allocated Hset. intros Ht i a. pose proof (whole_groups Ht) as Hn8. pose proof (ca_source _ _ _ _ _ _ _ Hrange) as Hs.
  pose proof (clockwise_moves sizeof_T heap len _ (all_argument_range heap axis_len comm_axis len start start size rg_count Hcube Hs i a)) as H.
  cbn [all_argument set_num_comm_rg set_argument da_num_comm_dpu da_start_offset da_target_offset] in H.
  specialize (H (or_introl Hn8) (or_introl eq_refl)). unfold placed, clockwise_group, rotated in H.
  cbn [all_argument set_num_comm_rg set_argument da_num_comm_dpu da_each_dpu da_no_rotate] in H. rewrite Hn8 in H. exact H.
Qed.

Lemma last_moves i a : relocates heap len (set_after i a) (program_last (set_after i a)) (dest_last i).
Proof using Hcube Hrange.
  clear allocated Hset. pose proof (ca_target _ _ _ _ _ _ _ Hrange) as Hs. pose proof (br_count _ _ _ _ _ _ Hs) as Hcount.
  pose proof (all_apart _ _ _ _ _ _ _ Hs) as Hap.
  pose proof (all_argument_range heap axis_len comm_axis len (start + buf) target size rg_count Hcube Hs i a) as Hr.
  unfold program_last, dest_last. destruct (Z.eqb_spec comm_type 0) as [Ht|Ht].
  - pose proof (counterclockwise_moves sizeof_T heap len _ Hr Hcount Hap) as H. unfold placed, clockwise_group, rotated in H.
    cbn [all_argument set_num_comm_rg set_argument da_num_comm_dpu da_each_dpu da_no_rotate] in H. rewrite (whole_groups Ht) in H. exact H.
  - pose proof (incremental_moves sizeof_T heap len _ Hr Hcount Hap) as [H1 H2]. split; [exact H1|].
    intros D' tr s HD Htr Hc. destruct (H2 D' tr s HD Htr Hc) as [[H3 H4] H5]. split; [|exact H5]. split; [|exact H4].
    intros t x Htn Hx. rewrite <- H3 by done. do 3 f_equal. unfold placed.
    cbn [all_argument set_num_comm_rg set_argument da_each_dpu da_no_rotate]. unfold rotated. set (g := clockwise_group _).
    assert (0 < g) as Hg by (by apply (whole_group (set_after i a))). rewrite <- Z.add_sub_assoc.
    replace (i - i mod g) with (i / g * g) by (clear -Hg; Z.div_mod_to_equations; lia). rewrite Z.mod_add by lia. clear -Hg. Z.div_mod_to_equations. lia.
Qed.

Lemma first_dest_range : comm_type = 0 -> forall i t, 0 <= t < n -> 0 <= dest_first i t < n.
Proof using Type. clear. intros Ht i t Htn. exact (rotated_range 8 (fun t => t - i) t n ltac:(lia) (whole_groups Ht) Htn). Qed.

Lemma last_dest_range i t : 0 <= t < n -> 0 <= dest_last i t < n.
Proof using Type.
  clear. intros Htn. unfold dest_last. destruct (Z.eqb_spec comm_type 0) as [Ht|]; [|done].
  exact (rotated_range 8 (fun t => t + i) t n ltac:(lia) (whole_groups Ht) Htn).
Qed.

Variable comm : list Z.
Hypothesis Hcomm : comm_axis_of (lenz axis_len) comm = comm_axis.
Notation manager := (init_hypercube_manager (DPU_SET_RANKS ranks) (lenz axis_len) axis_len).
Notation the_call := (pidcomm_all_reduce store fuel heap allocated manager comm (n * len) start target buf size reduce_type).
Notation first := (launched ranks (data_relocate_clockwise sizeof_T heap) (group_order ranks) arguments_first).
Notation last := (launched ranks program_last (group_order ranks) (fill_arguments nr_dpus set_after arguments_first)).
Notation combined := (all_reduce axis_len comm_axis start start len comm_type buf size reduce_type).

Lemma relocations : relocation_before heap axis_len comm_axis rg_count (n * len) start size =
    (if comm_type =? 0 then Some (data_relocate_clockwise sizeof_T heap, set_before) else None) /\
  relocation_after heap axis_len comm_axis rg_count (n * len) start target buf size = (program_last, set_after).
Proof using Hcube Hrange.
  destruct (num_comm_dpu_eq axis_len comm_axis Hcube) as (Hn & _). pose proof (num_positive axis_len comm_axis Hcube) as Hpos.
  destruct (ca_target _ _ _ _ _ _ _ Hrange) as [_ (Hh & _) (Hl & _) (Hb0 & _ & Hb) _ _ _].
  unfold relocation_before, relocation_after, program_last. rewrite no_modified_case, Hn by done.
  assert (u32 (start + buf) = start + buf) as -> by (apply u32_id; unfold fits; assert (0 < n * len) by nia; lia).
  destruct (first_axis axis_len comm_axis Hcube) as (y & c & ys & cs & Hl' & _ & Hy & _).
  assert (axis_len.[0] <? 8 = false) as -> by (apply Z.ltb_ge; rewrite Hl'; change ((8 * y :: ys).[0]) with (8 * y); lia).
  cbn [andb]. by destruct (comm_type =? 0).
Qed.

Lemma combine_steps m m' : the_call m m' <-> exists m1 m2, (if comm_type =? 0 then first m m1 else m1 = m) /\ combined m1 m2 /\ last m2 m'.
Proof using Hcube Hset Hrange Hcomm.
  pose proof (num_positive axis_len comm_axis Hcube) as Hpos. destruct (num_comm_dpu_eq axis_len comm_axis Hcube) as (Hn & _).
  pose proof (get_nr_dpus_full _ _ _ _ Hset) as Hnr. destruct relocations as [Hb Ha]. destruct Hset as [Hnd Hne Hct Ht He (Hsz & Hsz32 & Hfuel)].
  pose proof (fun c => groups_in_order store ranks ltac:(lia) Ht c fuel Hne He ltac:(lia)) as Horder.
  unfold pidcomm_all_reduce. cbn [ranks_of_set init_hypercube_manager hm_dpu_set hm_axis_len hm_dimension]. cbv zeta. rewrite Hcomm, Hn.
  replace (n * len / n) with len by (rewrite Z.mul_comm, Z.div_mul; lia). rewrite (num_comm_rg_bounded axis_len comm_axis Hcube). unfold arguments_first. split.
  - intros (nr & order & rg & m1 & m2 & Hnr' & Hord & Hrg & Hpre & Hx & Hpost). rewrite Hnr in Hnr'. injection Hnr' as <-.
    rewrite Horder in Hord. injection Hord as <-. injection Hrg as <-. rewrite Hb, Ha in *. exists m1, m2. by destruct (comm_type =? 0).
  - intros (m1 & m2 & Hpre & Hx & Hpost). exists nr_dpus, (group_order ranks), rg_count, m1, m2. rewrite Horder, Hb, Ha. by destruct (comm_type =? 0).
Qed.

Lemma combine_step m1 m2 : bytes m1 -> combined m1 m2 -> exists lines,
  Permutation lines (map place_write (all_stores axis_len comm_axis start start len comm_type buf size reduce_type m1)) /\
  m2 = write_lines m1 lines /\ bytes m2.
Proof using Hcube Hrange RotationsSpec0 IntrinsicsSpec0 CombinationsSpec0.
  intros Hm (threads & tr & regs & Hhw & Htr & ->). pose proof (ca_size _ _ _ _ _ _ _ Hrange) as Hs. pose proof (ca_exchange _ _ _ _ _ _ _ Hrange) as Hx.
  destruct (hw_all_reduce_threads _ _ _ _ _ _ _ _ _ threads tr regs m1 Hcube (type_eq comm_axis) Hs Hx Hhw Htr Hm) as (lines & Hlines & Hrun).
  exists lines. rewrite Hrun. split; [done|]. split; [done|]. apply write_lines_bytes; [done|].
  by apply (writes_ok _ (stores_ok axis_len comm_axis start start len comm_type buf size reduce_type Hcube (type_eq comm_axis) Hs Hx m1 Hm) lines).
Qed.

Lemma combine_some m1 : exists m2, combined m1 m2.
Proof using Hcube.
  destruct (first_axis axis_len comm_axis Hcube) as (y & c & ys & cs & Hl & _ & Hy & _).
  set (threads := map (thread_all_reduce_rns axis_len comm_axis start start len comm_type buf size reduce_type thread_num) (seqZ 0 thread_num)).
  destruct (interleaves_exists threads) as [tr Htr].
  eexists. exists threads, tr, (fun _ _ => []). split; [|split; [exact Htr|reflexivity]]. unfold hw_all_reduce_rns. rewrite Hl at 1.
  change ((8 * y :: ys).[0]) with (8 * y). by rewrite (proj2 (Z.leb_le _ _)) by lia.
Qed.

Lemma first_programs : comm_type = 0 -> forall k rg ci, in_set ranks k rg ci -> let i := dpu_number k rg ci in
  relocates heap len (arguments_first i) (data_relocate_clockwise sizeof_T heap (arguments_first i)) (dest_first i).
Proof using Hcube Hrange Hset.
  intros Ht. unfold arguments_first. rewrite (proj2 (Z.eqb_eq _ _) Ht).
  apply (all_programs store fuel heap ranks axis_len comm_axis len start start rg_count allocated _ _ Hset). by apply first_moves.
Qed.

Lemma first_bytes m m1 : (if comm_type =? 0 then first m m1 else m1 = m) -> bytes m -> bytes m1.
Proof using Type. clear. destruct (comm_type =? 0); [by intros [? _]|by intros ->]. Qed.

(** A call always ends. *)
Lemma combine_ends m : bytes m -> exists m', the_call m m'.
Proof using All.
  intros Hm. pose proof (ws_nodup _ _ _ _ Hset) as Hnd.
  assert (exists m1, if comm_type =? 0 then first m m1 else m1 = m) as [m1 H1].
  { destruct (Z.eqb_spec comm_type 0) as [Ht|]; [|by exists m]. exact (launched_exists ranks _ heap len _ dest_first Hnd (first_programs Ht) m Hm). }
  destruct (combine_some m1) as [m2 H2]. destruct (combine_step m1 m2 (first_bytes m m1 H1 Hm) H2) as (_ & _ & _ & Hb2).
  destruct (launched_exists ranks _ heap len _ dest_last Hnd
    (all_programs store fuel heap ranks axis_len comm_axis len (start + buf) target rg_count arguments_first _ _ Hset last_moves) m2 Hb2) as [m' H3].
  exists m'. apply combine_steps. by exists m1, m2.
Qed.

(** *** The numbers *)

Lemma block_length : heap = 1024 * 1024 /\ 0 < len /\ len mod 8 = 0.
Proof using Hrange. by destruct Hrange as [H _ [_ _ [H1 H2] _ _ _ _] _ _]. Qed.

Lemma first_number m m1 X t l : (if comm_type =? 0 then first m m1 else m1 = m) -> coordinates full X -> 0 <= t < n ->
  0 <= l -> lane_bytes size * l < len -> let p := group_number full X in let g := group_number ax (group_of X) in
  mram_number (lane_bytes size) m1 (g / 8) (g mod 8) (interface_of X)
    (heap + start + (if comm_type =? 0 then dest_first p t else t) * len + lane_bytes size * l) =
  mram_number (lane_bytes size) m (p / 64) (p mod 64 / 8) (p mod 8) (heap + start + t * len + lane_bytes size * l).
Proof using Hcube Hset Hrange DpuRuntimeSpec0.
  intros H1 HX Ht H0 Hlen p g. destruct (place_of store fuel ranks axis_len comm_axis Hcube Hset X HX) as (Hp1 & Hp2 & Hp3 & Hin & Hnum).
  fold p g in Hp1, Hp2, Hp3, Hin, Hnum. rewrite Hp1, Hp2, Hp3. unfold arguments_first in H1.
  destruct (Z.eqb_spec comm_type 0) as [Htp|]; [|by rewrite H1]. rewrite <- Hnum.
  by apply (all_number store fuel heap ranks axis_len comm_axis len start start size rg_count allocated _ dest_first Hcube Hset
    (ca_source _ _ _ _ _ _ _ Hrange) (first_moves Htp) (first_dest_range Htp)).
Qed.

(** The buffer block that goes to the block b of the target. *)
Definition block_before (ci b : Z) : Z := if comm_type =? 0 then b / 8 * 8 + (b - ci) mod 8 else b.
Lemma block_before_spec q ci b : ci = q mod 8 -> 0 <= b < n -> 0 <= block_before ci b < n /\ dest_last q (block_before ci b) = b.
Proof using Type.
  clear. intros -> Hb. unfold block_before, dest_last. destruct (Z.eqb_spec comm_type 0) as [Ht|]; [|done]. pose proof (whole_groups Ht). split.
  - exact (rotated_range 8 (fun b => b - q mod 8) b n ltac:(lia) (whole_groups Ht) Hb).
  - clear. Z.div_mod_to_equations. lia.
Qed.

(** The position among the DPUs of the k-th interface of the group j, that the block b is taken from. *)
Definition position_before (b j k : Z) : Z := if comm_type =? 0 then 8 * j + (b - k) mod 8 else j.

Lemma combined_term m m1 Y b j k l : (if comm_type =? 0 then first m m1 else m1 = m) -> coordinates full Y -> 0 <= b < n ->
  0 <= j < size_on 1 ax -> 0 <= k < P -> 0 <= l -> lane_bytes size * l < len ->
  let b0 := block_before (interface_of Y) b in let g := group_number ax (unrank ax (index_on 0 ax (group_of Y)) j) in
  let p := group_number full (unrank full (index_on 0 full Y) (position_before b j k)) in
  mram_number (lane_bytes size) m1 (g / 8) (g mod 8) ((interface_of Y + b0 mod P - k) mod 8)
    (start + 1024 * 1024 + (b0 / P * P + k) * len + lane_bytes size * l) =
  mram_number (lane_bytes size) m (p / 64) (p mod 64 / 8) (p mod 8) (heap + start + b * len + lane_bytes size * l).
Proof using Hcube Hset Hrange DpuRuntimeSpec0.
  intros H1 HY Hb Hj Hk H0 Hlen b0 g p. destruct (full_axes axis_len comm_axis Hcube) as [Hfull Hsize].
  destruct (split_coordinates axis_len comm_axis Hcube Y HY) as (HgY & HiY & _ & HsY). pose proof (index_on_range 0 full Y HY) as Hx0.
  assert (0 <= position_before b j k < n) as Ht.
  { unfold position_before. destruct (passes_pos comm_type) as [_ [[-> ->]|[Ht ->]]]; [|by rewrite (proj2 (Z.eqb_neq _ _) Ht), Z.mul_1_r].
    change (0 =? 0) with true. cbn iota. pose proof (Z.mod_pos_bound (b - k) 8 ltac:(lia)). lia. }
  destruct (unrank_spec full (index_on 0 full Y) (position_before b j k) Hfull Hx0 ltac:(lia)) as (HX & HX0 & HX1).
  subst p. set (X := unrank full (index_on 0 full Y) (position_before b j k)) in *. clearbody X.
  destruct (split_coordinates axis_len comm_axis Hcube X HX) as (HgX & HiX & Hp & HsX).
  assert (interface_of X = (interface_of Y + b0 mod P - k) mod 8 /\ index_on 1 ax (group_of X) = j /\
    index_on 0 ax (group_of X) = index_on 0 ax (group_of Y) /\ b0 / P * P + k = if comm_type =? 0 then dest_first (group_number full X) b else b)
    as (Hi & HA & HN & Hd).
  { unfold b0, block_before, position_before, dest_first in *. destruct (passes_pos comm_type) as [_ [[Htp HP]|[Htp HP]]]; rewrite HP in *.
    - rewrite (proj2 (Z.eqb_eq _ _) Htp) in *. clear -HsX HsY HX0 HX1 HiX HiY Hp Hk. destruct HsX as [A1 A0], HsY as [B1 B0].
      set (u := index_on 1 ax (group_of X)) in *. set (u0 := index_on 0 ax (group_of X)) in *. clearbody u u0. rewrite A1 in HX1.
      assert (u = j /\ interface_of X = (b - k) mod 8) as [-> Hi] by (Z.div_mod_to_equations; lia).
      rewrite Hp, Hi. set (G := group_number ax (group_of X)). clearbody G. clear -HX0 A0 B0 HiY Hk. split_and!; [|lia|lia|]; Z.div_mod_to_equations; lia.
    - rewrite (proj2 (Z.eqb_neq _ _) Htp) in *. assert (k = 0) as -> by lia. rewrite Z.mod_1_r, Z.div_1_r.
      clear -HsX HsY HX0 HX1 HiX HiY. split_and!; Z.div_mod_to_equations; lia. }
  pose proof (first_number m m1 X b l H1 HX Hb H0 Hlen) as H. cbv zeta in H. rewrite <- Hd, Hi in H. unfold g. rewrite <- HA, <- HN, unrank_of by (done || apply (hc_axes _ _ Hcube)).
  destruct block_length as [Hh _]. etrans; [|exact H]. f_equal. lia.
Qed.

Lemma combine_numbers m m' Y l : bytes m -> the_call m m' -> coordinates full Y -> 0 <= l -> lane_bytes size * l < n * len ->
  let q := group_number full Y in let z := lane_bytes size in
  mram_number z m' (q / 64) (q mod 64 / 8) (q mod 8) (heap + target + z * l) =
  reduction reduce_type z (map (fun t => let p := group_number full (unrank full (index_on 0 full Y) t) in
    mram_number z m (p / 64) (p mod 64 / 8) (p mod 8) (heap + start + z * l)) (seqZ 0 n)).
Proof using All.
  intros Hm Hcall HY H0 Hlen q z. apply combine_steps in Hcall as (m1 & m2 & H1 & H2 & H3). pose proof (first_bytes m m1 H1 Hm) as Hb1.
  destruct (combine_step m1 m2 Hb1 H2) as (lines & Hlines & Hm2 & _). destruct block_length as (Hh & Hl0 & Hl8).
  destruct (place_of store fuel ranks axis_len comm_axis Hcube Hset Y HY) as (Hq1 & Hq2 & Hq3 & Hin & Hnum).
  fold q in Hq1, Hq2, Hq3, Hnum. rewrite Hq1, Hq2, Hq3.
  destruct (number_in_block size len n l Hl0 Hl8 H0 Hlen) as (b & l' & Hb & Hl' & Hx & Hzl). fold z in Hx, Hzl.
  destruct (block_before_spec q (interface_of Y) b (eq_sym Hq3) Hb) as [Hb0 Hdest]. set (b0 := block_before (interface_of Y) b) in *.
  pose proof (all_number store fuel heap ranks axis_len comm_axis len (start + buf) target size rg_count arguments_first _ dest_last Hcube Hset
    (ca_target _ _ _ _ _ _ _ Hrange) last_moves last_dest_range m2 m' _ _ _ b0 l' H3 Hin Hb0 Hl' Hx) as Hlast.
  rewrite Hnum, Hdest in Hlast. fold z in Hlast. rewrite Hzl, !Z.add_assoc. etrans; [exact Hlast|].
  destruct (split_coordinates axis_len comm_axis Hcube Y HY) as (HgY & HiY & _).
  pose proof (combined_numbers axis_len comm_axis start start len comm_type buf size reduce_type Hcube (type_eq comm_axis)
    (ca_size _ _ _ _ _ _ _ Hrange) (ca_exchange _ _ _ _ _ _ _ Hrange) lines m1 Hlines Hb1 (group_of Y) b0 (interface_of Y) l' HgY Hb0 HiY Hl' Hx) as Hsum.
  rewrite <- Hm2 in Hsum. fold z in Hsum. etrans; [|etrans; [exact Hsum|]]; [f_equal; lia|].
  set (F t := mram_number z m (group_number full (unrank full (index_on 0 full Y) t) / 64) (group_number full (unrank full (index_on 0 full Y) t) mod 64 / 8)
    (group_number full (unrank full (index_on 0 full Y) t) mod 8) (heap + start + b * len + z * l')).
  transitivity (reduction reduce_type z (concat (map (fun j => map (fun k => F (position_before b j k)) (seqZ 0 P)) (seqZ 0 (size_on 1 ax))))).
  - do 2 f_equal. apply map_ext_in. intros j Hj%list_elem_of_In%elem_of_seqZ. apply map_ext_in. intros k Hk%list_elem_of_In%elem_of_seqZ.
    apply (combined_term m m1 Y b j k l'); (done || lia).
  - transitivity (reduction reduce_type z (map F (seqZ 0 n))); [|by f_equal; apply map_ext; intros t; unfold F; f_equal; lia].
    apply reduction_permutation. pose proof (size_on_pos 1 ax (hc_axes _ _ Hcube)) as HA. unfold position_before.
    destruct (passes_pos comm_type) as [_ [[Ht HP]|[Ht HP]]]; rewrite HP.
    + rewrite (proj2 (Z.eqb_eq _ _) Ht). apply groups_reordered. lia.
    + rewrite (proj2 (Z.eqb_neq _ _) Ht), Z.mul_1_r, seqZ_1. cbn [map]. apply reflexive_eq.
      clear. induction (seqZ 0 (size_on 1 ax)) as [|j js IH]; [done|]. cbn [map concat app]. by rewrite IH.
Qed.

Lemma combine_others m m' k rg ci x : bytes m -> the_call m m' -> 0 <= rg < 8 -> 0 <= ci < 8 -> fits 26 x ->
  (comm_type = 0 -> x < heap + start \/ heap + start + n * len <= x) ->
  x < heap + (start + buf) \/ heap + (start + buf) + n * len <= x -> x < heap + target \/ heap + target + n * len <= x ->
  mram_byte m' k rg ci x = mram_byte m k rg ci x.
Proof using All.
  intros Hm Hcall Hr Hc Hf HS HB HT. apply combine_steps in Hcall as (m1 & m2 & H1 & H2 & H3). pose proof (first_bytes m m1 H1 Hm) as Hb1.
  destruct (combine_step m1 m2 Hb1 H2) as (lines & Hlines & -> & _).
  rewrite (all_outside store fuel heap ranks axis_len comm_axis len (start + buf) target size rg_count arguments_first _ dest_last Hcube Hset
    (ca_target _ _ _ _ _ _ _ Hrange) last_moves last_dest_range _ m' k rg ci x H3) by done.
  destruct block_length as [Hh _].
  rewrite (combined_others axis_len comm_axis start start len comm_type buf size reduce_type Hcube (type_eq comm_axis)
    (ca_size _ _ _ _ _ _ _ Hrange) (ca_exchange _ _ _ _ _ _ _ Hrange) lines m1 Hlines Hb1 k rg ci x) by (done || lia).
  unfold arguments_first in H1. destruct (Z.eqb_spec comm_type 0) as [Ht|]; [|by rewrite H1].
  by apply (all_outside store fuel heap ranks axis_len comm_axis len start start size rg_count allocated _ dest_first Hcube Hset
    (ca_source _ _ _ _ _ _ _ Hrange) (first_moves Ht) (first_dest_range Ht)); [..|apply HS].
Qed.
End Result.

(** ** Properties *)

(** C3: an all-reduce exchange of a set of whole ranks, as a hypercube of DPUs: a
    call always ends, whatever the interleavings of the tasklets of each DPU and
    of the accesses of the 32 threads of the host; every DPU Y has then at the
    target, number by number, the combination of the areas of all the DPUs that
    only differ from Y on the axes of the exchange: their sums modulo the width of
    the numbers, or their maxima and zero. No other byte of any MRAM changes, but
    in the buffer, and at the source in an exchange along the first axis. *)
Theorem pidcomm_all_reduce_combines `{D : DpuRuntime} `{!DpuRuntimeSpec D} `{R : Rotations} `{!RotationsSpec R}
    `{I : Intrinsics} `{!IntrinsicsSpec I} `{V : Combinations} `{!CombinationsSpec V}
    store fuel heap allocated ranks axis_len comm len start target buf size reduce_type m :
  let comm_axis := comm_axis_of (lenz axis_len) comm in let comm_type := comm_type_of comm_axis in
  let ax := group_axes axis_len comm_axis in let n := size_on 1 ax * nb_passes comm_type in
  hypercube axis_len comm_axis -> whole_set store fuel ranks (8 * nb_groups ax) ->
  combine_call_range heap len n start target buf size -> bytes m ->
  let call := pidcomm_all_reduce store fuel heap allocated
    (init_hypercube_manager (DPU_SET_RANKS ranks) (lenz axis_len) axis_len) comm (n * len) start target buf size reduce_type in
  let dpus := zip axis_len comm_axis in let width := lane_bytes size in
  (exists m', call m m') /\ forall m', call m m' ->
  (forall Y l, coordinates dpus Y -> 0 <= l -> width * l < n * len ->
    let q := group_number dpus Y in
    mram_number width m' (q / 64) (q mod 64 / 8) (q mod 8) (heap + target + width * l) =
    reduction reduce_type width (map (fun t => let p := group_number dpus (unrank dpus (index_on 0 dpus Y) t) in
      mram_number width m (p / 64) (p mod 64 / 8) (p mod 8) (heap + start + width * l)) (seqZ 0 n))) /\
  (forall k rg ci x, 0 <= rg < 8 -> 0 <= ci < 8 -> fits 26 x ->
    (comm_type = 0 -> x < heap + start \/ heap + start + n * len <= x) ->
    x < heap + (start + buf) \/ heap + (start + buf) + n * len <= x -> x < heap + target \/ heap + target + n * len <= x ->
    mram_byte m' k rg ci x = mram_byte m k rg ci x).
Proof.
  intros comm_axis comm_type ax n Hcube Hset Hrange Hm call dpus width. split.
  - by apply (combine_ends store fuel heap allocated ranks axis_len comm_axis len start target buf size reduce_type Hcube Hset Hrange comm eq_refl).
  - intros m' Hcall. split.
    + intros Y l HY H0 Hl.
      by apply (combine_numbers store fuel heap allocated ranks axis_len comm_axis len start target buf size reduce_type Hcube Hset Hrange comm eq_refl).
    + intros k rg ci x Hr Hc Hf HS HB HT.
      by apply (combine_others store fuel heap allocated ranks axis_len comm_axis len start target buf size reduce_type Hcube Hset Hrange comm eq_refl m).
Qed.

Lemma sample_combine_call : combine_call_range (1024 * 1024) 64 16 0 8192 4096 4.
Proof.
  split; [done|done| |exact sample_combine_range|].
  - split; try done; [by eapply bool_decide_unpack; vm_compute|by left|by left].
  - split; try done; [by eapply bool_decide_unpack; vm_compute|right; by left|by left].
Qed.

Lemma pidcomm_all_reduce_combines_witness : exists m',
  @pidcomm_all_reduce documented_runtime documented_rotations computed_intrinsics documented_combinations sample_store 200 (1024 * 1024) (fun _ => sample_args)
    (init_hypercube_manager (DPU_SET_RANKS [O; 1%nat]) 2 [16; 8]) [49; 48] 1024 0 8192 4096 4 1 sample_regions m' /\
  mram_number 4 m' 0 1 5 (1024 * 1024 + 8192 + 13 * 64 + 12) =
  reduction 1 4 (map (fun t => let p := group_number [(16, 1); (8, 0)] (unrank [(16, 1); (8, 0)] 0 t) in
    mram_number 4 sample_regions (p / 64) (p mod 64 / 8) (p mod 8) (1024 * 1024 + 13 * 64 + 12)) (seqZ 0 16)).
Proof.
  destruct (@pidcomm_all_reduce_combines documented_runtime documented_runtime_spec documented_rotations documented_rotations_spec
    computed_intrinsics computed_intrinsics_spec documented_combinations documented_combinations_spec
    sample_store 200 (1024 * 1024) (fun _ => sample_args) [O; 1%nat] [16; 8] [49; 48] 64 0 8192 4096 4 1 sample_regions
    sample_hypercube sample_whole_set sample_combine_call sample_bytes) as [[m' Hm'] Hall].
  exists m'. split; [exact Hm'|]. destruct (Hall m' Hm') as [H _].
  exact (H [13; 0] 211 ltac:(repeat constructor; cbn; lia) ltac:(lia) ltac:(vm_compute; reflexivity)).
Defined.
